(* ===== verification/_CoqProject ===== *)
-Q . S2P
Prelude.v
Store.v
GoStd.v
Platform.v
External.v
AuthModel.v
Passwords.v
Interceptor.v
Vertical.v
Validator.v
ValidatorProps.v
LedgerModel.v
LedgerQueries.v
LedgerPostgres.v
Ledger.v
LedgerHandler.v
LedgerInv.v
LedgerProps.v
LedgerJournal.v
LedgerReports.v
ExpenseModel.v
ExpenseQueries.v
ExpensePostgres.v
Expense.v
ExpenseHandler.v
ExpenseInv.v
ExpenseProps.v
ExpenseRpcs.v
ExpenseReads.v
Logic.v
Budget.v
BudgetHandler.v
BudgetProps.v
BudgetCalls.v
Project.v
ProjectHandler.v
ProjectCalls.v
Inventory.v
InventoryHandler.v
InventoryProps.v
InventoryCalls.v
Document.v
DocumentHandler.v
DocumentProps.v
DocumentCalls.v
RegistrationModel.v
RegistrationQueries.v
RegistrationStore.v
Registration.v
RegistrationProps.v
RegistrationPipeline.v
TenancyModel.v
AuthTokens.v
TenancyQueries.v
TenancyPostgres.v
Tenancy.v
TenancyHandler.v
TenancySteps.v
TenancyProps.v
TenancyCalls.v
AccountQueries.v
AccountPostgres.v
AuthProviders.v
Accounts.v
AccountHandler.v
AccountSteps.v
AccountReach.v
AccountRoles.v
Sessions.v
AccountCreation.v
AccountExamples.v
BillingModel.v
BillingQueries.v
BillingPostgres.v
Billing.v
BillingRelay.v
BillingHandler.v
BillingSteps.v
BillingOutbox.v
BillingSubs.v
