(* ===== verification/Prelude.v ===== *)
(** * Thittam: a verification of its ledger, expenses, budgets, projects, inventory, documents, billing, tenants and accounts

    Thittam is a set of Go services for production accounting.  A gRPC request
    goes through interceptors (identity, vertical configuration), a handler that
    checks tenant and permission and parses the message, a service method with
    the rules, and a repository over SQL statements.  The development models that
    path for eight services, from the RPC down to the rows with their constraints,
    the configuration they read, the life of a tenant from its registration to its
    purge, and the events that carry a suspension from one service to another.  Names follow the
    source: [Ledger.PostJournalEntry] is services/ledger/service.go's method,
    [LedgerHandler.PostJournalEntry] the handler's, [LedgerPostgres] and
    [LedgerQueries] hold the repository's and the statement's.

    ** How programs are modelled

    [Prelude] has a state and error monad [M S E A]: a computation takes a
    [World] (the shared state, the streams of UUIDs, clock readings and faults
    of calls to other processes, what the other requests do before each of this
    request's calls, and a log of its own state changes) and returns a result or
    an error with the world it leaves.  Every statement is one atomic step, may
    fail because the database is down, and between two of them the other requests
    may change the state in any way the relation of a theorem allows: [steps R]
    says that each own step stays within [R] while the others do, [evals]
    describes a run that nobody disturbs.  [Store] is the state of a service: database
    and published events; publishing is best effort.  A transaction is
    modelled as one step, since nothing it writes is seen before it commits;
    [BillingPostgres.MoveOutboxToDead], whose second statement can delete a row that
    was committed after the first, is two.  That the answer to a commit is lost is
    modelled for the transactions of billing and iam and for the stream; elsewhere a
    statement or transaction that fails has had no effect.
    [GoStd] has the standard library functions used (byte strings with runes,
    trimming, formatting, the calendar), [External] the third-party ones as a
    class of operations ([External]) with the documented laws ([ExternalLaws]):
    decimals are exact and [NUMERIC(14,2)] rounds to two places; a concrete
    instance, [ref_external], satisfies the laws and evaluates the witnesses.
    [Platform] has the rows of the tenants and users tables, the envelopes of
    pkg/events and pkg/jetstream's publisher: the stream may store a message and lose
    the acknowledgement.  [Logic] has two ways to reason about a request: what its own
    statements do beside others, and weakest preconditions for one that runs alone.
    [Interceptor] has the guards of pkg/interceptor, [Vertical] the configuration
    types, lookups and interceptor of pkg/vertical.

    ** The general ledger (services/ledger)

    [LedgerModel] (models.go, errors.go, db/models.go), [LedgerQueries] (db/queries.sql.go with the constraints of
    migrations/ledger), [LedgerPostgres] (db/postgres.go), [Ledger] (service.go,
    bank_account.go, party.go) and [LedgerHandler] (handler.go, all twenty RPCs).
    [LedgerInv] gives the relation every statement stays within and the table
    invariant; [LedgerProps] lifts both to all RPCs and reachable states: entries
    past draft balance, the books are append-only, a caller without permission
    changes nothing, a request of one tenant leaves what another owns as it
    was; it starts with a concrete service for the witnesses.  [LedgerJournal]:
    posting refines a specification on the tables alone, and what creating and
    voiding an entry record.  [LedgerReports]: the monthly report is exact, and where the reports
    depart from their comments; account codes, entry numbers, the errors a caller sees,
    party validation.

    ** Expense tracking (services/expense)

    [ExpenseModel], [ExpenseQueries], [ExpensePostgres], [Expense] and
    [ExpenseHandler] follow the same files of services/expense; all fifteen RPCs
    are modelled behind the vertical interceptor.  [ExpenseInv] and
    [ExpenseProps]: the relation of the statements, reachable states and their
    invariants (no purchase order approved above the dual-approval threshold, a
    settled advance returned a part of it, no expense ever approved, since none
    is stored as submitted).  [ExpenseRpcs]: approval against a relational
    specification, and what an RPC that succeeded did, with others beside it.  [ExpenseReads]: who may read what, tenant isolation, and
    concrete runs.

    ** Budget planning (services/budget)

    [Budget] has the records, the statements (its module [Queries], with the
    constraints of migrations/budget), the repository (its module [Postgres]) and
    service.go; [BudgetHandler] all thirteen RPCs.  [BudgetProps]: the relation every
    statement stays within and the table invariant: in every
    reachable state a total is the exact sum of lines of its budget and a budget
    names nobody; tenant isolation.  [BudgetCalls]: submission and approval refine a
    specification; what adding a line and filling a budget from a template leave,
    failures of calls included; a concrete service, and two interleaved requests
    that take an approval back.

    ** Project management (services/project)

    [Project] and [ProjectHandler] follow the same plan, for productions, phases
    and crew; the dates of pgx are the class [Dates].  [ProjectCalls]: the relation,
    the reachable states and their invariants: slugs are unique, no phase ever moves on,
    since its new type is written as its status; the outcomes of a
    move against the transitions of the vertical, adding and removing crew, a
    concrete service.

    ** Inventory (services/inventory)

    [Inventory] and [InventoryHandler], the same way, for assets and their
    checkouts.  Which of several open checkouts a statement without ORDER BY picks,
    and ILIKE, are the class [Planner].  [InventoryProps]: the relation and the
    reachable states: codes are unique, an asset belongs to a category, a checkout
    to an asset of its tenant.  [InventoryCalls]: requests that run one at a time
    implement an abstract lending desk; what a check-in does; two interleaved
    requests that lend one asset twice; a concrete service.

    ** Documents (services/document)

    [Document] and [DocumentHandler], the same way, for folders, documents and
    versions.  The object store is an interface without an implementation: its
    objects are a table of the state that clients write, and the URLs it signs are
    the class [SignedURLs].  [DocumentProps]: the window of a signed URL, int64
    overflow included; the relation and the reachable states; a URL is signed for a
    key of a document of the caller's tenant, and no two documents share a key.
    [DocumentCalls]: what confirming a version does, failures of calls included; a
    restored document cannot get a new version, in any history, until it is restored
    again, while its stored one can be overwritten; a concrete service, and a version that moving a document undoes.

    ** The vertical validator (pkg/vertical/validator.go)

    [Validator] models every check of a vertical's YAML definition, the
    depth-first cycle search with its three colours included; [ValidatorProps]
    shows that it terminates, accepts exactly the well-formed definitions, and
    that in an accepted definition every phase leads to a terminal one.

    ** Tenant registration (pkg/registration)

    [RegistrationModel] (request.go, slug.go, errors.go, events.go, pkg/locale),
    [RegistrationQueries] and [RegistrationStore] (db/queries.sql.go, db/store.go
    over the platform tables of migrations/iam and migrations/shared) and
    [Registration] (pipeline.go, saga.go).  Seeders, publisher, notifier, hasher,
    saga store and compensator have no implementation in the repository: they are
    the operations of the class [Ports], and [PortLaws] states what ports.go and
    saga.go document of them.  [RegistrationProps]: a registration is all or nothing.
    [RegistrationPipeline]: slugs are URL-safe, what a failed run of the pipeline
    leaves blocks its retries, ports in memory that satisfy the laws, and a lost
    update that lets a compensated saga resume without its tenant.

    ** Tenant lifecycle, legal holds and purge (services/iam)

    [TenancyModel] (models.go, errors.go, the pure rules of lifecycle.go and
    retention_override.go, pkg/audit), [TenancyQueries] and [TenancyPostgres] (the
    statements and methods on tenants and tenant_purge_requests, with the
    constraints of migrations/iam and the session generations of pkg/auth/jwt.go),
    [Tenancy] (suspension, holds, the two-person purge, the billing consumer,
    cmd/retention-sweeper and cmd/purge-worker) and [TenancyHandler] (the seven
    RPCs).  The purge transaction is one atomic step, and the answer to its commit
    may be lost after it; PostgreSQL's calendar arithmetic ([days_before]) and the
    key of the unique index on names ([name_key]) are parameters.  Tenant rows are
    never deleted; metrics and log lines are left out.
    [TenancySteps]: the relation every statement stays within, for
    every RPC and worker.  [TenancyProps]: in any history a schema is dropped only
    after two administrators, a closed purge request stays closed, and the sweeper
    moves a tenant only when its clock has run; an undisturbed sweep moves exactly
    the tenants that are due.  [TenancyCalls]: a purge is all or nothing, failures
    of calls included; what suspension does in any status, and where it weakens a hold or leaves sessions alive; a concrete service, the witnesses, and a tenant put on hold
    during a sweep that is still moved.

    ** Accounts and authentication (services/iam, pkg/auth, pkg/crypto)

    [AuthModel] has the records of pkg/auth and the two stores, which are parts of
    the IAM service's [DB]: [accounts] (users, roles, user_roles, invitations,
    tenant_auth_config) and [sessions], the keys of Redis as tables whose entries
    expire by Redis's own clock.  [Passwords] (argon2id.go, aes.go):
    the text form of password hashes and sealed secrets; the primitives (argon2id,
    bcrypt, AES-GCM) are the class [Primitives] with [PrimitivesLaws].  [AuthTokens]
    (jwt.go, verifier.go, the interceptor of authjwt.go): issuing, refreshing,
    revoking and verifying; signing and parsing a JWT are the class [Jwt] with
    [JwtLaws].  [AuthProviders]: the local and OIDC providers, the resolver and the
    decrypting store of cmd/iam; the identity provider's answer is the argument
    [Exchange].  [AccountQueries] and [AccountPostgres] (the statements, with the
    constraints of migrations/iam and the trigger on role scopes; db/postgres.go),
    [Accounts] (service.go; the rehash that Login starts in the background is a call
    of its own) and [AccountHandler] (handler.go, every RPC).
    [AccountSteps] and [AccountReach]: the relation every statement
    stays within, for every RPC, the rehash, the lifecycle's calls and workers, and
    the histories they make.  [AccountRoles]: the table invariant; user:manage is
    exactly super_admin; without it the managed calls change nothing; no statement
    touches another tenant.  [Sessions]: a revoked session stays revoked in any
    history, a refresh token is good once, an access token lets its holder in until it expires, and an expired
    counter can revive a session.  [AccountCreation]: who can log in; an acceptance is all or nothing, what creating a tenant
    leaves, and errors answered as Internal.  [Passwords] ends with the round trips of
    hashes and secrets.  The theorems take the service as cmd/iam
    builds it ([service_ok]).  [AccountExamples]: a concrete service and primitives,
    the witnesses, a refresh token exchanged twice, and a password change undone.

    ** Billing and its transactional outbox (services/billing)

    [BillingModel] (models.go, errors.go), [BillingQueries] and [BillingPostgres]
    (db/postgres.go with the constraints of migrations/billing), [Billing]
    (service.go), [BillingRelay] (outbox_relay.go and cmd/outbox-admin) and
    [BillingHandler] (handler.go, all fourteen RPCs).  Parameters: the identifiers
    PostgreSQL generates ([gen_random_uuid], which the theorems take not to repeat
    one it has given out; the tables keep what it gave out, with the content each
    identifier was given to, [issued], and which events an operator has [replayed]:
    no statement reads either), the rows other
    sessions hold locked ([locked]), the order in which a statement returns rows
    ([returning], a permutation), decimal products ([InvoiceMath]) and the document
    service.  JSON is a value, the Prometheus gauges are left out.  [BillingSteps]: the relation every statement stays within, for every RPC,
    service method, relay and operator's command.  [BillingOutbox]: in any history a
    recorded event is waiting, dead or published, with its content, until an operator
    replays it; a replayed one can be lost, as the two statements that park an event
    may meet it between them; an outage of the
    broker parks nothing; an undisturbed relay publishes every
    waiting event exactly once, and a dead event can be replayed.  [BillingSubs]: a
    suspension and its event are stored together, an upgrade can undo a suspension,
    plan limits are the plan table; and the two services together:
    a suspended subscription takes the tenant's sessions away; a
    concrete service, the witnesses, an event published twice, and a subscription
    reported as created that is not stored.

    ** Bounds and fuel

    A monthly report walks at most [max_months] = 36 months, which its range
    check enforces; a bank account code is tried [bank_attempts] = 3 times, as in
    the code; a sweep takes at most its [maxBatches] batches, a relay batch a hundred
    events, and the workers walk the lists they read, by structural recursion; the
    relay's endless loop is [Run n], its first n ticks, for any n; the cycle search has the number of phases as its fuel, which
    [validator_total] shows to be enough; reads are capped at a hundred rows.
    Amounts are exact decimals rounded where the column rounds them; counts and
    limits are the int32 of the messages where the code keeps them so.

    ** Not modelled, and why

    Protobuf, JSON and YAML decoding (generated code and libraries): requests are
    records, [Validate] takes the parser.  The permission checker the
    handlers call is an argument; the PEM parsing of keys and the exchange
    with an identity provider are calls to libraries.  The loader of vertical
    configurations (Redis, database, files) is the argument of [attachConfig], a field
    of the handlers: a tenant's configuration is fixed over a history.  No running
    path of the repository updates an override or unbinds a tenant; where an operator
    does so by hand, what is stored under the old configuration is outside the
    theorems on thresholds, categories and phase types.
    pgx and PostgreSQL themselves: statements are functions on tables, one
    atomic step each.  Event delivery by NATS after a message is in the stream: a
    consumer is run on an envelope; the durable consumers that would call it, and
    the creation of streams, are adapters over the NATS client.  The notifications
    service (adapters over mail, message and push providers), the reporting service
    (read tables filled from the events of the others), the audit buffer's
    flush loop, process start-up, generated code and the web client are left out;
    the manifest lists them with their sources. *)

From stdpp Require Import base gmap strings list sorting fin_maps.
From stdpp Require Export base gmap strings list.

From Stdlib Require Import ZArith Lia.

#[export] Set Default Goal Selector "!".
Local Open Scope Z_scope.

(** ** Results and errors *)

(** A Go function that returns [(value, error)]: it either has a value or an
    error, never both. *)
Inductive result (E A : Type) : Type :=
| Ok (a : A)
| Err (e : E).
Arguments Ok {E A} a.
Arguments Err {E A} e.

(** A Go [error] value.  [ESent] is one of a package's sentinel errors,
    [EWrap] is what [fmt.Errorf] builds around another error with the [%w]
    verb (the text is the format string), and [EText] is any other error. *)
Inductive error (S : Type) : Type :=
| ESent (s : S)
| EWrap (text : string) (e : error S)
| EText (text : string).
Arguments ESent {S} s.
Arguments EWrap {S} text e.
Arguments EText {S} text.

(** [errors.Is]: walks the [%w] chain. *)
Fixpoint errors_Is {S : Type} `{EqDecision S} (e : error S) (s : S) : bool :=
  match e with
  | ESent s' => bool_decide (s' = s)
  | EWrap _ e' => errors_Is e' s
  | EText _ => false
  end.

(** The sentinel at the end of the chain, if there is one. *)
Fixpoint sentinel {S : Type} (e : error S) : option S :=
  match e with
  | ESent s => Some s
  | EWrap _ e' => sentinel e'
  | EText _ => None
  end.

(** Go's [err == Sentinel]: no unwrapping. *)
Definition error_eq {S : Type} `{EqDecision S} (e : error S) (s : S) : bool :=
  match e with
  | ESent s' => bool_decide (s' = s)
  | _ => false
  end.

Definition is_ok {E A : Type} (r : result E A) : bool :=
  match r with Ok _ => true | Err _ => false end.

(** ** The world a service runs in *)

(** [google/uuid]'s UUID is a 128-bit value; [uuid.Nil] is all zeros. *)
Abbreviation uuid := N (only parsing).
Definition uuid_nil : uuid := 0%N.

(** [time.Time] as nanoseconds since the Unix epoch. *)
Abbreviation Time := Z (only parsing).

(** What a running service reads from outside: the UUIDs [uuid.New] draws,
    the instants the clocks return, which calls to other processes fail, and the
    local time zone's offset.  Each is a
    stream with the position reached so far; nothing is assumed about the
    streams except where a theorem names it. *)
Record Env := mkEnv {
  env_uuid : nat -> uuid;
  env_uuid_pos : nat;
  env_clock : nat -> Time;
  env_clock_pos : nat;
  env_fault : nat -> bool;
  env_fault_pos : nat;
  env_zone : Z;
}.

(** The world of one request.  Other requests run beside it: [w_other n] is
    what they do to the shared state just before this request's [n]-th call to
    another process, and [w_log] records, latest first, the state changes this
    request made itself, each as the state before and after one statement. *)
Record World (S : Type) := mkWorld {
  w_st : S;
  w_env : Env;
  w_other : nat -> S -> S;
  w_log : list (S * S);
}.
Arguments mkWorld {S} w_st w_env w_other w_log.
Arguments w_st {S} w.
Arguments w_env {S} w.
Arguments w_other {S} w.
Arguments w_log {S} w.

Definition with_env {S} (e : Env) (w : World S) : World S :=
  mkWorld (w_st w) e (w_other w) (w_log w).

(** Stateful, fallible Go code: the state is kept when the code fails. *)
Definition M (S E A : Type) : Type := World S -> result E A * World S.

#[global] Instance M_ret {S E} : MRet (M S E) := fun A a w => (Ok a, w).
#[global] Instance M_bind {S E} : MBind (M S E) := fun A B f m w =>
  match m w with
  | (Ok a, w') => f a w'
  | (Err e, w') => (Err e, w')
  end.
#[global] Instance M_throw {S E} : MThrow E (M S E) := fun A e w => (Err e, w).

(** [uuid.New()]. *)
Definition uuid_new {S E} : M S E uuid := fun w =>
  let e := w_env w in
  (Ok (env_uuid e (env_uuid_pos e)),
   with_env (mkEnv (env_uuid e) (Datatypes.S (env_uuid_pos e)) (env_clock e) (env_clock_pos e)
               (env_fault e) (env_fault_pos e) (env_zone e)) w).

(** [if x.ID == uuid.Nil { x.ID = uuid.New() }] *)
Definition id_or_new {S E} (id : uuid) : M S E uuid :=
  if decide (id = uuid_nil) then uuid_new else mret id.

(** [time.Now()] and SQL's [now()]. *)
Definition time_now {S E} : M S E Time := fun w =>
  let e := w_env w in
  (Ok (env_clock e (env_clock_pos e)),
   with_env (mkEnv (env_uuid e) (env_uuid_pos e) (env_clock e) (Datatypes.S (env_clock_pos e))
               (env_fault e) (env_fault_pos e) (env_zone e)) w).

(** The local time zone, as an offset from UTC in nanoseconds. *)
Definition local_zone {S E} : M S E Z := fun w => (Ok (env_zone (w_env w)), w).

(** Runs [m] and hands its result, error included, to the caller:
    Go's [v, err := f()] before the [if err != nil]. *)
Definition try {S E E' A} (m : M S E A) : M S E' (result E A) := fun w =>
  let '(r, w') := m w in (Ok r, w').

(** Rewrites the error of [m]: Go's [if err != nil { return f(err) }]. *)
Definition map_err {S E E' A} (f : E -> E') (m : M S E A) : M S E' A := fun w =>
  let '(r, w') := m w in
  (match r with Ok a => Ok a | Err e => Err (f e) end, w').

(** [return nil, fmt.Errorf("text: %w", err)] *)
Definition wrap {S T A} (text : string) (m : M S (error T) A) : M S (error T) A :=
  map_err (EWrap text) m.

(** Returns the value or the error of a pure computation. *)
Definition lift_result {S E A} (r : result E A) : M S E A := fun w => (r, w).

(** ** PostgreSQL as the repositories see it *)

(** The errors a query reports through pgx: [pgx.ErrNoRows], a
    unique-constraint violation (SQLSTATE 23505), any other constraint or
    data error, and a failed connection. *)
Inductive pg_error :=
| PgNoRows
| PgUniqueViolation
| PgConstraint
| PgConnection.

#[global] Instance pg_error_eq_dec : EqDecision pg_error.
Proof. solve_decision. Defined.

Definition next_fault (e : Env) : Env :=
  mkEnv (env_uuid e) (env_uuid_pos e) (env_clock e) (env_clock_pos e)
    (env_fault e) (Datatypes.S (env_fault_pos e)) (env_zone e).

(** A transaction (a single statement is one): the other requests run first,
    then either the connection fails ([down]) and nothing happens, or the body
    runs whole, or it fails and is rolled back. *)
Definition db_tx {S E A} (down : E) (body : S -> result E (A * S)) : M S E A := fun w =>
  let e := w_env w in
  let s1 := w_other w (env_fault_pos e) (w_st w) in
  let stay := mkWorld s1 (next_fault e) (w_other w) (w_log w) in
  if env_fault e (env_fault_pos e) then (Err down, stay)
  else match body s1 with
       | Ok (a, s2) => (Ok a, mkWorld s2 (next_fault e) (w_other w) ((s1, s2) :: w_log w))
       | Err err => (Err err, stay)
       end.

Definition db_exec {S A} (q : S -> result pg_error (A * S)) : M S pg_error A :=
  db_tx PgConnection q.

(** A statement that only reads. *)
Definition db_query {S A} (q : S -> result pg_error A) : M S pg_error A :=
  db_exec (fun s => match q s with Ok a => Ok (a, s) | Err e => Err e end).

(** A [:one] query: the first row, or [pgx.ErrNoRows]. *)
Definition one_row {A} (rows : list A) : result pg_error A :=
  match rows with
  | [] => Err PgNoRows
  | r :: _ => Ok r
  end.

(** [LIMIT l OFFSET o] on an ordered result. *)
Definition limit_offset {A} (limit offset : Z) (l : list A) : list A :=
  take (Z.to_nat limit) (drop (Z.to_nat offset) l).

(** pgtype.Text and pgtype.UUID: a value and whether it is valid. *)
Definition pgTextFromString (s : string) : option string :=
  if decide (s = "") then None else Some s.
Definition stringFromPgText (t : option string) : string :=
  match t with Some s => s | None => "" end.
Definition pgUUIDFromPtr (id : option uuid) : option uuid := id.
Definition nullableUUID (id : uuid) : option uuid :=
  if decide (id = uuid_nil) then None else Some id.

(** [isUniqueViolation] *)
Definition isUniqueViolation (e : pg_error) : bool :=
  bool_decide (e = PgUniqueViolation).

(** ** Tables *)

(** The rows of a table with UUID primary keys, in key order of the map. *)
Definition rows {A} (t : gmap uuid A) : list A := (map_to_list t).*2.

Definition exists_row {A} (p : A -> bool) (t : gmap uuid A) : bool := existsb p (rows t).
Definition select {A} (p : A -> bool) (t : gmap uuid A) : list A :=
  List.filter p (rows t).

(** [ORDER BY] a boolean comparison (a stable sort). *)
Fixpoint insert_by {A} (le : A -> A -> bool) (x : A) (l : list A) : list A :=
  match l with
  | [] => [x]
  | y :: l' => if le x y then x :: l else y :: insert_by le x l'
  end.
Definition order_by {A} (le : A -> A -> bool) (l : list A) : list A :=
  foldr (insert_by le) [] l.

(** A primary-key lookup with a row condition. *)
Definition get_row {A} (t : gmap uuid A) (id : uuid) (p : A -> bool) : result pg_error A :=
  match t !! id with
  | Some r => if p r then Ok r else Err PgNoRows
  | None => Err PgNoRows
  end.

(** A call to another process whose failure the caller ignores: it takes
    effect unless the fault stream says it failed. *)
Definition best_effort {S E} (f : S -> S) : M S E unit := fun w =>
  match db_exec (fun s => Ok (tt, f s)) w with
  | (_, w') => (Ok tt, w')
  end.

(** [for i, x := range xs { ... }] where the body returns on error and may
    replace the element. *)
Fixpoint mapM_i {S E A B} (f : nat -> A -> M S E B) (i : nat) (l : list A) : M S E (list B) :=
  match l with
  | [] => mret []
  | x :: l' => y ← f i x; ys ← mapM_i f (Datatypes.S i) l'; mret (y :: ys)
  end.
Fixpoint forM_ {S E A} (l : list A) (f : A -> M S E unit) : M S E unit :=
  match l with
  | [] => mret tt
  | x :: l' => _ ← f x; forM_ l' f
  end.

(** ** Reasoning about programs *)

(** The other requests respect [R]. *)
Definition rely {S} (R : S -> S -> Prop) (w : World S) : Prop :=
  forall n s, R s (w_other w n s).

(** Run in [w] beside requests that respect [R], the program moves the state
    along [R], and so does each of its own statements. *)
Definition steps {S E A} (R : S -> S -> Prop) (m : M S E A) (w : World S) : Prop :=
  rely R w ->
  R (w_st w) (w_st (m w).2) /\ w_other (m w).2 = w_other w
  /\ exists own, w_log (m w).2 = own ++ w_log w /\ Forall (fun p => R p.1 p.2) own.

Section steps.
Context {S : Type} {R : S -> S -> Prop} `{!PreOrder R}.

Lemma steps_pure {E A} (m : M S E A) w :
  w_st (m w).2 = w_st w -> w_other (m w).2 = w_other w -> w_log (m w).2 = w_log w ->
  steps R m w.
Proof. intros H1 H2 H3 _. rewrite H1, H2, H3. split_and!; [done..|]. by exists []. Qed.

Lemma steps_ret {E A} (a : A) w : steps R (mret a : M S E A) w.
Proof. by apply steps_pure. Qed.
Lemma steps_throw {E A} (e : E) w : steps R (mthrow e : M S E A) w.
Proof. by apply steps_pure. Qed.
Lemma steps_lift {E A} (r : result E A) w : steps R (lift_result r) w.
Proof. by apply steps_pure. Qed.
Lemma steps_uuid {E} w : steps R (uuid_new : M S E uuid) w.
Proof. by apply steps_pure. Qed.
Lemma steps_id_or_new {E} id w : steps R (id_or_new id : M S E uuid) w.
Proof. unfold id_or_new. case_decide; [apply steps_uuid|apply steps_ret]. Qed.
Lemma steps_time {E} w : steps R (time_now : M S E Time) w.
Proof. by apply steps_pure. Qed.
Lemma steps_zone {E} w : steps R (local_zone : M S E Z) w.
Proof. by apply steps_pure. Qed.

Lemma steps_bind {E A B} (m : M S E A) (f : A -> M S E B) w :
  steps R m w ->
  (forall a w', m w = (Ok a, w') -> rely R w -> R (w_st w) (w_st w') ->
     rely R w' -> steps R (f a) w') ->
  steps R (m ≫= f) w.
Proof.
  intros Hm Hf HR. destruct (Hm HR) as (H1 & H2 & own & H3 & H4).
  unfold mbind, M_bind. destruct (m w) as [[a|e] w'] eqn:Hw; simpl in *; [|by eauto 10].
  assert (HR' : rely R w') by (intros n s; rewrite H2; apply HR).
  destruct (Hf a w' eq_refl HR H1 HR' HR') as (H5 & H6 & own' & H7 & H8).
  split_and!; [by etrans|congruence|].
  exists (own' ++ own). rewrite H7, H3, <-app_assoc. split; [done|]. by apply Forall_app.
Qed.

(** What a run that returned did, and that the rely still holds after it. *)
Lemma steps_run {E A} (m : M S E A) w r w' :
  steps R m w -> m w = (r, w') -> rely R w -> R (w_st w) (w_st w') /\ rely R w'.
Proof.
  intros Hm Hw HR. destruct (Hm HR) as (H1 & H2 & _). rewrite Hw in *. simpl in *.
  split; [done|]. intros n s. rewrite H2. apply HR.
Qed.

Lemma steps_map_err {E E' A} (f : E -> E') (m : M S E A) w :
  steps R m w -> steps R (map_err f m) w.
Proof. intros Hm HR. specialize (Hm HR). unfold map_err. by destruct (m w). Qed.
Lemma steps_wrap {T A} t (m : M S (error T) A) w : steps R m w -> steps R (wrap t m) w.
Proof. apply steps_map_err. Qed.
Lemma steps_try {E E' A} (m : M S E A) w : steps R m w -> steps R (try (E':=E') m) w.
Proof. intros Hm HR. specialize (Hm HR). unfold try. by destruct (m w). Qed.

Lemma steps_tx {E A} down (q : S -> result E (A * S)) w :
  (forall s1 a s2, rely R w -> R (w_st w) s1 -> q s1 = Ok (a, s2) -> R s1 s2) ->
  steps R (db_tx down q) w.
Proof.
  intros Hq HR. unfold db_tx.
  pose proof (HR (env_fault_pos (w_env w)) (w_st w)) as Hs.
  destruct (env_fault _ _); simpl; [by split_and!; [..|exists []]|].
  destruct (q _) as [[a s2]|e] eqn:E1; simpl; [|by split_and!; [..|exists []]].
  specialize (Hq _ _ _ HR Hs E1). split_and!; [by etrans|done|].
  exists [(w_other w (env_fault_pos (w_env w)) (w_st w), s2)]. split; [done|].
  by repeat constructor.
Qed.

Lemma steps_best_effort {E} (f : S -> S) w :
  (forall s, R s (f s)) -> steps R (best_effort f : M S E unit) w.
Proof.
  intros Hf HR. unfold best_effort.
  assert (steps R (db_exec (fun s => Ok (tt, f s))) w) as Hs.
  { apply steps_tx. intros s1 a s2 _ _ [= _ <-]. apply Hf. }
  specialize (Hs HR). by destruct (db_exec _ w) as [? ?].
Qed.

Lemma steps_mapM_i {E A B} (f : nat -> A -> M S E B) i l w :
  (forall i x w, steps R (f i x) w) -> steps R (mapM_i f i l) w.
Proof.
  intros Hf. revert i w. induction l as [|x l IH]; intros i w; simpl; [apply steps_ret|].
  apply steps_bind; [apply Hf|]. intros y w1 _ _ _ _.
  apply steps_bind; [apply IH|]. intros ys w2 _ _ _ _. apply steps_ret.
Qed.

Lemma steps_forM_in {E A} (f : A -> M S E unit) l w :
  (forall x w, x ∈ l -> steps R (f x) w) -> steps R (forM_ l f) w.
Proof.
  revert w. induction l as [|x l IH]; intros w Hf; simpl; [apply steps_ret|].
  apply steps_bind; [apply Hf, list_elem_of_here|]. intros y w1 _ _ _ _.
  apply IH. intros x' w' Hx. by apply Hf, list_elem_of_further.
Qed.
Lemma steps_forM {E A} (f : A -> M S E unit) l w :
  (forall x w, steps R (f x) w) -> steps R (forM_ l f) w.
Proof. intros Hf. apply steps_forM_in. auto. Qed.

End steps.

(** Inversion of successful runs. *)
Section inversion.
Context {S : Type}.

Lemma bind_Ok {E A B} (m : M S E A) (f : A -> M S E B) w b w' :
  (m ≫= f) w = (Ok b, w') -> exists a w1, m w = (Ok a, w1) /\ f a w1 = (Ok b, w').
Proof. unfold mbind, M_bind. destruct (m w) as [[a|e] w1]; [by eauto|done]. Qed.

(** A call that succeeded hands its value on. *)
Lemma bind_run {E A B} (m : M S E A) (f : A -> M S E B) w a w1 :
  m w = (Ok a, w1) -> (m ≫= f) w = f a w1.
Proof. intros H. unfold mbind, M_bind. by rewrite H. Qed.
Lemma bind_wrap_Ok {T A B} t (m : M S (error T) A) (f : A -> M S (error T) B) w a w1 :
  m w = (Ok a, w1) -> (wrap t m ≫= f) w = f a w1.
Proof. intros H. apply bind_run. unfold wrap, map_err. by rewrite H. Qed.

Lemma map_err_Ok {E E' A} (f : E -> E') (m : M S E A) w a w' :
  map_err f m w = (Ok a, w') -> m w = (Ok a, w').
Proof. unfold map_err. destruct (m w) as [[]]; by intros [= -> ->]. Qed.
Lemma wrap_Ok {T A} t (m : M S (error T) A) w a w' :
  wrap t m w = (Ok a, w') -> m w = (Ok a, w').
Proof. apply map_err_Ok. Qed.

Lemma ret_Ok {E A} (a b : A) (w : World S) w' :
  (mret a : M S E A) w = (Ok b, w') -> b = a /\ w' = w.
Proof. by intros [= -> ->]. Qed.
Lemma lift_Ok {E A} (r : result E A) (w : World S) a w' :
  lift_result r w = (Ok a, w') -> r = Ok a /\ w' = w.
Proof. by intros [= -> ->]. Qed.

(** A successful transaction ran on the state the other requests left. *)
Lemma tx_Ok {E A} down (q : S -> result E (A * S)) w a w' :
  db_tx down q w = (Ok a, w') ->
  q (w_other w (env_fault_pos (w_env w)) (w_st w)) = Ok (a, w_st w') /\ w_other w' = w_other w.
Proof.
  unfold db_tx. destruct (env_fault _ _); [done|].
  destruct (q _) as [[a' s2]|]; [|done]. by intros [= -> <-].
Qed.

End inversion.

(** A world where this request runs alone and no call fails. *)
Definition quiet {S} (w : World S) : Prop :=
  (forall n s, w_other w n s = s) /\ (forall n, env_fault (w_env w) n = false).
Lemma quiet_rely {S} (R : S -> S -> Prop) `{!Reflexive R} (w : World S) : quiet w -> rely R w.
Proof. intros [Ho _] n s. by rewrite Ho. Qed.

(** Evaluation in a quiet world: what each construct returns, and the state it
    leaves. *)
Definition evals {S E A} (m : M S E A) (w : World S) (r : result E A) (s : S) : Prop :=
  exists w', m w = (r, w') /\ w_st w' = s /\ quiet w'.

Section evals.
Context {S : Type}.

Lemma evals_pure {E A} (r : result E A) (w : World S) :
  quiet w -> evals (lift_result r) w r (w_st w).
Proof. intros H. by exists w. Qed.

Lemma evals_time {E} (w : World S) :
  quiet w -> exists now, evals (time_now : M S E Time) w (Ok now) (w_st w).
Proof. intros H. eexists. eexists. split; [reflexivity|]. by split. Qed.

Lemma evals_ret {E A} (a : A) (w : World S) : quiet w -> evals (mret a : M S E A) w (Ok a) (w_st w).
Proof. intros H. by exists w. Qed.

Lemma evals_uuid {E} (w : World S) :
  quiet w -> exists id, evals (uuid_new : M S E uuid) w (Ok id) (w_st w).
Proof. intros H. eexists. eexists. split; [reflexivity|]. by split. Qed.

Lemma evals_id_or_new {E} k (w : World S) :
  quiet w -> exists id, evals (id_or_new k : M S E uuid) w (Ok id) (w_st w).
Proof.
  intros H. unfold id_or_new. case_decide; [by apply evals_uuid|]. eexists. by apply evals_ret.
Qed.

Lemma evals_throw {E A} (e : E) (w : World S) :
  quiet w -> evals (mthrow e : M S E A) w (Err e) (w_st w).
Proof. intros H. by exists w. Qed.

Lemma evals_bind {E A B} (m : M S E A) (f : A -> M S E B) w a s r s' :
  evals m w (Ok a) s ->
  (forall w', quiet w' -> w_st w' = s -> evals (f a) w' r s') -> evals (m ≫= f) w r s'.
Proof. intros (w' & Hm & Hs & Hq) HP. unfold evals, mbind, M_bind. rewrite Hm. by apply HP. Qed.

Lemma evals_bind_run {E A B} (m : M S E A) (f : A -> M S E B) w a w1 r s :
  m w = (Ok a, w1) -> evals (f a) w1 r s -> evals (m ≫= f) w r s.
Proof. intros Hm. unfold evals, mbind, M_bind. by rewrite Hm. Qed.
Lemma evals_bind_err {E A B} (m : M S E A) (f : A -> M S E B) w e s :
  evals m w (Err e) s -> evals (m ≫= f) w (Err e) s.
Proof. intros (w' & Hm & Hs & Hq). exists w'. unfold mbind, M_bind. by rewrite Hm. Qed.

(** The same with a postcondition, for results that depend on the clock. *)
Definition yields {E A} (m : M S E A) (w : World S) (P : result E A -> S -> Prop) : Prop :=
  exists r s, evals m w r s /\ P r s.

Lemma yields_evals {E A} (m : M S E A) w r s (P : result E A -> S -> Prop) :
  evals m w r s -> P r s -> yields m w P.
Proof. intros H HP. by exists r, s. Qed.
Lemma yields_bind {E A B} (m : M S E A) (f : A -> M S E B) w a s P :
  evals m w (Ok a) s ->
  (forall w', quiet w' -> w_st w' = s -> yields (f a) w' P) -> yields (m ≫= f) w P.
Proof.
  intros (w' & Hm & Hs & Hq) HP. destruct (HP w' Hq Hs) as (r & s' & He & Hr).
  exists r, s'. split; [|done]. unfold evals, mbind, M_bind. by rewrite Hm.
Qed.
Lemma yields_run {E A} (m : M S E A) w r w' (P : result E A -> S -> Prop) :
  yields m w P -> m w = (r, w') -> P r (w_st w').
Proof. intros (r0 & s & (w1 & Hm & <- & _) & HP) Hr. rewrite Hr in Hm. by injection Hm as -> ->. Qed.

(** A program that leaves the state as it is. *)
Definition reads {E A} (m : M S E A) (w : World S) : Prop := exists r, evals m w r (w_st w).

Lemma reads_pure {E A} (r : result E A) (w : World S) : quiet w -> reads (lift_result r) w.
Proof. intros H. exists r. by apply evals_pure. Qed.
Lemma reads_ret {E A} (a : A) (w : World S) : quiet w -> reads (mret a : M S E A) w.
Proof. intros H. exists (Ok a). by apply evals_ret. Qed.
Lemma reads_map_err {E E' A} (f : E -> E') (m : M S E A) w : reads m w -> reads (map_err f m) w.
Proof. intros (r & w' & Hm & Hs & Hq). eexists _, w'. unfold map_err. by rewrite Hm. Qed.
Lemma reads_bind {E A B} (m : M S E A) (f : A -> M S E B) w :
  reads m w -> (forall a w', quiet w' -> w_st w' = w_st w -> reads (f a) w') -> reads (m ≫= f) w.
Proof.
  intros ([a|e] & Hm) Hf; [|exists (Err e); by apply evals_bind_err].
  destruct Hm as (w' & Hm & Hs & Hq). destruct (Hf a w' Hq Hs) as [r Hr]. rewrite Hs in Hr.
  exists r. by eapply evals_bind_run.
Qed.

(** A postcondition on the state alone survives reads around what establishes it. *)
Lemma yields_after_read {E A B} (m : M S E A) (f : A -> M S E B) w (Q : S -> Prop) :
  reads m w -> Q (w_st w) ->
  (forall a w', quiet w' -> w_st w' = w_st w -> yields (f a) w' (fun _ s => Q s)) ->
  yields (m ≫= f) w (fun _ s => Q s).
Proof.
  intros ([a|e] & Hm) HQ Hf; [eapply yields_bind; [exact Hm|exact (Hf a)]|].
  eapply yields_evals; [by apply evals_bind_err|done].
Qed.
Lemma yields_then_read {E A B} (m : M S E A) (f : A -> M S E B) w (Q : S -> Prop) :
  yields m w (fun _ s => Q s) -> (forall a w', quiet w' -> reads (f a) w') ->
  yields (m ≫= f) w (fun _ s => Q s).
Proof.
  intros ([a|e] & s & Hm & HQ) Hf; [|eapply yields_evals; [by apply evals_bind_err|done]].
  eapply yields_bind; [exact Hm|]. intros w' Hq <-. destruct (Hf a w' Hq) as [r Hr].
  by eapply yields_evals.
Qed.
Lemma yields_map_err {E E' A} (f : E -> E') (m : M S E A) w (Q : S -> Prop) :
  yields m w (fun _ s => Q s) -> yields (map_err f m) w (fun _ s => Q s).
Proof.
  intros (r & s & (w' & Hm & Hs & Hq) & HQ). eapply yields_evals; [|exact HQ].
  exists w'. unfold map_err. by rewrite Hm.
Qed.
Lemma yields_weaken {E A} (m : M S E A) w (Q Q' : result E A -> S -> Prop) :
  yields m w Q -> (forall r s, Q r s -> Q' r s) -> yields m w Q'.
Proof. intros (r & s & Hm & HQ) H. exists r, s. auto. Qed.
Lemma reads_yields {E A} (m : M S E A) w (Q : S -> Prop) :
  reads m w -> Q (w_st w) -> yields m w (fun _ s => Q s).
Proof. intros [r Hr] HQ. by eapply yields_evals. Qed.

Lemma evals_map_err {E E' A} (f : E -> E') (m : M S E A) w r s :
  evals m w r s ->
  evals (map_err f m) w (match r with Ok a => Ok a | Err e => Err (f e) end) s.
Proof. intros (w' & Hm & Hs & Hq). exists w'. unfold map_err. by rewrite Hm. Qed.

Lemma evals_map_ok {E E' A} (f : E -> E') (m : M S E A) w a s :
  evals m w (Ok a) s -> evals (map_err f m) w (Ok a) s.
Proof. exact (evals_map_err f m w (Ok a) s). Qed.
Lemma evals_map_fail {E E' A} (f : E -> E') (m : M S E A) w e s :
  evals m w (Err e) s -> evals (map_err f m) w (Err (f e)) s.
Proof. exact (evals_map_err f m w (Err e) s). Qed.

Lemma evals_try {E E' A} (m : M S E A) w r s :
  evals m w r s -> evals (try m : M S E' (result E A)) w (Ok r) s.
Proof. intros (w' & Hm & Hs & Hq). exists w'. unfold try. by rewrite Hm. Qed.

Lemma evals_tx {E A} down (q : S -> result E (A * S)) (w : World S) :
  quiet w ->
  evals (db_tx down q) w
    (match q (w_st w) with Ok (a, _) => Ok a | Err e => Err e end)
    (match q (w_st w) with Ok (_, s) => s | Err _ => w_st w end).
Proof.
  intros [Ho Hf]. unfold evals, db_tx. rewrite Hf, Ho.
  destruct (q (w_st w)) as [[a s]|e]; eexists; (split; [reflexivity|]); split; try done;
    split; simpl; done.
Qed.

Lemma evals_best_effort {E} (f : S -> S) (w : World S) :
  quiet w -> evals (best_effort f : M S E unit) w (Ok tt) (f (w_st w)).
Proof.
  intros H. destruct (evals_tx PgConnection (fun s => Ok (tt, f s)) w H) as (w' & Hm & Hs & Hq).
  exists w'. unfold best_effort, db_exec. by rewrite Hm.
Qed.

End evals.

(** Decides a structural [steps] goal: each construct by its rule, tests by
    cases; statements are left to the caller. *)
Ltac steps_tac :=
  repeat match goal with
  | |- forall _, _ => intros ?
  | |- steps _ (mret _) _ => apply steps_ret
  | |- steps _ (mthrow _) _ => apply steps_throw
  | |- steps _ (lift_result _) _ => apply steps_lift
  | |- steps _ uuid_new _ => apply steps_uuid
  | |- steps _ (id_or_new _) _ => apply steps_id_or_new
  | |- steps _ time_now _ => apply steps_time
  | |- steps _ local_zone _ => apply steps_zone
  | |- steps _ (_ ≫= _) _ => apply steps_bind
  | |- steps _ (map_err _ _) _ => apply steps_map_err
  | |- steps _ (wrap _ _) _ => apply steps_wrap
  | |- steps _ (try _) _ => apply steps_try
  | |- steps _ (mapM_i _ _ _) _ => apply steps_mapM_i
  | |- steps _ (forM_ _ _) _ => apply steps_forM
  | |- steps _ (if decide ?P then _ else _) _ => destruct (decide P)
  | |- steps _ (if ?b then _ else _) _ => destruct b eqn:?
  | |- steps _ (match ?x with _ => _ end) _ => destruct x eqn:?
  end.

(** ** Lemmas on tables *)

Lemma rows_elem {A} (t : gmap uuid A) r : r ∈ rows t <-> exists k, t !! k = Some r.
Proof.
  unfold rows. rewrite list_elem_of_fmap. split.
  - intros [[k v] [-> Hkv]]. apply elem_of_map_to_list in Hkv. by exists k.
  - intros [k Hk]. exists (k, r). split; [done|]. by apply elem_of_map_to_list.
Qed.

Lemma exists_row_true {A} (p : A -> bool) t :
  exists_row p t = true <-> exists k r, t !! k = Some r /\ p r = true.
Proof.
  unfold exists_row. rewrite existsb_exists. setoid_rewrite <-list_elem_of_In.
  setoid_rewrite rows_elem. split; [intros (r & [k Hk] & Hp)|intros (k & r & Hk & Hp)]; eauto.
Qed.

Lemma exists_row_false {A} (p : A -> bool) t :
  exists_row p t = false <-> forall k r, t !! k = Some r -> p r = false.
Proof.
  rewrite <-not_true_iff_false, exists_row_true. split.
  - intros H k r Hk. apply not_true_iff_false. intros Hp. eauto.
  - intros H (k & r & Hk & Hp). by rewrite (H k r) in Hp.
Qed.

Lemma filter_elem {A} (p : A -> bool) l x : x ∈ List.filter p l <-> x ∈ l /\ p x = true.
Proof. rewrite !list_elem_of_In. apply filter_In. Qed.

Lemma select_elem {A} (p : A -> bool) (t : gmap uuid A) r :
  r ∈ select p t <-> (exists k, t !! k = Some r) /\ p r = true.
Proof. unfold select. by rewrite filter_elem, rows_elem. Qed.

Lemma filter_Permutation {A} (p : A -> bool) (l l' : list A) :
  l ≡ₚ l' -> List.filter p l ≡ₚ List.filter p l'.
Proof.
  induction 1 as [|x l l' _ IH|x y l|l1 l2 l3 _ IH1 _ IH2]; simpl; [done|..].
  - by destruct (p x); rewrite IH.
  - destruct (p x), (p y); try done. apply Permutation_swap.
  - by etrans.
Qed.

Lemma filter_fmap {A B} (p : B -> bool) (f : A -> B) l :
  List.filter p (f <$> l) = f <$> List.filter (p ∘ f) l.
Proof.
  induction l as [|x l IH]; [done|]. csimpl. rewrite IH. by destruct (p (f x)).
Qed.

(** Two tables with the same matching rows select the same rows. *)
Lemma select_perm {A} (p : A -> bool) (t1 t2 : gmap uuid A) :
  (forall k v, p v = true -> t1 !! k = Some v <-> t2 !! k = Some v) ->
  select p t1 ≡ₚ select p t2.
Proof.
  intros H. unfold select, rows. rewrite !filter_fmap. apply fmap_Permutation.
  apply NoDup_Permutation.
  - apply NoDup_ListNoDup, List.NoDup_filter, NoDup_ListNoDup, NoDup_map_to_list.
  - apply NoDup_ListNoDup, List.NoDup_filter, NoDup_ListNoDup, NoDup_map_to_list.
  - intros [k v]. rewrite !filter_elem, !elem_of_map_to_list. specialize (H k v). simpl in *. tauto.
Qed.

(** Selecting from a table with one more row. *)
Lemma select_insert {A} (p : A -> bool) (t : gmap uuid A) k r :
  t !! k = None -> select p (<[k := r]> t) ≡ₚ (if p r then r :: select p t else select p t).
Proof.
  intros Hk. unfold select, rows.
  rewrite (filter_Permutation p _ (r :: (map_to_list t).*2)).
  - simpl. by destruct (p r).
  - by rewrite map_to_list_insert by done.
Qed.

Lemma select_nil {A} (p : A -> bool) (t : gmap uuid A) :
  (forall k r, t !! k = Some r -> p r = false) -> select p t = [].
Proof.
  intros H. destruct (select p t) as [|r l] eqn:Hs; [done|].
  assert (r ∈ select p t) as Hr by (rewrite Hs; apply list_elem_of_here).
  apply select_elem in Hr as [[k Hk] Hp]. by rewrite (H _ _ Hk) in Hp.
Qed.

Lemma insert_by_perm {A} (le : A -> A -> bool) x l : insert_by le x l ≡ₚ x :: l.
Proof.
  induction l as [|y l IH]; simpl; [done|]. case_match; [done|].
  rewrite IH. apply Permutation_swap.
Qed.
Lemma order_by_perm {A} (le : A -> A -> bool) l : order_by le l ≡ₚ l.
Proof.
  induction l as [|x l IH]; [done|]. change (insert_by le x (order_by le l) ≡ₚ x :: l).
  by rewrite insert_by_perm, IH.
Qed.

Lemma get_row_Ok {A} (t : gmap uuid A) id p r :
  get_row t id p = Ok r <-> t !! id = Some r /\ p r = true.
Proof.
  unfold get_row. destruct (t !! id) as [r'|]; [destruct (p r') eqn:Hp|]; split;
    [intros [= <-]|intros [[= <-] _]|intros [=]|intros [[= ->] H]|intros [=]|intros [[=] _]];
    solve [done | congruence].
Qed.

(** The row of [t] with that id, if the tenant [u] owns it. *)
Definition owned {A} (tenant : A -> uuid) (u : uuid) (t : gmap uuid A) (id : uuid) : option A :=
  r ← t !! id; guard (tenant r = u);; Some r.

Lemma free_key {A} (t : gmap uuid A) k : ~ is_Some (t !! k) -> t !! k = None.
Proof. apply eq_None_not_Some. Qed.

Lemma get_row_tenant {A} (t : gmap uuid A) (f : A -> uuid) id tn r :
  get_row t id (fun x => bool_decide (f x = tn)) = Ok r -> t !! id = Some r /\ f r = tn.
Proof. by intros [H1 H2%bool_decide_eq_true]%get_row_Ok. Qed.

Lemma get_row_owned {A} (tenant : A -> uuid) u (t : gmap uuid A) id :
  get_row t id (fun r => bool_decide (tenant r = u))
  = match owned tenant u t id with Some r => Ok r | None => Err PgNoRows end.
Proof.
  unfold get_row, owned. destruct (t !! id) as [r|]; simpl; [|done].
  case_bool_decide; [by rewrite option_guard_True|by rewrite option_guard_False].
Qed.

Lemma owned_Some {A} (tenant : A -> uuid) u (t : gmap uuid A) id r :
  owned tenant u t id = Some r <-> t !! id = Some r /\ tenant r = u.
Proof.
  unfold owned. destruct (t !! id) as [r'|]; simpl; [|by split; [|intros []]].
  case_guard as Hr; simpl; (split; [intros [=]|intros [[= ->] ?]]); by subst.
Qed.

Lemma one_row_Ok {A} (l : list A) r : one_row l = Ok r -> r ∈ l.
Proof. destruct l; intros [= ->]. apply list_elem_of_here. Qed.

(** One page of a sorted selection. *)
Lemma page_elem {A} (le : A -> A -> bool) (p : A -> bool) (t : gmap uuid A) limit offset r :
  r ∈ limit_offset limit offset (order_by le (select p t)) ->
  (exists k, t !! k = Some r) /\ p r = true.
Proof.
  intros Hr. apply select_elem. rewrite <-(order_by_perm le).
  apply (subseteq_drop (Z.to_nat offset)), (subseteq_take (Z.to_nat limit)), Hr.
Qed.
Lemma page_length {A} (l : list A) limit offset :
  (length (limit_offset limit offset l) <= Z.to_nat limit)%nat.
Proof. unfold limit_offset. rewrite length_take. lia. Qed.

(** Turns boolean tests in hypotheses into propositions. *)
Ltac bool_hyps :=
  repeat match goal with
  | H : negb _ = true |- _ => apply negb_true_iff in H
  | H : negb _ = false |- _ => apply negb_false_iff in H
  | H : _ && _ = true |- _ => apply andb_true_iff in H as [? ?]
  | H : _ || _ = false |- _ => apply orb_false_iff in H as [? ?]
  | H : bool_decide _ = true |- _ => apply bool_decide_eq_true in H
  | H : bool_decide _ = false |- _ => apply bool_decide_eq_false in H
  end.

(** An equation between values of a type that is not worth evaluating. *)
Ltac vm_refl :=
  match goal with |- @eq ?T _ ?r => vm_cast_no_check (@eq_refl T r) end.
