(* ===== verification/Store.v ===== *)
(** A service's shared state: its database and the events it has published.
    Repository statements and transactions act on the database; a published
    event is appended.  The rules say what each does for the rely-guarantee
    and the quiet-world reasoning of [Prelude]. *)

From S2P Require Export Prelude.

Record Store (D Ev : Type) := mkStore {
  store_db : D;
  store_events : list Ev;
}.
Arguments mkStore {D Ev} store_db store_events.
Arguments store_db {D Ev} s.
Arguments store_events {D Ev} s.

Section store.
Context {D Ev : Type}.
Implicit Types (w : World (Store D Ev)).

(** Runs a body on the database; an error rolls it back. *)
Definition on_db {E A} (body : D -> result E (A * D)) (s : Store D Ev) : result E (A * Store D Ev) :=
  match body (store_db s) with
  | Ok (a, d) => Ok (a, mkStore d (store_events s))
  | Err e => Err e
  end.

(** A statement that writes, a statement that reads, and a transaction. *)
Definition q_exec {A} (q : D -> result pg_error (A * D)) : M (Store D Ev) pg_error A :=
  db_tx PgConnection (on_db q).
Definition q_query {A} (q : D -> result pg_error A) : M (Store D Ev) pg_error A :=
  q_exec (fun d => match q d with Ok a => Ok (a, d) | Err e => Err e end).
Definition with_tx {E A} (down : E) (body : D -> result E (A * D)) : M (Store D Ev) E A :=
  db_tx down (on_db body).

(** Publishing is best effort: a failure is ignored. *)
Definition emit {E} (has_publisher : bool) (ev : Ev) : M (Store D Ev) E unit :=
  if has_publisher
  then best_effort (fun s => mkStore (store_db s) (store_events s ++ [ev]))
  else mret tt.

(** The text of an error that came from the database driver. *)
Definition pg_text {T} (e : pg_error) : error T :=
  match e with
  | PgNoRows => EText "no rows in result set"
  | PgUniqueViolation => EText "SQLSTATE 23505"
  | PgConstraint => EText "constraint violation"
  | PgConnection => EText "connection failed"
  end.
(** [return fmt.Errorf(text, err)] *)
Definition pg_wrap {T} (text : string) (e : pg_error) : error T := EWrap text (pg_text e).
(** [if errors.Is(err, pgx.ErrNoRows) { return sentinel }; return fmt.Errorf(text, err)] *)
Definition no_rows_as {T} (s : T) (text : string) (e : pg_error) : error T :=
  match e with PgNoRows => ESent s | _ => pg_wrap text e end.

(** ** Rely-guarantee rules *)

(** The database moves along [R]; the events may only grow. *)
Definition store_step (R : D -> D -> Prop) (s s' : Store D Ev) : Prop :=
  R (store_db s) (store_db s') /\ store_events s `prefix_of` store_events s'.

#[export] Instance store_step_preorder (R : D -> D -> Prop) :
  PreOrder R -> PreOrder (store_step R).
Proof.
  intros HR. split; [intros s; by split|]. intros s1 s2 s3 [H1 P1] [H2 P2]. split; by etrans.
Qed.

Section rules.
Context {R : D -> D -> Prop} `{!PreOrder R}.

Lemma steps_store_tx_from {E A} (down : E) (body : D -> result E (A * D)) w :
  (forall d a d', R (store_db (w_st w)) d -> body d = Ok (a, d') -> R d d') ->
  steps (store_step R) (with_tx down body) w.
Proof.
  intros Hq. apply steps_tx. intros s1 a s2 _ [Hs _] H. unfold on_db in H.
  destruct (body (store_db s1)) as [[a' d]|] eqn:Hd; simplify_eq. split; [by eapply Hq|done].
Qed.
Lemma steps_store_tx {E A} (down : E) (body : D -> result E (A * D)) w :
  (forall d a d', body d = Ok (a, d') -> R d d') -> steps (store_step R) (with_tx down body) w.
Proof. intros Hq. apply steps_store_tx_from. eauto. Qed.
(** The statement runs on a state the other requests reached from here. *)
Lemma steps_store_exec_from {A} (q : D -> result pg_error (A * D)) w :
  (forall d a d', R (store_db (w_st w)) d -> q d = Ok (a, d') -> R d d') ->
  steps (store_step R) (q_exec q) w.
Proof. apply steps_store_tx_from. Qed.
Lemma steps_store_exec {A} (q : D -> result pg_error (A * D)) w :
  (forall d a d', q d = Ok (a, d') -> R d d') -> steps (store_step R) (q_exec q) w.
Proof. intros Hq. apply steps_store_exec_from. eauto. Qed.

Lemma steps_store_query {A} (q : D -> result pg_error A) w : steps (store_step R) (q_query q) w.
Proof. apply steps_store_exec. intros d a d' H. destruct (q d); by simplify_eq. Qed.

Lemma steps_emit {E} b ev w : steps (store_step R) (emit (E:=E) b ev) w.
Proof.
  unfold emit. destruct b; [|apply steps_ret]. apply steps_best_effort.
  intros s. split; [done|]. by eexists.
Qed.

(** A successful query read the state it left. *)
Lemma store_query_Ok {A} (q : D -> result pg_error A) w a w' :
  q_query q w = (Ok a, w') -> rely (store_step R) w ->
  store_step R (w_st w) (w_st w') /\ q (store_db (w_st w')) = Ok a /\ rely (store_step R) w'.
Proof.
  intros H HR. destruct (steps_run (q_query q) w _ _ (steps_store_query q w) H HR) as [Hs HR'].
  split; [done|]. split; [|done].
  apply tx_Ok in H as [Hok _]. unfold on_db in Hok. revert Hok.
  destruct (q (store_db _)) as [a'|] eqn:Hq; [|done]. intros [= -> Hst]. by rewrite <-Hst.
Qed.

(** The same without a rely. *)
Lemma store_query_read {A} (q : D -> result pg_error A) w a w' :
  q_query q w = (Ok a, w') -> q (store_db (w_st w')) = Ok a.
Proof.
  intros [Hok _]%tx_Ok. unfold on_db in Hok. revert Hok.
  destruct (q (store_db _)) as [a'|] eqn:Hq; [|done]. intros [= -> Hst]. by rewrite <-Hst.
Qed.

(** A successful statement ran on a state the others had left. *)
Lemma store_exec_Ok {A} (q : D -> result pg_error (A * D)) w a w' :
  q_exec q w = (Ok a, w') -> rely (store_step R) w ->
  exists d, R (store_db (w_st w)) d /\ q d = Ok (a, store_db (w_st w')) /\ rely (store_step R) w'.
Proof.
  intros H HR. apply tx_Ok in H as [Hok Ho]. unfold on_db in Hok.
  exists (store_db (w_other w (env_fault_pos (w_env w)) (w_st w))).
  split; [by apply HR|]. split.
  - destruct (q _) as [[a' d]|]; [|done]. injection Hok as -> Hst. by rewrite <-Hst.
  - intros n s. rewrite Ho. apply HR.
Qed.

End rules.

(** ** Quiet-world rules *)

Lemma evals_with_tx {E A} (down : E) (body : D -> result E (A * D)) w a d :
  quiet w -> body (store_db (w_st w)) = Ok (a, d) ->
  evals (with_tx down body) w (Ok a) (mkStore d (store_events (w_st w))).
Proof.
  intros Hw Hq. pose proof (evals_tx down (on_db body) w Hw) as He.
  unfold on_db in He at 2 3. by rewrite Hq in He.
Qed.
Lemma evals_with_tx_err {E A} (down : E) (body : D -> result E (A * D)) w e :
  quiet w -> body (store_db (w_st w)) = Err e -> evals (with_tx down body) w (Err e) (w_st w).
Proof.
  intros Hw Hq. pose proof (evals_tx down (on_db body) w Hw) as He.
  unfold on_db in He at 2 3. by rewrite Hq in He.
Qed.

Lemma evals_store_exec {A} (q : D -> result pg_error (A * D)) w a d :
  quiet w -> q (store_db (w_st w)) = Ok (a, d) ->
  evals (q_exec q) w (Ok a) (mkStore d (store_events (w_st w))).
Proof. apply evals_with_tx. Qed.

Lemma evals_store_exec_err {A} (q : D -> result pg_error (A * D)) w e :
  quiet w -> q (store_db (w_st w)) = Err e -> evals (q_exec q) w (Err e) (w_st w).
Proof. apply evals_with_tx_err. Qed.

Lemma evals_store_query {A} (q : D -> result pg_error A) w :
  quiet w -> evals (q_query q) w (q (store_db (w_st w))) (w_st w).
Proof.
  intros Hw. destruct (q (store_db (w_st w))) as [a|e] eqn:Hq.
  - pose proof (evals_store_exec (fun d => match q d with Ok a => Ok (a, d) | Err e => Err e end) w a
      (store_db (w_st w)) Hw) as He. cbv beta in He. rewrite Hq in He. specialize (He eq_refl).
    destruct (w_st w) eqn:Hs. exact He.
  - apply evals_store_exec_err; [done|]. by rewrite Hq.
Qed.

Lemma reads_store_query {A} (q : D -> result pg_error A) w : quiet w -> reads (q_query q) w.
Proof. intros Hw. eexists. by apply evals_store_query. Qed.

Lemma evals_emit {E} b ev w :
  quiet w ->
  evals (emit (E:=E) b ev) w (Ok tt)
    (mkStore (store_db (w_st w)) (store_events (w_st w) ++ if b then [ev] else [])).
Proof.
  intros Hq. unfold emit. destruct b; [exact (evals_best_effort _ w Hq)|].
  rewrite app_nil_r. exists w. split; [done|]. split; [by destruct (w_st w)|done].
Qed.

End store.

(** Decides that a program of queries only reads. *)
Ltac reads_tac :=
  repeat match goal with
  | |- forall _, _ => intros ?
  | |- reads (_ ≫= _) _ => apply reads_bind
  | |- reads (lift_result _) _ => apply reads_pure; assumption
  | |- reads (mret _) _ => apply reads_ret; assumption
  | |- reads (map_err _ _) _ => apply reads_map_err
  | |- reads (q_query _) _ => apply reads_store_query; assumption
  end.

(** Follows a chain of steps to its end. *)
Ltac step_chain :=
  repeat match goal with H : store_step _ _ _ |- _ => destruct H as [H _] end;
  repeat first [eassumption | etrans; [eassumption|]].

(** ** Tables that change row by row *)

(** Every row of [t] is kept, or replaced as [Q] allows; a new row is one [Q]
    allows over none. *)
Definition table_step {A} (Q : uuid -> option A -> A -> Prop) (t t' : gmap uuid A) : Prop :=
  forall k, t' !! k = t !! k \/ exists r', t' !! k = Some r' /\ Q k (t !! k) r'.

Section table_step.
Context {A : Type} {Q : uuid -> option A -> A -> Prop}.
Implicit Types (t : gmap uuid A).

Lemma table_step_refl t : table_step Q t t.
Proof. intros k. by left. Qed.

Lemma table_step_preorder :
  (forall k o r1 r2, Q k o r1 -> Q k (Some r1) r2 -> Q k o r2) -> PreOrder (table_step Q).
Proof.
  intros HQ. split; [exact table_step_refl|]. intros t1 t2 t3 H1 H2 k.
  destruct (H2 k) as [->|(r2 & -> & HQ2)]; [apply H1|]. right. exists r2. split; [done|].
  destruct (H1 k) as [He|(r1 & He & HQ1)]; [by rewrite <-He|]. rewrite He in HQ2. by eapply HQ.
Qed.

Lemma table_step_insert t k r : Q k (t !! k) r -> table_step Q t (<[k := r]> t).
Proof.
  intros HQ k'. destruct (decide (k = k')) as [<-|Hne]; [right|left; by apply lookup_insert_ne].
  exists r. split; [apply lookup_insert_eq|done].
Qed.

(** A property of rows that [Q] establishes or keeps. *)
Lemma table_step_forall (P : uuid -> A -> Prop) t t' :
  (forall k o r, Q k o r -> (forall r0, o = Some r0 -> P k r0) -> P k r) ->
  table_step Q t t' -> map_Forall P t -> map_Forall P t'.
Proof.
  intros HQ Hst Ht k r Hk. destruct (Hst k) as [He|(r' & He & HQ')].
  - apply (Ht k). congruence.
  - rewrite Hk in He. injection He as <-. apply (HQ _ _ _ HQ'). intros r0 Hr0. by apply (Ht k).
Qed.

(** A row that was there and what became of it. *)
Lemma table_step_some t t' k r :
  table_step Q t t' -> t !! k = Some r ->
  exists r', t' !! k = Some r' /\ (r' = r \/ Q k (Some r) r').
Proof.
  intros Hst Hk. destruct (Hst k) as [He|(r' & He & HQ')].
  - exists r. split; [congruence|by left].
  - exists r'. split; [done|]. right. by rewrite <-Hk.
Qed.

(** Rows [Q] cannot touch are the same before and after. *)
Lemma table_step_filter (P : A -> Prop) `{!forall r, Decision (P r)} t t' :
  (forall k o r, Q k o r -> ~ P r /\ forall r0, o = Some r0 -> ~ P r0) ->
  table_step Q t t' -> filter (fun kv => P kv.2) t = filter (fun kv => P kv.2) t'.
Proof.
  intros HQ Hst. apply map_eq. intros k. apply option_eq. intros r.
  rewrite !map_lookup_filter_Some. simpl. destruct (Hst k) as [->|(r' & -> & HQ')]; [done|].
  destruct (HQ _ _ _ HQ') as [Hn Ho]. split; [intros [Hk HP]|intros [[= ->] HP]; done].
  by destruct (Ho r Hk).
Qed.

End table_step.
