(* ===== verification/GoStd.v ===== *)
(** The parts of Go's standard library the services use: byte strings with
    their UTF-8 runes ([unicode/utf8], [strings]), decimal formatting
    ([strconv], [fmt]), the bare-address form of [net/mail], and the civil
    calendar of [time].  Strings are byte strings, as in Go. *)

From stdpp Require Import pretty.
From S2P Require Export Prelude.
From Stdlib Require Export Ascii.
Local Open Scope Z_scope.

(** ** Bytes and runes *)

Definition byte_of (c : ascii) : N := N_of_ascii c.

Definition is_digit (c : ascii) : bool :=
  bool_decide (48 <= byte_of c)%N && bool_decide (byte_of c <= 57)%N.
Definition is_upper (c : ascii) : bool :=
  bool_decide (65 <= byte_of c)%N && bool_decide (byte_of c <= 90)%N.
Definition is_lower (c : ascii) : bool :=
  bool_decide (97 <= byte_of c)%N && bool_decide (byte_of c <= 122)%N.

Fixpoint string_forallb (p : ascii -> bool) (s : string) : bool :=
  match s with
  | EmptyString => true
  | String c s' => p c && string_forallb p s'
  end.

Fixpoint string_length_le (n : nat) (s : string) : bool :=
  match s, n with
  | EmptyString, _ => true
  | String _ _, O => false
  | String _ s', S n' => string_length_le n' s'
  end.

(** A UTF-8 continuation byte. *)
Definition is_cont (b : N) : bool := bool_decide (128 <= b)%N && bool_decide (b <= 191)%N.
Definition in_range (lo b hi : N) : bool := bool_decide (lo <= b)%N && bool_decide (b <= hi)%N.

(** [utf8.DecodeRune]: the code point of the first rune and its width in
    bytes.  An ill-formed sequence is U+FFFD of width 1. *)
Definition decode_rune (l : list N) : N * nat :=
  match l with
  | [] => (65533%N, 0%nat)
  | b0 :: r =>
    if bool_decide (b0 < 128)%N then (b0, 1%nat)
    else match r with
    | b1 :: r1 =>
      if in_range 194 b0 223 && is_cont b1 then
        (((b0 - 192) * 64 + (b1 - 128))%N, 2%nat)
      else match r1 with
      | b2 :: r2 =>
        let lo1 := if bool_decide (b0 = 224)%N then 160%N else 128%N in
        let hi1 := if bool_decide (b0 = 237)%N then 159%N else 191%N in
        if in_range 224 b0 239 && in_range lo1 b1 hi1 && is_cont b2 then
          (((b0 - 224) * 4096 + (b1 - 128) * 64 + (b2 - 128))%N, 3%nat)
        else match r2 with
        | b3 :: _ =>
          let lo1 := if bool_decide (b0 = 240)%N then 144%N else 128%N in
          let hi1 := if bool_decide (b0 = 244)%N then 143%N else 191%N in
          if in_range 240 b0 244 && in_range lo1 b1 hi1 && is_cont b2 && is_cont b3 then
            (((b0 - 240) * 262144 + (b1 - 128) * 4096 + (b2 - 128) * 64 + (b3 - 128))%N, 4%nat)
          else (65533%N, 1%nat)
        | [] => (65533%N, 1%nat)
        end
      | [] => (65533%N, 1%nat)
      end
    | [] => (65533%N, 1%nat)
    end
  end.

Definition bytes_of (s : string) : list N := byte_of <$> String.list_ascii_of_string s.
Definition of_bytes (l : list N) : string := String.string_of_list_ascii (ascii_of_N <$> l).

(** The string cut into runes, each with the bytes it was decoded from. *)
Fixpoint runes_go (fuel : nat) (l : list N) : list (N * list N) :=
  match fuel, l with
  | _, [] => []
  | O, _ => []
  | S f, _ :: _ =>
    let '(r, w) := decode_rune l in
    (r, take w l) :: runes_go f (drop w l)
  end.
Definition runes (s : string) : list (N * list N) :=
  let l := bytes_of s in runes_go (length l) l.
Definition of_runes (rs : list (N * list N)) : string := of_bytes (mjoin (rs.*2)).

(** [utf8.RuneCountInString] *)
Definition RuneCountInString (s : string) : Z := Z.of_nat (length (runes s)).

(** [len(s)]: bytes. *)
Definition len (s : string) : Z := Z.of_nat (String.length s).

(** [unicode.IsSpace] *)
Definition IsSpace (r : N) : bool :=
  in_range 9 r 13 || bool_decide (r = 32)%N || bool_decide (r = 133)%N
  || bool_decide (r = 160)%N || bool_decide (r = 5760)%N || in_range 8192 r 8202
  || bool_decide (r = 8232)%N || bool_decide (r = 8233)%N || bool_decide (r = 8239)%N
  || bool_decide (r = 8287)%N || bool_decide (r = 12288)%N.

Fixpoint drop_spaces (rs : list (N * list N)) : list (N * list N) :=
  match rs with
  | [] => []
  | r :: rs' => if IsSpace r.1 then drop_spaces rs' else rs
  end.

(** [strings.TrimSpace] *)
Definition trim_runes (rs : list (N * list N)) : list (N * list N) :=
  reverse (drop_spaces (reverse (drop_spaces rs))).
Definition TrimSpace (s : string) : string := of_runes (trim_runes (runes s)).

(** [unicode.ToUpper] on the runes that matter to the callers: ASCII letters
    and the two other runes whose upper case is an ASCII letter (dotless i,
    long s).  Any other rune is kept: every caller goes on to match the result
    against an ASCII pattern or table, which a non-ASCII rune fails either way. *)
Definition upper_rune (r : N * list N) : N * list N :=
  if in_range 97 r.1 122 then ((r.1 - 32)%N, [(r.1 - 32)%N])
  else if bool_decide (r.1 = 305)%N then (73%N, [73%N])
  else if bool_decide (r.1 = 383)%N then (83%N, [83%N])
  else r.
Definition ToUpper (s : string) : string := of_runes (upper_rune <$> runes s).

(** [strings.NewReplacer(" ", "", "-", "").Replace] *)
Fixpoint strip_separators (s : string) : string :=
  match s with
  | EmptyString => EmptyString
  | String c s' =>
    if bool_decide (c = " "%char) || bool_decide (c = "-"%char) then strip_separators s'
    else String c (strip_separators s')
  end.

(** The regular expressions of the ledger: [^[0-9]{4,}$], [^[A-Z]{3}$]. *)
Definition matches_digits4 (s : string) : bool :=
  string_forallb is_digit s && bool_decide (4 <= String.length s)%nat.
Definition matches_upper3 (s : string) : bool :=
  string_forallb is_upper s && bool_decide (String.length s = 3)%nat.

(** [s[i:]] *)
Definition slice_from (i : nat) (s : string) : string :=
  String.substring i (String.length s - i) s.

(** ** Decimal numerals *)

Definition digit_val (c : ascii) : N := (byte_of c - 48)%N.

(** The number a string of ASCII digits denotes, read after the digits of
    [acc]; [None] on any other byte. *)
Fixpoint string_to_N (acc : N) (s : string) : option N :=
  match s with
  | EmptyString => Some acc
  | String c s' => if is_digit c then string_to_N (10 * acc + digit_val c)%N s' else None
  end.

Fixpoint zeros (n : nat) : string :=
  match n with O => "" | S n' => String "0"%char (zeros n') end.

(** [%d] and [strconv.Itoa]. *)
Definition Itoa (z : Z) : string := pretty z.

(** [%0nd] for a non-negative number. *)
Definition pad0 (width : nat) (z : Z) : string :=
  let s := Itoa z in zeros (width - String.length s) +:+ s.

(** ** Bare mail addresses *)

(** [isAtext] of net/mail, the dot aside, on one rune. *)
Definition is_atext (r : N) : bool :=
  in_range 48 r 57 || in_range 65 r 90 || in_range 97 r 122
  || bool_decide (r ∈ bytes_of "!#$%&'*+-/=?^_`{|}~") || bool_decide (128 <= r)%N.

(** A dot-atom: atext runs separated by single dots, none empty. *)
Fixpoint dot_atom (prev_dot : bool) (rs : list N) : bool :=
  match rs with
  | [] => negb prev_dot
  | r :: rs' =>
    if bool_decide (r = 46)%N then negb prev_dot && dot_atom true rs'
    else is_atext r && dot_atom false rs'
  end.

Fixpoint split_at_sign (rs : list N) : option (list N * list N) :=
  match rs with
  | [] => None
  | r :: rs' =>
    if bool_decide (r = 64)%N then Some ([], rs')
    else (fun p => (r :: p.1, p.2)) <$> split_at_sign rs'
  end.

(** Whether [mail.ParseAddress(s)] succeeds and returns an Address equal to
    [s]: the bare [local@domain] form.  The named, quoted and commented forms
    either fail to parse or return a different Address, so the callers reject
    them alike.  Bracketed domain literals are not covered. *)
Definition mail_bare_address (s : string) : bool :=
  let rs := runes s in
  forallb (fun r => negb (bool_decide (r.1 = 65533)%N)) rs &&
  match split_at_sign (rs.*1) with
  | Some (loc, dom) => dot_atom true loc && dot_atom true dom
  | None => false
  end.

(** ** Civil time *)

Definition ns_per_sec : Z := 1000000000.
Definition ns_per_day : Z := 86400 * ns_per_sec.

(** The proleptic Gregorian (year, month, day) of a day number counted from
    1970-01-01. *)
Definition civil_of_days (d : Z) : Z * Z * Z :=
  let z := d + 719468 in
  let era := z / 146097 in
  let doe := z - era * 146097 in
  let yoe := (doe - doe / 1460 + doe / 36524 - doe / 146096) / 365 in
  let doy := doe - (365 * yoe + yoe / 4 - yoe / 100) in
  let mp := (5 * doy + 2) / 153 in
  let day := doy - (153 * mp + 2) / 5 + 1 in
  let month := if decide (mp < 10) then mp + 3 else mp - 9 in
  let year := yoe + era * 400 + (if decide (month <= 2) then 1 else 0) in
  (year, month, day).

(** [t.UTC().Year()] and [t.UTC().Month()]. *)
Definition year_utc (t : Time) : Z := (civil_of_days (t / ns_per_day)).1.1.
Definition month_utc (t : Time) : Z := (civil_of_days (t / ns_per_day)).1.2.

(** The day number of a civil date; a day outside its month runs on into the
    next ones. *)
Definition days_of_civil (y m d : Z) : Z :=
  let y' := if decide (m <= 2) then y - 1 else y in
  let era := y' / 400 in
  let yoe := y' - era * 400 in
  let mp := if decide (2 < m) then m - 3 else m + 9 in
  let doy := (153 * mp + 2) / 5 + d - 1 in
  era * 146097 + (yoe * 365 + yoe / 4 - yoe / 100 + doy) - 719468.

(** [time.Time{}]: the first instant of year 1. *)
Definition zero_time : Time := -62135596800 * ns_per_sec.

(** [t.UTC().Format(time.RFC3339)] *)
Definition format_rfc3339 (t : Time) : string :=
  let '(y, m, d) := civil_of_days (t / ns_per_day) in
  let sec := (t / ns_per_sec) `mod` 86400 in
  pad0 4 y +:+ "-" +:+ pad0 2 m +:+ "-" +:+ pad0 2 d +:+ "T" +:+ pad0 2 (sec / 3600)
    +:+ ":" +:+ pad0 2 ((sec / 60) `mod` 60) +:+ ":" +:+ pad0 2 (sec `mod` 60) +:+ "Z".

(** The pieces [time.Parse] reads: a fixed number of digits, an hour of one or
    two, a given byte. *)
Fixpoint fixed_digits (n : nat) (acc : Z) (s : string) : option (Z * string) :=
  match n, s with
  | O, _ => Some (acc, s)
  | S n', String c s' =>
    if is_digit c then fixed_digits n' (10 * acc + Z.of_N (digit_val c)) s' else None
  | S _, EmptyString => None
  end.
Definition hour_digits (s : string) : option (Z * string) :=
  match fixed_digits 2 0 s with Some r => Some r | None => fixed_digits 1 0 s end.
Definition expect (c : ascii) (s : string) : option string :=
  match s with
  | String c' s' => if decide (c' = c) then Some s' else None
  | EmptyString => None
  end.

(** Nanoseconds of a fraction: the first nine digits count, the rest are dropped. *)
Fixpoint fraction_digits (unit_ : Z) (s : string) : Z * string :=
  match s with
  | String c s' =>
    if is_digit c
    then let '(n, rest) := fraction_digits (unit_ / 10) s' in (Z.of_N (digit_val c) * unit_ + n, rest)
    else (0, s)
  | EmptyString => (0, s)
  end.
Definition fraction (s : string) : Z * string :=
  match s with
  | String c (String d _ as s') =>
    if (bool_decide (c = "."%char) || bool_decide (c = ","%char)) && is_digit d
    then fraction_digits 100000000 s' else (0, s)
  | _ => (0, s)
  end.

(** Z, or a signed hh:mm; the bounds are those of the Go code. *)
Definition zone_offset (s : string) : option (Z * string) :=
  match s with
  | String c s' =>
    if decide (c = "Z"%char) then Some (0, s')
    else sign ← (if decide (c = "+"%char) then Some 1 else if decide (c = "-"%char) then Some (-1) else None);
         '(hh, s) ← fixed_digits 2 0 s'; s ← expect ":" s; '(mm, s) ← fixed_digits 2 0 s;
         if decide (hh <= 24 /\ mm <= 60) then Some (sign * (hh * 3600 + mm * 60), s) else None
  | EmptyString => None
  end.

(** [time.Parse(time.RFC3339, s)] *)
Definition parse_rfc3339 (s : string) : option Time :=
  '(y, s) ← fixed_digits 4 0 s; s ← expect "-" s; '(m, s) ← fixed_digits 2 0 s; s ← expect "-" s;
  '(d, s) ← fixed_digits 2 0 s; s ← expect "T" s; '(hh, s) ← hour_digits s; s ← expect ":" s;
  '(mi, s) ← fixed_digits 2 0 s; s ← expect ":" s; '(ss, s) ← fixed_digits 2 0 s;
  let '(ns, s) := fraction s in
  '(offset, s) ← zone_offset s;
  let days_in_month := days_of_civil y (m + 1) 1 - days_of_civil y m 1 in
  if decide (s = "" /\ 1 <= m <= 12 /\ 1 <= d <= days_in_month /\ hh < 24 /\ mi < 60 /\ ss < 60)
  then Some ((days_of_civil y m d * 86400 + hh * 3600 + mi * 60 + ss - offset) * ns_per_sec + ns)
  else None.

(** The first day of a month as (year, month); [AddDate(0, 1, 0)] on it. *)
Definition month_index (ym : Z * Z) : Z := ym.1 * 12 + (ym.2 - 1).
Definition of_month_index (i : Z) : Z * Z := (i / 12, i `mod` 12 + 1).
Definition next_month (ym : Z * Z) : Z * Z := of_month_index (month_index ym + 1).

(** [t.AddDate(years, months, days)] in UTC: a month past December runs on into
    the next years, a day past the end of the month into the next months. *)
Definition AddDate (years months days : Z) (t : Time) : Time :=
  let '(y, m, d) := civil_of_days (t / ns_per_day) in
  let '(y', m') := of_month_index (month_index (y + years, m + months)) in
  (days_of_civil y' m' 1 + (d - 1) + days) * ns_per_day + t `mod` ns_per_day.

(** [Format("2006-01")] for years 0 to 9999. *)
Definition format_month (ym : Z * Z) : string := pad0 4 ym.1 +:+ "-" +:+ pad0 2 ym.2.

(** [time.Parse("2006-01", s)]: four digits, a dash, two digits for a month
    from 01 to 12, and nothing after. *)
Definition parse_month (s : string) : option (Z * Z) :=
  match s with
  | String y1 (String y2 (String y3 (String y4 (String d (String m1 (String m2 EmptyString)))))) =>
    let ys := String y1 (String y2 (String y3 (String y4 EmptyString))) in
    let ms := String m1 (String m2 EmptyString) in
    match string_to_N 0 ys, string_to_N 0 ms with
    | Some y, Some m =>
      if decide (d = "-"%char /\ 1 <= m <= 12)%N then Some (Z.of_N y, Z.of_N m) else None
    | _, _ => None
    end
  | _ => None
  end.

Example rfc3339_ex :
  format_rfc3339 <$> parse_rfc3339 "2024-12-31T23:59:59+05:30" = Some "2024-12-31T18:29:59Z"
  /\ parse_rfc3339 "2023-02-29T00:00:00Z" = None.
Proof. by vm_compute. Qed.
Example AddDate_ex :
  (fun t => (format_rfc3339 (AddDate 0 1 0 t), format_rfc3339 (AddDate 1 0 0 t)))
    <$> parse_rfc3339 "2024-01-31T10:00:00Z"
  = Some ("2024-03-02T10:00:00Z", "2025-01-31T10:00:00Z").
Proof. by vm_compute. Qed.

(** ** Durations and machine integers *)

Definition ns_per_hour : Z := 3600 * ns_per_sec.
Definition max_duration : Z := 2 ^ 63 - 1.
Definition min_duration : Z := - 2 ^ 63.
(** [t.Sub(u)]: a Duration is an int64; the difference saturates. *)
Definition time_Sub (t u : Time) : Z := Z.max min_duration (Z.min max_duration (t - u)).
(** int64 arithmetic wraps. *)
Definition int64 (z : Z) : Z := (z + 2 ^ 63) `mod` 2 ^ 64 - 2 ^ 63.
Definition int32 (z : Z) : Z := (z + 2 ^ 31) `mod` 2 ^ 32 - 2 ^ 31.

(** ** Lemmas: numerals *)

Lemma digit_char x :
  (x < 10)%N -> is_digit (pretty_N_char x) = true /\ digit_val (pretty_N_char x) = x.
Proof.
  intros Hx.
  assert (x = 0 \/ x = 1 \/ x = 2 \/ x = 3 \/ x = 4 \/ x = 5 \/ x = 6 \/ x = 7
          \/ x = 8 \/ x = 9)%N as Hc by lia.
  repeat (destruct Hc as [-> | Hc]; [by split|]). subst; by split.
Qed.

Lemma string_to_N_go x s :
  string_to_N 0 (pretty_N_go x s) = string_to_N x s.
Proof.
  revert s. induction (N.lt_wf_0 x) as [x _ IH]; intros s.
  destruct (decide (0 < x)%N) as [Hx|]; [|by replace x with 0%N by lia; rewrite pretty_N_go_0].
  rewrite pretty_N_go_step by done. rewrite IH by (by apply N.div_lt).
  destruct (digit_char (x `mod` 10)) as [Hd Hv]; [by apply N.mod_lt|].
  cbn [string_to_N]. rewrite Hd, Hv. f_equal.
  symmetry; by apply N.div_mod.
Qed.

Lemma string_to_N_pretty x : string_to_N 0 (pretty x) = Some x.
Proof.
  unfold pretty, pretty_N. case_decide; [by subst|].
  by rewrite string_to_N_go.
Qed.

Lemma string_to_N_zeros n s : string_to_N 0 (zeros n +:+ s) = string_to_N 0 s.
Proof. induction n; [done|]. cbn. done. Qed.

(** A zero-padded numeral determines its number. *)
Lemma pad0_value w z : 0 <= z -> string_to_N 0 (pad0 w z) = Some (Z.to_N z).
Proof.
  intros Hz. unfold pad0, Itoa. rewrite string_to_N_zeros.
  destruct z as [|p|p]; [done| |lia]. apply (string_to_N_pretty (N.pos p)).
Qed.

Lemma pad0_inj w z z' : 0 <= z -> 0 <= z' -> pad0 w z = pad0 w z' -> z = z'.
Proof.
  intros Hz Hz' Heq. pose proof (pad0_value w z Hz) as H1. rewrite Heq, pad0_value in H1 by done.
  simplify_eq. lia.
Qed.

Lemma string_length_app s t : String.length (s +:+ t) = (String.length s + String.length t)%nat.
Proof.
  induction s as [|c s IH]; [done|].
  change (S (String.length (s +:+ t)) = S (String.length s + String.length t)). by rewrite IH.
Qed.

Lemma zeros_length n : String.length (zeros n) = n.
Proof.
  induction n as [|n IH]; [done|]. change (S (String.length (zeros n)) = S n). by rewrite IH.
Qed.

Lemma pretty_N_go_length n x s :
  (x < 10 ^ N.of_nat n)%N ->
  (String.length (pretty_N_go x s) <= n + String.length s)%nat.
Proof.
  revert x s. induction n as [|n IH]; intros x s Hx.
  { replace x with 0%N by (simpl in Hx; lia). by rewrite pretty_N_go_0. }
  destruct (decide (0 < x)%N) as [H0|]; [|replace x with 0%N by lia; rewrite pretty_N_go_0; lia].
  rewrite pretty_N_go_step by done.
  etrans; [apply IH|simpl; lia].
  rewrite Nat2N.inj_succ, N.pow_succ_r' in Hx. apply N.Div0.div_lt_upper_bound. lia.
Qed.

Lemma pad0_length w z :
  (1 <= w)%nat -> 0 <= z < 10 ^ Z.of_nat w -> String.length (pad0 w z) = w.
Proof.
  intros Hw Hz. unfold pad0. rewrite string_length_app, zeros_length.
  enough (String.length (Itoa z) <= w)%nat by lia.
  unfold Itoa. destruct z as [|p|p]; [simpl; lia| |lia].
  change (pretty (Z.pos p)) with (pretty (N.pos p)). unfold pretty, pretty_N.
  case_decide; [done|].
  etrans; [apply (pretty_N_go_length w)|simpl; lia].
  apply N2Z.inj_lt. rewrite N2Z.inj_pow, nat_N_Z. apply Hz.
Qed.

(** A numeral is made of digits, so a separator ends it. *)
Lemma pretty_N_go_digits x s :
  string_forallb is_digit s = true -> string_forallb is_digit (pretty_N_go x s) = true.
Proof.
  revert s. induction (N.lt_wf_0 x) as [x _ IH]; intros s Hs.
  destruct (decide (0 < x)%N) as [Hx|]; [|by replace x with 0%N by lia; rewrite pretty_N_go_0].
  rewrite pretty_N_go_step by done. apply IH; [by apply N.div_lt|].
  change (is_digit (pretty_N_char (x `mod` 10)) && string_forallb is_digit s = true).
  rewrite Hs. destruct (digit_char (x `mod` 10)) as [-> _]; [by apply N.mod_lt|done].
Qed.

Lemma Itoa_digits z : 0 <= z -> string_forallb is_digit (Itoa z) = true.
Proof.
  intros Hz. unfold Itoa. destruct z as [|p|p]; [done| |lia].
  change (pretty (Z.pos p)) with (pretty (N.pos p)). unfold pretty, pretty_N.
  case_decide; [done|]. by apply pretty_N_go_digits.
Qed.

(** The first occurrence of a byte that [p] excludes splits a text one way. *)
Lemma sep_unique (p : ascii -> bool) c a a' b b' :
  p c = false -> string_forallb p a = true -> string_forallb p a' = true ->
  a +:+ String c b = a' +:+ String c b' -> a = a' /\ b = b'.
Proof.
  intros Hc. revert a'. induction a as [|x a IH]; intros [|x' a'] Ha Ha' Heq.
  - injection Heq as ->. done.
  - change (String c b = String x' (a' +:+ String c b')) in Heq. injection Heq as -> _.
    simpl in Ha'. rewrite Hc in Ha'. done.
  - change (String x (a +:+ String c b) = String c b') in Heq. injection Heq as -> _.
    simpl in Ha. rewrite Hc in Ha. done.
  - change (String x (a +:+ String c b) = String x' (a' +:+ String c b')) in Heq.
    injection Heq as -> Heq. simpl in *. apply andb_true_iff in Ha as [_ Ha], Ha' as [_ Ha'].
    destruct (IH a' Ha Ha' Heq) as [-> ->]. done.
Qed.
Lemma digits_sep c a a' b b' :
  is_digit c = false -> string_forallb is_digit a = true -> string_forallb is_digit a' = true ->
  a +:+ String c b = a' +:+ String c b' -> a = a' /\ b = b'.
Proof. apply sep_unique. Qed.

(** A segment of a path. *)
Definition no_slash (s : string) : bool := string_forallb (fun c => negb (bool_decide (c = "/"%char))) s.
Lemma digits_no_slash s : string_forallb is_digit s = true -> no_slash s = true.
Proof.
  unfold no_slash. induction s as [|c s IH]; [done|]. simpl.
  intros [Hc Hs]%andb_true_iff. rewrite IH by done. case_bool_decide; [by subst|done].
Qed.

Lemma Itoa_inj z z' : 0 <= z -> 0 <= z' -> Itoa z = Itoa z' -> z = z'.
Proof.
  intros Hz Hz' Heq. apply (pad0_inj 0 z z' Hz Hz'). unfold pad0. by rewrite Heq.
Qed.

(** Formatting a month and parsing it back. *)
Lemma parse_format_month ym :
  0 <= ym.1 <= 9999 -> 1 <= ym.2 <= 12 -> parse_month (format_month ym) = Some ym.
Proof.
  intros Hy Hm. destruct ym as [y m]; simpl in *. unfold format_month; simpl.
  pose proof (pad0_length 4 y ltac:(lia) ltac:(lia)) as Hly.
  pose proof (pad0_length 2 m ltac:(lia) ltac:(lia)) as Hlm.
  pose proof (pad0_value 4 y ltac:(lia)) as Hvy.
  pose proof (pad0_value 2 m ltac:(lia)) as Hvm.
  destruct (pad0 4 y) as [|y1 [|y2 [|y3 [|y4 [|? ?]]]]]; try done.
  destruct (pad0 2 m) as [|m1 [|m2 [|? ?]]]; try done.
  change (String y1 (String y2 (String y3 (String y4 ""))) +:+ "-" +:+ String m1 (String m2 ""))
    with (String y1 (String y2 (String y3 (String y4 (String "-"%char (String m1 (String m2 ""))))))).
  unfold parse_month. cbv beta iota zeta.
  rewrite Hvy, Hvm. rewrite decide_True by (split; [done|lia]). by rewrite !Z2N.id by lia.
Qed.

Lemma month_of_index ym : 1 <= ym.2 <= 12 -> of_month_index (month_index ym) = ym.
Proof.
  intros Hm. destruct ym as [y m]; unfold of_month_index, month_index; simpl in *.
  rewrite Z.add_comm, Z.div_add, Z_mod_plus_full, Z.div_small, Z.mod_small by lia.
  f_equal; lia.
Qed.
Lemma index_of_month i : month_index (of_month_index i) = i.
Proof.
  unfold of_month_index, month_index; simpl. pose proof (Z.div_mod i 12 ltac:(lia)). lia.
Qed.
Lemma of_month_index_range i : 1 <= (of_month_index i).2 <= 12.
Proof. unfold of_month_index; simpl. pose proof (Z.mod_pos_bound i 12 ltac:(lia)). lia. Qed.

(** A month that parses is a month of the calendar, and prints back. *)
Lemma parse_month_range s ym :
  parse_month s = Some ym -> 0 <= ym.1 <= 9999 /\ 1 <= ym.2 <= 12.
Proof.
  unfold parse_month. intros H.
  repeat (case_match; try done). simplify_eq. simpl.
  repeat match goal with H : _ /\ _ |- _ => destruct H end.
  split; [|lia].
  match goal with H : string_to_N 0 (String _ (String _ (String _ _))) = Some ?n |- _ =>
    revert H; simpl; repeat (case_match; [|done]); intros [= <-] end.
  unfold digit_val. unfold is_digit in *.
  repeat match goal with H : _ && _ = true |- _ =>
    apply andb_true_iff in H as [?%bool_decide_eq_true ?%bool_decide_eq_true] end.
  lia.
Qed.
