(* ===== verification/Platform.v ===== *)
(** The rows of the tenants and users tables, which tenant registration and the
    IAM service both read and write, and PostgreSQL errors with the constraint they name. *)

From S2P Require Export Prelude Store GoStd.
Local Open Scope Z_scope.

(** A timestamptz holds whole microseconds; pgx drops the rest of a parameter. *)
Definition pg_time (t : Time) : Time := t / 1000 * 1000.

Record TenantRow := mkTenantRow {
  tn_ID : uuid;
  tn_Name : string;
  tn_Slug : string;
  tn_Plan : string;
  tn_Status : string;
  tn_CreatedAt : Time;
  tn_IsDemo : bool;
  tn_AddressLine1 : option string;
  tn_AddressLine2 : option string;
  tn_City : option string;
  tn_CountryCode : string;
  tn_PostalCode : option string;
  tn_PrimaryCurrencyCode : string;
  tn_SuspendedAt : option Time;
  tn_DeactivatedAt : option Time;
  tn_HoldUntil : option Time;
  tn_FreezeReason : option string;
  tn_PurgedAt : option Time;
}.

(** The users table. *)
Record UserRow := mkUserRow {
  us_ID : uuid;
  us_TenantID : uuid;
  us_Email : string;
  us_DisplayName : string;
  us_PasswordHash : string;
  us_Status : string;
  us_CreatedAt : Time;
}.

(** A PostgreSQL error that names the violated unique constraint, as
    [pgconn.PgError] does. *)
Inductive named_pg_error :=
| UniqueOn (constraint : string)
| OtherPg (e : pg_error).

(** Domain events (pkg/events) and their publication to NATS JetStream
    (pkg/jetstream).  The published events of a service's [Store] are the
    envelopes its stream holds. *)

Local Open Scope Z_scope.

(** What encoding/json is given; it writes the keys of a map in order. *)
Inductive json :=
| JString (s : string)
| JBool (b : bool)
| JObject (fields : list (string * json)).

(** ** Envelopes *)

Definition SubjectBillingSubscriptionSuspended : string := "thittam.billing.subscription.suspended".

Record Envelope := mkEnvelope {
  env_EventID : uuid;
  env_Type : string;
  env_TenantID : uuid;
  env_OccurredAt : Time;
  env_Payload : json;
}.

Record BillingSubscriptionSuspendedPayload := mkSuspendedPayload {
  sp_SubscriptionID : string;
  sp_SuspendedAt : string;
  sp_PurgeAfter : string;
}.

(** [json.Marshal(payload)]; it cannot fail on a record of strings. *)
Definition marshal_suspended (p : BillingSubscriptionSuspendedPayload) : json :=
  JObject [("subscription_id", JString (sp_SubscriptionID p));
           ("suspended_at", JString (sp_SuspendedAt p)); ("purge_after", JString (sp_PurgeAfter p))].

Section publisher.
Context {D : Type} {T : Type}.
Abbreviation Op := (M (Store D Envelope) (error T)) (only parsing).

(** [uuid.New()] and [time.Now()] of [NewEnvelope], whose payload is already
    JSON. *)
Definition NewEnvelope (eventType : string) (tenantID : uuid) (payload : json) : Op Envelope :=
  id ← uuid_new;
  now ← time_now;
  mret (mkEnvelope id eventType tenantID now payload).

(** The stream stores the message, then acknowledges it; either call may fail, so
    a publication that failed may have been stored. *)
Definition js_publish (env : Envelope) : Op unit :=
  _ ← db_tx (EText "nats: no response from stream")
        (fun s => Ok (tt, mkStore (store_db s) (store_events s ++ [env])));
  with_tx (EText "nats: timeout") (fun d => Ok (tt, d)).

Definition Publish (subject : string) (tenantID : uuid) (payload : json) : Op unit :=
  env ← NewEnvelope subject tenantID payload;
  wrap "jetstream: publish %s: %w" (js_publish env).

End publisher.
