(* ===== verification/External.v ===== *)
(** The third-party libraries the services call, as an interface: operations
    ([External]) and the documented behaviour the proofs rely on
    ([ExternalLaws]).  [shopspring/decimal] is an exact decimal type, so its
    values are rationals; [google/uuid] parses and prints UUIDs; a
    [NUMERIC(14,2)] column rounds what is stored in it.  [ref_external] is a
    concrete instance that satisfies the laws; the witnesses evaluate on it. *)

From stdpp Require Import pretty.
From S2P Require Export GoStd.
From Stdlib Require Export QArith_base Qreduction Qcanon.
Local Open Scope Z_scope.

Class External := {
  (** [decimal.Decimal] *)
  Dec : Type;
  dec_zero : Dec;
  dec_add : Dec -> Dec -> Dec;
  dec_sub : Dec -> Dec -> Dec;
  dec_equal : Dec -> Dec -> bool;
  dec_greater : Dec -> Dec -> bool;
  dec_of_string : string -> option Dec;
  dec_string_fixed2 : Dec -> string;
  (** what a NUMERIC(14,2) column keeps of a value; [None] is "numeric field
      overflow" *)
  dec_numeric_14_2 : Dec -> option Dec;
  (** [uuid.Parse] and [uuid.UUID.String] *)
  uuid_parse : string -> option uuid;
  uuid_string : uuid -> string;
  (** the database's text collation and its [lower()] *)
  text_le : string -> string -> bool;
  text_lower : string -> string;
}.

(** [pgtype.Date]: what [Scan] reads of a text ([None] when it fails, which leaves
    the value NULL), and [Time.Format(time.DateOnly)] of it. *)
Class Dates := {
  Date : Type;
  date_scan : string -> option Date;
  date_format : Date -> string;
}.

(** A value with at most two decimals, and a value the column has room for. *)
Definition two_places (q : Qc) : Prop := exists z : Z, q = Q2Qc (Qmake z 100).
Definition in_column (q : Qc) : Prop := (Q2Qc (- (10 ^ 12)%Z # 1) < q < Q2Qc ((10 ^ 12)%Z # 1))%Qc.

Class ExternalLaws `{External} := {
  dec_val : Dec -> Qc;
  dec_val_zero : dec_val dec_zero = 0%Qc;
  dec_val_add : forall a b, dec_val (dec_add a b) = (dec_val a + dec_val b)%Qc;
  dec_val_sub : forall a b, dec_val (dec_sub a b) = (dec_val a - dec_val b)%Qc;
  dec_equal_spec : forall a b, dec_equal a b = true <-> dec_val a = dec_val b;
  dec_greater_spec : forall a b, dec_greater a b = true <-> (dec_val b < dec_val a)%Qc;
  (** rounding to the column: a stored value is stored again unchanged, and the
      order is kept *)
  dec_numeric_stored : forall a b,
    dec_numeric_14_2 a = Some b -> dec_numeric_14_2 b = Some b;
  dec_numeric_sign : forall a b,
    dec_numeric_14_2 a = Some b -> (0 <= dec_val a)%Qc -> (0 <= dec_val b)%Qc;
  dec_numeric_mono : forall a b a' b',
    dec_numeric_14_2 a = Some a' -> dec_numeric_14_2 b = Some b' ->
    (dec_val a <= dec_val b)%Qc -> (dec_val a' <= dec_val b')%Qc;
  (** the column holds two decimals, and a value with two decimals that it has
      room for as it is *)
  dec_numeric_places : forall a b, dec_numeric_14_2 a = Some b -> two_places (dec_val b);
  dec_numeric_exact : forall a b,
    two_places (dec_val a) -> dec_numeric_14_2 a = Some b -> dec_val b = dec_val a;
  dec_numeric_fits : forall a,
    two_places (dec_val a) -> in_column (dec_val a) -> is_Some (dec_numeric_14_2 a);
  text_le_total : forall s t, text_le s t = true \/ text_le t s = true;
  text_le_trans : forall s t u, text_le s t = true -> text_le t u = true -> text_le s u = true;
  (** digits collate by value, so months written YYYY-MM collate by date *)
  text_le_month : forall a b, 0 <= a.1 <= 9999 -> 0 <= b.1 <= 9999 ->
    1 <= a.2 <= 12 -> 1 <= b.2 <= 12 ->
    text_le (format_month a) (format_month b) = bool_decide (month_index a <= month_index b);
  uuid_parse_string : forall u, (u < 2 ^ 128)%N -> uuid_parse (uuid_string u) = Some u;
  (** hexadecimal digits and dashes *)
  uuid_string_no_slash : forall u, no_slash (uuid_string u) = true;
}.

(** ** A reference instance *)

(** A decimal in thousandths. *)
Definition ref_round (z : Z) : Z :=
  if decide (0 <= z) then (z + 5) / 10 * 10 else - ((- z + 5) / 10 * 10).

Definition ref_uuid_parse (s : string) : option uuid :=
  if decide (s = "") then None
  else match string_to_N 0 s with
       | Some n => if decide (n < 2 ^ 128)%N then Some n else None
       | None => None
       end.

Definition ref_text_rank (s : string) : Z :=
  match parse_month s with Some ym => month_index ym | None => 10 ^ 6 end.
Definition ref_text_le (s t : string) : bool :=
  bool_decide (ref_text_rank s <= ref_text_rank t).

Definition ref_external : External := {|
  Dec := Z;
  dec_zero := 0;
  dec_add := Z.add;
  dec_sub := Z.sub;
  dec_equal := fun a b => bool_decide (a = b);
  dec_greater := fun a b => bool_decide (b < a);
  dec_of_string := fun s => (fun n => Z.of_N n * 1000) <$> string_to_N 0 s;
  dec_string_fixed2 := fun z => pretty (ref_round z);
  dec_numeric_14_2 := fun z =>
    if decide (Z.abs (ref_round z) < 10 ^ 15) then Some (ref_round z) else None;
  uuid_parse := ref_uuid_parse;
  uuid_string := fun u => pretty u;
  text_le := ref_text_le;
  text_lower := fun s => s;
|}.

(** A date that is its text. *)
Definition ref_dates : Dates := {| Date := string; date_scan := Some; date_format := fun d => d |}.

Definition ref_dec_val (z : Z) : Qc := Q2Qc (Qmake z 1000).

(** ** Lemmas on the reference instance *)

Lemma ref_round_idem z : ref_round (ref_round z) = ref_round z.
Proof.
  unfold ref_round. repeat case_decide; try lia;
    repeat match goal with
           | H : context [?a / 10] |- _ => pose proof (Z.div_mod a 10 ltac:(lia));
               pose proof (Z.mod_pos_bound a 10 ltac:(lia));
               generalize dependent (a / 10); intros
           | |- context [?a / 10] => pose proof (Z.div_mod a 10 ltac:(lia));
               pose proof (Z.mod_pos_bound a 10 ltac:(lia));
               generalize dependent (a / 10); intros
           end; lia.
Qed.

Lemma Q2Qc_le a b : (Q2Qc a <= Q2Qc b)%Qc <-> (a <= b)%Q.
Proof. unfold Qcle, Q2Qc; simpl. rewrite !Qred_correct. done. Qed.
Lemma Q2Qc_lt a b : (Q2Qc a < Q2Qc b)%Qc <-> (a < b)%Q.
Proof. unfold Qclt, Q2Qc; simpl. rewrite !Qred_correct. done. Qed.

Lemma ref_round_sign z : 0 <= z -> 0 <= ref_round z.
Proof.
  intros Hz. unfold ref_round. rewrite decide_True by done.
  apply Z.mul_nonneg_nonneg; [|lia]. apply Z.div_pos; lia.
Qed.

Lemma ref_dec_val_inj a b : ref_dec_val a = ref_dec_val b <-> a = b.
Proof.
  unfold ref_dec_val. split; [|by intros ->].
  intros Heq. apply Q2Qc_eq_iff in Heq. unfold Qeq in Heq; simpl in Heq. lia.
Qed.

Lemma ref_dec_val_lt a b : (ref_dec_val a < ref_dec_val b)%Qc <-> a < b.
Proof. unfold ref_dec_val. rewrite Q2Qc_lt. unfold Qlt; simpl. lia. Qed.

Lemma ref_dec_val_nonneg a : (0 <= ref_dec_val a)%Qc <-> 0 <= a.
Proof. unfold ref_dec_val. rewrite (Q2Qc_le 0). unfold Qle; simpl. lia. Qed.

Lemma ref_dec_val_le a b : (ref_dec_val a <= ref_dec_val b)%Qc <-> a <= b.
Proof. unfold ref_dec_val. rewrite Q2Qc_le. unfold Qle; simpl. lia. Qed.

Lemma ref_round_mono a b : a <= b -> ref_round a <= ref_round b.
Proof.
  intros Hab. unfold ref_round. repeat case_decide; try lia;
    repeat match goal with
           | |- context [?a / 10] => pose proof (Z.div_mod a 10 ltac:(lia));
               pose proof (Z.mod_pos_bound a 10 ltac:(lia));
               generalize dependent (a / 10); intros
           end; lia.
Qed.

Lemma ref_two_places a : two_places (ref_dec_val a) <-> (10 | a).
Proof.
  unfold two_places, ref_dec_val. split.
  - intros [z Hz%Q2Qc_eq_iff]. unfold Qeq in Hz; simpl in Hz. exists z. lia.
  - intros [z ->]. exists z. apply Q2Qc_eq_iff. unfold Qeq; simpl. lia.
Qed.

Lemma ref_round_places z : (10 | ref_round z).
Proof.
  unfold ref_round. case_decide; [|apply Z.divide_opp_r]; apply Z.divide_factor_r.
Qed.

Lemma ref_round_exact z : (10 | z) -> ref_round z = z.
Proof.
  intros [k ->]. unfold ref_round. case_decide.
  - replace (k * 10 + 5) with (5 + k * 10) by lia. rewrite Z.div_add by lia.
    change (5 / 10) with 0. lia.
  - replace (- (k * 10) + 5) with (5 + (- k) * 10) by lia. rewrite Z.div_add by lia.
    change (5 / 10) with 0. lia.
Qed.

Lemma ref_in_column a : in_column (ref_dec_val a) <-> Z.abs a < 10 ^ 15.
Proof.
  unfold in_column, ref_dec_val. rewrite !Q2Qc_lt. unfold Qlt; simpl. lia.
Qed.

Lemma ref_dec_val_add a b : ref_dec_val (a + b) = (ref_dec_val a + ref_dec_val b)%Qc.
Proof.
  unfold ref_dec_val, Qcplus. apply Q2Qc_eq_iff. simpl. rewrite !Qred_correct.
  unfold Qeq, Qplus; simpl. lia.
Qed.

Lemma ref_dec_val_sub a b : ref_dec_val (a - b) = (ref_dec_val a - ref_dec_val b)%Qc.
Proof.
  replace (ref_dec_val a) with (ref_dec_val (a - b) + ref_dec_val b)%Qc; [ring|].
  rewrite <-ref_dec_val_add. f_equal. lia.
Qed.

Lemma ref_uuid_parse_string u : (u < 2 ^ 128)%N -> ref_uuid_parse (pretty u) = Some u.
Proof.
  intros Hu. unfold ref_uuid_parse. rewrite string_to_N_pretty.
  case_decide as He; [|by rewrite decide_True].
  exfalso. pose proof (string_to_N_pretty u) as Hp. rewrite He in Hp.
  simpl in Hp. by simplify_eq.
Qed.

#[export] Instance ref_external_laws : @ExternalLaws ref_external.
Proof.
  refine {| dec_val := (ref_dec_val : @Dec ref_external -> Qc) |}; simpl.
  - by apply Q2Qc_eq_iff.
  - apply ref_dec_val_add.
  - apply ref_dec_val_sub.
  - intros a b. rewrite bool_decide_eq_true. symmetry; apply ref_dec_val_inj.
  - intros a b. rewrite bool_decide_eq_true. symmetry; apply ref_dec_val_lt.
  - intros a b. case_decide; [|done]. intros [= <-]. by rewrite ref_round_idem, decide_True.
  - intros a b. case_decide; [|done]. intros [= <-].
    rewrite !ref_dec_val_nonneg. apply ref_round_sign.
  - intros a b a' b'. repeat case_decide; try done. intros [= <-] [= <-].
    rewrite !ref_dec_val_le. apply ref_round_mono.
  - intros a b. case_decide; [|done]. intros [= <-]. apply ref_two_places, ref_round_places.
  - intros a b Ha%ref_two_places. case_decide; [|done]. intros [= <-]. by rewrite ref_round_exact.
  - intros a Ha%ref_two_places Hin%ref_in_column.
    rewrite ref_round_exact by done. rewrite decide_True by done. by eexists.
  - intros s t. unfold ref_text_le. rewrite !bool_decide_eq_true. lia.
  - intros s t u. unfold ref_text_le. rewrite !bool_decide_eq_true. lia.
  - intros a b Ha Hb Ha' Hb'. unfold ref_text_le, ref_text_rank.
    by rewrite !parse_format_month.
  - apply ref_uuid_parse_string.
  - intros u. apply digits_no_slash. destruct u as [|p]; [done|].
    exact (Itoa_digits (Z.pos p) (Zle_0_pos p)).
Defined.

(** ** Sums of decimals *)

Definition qsum (l : list Qc) : Qc := foldr Qcplus 0%Qc l.

Lemma qsum_nil : qsum [] = 0%Qc.
Proof. done. Qed.
Lemma qsum_cons x l : qsum (x :: l) = (x + qsum l)%Qc.
Proof. done. Qed.

#[export] Instance qsum_perm : Proper ((≡ₚ) ==> eq) qsum.
Proof. intros l1 l2 H. induction H; rewrite ?qsum_cons;
  [done|by f_equal|ring|congruence]. Qed.

Lemma qsum_app l1 l2 : qsum (l1 ++ l2) = (qsum l1 + qsum l2)%Qc.
Proof.
  induction l1 as [|x l1 IH]; [rewrite qsum_nil; simpl; ring|].
  rewrite <-app_comm_cons, !qsum_cons, IH. ring.
Qed.

Section decimals.
Context {X : External} {L : ExternalLaws}.

Lemma foldl_dec_add {A} (f : A -> Dec) (l : list A) acc :
  dec_val (foldl (fun acc x => dec_add acc (f x)) acc l)
  = (dec_val acc + qsum (dec_val <$> (f <$> l)))%Qc.
Proof.
  revert acc. induction l as [|x l IH]; intros acc;
    [change (dec_val acc = dec_val acc + 0)%Qc; ring|].
  change (foldl ?g acc (x :: l)) with (foldl g (g acc x) l).
  rewrite IH, dec_val_add, !fmap_cons, qsum_cons. ring.
Qed.

Lemma dec_not_greater a b : dec_greater a b = false <-> (dec_val a <= dec_val b)%Qc.
Proof.
  rewrite <-not_true_iff_false, dec_greater_spec. split; [apply Qcnot_lt_le|apply Qcle_not_lt].
Qed.

Lemma foldr_dec_add l : dec_val (foldr dec_add dec_zero l) = qsum (dec_val <$> l).
Proof.
  induction l as [|x l IH]; [apply dec_val_zero|].
  rewrite fmap_cons, qsum_cons, <-IH. apply dec_val_add.
Qed.

(** Values with two decimals add up to one. *)
Lemma two_places_zero : two_places 0%Qc.
Proof. exists 0. by apply Q2Qc_eq_iff. Qed.
Lemma two_places_add p q : two_places p -> two_places q -> two_places (p + q)%Qc.
Proof.
  intros [z ->] [y ->]. exists (z + y). unfold Qcplus. apply Q2Qc_eq_iff. simpl.
  rewrite !Qred_correct. unfold Qeq, Qplus; simpl. lia.
Qed.
Lemma two_places_qsum l : Forall two_places l -> two_places (qsum l).
Proof.
  induction 1 as [|q l Hq _ IH]; [apply two_places_zero|by apply two_places_add].
Qed.

End decimals.
