(* ===== verification/AuthModel.v ===== *)
(** Authentication: the data of pkg/auth (provider.go, token.go, local.go,
    oidc.go, jwt.go), the Redis keys of the token issuer, and the tables of
    users, roles, assignments, invitations and OIDC configurations of the IAM
    service. *)

From S2P Require Export External Platform.
Local Open Scope Z_scope.

(** ** Authentication requests and results *)

Inductive ProviderType := ProviderLocal | ProviderOIDC.

Record AuthRequest := mkAuthRequest {
  rq_TenantID : uuid;
  rq_Email : string;
  rq_Password : string;
  rq_AuthorizationCode : string;
  rq_RedirectURI : string;
  rq_CodeVerifier : string;
}.

Record AuthResult := mkAuthResult {
  res_UserID : uuid;
  res_TenantID : uuid;
  res_Email : string;
  res_DisplayName : string;
  res_Roles : list string;
  res_Permissions : list string;
  res_AuthMethod : ProviderType;
  res_IsNewUser : bool;
  res_AuthenticatedAt : Time;
}.

Record UserRecord := mkUserRecord {
  rec_ID : uuid;
  rec_TenantID : uuid;
  rec_Email : string;
  rec_DisplayName : string;
  rec_PasswordHash : string;
  rec_Status : string;
  rec_Roles : list string;
  rec_Permissions : list string;
}.

Record OIDCConfig := mkOIDCConfig {
  oc_TenantID : uuid;
  oc_IssuerURL : string;
  oc_ClientID : string;
  oc_ClientSecret : string;
  oc_Scopes : list string;
  oc_EmailClaim : string;
  oc_DisplayNameClaim : string;
  oc_GroupsClaim : string;
  oc_AutoProvision : bool;
  oc_DefaultRole : string;
}.

Record OIDCClaims := mkOIDCClaims {
  cl_Subject : string;
  cl_Email : string;
  cl_DisplayName : string;
  cl_Groups : list string;
}.

(** ** Tokens *)

Record TokenPair := mkTokenPair {
  tp_AccessToken : string;
  tp_RefreshToken : string;
  tp_TokenType : string;
  tp_ExpiresIn : Z;
  tp_ExpiresAt : Time;
}.

Record Claims := mkClaims {
  cm_Subject : uuid;
  cm_TenantID : uuid;
  cm_Email : string;
  cm_Roles : list string;
  cm_Permissions : list string;
  cm_AuthMethod : ProviderType;
  cm_IssuedAt : Time;
  cm_ExpiresAt : Time;
}.

(** The JWT payload; [iat] and [exp] are numeric dates that may be absent. *)
Record jwtClaims := mkJwtClaims {
  jc_Subject : string;
  jc_IssuedAt : option Time;
  jc_ExpiresAt : option Time;
  jc_TenantID : string;
  jc_Email : string;
  jc_Roles : list string;
  jc_Permissions : list string;
  jc_AuthMethod : ProviderType;
}.

Record refreshPayload := mkRefreshPayload {
  rp_UserID : uuid;
  rp_TenantID : uuid;
  rp_Email : string;
  rp_Roles : list string;
  rp_Permissions : list string;
  rp_AuthMethod : ProviderType;
  rp_Generation : Z;
  rp_TenantGeneration : Z;
}.

Record generations := mkGenerations { g_User : Z; g_Tenant : Z }.

Definition DefaultAccessTTL : Z := 15 * 60 * ns_per_sec.
Definition DefaultRefreshTTL : Z := 7 * 24 * ns_per_hour.

(** [JWTConfig], and what [NewJWTIssuer] keeps of it: a zero lifetime is the
    default.  The private key is the [Jwt] instance's. *)
Record JWTConfig := mkJWTConfig { cfg_AccessTTL : Z; cfg_RefreshTTL : Z }.
Record JWTIssuer := mkJWTIssuer { ji_accessTTL : Z; ji_refreshTTL : Z }.
Definition NewJWTIssuer (cfg : JWTConfig) : JWTIssuer :=
  mkJWTIssuer (if decide (cfg_AccessTTL cfg = 0) then DefaultAccessTTL else cfg_AccessTTL cfg)
    (if decide (cfg_RefreshTTL cfg = 0) then DefaultRefreshTTL else cfg_RefreshTTL cfg).
(** The issuer the IAM server starts with ([auth.JWTConfig{}]). *)
Definition tokenIssuer : JWTIssuer := NewJWTIssuer (mkJWTConfig 0 0).

(** ** Users, roles and invitations (services/iam/models.go) *)

Record User := mkUser {
  u_ID : uuid;
  u_TenantID : uuid;
  u_Email : string;
  u_DisplayName : string;
  u_PasswordHash : string;
  u_Status : string;
  u_CreatedAt : Time;
}.

Record Role := mkRole {
  r_ID : uuid;
  r_TenantID : uuid;
  r_Name : string;
  r_Permissions : list string;
  r_IsSystem : bool;
}.

Record UserRole := mkUserRole {
  g_UserID : uuid;
  g_RoleID : uuid;
  g_ProjectID : option uuid;
  g_AssignedBy : uuid;
  g_AssignedAt : Time;
}.

Record Invitation := mkInvitation {
  i_ID : uuid;
  i_TenantID : uuid;
  i_Email : string;
  i_RoleID : option uuid;
  i_Token : string;
  i_Status : string;
  i_InvitedBy : uuid;
  i_ExpiresAt : Time;
  i_CreatedAt : Time;
}.

(** [ClientSecretEnc] is the plain secret until the service encrypts it. *)
Record OIDCConfigParams := mkOIDCConfigParams {
  op_TenantID : string;
  op_IssuerURL : string;
  op_ClientID : string;
  op_ClientSecretEnc : string;
  op_Scopes : list string;
  op_EmailClaim : string;
  op_DisplayNameClaim : string;
  op_GroupsClaim : string;
  op_AutoProvision : bool;
  op_DefaultRole : string;
}.

(** ** Redis *)

(** The issuer's three families of keys, each entry with the instant it expires,
    and the clock the server expires them by.  Time passes there between two
    commands. *)
Record Redis := mkRedis {
  rd_now : Time;
  refresh_tokens : gmap string (refreshPayload * Time);
  user_generations : gmap uuid (Z * Time);
  tenant_generations : gmap uuid (Z * Time);
}.

(** GET: an entry past its time is not there. *)
Definition redis_get {K A} `{Countable K} (now : Time) (t : gmap K (A * Time)) (k : K) : option A :=
  match t !! k with
  | Some (a, e) => if bool_decide (now < e) then Some a else None
  | None => None
  end.
(** INCR: a missing counter starts at 0; then EXPIRE. *)
Definition redis_incr (now ttl : Z) (t : gmap uuid (Z * Time)) (k : uuid) : gmap uuid (Z * Time) :=
  <[k := (default 0 (redis_get now t k) + 1, now + ttl)]> t.

Definition user_generation (u : uuid) (r : Redis) : Z :=
  default 0 (redis_get (rd_now r) (user_generations r) u).
Definition tenant_generation (t : uuid) (r : Redis) : Z :=
  default 0 (redis_get (rd_now r) (tenant_generations r) t).

(** The pipelines of [RevokeAllForUser] and [RevokeAllForTenant]. *)
Definition incr_user_generation (ttl : Z) (u : uuid) (r : Redis) : Redis :=
  mkRedis (rd_now r) (refresh_tokens r) (redis_incr (rd_now r) ttl (user_generations r) u)
    (tenant_generations r).
Definition incr_tenant_generation (ttl : Z) (t : uuid) (r : Redis) : Redis :=
  mkRedis (rd_now r) (refresh_tokens r) (user_generations r)
    (redis_incr (rd_now r) ttl (tenant_generations r) t).

Definition set_refresh (tok : string) (p : refreshPayload) (ttl : Z) (r : Redis) : Redis :=
  mkRedis (rd_now r) (<[tok := (p, rd_now r + ttl)]> (refresh_tokens r)) (user_generations r)
    (tenant_generations r).
Definition get_refresh (tok : string) (r : Redis) : option refreshPayload :=
  redis_get (rd_now r) (refresh_tokens r) tok.
Definition del_refresh (tok : string) (r : Redis) : Redis :=
  mkRedis (rd_now r) (delete tok (refresh_tokens r)) (user_generations r) (tenant_generations r).

(** ** Tables *)

Record RoleRow := mkRoleRow {
  ro_ID : uuid;
  ro_TenantID : uuid;
  ro_Name : string;
  ro_Permissions : list string;
  ro_IsSystem : bool;
}.

Record UserRoleRow := mkUserRoleRow {
  ur_UserID : uuid;
  ur_RoleID : uuid;
  ur_ProjectID : option uuid;
  ur_AssignedBy : uuid;
  ur_AssignedAt : Time;
}.

Record InvitationRow := mkInvitationRow {
  iv_ID : uuid;
  iv_TenantID : uuid;
  iv_Email : string;
  iv_RoleID : option uuid;
  iv_Token : string;
  iv_Status : string;
  iv_InvitedBy : uuid;
  iv_ExpiresAt : Time;
  iv_CreatedAt : Time;
}.

Record AuthConfigRow := mkAuthConfigRow {
  tc_AuthMethod : string;
  tc_IssuerURL : option string;
  tc_ClientID : option string;
  tc_ClientSecretEnc : option string;
  tc_Scopes : list string;
  tc_EmailClaim : string;
  tc_DisplayNameClaim : string;
  tc_GroupsClaim : option string;
  tc_AutoProvision : bool;
  tc_DefaultRole : string;
  tc_CreatedAt : Time;
  tc_UpdatedAt : Time;
}.

(** user_roles has no primary key: its rows sit under the key of
    user_roles_unique, in which a NULL project is the nil UUID. *)
Abbreviation GrantKey := (uuid * uuid * uuid)%type (only parsing).

Record Accounts := mkAccounts {
  users : gmap uuid UserRow;
  roles : gmap uuid RoleRow;
  user_roles : gmap GrantKey UserRoleRow;
  invitations : gmap uuid InvitationRow;
  auth_configs : gmap uuid AuthConfigRow;
}.
Definition set_users (t : gmap uuid UserRow) (a : Accounts) : Accounts :=
  mkAccounts t (roles a) (user_roles a) (invitations a) (auth_configs a).
Definition set_roles (t : gmap uuid RoleRow) (a : Accounts) : Accounts :=
  mkAccounts (users a) t (user_roles a) (invitations a) (auth_configs a).
Definition set_user_roles (t : gmap GrantKey UserRoleRow) (a : Accounts) : Accounts :=
  mkAccounts (users a) (roles a) t (invitations a) (auth_configs a).
Definition set_invitations (t : gmap uuid InvitationRow) (a : Accounts) : Accounts :=
  mkAccounts (users a) (roles a) (user_roles a) t (auth_configs a).
Definition set_auth_configs (t : gmap uuid AuthConfigRow) (a : Accounts) : Accounts :=
  mkAccounts (users a) (roles a) (user_roles a) (invitations a) t.

(** Nothing stored yet. *)
Definition empty_redis (now : Time) : Redis := mkRedis now ∅ ∅ ∅.
Definition empty_accounts : Accounts := mkAccounts ∅ ∅ ∅ ∅ ∅.

(** ** Lemmas *)

Lemma redis_get_Some {K A} `{Countable K} now (t : gmap K (A * Time)) k a :
  redis_get now t k = Some a <-> exists e, t !! k = Some (a, e) /\ now < e.
Proof.
  unfold redis_get. destruct (t !! k) as [[b e]|]; [|by split; [|intros (? & ? & _)]].
  case_bool_decide as Hn; split; [intros [= ->]; by exists e|by intros (? & [= -> _] & _)|done|].
  intros (? & [= _ ->] & ?). lia.
Qed.

(** A counter that was bumped reads one more. *)
Lemma redis_get_incr now ttl t k :
  0 < ttl -> redis_get now (redis_incr now ttl t k) k = Some (default 0 (redis_get now t k) + 1).
Proof. intros Ht. apply redis_get_Some. exists (now + ttl). split; [apply lookup_insert_eq|lia]. Qed.

Lemma tenant_generation_incr ttl t r :
  0 < ttl -> tenant_generation t (incr_tenant_generation ttl t r) = tenant_generation t r + 1.
Proof. intros Ht. unfold tenant_generation. simpl. by rewrite redis_get_incr. Qed.
Lemma user_generation_incr ttl u r :
  0 < ttl -> user_generation u (incr_user_generation ttl u r) = user_generation u r + 1.
Proof. intros Ht. unfold user_generation. simpl. by rewrite redis_get_incr. Qed.
