(* ===== verification/Passwords.v ===== *)
(** The raw encodings of encoding/base64, standard and URL-safe, and what
    [fmt.Sscanf] reads for %d. *)

From stdpp Require Import pretty.
From S2P Require Export GoStd.
Local Open Scope N_scope.

(** ** Alphabets *)

Definition std_alphabet : list ascii :=
  String.list_ascii_of_string "ABCDEFGHIJKLMNOPQRSTUVWXYZabcdefghijklmnopqrstuvwxyz0123456789+/".
Definition url_alphabet : list ascii :=
  String.list_ascii_of_string "ABCDEFGHIJKLMNOPQRSTUVWXYZabcdefghijklmnopqrstuvwxyz0123456789-_".

Definition digit_of (alphabet : list ascii) (v : N) : ascii :=
  default "A"%char (alphabet !! N.to_nat v).
Definition value_of (alphabet : list ascii) (c : ascii) : option N :=
  (fun p => N.of_nat p.1) <$> list_find (fun c' => c' = c) alphabet.

(** ** Encoding *)

(** The sextets of a byte string; a last group of one or two bytes is padded
    with zero bits. *)
Fixpoint sextets_of (l : list N) : list N :=
  match l with
  | [] => []
  | [a] => [a / 4; a mod 4 * 16]
  | [a; b] => [a / 4; a mod 4 * 16 + b / 16; b mod 16 * 4]
  | a :: b :: c :: l' => [a / 4; a mod 4 * 16 + b / 16; b mod 16 * 4 + c / 64; c mod 64] ++ sextets_of l'
  end.
Definition EncodeToString (alphabet : list ascii) (l : list N) : string :=
  String.string_of_list_ascii (digit_of alphabet <$> sextets_of l).

(** ** Decoding *)

(** Carriage returns and newlines are skipped, anything else outside the
    alphabet is an error, and so is a last group of one. *)
Fixpoint values (alphabet : list ascii) (l : list ascii) : option (list N) :=
  match l with
  | [] => Some []
  | c :: l' =>
    if bool_decide (byte_of c = 13) || bool_decide (byte_of c = 10) then values alphabet l'
    else v ← value_of alphabet c; vs ← values alphabet l'; Some (v :: vs)
  end.
Fixpoint bytes_of_sextets (l : list N) : option (list N) :=
  match l with
  | [] => Some []
  | [_] => None
  | [w; x] => Some [w * 4 + x / 16]
  | [w; x; y] => Some [w * 4 + x / 16; x mod 16 * 16 + y / 4]
  | w :: x :: y :: z :: l' =>
    bs ← bytes_of_sextets l'; Some ([w * 4 + x / 16; x mod 16 * 16 + y / 4; y mod 4 * 64 + z] ++ bs)
  end.
Definition DecodeString (alphabet : list ascii) (s : string) : option (list N) :=
  values alphabet (String.list_ascii_of_string s) ≫= bytes_of_sextets.

(** ** Scanning *)

Abbreviation Runes := (list (N * list N)) (only parsing).

(** The characters of a format before its verb. *)
Fixpoint scan_literal (lit : list N) (rs : Runes) : option Runes :=
  match lit, rs with
  | [], _ => Some rs
  | c :: lit', r :: rs' => if decide (r.1 = c) then scan_literal lit' rs' else None
  | _ :: _, [] => None
  end.
(** Spaces before a number; a newline is an error. *)
Fixpoint skip_space (rs : Runes) : option Runes :=
  match rs with
  | [] => Some []
  | r :: rs' => if decide (r.1 = 10) then None else if IsSpace r.1 then skip_space rs' else Some rs
  end.
Fixpoint scan_digits (acc : N) (some : bool) (rs : Runes) : option (N * Runes) :=
  match rs with
  | r :: rs' =>
    if in_range 48 r.1 57 then scan_digits (acc * 10 + (r.1 - 48)) true rs'
    else if some then Some (acc, rs) else None
  | [] => if some then Some (acc, []) else None
  end.
(** %d into an unsigned integer of [w] bits. *)
Definition scan_uint (w : N) (rs : Runes) : option (N * Runes) :=
  '(n, rs') ← skip_space rs ≫= scan_digits 0 false;
  if bool_decide (n < 2 ^ w) then Some (n, rs') else None.
(** %d into an [int]: a sign may come first. *)
Definition scan_int (rs : Runes) : option (Z * Runes) :=
  rs1 ← skip_space rs;
  let '(neg, rs2) := match rs1 with
                     | r :: rs' => if decide (r.1 = 45) then (true, rs')
                                   else if decide (r.1 = 43) then (false, rs') else (false, rs1)
                     | [] => (false, [])
                     end in
  '(n, rs3) ← scan_digits 0 false rs2;
  let z := if neg : bool then (- Z.of_N n)%Z else Z.of_N n in
  if bool_decide (- 2 ^ 63 <= z < 2 ^ 63)%Z then Some (z, rs3) else None.

(** [strings.Split(s, c)] *)
Fixpoint Split (c : ascii) (s : string) : list string :=
  match s with
  | EmptyString => [""]
  | String c' s' =>
    if decide (c' = c) then "" :: Split c s'
    else match Split c s' with
         | p :: ps => String c' p :: ps
         | [] => [String c' ""]
         end
  end.

(** Password hashes (pkg/auth/argon2id.go) and encryption at rest
    (pkg/crypto/aes.go). *)

Local Open Scope Z_scope.

(** ** The primitives *)

(** argon2.IDKey, bcrypt.CompareHashAndPassword and AES-256-GCM: the first
    takes the password, the salt, time, memory, threads and the key length; the
    second whether the password matches; [Seal] and [Open] take the key, the
    nonce and the text.  [None] is a failed authentication. *)
Class Primitives := {
  argon2_IDKey : list N -> list N -> N -> N -> N -> N -> list N;
  bcrypt_match : string -> string -> bool;
  gcm_Seal : list N -> list N -> list N -> list N;
  gcm_Open : list N -> list N -> list N -> option (list N);
}.

Definition is_byte (b : N) : Prop := (b < 256)%N.

(** Keys have the length asked for; opening undoes sealing, which adds a tag of
    16 bytes. *)
Class PrimitivesLaws `{Primitives} := {
  argon2_length : forall pw salt t m p n, length (argon2_IDKey pw salt t m p n) = N.to_nat n;
  argon2_bytes : forall pw salt t m p n, Forall is_byte (argon2_IDKey pw salt t m p n);
  gcm_open_seal : forall key nonce text, Forall is_byte text ->
    gcm_Open key nonce (gcm_Seal key nonce text) = Some text;
  gcm_seal_length : forall key nonce text, length (gcm_Seal key nonce text) = (length text + 16)%nat;
  gcm_seal_bytes : forall key nonce text, Forall is_byte (gcm_Seal key nonce text);
}.

Section passwords.
Context {C : Primitives}.

(** ** Parameters *)

(** time and memory are uint32, threads is a uint8. *)
Record Argon2idParams := mkParams {
  ap_Time : N;
  ap_Memory : N;
  ap_Threads : N;
  ap_KeyLen : N;
  ap_SaltLen : N;
}.
Definition DefaultArgon2idParams : Argon2idParams := mkParams 2 (64 * 1024) 4 32 16.

Definition argon2idPrefix : string := "$argon2id$".
Definition bcryptPrefixes : list string := ["$2a$"; "$2b$"; "$2y$"; "$2x$"].
Definition argon2_Version : Z := 19.

Definition isBcryptHash (hash : string) : bool :=
  existsb (fun p => String.prefix p hash) bcryptPrefixes.

(** ** The encoded form *)

Definition encodeArgon2id (hash salt : list N) (p : Argon2idParams) : string :=
  "$argon2id$v=" +:+ pretty argon2_Version +:+ "$m=" +:+ pretty (ap_Memory p) +:+ ",t="
  +:+ pretty (ap_Time p) +:+ ",p=" +:+ pretty (ap_Threads p) +:+ "$"
  +:+ EncodeToString std_alphabet salt +:+ "$" +:+ EncodeToString std_alphabet hash.

(** [fmt.Sscanf(s, "v=%d", &version)] *)
Definition scan_version (s : string) : option Z :=
  rs ← scan_literal (bytes_of "v=") (runes s); fst <$> scan_int rs.
(** [fmt.Sscanf(s, "m=%d,t=%d,p=%d", ...)]: memory, time, threads. *)
Definition scan_params (s : string) : option (N * N * N) :=
  '(m, r1) ← scan_literal (bytes_of "m=") (runes s) ≫= scan_uint 32;
  '(t, r2) ← scan_literal (bytes_of ",t=") r1 ≫= scan_uint 32;
  '(p, _) ← scan_literal (bytes_of ",p=") r2 ≫= scan_uint 8;
  Some (m, t, p).

(** (hash, salt, params); [None] is an error. *)
Definition decodeArgon2id (encoded : string) : option (list N * list N * Argon2idParams) :=
  match Split "$" encoded with
  | [_; _; v; params; salt64; hash64] =>
    version ← scan_version v;
    if negb (bool_decide (version = argon2_Version)) then None
    else '(m, t, p) ← scan_params params;
         salt ← DecodeString std_alphabet salt64;
         hash ← DecodeString std_alphabet hash64;
         Some (hash, salt, mkParams t m p (N.of_nat (length hash)) (N.of_nat (length salt)))
  | _ => None
  end.

(** ** Hashing and verifying *)

(** [Hash] with the salt that was drawn. *)
Definition hash_with (password : string) (salt : list N) : string :=
  let p := DefaultArgon2idParams in
  encodeArgon2id
    (argon2_IDKey (bytes_of password) salt (ap_Time p) (ap_Memory p) (ap_Threads p) (ap_KeyLen p))
    salt p.

(** 16 bytes of crypto/rand, most significant first. *)
Fixpoint be_bytes (n : nat) (z : N) : list N :=
  match n with O => [] | S n' => be_bytes n' (z / 256)%N ++ [(z mod 256)%N] end.

Definition Hash {S E} (password : string) : M S E string :=
  salt ← uuid_new; mret (hash_with password (be_bytes 16 salt)).

Definition verifyArgon2id (password encoded : string) : bool :=
  match decodeArgon2id encoded with
  | None => false
  | Some (hash, salt, p) =>
    bool_decide (hash = argon2_IDKey (bytes_of password) salt (ap_Time p) (ap_Memory p)
                          (ap_Threads p) (ap_KeyLen p))
  end.

(** [DualVerifier.Verify]: false is ErrInvalidCredentials. *)
Definition VerifyPassword (password hash : string) : bool :=
  if String.prefix argon2idPrefix hash then verifyArgon2id password hash
  else if isBcryptHash hash then bcrypt_match hash password
  else false.

Definition NeedsRehash (hash : string) : bool :=
  if isBcryptHash hash then true
  else if negb (String.prefix argon2idPrefix hash) then false
  else match decodeArgon2id hash with
       | None => false
       | Some (_, _, p) =>
         let def := DefaultArgon2idParams in
         bool_decide (ap_Time p < ap_Time def)%N || bool_decide (ap_Memory p < ap_Memory def)%N
         || bool_decide (ap_Threads p < ap_Threads def)%N
       end.

(** ** Encryption at rest *)

Definition keyLen : nat := 32.
Definition nonceLen : nat := 12.

(** [Encrypt] with the nonce that was drawn; [None] is ErrInvalidKeyLength. *)
Definition encrypt_with (key nonce : list N) (plaintext : string) : option string :=
  if negb (bool_decide (length key = keyLen)) then None
  else Some (EncodeToString url_alphabet (nonce ++ gcm_Seal key nonce (bytes_of plaintext))).

Definition Encrypt {S E} (key : list N) (plaintext : string) : M S E (option string) :=
  if negb (bool_decide (length key = keyLen)) then mret None
  else r ← uuid_new; mret (encrypt_with key (be_bytes nonceLen r) plaintext).

Definition Decrypt (key : list N) (encoded : string) : option string :=
  if negb (bool_decide (length key = keyLen)) then None
  else data ← DecodeString url_alphabet encoded;
       if bool_decide (length data < nonceLen + 16)%nat then None
       else of_bytes <$> gcm_Open key (take nonceLen data) (drop nonceLen data).

End passwords.

(** ** A reference instance *)

(** Not secure, but lawful. *)
Definition ref_key (pw salt : list N) (t m p n : N) : list N :=
  let h := foldl (fun acc b => (acc * 257 + b + 1)%N) (t + m + p)%N (salt ++ pw) in
  (fun i => ((h / 3 ^ N.of_nat i) mod 256)%N) <$> seq 0 (N.to_nat n).
Definition ref_primitives : Primitives := {|
  argon2_IDKey := ref_key;
  bcrypt_match := fun hash pw => bool_decide (hash = "$2a$" +:+ pw);
  gcm_Seal := fun key nonce text => ((fun b => (b mod 256)%N) <$> text) ++ repeat 0%N 16;
  gcm_Open := fun key nonce text => Some (take (length text - 16) text);
|}.

(** Passwords and secrets: the base64 round trip, a password verifies against its
    own hash, and what was encrypted is decrypted. *)

Local Open Scope N_scope.
#[local] Ltac Zify.zify_post_hook ::= Z.to_euclidean_division_equations.

(** ** Base64 *)

(** An alphabet: 64 different characters, none of them a line break. *)
Definition lawful_alphabet (al : list ascii) : Prop :=
  forall v, v < 64 -> value_of al (digit_of al v) = Some v
    /\ byte_of (digit_of al v) <> 13 /\ byte_of (digit_of al v) <> 10.

Lemma lawful_check al :
  forallb (fun v => bool_decide (value_of al (digit_of al v) = Some v
                                 /\ byte_of (digit_of al v) <> 13 /\ byte_of (digit_of al v) <> 10))
    (N.of_nat <$> seq 0 64) = true -> lawful_alphabet al.
Proof.
  rewrite forallb_forall. intros Hall v Hv. apply (bool_decide_eq_true_1 _), Hall, list_elem_of_In.
  apply list_elem_of_fmap. exists (N.to_nat v). rewrite N2Nat.id. split; [done|].
  apply elem_of_seq. lia.
Qed.
Lemma std_lawful : lawful_alphabet std_alphabet.
Proof. apply lawful_check. vm_compute. reflexivity. Qed.
Lemma url_lawful : lawful_alphabet url_alphabet.
Proof. apply lawful_check. vm_compute. reflexivity. Qed.

(** Bytes come three at a time. *)
Lemma bytes_ind3 (P : list N -> Prop) :
  P [] -> (forall a, P [a]) -> (forall a b, P [a; b]) ->
  (forall a b c l, P l -> P (a :: b :: c :: l)) -> forall l, P l.
Proof.
  intros H0 H1 H2 H3 l. enough (P l /\ (forall a, P (a :: l)) /\ (forall a b, P (a :: b :: l))) as Hp by apply Hp.
  induction l as [|x l (IH0 & IH1 & IH2)]; [done|]. split_and!; auto.
Qed.

Ltac bytes := repeat match goal with Hl : Forall _ (_ :: _) |- _ => apply Forall_cons in Hl as [? Hl] end.

Lemma sextets_small l : Forall is_byte l -> Forall (fun v => v < 64) (sextets_of l).
Proof.
  unfold is_byte. induction l as [|a|a b|a b c l IH] using bytes_ind3; simpl; intros Hl; bytes;
    repeat (constructor; [lia|]); auto.
Qed.

Lemma sextets_round l : Forall is_byte l -> bytes_of_sextets (sextets_of l) = Some l.
Proof.
  unfold is_byte. induction l as [|a|a b|a b c l IH] using bytes_ind3; simpl; intros Hl; bytes;
    [done|repeat f_equal; lia..|].
  rewrite IH by done. simpl. repeat f_equal; lia.
Qed.

Lemma values_digits al l :
  lawful_alphabet al -> Forall (fun v => v < 64) l -> values al (digit_of al <$> l) = Some l.
Proof.
  intros Hal. induction 1 as [|v l Hv _ IH]; [done|]. destruct (Hal v Hv) as (Hval & Hr & Hn).
  rewrite fmap_cons. cbn [values]. rewrite !bool_decide_eq_false_2 by done. cbn [orb].
  by rewrite Hval, IH.
Qed.

Lemma base64_round al l :
  lawful_alphabet al -> Forall is_byte l -> DecodeString al (EncodeToString al l) = Some l.
Proof.
  intros Hal Hl. unfold DecodeString, EncodeToString.
  rewrite String.list_ascii_of_string_of_list_ascii.
  rewrite (values_digits al (sextets_of l)) by (auto using sextets_small). by apply sextets_round.
Qed.

(** ** Splitting *)

Definition free_of (c : ascii) (s : string) : Prop := Split c s = [s].

Lemma Split_app c s t : free_of c s -> Split c (s +:+ String c t) = s :: Split c t.
Proof.
  unfold free_of. induction s as [|c' s IH]; simpl; [by rewrite decide_True|].
  destruct (decide (c' = c)); [done|]. intros Hs.
  assert (Split c s = [s]) as Hs'.
  { destruct (Split c s) as [|p ps] eqn:Hp; [by destruct s; simpl in *; repeat case_match|].
    by injection Hs as -> ->. }
  by rewrite IH.
Qed.

Lemma free_of_string c l : Forall (fun c' => c' <> c) l -> free_of c (String.string_of_list_ascii l).
Proof.
  unfold free_of. induction 1 as [|c' l Hc _ IH]; [done|]. simpl. by rewrite decide_False, IH.
Qed.

Lemma base64_free al c l :
  lawful_alphabet al -> (forall v, v < 64 -> digit_of al v <> c) -> Forall is_byte l ->
  free_of c (EncodeToString al l).
Proof.
  intros Hal Hc Hl. apply free_of_string. apply Forall_fmap.
  eapply Forall_impl; [by apply sextets_small|]. intros v Hv. by apply Hc.
Qed.

Lemma std_no_dollar v : v < 64 -> digit_of std_alphabet v <> "$"%char.
Proof.
  intros Hv Heq. destruct (std_lawful v Hv) as [Hval _]. rewrite Heq in Hval. vm_compute in Hval. done.
Qed.

Lemma bytes_of_bytes s : Forall is_byte (bytes_of s).
Proof.
  apply Forall_fmap, Forall_forall. intros c _. unfold is_byte, compose, byte_of.
  pose proof (N_ascii_bounded c). lia.
Qed.
Lemma of_bytes_of s : of_bytes (bytes_of s) = s.
Proof.
  unfold of_bytes, bytes_of. rewrite <-list_fmap_compose.
  rewrite (list_fmap_ext _ id), list_fmap_id; [apply String.string_of_list_ascii_of_string|].
  intros i c _. apply ascii_N_embedding.
Qed.
Lemma be_bytes_length n z : length (be_bytes n z) = n.
Proof. revert z. induction n as [|n IH]; intros z; [done|]. simpl. rewrite length_app, IH. simpl. lia. Qed.
Lemma be_bytes_bytes n z : Forall is_byte (be_bytes n z).
Proof.
  revert z. induction n as [|n IH]; intros z; [constructor|]. simpl. apply Forall_app. split; [done|].
  constructor; [|done]. unfold is_byte. lia.
Qed.

Section props.
Context {C : Primitives} {L : PrimitivesLaws}.

(** ** Passwords *)

Lemma decode_default hash salt :
  length hash = 32%nat -> Forall is_byte hash -> length salt = 16%nat -> Forall is_byte salt ->
  decodeArgon2id (encodeArgon2id hash salt DefaultArgon2idParams)
  = Some (hash, salt, DefaultArgon2idParams).
Proof.
  intros Lh Bh Ls Bs. unfold decodeArgon2id, encodeArgon2id. cbn [ap_Memory ap_Time ap_Threads DefaultArgon2idParams].
  set (s64 := EncodeToString std_alphabet salt). set (h64 := EncodeToString std_alphabet hash).
  assert (Split "$" ("$argon2id$v=" +:+ pretty argon2_Version +:+ "$m=" +:+ pretty (64 * 1024)
            +:+ ",t=" +:+ pretty 2 +:+ ",p=" +:+ pretty 4 +:+ "$" +:+ s64 +:+ "$" +:+ h64)
          = [""; "argon2id"; "v=19"; "m=65536,t=2,p=4"; s64; h64]) as ->.
  { change (Split "$" (String "$" ("argon2id" +:+ String "$" ("v=19" +:+ String "$"
      ("m=65536,t=2,p=4" +:+ String "$" (s64 +:+ String "$" h64)))))
      = [""; "argon2id"; "v=19"; "m=65536,t=2,p=4"; s64; h64]).
    change (String "$" ?x) with ("" +:+ String "$" x) at 1.
    rewrite !Split_app by (try reflexivity; apply base64_free; auto using std_lawful, std_no_dollar).
    pose proof (base64_free std_alphabet "$" hash std_lawful std_no_dollar Bh) as Hf.
    unfold free_of in Hf. fold h64 in Hf. by rewrite Hf. }
  change (scan_version "v=19") with (Some 19%Z). change (scan_params "m=65536,t=2,p=4") with (Some (65536, 2, 4)).
  cbn [mbind option_bind]. rewrite bool_decide_eq_true_2 by done. cbn [negb].
  unfold s64, h64. rewrite !base64_round by auto using std_lawful. cbn [mbind option_bind].
  by rewrite Lh, Ls.
Qed.

(** What [Hash] stores for a password. *)
Lemma hash_decodes pw salt :
  length salt = 16%nat -> Forall is_byte salt ->
  decodeArgon2id (hash_with pw salt)
  = Some (argon2_IDKey (bytes_of pw) salt 2 (64 * 1024) 4 32, salt, DefaultArgon2idParams).
Proof.
  intros Ls Bs. apply decode_default; [|apply argon2_bytes|done..]. apply argon2_length.
Qed.
Lemma hash_prefix pw salt : String.prefix argon2idPrefix (hash_with pw salt) = true.
Proof. reflexivity. Qed.

Lemma verify_hash attempt password salt :
  length salt = 16%nat -> Forall is_byte salt ->
  VerifyPassword attempt (hash_with password salt)
  = bool_decide (argon2_IDKey (bytes_of password) salt 2 (64 * 1024) 4 32
                 = argon2_IDKey (bytes_of attempt) salt 2 (64 * 1024) 4 32).
Proof.
  intros Ls Bs. unfold VerifyPassword, verifyArgon2id. by rewrite hash_prefix, hash_decodes.
Qed.
Lemma Hash_verifies {S E} password (w : World S) h w' :
  (Hash password : M S E string) w = (Ok h, w') -> VerifyPassword password h = true.
Proof.
  intros (salt & w1 & _ & [-> _]%ret_Ok)%bind_Ok.
  rewrite verify_hash by auto using be_bytes_length, be_bytes_bytes. by apply bool_decide_eq_true.
Qed.

(** C28: A password verifies against the hash [Hash] stores for it, whatever salt was
    drawn, a wrong one only on a collision of the derived keys; and such a hash is
    never due for an upgrade. *)
Theorem password_round_trip (password attempt : string) (salt : list N) :
  length salt = 16%nat -> Forall is_byte salt ->
  let hash := hash_with password salt in
  VerifyPassword password hash = true
  /\ NeedsRehash hash = false
  /\ (VerifyPassword attempt hash = true <->
      argon2_IDKey (bytes_of attempt) salt 2 (64 * 1024) 4 32
      = argon2_IDKey (bytes_of password) salt 2 (64 * 1024) 4 32).
Proof.
  intros Ls Bs hash. unfold hash, NeedsRehash. rewrite !verify_hash, hash_prefix, hash_decodes by done.
  rewrite !bool_decide_eq_true. by split_and!.
Qed.

(** ** Secrets *)

(** Under one 32-byte key, decrypting gives back what was encrypted, whatever
    nonce was drawn; any other key length is refused on both sides. *)
Theorem secret_round_trip (key nonce : list N) (plaintext : string) :
  length nonce = nonceLen -> Forall is_byte nonce ->
  match encrypt_with key nonce plaintext with
  | Some stored => length key = keyLen /\ Decrypt key stored = Some plaintext
  | None => length key <> keyLen /\ forall stored, Decrypt key stored = None
  end.
Proof.
  intros Hn Hb. unfold encrypt_with, Decrypt. case_bool_decide as Hk; cbn [negb]; [|by split].
  split; [done|]. rewrite base64_round; [|apply url_lawful|by apply Forall_app; split; [|apply gcm_seal_bytes]].
  cbn [mbind option_bind]. rewrite bool_decide_eq_false_2 by (rewrite length_app, gcm_seal_length, Hn; lia).
  rewrite take_app_length', drop_app_length' by done. rewrite gcm_open_seal by apply bytes_of_bytes.
  cbn [fmap option_fmap option_map]. by rewrite of_bytes_of.
Qed.

End props.
