(* ===== verification/Interceptor.v ===== *)
(** The guards every gRPC handler runs before its service call
    (pkg/interceptor): the caller the token established, the tenant and actor
    a request may name, and the role and permission checks. *)

From S2P Require Export External.
Local Open Scope Z_scope.

(** [codes.Code], the ones the services return. *)
Inductive code :=
| InvalidArgument | NotFound | AlreadyExists | PermissionDenied | FailedPrecondition
| Unauthenticated | Internal | ResourceExhausted | Unimplemented | Unavailable.

#[export] Instance code_eq_dec : EqDecision code.
Proof. solve_decision. Defined.

(** A gRPC status error. *)
Record status := mkStatus { st_code : code; st_message : string }.

Record CallerInfo := mkCaller {
  ci_UserID : uuid;
  ci_TenantID : uuid;
  ci_ProjectID : uuid;
  ci_Email : string;
  ci_Roles : list string;
  ci_Permissions : list string;
  ci_IP : string;
}.

(** The request context: the caller [WithCaller] attached, if it ran. *)
Record Ctx := mkCtx { ctx_caller : option CallerInfo }.

Definition CallerFromContext (ctx : Ctx) : option CallerInfo := ctx_caller ctx.

Definition HasRole (c : CallerInfo) (role : string) : bool :=
  existsb (fun r => bool_decide (r = role)) (ci_Roles c).

(** What IAM answers: whether the user holds the permission, tenant-wide
    ([None]) or in a project, or an error. *)
Definition PermissionChecker : Type := uuid -> string -> option uuid -> result string bool.

Definition RequireRole (ctx : Ctx) (required : string) : result status unit :=
  match CallerFromContext ctx with
  | None => Err (mkStatus PermissionDenied "caller identity not present in context")
  | Some caller =>
    if HasRole caller required then Ok tt
    else Err (mkStatus PermissionDenied "requires role %s")
  end.

(** [scoped] is ProjectScopedRBACEnabled(); a nil checker fails closed. *)
Definition RequirePermission (scoped : bool) (checker : option PermissionChecker) (ctx : Ctx)
    (permission : string) : result status unit :=
  match CallerFromContext ctx with
  | None => Err (mkStatus Unauthenticated "caller identity not present in context")
  | Some caller =>
    if decide (ci_UserID caller = uuid_nil)
    then Err (mkStatus Unauthenticated "caller identity not present in context")
    else match checker with
    | None => Err (mkStatus Internal "permission checker unavailable")
    | Some check =>
      let projectID := if scoped && negb (bool_decide (ci_ProjectID caller = uuid_nil))
                       then Some (ci_ProjectID caller) else None in
      match check (ci_UserID caller) permission projectID with
      | Err _ => Err (mkStatus Internal "permission check failed: %v")
      | Ok true => Ok tt
      | Ok false => Err (mkStatus PermissionDenied "missing required permission: %s")
      end
    end
  end.

Section requests.
Context {X : External}.

Definition TenantFromRequest (ctx : Ctx) (reqTenantID : string) : result status uuid :=
  match CallerFromContext ctx with
  | None => Err (mkStatus Unauthenticated "caller identity not present in context")
  | Some caller =>
    if decide (ci_TenantID caller = uuid_nil)
    then Err (mkStatus Unauthenticated "token carries no tenant")
    else if decide (reqTenantID = "") then Ok (ci_TenantID caller)
    else match uuid_parse reqTenantID with
    | None => Err (mkStatus InvalidArgument "invalid tenant_id")
    | Some reqID =>
      if negb (bool_decide (reqID = ci_TenantID caller))
      then Err (mkStatus PermissionDenied "tenant_id does not match the authenticated tenant")
      else Ok (ci_TenantID caller)
    end
  end.

Definition ActorFromRequest (ctx : Ctx) (reqActorID : string) : result status uuid :=
  match CallerFromContext ctx with
  | None => Err (mkStatus Unauthenticated "caller identity not present in context")
  | Some caller =>
    if decide (ci_UserID caller = uuid_nil)
    then Err (mkStatus Unauthenticated "token carries no subject")
    else if decide (reqActorID = "") then Ok (ci_UserID caller)
    else match uuid_parse reqActorID with
    | None => Err (mkStatus InvalidArgument "invalid actor id")
    | Some reqID =>
      if negb (bool_decide (reqID = ci_UserID caller))
      then Err (mkStatus PermissionDenied "actor does not match the authenticated caller")
      else Ok (ci_UserID caller)
    end
  end.

(** [h(...)] after [uuid.Parse(s)] failed or not. *)
Definition parse_id (s text : string) : result status uuid :=
  match uuid_parse s with
  | Some id => Ok id
  | None => Err (mkStatus InvalidArgument text)
  end.

(** An optional id in a request: empty means absent. *)
Definition parse_opt_id (s text : string) : result status (option uuid) :=
  if decide (s = "") then Ok None
  else match uuid_parse s with
       | Some id => Ok (Some id)
       | None => Err (mkStatus InvalidArgument text)
       end.

(** ** Lemmas *)

(** The tenant a handler gets is the caller's, and never the nil UUID. *)
Lemma TenantFromRequest_inv ctx req t :
  TenantFromRequest ctx req = Ok t ->
  exists c, ctx_caller ctx = Some c /\ t = ci_TenantID c /\ t <> uuid_nil
            /\ (req = "" \/ uuid_parse req = Some t).
Proof.
  unfold TenantFromRequest, CallerFromContext. intros H.
  destruct (ctx_caller ctx) as [c|]; [|done].
  repeat (case_decide || case_match || case_bool_decide); simplify_eq/=; eauto 10.
Qed.

Lemma ActorFromRequest_inv ctx req u :
  ActorFromRequest ctx req = Ok u ->
  exists c, ctx_caller ctx = Some c /\ u = ci_UserID c /\ u <> uuid_nil.
Proof.
  unfold ActorFromRequest, CallerFromContext. intros H.
  destruct (ctx_caller ctx) as [c|]; [|done].
  repeat (case_decide || case_match || case_bool_decide); simplify_eq/=; eauto 10.
Qed.

Lemma RequirePermission_inv scoped checker ctx p :
  RequirePermission scoped checker ctx p = Ok tt ->
  exists c check project, ctx_caller ctx = Some c /\ checker = Some check
    /\ check (ci_UserID c) p project = Ok true.
Proof.
  unfold RequirePermission, CallerFromContext. intros H.
  destruct (ctx_caller ctx) as [c|]; [|done]. case_decide; [done|].
  destruct checker as [check|]; [|done].
  destruct (check _ p _) as [[]|] eqn:Hc; [|done..]. eauto 10.
Qed.

End requests.
