(* ===== verification/Vertical.v ===== *)
(** Vertical configuration: the data of pkg/vertical/types.go, the lookups of
    pkg/vertical/helpers.go and the request's configuration (context.go,
    middleware.go).  Loading a configuration from Redis or the database is the
    [loader] argument of [attachConfig]. *)

From S2P Require Export Interceptor.
Local Open Scope Z_scope.

Record EntityLabels := mkEntityLabels {
  el_Project : string;
  el_ProjectPlural : string;
  el_Phase : string;
  el_PhasePlural : string;
  el_TeamMember : string;
  el_TeamMemberPlural : string;
  el_RateLabel : string;
  el_RateUnit : string;
}.

Record PhaseType := mkPhaseType {
  pt_ID : string;
  pt_Label : string;
  pt_Order : Z;
  pt_IsBillable : bool;
  pt_AllowedTransitions : list string;
}.

Record BudgetCategory := mkBudgetCategory {
  bc_ID : string;
  bc_Label : string;
  bc_Description : string;
  bc_DefaultAccountCode : string;
}.

Record ExpenseCategory := mkExpenseCategory {
  ec_ID : string;
  ec_Label : string;
  ec_TaxTreatment : string;
  ec_DefaultAccountCode : string;
  ec_RequiresPO : bool;
}.

Record InventoryCategory := mkInventoryCategory {
  ic_ID : string;
  ic_Label : string;
  ic_IsTrackable : bool;
  ic_DepreciationYears : option Z;
}.

Record ReportDefinition := mkReportDefinition {
  rd_ID : string;
  rd_Name : string;
  rd_Description : string;
  rd_DataSources : list string;
  rd_DefaultColumns : list string;
}.

Record CustomField := mkCustomField {
  cf_Key : string;
  cf_Label : string;
  cf_Type : string;
  cf_Options : list string;
  cf_Required : bool;
}.

Record CustomFields := mkCustomFields {
  cf_Project : list CustomField;
  cf_Expense : list CustomField;
}.

(** One entry of a vertical's default chart of accounts. *)
Record ChartOfAccountEntry := mkCoA {
  coa_Code : string;
  coa_Name : string;
  coa_AccountType : string;
  coa_ParentCode : option string;
}.

Section vertical.
Context {X : External}.

Record TemplateLineItem := mkTemplateLineItem {
  tl_CategoryID : string;
  tl_Description : string;
  tl_AccountCode : string;
  tl_DefaultAmount : Dec;
  tl_IsRequired : bool;
}.

Record BudgetTemplate := mkBudgetTemplate {
  bt_Name : string;
  bt_Description : string;
  bt_LineItems : list TemplateLineItem;
}.

Record ApprovalLimit := mkApprovalLimit {
  al_Role : string;
  al_MaxAmount : Dec;
}.

Record ApprovalWorkflow := mkApprovalWorkflow {
  aw_Limits : list ApprovalLimit;
  aw_DualApprovalAbove : Dec;
}.

Record Config := mkConfig {
  cfg_ID : string;
  cfg_Name : string;
  cfg_Version : string;
  cfg_Description : string;
  cfg_EntityLabels : EntityLabels;
  cfg_PhaseTypes : list PhaseType;
  cfg_BudgetCategories : list BudgetCategory;
  cfg_BudgetTemplates : list BudgetTemplate;
  cfg_ExpenseCategories : list ExpenseCategory;
  cfg_ApprovalWorkflow : ApprovalWorkflow;
  cfg_InventoryCategories : list InventoryCategory;
  cfg_ReportDefinitions : list ReportDefinition;
  cfg_CustomFields : CustomFields;
  cfg_DefaultChartOfAccounts : list ChartOfAccountEntry;
  cfg_RoleLabels : gmap string string;
}.

(** ** Lookups: each returns the first match *)

Definition FindBudgetCategory (c : Config) (id : string) : option BudgetCategory :=
  find (fun x => bool_decide (bc_ID x = id)) (cfg_BudgetCategories c).

Definition BudgetCategoryIDs (c : Config) : string :=
  String.concat ", " (bc_ID <$> cfg_BudgetCategories c).

Definition FindPhaseType (c : Config) (id : string) : option PhaseType :=
  find (fun x => bool_decide (pt_ID x = id)) (cfg_PhaseTypes c).

Definition CanTransitionTo (p : PhaseType) (targetID : string) : bool :=
  existsb (fun t => bool_decide (t = targetID)) (pt_AllowedTransitions p).

Definition FindExpenseCategory (c : Config) (id : string) : option ExpenseCategory :=
  find (fun x => bool_decide (ec_ID x = id)) (cfg_ExpenseCategories c).

Definition LimitForRole (a : ApprovalWorkflow) (role : string) : option Dec :=
  al_MaxAmount <$> find (fun l => bool_decide (al_Role l = role)) (aw_Limits a).

(** The loop of MaxLimitForRoles, with its variable [max]. *)
Fixpoint max_limit (a : ApprovalWorkflow) (max : option Dec) (roles : list string) : option Dec :=
  match roles with
  | [] => max
  | r :: rs =>
    max_limit a
      (match LimitForRole a r with
       | None => max
       | Some lim =>
         match max with
         | None => Some lim
         | Some m => if dec_greater lim m then Some lim else Some m
         end
       end) rs
  end.
Definition MaxLimitForRoles (a : ApprovalWorkflow) (roles : list string) : option Dec :=
  max_limit a None roles.

Definition FindBudgetTemplate (c : Config) (name : string) : option BudgetTemplate :=
  find (fun x => bool_decide (bt_Name x = name)) (cfg_BudgetTemplates c).

Definition FindInventoryCategory (c : Config) (id : string) : option InventoryCategory :=
  find (fun x => bool_decide (ic_ID x = id)) (cfg_InventoryCategories c).

Definition RoleLabelFor (c : Config) (role : string) : string :=
  match cfg_RoleLabels c !! role with
  | Some label => if decide (label = "") then role else label
  | None => role
  end.

Definition FindReportDefinition (c : Config) (id : string) : option ReportDefinition :=
  find (fun x => bool_decide (rd_ID x = id)) (cfg_ReportDefinitions c).

(** ** The configuration of a request *)

(** [tenant.IDFromContext]: the token interceptor stores the caller's tenant
    unless it is nil. *)
Definition IDFromContext (ctx : Ctx) : option uuid :=
  match CallerFromContext ctx with
  | Some c => if decide (ci_TenantID c = uuid_nil) then None else Some (ci_TenantID c)
  | None => None
  end.

(** What the interceptor stores: nothing without a tenant, and an error ends
    the request when the loader fails. *)
Definition attachConfig (loader : uuid -> option Config) (ctx : Ctx) : result status (option Config) :=
  match IDFromContext ctx with
  | None => Ok None
  | Some tenantID =>
    match loader tenantID with
    | None => Err (mkStatus Internal "vertical: failed to load config for tenant %s: %v")
    | Some cfg => Ok (Some cfg)
    end
  end.

(** Panics without a configuration; the recovery interceptor answers. *)
Definition MustFromContext (vcfg : option Config) : result status Config :=
  match vcfg with
  | Some c => Ok c
  | None => Err (mkStatus Internal "internal error")
  end.

(** ** Lemmas *)

Lemma IDFromContext_inv ctx t :
  IDFromContext ctx = Some t ->
  exists c, ctx_caller ctx = Some c /\ ci_TenantID c = t /\ t <> uuid_nil.
Proof.
  unfold IDFromContext, CallerFromContext. destruct (ctx_caller ctx) as [c|]; [|done].
  case_decide; [done|]. intros [= <-]. eauto.
Qed.

Lemma find_Some_elem {A} (p : A -> bool) l x : find p l = Some x -> x ∈ l /\ p x = true.
Proof. intros [H1 H2]%find_some. split; [by apply list_elem_of_In|done]. Qed.

Context {L : ExternalLaws}.

Lemma max_limit_spec a roles max :
  match max_limit a max roles with
  | None => max = None /\ forall r, r ∈ roles -> LimitForRole a r = None
  | Some m =>
    (max = Some m \/ exists r, r ∈ roles /\ LimitForRole a r = Some m)
    /\ (forall m0, max = Some m0 -> (dec_val m0 <= dec_val m)%Qc)
    /\ (forall r l, r ∈ roles -> LimitForRole a r = Some l -> (dec_val l <= dec_val m)%Qc)
  end.
Proof.
  revert max. induction roles as [|r rs IH]; intros max; simpl.
  - destruct max as [m|]; [|split; [done|by intros r ?%not_elem_of_nil]].
    split; [by left|]. split; [intros m0 [= ->]; apply Qcle_refl|by intros r l ?%not_elem_of_nil].
  - set (max' := match LimitForRole a r with None => max | Some lim => _ end).
    specialize (IH max').
    assert (Hmax' : (forall m0, max = Some m0 -> exists m1, max' = Some m1 /\ (dec_val m0 <= dec_val m1)%Qc)
      /\ (forall l, LimitForRole a r = Some l -> exists m1, max' = Some m1 /\ (dec_val l <= dec_val m1)%Qc)
      /\ (max' = max \/ (exists l, LimitForRole a r = Some l /\ max' = Some l))).
    { subst max'. destruct (LimitForRole a r) as [lim|]; destruct max as [m|].
      - destruct (dec_greater lim m) eqn:Hg.
        + apply dec_greater_spec in Hg. split_and!; [intros ? [= <-]|intros ? [= <-]|]; eauto using Qclt_le_weak, Qcle_refl.
        + assert (~ (dec_val m < dec_val lim)%Qc) as Hle by (by rewrite <-dec_greater_spec, Hg).
          apply Qcnot_lt_le in Hle. split_and!; [intros ? [= <-]|intros ? [= <-]|]; eauto using Qcle_refl.
      - split_and!; [done|intros ? [= <-]|]; eauto using Qcle_refl.
      - split_and!; [intros ? [= <-]|done|]; eauto using Qcle_refl.
      - split_and!; [done|done|by left]. }
    destruct Hmax' as (H1 & H2 & H3). destruct (max_limit a max' rs) as [m|].
    + destruct IH as (I1 & I2 & I3). split_and!.
      * destruct I1 as [I1|(r' & ? & ?)]; [|right; exists r'; split; [by right|done]].
        destruct H3 as [H3|(l & Hl & H3)]; [left; congruence|].
        right. exists r. split; [by left|]. congruence.
      * intros m0 [m1 [Hm1 Hle]]%H1. eapply Qcle_trans; [exact Hle|by apply I2].
      * intros r' l [->|Hr']%elem_of_cons Hl; [|by eapply I3].
        destruct (H2 l Hl) as [m1 [Hm1 Hle]]. eapply Qcle_trans; [exact Hle|by apply I2].
    + destruct IH as (I1 & I2). split.
      * destruct max as [m0|]; [|done]. destruct (H1 m0 eq_refl) as (? & ? & _). congruence.
      * intros r' [->|Hr']%elem_of_cons; [|by apply I2].
        destruct (LimitForRole a r) as [l|]; [|done]. destruct (H2 l eq_refl) as (? & ? & _). congruence.
Qed.

End vertical.

(** ** What the handlers behind the interceptor start with *)

Section guards.
Context {X : External}.

(** [tenant.IDFromContext], or Unauthenticated. *)
Definition tenantFromContext (ctx : Ctx) : result status uuid :=
  match IDFromContext ctx with
  | Some t => Ok t
  | None => Err (mkStatus Unauthenticated "tenant ID not found in context")
  end.
(** [decimal.NewFromString(s)] *)
Definition parse_decimal (s text : string) : result status Dec :=
  match dec_of_string s with
  | Some d => Ok d
  | None => Err (mkStatus InvalidArgument text)
  end.

End guards.
