(* ===== verification/Validator.v ===== *)
(** Vertical configuration: the validator of pkg/vertical/validator.go.  Parsing
    the YAML text is the [unmarshal] argument of [Validate], and the order in
    which Go ranges over the map of entity labels is its [range] argument.  A
    message is kept as its format and arguments. *)

From S2P Require Export Vertical.
Local Open Scope Z_scope.

Record ValidationError := mkVErr {
  ve_Field : string;
  ve_Format : string;
  ve_Args : list string;
}.

(** ** The YAML structures *)

Record EntityLabelsYAML := mkEntityLabelsYAML {
  ely_Project : string;
  ely_ProjectPlural : string;
  ely_Phase : string;
  ely_PhasePlural : string;
  ely_TeamMember : string;
  ely_TeamMemberPlural : string;
  ely_RateLabel : string;
  ely_RateUnit : string;
}.

Record PhaseTypeYAML := mkPhaseTypeYAML {
  pty_ID : string;
  pty_Label : string;
  pty_Order : Z;
  pty_IsBillable : bool;
  pty_AllowedTransitions : list string;
}.

Record BudgetCategoryYAML := mkBudgetCategoryYAML {
  bcy_ID : string;
  bcy_Label : string;
  bcy_Description : string;
  bcy_DefaultAccountCode : string;
}.

Record ExpenseCategoryYAML := mkExpenseCategoryYAML {
  ecy_ID : string;
  ecy_Label : string;
  ecy_TaxTreatment : string;
  ecy_DefaultAccountCode : string;
  ecy_RequiresPO : bool;
}.

Record InventoryCategoryYAML := mkInventoryCategoryYAML {
  icy_ID : string;
  icy_Label : string;
  icy_IsTrackable : bool;
  icy_DepreciationYears : option Z;
}.

Record ReportDefinitionYAML := mkReportDefinitionYAML {
  rdy_ID : string;
  rdy_Name : string;
  rdy_Description : string;
  rdy_DataSources : list string;
  rdy_DefaultColumns : list string;
}.

Record CustomFieldYAML := mkCustomFieldYAML {
  cfy_Key : string;
  cfy_Label : string;
  cfy_Type : string;
  cfy_Options : list string;
  cfy_Required : bool;
}.

Record CustomFieldsYAML := mkCustomFieldsYAML {
  cfy_Project : list CustomFieldYAML;
  cfy_Expense : list CustomFieldYAML;
}.

Section yaml.
(** float64; no amount takes part in the validation. *)
Context {Float : Type}.

Record TemplateLineItemYAML := mkTemplateLineItemYAML {
  tly_CategoryID : string;
  tly_Description : string;
  tly_AccountCode : string;
  tly_DefaultAmount : Float;
  tly_IsRequired : bool;
}.

Record BudgetTemplateYAML := mkBudgetTemplateYAML {
  bty_Name : string;
  bty_Description : string;
  bty_LineItems : list TemplateLineItemYAML;
}.

Record ApprovalLimitYAML := mkApprovalLimitYAML {
  aly_Role : string;
  aly_MaxAmount : Float;
}.

Record ApprovalWorkflowYAML := mkApprovalWorkflowYAML {
  awy_Limits : list ApprovalLimitYAML;
  awy_DualApprovalAbove : Float;
}.

Record VerticalYAML := mkVerticalYAML {
  vy_ID : string;
  vy_Name : string;
  vy_Version : string;
  vy_Description : string;
  vy_EntityLabels : EntityLabelsYAML;
  vy_PhaseTypes : list PhaseTypeYAML;
  vy_BudgetCategories : list BudgetCategoryYAML;
  vy_BudgetTemplates : list BudgetTemplateYAML;
  vy_ExpenseCategories : list ExpenseCategoryYAML;
  vy_ApprovalWorkflow : ApprovalWorkflowYAML;
  vy_InventoryCategories : list InventoryCategoryYAML;
  vy_ReportDefinitions : list ReportDefinitionYAML;
  vy_CustomFields : option CustomFieldsYAML;
  vy_DefaultChartOfAccounts : list ChartOfAccountEntry;
  vy_RoleLabels : gmap string string;
}.

(** ** The closed sets *)

Definition SystemRoleNames : list string :=
  ["super_admin"; "manager"; "coordinator"; "accountant"; "member"; "inventory_manager";
   "project_supervisor"].

Definition validRateUnits : list string := ["day"; "hour"; "month"; "fixed"].

Definition validTaxTreatments : list string :=
  ["input_gst"; "tds_applicable"; "us_1099_nec"; "us_sales_tax_paid"; "us_use_tax";
   "us_meals_50pct"; "none"].

(** [sort.Strings] by bytes, then [strings.Join]. *)
Definition ValidTaxTreatmentList : string :=
  String.concat ", " (order_by String.leb validTaxTreatments).

Definition IsValidTaxTreatment (v : string) : bool := bool_decide (v ∈ validTaxTreatments).

(** ** Checks *)

(** [if cond { errs = append(errs, e) }] *)
Definition err_if (cond : bool) (e : ValidationError) : list ValidationError :=
  if cond then [e] else [].

(** [for i, x := range xs { errs = append(errs, f(i, x)...) }] *)
Definition each_i {A} (f : nat -> A -> list ValidationError) (l : list A) : list ValidationError :=
  mjoin (imap f l).

Fixpoint duplicates (format field : string) (seen : gset string) (ids : list string) :
    list ValidationError :=
  match ids with
  | [] => []
  | id :: ids' =>
    err_if (bool_decide (id ∈ seen)) (mkVErr field format [id])
    ++ duplicates format field ({[id]} ∪ seen) ids'
  end.
Definition checkDuplicateIDs (field : string) (ids : list string) : list ValidationError :=
  duplicates "duplicate id %q" field ∅ ids.
Definition checkDuplicateNames (field : string) (names : list string) : list ValidationError :=
  duplicates "duplicate name %q" field ∅ names.

Definition phaseTypeIDs (l : list PhaseTypeYAML) : list string := pty_ID <$> l.
Definition phaseTypeLabels (l : list PhaseTypeYAML) : list string := pty_Label <$> l.
Definition budgetCategoryIDs (l : list BudgetCategoryYAML) : list string := bcy_ID <$> l.
Definition expenseCategoryIDs (l : list ExpenseCategoryYAML) : list string := ecy_ID <$> l.
Definition inventoryCategoryIDs (l : list InventoryCategoryYAML) : list string := icy_ID <$> l.
Definition reportDefinitionIDs (l : list ReportDefinitionYAML) : list string := rdy_ID <$> l.
Definition budgetTemplateNames (l : list BudgetTemplateYAML) : list string := bty_Name <$> l.

Definition label_fields (el : EntityLabelsYAML) : list (string * string) :=
  [("project", ely_Project el); ("project_plural", ely_ProjectPlural el);
   ("phase", ely_Phase el); ("phase_plural", ely_PhasePlural el);
   ("team_member", ely_TeamMember el); ("team_member_plural", ely_TeamMemberPlural el);
   ("rate_label", ely_RateLabel el); ("rate_unit", ely_RateUnit el)].

Definition validateEntityLabels (range : list (string * string) -> list (string * string))
    (el : EntityLabelsYAML) : list ValidationError :=
  mjoin ((fun nv => err_if (bool_decide (nv.2 = ""))
                      (mkVErr ("vertical.entity_labels." +:+ nv.1) "required" []))
           <$> range (label_fields el))
  ++ err_if (negb (bool_decide (ely_RateUnit el = ""))
             && negb (bool_decide (ely_RateUnit el ∈ validRateUnits)))
       (mkVErr "vertical.entity_labels.rate_unit"
          "invalid value %q: must be one of day, hour, month, fixed" [ely_RateUnit el]).

(** ** The phase graph *)

Inductive color := white | gray | black.
#[export] Instance color_eq_dec : EqDecision color.
Proof. solve_decision. Defined.

(** The variables of the search: the colour map (a missing key is white, Go's
    zero) and [hasCycle]. *)
Record Search := mkSearch { colors : gmap string color; hasCycle : bool }.
Definition color_of (s : Search) (node : string) : color := default white (colors s !! node).
Definition paint (node : string) (c : color) (s : Search) : Search :=
  mkSearch (<[node := c]> (colors s)) (hasCycle s).
Definition found (s : Search) : Search := mkSearch (colors s) true.

(** The [for _, next := range adj[node]] of dfs; [visit] is the recursive call. *)
Fixpoint dfs_edges (ids : gset string) (visit : string -> Search -> option Search)
    (node : string) (nexts : list string) (s : Search) : option Search :=
  match nexts with
  | [] => Some (paint node black s)
  | next :: rest =>
    if negb (bool_decide (next ∈ ids)) then dfs_edges ids visit node rest s
    else match color_of s next with
         | gray => Some (found s)
         | white => s' ← visit next s; dfs_edges ids visit node rest s'
         | black => dfs_edges ids visit node rest s
         end
  end.

(** [dfs]; the fuel bounds the depth of the recursion, and [None] means it ran
    out. *)
Fixpoint dfs (ids : gset string) (adj : gmap string (list string)) (fuel : nat) (node : string)
    (s : Search) : option Search :=
  match fuel with
  | O => None
  | S fuel' =>
    if hasCycle s then Some s
    else dfs_edges ids (dfs ids adj fuel') node (default [] (adj !! node)) (paint node gray s)
  end.

(** The loop that starts a search from every phase still white. *)
Fixpoint search_all (ids : gset string) (adj : gmap string (list string)) (fuel : nat)
    (nodes : list string) (s : Search) : option Search :=
  match nodes with
  | [] => Some s
  | n :: rest =>
    s' ← (if bool_decide (color_of s n = white) then dfs ids adj fuel n s else Some s);
    search_all ids adj fuel rest s'
  end.

Definition phase_ids (phases : list PhaseTypeYAML) : gset string := list_to_set (pty_ID <$> phases).
(** The last phase with an id wins. *)
Definition phase_adj (phases : list PhaseTypeYAML) : gmap string (list string) :=
  foldl (fun m p => <[pty_ID p := pty_AllowedTransitions p]> m) ∅ phases.

(** Every recursive call paints a white phase, so a depth of the number of
    phases is enough. *)
Definition find_cycle (phases : list PhaseTypeYAML) : option bool :=
  hasCycle <$> search_all (phase_ids phases) (phase_adj phases) (length phases)
    (pty_ID <$> phases) (mkSearch ∅ false).

Definition validatePhaseTransitions (phases : list PhaseTypeYAML) : option (list ValidationError) :=
  let ids := phase_ids phases in
  let unknown := mjoin ((fun p => mjoin ((fun t =>
      err_if (negb (bool_decide (t ∈ ids)))
        (mkVErr ("vertical.phase_types[" +:+ pty_ID p +:+ "].allowed_transitions")
           "references unknown phase %q" [t])) <$> pty_AllowedTransitions p)) <$> phases) in
  let terminal := err_if (negb (existsb (fun p => bool_decide (pty_AllowedTransitions p = [])) phases))
      (mkVErr "vertical.phase_types"
         "must have at least one terminal state (phase with empty allowed_transitions)" []) in
  cycle ← find_cycle phases;
  Some (unknown ++ terminal ++ err_if cycle
          (mkVErr "vertical.phase_types" "phase transition graph contains a cycle" [])).

(** ** Validate *)

Definition field_i (section : string) (i : nat) (rest : string) : string :=
  "vertical." +:+ section +:+ "[" +:+ Itoa (Z.of_nat i) +:+ "]." +:+ rest.

(** [!accountCodes[code]] for a code that may be absent. *)
Definition code_error (codes : gset string) (field code : string) : list ValidationError :=
  err_if (negb (bool_decide (code = "")) && negb (bool_decide (code ∈ codes)))
    (mkVErr field "account code %q not found in default_chart_of_accounts" [code]).

Definition template_errors (codes cats : gset string) (i : nat) (t : BudgetTemplateYAML) :
    list ValidationError :=
  each_i (fun j item =>
    let field rest := field_i "budget_templates" i
                        ("line_items[" +:+ Itoa (Z.of_nat j) +:+ "]." +:+ rest) in
    err_if (negb (bool_decide (tly_CategoryID item ∈ cats)))
      (mkVErr (field "category_id") "category %q not found in budget_categories"
         [tly_CategoryID item])
    ++ code_error codes (field "account_code") (tly_AccountCode item)) (bty_LineItems t).

Definition section_errors (v : VerticalYAML) : list ValidationError :=
  err_if (bool_decide (vy_PhaseTypes v = []))
    (mkVErr "vertical.phase_types" "at least one phase type required" [])
  ++ err_if (bool_decide (vy_BudgetCategories v = []))
    (mkVErr "vertical.budget_categories" "at least one budget category required" [])
  ++ err_if (bool_decide (vy_ExpenseCategories v = []))
    (mkVErr "vertical.expense_categories" "at least one expense category required" [])
  ++ err_if (bool_decide (vy_InventoryCategories v = []))
    (mkVErr "vertical.inventory_categories" "at least one inventory category required" [])
  ++ err_if (bool_decide (vy_DefaultChartOfAccounts v = []))
    (mkVErr "vertical.default_chart_of_accounts" "required" [])
  ++ err_if (bool_decide (vy_ReportDefinitions v = []))
    (mkVErr "vertical.report_definitions" "at least one report definition required" []).

Definition account_codes (v : VerticalYAML) : gset string :=
  list_to_set (coa_Code <$> vy_DefaultChartOfAccounts v).
Definition budget_cat_ids (v : VerticalYAML) : gset string :=
  list_to_set (bcy_ID <$> vy_BudgetCategories v).

Definition reference_errors (v : VerticalYAML) : list ValidationError :=
  let codes := account_codes v in
  each_i (fun i cat => code_error codes (field_i "budget_categories" i "default_account_code")
                         (bcy_DefaultAccountCode cat)) (vy_BudgetCategories v)
  ++ each_i (fun i cat =>
       code_error codes (field_i "expense_categories" i "default_account_code")
         (ecy_DefaultAccountCode cat)
       ++ err_if (negb (bool_decide (ecy_TaxTreatment cat = ""))
                  && negb (IsValidTaxTreatment (ecy_TaxTreatment cat)))
            (mkVErr (field_i "expense_categories" i "tax_treatment")
               "invalid value %q: must be one of %s" [ecy_TaxTreatment cat; ValidTaxTreatmentList]))
       (vy_ExpenseCategories v)
  ++ each_i (template_errors codes (budget_cat_ids v)) (vy_BudgetTemplates v).

Definition duplicate_errors (v : VerticalYAML) : list ValidationError :=
  checkDuplicateIDs "vertical.phase_types" (phaseTypeIDs (vy_PhaseTypes v))
  ++ checkDuplicateNames "vertical.phase_types" (phaseTypeLabels (vy_PhaseTypes v))
  ++ checkDuplicateIDs "vertical.budget_categories" (budgetCategoryIDs (vy_BudgetCategories v))
  ++ checkDuplicateIDs "vertical.expense_categories" (expenseCategoryIDs (vy_ExpenseCategories v))
  ++ checkDuplicateIDs "vertical.inventory_categories" (inventoryCategoryIDs (vy_InventoryCategories v))
  ++ checkDuplicateIDs "vertical.report_definitions" (reportDefinitionIDs (vy_ReportDefinitions v))
  ++ checkDuplicateNames "vertical.budget_templates" (budgetTemplateNames (vy_BudgetTemplates v)).

Definition role_errors (v : VerticalYAML) : list ValidationError :=
  mjoin ((fun name => err_if (bool_decide (vy_RoleLabels v !! name = None))
      (mkVErr "vertical.role_labels" "missing label for system role %q" [name])) <$> SystemRoleNames)
  ++ mjoin ((fun lim => err_if (negb (bool_decide (aly_Role lim ∈ SystemRoleNames)))
      (mkVErr "vertical.approval_workflow.limits" "limit role %q is not a system role" [aly_Role lim]))
      <$> awy_Limits (vy_ApprovalWorkflow v)).

Definition validate_vertical (range : list (string * string) -> list (string * string))
    (v : VerticalYAML) : option (list ValidationError) :=
  phases ← (if bool_decide (vy_PhaseTypes v = []) then Some []
            else validatePhaseTransitions (vy_PhaseTypes v));
  Some (err_if (bool_decide (vy_ID v = "")) (mkVErr "vertical.id" "required" [])
        ++ err_if (bool_decide (vy_Name v = "")) (mkVErr "vertical.name" "required" [])
        ++ err_if (bool_decide (vy_Version v = "")) (mkVErr "vertical.version" "required" [])
        ++ validateEntityLabels range (vy_EntityLabels v)
        ++ section_errors v ++ duplicate_errors v ++ reference_errors v ++ phases ++ role_errors v).

(** [Err text] is a parse failure; [Ok []] is a valid definition. *)
Definition Validate (unmarshal : string -> option VerticalYAML)
    (range : list (string * string) -> list (string * string)) (yamlData : string) :
    option (result string (list ValidationError)) :=
  match unmarshal yamlData with
  | None => Some (Err "vertical: invalid YAML: %w")
  | Some v => Ok <$> validate_vertical range v
  end.

End yaml.
