(* ===== verification/ValidatorProps.v ===== *)
(** Vertical configuration: the validator is correct.  The depth-first search
    over the phase graph terminates within the number of phases and reports a
    cycle exactly when there is one, and the whole validator reports no error
    exactly for the definitions [well_formed] describes. *)

From S2P Require Export Validator.
From stdpp Require Import relations fin_sets.
Local Open Scope Z_scope.

Lemma tc_mono {A} (R R' : relation A) :
  (forall a b, R a b -> R' a b) -> forall x y, tc R x y -> tc R' x y.
Proof.
  intros Hsub x y. induction 1 as [x y H|x y z H _ IH]; [by apply tc_once, Hsub|].
  eapply tc_l; [by apply Hsub|exact IH].
Qed.

(** ** The depth-first search *)

Section search.
Variable ids : gset string.
Variable adj : gmap string (list string).

(** An allowed transition between known phases. *)
Definition edge (a b : string) : Prop := b ∈ default [] (adj !! a) /\ b ∈ ids.

Definition cyclic : Prop := exists x, tc edge x x.

(** No infinite chain of transitions starts here. *)
Definition terminates (x : string) : Prop := Acc (fun b a => edge a b) x.

Definition whites (s : Search) : gset string := filter (fun x => color_of s x = white) ids.

Lemma color_paint_eq s x c : color_of (paint x c s) x = c.
Proof. unfold color_of, paint; simpl. by rewrite lookup_insert_eq. Qed.
Lemma color_paint_ne s x y c : x <> y -> color_of (paint x c s) y = color_of s y.
Proof. intros Hne. unfold color_of, paint; simpl. by rewrite lookup_insert_ne. Qed.

Lemma whites_elem s x : x ∈ whites s <-> x ∈ ids /\ color_of s x = white.
Proof. unfold whites. rewrite elem_of_filter. tauto. Qed.

(** Painting a phase another colour than white. *)
Lemma whites_paint s x c : c <> white -> whites (paint x c s) ⊆ whites s.
Proof.
  intros Hc y. rewrite !whites_elem. intros [Hy Hw]. split; [done|].
  destruct (decide (x = y)) as [<-|Hne]; [|by rewrite color_paint_ne in Hw].
  by rewrite color_paint_eq in Hw.
Qed.
Lemma whites_paint_lt s x c :
  c <> white -> x ∈ whites s -> (S (size (whites (paint x c s))) <= size (whites s))%nat.
Proof.
  intros Hc Hx. assert (whites (paint x c s) ⊂ whites s) as Hsub%subset_size; [|lia].
  split; [by apply whites_paint|]. intros Hrev. apply Hrev, whites_elem in Hx as [_ Hw].
  by rewrite color_paint_eq in Hw.
Qed.

(** What the search knows: a black phase starts no infinite chain. *)
Definition black_ok (s : Search) : Prop := forall b, color_of s b = black -> terminates b.

(** What a visit of [node] leaves. *)
Definition visited (node : string) (s s' : Search) : Prop :=
  whites s' ⊆ whites s
  /\ if hasCycle s' then cyclic
     else black_ok s' /\ color_of s' node = black
          /\ (forall b, color_of s b = black -> color_of s' b = black)
          /\ (forall x, color_of s' x = gray <-> color_of s x = gray /\ x <> node).

(** A visit from a white phase that every gray phase leads to. *)
Definition visit_ok (fuel : nat) (visit : string -> Search -> option Search) : Prop :=
  forall node s, (size (whites s) <= fuel)%nat -> node ∈ whites s ->
    if hasCycle s then visit node s = Some s
    else black_ok s -> (forall g, color_of s g = gray -> tc edge g node) ->
         exists s', visit node s = Some s' /\ visited node s s'.

Section edges.
Variable fuel : nat.
Variable visit : string -> Search -> option Search.
Hypothesis Hvisit : visit_ok fuel visit.
Variable node : string.

(** Once a cycle was found the loop only runs to its end. *)
Lemma dfs_edges_found nexts s :
  (size (whites s) <= fuel)%nat -> hasCycle s = true ->
  exists s', dfs_edges ids visit node nexts s = Some s' /\ hasCycle s' = true
             /\ whites s' ⊆ whites s.
Proof.
  intros Hf Hc. induction nexts as [|next rest IH]; simpl.
  { exists (paint node black s). split; [done|]. split; [done|by apply whites_paint]. }
  destruct (bool_decide (next ∈ ids)) eqn:Hin; simpl; [|exact IH]. bool_hyps.
  destruct (color_of s next) eqn:Hcol; [|by exists (found s)|exact IH].
  assert (next ∈ whites s) as Hw by (by apply whites_elem).
  pose proof (Hvisit next s Hf Hw) as Hv. rewrite Hc in Hv. by rewrite Hv.
Qed.

Lemma dfs_edges_ok nexts s :
  (size (whites s) <= fuel)%nat -> hasCycle s = false -> black_ok s ->
  color_of s node = gray ->
  (forall g, color_of s g = gray -> g = node \/ tc edge g node) ->
  (forall y, y ∈ nexts -> y ∈ default [] (adj !! node)) ->
  (forall y, edge node y -> y ∈ nexts \/ color_of s y = black) ->
  exists s', dfs_edges ids visit node nexts s = Some s' /\ visited node s s'.
Proof.
  revert s. induction nexts as [|next rest IH]; intros s Hf Hc Hb Hn Hg Hsub Hdone; simpl.
  { exists (paint node black s). split; [done|]. split; [by apply whites_paint|]. simpl. rewrite Hc.
    split_and!.
    - intros b Hbl. destruct (decide (node = b)) as [<-|Hne].
      + constructor. intros y Hy. apply Hb. destruct (Hdone y Hy) as [?%not_elem_of_nil|?]; done.
      + apply Hb. by rewrite color_paint_ne in Hbl.
    - apply color_paint_eq.
    - intros b Hbl. destruct (decide (node = b)) as [<-|Hne]; [apply color_paint_eq|].
      by rewrite color_paint_ne.
    - intros x. destruct (decide (node = x)) as [<-|Hne]; [rewrite color_paint_eq|].
      + split; [done|by intros []].
      + rewrite color_paint_ne by done. split; [by split|by intros []]. }
  assert (Hrest : forall y, y ∈ rest -> y ∈ default [] (adj !! node))
    by (intros y Hy; apply Hsub; by right).
  destruct (bool_decide (next ∈ ids)) eqn:Hin; bool_hyps; simpl.
  2: { apply IH; [done..|]. intros y Hy. destruct (Hdone y Hy) as [[->|?]%elem_of_cons|?]; auto.
       by destruct Hy. }
  assert (He : edge node next) by (split; [apply Hsub; by left|done]).
  assert (Hgn : forall g, color_of s g = gray -> tc edge g next).
  { intros g [->|Ht]%Hg; [by apply tc_once|]. by eapply tc_r. }
  destruct (color_of s next) eqn:Hcol.
  - assert (next ∈ whites s) as Hw by (by apply whites_elem).
    pose proof (Hvisit next s Hf Hw) as Hv. rewrite Hc in Hv.
    destruct (Hv Hb Hgn) as (s1 & -> & Hsub1 & Hpost). simpl.
    assert (Hf1 : (size (whites s1) <= fuel)%nat)
      by (etrans; [by apply subseteq_size|done]).
    destruct (hasCycle s1) eqn:Hc1.
    { destruct (dfs_edges_found rest s1 Hf1 Hc1) as (s' & -> & Hc' & Hs').
      exists s'. split; [done|]. split; [by etrans|]. by rewrite Hc'. }
    destruct Hpost as (Hb1 & Hnext & Hkeep & Hgray).
    assert (Hne : node <> next) by congruence.
    destruct (IH s1) as (s' & -> & Hs' & Hpost'); try done.
    + by apply Hgray.
    + intros g [Hg1 _]%Hgray. by apply Hg.
    + intros y Hy. destruct (Hdone y Hy) as [[->|?]%elem_of_cons|?]; auto.
    + exists s'. split; [done|]. split; [by etrans|].
      destruct (hasCycle s'); [done|]. destruct Hpost' as (H1 & H2 & H3 & H4).
      split_and!; [done|done|auto|]. intros x. rewrite H4, Hgray.
      split; [tauto|]. intros [Hx Hxn]. split_and!; [done| |done]. congruence.
  - exists (found s). split; [done|]. split; [done|]. simpl. exists next. by apply Hgn.
  - apply IH; [done..|]. intros y Hy. destruct (Hdone y Hy) as [[->|?]%elem_of_cons|?]; auto.
Qed.

End edges.

(** A visit with fuel for every white phase ends, and is right. *)
Lemma dfs_ok fuel : visit_ok fuel (dfs ids adj fuel).
Proof.
  induction fuel as [|fuel IH]; intros node s Hf Hw.
  { assert (whites s ≡ ∅) as He by (apply size_empty_inv; lia). by apply He, not_elem_of_empty in Hw. }
  simpl. destruct (hasCycle s) eqn:Hc; [done|]. intros Hb Hg.
  assert (Hwn : color_of s node = white) by (by apply (whites_elem s node) in Hw as [_ ?]).
  destruct (dfs_edges_ok fuel (dfs ids adj fuel) IH node (default [] (adj !! node))
              (paint node gray s)) as (s' & Hs' & Hsub & Hpost).
  - pose proof (whites_paint_lt s node gray ltac:(done) Hw). lia.
  - done.
  - intros b Hbl. apply Hb. destruct (decide (node = b)) as [<-|Hne];
      [by rewrite color_paint_eq in Hbl|by rewrite color_paint_ne in Hbl].
  - apply color_paint_eq.
  - intros g Hgr. destruct (decide (node = g)) as [<-|Hne]; [by left|right].
    rewrite color_paint_ne in Hgr by done. by apply Hg.
  - done.
  - intros y [Hy _]. by left.
  - exists s'. split; [done|]. split; [etrans; [exact Hsub|by apply whites_paint]|].
    destruct (hasCycle s'); [done|]. destruct Hpost as (H1 & H2 & H3 & H4).
    split_and!; [done|done| |].
    + intros b Hbl. apply H3. rewrite color_paint_ne; [done|]. congruence.
    + intros x. rewrite H4. destruct (decide (node = x)) as [<-|Hne]; [tauto|].
      by rewrite color_paint_ne.
Qed.

(** The whole search: it ends, and finds a cycle unless every phase it was
    started from starts no infinite chain. *)
Lemma search_all_found fuel nodes s :
  (size (whites s) <= fuel)%nat -> (forall n, n ∈ nodes -> n ∈ ids) -> hasCycle s = true ->
  search_all ids adj fuel nodes s = Some s.
Proof.
  intros Hf Hin Hc. induction nodes as [|n rest IH]; simpl; [done|].
  assert (Hr : search_all ids adj fuel rest s = Some s) by (apply IH; set_solver).
  destruct (bool_decide (color_of s n = white)) eqn:Hw; bool_hyps; simpl; [|done].
  assert (n ∈ whites s) as Hwn by (apply whites_elem; set_solver).
  pose proof (dfs_ok fuel n s Hf Hwn) as Hd. rewrite Hc in Hd. by rewrite Hd.
Qed.

Lemma search_all_ok fuel nodes s :
  (size (whites s) <= fuel)%nat -> (forall n, n ∈ nodes -> n ∈ ids) ->
  hasCycle s = false -> black_ok s -> (forall x, color_of s x <> gray) ->
  exists s', search_all ids adj fuel nodes s = Some s'
    /\ if hasCycle s' then cyclic
       else black_ok s' /\ (forall b, color_of s b = black -> color_of s' b = black)
            /\ forall n, n ∈ nodes -> color_of s' n = black.
Proof.
  revert s. induction nodes as [|n rest IH]; intros s Hf Hin Hc Hb Hg; simpl.
  { exists s. rewrite Hc. split_and!; [done..|]. by intros n ?%not_elem_of_nil. }
  assert (Hin' : forall m, m ∈ rest -> m ∈ ids) by set_solver.
  assert (Hn : n ∈ ids) by set_solver.
  destruct (bool_decide (color_of s n = white)) eqn:Hw; bool_hyps; simpl.
  - assert (n ∈ whites s) as Hwn by (by apply whites_elem).
    pose proof (dfs_ok fuel n s Hf Hwn) as Hd. rewrite Hc in Hd.
    destruct Hd as (s1 & -> & Hsub & Hpost); [done|intros g []%Hg|]. simpl.
    assert (Hf1 : (size (whites s1) <= fuel)%nat) by (etrans; [by apply subseteq_size|done]).
    destruct (hasCycle s1) eqn:Hc1.
    { exists s1. rewrite Hc1. by rewrite search_all_found. }
    destruct Hpost as (Hb1 & Hn1 & Hkeep & Hgray).
    destruct (IH s1) as (s' & -> & Hs'); [done..| |].
    { intros x [Hx _]%Hgray. by apply (Hg x). }
    exists s'. split; [done|]. destruct (hasCycle s'); [done|].
    destruct Hs' as (H1 & H2 & H3). split_and!; [done|auto|].
    intros m [->|Hm]%elem_of_cons; auto.
  - destruct (IH s) as (s' & -> & Hs'); [done..|]. exists s'. split; [done|].
    destruct (hasCycle s'); [done|]. destruct Hs' as (H1 & H2 & H3). split_and!; [done..|].
    intros m [->|Hm]%elem_of_cons; [|auto]. apply H2.
    destruct (color_of s n) eqn:Hcol; [done|by apply Hg in Hcol|done].
Qed.

(** A phase that starts no infinite chain is on no cycle. *)
Lemma terminates_acyclic x : terminates x -> ~ tc edge x x.
Proof.
  induction 1 as [x _ IH]. intros Ht.
  assert (exists y, edge x y /\ tc edge y y) as (y & He & Hy).
  { inversion Ht as [? ? He|? y ? He Hyx]; subst; [by exists x|].
    exists y. split; [done|]. by eapply tc_r. }
  by apply (IH y).
Qed.

End search.

(** ** The phase graph of a definition *)

(** Some phase called [a] may be followed by the phase [b]. *)
Definition transition (phases : list PhaseTypeYAML) (a b : string) : Prop :=
  b ∈ pty_ID <$> phases
  /\ exists p, p ∈ phases /\ pty_ID p = a /\ b ∈ pty_AllowedTransitions p.

Lemma phase_adj_snoc phases p :
  phase_adj (phases ++ [p]) = <[pty_ID p := pty_AllowedTransitions p]> (phase_adj phases).
Proof. unfold phase_adj. by rewrite foldl_app. Qed.

Lemma phase_adj_lookup phases p :
  NoDup (pty_ID <$> phases) -> p ∈ phases ->
  phase_adj phases !! pty_ID p = Some (pty_AllowedTransitions p).
Proof.
  induction phases as [|q phases IH] using rev_ind; [by intros _ ?%not_elem_of_nil|].
  rewrite fmap_app, NoDup_app. intros (Hnd & Hq & _) Hp. rewrite phase_adj_snoc.
  apply elem_of_app in Hp as [Hp| ->%list_elem_of_singleton]; [|by rewrite lookup_insert_eq].
  rewrite lookup_insert_ne; [by apply IH|]. intros He.
  apply (Hq (pty_ID p)); [by apply list_elem_of_fmap_2|]. rewrite <- He. by left.
Qed.

Lemma phase_adj_elem phases a ts :
  phase_adj phases !! a = Some ts -> exists p, p ∈ phases /\ pty_ID p = a /\ pty_AllowedTransitions p = ts.
Proof.
  induction phases as [|q phases IH] using rev_ind; [done|]. rewrite phase_adj_snoc.
  intros [[<- <-]|[_ Hl]]%lookup_insert_Some; [|destruct (IH Hl) as (p & Hp & <- & <-)].
  - exists q. rewrite elem_of_app. by repeat split; [right; left|..].
  - exists p. rewrite elem_of_app. by repeat split; [left|..].
Qed.

Lemma phase_ids_elem phases a : a ∈ phase_ids phases <-> a ∈ pty_ID <$> phases.
Proof. apply elem_of_list_to_set. Qed.

(** The search follows the transitions of the definition. *)
Lemma edge_transition phases a b :
  edge (phase_ids phases) (phase_adj phases) a b -> transition phases a b.
Proof.
  intros [Hb Hin%phase_ids_elem]. split; [done|].
  destruct (phase_adj phases !! a) as [ts|] eqn:Ha; [|by apply not_elem_of_nil in Hb].
  apply phase_adj_elem in Ha as (p & Hp & <- & <-). by exists p.
Qed.
Lemma transition_edge phases a b :
  NoDup (pty_ID <$> phases) -> transition phases a b ->
  edge (phase_ids phases) (phase_adj phases) a b.
Proof.
  intros Hnd (Hb & p & Hp & <- & Ht). split; [|by apply phase_ids_elem].
  by rewrite (phase_adj_lookup phases p).
Qed.

Lemma size_phase_ids phases : (size (phase_ids phases) <= length phases)%nat.
Proof.
  unfold phase_ids. rewrite <- (length_fmap pty_ID phases).
  induction (pty_ID <$> phases) as [|x l IH].
  - rewrite list_to_set_nil, size_empty. simpl. lia.
  - rewrite list_to_set_cons, size_union_alt, size_singleton. cbn [length].
    apply le_n_S. etrans; [|exact IH]. apply subseteq_size, subseteq_difference_l. done.
Qed.

(** The search ends, and what it finds. *)
Lemma find_cycle_ok phases :
  exists b, find_cycle phases = Some b
    /\ if b then exists x, tc (transition phases) x x
       else forall x, x ∈ pty_ID <$> phases ->
              terminates (phase_ids phases) (phase_adj phases) x.
Proof.
  unfold find_cycle. set (ids := phase_ids phases). set (adj := phase_adj phases).
  destruct (search_all_ok ids adj (length phases) (pty_ID <$> phases) (mkSearch ∅ false))
    as (s' & -> & Hs').
  - etrans; [|apply size_phase_ids]. apply subseteq_size. intros x.
    by rewrite whites_elem; intros [].
  - intros n Hn. by apply phase_ids_elem.
  - done.
  - by intros b Hb.
  - by intros x.
  - exists (hasCycle s'). split; [done|]. destruct (hasCycle s').
    + destruct Hs' as [x Hx]. exists x. revert Hx. apply tc_mono. intros a b.
      apply edge_transition.
    + destruct Hs' as (Hb & _ & Hn). intros x Hx. by apply Hb, Hn.
Qed.

Lemma find_cycle_spec phases :
  NoDup (pty_ID <$> phases) ->
  find_cycle phases = Some false <-> forall x, ~ tc (transition phases) x x.
Proof.
  intros Hnd. destruct (find_cycle_ok phases) as (b & -> & Hb).
  assert (Hsub : forall a c, transition phases a c -> edge (phase_ids phases) (phase_adj phases) a c)
    by (intros a c; by apply transition_edge).
  split.
  - intros [= ->] x Hx. apply (tc_mono _ _ Hsub) in Hx as Hx'.
    refine (terminates_acyclic _ _ x _ Hx'). apply Hb.
    inversion Hx as [? ? (_ & p & Hp & <- & _)|? ? ? (_ & p & Hp & <- & _)]; subst;
      by apply list_elem_of_fmap_2.
  - intros Hno. destruct b; [|done]. destruct Hb as [x Hx]. by apply Hno in Hx.
Qed.

(** ** Checks that report nothing *)

Lemma and_iff (P Q R S : Prop) : (P <-> Q) -> (R <-> S) -> P /\ R <-> Q /\ S.
Proof. by intros -> ->. Qed.

Lemma err_if_nil c e : err_if c e = [] <-> c = false.
Proof. by destruct c. Qed.
Lemma err_if_not_nil (P : Prop) `{Decision P} e : err_if (negb (bool_decide P)) e = [] <-> P.
Proof. rewrite err_if_nil, negb_false_iff. apply bool_decide_eq_true. Qed.
Lemma err_if_is_nil (P : Prop) `{Decision P} e : err_if (bool_decide P) e = [] <-> ~ P.
Proof. rewrite err_if_nil. apply bool_decide_eq_false. Qed.

Lemma mjoin_nil {A} (ls : list (list A)) : mjoin ls = [] <-> forall l, l ∈ ls -> l = [].
Proof.
  induction ls as [|l ls IH]; simpl; [split; [by intros _ ? ?%not_elem_of_nil|done]|].
  rewrite app_nil, IH. set_solver.
Qed.
Lemma mjoin_fmap_nil {A B} (f : A -> list B) l :
  mjoin (f <$> l) = [] <-> forall x, x ∈ l -> f x = [].
Proof. rewrite mjoin_nil. set_solver. Qed.

Lemma each_i_nil {A} (f : nat -> A -> list ValidationError) l :
  each_i f l = [] <-> forall i x, l !! i = Some x -> f i x = [].
Proof.
  unfold each_i. rewrite mjoin_nil. split.
  - intros Hall i x Hx. apply Hall. apply list_elem_of_lookup. exists i.
    by rewrite list_lookup_imap, Hx.
  - intros Hall l' [i Hi]%list_elem_of_lookup. rewrite list_lookup_imap in Hi.
    destruct (l !! i) as [x|] eqn:Hx; [|done]. injection Hi as <-. by apply Hall.
Qed.
(** A check that says nothing about the index when it reports nothing. *)
Lemma each_i_forall {A} (P : A -> Prop) (f : nat -> A -> list ValidationError) l :
  (forall i x, f i x = [] <-> P x) -> each_i f l = [] <-> Forall P l.
Proof.
  intros Hf. rewrite each_i_nil, Forall_lookup. by setoid_rewrite Hf.
Qed.

Lemma code_error_nil codes field code :
  code_error codes field code = [] <-> code = "" \/ code ∈ codes.
Proof.
  unfold code_error. rewrite err_if_nil, andb_false_iff, !negb_false_iff.
  by rewrite !bool_decide_eq_true.
Qed.

Lemma duplicates_nil fmt field seen l :
  duplicates fmt field seen l = [] <-> NoDup l /\ forall x, x ∈ l -> x ∉ seen.
Proof.
  revert seen. induction l as [|x l IH]; intros seen; simpl.
  { split; [intros _; split; [constructor|by intros ? ?%not_elem_of_nil]|done]. }
  rewrite app_nil, err_if_is_nil, IH, NoDup_cons. set_solver.
Qed.
Lemma checkDuplicateIDs_nil field l : checkDuplicateIDs field l = [] <-> NoDup l.
Proof. unfold checkDuplicateIDs. rewrite duplicates_nil. set_solver. Qed.
Lemma checkDuplicateNames_nil field l : checkDuplicateNames field l = [] <-> NoDup l.
Proof. unfold checkDuplicateNames. rewrite duplicates_nil. set_solver. Qed.

Lemma validateEntityLabels_nil range el :
  (forall l, range l ≡ₚ l) ->
  validateEntityLabels range el = [] <->
  Forall (fun nv => nv.2 <> "") (label_fields el) /\ ely_RateUnit el ∈ validRateUnits.
Proof.
  intros Hr. unfold validateEntityLabels.
  rewrite app_nil, mjoin_fmap_nil, err_if_nil, andb_false_iff, !negb_false_iff, !bool_decide_eq_true.
  assert (Hin : forall nv, nv ∈ range (label_fields el) <-> nv ∈ label_fields el)
    by (intros nv; by rewrite (Hr (label_fields el))).
  setoid_rewrite Hin. setoid_rewrite err_if_is_nil. rewrite Forall_forall.
  split; [|by intros [Hne Hunit]; split; [|right]].
  intros [Hne [Hu|Hu]]; [|done]. exfalso.
  apply (Hne ("rate_unit", ely_RateUnit el)); [|done]. unfold label_fields. set_solver.
Qed.

Lemma existsb_Exists {A} (P : A -> Prop) `{forall x, Decision (P x)} l :
  existsb (fun x => bool_decide (P x)) l = true <-> Exists P l.
Proof.
  induction l as [|x l IH]; simpl; [by rewrite Exists_nil|].
  by rewrite orb_true_iff, bool_decide_eq_true, IH, Exists_cons.
Qed.

Lemma validatePhaseTransitions_nil phases :
  NoDup (pty_ID <$> phases) ->
  validatePhaseTransitions phases = Some [] <->
  Forall (fun p => Forall (fun t => t ∈ pty_ID <$> phases) (pty_AllowedTransitions p)) phases
  /\ Exists (fun p => pty_AllowedTransitions p = []) phases
  /\ forall x, ~ tc (transition phases) x x.
Proof.
  intros Hnd. unfold validatePhaseTransitions. rewrite <- (find_cycle_spec phases Hnd).
  destruct (find_cycle_ok phases) as (b & -> & _). simpl.
  rewrite (inj_iff Some), !app_nil, mjoin_fmap_nil, !err_if_nil, negb_false_iff.
  rewrite (existsb_Exists (fun p => pty_AllowedTransitions p = [])), (inj_iff Some).
  setoid_rewrite mjoin_fmap_nil. setoid_rewrite err_if_not_nil. setoid_rewrite phase_ids_elem.
  rewrite Forall_forall. setoid_rewrite Forall_forall. done.
Qed.

(** ** Well-formed definitions *)

Section well_formed.
Context {Float : Type}.
Implicit Types v : VerticalYAML (Float := Float).

Definition code_ok v (code : string) : Prop :=
  code = "" \/ code ∈ coa_Code <$> vy_DefaultChartOfAccounts v.

Definition item_ok v (item : TemplateLineItemYAML (Float := Float)) : Prop :=
  tly_CategoryID item ∈ bcy_ID <$> vy_BudgetCategories v /\ code_ok v (tly_AccountCode item).

(** What a vertical definition must satisfy, section by section. *)
Record well_formed v : Prop := mkWellFormed {
  wf_id : vy_ID v <> "";
  wf_name : vy_Name v <> "";
  wf_version : vy_Version v <> "";
  wf_labels : Forall (fun nv => nv.2 <> "") (label_fields (vy_EntityLabels v));
  wf_rate_unit : ely_RateUnit (vy_EntityLabels v) ∈ validRateUnits;
  wf_phases : vy_PhaseTypes v <> [];
  wf_budget_categories : vy_BudgetCategories v <> [];
  wf_expense_categories : vy_ExpenseCategories v <> [];
  wf_inventory_categories : vy_InventoryCategories v <> [];
  wf_chart : vy_DefaultChartOfAccounts v <> [];
  wf_reports : vy_ReportDefinitions v <> [];
  wf_phase_ids : NoDup (pty_ID <$> vy_PhaseTypes v);
  wf_phase_labels : NoDup (pty_Label <$> vy_PhaseTypes v);
  wf_budget_category_ids : NoDup (bcy_ID <$> vy_BudgetCategories v);
  wf_expense_category_ids : NoDup (ecy_ID <$> vy_ExpenseCategories v);
  wf_inventory_category_ids : NoDup (icy_ID <$> vy_InventoryCategories v);
  wf_report_ids : NoDup (rdy_ID <$> vy_ReportDefinitions v);
  wf_template_names : NoDup (bty_Name <$> vy_BudgetTemplates v);
  wf_budget_codes :
    Forall (fun c => code_ok v (bcy_DefaultAccountCode c)) (vy_BudgetCategories v);
  wf_expense_codes :
    Forall (fun c => code_ok v (ecy_DefaultAccountCode c)
                     /\ (ecy_TaxTreatment c = "" \/ ecy_TaxTreatment c ∈ validTaxTreatments))
      (vy_ExpenseCategories v);
  wf_items : Forall (fun t => Forall (item_ok v) (bty_LineItems t)) (vy_BudgetTemplates v);
  wf_transitions :
    Forall (fun p => Forall (fun t => t ∈ pty_ID <$> vy_PhaseTypes v) (pty_AllowedTransitions p))
      (vy_PhaseTypes v);
  wf_terminal : Exists (fun p => pty_AllowedTransitions p = []) (vy_PhaseTypes v);
  wf_acyclic : forall x, ~ tc (transition (vy_PhaseTypes v)) x x;
  wf_role_labels : Forall (fun r => is_Some (vy_RoleLabels v !! r)) SystemRoleNames;
  wf_limits :
    Forall (fun l => aly_Role l ∈ SystemRoleNames) (awy_Limits (vy_ApprovalWorkflow v));
}.

(** Each group of checks, when it reports nothing. *)
Lemma section_errors_nil v :
  section_errors v = [] <->
  vy_PhaseTypes v <> [] /\ vy_BudgetCategories v <> [] /\ vy_ExpenseCategories v <> []
  /\ vy_InventoryCategories v <> [] /\ vy_DefaultChartOfAccounts v <> []
  /\ vy_ReportDefinitions v <> [].
Proof. unfold section_errors. by rewrite !app_nil, !err_if_is_nil. Qed.

Lemma duplicate_errors_nil v :
  duplicate_errors v = [] <->
  NoDup (pty_ID <$> vy_PhaseTypes v) /\ NoDup (pty_Label <$> vy_PhaseTypes v)
  /\ NoDup (bcy_ID <$> vy_BudgetCategories v) /\ NoDup (ecy_ID <$> vy_ExpenseCategories v)
  /\ NoDup (icy_ID <$> vy_InventoryCategories v) /\ NoDup (rdy_ID <$> vy_ReportDefinitions v)
  /\ NoDup (bty_Name <$> vy_BudgetTemplates v).
Proof.
  unfold duplicate_errors. by rewrite !app_nil, !checkDuplicateIDs_nil, !checkDuplicateNames_nil.
Qed.

Lemma code_error_ok v field code :
  code_error (account_codes v) field code = [] <-> code_ok v code.
Proof. rewrite code_error_nil. unfold account_codes, code_ok. by rewrite elem_of_list_to_set. Qed.

Lemma reference_errors_nil v :
  reference_errors v = [] <->
  Forall (fun c => code_ok v (bcy_DefaultAccountCode c)) (vy_BudgetCategories v)
  /\ Forall (fun c => code_ok v (ecy_DefaultAccountCode c)
                     /\ (ecy_TaxTreatment c = "" \/ ecy_TaxTreatment c ∈ validTaxTreatments))
       (vy_ExpenseCategories v)
  /\ Forall (fun t => Forall (item_ok v) (bty_LineItems t)) (vy_BudgetTemplates v).
Proof.
  unfold reference_errors. rewrite !app_nil. repeat apply and_iff.
  - apply each_i_forall. intros i c. apply code_error_ok.
  - apply each_i_forall. intros i c. rewrite app_nil, code_error_ok, err_if_nil.
    unfold IsValidTaxTreatment. by rewrite andb_false_iff, !negb_false_iff, !bool_decide_eq_true.
  - apply each_i_forall. intros i t. apply each_i_forall. intros j item. cbv zeta.
    rewrite app_nil, code_error_ok, err_if_not_nil. unfold budget_cat_ids, item_ok.
    by rewrite elem_of_list_to_set.
Qed.

Lemma role_errors_nil v :
  role_errors v = [] <->
  Forall (fun r => is_Some (vy_RoleLabels v !! r)) SystemRoleNames
  /\ Forall (fun l => aly_Role l ∈ SystemRoleNames) (awy_Limits (vy_ApprovalWorkflow v)).
Proof.
  unfold role_errors. rewrite app_nil, !mjoin_fmap_nil, !Forall_forall.
  setoid_rewrite err_if_is_nil. setoid_rewrite err_if_not_nil. by setoid_rewrite not_eq_None_Some.
Qed.

Lemma validate_nil range v :
  (forall l, range l ≡ₚ l) -> validate_vertical range v = Some [] <-> well_formed v.
Proof.
  intros Hr. unfold validate_vertical.
  destruct (find_cycle_ok (vy_PhaseTypes v)) as (b & Hb & _).
  destruct (bool_decide (vy_PhaseTypes v = [])) eqn:Hp; bool_hyps.
  { simpl. rewrite (inj_iff Some), !app_nil, section_errors_nil.
    split; [by intros (_ & _ & _ & _ & (? & _) & _)|by intros []]. }
  destruct (validatePhaseTransitions (vy_PhaseTypes v)) as [errs|] eqn:Hv; simpl.
  2: { unfold validatePhaseTransitions in Hv. by rewrite Hb in Hv. }
  pose proof (validatePhaseTransitions_nil (vy_PhaseTypes v)) as Hph.
  rewrite Hv, (inj_iff Some) in Hph.
  rewrite (inj_iff Some), !app_nil, !err_if_is_nil, (validateEntityLabels_nil range _ Hr).
  rewrite section_errors_nil, duplicate_errors_nil, reference_errors_nil, role_errors_nil.
  split.
  - intros (? & ? & ? & [? ?] & (? & ? & ? & ? & ? & ?) & (Hnd & ? & ? & ? & ? & ? & ?)
            & (? & ? & ?) & (? & ? & ?)%(Hph Hnd) & ? & ?). by constructor.
  - intros []. split_and!; try done. by apply Hph.
Qed.

Lemma validate_returns range v : exists errs, validate_vertical range v = Some errs.
Proof.
  unfold validate_vertical.
  destruct (bool_decide (vy_PhaseTypes v = [])); simpl; [by eexists|].
  unfold validatePhaseTransitions. destruct (find_cycle_ok (vy_PhaseTypes v)) as (b & -> & _).
  simpl. by eexists.
Qed.

(** From every phase of a well-formed definition a terminal phase can be
    reached. *)
Lemma well_formed_terminal v p :
  well_formed v -> p ∈ vy_PhaseTypes v ->
  exists q, q ∈ vy_PhaseTypes v /\ pty_AllowedTransitions q = []
            /\ rtc (transition (vy_PhaseTypes v)) (pty_ID p) (pty_ID q).
Proof.
  intros Hwf Hp. set (phases := vy_PhaseTypes v) in *.
  assert (Hterm : terminates (phase_ids phases) (phase_adj phases) (pty_ID p)).
  { destruct (find_cycle_ok phases) as (b & Hb & Hpost).
    pose proof (wf_acyclic _ Hwf) as Hno.
    apply (find_cycle_spec _ (wf_phase_ids _ Hwf)) in Hno. fold phases in Hno.
    rewrite Hb in Hno. injection Hno as ->. by apply Hpost, list_elem_of_fmap_2. }
  remember (pty_ID p) as x eqn:Hx. revert p Hp Hx.
  induction Hterm as [x _ IH]; intros p Hp ->.
  destruct (pty_AllowedTransitions p) as [|t ts] eqn:Ht; [by exists p; split_and!; try done|].
  pose proof (wf_transitions _ Hwf) as Hall. fold phases in Hall.
  rewrite Forall_forall in Hall. specialize (Hall p Hp). rewrite Ht in Hall.
  apply Forall_cons in Hall as [Hin _].
  assert (Htr : transition phases (pty_ID p) t)
    by (split; [done|]; exists p; rewrite Ht; split_and!; [done..|by left]).
  apply list_elem_of_fmap in Hin as (p' & Ht' & Hp').
  destruct (IH t (transition_edge _ _ _ (wf_phase_ids _ Hwf) Htr) p' Hp' Ht')
    as (q & Hq & Hqt & Hrtc).
  exists q. split_and!; [done..|]. by eapply rtc_l.
Qed.

End well_formed.

(** ** The properties *)

(** C9: the validator returns for every text, whatever graph its phases form:
    the depth-first search needs no more depth than there are phases. *)
Theorem validator_total {Float : Type} (unmarshal : string -> option (VerticalYAML (Float := Float)))
    range text :
  exists r, Validate unmarshal range text = Some r.
Proof.
  unfold Validate. destruct (unmarshal text) as [v|]; [|by eexists].
  destruct (validate_returns range v) as [errs ->]. by eexists.
Qed.

(** C10: the validator accepts a text exactly when it parses to a well-formed
    definition: required fields and sections present, ids and names distinct,
    every referenced account code, category and phase defined, a terminal phase,
    no cycle of transitions, and every system role labelled.  The order in which
    the labels are ranged over does not matter. *)
Theorem validator_accepts_well_formed {Float : Type}
    (unmarshal : string -> option (VerticalYAML (Float := Float))) range text
    (Hrange : forall l, range l ≡ₚ l) :
  Validate unmarshal range text = Some (Ok [])
  <-> exists v, unmarshal text = Some v /\ well_formed v.
Proof.
  unfold Validate. destruct (unmarshal text) as [v|].
  - pose proof (validate_nil range v Hrange) as Hnil.
    destruct (validate_returns range v) as [errs He]. rewrite He in Hnil |- *. simpl.
    split.
    + intros [= ->]. exists v. split; [done|by apply Hnil].
    + intros (? & [= <-] & Hwf). apply Hnil in Hwf. congruence.
  - split; [done|by intros (? & ? & _)].
Qed.

(** C11: in an accepted definition every phase leads to a terminal phase, so a
    project that follows the allowed transitions can always finish. *)
Theorem accepted_phases_finish {Float : Type}
    (unmarshal : string -> option (VerticalYAML (Float := Float))) range text v p
    (Hrange : forall l, range l ≡ₚ l)
    (Hvalid : Validate unmarshal range text = Some (Ok []))
    (Htext : unmarshal text = Some v)
    (Hp : p ∈ vy_PhaseTypes v) :
  exists q, q ∈ vy_PhaseTypes v /\ pty_AllowedTransitions q = []
            /\ rtc (transition (vy_PhaseTypes v)) (pty_ID p) (pty_ID q).
Proof.
  apply well_formed_terminal; [|done]. apply (validate_nil range v Hrange).
  revert Hvalid. unfold Validate. rewrite Htext.
  destruct (validate_returns range v) as [errs ->]. simpl. congruence.
Qed.

(** ** A definition with two phases *)

Definition sample_phases : list PhaseTypeYAML :=
  [mkPhaseTypeYAML "active" "Active" 1 true ["closed"]; mkPhaseTypeYAML "closed" "Closed" 2 false []].

Definition sample : VerticalYAML (Float := Z) :=
  mkVerticalYAML "film" "Film" "1" ""
    (mkEntityLabelsYAML "Film" "Films" "Phase" "Phases" "Crew" "Crew" "Rate" "day")
    sample_phases
    [mkBudgetCategoryYAML "cast" "Cast" "" "5000"]
    [mkBudgetTemplateYAML "Short" "" [mkTemplateLineItemYAML "cast" "Lead" "5000" 100 true]]
    [mkExpenseCategoryYAML "travel" "Travel" "none" "" false]
    (mkApprovalWorkflowYAML [mkApprovalLimitYAML "manager" 1000] 0)
    [mkInventoryCategoryYAML "camera" "Camera" true None]
    [mkReportDefinitionYAML "cost" "Cost" "" [] []]
    None
    [mkCoA "5000" "Cast costs" "expense" None]
    (list_to_map ((fun r => (r, r)) <$> SystemRoleNames)).

Definition parse_sample (text : string) : option (VerticalYAML (Float := Z)) :=
  if bool_decide (text = "film") then Some sample else None.

Lemma validator_accepts_well_formed_witness :
  Validate parse_sample id "film" = Some (Ok []) /\ exists v, parse_sample "film" = Some v /\ well_formed v.
Proof.
  assert (H : Validate parse_sample id "film" = Some (Ok [])) by (vm_compute; reflexivity).
  split; [exact H|].
  exact (proj1 (validator_accepts_well_formed parse_sample id "film" (fun l => reflexivity l)) H).
Defined.

Lemma accepted_phases_finish_witness :
  exists q, q ∈ sample_phases /\ pty_AllowedTransitions q = []
            /\ rtc (transition sample_phases) "active" (pty_ID q).
Proof.
  refine (accepted_phases_finish parse_sample id "film" sample
            (mkPhaseTypeYAML "active" "Active" 1 true ["closed"]) (fun l => reflexivity l) _ _ _).
  - vm_compute. reflexivity.
  - vm_compute. reflexivity.
  - by left.
Defined.

(** A third phase that leads back is reported. *)
Example cycle_reported :
  find_cycle [mkPhaseTypeYAML "a" "A" 1 true ["b"]; mkPhaseTypeYAML "b" "B" 2 true ["c"; "a"];
              mkPhaseTypeYAML "c" "C" 3 true []] = Some true.
Proof. vm_compute. reflexivity. Qed.
