(* ===== verification/LedgerModel.v ===== *)
(** General ledger: the data of services/ledger (models.go, party.go, errors.go):
    accounts, accounting periods, journal entries and lines, parties and their
    contacts, report rows, and the package's sentinel errors. *)

From S2P Require Export Vertical.
Local Open Scope Z_scope.

(** errors.go *)
Inductive LErr :=
| ErrAccountNotFound | ErrAccountInactive | ErrAccountCodeExists | ErrInvalidAccountType
| ErrBankNameInvalid | ErrAccountNumberInvalid | ErrBankCurrencyInvalid
| ErrNoBankCodeAvailable | ErrBankAccountNotAsset
| ErrPartyNotFound | ErrPartyNameExists | ErrPartyNameInvalid | ErrPartyTypeInvalid
| ErrPartyEmailInvalid | ErrPartyFieldTooLong | ErrPartyCurrencyInvalid | ErrContactInvalid
| ErrPeriodNotFound | ErrPeriodClosed | ErrPeriodAlreadyExists
| ErrJournalNotFound | ErrJournalAlreadyPosted | ErrJournalVoid | ErrJournalNotBalanced
| ErrJournalTooFewLines
| ErrCostBehaviorInvalid | ErrCostBehaviorNotExpense | ErrMonthRangeInvalid.

#[export] Instance LErr_eq_dec : EqDecision LErr.
Proof. solve_decision. Defined.

(** The text of each sentinel. *)
Definition LErr_text (e : LErr) : string :=
  match e with
  | ErrAccountNotFound => "ledger: account not found"
  | ErrAccountInactive => "ledger: account is inactive"
  | ErrAccountCodeExists => "ledger: account code already exists for tenant"
  | ErrInvalidAccountType => "ledger: invalid account type; must be asset, liability, equity, revenue, or expense"
  | ErrBankNameInvalid => "ledger: bank name is required and must be at most 100 characters"
  | ErrAccountNumberInvalid => "ledger: account number must be at least 4 digits"
  | ErrBankCurrencyInvalid => "ledger: bank currency must be a 3-letter ISO 4217 code"
  | ErrNoBankCodeAvailable => "ledger: no free bank account code left in the 1000-1999 range"
  | ErrBankAccountNotAsset => "ledger: bank accounts must be asset accounts without a parent or code"
  | ErrPartyNotFound => "ledger: party not found"
  | ErrPartyNameExists => "ledger: a party with this name already exists"
  | ErrPartyNameInvalid => "ledger: party name is required and must be at most 200 characters"
  | ErrPartyTypeInvalid => "ledger: party type must be customer, supplier, or both"
  | ErrPartyEmailInvalid => "ledger: party email is not a valid address"
  | ErrPartyFieldTooLong => "ledger: a party field is longer than allowed"
  | ErrPartyCurrencyInvalid => "ledger: party currency must be a 3-letter ISO 4217 code"
  | ErrContactInvalid => "ledger: invalid party contact"
  | ErrPeriodNotFound => "ledger: accounting period not found"
  | ErrPeriodClosed => "ledger: accounting period is closed"
  | ErrPeriodAlreadyExists => "ledger: accounting period already exists"
  | ErrJournalNotFound => "ledger: journal entry not found"
  | ErrJournalAlreadyPosted => "ledger: journal entry is already posted"
  | ErrJournalVoid => "ledger: journal entry is void"
  | ErrJournalNotBalanced => "ledger: journal entry is not balanced: sum(debit) ≠ sum(credit)"
  | ErrJournalTooFewLines => "ledger: journal entry must have at least two lines"
  | ErrCostBehaviorInvalid => "ledger: cost behavior must be fixed, variable, or empty to clear"
  | ErrCostBehaviorNotExpense => "ledger: cost behavior applies only to expense accounts"
  | ErrMonthRangeInvalid => "ledger: months must be YYYY-MM and from_month must not be after to_month"
  end.

Record Account := mkAccount {
  acc_ID : uuid;
  acc_TenantID : uuid;
  acc_Code : string;
  acc_Name : string;
  acc_AccountType : string;
  acc_ParentID : option uuid;
  acc_IsActive : bool;
  acc_BankName : string;
  acc_AccountLast4 : string;
  acc_CostBehavior : string;
  acc_BankCurrency : string;
}.

Record AccountingPeriod := mkPeriod {
  per_ID : uuid;
  per_TenantID : uuid;
  per_Year : Z;
  per_Month : Z;
  per_Status : string;
  per_ClosedBy : option uuid;
  per_ClosedAt : option Time;
}.

Record PartyContact := mkContact {
  pc_ID : uuid;
  pc_PartyID : uuid;
  pc_Name : string;
  pc_Designation : string;
  pc_Email : string;
  pc_Phone : string;
  pc_IsPrimary : bool;
}.

Record Party := mkParty {
  pa_ID : uuid;
  pa_TenantID : uuid;
  pa_Name : string;
  pa_PartyType : string;
  pa_Email : string;
  pa_Phone : string;
  pa_TaxID : string;
  pa_Address : string;
  pa_DefaultCurrency : string;
  pa_IsActive : bool;
  pa_Contacts : list PartyContact;
}.

(** A request to create a bank account. *)
Record BankAccountInput := mkBankInput {
  bi_BankName : string;
  bi_AccountNumber : string;
  bi_Currency : string;
}.

Section amounts.
Context {X : External}.

Record JournalLine := mkLine {
  jl_ID : uuid;
  jl_JournalID : uuid;
  jl_AccountID : uuid;
  jl_DebitAmount : Dec;
  jl_CreditAmount : Dec;
  jl_Currency : string;
  jl_Description : string;
  jl_PartyID : option uuid;
}.

Record JournalEntry := mkEntry {
  je_ID : uuid;
  je_TenantID : uuid;
  je_ProductionID : option uuid;
  je_PeriodID : uuid;
  je_EntryNumber : string;
  je_Reference : string;
  je_Narration : string;
  je_Status : string;
  je_Lines : list JournalLine;
  je_PostedBy : option uuid;
  je_PostedAt : option Time;
  je_CreatedAt : Time;
}.

Record TrialBalanceEntry := mkTrial {
  tb_AccountID : uuid;
  tb_Code : string;
  tb_Name : string;
  tb_AccountType : string;
  tb_Debit : Dec;
  tb_Credit : Dec;
  tb_Balance : Dec;
}.

Record MonthlyCostBehaviorRow := mkMonthly {
  mc_Month : string;
  mc_Fixed : Dec;
  mc_Variable : Dec;
  mc_Unclassified : Dec;
  mc_Total : Dec;
}.

Record PartyLedgerLine := mkPartyLine {
  pl_EntryID : uuid;
  pl_EntryNumber : string;
  pl_EntryDate : Time;
  pl_Narration : string;
  pl_AccountCode : string;
  pl_AccountName : string;
  pl_DebitAmount : Dec;
  pl_CreditAmount : Dec;
  pl_Currency : string;
  pl_Description : string;
}.

Record PartyTransactions := mkPartyTx {
  pt_Lines : list PartyLedgerLine;
  pt_TotalDebit : Dec;
  pt_TotalCredit : Dec;
}.

End amounts.

(** General ledger: the tables of migrations/ledger, as services/ledger/db/models.go
    declares their rows.  A table is a map from its primary key. *)

Local Open Scope Z_scope.

(** ** Rows *)

Record AccountRow := mkAccountRow {
  ar_ID : uuid;
  ar_TenantID : uuid;
  ar_Code : string;
  ar_Name : string;
  ar_AccountType : string;
  ar_ParentID : option uuid;
  ar_IsActive : bool;
  ar_BankName : option string;
  ar_AccountLast4 : option string;
  ar_BankCurrency : option string;
  ar_CostBehavior : option string;
}.

Record PeriodRow := mkPeriodRow {
  pr_ID : uuid;
  pr_TenantID : uuid;
  pr_Year : Z;
  pr_Month : Z;
  pr_Status : string;
  pr_ClosedBy : option uuid;
  pr_ClosedAt : option Time;
}.

Record EntryRow := mkEntryRow {
  er_ID : uuid;
  er_TenantID : uuid;
  er_ProductionID : option uuid;
  er_PeriodID : uuid;
  er_EntryNumber : string;
  er_Reference : option string;
  er_Narration : string;
  er_Status : string;
  er_PostedBy : option uuid;
  er_PostedAt : option Time;
  er_CreatedAt : Time;
}.

Record PartyRow := mkPartyRow {
  yr_ID : uuid;
  yr_TenantID : uuid;
  yr_Name : string;
  yr_PartyType : string;
  yr_Email : string;
  yr_Phone : string;
  yr_TaxID : string;
  yr_Address : string;
  yr_DefaultCurrency : option string;
  yr_IsActive : bool;
  yr_CreatedAt : Time;
  yr_UpdatedAt : Time;
}.

Record ContactRow := mkContactRow {
  cr_ID : uuid;
  cr_TenantID : uuid;
  cr_PartyID : uuid;
  cr_Name : string;
  cr_Designation : string;
  cr_Email : string;
  cr_Phone : string;
  cr_IsPrimary : bool;
  cr_Position : Z;
  cr_CreatedAt : Time;
  cr_UpdatedAt : Time;
}.

Section tables.
Context {X : External}.

(** The NUMERIC columns are NOT NULL, so a row holds plain decimals. *)
Record LineRow := mkLineRow {
  lr_ID : uuid;
  lr_JournalID : uuid;
  lr_AccountID : uuid;
  lr_DebitAmount : Dec;
  lr_CreditAmount : Dec;
  lr_Currency : string;
  lr_Description : option string;
  lr_PartyID : option uuid;
}.

Record DB := mkDB {
  accounts : gmap uuid AccountRow;
  accounting_periods : gmap uuid PeriodRow;
  journal_entries : gmap uuid EntryRow;
  journal_lines : gmap uuid LineRow;
  journal_entry_counters : gmap (uuid * Z) Z;
  parties : gmap uuid PartyRow;
  party_contacts : gmap uuid ContactRow;
}.

Definition set_accounts (t : gmap uuid AccountRow) (d : DB) : DB :=
  mkDB t (accounting_periods d) (journal_entries d) (journal_lines d)
       (journal_entry_counters d) (parties d) (party_contacts d).
Definition set_periods (t : gmap uuid PeriodRow) (d : DB) : DB :=
  mkDB (accounts d) t (journal_entries d) (journal_lines d)
       (journal_entry_counters d) (parties d) (party_contacts d).
Definition set_entries (t : gmap uuid EntryRow) (d : DB) : DB :=
  mkDB (accounts d) (accounting_periods d) t (journal_lines d)
       (journal_entry_counters d) (parties d) (party_contacts d).
Definition set_lines (t : gmap uuid LineRow) (d : DB) : DB :=
  mkDB (accounts d) (accounting_periods d) (journal_entries d) t
       (journal_entry_counters d) (parties d) (party_contacts d).
Definition set_counters (t : gmap (uuid * Z) Z) (d : DB) : DB :=
  mkDB (accounts d) (accounting_periods d) (journal_entries d) (journal_lines d)
       t (parties d) (party_contacts d).
Definition set_parties (t : gmap uuid PartyRow) (d : DB) : DB :=
  mkDB (accounts d) (accounting_periods d) (journal_entries d) (journal_lines d)
       (journal_entry_counters d) t (party_contacts d).
Definition set_contacts (t : gmap uuid ContactRow) (d : DB) : DB :=
  mkDB (accounts d) (accounting_periods d) (journal_entries d) (journal_lines d)
       (journal_entry_counters d) (parties d) t.

Definition empty_db : DB := mkDB ∅ ∅ ∅ ∅ ∅ ∅ ∅.

End tables.
