(* ===== verification/LedgerQueries.v ===== *)
(** General ledger: the SQL statements of services/ledger/db/queries.sql.go
    (and the three written out in postgres.go), each as a function on the
    tables.  A
    statement checks the CHECK, UNIQUE and REFERENCES constraints the
    migrations declare on the columns it writes, in the order PostgreSQL
    evaluates them: CHECK first, then the ON CONFLICT arbiter, then the other
    unique indexes, then the foreign keys. *)

From S2P Require Export LedgerModel.
Local Open Scope Z_scope.

Section queries.
Context {X : External}.

(** [REFERENCES t(id)] on a nullable column. *)
Definition fk_ok {A} (t : gmap uuid A) (id : option uuid) : bool :=
  match id with Some i => bool_decide (is_Some (t !! i)) | None => true end.

(** ** Accounts *)

(** 001_create_accounts, 005_add_bank_account_details *)
Definition accounts_check (r : AccountRow) : bool :=
  bool_decide (ar_AccountType r ∈ ["asset"; "liability"; "equity"; "revenue"; "expense"])
  && match ar_AccountLast4 r with
     | Some s => string_forallb is_digit s && bool_decide (String.length s = 4%nat)
     | None => true end
  && match ar_BankCurrency r with Some s => matches_upper3 s | None => true end
  && bool_decide (ar_BankName r = None <-> ar_AccountLast4 r = None)
  && bool_decide (ar_BankName r = None <-> ar_BankCurrency r = None).

Definition CreateAccount (r : AccountRow) (d : DB) : result pg_error (AccountRow * DB) :=
  if negb (accounts_check r) then Err PgConstraint
  else if exists_row (fun a => bool_decide (ar_TenantID a = ar_TenantID r)
                               && bool_decide (ar_Code a = ar_Code r)) (accounts d)
  then Err PgNoRows (* ON CONFLICT (tenant_id, code) DO NOTHING: no row is returned *)
  else if bool_decide (is_Some (accounts d !! ar_ID r)) then Err PgUniqueViolation
  else let t := <[ar_ID r := r]> (accounts d) in
       if fk_ok t (ar_ParentID r) then Ok (r, set_accounts t d) else Err PgConstraint.

Definition GetAccount (tenantID id : uuid) (d : DB) : result pg_error AccountRow :=
  get_row (accounts d) id (fun a => bool_decide (ar_TenantID a = tenantID)).

Definition GetAccountByCode (tenantID : uuid) (code : string) (d : DB) : result pg_error AccountRow :=
  one_row (select (fun a => bool_decide (ar_Code a = code)
                            && bool_decide (ar_TenantID a = tenantID)) (accounts d)).

Definition ListAccounts (tenantID : uuid) (account_type : string) (limit offset : Z) (d : DB) :
    result pg_error (list AccountRow) :=
  Ok (limit_offset limit offset
        (order_by (fun a b => text_le (ar_Code a) (ar_Code b))
           (select (fun a => bool_decide (ar_TenantID a = tenantID)
                             && (bool_decide (account_type = "")
                                 || bool_decide (ar_AccountType a = account_type))
                             && ar_IsActive a) (accounts d)))).

(** [code ~ '^1[0-9]{3}$'] *)
Definition bank_range_code (code : string) : option Z :=
  match code with
  | String c rest =>
    if bool_decide (c = "1"%char) && string_forallb is_digit rest
       && bool_decide (String.length rest = 3%nat)
    then Z.of_N <$> string_to_N 0 code else None
  | EmptyString => None
  end.

Definition NextBankAccountCode (tenantID : uuid) (d : DB) : result pg_error Z :=
  Ok (foldr Z.max 0
        (omap (fun a => bank_range_code (ar_Code a))
              (select (fun a => bool_decide (ar_TenantID a = tenantID)) (accounts d)))).

Definition SetAccountCostBehavior (tenantID id : uuid) (cost_behavior : option string) (d : DB) :
    result pg_error (AccountRow * DB) :=
  match GetAccount tenantID id d with
  | Err e => Err e
  | Ok a =>
    let a' := mkAccountRow (ar_ID a) (ar_TenantID a) (ar_Code a) (ar_Name a) (ar_AccountType a)
                (ar_ParentID a) (ar_IsActive a) (ar_BankName a) (ar_AccountLast4 a)
                (ar_BankCurrency a) cost_behavior in
    (* 009_account_cost_behavior *)
    if bool_decide (cost_behavior ∈ [None; Some "fixed"; Some "variable"])
    then Ok (a', set_accounts (<[id := a']> (accounts d)) d)
    else Err PgConstraint
  end.

(** ** Accounting periods *)

Definition CreateAccountingPeriod (r : PeriodRow) (d : DB) : result pg_error (PeriodRow * DB) :=
  if negb (bool_decide (2000 <= pr_Year r) && bool_decide (1 <= pr_Month r <= 12)
           && bool_decide (pr_Status r ∈ ["open"; "closed"])) then Err PgConstraint
  else if bool_decide (is_Some (accounting_periods d !! pr_ID r)) then Err PgNoRows
  else if exists_row (fun p => bool_decide (pr_TenantID p = pr_TenantID r)
                               && bool_decide (pr_Year p = pr_Year r)
                               && bool_decide (pr_Month p = pr_Month r)) (accounting_periods d)
  then Err PgUniqueViolation
  else Ok (r, set_periods (<[pr_ID r := r]> (accounting_periods d)) d).

Definition GetAccountingPeriod (tenantID id : uuid) (d : DB) : result pg_error PeriodRow :=
  get_row (accounting_periods d) id (fun p => bool_decide (pr_TenantID p = tenantID)).

(** [ORDER BY year DESC, month DESC] *)
Definition period_newer (a b : PeriodRow) : bool :=
  bool_decide (pr_Year b < pr_Year a)
  || bool_decide (pr_Year a = pr_Year b) && bool_decide (pr_Month b <= pr_Month a).

Definition ListAccountingPeriods (tenantID : uuid) (d : DB) : result pg_error (list PeriodRow) :=
  Ok (order_by period_newer
        (select (fun p => bool_decide (pr_TenantID p = tenantID)) (accounting_periods d))).

Definition GetOpenPeriod (tenantID : uuid) (d : DB) : result pg_error PeriodRow :=
  one_row (order_by period_newer
        (select (fun p => bool_decide (pr_TenantID p = tenantID)
                          && bool_decide (pr_Status p = "open")) (accounting_periods d))).

Definition CloseAccountingPeriod (now : Time) (tenantID id : uuid) (closed_by : option uuid) (d : DB) :
    result pg_error (PeriodRow * DB) :=
  match GetAccountingPeriod tenantID id d with
  | Err e => Err e
  | Ok p =>
    let p' := mkPeriodRow (pr_ID p) (pr_TenantID p) (pr_Year p) (pr_Month p) "closed"
                closed_by (Some now) in
    Ok (p', set_periods (<[id := p']> (accounting_periods d)) d)
  end.

(** ** Journal entries *)

Definition NextJournalEntrySeq (tenantID : uuid) (year : Z) (d : DB) : result pg_error (Z * DB) :=
  let n := match journal_entry_counters d !! (tenantID, year) with
           | None => 1
           | Some k => k + 1
           end in
  Ok (n, set_counters (<[(tenantID, year) := n]> (journal_entry_counters d)) d).

Definition CreateJournalEntry (r : EntryRow) (d : DB) : result pg_error (EntryRow * DB) :=
  if negb (bool_decide (er_Status r ∈ ["draft"; "posted"; "void"])) then Err PgConstraint
  else if bool_decide (is_Some (journal_entries d !! er_ID r)) then Err PgNoRows
  else if exists_row (fun e => bool_decide (er_EntryNumber e = er_EntryNumber r))
            (journal_entries d) then Err PgUniqueViolation
  else if fk_ok (accounting_periods d) (Some (er_PeriodID r))
  then Ok (r, set_entries (<[er_ID r := r]> (journal_entries d)) d)
  else Err PgConstraint.

(** The arguments of CreateJournalLine: no currency is among them, so the
    column takes its default, 'INR'. *)
Record CreateJournalLineParams := mkLineParams {
  lp_ID : uuid;
  lp_JournalID : uuid;
  lp_AccountID : uuid;
  lp_DebitAmount : Dec;
  lp_CreditAmount : Dec;
  lp_Description : option string;
  lp_PartyID : option uuid;
}.

Definition dec_positive (a : Dec) : bool := dec_greater a dec_zero.

(** 004_create_journal_lines: CONSTRAINT dr_or_cr *)
Definition dr_or_cr (debit credit : Dec) : bool :=
  (dec_positive debit && dec_equal credit dec_zero)
  || (dec_positive credit && dec_equal debit dec_zero).

Definition CreateJournalLine (a : CreateJournalLineParams) (d : DB) : result pg_error (LineRow * DB) :=
  match dec_numeric_14_2 (lp_DebitAmount a), dec_numeric_14_2 (lp_CreditAmount a) with
  | Some dr, Some cr =>
    let r := mkLineRow (lp_ID a) (lp_JournalID a) (lp_AccountID a) dr cr "INR"
               (lp_Description a) (lp_PartyID a) in
    if negb (dr_or_cr dr cr) then Err PgConstraint
    else if bool_decide (is_Some (journal_lines d !! lp_ID a)) then Err PgNoRows
    else if fk_ok (journal_entries d) (Some (lp_JournalID a))
            && fk_ok (accounts d) (Some (lp_AccountID a)) && fk_ok (parties d) (lp_PartyID a)
    then Ok (r, set_lines (<[lp_ID a := r]> (journal_lines d)) d)
    else Err PgConstraint
  | _, _ => Err PgConstraint
  end.

Definition GetJournalEntry (tenantID id : uuid) (d : DB) : result pg_error EntryRow :=
  get_row (journal_entries d) id (fun e => bool_decide (er_TenantID e = tenantID)).

Definition ListJournalEntries (tenantID : uuid) (periodID : option uuid) (status : string)
    (limit offset : Z) (d : DB) : result pg_error (list EntryRow) :=
  Ok (limit_offset limit offset
        (order_by (fun a b => bool_decide (er_CreatedAt b <= er_CreatedAt a))
           (select (fun e => bool_decide (er_TenantID e = tenantID)
                             && match periodID with
                                | None => true
                                | Some p => bool_decide (er_PeriodID e = p) end
                             && (bool_decide (status = "") || bool_decide (er_Status e = status)))
                   (journal_entries d)))).

(** The entry a line belongs to, when it is the tenant's. *)
Definition line_entry (d : DB) (l : LineRow) : option EntryRow :=
  journal_entries d !! lr_JournalID l.

Definition ListJournalLines (tenantID journalID : uuid) (d : DB) : result pg_error (list LineRow) :=
  Ok (order_by (fun a b => bool_decide (lr_ID a <= lr_ID b)%N)
        (select (fun l => bool_decide (lr_JournalID l = journalID)
                          && match line_entry d l with
                             | Some e => bool_decide (er_TenantID e = tenantID)
                             | None => false end) (journal_lines d))).

Definition set_entry_status (e : EntryRow) (status : string) (posted_by : option uuid)
    (posted_at : option Time) : EntryRow :=
  mkEntryRow (er_ID e) (er_TenantID e) (er_ProductionID e) (er_PeriodID e) (er_EntryNumber e)
    (er_Reference e) (er_Narration e) status posted_by posted_at (er_CreatedAt e).

Definition PostJournalEntry (now : Time) (tenantID id : uuid) (posted_by : option uuid) (d : DB) :
    result pg_error (EntryRow * DB) :=
  match GetJournalEntry tenantID id d with
  | Err e => Err e
  | Ok e =>
    if decide (er_Status e = "draft") then
      let e' := set_entry_status e "posted" posted_by (Some now) in
      Ok (e', set_entries (<[id := e']> (journal_entries d)) d)
    else Err PgNoRows
  end.

Definition VoidJournalEntry (tenantID id : uuid) (d : DB) : result pg_error (EntryRow * DB) :=
  match GetJournalEntry tenantID id d with
  | Err e => Err e
  | Ok e =>
    if decide (er_Status e = "posted") then
      let e' := set_entry_status e "void" (er_PostedBy e) (er_PostedAt e) in
      Ok (e', set_entries (<[id := e']> (journal_entries d)) d)
    else Err PgNoRows
  end.

(** [SUM] of a numeric column. *)
Definition dec_sum (l : list Dec) : Dec := foldr dec_add dec_zero l.

(** The trial balance query of postgres.go.  Both joins are LEFT JOINs and the
    entry conditions are in the second ON clause, so a line whose entry is not
    posted, or is too recent, keeps its row with [je.*] NULL: the SUMs range
    over every line of the account. *)
Definition trial_join (asOf : Time) (d : DB) (a : AccountRow) : list (LineRow * option EntryRow) :=
  (fun l => (l, match line_entry d l with
                | Some e => if bool_decide (er_Status e = "posted")
                               && bool_decide (er_CreatedAt e <= asOf) then Some e else None
                | None => None end))
    <$> select (fun l => bool_decide (lr_AccountID l = ar_ID a)) (journal_lines d).

Definition TrialBalance (tenantID : uuid) (asOf : Time) (d : DB) :
    result pg_error (list (AccountRow * Dec * Dec)) :=
  Ok ((fun a => (a, dec_sum ((fun p => lr_DebitAmount p.1) <$> trial_join asOf d a),
                    dec_sum ((fun p => lr_CreditAmount p.1) <$> trial_join asOf d a)))
        <$> order_by (fun a b => text_le (ar_Code a) (ar_Code b))
              (select (fun a => bool_decide (ar_TenantID a = tenantID) && ar_IsActive a)
                 (accounts d))).

(** The monthly cost behaviour query of postgres.go: the month and behaviour
    of each posted expense line of the tenant in the range, with its net. *)
Definition utc_month (t : Time) : string := format_month (year_utc t, month_utc t).

Definition cost_line (tenantID : uuid) (fromMonth toMonth : string) (d : DB) (l : LineRow) :
    option (string * string * Dec) :=
  match line_entry d l, accounts d !! lr_AccountID l with
  | Some je, Some a =>
    match er_PostedAt je with
    | Some at_ =>
      let month := utc_month at_ in
      if bool_decide (er_TenantID je = tenantID) && bool_decide (ar_TenantID a = tenantID)
         && bool_decide (er_Status je = "posted") && bool_decide (ar_AccountType a = "expense")
         && text_le fromMonth month && text_le month toMonth
      then Some (month, default "unclassified" (ar_CostBehavior a),
                 dec_sub (lr_DebitAmount l) (lr_CreditAmount l))
      else None
    | None => None
    end
  | _, _ => None
  end.

Definition MonthlyCostBehavior (tenantID : uuid) (fromMonth toMonth : string) (d : DB) :
    result pg_error (list (string * string * Dec)) :=
  let ls := omap (cost_line tenantID fromMonth toMonth d) (rows (journal_lines d)) in
  let keys := remove_dups (ls.*1) in
  Ok (order_by (fun a b => text_le a.1.1 b.1.1)
        ((fun k => (k, dec_sum (List.filter (fun x => bool_decide (x.1 = k)) ls).*2)) <$> keys)).

(** ** Parties *)

(** 006_create_parties *)
Definition parties_check (r : PartyRow) : bool :=
  bool_decide (1 <= RuneCountInString (yr_Name r) <= 200)
  && bool_decide (yr_PartyType r ∈ ["customer"; "supplier"; "both"])
  && match yr_DefaultCurrency r with Some s => matches_upper3 s | None => true end.

Definition party_name_taken (r : PartyRow) (d : DB) : bool :=
  exists_row (fun p => bool_decide (yr_TenantID p = yr_TenantID r)
                       && bool_decide (text_lower (yr_Name p) = text_lower (yr_Name r))
                       && negb (bool_decide (yr_ID p = yr_ID r))) (parties d).

Definition CreateParty (r : PartyRow) (d : DB) : result pg_error (PartyRow * DB) :=
  if negb (parties_check r) then Err PgConstraint
  else if bool_decide (is_Some (parties d !! yr_ID r)) || party_name_taken r d
  then Err PgUniqueViolation
  else Ok (r, set_parties (<[yr_ID r := r]> (parties d)) d).

Definition UpdateParty (now : Time) (arg : PartyRow) (d : DB) : result pg_error (PartyRow * DB) :=
  match get_row (parties d) (yr_ID arg) (fun p => bool_decide (yr_TenantID p = yr_TenantID arg)) with
  | Err e => Err e
  | Ok p =>
    let p' := mkPartyRow (yr_ID p) (yr_TenantID p) (yr_Name arg) (yr_PartyType arg) (yr_Email arg)
                (yr_Phone arg) (yr_TaxID arg) (yr_Address arg) (yr_DefaultCurrency arg)
                (yr_IsActive arg) (yr_CreatedAt p) now in
    if negb (parties_check p') then Err PgConstraint
    else if party_name_taken p' d then Err PgUniqueViolation
    else Ok (p', set_parties (<[yr_ID arg := p']> (parties d)) d)
  end.

Definition GetParty (tenantID id : uuid) (d : DB) : result pg_error PartyRow :=
  get_row (parties d) id (fun p => bool_decide (yr_TenantID p = tenantID)).

Definition ListParties (tenantID : uuid) (party_type : string) (include_inactive : bool) (d : DB) :
    result pg_error (list PartyRow) :=
  Ok (order_by (fun a b => text_le (text_lower (yr_Name a)) (text_lower (yr_Name b)))
        (select (fun p => bool_decide (yr_TenantID p = tenantID)
                          && (bool_decide (party_type = "") || bool_decide (yr_PartyType p = party_type)
                              || bool_decide (yr_PartyType p = "both"))
                          && (yr_IsActive p || include_inactive)) (parties d))).

(** 007_create_party_contacts *)
Definition contacts_check (r : ContactRow) : bool :=
  bool_decide (1 <= RuneCountInString (cr_Name r) <= 200)
  && bool_decide (RuneCountInString (cr_Designation r) <= 100)
  && bool_decide (RuneCountInString (cr_Email r) <= 254)
  && bool_decide (RuneCountInString (cr_Phone r) <= 30)
  && bool_decide (0 <= cr_Position r).

Definition CreatePartyContact (r : ContactRow) (d : DB) : result pg_error (ContactRow * DB) :=
  if negb (contacts_check r) then Err PgConstraint
  else if bool_decide (is_Some (party_contacts d !! cr_ID r))
          || (cr_IsPrimary r
              && exists_row (fun c => bool_decide (cr_PartyID c = cr_PartyID r) && cr_IsPrimary c)
                   (party_contacts d))
  then Err PgUniqueViolation
  else if fk_ok (parties d) (Some (cr_PartyID r))
  then Ok (r, set_contacts (<[cr_ID r := r]> (party_contacts d)) d)
  else Err PgConstraint.

Definition DeletePartyContacts (tenantID partyID : uuid) (d : DB) : DB :=
  set_contacts
    (filter (fun kv => ~ (cr_TenantID kv.2 = tenantID /\ cr_PartyID kv.2 = partyID))
            (party_contacts d)) d.

Definition ListPartyContacts (tenantID partyID : uuid) (d : DB) : result pg_error (list ContactRow) :=
  Ok (order_by (fun a b => bool_decide (cr_Position a <= cr_Position b))
        (select (fun c => bool_decide (cr_TenantID c = tenantID)
                          && bool_decide (cr_PartyID c = partyID)) (party_contacts d))).

Definition ListPartyContactsByTenant (tenantID : uuid) (d : DB) : result pg_error (list ContactRow) :=
  Ok (order_by (fun a b => bool_decide (cr_PartyID a < cr_PartyID b)%N
                           || bool_decide (cr_PartyID a = cr_PartyID b)
                              && bool_decide (cr_Position a <= cr_Position b))
        (select (fun c => bool_decide (cr_TenantID c = tenantID)) (party_contacts d))).

(** Party ledger lines: the joins keep posted lines tagged to the party. *)
Definition party_line (tenantID partyID : uuid) (d : DB) (l : LineRow) :
    option (EntryRow * AccountRow * LineRow) :=
  match line_entry d l, accounts d !! lr_AccountID l with
  | Some je, Some a =>
    if bool_decide (er_TenantID je = tenantID) && bool_decide (lr_PartyID l = Some partyID)
       && bool_decide (er_Status je = "posted") then Some (je, a, l) else None
  | _, _ => None
  end.

Definition party_line_le (x y : EntryRow * AccountRow * LineRow) : bool :=
  let '(e, _, l) := x in let '(e', _, l') := y in
  bool_decide (er_CreatedAt e < er_CreatedAt e')
  || bool_decide (er_CreatedAt e = er_CreatedAt e')
     && (negb (text_le (er_EntryNumber e') (er_EntryNumber e))
         || text_le (er_EntryNumber e) (er_EntryNumber e') && bool_decide (lr_ID l <= lr_ID l')%N).

Definition ListPartyLedgerLines (tenantID partyID : uuid) (d : DB) :
    result pg_error (list (EntryRow * AccountRow * LineRow)) :=
  Ok (order_by party_line_le (omap (party_line tenantID partyID d) (rows (journal_lines d)))).

End queries.
