(* ===== verification/LedgerPostgres.v ===== *)
(** General ledger: the repository of services/ledger/db/postgres.go over the
    statements of [LedgerQueries], and the service state: the database and the
    events the service has published.  A transaction is one step: its
    statements all take effect or none does. *)

From S2P Require Export LedgerModel.
From S2P Require LedgerQueries.
Local Open Scope Z_scope.

Section postgres.
Context {X : External}.

Record St := mkSt {
  st_db : DB;
  st_published : list JournalEntry;
}.

Definition empty_st : St := mkSt empty_db [].

Abbreviation Repo := (M St (error LErr)) (only parsing).

(** [p.q.<Statement>]: runs it, keeping pgx's error. *)
Definition q_exec {A} (q : DB -> result pg_error (A * DB)) : M St pg_error A :=
  db_exec (fun s => match q (st_db s) with
                    | Ok (a, d) => Ok (a, mkSt d (st_published s))
                    | Err e => Err e end).
Definition q_query {A} (q : DB -> result pg_error A) : M St pg_error A :=
  q_exec (fun d => match q d with Ok a => Ok (a, d) | Err e => Err e end).

(** The text of an error that came from the database driver. *)
Definition pg_text (e : pg_error) : error LErr :=
  match e with
  | PgNoRows => EText "no rows in result set"
  | PgUniqueViolation => EText "SQLSTATE 23505"
  | PgConstraint => EText "constraint violation"
  | PgConnection => EText "connection failed"
  end.

(** [if errors.Is(err, pgx.ErrNoRows) { return sentinel }; return fmt.Errorf(text, err)] *)
Definition no_rows_as (s : LErr) (text : string) (e : pg_error) : error LErr :=
  match e with PgNoRows => ESent s | _ => EWrap text (pg_text e) end.
(** [if isUniqueViolation(err) { return sentinel }; return fmt.Errorf(text, err)] *)
Definition unique_as (s : LErr) (text : string) (e : pg_error) : error LErr :=
  if isUniqueViolation e then ESent s else EWrap text (pg_text e).
Definition pg_wrap (text : string) (e : pg_error) : error LErr := EWrap text (pg_text e).

(** A transaction: its body runs on the tables, and an error rolls it back. *)
Definition with_tx {A} (body : DB -> result (error LErr) (A * DB)) : Repo A :=
  db_tx (EWrap "ledger: begin transaction: %w" (EText "connection failed"))
    (fun s => match body (st_db s) with
              | Ok (a, d) => Ok (a, mkSt d (st_published s))
              | Err e => Err e end).

Definition tx_step {A} (f : pg_error -> error LErr) (r : result pg_error A) : result (error LErr) A :=
  match r with Ok a => Ok a | Err e => Err (f e) end.

(** ** Conversions *)

Definition accountFromDB (r : AccountRow) : Account :=
  mkAccount (ar_ID r) (ar_TenantID r) (ar_Code r)
    (ar_Name r) (ar_AccountType r) (ar_ParentID r)
    (ar_IsActive r) (stringFromPgText (ar_BankName r))
    (stringFromPgText (ar_AccountLast4 r))
    (stringFromPgText (ar_CostBehavior r))
    (stringFromPgText (ar_BankCurrency r)).

Definition periodFromDB (r : PeriodRow) : AccountingPeriod :=
  mkPeriod (pr_ID r) (pr_TenantID r) (pr_Year r)
    (pr_Month r) (pr_Status r) (pr_ClosedBy r)
    (pr_ClosedAt r).

Definition journalEntryFromDB (r : EntryRow) : JournalEntry :=
  mkEntry (er_ID r) (er_TenantID r) (er_ProductionID r)
    (er_PeriodID r) (er_EntryNumber r)
    (stringFromPgText (er_Reference r)) (er_Narration r)
    (er_Status r) [] (er_PostedBy r) (er_PostedAt r)
    (er_CreatedAt r).

(** [decimalFromPgNumeric] on a NOT NULL column. *)
Definition journalLineFromDB (r : LineRow) : JournalLine :=
  mkLine (lr_ID r) (lr_JournalID r) (lr_AccountID r)
    (lr_DebitAmount r) (lr_CreditAmount r)
    (lr_Currency r) (stringFromPgText (lr_Description r))
    (lr_PartyID r).

Definition contactFromDB (r : ContactRow) : PartyContact :=
  mkContact (cr_ID r) (cr_PartyID r) (cr_Name r)
    (cr_Designation r) (cr_Email r) (cr_Phone r)
    (cr_IsPrimary r).
Definition contactsFromDB (l : list ContactRow) : list PartyContact := contactFromDB <$> l.

Definition partyFromDB (r : PartyRow) : Party :=
  mkParty (yr_ID r) (yr_TenantID r) (yr_Name r)
    (yr_PartyType r) (yr_Email r) (yr_Phone r)
    (yr_TaxID r) (yr_Address r)
    (stringFromPgText (yr_DefaultCurrency r)) (yr_IsActive r) [].

Definition with_contacts (cs : list PartyContact) (p : Party) : Party :=
  mkParty (pa_ID p) (pa_TenantID p) (pa_Name p) (pa_PartyType p) (pa_Email p) (pa_Phone p)
    (pa_TaxID p) (pa_Address p) (pa_DefaultCurrency p) (pa_IsActive p) cs.
Definition set_is_active (b : bool) (p : Party) : Party :=
  mkParty (pa_ID p) (pa_TenantID p) (pa_Name p) (pa_PartyType p) (pa_Email p) (pa_Phone p)
    (pa_TaxID p) (pa_Address p) (pa_DefaultCurrency p) b (pa_Contacts p).

(** ** Accounts *)

(** Returns the account with the generated fields copied back from the row. *)
Definition CreateAccount (a : Account) : Repo Account :=
  row ← map_err (unique_as ErrAccountCodeExists "ledger: create account: %w")
    (q_exec (LedgerQueries.CreateAccount
       (mkAccountRow (acc_ID a) (acc_TenantID a) (acc_Code a) (acc_Name a) (acc_AccountType a)
          (pgUUIDFromPtr (acc_ParentID a)) (acc_IsActive a) (pgTextFromString (acc_BankName a))
          (pgTextFromString (acc_AccountLast4 a)) (pgTextFromString (acc_BankCurrency a)) None)));
  if decide (ar_ID row = uuid_nil) then mthrow (ESent ErrAccountCodeExists)
  else mret (mkAccount (ar_ID row) (acc_TenantID a) (acc_Code a) (acc_Name a)
               (acc_AccountType a) (acc_ParentID a) (ar_IsActive row)
               (acc_BankName a) (acc_AccountLast4 a) (acc_CostBehavior a) (acc_BankCurrency a)).

Definition NextBankAccountCode (tenantID : uuid) : Repo Z :=
  map_err (pg_wrap "ledger: next bank account code: %w")
    (q_query (LedgerQueries.NextBankAccountCode tenantID)).

Definition GetAccountByID (tenantID id : uuid) : Repo Account :=
  row ← map_err (no_rows_as ErrAccountNotFound "ledger: get account by ID: %w")
    (q_query (LedgerQueries.GetAccount tenantID id));
  mret (accountFromDB row).

Definition GetAccountByCode (tenantID : uuid) (code : string) : Repo Account :=
  row ← map_err (no_rows_as ErrAccountNotFound "ledger: get account by code: %w")
    (q_query (LedgerQueries.GetAccountByCode tenantID code));
  mret (accountFromDB row).

Definition ListAccounts (tenantID : uuid) (limit offset : Z) : Repo (list Account) :=
  rs ← map_err (pg_wrap "ledger: list accounts: %w")
    (q_query (LedgerQueries.ListAccounts tenantID "" limit offset));
  mret (accountFromDB <$> rs).

Definition SetAccountCostBehavior (tenantID id : uuid) (costBehavior : string) : Repo Account :=
  row ← map_err (no_rows_as ErrAccountNotFound "ledger: set cost behavior: %w")
    (q_exec (LedgerQueries.SetAccountCostBehavior tenantID id (pgTextFromString costBehavior)));
  mret (accountFromDB row).

(** The fold of GetMonthlyCostBehavior over the scanned rows: one row per
    month, in the order the months first appear. *)
Definition add_cost (behavior : string) (amt : Dec) (r : MonthlyCostBehaviorRow) :
    MonthlyCostBehaviorRow :=
  mkMonthly (mc_Month r)
    (if decide (behavior = "fixed") then dec_add (mc_Fixed r) amt else mc_Fixed r)
    (if decide (behavior = "variable") then dec_add (mc_Variable r) amt else mc_Variable r)
    (if decide (behavior = "fixed" \/ behavior = "variable") then mc_Unclassified r
     else dec_add (mc_Unclassified r) amt)
    (dec_add (mc_Total r) amt).

Definition zero_month (m : string) : MonthlyCostBehaviorRow :=
  mkMonthly m dec_zero dec_zero dec_zero dec_zero.

Fixpoint scan_cost (out : list MonthlyCostBehaviorRow) (x : string * string * Dec) :
    list MonthlyCostBehaviorRow :=
  match out with
  | [] => [add_cost x.1.2 x.2 (zero_month x.1.1)]
  | r :: out' => if decide (mc_Month r = x.1.1) then add_cost x.1.2 x.2 r :: out'
                 else r :: scan_cost out' x
  end.

Definition GetMonthlyCostBehavior (tenantID : uuid) (fromMonth toMonth : string) :
    Repo (list MonthlyCostBehaviorRow) :=
  rs ← map_err (pg_wrap "ledger: monthly cost behavior: %w")
    (q_query (LedgerQueries.MonthlyCostBehavior tenantID fromMonth toMonth));
  mret (foldl scan_cost [] rs).

(** ** Parties *)

Definition contact_row (now : Time) (tenantID : uuid) (position : nat) (c : PartyContact) : ContactRow :=
  mkContactRow (pc_ID c) tenantID (pc_PartyID c) (pc_Name c) (pc_Designation c)
    (pc_Email c) (pc_Phone c) (pc_IsPrimary c) (Z.of_nat position) now now.

Definition insertPartyContact (now : Time) (tenantID : uuid) (c : PartyContact) (position : nat) (d : DB) :
    result (error LErr) DB :=
  match tx_step (pg_wrap "ledger: insert party contact: %w")
          (LedgerQueries.CreatePartyContact (contact_row now tenantID position c) d) with
  | Ok (_, d') => Ok d'
  | Err e => Err e
  end.

(** [for i := range party.Contacts { insertPartyContact(..., i) }] *)
Fixpoint insert_contacts (now : Time) (tenantID : uuid) (position : nat) (cs : list PartyContact) (d : DB) :
    result (error LErr) DB :=
  match cs with
  | [] => Ok d
  | c :: cs' => match insertPartyContact now tenantID c position d with
                | Ok d' => insert_contacts now tenantID (Datatypes.S position) cs' d'
                | Err e => Err e end
  end.

Definition CreateParty (p : Party) : Repo Party :=
  now ← time_now;
  with_tx (fun d =>
    match tx_step (unique_as ErrPartyNameExists "ledger: create party: %w")
      (LedgerQueries.CreateParty
         (mkPartyRow (pa_ID p) (pa_TenantID p) (pa_Name p) (pa_PartyType p) (pa_Email p)
            (pa_Phone p) (pa_TaxID p) (pa_Address p) (pgTextFromString (pa_DefaultCurrency p))
            true now now) d) with
    | Err e => Err e
    | Ok (row, d1) =>
      match insert_contacts now (pa_TenantID p) 0 (pa_Contacts p) d1 with
      | Err e => Err e
      | Ok d2 => Ok (set_is_active (yr_IsActive row) p, d2)
      end
    end).

Definition GetPartyByID (tenantID id : uuid) : Repo Party :=
  row ← map_err (no_rows_as ErrPartyNotFound "ledger: get party: %w")
    (q_query (LedgerQueries.GetParty tenantID id));
  cs ← map_err (pg_wrap "ledger: list party contacts: %w")
    (q_query (LedgerQueries.ListPartyContacts tenantID id));
  mret (with_contacts (contactsFromDB cs) (partyFromDB row)).

(** [byParty[c.PartyID] = append(byParty[c.PartyID], ...)] and the lookup *)
Definition contacts_by_party (cs : list ContactRow) (id : uuid) : list PartyContact :=
  contactsFromDB (List.filter (fun c => bool_decide (cr_PartyID c = id)) cs).

Definition ListParties (tenantID : uuid) (partyType : string) (includeInactive : bool) :
    Repo (list Party) :=
  rs ← map_err (pg_wrap "ledger: list parties: %w")
    (q_query (LedgerQueries.ListParties tenantID partyType includeInactive));
  cs ← map_err (pg_wrap "ledger: list party contacts: %w")
    (q_query (LedgerQueries.ListPartyContactsByTenant tenantID));
  mret ((fun r => with_contacts (contacts_by_party cs (yr_ID r)) (partyFromDB r)) <$> rs).

Definition UpdateParty (p : Party) : Repo Party :=
  now ← time_now;
  with_tx (fun d =>
    match tx_step (fun e => match e with
                            | PgNoRows => ESent ErrPartyNotFound
                            | _ => unique_as ErrPartyNameExists "ledger: update party: %w" e end)
      (LedgerQueries.UpdateParty now
         (mkPartyRow (pa_ID p) (pa_TenantID p) (pa_Name p) (pa_PartyType p) (pa_Email p)
            (pa_Phone p) (pa_TaxID p) (pa_Address p) (pgTextFromString (pa_DefaultCurrency p))
            (pa_IsActive p) now now) d) with
    | Err e => Err e
    | Ok (row, d1) =>
      let d2 := LedgerQueries.DeletePartyContacts (pa_TenantID p) (pa_ID p) d1 in
      match insert_contacts now (pa_TenantID p) 0 (pa_Contacts p) d2 with
      | Err e => Err e
      | Ok d3 => Ok (set_is_active (yr_IsActive row) p, d3)
      end
    end).

Definition partyLineFromDB (x : EntryRow * AccountRow * LineRow) : PartyLedgerLine :=
  let '(je, a, l) := x in
  mkPartyLine (er_ID je) (er_EntryNumber je) (er_CreatedAt je)
    (er_Narration je) (ar_Code a) (ar_Name a)
    (lr_DebitAmount l) (lr_CreditAmount l) (lr_Currency l)
    (stringFromPgText (lr_Description l)).

Definition ListPartyLedgerLines (tenantID partyID : uuid) : Repo (list PartyLedgerLine) :=
  rs ← map_err (pg_wrap "ledger: list party ledger lines: %w")
    (q_query (LedgerQueries.ListPartyLedgerLines tenantID partyID));
  mret (partyLineFromDB <$> rs).

(** ** Accounting periods *)

Definition CreatePeriod (p : AccountingPeriod) : Repo unit :=
  _ ← map_err (unique_as ErrPeriodAlreadyExists "ledger: create accounting period: %w")
    (q_exec (LedgerQueries.CreateAccountingPeriod
       (mkPeriodRow (per_ID p) (per_TenantID p) (per_Year p) (per_Month p)
          (per_Status p) None None)));
  mret tt.

Definition GetPeriodByID (tenantID id : uuid) : Repo AccountingPeriod :=
  row ← map_err (no_rows_as ErrPeriodNotFound "ledger: get period by ID: %w")
    (q_query (LedgerQueries.GetAccountingPeriod tenantID id));
  mret (periodFromDB row).

Definition ListPeriods (tenantID : uuid) : Repo (list AccountingPeriod) :=
  rs ← map_err (pg_wrap "ledger: list periods: %w")
    (q_query (LedgerQueries.ListAccountingPeriods tenantID));
  mret (periodFromDB <$> rs).

(** The year and month are accepted and not used. *)
Definition GetOpenPeriod (tenantID : uuid) (_ _ : Z) : Repo AccountingPeriod :=
  row ← map_err (no_rows_as ErrPeriodNotFound "ledger: get open period: %w")
    (q_query (LedgerQueries.GetOpenPeriod tenantID));
  mret (periodFromDB row).

(** The SQL uses now(); the closedAt argument is not forwarded. *)
Definition ClosePeriod (tenantID periodID closedBy : uuid) (_ : Time) : Repo unit :=
  now ← time_now;
  _ ← map_err (no_rows_as ErrPeriodNotFound "ledger: close period: %w")
    (q_exec (LedgerQueries.CloseAccountingPeriod now tenantID periodID (Some closedBy)));
  mret tt.

(** ** Journal entries *)

(** [fmt.Sprintf("JE-%d-%05d", year, seq)] *)
Definition entry_number (year seq : Z) : string :=
  "JE-" +:+ Itoa year +:+ "-" +:+ pad0 5 seq.

Definition AllocateEntryNumber (tenantID : uuid) (year : Z) : Repo string :=
  seq ← map_err (pg_wrap "ledger: allocate entry number: %w")
    (q_exec (LedgerQueries.NextJournalEntrySeq tenantID year));
  mret (entry_number year seq).

Fixpoint insert_lines (journalID : uuid) (ls : list JournalLine) (d : DB) : result (error LErr) DB :=
  match ls with
  | [] => Ok d
  | l :: ls' =>
    match tx_step (pg_wrap "ledger: insert journal line %d: %w")
            (LedgerQueries.CreateJournalLine
               (LedgerQueries.mkLineParams (jl_ID l) journalID (jl_AccountID l) (jl_DebitAmount l)
                  (jl_CreditAmount l) (pgTextFromString (jl_Description l))
                  (pgUUIDFromPtr (jl_PartyID l))) d) with
    | Ok (_, d') => insert_lines journalID ls' d'
    | Err e => Err e
    end
  end.

Definition CreateJournalEntry (je : JournalEntry) : Repo unit :=
  now ← time_now;
  with_tx (fun d =>
    match tx_step (pg_wrap "ledger: insert journal entry header: %w")
      (LedgerQueries.CreateJournalEntry
         (mkEntryRow (je_ID je) (je_TenantID je) (pgUUIDFromPtr (je_ProductionID je))
            (je_PeriodID je) (je_EntryNumber je) (pgTextFromString (je_Reference je))
            (je_Narration je) (je_Status je) None None now) d) with
    | Err e => Err e
    | Ok (_, d1) =>
      match insert_lines (je_ID je) (je_Lines je) d1 with
      | Err e => Err e
      | Ok d2 => Ok (tt, d2)
      end
    end).

Definition set_je_lines (ls : list JournalLine) (je : JournalEntry) : JournalEntry :=
  mkEntry (je_ID je) (je_TenantID je) (je_ProductionID je) (je_PeriodID je) (je_EntryNumber je)
    (je_Reference je) (je_Narration je) (je_Status je) ls (je_PostedBy je) (je_PostedAt je)
    (je_CreatedAt je).

Definition GetJournalEntry (tenantID id : uuid) : Repo JournalEntry :=
  row ← map_err (no_rows_as ErrJournalNotFound "ledger: get journal entry: %w")
    (q_query (LedgerQueries.GetJournalEntry tenantID id));
  ls ← map_err (pg_wrap "ledger: list journal lines for %s: %w")
    (q_query (LedgerQueries.ListJournalLines tenantID (er_ID row)));
  mret (set_je_lines (journalLineFromDB <$> ls) (journalEntryFromDB row)).

Definition ListJournalEntries (tenantID : uuid) (periodID : option uuid) (status : string)
    (limit offset : Z) : Repo (list JournalEntry) :=
  let period := default uuid_nil periodID in
  rs ← map_err (pg_wrap "ledger: list journal entries: %w")
    (q_query (LedgerQueries.ListJournalEntries tenantID (nullableUUID period) status limit offset));
  mret (journalEntryFromDB <$> rs).

Definition UpdateJournalStatus (tenantID id : uuid) (status : string) (actorID : uuid) (_ : Time) :
    Repo unit :=
  if decide (status = "posted") then
    now ← time_now;
    _ ← map_err (no_rows_as ErrJournalNotFound "ledger: post journal entry: %w")
      (q_exec (LedgerQueries.PostJournalEntry now tenantID id (Some actorID)));
    mret tt
  else if decide (status = "void") then
    _ ← map_err (no_rows_as ErrJournalNotFound "ledger: void journal entry: %w")
      (q_exec (LedgerQueries.VoidJournalEntry tenantID id));
    mret tt
  else mthrow (EText "ledger: unsupported journal status %q").

(** ** Trial balance *)

Definition trialFromDB (x : AccountRow * Dec * Dec) : TrialBalanceEntry :=
  let '(a, debit, credit) := x in
  mkTrial (ar_ID a) (ar_Code a) (ar_Name a)
    (ar_AccountType a) debit credit (dec_sub debit credit).

Definition GetTrialBalance (tenantID : uuid) (asOf : Time) : Repo (list TrialBalanceEntry) :=
  rs ← map_err (pg_wrap "ledger: get trial balance: %w")
    (q_query (LedgerQueries.TrialBalance tenantID asOf));
  mret (trialFromDB <$> rs).

End postgres.
Arguments St {X}.
