(* ===== verification/Ledger.v ===== *)
(** General ledger: the service of services/ledger (service.go,
    bank_account.go, party.go).  Each method is a program on the service state
    [St]; repository methods are those of [LedgerPostgres]. *)

From S2P Require Export LedgerModel.
From S2P Require LedgerPostgres.
Import LedgerPostgres(St, mkSt, st_db, st_published).
Local Open Scope Z_scope.

Section service.
Context {X : External}.

(** The service's optional collaborator: whether an event publisher is set. *)
Record Service := mkService { has_publisher : bool }.

Abbreviation Op := (M St (error LErr)) (only parsing).

Variable s : Service.

(** ** Helpers *)

Definition isValidAccountType (t : string) : bool :=
  bool_decide (t ∈ ["asset"; "liability"; "equity"; "revenue"; "expense"]).

Definition isAccountCodeExists (e : error LErr) : bool := error_eq e ErrAccountCodeExists.
Definition isPeriodAlreadyExists (e : error LErr) : bool := error_eq e ErrPeriodAlreadyExists.

Definition total_debit (ls : list JournalLine) : Dec :=
  foldl (fun acc l => dec_add acc (jl_DebitAmount l)) dec_zero ls.
Definition total_credit (ls : list JournalLine) : Dec :=
  foldl (fun acc l => dec_add acc (jl_CreditAmount l)) dec_zero ls.

Definition validateBalance (ls : list JournalLine) : result (error LErr) unit :=
  if dec_equal (total_debit ls) (total_credit ls) then Ok tt
  else Err (EWrap "%w: debit=%s credit=%s" (ESent ErrJournalNotBalanced)).

(** Publishes [je] when a publisher is configured; a failure is ignored. *)
Definition publish (je : JournalEntry) : Op unit :=
  if has_publisher s
  then best_effort (fun st => mkSt (st_db st) (st_published st ++ [je]))
  else mret tt.

(** ** Accounts *)

Definition with_acc_id (id : uuid) (a : Account) : Account :=
  mkAccount id (acc_TenantID a) (acc_Code a) (acc_Name a) (acc_AccountType a) (acc_ParentID a)
    true (acc_BankName a) (acc_AccountLast4 a) (acc_CostBehavior a) (acc_BankCurrency a).

Definition CreateAccount (a : Account) : Op Account :=
  if negb (isValidAccountType (acc_AccountType a)) then mthrow (ESent ErrInvalidAccountType)
  else
    id ← (if decide (acc_ID a = uuid_nil) then uuid_new else mret (acc_ID a));
    wrap "ledger: create account %s: %w" (LedgerPostgres.CreateAccount (with_acc_id id a)).

Definition GetAccount (tenantID id : uuid) : Op Account :=
  wrap "ledger: get account %s: %w" (LedgerPostgres.GetAccountByID tenantID id).

Definition ListAccounts (tenantID : uuid) (limit offset : Z) : Op (list Account) :=
  let limit := if decide (limit <= 0 \/ 500 < limit) then 200 else limit in
  wrap "ledger: list accounts: %w" (LedgerPostgres.ListAccounts tenantID limit offset).

Definition ListAccountingPeriods (tenantID : uuid) : Op (list AccountingPeriod) :=
  wrap "ledger: list accounting periods: %w" (LedgerPostgres.ListPeriods tenantID).

Definition seed_entry (tenantID : uuid) (e : ChartOfAccountEntry) : Op unit :=
  parentID ← match coa_ParentCode e with
             | Some code =>
               p ← wrap "ledger: seed CoA — resolve parent code %q: %w"
                     (LedgerPostgres.GetAccountByCode tenantID code);
               mret (Some (acc_ID p))
             | None => mret None
             end;
  id ← uuid_new;
  r ← try (LedgerPostgres.CreateAccount
             (mkAccount id tenantID (coa_Code e) (coa_Name e) (coa_AccountType e) parentID true
                "" "" "" ""));
  match r with
  | Ok _ => mret tt
  | Err err => if isAccountCodeExists err then mret tt
               else mthrow (EWrap "ledger: seed CoA — create account %s: %w" err)
  end.

Definition SeedChartOfAccounts (tenantID : uuid) (entries : list ChartOfAccountEntry) : Op unit :=
  forM_ entries (seed_entry tenantID).

(** ** Accounting periods *)

Definition OpenAccountingPeriod (tenantID : uuid) (year month : Z) : Op unit :=
  id ← uuid_new;
  r ← try (LedgerPostgres.CreatePeriod (mkPeriod id tenantID year month "open" None None));
  match r with
  | Ok _ => mret tt
  | Err err => if isPeriodAlreadyExists err then mret tt
               else mthrow (EWrap "ledger: open accounting period %d/%02d: %w" err)
  end.

Definition closed_period (p : AccountingPeriod) (closedBy : uuid) (now : Time) : AccountingPeriod :=
  mkPeriod (per_ID p) (per_TenantID p) (per_Year p) (per_Month p) "closed" (Some closedBy) (Some now).

Definition CloseAccountingPeriod (tenantID periodID closedBy : uuid) : Op AccountingPeriod :=
  period ← wrap "ledger: get period: %w" (LedgerPostgres.GetPeriodByID tenantID periodID);
  if decide (per_Status period = "closed") then mret period
  else
    now ← time_now;
    _ ← wrap "ledger: close period %s: %w"
          (LedgerPostgres.ClosePeriod tenantID periodID closedBy now);
    mret (closed_period period closedBy now).

(** ** Journal entries *)

Definition with_line_id (id : uuid) (l : JournalLine) : JournalLine :=
  mkLine id (jl_JournalID l) (jl_AccountID l) (jl_DebitAmount l) (jl_CreditAmount l)
    (jl_Currency l) (jl_Description l) (jl_PartyID l).

(** One turn of the validation loop: the account exists and is active, the
    party, if any, exists, and the line has an id.  Any repository error on
    the account (or party) lookup is reported as ErrAccountNotFound
    (ErrPartyNotFound). *)
Definition check_line (tenantID : uuid) (i : nat) (l : JournalLine) : Op JournalLine :=
  acct ← map_err (fun _ => EWrap "ledger: line %d — %w" (ESent ErrAccountNotFound))
           (LedgerPostgres.GetAccountByID tenantID (jl_AccountID l));
  if negb (acc_IsActive acct)
  then mthrow (EWrap "ledger: line %d account %s — %w" (ESent ErrAccountInactive))
  else
    _ ← match jl_PartyID l with
        | Some p => _ ← map_err (fun _ => EWrap "ledger: line %d party — %w" (ESent ErrPartyNotFound))
                          (LedgerPostgres.GetPartyByID tenantID p);
                    mret tt
        | None => mret tt
        end;
    if decide (jl_ID l = uuid_nil) then id ← uuid_new; mret (with_line_id id l) else mret l.

Definition draft_entry (je : JournalEntry) (id : uuid) (number : string) (ls : list JournalLine) :
    JournalEntry :=
  mkEntry id (je_TenantID je) (je_ProductionID je) (je_PeriodID je) number (je_Reference je)
    (je_Narration je) "draft" ls (je_PostedBy je) (je_PostedAt je) (je_CreatedAt je).

Definition CreateJournalEntry (je : JournalEntry) : Op JournalEntry :=
  if decide (length (je_Lines je) < 2)%nat then mthrow (ESent ErrJournalTooFewLines)
  else
    ls ← mapM_i (check_line (je_TenantID je)) 0 (je_Lines je);
    id ← (if decide (je_ID je = uuid_nil) then uuid_new else mret (je_ID je));
    now ← time_now;
    zone ← local_zone;
    number ← wrap "ledger: allocate entry number: %w"
               (LedgerPostgres.AllocateEntryNumber (je_TenantID je) (year_utc (now + zone)));
    let je' := draft_entry je id number ls in
    _ ← wrap "ledger: create journal entry: %w" (LedgerPostgres.CreateJournalEntry je');
    mret je'.

Definition posted_entry (je : JournalEntry) (postedBy : uuid) (now : Time) : JournalEntry :=
  mkEntry (je_ID je) (je_TenantID je) (je_ProductionID je) (je_PeriodID je) (je_EntryNumber je)
    (je_Reference je) (je_Narration je) "posted" (je_Lines je) (Some postedBy) (Some now)
    (je_CreatedAt je).

Definition PostJournalEntry (tenantID id postedBy : uuid) : Op JournalEntry :=
  je ← wrap "ledger: get journal entry: %w" (LedgerPostgres.GetJournalEntry tenantID id);
  if decide (je_Status je = "posted") then mthrow (ESent ErrJournalAlreadyPosted)
  else if decide (je_Status je = "void") then mthrow (ESent ErrJournalVoid)
  else
    period ← wrap "ledger: get period for posting: %w"
               (LedgerPostgres.GetPeriodByID tenantID (je_PeriodID je));
    if decide (per_Status period = "closed") then mthrow (ESent ErrPeriodClosed)
    else
      _ ← lift_result (validateBalance (je_Lines je));
      now ← time_now;
      _ ← wrap "ledger: post journal entry %s: %w"
            (LedgerPostgres.UpdateJournalStatus tenantID id "posted" postedBy now);
      let je' := posted_entry je postedBy now in
      _ ← publish je';
      mret je'.

Definition GetJournalEntry (tenantID id : uuid) : Op JournalEntry :=
  wrap "ledger: get journal entry %s: %w" (LedgerPostgres.GetJournalEntry tenantID id).

Definition ListJournalEntries (tenantID : uuid) (periodID : option uuid) (status : string)
    (limit offset : Z) : Op (list JournalEntry) :=
  let limit := if decide (limit <= 0) then 20 else if decide (100 < limit) then 100 else limit in
  wrap "ledger: list journal entries: %w"
    (LedgerPostgres.ListJournalEntries tenantID periodID status limit offset).

(** [VoidJournalEntry] builds the reversal line by line: debit and credit are
    swapped, the party is not carried over. *)
Definition reverse_line (id : uuid) (l : JournalLine) : JournalLine :=
  mkLine id uuid_nil (jl_AccountID l) (jl_CreditAmount l) (jl_DebitAmount l) (jl_Currency l)
    ("REVERSAL: " +:+ jl_Description l) None.

Definition reversing_entry (tenantID : uuid) (o : JournalEntry) (ls : list JournalLine) : JournalEntry :=
  mkEntry uuid_nil tenantID (je_ProductionID o) (je_PeriodID o) "" (je_EntryNumber o)
    ("REVERSAL OF " +:+ je_EntryNumber o +:+ ": " +:+ je_Narration o) "" ls None None zero_time.

Definition VoidJournalEntry (tenantID id voidedBy : uuid) : Op JournalEntry :=
  original ← wrap "ledger: get journal entry for void: %w"
               (LedgerPostgres.GetJournalEntry tenantID id);
  if decide (je_Status original = "void") then mthrow (ESent ErrJournalVoid)
  else if negb (bool_decide (je_Status original = "posted"))
  then mthrow (EText "ledger: only posted entries can be voided")
  else
    ls ← mapM_i (fun _ l => lid ← uuid_new; mret (reverse_line lid l)) 0 (je_Lines original);
    reversing ← wrap "ledger: create reversing entry: %w"
                  (CreateJournalEntry (reversing_entry tenantID original ls));
    reversing ← wrap "ledger: post reversing entry: %w"
                  (PostJournalEntry tenantID (je_ID reversing) voidedBy);
    now ← time_now;
    _ ← wrap "ledger: mark entry void: %w"
          (LedgerPostgres.UpdateJournalStatus tenantID id "void" voidedBy now);
    mret reversing.

(** ** Reports *)

Definition GetTrialBalance (tenantID : uuid) (asOf : Time) : Op (list TrialBalanceEntry) :=
  wrap "ledger: get trial balance: %w" (LedgerPostgres.GetTrialBalance tenantID asOf).

Definition SetAccountCostBehavior (tenantID id : uuid) (costBehavior : string) : Op Account :=
  if negb (bool_decide (costBehavior ∈ [""; "fixed"; "variable"]))
  then mthrow (ESent ErrCostBehaviorInvalid)
  else
    acct ← wrap "ledger: set cost behavior: %w" (LedgerPostgres.GetAccountByID tenantID id);
    if negb (bool_decide (acc_AccountType acct = "expense"))
    then mthrow (ESent ErrCostBehaviorNotExpense)
    else wrap "ledger: set cost behavior: %w"
           (LedgerPostgres.SetAccountCostBehavior tenantID id costBehavior).

(** [for m := from; !m.After(to); m = m.AddDate(0, 1, 0)]; [fuel] bounds the
    number of turns. *)
Fixpoint fill_months (fuel : nat) (byMonth : gmap string MonthlyCostBehaviorRow)
    (m to : Z * Z) : list MonthlyCostBehaviorRow :=
  match fuel with
  | O => []
  | Datatypes.S f =>
    if decide (month_index to < month_index m) then []
    else let key := format_month m in
         default (LedgerPostgres.zero_month key) (byMonth !! key)
           :: fill_months f byMonth (next_month m) to
  end.

(** The range check caps a report at 36 months. *)
Definition max_months : Z := 36.

Definition month_range (fromMonth toMonth : string) : result (error LErr) ((Z * Z) * (Z * Z)) :=
  match parse_month fromMonth, parse_month toMonth with
  | Some from, Some to =>
    if decide (month_index to < month_index from) then Err (ESent ErrMonthRangeInvalid)
    else if decide (max_months < (to.1 - from.1) * 12 + (to.2 - from.2) + 1)
    then Err (ESent ErrMonthRangeInvalid)
    else Ok (from, to)
  | _, _ => Err (ESent ErrMonthRangeInvalid)
  end.

Definition by_month (rs : list MonthlyCostBehaviorRow) : gmap string MonthlyCostBehaviorRow :=
  foldl (fun m r => <[mc_Month r := r]> m) ∅ rs.

Definition GetMonthlyCostBehavior (tenantID : uuid) (fromMonth toMonth : string) :
    Op (list MonthlyCostBehaviorRow) :=
  range ← lift_result (month_range fromMonth toMonth);
  rs ← wrap "ledger: monthly cost behavior: %w"
         (LedgerPostgres.GetMonthlyCostBehavior tenantID fromMonth toMonth);
  mret (fill_months (Z.to_nat max_months) (by_month rs) range.1 range.2).

(** ** Bank accounts (bank_account.go) *)

Definition bankCodeMin : Z := 1000.
Definition bankCodeMax : Z := 1999.
Definition bankCodeStep : Z := 10.
Definition bankCreateAttempts : nat := 3.
Definition bankNameMaxLen : Z := 100.

Definition nextBankCode (highest : Z) : result (error LErr) string :=
  let next := if decide (0 < highest) then highest + bankCodeStep else bankCodeMin in
  if decide (bankCodeMax < next) then Err (ESent ErrNoBankCodeAvailable)
  else Ok (Itoa next).

Definition bank_account (id tenantID : uuid) (code bankName last4 currency : string) : Account :=
  mkAccount id tenantID code (bankName +:+ " (ending " +:+ last4 +:+ ")") "asset" None true
    bankName last4 "" currency.

(** [for range bankCreateAttempts]; [lastErr] is what the loop returns when
    every attempt lost the race for its code. *)
Fixpoint bank_attempts (n : nat) (tenantID : uuid) (bankName last4 currency : string)
    (lastErr : error LErr) : Op Account :=
  match n with
  | O => mthrow lastErr
  | Datatypes.S n' =>
    highest ← wrap "ledger: next bank code: %w" (LedgerPostgres.NextBankAccountCode tenantID);
    code ← lift_result (nextBankCode highest);
    id ← uuid_new;
    r ← try (LedgerPostgres.CreateAccount (bank_account id tenantID code bankName last4 currency));
    match r with
    | Ok a => mret a
    | Err err =>
      if errors_Is err ErrAccountCodeExists
      then bank_attempts n' tenantID bankName last4 currency err
      else mthrow (EWrap "ledger: create bank account: %w" err)
    end
  end.

Definition CreateBankAccount (tenantID : uuid) (input : BankAccountInput) : Op Account :=
  let bankName := TrimSpace (bi_BankName input) in
  if decide (bankName = "" \/ bankNameMaxLen < len bankName) then mthrow (ESent ErrBankNameInvalid)
  else
    let digits := strip_separators (bi_AccountNumber input) in
    if negb (matches_digits4 digits) then mthrow (ESent ErrAccountNumberInvalid)
    else
      let currency := ToUpper (TrimSpace (bi_Currency input)) in
      if negb (matches_upper3 currency) then mthrow (ESent ErrBankCurrencyInvalid)
      else
        let last4 := slice_from (String.length digits - 4) digits in
        bank_attempts bankCreateAttempts tenantID bankName last4 currency (EText "").

(** ** Parties (party.go) *)

Definition partyNameMaxLen : Z := 200.
Definition partyEmailMaxLen : Z := 254.
Definition partyPhoneMaxLen : Z := 30.
Definition partyTaxIDMaxLen : Z := 50.
Definition partyAddressMaxLen : Z := 500.
Definition partyContactsMax : nat := 20.
Definition contactNameMaxLen : Z := 200.
Definition contactDesigMaxLen : Z := 100.
Definition contactPhoneMaxLen : Z := 30.

(** [addr, err := mail.ParseAddress(s); err != nil || addr.Address != s ||
    len(s) > max] negated. *)
Definition email_ok (e : string) : bool :=
  mail_bare_address e && bool_decide (len e <= partyEmailMaxLen).

Definition trim_contact (c : PartyContact) : PartyContact :=
  mkContact (pc_ID c) (pc_PartyID c) (TrimSpace (pc_Name c)) (TrimSpace (pc_Designation c))
    (TrimSpace (pc_Email c)) (TrimSpace (pc_Phone c)) (pc_IsPrimary c).

Definition contact_ok (c : PartyContact) : bool :=
  negb (bool_decide (pc_Name c = "")) && bool_decide (RuneCountInString (pc_Name c) <= contactNameMaxLen)
  && bool_decide (RuneCountInString (pc_Designation c) <= contactDesigMaxLen)
  && bool_decide (RuneCountInString (pc_Phone c) <= contactPhoneMaxLen)
  && negb (bool_decide (pc_Email c = "") && bool_decide (pc_Phone c = ""))
  && (bool_decide (pc_Email c = "") || email_ok (pc_Email c)).

Definition contact_error (text : string) : error LErr := EWrap text (ESent ErrContactInvalid).

(** The loop of normalizeContacts: the trimmed contacts and the number of
    primaries among them. *)
Fixpoint normalize_each (cs : list PartyContact) : result (error LErr) (list PartyContact * nat) :=
  match cs with
  | [] => Ok ([], 0%nat)
  | c :: cs' =>
    let c := trim_contact c in
    if negb (contact_ok c) then Err (contact_error "%w: contact %d")
    else match normalize_each cs' with
         | Err e => Err e
         | Ok (out, n) => Ok (c :: out, if pc_IsPrimary c then Datatypes.S n else n)
         end
  end.

Definition set_primary (c : PartyContact) : PartyContact :=
  mkContact (pc_ID c) (pc_PartyID c) (pc_Name c) (pc_Designation c) (pc_Email c) (pc_Phone c) true.

Definition normalizeContacts (cs : list PartyContact) : result (error LErr) (list PartyContact) :=
  if decide (partyContactsMax < length cs)%nat
  then Err (contact_error "%w: at most %d contacts per party")
  else match normalize_each cs with
  | Err e => Err e
  | Ok (out, primaries) =>
    if decide (1 < primaries)%nat then Err (contact_error "%w: only one contact can be primary")
    else match out with
         | c :: out' => if decide (primaries = 0%nat) then Ok (set_primary c :: out') else Ok out
         | [] => Ok []
         end
  end.

Definition normalizeParty (p : Party) : result (error LErr) Party :=
  let name := TrimSpace (pa_Name p) in
  if decide (name = "" \/ partyNameMaxLen < RuneCountInString name) then Err (ESent ErrPartyNameInvalid)
  else if negb (bool_decide (pa_PartyType p ∈ ["customer"; "supplier"; "both"]))
  then Err (ESent ErrPartyTypeInvalid)
  else
  let email := TrimSpace (pa_Email p) in
  if negb (bool_decide (email = "") || email_ok email) then Err (ESent ErrPartyEmailInvalid)
  else
  let phone := TrimSpace (pa_Phone p) in
  if decide (partyPhoneMaxLen < RuneCountInString phone) then Err (ESent ErrPartyFieldTooLong)
  else
  let taxID := TrimSpace (pa_TaxID p) in
  if decide (partyTaxIDMaxLen < RuneCountInString taxID) then Err (ESent ErrPartyFieldTooLong)
  else
  let address := TrimSpace (pa_Address p) in
  if decide (partyAddressMaxLen < RuneCountInString address) then Err (ESent ErrPartyFieldTooLong)
  else
  let currency := ToUpper (TrimSpace (pa_DefaultCurrency p)) in
  if negb (bool_decide (currency = "") || matches_upper3 currency)
  then Err (ESent ErrPartyCurrencyInvalid)
  else match normalizeContacts (pa_Contacts p) with
       | Err e => Err e
       | Ok cs => Ok (mkParty (pa_ID p) (pa_TenantID p) name (pa_PartyType p) email phone taxID
                        address currency (pa_IsActive p) cs)
       end.

Definition assignContactIDs (p : Party) : Op Party :=
  cs ← mapM_i (fun _ c => id ← uuid_new;
                 mret (mkContact id (pa_ID p) (pc_Name c) (pc_Designation c) (pc_Email c)
                         (pc_Phone c) (pc_IsPrimary c))) 0 (pa_Contacts p);
  mret (LedgerPostgres.with_contacts cs p).

Definition with_party_id (id : uuid) (p : Party) : Party :=
  mkParty id (pa_TenantID p) (pa_Name p) (pa_PartyType p) (pa_Email p) (pa_Phone p)
    (pa_TaxID p) (pa_Address p) (pa_DefaultCurrency p) true (pa_Contacts p).

Definition CreateParty (p : Party) : Op Party :=
  p ← lift_result (normalizeParty p);
  id ← uuid_new;
  p ← assignContactIDs (with_party_id id p);
  wrap "ledger: create party: %w" (LedgerPostgres.CreateParty p).

Definition GetParty (tenantID id : uuid) : Op Party :=
  wrap "ledger: get party %s: %w" (LedgerPostgres.GetPartyByID tenantID id).

Definition ListParties (tenantID : uuid) (partyType : string) (includeInactive : bool) :
    Op (list Party) :=
  if negb (bool_decide (partyType ∈ [""; "customer"; "supplier"]))
  then mthrow (ESent ErrPartyTypeInvalid)
  else wrap "ledger: list parties: %w" (LedgerPostgres.ListParties tenantID partyType includeInactive).

Definition UpdateParty (p : Party) : Op Party :=
  p ← lift_result (normalizeParty p);
  p ← assignContactIDs p;
  wrap "ledger: update party %s: %w" (LedgerPostgres.UpdateParty p).

Definition ListPartyTransactions (tenantID partyID : uuid) : Op PartyTransactions :=
  _ ← wrap "ledger: party transactions: %w" (LedgerPostgres.GetPartyByID tenantID partyID);
  ls ← wrap "ledger: list party ledger lines: %w"
         (LedgerPostgres.ListPartyLedgerLines tenantID partyID);
  mret (mkPartyTx ls
          (foldl (fun acc l => dec_add acc (pl_DebitAmount l)) dec_zero ls)
          (foldl (fun acc l => dec_add acc (pl_CreditAmount l)) dec_zero ls)).

End service.
