(* ===== verification/LedgerHandler.v ===== *)
(** General ledger: the gRPC handlers of services/ledger/handler.go.  A handler
    resolves the tenant from the token, checks its permission, parses the
    request, calls the service and renders the result; messages are records
    with the fields of proto/ledger/v1 the handlers read or set. *)

From S2P Require Export LedgerModel Interceptor.
From S2P Require Ledger.
From S2P Require LedgerPostgres.
Import LedgerPostgres(St).
Local Open Scope Z_scope.

Definition permLedgerRead : string := "ledger:read".
Definition permLedgerWrite : string := "ledger:write".
Definition permLedgerPost : string := "ledger:post".
Definition permLedgerAdmin : string := "ledger:admin".

(** ** Messages *)

Record PbAccount := mkPbAccount {
  pba_Id : string; pba_TenantId : string; pba_Code : string; pba_Name : string;
  pba_AccountType : string; pba_ParentId : string; pba_IsActive : bool;
  pba_BankName : string; pba_AccountLast4 : string; pba_BankCurrency : string;
  pba_CostBehavior : string;
}.
Record PbPeriod := mkPbPeriod {
  pbp_Id : string; pbp_TenantId : string; pbp_Year : Z; pbp_Month : Z; pbp_Status : string;
  pbp_ClosedBy : string; pbp_ClosedAt : option Time;
}.
Record PbLine := mkPbLine {
  pbl_Id : string; pbl_JournalId : string; pbl_AccountId : string; pbl_DebitAmount : string;
  pbl_CreditAmount : string; pbl_Currency : string; pbl_Description : string; pbl_PartyId : string;
}.
Record PbEntry := mkPbEntry {
  pbe_Id : string; pbe_TenantId : string; pbe_ProductionId : string; pbe_PeriodId : string;
  pbe_EntryNumber : string; pbe_Reference : string; pbe_Narration : string; pbe_Status : string;
  pbe_Lines : list PbLine; pbe_PostedBy : string; pbe_PostedAt : option Time; pbe_CreatedAt : Time;
}.
Record PbContact := mkPbContact {
  pbc_Id : string; pbc_PartyId : string; pbc_Name : string; pbc_Designation : string;
  pbc_Email : string; pbc_Phone : string; pbc_IsPrimary : bool;
}.
Record PbParty := mkPbParty {
  pby_Id : string; pby_TenantId : string; pby_Name : string; pby_PartyType : string;
  pby_Email : string; pby_Phone : string; pby_TaxId : string; pby_Address : string;
  pby_DefaultCurrency : string; pby_IsActive : bool; pby_Contacts : list PbContact;
}.
Record PbTrial := mkPbTrial {
  pbt_AccountId : string; pbt_Code : string; pbt_Name : string; pbt_AccountType : string;
  pbt_Debit : string; pbt_Credit : string; pbt_Balance : string;
}.
Record PbMonthly := mkPbMonthly {
  pbm_Month : string; pbm_Fixed : string; pbm_Variable : string; pbm_Unclassified : string;
  pbm_Total : string;
}.
Record PbPartyLine := mkPbPartyLine {
  pbq_EntryId : string; pbq_EntryNumber : string; pbq_EntryDate : string; pbq_Narration : string;
  pbq_AccountCode : string; pbq_AccountName : string; pbq_DebitAmount : string;
  pbq_CreditAmount : string; pbq_Currency : string; pbq_Description : string;
}.

Record CoAEntryReq := mkCoAReq {
  rc_Code : string; rc_Name : string; rc_AccountType : string; rc_ParentCode : string }.
Record LineReq := mkLineReq {
  rl_AccountId : string; rl_DebitAmount : string; rl_CreditAmount : string; rl_Currency : string;
  rl_Description : string; rl_PartyId : string }.
Record PartyReq := mkPartyReq {
  rp_Id : string; rp_Name : string; rp_PartyType : string; rp_Email : string; rp_Phone : string;
  rp_TaxId : string; rp_Address : string; rp_DefaultCurrency : string; rp_IsActive : bool;
  rp_Contacts : list PbContact }.
Record AccountReq := mkAccountReq {
  rq_Code : string; rq_Name : string; rq_AccountType : string; rq_ParentId : string;
  rq_BankName : string; rq_AccountNumber : string; rq_BankCurrency : string }.
Record EntryReq := mkEntryReq {
  re_PeriodId : string; re_ProductionId : string; re_Reference : string; re_Narration : string;
  re_Lines : list LineReq }.

(** The RPCs of LedgerService; each carries the request's tenant_id first. *)
Inductive Rpc :=
| CreateAccountRpc (tenant : string) (r : AccountReq)
| GetAccountRpc (tenant id : string)
| ListAccountsRpc (tenant : string)
| ListAccountingPeriodsRpc (tenant : string)
| SeedChartOfAccountsRpc (tenant : string) (entries : list CoAEntryReq)
| OpenAccountingPeriodRpc (tenant : string) (year month : Z)
| CloseAccountingPeriodRpc (tenant period closedBy : string)
| CreateJournalEntryRpc (tenant : string) (r : EntryReq)
| PostJournalEntryRpc (tenant id postedBy : string)
| GetJournalEntryRpc (tenant id : string)
| ListJournalEntriesRpc (tenant period status : string) (limit offset : Z)
| VoidJournalEntryRpc (tenant id voidedBy : string)
| GetTrialBalanceRpc (tenant : string) (asOf : option Time)
| SetAccountCostBehaviorRpc (tenant id costBehavior : string)
| GetMonthlyCostBehaviorRpc (tenant fromMonth toMonth : string)
| CreatePartyRpc (tenant : string) (r : PartyReq)
| GetPartyRpc (tenant id : string)
| ListPartiesRpc (tenant partyType : string) (includeInactive : bool)
| UpdatePartyRpc (tenant : string) (r : PartyReq)
| ListPartyTransactionsRpc (tenant party : string).

Inductive Response :=
| AccountResp (a : PbAccount)
| AccountsResp (l : list PbAccount)
| PeriodResp (p : PbPeriod)
| PeriodsResp (l : list PbPeriod)
| SeedResp (created skipped : Z)
| OpenPeriodResp (alreadyExisted : bool)
| EntryResp (e : PbEntry)
| EntriesResp (l : list PbEntry)
| TrialResp (l : list PbTrial)
| MonthlyResp (l : list PbMonthly)
| PartyResp (p : PbParty)
| PartiesResp (l : list PbParty)
| PartyTxResp (l : list PbPartyLine) (totalDebit totalCredit : string).

(** [err.Error()] *)
Definition error_text (e : error LErr) : string :=
  match e with
  | ESent s => LErr_text s
  | EWrap t _ => t
  | EText t => t
  end.

(** [grpcErr]: the first case of its switch that [errors.Is] accepts. *)
Definition grpcErr (e : error LErr) : status :=
  let isE s := errors_Is e s in
  if isE ErrAccountNotFound then mkStatus NotFound "account not found"
  else if isE ErrAccountInactive then mkStatus FailedPrecondition "account is inactive"
  else if isE ErrAccountCodeExists then mkStatus AlreadyExists "account code already exists for tenant"
  else if isE ErrInvalidAccountType then mkStatus InvalidArgument "invalid account type"
  else if isE ErrBankNameInvalid || isE ErrAccountNumberInvalid || isE ErrBankCurrencyInvalid
          || isE ErrBankAccountNotAsset then mkStatus InvalidArgument (error_text e)
  else if isE ErrCostBehaviorInvalid || isE ErrCostBehaviorNotExpense || isE ErrMonthRangeInvalid
  then mkStatus InvalidArgument (error_text e)
  else if isE ErrNoBankCodeAvailable then mkStatus FailedPrecondition (error_text e)
  else if isE ErrPartyNotFound then mkStatus NotFound "party not found"
  else if isE ErrPartyNameExists then mkStatus AlreadyExists (error_text e)
  else if isE ErrPartyNameInvalid || isE ErrPartyTypeInvalid || isE ErrPartyEmailInvalid
          || isE ErrPartyFieldTooLong || isE ErrPartyCurrencyInvalid || isE ErrContactInvalid
  then mkStatus InvalidArgument (error_text e)
  else if isE ErrPeriodNotFound then mkStatus NotFound "accounting period not found"
  else if isE ErrPeriodClosed then mkStatus FailedPrecondition "accounting period is closed"
  else if isE ErrPeriodAlreadyExists then mkStatus AlreadyExists "accounting period already exists"
  else if isE ErrJournalNotFound then mkStatus NotFound "journal entry not found"
  else if isE ErrJournalAlreadyPosted then mkStatus FailedPrecondition "journal entry is already posted"
  else if isE ErrJournalVoid then mkStatus FailedPrecondition "journal entry is void"
  else if isE ErrJournalNotBalanced then mkStatus InvalidArgument "journal entry is not balanced"
  else if isE ErrJournalTooFewLines
  then mkStatus InvalidArgument "journal entry must have at least two lines"
  else mkStatus Internal "internal error".

Section handler.
Context {X : External}.

(** The handler's collaborators: the service, the permission checker (nil when
    IAM was not dialled), and the project-scoped RBAC flag. *)
Record Handler := mkHandler {
  h_svc : Ledger.Service;
  h_perm : option PermissionChecker;
  h_scoped : bool;
}.

Abbreviation Op := (M St status) (only parsing).

Variable h : Handler.
Variable ctx : Ctx.

Definition svc {A} (m : M St (error LErr) A) : Op A := map_err grpcErr m.

(** The two guards every handler starts with. *)
Definition guard (tenant perm : string) : Op uuid :=
  tenantID ← lift_result (TenantFromRequest ctx tenant);
  _ ← lift_result (RequirePermission (h_scoped h) (h_perm h) ctx perm);
  mret tenantID.

(** ** Rendering *)

Definition opt_uuid_string (id : option uuid) : string :=
  match id with Some i => uuid_string i | None => "" end.
Definition partyIDString (id : option uuid) : string := opt_uuid_string id.

Definition accountToProto (a : Account) : PbAccount :=
  mkPbAccount (uuid_string (acc_ID a)) (uuid_string (acc_TenantID a)) (acc_Code a) (acc_Name a)
    (acc_AccountType a) (opt_uuid_string (acc_ParentID a)) (acc_IsActive a) (acc_BankName a)
    (acc_AccountLast4 a) (acc_BankCurrency a) (acc_CostBehavior a).

Definition periodToProto (p : AccountingPeriod) : PbPeriod :=
  mkPbPeriod (uuid_string (per_ID p)) (uuid_string (per_TenantID p)) (per_Year p) (per_Month p)
    (per_Status p) (opt_uuid_string (per_ClosedBy p)) (per_ClosedAt p).

Definition lineToProto (l : JournalLine) : PbLine :=
  mkPbLine (uuid_string (jl_ID l)) (uuid_string (jl_JournalID l)) (uuid_string (jl_AccountID l))
    (dec_string_fixed2 (jl_DebitAmount l)) (dec_string_fixed2 (jl_CreditAmount l))
    (jl_Currency l) (jl_Description l) (partyIDString (jl_PartyID l)).

Definition journalEntryToProto (je : JournalEntry) : PbEntry :=
  mkPbEntry (uuid_string (je_ID je)) (uuid_string (je_TenantID je))
    (opt_uuid_string (je_ProductionID je)) (uuid_string (je_PeriodID je)) (je_EntryNumber je)
    (je_Reference je) (je_Narration je) (je_Status je) (lineToProto <$> je_Lines je)
    (opt_uuid_string (je_PostedBy je)) (je_PostedAt je) (je_CreatedAt je).

Definition contactsFromProto (l : list PbContact) : list PartyContact :=
  (fun c => mkContact uuid_nil uuid_nil (pbc_Name c) (pbc_Designation c) (pbc_Email c)
              (pbc_Phone c) (pbc_IsPrimary c)) <$> l.

Definition contactsToProto (l : list PartyContact) : list PbContact :=
  (fun c => mkPbContact (uuid_string (pc_ID c)) (uuid_string (pc_PartyID c)) (pc_Name c)
              (pc_Designation c) (pc_Email c) (pc_Phone c) (pc_IsPrimary c)) <$> l.

Definition partyToProto (p : Party) : PbParty :=
  mkPbParty (uuid_string (pa_ID p)) (uuid_string (pa_TenantID p)) (pa_Name p) (pa_PartyType p)
    (pa_Email p) (pa_Phone p) (pa_TaxID p) (pa_Address p) (pa_DefaultCurrency p) (pa_IsActive p)
    (contactsToProto (pa_Contacts p)).

Definition trialToProto (e : TrialBalanceEntry) : PbTrial :=
  mkPbTrial (uuid_string (tb_AccountID e)) (tb_Code e) (tb_Name e) (tb_AccountType e)
    (dec_string_fixed2 (tb_Debit e)) (dec_string_fixed2 (tb_Credit e))
    (dec_string_fixed2 (tb_Balance e)).

Definition monthlyToProto (r : MonthlyCostBehaviorRow) : PbMonthly :=
  mkPbMonthly (mc_Month r) (dec_string_fixed2 (mc_Fixed r)) (dec_string_fixed2 (mc_Variable r))
    (dec_string_fixed2 (mc_Unclassified r)) (dec_string_fixed2 (mc_Total r)).

Definition partyLineToProto (l : PartyLedgerLine) : PbPartyLine :=
  mkPbPartyLine (uuid_string (pl_EntryID l)) (pl_EntryNumber l) (format_rfc3339 (pl_EntryDate l))
    (pl_Narration l) (pl_AccountCode l) (pl_AccountName l) (dec_string_fixed2 (pl_DebitAmount l))
    (dec_string_fixed2 (pl_CreditAmount l)) (pl_Currency l) (pl_Description l).

(** ** Accounts and periods *)

Definition CreateAccount (tenant : string) (r : AccountReq) : Op Response :=
  tenantID ← guard tenant permLedgerWrite;
  if negb (bool_decide (rq_BankName r = "" /\ rq_AccountNumber r = "" /\ rq_BankCurrency r = "")) then
    if negb (bool_decide (rq_Code r = "" /\ rq_ParentId r = ""))
       || (negb (bool_decide (rq_AccountType r = "")) && negb (bool_decide (rq_AccountType r = "asset")))
    then mthrow (grpcErr (ESent ErrBankAccountNotAsset))
    else out ← svc (Ledger.CreateBankAccount tenantID
                      (mkBankInput (rq_BankName r) (rq_AccountNumber r) (rq_BankCurrency r)));
         mret (AccountResp (accountToProto out))
  else
    parent ← lift_result (parse_opt_id (rq_ParentId r) "invalid parent_id");
    out ← svc (Ledger.CreateAccount
                 (mkAccount uuid_nil tenantID (rq_Code r) (rq_Name r) (rq_AccountType r) parent false
                    "" "" "" ""));
    mret (AccountResp (accountToProto out)).

Definition GetAccount (tenant id : string) : Op Response :=
  tenantID ← guard tenant permLedgerRead;
  aid ← lift_result (parse_id id "invalid account ID");
  a ← svc (Ledger.GetAccount tenantID aid);
  mret (AccountResp (accountToProto a)).

Definition ListAccounts (tenant : string) : Op Response :=
  tenantID ← guard tenant permLedgerRead;
  l ← svc (Ledger.ListAccounts tenantID 200 0);
  mret (AccountsResp (accountToProto <$> l)).

Definition ListAccountingPeriods (tenant : string) : Op Response :=
  tenantID ← guard tenant permLedgerRead;
  l ← svc (Ledger.ListAccountingPeriods tenantID);
  mret (PeriodsResp (periodToProto <$> l)).

Definition coa_entry (e : CoAEntryReq) : ChartOfAccountEntry :=
  mkCoA (rc_Code e) (rc_Name e) (rc_AccountType e)
    (if decide (rc_ParentCode e = "") then None else Some (rc_ParentCode e)).

Definition SeedChartOfAccounts (tenant : string) (entries : list CoAEntryReq) : Op Response :=
  tenantID ← guard tenant permLedgerAdmin;
  _ ← svc (Ledger.SeedChartOfAccounts tenantID (coa_entry <$> entries));
  mret (SeedResp (Z.of_nat (length entries)) 0).

Definition OpenAccountingPeriod (tenant : string) (year month : Z) : Op Response :=
  tenantID ← guard tenant permLedgerAdmin;
  _ ← svc (Ledger.OpenAccountingPeriod tenantID year month);
  mret (OpenPeriodResp false).

Definition CloseAccountingPeriod (tenant period closedBy : string) : Op Response :=
  tenantID ← guard tenant permLedgerAdmin;
  periodID ← lift_result (parse_id period "invalid period_id");
  actor ← lift_result (ActorFromRequest ctx closedBy);
  p ← svc (Ledger.CloseAccountingPeriod tenantID periodID actor);
  mret (PeriodResp (periodToProto p)).

(** ** Journal entries *)

Definition line_from_req (l : LineReq) : result status JournalLine :=
  match uuid_parse (rl_AccountId l), dec_of_string (rl_DebitAmount l), dec_of_string (rl_CreditAmount l) with
  | None, _, _ => Err (mkStatus InvalidArgument "line %d: invalid account_id")
  | _, None, _ => Err (mkStatus InvalidArgument "line %d: invalid debit_amount")
  | _, _, None => Err (mkStatus InvalidArgument "line %d: invalid credit_amount")
  | Some accountID, Some debit, Some credit =>
    match parse_opt_id (rl_PartyId l) "line %d: invalid party_id" with
    | Err e => Err e
    | Ok pid => Ok (mkLine uuid_nil uuid_nil accountID debit credit (rl_Currency l)
                      (rl_Description l) pid)
    end
  end.

Definition CreateJournalEntry (tenant : string) (r : EntryReq) : Op Response :=
  tenantID ← guard tenant permLedgerWrite;
  periodID ← lift_result (parse_id (re_PeriodId r) "invalid period_id");
  ls ← mapM_i (fun _ l => lift_result (line_from_req l)) 0 (re_Lines r);
  prod ← lift_result (parse_opt_id (re_ProductionId r) "invalid production_id");
  out ← svc (Ledger.CreateJournalEntry
               (mkEntry uuid_nil tenantID prod periodID "" (re_Reference r) (re_Narration r) ""
                  ls None None zero_time));
  mret (EntryResp (journalEntryToProto out)).

Definition PostJournalEntry (tenant id postedBy : string) : Op Response :=
  tenantID ← guard tenant permLedgerPost;
  eid ← lift_result (parse_id id "invalid journal entry ID");
  actor ← lift_result (ActorFromRequest ctx postedBy);
  je ← svc (Ledger.PostJournalEntry (h_svc h) tenantID eid actor);
  mret (EntryResp (journalEntryToProto je)).

Definition GetJournalEntry (tenant id : string) : Op Response :=
  tenantID ← guard tenant permLedgerRead;
  eid ← lift_result (parse_id id "invalid journal entry ID");
  je ← svc (Ledger.GetJournalEntry tenantID eid);
  mret (EntryResp (journalEntryToProto je)).

Definition ListJournalEntries (tenant period status : string) (limit offset : Z) : Op Response :=
  tenantID ← guard tenant permLedgerRead;
  periodID ← lift_result (parse_opt_id period "invalid period_id");
  l ← svc (Ledger.ListJournalEntries tenantID periodID status limit offset);
  mret (EntriesResp (journalEntryToProto <$> l)).

Definition VoidJournalEntry (tenant id voidedBy : string) : Op Response :=
  tenantID ← guard tenant permLedgerPost;
  eid ← lift_result (parse_id id "invalid journal entry ID");
  actor ← lift_result (ActorFromRequest ctx voidedBy);
  je ← svc (Ledger.VoidJournalEntry (h_svc h) tenantID eid actor);
  mret (EntryResp (journalEntryToProto je)).

(** ** Reports *)

Definition GetTrialBalance (tenant : string) (asOf : option Time) : Op Response :=
  tenantID ← guard tenant permLedgerRead;
  now ← time_now;
  l ← svc (Ledger.GetTrialBalance tenantID (default now asOf));
  mret (TrialResp (trialToProto <$> l)).

Definition SetAccountCostBehavior (tenant id costBehavior : string) : Op Response :=
  tenantID ← guard tenant permLedgerAdmin;
  aid ← lift_result (parse_id id "invalid account ID");
  a ← svc (Ledger.SetAccountCostBehavior tenantID aid costBehavior);
  mret (AccountResp (accountToProto a)).

Definition GetMonthlyCostBehavior (tenant fromMonth toMonth : string) : Op Response :=
  tenantID ← guard tenant permLedgerRead;
  l ← svc (Ledger.GetMonthlyCostBehavior tenantID fromMonth toMonth);
  mret (MonthlyResp (monthlyToProto <$> l)).

(** ** Parties *)

Definition party_from_req (tenantID id : uuid) (r : PartyReq) (active : bool) : Party :=
  mkParty id tenantID (rp_Name r) (rp_PartyType r) (rp_Email r) (rp_Phone r) (rp_TaxId r)
    (rp_Address r) (rp_DefaultCurrency r) active (contactsFromProto (rp_Contacts r)).

Definition CreateParty (tenant : string) (r : PartyReq) : Op Response :=
  tenantID ← guard tenant permLedgerWrite;
  out ← svc (Ledger.CreateParty (party_from_req tenantID uuid_nil r false));
  mret (PartyResp (partyToProto out)).

Definition GetParty (tenant id : string) : Op Response :=
  tenantID ← guard tenant permLedgerRead;
  pid ← lift_result (parse_id id "invalid party ID");
  out ← svc (Ledger.GetParty tenantID pid);
  mret (PartyResp (partyToProto out)).

Definition ListParties (tenant partyType : string) (includeInactive : bool) : Op Response :=
  tenantID ← guard tenant permLedgerRead;
  l ← svc (Ledger.ListParties tenantID partyType includeInactive);
  mret (PartiesResp (partyToProto <$> l)).

Definition UpdateParty (tenant : string) (r : PartyReq) : Op Response :=
  tenantID ← guard tenant permLedgerWrite;
  pid ← lift_result (parse_id (rp_Id r) "invalid party ID");
  out ← svc (Ledger.UpdateParty (party_from_req tenantID pid r (rp_IsActive r)));
  mret (PartyResp (partyToProto out)).

Definition ListPartyTransactions (tenant party : string) : Op Response :=
  tenantID ← guard tenant permLedgerRead;
  pid ← lift_result (parse_id party "invalid party ID");
  out ← svc (Ledger.ListPartyTransactions tenantID pid);
  mret (PartyTxResp (partyLineToProto <$> pt_Lines out) (dec_string_fixed2 (pt_TotalDebit out))
          (dec_string_fixed2 (pt_TotalCredit out))).

(** ** Dispatch *)

Definition handle (r : Rpc) : Op Response :=
  match r with
  | CreateAccountRpc t q => CreateAccount t q
  | GetAccountRpc t i => GetAccount t i
  | ListAccountsRpc t => ListAccounts t
  | ListAccountingPeriodsRpc t => ListAccountingPeriods t
  | SeedChartOfAccountsRpc t es => SeedChartOfAccounts t es
  | OpenAccountingPeriodRpc t y m => OpenAccountingPeriod t y m
  | CloseAccountingPeriodRpc t p b => CloseAccountingPeriod t p b
  | CreateJournalEntryRpc t q => CreateJournalEntry t q
  | PostJournalEntryRpc t i b => PostJournalEntry t i b
  | GetJournalEntryRpc t i => GetJournalEntry t i
  | ListJournalEntriesRpc t p s l o => ListJournalEntries t p s l o
  | VoidJournalEntryRpc t i b => VoidJournalEntry t i b
  | GetTrialBalanceRpc t a => GetTrialBalance t a
  | SetAccountCostBehaviorRpc t i c => SetAccountCostBehavior t i c
  | GetMonthlyCostBehaviorRpc t f u => GetMonthlyCostBehavior t f u
  | CreatePartyRpc t q => CreateParty t q
  | GetPartyRpc t i => GetParty t i
  | ListPartiesRpc t p b => ListParties t p b
  | UpdatePartyRpc t q => UpdateParty t q
  | ListPartyTransactionsRpc t p => ListPartyTransactions t p
  end.

End handler.
