(* ===== verification/LedgerInv.v ===== *)
(** General ledger: how the tables may change.  [ledger_step] is the relation
    every statement of the service respects (its guarantee), whatever other
    requests that respect it do between the statements (its rely): accounts,
    periods and entries are never removed and keep their identity, statuses
    only move forward, the lines of an entry never change, and the table
    invariant [inv] is kept, whose main clause is that an entry past draft
    balances. *)

From S2P Require Export LedgerModel.
From S2P Require LedgerQueries LedgerPostgres Ledger LedgerHandler.
Import LedgerPostgres(St, mkSt, st_db, st_published).
Local Open Scope Z_scope.

(** The status order of a journal entry: draft, posted, void. *)
Definition status_rank (s : string) : option nat :=
  if decide (s = "draft") then Some 0%nat
  else if decide (s = "posted") then Some 1%nat
  else if decide (s = "void") then Some 2%nat else None.

Definition status_le (s s' : string) : Prop :=
  exists n n', status_rank s = Some n /\ status_rank s' = Some n' /\ (n <= n')%nat.

(** What may change in a row: an entry's status moves forward with its posting
    data, an account's cost behaviour, a period's closing data. *)
Definition entry_le (e e' : EntryRow) : Prop :=
  er_ID e' = er_ID e /\ er_TenantID e' = er_TenantID e /\ er_ProductionID e' = er_ProductionID e
  /\ er_PeriodID e' = er_PeriodID e /\ er_EntryNumber e' = er_EntryNumber e
  /\ er_Reference e' = er_Reference e /\ er_Narration e' = er_Narration e
  /\ er_CreatedAt e' = er_CreatedAt e
  /\ (e' = e \/ status_le (er_Status e) (er_Status e') /\ er_Status e' <> er_Status e)
  /\ (er_Status e = "posted" -> er_PostedBy e' = er_PostedBy e /\ er_PostedAt e' = er_PostedAt e).

Definition account_le (a a' : AccountRow) : Prop :=
  exists cb, a' = mkAccountRow (ar_ID a) (ar_TenantID a) (ar_Code a) (ar_Name a) (ar_AccountType a)
    (ar_ParentID a) (ar_IsActive a) (ar_BankName a) (ar_AccountLast4 a) (ar_BankCurrency a) cb.

Definition period_le (p p' : PeriodRow) : Prop :=
  pr_ID p' = pr_ID p /\ pr_TenantID p' = pr_TenantID p /\ pr_Year p' = pr_Year p
  /\ pr_Month p' = pr_Month p /\ (p' = p \/ pr_Status p' = "closed").

Definition table_le {A} (le : A -> A -> Prop) (t t' : gmap uuid A) : Prop :=
  forall id r, t !! id = Some r -> exists r', t' !! id = Some r' /\ le r r'.

Section inv.
Context {X : External} {L : ExternalLaws}.

Definition entry_lines (ls : gmap uuid LineRow) (id : uuid) : list LineRow :=
  select (fun l => bool_decide (lr_JournalID l = id)) ls.

Definition debit_total (ls : list LineRow) : Qc := qsum (dec_val <$> (lr_DebitAmount <$> ls)).
Definition credit_total (ls : list LineRow) : Qc := qsum (dec_val <$> (lr_CreditAmount <$> ls)).

(** The lines of an entry sum to the same debit and credit. *)
Definition balanced (ls : gmap uuid LineRow) (id : uuid) : Prop :=
  debit_total (entry_lines ls id) = credit_total (entry_lines ls id).

(** A stored line has one positive side, and amounts the column keeps as they are. *)
Definition line_ok (l : LineRow) : Prop :=
  LedgerQueries.dr_or_cr (lr_DebitAmount l) (lr_CreditAmount l) = true
  /\ dec_numeric_14_2 (lr_DebitAmount l) = Some (lr_DebitAmount l)
  /\ dec_numeric_14_2 (lr_CreditAmount l) = Some (lr_CreditAmount l).

Record inv (d : DB) : Prop := mkInv {
  inv_key : forall id e, journal_entries d !! id = Some e -> er_ID e = id;
  inv_status : forall id e, journal_entries d !! id = Some e -> is_Some (status_rank (er_Status e));
  inv_number : forall id id' e e', journal_entries d !! id = Some e ->
    journal_entries d !! id' = Some e' -> er_EntryNumber e = er_EntryNumber e' -> id = id';
  inv_fk : forall id l, journal_lines d !! id = Some l ->
    is_Some (journal_entries d !! lr_JournalID l);
  inv_line : forall id l, journal_lines d !! id = Some l -> line_ok l;
  inv_balanced : forall id e, journal_entries d !! id = Some e ->
    er_Status e <> "draft" -> balanced (journal_lines d) id;
}.

Record ledger_step (d d' : DB) : Prop := mkStep {
  ls_accounts : table_le account_le (accounts d) (accounts d');
  ls_periods : table_le period_le (accounting_periods d) (accounting_periods d');
  ls_entries : table_le entry_le (journal_entries d) (journal_entries d');
  ls_lines : journal_lines d ⊆ journal_lines d';
  ls_new_lines : forall id l, journal_lines d' !! id = Some l ->
    journal_lines d !! id = Some l \/ journal_entries d !! lr_JournalID l = None;
  ls_counters : forall k n, journal_entry_counters d !! k = Some n ->
    exists n', journal_entry_counters d' !! k = Some n' /\ n <= n';
  ls_inv : inv d -> inv d';
}.

(** The service state: the tables step and events are only appended. *)
Definition st_step (s s' : St) : Prop :=
  ledger_step (st_db s) (st_db s') /\ st_published s `prefix_of` st_published s'.

(** ** Order lemmas *)

Lemma status_le_trans s1 s2 s3 : status_le s1 s2 -> status_le s2 s3 -> status_le s1 s3.
Proof.
  intros (n1 & n2 & H1 & H2 & H12) (m2 & n3 & H2' & H3 & H23). exists n1, n3.
  rewrite H2 in H2'. simplify_eq. split_and!; [done..|lia].
Qed.
Lemma status_rank_inj s s' n : status_rank s = Some n -> status_rank s' = Some n -> s = s'.
Proof. unfold status_rank. repeat case_decide; congruence. Qed.
Lemma status_le_antisym s s' : status_le s s' -> status_le s' s -> s = s'.
Proof.
  intros (n1 & n2 & H1 & H2 & H12) (m2 & m1 & H2' & H1' & H21).
  assert (m2 = n2) as -> by congruence. assert (m1 = n1) as -> by congruence.
  assert (n1 = n2) as -> by lia. by eapply status_rank_inj.
Qed.

#[export] Instance entry_le_preorder : PreOrder entry_le.
Proof.
  split; [intros e; unfold entry_le; naive_solver|].
  intros e1 e2 e3 (A1&A2&A3&A4&A5&A6&A7&A8&A9&A10) (B1&B2&B3&B4&B5&B6&B7&B8&B9&B10).
  unfold entry_le. split_and!; try congruence.
  - destruct A9 as [->|[HA NA]]; [done|]. destruct B9 as [->|[HB NB]]; [by right|].
    right. split; [by eapply status_le_trans|]. intros Heq.
    apply NB. apply (status_le_antisym _ _); [rewrite Heq; done|done].
  - intros Hp. destruct (A10 Hp) as [HA1 HA2]. destruct A9 as [->|[HA NA]]; [auto|].
    destruct B9 as [->|[HB NB]]; [auto|]. exfalso.
    destruct HA as (n1 & n2 & R1 & R2 & ?), HB as (m2 & n3 & R2' & R3 & ?).
    unfold status_rank in *. repeat case_decide; simplify_eq; try congruence; lia.
Qed.

#[export] Instance account_le_preorder : PreOrder account_le.
Proof.
  split; [intros []; by eexists|]. intros a1 a2 a3 [c1 ->] [c2 ->]. by eexists.
Qed.

#[export] Instance period_le_preorder : PreOrder period_le.
Proof.
  split; [intros p; unfold period_le; naive_solver|].
  intros p1 p2 p3 (A1&A2&A3&A4&A5) (B1&B2&B3&B4&B5). unfold period_le.
  split_and!; try congruence. destruct B5 as [->|]; auto.
Qed.

Lemma table_le_preorder {A} (le : A -> A -> Prop) : PreOrder le -> PreOrder (table_le le).
Proof.
  intros Hle. split; [intros t id r H; by exists r|]. intros t1 t2 t3 H12 H23 id r H.
  destruct (H12 _ _ H) as (r2 & H2 & ?), (H23 _ _ H2) as (r3 & H3 & ?).
  exists r3. split; [done|]. by etrans.
Qed.
#[local] Existing Instance table_le_preorder.

Lemma table_le_insert {A} (le : A -> A -> Prop) `{!PreOrder le} t id r :
  (forall r0, t !! id = Some r0 -> le r0 r) -> table_le le t (<[id := r]> t).
Proof.
  intros H id' r' Hr'. destruct (decide (id = id')) as [<-|Hne].
  - exists r. rewrite lookup_insert_eq. auto.
  - exists r'. by rewrite lookup_insert_ne.
Qed.

Lemma ledger_step_refl d : ledger_step d d.
Proof. split; try done; [auto|]. intros k n Hk. exists n. split; [done|lia]. Qed.

#[export] Instance ledger_step_preorder : PreOrder ledger_step.
Proof.
  split; [intros d; apply ledger_step_refl|].
  intros d1 d2 d3 [a1 p1 e1 l1 n1 c1 i1] [a2 p2 e2 l2 n2 c2 i2].
  split; [by etrans..| | |auto].
  - intros id l H. destruct (n2 _ _ H) as [H2|H2]; [by apply n1|].
    right. apply eq_None_not_Some. intros [e He].
    destruct (e1 _ _ He) as (e' & He' & _). congruence.
  - intros k n H. destruct (c1 _ _ H) as (n' & H' & ?), (c2 _ _ H') as (n'' & ? & ?).
    exists n''. split; [done|lia].
Qed.

#[export] Instance st_step_preorder : PreOrder st_step.
Proof.
  split; [intros s; by split|]. intros s1 s2 s3 [H1 P1] [H2 P2]. split; [by etrans|].
  by etrans.
Qed.

(** ** Balance *)

#[export] Instance debit_total_perm : Proper ((≡ₚ) ==> eq) debit_total.
Proof. intros l l' H. unfold debit_total. by rewrite H. Qed.
#[export] Instance credit_total_perm : Proper ((≡ₚ) ==> eq) credit_total.
Proof. intros l l' H. unfold credit_total. by rewrite H. Qed.

Lemma balanced_ext ls ls' id :
  (forall k l, lr_JournalID l = id -> ls !! k = Some l <-> ls' !! k = Some l) ->
  balanced ls id -> balanced ls' id.
Proof.
  intros H. unfold balanced, entry_lines. rewrite (select_perm _ ls' ls); [done|].
  intros k l Hk. bool_hyps. symmetry. auto.
Qed.

(** A step keeps the lines, so the balance, of the entries there were. *)
Lemma step_balanced d d' id e :
  ledger_step d d' -> journal_entries d !! id = Some e ->
  balanced (journal_lines d) id -> balanced (journal_lines d') id.
Proof.
  intros Hs He. apply balanced_ext. intros k l <-. split;
    [intros Hl; eapply lookup_weaken; [done|by apply Hs]|].
  intros Hl. destruct (ls_new_lines _ _ Hs k l Hl); [done|congruence].
Qed.

(** So are its lines. *)
Lemma step_lines d d' id e :
  ledger_step d d' -> journal_entries d !! id = Some e ->
  entry_lines (journal_lines d') id ≡ₚ entry_lines (journal_lines d) id.
Proof.
  intros Hs He. apply select_perm. intros k l Hk. bool_hyps. subst id.
  split; [|intros Hl; eapply lookup_weaken; [done|by apply Hs]].
  intros Hl. destruct (ls_new_lines _ _ Hs k l Hl); [done|congruence].
Qed.

(** An entry past draft stays past draft. *)
Lemma entry_le_past_draft e e' : entry_le e e' -> er_Status e <> "draft" ->
  is_Some (status_rank (er_Status e)) -> er_Status e' <> "draft".
Proof.
  intros (_&_&_&_&_&_&_&_&[->|[(n & n' & H1 & H2 & Hle) Hne]]&_) Hd Hr; [done|].
  intros Hs. rewrite Hs in H2. simpl in H2. injection H2 as <-.
  destruct n; [|lia]. unfold status_rank in H1. by repeat case_decide.
Qed.

(** ** Statements *)

Lemma inv_ext d d' :
  journal_entries d' = journal_entries d -> journal_lines d' = journal_lines d -> inv d -> inv d'.
Proof. intros He Hl [H1 H2 H3 H4 H5 H6]. split; rewrite ?He, ?Hl; done. Qed.

(** A statement on the other tables. *)
Lemma step_other d d' :
  journal_entries d' = journal_entries d -> journal_lines d' = journal_lines d ->
  table_le account_le (accounts d) (accounts d') ->
  table_le period_le (accounting_periods d) (accounting_periods d') ->
  (forall k n, journal_entry_counters d !! k = Some n ->
    exists n', journal_entry_counters d' !! k = Some n' /\ n <= n') ->
  ledger_step d d'.
Proof.
  intros He Hl Ha Hp Hc. split; rewrite ?He, ?Hl; try done; [auto|]. by apply inv_ext.
Qed.

Lemma counters_refl (d : DB) k n : journal_entry_counters d !! k = Some n ->
  exists n', journal_entry_counters d !! k = Some n' /\ n <= n'.
Proof. intros H. exists n. split; [done|lia]. Qed.
#[local] Hint Resolve counters_refl : core.

Lemma step_accounts d t : table_le account_le (accounts d) t -> ledger_step d (set_accounts t d).
Proof. intros H. by apply step_other; eauto. Qed.
Lemma step_periods d t :
  table_le period_le (accounting_periods d) t -> ledger_step d (set_periods t d).
Proof. intros H. by apply step_other; eauto. Qed.
Lemma step_counters d t :
  (forall k n, journal_entry_counters d !! k = Some n -> exists n', t !! k = Some n' /\ n <= n') ->
  ledger_step d (set_counters t d).
Proof. intros H. by apply step_other; eauto. Qed.
Lemma step_parties d t : ledger_step d (set_parties t d).
Proof. by apply step_other; eauto. Qed.
Lemma step_contacts d t : ledger_step d (set_contacts t d).
Proof. by apply step_other; eauto. Qed.

Lemma CreateAccount_step r d a d' : LedgerQueries.CreateAccount r d = Ok (a, d') -> ledger_step d d'.
Proof.
  unfold LedgerQueries.CreateAccount. intros H.
  repeat (case_match; simplify_eq; try done). apply step_accounts, table_le_insert; [apply _|].
  intros r0 Hr0. bool_hyps. exfalso. eauto.
Qed.

Lemma SetAccountCostBehavior_step t id cb d a d' :
  LedgerQueries.SetAccountCostBehavior t id cb d = Ok (a, d') -> ledger_step d d'.
Proof.
  unfold LedgerQueries.SetAccountCostBehavior, LedgerQueries.GetAccount. intros H.
  repeat (case_match; simplify_eq; try done).
  match goal with H : get_row _ _ _ = Ok _ |- _ => apply get_row_Ok in H as [Hr _] end.
  apply step_accounts, table_le_insert; [apply _|]. intros r0 Hr0. simplify_eq. by eexists.
Qed.

Lemma CreateAccountingPeriod_step r d a d' :
  LedgerQueries.CreateAccountingPeriod r d = Ok (a, d') -> ledger_step d d'.
Proof.
  unfold LedgerQueries.CreateAccountingPeriod. intros H.
  repeat (case_match; simplify_eq; try done). apply step_periods, table_le_insert; [apply _|].
  intros r0 Hr0. bool_hyps. exfalso. eauto.
Qed.

Lemma CloseAccountingPeriod_step now t id by_ d a d' :
  LedgerQueries.CloseAccountingPeriod now t id by_ d = Ok (a, d') -> ledger_step d d'.
Proof.
  unfold LedgerQueries.CloseAccountingPeriod, LedgerQueries.GetAccountingPeriod. intros H.
  destruct (get_row _ _ _) as [p|] eqn:Hg; simplify_eq. apply get_row_Ok in Hg as [Hr _].
  apply step_periods, table_le_insert; [apply _|]. intros r0 Hr0. simplify_eq.
  unfold period_le; simpl; auto 10.
Qed.

Lemma NextJournalEntrySeq_step t y d n d' :
  LedgerQueries.NextJournalEntrySeq t y d = Ok (n, d') -> ledger_step d d'.
Proof.
  unfold LedgerQueries.NextJournalEntrySeq. intros [= <- <-]. apply step_counters.
  intros k m Hk. destruct (decide ((t, y) = k)) as [<-|Hne].
  - rewrite lookup_insert_eq, Hk. eexists. split; [done|lia].
  - rewrite lookup_insert_ne by done. exists m. split; [done|lia].
Qed.

(** An entry that moves forward keeps everything else. *)
Lemma step_entry d id e e' :
  journal_entries d !! id = Some e -> entry_le e e' -> is_Some (status_rank (er_Status e')) ->
  (er_Status e' <> "draft" -> inv d -> balanced (journal_lines d) id) ->
  ledger_step d (set_entries (<[id := e']> (journal_entries d)) d).
Proof.
  intros He Hle Hst Hbal. split; simpl; try done; [|auto|apply counters_refl|].
  - apply table_le_insert; [apply _|]. intros r0 Hr0. by simplify_eq.
  - intros Hinv. pose proof Hinv as [H1 H2 H3 H4 H5 H6].
    assert (er_ID e' = er_ID e /\ er_EntryNumber e' = er_EntryNumber e) as [Hid Hnum]
      by (split; apply Hle).
    split; simpl.
    + intros id' x. rewrite lookup_insert. case_decide; [|by apply H1].
      intros [= <-]. subst. rewrite Hid. by apply H1.
    + intros id' x. rewrite lookup_insert. case_decide; [by intros [= <-]|by apply H2].
    + intros i j x y. rewrite !lookup_insert. repeat case_decide; subst; intros Hx Hy Hxy;
        simplify_eq; [done|..].
      * eapply (H3 _ _ e y); [done..|congruence].
      * eapply (H3 _ _ x e); [done..|congruence].
      * by eapply (H3 _ _ x y).
    + intros i l Hl. destruct (H4 i l Hl) as [x Hx]. rewrite lookup_insert.
      case_decide; eauto.
    + done.
    + intros i x. rewrite lookup_insert. case_decide; [|by apply H6].
      intros [= <-] Hx. subst. auto.
Qed.

Lemma VoidJournalEntry_step t id d a d' :
  LedgerQueries.VoidJournalEntry t id d = Ok (a, d') -> ledger_step d d'.
Proof.
  unfold LedgerQueries.VoidJournalEntry, LedgerQueries.GetJournalEntry. intros H.
  destruct (get_row _ _ _) as [e|] eqn:Hg; [|done]. apply get_row_Ok in Hg as [He _].
  case_decide as Hs; simplify_eq. eapply step_entry; [done|..].
  - unfold entry_le; simpl. split_and!; try done. right. rewrite Hs. split; [|done].
    exists 1%nat, 2%nat. split_and!; [done..|lia].
  - by exists 2%nat.
  - intros _ Hinv. eapply inv_balanced; [done..|]. by rewrite Hs.
Qed.

Lemma PostJournalEntry_step now t id by_ d a d' :
  LedgerQueries.PostJournalEntry now t id by_ d = Ok (a, d') ->
  (inv d -> balanced (journal_lines d) id) -> ledger_step d d'.
Proof.
  unfold LedgerQueries.PostJournalEntry, LedgerQueries.GetJournalEntry. intros H Hbal.
  destruct (get_row _ _ _) as [e|] eqn:Hg; [|done]. apply get_row_Ok in Hg as [He _].
  case_decide as Hs; simplify_eq. eapply step_entry; [done|..].
  - unfold entry_le; simpl. split_and!; try done; [|by rewrite Hs]. right. rewrite Hs.
    split; [|done]. exists 0%nat, 1%nat. split_and!; [done..|lia].
  - by exists 1%nat.
  - done.
Qed.

(** ** Transactions *)

Lemma insert_lines_spec jid ls d d' :
  LedgerPostgres.insert_lines jid ls d = Ok d' ->
  (exists t, d' = set_lines t d) /\ journal_lines d ⊆ journal_lines d'
  /\ forall id l, journal_lines d' !! id = Some l -> journal_lines d !! id = Some l
     \/ lr_JournalID l = jid /\ line_ok l.
Proof.
  revert d. induction ls as [|l ls IH]; intros d H; simpl in H.
  { simplify_eq. split_and!; [exists (journal_lines d'); by destruct d'|done|auto]. }
  unfold LedgerPostgres.tx_step, LedgerQueries.CreateJournalLine in H.
  repeat (case_match; simplify_eq; try done).
  destruct (IH _ H) as ([t ->] & Hsub & Hnew). simpl in *. bool_hyps.
  split_and!; [by eexists|..].
  - etrans; [|exact Hsub]. apply insert_subseteq. by apply eq_None_not_Some.
  - intros id x Hx. destruct (Hnew id x Hx) as [Hx'|]; [|by right].
    rewrite lookup_insert in Hx'. case_decide; [|by left]. simplify_eq. right.
    split; [done|]. split_and!; simpl; [done|by eapply dec_numeric_stored..].
Qed.

Lemma CreateJournalEntry_tx_step r ls d a d1 d2 :
  LedgerQueries.CreateJournalEntry r d = Ok (a, d1) -> er_Status r = "draft" ->
  LedgerPostgres.insert_lines (er_ID r) ls d1 = Ok d2 -> ledger_step d d2.
Proof.
  unfold LedgerQueries.CreateJournalEntry. intros H Hst Hl.
  repeat (case_match; simplify_eq; try done). bool_hyps.
  destruct (insert_lines_spec _ _ _ _ Hl) as ([t ->] & Hsub & Hnew). simpl in *.
  assert (Hfresh : journal_entries d !! er_ID a = None) by (by apply eq_None_not_Some).
  split; simpl; try done; [|intros id l Hid|apply counters_refl|].
  - apply table_le_insert; [apply _|]. intros r0 Hr0. by rewrite Hfresh in Hr0.
  - destruct (Hnew id l Hid) as [|[-> _]]; auto.
  - intros [K1 K2 K3 K4 K5 K6]. split; simpl.
    + intros i x. rewrite lookup_insert. case_decide; [by intros [= <-]|by apply K1].
    + intros i x. rewrite lookup_insert. case_decide; [|by apply K2].
      intros [= <-]. rewrite Hst. by exists 0%nat.
    + match goal with H : exists_row _ _ = false |- _ => rewrite exists_row_false in H; rename H into Hn end.
      intros i j x y. rewrite !lookup_insert. repeat case_decide; subst; intros Hx Hy Hxy;
        simplify_eq; [done|exfalso..|by eapply K3].
      * specialize (Hn _ _ Hy). by bool_hyps.
      * specialize (Hn _ _ Hx). by bool_hyps.
    + intros i l Hi. rewrite lookup_insert. case_decide; [done|].
      destruct (Hnew i l Hi) as [Hi'|[]]; [by eapply K4|done].
    + intros i l Hi. destruct (Hnew i l Hi) as [Hi'|[]]; [by eapply K5|done].
    + intros i x. rewrite lookup_insert. case_decide; [by intros [= <-]|]. intros Hx Hs.
      apply (balanced_ext (journal_lines d)); [|by eapply K6].
      intros k l Hk. split; [intros Hkl; by eapply lookup_weaken|].
      intros Hkl. destruct (Hnew k l Hkl) as [|[]]; congruence.
Qed.

Lemma insert_contacts_step now t pos cs d d' :
  LedgerPostgres.insert_contacts now t pos cs d = Ok d' -> ledger_step d d'.
Proof.
  revert pos d. induction cs as [|c cs IH]; intros pos d H; simpl in H; [by simplify_eq|].
  unfold LedgerPostgres.insertPartyContact, LedgerPostgres.tx_step,
    LedgerQueries.CreatePartyContact in H.
  repeat (case_match; simplify_eq; try done).
  etrans; [|by eapply IH]. apply step_contacts.
Qed.

(** ** The repository *)

Lemma st_step_db s d : ledger_step (st_db s) d -> st_step s (mkSt d (st_published s)).
Proof. intros H. by split. Qed.

Lemma steps_exec {A} (q : DB -> result pg_error (A * DB)) w :
  (forall d a d', q d = Ok (a, d') -> ledger_step d d') ->
  steps st_step (LedgerPostgres.q_exec q) w.
Proof.
  intros Hq. apply steps_tx. intros s1 a s2 _ _ H.
  destruct (q (st_db s1)) as [[a' d]|] eqn:Hd; simplify_eq. apply st_step_db. eauto.
Qed.

Lemma steps_query {A} (q : DB -> result pg_error A) w :
  steps st_step (LedgerPostgres.q_query q) w.
Proof.
  apply steps_exec. intros d a d' H. destruct (q d); by simplify_eq.
Qed.

Lemma steps_with_tx {A} (body : DB -> result (error LErr) (A * DB)) w :
  (forall d a d', body d = Ok (a, d') -> ledger_step d d') ->
  steps st_step (LedgerPostgres.with_tx body) w.
Proof.
  intros Hq. apply steps_tx. intros s1 a s2 _ _ H.
  destruct (body (st_db s1)) as [[a' d]|] eqn:Hd; simplify_eq. apply st_step_db. eauto.
Qed.

(** A successful query read the state it left. *)
Lemma query_Ok {A} (q : DB -> result pg_error A) w a w' :
  LedgerPostgres.q_query q w = (Ok a, w') -> rely st_step w ->
  st_step (w_st w) (w_st w') /\ q (st_db (w_st w')) = Ok a.
Proof.
  intros H HR. pose proof (steps_query q w HR) as (Hs & _). rewrite H in Hs. split; [done|].
  apply tx_Ok in H as [Hok _]. revert Hok. destruct (q _) as [a'|] eqn:Hq; [|done].
  intros [= -> Hst]. by rewrite <-Hst.
Qed.

Lemma steps_CreateParty p w : steps st_step (LedgerPostgres.CreateParty p) w.
Proof.
  unfold LedgerPostgres.CreateParty. steps_tac. apply steps_with_tx. intros d x d' Hb.
  unfold LedgerPostgres.tx_step, LedgerQueries.CreateParty in Hb.
  repeat (case_match; simplify_eq; try done).
  etrans; [apply step_parties|by eapply insert_contacts_step].
Qed.

Lemma steps_UpdateParty p w : steps st_step (LedgerPostgres.UpdateParty p) w.
Proof.
  unfold LedgerPostgres.UpdateParty. steps_tac. apply steps_with_tx. intros d x d' Hb.
  unfold LedgerPostgres.tx_step, LedgerQueries.UpdateParty in Hb.
  repeat (case_match; simplify_eq; try done).
  etrans; [apply step_parties|]. etrans; [apply step_contacts|by eapply insert_contacts_step].
Qed.

Lemma steps_CreateJournalEntry_repo je w :
  je_Status je = "draft" -> steps st_step (LedgerPostgres.CreateJournalEntry je) w.
Proof.
  intros Hst. unfold LedgerPostgres.CreateJournalEntry. steps_tac. apply steps_with_tx.
  intros d x d' Hb. unfold LedgerPostgres.tx_step in Hb.
  repeat (case_match; simplify_eq; try done). by eapply CreateJournalEntry_tx_step.
Qed.

Lemma steps_best_effort_publish f w :
  steps st_step (best_effort (fun st => mkSt (st_db st) (st_published st ++ f)) : M St (error LErr) unit) w.
Proof. apply steps_best_effort. intros st. split; [done|]. by eexists. Qed.

End inv.

(** The single-statement lemmas, for the statements a program executes. *)
Create HintDb ledger.
#[export] Hint Resolve CreateAccount_step SetAccountCostBehavior_step CreateAccountingPeriod_step
  CloseAccountingPeriod_step NextJournalEntrySeq_step VoidJournalEntry_step : ledger.

(** Closes a [steps st_step] goal of a service program: the program's structure
    by the rules, each statement by its lemma. *)
Ltac ledger_steps :=
  repeat (steps_tac;
    match goal with
    | |- steps _ (LedgerPostgres.q_query _) _ => apply steps_query
    | |- steps _ (LedgerPostgres.q_exec _) _ => apply steps_exec; eauto with ledger
    | |- steps _ (LedgerPostgres.CreateParty _) _ => apply steps_CreateParty
    | |- steps _ (LedgerPostgres.UpdateParty _) _ => apply steps_UpdateParty
    | |- steps _ (LedgerPostgres.CreateJournalEntry _) _ => apply steps_CreateJournalEntry_repo
    | |- steps _ (best_effort _) _ => apply steps_best_effort_publish
    | |- steps _ (Ledger.bank_attempts _ _ _ _ _ _) _ => idtac
    | |- steps _ (?f _) _ => unfold f
    | |- steps _ (?f _ _) _ => unfold f
    | |- steps _ (?f _ _ _) _ => unfold f
    | |- steps _ (?f _ _ _ _) _ => unfold f
    | |- steps _ (?f _ _ _ _ _) _ => unfold f
    | |- steps _ (?f _ _ _ _ _ _) _ => unfold f
    | |- steps _ (?f _ _ _ _ _ _ _) _ => unfold f
    | |- steps _ (?f _ _ _ _ _ _ _ _) _ => unfold f
    | |- _ => idtac
    end).

Section service.
Context {X : External} {L : ExternalLaws}.

Lemma steps_bank_attempts n t b l c e w : steps st_step (Ledger.bank_attempts n t b l c e) w.
Proof.
  revert e w. induction n as [|n IH]; intros e w; simpl; [apply steps_throw|].
  steps_tac; try apply IH; ledger_steps.
Qed.

Lemma steps_CreateJournalEntry je w : steps st_step (Ledger.CreateJournalEntry je) w.
Proof. unfold Ledger.CreateJournalEntry. ledger_steps. done. Qed.

(** The balance the service computes from the lines it read is the table's. *)
Lemma totals_read (ls : list LineRow) :
  dec_val (Ledger.total_debit (LedgerPostgres.journalLineFromDB <$> ls)) = debit_total ls
  /\ dec_val (Ledger.total_credit (LedgerPostgres.journalLineFromDB <$> ls)) = credit_total ls.
Proof.
  unfold Ledger.total_debit, Ledger.total_credit, debit_total, credit_total.
  rewrite (foldl_dec_add jl_DebitAmount), (foldl_dec_add jl_CreditAmount), dec_val_zero,
    !Qcplus_0_l, <-!list_fmap_compose. done.
Qed.

Lemma ListJournalLines_all d t id e ls :
  journal_entries d !! id = Some e -> er_TenantID e = t ->
  LedgerQueries.ListJournalLines t id d = Ok ls -> ls ≡ₚ entry_lines (journal_lines d) id.
Proof.
  intros He Ht [= <-]. rewrite order_by_perm. unfold entry_lines, select.
  apply reflexive_eq, filter_ext. intros l. case_bool_decide as Hl; [|done]. simpl.
  unfold LedgerQueries.line_entry. rewrite Hl, He. by apply bool_decide_eq_true.
Qed.

Lemma validateBalance_balanced d t id e ls :
  journal_entries d !! id = Some e -> er_TenantID e = t ->
  LedgerQueries.ListJournalLines t id d = Ok ls ->
  Ledger.validateBalance (LedgerPostgres.journalLineFromDB <$> ls) = Ok tt ->
  balanced (journal_lines d) id.
Proof.
  intros He Ht Hls Hv. unfold Ledger.validateBalance in Hv.
  destruct (dec_equal _ _) eqn:Heq; [|done]. apply dec_equal_spec in Heq.
  destruct (totals_read ls) as [Hd Hc]. rewrite Hd, Hc in Heq.
  unfold balanced. by rewrite <-(ListJournalLines_all d t id e ls).
Qed.

(** What GetJournalEntry read: the header, then the lines in a later state. *)
Lemma GetJournalEntry_Ok t id w je w' :
  LedgerPostgres.GetJournalEntry t id w = (Ok je, w') -> rely st_step w ->
  exists e s1 ls, journal_entries (st_db s1) !! id = Some e /\ er_TenantID e = t
    /\ st_step (w_st w) s1 /\ st_step s1 (w_st w')
    /\ LedgerQueries.ListJournalLines t (er_ID e) (st_db (w_st w')) = Ok ls
    /\ je = LedgerPostgres.set_je_lines (LedgerPostgres.journalLineFromDB <$> ls)
              (LedgerPostgres.journalEntryFromDB e).
Proof.
  intros H HR. unfold LedgerPostgres.GetJournalEntry in H.
  apply bind_Ok in H as (e & w1 & H1 & H2). apply map_err_Ok in H1.
  pose proof (steps_query (LedgerQueries.GetJournalEntry t id) _ HR) as (_ & Ho & _).
  rewrite H1 in Ho. simpl in Ho.
  apply query_Ok in H1 as [Hs1 Hq]; [|done].
  apply bind_Ok in H2 as (ls & w2 & H2 & H3). apply map_err_Ok in H2.
  apply query_Ok in H2 as [Hs2 Hq2]; [|by intros n s; rewrite Ho; apply HR].
  injection H3 as <- <-. unfold LedgerQueries.GetJournalEntry in Hq.
  apply get_row_Ok in Hq as [He Ht]. bool_hyps. eauto 10.
Qed.

(** The lines a request validated still balance when it marks the entry posted. *)
Lemma read_balanced d1 d2 d3 t id e ls :
  journal_entries d1 !! id = Some e -> er_TenantID e = t ->
  ledger_step d1 d2 -> ledger_step d2 d3 ->
  LedgerQueries.ListJournalLines t (er_ID e) d2 = Ok ls ->
  Ledger.validateBalance (LedgerPostgres.journalLineFromDB <$> ls) = Ok tt ->
  inv d3 -> balanced (journal_lines d3) id.
Proof.
  intros He Ht H12 H23 Hls Hv Hinv.
  destruct (ls_entries _ _ H12 _ _ He) as (e2 & He2 & Hle2).
  destruct (ls_entries _ _ H23 _ _ He2) as (e3 & He3 & Hle3).
  assert (er_ID e = id) as Hid.
  { rewrite <-(inv_key _ Hinv _ _ He3). destruct Hle2, Hle3. congruence. }
  rewrite Hid in Hls. eapply step_balanced; [done..|].
  eapply validateBalance_balanced; [done| |done..].
  rewrite <-Ht. apply Hle2.
Qed.

Lemma steps_mark_posted t id by_ now w :
  (forall d a d' now', ledger_step (st_db (w_st w)) d ->
     LedgerQueries.PostJournalEntry now' t id (Some by_) d = Ok (a, d') -> ledger_step d d') ->
  steps st_step (LedgerPostgres.UpdateJournalStatus t id "posted" by_ now) w.
Proof.
  intros Hq. unfold LedgerPostgres.UpdateJournalStatus. rewrite decide_True by done.
  apply steps_bind; [apply steps_time|]. intros now' w1 Hnow _ _ _.
  assert (w_st w1 = w_st w) as Hw by (by injection Hnow as _ <-).
  apply steps_bind; [|intros; apply steps_ret]. apply steps_map_err, steps_tx.
  intros s1 a s2 _ [Hs _] Hx. rewrite Hw in Hs.
  destruct (LedgerQueries.PostJournalEntry _ _ _ _ _) as [[a' d]|] eqn:Hd; simplify_eq.
  apply st_step_db. by eapply Hq.
Qed.

Lemma steps_PostJournalEntry sv t id by_ w : steps st_step (Ledger.PostJournalEntry sv t id by_) w.
Proof.
  unfold Ledger.PostJournalEntry. apply steps_bind; [ledger_steps|].
  intros je w1 Hje HR _ HR1. apply wrap_Ok in Hje.
  apply GetJournalEntry_Ok in Hje as (e & s1 & ls & He & Ht & _ & [Hs1 _] & Hls & ->); [|done].
  case_decide; [apply steps_throw|]. case_decide; [apply steps_throw|].
  apply steps_bind; [ledger_steps|]. intros period w2 _ _ [Hs2 _] _.
  case_decide; [apply steps_throw|].
  apply steps_bind; [apply steps_lift|]. intros [] w3 Hv _ _ _. apply lift_Ok in Hv as [Hv ->].
  apply steps_bind; [apply steps_time|]. intros now w4 _ _ [Hs4 _] _.
  apply steps_bind; [apply steps_wrap, steps_mark_posted|intros; ledger_steps].
  intros d a d' now' Hd Hq. eapply PostJournalEntry_step; [done|].
  eapply read_balanced; [done..| |done|done]. do 2 (etrans; [done|]). done.
Qed.

Lemma steps_VoidJournalEntry sv t id by_ w : steps st_step (Ledger.VoidJournalEntry sv t id by_) w.
Proof.
  unfold Ledger.VoidJournalEntry. steps_tac; try apply steps_PostJournalEntry;
    try apply steps_CreateJournalEntry; ledger_steps; done.
Qed.

(** Every RPC moves the tables along [ledger_step], statement by statement. *)
Lemma steps_handle h ctx r w : steps st_step (LedgerHandler.handle h ctx r) w.
Proof.
  destruct r; simpl; unfold LedgerHandler.CreateAccount, LedgerHandler.CreateJournalEntry,
    LedgerHandler.PostJournalEntry, LedgerHandler.VoidJournalEntry, LedgerHandler.svc; steps_tac;
    try apply steps_PostJournalEntry; try apply steps_VoidJournalEntry;
    try apply steps_CreateJournalEntry; ledger_steps; try apply steps_bank_attempts.
Qed.

End service.
