(* ===== verification/LedgerProps.v ===== *)
(** General ledger: a concrete service on the reference libraries, whose runs
    the witnesses evaluate. *)

From S2P Require Export LedgerModel Interceptor LedgerInv.
From S2P Require LedgerPostgres Ledger LedgerHandler LedgerQueries.
Import LedgerPostgres(St, mkSt, st_db, st_published) LedgerModel.
Local Open Scope Z_scope.

(** One tenant (7) with one caller (9) allowed everything, alone on its
    database; UUIDs count up from 100 and the clock stands in 2023. *)
Module Demo.

Definition caller (t : uuid) : Ctx :=
  mkCtx (Some (mkCaller 9%N t 0%N "a@b.co" [] [] "")).
Definition allow_all : PermissionChecker := fun _ _ _ => Ok true.
Definition deny_all : PermissionChecker := fun _ _ _ => Ok false.
Definition handler : LedgerHandler.Handler :=
  LedgerHandler.mkHandler (Ledger.mkService true) (Some allow_all) false.
Definition env : Env :=
  mkEnv (fun n => 100 + N.of_nat n)%N 0 (fun n => 1700000000 * ns_per_sec + Z.of_nat n) 0
    (fun _ => false) 0 0.
Definition world (s : @St ref_external) : World (@St ref_external) :=
  mkWorld s env (fun _ s => s) [].

(** Runs RPCs one after the other for the caller of tenant [t]. *)
Fixpoint run (t : uuid) (rs : list LedgerHandler.Rpc) (w : World (@St ref_external)) :
    World (@St ref_external) :=
  match rs with
  | [] => w
  | r :: rs' => run t rs' (LedgerHandler.handle handler (caller t) r w).2
  end.

Definition account (code kind : string) : LedgerHandler.Rpc :=
  LedgerHandler.CreateAccountRpc "" (LedgerHandler.mkAccountReq code code kind "" "" "" "").
Definition line (acct debit credit : string) : LedgerHandler.LineReq :=
  LedgerHandler.mkLineReq acct debit credit "INR" "" "".

(** Accounts 100 (cash) and 101 (rent), period 102, a draft entry 105 with
    lines 103 and 104, then posted. *)
Definition setup : list LedgerHandler.Rpc :=
  [account "5000" "asset"; account "6000" "expense";
   LedgerHandler.OpenAccountingPeriodRpc "" 2023 11;
   LedgerHandler.CreateJournalEntryRpc ""
     (LedgerHandler.mkEntryReq "102" "" "" "rent" [line "101" "250" "0"; line "100" "0" "250"])].
Definition post : LedgerHandler.Rpc := LedgerHandler.PostJournalEntryRpc "" "105" "".

Definition drafted : World (@St ref_external) := run 7 setup (world LedgerPostgres.empty_st).
Definition posted : World (@St ref_external) := run 7 [post] drafted.

(** The posted entry. *)
Definition rent : EntryRow :=
  mkEntryRow 105 7 None 102 "JE-2023-00001" None "rent" "posted" (Some 9%N)
    (Some (1700000000 * ns_per_sec + 3)) (1700000000 * ns_per_sec + 1).

End Demo.

(** General ledger: the theorems about the whole service, from the RPC down to
    the tables, with other requests running beside it: entries past draft
    balance, the books are append-only, a caller without the permission
    changes nothing. *)

Import LedgerPostgres(St, mkSt, st_db, st_published).
Local Open Scope Z_scope.

Section system.
Context {X : External} {L : ExternalLaws}.

(** The states the service can be in: from the empty tables, after any RPC and
    between any two of its statements, while other requests that respect
    [st_step] run beside it. *)
Inductive reachable (h : LedgerHandler.Handler) : St -> Prop :=
| reach_empty : reachable h LedgerPostgres.empty_st
| reach_rpc ctx r w :
    reachable h (w_st w) -> rely st_step w -> reachable h (w_st (LedgerHandler.handle h ctx r w).2)
| reach_statement s s' ctx r w :
    reachable h s -> rely st_step w -> w_log w = [] ->
    (s, s') ∈ w_log (LedgerHandler.handle h ctx r w).2 -> reachable h s'.

(** The permission an RPC requires. *)
Definition required_permission (r : LedgerHandler.Rpc) : string :=
  match r with
  | LedgerHandler.CreateAccountRpc _ _ | LedgerHandler.CreateJournalEntryRpc _ _
  | LedgerHandler.CreatePartyRpc _ _ | LedgerHandler.UpdatePartyRpc _ _ =>
      LedgerHandler.permLedgerWrite
  | LedgerHandler.PostJournalEntryRpc _ _ _ | LedgerHandler.VoidJournalEntryRpc _ _ _ =>
      LedgerHandler.permLedgerPost
  | LedgerHandler.SeedChartOfAccountsRpc _ _ | LedgerHandler.OpenAccountingPeriodRpc _ _ _
  | LedgerHandler.CloseAccountingPeriodRpc _ _ _ | LedgerHandler.SetAccountCostBehaviorRpc _ _ _ =>
      LedgerHandler.permLedgerAdmin
  | _ => LedgerHandler.permLedgerRead
  end.

Definition rpc_tenant (r : LedgerHandler.Rpc) : string :=
  match r with
  | LedgerHandler.CreateAccountRpc t _ | LedgerHandler.GetAccountRpc t _
  | LedgerHandler.ListAccountsRpc t | LedgerHandler.ListAccountingPeriodsRpc t
  | LedgerHandler.SeedChartOfAccountsRpc t _ | LedgerHandler.OpenAccountingPeriodRpc t _ _
  | LedgerHandler.CloseAccountingPeriodRpc t _ _ | LedgerHandler.CreateJournalEntryRpc t _
  | LedgerHandler.PostJournalEntryRpc t _ _ | LedgerHandler.GetJournalEntryRpc t _
  | LedgerHandler.ListJournalEntriesRpc t _ _ _ _ | LedgerHandler.VoidJournalEntryRpc t _ _
  | LedgerHandler.GetTrialBalanceRpc t _ | LedgerHandler.SetAccountCostBehaviorRpc t _ _
  | LedgerHandler.GetMonthlyCostBehaviorRpc t _ _ | LedgerHandler.CreatePartyRpc t _
  | LedgerHandler.GetPartyRpc t _ | LedgerHandler.ListPartiesRpc t _ _
  | LedgerHandler.UpdatePartyRpc t _ | LedgerHandler.ListPartyTransactionsRpc t _ => t
  end.

Lemma empty_inv : inv empty_db.
Proof. by split. Qed.

Lemma reachable_inv h s : reachable h s -> inv (st_db s).
Proof.
  induction 1 as [|ctx r w _ IH HR|s s' ctx r w _ IH HR Hlog Hin]; [apply empty_inv|..].
  { destruct (steps_handle h ctx r w HR) as ([Hs _] & _). by apply Hs. }
  destruct (steps_handle h ctx r w HR) as (_ & _ & own & Hown & Hall).
  rewrite Hlog, app_nil_r in Hown. rewrite Hown in Hin.
  rewrite Forall_forall in Hall. destruct (Hall _ Hin) as [Hstep _]. by apply Hstep.
Qed.

(** C1: In every reachable state of the ledger service, whatever requests run
    interleaved, a journal entry that is posted or void has lines whose debits
    and credits sum to the same amount. *)
Theorem posted_entries_balance (h : LedgerHandler.Handler) (s : St) (id : uuid) (e : EntryRow) :
  reachable h s -> journal_entries (st_db s) !! id = Some e -> er_Status e <> "draft" ->
  balanced (journal_lines (st_db s)) id.
Proof. intros Hr He Hst. by eapply inv_balanced; [apply (reachable_inv h)|..]. Qed.

(** C2: The books are append-only.  Whatever RPC runs, and whatever the other
    requests do meanwhile, an entry that was there is still there with the same
    identity, number and narration, its status has only moved forward, who
    posted it and when is kept once posted, and its lines are exactly the same
    rows. *)
Theorem ledger_append_only (h : LedgerHandler.Handler) (ctx : Ctx) (r : LedgerHandler.Rpc)
    (w : World St) (id : uuid) (e : EntryRow) :
  rely st_step w -> journal_entries (st_db (w_st w)) !! id = Some e ->
  let d := st_db (w_st w) in
  let d' := st_db (w_st (LedgerHandler.handle h ctx r w).2) in
  exists e', journal_entries d' !! id = Some e' /\ entry_le e e'
    /\ entry_lines (journal_lines d') id ≡ₚ entry_lines (journal_lines d) id.
Proof.
  intros HR He. destruct (steps_handle h ctx r w HR) as ([Hs _] & _).
  destruct (ls_entries _ _ Hs _ _ He) as (e' & He' & Hle).
  exists e'. split_and!; [done..|]. by eapply step_lines.
Qed.

(** ** Authorization *)

Lemma guard_err {A} h ctx t p (f : uuid -> M St status A) w :
  is_ok (TenantFromRequest ctx t) && is_ok (RequirePermission (LedgerHandler.h_scoped h)
    (LedgerHandler.h_perm h) ctx p) = false ->
  exists e, (tenantID ← LedgerHandler.guard h ctx t p; f tenantID) w = (Err e, w).
Proof.
  intros H. unfold LedgerHandler.guard, mbind, M_bind, lift_result.
  destruct (TenantFromRequest ctx t) as [u|e]; [|by exists e].
  destruct (RequirePermission _ _ _ _) as [[]|e]; [done|by exists e].
Qed.

(** C3: Authorization is complete: an RPC whose caller is missing, belongs to
    another tenant than the request names, or lacks the RPC's permission is
    refused, and the state is untouched: no statement reaches the database. *)
Theorem unauthorized_changes_nothing (h : LedgerHandler.Handler) (ctx : Ctx)
    (r : LedgerHandler.Rpc) (w : World St) :
  is_ok (TenantFromRequest ctx (rpc_tenant r))
    && is_ok (RequirePermission (LedgerHandler.h_scoped h) (LedgerHandler.h_perm h) ctx
                (required_permission r)) = false ->
  exists e, LedgerHandler.handle h ctx r w = (Err e, w).
Proof. intros H. destruct r; exact (guard_err h ctx _ _ _ w H). Qed.

End system.

(** ** Witnesses *)

Section witnesses.
#[local] Existing Instance ref_external.
Import Demo.

Lemma alone_rely (w : World St) : (forall n s, w_other w n s = s) -> rely st_step w.
Proof. intros H n s. by rewrite H. Qed.

Lemma run_reachable t rs (w : World St) :
  reachable handler (w_st w) -> (forall n s, w_other w n s = s) ->
  reachable handler (w_st (run t rs w)) /\ forall n s, w_other (run t rs w) n s = s.
Proof.
  revert w. induction rs as [|r rs IH]; intros w Hr Ho; simpl; [done|].
  pose proof (alone_rely w Ho) as HR. apply IH; [by apply reach_rpc|].
  destruct (steps_handle handler (caller t) r w HR) as (_ & -> & _). done.
Qed.

Lemma drafted_reachable : reachable handler (w_st drafted) /\ forall n s, w_other drafted n s = s.
Proof.
  exact (run_reachable 7 setup (world LedgerPostgres.empty_st) (reach_empty _) (fun n s => eq_refl)).
Qed.

Lemma posted_reachable :
  reachable handler (w_st posted) /\ forall n s, w_other posted n s = s.
Proof. destruct drafted_reachable as [Hd Ho]. exact (run_reachable 7 [post] drafted Hd Ho). Qed.

Lemma rent_posted : journal_entries (st_db (w_st posted)) !! 105%N = Some rent.
Proof. vm_compute. reflexivity. Qed.

Lemma posted_entries_balance_witness : balanced (journal_lines (st_db (w_st posted))) 105%N.
Proof.
  apply (posted_entries_balance handler (w_st posted) 105%N rent).
  - exact (proj1 posted_reachable).
  - exact rent_posted.
  - vm_compute; discriminate.
Defined.

Lemma ledger_append_only_witness :
  exists e', journal_entries (st_db (w_st (LedgerHandler.handle handler (caller 7)
                (LedgerHandler.VoidJournalEntryRpc "" "105" "") posted).2)) !! 105%N = Some e'
             /\ er_EntryNumber e' = "JE-2023-00001".
Proof.
  destruct (ledger_append_only handler (caller 7) (LedgerHandler.VoidJournalEntryRpc "" "105" "")
              posted 105%N rent (alone_rely _ (proj2 posted_reachable)) rent_posted)
    as (e' & He' & Hle & _).
  exists e'. split; [exact He'|]. destruct Hle as (_ & _ & _ & _ & Hn & _). rewrite Hn. reflexivity.
Defined.

Lemma unauthorized_changes_nothing_witness :
  exists e, LedgerHandler.handle (LedgerHandler.mkHandler (Ledger.mkService true) (Some deny_all) false)
              (caller 7) post drafted = (Err e, drafted).
Proof. apply unauthorized_changes_nothing. reflexivity. Defined.

End witnesses.

(** General ledger: tenant isolation.  [view u] is everything the tables and
    the event stream hold for tenant [u]; the statements a request of another
    tenant runs leave it exactly as it was. *)

Import LedgerPostgres(St, mkSt, st_db, st_published).
Local Open Scope Z_scope.

Section view.
Context {X : External}.
Variable u : uuid.

(** The tenant of the entry a line belongs to: the lines have no tenant column. *)
Definition line_tenant (es : gmap uuid EntryRow) (l : LineRow) : option uuid :=
  er_TenantID <$> es !! lr_JournalID l.

Definition view (d : DB) : DB :=
  mkDB (filter (fun kv => ar_TenantID kv.2 = u) (accounts d))
       (filter (fun kv => pr_TenantID kv.2 = u) (accounting_periods d))
       (filter (fun kv => er_TenantID kv.2 = u) (journal_entries d))
       (filter (fun kv => line_tenant (journal_entries d) kv.2 = Some u) (journal_lines d))
       (filter (fun kv => kv.1.1 = u) (journal_entry_counters d))
       (filter (fun kv => yr_TenantID kv.2 = u) (parties d))
       (filter (fun kv => cr_TenantID kv.2 = u) (party_contacts d)).

Definition same_view (s s' : St) : Prop :=
  view (st_db s) = view (st_db s')
  /\ List.filter (fun je => bool_decide (je_TenantID je = u)) (st_published s)
     = List.filter (fun je => bool_decide (je_TenantID je = u)) (st_published s').

#[export] Instance same_view_preorder : PreOrder same_view.
Proof.
  split; [by split|]. intros s1 s2 s3 [H1 H2] [H3 H4].
  split; congruence.
Qed.

(** ** Statements *)

(** Writing a row of another tenant over nothing, or over a row of another tenant. *)
Lemma filter_insert_other {K A} `{Countable K} (P : K * A -> Prop) `{!forall x, Decision (P x)}
    (t : gmap K A) k r :
  ~ P (k, r) -> (forall r0, t !! k = Some r0 -> ~ P (k, r0)) -> filter P (<[k := r]> t) = filter P t.
Proof. intros Hn Ho. by apply map_filter_insert_not'. Qed.

(** A row that [get_row] found for another tenant. *)
Lemma get_row_other {A} (t : gmap uuid A) (tenant : A -> uuid) t0 id r :
  get_row t id (fun p => bool_decide (tenant p = t0)) = Ok r -> t0 <> u ->
  forall r0, t !! id = Some r0 -> tenant r0 <> u.
Proof. intros Hg Hne r0 Hr. apply get_row_Ok in Hg as [Hg ?]. bool_hyps. congruence. Qed.

(** A free key. *)
Lemma free_other {A} (t : gmap uuid A) (P : A -> Prop) id :
  ~ is_Some (t !! id) -> forall r0, t !! id = Some r0 -> P r0.
Proof. intros Hf r0 Hr. destruct Hf. by exists r0. Qed.

Lemma view_accounts d k r :
  ar_TenantID r <> u -> (forall r0, accounts d !! k = Some r0 -> ar_TenantID r0 <> u) ->
  view (set_accounts (<[k := r]> (accounts d)) d) = view d.
Proof. intros. unfold view; simpl. by rewrite filter_insert_other. Qed.
Lemma view_periods d k r :
  pr_TenantID r <> u -> (forall r0, accounting_periods d !! k = Some r0 -> pr_TenantID r0 <> u) ->
  view (set_periods (<[k := r]> (accounting_periods d)) d) = view d.
Proof. intros. unfold view; simpl. by rewrite filter_insert_other. Qed.
Lemma view_parties d k r :
  yr_TenantID r <> u -> (forall r0, parties d !! k = Some r0 -> yr_TenantID r0 <> u) ->
  view (set_parties (<[k := r]> (parties d)) d) = view d.
Proof. intros. unfold view; simpl. by rewrite filter_insert_other. Qed.
Lemma view_contacts d k r :
  cr_TenantID r <> u -> (forall r0, party_contacts d !! k = Some r0 -> cr_TenantID r0 <> u) ->
  view (set_contacts (<[k := r]> (party_contacts d)) d) = view d.
Proof. intros. unfold view; simpl. by rewrite filter_insert_other. Qed.
Lemma view_counters d t y n :
  t <> u -> view (set_counters (<[(t, y) := n]> (journal_entry_counters d)) d) = view d.
Proof. intros. unfold view; simpl. by rewrite filter_insert_other. Qed.
Lemma view_lines d k l :
  line_tenant (journal_entries d) l <> Some u -> ~ is_Some (journal_lines d !! k) ->
  view (set_lines (<[k := l]> (journal_lines d)) d) = view d.
Proof.
  intros Hl Hf. unfold view; simpl. rewrite (filter_insert_other (A:=LineRow)); [done..|].
  by apply (free_other _ (fun r0 => ~ line_tenant (journal_entries d) r0 = Some u)).
Qed.

(** An entry of another tenant: its lines were, and are, nobody's of [u]. *)
Lemma view_entries d k e :
  er_TenantID e <> u -> (forall r0, journal_entries d !! k = Some r0 -> er_TenantID r0 <> u) ->
  view (set_entries (<[k := e]> (journal_entries d)) d) = view d.
Proof.
  intros Hn Ho. unfold view; simpl. rewrite filter_insert_other by done. f_equal.
  apply map_filter_ext. intros i l _. simpl. unfold line_tenant. rewrite lookup_insert.
  case_decide as Hk; [|done]. subst k. split; [intros [= ?]; congruence|].
  destruct (journal_entries d !! lr_JournalID l) as [e0|] eqn:He; [|done].
  intros [= ?]. by destruct (Ho e0 eq_refl).
Qed.

Lemma CreateAccount_view r d a d' :
  LedgerQueries.CreateAccount r d = Ok (a, d') -> ar_TenantID r <> u -> view d = view d'.
Proof.
  unfold LedgerQueries.CreateAccount. intros H Hne. repeat (case_match; simplify_eq; try done).
  bool_hyps. rewrite view_accounts; [done..|]. by apply free_other.
Qed.

Lemma SetAccountCostBehavior_view t id cb d a d' :
  LedgerQueries.SetAccountCostBehavior t id cb d = Ok (a, d') -> t <> u -> view d = view d'.
Proof.
  unfold LedgerQueries.SetAccountCostBehavior, LedgerQueries.GetAccount. intros H Hne.
  repeat (case_match; simplify_eq; try done).
  match goal with H : get_row _ _ _ = _ |- _ => rename H into Hg end.
  pose proof (get_row_other _ ar_TenantID _ _ _ Hg Hne) as Ho.
  rewrite view_accounts; [done|apply get_row_Ok in Hg as [Hg _]; by apply (Ho _ Hg)|done].
Qed.

Lemma CreateAccountingPeriod_view r d a d' :
  LedgerQueries.CreateAccountingPeriod r d = Ok (a, d') -> pr_TenantID r <> u -> view d = view d'.
Proof.
  unfold LedgerQueries.CreateAccountingPeriod. intros H Hne.
  repeat (case_match; simplify_eq; try done).
  bool_hyps. rewrite view_periods; [done..|]. by apply free_other.
Qed.

Lemma CloseAccountingPeriod_view now t id by_ d a d' :
  LedgerQueries.CloseAccountingPeriod now t id by_ d = Ok (a, d') -> t <> u -> view d = view d'.
Proof.
  unfold LedgerQueries.CloseAccountingPeriod, LedgerQueries.GetAccountingPeriod. intros H Hne.
  destruct (get_row _ _ _) as [p|] eqn:Hg; simplify_eq.
  pose proof (get_row_other _ pr_TenantID _ _ _ Hg Hne) as Ho.
  rewrite view_periods; [done|apply get_row_Ok in Hg as [Hg _]; by apply (Ho _ Hg)|done].
Qed.

Lemma NextJournalEntrySeq_view t y d n d' :
  LedgerQueries.NextJournalEntrySeq t y d = Ok (n, d') -> t <> u -> view d = view d'.
Proof. unfold LedgerQueries.NextJournalEntrySeq. intros [= <- <-] Hne. by rewrite view_counters. Qed.

Lemma set_status_view t id e st b at_ d :
  get_row (journal_entries d) id (fun e => bool_decide (er_TenantID e = t)) = Ok e -> t <> u ->
  view (set_entries (<[id := LedgerQueries.set_entry_status e st b at_]> (journal_entries d)) d)
  = view d.
Proof.
  intros Hg Hne. pose proof (get_row_other _ er_TenantID _ _ _ Hg Hne) as Ho.
  apply view_entries; [|done]. apply get_row_Ok in Hg as [Hg _]. apply (Ho _ Hg).
Qed.

Lemma PostJournalEntry_view now t id by_ d a d' :
  LedgerQueries.PostJournalEntry now t id by_ d = Ok (a, d') -> t <> u -> view d = view d'.
Proof.
  unfold LedgerQueries.PostJournalEntry, LedgerQueries.GetJournalEntry. intros H Hne.
  destruct (get_row _ _ _) as [e|] eqn:Hg; [|done]. case_decide; simplify_eq.
  by erewrite set_status_view.
Qed.
Lemma VoidJournalEntry_view t id d a d' :
  LedgerQueries.VoidJournalEntry t id d = Ok (a, d') -> t <> u -> view d = view d'.
Proof.
  unfold LedgerQueries.VoidJournalEntry, LedgerQueries.GetJournalEntry. intros H Hne.
  destruct (get_row _ _ _) as [e|] eqn:Hg; [|done]. case_decide; simplify_eq.
  by erewrite set_status_view.
Qed.

Lemma CreateParty_view r d a d' :
  LedgerQueries.CreateParty r d = Ok (a, d') -> yr_TenantID r <> u -> view d = view d'.
Proof.
  unfold LedgerQueries.CreateParty. intros H Hne. repeat (case_match; simplify_eq; try done).
  bool_hyps. rewrite view_parties; [done..|]. by apply free_other.
Qed.

Lemma UpdateParty_view now r d a d' :
  LedgerQueries.UpdateParty now r d = Ok (a, d') -> yr_TenantID r <> u -> view d = view d'.
Proof.
  unfold LedgerQueries.UpdateParty. intros H Hne.
  destruct (get_row _ _ _) as [p|] eqn:Hg; [|done].
  pose proof (get_row_other _ yr_TenantID _ _ _ Hg Hne) as Ho.
  apply get_row_Ok in Hg as [Hg Ht]. bool_hyps.
  repeat (case_match; simplify_eq; try done). rewrite view_parties; [done|simpl; congruence|done].
Qed.

Lemma insert_lines_view jid ls d d' :
  LedgerPostgres.insert_lines jid ls d = Ok d' ->
  (forall e, journal_entries d !! jid = Some e -> er_TenantID e <> u) -> view d = view d'.
Proof.
  revert d. induction ls as [|l ls IH]; intros d H Ht; simpl in H; [by simplify_eq|].
  unfold LedgerPostgres.tx_step, LedgerQueries.CreateJournalLine in H.
  repeat (case_match; simplify_eq; try done). bool_hyps.
  rewrite <-(IH _ H Ht), view_lines; [done| |done].
  unfold line_tenant. simpl. destruct (journal_entries d !! jid) as [e|] eqn:He; [|done].
  intros [= Hu]. by apply (Ht e).
Qed.

Lemma insert_contacts_view now t pos cs d d' :
  LedgerPostgres.insert_contacts now t pos cs d = Ok d' -> t <> u -> view d = view d'.
Proof.
  revert pos d. induction cs as [|c cs IH]; intros pos d H Hne; simpl in H; [by simplify_eq|].
  unfold LedgerPostgres.insertPartyContact, LedgerPostgres.tx_step,
    LedgerQueries.CreatePartyContact in H.
  repeat (case_match; simplify_eq; try done). bool_hyps.
  rewrite <-(IH _ _ H Hne), view_contacts; [done..|]. by apply free_other.
Qed.

Lemma DeletePartyContacts_view t id d :
  t <> u -> view (LedgerQueries.DeletePartyContacts t id d) = view d.
Proof.
  intros Hne. unfold view, LedgerQueries.DeletePartyContacts; simpl. f_equal.
  rewrite map_filter_filter. apply map_filter_ext. intros i c _. simpl.
  split; [by intros []|]. intros Hc. split; [done|]. intros [? _]. congruence.
Qed.

(** ** Programs *)

Lemma view_exec {A} (q : DB -> result pg_error (A * DB)) w :
  (forall d a d', q d = Ok (a, d') -> view d = view d') ->
  steps same_view (LedgerPostgres.q_exec q) w.
Proof.
  intros Hq. apply steps_tx. intros s1 a s2 _ _ H.
  destruct (q (st_db s1)) as [[a' d]|] eqn:Hd; simplify_eq. split; [|done]. by eapply Hq.
Qed.

Lemma view_query {A} (q : DB -> result pg_error A) w :
  steps same_view (LedgerPostgres.q_query q) w.
Proof. apply view_exec. intros d a d' H. destruct (q d); by simplify_eq. Qed.

Lemma view_with_tx {A} (body : DB -> result (error LErr) (A * DB)) w :
  (forall d a d', body d = Ok (a, d') -> view d = view d') ->
  steps same_view (LedgerPostgres.with_tx body) w.
Proof.
  intros Hq. apply steps_tx. intros s1 a s2 _ _ H.
  destruct (body (st_db s1)) as [[a' d]|] eqn:Hd; simplify_eq. split; [|done]. by eapply Hq.
Qed.

Lemma view_CreateParty p w :
  pa_TenantID p <> u -> steps same_view (LedgerPostgres.CreateParty p) w.
Proof.
  intros Hne. unfold LedgerPostgres.CreateParty. steps_tac. apply view_with_tx. intros d x d' Hb.
  unfold LedgerPostgres.tx_step in Hb.
  destruct (LedgerQueries.CreateParty _ d) as [[row d1]|] eqn:Hc; [|done].
  destruct (LedgerPostgres.insert_contacts _ _ _ _ _) as [d2|] eqn:Hi; simplify_eq.
  etrans; [by eapply CreateParty_view|by eapply insert_contacts_view].
Qed.

Lemma view_UpdateParty p w :
  pa_TenantID p <> u -> steps same_view (LedgerPostgres.UpdateParty p) w.
Proof.
  intros Hne. unfold LedgerPostgres.UpdateParty. steps_tac. apply view_with_tx. intros d x d' Hb.
  unfold LedgerPostgres.tx_step in Hb.
  destruct (LedgerQueries.UpdateParty _ _ d) as [[row d1]|] eqn:Hc; [|done].
  destruct (LedgerPostgres.insert_contacts _ _ _ _ _) as [d2|] eqn:Hi; simplify_eq.
  etrans; [by eapply UpdateParty_view|]. rewrite <-(DeletePartyContacts_view (pa_TenantID p) (pa_ID p)) by done.
  by eapply insert_contacts_view.
Qed.

Lemma view_CreateJournalEntry_repo je w :
  je_TenantID je <> u -> steps same_view (LedgerPostgres.CreateJournalEntry je) w.
Proof.
  intros Hne. unfold LedgerPostgres.CreateJournalEntry. steps_tac. apply view_with_tx.
  intros d x d' Hb. unfold LedgerPostgres.tx_step, LedgerQueries.CreateJournalEntry in Hb.
  simpl in Hb. repeat (case_match; simplify_eq; try done). bool_hyps.
  match goal with H : LedgerPostgres.insert_lines _ _ _ = _ |- _ => rename H into Hi end.
  apply insert_lines_view in Hi as <-.
  - rewrite view_entries; [done|done|]. by apply free_other.
  - simpl. intros e. rewrite lookup_insert_eq. by intros [= <-].
Qed.

Lemma view_publish s je w :
  je_TenantID je <> u -> steps same_view (Ledger.publish s je) w.
Proof.
  intros Hne. unfold Ledger.publish. steps_tac. apply steps_best_effort. intros st.
  split; [done|]. simpl. rewrite List.filter_app. simpl. by rewrite bool_decide_false, app_nil_r.
Qed.

Lemma normalizeParty_tenant p p' :
  Ledger.normalizeParty p = Ok p' -> pa_TenantID p' = pa_TenantID p.
Proof. unfold Ledger.normalizeParty. intros H. by repeat (case_match; simplify_eq; try done). Qed.

Lemma assignContactIDs_tenant p w p' w' :
  Ledger.assignContactIDs p w = (Ok p', w') -> pa_TenantID p' = pa_TenantID p.
Proof.
  unfold Ledger.assignContactIDs. intros H. apply bind_Ok in H as (cs & w1 & _ & H).
  by injection H as <- _.
Qed.

Lemma GetJournalEntry_tenant t id w je w' :
  LedgerPostgres.GetJournalEntry t id w = (Ok je, w') -> je_TenantID je = t.
Proof.
  unfold LedgerPostgres.GetJournalEntry. intros H.
  apply bind_Ok in H as (e & w1 & H1 & H). apply bind_Ok in H as (ls & w2 & _ & H).
  injection H as <- _. simpl. apply map_err_Ok in H1. apply tx_Ok in H1 as [H1 _]. revert H1.
  destruct (LedgerQueries.GetJournalEntry t id _) as [e'|] eqn:Hg; [|done].
  intros [= -> _]. apply get_row_Ok in Hg as [_ Ht]. by bool_hyps.
Qed.

End view.

Create HintDb tenant.
#[export] Hint Resolve CreateAccount_view SetAccountCostBehavior_view CreateAccountingPeriod_view
  CloseAccountingPeriod_view NextJournalEntrySeq_view PostJournalEntry_view
  VoidJournalEntry_view : tenant.

(** Closes a [steps (same_view u)] goal whose statements name another tenant. *)
Ltac tenant_steps :=
  repeat (steps_tac;
    match goal with
    | |- steps _ (LedgerPostgres.q_query _) _ => apply view_query
    | |- steps _ (LedgerPostgres.q_exec _) _ => apply view_exec; eauto with tenant
    | |- steps _ (LedgerPostgres.CreateJournalEntry _) _ => apply view_CreateJournalEntry_repo
    | |- steps _ (LedgerPostgres.CreateParty _) _ => apply view_CreateParty
    | |- steps _ (LedgerPostgres.UpdateParty _) _ => apply view_UpdateParty
    | |- steps _ (Ledger.publish _ _) _ => apply view_publish
    | |- steps _ (Ledger.bank_attempts _ _ _ _ _ _) _ => idtac
    | |- steps _ (?f _) _ => unfold f
    | |- steps _ (?f _ _) _ => unfold f
    | |- steps _ (?f _ _ _) _ => unfold f
    | |- steps _ (?f _ _ _ _) _ => unfold f
    | |- steps _ (?f _ _ _ _ _) _ => unfold f
    | |- steps _ (?f _ _ _ _ _ _) _ => unfold f
    | |- steps _ (?f _ _ _ _ _ _ _) _ => unfold f
    | |- _ => idtac
    end).

Section programs.
Context {X : External}.
Variables (u t : uuid).
Hypothesis Hne : t <> u.

Lemma view_bank_attempts n b l c e w : steps (same_view u) (Ledger.bank_attempts n t b l c e) w.
Proof.
  revert e w. induction n as [|n IH]; intros e w; simpl; [apply steps_throw|].
  steps_tac; try apply IH; tenant_steps.
Qed.

Lemma view_svc_CreateJournalEntry je w :
  je_TenantID je = t -> steps (same_view u) (Ledger.CreateJournalEntry je) w.
Proof.
  intros Ht. unfold Ledger.CreateJournalEntry. rewrite Ht. tenant_steps. simpl. congruence.
Qed.

Lemma view_svc_PostJournalEntry s id by_ w :
  steps (same_view u) (Ledger.PostJournalEntry s t id by_) w.
Proof.
  unfold Ledger.PostJournalEntry. apply steps_bind; [tenant_steps|]. intros je w1 Hje _ _ _.
  apply wrap_Ok, GetJournalEntry_tenant in Hje. tenant_steps. simpl. congruence.
Qed.

Lemma view_svc_VoidJournalEntry s id by_ w :
  steps (same_view u) (Ledger.VoidJournalEntry s t id by_) w.
Proof.
  unfold Ledger.VoidJournalEntry. steps_tac; try apply view_svc_PostJournalEntry;
    try (apply view_svc_CreateJournalEntry; done); tenant_steps.
Qed.

Lemma view_svc_CreateParty p w :
  pa_TenantID p = t -> steps (same_view u) (Ledger.CreateParty p) w.
Proof.
  intros Ht. unfold Ledger.CreateParty. steps_tac; [tenant_steps|]. apply view_CreateParty.
  repeat match goal with H : _ = (Ok _, _) |- _ =>
    first [apply assignContactIDs_tenant in H | apply lift_Ok in H as [H _];
           apply normalizeParty_tenant in H] end.
  simpl in *. congruence.
Qed.

Lemma view_svc_UpdateParty p w :
  pa_TenantID p = t -> steps (same_view u) (Ledger.UpdateParty p) w.
Proof.
  intros Ht. unfold Ledger.UpdateParty. steps_tac; [tenant_steps|]. apply view_UpdateParty.
  repeat match goal with H : _ = (Ok _, _) |- _ =>
    first [apply assignContactIDs_tenant in H | apply lift_Ok in H as [H _];
           apply normalizeParty_tenant in H] end.
  congruence.
Qed.

(** A handler's guard only lets its own tenant through. *)
Lemma view_guard {A} h ctx tn p (f : uuid -> M St status A) w :
  (forall c, ctx_caller ctx = Some c -> ci_TenantID c = t) ->
  (forall w', steps (same_view u) (f t) w') ->
  steps (same_view u) (LedgerHandler.guard h ctx tn p ≫= f) w.
Proof.
  intros Hc Hf. apply steps_bind; [unfold LedgerHandler.guard; steps_tac|].
  intros t' w' Hg _ _ _. unfold LedgerHandler.guard in Hg.
  apply bind_Ok in Hg as (t1 & w1 & H1 & H2). apply lift_Ok in H1 as [H1 ->].
  apply bind_Ok in H2 as ([] & w2 & _ & H2). injection H2 as <- _.
  apply TenantFromRequest_inv in H1 as (c & Hcc & -> & _). rewrite (Hc c Hcc). apply Hf.
Qed.

End programs.

(** The service calls a handler makes, by the lemma of the call. *)
Ltac tenant_calls :=
  repeat (steps_tac;
    match goal with
    | |- steps _ (LedgerHandler.svc _) _ => unfold LedgerHandler.svc
    | |- steps _ (Ledger.PostJournalEntry _ _ _ _) _ => apply view_svc_PostJournalEntry
    | |- steps _ (Ledger.VoidJournalEntry _ _ _ _) _ => apply view_svc_VoidJournalEntry
    | |- steps _ (Ledger.CreateJournalEntry _) _ =>
        eapply view_svc_CreateJournalEntry; [|reflexivity]
    | |- steps _ (Ledger.CreateParty _) _ => eapply view_svc_CreateParty; [|reflexivity]
    | |- steps _ (Ledger.UpdateParty _) _ => eapply view_svc_UpdateParty; [|reflexivity]
    | |- steps _ (Ledger.CreateBankAccount _ _) _ => unfold Ledger.CreateBankAccount
    | |- steps _ (Ledger.bank_attempts _ _ _ _ _ _) _ => apply view_bank_attempts
    | |- steps _ (_ _) _ => tenant_steps
    end; try done).

Section isolation.
Context {X : External}.

(** C4: Tenants are isolated: an RPC whose caller belongs to another tenant
    leaves everything the tables and the event stream hold for tenant [u]
    exactly as it was, whichever RPC it is, whatever ids it names and whatever
    the outcome, as long as the requests running beside it do; and so does
    each of the statements it runs. *)
Theorem tenant_isolation (h : LedgerHandler.Handler) (ctx : Ctx) (r : LedgerHandler.Rpc)
    (w : World St) (u : uuid) :
  (forall c, ctx_caller ctx = Some c -> ci_TenantID c <> u) ->
  steps (same_view u) (LedgerHandler.handle h ctx r) w.
Proof.
  intros Hu.
  assert (exists t, t <> u /\ forall c, ctx_caller ctx = Some c -> ci_TenantID c = t)
    as (t & Hne & Ht).
  { destruct (ctx_caller ctx) as [c|].
    - exists (ci_TenantID c). split; [by apply Hu|by intros c' [= <-]].
    - exists (N.succ u). split; [lia|done]. }
  destruct r; apply (view_guard u t); try done; intros w'; cbv beta; tenant_calls.
Qed.

End isolation.

(** ** Witness *)

(** Tenant 8 is refused tenant 7's entry, and tenant 7's books, the draft and
    its lines among them, are as they were. *)
Lemma tenant_isolation_witness :
  view 7 (st_db (w_st (LedgerHandler.handle Demo.handler (Demo.caller 8)
    (LedgerHandler.PostJournalEntryRpc "" "105" "") Demo.drafted).2)) = view 7 (st_db (w_st Demo.drafted))
  /\ size (journal_lines (view 7 (st_db (w_st Demo.drafted)))) = 2%nat.
Proof.
  split; [|vm_compute; reflexivity].
  assert (forall c, ctx_caller (Demo.caller 8) = Some c -> ci_TenantID c <> 7%N) as Hc
    by (intros c [= <-]; discriminate).
  destruct (tenant_isolation Demo.handler (Demo.caller 8)
    (LedgerHandler.PostJournalEntryRpc "" "105" "") Demo.drafted 7%N Hc) as ([Hv _] & _).
  - intros n s. split; reflexivity.
  - symmetry. exact Hv.
Defined.
