(* ===== verification/LedgerJournal.v ===== *)
(** General ledger: posting a journal entry against its specification.
    [spec_post] says, on the tables alone, which of the outcomes a posting has
    and what it changes; the service refines it. *)

From S2P Require Export LedgerProps.
From S2P Require LedgerQueries LedgerPostgres Ledger LedgerHandler.
Import LedgerPostgres(St, mkSt, st_db, st_published).
Local Open Scope Z_scope.

Section spec.
Context {X : External} {L : ExternalLaws}.

(** What posting entry [id] does: the error the caller sees, or the new tables
    once the posting instant is known. *)
Definition spec_post (tenantID id by_ : uuid) (d : DB) : result LErr (Time -> DB) :=
  match owned er_TenantID tenantID (journal_entries d) id with
  | None => Err ErrJournalNotFound
  | Some e =>
    if decide (er_Status e = "posted") then Err ErrJournalAlreadyPosted
    else if decide (er_Status e = "void") then Err ErrJournalVoid
    else match owned pr_TenantID tenantID (accounting_periods d) (er_PeriodID e) with
    | None => Err ErrPeriodNotFound
    | Some p =>
      if decide (pr_Status p = "closed") then Err ErrPeriodClosed
      else if Qc_eq_dec (debit_total (entry_lines (journal_lines d) id))
                        (credit_total (entry_lines (journal_lines d) id))
      then Ok (fun now => set_entries (<[id := LedgerQueries.set_entry_status e "posted" (Some by_) (Some now)]>
                 (journal_entries d)) d)
      else Err ErrJournalNotBalanced
    end
  end.

(** ** Repository calls in a quiet world *)

Lemma evals_exec {A} (q : DB -> result pg_error (A * DB)) (w : World St) :
  quiet w ->
  evals (LedgerPostgres.q_exec q) w
    (match q (st_db (w_st w)) with Ok (a, _) => Ok a | Err e => Err e end)
    (match q (st_db (w_st w)) with
     | Ok (_, d) => mkSt d (st_published (w_st w)) | Err _ => w_st w end).
Proof.
  intros H. unfold LedgerPostgres.q_exec, db_exec.
  pose proof (evals_tx PgConnection (fun s : St => match q (st_db s) with
    | Ok (a, d) => Ok (a, mkSt d (st_published s)) | Err e => Err e end) w H) as He.
  cbv beta in He. by destruct (q (st_db (w_st w))) as [[a d]|e].
Qed.

Lemma evals_query {A} (q : DB -> result pg_error A) (w : World St) :
  quiet w -> evals (LedgerPostgres.q_query q) w (q (st_db (w_st w))) (w_st w).
Proof.
  intros H. pose proof (evals_exec (fun d => match q d with Ok a => Ok (a, d) | Err e => Err e end) w H)
    as (w' & Hm & Hs & Hq).
  exists w'. unfold LedgerPostgres.q_query. rewrite Hm, Hs.
  destruct (q (st_db (w_st w))); split_and!; try done. by destruct (w_st w).
Qed.

Lemma evals_GetJournalEntry t id (w : World St) :
  quiet w ->
  evals (LedgerPostgres.GetJournalEntry t id) w
    (match owned er_TenantID t (journal_entries (st_db (w_st w))) id with
     | None => Err (ESent ErrJournalNotFound)
     | Some e =>
       Ok (LedgerPostgres.set_je_lines
             (LedgerPostgres.journalLineFromDB <$>
                match LedgerQueries.ListJournalLines t (er_ID e) (st_db (w_st w)) with
                | Ok ls => ls | Err _ => [] end)
             (LedgerPostgres.journalEntryFromDB e))
     end) (w_st w).
Proof.
  intros H. unfold LedgerPostgres.GetJournalEntry.
  pose proof (evals_map_err (LedgerPostgres.no_rows_as ErrJournalNotFound "ledger: get journal entry: %w")
    _ _ _ _ (evals_query (LedgerQueries.GetJournalEntry t id) w H)) as He.
  unfold LedgerQueries.GetJournalEntry in He at 2. rewrite get_row_owned in He.
  destruct (owned _ _ _ _) as [e|]; simpl in He; [|by apply evals_bind_err].
  eapply evals_bind; [exact He|]. intros w1 H1 Hs1. rewrite <-Hs1.
  eapply evals_bind; [apply evals_map_ok; exact (evals_query _ w1 H1)|].
  intros w2 H2 Hs2. rewrite <-Hs2. by apply evals_ret.
Qed.

Lemma evals_GetPeriodByID t id (w : World St) :
  quiet w ->
  evals (LedgerPostgres.GetPeriodByID t id) w
    (match owned pr_TenantID t (accounting_periods (st_db (w_st w))) id with
     | None => Err (ESent ErrPeriodNotFound)
     | Some p => Ok (LedgerPostgres.periodFromDB p)
     end) (w_st w).
Proof.
  intros H. unfold LedgerPostgres.GetPeriodByID.
  pose proof (evals_map_err (LedgerPostgres.no_rows_as ErrPeriodNotFound "ledger: get period by ID: %w")
    _ _ _ _ (evals_query (LedgerQueries.GetAccountingPeriod t id) w H)) as He.
  unfold LedgerQueries.GetAccountingPeriod in He at 2. rewrite get_row_owned in He.
  destruct (owned _ _ _ _) as [p|]; simpl in He; [|by apply evals_bind_err].
  eapply evals_bind; [exact He|]. intros w1 H1 Hs1. rewrite <-Hs1. by apply evals_ret.
Qed.

(** The balance check on the lines read is the specification's. *)
Lemma validateBalance_spec d t id e :
  journal_entries d !! id = Some e -> er_TenantID e = t -> er_ID e = id ->
  Ledger.validateBalance (LedgerPostgres.journalLineFromDB <$>
     match LedgerQueries.ListJournalLines t (er_ID e) d with Ok ls => ls | Err _ => [] end)
  = if Qc_eq_dec (debit_total (entry_lines (journal_lines d) id))
                 (credit_total (entry_lines (journal_lines d) id))
    then Ok tt else Err (EWrap "%w: debit=%s credit=%s" (ESent ErrJournalNotBalanced)).
Proof.
  intros He Ht Hid. rewrite Hid.
  destruct (LedgerQueries.ListJournalLines t id d) as [ls|] eqn:Hls; [|done].
  pose proof (ListJournalLines_all d t id e ls He Ht Hls) as Hp.
  destruct (totals_read ls) as [Hd Hc]. unfold Ledger.validateBalance.
  rewrite (debit_total_perm _ _ Hp) in Hd. rewrite (credit_total_perm _ _ Hp) in Hc.
  destruct (dec_equal _ _) eqn:Heq.
  - apply dec_equal_spec in Heq. rewrite Hd, Hc in Heq. by destruct (Qc_eq_dec _ _).
  - destruct (Qc_eq_dec _ _) as [Hq|]; [|done]. rewrite <-Hd, <-Hc in Hq.
    apply dec_equal_spec in Hq. congruence.
Qed.

Lemma evals_mark_posted t id by_ e now0 (w : World St) :
  quiet w -> journal_entries (st_db (w_st w)) !! id = Some e -> er_TenantID e = t ->
  er_Status e = "draft" ->
  exists now, evals (LedgerPostgres.UpdateJournalStatus t id "posted" by_ now0) w (Ok tt)
    (mkSt (set_entries (<[id := LedgerQueries.set_entry_status e "posted" (Some by_) (Some now)]>
             (journal_entries (st_db (w_st w)))) (st_db (w_st w))) (st_published (w_st w))).
Proof.
  intros Hq He Ht Hd. destruct (evals_time (E:=error LErr) w Hq) as [now Hnow]. exists now.
  unfold LedgerPostgres.UpdateJournalStatus. rewrite decide_True by done.
  eapply evals_bind; [exact Hnow|]. intros w1 H1 Hs1.
  assert (Hx : LedgerQueries.PostJournalEntry now t id (Some by_) (st_db (w_st w1))
    = Ok (LedgerQueries.set_entry_status e "posted" (Some by_) (Some now),
          set_entries (<[id := LedgerQueries.set_entry_status e "posted" (Some by_) (Some now)]>
             (journal_entries (st_db (w_st w)))) (st_db (w_st w)))).
  { unfold LedgerQueries.PostJournalEntry, LedgerQueries.GetJournalEntry.
    rewrite get_row_owned, Hs1, (proj2 (owned_Some _ _ _ _ _) (conj He Ht)).
    by rewrite decide_True. }
  pose proof (evals_exec (LedgerQueries.PostJournalEntry now t id (Some by_)) w1 H1) as Hex.
  rewrite Hx, Hs1 in Hex. eapply evals_bind; [apply evals_map_ok; exact Hex|].
  intros w2 H2 Hs2. rewrite <-Hs2. by apply evals_ret.
Qed.

Lemma evals_publish s je (w : World St) :
  quiet w -> evals (Ledger.publish s je) w (Ok tt)
    (mkSt (st_db (w_st w)) (st_published (w_st w) ++ if Ledger.has_publisher s then [je] else [])).
Proof.
  intros Hq. unfold Ledger.publish. destruct (Ledger.has_publisher s).
  - exact (evals_best_effort _ w Hq).
  - rewrite app_nil_r. exists w. split; [done|]. split; [by destruct (w_st w)|done].
Qed.

(** What PostJournalEntry does once it has read the entry and its period. *)
Definition post_open (s : Ledger.Service) (t id by_ : uuid) (e : EntryRow) (p : PeriodRow) (st : St) :
    M St (error LErr) JournalEntry :=
  let ls := LedgerPostgres.journalLineFromDB <$>
       match LedgerQueries.ListJournalLines t (er_ID e) (st_db st) with Ok ls => ls | Err _ => [] end in
  let je := LedgerPostgres.set_je_lines ls (LedgerPostgres.journalEntryFromDB e) in
  if decide (pr_Status p = "closed") then mthrow (ESent ErrPeriodClosed)
  else
    _ ← lift_result (Ledger.validateBalance ls);
    now ← time_now;
    _ ← wrap "ledger: post journal entry %s: %w"
          (LedgerPostgres.UpdateJournalStatus t id "posted" by_ now);
    _ ← Ledger.publish s (Ledger.posted_entry je by_ now);
    mret (Ledger.posted_entry je by_ now).

(** The part of a posting after its reads: the entry is neither posted nor void. *)
Lemma post_draft s t id by_ e p (w : World St) :
  quiet w -> journal_entries (st_db (w_st w)) !! id = Some e -> er_TenantID e = t -> er_ID e = id ->
  er_Status e <> "posted" -> er_Status e <> "void" ->
  owned pr_TenantID t (accounting_periods (st_db (w_st w))) (er_PeriodID e) = Some p ->
  if decide (pr_Status p = "closed") then
    exists err, sentinel err = Some ErrPeriodClosed
      /\ evals (Ledger.PostJournalEntry s t id by_) w (Err err) (w_st w)
  else er_Status e = "draft" ->
    if Qc_eq_dec (debit_total (entry_lines (journal_lines (st_db (w_st w))) id))
                 (credit_total (entry_lines (journal_lines (st_db (w_st w))) id)) then
      exists now je, je_Status je = "posted" /\ je_ID je = id
      /\ evals (Ledger.PostJournalEntry s t id by_) w (Ok je)
           (mkSt (set_entries (<[id := LedgerQueries.set_entry_status e "posted" (Some by_) (Some now)]>
                   (journal_entries (st_db (w_st w)))) (st_db (w_st w)))
                 (st_published (w_st w) ++ if Ledger.has_publisher s then [je] else []))
    else exists err, sentinel err = Some ErrJournalNotBalanced
      /\ evals (Ledger.PostJournalEntry s t id by_) w (Err err) (w_st w).
Proof.
  intros Hq He Ht Hid Hp Hv Hop.
  pose proof (evals_GetJournalEntry t id w Hq) as Hget.
  rewrite (proj2 (owned_Some _ _ _ _ _) (conj He Ht)) in Hget.
  assert (exists w1, quiet w1 /\ w_st w1 = w_st w /\
    Ledger.PostJournalEntry s t id by_ w = post_open s t id by_ e p (w_st w) w1)
    as (w1 & H1 & Hs1 & Hread).
  { destruct Hget as (w1 & Hm1 & Hs1 & H1).
    pose proof (evals_GetPeriodByID t (er_PeriodID e) w1 H1) as Hper. rewrite Hs1, Hop in Hper.
    destruct Hper as (w2 & Hm2 & Hs2 & H2). exists w2. split_and!; [done..|].
    unfold Ledger.PostJournalEntry. erewrite bind_wrap_Ok by exact Hm1.
    rewrite decide_False, decide_False by done. by erewrite bind_wrap_Ok by exact Hm2. }
  unfold evals. rewrite Hread. clear Hread Hget. rewrite <-Hs1 in *. unfold post_open; cbv zeta.
  rewrite (validateBalance_spec (st_db (w_st w1)) t id e He Ht Hid).
  case_decide as Hc.
  { exists (ESent ErrPeriodClosed). split; [done|]. by apply evals_throw. }
  intros Hst. destruct (Qc_eq_dec _ _).
  - destruct (evals_time (E:=error LErr) w1 H1) as (now0 & w2 & Hm2 & Hs2 & H2).
    rewrite <-Hs2 in *.
    destruct (evals_mark_posted t id by_ e now0 w2 H2 He Ht Hst) as (now & w3 & Hm3 & Hs3 & H3).
    match goal with |- context [LedgerPostgres.set_je_lines ?ls ?r] =>
      set (je := Ledger.posted_entry (LedgerPostgres.set_je_lines ls r) by_ now0) end.
    destruct (evals_publish s je w3 H3) as (w4 & Hm4 & Hs4 & H4).
    exists now, je. split_and!; [done|done|]. exists w4. split; [|by rewrite Hs4, Hs3].
    erewrite bind_run by reflexivity. erewrite bind_run by exact Hm2.
    erewrite bind_wrap_Ok by exact Hm3. by erewrite bind_run by exact Hm4.
  - eexists (EWrap _ (ESent ErrJournalNotBalanced)). split; [done|]. by apply evals_bind_err, evals_pure.
Qed.

(** C5: Posting refines its specification.  Alone and with no failing call,
    PostJournalEntry on tables that satisfy the invariant has exactly the
    outcome [spec_post] gives: the same sentinel error with nothing changed, or
    the posted entry, the one row changed, and one event when a publisher is set. *)
Theorem post_refines_spec (s : Ledger.Service) (tenantID id by_ : uuid) (w : World St) :
  quiet w -> inv (st_db (w_st w)) ->
  match spec_post tenantID id by_ (st_db (w_st w)) with
  | Err err => exists e, sentinel e = Some err
      /\ evals (Ledger.PostJournalEntry s tenantID id by_) w (Err e) (w_st w)
  | Ok upd => exists now je, je_Status je = "posted" /\ je_ID je = id
      /\ evals (Ledger.PostJournalEntry s tenantID id by_) w (Ok je)
           (mkSt (upd now) (st_published (w_st w) ++ if Ledger.has_publisher s then [je] else []))
  end.
Proof.
  intros Hq Hinv. unfold spec_post, Ledger.PostJournalEntry.
  pose proof (evals_GetJournalEntry tenantID id w Hq) as Hget.
  destruct (owned er_TenantID _ _ id) as [e|] eqn:Ho.
  2: { eexists. split; [|eapply evals_bind_err, evals_map_fail; exact Hget]. done. }
  apply owned_Some in Ho as [He Ht].
  set (je := LedgerPostgres.set_je_lines _ _) in Hget.
  assert (Hid : er_ID e = id) by (by apply (inv_key _ Hinv)).
  destruct (decide (er_Status e = "posted")) as [Hp|Hp].
  { exists (ESent ErrJournalAlreadyPosted). split; [done|].
    eapply evals_bind; [apply evals_map_ok, Hget|]. intros w1 H1 Hs1. rewrite <-Hs1.
    rewrite decide_True by done. by apply evals_throw. }
  destruct (decide (er_Status e = "void")) as [Hv|Hv].
  { exists (ESent ErrJournalVoid). split; [done|].
    eapply evals_bind; [apply evals_map_ok, Hget|]. intros w1 H1 Hs1. rewrite <-Hs1.
    rewrite decide_False, decide_True by done. by apply evals_throw. }
  destruct (owned pr_TenantID _ _ _) as [p|] eqn:Hop.
  2: { eexists (EWrap _ (ESent ErrPeriodNotFound)). split; [done|].
    eapply evals_bind; [apply evals_map_ok, Hget|]. intros w1 H1 Hs1.
    rewrite decide_False, decide_False by done. eapply evals_bind_err.
    pose proof (evals_GetPeriodByID tenantID (er_PeriodID e) w1 H1) as Hper.
    rewrite Hs1, Hop in Hper. apply evals_map_fail. exact Hper. }
  pose proof (post_draft s tenantID id by_ e p w Hq He Ht Hid Hp Hv Hop) as Hd.
  destruct (decide (pr_Status p = "closed")); [exact Hd|].
  assert (Hst : er_Status e = "draft").
  { destruct (inv_status _ Hinv _ _ He) as [rk Hrk]. unfold status_rank in Hrk.
    by repeat case_decide. }
  specialize (Hd Hst). by destruct (Qc_eq_dec _ _).
Qed.

End spec.

(** ** Witness *)

Section witness.
#[local] Existing Instance ref_external.
Import Demo.

Lemma drafted_inv : inv (st_db (w_st drafted)).
Proof. exact (reachable_inv handler (w_st drafted) (proj1 drafted_reachable)). Qed.

Lemma drafted_quiet : quiet drafted.
Proof.
  split; [exact (proj2 drafted_reachable)|]. intros n.
  assert (He : forall m, env_fault (w_env drafted) m = false)
    by (vm_compute; intros m; reflexivity).
  exact (He n).
Qed.

Lemma post_refines_spec_witness :
  exists now je, je_Status je = "posted" /\ je_ID je = 105%N
    /\ evals (Ledger.PostJournalEntry (Ledger.mkService true) 7 105 9) drafted (Ok je)
         (mkSt (match spec_post 7 105 9 (st_db (w_st drafted)) with
                | Ok upd => upd now | Err _ => empty_db end)
               (st_published (w_st drafted) ++ [je])).
Proof.
  pose proof (post_refines_spec (Ledger.mkService true) 7 105 9 drafted drafted_quiet drafted_inv) as H.
  assert (is_ok (spec_post 7 105 9 (st_db (w_st drafted))) = true) as Hok by (vm_compute; reflexivity).
  destruct (spec_post 7 105 9 (st_db (w_st drafted))) as [upd|err]; [exact H|discriminate].
Defined.

End witness.

(** General ledger: what creating and voiding a journal entry leave in the
    tables.  The requests running beside may do anything [st_step] allows. *)

Import LedgerPostgres(St, mkSt, st_db, st_published).
Local Open Scope Z_scope.

Section journal.
Context {X : External} {L : ExternalLaws}.

(** How a line is stored: its amounts rounded to the column, its currency the
    column's default, everything else as given. *)
Definition stored (jid : uuid) (l : JournalLine) (r : LineRow) : Prop :=
  lr_ID r = jl_ID l /\ lr_JournalID r = jid /\ lr_AccountID r = jl_AccountID l
  /\ dec_numeric_14_2 (jl_DebitAmount l) = Some (lr_DebitAmount r)
  /\ dec_numeric_14_2 (jl_CreditAmount l) = Some (lr_CreditAmount r)
  /\ lr_Currency r = "INR" /\ lr_Description r = pgTextFromString (jl_Description l)
  /\ lr_PartyID r = jl_PartyID l.

Lemma insert_lines_stored jid ls d d' :
  LedgerPostgres.insert_lines jid ls d = Ok d' ->
  exists rs, Forall2 (stored jid) ls rs
    /\ entry_lines (journal_lines d') jid ≡ₚ rs ++ entry_lines (journal_lines d) jid.
Proof.
  revert d. induction ls as [|l ls IH]; intros d H; simpl in H.
  { simplify_eq. by exists []. }
  unfold LedgerPostgres.tx_step, LedgerQueries.CreateJournalLine in H.
  repeat (case_match; simplify_eq; try done). bool_hyps.
  destruct (IH _ H) as (rs & Hrs & Hp).
  match type of Hp with context [<[_ := ?r]> (journal_lines d)] => exists (r :: rs) end.
  split; [by constructor|].
  rewrite Hp. unfold entry_lines at 1. simpl.
  rewrite select_insert by (by apply eq_None_not_Some). rewrite bool_decide_true by done.
  by rewrite Permutation_middle.
Qed.

(** The header the repository inserts. *)
Definition header (je : JournalEntry) (now : Time) : EntryRow :=
  mkEntryRow (je_ID je) (je_TenantID je) (je_ProductionID je) (je_PeriodID je) (je_EntryNumber je)
    (pgTextFromString (je_Reference je)) (je_Narration je) (je_Status je) None None now.

(** A created entry's header and lines, as rows. *)
Definition recorded (je : JournalEntry) (d : DB) : Prop :=
  (exists now, journal_entries d !! je_ID je = Some (header je now))
  /\ exists rs, Forall2 (stored (je_ID je)) (je_Lines je) rs
       /\ entry_lines (journal_lines d) (je_ID je) ≡ₚ rs.

Lemma CreateJournalEntry_tx_recorded je now d d1 d2 a :
  inv d -> LedgerQueries.CreateJournalEntry (header je now) d = Ok (a, d1) ->
  LedgerPostgres.insert_lines (je_ID je) (je_Lines je) d1 = Ok d2 -> recorded je d2.
Proof.
  intros Hinv H Hl. unfold LedgerQueries.CreateJournalEntry in H. simpl in H.
  repeat (case_match; simplify_eq; try done). bool_hyps.
  assert (Hfresh : journal_entries d !! je_ID je = None) by (by apply eq_None_not_Some).
  destruct (insert_lines_spec _ _ _ _ Hl) as ([t ->] & _ & _).
  destruct (insert_lines_stored _ _ _ _ Hl) as (rs & Hrs & Hp). split.
  - exists now. simpl. by rewrite lookup_insert_eq.
  - exists rs. split; [done|]. rewrite Hp. unfold entry_lines. rewrite select_nil, app_nil_r; [done|].
    simpl. intros k r Hk. apply bool_decide_eq_false. intros Hj.
    destruct (inv_fk _ Hinv _ _ Hk) as [e He]. congruence.
Qed.

Lemma CreateJournalEntry_repo_recorded je w w' :
  LedgerPostgres.CreateJournalEntry je w = (Ok tt, w') -> rely st_step w -> inv (st_db (w_st w)) ->
  recorded je (st_db (w_st w')) /\ w_other w' = w_other w.
Proof.
  intros H HR Hinv. unfold LedgerPostgres.CreateJournalEntry in H.
  apply bind_Ok in H as (now & w1 & Hn & H). injection Hn as <- <-.
  apply tx_Ok in H as [H Ho]. split; [|exact Ho]. revert H.
  set (s1 := w_other _ _ _). assert (Hi1 : inv (st_db s1)).
  { destruct (HR (env_fault_pos (w_env w)) (w_st w)) as [Hs _]. by apply Hs. }
  fold (header je (env_clock (w_env w) (env_clock_pos (w_env w)))).
  unfold LedgerPostgres.tx_step.
  destruct (LedgerQueries.CreateJournalEntry _ (st_db s1)) as [[a d1]|] eqn:H1; [|done].
  destruct (LedgerPostgres.insert_lines _ _ d1) as [d2|] eqn:H2; [|done].
  intros [= Hw]. rewrite <-Hw. by eapply CreateJournalEntry_tx_recorded.
Qed.

(** A line after validation: only a missing id is filled in. *)
Definition same_line (l l' : JournalLine) : Prop :=
  exists id, l' = Ledger.with_line_id id l /\ (jl_ID l = uuid_nil \/ id = jl_ID l).

Lemma check_line_Ok t i l w l' w' :
  Ledger.check_line t i l w = (Ok l', w') -> same_line l l'.
Proof.
  unfold Ledger.check_line. intros H. apply bind_Ok in H as (acct & w1 & _ & H).
  destruct (negb _); [done|]. apply bind_Ok in H as (x & w2 & _ & H).
  case_decide as Hid; [apply bind_Ok in H as (id & w3 & _ & H)|]; injection H as <- _.
  - exists id. auto.
  - exists (jl_ID l). split; [by destruct l|by right].
Qed.

Lemma mapM_i_Ok {S E A B} (f : nat -> A -> M S E B) (P : A -> B -> Prop) i l w l' w' :
  (forall i x w y w', f i x w = (Ok y, w') -> P x y) ->
  mapM_i f i l w = (Ok l', w') -> Forall2 P l l'.
Proof.
  intros Hf. revert i w l' w'. induction l as [|x l IH]; intros i w l' w' H; simpl in H.
  { injection H as <- _. constructor. }
  apply bind_Ok in H as (y & w1 & H1 & H). apply bind_Ok in H as (ys & w2 & H2 & H).
  injection H as <- _. constructor; [exact (Hf _ _ _ _ _ H1)|exact (IH _ _ _ _ H2)].
Qed.

Lemma CreateJournalEntry_recorded (je je' : JournalEntry) (w w' : World St) :
  Ledger.CreateJournalEntry je w = (Ok je', w') -> rely st_step w -> inv (st_db (w_st w)) ->
  (exists id number ls, je' = Ledger.draft_entry je id number ls /\ Forall2 same_line (je_Lines je) ls)
  /\ (2 <= length (je_Lines je'))%nat /\ recorded je' (st_db (w_st w')).
Proof.
  intros H HR Hinv. unfold Ledger.CreateJournalEntry in H. case_decide as Hlen; [done|].
  apply bind_Ok in H as (ls & w1 & H1 & H).
  pose proof (mapM_i_Ok _ _ _ _ _ _ _ (check_line_Ok (je_TenantID je)) H1) as Hls.
  apply (steps_run (R:=st_step)) in H1 as [Hs1 HR1]; [|ledger_steps|done].
  apply bind_Ok in H as (id & w2 & H2 & H).
  apply (steps_run (R:=st_step)) in H2 as [Hs2 HR2]; [|steps_tac|done].
  apply bind_Ok in H as (now & w3 & H3 & H).
  apply (steps_run (R:=st_step)) in H3 as [Hs3 HR3]; [|steps_tac|done].
  apply bind_Ok in H as (zone & w4 & H4 & H). injection H4 as <- <-.
  apply bind_Ok in H as (number & w5 & H5 & H).
  apply (steps_run (R:=st_step)) in H5 as [Hs5 HR5]; [|ledger_steps|done].
  apply bind_Ok in H as ([] & w6 & H6 & H). injection H as <- <-. apply wrap_Ok in H6.
  split_and!; [by exists id, number, ls| |].
  - simpl. rewrite <-(Forall2_length _ _ _ Hls). lia.
  - eapply CreateJournalEntry_repo_recorded; [exact H6|done|].
    assert (st_step (w_st w) (w_st w5)) as [Hs _] by (do 3 (etrans; [eassumption|]); done).
    by apply Hs.
Qed.

(** Creating a journal entry records it.  When CreateJournalEntry succeeds,
    the entry it returns is the request's, as a draft with at least two lines
    and an allocated number, and the tables hold exactly that header and those
    lines, amounts rounded to the column; the returned lines are the request's
    with missing ids filled in. *)
Theorem create_journal_recorded (je je' : JournalEntry) (w w' : World St) :
  Ledger.CreateJournalEntry je w = (Ok je', w') -> rely st_step w -> inv (st_db (w_st w)) ->
  (exists id number ls, je' = Ledger.draft_entry je id number ls /\ Forall2 same_line (je_Lines je) ls)
  /\ (2 <= length (je_Lines je'))%nat /\ recorded je' (st_db (w_st w')).
Proof. apply CreateJournalEntry_recorded. Qed.

(** ** Voiding *)

(** A status update that succeeded left that status. *)
Lemma UpdateJournalStatus_Ok t id st by_ now w w' :
  LedgerPostgres.UpdateJournalStatus t id st by_ now w = (Ok tt, w') ->
  w_other w' = w_other w
  /\ exists e, journal_entries (st_db (w_st w')) !! id = Some e /\ er_Status e = st.
Proof.
  unfold LedgerPostgres.UpdateJournalStatus. intros H.
  case_decide; [apply bind_Ok in H as (now' & w6 & H6 & H); injection H6 as _ <-|
    case_decide; [|done]];
    apply bind_Ok in H as (x & w7 & H7 & H); injection H as <-;
    apply map_err_Ok, tx_Ok in H7 as [H7 Ho]; (split; [exact Ho|]); revert H7;
    unfold LedgerQueries.PostJournalEntry, LedgerQueries.VoidJournalEntry;
    destruct (LedgerQueries.GetJournalEntry _ _ _) as [e|]; [|done| |done];
    case_decide; [|done| |done]; intros [= _ <-]; simpl; rewrite lookup_insert_eq;
    eexists; (split; [reflexivity|]); by symmetry.
Qed.

(** A posting that succeeded: the entry is past draft from then on. *)
Lemma PostJournalEntry_Ok sv t id by_ w je w' :
  Ledger.PostJournalEntry sv t id by_ w = (Ok je, w') -> rely st_step w -> inv (st_db (w_st w)) ->
  je_ID je = id
  /\ exists e, journal_entries (st_db (w_st w')) !! id = Some e /\ er_Status e <> "draft".
Proof.
  intros H HR Hinv. unfold Ledger.PostJournalEntry in H.
  apply bind_Ok in H as (je0 & w1 & H1 & H). apply wrap_Ok in H1.
  pose proof H1 as Hget. apply GetJournalEntry_Ok in Hget
    as (e & s1 & ls & He & Ht & [Hs1 _] & _ & _ & Hje); [|done].
  apply (steps_run (R:=st_step)) in H1 as [Hs01 HR1]; [|ledger_steps|done].
  case_decide; [done|]. case_decide; [done|].
  apply bind_Ok in H as (p & w2 & H2 & H).
  apply (steps_run (R:=st_step)) in H2 as [_ HR2]; [|ledger_steps|done].
  case_decide; [done|]. apply bind_Ok in H as ([] & w3 & H3 & H). apply lift_Ok in H3 as [_ ->].
  apply bind_Ok in H as (now & w4 & H4 & H). injection H4 as <- <-.
  apply bind_Ok in H as ([] & w5 & H5 & H). apply wrap_Ok in H5.
  assert (HR5 : rely st_step w5 /\ exists e', journal_entries (st_db (w_st w5)) !! id = Some e'
            /\ er_Status e' = "posted").
  { apply UpdateJournalStatus_Ok in H5 as (Ho & e' & He' & Hst). split; [|eauto].
    intros k st. rewrite Ho. apply HR2. }
  destruct HR5 as (HR5 & e' & He' & Hst).
  apply bind_Ok in H as ([] & w6 & H6 & H). injection H as <- <-.
  apply (steps_run (R:=st_step)) in H6 as [[Hs6 _] _]; [|ledger_steps|done].
  split.
  - rewrite Hje. simpl. apply (inv_key (st_db s1)); [by apply Hs1|done].
  - destruct (ls_entries _ _ Hs6 _ _ He') as (e6 & He6 & Hle). exists e6. split; [done|].
    apply (entry_le_past_draft e'); rewrite ?Hst; [done|done|by exists 1%nat].
Qed.

(** The rows of one account among an entry's lines. *)
Definition account_lines (d : DB) (id a : uuid) : list LineRow :=
  List.filter (fun l => bool_decide (lr_AccountID l = a)) (entry_lines (journal_lines d) id).

(** Two rows on the same account with debit and credit exchanged. *)
Definition mirror (r r' : LineRow) : Prop :=
  lr_AccountID r' = lr_AccountID r /\ lr_DebitAmount r' = lr_CreditAmount r
  /\ lr_CreditAmount r' = lr_DebitAmount r.

Lemma mirror_totals rs rs' (p : uuid -> bool) :
  Forall2 mirror rs rs' ->
  debit_total (List.filter (fun l => p (lr_AccountID l)) rs')
    = credit_total (List.filter (fun l => p (lr_AccountID l)) rs)
  /\ credit_total (List.filter (fun l => p (lr_AccountID l)) rs')
    = debit_total (List.filter (fun l => p (lr_AccountID l)) rs).
Proof.
  unfold debit_total, credit_total.
  induction 1 as [|r r' rs rs' (Ha & Hd & Hc) _ [IH1 IH2]]; [done|]. simpl. rewrite Ha.
  destruct (p (lr_AccountID r)); [|done]. by rewrite !fmap_cons, !qsum_cons, IH1, IH2, Hd, Hc.
Qed.

(** The reversal's stored rows mirror the rows the original had. *)
Lemma reversal_mirrors jid rows ls ls' rs :
  Forall line_ok rows ->
  Forall2 (fun l l' => exists i, l' = Ledger.reverse_line i l)
    (LedgerPostgres.journalLineFromDB <$> rows) ls ->
  Forall2 same_line ls ls' ->
  Forall2 (stored jid) ls' rs -> Forall2 mirror rows rs.
Proof.
  intros Hok. revert ls ls' rs.
  induction Hok as [|r rows (_ & Hd & Hc) _ IH]; intros ls ls' rs H1 H2 H3.
  { inversion H1; subst. inversion H2; subst. by inversion H3. }
  inversion H1 as [|? l1 ? ? [i ->]]; subst. inversion H2 as [|? l2 ? ? [j [-> _]]]; subst.
  inversion H3 as [|? r' ? ? (_ & _ & Ha & Hd' & Hc' & _)]; subst. simpl in *.
  constructor; [|by eapply IH]. split_and!; [done|congruence..].
Qed.

Lemma reverse_Ok (i : nat) (l : JournalLine) (w : World St) l' w' :
  (lid ← uuid_new; mret (Ledger.reverse_line lid l) : M St (error LErr) JournalLine) w = (Ok l', w') ->
  exists j, l' = Ledger.reverse_line j l.
Proof. intros H. apply bind_Ok in H as (j & w1 & _ & H). injection H as <- _. by exists j. Qed.

(** What a void that succeeded went through: the original read posted ([d1])
    with its lines ([d2]), the reversal recorded ([d3]) and posted, the original
    marked. *)
Record void_run (t id : uuid) (rev : JournalEntry) (d' : DB) (d1 d2 d3 : DB) (e : EntryRow)
    (rows : list LineRow) (je' : JournalEntry) : Prop := {
  vr_entry : journal_entries d1 !! id = Some e;
  vr_owner : er_TenantID e = t;
  vr_posted : er_Status e = "posted";
  vr_inv : inv d1;
  vr_step12 : ledger_step d1 d2;
  vr_step23 : ledger_step d2 d3;
  vr_step3 : ledger_step d3 d';
  vr_rows : LedgerQueries.ListJournalLines t (er_ID e) d2 = Ok rows;
  vr_reversed : exists ls,
    Forall2 (fun l l' => exists j, l' = Ledger.reverse_line j l)
      (LedgerPostgres.journalLineFromDB <$> rows) ls
    /\ Forall2 same_line ls (je_Lines je');
  vr_recorded : recorded je' d3;
  vr_draft : je_Status je' = "draft";
  vr_reference : je_Reference je' = er_EntryNumber e;
  vr_id : je_ID rev = je_ID je';
  vr_reversal : exists er, journal_entries d' !! je_ID je' = Some er /\ er_Status er <> "draft";
  vr_void : exists eo, journal_entries d' !! id = Some eo /\ er_Status eo = "void";
}.

Lemma VoidJournalEntry_Ok s t id by_ rev w w' :
  Ledger.VoidJournalEntry s t id by_ w = (Ok rev, w') -> rely st_step w -> inv (st_db (w_st w)) ->
  exists d1 d2 d3 e rows je', void_run t id rev (st_db (w_st w')) d1 d2 d3 e rows je'.
Proof.
  intros H HR Hinv. unfold Ledger.VoidJournalEntry in H.
  apply bind_Ok in H as (original & w1 & H1 & H). apply wrap_Ok in H1.
  pose proof H1 as Hget. apply GetJournalEntry_Ok in Hget
    as (e & s1 & rows & He & Ht & [Hs1 _] & [Hs1' _] & Hrows & ->); [|done].
  apply (steps_run (R:=st_step)) in H1 as [[Hs01 _] HR1]; [|ledger_steps|done].
  case_decide as Hv; [done|]. destruct (negb _) eqn:Hpost; [done|]. bool_hyps.
  apply bind_Ok in H as (ls & w2 & H2 & H).
  pose proof (mapM_i_Ok _ _ _ _ _ _ _ reverse_Ok H2) as Hls.
  apply (steps_run (R:=st_step)) in H2 as [[Hs2 _] HR2]; [|ledger_steps|done].
  assert (Hi2 : inv (st_db (w_st w2))) by (by apply Hs2, Hs01).
  apply bind_Ok in H as (je' & w3 & H3 & H). apply wrap_Ok in H3.
  destruct (CreateJournalEntry_recorded _ _ _ _ H3 HR2 Hi2)
    as ((jid & number & ls' & Hje' & Hsame) & _ & Hrec).
  apply (steps_run (R:=st_step)) in H3 as [[Hs3 _] HR3]; [|apply steps_CreateJournalEntry|done].
  apply bind_Ok in H as (rev' & w4 & H4 & H). apply wrap_Ok in H4.
  destruct (PostJournalEntry_Ok _ _ _ _ _ _ _ H4 HR3) as (Hid & er & Her & Hnd); [by apply Hs3|].
  apply (steps_run (R:=st_step)) in H4 as [[Hs4 _] HR4]; [|apply steps_PostJournalEntry|done].
  apply bind_Ok in H as (now & w5 & H5 & H). injection H5 as _ <-.
  apply bind_Ok in H as ([] & w6 & H6 & H). injection H as <- <-. apply wrap_Ok in H6.
  pose proof (UpdateJournalStatus_Ok _ _ _ _ _ _ _ H6) as (_ & eo & Heo & Hst).
  apply (steps_run (R:=st_step)) in H6 as [[Hs6 _] _]; [|ledger_steps; done|exact HR4].
  destruct (ls_entries _ _ Hs6 _ _ Her) as (er' & Her' & Hle).
  exists (st_db s1), (st_db (w_st w1)), (st_db (w_st w3)), e, rows, je'. split; try done.
  - by apply Hs1.
  - by etrans.
  - by etrans.
  - exists ls. split; [exact Hls|]. rewrite Hje'. exact Hsame.
  - by rewrite Hje'.
  - by rewrite Hje'.
  - exists er'. split; [done|]. apply (entry_le_past_draft er); [done..|].
    apply (inv_status (st_db (w_st w4))) with (je_ID je'); [|done]. by apply Hs4, Hs3.
  - by exists eo.
Qed.

(** C6: Voiding nets to zero.  When VoidJournalEntry succeeds, the original
    entry is void, and a second entry that refers to its number has been posted
    whose lines, on every account, debit exactly what the original credits and
    credit exactly what it debits. *)
Theorem void_nets_to_zero (s : Ledger.Service) (tenantID id voidedBy : uuid) (rev : JournalEntry)
    (w w' : World St) :
  Ledger.VoidJournalEntry s tenantID id voidedBy w = (Ok rev, w') ->
  rely st_step w -> inv (st_db (w_st w)) ->
  let d := st_db (w_st w') in
  exists eo er,
    journal_entries d !! id = Some eo /\ er_Status eo = "void"
    /\ journal_entries d !! je_ID rev = Some er /\ er_Status er <> "draft" /\ je_ID rev <> id
    /\ er_Reference er = pgTextFromString (er_EntryNumber eo)
    /\ forall a, debit_total (account_lines d (je_ID rev) a) = credit_total (account_lines d id a)
              /\ credit_total (account_lines d (je_ID rev) a) = debit_total (account_lines d id a).
Proof.
  intros H HR Hinv d.
  destruct (VoidJournalEntry_Ok _ _ _ _ _ _ _ H HR Hinv) as (d1 & d2 & d3 & e & rows & je' & V).
  destruct V as [He Ht Hp Hi1 H12 H23 H3 Hrows (ls & Hls & Hsame) [[now Hhd] (rs & Hrs & Hperm)]
    Hdraft Href Hid (er & Her & Hnd) (eo & Heo & Hvoid)].
  assert (Hkey : er_ID e = id) by (by apply (inv_key d1)). rewrite Hkey in Hrows.
  destruct (ls_entries _ _ H12 _ _ He) as (e2 & He2 & Hle2).
  destruct (ls_entries _ _ H23 _ _ He2) as (e3 & He3 & Hle3).
  destruct (ls_entries _ _ H3 _ _ He3) as (eo' & Heo' & Hle4).
  destruct (ls_entries _ _ H3 _ _ Hhd) as (er' & Her' & Hler).
  rewrite Hid. exists eo, er. split_and!; [done..| | |].
  - intros Heq. rewrite Heq, He3 in Hhd. injection Hhd as Hhd.
    apply (entry_le_past_draft e e3); [by etrans|by rewrite Hp|rewrite Hp; by exists 1%nat|].
    rewrite Hhd. exact Hdraft.
  - assert (er' = er) as -> by congruence. assert (eo' = eo) as -> by congruence.
    destruct Hler as (_&_&_&_&_&->&_). simpl. rewrite Href. f_equal.
    destruct Hle2 as (_&_&_&_&<-&_), Hle3 as (_&_&_&_&<-&_), Hle4 as (_&_&_&_&<-&_). done.
  - intros a. unfold account_lines.
    assert (Hp2 : rows ≡ₚ entry_lines (journal_lines d2) id).
    { eapply ListJournalLines_all; [exact He2| |exact Hrows]. rewrite <-Ht. apply Hle2. }
    assert (Hmir : Forall2 mirror rows rs).
    { eapply reversal_mirrors; [|done..]. apply Forall_forall. intros r Hr. rewrite Hp2 in Hr.
      apply select_elem in Hr as [[k Hk] _]. apply (inv_line d2) with k; [by apply H12|done]. }
    assert (H2d : ledger_step d2 d) by (by etrans).
    pose proof (mirror_totals rows rs (fun x => bool_decide (x = a)) Hmir) as [Hm1 Hm2].
    pose proof (step_lines _ _ _ _ H2d He2) as Hlo. rewrite <-Hp2 in Hlo.
    pose proof (step_lines _ _ _ _ H3 Hhd) as Hlr. rewrite Hperm in Hlr.
    pose proof (filter_Permutation (fun l => bool_decide (lr_AccountID l = a)) _ _ Hlo) as Fo.
    pose proof (filter_Permutation (fun l => bool_decide (lr_AccountID l = a)) _ _ Hlr) as Fr.
    by rewrite (debit_total_perm _ _ Fo), (credit_total_perm _ _ Fo),
      (debit_total_perm _ _ Fr), (credit_total_perm _ _ Fr).
Qed.

End journal.

(** ** Witnesses *)

Section witnesses.
#[local] Existing Instance ref_external.
Import Demo.

Lemma run_Ok {S E A} (m : M S E A) (w : World S) :
  is_ok (m w).1 = true -> exists a w', m w = (Ok a, w').
Proof. destruct (m w) as [[a|e] w']; [eauto|discriminate]. Qed.

(** The books before any entry: two accounts and an open period. *)
Definition opened : World (@St ref_external) := run 7 (take 3 setup) (world LedgerPostgres.empty_st).

Lemma opened_ok : rely st_step opened /\ inv (st_db (w_st opened)).
Proof.
  destruct (run_reachable 7 (take 3 setup) (world LedgerPostgres.empty_st) (reach_empty _)
    (fun n s => eq_refl)) as [Hr Ho].
  split; [exact (alone_rely opened Ho)|exact (reachable_inv handler (w_st opened) Hr)].
Qed.

Definition rent_draft : JournalEntry :=
  mkEntry uuid_nil 7 None 102 "" "" "rent" ""
    [mkLine uuid_nil uuid_nil 101 250000 0 "USD" "" None;
     mkLine uuid_nil uuid_nil 100 0 250000 "USD" "" None] None None zero_time.

Lemma create_journal_recorded_witness :
  exists je' w', Ledger.CreateJournalEntry rent_draft opened = (Ok je', w')
    /\ (2 <= length (je_Lines je'))%nat /\ recorded je' (st_db (w_st w')).
Proof.
  destruct (run_Ok (Ledger.CreateJournalEntry rent_draft) opened) as (je' & w' & H);
    [vm_compute; reflexivity|].
  exists je', w'. split; [exact H|].
  exact (proj2 (create_journal_recorded rent_draft je' opened w' H (proj1 opened_ok) (proj2 opened_ok))).
Defined.

Lemma void_nets_to_zero_witness :
  exists rev w', Ledger.VoidJournalEntry (Ledger.mkService true) 7 105 9 posted = (Ok rev, w')
    /\ debit_total (account_lines (st_db (w_st w')) (je_ID rev) 100)
       = credit_total (account_lines (st_db (w_st w')) 105 100).
Proof.
  destruct (run_Ok (Ledger.VoidJournalEntry (Ledger.mkService true) 7 105 9) posted) as (rev & w' & H);
    [vm_compute; reflexivity|].
  exists rev, w'. split; [exact H|].
  destruct (void_nets_to_zero (Ledger.mkService true) 7 105 9 rev posted w' H
    (alone_rely posted (proj2 posted_reachable)) (reachable_inv handler (w_st posted) (proj1 posted_reachable)))
    as (eo & er & _ & _ & _ & _ & _ & _ & Ha).
  exact (proj1 (Ha 100%N)).
Defined.

End witnesses.
