(* ===== verification/LedgerReports.v ===== *)
(** General ledger: the reports.  The monthly cost report has one row per
    month of the range whose amounts are the sums of the posted expense lines
    of that month; the trial balance; how the reports treat a voided entry; account
    codes, entry numbers, the errors a caller sees and party validation. *)

From S2P Require Export LedgerJournal.
From S2P Require LedgerQueries LedgerPostgres Ledger LedgerHandler.
Import LedgerPostgres(St, mkSt, st_db, st_published).
Local Open Scope Z_scope.

(** ** Grouping *)

Section grouping.
Context {X : External} {L : ExternalLaws} {K : Type} `{EqDecision K}.

(** The sum of the amounts whose key satisfies [p]. *)
Definition sum_where (p : K -> bool) (ls : list (K * Dec)) : Qc :=
  qsum (dec_val <$> (List.filter (fun x => p x.1) ls).*2).

Lemma sum_where_cons p x ls :
  sum_where p (x :: ls) = ((if p x.1 then dec_val x.2 else 0) + sum_where p ls)%Qc.
Proof.
  unfold sum_where. simpl. destruct (p x.1); [by rewrite !fmap_cons, qsum_cons|].
  by rewrite Qcplus_0_l.
Qed.

Lemma sum_where_ext p q ls : (forall x, x ∈ ls -> p x.1 = q x.1) -> sum_where p ls = sum_where q ls.
Proof.
  induction ls as [|x ls IH]; intros H; [done|]. rewrite !sum_where_cons, (H x), IH; [done|..].
  - intros y Hy. apply H. by right.
  - by left.
Qed.

(** [GROUP BY]: the groups' sums add up to the sum of their members. *)
Lemma group_sum p (ls : list (K * Dec)) keys :
  NoDup keys ->
  sum_where p ((fun k => (k, LedgerQueries.dec_sum (List.filter (fun x => bool_decide (x.1 = k)) ls).*2)) <$> keys)
  = sum_where (fun k => p k && bool_decide (k ∈ keys)) ls.
Proof.
  induction 1 as [|k keys Hk _ IH].
  { rewrite (sum_where_ext (fun k => p k && bool_decide (k ∈ [])) (fun _ => false) ls)
      by (intros; apply andb_false_r).
    induction ls as [|x ls IH]; [done|]. by rewrite sum_where_cons, <-IH, Qcplus_0_l. }
  rewrite fmap_cons, sum_where_cons, IH. clear IH. unfold LedgerQueries.dec_sum. simpl.
  rewrite foldr_dec_add. fold (sum_where (fun k' => bool_decide (k' = k)) ls).
  induction ls as [|x ls IHl]; [by destruct (p k)|]. rewrite !sum_where_cons, <-IHl.
  destruct (decide (x.1 = k)) as [->|Hne].
  - rewrite bool_decide_true by done. rewrite (bool_decide_false (k ∈ keys)) by done.
    rewrite (bool_decide_true (k ∈ k :: keys)) by (by left).
    rewrite andb_false_r, andb_true_r. destruct (p k); ring.
  - rewrite (bool_decide_false (x.1 = k)) by done.
    rewrite (bool_decide_ext (x.1 ∈ k :: keys) (x.1 ∈ keys)) 
      by (rewrite elem_of_cons; split; [intros []; done|by right]).
    destruct (p k), (p x.1 && bool_decide (x.1 ∈ keys)); ring.
Qed.

End grouping.

Section reports.
Context {X : External} {L : ExternalLaws}.

(** ** The fold of the cost report *)

(** The sum of the rows of [xs] for a month whose behaviour satisfies [q]. *)
Definition cost_sum (m : string) (q : string -> bool) (xs : list (string * string * Dec)) : Qc :=
  sum_where (fun k => bool_decide (k.1 = m) && q k.2) xs.

Definition is_fixed (b : string) : bool := bool_decide (b = "fixed").
Definition is_variable (b : string) : bool := bool_decide (b = "variable").
Definition is_other (b : string) : bool := negb (is_fixed b) && negb (is_variable b).

(** A row holds the sums of its month's rows, split by behaviour. *)
Definition row_sums (xs : list (string * string * Dec)) (r : MonthlyCostBehaviorRow) : Prop :=
  dec_val (mc_Fixed r) = cost_sum (mc_Month r) is_fixed xs
  /\ dec_val (mc_Variable r) = cost_sum (mc_Month r) is_variable xs
  /\ dec_val (mc_Unclassified r) = cost_sum (mc_Month r) is_other xs
  /\ dec_val (mc_Total r) = cost_sum (mc_Month r) (fun _ => true) xs.

Lemma cost_sum_snoc m q xs x :
  cost_sum m q (xs ++ [x])
  = (cost_sum m q xs + if bool_decide (x.1.1 = m) && q x.1.2 then dec_val x.2 else 0)%Qc.
Proof.
  unfold cost_sum. induction xs as [|y xs IH]; simpl.
  - rewrite sum_where_cons. unfold sum_where; simpl. ring.
  - rewrite !sum_where_cons, IH. ring.
Qed.

Lemma add_cost_sums xs x r :
  row_sums xs r -> mc_Month r = x.1.1 ->
  row_sums (xs ++ [x]) (LedgerPostgres.add_cost x.1.2 x.2 r).
Proof.
  intros (Hf & Hv & Hu & Ht) Hm. unfold row_sums. rewrite !cost_sum_snoc. simpl.
  rewrite (bool_decide_true (x.1.1 = mc_Month r)) by done.
  unfold is_other, is_fixed, is_variable in *. simpl.
  destruct (decide (x.1.2 = "fixed")) as [->|Hnf].
  - rewrite decide_False by done. rewrite decide_True by auto. simpl.
    rewrite Hv, Hu, !dec_val_add, Hf, Ht. split_and!; ring.
  - destruct (decide (x.1.2 = "variable")) as [->|Hnv].
    + rewrite decide_True by auto. simpl. rewrite Hf, Hu, !dec_val_add, Hv, Ht. split_and!; ring.
    + rewrite decide_False by (intros []; done). rewrite !bool_decide_false by done. simpl.
      rewrite Hf, Hv, !dec_val_add, Hu, Ht. split_and!; ring.
Qed.

Lemma other_month_sums xs x r :
  row_sums xs r -> mc_Month r <> x.1.1 -> row_sums (xs ++ [x]) r.
Proof.
  intros (Hf & Hv & Hu & Ht) Hm. unfold row_sums. rewrite !cost_sum_snoc.
  rewrite (bool_decide_false (x.1.1 = mc_Month r)) by congruence. simpl.
  rewrite Hf, Hv, Hu, Ht. split_and!; ring.
Qed.

(** The rows built so far: one per month seen, holding its sums. *)
Definition cost_rows (xs : list (string * string * Dec)) (out : list MonthlyCostBehaviorRow) : Prop :=
  Forall (row_sums xs) out /\ (forall x, x ∈ xs -> x.1.1 ∈ mc_Month <$> out).

Lemma scan_cost_rows xs out x :
  (forall r, r ∈ out -> row_sums xs r) -> (x.1.1 ∉ mc_Month <$> out -> row_sums xs (LedgerPostgres.zero_month x.1.1)) ->
  NoDup (mc_Month <$> out) ->
  Forall (row_sums (xs ++ [x])) (LedgerPostgres.scan_cost out x)
  /\ (mc_Month <$> LedgerPostgres.scan_cost out x
      = if decide (x.1.1 ∈ mc_Month <$> out) then mc_Month <$> out else (mc_Month <$> out) ++ [x.1.1]).
Proof.
  induction out as [|r out IH]; intros Hr Hz Hnd; cbn [LedgerPostgres.scan_cost].
  { split; [|done]. constructor; [|constructor].
    apply add_cost_sums; [|done]. apply Hz, not_elem_of_nil. }
  rewrite fmap_cons in *. apply NoDup_cons in Hnd as [Hr1 Hnd].
  destruct (decide (mc_Month r = x.1.1)) as [Hm|Hm].
  - split; [|rewrite fmap_cons; destruct (decide (x.1.1 ∈ mc_Month r :: (mc_Month <$> out))) as [Hd|Hd]; [reflexivity|destruct Hd; rewrite Hm; by left]].
    constructor; [apply add_cost_sums; [apply Hr; by left|done]|].
    apply Forall_forall. intros r' Hr'. apply other_month_sums; [apply Hr; by right|].
    intros Heq. apply Hr1. rewrite Hm, <-Heq. by apply list_elem_of_fmap_2.
  - destruct IH as [IH1 IH2]; [intros r' H'; apply Hr; by right| |done|].
    { intros Hn. apply Hz. intros [|]%elem_of_cons; [congruence|done]. }
    split; [constructor; [apply other_month_sums; [apply Hr; by left|done]|done]|].
    rewrite fmap_cons, IH2.
    destruct (decide (x.1.1 ∈ mc_Month <$> out)) as [Hd|Hd].
    + case_decide as Hd'; [done|]. destruct Hd'. by right.
    + case_decide as Hd'; [|done]. apply elem_of_cons in Hd' as []; congruence.
Qed.

Lemma missing_month_sums xs m :
  m ∉ xs.*1.*1 -> row_sums xs (LedgerPostgres.zero_month m).
Proof.
  intros Hm. unfold row_sums; simpl. rewrite dec_val_zero.
  assert (Hz : forall q, cost_sum m q xs = 0%Qc).
  { intros q. unfold cost_sum. rewrite (sum_where_ext _ (fun _ => false)).
    - induction xs as [|x xs IH]; [done|]. rewrite sum_where_cons, IH; [ring|].
      intros Hx. apply Hm. by right.
    - intros x Hx. rewrite bool_decide_false; [done|]. intros <-. apply Hm.
      by do 2 apply list_elem_of_fmap_2. }
  by rewrite !Hz.
Qed.

Lemma foldl_scan_cost xs :
  let out := foldl LedgerPostgres.scan_cost [] xs in
  Forall (row_sums xs) out /\ NoDup (mc_Month <$> out)
  /\ forall m, m ∈ xs.*1.*1 <-> m ∈ mc_Month <$> out.
Proof.
  induction xs as [|x xs IH] using rev_ind; [split_and!; [done|constructor|done]|].
  cbv zeta in *. rewrite foldl_app. simpl. destruct IH as (Hs & Hnd & Hm).
  destruct (scan_cost_rows xs (foldl LedgerPostgres.scan_cost [] xs) x) as [H1 H2];
    [by apply Forall_forall| |done|].
  { rewrite <-Hm. apply missing_month_sums. }
  split_and!; [done|rewrite H2|intros m; rewrite H2, !fmap_app, elem_of_app, Hm]; simpl;
    case_decide as Hin; rewrite ?elem_of_app, ?list_elem_of_singleton; simpl.
  - done.
  - apply NoDup_app. split_and!; [done| |apply NoDup_singleton].
    intros m Hm1 ->%list_elem_of_singleton. done.
  - split; [intros [| ->]; done|by left].
  - done.
Qed.

(** ** The filling loop *)

Lemma by_month_lookup out key :
  match Ledger.by_month out !! key with
  | Some r => r ∈ out /\ mc_Month r = key
  | None => key ∉ mc_Month <$> out
  end.
Proof.
  unfold Ledger.by_month. induction out as [|r out IH] using rev_ind.
  { simpl. rewrite lookup_empty. apply not_elem_of_nil. }
  rewrite foldl_app. simpl. rewrite lookup_insert. case_decide as Hk.
  - split; [|done]. apply elem_of_app. right. by apply list_elem_of_singleton.
  - destruct (foldl _ _ _ !! key) as [r'|].
    + destruct IH as [Hin Hm]. split; [|done]. apply elem_of_app. by left.
    + rewrite fmap_app. intros [|]%elem_of_app; [done|]. simpl in *.
      match goal with H : key ∈ [_] |- _ => apply list_elem_of_singleton in H end. congruence.
Qed.

(** The months from index [i], [n] of them. *)
Definition months_from (i : Z) (n : nat) : list string :=
  (fun k => format_month (of_month_index (i + Z.of_nat k))) <$> seq 0 n.

Lemma fill_months_spec fuel by_ (P : MonthlyCostBehaviorRow -> Prop) m to :
  1 <= m.2 <= 12 -> month_index to - month_index m + 1 <= Z.of_nat fuel ->
  (forall key, match by_ !! key with Some r => mc_Month r = key /\ P r
               | None => P (LedgerPostgres.zero_month key) end) ->
  (mc_Month <$> Ledger.fill_months fuel by_ m to)
    = months_from (month_index m) (Z.to_nat (month_index to - month_index m + 1))
  /\ Forall P (Ledger.fill_months fuel by_ m to).
Proof.
  intros Hm Hf Hby. revert m Hm Hf. induction fuel as [|fuel IH]; intros m Hm Hf; simpl.
  { replace (Z.to_nat _) with 0%nat by lia. by split. }
  case_decide as Hto.
  { replace (Z.to_nat _) with 0%nat by lia. by split. }
  destruct (IH (next_month m)) as [H1 H2]; [apply of_month_index_range|
    unfold next_month; rewrite index_of_month; lia|].
  specialize (Hby (format_month m)). unfold next_month in H1. rewrite index_of_month in H1.
  replace (Z.to_nat (month_index to - month_index m + 1))
    with (S (Z.to_nat (month_index to - (month_index m + 1) + 1))) by lia.
  split.
  - rewrite fmap_cons. unfold next_month. rewrite H1. unfold months_from. rewrite <-cons_seq, fmap_cons.
    f_equal; [|rewrite <-fmap_S_seq, <-list_fmap_compose; apply list_fmap_ext; intros; simpl;
      do 2 f_equal; lia].
    rewrite Z.add_0_r, month_of_index by done.
    destruct (by_ !! format_month m); simpl; [apply Hby|done].
  - constructor; [|done]. destruct (by_ !! format_month m); simpl; [apply Hby|done].
Qed.

Lemma month_range_Ok a b from to :
  Ledger.month_range a b = Ok (from, to) ->
  parse_month a = Some from /\ parse_month b = Some to
  /\ month_index from <= month_index to < month_index from + Ledger.max_months.
Proof.
  unfold Ledger.month_range, month_index. intros H.
  repeat (case_match; simplify_eq; try done). split_and!; (done || lia).
Qed.

(** The expense lines the report is about: the posted lines of the tenant's
    expense accounts in the range, with month and behaviour. *)
Definition cost_lines (tenantID : uuid) (a b : string) (d : DB) : list (string * string * Dec) :=
  omap (LedgerQueries.cost_line tenantID a b d) (rows (journal_lines d)).

(** Grouping the lines does not change a month's sums. *)
Lemma report_row_lines t a b d xs r :
  LedgerQueries.MonthlyCostBehavior t a b d = Ok xs -> row_sums xs r -> row_sums (cost_lines t a b d) r.
Proof.
  unfold LedgerQueries.MonthlyCostBehavior. intros [= <-].
  fold (cost_lines t a b d). set (ls := cost_lines t a b d).
  assert (Hsum : forall m q, cost_sum m q (order_by (fun a b => text_le a.1.1 b.1.1)
    ((fun k => (k, LedgerQueries.dec_sum (List.filter (fun x => bool_decide (x.1 = k)) ls).*2))
       <$> remove_dups ls.*1)) = cost_sum m q ls).
  { intros m q. unfold cost_sum at 1, sum_where.
    rewrite (filter_Permutation _ _ _ (order_by_perm _ _)).
    fold (sum_where (K:=string*string) (fun k => bool_decide (k.1 = m) && q k.2)
      ((fun k => (k, LedgerQueries.dec_sum (List.filter (fun x => bool_decide (x.1 = k)) ls).*2))
         <$> remove_dups ls.*1)).
    rewrite group_sum by apply NoDup_remove_dups. unfold cost_sum. apply sum_where_ext.
    intros x Hx. rewrite (bool_decide_true (x.1 ∈ _)); [by rewrite andb_true_r|].
    apply elem_of_remove_dups. by apply list_elem_of_fmap_2. }
  unfold row_sums. by rewrite !Hsum.
Qed.

(** C7: The monthly cost report is complete and exact.  When
    GetMonthlyCostBehavior succeeds it returns one row for each month of the
    range, in order and none missing, at most 36; and a row's fixed, variable,
    unclassified and total amounts are the sums of debit minus credit over the
    posted expense lines of that month with that behaviour. *)
Theorem monthly_report_exact (tenantID : uuid) (a b : string) (out : list MonthlyCostBehaviorRow)
    (w w' : World St) :
  Ledger.GetMonthlyCostBehavior tenantID a b w = (Ok out, w') -> rely st_step w ->
  exists from to,
    parse_month a = Some from /\ parse_month b = Some to /\ (length out <= 36)%nat
    /\ mc_Month <$> out = months_from (month_index from) (Z.to_nat (month_index to - month_index from + 1))
    /\ Forall (row_sums (cost_lines tenantID a b (st_db (w_st w')))) out.
Proof.
  intros H HR. unfold Ledger.GetMonthlyCostBehavior in H.
  apply bind_Ok in H as ([from to] & w1 & H1 & H). apply lift_Ok in H1 as [H1 ->].
  apply month_range_Ok in H1 as (Ha & Hb & Hr).
  apply bind_Ok in H as (rs & w2 & H2 & H). apply ret_Ok in H as [-> ->]. apply wrap_Ok in H2.
  unfold LedgerPostgres.GetMonthlyCostBehavior in H2.
  apply bind_Ok in H2 as (xs & w3 & H3 & H2). apply ret_Ok in H2 as [-> ->].
  apply map_err_Ok, query_Ok in H3 as [_ H3]; [|done].
  destruct (foldl_scan_cost xs) as (Hs & Hnd & Hm). rewrite Forall_forall in Hs.
  destruct (fill_months_spec (Z.to_nat Ledger.max_months)
    (Ledger.by_month (foldl LedgerPostgres.scan_cost [] xs)) (row_sums xs) from to)
    as [Hlist Hall].
  - by eapply parse_month_range.
  - unfold Ledger.max_months in *. lia.
  - intros key. pose proof (by_month_lookup (foldl LedgerPostgres.scan_cost [] xs) key) as Hk.
    destruct (Ledger.by_month _ !! key); [split; [apply Hk|apply Hs, Hk]|].
    apply missing_month_sums. by rewrite Hm.
  - exists from, to. cbn [fst snd]. split; [exact Ha|]. split; [exact Hb|]. split; [|split; [exact Hlist|]].
    + rewrite <-(length_fmap mc_Month), Hlist. unfold months_from. rewrite length_fmap, length_seq.
      unfold Ledger.max_months in *. lia.
    + eapply Forall_impl; [exact Hall|]. intros r. by apply report_row_lines.
Qed.

(** ** The trial balance *)

(** The lines of an account, whatever entry they belong to. *)
Definition lines_of_account (d : DB) (a : uuid) : list LineRow :=
  select (fun l => bool_decide (lr_AccountID l = a)) (journal_lines d).

Lemma trial_join_lines asOf d a : (LedgerQueries.trial_join asOf d a).*1 = lines_of_account d (ar_ID a).
Proof. unfold LedgerQueries.trial_join. rewrite <-list_fmap_compose. apply list_fmap_id. Qed.

(** The trial balance sums every line.  Its debit and credit for an active
    account are the totals over all the lines on the account: neither the
    status of the entries, draft and void ones included, nor the date asked
    for, changes the result. *)
Theorem trial_balance_all_lines (tenantID : uuid) (asOf : Time) (d : DB) (asOf' : Time)
    (es : gmap uuid EntryRow) :
  LedgerQueries.TrialBalance tenantID asOf d = LedgerQueries.TrialBalance tenantID asOf' (set_entries es d)
  /\ exists rs, LedgerQueries.TrialBalance tenantID asOf d = Ok rs
     /\ Forall (fun x => dec_val x.1.2 = debit_total (lines_of_account d (ar_ID x.1.1))
                      /\ dec_val x.2 = credit_total (lines_of_account d (ar_ID x.1.1))) rs.
Proof.
  assert (Hrow : forall asOf0 d0 (f : LineRow -> Dec) a,
    LedgerQueries.dec_sum ((fun p => f p.1) <$> LedgerQueries.trial_join asOf0 d0 a)
    = LedgerQueries.dec_sum (f <$> lines_of_account d0 (ar_ID a))).
  { intros asOf0 d0 f a. rewrite <-(trial_join_lines asOf0), <-list_fmap_compose. done. }
  split; unfold LedgerQueries.TrialBalance.
  - f_equal. apply list_fmap_ext. intros _ a _. by rewrite !Hrow.
  - eexists. split; [reflexivity|]. apply Forall_fmap, Forall_forall. intros a _. simpl.
    rewrite !Hrow. unfold LedgerQueries.dec_sum. by rewrite !foldr_dec_add.
Qed.

End reports.

(** ** The reports and voided entries *)

Section voided.
#[local] Existing Instance ref_external.
Import Demo.

(** The books with the rent posted, and with it voided. *)
Definition voided : World (@St ref_external) :=
  (Ledger.VoidJournalEntry (Ledger.mkService true) 7 105 9 posted).2.

(** The totals of the cost report for November 2023. *)
Definition november (w : World (@St ref_external)) : list (@Dec ref_external) :=
  match (Ledger.GetMonthlyCostBehavior 7 "2023-11" "2023-11" w).1 with
  | Ok rows => mc_Total <$> rows
  | Err _ => []
  end.

(** The cost report counts a voided entry twice over.  Posting a rent of
    250 makes the month's cost 250; voiding it makes the cost -250 instead of
    0, because the original, now void, is left out of the report while its
    reversal, which is posted, is counted. *)
Theorem void_counted_twice :
  is_ok (Ledger.VoidJournalEntry (Ledger.mkService true) 7 105 9 posted).1 = true
  /\ november drafted = [0 : Z] /\ november posted = [250000 : Z] /\ november voided = [-250000 : Z].
Proof. split_and!; vm_compute; reflexivity. Qed.

Lemma monthly_report_exact_witness :
  exists out w', Ledger.GetMonthlyCostBehavior 7 "2023-10" "2024-01" posted = (Ok out, w')
    /\ mc_Month <$> out = ["2023-10"; "2023-11"; "2023-12"; "2024-01"].
Proof.
  destruct (run_Ok (Ledger.GetMonthlyCostBehavior 7 "2023-10" "2024-01") posted) as (out & w' & H);
    [vm_compute; reflexivity|].
  exists out, w'. split; [exact H|].
  destruct (monthly_report_exact 7 "2023-10" "2024-01" out posted w' H
    (alone_rely posted (proj2 posted_reachable))) as (from & to & Ha & Hb & _ & Hm & _).
  rewrite Hm. injection Ha as <-. injection Hb as <-. vm_compute. reflexivity.
Defined.

End voided.

(** General ledger: account codes, entry numbers and the errors callers see. *)

Import LedgerPostgres(St, mkSt, st_db, st_published).
Local Open Scope Z_scope.

Section accounts.
Context {X : External}.

(** ** Bank codes *)

Lemma foldr_max_ge l n : n ∈ l -> n <= foldr Z.max 0 l.
Proof.
  induction l as [|x l IH]; [by intros ?%not_elem_of_nil|].
  intros [->|Hn]%elem_of_cons; simpl; [lia|]. specialize (IH Hn). lia.
Qed.

(** The codes from 1000 to 1999 are read back from their numerals. *)
Lemma bank_range_code_Itoa n :
  1000 <= n <= 1999 -> LedgerQueries.bank_range_code (Itoa n) = Some n.
Proof.
  intros Hn.
  assert (Hall : forallb (fun k => bool_decide (LedgerQueries.bank_range_code (Itoa (1000 + Z.of_nat k))
    = Some (1000 + Z.of_nat k))) (seq 0 1000) = true) by (vm_compute; reflexivity).
  rewrite forallb_forall in Hall. specialize (Hall (Z.to_nat (n - 1000))).
  rewrite bool_decide_eq_true in Hall. replace (1000 + Z.of_nat (Z.to_nat (n - 1000))) with n in Hall by lia.
  apply Hall, in_seq. lia.
Qed.

Lemma digit_val_le c : is_digit c = true -> (digit_val c <= 9)%N.
Proof. unfold is_digit, digit_val. intros H. bool_hyps. lia. Qed.

Lemma bank_range_code_range s n : LedgerQueries.bank_range_code s = Some n -> 1000 <= n <= 1999.
Proof.
  unfold LedgerQueries.bank_range_code. intros H.
  destruct s as [|c [|c1 [|c2 [|c3 [|c4 s]]]]]; try done; case_match; try done; bool_hyps; try done.
  subst c. simpl in *. bool_hyps.
  repeat match goal with Hd : is_digit ?x = true |- _ =>
    rewrite Hd in H; pose proof (digit_val_le x Hd); clear Hd end.
  change (digit_val "1") with 1%N in H. apply (inj Some) in H. subst n. lia.
Qed.

Lemma foldr_max_in l : foldr Z.max 0 l = 0 \/ foldr Z.max 0 l ∈ l.
Proof.
  induction l as [|x l IH]; [by left|]. simpl.
  destruct (Z.max_spec x (foldr Z.max 0 l)) as [[_ ->]|[_ ->]]; [|right; by left].
  destruct IH as [|]; [by left|right; by right].
Qed.

(** A bank code is in range and free.  The code chosen after reading the
    highest bank code of the tenant is the numeral of a number between 1000 and
    1999 that no account of the tenant has. *)
Theorem bank_code_free (tenantID : uuid) (d : DB) (highest : Z) (code : string) :
  LedgerQueries.NextBankAccountCode tenantID d = Ok highest ->
  Ledger.nextBankCode highest = Ok code ->
  (exists n, code = Itoa n /\ Ledger.bankCodeMin <= n <= Ledger.bankCodeMax)
  /\ forall id a, accounts d !! id = Some a -> ar_TenantID a = tenantID -> ar_Code a <> code.
Proof.
  unfold LedgerQueries.NextBankAccountCode, Ledger.nextBankCode. intros [= Hh] Hc.
  unfold Ledger.bankCodeMin, Ledger.bankCodeMax, Ledger.bankCodeStep in *.
  set (n := if decide (0 < highest) then highest + 10 else 1000) in Hc.
  case_decide as Hmax; simplify_eq.
  assert (Hge : forall x, x ∈ omap (fun a => LedgerQueries.bank_range_code (ar_Code a))
     (select (fun a => bool_decide (ar_TenantID a = tenantID)) (accounts d)) -> x < n).
  { intros x Hx%foldr_max_ge. subst n. case_decide; lia. }
  assert (Hn : 1000 <= n <= 1999).
  { split; [|lia]. subst n. case_decide; [|lia].
    destruct (foldr_max_in (omap (fun a => LedgerQueries.bank_range_code (ar_Code a))
      (select (fun a => bool_decide (ar_TenantID a = tenantID)) (accounts d)))) as [|Hin]; [lia|].
    apply list_elem_of_omap in Hin as (a & _ & Ha). apply bank_range_code_range in Ha. lia. }
  split; [by exists n|].
  intros id a Ha Ht Hcode.
  enough (n < n) by lia. apply Hge, list_elem_of_omap.
  exists a. split; [|by rewrite Hcode, bank_range_code_Itoa].
  apply select_elem. split; [by exists id|by apply bool_decide_eq_true].
Qed.

(** Only the last four digits of a bank account number count.  Two
    requests whose numbers are valid and end in the same four digits are
    carried out alike, whatever the other digits: nothing else of the number is
    stored, logged or returned. *)
Theorem account_number_not_kept (tenantID : uuid) (bankName currency n1 n2 : string) (w : World St) :
  let digits n := strip_separators n in
  let last4 n := slice_from (String.length (digits n) - 4) (digits n) in
  matches_digits4 (digits n1) = true -> matches_digits4 (digits n2) = true -> last4 n1 = last4 n2 ->
  Ledger.CreateBankAccount tenantID (mkBankInput bankName n1 currency) w
  = Ledger.CreateBankAccount tenantID (mkBankInput bankName n2 currency) w.
Proof.
  cbv zeta. intros H1 H2 H. unfold Ledger.CreateBankAccount.
  cbn [bi_BankName bi_AccountNumber bi_Currency]. rewrite H1, H2, H. reflexivity.
Qed.

(** ** Error codes *)

Lemma errors_Is_sentinel (e : error LErr) s : errors_Is e s = true <-> sentinel e = Some s.
Proof.
  induction e as [s'|t e IH|t]; simpl; [|done|done].
  rewrite bool_decide_eq_true. split; congruence.
Qed.

(** Every sentinel error has its own gRPC code: a caller sees Internal
    exactly when no sentinel is in the error's chain. *)
Theorem grpcErr_internal (e : error LErr) :
  st_code (LedgerHandler.grpcErr e) = Internal <-> sentinel e = None.
Proof.
  assert (Hno : sentinel e = None -> forall s, errors_Is e s = false).
  { intros Hn s. apply not_true_iff_false. rewrite errors_Is_sentinel. congruence. }
  split; [|intros Hn; unfold LedgerHandler.grpcErr; by rewrite !(Hno Hn)].
  destruct (sentinel e) as [s|] eqn:Hs; [|done]. intros Hi. exfalso. revert Hi.
  assert (Hall : forall s', errors_Is e s' = bool_decide (s = s')).
  { intros s'. apply Bool.eq_iff_eq_true. rewrite errors_Is_sentinel, bool_decide_eq_true, Hs.
    split; congruence. }
  unfold LedgerHandler.grpcErr. rewrite !Hall. clear. destruct s; vm_compute; discriminate.
Qed.

(** ** Duplicate account codes *)

(** The insert of a code the tenant already has returns no row. *)
Lemma CreateAccount_duplicate d r k a :
  LedgerQueries.accounts_check r = true -> accounts d !! k = Some a ->
  ar_TenantID a = ar_TenantID r -> ar_Code a = ar_Code r ->
  LedgerQueries.CreateAccount r d = Err PgNoRows.
Proof.
  intros Hc Ha Ht Hcode. unfold LedgerQueries.CreateAccount. rewrite Hc. simpl.
  assert (exists_row (fun a => bool_decide (ar_TenantID a = ar_TenantID r)
    && bool_decide (ar_Code a = ar_Code r)) (accounts d) = true) as ->; [|done].
  apply exists_row_true. exists k, a. split; [done|]. by rewrite !bool_decide_true.
Qed.

(** The repository reports it as an error no sentinel is in. *)
Definition dup_error : error LErr :=
  EWrap "ledger: create account: %w" (EText "no rows in result set").

Lemma repo_CreateAccount_duplicate a k r (w : World St) :
  quiet w -> Ledger.isValidAccountType (acc_AccountType a) = true ->
  acc_BankName a = "" -> acc_AccountLast4 a = "" -> acc_BankCurrency a = "" ->
  accounts (st_db (w_st w)) !! k = Some r -> ar_TenantID r = acc_TenantID a -> ar_Code r = acc_Code a ->
  evals (LedgerPostgres.CreateAccount a) w (Err dup_error) (w_st w).
Proof.
  intros Hq Hty Hb Hl Hc Hk Ht Hcode. unfold LedgerPostgres.CreateAccount. eapply evals_bind_err.
  set (row := mkAccountRow _ _ _ _ _ _ _ _ _ _ _).
  pose proof (evals_exec (LedgerQueries.CreateAccount row) w Hq) as He.
  rewrite (CreateAccount_duplicate _ row k r) in He; [|..|done|exact Ht|exact Hcode].
  - exact (evals_map_fail _ _ _ _ _ He).
  - unfold LedgerQueries.accounts_check, row. simpl. rewrite Hb, Hl, Hc. simpl.
    by rewrite !andb_true_r.
Qed.

(** A duplicate account code is an internal error.  Alone and with no
    failing call, creating an account whose code the tenant already has changes
    nothing and fails with an error that is not ErrAccountCodeExists, which the
    caller sees as Internal and not as AlreadyExists. *)
Theorem duplicate_code_internal (a : Account) (k : uuid) (r : AccountRow) (w : World St) :
  quiet w -> Ledger.isValidAccountType (acc_AccountType a) = true -> acc_ID a <> uuid_nil ->
  acc_BankName a = "" -> acc_AccountLast4 a = "" -> acc_BankCurrency a = "" ->
  accounts (st_db (w_st w)) !! k = Some r -> ar_TenantID r = acc_TenantID a -> ar_Code r = acc_Code a ->
  exists e, errors_Is e ErrAccountCodeExists = false /\ st_code (LedgerHandler.grpcErr e) = Internal
    /\ evals (Ledger.CreateAccount a) w (Err e) (w_st w).
Proof.
  intros Hq Hty Hid Hb Hl Hc Hk Ht Hcode.
  exists (EWrap "ledger: create account %s: %w" dup_error). split_and!; [done|vm_compute; reflexivity|].
  unfold Ledger.CreateAccount. rewrite Hty. cbn [negb]. rewrite decide_False by done.
  eapply evals_bind; [by apply evals_ret|]. intros w1 H1 Hw. rewrite <-Hw. apply evals_map_fail.
  eapply repo_CreateAccount_duplicate; [done..|rewrite Hw; exact Hk|done|done].
Qed.

(** Seeding a chart of accounts is not idempotent.  Alone and with no
    failing call, seeding a chart whose first entry's code the tenant already
    has fails, with nothing changed, instead of skipping the entry. *)
Theorem seed_existing_fails (tenantID : uuid) (c : ChartOfAccountEntry) (cs : list ChartOfAccountEntry)
    (k : uuid) (r : AccountRow) (w : World St) :
  quiet w -> Ledger.isValidAccountType (coa_AccountType c) = true -> coa_ParentCode c = None ->
  accounts (st_db (w_st w)) !! k = Some r -> ar_TenantID r = tenantID -> ar_Code r = coa_Code c ->
  exists e, sentinel e = None
    /\ evals (Ledger.SeedChartOfAccounts tenantID (c :: cs)) w (Err e) (w_st w).
Proof.
  intros Hq Hty Hp Hk Ht Hcode. exists (EWrap "ledger: seed CoA — create account %s: %w" dup_error).
  split; [done|]. unfold Ledger.SeedChartOfAccounts. cbn [forM_]. apply evals_bind_err.
  unfold Ledger.seed_entry. rewrite Hp. eapply evals_bind; [by apply evals_ret|]. intros w1 H1 Hw1.
  destruct (evals_uuid (E:=error LErr) w1 H1) as [id Hid]. eapply evals_bind; [exact Hid|].
  intros w2 H2 Hw2. rewrite Hw1 in Hw2.
  set (a := mkAccount id tenantID _ _ _ _ _ _ _ _ _).
  eapply evals_bind; [apply evals_try, (repo_CreateAccount_duplicate a k r w2)|].
  1-8: rewrite ?Hw2; done.
  intros w3 H3 Hw3. rewrite <-Hw2, <-Hw3. by apply evals_throw.
Qed.

(** ** Entry numbers *)

(** An entry number determines its year and its place in the year: two
    allocations have the same number only for the same year and sequence. *)
Theorem entry_number_injective (y y' n n' : Z) :
  0 <= y -> 0 <= y' -> 0 <= n -> 0 <= n' ->
  LedgerPostgres.entry_number y n = LedgerPostgres.entry_number y' n' -> y = y' /\ n = n'.
Proof.
  intros Hy Hy' Hn Hn' Heq. unfold LedgerPostgres.entry_number in Heq.
  apply (inj (String.append "JE-")) in Heq.
  destruct (digits_sep "-"%char (Itoa y) (Itoa y') (pad0 5 n) (pad0 5 n')) as [H1 H2];
    [done|by apply Itoa_digits..|exact Heq|].
  split; [by apply Itoa_inj|by eapply pad0_inj].
Qed.

End accounts.

(** ** Concrete runs *)

Section runs.
#[local] Existing Instance ref_external.
Import Demo.

(** Tenant 8 sets up its own books after tenant 7 has recorded an entry. *)
Definition neighbours : World (@St ref_external) :=
  run 8 [account "5000" "asset"; account "6000" "expense";
         LedgerHandler.OpenAccountingPeriodRpc "" 2023 11] drafted.
Definition first_entry : LedgerHandler.Rpc :=
  LedgerHandler.CreateJournalEntryRpc ""
    (LedgerHandler.mkEntryReq "108" "" "" "rent" [line "107" "250" "0"; line "106" "0" "250"]).

(** Entry numbers collide across tenants.  The counter is per tenant but
    the number is unique over the whole table, so once a tenant has the first
    entry of a year another tenant's first entry of that year is refused, with
    an internal error, though the request is the same as the one accepted. *)
Theorem second_tenant_refused :
  (match (LedgerHandler.handle handler (caller 8) first_entry neighbours).1 with
   | Ok _ => None | Err st => Some (st_code st) end) = Some Internal
  /\ LedgerPostgres.entry_number 2023 1 = "JE-2023-00001"
  /\ (er_EntryNumber <$> journal_entries (st_db (w_st neighbours)) !! 105%N) = Some "JE-2023-00001"
  /\ length (select (fun e => bool_decide (er_TenantID e = 8%N)) (journal_entries (st_db (w_st neighbours))))
     = 0%nat.
Proof. split_and!; vm_compute; reflexivity. Qed.

(** Another request closes the period just before the fourth call of a posting. *)
Definition close_before_update (n : nat) (s : @St ref_external) : St :=
  if decide (n = (env_fault_pos (w_env drafted) + 3)%nat) then
    match LedgerQueries.CloseAccountingPeriod 0 7 102 (Some 9%N) (st_db s) with
    | Ok (_, d) => mkSt d (st_published s)
    | Err _ => s
    end
  else s.
Definition racing : World (@St ref_external) :=
  mkWorld (w_st drafted) (w_env drafted) close_before_update [].

Lemma racing_rely : rely st_step racing.
Proof.
  intros n s. simpl. unfold close_before_update. case_decide; [|done].
  destruct (LedgerQueries.CloseAccountingPeriod 0 7 102 (Some 9%N) (st_db s)) as [[p d]|] eqn:Hc; [|done].
  apply st_step_db. by eapply CloseAccountingPeriod_step.
Qed.

(** A closed period can still receive a posting.  The period is read and
    the entry updated by two statements: a request that closes the period
    between them does not stop the posting, which succeeds into the period
    already closed. *)
Theorem post_into_closed_period :
  rely st_step racing
  /\ (let '(r, w) := Ledger.PostJournalEntry (Ledger.mkService true) 7 105 9 racing in
      is_ok r = true
      /\ (er_Status <$> journal_entries (st_db (w_st w)) !! 105%N) = Some "posted"
      /\ (pr_Status <$> accounting_periods (st_db (w_st w)) !! 102%N) = Some "closed").
Proof. split; [exact racing_rely|]. vm_compute. split_and!; reflexivity. Qed.

(** ** Witnesses *)

Lemma opened_alone n (s : @St ref_external) : w_other opened n s = s.
Proof.
  exact (proj2 (run_reachable 7 (take 3 setup) (world LedgerPostgres.empty_st) (reach_empty _)
    (fun n s => eq_refl)) n s).
Qed.

Lemma opened_quiet : quiet opened.
Proof.
  split; [exact opened_alone|]. intros n.
  assert (He : forall m, env_fault (w_env opened) m = false) by (vm_compute; intros m; reflexivity).
  exact (He n).
Qed.

(** The cash account of the opened books. *)
Definition cash : AccountRow :=
  mkAccountRow 100 7 "5000" "5000" "asset" None true None None None None.
Lemma cash_there : accounts (st_db (w_st opened)) !! 100%N = Some cash.
Proof. vm_compute. reflexivity. Qed.

(** Tenant 7's bank account with code 1990. *)
Definition one_bank : @DB ref_external :=
  set_accounts {[ 5%N := mkAccountRow 5 7 "1980" "Bank (ending 1234)" "asset" None true
                           (Some "Bank") (Some "1234") (Some "INR") None ]} empty_db.

Lemma bank_code_free_witness :
  exists n, "1990" = Itoa n /\ Ledger.bankCodeMin <= n <= Ledger.bankCodeMax.
Proof.
  apply (bank_code_free 7 one_bank 1980 "1990"); vm_compute; reflexivity.
Defined.

Lemma account_number_not_kept_witness :
  Ledger.CreateBankAccount 7 (mkBankInput "Bank" "1111-2222 3456" "inr") opened
  = Ledger.CreateBankAccount 7 (mkBankInput "Bank" "99993456" "inr") opened.
Proof. apply account_number_not_kept; vm_compute; reflexivity. Defined.

Lemma duplicate_code_internal_witness :
  exists e, errors_Is e ErrAccountCodeExists = false /\ st_code (LedgerHandler.grpcErr e) = Internal
    /\ evals (Ledger.CreateAccount (mkAccount 50 7 "5000" "petty" "asset" None true "" "" "" "")) opened
         (Err e) (w_st opened).
Proof.
  apply (duplicate_code_internal _ 100%N cash opened opened_quiet);
    [reflexivity|discriminate|reflexivity..|exact cash_there|reflexivity|reflexivity].
Defined.

Lemma seed_existing_fails_witness :
  exists e, sentinel e = None
    /\ evals (Ledger.SeedChartOfAccounts 7 [mkCoA "5000" "cash" "asset" None]) opened (Err e) (w_st opened).
Proof.
  apply (seed_existing_fails 7 (mkCoA "5000" "cash" "asset" None) [] 100%N cash opened opened_quiet);
    [reflexivity|reflexivity|exact cash_there|reflexivity|reflexivity].
Defined.

Lemma entry_number_injective_witness : 2023 = 2023 /\ 7 = 7.
Proof. apply (entry_number_injective 2023 2023 7 7); [lia..|reflexivity]. Defined.

End runs.

(** General ledger: the validation of parties and their contacts against the
    constraints of their tables. *)

Import LedgerPostgres(St, mkSt, st_db, st_published).
Local Open Scope Z_scope.

(** ** Rune counts *)

Lemma bytes_of_length s : length (bytes_of s) = String.length s.
Proof. unfold bytes_of. rewrite length_fmap. induction s; simpl; congruence. Qed.

Lemma runes_go_length fuel l : (length (runes_go fuel l) <= fuel)%nat.
Proof.
  revert l. induction fuel as [|fuel IH]; intros l; [by destruct l|].
  destruct l as [|b l]; [simpl; lia|]. cbn [runes_go]. destruct (decode_rune (b :: l)) as [r k].
  simpl. specialize (IH (drop k (b :: l))). lia.
Qed.

Lemma RuneCountInString_le s : 0 <= RuneCountInString s <= len s.
Proof.
  unfold RuneCountInString, len, runes. split; [lia|]. apply inj_le.
  rewrite <-bytes_of_length. apply runes_go_length.
Qed.

Lemma RuneCountInString_pos s : s <> "" -> 1 <= RuneCountInString s.
Proof.
  intros Hs. destruct s as [|c s]; [done|]. unfold RuneCountInString, runes.
  change (bytes_of (String c s)) with (byte_of c :: bytes_of s). cbn [length runes_go].
  destruct (decode_rune _) as [r k]. simpl. lia.
Qed.

Section parties.
Context {X : External}.

Lemma normalize_each_Ok cs out n :
  Ledger.normalize_each cs = Ok (out, n) ->
  length out = length cs /\ Forall (fun c => Ledger.contact_ok c = true) out
  /\ n = length (List.filter pc_IsPrimary out).
Proof.
  revert out n. induction cs as [|c cs IH]; intros out n H; cbn [Ledger.normalize_each] in H.
  { injection H as <- <-. split_and!; [done|constructor|done]. }
  destruct (Ledger.contact_ok (Ledger.trim_contact c)) eqn:Hc; [|done]. cbn [negb] in H.
  destruct (Ledger.normalize_each cs) as [[l k]|]; [|done]. injection H as <- <-.
  destruct (IH _ _ eq_refl) as (Hl & Hok & ->). split_and!.
  - simpl. lia.
  - by constructor.
  - simpl. by destruct (pc_IsPrimary c).
Qed.

Lemma contact_ok_set_primary c : Ledger.contact_ok (Ledger.set_primary c) = Ledger.contact_ok c.
Proof. done. Qed.

Lemma normalizeContacts_Ok cs out :
  Ledger.normalizeContacts cs = Ok out ->
  length out = length cs /\ (length out <= Ledger.partyContactsMax)%nat
  /\ Forall (fun c => Ledger.contact_ok c = true) out
  /\ (out <> [] -> length (List.filter pc_IsPrimary out) = 1%nat).
Proof.
  unfold Ledger.normalizeContacts. intros H. case_decide as Hmax; [done|].
  destruct (Ledger.normalize_each cs) as [[l n]|] eqn:Hn; [|done].
  destruct (normalize_each_Ok _ _ _ Hn) as (Hl & Hok & Hprim). case_decide as H1; [done|].
  destruct l as [|c l]; [injection H as <-; simpl in *; split_and!; [done|lia|done|done]|].
  destruct (decide (n = 0%nat)) as [Hz|Hz]; injection H as <-.
  - apply Forall_cons in Hok as [Hc Hok]. cbn [length] in *.
    split_and!; [done|lia|by constructor|]. intros _. cbn [List.filter] in *.
    destruct (pc_IsPrimary c); simpl in *; lia.
  - split_and!; [done|lia|done|]. intros _. lia.
Qed.

(** A contact the service accepts satisfies the checks of its table. *)
Lemma contact_ok_check now t pos c :
  Ledger.contact_ok c = true ->
  LedgerQueries.contacts_check (LedgerPostgres.contact_row now t pos c) = true.
Proof.
  unfold Ledger.contact_ok, LedgerQueries.contacts_check, Ledger.email_ok. intros H. bool_hyps. simpl.
  rewrite (bool_decide_true (RuneCountInString (pc_Designation c) <= 100)) by done.
  rewrite (bool_decide_true (RuneCountInString (pc_Phone c) <= 30)) by done.
  rewrite (bool_decide_true (0 <= Z.of_nat pos)) by lia.
  rewrite (bool_decide_true (1 <= _ <= 200)) by (split; [by apply RuneCountInString_pos|done]).
  rewrite (bool_decide_true (RuneCountInString (pc_Email c) <= 254)); [done|].
  match goal with H : _ || _ = true |- _ => apply orb_true_iff in H as [H|H] end; bool_hyps.
  - by replace (pc_Email c) with "".
  - pose proof (RuneCountInString_le (pc_Email c)). unfold Ledger.partyEmailMaxLen in *. lia.
Qed.

(** The row the repository writes for a party. *)
Definition party_row (p : Party) (now : Time) : PartyRow :=
  mkPartyRow (pa_ID p) (pa_TenantID p) (pa_Name p) (pa_PartyType p) (pa_Email p) (pa_Phone p)
    (pa_TaxID p) (pa_Address p) (pgTextFromString (pa_DefaultCurrency p)) true now now.

(** A validated party fits its tables.  A party that normalizeParty
    accepts keeps its identity, satisfies every CHECK of the parties and
    party_contacts tables, has at most 20 contacts, and exactly one primary
    contact when it has any. *)
Theorem normalized_party_fits (p p' : Party) (now : Time) :
  Ledger.normalizeParty p = Ok p' ->
  pa_ID p' = pa_ID p /\ pa_TenantID p' = pa_TenantID p
  /\ LedgerQueries.parties_check (party_row p' now) = true
  /\ (forall pos c, c ∈ pa_Contacts p' ->
        LedgerQueries.contacts_check (LedgerPostgres.contact_row now (pa_TenantID p') pos c) = true)
  /\ (length (pa_Contacts p') <= 20)%nat
  /\ (pa_Contacts p' <> [] -> length (List.filter pc_IsPrimary (pa_Contacts p')) = 1%nat).
Proof.
  unfold Ledger.normalizeParty. intros H.
  case_decide as Hname; [done|]. destruct (negb (bool_decide (pa_PartyType p ∈ _))) eqn:Hty; [done|].
  destruct (negb (_ || Ledger.email_ok _)); [done|]. do 3 (case_decide; [done|]).
  destruct (negb (_ || matches_upper3 _)) eqn:Hcur; [done|].
  destruct (Ledger.normalizeContacts (pa_Contacts p)) as [cs|] eqn:Hcs; [|done].
  apply normalizeContacts_Ok in Hcs as (_ & Hmax & Hok & Hone). injection H as <-.
  cbn [pa_ID pa_TenantID pa_Contacts]. bool_hyps. split_and!; [done|done| | |done|done].
  - unfold LedgerQueries.parties_check, party_row, Ledger.partyNameMaxLen in *.
    cbn [yr_Name yr_PartyType yr_DefaultCurrency pa_Name pa_PartyType pa_DefaultCurrency].
    rewrite (bool_decide_true (_ ∈ _)) by done.
    rewrite (bool_decide_true (1 <= _ <= 200)).
    2: { split; [apply RuneCountInString_pos; intros Hn; apply Hname; by left|].
         apply Z.nlt_ge. intros Hlt. apply Hname. by right. }
    unfold pgTextFromString. case_decide as He; [done|].
    apply orb_true_iff in Hcur as [Hcur|Hcur]; [by bool_hyps|done].
  - intros pos c Hc. apply contact_ok_check. rewrite Forall_forall in Hok. by apply Hok.
Qed.

Lemma normalized_party_fits_witness :
  exists p', Ledger.normalizeParty (mkParty 0 7 " Acme " "supplier" "" "" "" "" " inr " true
      [mkContact 0 0 "Ana" "" "ana@acme.in" "" false; mkContact 0 0 "Bo" "" "" "123" false]) = Ok p'
    /\ length (List.filter pc_IsPrimary (pa_Contacts p')) = 1%nat.
Proof.
  set (p := mkParty _ _ _ _ _ _ _ _ _ _ _).
  assert (exists p', Ledger.normalizeParty p = Ok p' /\ pa_Contacts p' <> []) as (p' & H & Hne)
    by (eexists; split; [vm_compute; reflexivity|vm_compute; discriminate]).
  exists p'. split; [exact H|].
  destruct (normalized_party_fits p p' 0 H) as (_ & _ & _ & _ & _ & Hone). exact (Hone Hne).
Defined.

End parties.
