(* ===== verification/ExpenseModel.v ===== *)
(** Expense tracking: the data of services/expense (models.go, errors.go), the
    rows of its tables (db/models.go, migrations/expense) and the events it
    publishes. *)

From S2P Require Export Vertical Store.
Local Open Scope Z_scope.

(** errors.go *)
Inductive EErr :=
| ErrExpenseNotFound | ErrPONotFound | ErrAlreadyApproved | ErrAlreadyRejected
| ErrAlreadySettled | ErrUnspentExceedsAdvance | ErrApprovalLimitExceeded
| ErrDualApprovalRequired | ErrPORequired | ErrInvalidCategory | ErrInsufficientBudget
| ErrNotAdvanceHolder | ErrNotApprovable.

#[export] Instance EErr_eq_dec : EqDecision EErr.
Proof. solve_decision. Defined.

Definition EErr_text (e : EErr) : string :=
  match e with
  | ErrExpenseNotFound => "expense: expense not found"
  | ErrPONotFound => "expense: purchase order not found"
  | ErrAlreadyApproved => "expense: expense already approved"
  | ErrAlreadyRejected => "expense: expense already rejected"
  | ErrAlreadySettled => "expense: petty cash advance already settled"
  | ErrUnspentExceedsAdvance => "expense: unspent amount exceeds advance amount"
  | ErrApprovalLimitExceeded => "expense: amount exceeds approval limit for role"
  | ErrDualApprovalRequired => "expense: amount exceeds dual approval threshold"
  | ErrPORequired => "expense: purchase order required for this category"
  | ErrInvalidCategory => "expense: invalid expense category for this vertical"
  | ErrInsufficientBudget => "expense: insufficient budget remaining"
  | ErrNotAdvanceHolder => "expense: caller is not the petty cash advance holder"
  | ErrNotApprovable => "expense: record is not in an approvable state"
  end.

Section model.
Context {X : External}.

Record PurchaseOrder := mkPO {
  po_ID : uuid;
  po_ProductionID : uuid;
  po_TenantID : uuid;
  po_BudgetLineID : option uuid;
  po_PONumber : string;
  po_VendorName : string;
  po_VendorGSTIN : string;
  po_Description : string;
  po_Amount : Dec;
  po_Currency : string;
  po_Status : string;
  po_PartyID : option uuid;
  po_RaisedBy : uuid;
  po_ApprovedBy : option uuid;
  po_RaisedAt : Time;
  po_ApprovedAt : option Time;
  po_CreatedAt : Time;
}.

Record Expense := mkExpense {
  ex_ID : uuid;
  ex_ProductionID : uuid;
  ex_TenantID : uuid;
  ex_BudgetLineID : option uuid;
  ex_PurchaseOrderID : option uuid;
  ex_CategoryID : string;
  ex_Description : string;
  ex_Amount : Dec;
  ex_Currency : string;
  ex_TaxAmount : Dec;
  ex_Status : string;
  ex_PartyID : option uuid;
  ex_SubmittedBy : uuid;
  ex_ApprovedBy : option uuid;
  ex_RejectedBy : option uuid;
  ex_SubmittedAt : option Time;
  ex_ApprovedAt : option Time;
  ex_CreatedAt : Time;
  ex_RejectionReason : option string;
  ex_RejectedAt : option Time;
}.

Record PettyCashAdvance := mkPettyCash {
  pc_ID : uuid;
  pc_ProductionID : uuid;
  pc_TenantID : uuid;
  pc_IssuedTo : uuid;
  pc_Amount : Dec;
  pc_Purpose : string;
  pc_Status : string;
  pc_IssuedAt : Time;
  pc_SettledAt : option Time;
  pc_UnspentAmount : Dec;
}.

(** What the publisher is called with. *)
Inductive Event :=
| ExpenseSubmitted (e : Expense)
| ExpenseApproved (e : Expense).

(** ** Rows: a nullable column is an option *)

Record PurchaseOrderRow := mkPORow {
  por_ID : uuid;
  por_ProductionID : uuid;
  por_TenantID : uuid;
  por_BudgetLineID : option uuid;
  por_PoNumber : string;
  por_VendorName : string;
  por_VendorGstin : option string;
  por_Description : option string;
  por_Amount : Dec;
  por_Currency : string;
  por_Status : string;
  por_RaisedBy : uuid;
  por_ApprovedBy : option uuid;
  por_RaisedAt : Time;
  por_ApprovedAt : option Time;
  por_CreatedAt : Time;
  por_PartyID : option uuid;
}.

Record ExpenseRow := mkExpenseRow {
  exr_ID : uuid;
  exr_ProductionID : uuid;
  exr_TenantID : uuid;
  exr_BudgetLineID : option uuid;
  exr_PurchaseOrderID : option uuid;
  exr_CategoryID : string;
  exr_Description : option string;
  exr_Amount : Dec;
  exr_Currency : string;
  exr_TaxAmount : Dec;
  exr_Status : string;
  exr_SubmittedBy : uuid;
  exr_ApprovedBy : option uuid;
  exr_SubmittedAt : option Time;
  exr_ApprovedAt : option Time;
  exr_CreatedAt : Time;
  exr_RejectionReason : option string;
  exr_RejectedAt : option Time;
  exr_RejectedBy : option uuid;
  exr_PartyID : option uuid;
}.

Record PettyCashRow := mkPettyCashRow {
  pcr_ID : uuid;
  pcr_ProductionID : uuid;
  pcr_TenantID : uuid;
  pcr_IssuedTo : uuid;
  pcr_Amount : Dec;
  pcr_Purpose : string;
  pcr_Status : string;
  pcr_IssuedAt : Time;
  pcr_SettledAt : option Time;
  pcr_UnspentAmount : Dec;
}.

Record DB := mkDB {
  purchase_orders : gmap uuid PurchaseOrderRow;
  expenses : gmap uuid ExpenseRow;
  petty_cash_advances : gmap uuid PettyCashRow;
}.

Definition empty_db : DB := mkDB ∅ ∅ ∅.
Definition set_pos (t : gmap uuid PurchaseOrderRow) (d : DB) : DB :=
  mkDB t (expenses d) (petty_cash_advances d).
Definition set_expenses (t : gmap uuid ExpenseRow) (d : DB) : DB :=
  mkDB (purchase_orders d) t (petty_cash_advances d).
Definition set_petty (t : gmap uuid PettyCashRow) (d : DB) : DB :=
  mkDB (purchase_orders d) (expenses d) t.

Definition empty_st : Store DB Event := mkStore empty_db [].

End model.

Abbreviation St := (Store DB Event) (only parsing).
