(* ===== verification/ExpenseQueries.v ===== *)
(** Expense tracking: the SQL statements of services/expense/db/queries.sql.go
    as functions on the tables, with the constraints of migrations/expense on
    the columns each one writes. *)

From S2P Require Export ExpenseModel.
Local Open Scope Z_scope.

Section queries.
Context {X : External}.

(** [ORDER BY created_at DESC] and [ORDER BY raised_at DESC] *)
Definition newer {A} (at_ : A -> Time) (a b : A) : bool := bool_decide (at_ b <= at_ a).

(** [$n::uuid IS NULL OR column = $n] *)
Definition optional_match (arg : option uuid) (column : uuid) : bool :=
  match arg with None => true | Some v => bool_decide (column = v) end.

(** [$n = '' OR status = $n] *)
Definition status_match (arg column : string) : bool :=
  bool_decide (arg = "") || bool_decide (column = arg).

(** ** Purchase orders *)

Record CreatePurchaseOrderParams := mkCreatePO {
  cpo_ID : uuid;
  cpo_ProductionID : uuid;
  cpo_TenantID : uuid;
  cpo_BudgetLineID : option uuid;
  cpo_PoNumber : string;
  cpo_VendorName : string;
  cpo_VendorGstin : option string;
  cpo_Description : option string;
  cpo_Amount : Dec;
  cpo_Currency : string;
  cpo_RaisedBy : uuid;
  cpo_PartyID : option uuid;
}.

(** po_number is UNIQUE over the whole table; status and the two timestamps
    take their defaults. *)
Definition CreatePurchaseOrder (now : Time) (p : CreatePurchaseOrderParams) (d : DB) :
    result pg_error (PurchaseOrderRow * DB) :=
  match dec_numeric_14_2 (cpo_Amount p) with
  | None => Err PgConstraint
  | Some amount =>
    if bool_decide (is_Some (purchase_orders d !! cpo_ID p)) then Err PgNoRows
    else if exists_row (fun r => bool_decide (por_PoNumber r = cpo_PoNumber p)) (purchase_orders d)
    then Err PgUniqueViolation
    else
      let r := mkPORow (cpo_ID p) (cpo_ProductionID p) (cpo_TenantID p) (cpo_BudgetLineID p)
                 (cpo_PoNumber p) (cpo_VendorName p) (cpo_VendorGstin p) (cpo_Description p)
                 amount (cpo_Currency p) "draft" (cpo_RaisedBy p) None now None now
                 (cpo_PartyID p) in
      Ok (r, set_pos (<[cpo_ID p := r]> (purchase_orders d)) d)
  end.

Definition GetPurchaseOrder (tenantID id : uuid) (d : DB) : result pg_error PurchaseOrderRow :=
  get_row (purchase_orders d) id (fun r => bool_decide (por_TenantID r = tenantID)).

Definition ListPurchaseOrders (tenantID : uuid) (productionID raisedBy : option uuid)
    (status : string) (limit offset : Z) (d : DB) : result pg_error (list PurchaseOrderRow) :=
  Ok (limit_offset limit offset (order_by (newer por_RaisedAt)
        (select (fun r => bool_decide (por_TenantID r = tenantID)
                          && optional_match productionID (por_ProductionID r)
                          && optional_match raisedBy (por_RaisedBy r)
                          && status_match status (por_Status r)) (purchase_orders d)))).

Definition ListPurchaseOrdersByParty (tenantID : uuid) (partyID : option uuid) (limit offset : Z)
    (d : DB) : result pg_error (list PurchaseOrderRow) :=
  Ok (limit_offset limit offset (order_by (newer por_RaisedAt)
        (select (fun r => bool_decide (por_TenantID r = tenantID)
                          && bool_decide (partyID <> None /\ por_PartyID r = partyID))
           (purchase_orders d)))).

(** The statement's WHERE clause names the id and the tenant, not the status. *)
Definition UpdatePurchaseOrderStatus (now : Time) (tenantID id : uuid) (status : string)
    (approvedBy : option uuid) (d : DB) : result pg_error (PurchaseOrderRow * DB) :=
  match GetPurchaseOrder tenantID id d with
  | Err e => Err e
  | Ok r =>
    if negb (bool_decide (status ∈ ["draft"; "approved"; "partially_invoiced"; "closed"; "cancelled"]))
    then Err PgConstraint
    else
      let approved := bool_decide (status = "approved") in
      let r' := mkPORow (por_ID r) (por_ProductionID r) (por_TenantID r) (por_BudgetLineID r)
                  (por_PoNumber r) (por_VendorName r) (por_VendorGstin r) (por_Description r)
                  (por_Amount r) (por_Currency r) status (por_RaisedBy r)
                  (if approved then approvedBy else por_ApprovedBy r) (por_RaisedAt r)
                  (if approved then Some now else por_ApprovedAt r) (por_CreatedAt r)
                  (por_PartyID r) in
      Ok (r', set_pos (<[id := r']> (purchase_orders d)) d)
  end.

(** ** Expenses *)

Record CreateExpenseParams := mkCreateExpense {
  cex_ID : uuid;
  cex_ProductionID : uuid;
  cex_TenantID : uuid;
  cex_BudgetLineID : option uuid;
  cex_PurchaseOrderID : option uuid;
  cex_CategoryID : string;
  cex_Description : option string;
  cex_Amount : Dec;
  cex_Currency : string;
  cex_TaxAmount : Dec;
  cex_SubmittedBy : uuid;
  cex_PartyID : option uuid;
}.

(** Neither status nor submitted_at is among the columns written: they take
    their defaults, 'draft' and NULL.  purchase_order_id REFERENCES
    purchase_orders(id), of any tenant. *)
Definition CreateExpense (now : Time) (p : CreateExpenseParams) (d : DB) :
    result pg_error (ExpenseRow * DB) :=
  match dec_numeric_14_2 (cex_Amount p), dec_numeric_14_2 (cex_TaxAmount p) with
  | Some amount, Some tax =>
    if bool_decide (is_Some (expenses d !! cex_ID p)) then Err PgNoRows
    else
      let r := mkExpenseRow (cex_ID p) (cex_ProductionID p) (cex_TenantID p) (cex_BudgetLineID p)
                 (cex_PurchaseOrderID p) (cex_CategoryID p) (cex_Description p) amount
                 (cex_Currency p) tax "draft" (cex_SubmittedBy p) None None None now None None
                 None (cex_PartyID p) in
      if match cex_PurchaseOrderID p with
         | Some po => bool_decide (is_Some (purchase_orders d !! po))
         | None => true end
      then Ok (r, set_expenses (<[cex_ID p := r]> (expenses d)) d)
      else Err PgConstraint
  | _, _ => Err PgConstraint
  end.

Definition GetExpense (tenantID id : uuid) (d : DB) : result pg_error ExpenseRow :=
  get_row (expenses d) id (fun r => bool_decide (exr_TenantID r = tenantID)).

Definition ListExpenses (tenantID : uuid) (productionID submittedBy : option uuid)
    (status : string) (limit offset : Z) (d : DB) : result pg_error (list ExpenseRow) :=
  Ok (limit_offset limit offset (order_by (newer exr_CreatedAt)
        (select (fun r => bool_decide (exr_TenantID r = tenantID)
                          && optional_match productionID (exr_ProductionID r)
                          && optional_match submittedBy (exr_SubmittedBy r)
                          && status_match status (exr_Status r)) (expenses d)))).

Definition ListExpensesByParty (tenantID : uuid) (partyID : option uuid) (limit offset : Z)
    (d : DB) : result pg_error (list ExpenseRow) :=
  Ok (limit_offset limit offset (order_by (newer exr_CreatedAt)
        (select (fun r => bool_decide (exr_TenantID r = tenantID)
                          && bool_decide (partyID <> None /\ exr_PartyID r = partyID))
           (expenses d)))).

Definition expense_status_ok (status : string) : bool :=
  bool_decide (status ∈ ["draft"; "submitted"; "approved"; "rejected"; "paid"]).

Definition UpdateExpenseStatus (now : Time) (tenantID id : uuid) (status : string)
    (approvedBy : option uuid) (d : DB) : result pg_error (ExpenseRow * DB) :=
  match GetExpense tenantID id d with
  | Err e => Err e
  | Ok r =>
    if negb (expense_status_ok status) then Err PgConstraint
    else
      let approved := bool_decide (status = "approved") in
      let r' := mkExpenseRow (exr_ID r) (exr_ProductionID r) (exr_TenantID r) (exr_BudgetLineID r)
                  (exr_PurchaseOrderID r) (exr_CategoryID r) (exr_Description r) (exr_Amount r)
                  (exr_Currency r) (exr_TaxAmount r) status (exr_SubmittedBy r)
                  (if approved then approvedBy else exr_ApprovedBy r)
                  (if bool_decide (status = "submitted") then Some now else exr_SubmittedAt r)
                  (if approved then Some now else exr_ApprovedAt r) (exr_CreatedAt r)
                  (exr_RejectionReason r) (exr_RejectedAt r) (exr_RejectedBy r) (exr_PartyID r) in
      Ok (r', set_expenses (<[id := r']> (expenses d)) d)
  end.

Definition RejectExpense (now : Time) (tenantID id : uuid) (reason : option string)
    (rejectedBy : option uuid) (d : DB) : result pg_error (ExpenseRow * DB) :=
  match GetExpense tenantID id d with
  | Err e => Err e
  | Ok r =>
    let r' := mkExpenseRow (exr_ID r) (exr_ProductionID r) (exr_TenantID r) (exr_BudgetLineID r)
                (exr_PurchaseOrderID r) (exr_CategoryID r) (exr_Description r) (exr_Amount r)
                (exr_Currency r) (exr_TaxAmount r) "rejected" (exr_SubmittedBy r)
                (exr_ApprovedBy r) (exr_SubmittedAt r) (exr_ApprovedAt r) (exr_CreatedAt r)
                reason (Some now) rejectedBy (exr_PartyID r) in
    Ok (r', set_expenses (<[id := r']> (expenses d)) d)
  end.

(** ** Petty cash *)

Definition CreatePettyCashAdvance (now : Time) (id productionID tenantID issuedTo : uuid)
    (amount : Dec) (purpose : string) (d : DB) : result pg_error (PettyCashRow * DB) :=
  match dec_numeric_14_2 amount with
  | None => Err PgConstraint
  | Some amount' =>
    if bool_decide (is_Some (petty_cash_advances d !! id)) then Err PgNoRows
    else
      let r := mkPettyCashRow id productionID tenantID issuedTo amount' purpose "issued" now None
                 dec_zero in
      Ok (r, set_petty (<[id := r]> (petty_cash_advances d)) d)
  end.

Definition GetPettyCashAdvance (tenantID id : uuid) (d : DB) : result pg_error PettyCashRow :=
  get_row (petty_cash_advances d) id (fun r => bool_decide (pcr_TenantID r = tenantID)).

Definition ListPettyCashAdvances (tenantID : uuid) (productionID issuedTo : option uuid)
    (status : string) (limit offset : Z) (d : DB) : result pg_error (list PettyCashRow) :=
  Ok (limit_offset limit offset (order_by (newer pcr_IssuedAt)
        (select (fun r => bool_decide (pcr_TenantID r = tenantID)
                          && optional_match productionID (pcr_ProductionID r)
                          && optional_match issuedTo (pcr_IssuedTo r)
                          && status_match status (pcr_Status r)) (petty_cash_advances d)))).

Definition SettlePettyCashAdvance (now : Time) (tenantID id : uuid) (status : string)
    (unspent : Dec) (d : DB) : result pg_error (PettyCashRow * DB) :=
  match GetPettyCashAdvance tenantID id d with
  | Err e => Err e
  | Ok r =>
    match dec_numeric_14_2 unspent with
    | None => Err PgConstraint
    | Some unspent' =>
      if negb (bool_decide (status ∈ ["issued"; "partially_settled"; "settled"]))
      then Err PgConstraint
      else
        let r' := mkPettyCashRow (pcr_ID r) (pcr_ProductionID r) (pcr_TenantID r) (pcr_IssuedTo r)
                    (pcr_Amount r) (pcr_Purpose r) status (pcr_IssuedAt r)
                    (if bool_decide (status = "settled") then Some now else pcr_SettledAt r)
                    unspent' in
        Ok (r', set_petty (<[id := r']> (petty_cash_advances d)) d)
    end
  end.

End queries.
