(* ===== verification/ExpensePostgres.v ===== *)
(** Expense tracking: the repository of services/expense/db/postgres.go over the
    statements of [ExpenseQueries]. *)

From S2P Require Export ExpenseModel.
From S2P Require ExpenseQueries.
Local Open Scope Z_scope.

Section postgres.
Context {X : External}.

Abbreviation Repo := (M St (error EErr)) (only parsing).

(** ** Conversions *)

Definition purchaseOrderFromDB (r : PurchaseOrderRow) : PurchaseOrder :=
  mkPO (por_ID r) (por_ProductionID r) (por_TenantID r) (por_BudgetLineID r) (por_PoNumber r)
    (por_VendorName r) (stringFromPgText (por_VendorGstin r))
    (stringFromPgText (por_Description r)) (por_Amount r) (por_Currency r) (por_Status r)
    (por_PartyID r) (por_RaisedBy r) (por_ApprovedBy r) (por_RaisedAt r) (por_ApprovedAt r)
    (por_CreatedAt r).

Definition expenseFromDB (r : ExpenseRow) : Expense :=
  mkExpense (exr_ID r) (exr_ProductionID r) (exr_TenantID r) (exr_BudgetLineID r)
    (exr_PurchaseOrderID r) (exr_CategoryID r) (stringFromPgText (exr_Description r))
    (exr_Amount r) (exr_Currency r) (exr_TaxAmount r) (exr_Status r) (exr_PartyID r)
    (exr_SubmittedBy r) (exr_ApprovedBy r) (exr_RejectedBy r) (exr_SubmittedAt r)
    (exr_ApprovedAt r) (exr_CreatedAt r) (exr_RejectionReason r) (exr_RejectedAt r).

Definition pettyCashFromDB (r : PettyCashRow) : PettyCashAdvance :=
  mkPettyCash (pcr_ID r) (pcr_ProductionID r) (pcr_TenantID r) (pcr_IssuedTo r) (pcr_Amount r)
    (pcr_Purpose r) (pcr_Status r) (pcr_IssuedAt r) (pcr_SettledAt r) (pcr_UnspentAmount r).

(** ** Purchase orders *)

Definition CreatePurchaseOrder (po : PurchaseOrder) : Repo unit :=
  now ← time_now;
  _ ← map_err (pg_wrap "expense: create purchase order: %w")
    (q_exec (ExpenseQueries.CreatePurchaseOrder now
       (ExpenseQueries.mkCreatePO (po_ID po) (po_ProductionID po) (po_TenantID po)
          (pgUUIDFromPtr (po_BudgetLineID po)) (po_PONumber po) (po_VendorName po)
          (pgTextFromString (po_VendorGSTIN po)) (pgTextFromString (po_Description po))
          (po_Amount po) (po_Currency po) (po_RaisedBy po) (pgUUIDFromPtr (po_PartyID po)))));
  mret tt.

Definition GetPurchaseOrder (tenantID id : uuid) : Repo PurchaseOrder :=
  row ← map_err (no_rows_as ErrPONotFound "expense: get purchase order: %w")
    (q_query (ExpenseQueries.GetPurchaseOrder tenantID id));
  mret (purchaseOrderFromDB row).

Definition ListPurchaseOrders (tenantID productionID : uuid) (status : string) (limit offset : Z)
    (raisedBy : uuid) : Repo (list PurchaseOrder) :=
  rs ← map_err (pg_wrap "expense: list purchase orders: %w")
    (q_query (ExpenseQueries.ListPurchaseOrders tenantID (nullableUUID productionID)
       (nullableUUID raisedBy) status limit offset));
  mret (purchaseOrderFromDB <$> rs).

Definition ListPurchaseOrdersByParty (tenantID partyID : uuid) (limit offset : Z) :
    Repo (list PurchaseOrder) :=
  rs ← map_err (pg_wrap "expense: list purchase orders by party: %w")
    (q_query (ExpenseQueries.ListPurchaseOrdersByParty tenantID (pgUUIDFromPtr (Some partyID))
       limit offset));
  mret (purchaseOrderFromDB <$> rs).

Definition UpdatePurchaseOrder (po : PurchaseOrder) : Repo unit :=
  now ← time_now;
  _ ← map_err (no_rows_as ErrPONotFound "expense: update purchase order: %w")
    (q_exec (ExpenseQueries.UpdatePurchaseOrderStatus now (po_TenantID po) (po_ID po)
       (po_Status po) (po_ApprovedBy po)));
  mret tt.

(** ** Expenses *)

Definition CreateExpense (e : Expense) : Repo unit :=
  now ← time_now;
  _ ← map_err (pg_wrap "expense: create expense: %w")
    (q_exec (ExpenseQueries.CreateExpense now
       (ExpenseQueries.mkCreateExpense (ex_ID e) (ex_ProductionID e) (ex_TenantID e)
          (pgUUIDFromPtr (ex_BudgetLineID e)) (pgUUIDFromPtr (ex_PurchaseOrderID e))
          (ex_CategoryID e) (pgTextFromString (ex_Description e)) (ex_Amount e) (ex_Currency e)
          (ex_TaxAmount e) (ex_SubmittedBy e) (pgUUIDFromPtr (ex_PartyID e)))));
  mret tt.

Definition GetExpense (tenantID id : uuid) : Repo Expense :=
  row ← map_err (no_rows_as ErrExpenseNotFound "expense: get expense: %w")
    (q_query (ExpenseQueries.GetExpense tenantID id));
  mret (expenseFromDB row).

Definition ListExpenses (tenantID productionID : uuid) (status : string) (limit offset : Z)
    (submittedBy : uuid) : Repo (list Expense) :=
  rs ← map_err (pg_wrap "expense: list expenses: %w")
    (q_query (ExpenseQueries.ListExpenses tenantID (nullableUUID productionID)
       (nullableUUID submittedBy) status limit offset));
  mret (expenseFromDB <$> rs).

Definition ListExpensesByParty (tenantID partyID : uuid) (limit offset : Z) : Repo (list Expense) :=
  rs ← map_err (pg_wrap "expense: list expenses by party: %w")
    (q_query (ExpenseQueries.ListExpensesByParty tenantID (pgUUIDFromPtr (Some partyID))
       limit offset));
  mret (expenseFromDB <$> rs).

Definition UpdateExpense (e : Expense) : Repo unit :=
  now ← time_now;
  _ ← map_err (no_rows_as ErrExpenseNotFound "expense: update expense: %w")
    (q_exec (ExpenseQueries.UpdateExpenseStatus now (ex_TenantID e) (ex_ID e) (ex_Status e)
       (ex_ApprovedBy e)));
  mret tt.

Definition RejectExpense (tenantID expenseID rejecterID : uuid) (reason : string) : Repo unit :=
  now ← time_now;
  _ ← map_err (no_rows_as ErrExpenseNotFound "expense/db: reject expense: %w")
    (q_exec (ExpenseQueries.RejectExpense now tenantID expenseID (Some reason) (Some rejecterID)));
  mret tt.

(** ** Petty cash *)

Definition CreatePettyCashAdvance (pc : PettyCashAdvance) : Repo unit :=
  now ← time_now;
  _ ← map_err (pg_wrap "expense: create petty cash advance: %w")
    (q_exec (ExpenseQueries.CreatePettyCashAdvance now (pc_ID pc) (pc_ProductionID pc)
       (pc_TenantID pc) (pc_IssuedTo pc) (pc_Amount pc) (pc_Purpose pc)));
  mret tt.

Definition GetPettyCashAdvance (tenantID id : uuid) : Repo PettyCashAdvance :=
  row ← map_err (no_rows_as ErrExpenseNotFound "expense: get petty cash advance: %w")
    (q_query (ExpenseQueries.GetPettyCashAdvance tenantID id));
  mret (pettyCashFromDB row).

Definition ListPettyCashAdvances (tenantID productionID : uuid) (status : string)
    (limit offset : Z) (issuedTo : uuid) : Repo (list PettyCashAdvance) :=
  rs ← map_err (pg_wrap "expense: list petty cash advances: %w")
    (q_query (ExpenseQueries.ListPettyCashAdvances tenantID (nullableUUID productionID)
       (nullableUUID issuedTo) status limit offset));
  mret (pettyCashFromDB <$> rs).

Definition UpdatePettyCashAdvance (pc : PettyCashAdvance) : Repo unit :=
  now ← time_now;
  _ ← map_err (no_rows_as ErrExpenseNotFound "expense: update petty cash advance: %w")
    (q_exec (ExpenseQueries.SettlePettyCashAdvance now (pc_TenantID pc) (pc_ID pc)
       (pc_Status pc) (pc_UnspentAmount pc)));
  mret tt.

End postgres.
