(* ===== verification/Expense.v ===== *)
(** Expense tracking: the service of services/expense/service.go over the
    repository of [ExpensePostgres].  An operation that reads the vertical's
    configuration takes it as [vcfg], what [vertical.MustFromContext] returned
    on its first line; an operation that mutates its argument returns the
    record it leaves. *)

From S2P Require Export ExpenseModel.
From S2P Require ExpensePostgres.
Local Open Scope Z_scope.

Section service.
Context {X : External}.

(** The service: whether an event publisher is configured. *)
Record Service := mkService { s_publisher : bool }.

Abbreviation Op := (M St (error EErr)) (only parsing).

Variable s : Service.

(** [s.publish]: best effort. *)
Definition publish (ev : Event) : Op unit := emit (s_publisher s) ev.

(** ** Expenses *)

(** [e.Status = "submitted"] and the generated id. *)
Definition submitted (id : uuid) (e : Expense) : Expense :=
  mkExpense id (ex_ProductionID e) (ex_TenantID e) (ex_BudgetLineID e) (ex_PurchaseOrderID e)
    (ex_CategoryID e) (ex_Description e) (ex_Amount e) (ex_Currency e) (ex_TaxAmount e)
    "submitted" (ex_PartyID e) (ex_SubmittedBy e) (ex_ApprovedBy e) (ex_RejectedBy e)
    (ex_SubmittedAt e) (ex_ApprovedAt e) (ex_CreatedAt e) (ex_RejectionReason e) (ex_RejectedAt e).

Definition SubmitExpense (vcfg : Config) (e : Expense) : Op Expense :=
  match FindExpenseCategory vcfg (ex_CategoryID e) with
  | None => mthrow (EWrap "%w: %q is not valid for vertical %s" (ESent ErrInvalidCategory))
  | Some cat =>
    if ec_RequiresPO cat && bool_decide (ex_PurchaseOrderID e = None)
    then mthrow (EWrap "%w: category %q requires a purchase order" (ESent ErrPORequired))
    else
      id ← (if decide (ex_ID e = uuid_nil) then uuid_new else mret (ex_ID e));
      let e' := submitted id e in
      _ ← ExpensePostgres.CreateExpense e';
      _ ← publish (ExpenseSubmitted e');
      mret e'
  end.

Definition hasSuperAdmin (roles : list string) : bool :=
  existsb (fun r => bool_decide (r = "super_admin")) roles.

(** The role limit and the dual-approval threshold, as ApproveExpense and
    ApprovePurchaseOrder test them. *)
Definition check_authority (w : ApprovalWorkflow) (roles : list string) (amount : Dec) :
    result (error EErr) unit :=
  let dual :=
    if dec_greater amount (aw_DualApprovalAbove w)
    then Err (EWrap "%w: %s exceeds dual approval threshold %s" (ESent ErrDualApprovalRequired))
    else Ok tt in
  if hasSuperAdmin roles then dual
  else match MaxLimitForRoles w roles with
       | None => Err (EWrap "%w: caller roles %v have no configured approval limit"
                        (ESent ErrApprovalLimitExceeded))
       | Some limit =>
         if dec_greater amount limit
         then Err (EWrap "%w: %s exceeds %s limit" (ESent ErrApprovalLimitExceeded))
         else dual
       end.

Definition approved_expense (approverID : uuid) (now : Time) (e : Expense) : Expense :=
  mkExpense (ex_ID e) (ex_ProductionID e) (ex_TenantID e) (ex_BudgetLineID e)
    (ex_PurchaseOrderID e) (ex_CategoryID e) (ex_Description e) (ex_Amount e) (ex_Currency e)
    (ex_TaxAmount e) "approved" (ex_PartyID e) (ex_SubmittedBy e) (Some approverID)
    (ex_RejectedBy e) (ex_SubmittedAt e) (Some now) (ex_CreatedAt e) (ex_RejectionReason e)
    (ex_RejectedAt e).

(** The switch on the status of an expense to approve. *)
Definition expense_approvable (status : string) : result (error EErr) unit :=
  if decide (status = "approved") then Err (ESent ErrAlreadyApproved)
  else if decide (status = "rejected") then Err (ESent ErrAlreadyRejected)
  else if decide (status = "submitted") then Ok tt
  else Err (ESent ErrNotApprovable).

Definition ApproveExpense (vcfg : Config) (tenantID expenseID approverID : uuid)
    (roles : list string) : Op unit :=
  exp ← wrap "get expense: %w" (ExpensePostgres.GetExpense tenantID expenseID);
  _ ← lift_result (expense_approvable (ex_Status exp));
  _ ← lift_result (check_authority (cfg_ApprovalWorkflow vcfg) roles (ex_Amount exp));
  now ← time_now;
  let exp' := approved_expense approverID now exp in
  _ ← ExpensePostgres.UpdateExpense exp';
  publish (ExpenseApproved exp').

Definition GetExpense (tenantID id : uuid) : Op Expense := ExpensePostgres.GetExpense tenantID id.

(** [if limit <= 0 || limit > 100 { limit = default }] *)
Definition page_limit (default limit : Z) : Z :=
  if bool_decide (limit <= 0) || bool_decide (100 < limit) then default else limit.

Definition ListExpensesByParty (tenantID partyID : uuid) (limit offset : Z) : Op (list Expense) :=
  ExpensePostgres.ListExpensesByParty tenantID partyID (page_limit 100 limit) offset.

Definition ListPurchaseOrdersByParty (tenantID partyID : uuid) (limit offset : Z) :
    Op (list PurchaseOrder) :=
  ExpensePostgres.ListPurchaseOrdersByParty tenantID partyID (page_limit 100 limit) offset.

Definition ListExpenses (tenantID productionID : uuid) (status : string) (limit offset : Z)
    (submittedBy : uuid) : Op (list Expense) :=
  ExpensePostgres.ListExpenses tenantID productionID status (page_limit 20 limit) offset submittedBy.

Definition RejectExpense (tenantID expenseID rejecterID : uuid) (reason : string) : Op unit :=
  exp ← wrap "get expense: %w" (ExpensePostgres.GetExpense tenantID expenseID);
  if decide (ex_Status exp = "approved") then mthrow (ESent ErrAlreadyApproved)
  else if decide (ex_Status exp = "rejected") then mthrow (ESent ErrAlreadyRejected)
  else ExpensePostgres.RejectExpense tenantID expenseID rejecterID reason.

(** ** Purchase orders *)

(** [uuid.NewString()[:8]] *)
Definition genPONumber : Op string :=
  now ← time_now;
  id ← uuid_new;
  mret ("PO-" +:+ pad0 4 (year_utc now) +:+ "-" +:+ ToUpper (String.substring 0 8 (uuid_string id))).

Definition numbered_po (id : uuid) (number : string) (po : PurchaseOrder) : PurchaseOrder :=
  mkPO id (po_ProductionID po) (po_TenantID po) (po_BudgetLineID po) number (po_VendorName po)
    (po_VendorGSTIN po) (po_Description po) (po_Amount po) (po_Currency po) (po_Status po)
    (po_PartyID po) (po_RaisedBy po) (po_ApprovedBy po) (po_RaisedAt po) (po_ApprovedAt po)
    (po_CreatedAt po).

Definition CreatePurchaseOrder (po : PurchaseOrder) : Op PurchaseOrder :=
  number ← (if decide (po_PONumber po = "") then genPONumber else mret (po_PONumber po));
  id ← (if decide (po_ID po = uuid_nil) then uuid_new else mret (po_ID po));
  let po' := numbered_po id number po in
  _ ← ExpensePostgres.CreatePurchaseOrder po';
  mret po'.

Definition GetPurchaseOrder (tenantID id : uuid) : Op PurchaseOrder :=
  ExpensePostgres.GetPurchaseOrder tenantID id.

Definition ListPurchaseOrders (tenantID productionID : uuid) (status : string) (limit offset : Z)
    (raisedBy : uuid) : Op (list PurchaseOrder) :=
  ExpensePostgres.ListPurchaseOrders tenantID productionID status (page_limit 20 limit) offset raisedBy.

Definition approved_po (approverID : uuid) (now : Time) (po : PurchaseOrder) : PurchaseOrder :=
  mkPO (po_ID po) (po_ProductionID po) (po_TenantID po) (po_BudgetLineID po) (po_PONumber po)
    (po_VendorName po) (po_VendorGSTIN po) (po_Description po) (po_Amount po) (po_Currency po)
    "approved" (po_PartyID po) (po_RaisedBy po) (Some approverID) (po_RaisedAt po) (Some now)
    (po_CreatedAt po).

Definition po_approvable (status : string) : result (error EErr) unit :=
  if decide (status = "approved") then Err (ESent ErrAlreadyApproved)
  else if decide (status = "draft") then Ok tt
  else Err (ESent ErrNotApprovable).

Definition ApprovePurchaseOrder (vcfg : Config) (tenantID poID approverID : uuid)
    (roles : list string) : Op unit :=
  po ← wrap "get purchase order: %w" (ExpensePostgres.GetPurchaseOrder tenantID poID);
  _ ← lift_result (po_approvable (po_Status po));
  _ ← lift_result (check_authority (cfg_ApprovalWorkflow vcfg) roles (po_Amount po));
  now ← time_now;
  ExpensePostgres.UpdatePurchaseOrder (approved_po approverID now po).

(** ** Petty cash *)

Definition with_pc_id (id : uuid) (pc : PettyCashAdvance) : PettyCashAdvance :=
  mkPettyCash id (pc_ProductionID pc) (pc_TenantID pc) (pc_IssuedTo pc) (pc_Amount pc)
    (pc_Purpose pc) (pc_Status pc) (pc_IssuedAt pc) (pc_SettledAt pc) (pc_UnspentAmount pc).

Definition CreatePettyCashAdvance (pc : PettyCashAdvance) : Op PettyCashAdvance :=
  id ← (if decide (pc_ID pc = uuid_nil) then uuid_new else mret (pc_ID pc));
  let pc' := with_pc_id id pc in
  _ ← ExpensePostgres.CreatePettyCashAdvance pc';
  mret pc'.

Definition GetPettyCashAdvance (tenantID id : uuid) : Op PettyCashAdvance :=
  ExpensePostgres.GetPettyCashAdvance tenantID id.

Definition ListPettyCashAdvances (tenantID productionID : uuid) (status : string)
    (limit offset : Z) (issuedTo : uuid) : Op (list PettyCashAdvance) :=
  ExpensePostgres.ListPettyCashAdvances tenantID productionID status (page_limit 20 limit) offset
    issuedTo.

Definition settled_pc (unspent : Dec) (now : Time) (pc : PettyCashAdvance) : PettyCashAdvance :=
  mkPettyCash (pc_ID pc) (pc_ProductionID pc) (pc_TenantID pc) (pc_IssuedTo pc) (pc_Amount pc)
    (pc_Purpose pc) "settled" (pc_IssuedAt pc) (Some now) unspent.

Definition SettlePettyCash (tenantID advanceID callerID : uuid) (unspent : Dec) : Op unit :=
  pc ← wrap "get petty cash advance: %w" (ExpensePostgres.GetPettyCashAdvance tenantID advanceID);
  if negb (bool_decide (pc_IssuedTo pc = callerID)) then mthrow (ESent ErrNotAdvanceHolder)
  else if decide (pc_Status pc = "settled") then mthrow (ESent ErrAlreadySettled)
  else if dec_greater unspent (pc_Amount pc) then mthrow (ESent ErrUnspentExceedsAdvance)
  else
    now ← time_now;
    ExpensePostgres.UpdatePettyCashAdvance (settled_pc unspent now pc).

(** ** Configuration *)

Definition GetExpenseCategories (vcfg : Config) : list ExpenseCategory := cfg_ExpenseCategories vcfg.
Definition GetApprovalLimits (vcfg : Config) : ApprovalWorkflow := cfg_ApprovalWorkflow vcfg.

End service.
