(* ===== verification/ExpenseHandler.v ===== *)
(** Expense tracking: the gRPC handlers of services/expense/handler.go behind
    the vertical interceptor.  A handler takes the tenant from the context,
    checks its permission (before or after the fetch: a record's owner reads it
    without one), parses the request, calls the service and renders the record
    it reads back. *)

From S2P Require Export ExpenseModel.
From S2P Require Expense.
Local Open Scope Z_scope.

(** ** Messages *)

Record PbPurchaseOrder := mkPbPO {
  pbo_Id : string; pbo_ProductionId : string; pbo_TenantId : string; pbo_BudgetLineId : string;
  pbo_PoNumber : string; pbo_VendorName : string; pbo_VendorGstin : string;
  pbo_Description : string; pbo_Amount : string; pbo_Currency : string; pbo_Status : string;
  pbo_PartyId : string; pbo_RaisedBy : string; pbo_ApprovedBy : string; pbo_RaisedAt : Time;
  pbo_ApprovedAt : option Time; pbo_CreatedAt : Time;
}.
Record PbExpense := mkPbExpense {
  pbx_Id : string; pbx_ProductionId : string; pbx_TenantId : string; pbx_BudgetLineId : string;
  pbx_PurchaseOrderId : string; pbx_CategoryId : string; pbx_Description : string;
  pbx_Amount : string; pbx_Currency : string; pbx_TaxAmount : string; pbx_Status : string;
  pbx_PartyId : string; pbx_SubmittedBy : string; pbx_ApprovedBy : string;
  pbx_RejectedBy : string; pbx_SubmittedAt : option Time; pbx_ApprovedAt : option Time;
  pbx_CreatedAt : Time; pbx_RejectionReason : string; pbx_RejectedAt : option Time;
}.
Record PbPettyCash := mkPbPettyCash {
  pbp_Id : string; pbp_ProductionId : string; pbp_TenantId : string; pbp_IssuedTo : string;
  pbp_Amount : string; pbp_Purpose : string; pbp_Status : string; pbp_IssuedAt : Time;
  pbp_SettledAt : option Time; pbp_UnspentAmount : string;
}.

Record PurchaseOrderReq := mkPOReq {
  rpo_ProductionId : string; rpo_Amount : string; rpo_Currency : string; rpo_PartyId : string;
  rpo_PoNumber : string; rpo_VendorName : string; rpo_VendorGstin : string;
  rpo_Description : string; rpo_BudgetLineId : string }.
Record ExpenseReq := mkExpenseReq {
  rex_ProductionId : string; rex_Amount : string; rex_Currency : string; rex_PartyId : string;
  rex_CategoryId : string; rex_Description : string; rex_BudgetLineId : string;
  rex_PurchaseOrderId : string }.
(** A list request; [rl_mine] is raised_by_me, submitted_by_me or issued_to_me. *)
Record ListReq := mkListReq {
  rl_PartyId : string; rl_mine : bool; rl_ProductionId : string; rl_Status : string;
  rl_Limit : Z }.

(** The RPCs of ExpenseService. *)
Inductive Rpc :=
| CreatePurchaseOrderRpc (r : PurchaseOrderReq)
| GetPurchaseOrderRpc (id : string)
| ListPurchaseOrdersRpc (r : ListReq)
| ApprovePurchaseOrderRpc (id : string)
| SubmitExpenseRpc (r : ExpenseReq)
| GetExpenseRpc (id : string)
| ListExpensesRpc (r : ListReq)
| ApproveExpenseRpc (id : string)
| RejectExpenseRpc (id reason : string)
| CreatePettyCashAdvanceRpc (production issuedTo amount purpose : string)
| GetPettyCashAdvanceRpc (id : string)
| ListPettyCashAdvancesRpc (r : ListReq)
| SettlePettyCashRpc (id unspent : string)
| GetExpenseCategoriesRpc
| GetApprovalLimitsRpc.

Inductive Response :=
| PurchaseOrderResp (p : PbPurchaseOrder)
| PurchaseOrdersResp (l : list PbPurchaseOrder)
| ExpenseResp (e : PbExpense)
| ExpensesResp (l : list PbExpense)
| PettyCashResp (p : PbPettyCash)
| PettyCashesResp (l : list PbPettyCash)
| CategoriesResp (l : list ExpenseCategory)
| LimitsResp (l : list (string * string)) (dualApprovalAbove : string).

(** [grpcErr]: the first case of its switch that [errors.Is] accepts. *)
Definition grpcErr (e : error EErr) : status :=
  let isE s := errors_Is e s in
  if isE ErrExpenseNotFound then mkStatus NotFound "expense not found"
  else if isE ErrPONotFound then mkStatus NotFound "purchase order not found"
  else if isE ErrAlreadyApproved || isE ErrAlreadyRejected || isE ErrAlreadySettled
  then mkStatus FailedPrecondition "expense is already approved"
  else if isE ErrNotApprovable then mkStatus FailedPrecondition "record is not in an approvable state"
  else if isE ErrUnspentExceedsAdvance then mkStatus InvalidArgument "unspent amount exceeds advance amount"
  else if isE ErrApprovalLimitExceeded then mkStatus FailedPrecondition "amount exceeds approval limit for role"
  else if isE ErrDualApprovalRequired then mkStatus FailedPrecondition "amount requires dual approval"
  else if isE ErrPORequired then mkStatus FailedPrecondition "purchase order required for this category"
  else if isE ErrInvalidCategory then mkStatus InvalidArgument "invalid expense category for this vertical"
  else if isE ErrInsufficientBudget then mkStatus FailedPrecondition "insufficient budget remaining"
  else if isE ErrNotAdvanceHolder then mkStatus PermissionDenied "caller is not the petty cash advance holder"
  else mkStatus Internal "internal error".

Section handler.
Context {X : External}.

(** The handler's collaborators: the service, the permission checker, the
    project-scoped RBAC flag, and the vertical loader of the interceptor,
    whose answers are fixed as long as the handler is. *)
Record Handler := mkHandler {
  h_svc : Expense.Service;
  h_perm : option PermissionChecker;
  h_scoped : bool;
  h_loader : uuid -> option Config;
}.

Abbreviation Op := (M St status) (only parsing).

Variable h : Handler.
Variable ctx : Ctx.
(** The configuration the interceptor stored. *)
Variable vcfg : option Config.

Definition svc {A} (m : M St (error EErr) A) : Op A := map_err grpcErr m.

Definition tenant_id : result status uuid :=
  match IDFromContext ctx with
  | Some t => Ok t
  | None => Err (mkStatus Unauthenticated "tenant ID not found in context")
  end.
Definition caller_info : result status CallerInfo :=
  match CallerFromContext ctx with
  | Some c => Ok c
  | None => Err (mkStatus Unauthenticated "caller identity not found in context")
  end.
Definition require (perm : string) : result status unit :=
  RequirePermission (h_scoped h) (h_perm h) ctx perm.
(** [decimal.NewFromString(s)] *)
Definition parse_amount (s text : string) : result status Dec :=
  match dec_of_string s with
  | Some d => Ok d
  | None => Err (mkStatus InvalidArgument text)
  end.
Definition parseOptionalPartyID (s : string) : result status (option uuid) :=
  parse_opt_id s "invalid party_id".
Definition default_currency (s : string) : string := if decide (s = "") then "INR" else s.

(** The owner's id of a list request: the caller's own with [mine], nil (no
    filter) with expense:read. *)
Definition list_scope (mine : bool) : result status uuid :=
  if mine then ActorFromRequest ctx ""
  else match require "expense:read" with Ok _ => Ok uuid_nil | Err e => Err e end.
Definition list_production (s : string) : result status uuid :=
  if decide (s = "") then Ok uuid_nil else parse_id s "invalid production ID".

(** [if caller.UserID == uuid.Nil || owner != caller.UserID { RequirePermission }] *)
Definition owner_or_read (caller : CallerInfo) (owner : uuid) : result status unit :=
  if bool_decide (ci_UserID caller = uuid_nil) || negb (bool_decide (owner = ci_UserID caller))
  then require "expense:read" else Ok tt.

(** ** Rendering *)

Definition partyIDString (id : option uuid) : string :=
  match id with Some i => uuid_string i | None => "" end.

Definition purchaseOrderToProto (p : PurchaseOrder) : PbPurchaseOrder :=
  mkPbPO (uuid_string (po_ID p)) (uuid_string (po_ProductionID p)) (uuid_string (po_TenantID p))
    (partyIDString (po_BudgetLineID p)) (po_PONumber p) (po_VendorName p) (po_VendorGSTIN p)
    (po_Description p) (dec_string_fixed2 (po_Amount p)) (po_Currency p) (po_Status p)
    (partyIDString (po_PartyID p)) (uuid_string (po_RaisedBy p)) (partyIDString (po_ApprovedBy p))
    (po_RaisedAt p) (po_ApprovedAt p) (po_CreatedAt p).

Definition expenseToProto (e : Expense) : PbExpense :=
  mkPbExpense (uuid_string (ex_ID e)) (uuid_string (ex_ProductionID e))
    (uuid_string (ex_TenantID e)) (partyIDString (ex_BudgetLineID e))
    (partyIDString (ex_PurchaseOrderID e)) (ex_CategoryID e) (ex_Description e)
    (dec_string_fixed2 (ex_Amount e)) (ex_Currency e) (dec_string_fixed2 (ex_TaxAmount e))
    (ex_Status e) (partyIDString (ex_PartyID e)) (uuid_string (ex_SubmittedBy e))
    (partyIDString (ex_ApprovedBy e)) (partyIDString (ex_RejectedBy e)) (ex_SubmittedAt e)
    (ex_ApprovedAt e) (ex_CreatedAt e)
    (match ex_RejectionReason e with Some r => r | None => "" end) (ex_RejectedAt e).

Definition pettyCashToProto (p : PettyCashAdvance) : PbPettyCash :=
  mkPbPettyCash (uuid_string (pc_ID p)) (uuid_string (pc_ProductionID p))
    (uuid_string (pc_TenantID p)) (uuid_string (pc_IssuedTo p)) (dec_string_fixed2 (pc_Amount p))
    (pc_Purpose p) (pc_Status p) (pc_IssuedAt p) (pc_SettledAt p)
    (dec_string_fixed2 (pc_UnspentAmount p)).

(** ** Purchase orders *)

Definition CreatePurchaseOrder (r : PurchaseOrderReq) : Op Response :=
  tenantID ← lift_result tenant_id;
  _ ← lift_result (require "expense:submit");
  caller ← lift_result caller_info;
  productionID ← lift_result (parse_id (rpo_ProductionId r) "invalid production ID");
  amount ← lift_result (parse_amount (rpo_Amount r) "invalid amount: must be a decimal string");
  partyID ← lift_result (parseOptionalPartyID (rpo_PartyId r));
  budgetLineID ← lift_result (parse_opt_id (rpo_BudgetLineId r) "invalid budget_line_id");
  po ← svc (Expense.CreatePurchaseOrder
              (mkPO uuid_nil productionID tenantID budgetLineID (rpo_PoNumber r) (rpo_VendorName r)
                 (rpo_VendorGstin r) (rpo_Description r) amount (default_currency (rpo_Currency r))
                 "" partyID (ci_UserID caller) None zero_time None zero_time));
  out ← svc (Expense.GetPurchaseOrder tenantID (po_ID po));
  mret (PurchaseOrderResp (purchaseOrderToProto out)).

Definition GetPurchaseOrder (id : string) : Op Response :=
  tenantID ← lift_result tenant_id;
  caller ← lift_result caller_info;
  poID ← lift_result (parse_id id "invalid purchase order ID");
  po ← svc (Expense.GetPurchaseOrder tenantID poID);
  _ ← lift_result (owner_or_read caller (po_RaisedBy po));
  mret (PurchaseOrderResp (purchaseOrderToProto po)).

Definition ListPurchaseOrders (r : ListReq) : Op Response :=
  tenantID ← lift_result tenant_id;
  if negb (bool_decide (rl_PartyId r = "")) then
    _ ← lift_result (require "expense:read");
    partyID ← lift_result (parse_id (rl_PartyId r) "invalid party_id");
    pos ← svc (Expense.ListPurchaseOrdersByParty tenantID partyID 0 0);
    mret (PurchaseOrdersResp (purchaseOrderToProto <$> pos))
  else
    raisedBy ← lift_result (list_scope (rl_mine r));
    productionID ← lift_result (list_production (rl_ProductionId r));
    pos ← svc (Expense.ListPurchaseOrders tenantID productionID (rl_Status r) (rl_Limit r) 0 raisedBy);
    mret (PurchaseOrdersResp (purchaseOrderToProto <$> pos)).

Definition ApprovePurchaseOrder (id : string) : Op Response :=
  tenantID ← lift_result tenant_id;
  _ ← lift_result (require "expense:approve");
  poID ← lift_result (parse_id id "invalid id");
  caller ← lift_result caller_info;
  cfg ← lift_result (MustFromContext vcfg);
  _ ← svc (Expense.ApprovePurchaseOrder cfg tenantID poID (ci_UserID caller) (ci_Roles caller));
  po ← svc (Expense.GetPurchaseOrder tenantID poID);
  mret (PurchaseOrderResp (purchaseOrderToProto po)).

(** ** Expenses *)

Definition SubmitExpense (r : ExpenseReq) : Op Response :=
  _ ← lift_result (require "expense:submit");
  tenantID ← lift_result tenant_id;
  caller ← lift_result caller_info;
  productionID ← lift_result (parse_id (rex_ProductionId r) "invalid production ID");
  amount ← lift_result (parse_amount (rex_Amount r) "invalid amount: must be a decimal string");
  partyID ← lift_result (parseOptionalPartyID (rex_PartyId r));
  budgetLineID ← lift_result (parse_opt_id (rex_BudgetLineId r) "invalid budget_line_id");
  poID ← lift_result (parse_opt_id (rex_PurchaseOrderId r) "invalid purchase_order_id");
  cfg ← lift_result (MustFromContext vcfg);
  e ← svc (Expense.SubmitExpense (h_svc h) cfg
             (mkExpense uuid_nil productionID tenantID budgetLineID poID (rex_CategoryId r)
                (rex_Description r) amount (default_currency (rex_Currency r)) dec_zero "" partyID
                (ci_UserID caller) None None None None zero_time None None));
  out ← svc (Expense.GetExpense tenantID (ex_ID e));
  mret (ExpenseResp (expenseToProto out)).

Definition GetExpense (id : string) : Op Response :=
  tenantID ← lift_result tenant_id;
  caller ← lift_result caller_info;
  expenseID ← lift_result (parse_id id "invalid expense ID");
  e ← svc (Expense.GetExpense tenantID expenseID);
  _ ← lift_result (owner_or_read caller (ex_SubmittedBy e));
  mret (ExpenseResp (expenseToProto e)).

Definition ListExpenses (r : ListReq) : Op Response :=
  tenantID ← lift_result tenant_id;
  if negb (bool_decide (rl_PartyId r = "")) then
    _ ← lift_result (require "expense:read");
    partyID ← lift_result (parse_id (rl_PartyId r) "invalid party_id");
    l ← svc (Expense.ListExpensesByParty tenantID partyID 0 0);
    mret (ExpensesResp (expenseToProto <$> l))
  else
    submittedBy ← lift_result (list_scope (rl_mine r));
    productionID ← lift_result (list_production (rl_ProductionId r));
    l ← svc (Expense.ListExpenses tenantID productionID (rl_Status r) (rl_Limit r) 0 submittedBy);
    mret (ExpensesResp (expenseToProto <$> l)).

Definition ApproveExpense (id : string) : Op Response :=
  tenantID ← lift_result tenant_id;
  _ ← lift_result (require "expense:approve");
  expenseID ← lift_result (parse_id id "invalid expense_id");
  caller ← lift_result caller_info;
  cfg ← lift_result (MustFromContext vcfg);
  _ ← svc (Expense.ApproveExpense (h_svc h) cfg tenantID expenseID (ci_UserID caller)
             (ci_Roles caller));
  e ← svc (Expense.GetExpense tenantID expenseID);
  mret (ExpenseResp (expenseToProto e)).

Definition RejectExpense (id reason : string) : Op Response :=
  tenantID ← lift_result tenant_id;
  _ ← lift_result (require "expense:approve");
  expenseID ← lift_result (parse_id id "invalid expense_id");
  if decide (TrimSpace reason = "")
  then mthrow (mkStatus InvalidArgument "reason must not be empty")
  else
    caller ← lift_result caller_info;
    _ ← svc (Expense.RejectExpense tenantID expenseID (ci_UserID caller) reason);
    e ← svc (Expense.GetExpense tenantID expenseID);
    mret (ExpenseResp (expenseToProto e)).

(** ** Petty cash *)

Definition CreatePettyCashAdvance (production issuedTo amount purpose : string) : Op Response :=
  _ ← lift_result (require "expense:submit");
  tenantID ← lift_result tenant_id;
  productionID ← lift_result (parse_id production "invalid production ID");
  holder ← lift_result (parse_id issuedTo "invalid issued_to: must be a valid UUID");
  amt ← lift_result (parse_amount amount "invalid amount: must be a decimal string");
  pc ← svc (Expense.CreatePettyCashAdvance
              (mkPettyCash uuid_nil productionID tenantID holder amt purpose "" zero_time None
                 dec_zero));
  out ← svc (Expense.GetPettyCashAdvance tenantID (pc_ID pc));
  mret (PettyCashResp (pettyCashToProto out)).

Definition GetPettyCashAdvance (id : string) : Op Response :=
  tenantID ← lift_result tenant_id;
  caller ← lift_result caller_info;
  advanceID ← lift_result (parse_id id "invalid petty cash advance ID");
  pc ← svc (Expense.GetPettyCashAdvance tenantID advanceID);
  _ ← lift_result (owner_or_read caller (pc_IssuedTo pc));
  mret (PettyCashResp (pettyCashToProto pc)).

Definition ListPettyCashAdvances (r : ListReq) : Op Response :=
  tenantID ← lift_result tenant_id;
  issuedTo ← lift_result (list_scope (rl_mine r));
  productionID ← lift_result (list_production (rl_ProductionId r));
  l ← svc (Expense.ListPettyCashAdvances tenantID productionID (rl_Status r) (rl_Limit r) 0 issuedTo);
  mret (PettyCashesResp (pettyCashToProto <$> l)).

(** [unspent.IsNegative()] *)
Definition parse_unspent (s : string) : result status Dec :=
  match parse_amount s "invalid unspent_amount: must be a decimal string" with
  | Err e => Err e
  | Ok d => if dec_greater dec_zero d
            then Err (mkStatus InvalidArgument "unspent_amount must not be negative") else Ok d
  end.

Definition SettlePettyCash (id unspent : string) : Op Response :=
  tenantID ← lift_result tenant_id;
  _ ← lift_result (require "expense:submit");
  advanceID ← lift_result (parse_id id "invalid id");
  amount ← lift_result (parse_unspent unspent);
  caller ← lift_result caller_info;
  _ ← svc (Expense.SettlePettyCash tenantID advanceID (ci_UserID caller) amount);
  pc ← svc (Expense.GetPettyCashAdvance tenantID advanceID);
  mret (PettyCashResp (pettyCashToProto pc)).

(** ** Vertical metadata *)

Definition GetExpenseCategories : Op Response :=
  cfg ← lift_result (MustFromContext vcfg);
  mret (CategoriesResp (Expense.GetExpenseCategories cfg)).

Definition GetApprovalLimits : Op Response :=
  cfg ← lift_result (MustFromContext vcfg);
  let wf := Expense.GetApprovalLimits cfg in
  mret (LimitsResp ((fun l => (al_Role l, dec_string_fixed2 (al_MaxAmount l))) <$> aw_Limits wf)
          (dec_string_fixed2 (aw_DualApprovalAbove wf))).

End handler.

(** ** Dispatch: the vertical interceptor, then the handler *)

Section dispatch.
Context {X : External}.
Variable h : Handler.
Variable ctx : Ctx.

Definition handle_rpc (vcfg : option Config) (r : Rpc) : M St status Response :=
  match r with
  | CreatePurchaseOrderRpc q => CreatePurchaseOrder h ctx q
  | GetPurchaseOrderRpc i => GetPurchaseOrder h ctx i
  | ListPurchaseOrdersRpc q => ListPurchaseOrders h ctx q
  | ApprovePurchaseOrderRpc i => ApprovePurchaseOrder h ctx vcfg i
  | SubmitExpenseRpc q => SubmitExpense h ctx vcfg q
  | GetExpenseRpc i => GetExpense h ctx i
  | ListExpensesRpc q => ListExpenses h ctx q
  | ApproveExpenseRpc i => ApproveExpense h ctx vcfg i
  | RejectExpenseRpc i s => RejectExpense h ctx i s
  | CreatePettyCashAdvanceRpc p i a s => CreatePettyCashAdvance h ctx p i a s
  | GetPettyCashAdvanceRpc i => GetPettyCashAdvance h ctx i
  | ListPettyCashAdvancesRpc q => ListPettyCashAdvances h ctx q
  | SettlePettyCashRpc i u => SettlePettyCash h ctx i u
  | GetExpenseCategoriesRpc => GetExpenseCategories vcfg
  | GetApprovalLimitsRpc => GetApprovalLimits vcfg
  end.

Definition handle (r : Rpc) : M St status Response :=
  vcfg ← lift_result (attachConfig (h_loader h) ctx);
  handle_rpc vcfg r.

End dispatch.
