(* ===== verification/ExpenseInv.v ===== *)
(** Expense tracking: how the tables may change.  [estep] is what the service's
    statements do to each row, whatever requests interleave; [handle_steps]
    shows that every RPC stays within a relation its statements stay within. *)

From S2P Require Export ExpenseModel.
From S2P Require ExpenseQueries ExpensePostgres Expense ExpenseHandler.
Local Open Scope Z_scope.

Section relation.
Context {X : External} {L : ExternalLaws}.

(** ** Rows *)

(** A purchase order with another status and approval. *)
Definition po_with (st : string) (ab : option uuid) (aa : option Time) (r : PurchaseOrderRow) :
    PurchaseOrderRow :=
  mkPORow (por_ID r) (por_ProductionID r) (por_TenantID r) (por_BudgetLineID r) (por_PoNumber r)
    (por_VendorName r) (por_VendorGstin r) (por_Description r) (por_Amount r) (por_Currency r) st
    (por_RaisedBy r) ab (por_RaisedAt r) aa (por_CreatedAt r) (por_PartyID r).

(** An expense with another status, approval and rejection. *)
Definition ex_with (st : string) (ab : option uuid) (sa aa : option Time) (rr : option string)
    (ra : option Time) (rb : option uuid) (r : ExpenseRow) : ExpenseRow :=
  mkExpenseRow (exr_ID r) (exr_ProductionID r) (exr_TenantID r) (exr_BudgetLineID r)
    (exr_PurchaseOrderID r) (exr_CategoryID r) (exr_Description r) (exr_Amount r)
    (exr_Currency r) (exr_TaxAmount r) st (exr_SubmittedBy r) ab sa aa (exr_CreatedAt r) rr ra rb
    (exr_PartyID r).

Definition pc_settled (at_ : option Time) (unspent : Dec) (r : PettyCashRow) : PettyCashRow :=
  mkPettyCashRow (pcr_ID r) (pcr_ProductionID r) (pcr_TenantID r) (pcr_IssuedTo r) (pcr_Amount r)
    (pcr_Purpose r) "settled" (pcr_IssuedAt r) at_ unspent.

(** A value the amount column can hold. *)
Definition stored (a : Dec) : Prop := dec_numeric_14_2 a = Some a.

(** The unspent amount is part of the advance. *)
Definition unspent_ok (r : PettyCashRow) : Prop :=
  (0 <= dec_val (pcr_UnspentAmount r))%Qc
  /\ (dec_val (pcr_UnspentAmount r) <= dec_val (pcr_Amount r))%Qc.

(** A row the petty-cash statements leave: issued with nothing returned yet, or
    settled with a part of the advance returned. *)
Definition advance_ok (r : PettyCashRow) : Prop :=
  stored (pcr_Amount r)
  /\ (pcr_Status r = "issued" /\ pcr_UnspentAmount r = dec_zero /\ pcr_SettledAt r = None
      \/ pcr_Status r = "settled" /\ is_Some (pcr_SettledAt r) /\ unspent_ok r).

(** ** Steps: [own] tells which tenants' rows may change, [auth] which amounts
    of a tenant may be approved *)
Variable own : uuid -> Prop.
Variable auth : uuid -> Dec -> Prop.

Definition po_chg (k : uuid) (o : option PurchaseOrderRow) (r' : PurchaseOrderRow) : Prop :=
  own (por_TenantID r')
  /\ match o with
     | None => por_ID r' = k /\ stored (por_Amount r')
               /\ (por_Status r' = "draft"
                   \/ por_Status r' = "approved" /\ auth (por_TenantID r') (por_Amount r'))
     | Some r => auth (por_TenantID r) (por_Amount r) /\ exists ab aa, r' = po_with "approved" ab aa r
     end.

Definition ex_chg (k : uuid) (o : option ExpenseRow) (r' : ExpenseRow) : Prop :=
  own (exr_TenantID r')
  /\ match o with
     | None => exr_ID r' = k /\ stored (exr_Amount r')
     | Some r => exists st ab sa aa rr ra rb, r' = ex_with st ab sa aa rr ra rb r
     end.

Definition pc_chg (k : uuid) (o : option PettyCashRow) (r' : PettyCashRow) : Prop :=
  own (pcr_TenantID r')
  /\ match o with
     | None => pcr_ID r' = k /\ advance_ok r'
     | Some r => (stored (pcr_Amount r) -> unspent_ok r')
                 /\ exists at_ u, is_Some at_ /\ r' = pc_settled at_ u r
     end.

Record estep (d d' : DB) : Prop := {
  es_pos : table_step po_chg (purchase_orders d) (purchase_orders d');
  es_expenses : table_step ex_chg (expenses d) (expenses d');
  es_petty : table_step pc_chg (petty_cash_advances d) (petty_cash_advances d');
}.

Lemma po_chg_trans k o r1 r2 : po_chg k o r1 -> po_chg k (Some r1) r2 -> po_chg k o r2.
Proof.
  intros [H1 H2] [H3 (Ha & ab & aa & ->)]. split; [done|]. destruct o as [r|].
  - destruct H2 as (Ha' & ab' & aa' & ->). split; [done|]. by exists ab, aa.
  - destruct H2 as (Hk & Hs & _). split; [done|]. split; [done|]. by right.
Qed.
Lemma ex_chg_trans k o r1 r2 : ex_chg k o r1 -> ex_chg k (Some r1) r2 -> ex_chg k o r2.
Proof.
  intros [H1 H2] [H3 (st & ab & sa & aa & rr & ra & rb & ->)]. split; [done|].
  destruct o as [r|]; [|done]. destruct H2 as (? & ? & ? & ? & ? & ? & ? & ->).
  by exists st, ab, sa, aa, rr, ra, rb.
Qed.
Lemma pc_chg_trans k o r1 r2 : pc_chg k o r1 -> pc_chg k (Some r1) r2 -> pc_chg k o r2.
Proof.
  intros [H1 H2] [H3 (Hu & at_ & u & Hat & ->)]. split; [done|]. destruct o as [r|].
  - destruct H2 as (Hu' & at' & u' & Hat' & ->). split; [done|]. by exists at_, u.
  - destruct H2 as [Hk [Hs _]]. split; [done|]. split; [done|]. right.
    split; [done|]. split; [done|by apply Hu].
Qed.

#[export] Instance estep_preorder : PreOrder estep.
Proof.
  pose proof (table_step_preorder po_chg_trans) as HP1.
  pose proof (table_step_preorder ex_chg_trans) as HP2.
  pose proof (table_step_preorder pc_chg_trans) as HP3.
  split; [by intros d; split|].
  intros d1 d2 d3 [H1 H2 H3] [H4 H5 H6].
  split; [by transitivity (purchase_orders d2)|by transitivity (expenses d2)
         |by transitivity (petty_cash_advances d2)].
Qed.

Lemma estep_pos d t : table_step po_chg (purchase_orders d) t -> estep d (set_pos t d).
Proof. intros H. split; [done|apply table_step_refl..]. Qed.
Lemma estep_expenses d t : table_step ex_chg (expenses d) t -> estep d (set_expenses t d).
Proof. intros H. split; [apply table_step_refl|done|apply table_step_refl]. Qed.
Lemma estep_petty d t : table_step pc_chg (petty_cash_advances d) t -> estep d (set_petty t d).
Proof. intros H. split; [apply table_step_refl..|done]. Qed.

(** ** Statements *)

Lemma CreatePurchaseOrder_estep now p d a d' :
  own (ExpenseQueries.cpo_TenantID p) ->
  ExpenseQueries.CreatePurchaseOrder now p d = Ok (a, d') -> estep d d'.
Proof.
  intros Ho. unfold ExpenseQueries.CreatePurchaseOrder. intros H.
  destruct (dec_numeric_14_2 _) as [amt|] eqn:Hn; [|done].
  repeat (case_match; simplify_eq; try done). bool_hyps.
  apply estep_pos, table_step_insert. rewrite free_key by done.
  split; [done|]. split; [done|]. split; [by eapply dec_numeric_stored|by left].
Qed.


(** The row an update finds has the amount [auth] was asked about. *)
Lemma UpdatePurchaseOrderStatus_estep now t id ab d a d' :
  own t ->
  (forall r, purchase_orders d !! id = Some r -> por_TenantID r = t -> auth t (por_Amount r)) ->
  ExpenseQueries.UpdatePurchaseOrderStatus now t id "approved" ab d = Ok (a, d') -> estep d d'.
Proof.
  unfold ExpenseQueries.UpdatePurchaseOrderStatus, ExpenseQueries.GetPurchaseOrder.
  intros Ho Ha H. destruct (get_row _ _ _) as [r|] eqn:Hg; [|done].
  apply get_row_tenant in Hg as [Hr Ht]. simpl in H. simplify_eq.
  apply estep_pos, table_step_insert. rewrite Hr. split; [done|]. split; [by apply Ha|].
  by exists ab, (Some now).
Qed.

Lemma CreateExpense_estep now p d a d' :
  own (ExpenseQueries.cex_TenantID p) ->
  ExpenseQueries.CreateExpense now p d = Ok (a, d') -> estep d d'.
Proof.
  intros Ho. unfold ExpenseQueries.CreateExpense. intros H.
  destruct (dec_numeric_14_2 (ExpenseQueries.cex_Amount p)) as [amt|] eqn:Hn; [|done].
  repeat (case_match; simplify_eq; try done); bool_hyps;
    (apply estep_expenses, table_step_insert; rewrite free_key by done;
     split; [done|]; split; [done|]; by eapply dec_numeric_stored).
Qed.

Lemma UpdateExpenseStatus_estep now t id st ab d a d' :
  own t -> ExpenseQueries.UpdateExpenseStatus now t id st ab d = Ok (a, d') -> estep d d'.
Proof.
  unfold ExpenseQueries.UpdateExpenseStatus, ExpenseQueries.GetExpense.
  intros Ho H. destruct (get_row _ _ _) as [r|] eqn:Hg; [|done].
  apply get_row_tenant in Hg as [Hr Ht]. destruct (negb _); simplify_eq.
  apply estep_expenses, table_step_insert. rewrite Hr. split; [done|]. by repeat eexists.
Qed.

Lemma RejectExpense_estep now t id rr rb d a d' :
  own t -> ExpenseQueries.RejectExpense now t id rr rb d = Ok (a, d') -> estep d d'.
Proof.
  unfold ExpenseQueries.RejectExpense, ExpenseQueries.GetExpense.
  intros Ho H. destruct (get_row _ _ _) as [r|] eqn:Hg; [|done].
  apply get_row_tenant in Hg as [Hr Ht]. simplify_eq.
  apply estep_expenses, table_step_insert. rewrite Hr. split; [done|]. by repeat eexists.
Qed.

Lemma CreatePettyCashAdvance_estep now id p t i amt s d a d' :
  own t -> ExpenseQueries.CreatePettyCashAdvance now id p t i amt s d = Ok (a, d') -> estep d d'.
Proof.
  intros Ho. unfold ExpenseQueries.CreatePettyCashAdvance. intros H.
  destruct (dec_numeric_14_2 _) as [amt'|] eqn:Hn; [|done].
  case_match; simplify_eq. bool_hyps.
  apply estep_petty, table_step_insert. rewrite free_key by done.
  split; [done|]. split; [done|]. split; [by eapply dec_numeric_stored|by left].
Qed.

Lemma SettlePettyCashAdvance_Ok now t id u d a d' :
  ExpenseQueries.SettlePettyCashAdvance now t id "settled" u d = Ok (a, d') ->
  exists r u', petty_cash_advances d !! id = Some r /\ pcr_TenantID r = t
    /\ dec_numeric_14_2 u = Some u' /\ a = pc_settled (Some now) u' r
    /\ d' = set_petty (<[id := pc_settled (Some now) u' r]> (petty_cash_advances d)) d.
Proof.
  unfold ExpenseQueries.SettlePettyCashAdvance, ExpenseQueries.GetPettyCashAdvance.
  intros H. destruct (get_row _ _ _) as [r|] eqn:Hg; [|done].
  apply get_row_tenant in Hg as [Hr Ht]. destruct (dec_numeric_14_2 u) as [u'|] eqn:Hn; [|done].
  simpl in H. simplify_eq. eauto 10.
Qed.

(** The settlement's amount was checked against the advance's. *)
Lemma SettlePettyCashAdvance_estep now t id u d a d' :
  own t -> dec_greater dec_zero u = false ->
  (forall r, petty_cash_advances d !! id = Some r -> pcr_TenantID r = t ->
     dec_greater u (pcr_Amount r) = false) ->
  ExpenseQueries.SettlePettyCashAdvance now t id "settled" u d = Ok (a, d') -> estep d d'.
Proof.
  intros Ho Hz Hu (r & u' & Hr & Ht & Hn & -> & ->)%SettlePettyCashAdvance_Ok.
  specialize (Hu r Hr Ht). subst t.
  apply estep_petty, table_step_insert. rewrite Hr. split; [done|]. split.
  - intros Hs. split; simpl.
    + eapply dec_numeric_sign; [done|]. rewrite <-dec_val_zero. by apply dec_not_greater.
    + eapply dec_numeric_mono; [done..|]. by apply dec_not_greater.
  - exists (Some now), u'. by split; [eexists|].
Qed.

(** ** What stays *)

Lemma estep_po d d' k r r' :
  estep d d' -> purchase_orders d !! k = Some r -> purchase_orders d' !! k = Some r' ->
  por_Amount r' = por_Amount r.
Proof.
  intros [Hs _ _] Hr Hr'. destruct (table_step_some _ _ _ _ Hs Hr) as (r1 & Hr1 & Hq).
  rewrite Hr' in Hr1. injection Hr1 as <-. destruct Hq as [->|[_ (_ & ab & aa & ->)]]; done.
Qed.
Lemma estep_pc d d' k r r' :
  estep d d' -> petty_cash_advances d !! k = Some r -> petty_cash_advances d' !! k = Some r' ->
  pcr_Amount r' = pcr_Amount r.
Proof.
  intros [_ _ Hs] Hr Hr'. destruct (table_step_some _ _ _ _ Hs Hr) as (r1 & Hr1 & Hq).
  rewrite Hr' in Hr1. injection Hr1 as <-. destruct Hq as [->|[_ (_ & ab & aa & _ & ->)]]; done.
Qed.

(** ** Keys *)

(** The key of a row is its id column. *)
Record keyed (d : DB) : Prop := {
  keyed_pos : map_Forall (fun k r => por_ID r = k) (purchase_orders d);
  keyed_expenses : map_Forall (fun k r => exr_ID r = k) (expenses d);
  keyed_petty : map_Forall (fun k r => pcr_ID r = k) (petty_cash_advances d);
}.

Lemma keyed_estep d d' : estep d d' -> keyed d -> keyed d'.
Proof.
  intros [H1 H2 H3] [K1 K2 K3].
  split; [eapply table_step_forall, K1; [|exact H1]|eapply table_step_forall, K2; [|exact H2]
         |eapply table_step_forall, K3; [|exact H3]]; intros k o r' [_ HQ] Ho; destruct o as [r|].
  - destruct HQ as (_ & ab & aa & ->). exact (Ho _ eq_refl).
  - by destruct HQ.
  - destruct HQ as (? & ? & ? & ? & ? & ? & ? & ->). exact (Ho _ eq_refl).
  - by destruct HQ.
  - destruct HQ as (_ & ? & ? & _ & ->). exact (Ho _ eq_refl).
  - by destruct HQ.
Qed.

End relation.

(** ** Programs *)

Section programs.
Context {X : External}.

(** A relation the statements of a request of the caller's tenant respect, and
    a condition on the tables it keeps. *)
Context {R : DB -> DB -> Prop} `{!PreOrder R}.
Variable I : DB -> Prop.
Hypothesis HI : forall d d', R d d' -> I d -> I d'.
Variable h : ExpenseHandler.Handler.
Variable ctx : Ctx.
Variable t : uuid.

Hypothesis HCreatePurchaseOrder : forall now p d a d', ExpenseQueries.cpo_TenantID p = t ->
  ExpenseQueries.CreatePurchaseOrder now p d = Ok (a, d') -> R d d'.
Hypothesis HCreateExpense : forall now p d a d', ExpenseQueries.cex_TenantID p = t ->
  ExpenseQueries.CreateExpense now p d = Ok (a, d') -> R d d'.
Hypothesis HRejectExpense : forall now id rr rb d a d',
  ExpenseQueries.RejectExpense now t id rr rb d = Ok (a, d') -> R d d'.
Hypothesis HCreatePettyCash : forall now id p i amt s d a d',
  ExpenseQueries.CreatePettyCashAdvance now id p t i amt s d = Ok (a, d') -> R d d'.
Hypothesis HApproveExpense : forall s cfg id u roles w, I (store_db (w_st w)) ->
  ExpenseHandler.h_loader h t = Some cfg ->
  steps (store_step R) (Expense.ApproveExpense s cfg t id u roles) w.
Hypothesis HApprovePurchaseOrder : forall cfg id u roles w, I (store_db (w_st w)) ->
  ExpenseHandler.h_loader h t = Some cfg ->
  steps (store_step R) (Expense.ApprovePurchaseOrder cfg t id u roles) w.
Hypothesis HSettlePettyCash : forall id u amt w, I (store_db (w_st w)) ->
  dec_greater dec_zero amt = false ->
  steps (store_step R) (Expense.SettlePettyCash t id u amt) w.

Lemma HI_run (s s' : St) : store_step R s s' -> I (store_db s) -> I (store_db s').
Proof. intros [H _]. by apply HI. Qed.

(** The service calls that only read. *)
Ltac read_steps := repeat (steps_tac; try done; try apply steps_store_query).

Lemma steps_GetPO tn id w : steps (store_step R) (Expense.GetPurchaseOrder tn id) w.
Proof. unfold Expense.GetPurchaseOrder, ExpensePostgres.GetPurchaseOrder. read_steps. Qed.
Lemma steps_GetExpense tn id w : steps (store_step R) (Expense.GetExpense tn id) w.
Proof. unfold Expense.GetExpense, ExpensePostgres.GetExpense. read_steps. Qed.
Lemma steps_GetPC tn id w : steps (store_step R) (Expense.GetPettyCashAdvance tn id) w.
Proof. unfold Expense.GetPettyCashAdvance, ExpensePostgres.GetPettyCashAdvance. read_steps. Qed.
Lemma steps_ListPOs tn p s l o u w :
  steps (store_step R) (Expense.ListPurchaseOrders tn p s l o u) w.
Proof. unfold Expense.ListPurchaseOrders, ExpensePostgres.ListPurchaseOrders. read_steps. Qed.
Lemma steps_ListPOsByParty tn p l o w :
  steps (store_step R) (Expense.ListPurchaseOrdersByParty tn p l o) w.
Proof.
  unfold Expense.ListPurchaseOrdersByParty, ExpensePostgres.ListPurchaseOrdersByParty. read_steps.
Qed.
Lemma steps_ListExpenses tn p s l o u w :
  steps (store_step R) (Expense.ListExpenses tn p s l o u) w.
Proof. unfold Expense.ListExpenses, ExpensePostgres.ListExpenses. read_steps. Qed.
Lemma steps_ListExpensesByParty tn p l o w :
  steps (store_step R) (Expense.ListExpensesByParty tn p l o) w.
Proof. unfold Expense.ListExpensesByParty, ExpensePostgres.ListExpensesByParty. read_steps. Qed.
Lemma steps_ListPCs tn p s l o u w :
  steps (store_step R) (Expense.ListPettyCashAdvances tn p s l o u) w.
Proof. unfold Expense.ListPettyCashAdvances, ExpensePostgres.ListPettyCashAdvances. read_steps. Qed.

(** The service calls that write. *)
Lemma steps_CreatePO po w :
  po_TenantID po = t -> steps (store_step R) (Expense.CreatePurchaseOrder po) w.
Proof.
  intros Ht. unfold Expense.CreatePurchaseOrder, Expense.genPONumber,
    ExpensePostgres.CreatePurchaseOrder.
  repeat (steps_tac; try apply steps_store_exec). eapply HCreatePurchaseOrder; [|eassumption]. done.
Qed.
Lemma steps_SubmitExpense s cfg e w :
  ex_TenantID e = t -> steps (store_step R) (Expense.SubmitExpense s cfg e) w.
Proof.
  intros Ht. unfold Expense.SubmitExpense, Expense.publish, ExpensePostgres.CreateExpense.
  repeat (steps_tac; try apply steps_store_exec; try apply steps_emit);
    (eapply HCreateExpense; [|eassumption]; done).
Qed.
Lemma steps_RejectExpense id u r w :
  steps (store_step R) (Expense.RejectExpense t id u r) w.
Proof.
  unfold Expense.RejectExpense, ExpensePostgres.GetExpense, ExpensePostgres.RejectExpense.
  repeat (steps_tac; try apply steps_store_query; try apply steps_store_exec).
  by eapply HRejectExpense.
Qed.
Lemma steps_CreatePC pc w :
  pc_TenantID pc = t -> steps (store_step R) (Expense.CreatePettyCashAdvance pc) w.
Proof.
  intros Ht. unfold Expense.CreatePettyCashAdvance, ExpensePostgres.CreatePettyCashAdvance.
  repeat (steps_tac; try apply steps_store_exec).
  match goal with H : _ = Ok (_, ?d') |- R _ ?d' => simpl in H; rewrite Ht in H end.
  by eapply HCreatePettyCash.
Qed.

Lemma tenant_id_Ok u (w : World St) w' :
  lift_result (ExpenseHandler.tenant_id ctx) w = (Ok u, w') -> IDFromContext ctx = Some u.
Proof.
  intros [H _]%lift_Ok. unfold ExpenseHandler.tenant_id in H.
  destruct (IDFromContext ctx); [|done]. by injection H as ->.
Qed.
Lemma MustFromContext_Ok vcfg c (w : World St) w' :
  lift_result (MustFromContext vcfg) w = (Ok c, w') -> vcfg = Some c.
Proof. intros [H _]%lift_Ok. destruct vcfg; [by injection H as ->|done]. Qed.
Lemma parse_unspent_Ok s a (w : World St) w' :
  lift_result (ExpenseHandler.parse_unspent s) w = (Ok a, w') -> dec_greater dec_zero a = false.
Proof.
  intros [H _]%lift_Ok. unfold ExpenseHandler.parse_unspent in H.
  repeat (case_match; try done). by injection H as <-.
Qed.

Hypothesis Ht : forall t', IDFromContext ctx = Some t' -> t' = t.

(** A service call of a handler: what its guards established, then its lemma. *)
Ltac leaf Hcfg :=
  repeat match goal with
  | H : lift_result (ExpenseHandler.tenant_id ctx) _ = (Ok ?u, _) |- _ =>
      apply tenant_id_Ok in H; pose proof (Ht _ H); subst u
  | H : lift_result (MustFromContext _) _ = _ |- _ => apply MustFromContext_Ok in H
  | H : lift_result (ExpenseHandler.parse_unspent _) _ = _ |- _ => apply parse_unspent_Ok in H
  end;
  first
  [ apply steps_GetPO | apply steps_GetExpense | apply steps_GetPC | apply steps_ListPOs
  | apply steps_ListPOsByParty | apply steps_ListExpenses | apply steps_ListExpensesByParty
  | apply steps_ListPCs | apply steps_RejectExpense
  | apply steps_CreatePO; reflexivity | apply steps_SubmitExpense; reflexivity
  | apply steps_CreatePC; reflexivity
  | eapply HApproveExpense; [|by eapply Hcfg] | eapply HApprovePurchaseOrder; [|by eapply Hcfg]
  | eapply HSettlePettyCash; [|done] ];
  eauto 10 using HI_run.

Lemma handle_steps r w :
  I (store_db (w_st w)) -> steps (store_step R) (ExpenseHandler.handle h ctx r) w.
Proof.
  intros HIw. unfold ExpenseHandler.handle. apply steps_bind; [apply steps_lift|].
  intros vcfg w1 [Hv ->]%lift_Ok _ _ _.
  assert (Hcfg : forall c u, vcfg = Some c -> IDFromContext ctx = Some u ->
                             ExpenseHandler.h_loader h u = Some c).
  { intros c u -> Hu. unfold attachConfig in Hv. rewrite Hu in Hv.
    destruct (ExpenseHandler.h_loader h u); by simplify_eq. }
  destruct r; simpl;
    unfold ExpenseHandler.CreatePurchaseOrder, ExpenseHandler.GetPurchaseOrder,
      ExpenseHandler.ListPurchaseOrders, ExpenseHandler.ApprovePurchaseOrder,
      ExpenseHandler.SubmitExpense, ExpenseHandler.GetExpense, ExpenseHandler.ListExpenses,
      ExpenseHandler.ApproveExpense, ExpenseHandler.RejectExpense,
      ExpenseHandler.CreatePettyCashAdvance, ExpenseHandler.GetPettyCashAdvance,
      ExpenseHandler.ListPettyCashAdvances, ExpenseHandler.SettlePettyCash,
      ExpenseHandler.GetExpenseCategories, ExpenseHandler.GetApprovalLimits, ExpenseHandler.svc.
  all: steps_tac; leaf Hcfg.
Qed.

End programs.

(** ** Every RPC moves the tables along [estep] *)

Section handle.
Context {X : External} {L : ExternalLaws}.
Variable own : uuid -> Prop.
Variable h : ExpenseHandler.Handler.

(** Some approver has the authority over an amount under the tenant's
    configuration. *)
Definition approvable (t : uuid) (amount : Dec) : Prop :=
  exists cfg roles, ExpenseHandler.h_loader h t = Some cfg
    /\ Expense.check_authority (cfg_ApprovalWorkflow cfg) roles amount = Ok tt.

Abbreviation step := (estep own approvable) (only parsing).

Lemma ApprovePurchaseOrder_steps cfg t id u roles (w : World St) :
  own t -> keyed (store_db (w_st w)) -> ExpenseHandler.h_loader h t = Some cfg ->
  steps (store_step step) (Expense.ApprovePurchaseOrder cfg t id u roles) w.
Proof.
  intros Ho Hk Hc. unfold Expense.ApprovePurchaseOrder, ExpensePostgres.GetPurchaseOrder,
    ExpensePostgres.UpdatePurchaseOrder.
  apply steps_bind; [repeat (steps_tac; try apply steps_store_query)|].
  intros po w1 Hg HR _ _. apply wrap_Ok, bind_Ok in Hg as (row & w2 & Hq & Hret).
  apply map_err_Ok, (store_query_Ok (R:=step)) in Hq as (Hs & Hq & _); [|done].
  apply ret_Ok in Hret as [-> ->]. apply get_row_tenant in Hq as [Hrow Htn].
  assert (Hid : por_ID row = id) by (by apply (keyed_estep _ _ _ _ (proj1 Hs) Hk)).
  steps_tac. apply steps_store_exec_from. intros d b d' Hd Hup.
  eapply UpdatePurchaseOrderStatus_estep; [| |exact Hup]; [simpl; congruence|].
  simpl. intros r Hr Htr. rewrite Hid in Hr.
  rewrite (estep_po own approvable (store_db (w_st w2)) d id row r); [|step_chain|done..].
  exists cfg, roles. split; [by rewrite Htn|].
  match goal with H : lift_result (Expense.check_authority _ _ _) _ = _ |- _ =>
    apply lift_Ok in H as [H _]; destruct a0; exact H end.
Qed.

Lemma ApproveExpense_steps s cfg t id u roles (w : World St) :
  own t -> steps (store_step step) (Expense.ApproveExpense s cfg t id u roles) w.
Proof.
  intros Ho. unfold Expense.ApproveExpense, Expense.publish, ExpensePostgres.GetExpense,
    ExpensePostgres.UpdateExpense.
  apply steps_bind; [repeat (steps_tac; try apply steps_store_query)|].
  intros e w1 Hg HR _ _. apply wrap_Ok, bind_Ok in Hg as (row & w2 & Hq & Hret).
  apply map_err_Ok, (store_query_Ok (R:=step)) in Hq as (_ & Hq & _); [|done].
  apply ret_Ok in Hret as [-> ->]. apply get_row_tenant in Hq as [Hrow Htn].
  repeat (steps_tac; try apply steps_store_exec; try apply steps_emit).
  eapply UpdateExpenseStatus_estep; [|eassumption]. simpl. congruence.
Qed.

Lemma SettlePettyCash_steps t id u amt (w : World St) :
  own t -> keyed (store_db (w_st w)) -> dec_greater dec_zero amt = false ->
  steps (store_step step) (Expense.SettlePettyCash t id u amt) w.
Proof.
  intros Ho Hk Hz. unfold Expense.SettlePettyCash, ExpensePostgres.GetPettyCashAdvance,
    ExpensePostgres.UpdatePettyCashAdvance.
  apply steps_bind; [repeat (steps_tac; try apply steps_store_query)|].
  intros pc w1 Hg HR _ _. apply wrap_Ok, bind_Ok in Hg as (row & w2 & Hq & Hret).
  apply map_err_Ok, (store_query_Ok (R:=step)) in Hq as (Hs & Hq & _); [|done].
  apply ret_Ok in Hret as [-> ->]. apply get_row_tenant in Hq as [Hrow Htn].
  assert (Hid : pcr_ID row = id) by (by apply (keyed_estep _ _ _ _ (proj1 Hs) Hk)).
  steps_tac. apply steps_store_exec_from. intros d b d' Hd Hup.
  eapply SettlePettyCashAdvance_estep; [|exact Hz| |exact Hup]; [simpl; congruence|].
  simpl. intros r Hr Htr. rewrite Hid in Hr.
  rewrite (estep_pc own approvable (store_db (w_st w2)) d id row r); [done|step_chain|done..].
Qed.

(** A request whose tenant, if it has one, may change its rows. *)
Lemma handle_estep ctx r (w : World St) :
  (exists t, own t /\ forall t', IDFromContext ctx = Some t' -> t' = t) ->
  keyed (store_db (w_st w)) -> steps (store_step step) (ExpenseHandler.handle h ctx r) w.
Proof.
  intros (t & Ho & Ht) Hk.
  apply (handle_steps keyed (keyed_estep own approvable) h ctx t); try done; intros.
  - eapply CreatePurchaseOrder_estep; [|eassumption]. congruence.
  - eapply CreateExpense_estep; [|eassumption]. congruence.
  - by eapply RejectExpense_estep.
  - by eapply CreatePettyCashAdvance_estep.
  - by apply ApproveExpense_steps.
  - by apply ApprovePurchaseOrder_steps.
  - by apply SettlePettyCash_steps.
Qed.

End handle.
