(* ===== verification/ExpenseProps.v ===== *)
(** Expense tracking: a concrete service on the reference libraries, whose runs
    the witnesses evaluate. *)

From S2P Require Export ExpenseModel ExpenseInv.
From S2P Require ExpensePostgres Expense ExpenseHandler ExpenseQueries.
Local Open Scope Z_scope.

(** Two film tenants (7 and 8) with the same configuration: travel needs a
    purchase order, an accountant approves up to 500 and a manager up to 2000,
    and nobody alone above 1000.  UUIDs count up from 100. *)
Module ExpDemo.

#[local] Existing Instance ref_external.

Definition config : Config :=
  mkConfig "film" "Film" "1" "" (mkEntityLabels "" "" "" "" "" "" "" "") []
    [] [] [mkExpenseCategory "props" "Props" "none" "6000" false;
           mkExpenseCategory "travel" "Travel" "none" "6100" true]
    (mkApprovalWorkflow [mkApprovalLimit "accountant" 500000; mkApprovalLimit "manager" 2000000]
       1000000)
    [] [] (mkCustomFields [] []) [] ∅.

Definition caller (user t : uuid) (roles : list string) : Ctx :=
  mkCtx (Some (mkCaller user t 0%N "a@b.co" roles [] "")).
(** Users 9 and below may do anything; the others may only submit. *)
Definition perms : PermissionChecker := fun u p _ =>
  Ok (bool_decide (u <= 9)%N || bool_decide (p = "expense:submit")).
Definition handler : ExpenseHandler.Handler :=
  ExpenseHandler.mkHandler (Expense.mkService true) (Some perms) false (fun _ => Some config).
Definition env : Env :=
  mkEnv (fun n => 100 + N.of_nat n)%N 0 (fun n => 1700000000 * ns_per_sec + Z.of_nat n) 0
    (fun _ => false) 0 0.
Definition world (s : St) : World (St) := mkWorld s env (fun _ s => s) [].

(** Runs RPCs one after the other, each for its caller. *)
Fixpoint run (rs : list (Ctx * ExpenseHandler.Rpc)) (w : World (St)) :
    World (St) :=
  match rs with
  | [] => w
  | (c, r) :: rs' => run rs' (ExpenseHandler.handle handler c r w).2
  end.

Definition manager : Ctx := caller 9 7 ["manager"].
Definition accountant : Ctx := caller 8 7 ["accountant"].
Definition member : Ctx := caller 20 7 [].

Definition raise_po (number amount : string) : ExpenseHandler.Rpc :=
  ExpenseHandler.CreatePurchaseOrderRpc
    (ExpenseHandler.mkPOReq "1" amount "" "" number "Acme" "" "" "").
Definition submit (category po amount : string) : ExpenseHandler.Rpc :=
  ExpenseHandler.SubmitExpenseRpc
    (ExpenseHandler.mkExpenseReq "1" amount "" "" category "taxi" "" po).

(** The member's purchase order 100 of 800, expense 101 against it, expense 102
    of 40, and an advance 103 of 300 to the member. *)
Definition setup : list (Ctx * ExpenseHandler.Rpc) :=
  [(member, raise_po "PO-1" "800"); (member, submit "travel" "100" "120");
   (member, submit "props" "" "40");
   (manager, ExpenseHandler.CreatePettyCashAdvanceRpc "1" "20" "300" "tea")].
Definition ready : World (St) := run setup (world empty_st).

(** The purchase order approved by the manager, and the advance settled with 45
    returned. *)
Definition done_ : World (St) :=
  run [(manager, ExpenseHandler.ApprovePurchaseOrderRpc "100");
       (member, ExpenseHandler.SettlePettyCashRpc "103" "45")] ready.

Definition approved_row : PurchaseOrderRow :=
  mkPORow 100 1 7 None "PO-1" "Acme" None None 800000 "INR" "approved" 20 (Some 9%N)
    1700000000000000000 (Some 1700000000000000005) 1700000000000000000 None.
Definition settled_row : PettyCashRow :=
  mkPettyCashRow 103 1 7 20 300000 "tea" "settled" 1700000000000000003
    (Some 1700000000000000007) 45000.

End ExpDemo.

(** Expense tracking: the states the service can reach, whatever requests
    interleave, and what holds in all of them: no purchase order above the
    dual-approval threshold is approved, a settled advance returned a part of
    it, and no expense is ever approved, because none is ever stored as
    submitted. *)

Local Open Scope Z_scope.

(** ** Approval authority *)

Section authority.
Context {X : External} {L : ExternalLaws}.

(** Someone with these roles may approve the amount alone. *)
Definition within_authority (w : ApprovalWorkflow) (roles : list string) (amount : Dec) : Prop :=
  (dec_val amount <= dec_val (aw_DualApprovalAbove w))%Qc
  /\ ("super_admin" ∈ roles
      \/ exists role limit, role ∈ roles /\ LimitForRole w role = Some limit
                            /\ (dec_val amount <= dec_val limit)%Qc).

Lemma hasSuperAdmin_spec roles : Expense.hasSuperAdmin roles = true <-> "super_admin" ∈ roles.
Proof.
  unfold Expense.hasSuperAdmin. rewrite existsb_exists. setoid_rewrite <-list_elem_of_In.
  split; [intros (r & Hr & He); bool_hyps; by subst|]. intros H. exists "super_admin". by split.
Qed.

Lemma check_authority_spec w roles amount :
  Expense.check_authority w roles amount = Ok tt <-> within_authority w roles amount.
Proof.
  unfold Expense.check_authority, within_authority, MaxLimitForRoles. cbv zeta.
  assert (Hdual : (if dec_greater amount (aw_DualApprovalAbove w)
      then Err (EWrap "%w: %s exceeds dual approval threshold %s" (ESent ErrDualApprovalRequired))
      else Ok tt) = Ok tt <-> (dec_val amount <= dec_val (aw_DualApprovalAbove w))%Qc).
  { rewrite <-dec_not_greater. by destruct (dec_greater _ _). }
  pose proof (max_limit_spec w roles None) as Hmax. pose proof (hasSuperAdmin_spec roles) as Hsup.
  destruct (Expense.hasSuperAdmin roles).
  { rewrite Hdual. split; [intros H; split; [done|left; by apply Hsup]|by intros [H _]]. }
  assert (Hno : ~ "super_admin" ∈ roles) by (by rewrite <-Hsup).
  destruct (max_limit w None roles) as [m|].
  - destruct Hmax as ([?|(r & Hr & Hm)] & _ & Hle); [done|]. split.
    + destruct (dec_greater amount m) eqn:Hg; [done|]. rewrite Hdual. apply dec_not_greater in Hg.
      intros H. split; [done|]. right. eauto.
    + intros [Hd [?|(r' & l & Hr' & Hl & Hal)]]; [done|].
      rewrite (proj2 (dec_not_greater amount m)); [by apply Hdual|].
      eapply Qcle_trans; [exact Hal|by eapply Hle].
  - split; [done|]. intros [_ [?|(r' & l & Hr' & Hl & _)]]; [done|].
    destruct Hmax as [_ Hn]. by rewrite (Hn _ Hr') in Hl.
Qed.

(** The limit a caller gets is the highest one configured for any of its
    roles: it is the limit of one of the roles, no role has a higher one, and
    there is none exactly when no role has one. *)
Theorem max_limit_greatest (w : ApprovalWorkflow) (roles : list string) :
  match MaxLimitForRoles w roles with
  | Some m => (exists r, r ∈ roles /\ LimitForRole w r = Some m)
              /\ forall r l, r ∈ roles -> LimitForRole w r = Some l -> (dec_val l <= dec_val m)%Qc
  | None => forall r, r ∈ roles -> LimitForRole w r = None
  end.
Proof.
  pose proof (max_limit_spec w roles None) as H. unfold MaxLimitForRoles.
  destruct (max_limit w None roles) as [m|].
  - destruct H as ([?|Hr] & _ & Hle); [done|]. by split.
  - by destruct H.
Qed.

End authority.

(** ** Reachable states *)

Section system.
Context {X : External} {L : ExternalLaws}.
Variable h : ExpenseHandler.Handler.

(** How an expense's status moves. *)
Definition ex_new (_ : uuid) (o : option ExpenseRow) (r' : ExpenseRow) : Prop :=
  exr_Status r' = "rejected" \/ o = None /\ exr_Status r' = "draft".
Definition new_expenses (d d' : DB) : Prop := table_step ex_new (expenses d) (expenses d').

#[export] Instance new_expenses_preorder : PreOrder new_expenses.
Proof.
  assert (HP : PreOrder (table_step ex_new)).
  { apply table_step_preorder. intros k o r1 r2 _ [H|[? _]]; [by left|done]. }
  split; [intros d; apply HP|]. intros d1 d2 d3. unfold new_expenses. apply HP.
Qed.

(** What the requests of the service do to the tables. *)
Definition system_step (d d' : DB) : Prop :=
  estep (fun _ => True) (approvable h) d d' /\ new_expenses d d'.

(** From the empty tables, after any RPC and between any two of its statements,
    while other requests that respect [system_step] run beside it. *)
Inductive reachable : St -> Prop :=
| reach_empty : reachable empty_st
| reach_rpc ctx r w :
    reachable (w_st w) -> rely (store_step system_step) w ->
    reachable (w_st (ExpenseHandler.handle h ctx r w).2)
| reach_statement s s' ctx r w :
    reachable (w_st w) -> reachable s -> rely (store_step system_step) w -> w_log w = [] ->
    (s, s') ∈ w_log (ExpenseHandler.handle h ctx r w).2 -> reachable s'.

Lemma rely_estep (w : World St) :
  rely (store_step system_step) w -> rely (store_step (estep (fun _ => True) (approvable h))) w.
Proof. intros HR n s. destruct (HR n s) as [[H _] He]. by split. Qed.
Lemma rely_new (w : World St) :
  rely (store_step system_step) w -> rely (store_step new_expenses) w.
Proof. intros HR n s. destruct (HR n s) as [[_ H] He]. by split. Qed.

(** Every stored expense is a draft or rejected. *)
Definition unapproved (d : DB) : Prop :=
  map_Forall (fun _ r => exr_Status r = "draft" \/ exr_Status r = "rejected") (expenses d).

Lemma unapproved_new d d' : new_expenses d d' -> unapproved d -> unapproved d'.
Proof.
  apply table_step_forall. intros k o r [H|[_ H]] _; [by right|by left].
Qed.

(** Statements on the other tables. *)
Lemma new_expenses_same d d' : expenses d' = expenses d -> new_expenses d d'.
Proof. intros H. unfold new_expenses. rewrite H. apply table_step_refl. Qed.

Lemma CreateExpense_new now p d a d' :
  ExpenseQueries.CreateExpense now p d = Ok (a, d') -> new_expenses d d'.
Proof.
  unfold ExpenseQueries.CreateExpense. intros H.
  repeat (case_match; simplify_eq; try done); bool_hyps;
    (apply table_step_insert; rewrite free_key by done; by right).
Qed.
Lemma RejectExpense_new now t id rr rb d a d' :
  ExpenseQueries.RejectExpense now t id rr rb d = Ok (a, d') -> new_expenses d d'.
Proof.
  unfold ExpenseQueries.RejectExpense. intros H. repeat (case_match; simplify_eq; try done).
  apply table_step_insert. by left.
Qed.

(** A read of a draft or rejected expense ends its approval. *)
Lemma approve_unapproved s cfg t id u roles (w : World St) :
  unapproved (store_db (w_st w)) -> rely (store_step new_expenses) w ->
  exists e, (Expense.ApproveExpense s cfg t id u roles w).1 = Err e.
Proof.
  intros Hu HR. unfold Expense.ApproveExpense.
  destruct (wrap "get expense: %w" (ExpensePostgres.GetExpense t id) w) as [[e|err] w1] eqn:Hg;
    unfold mbind at 1, M_bind at 1; rewrite Hg; [|by eexists].
  apply wrap_Ok, bind_Ok in Hg as (row & w2 & Hq & Hret).
  apply map_err_Ok, (store_query_Ok (R:=new_expenses)) in Hq as ([Hs _] & Hq & _); [|done].
  apply ret_Ok in Hret as [-> ->]. apply get_row_tenant in Hq as [Hrow _].
  apply (unapproved_new _ _ Hs Hu) in Hrow. simpl.
  unfold Expense.expense_approvable. destruct Hrow as [-> | ->]; by eexists.
Qed.

Lemma ApproveExpense_new s cfg t id u roles (w : World St) :
  unapproved (store_db (w_st w)) ->
  steps (store_step new_expenses) (Expense.ApproveExpense s cfg t id u roles) w.
Proof.
  intros Hu. unfold Expense.ApproveExpense, ExpensePostgres.GetExpense.
  apply steps_bind; [repeat (steps_tac; try apply steps_store_query)|].
  intros e w1 Hg HR _ _. apply wrap_Ok, bind_Ok in Hg as (row & w2 & Hq & Hret).
  apply map_err_Ok, (store_query_Ok (R:=new_expenses)) in Hq as ([Hs _] & Hq & _); [|done].
  apply ret_Ok in Hret as [-> ->]. apply get_row_tenant in Hq as [Hrow _].
  apply (unapproved_new _ _ Hs Hu) in Hrow. simpl.
  apply steps_bind; [apply steps_lift|]. intros [] w3 [Ha _]%lift_Ok _ _ _.
  unfold Expense.expense_approvable in Ha. by destruct Hrow as [Hst|Hst]; rewrite Hst in Ha.
Qed.

Lemma handle_new ctx r (w : World St) :
  unapproved (store_db (w_st w)) ->
  steps (store_step new_expenses) (ExpenseHandler.handle h ctx r) w.
Proof.
  intros Hu.
  apply (handle_steps unapproved unapproved_new h ctx
           (match IDFromContext ctx with Some t => t | None => 0%N end)); try done; intros.
  - apply new_expenses_same. unfold ExpenseQueries.CreatePurchaseOrder in *.
    repeat (case_match; simplify_eq; try done).
  - by eapply CreateExpense_new.
  - by eapply RejectExpense_new.
  - apply new_expenses_same. unfold ExpenseQueries.CreatePettyCashAdvance in *.
    repeat (case_match; simplify_eq; try done).
  - by apply ApproveExpense_new.
  - unfold Expense.ApprovePurchaseOrder, ExpensePostgres.GetPurchaseOrder,
      ExpensePostgres.UpdatePurchaseOrder.
    repeat (steps_tac; try apply steps_store_query; try apply steps_store_exec).
    apply new_expenses_same. unfold ExpenseQueries.UpdatePurchaseOrderStatus in *.
    repeat (case_match; simplify_eq; try done).
  - unfold Expense.SettlePettyCash, ExpensePostgres.GetPettyCashAdvance,
      ExpensePostgres.UpdatePettyCashAdvance.
    repeat (steps_tac; try apply steps_store_query; try apply steps_store_exec).
    match goal with H : _ = Ok (_, ?d) |- new_expenses _ ?d =>
      apply SettlePettyCashAdvance_Ok in H as (? & ? & _ & _ & _ & _ & ->) end.
    by apply new_expenses_same.
  - by rewrite H.
Qed.

(** ** The invariant of reachable states *)

Definition po_ok (_ : uuid) (r : PurchaseOrderRow) : Prop :=
  stored (por_Amount r)
  /\ (por_Status r = "draft"
      \/ por_Status r = "approved" /\ approvable h (por_TenantID r) (por_Amount r)).

Record inv (d : DB) : Prop := {
  inv_keyed : keyed d;
  inv_unapproved : unapproved d;
  inv_petty : map_Forall (fun _ => advance_ok) (petty_cash_advances d);
  inv_pos : map_Forall po_ok (purchase_orders d);
}.

Lemma exp_empty_inv : inv empty_db.
Proof. split; [split|..]; apply map_Forall_empty. Qed.

Lemma inv_step d d' : system_step d d' -> inv d -> inv d'.
Proof.
  intros [He Hn] [Hk Hu Hp Hpo]. split.
  - by eapply keyed_estep.
  - by eapply unapproved_new.
  - eapply table_step_forall, Hp; [|apply He]. intros k o r [_ HQ] Ho.
    destruct o as [r0|]; [|by destruct HQ]. destruct HQ as (Hun & at_ & u & Hat & ->).
    destruct (Ho r0 eq_refl) as [Hs _]. split; [done|]. right. split; [done|]. split; [done|].
    by apply Hun.
  - eapply table_step_forall, Hpo; [|apply He]. intros k o r [_ HQ] Ho.
    destruct o as [r0|]; [|by destruct HQ]. destruct HQ as (Ha & ab & aa & ->).
    destruct (Ho r0 eq_refl) as [Hs _]. split; [done|]. by right.
Qed.

(** A run of an RPC from a reachable state, and each of its statements. *)
Lemma handle_system ctx r (w : World St) :
  inv (store_db (w_st w)) -> rely (store_step system_step) w ->
  system_step (store_db (w_st w)) (store_db (w_st (ExpenseHandler.handle h ctx r w).2))
  /\ exists own, w_log (ExpenseHandler.handle h ctx r w).2 = own ++ w_log w
     /\ Forall (fun p => system_step (store_db p.1) (store_db p.2)) own.
Proof.
  intros [Hk Hu _ _] HR.
  assert (Ht : exists t : uuid, True /\ forall t', IDFromContext ctx = Some t' -> t' = t).
  { destruct (IDFromContext ctx) as [t|]; [exists t|exists 0%N]; by split; [|intros ? [= ->]]. }
  destruct (handle_estep (fun _ => True) h ctx r w Ht Hk (rely_estep _ HR))
    as ([H1 _] & _ & own1 & Ho1 & F1).
  destruct (handle_new ctx r w Hu (rely_new _ HR)) as ([H2 _] & _ & own2 & Ho2 & F2).
  split; [by split|]. exists own1. split; [done|].
  rewrite Ho1 in Ho2. apply app_inv_tail in Ho2 as <-.
  rewrite !Forall_forall in *. intros p Hp. destruct (F1 p Hp) as [? _], (F2 p Hp) as [? _].
  by split.
Qed.

Lemma exp_reachable_inv s : reachable s -> inv (store_db s).
Proof.
  induction 1 as [|ctx r w _ IH HR|s s' ctx r w _ IH _ IHs HR Hlog Hin]; [apply exp_empty_inv|..].
  - eapply inv_step, IH. by apply handle_system.
  - destruct (handle_system ctx r w IH HR) as (_ & own & Hown & Hall).
    rewrite Hlog, app_nil_r in Hown. rewrite Hown in Hin. rewrite Forall_forall in Hall.
    exact (inv_step _ _ (Hall _ Hin) IHs).
Qed.

(** C8: In every reachable state, whatever requests run interleaved, an
    approved purchase order is within the dual-approval threshold of its
    tenant's configuration and within the highest limit of some set of roles:
    no amount above the threshold is ever approved.  The configuration is the same
    over the history. *)
Theorem approved_po_within_threshold (s : St) (id : uuid) (r : PurchaseOrderRow) :
  reachable s -> purchase_orders (store_db s) !! id = Some r -> por_Status r = "approved" ->
  exists cfg roles, ExpenseHandler.h_loader h (por_TenantID r) = Some cfg
    /\ (dec_val (por_Amount r) <= dec_val (aw_DualApprovalAbove (cfg_ApprovalWorkflow cfg)))%Qc
    /\ within_authority (cfg_ApprovalWorkflow cfg) roles (por_Amount r).
Proof.
  intros Hr Hid Hst. apply exp_reachable_inv in Hr.
  destruct (inv_pos _ Hr _ _ Hid) as [_ [Hd|[_ (cfg & roles & Hc & Ha)]]]; [congruence|].
  apply check_authority_spec in Ha. exists cfg, roles. split; [done|]. by split; [apply Ha|].
Qed.

(** In every reachable state, whatever requests run interleaved, a petty
    cash advance is either issued with nothing returned yet, or settled, at a
    recorded time, with an unspent amount between zero and the advance. *)
Theorem settled_advance_bounded (s : St) (id : uuid) (r : PettyCashRow) :
  reachable s -> petty_cash_advances (store_db s) !! id = Some r -> advance_ok r.
Proof. intros Hr Hid. apply exp_reachable_inv in Hr. by apply (inv_petty _ Hr _ _ Hid). Qed.

(** No expense is ever approved.  SubmitExpense marks the expense submitted
    only in memory: the row is stored as a draft.  So in every reachable state
    every stored expense is a draft or rejected, and the ApproveExpense RPC
    fails whoever calls it. *)
Theorem expense_never_approved (s : St) :
  reachable s ->
  (forall id r, expenses (store_db s) !! id = Some r ->
     exr_Status r = "draft" \/ exr_Status r = "rejected")
  /\ forall ctx id w, w_st w = s -> rely (store_step system_step) w ->
     exists e, (ExpenseHandler.handle h ctx (ExpenseHandler.ApproveExpenseRpc id) w).1 = Err e.
Proof.
  intros Hr. apply exp_reachable_inv in Hr. split; [intros id r; apply (inv_unapproved _ Hr)|].
  intros ctx id w Hw HR. rewrite <-Hw in Hr.
  destruct (ExpenseHandler.handle h ctx (ExpenseHandler.ApproveExpenseRpc id) w)
    as [[resp|e] w'] eqn:Hh; [|by exists e]. exfalso.
  unfold ExpenseHandler.handle, ExpenseHandler.handle_rpc, ExpenseHandler.ApproveExpense in Hh.
  do 6 (let H := fresh in apply bind_Ok in Hh as (? & ? & H & Hh);
        apply lift_Ok in H as [_ ->]).
  apply bind_Ok in Hh as ([] & w1 & Ha & _). apply map_err_Ok in Ha.
  edestruct approve_unapproved as [e He];
    [apply (inv_unapproved _ Hr)|by apply rely_new|rewrite Ha in He; done].
Qed.

End system.

(** ** Witnesses *)

Section witnesses.
#[local] Existing Instance ref_external.
Import ExpDemo.

Lemma exp_alone_rely (w : World St) R `{!PreOrder R} :
  (forall n s, w_other w n s = s) -> rely R w.
Proof. intros H n s. by rewrite H. Qed.

Lemma system_preorder : PreOrder (store_step (D:=DB) (Ev:=Event) (system_step handler)).
Proof.
  split; [intros s; split; [by split|done]|].
  intros s1 s2 s3 [[H1 H2] H3] [[H4 H5] H6]. split; [split|]; by etrans.
Qed.

Lemma exp_run_reachable rs (w : World St) :
  reachable handler (w_st w) -> (forall n s, w_other w n s = s) ->
  reachable handler (w_st (run rs w)) /\ forall n s, w_other (run rs w) n s = s.
Proof.
  revert w. induction rs as [|[c r] rs IH]; intros w Hr Ho; simpl; [done|].
  assert (HR : rely (store_step (system_step handler)) w)
    by (pose proof system_preorder; by apply exp_alone_rely).
  apply IH; [by apply reach_rpc|].
  assert (Ht : exists t : uuid, True /\ forall t', IDFromContext c = Some t' -> t' = t).
  { destruct (IDFromContext c) as [t|]; [exists t|exists 0%N]; by split; [|intros ? [= ->]]. }
  destruct (handle_estep (fun _ => True) handler c r w Ht
    (inv_keyed _ _ (exp_reachable_inv _ _ Hr)) (rely_estep _ _ HR)) as (_ & Hoth & _).
  intros n s. etrans; [exact (f_equal (fun f => f n s) Hoth)|apply Ho].
Qed.

Lemma ready_reachable : reachable handler (w_st ready) /\ forall n s, w_other ready n s = s.
Proof. exact (exp_run_reachable setup (world empty_st) (reach_empty _) (fun n s => eq_refl)). Qed.

Lemma done_reachable : reachable handler (w_st done_) /\ forall n s, w_other done_ n s = s.
Proof. destruct ready_reachable as [Hr Ho]. exact (exp_run_reachable _ ready Hr Ho). Qed.

Lemma approved_row_done : purchase_orders (store_db (w_st done_)) !! 100%N = Some approved_row.
Proof. vm_refl. Qed.
Lemma settled_row_done : petty_cash_advances (store_db (w_st done_)) !! 103%N = Some settled_row.
Proof. vm_refl. Qed.

Lemma approved_po_within_threshold_witness :
  exists cfg roles, ExpenseHandler.h_loader handler 7 = Some cfg
    /\ (dec_val (por_Amount approved_row) <= dec_val (aw_DualApprovalAbove (cfg_ApprovalWorkflow cfg)))%Qc
    /\ within_authority (cfg_ApprovalWorkflow cfg) roles (por_Amount approved_row).
Proof.
  exact (approved_po_within_threshold handler (w_st done_) 100%N approved_row
           (proj1 done_reachable) approved_row_done eq_refl).
Defined.

Lemma settled_advance_bounded_witness :
  pcr_Status settled_row = "settled" /\ advance_ok settled_row.
Proof.
  split; [reflexivity|].
  exact (settled_advance_bounded handler (w_st done_) 103%N settled_row
           (proj1 done_reachable) settled_row_done).
Defined.

Lemma expense_never_approved_witness :
  exists e, (ExpenseHandler.handle handler manager (ExpenseHandler.ApproveExpenseRpc "102") ready).1
            = Err e.
Proof.
  exact (proj2 (expense_never_approved handler (w_st ready) (proj1 ready_reachable))
           manager "102" ready eq_refl
           (@exp_alone_rely ready _ system_preorder (proj2 ready_reachable))).
Defined.

End witnesses.
