(* ===== verification/ExpenseRpcs.v ===== *)
(** Expense tracking: approving.  [approval_outcome] says which outcome an
    approval has from the record's status and amount, the caller's roles and the
    workflow; ApproveExpense refines it on every branch, and a purchase order
    approved through the RPC was within the authority of the caller. *)

From S2P Require Export ExpenseProps.
From S2P Require ExpenseQueries ExpensePostgres Expense ExpenseHandler.
Local Open Scope Z_scope.

Section approval.
Context {X : External} {L : ExternalLaws}.

(** ** The specification *)

(** One of the roles, or super_admin, has a limit the amount is within. *)
Definition has_limit (w : ApprovalWorkflow) (roles : list string) (amount : Dec) : Prop :=
  "super_admin" ∈ roles
  \/ exists role limit, role ∈ roles /\ LimitForRole w role = Some limit
                        /\ (dec_val amount <= dec_val limit)%Qc.

Inductive approval_outcome (w : ApprovalWorkflow) (roles : list string) (amount : Dec) :
    string -> option EErr -> Prop :=
| outcome_again : approval_outcome w roles amount "approved" (Some ErrAlreadyApproved)
| outcome_rejected : approval_outcome w roles amount "rejected" (Some ErrAlreadyRejected)
| outcome_state status :
    status <> "approved" -> status <> "rejected" -> status <> "submitted" ->
    approval_outcome w roles amount status (Some ErrNotApprovable)
| outcome_limit :
    ~ has_limit w roles amount ->
    approval_outcome w roles amount "submitted" (Some ErrApprovalLimitExceeded)
| outcome_dual :
    has_limit w roles amount ->
    (dec_val (aw_DualApprovalAbove w) < dec_val amount)%Qc ->
    approval_outcome w roles amount "submitted" (Some ErrDualApprovalRequired)
| outcome_approve :
    has_limit w roles amount ->
    (dec_val amount <= dec_val (aw_DualApprovalAbove w))%Qc ->
    approval_outcome w roles amount "submitted" None.

(** The outcome is determined. *)
Lemma approval_outcome_fun w roles amount status o1 o2 :
  approval_outcome w roles amount status o1 -> approval_outcome w roles amount status o2 -> o1 = o2.
Proof.
  intros H1 H2. destruct H1; inversion H2; subst; try done;
    match goal with H : (?a < ?b)%Qc, H' : (?b <= ?a)%Qc |- _ =>
      by destruct (Qcle_not_lt _ _ H') end.
Qed.

Lemma has_limit_max w roles amount :
  has_limit w roles amount <->
  Expense.hasSuperAdmin roles = true
  \/ exists m, MaxLimitForRoles w roles = Some m /\ dec_greater amount m = false.
Proof.
  unfold has_limit. rewrite hasSuperAdmin_spec. apply or_iff_compat_l.
  pose proof (max_limit_spec w roles None) as Hmax. unfold MaxLimitForRoles.
  destruct (max_limit w None roles) as [m|].
  - destruct Hmax as ([?|(r & Hr & Hm)] & _ & Hle); [done|]. split.
    + intros (r' & l & Hr' & Hl & Ha). exists m. split; [done|]. apply dec_not_greater.
      eapply Qcle_trans; [exact Ha|by eapply Hle].
    + intros (? & [= <-] & Ha). apply dec_not_greater in Ha. eauto.
  - split; [|by intros (? & ? & _)]. intros (r' & l & Hr' & Hl & _).
    destruct Hmax as [_ Hn]. by rewrite (Hn _ Hr') in Hl.
Qed.

(** The two tests of the service, in one lemma. *)
Lemma checks_outcome w roles amount status :
  exists o, approval_outcome w roles amount status o /\
    match o with
    | None => Expense.expense_approvable status = Ok tt
              /\ Expense.check_authority w roles amount = Ok tt
    | Some err => exists e, sentinel e = Some err
        /\ (Expense.expense_approvable status = Err e
            \/ Expense.expense_approvable status = Ok tt
               /\ Expense.check_authority w roles amount = Err e)
    end.
Proof.
  unfold Expense.expense_approvable.
  destruct (decide (status = "approved")) as [->|Ha].
  { eexists. split; [constructor|]. eexists. split; [|by left]. done. }
  destruct (decide (status = "rejected")) as [->|Hr].
  { eexists. split; [constructor|]. eexists. split; [|by left]. done. }
  destruct (decide (status = "submitted")) as [->|Hs].
  2: { eexists. split; [by constructor|]. eexists. split; [|by left]. done. }
  pose proof (has_limit_max w roles amount) as Hlim. unfold Expense.check_authority. cbv zeta.
  assert (Hdual : has_limit w roles amount ->
    exists o, approval_outcome w roles amount "submitted" o /\
      match o with
      | None => (if dec_greater amount (aw_DualApprovalAbove w)
                 then Err (EWrap "%w: %s exceeds dual approval threshold %s" (ESent ErrDualApprovalRequired))
                 else Ok tt) = Ok tt
      | Some err => exists e, sentinel e = Some err /\
                (if dec_greater amount (aw_DualApprovalAbove w)
                 then Err (EWrap "%w: %s exceeds dual approval threshold %s" (ESent ErrDualApprovalRequired))
                 else Ok tt) = Err e
      end).
  { intros Hh. destruct (dec_greater _ _) eqn:Hg.
    - apply dec_greater_spec in Hg. eexists. split; [by apply outcome_dual|]. eexists. split; [|reflexivity]. done.
    - apply dec_not_greater in Hg. eexists. split; [by apply outcome_approve|done]. }
  assert (Hno : ~ has_limit w roles amount ->
    approval_outcome w roles amount "submitted" (Some ErrApprovalLimitExceeded)) by exact (outcome_limit w roles amount).
  destruct (Expense.hasSuperAdmin roles) eqn:Hsup.
  { destruct Hdual as (o & Ho & Hm); [apply Hlim; by left|]. exists o. split; [done|].
    destruct o; [|by split]. destruct Hm as (e1 & ? & ?). exists e1. eauto. }
  destruct (MaxLimitForRoles w roles) as [m|] eqn:Hmax.
  - destruct (dec_greater amount m) eqn:Hg.
    + eexists. split; [apply Hno; rewrite Hlim; intros [?|(? & [= <-] & ?)]; congruence|].
      eexists. split; [|right; by split]. done.
    + destruct Hdual as (o & Ho & Hm); [apply Hlim; right; eauto|]. exists o. split; [done|].
      destruct o; [|by split]. destruct Hm as (e1 & ? & ?). exists e1. eauto.
  - eexists. split; [apply Hno; rewrite Hlim; by intros [?|(? & ? & _)]|].
    eexists. split; [|right; by split]. done.
Qed.

(** ** Refinement *)

Lemma evals_GetExpense t id (w : World St) :
  quiet w ->
  evals (ExpensePostgres.GetExpense t id) w
    (match owned exr_TenantID t (expenses (store_db (w_st w))) id with
     | None => Err (ESent ErrExpenseNotFound)
     | Some r => Ok (ExpensePostgres.expenseFromDB r)
     end) (w_st w).
Proof.
  intros H. unfold ExpensePostgres.GetExpense.
  pose proof (evals_map_err (no_rows_as ErrExpenseNotFound "expense: get expense: %w") _ _ _ _
    (evals_store_query (ExpenseQueries.GetExpense t id) w H)) as He.
  unfold ExpenseQueries.GetExpense in He at 2. rewrite get_row_owned in He.
  destruct (owned _ _ _ _) as [r|]; simpl in He; [|by apply evals_bind_err].
  eapply evals_bind; [exact He|]. intros w1 H1 Hs1. rewrite <-Hs1. by apply evals_ret.
Qed.

(** The approved row. *)
Definition approved_expense_row (approver : uuid) (now : Time) (r : ExpenseRow) : ExpenseRow :=
  ex_with "approved" (Some approver) (exr_SubmittedAt r) (Some now) (exr_RejectionReason r)
    (exr_RejectedAt r) (exr_RejectedBy r) r.

Lemma evals_mark_approved t id u now0 r (w : World St) :
  quiet w -> expenses (store_db (w_st w)) !! id = Some r -> exr_TenantID r = t -> exr_ID r = id ->
  exists now, evals (ExpensePostgres.UpdateExpense
      (Expense.approved_expense u now0 (ExpensePostgres.expenseFromDB r))) w (Ok tt)
    (mkStore (set_expenses (<[id := approved_expense_row u now r]>
       (expenses (store_db (w_st w)))) (store_db (w_st w))) (store_events (w_st w))).
Proof.
  intros Hq Hr Ht Hid. destruct (evals_time (E:=error EErr) w Hq) as [now Hnow]. exists now.
  unfold ExpensePostgres.UpdateExpense. eapply evals_bind; [exact Hnow|]. intros w1 H1 Hs1.
  eapply evals_bind; [|intros w2 H2 Hs2; rewrite <-Hs2; by apply evals_ret].
  apply evals_map_ok. rewrite <-Hs1. eapply evals_store_exec; [done|].
  unfold ExpenseQueries.UpdateExpenseStatus, ExpenseQueries.GetExpense.
  rewrite get_row_owned, Hs1. cbn [ex_TenantID ex_ID ex_Status ex_ApprovedBy
    Expense.approved_expense ExpensePostgres.expenseFromDB].
  rewrite Hid, (proj2 (owned_Some exr_TenantID _ _ _ r) (conj Hr eq_refl)). reflexivity.
Qed.

(** Approving an expense refines its specification.  Alone and with no
    failing call, ApproveExpense on an expense of the tenant has exactly the
    outcome the status, the amount, the roles and the workflow determine: the
    specified error with nothing changed, or the row approved by the approver
    and one event when a publisher is set; a missing expense, or another
    tenant's, is not found. *)
Theorem approve_expense_refines (s : Expense.Service) (cfg : Config)
    (tenantID id approver : uuid) (roles : list string) (w : World St) :
  quiet w -> keyed (store_db (w_st w)) ->
  let call := Expense.ApproveExpense s cfg tenantID id approver roles in
  match owned exr_TenantID tenantID (expenses (store_db (w_st w))) id with
  | None => exists e, sentinel e = Some ErrExpenseNotFound /\ evals call w (Err e) (w_st w)
  | Some r =>
    exists o, approval_outcome (cfg_ApprovalWorkflow cfg) roles (exr_Amount r) (exr_Status r) o /\
    match o with
    | Some err => exists e, sentinel e = Some err /\ evals call w (Err e) (w_st w)
    | None => exists now at_,
        evals call w (Ok tt)
          (mkStore (set_expenses (<[id := approved_expense_row approver now r]>
                      (expenses (store_db (w_st w)))) (store_db (w_st w)))
             (store_events (w_st w) ++ if Expense.s_publisher s
                then [ExpenseApproved (Expense.approved_expense approver at_
                        (ExpensePostgres.expenseFromDB r))] else []))
    end
  end.
Proof.
  intros Hq Hk call. subst call. pose proof (evals_GetExpense tenantID id w Hq) as Hget.
  unfold Expense.ApproveExpense.
  destruct (owned exr_TenantID _ _ id) as [r|] eqn:Ho.
  2: { eexists. split; [|eapply evals_bind_err, evals_map_fail; exact Hget]. done. }
  apply owned_Some in Ho as [Hr Ht].
  assert (Hid : exr_ID r = id) by (by apply (keyed_expenses _ Hk)).
  destruct (checks_outcome (cfg_ApprovalWorkflow cfg) roles (exr_Amount r) (exr_Status r))
    as (o & Ho & Hchk). exists o. split; [done|]. destruct o as [err|].
  - destruct Hchk as (e & He & Hchk). exists e. split; [done|].
    eapply evals_bind; [apply evals_map_ok, Hget|]. intros w1 H1 Hs1. rewrite <-Hs1.
    destruct Hchk as [Hc|[Hc Ha]].
    + apply evals_bind_err. cbn [ex_Status ExpensePostgres.expenseFromDB]. rewrite Hc.
      by apply evals_pure.
    + eapply evals_bind; [cbn [ex_Status ExpensePostgres.expenseFromDB]; rewrite Hc;
        by apply evals_pure|]. intros w2 H2 Hs2. rewrite <-Hs2.
      apply evals_bind_err. cbn [ex_Amount ExpensePostgres.expenseFromDB]. rewrite Ha.
      by apply evals_pure.
  - destruct Hchk as [Hc Ha].
    destruct Hget as (w1 & Hm1 & Hs1 & H1). destruct (evals_time (E:=error EErr) w1 H1)
      as (at_ & w2 & Hm2 & Hs2 & H2).
    assert (Hr2 : expenses (store_db (w_st w2)) !! id = Some r) by (by rewrite Hs2, Hs1).
    destruct (evals_mark_approved tenantID id approver at_ r w2 H2 Hr2 Ht Hid)
      as (now & w3 & Hm3 & Hs3 & H3).
    destruct (evals_emit (E:=error EErr) (Expense.s_publisher s) (ExpenseApproved
      (Expense.approved_expense approver at_ (ExpensePostgres.expenseFromDB r))) w3 H3)
      as (w4 & Hm4 & Hs4 & H4).
    exists now, at_, w4. split; [|by rewrite Hs4, Hs3, Hs2, Hs1].
    erewrite bind_wrap_Ok by exact Hm1. cbn [ex_Status ex_Amount ExpensePostgres.expenseFromDB].
    rewrite Hc, Ha. erewrite bind_run by reflexivity. erewrite bind_run by reflexivity.
    erewrite bind_run by exact Hm2. by erewrite bind_run by exact Hm3.
Qed.

End approval.

(** Expense tracking: what an RPC that succeeded did, with other requests
    running beside it: who approved a purchase order and within which limit, who
    settled an advance, what a rejection and a submission leave. *)

Local Open Scope Z_scope.

(** Peels the pure guards off a handler's run that succeeded. *)
Ltac guards H :=
  repeat (apply bind_Ok in H as (? & ? & [? ->]%lift_Ok & H)).

Section rpcs.
Context {X : External} {L : ExternalLaws}.
Variable h : ExpenseHandler.Handler.

Abbreviation step := (estep (fun _ => True) (approvable h)) (only parsing).

Lemma caller_tenant ctx t c :
  IDFromContext ctx = Some t -> ExpenseHandler.caller_info ctx = Ok c ->
  ctx_caller ctx = Some c /\ ci_TenantID c = t.
Proof.
  intros (c' & Hc' & Hct & _)%IDFromContext_inv. unfold ExpenseHandler.caller_info, CallerFromContext.
  rewrite Hc'. by intros [= <-].
Qed.
Lemma parse_id_Ok s text id : parse_id s text = Ok id -> uuid_parse s = Some id.
Proof. unfold parse_id. destruct (uuid_parse s); [by intros [= ->]|done]. Qed.
Lemma attached ctx t cfg :
  IDFromContext ctx = Some t -> attachConfig (ExpenseHandler.h_loader h) ctx = Ok (Some cfg) ->
  ExpenseHandler.h_loader h t = Some cfg.
Proof.
  unfold attachConfig. intros ->. destruct (ExpenseHandler.h_loader h t); by intros [= ->].
Qed.

(** ** Reading back *)

Lemma GetPO_Ok t id (w : World St) po w' :
  Expense.GetPurchaseOrder t id w = (Ok po, w') -> rely (store_step step) w ->
  exists r, purchase_orders (store_db (w_st w')) !! id = Some r /\ por_TenantID r = t
    /\ po = ExpensePostgres.purchaseOrderFromDB r
    /\ step (store_db (w_st w)) (store_db (w_st w')) /\ rely (store_step step) w'.
Proof.
  intros (row & w1 & Hq & Hret)%bind_Ok HR.
  apply map_err_Ok, (store_query_Ok (R:=step)) in Hq as ([Hs _] & Hq & HR'); [|done].
  apply ret_Ok in Hret as [-> ->]. apply get_row_tenant in Hq as [Hrow Htn]. eauto 10.
Qed.

Lemma GetPC_Ok t id (w : World St) pc w' :
  Expense.GetPettyCashAdvance t id w = (Ok pc, w') -> rely (store_step step) w ->
  exists r, petty_cash_advances (store_db (w_st w')) !! id = Some r /\ pcr_TenantID r = t
    /\ pc = ExpensePostgres.pettyCashFromDB r
    /\ step (store_db (w_st w)) (store_db (w_st w')) /\ rely (store_step step) w'.
Proof.
  intros (row & w1 & Hq & Hret)%bind_Ok HR.
  apply map_err_Ok, (store_query_Ok (R:=step)) in Hq as ([Hs _] & Hq & HR'); [|done].
  apply ret_Ok in Hret as [-> ->]. apply get_row_tenant in Hq as [Hrow Htn]. eauto 10.
Qed.

(** ** Approving a purchase order *)

Lemma approve_po_Ok cfg t id u roles (w : World St) w' :
  Expense.ApprovePurchaseOrder cfg t id u roles w = (Ok tt, w') ->
  keyed (store_db (w_st w)) -> rely (store_step step) w ->
  rely (store_step step) w' /\ exists r, purchase_orders (store_db (w_st w')) !! id = Some r
    /\ por_TenantID r = t /\ por_Status r = "approved" /\ por_ApprovedBy r = Some u
    /\ within_authority (cfg_ApprovalWorkflow cfg) roles (por_Amount r).
Proof.
  intros (po & w1 & Hg & H)%bind_Ok Hk HR. apply wrap_Ok in Hg.
  apply GetPO_Ok in Hg as (r & Hr & Ht & -> & Hs & HR1); [|done].
  apply bind_Ok in H as ([] & w2 & [Hst ->]%lift_Ok & H).
  apply bind_Ok in H as ([] & w2 & [Ha ->]%lift_Ok & H).
  apply bind_Ok in H as (at_ & w2 & [= <- <-] & H).
  apply bind_Ok in H as (now & w3 & [= <- <-] & H).
  apply bind_Ok in H as (row & w4 & Hx & Hret). apply ret_Ok in Hret as [_ ->].
  apply map_err_Ok, (store_exec_Ok (R:=step)) in Hx as (d & Hd & Hx & HR4); [|exact HR1].
  split; [done|]. assert (Hid : por_ID r = id)
    by (by apply (keyed_pos _ (keyed_estep _ _ _ _ Hs Hk))).
  unfold ExpenseQueries.UpdatePurchaseOrderStatus, ExpenseQueries.GetPurchaseOrder in Hx.
  cbn [po_TenantID po_ID po_Status po_ApprovedBy Expense.approved_po
       ExpensePostgres.purchaseOrderFromDB] in Hx. rewrite Hid in Hx.
  destruct (get_row _ _ _) as [r'|] eqn:Hg; [|done]. apply get_row_tenant in Hg as [Hr' Ht'].
  simpl in Hx. injection Hx as _ Hdb. rewrite <-Hdb. simpl. rewrite lookup_insert_eq.
  eexists. split; [done|]. simpl. split; [congruence|]. split; [done|]. split; [done|].
  simpl in Hd. rewrite (estep_po _ _ _ _ id r r' Hd Hr Hr'). by apply check_authority_spec.
Qed.

(** When the ApprovePurchaseOrder RPC succeeds, whatever requests ran
    beside it, its caller holds expense:approve, and the purchase order it
    names is the caller's tenant's, is approved, and its amount is within the
    dual-approval threshold and within the limit of one of the caller's roles
    (or the caller is a super_admin); the response is that row. *)
Theorem approve_po_authorised (ctx : Ctx) (ids : string) (w : World St) resp w' :
  ExpenseHandler.handle h ctx (ExpenseHandler.ApprovePurchaseOrderRpc ids) w = (Ok resp, w') ->
  keyed (store_db (w_st w)) -> rely (store_step step) w ->
  exists c cfg id r,
    ctx_caller ctx = Some c /\ uuid_parse ids = Some id
    /\ RequirePermission (ExpenseHandler.h_scoped h) (ExpenseHandler.h_perm h) ctx "expense:approve" = Ok tt
    /\ ExpenseHandler.h_loader h (ci_TenantID c) = Some cfg
    /\ purchase_orders (store_db (w_st w')) !! id = Some r
    /\ por_TenantID r = ci_TenantID c /\ por_Status r = "approved"
    /\ within_authority (cfg_ApprovalWorkflow cfg) (ci_Roles c) (por_Amount r)
    /\ resp = ExpenseHandler.PurchaseOrderResp
                (ExpenseHandler.purchaseOrderToProto (ExpensePostgres.purchaseOrderFromDB r)).
Proof.
  intros H Hk HR. unfold ExpenseHandler.handle, ExpenseHandler.handle_rpc,
    ExpenseHandler.ApprovePurchaseOrder in H.
  apply bind_Ok in H as (vcfg & ? & [Hv ->]%lift_Ok & H).
  apply bind_Ok in H as (t & ? & Ht & H). pose proof (lift_Ok _ _ _ _ Ht) as [_ ->].
  apply tenant_id_Ok in Ht.
  apply bind_Ok in H as ([] & ? & [Hp ->]%lift_Ok & H).
  apply bind_Ok in H as (id & ? & [Hid ->]%lift_Ok & H).
  apply bind_Ok in H as (c & ? & [Hc ->]%lift_Ok & H).
  apply bind_Ok in H as (cfg & ? & Hm & H). pose proof (lift_Ok _ _ _ _ Hm) as [_ ->].
  apply MustFromContext_Ok in Hm as ->.
  apply bind_Ok in H as ([] & w1 & Ha & H). apply map_err_Ok, approve_po_Ok in Ha
    as (HR1 & r & Hr & Htn & Hst & _ & Hau); [|done..].
  apply bind_Ok in H as (po & w2 & Hg & H). apply map_err_Ok, GetPO_Ok in Hg
    as (r' & Hr' & Htn' & -> & Hs & _); [|done]. apply ret_Ok in H as [-> ->].
  destruct (caller_tenant _ _ _ Ht Hc) as [Hcc Hct].
  pose proof (attached _ _ _ Ht Hv) as Hl. apply parse_id_Ok in Hid.
  exists c, cfg, id, r'. rewrite Hct.
  destruct (table_step_some _ _ _ _ (es_pos _ _ _ _ Hs) Hr) as (r1 & Hr1 & Hq).
  rewrite Hr' in Hr1. injection Hr1 as <-.
  rewrite (estep_po _ _ _ _ _ r r' Hs Hr Hr').
  split_and!; try done. destruct Hq as [->|[_ (_ & ab & aa & ->)]]; done.
Qed.

(** ** Settling an advance *)

Lemma estep_settled d d' id r :
  step d d' -> petty_cash_advances d !! id = Some r ->
  exists r', petty_cash_advances d' !! id = Some r' /\ pcr_IssuedTo r' = pcr_IssuedTo r
    /\ (pcr_Status r = "settled" -> pcr_Status r' = "settled").
Proof.
  intros Hs Hr. destruct (table_step_some _ _ _ _ (es_petty _ _ _ _ Hs) Hr) as (r' & Hr' & Hq).
  exists r'. split; [done|]. by destruct Hq as [->|[_ (_ & ? & ? & _ & ->)]].
Qed.

Lemma settle_pc_Ok t id u amt (w : World St) w' :
  Expense.SettlePettyCash t id u amt w = (Ok tt, w') ->
  keyed (store_db (w_st w)) -> rely (store_step step) w ->
  rely (store_step step) w' /\ exists r, petty_cash_advances (store_db (w_st w')) !! id = Some r
    /\ pcr_IssuedTo r = u /\ pcr_Status r = "settled".
Proof.
  intros (pc & w2 & Hg & H)%bind_Ok Hk HR. apply wrap_Ok, GetPC_Ok in Hg
    as (r & Hr & Htn & -> & Hs & HR2); [|done].
  cbn [pc_IssuedTo pc_Status pc_Amount ExpensePostgres.pettyCashFromDB] in H.
  destruct (bool_decide (pcr_IssuedTo r = u)) eqn:Hown; [|done]. bool_hyps.
  simpl in H. destruct (decide _); [done|]. destruct (dec_greater _ _); [done|].
  apply bind_Ok in H as (at_ & w3 & [= <- <-] & H).
  apply bind_Ok in H as (now & w4 & [= <- <-] & H).
  apply bind_Ok in H as (row & w5 & Hx & Hret). apply ret_Ok in Hret as [_ ->].
  apply map_err_Ok, (store_exec_Ok (R:=step)) in Hx as (d & Hd & Hx & HR5); [|exact HR2].
  apply SettlePettyCashAdvance_Ok in Hx as (r5 & u' & Hr5 & _ & _ & _ & Hdb).
  cbn [pc_ID Expense.settled_pc ExpensePostgres.pettyCashFromDB] in Hr5, Hdb.
  rewrite (keyed_petty _ (keyed_estep _ _ _ _ Hs Hk) _ _ Hr) in Hr5, Hdb.
  split; [done|]. rewrite Hdb. simpl. rewrite lookup_insert_eq. eexists. split; [done|].
  destruct (estep_settled _ _ _ _ Hd Hr) as (r' & Hr' & Hi & _). simpl in *. split; [congruence|done].
Qed.

(** When the SettlePettyCash RPC succeeds, whatever requests ran beside it,
    its caller is the holder of the advance, the advance is the caller's
    tenant's and is settled, and the unspent amount recorded is between zero
    and the advance. *)
Theorem settle_by_holder (ctx : Ctx) (ids unspent : string) (w : World St) resp w' :
  ExpenseHandler.handle h ctx (ExpenseHandler.SettlePettyCashRpc ids unspent) w = (Ok resp, w') ->
  inv h (store_db (w_st w)) -> rely (store_step (system_step h)) w ->
  exists c id r,
    ctx_caller ctx = Some c /\ uuid_parse ids = Some id
    /\ petty_cash_advances (store_db (w_st w')) !! id = Some r
    /\ pcr_IssuedTo r = ci_UserID c /\ pcr_TenantID r = ci_TenantID c
    /\ pcr_Status r = "settled" /\ unspent_ok r.
Proof.
  intros H Hinv HR.
  assert (Hinv' : inv h (store_db (w_st w'))).
  { pose proof (handle_system h ctx (ExpenseHandler.SettlePettyCashRpc ids unspent) w Hinv HR)
      as [Hs _]. rewrite H in Hs. by eapply inv_step. }
  apply rely_estep in HR.
  unfold ExpenseHandler.handle, ExpenseHandler.handle_rpc, ExpenseHandler.SettlePettyCash in H.
  apply bind_Ok in H as (vcfg & ? & [_ ->]%lift_Ok & H).
  apply bind_Ok in H as (t & ? & Ht & H). pose proof (lift_Ok _ _ _ _ Ht) as [_ ->].
  apply tenant_id_Ok in Ht.
  apply bind_Ok in H as ([] & ? & [Hp ->]%lift_Ok & H).
  apply bind_Ok in H as (id & ? & [Hid ->]%lift_Ok & H).
  apply bind_Ok in H as (amt & ? & [_ ->]%lift_Ok & H).
  apply bind_Ok in H as (c & ? & [Hc ->]%lift_Ok & H).
  apply bind_Ok in H as ([] & w1 & Ha & H). apply map_err_Ok, settle_pc_Ok in Ha
    as (HR1 & r & Hr & Hu & Hst); [|apply Hinv|done].
  apply bind_Ok in H as (pc & w6 & Hg & H). apply map_err_Ok, GetPC_Ok in Hg
    as (r6 & Hr6 & Htn6 & -> & Hs6 & _); [|done]. apply ret_Ok in H as [-> ->].
  destruct (caller_tenant _ _ _ Ht Hc) as [Hcc Hct]. apply parse_id_Ok in Hid.
  destruct (estep_settled _ _ _ _ Hs6 Hr) as (r' & Hr' & Hi & Hset).
  assert (r' = r6) as -> by congruence.
  exists c, id, r6. split_and!; try done; [congruence|congruence|by apply Hset|].
  destruct (inv_petty _ _ Hinv' _ _ Hr6) as [_ [(Hd & _)|(_ & _ & Hun)]]; [|done].
  rewrite Hset in Hd by done. done.
Qed.

(** ** Submitting and rejecting *)

(** The row SubmitExpense stores. *)
Definition submitted_row (e : Expense) (id : uuid) (amount tax : Dec) (now : Time) : ExpenseRow :=
  mkExpenseRow id (ex_ProductionID e) (ex_TenantID e) (ex_BudgetLineID e) (ex_PurchaseOrderID e)
    (ex_CategoryID e) (pgTextFromString (ex_Description e)) amount (ex_Currency e) tax "draft"
    (ex_SubmittedBy e) None None None now None None None (ex_PartyID e).

(** A submission is recorded exactly, but as a draft.  Alone and with no
    failing call, SubmitExpense of a new expense whose category the vertical
    has, that names an existing purchase order when the category requires one
    or when it names any, and whose amounts fit the column, adds one row with
    the amounts rounded to the column, status 'draft' and no submission time,
    while the record it publishes says 'submitted'. *)
Theorem submit_stores_draft (s : Expense.Service) (cfg : Config) (e : Expense) (cat : ExpenseCategory)
    (amount tax : Dec) (w : World St) :
  quiet w -> ex_ID e = uuid_nil ->
  FindExpenseCategory cfg (ex_CategoryID e) = Some cat ->
  (ec_RequiresPO cat = true -> ex_PurchaseOrderID e <> None) ->
  (forall po, ex_PurchaseOrderID e = Some po -> is_Some (purchase_orders (store_db (w_st w)) !! po)) ->
  dec_numeric_14_2 (ex_Amount e) = Some amount -> dec_numeric_14_2 (ex_TaxAmount e) = Some tax ->
  expenses (store_db (w_st w)) !! env_uuid (w_env w) (env_uuid_pos (w_env w)) = None ->
  exists id now,
    ex_Status (Expense.submitted id e) = "submitted"
    /\ expenses (store_db (w_st w)) !! id = None
    /\ evals (Expense.SubmitExpense s cfg e) w (Ok (Expense.submitted id e))
         (mkStore (set_expenses (<[id := submitted_row e id amount tax now]>
                     (expenses (store_db (w_st w)))) (store_db (w_st w)))
            (store_events (w_st w) ++ if Expense.s_publisher s
                then [ExpenseSubmitted (Expense.submitted id e)] else [])).
Proof.
  intros Hq Hnil Hcat Hreq Hpo Ha Htx Hfree. unfold Expense.SubmitExpense. rewrite Hcat.
  replace (ec_RequiresPO cat && bool_decide (ex_PurchaseOrderID e = None)) with false.
  2: { destruct (ec_RequiresPO cat); [|done]. simpl. by rewrite bool_decide_false by auto. }
  rewrite decide_True by done. set (id := env_uuid (w_env w) (env_uuid_pos (w_env w))) in *.
  set (e' := Expense.submitted id e).
  assert (Hid : evals (uuid_new : M St (error EErr) uuid) w (Ok id) (w_st w))
    by (eexists; split; [reflexivity|by split]).
  destruct Hid as (w1 & Hm1 & Hs1 & H1).
  destruct (evals_time (E:=error EErr) w1 H1) as (now & w2 & Hm2 & Hs2 & H2).
  destruct (evals_store_exec (ExpenseQueries.CreateExpense now
       (ExpenseQueries.mkCreateExpense (ex_ID e') (ex_ProductionID e') (ex_TenantID e')
          (pgUUIDFromPtr (ex_BudgetLineID e')) (pgUUIDFromPtr (ex_PurchaseOrderID e'))
          (ex_CategoryID e') (pgTextFromString (ex_Description e')) (ex_Amount e') (ex_Currency e')
          (ex_TaxAmount e') (ex_SubmittedBy e') (pgUUIDFromPtr (ex_PartyID e')))) w2
       (submitted_row e id amount tax now)
       (set_expenses (<[id := submitted_row e id amount tax now]> (expenses (store_db (w_st w))))
          (store_db (w_st w))) H2) as (w3 & Hm3 & Hs3 & H3).
  { rewrite Hs2, Hs1. unfold ExpenseQueries.CreateExpense. simpl. rewrite Ha, Htx.
    rewrite bool_decide_false by (rewrite Hfree; by intros [? ?]).
    unfold submitted_row. destruct (ex_PurchaseOrderID e) as [po|]; [|done]. simpl.
    by rewrite bool_decide_true by (by apply Hpo). }
  destruct (evals_emit (E:=error EErr) (Expense.s_publisher s) (ExpenseSubmitted e') w3 H3)
    as (w4 & Hm4 & Hs4 & H4).
  exists id, now. split; [done|]. split; [done|]. exists w4. split; [|by rewrite Hs4, Hs3, Hs2, Hs1].
  erewrite bind_run by exact Hm1. fold e'.
  assert (Hc : ExpensePostgres.CreateExpense e' w1 = (Ok tt, w3)).
  { unfold ExpensePostgres.CreateExpense. erewrite bind_run by exact Hm2.
    unfold mbind at 1, M_bind at 1. unfold map_err. by rewrite Hm3. }
  erewrite bind_run by exact Hc. by erewrite bind_run by exact Hm4.
Qed.

(** What RejectExpense does to an expense with this status. *)
Definition spec_reject (status : string) : option EErr :=
  if decide (status = "approved") then Some ErrAlreadyApproved
  else if decide (status = "rejected") then Some ErrAlreadyRejected
  else None.

(** Rejecting refines its specification: an approved or rejected expense of
    the tenant is refused and nothing changes; every other one, a draft and a
    paid one included, becomes rejected with the reason and the rejecter, and
    keeps everything else. *)
Theorem reject_refines (tenantID id rejecter : uuid) (reason : string) (w : World St) :
  quiet w ->
  let call := Expense.RejectExpense tenantID id rejecter reason in
  match owned exr_TenantID tenantID (expenses (store_db (w_st w))) id with
  | None => exists e, sentinel e = Some ErrExpenseNotFound /\ evals call w (Err e) (w_st w)
  | Some r =>
    match spec_reject (exr_Status r) with
    | Some err => evals call w (Err (ESent err)) (w_st w)
    | None => exists now, evals call w (Ok tt)
        (mkStore (set_expenses (<[id := ex_with "rejected" (exr_ApprovedBy r) (exr_SubmittedAt r)
                    (exr_ApprovedAt r) (Some reason) (Some now) (Some rejecter) r]>
                    (expenses (store_db (w_st w)))) (store_db (w_st w))) (store_events (w_st w)))
    end
  end.
Proof.
  intros Hq call. subst call. pose proof (evals_GetExpense tenantID id w Hq) as Hget.
  unfold Expense.RejectExpense, spec_reject.
  destruct (owned exr_TenantID _ _ id) as [r|] eqn:Ho.
  2: { eexists. split; [|eapply evals_bind_err, evals_map_fail; exact Hget]. done. }
  destruct (decide (exr_Status r = "approved")) as [Hap|Hap].
  { eapply evals_bind; [apply evals_map_ok, Hget|]. intros w1 H1 Hs1. rewrite <-Hs1.
    cbn [ex_Status ExpensePostgres.expenseFromDB]. rewrite decide_True by done. by apply evals_throw. }
  destruct (decide (exr_Status r = "rejected")) as [Hre|Hre].
  { eapply evals_bind; [apply evals_map_ok, Hget|]. intros w1 H1 Hs1. rewrite <-Hs1.
    cbn [ex_Status ExpensePostgres.expenseFromDB].
    rewrite decide_False, decide_True by done. by apply evals_throw. }
  destruct Hget as (w1 & Hm1 & Hs1 & H1).
  destruct (evals_time (E:=error EErr) w1 H1) as (now & w2 & Hm2 & Hs2 & H2).
  exists now. set (d' := set_expenses _ _).
  destruct (evals_store_exec (ExpenseQueries.RejectExpense now tenantID id (Some reason) (Some rejecter))
    w2 (ex_with "rejected" (exr_ApprovedBy r) (exr_SubmittedAt r) (exr_ApprovedAt r) (Some reason)
          (Some now) (Some rejecter) r) d' H2) as (w3 & Hm3 & Hs3 & H3).
  { rewrite Hs2, Hs1. unfold ExpenseQueries.RejectExpense, ExpenseQueries.GetExpense.
    rewrite get_row_owned, Ho. reflexivity. }
  exists w3. split; [|by rewrite Hs3, Hs2, Hs1]. erewrite bind_wrap_Ok by exact Hm1.
  cbn [ex_Status ExpensePostgres.expenseFromDB]. rewrite decide_False, decide_False by done.
  unfold ExpensePostgres.RejectExpense. erewrite bind_run by exact Hm2.
  unfold mbind at 1, M_bind at 1. unfold map_err. by rewrite Hm3.
Qed.

End rpcs.
