(* ===== verification/ExpenseReads.v ===== *)
(** Expense tracking: who may see what.  A read RPC shows rows of the caller's
    tenant only, and each row is the caller's own unless the caller holds
    expense:read; a request of one tenant changes no row of another.  Concrete
    runs of the service. *)

From S2P Require Export ExpenseRpcs.
From S2P Require ExpenseQueries ExpensePostgres Expense ExpenseHandler.
Local Open Scope Z_scope.

Section reads.
Context {X : External}.

(** ** What a response shows *)

Inductive Shown :=
| ShownPO (r : PurchaseOrderRow)
| ShownExpense (r : ExpenseRow)
| ShownAdvance (r : PettyCashRow).

Definition shown_tenant (x : Shown) : uuid :=
  match x with
  | ShownPO r => por_TenantID r | ShownExpense r => exr_TenantID r | ShownAdvance r => pcr_TenantID r
  end.
(** Who raised, submitted or holds it. *)
Definition shown_owner (x : Shown) : uuid :=
  match x with
  | ShownPO r => por_RaisedBy r | ShownExpense r => exr_SubmittedBy r | ShownAdvance r => pcr_IssuedTo r
  end.
Definition in_tables (d : DB) (x : Shown) : Prop :=
  match x with
  | ShownPO r => exists k, purchase_orders d !! k = Some r
  | ShownExpense r => exists k, expenses d !! k = Some r
  | ShownAdvance r => exists k, petty_cash_advances d !! k = Some r
  end.

Definition po_message (r : PurchaseOrderRow) : ExpenseHandler.PbPurchaseOrder :=
  ExpenseHandler.purchaseOrderToProto (ExpensePostgres.purchaseOrderFromDB r).
Definition expense_message (r : ExpenseRow) : ExpenseHandler.PbExpense :=
  ExpenseHandler.expenseToProto (ExpensePostgres.expenseFromDB r).
Definition advance_message (r : PettyCashRow) : ExpenseHandler.PbPettyCash :=
  ExpenseHandler.pettyCashToProto (ExpensePostgres.pettyCashFromDB r).

(** The response renders exactly these rows. *)
Inductive shows : ExpenseHandler.Response -> list Shown -> Prop :=
| shows_po r : shows (ExpenseHandler.PurchaseOrderResp (po_message r)) [ShownPO r]
| shows_pos l : shows (ExpenseHandler.PurchaseOrdersResp (po_message <$> l)) (ShownPO <$> l)
| shows_expense r : shows (ExpenseHandler.ExpenseResp (expense_message r)) [ShownExpense r]
| shows_expenses l : shows (ExpenseHandler.ExpensesResp (expense_message <$> l)) (ShownExpense <$> l)
| shows_advance r : shows (ExpenseHandler.PettyCashResp (advance_message r)) [ShownAdvance r]
| shows_advances l : shows (ExpenseHandler.PettyCashesResp (advance_message <$> l)) (ShownAdvance <$> l).

Definition is_read (r : ExpenseHandler.Rpc) : bool :=
  match r with
  | ExpenseHandler.GetPurchaseOrderRpc _ | ExpenseHandler.ListPurchaseOrdersRpc _
  | ExpenseHandler.GetExpenseRpc _ | ExpenseHandler.ListExpensesRpc _
  | ExpenseHandler.GetPettyCashAdvanceRpc _ | ExpenseHandler.ListPettyCashAdvancesRpc _ => true
  | _ => false
  end.

(** ** The guards of a read *)

Variable h : ExpenseHandler.Handler.
Variable ctx : Ctx.

Definition may_read_all : Prop :=
  RequirePermission (ExpenseHandler.h_scoped h) (ExpenseHandler.h_perm h) ctx "expense:read" = Ok tt.

(** A row the caller [c] may see. *)
Definition visible (c : CallerInfo) (d : DB) (x : Shown) : Prop :=
  in_tables d x /\ shown_tenant x = ci_TenantID c
  /\ (shown_owner x = ci_UserID c /\ ci_UserID c <> uuid_nil \/ may_read_all).

Lemma require_Ok u : ExpenseHandler.require h ctx "expense:read" = Ok u -> may_read_all.
Proof. by destruct u. Qed.

Lemma owner_or_read_Ok c owner u :
  ExpenseHandler.owner_or_read h ctx c owner = Ok u ->
  owner = ci_UserID c /\ ci_UserID c <> uuid_nil \/ may_read_all.
Proof.
  unfold ExpenseHandler.owner_or_read. destruct (_ || _) eqn:Hb; [intros H%require_Ok; by right|].
  intros _. left. by bool_hyps.
Qed.

(** The scope of a list: everybody's rows with expense:read, else the caller's. *)
Lemma list_scope_Ok mine owner :
  ExpenseHandler.list_scope h ctx mine = Ok owner ->
  nullableUUID owner = None /\ may_read_all
  \/ exists c, ctx_caller ctx = Some c /\ nullableUUID owner = Some (ci_UserID c)
               /\ ci_UserID c <> uuid_nil.
Proof.
  unfold ExpenseHandler.list_scope, nullableUUID. destruct mine.
  - intros (c & Hc & -> & Hn)%ActorFromRequest_inv. right. exists c. by rewrite decide_False.
  - destruct (ExpenseHandler.require _ _ _) as [u|] eqn:Hr; [|done]. intros [= <-].
    left. split; [done|by eapply require_Ok].
Qed.

Lemma list_visible c mine owner (col : uuid) :
  ctx_caller ctx = Some c -> ExpenseHandler.list_scope h ctx mine = Ok owner ->
  ExpenseQueries.optional_match (nullableUUID owner) col = true ->
  col = ci_UserID c /\ ci_UserID c <> uuid_nil \/ may_read_all.
Proof.
  intros Hc [[-> Hr]|(c' & Hc' & -> & Hn)]%list_scope_Ok Hm; [by right|].
  simpl in Hm. bool_hyps. left. assert (c' = c) as -> by congruence. done.
Qed.

Lemma page_limit_100 default limit :
  0 <= default <= 100 -> (Z.to_nat (Expense.page_limit default limit) <= 100)%nat.
Proof.
  intros Hd. unfold Expense.page_limit.
  destruct (bool_decide (limit <= 0) || bool_decide (100 < limit)) eqn:Hb; [lia|].
  bool_hyps. lia.
Qed.

(** The rows of a list query of the tenant. *)
Lemma page_visible {A} (f : A -> Shown) (t : gmap uuid A) le p limit offset c d :
  (forall k r, t !! k = Some r -> in_tables d (f r)) ->
  (forall r, p r = true -> shown_tenant (f r) = ci_TenantID c
             /\ (shown_owner (f r) = ci_UserID c /\ ci_UserID c <> uuid_nil \/ may_read_all)) ->
  Forall (visible c d) (f <$> limit_offset limit offset (order_by le (select p t))).
Proof.
  intros Ht Hp. apply Forall_fmap, Forall_forall. intros r [[k Hk] Hpr]%page_elem.
  split; [by eapply Ht|by apply Hp].
Qed.

End reads.

(** ** The read handlers *)

Section handlers.
Context {X : External}.
Variable h : ExpenseHandler.Handler.
Variable ctx : Ctx.

(** The response shows at most a page of rows, all visible to the caller. *)
Definition good_read (c : CallerInfo) (resp : ExpenseHandler.Response) (w' : World St) : Prop :=
  exists l, shows resp l /\ (length l <= 100)%nat /\ Forall (visible h ctx c (store_db (w_st w'))) l.

Context {c : CallerInfo} (Hc : ctx_caller ctx = Some c).

Lemma tenant_of_caller t : ExpenseHandler.tenant_id ctx = Ok t -> t = ci_TenantID c.
Proof using Hc.
  unfold ExpenseHandler.tenant_id. destruct (IDFromContext ctx) as [t'|] eqn:Ht; [|done].
  intros [= ->]. apply IDFromContext_inv in Ht as (c' & Hc' & <- & _). congruence.
Qed.
Lemma caller_of_ctx c' : ExpenseHandler.caller_info ctx = Ok c' -> c' = c.
Proof using Hc. unfold ExpenseHandler.caller_info, CallerFromContext. rewrite Hc. by intros [= ->]. Qed.

(** A fetch that ended well. *)
Lemma fetch_Ok {R A} (f : pg_error -> error EErr) (q : DB -> result pg_error R) (g : R -> A)
    (w : World St) a w' :
  ExpenseHandler.svc (row ← map_err f (q_query q); mret (g row)) w = (Ok a, w') ->
  exists row, q (store_db (w_st w')) = Ok row /\ a = g row.
Proof.
  intros (row & w1 & Hq & Hret)%map_err_Ok%bind_Ok. apply map_err_Ok, store_query_read in Hq.
  apply ret_Ok in Hret as [-> ->]. eauto.
Qed.

Lemma one_visible {A} (f : A -> Shown) resp r d (w' : World St) :
  shows resp [f r] -> d = store_db (w_st w') -> in_tables d (f r) ->
  shown_tenant (f r) = ci_TenantID c ->
  (shown_owner (f r) = ci_UserID c /\ ci_UserID c <> uuid_nil \/ may_read_all h ctx) ->
  good_read c resp w'.
Proof.
  intros Hs -> Hin Ht Ho. exists [f r]. split; [done|]. split; [simpl; lia|].
  by apply Forall_singleton.
Qed.

(** Opens a fetch by id, a scoped list, and a list by party. *)
Ltac open_get :=
  intros (t & ? & [Ht%tenant_of_caller ->]%lift_Ok & H)%bind_Ok;
  apply bind_Ok in H as (c' & ? & [->%caller_of_ctx ->]%lift_Ok & H);
  apply bind_Ok in H as (id & ? & [_ ->]%lift_Ok & H);
  apply bind_Ok in H as (e & w1 & (r & Hq & ->)%fetch_Ok & H);
  apply bind_Ok in H as ([] & ? & [Hown%owner_or_read_Ok ->]%lift_Ok & [-> ->]%ret_Ok);
  apply get_row_tenant in Hq as [Hr Htn]; subst t.
Ltac open_list :=
  match goal with H : _ = (Ok _, _) |- _ =>
    apply bind_Ok in H as (owner & ? & [Hscope ->]%lift_Ok & H);
    apply bind_Ok in H as (prod & ? & [_ ->]%lift_Ok & H);
    apply bind_Ok in H as (l & w1 & (rs & [= Hq] & ->)%fetch_Ok & [-> ->]%ret_Ok) end.
Ltac open_by_party :=
  match goal with H : _ = (Ok _, _) |- _ =>
    apply bind_Ok in H as (u & ? & [Hall%require_Ok ->]%lift_Ok & H);
    apply bind_Ok in H as (party & ? & [_ ->]%lift_Ok & H);
    apply bind_Ok in H as (l & w1 & (rs & [= Hq] & ->)%fetch_Ok & [-> ->]%ret_Ok) end.

Lemma GetExpense_read ids w resp w' :
  ExpenseHandler.GetExpense h ctx ids w = (Ok resp, w') -> good_read c resp w'.
Proof using Hc.
  open_get.
  eapply (one_visible ShownExpense); [apply shows_expense|done|by exists id|done|done].
Qed.
Lemma GetPurchaseOrder_read ids w resp w' :
  ExpenseHandler.GetPurchaseOrder h ctx ids w = (Ok resp, w') -> good_read c resp w'.
Proof using Hc.
  open_get.
  eapply (one_visible ShownPO); [apply shows_po|done|by exists id|done|done].
Qed.
Lemma GetPettyCashAdvance_read ids w resp w' :
  ExpenseHandler.GetPettyCashAdvance h ctx ids w = (Ok resp, w') -> good_read c resp w'.
Proof using Hc.
  open_get.
  eapply (one_visible ShownAdvance); [apply shows_advance|done|by exists id|done|done].
Qed.

(** A page of a table. *)
Lemma page_read {A} (f : A -> Shown) (t : gmap uuid A) le p default limit resp rs (w' : World St) :
  0 <= default <= 100 ->
  rs = limit_offset (Expense.page_limit default limit) 0 (order_by le (select p t)) ->
  shows resp (f <$> rs) ->
  (forall k r, t !! k = Some r -> in_tables (store_db (w_st w')) (f r)) ->
  (forall r, p r = true -> shown_tenant (f r) = ci_TenantID c
     /\ (shown_owner (f r) = ci_UserID c /\ ci_UserID c <> uuid_nil \/ may_read_all h ctx)) ->
  good_read c resp w'.
Proof.
  intros Hd -> Hs Hin Hp. eexists. split; [exact Hs|]. split; [|by eapply page_visible].
  rewrite length_fmap. etrans; [apply page_length|by apply page_limit_100].
Qed.

Lemma ListExpenses_read q w resp w' :
  ExpenseHandler.ListExpenses h ctx q w = (Ok resp, w') -> good_read c resp w'.
Proof using Hc.
  intros (t & ? & [Ht%tenant_of_caller ->]%lift_Ok & H)%bind_Ok. subst t.
  destruct (bool_decide (ExpenseHandler.rl_PartyId q = "")); simpl in H.
  - open_list.
    eapply (page_read ShownExpense _ _ _ 20); [lia|symmetry; exact Hq| | |].
    + rewrite <-list_fmap_compose. apply shows_expenses.
    + intros k r Hr. by exists k.
    + intros r Hp. cbv beta in Hp. bool_hyps. split; [done|]. by eapply list_visible.
  - open_by_party.
    eapply (page_read ShownExpense _ _ _ 100); [lia|symmetry; exact Hq| | |].
    + rewrite <-list_fmap_compose. apply shows_expenses.
    + intros k r Hr. by exists k.
    + intros r Hp. cbv beta in Hp. bool_hyps. split; [done|by right].
Qed.
Lemma ListPurchaseOrders_read q w resp w' :
  ExpenseHandler.ListPurchaseOrders h ctx q w = (Ok resp, w') -> good_read c resp w'.
Proof using Hc.
  intros (t & ? & [Ht%tenant_of_caller ->]%lift_Ok & H)%bind_Ok. subst t.
  destruct (bool_decide (ExpenseHandler.rl_PartyId q = "")); simpl in H.
  - open_list.
    eapply (page_read ShownPO _ _ _ 20); [lia|symmetry; exact Hq| | |].
    + rewrite <-list_fmap_compose. apply shows_pos.
    + intros k r Hr. by exists k.
    + intros r Hp. cbv beta in Hp. bool_hyps. split; [done|]. by eapply list_visible.
  - open_by_party.
    eapply (page_read ShownPO _ _ _ 100); [lia|symmetry; exact Hq| | |].
    + rewrite <-list_fmap_compose. apply shows_pos.
    + intros k r Hr. by exists k.
    + intros r Hp. cbv beta in Hp. bool_hyps. split; [done|by right].
Qed.
Lemma ListPettyCashAdvances_read q w resp w' :
  ExpenseHandler.ListPettyCashAdvances h ctx q w = (Ok resp, w') -> good_read c resp w'.
Proof using Hc.
  intros (t & ? & [Ht%tenant_of_caller ->]%lift_Ok & H)%bind_Ok. subst t.
  open_list.
  eapply (page_read ShownAdvance _ _ _ 20); [lia|symmetry; exact Hq| | |].
  - rewrite <-list_fmap_compose. apply shows_advances.
  - intros k r Hr. by exists k.
  - intros r Hp. cbv beta in Hp. bool_hyps. split; [done|]. by eapply list_visible.
Qed.

End handlers.

Section theorem.
Context {X : External}.

(** Reads are authorized.  When a read RPC succeeds, its response renders
    at most a hundred rows of the tables, all of the caller's tenant, and each
    is one the caller (with a non-nil identity) raised, submitted or holds,
    unless the caller has expense:read. *)
Theorem reads_authorised (h : ExpenseHandler.Handler) (ctx : Ctx) (r : ExpenseHandler.Rpc)
    (w : World St) resp w' :
  is_read r = true -> ExpenseHandler.handle h ctx r w = (Ok resp, w') ->
  exists c l, ctx_caller ctx = Some c /\ shows resp l /\ (length l <= 100)%nat
    /\ Forall (visible h ctx c (store_db (w_st w'))) l.
Proof.
  intros Hr (vcfg & ? & [Hv ->]%lift_Ok & H)%bind_Ok.
  assert (Hc : exists c, ctx_caller ctx = Some c).
  { destruct (ctx_caller ctx) as [c|] eqn:Hc; [by exists c|exfalso].
    assert (Hn : ExpenseHandler.tenant_id ctx
                 = Err (mkStatus Unauthenticated "tenant ID not found in context"))
      by (unfold ExpenseHandler.tenant_id, IDFromContext, CallerFromContext; by rewrite Hc).
    destruct r; try done; simpl in H;
      apply bind_Ok in H as (? & ? & [Ht _]%lift_Ok & _); rewrite Hn in Ht; done. }
  destruct Hc as [c Hc]. exists c. setoid_rewrite Hc.
  assert (good_read h ctx c resp w') as (l & Hs & Hl & Hf); [|by exists l].
  destruct r; try done; simpl in H.
  - by eapply GetPurchaseOrder_read.
  - by eapply ListPurchaseOrders_read.
  - by eapply GetExpense_read.
  - by eapply ListExpenses_read.
  - by eapply GetPettyCashAdvance_read.
  - by eapply ListPettyCashAdvances_read.
Qed.

End theorem.

(** ** Isolation *)

Section isolation.
Context {X : External} {L : ExternalLaws}.
Variable u : uuid.

(** Everything the tables hold for tenant [u]. *)
Definition view (d : DB) : DB :=
  mkDB (filter (fun kv => por_TenantID kv.2 = u) (purchase_orders d))
       (filter (fun kv => exr_TenantID kv.2 = u) (expenses d))
       (filter (fun kv => pcr_TenantID kv.2 = u) (petty_cash_advances d)).
Definition same_rows (d d' : DB) : Prop := view d = view d'.

#[export] Instance same_rows_preorder : PreOrder same_rows.
Proof. split; [done|]. intros d1 d2 d3. unfold same_rows. congruence. Qed.

Lemma estep_view auth d d' : estep (fun t => t <> u) auth d d' -> same_rows d d'.
Proof.
  intros [H1 H2 H3]. unfold same_rows, view.
  f_equal; [apply (table_step_filter (fun r => por_TenantID r = u) _ _) in H1; [exact H1|]
           |apply (table_step_filter (fun r => exr_TenantID r = u) _ _) in H2; [exact H2|]
           |apply (table_step_filter (fun r => pcr_TenantID r = u) _ _) in H3; [exact H3|]];
    intros k o r [Hn HQ]; (split; [exact Hn|]); intros r0 ->.
  - by destruct HQ as (_ & ? & ? & ->).
  - by destruct HQ as (? & ? & ? & ? & ? & ? & ? & ->).
  - by destruct HQ as (_ & ? & ? & _ & ->).
Qed.

Lemma settle_view now t id amt d a d' :
  t <> u -> ExpenseQueries.SettlePettyCashAdvance now t id "settled" amt d = Ok (a, d') ->
  same_rows d d'.
Proof.
  intros Hne (r & u' & Hr & Ht & _ & _ & ->)%SettlePettyCashAdvance_Ok.
  unfold same_rows, view. f_equal. symmetry. apply map_filter_insert_not'; simpl; [congruence|].
  intros r0 Hr0. congruence.
Qed.

(** A fetch only returns a row of the tenant asked for. *)
Lemma GetPO_tenant t id (w : World St) po w' :
  ExpensePostgres.GetPurchaseOrder t id w = (Ok po, w') -> po_TenantID po = t.
Proof.
  intros (row & w1 & Hq & [-> ->]%ret_Ok)%bind_Ok. apply map_err_Ok, store_query_read in Hq.
  by apply get_row_tenant in Hq as [_ <-].
Qed.
Lemma GetExpense_tenant t id (w : World St) e w' :
  ExpensePostgres.GetExpense t id w = (Ok e, w') -> ex_TenantID e = t.
Proof.
  intros (row & w1 & Hq & [-> ->]%ret_Ok)%bind_Ok. apply map_err_Ok, store_query_read in Hq.
  by apply get_row_tenant in Hq as [_ <-].
Qed.
Lemma GetPC_tenant t id (w : World St) pc w' :
  ExpensePostgres.GetPettyCashAdvance t id w = (Ok pc, w') -> pc_TenantID pc = t.
Proof.
  intros (row & w1 & Hq & [-> ->]%ret_Ok)%bind_Ok. apply map_err_Ok, store_query_read in Hq.
  by apply get_row_tenant in Hq as [_ <-].
Qed.

(** A read-then-write service call. *)
Ltac read_write :=
  match goal with |- steps _ (wrap _ ?m ≫= _) _ =>
    apply steps_bind; [apply steps_wrap; first [apply steps_GetPO|apply steps_GetExpense|apply steps_GetPC]|];
    intros x w1 Hx _ _ _; apply wrap_Ok in Hx;
    first [apply GetPO_tenant in Hx|apply GetExpense_tenant in Hx|apply GetPC_tenant in Hx] end;
  repeat (steps_tac; try apply steps_store_exec; try apply steps_emit).

(** Tenants are isolated: an RPC whose caller belongs to another tenant
    leaves every row of tenant [u] exactly as it was, whatever ids it names and
    whatever its outcome, as long as the requests running beside it do; and so
    does each statement it runs. *)
Theorem expense_tenant_isolation (h : ExpenseHandler.Handler) (ctx : Ctx) (r : ExpenseHandler.Rpc)
    (w : World St) :
  (forall c, ctx_caller ctx = Some c -> ci_TenantID c <> u) ->
  steps (store_step same_rows) (ExpenseHandler.handle h ctx r) w.
Proof.
  intros Hu.
  assert (exists t, t <> u /\ forall t', IDFromContext ctx = Some t' -> t' = t) as (t & Hne & Ht).
  { destruct (IDFromContext ctx) as [t|] eqn:Hi; [|exists (N.succ u); split; [lia|done]].
    apply IDFromContext_inv in Hi as (c & Hc & <- & _).
    exists (ci_TenantID c). split; [by apply Hu|by intros ? [= <-]]. }
  apply (handle_steps (fun _ => True) (fun _ _ _ _ => I) h ctx t); try done; intros.
  - eapply (estep_view (fun _ _ => True)), CreatePurchaseOrder_estep; [|eassumption]. congruence.
  - eapply (estep_view (fun _ _ => True)), CreateExpense_estep; [|eassumption]. congruence.
  - by eapply (estep_view (fun _ _ => True)), RejectExpense_estep.
  - by eapply (estep_view (fun _ _ => True)), CreatePettyCashAdvance_estep.
  - unfold Expense.ApproveExpense, Expense.publish, ExpensePostgres.UpdateExpense. read_write.
    eapply (estep_view (fun _ _ => True)), UpdateExpenseStatus_estep; [|eassumption].
    simpl. congruence.
  - unfold Expense.ApprovePurchaseOrder, ExpensePostgres.UpdatePurchaseOrder. read_write.
    eapply (estep_view (fun _ _ => True)), UpdatePurchaseOrderStatus_estep; [|done|eassumption].
    simpl. congruence.
  - unfold Expense.SettlePettyCash, ExpensePostgres.UpdatePettyCashAdvance. read_write.
    eapply settle_view; [|eassumption]. simpl. congruence.
Qed.

End isolation.

(** Expense tracking: the theorems of the other files on the concrete service of
    [ExpDemo], and what two tenants on the same tables do to each other. *)

Local Open Scope Z_scope.

#[local] Existing Instance ref_external.
Import ExpDemo.

Lemma ready_inv : inv handler (store_db (w_st ready)).
Proof. exact (exp_reachable_inv handler (w_st ready) (proj1 ready_reachable)). Qed.

Lemma ready_rely : rely (store_step (system_step handler)) ready.
Proof. exact (@exp_alone_rely ready _ system_preorder (proj2 ready_reachable)). Qed.

Lemma ready_quiet : quiet ready.
Proof.
  split; [exact (proj2 ready_reachable)|]. intros n.
  assert (He : forall m, env_fault (w_env ready) m = false) by (vm_compute; intros m; reflexivity).
  exact (He n).
Qed.

(** A submitted expense of 400, as no statement of the service stores one. *)
Definition pending : ExpenseRow :=
  mkExpenseRow 50 1 7 None None "props" None 400000 "INR" 0 "submitted" 20 None None None 0 None
    None None None.
Definition pending_world : World St :=
  world (mkStore (set_expenses {[50%N := pending]} empty_db) []).

Lemma pending_keyed : keyed (store_db (w_st pending_world)).
Proof.
  split; simpl; [apply map_Forall_empty| |apply map_Forall_empty].
  by apply map_Forall_singleton.
Qed.

Lemma approve_expense_refines_witness :
  exists o, approval_outcome (cfg_ApprovalWorkflow config) ["accountant"] 400000 "submitted" o /\
  match o with
  | Some err => exists e, sentinel e = Some err
      /\ evals (Expense.ApproveExpense (Expense.mkService true) config 7 50 8 ["accountant"])
           pending_world (Err e) (w_st pending_world)
  | None => exists now at_,
      evals (Expense.ApproveExpense (Expense.mkService true) config 7 50 8 ["accountant"])
        pending_world (Ok tt)
        (mkStore (set_expenses (<[50%N := approved_expense_row 8 now pending]> {[50%N := pending]})
                    (set_expenses {[50%N := pending]} empty_db))
           ([] ++ [ExpenseApproved (Expense.approved_expense 8 at_ (ExpensePostgres.expenseFromDB pending))]))
  end.
Proof.
  exact (approve_expense_refines (Expense.mkService true) config 7 50 8 ["accountant"] pending_world
           (conj (fun n s => eq_refl) (fun n => eq_refl)) pending_keyed).
Defined.

(** The manager approves the purchase order of 800. *)
Lemma approve_po_authorised_witness :
  exists resp w',
  ExpenseHandler.handle handler manager (ExpenseHandler.ApprovePurchaseOrderRpc "100") ready
    = (Ok resp, w') /\
  exists c cfg id r,
    ctx_caller manager = Some c /\ uuid_parse "100" = Some id
    /\ RequirePermission false (Some perms) manager "expense:approve" = Ok tt
    /\ ExpenseHandler.h_loader handler (ci_TenantID c) = Some cfg
    /\ purchase_orders (store_db (w_st w')) !! id = Some r
    /\ por_TenantID r = ci_TenantID c /\ por_Status r = "approved"
    /\ within_authority (cfg_ApprovalWorkflow cfg) (ci_Roles c) (por_Amount r)
    /\ resp = ExpenseHandler.PurchaseOrderResp
                (ExpenseHandler.purchaseOrderToProto (ExpensePostgres.purchaseOrderFromDB r)).
Proof.
  destruct (ExpenseHandler.handle handler manager (ExpenseHandler.ApprovePurchaseOrderRpc "100") ready)
    as [[resp|e] w'] eqn:Hh.
  - exists resp, w'. split; [reflexivity|].
    exact (approve_po_authorised handler manager "100" ready resp w' Hh
             (inv_keyed _ _ ready_inv) (rely_estep _ _ ready_rely)).
  - exfalso. assert (Hok : is_ok (ExpenseHandler.handle handler manager
      (ExpenseHandler.ApprovePurchaseOrderRpc "100") ready).1 = true) by vm_refl.
    rewrite Hh in Hok. discriminate.
Defined.

Lemma settle_by_holder_witness :
  exists resp w',
  ExpenseHandler.handle handler member (ExpenseHandler.SettlePettyCashRpc "103" "45") ready
    = (Ok resp, w') /\
  exists c id r,
    ctx_caller member = Some c /\ uuid_parse "103" = Some id
    /\ petty_cash_advances (store_db (w_st w')) !! id = Some r
    /\ pcr_IssuedTo r = ci_UserID c /\ pcr_TenantID r = ci_TenantID c
    /\ pcr_Status r = "settled" /\ unspent_ok r.
Proof.
  destruct (ExpenseHandler.handle handler member (ExpenseHandler.SettlePettyCashRpc "103" "45") ready)
    as [[resp|e] w'] eqn:Hh.
  - exists resp, w'. split; [reflexivity|].
    exact (settle_by_holder handler member "103" "45" ready resp w' Hh ready_inv ready_rely).
  - exfalso. assert (Hok : is_ok (ExpenseHandler.handle handler member
      (ExpenseHandler.SettlePettyCashRpc "103" "45") ready).1 = true) by vm_refl.
    rewrite Hh in Hok. discriminate.
Defined.

(** A taxi of 25 against purchase order 100. *)
Definition taxi : Expense :=
  mkExpense 0 1 7 None (Some 100%N) "travel" "taxi" 25004 "INR" 0 "" None 20 None None None None 0
    None None.

Lemma submit_stores_draft_witness :
  exists id now,
    ex_Status (Expense.submitted id taxi) = "submitted"
    /\ expenses (store_db (w_st ready)) !! id = None
    /\ evals (Expense.SubmitExpense (Expense.mkService true) config taxi) ready
         (Ok (Expense.submitted id taxi))
         (mkStore (set_expenses (<[id := submitted_row taxi id 25000 0 now]>
                     (expenses (store_db (w_st ready)))) (store_db (w_st ready)))
            (store_events (w_st ready) ++ [ExpenseSubmitted (Expense.submitted id taxi)])).
Proof.
  apply (submit_stores_draft (Expense.mkService true) config taxi
           (mkExpenseCategory "travel" "Travel" "none" "6100" true) 25000 0 ready ready_quiet).
  - reflexivity.
  - reflexivity.
  - discriminate.
  - intros po [= <-].
    assert (Hb : bool_decide (is_Some (purchase_orders (store_db (w_st ready)) !! 100%N)) = true)
      by vm_refl.
    exact (bool_decide_eq_true_1 _ Hb).
  - vm_refl.
  - vm_refl.
  - vm_refl.
Defined.

(** Expense 102, a draft, is rejected. *)
Lemma reject_refines_witness :
  exists r now, exr_Status r = "draft" /\
  evals (Expense.RejectExpense 7 102 9 "not ours") ready (Ok tt)
    (mkStore (set_expenses (<[102%N := ex_with "rejected" (exr_ApprovedBy r) (exr_SubmittedAt r)
                (exr_ApprovedAt r) (Some "not ours") (Some now) (Some 9%N) r]>
                (expenses (store_db (w_st ready)))) (store_db (w_st ready)))
       (store_events (w_st ready))).
Proof.
  pose proof (reject_refines 7 102 9 "not ours" ready ready_quiet) as H. cbv zeta in H.
  assert (Hs : (exr_Status <$> owned exr_TenantID 7%N (expenses (store_db (w_st ready))) 102%N)
               = Some "draft") by vm_refl.
  destruct (owned exr_TenantID 7%N (expenses (store_db (w_st ready))) 102%N) as [r|]; [|discriminate].
  cbn [fmap option_fmap option_map] in Hs. injection Hs as Hs. rewrite Hs in H.
  destruct H as [now H]. exists r, now. split; [exact Hs|exact H].
Defined.

(** The member lists its own submissions without expense:read. *)
Lemma reads_authorised_witness :
  RequirePermission false (Some perms) member "expense:read" <> Ok tt /\
  exists resp w',
  ExpenseHandler.handle handler member
    (ExpenseHandler.ListExpensesRpc (ExpenseHandler.mkListReq "" true "" "" 0)) ready = (Ok resp, w') /\
  exists c l, ctx_caller member = Some c /\ shows resp l /\ (length l <= 100)%nat
    /\ Forall (visible handler member c (store_db (w_st w'))) l.
Proof.
  split; [discriminate|].
  destruct (ExpenseHandler.handle handler member
    (ExpenseHandler.ListExpensesRpc (ExpenseHandler.mkListReq "" true "" "" 0)) ready)
    as [[resp|e] w'] eqn:Hh.
  - exists resp, w'. split; [reflexivity|].
    exact (reads_authorised handler member (ExpenseHandler.ListExpensesRpc
      (ExpenseHandler.mkListReq "" true "" "" 0)) ready resp w' eq_refl Hh).
  - exfalso. assert (Hok : is_ok (ExpenseHandler.handle handler member
      (ExpenseHandler.ListExpensesRpc (ExpenseHandler.mkListReq "" true "" "" 0)) ready).1 = true)
      by vm_refl.
    rewrite Hh in Hok. discriminate.
Defined.

(** A manager of tenant 8 tries to approve tenant 7's purchase order. *)
Definition stranger : Ctx := caller 9 8 ["manager"].

Lemma expense_tenant_isolation_witness :
  view 7 (store_db (w_st (ExpenseHandler.handle handler stranger
    (ExpenseHandler.ApprovePurchaseOrderRpc "100") ready).2)) = view 7 (store_db (w_st ready))
  /\ size (expenses (view 7 (store_db (w_st ready)))) = 2%nat.
Proof.
  split; [|vm_refl].
  assert (forall c, ctx_caller stranger = Some c -> ci_TenantID c <> 7%N) as Hc
    by (intros c [= <-]; discriminate).
  destruct (expense_tenant_isolation 7%N handler stranger
    (ExpenseHandler.ApprovePurchaseOrderRpc "100") ready Hc) as ([Hv _] & _).
  - intros n s. rewrite (proj2 ready_reachable n s). split; reflexivity.
  - symmetry. exact Hv.
Defined.

(** ** Two tenants, one table *)

(** The status code of an RPC's outcome. *)
Definition outcome (r : result status ExpenseHandler.Response) : option code :=
  match r with Ok _ => None | Err s => Some (st_code s) end.

(** Purchase orders are not kept apart by tenant: tenant 8 cannot use the
    number tenant 7 used (its creation fails as Internal), and tenant 8's
    expense in a category that requires a purchase order is accepted against
    tenant 7's. *)
Theorem po_shared_between_tenants :
  outcome (ExpenseHandler.handle handler stranger (raise_po "PO-1" "10") ready).1 = Some Internal
  /\ outcome (ExpenseHandler.handle handler stranger (raise_po "PO-2" "10") ready).1 = None
  /\ outcome (ExpenseHandler.handle handler stranger (submit "travel" "" "10") ready).1
     = Some FailedPrecondition
  /\ outcome (ExpenseHandler.handle handler stranger (submit "travel" "100" "10") ready).1 = None.
Proof. split_and!; vm_refl. Qed.
