(* ===== verification/Logic.v ===== *)
(** What a request does itself, beside others: [own R Q m w] says that, while the
    other requests respect [R], every state change made by a statement of [m]
    satisfies [Q], which may say more than [R]. *)

From S2P Require Export Store.
Section own.
Context {S : Type} {R : S -> S -> Prop} `{!PreOrder R} {Q : S -> S -> Prop}.

Definition own {E A} (m : M S E A) (w : World S) : Prop :=
  rely R w -> exists l, w_log (m w).2 = l ++ w_log w /\ Forall (fun p => Q p.1 p.2) l.

Lemma own_pure {E A} (m : M S E A) w : w_log (m w).2 = w_log w -> own m w.
Proof. intros H _. by exists []. Qed.
Lemma own_ret {E A} (a : A) w : own (mret a : M S E A) w.
Proof. by apply own_pure. Qed.
Lemma own_throw {E A} (e : E) w : own (mthrow e : M S E A) w.
Proof. by apply own_pure. Qed.
Lemma own_lift {E A} (r : result E A) w : own (lift_result r) w.
Proof. by apply own_pure. Qed.
Lemma own_uuid {E} w : own (uuid_new : M S E uuid) w.
Proof. by apply own_pure. Qed.
Lemma own_time {E} w : own (time_now : M S E Time) w.
Proof. by apply own_pure. Qed.

Lemma own_bind {E A B} (m : M S E A) (f : A -> M S E B) w :
  own m w -> steps R m w ->
  (forall a w', m w = (Ok a, w') -> R (w_st w) (w_st w') -> rely R w' -> own (f a) w') ->
  own (m ≫= f) w.
Proof.
  intros Hm Hs Hf HR. destruct (Hm HR) as (l & H1 & H2).
  unfold mbind, M_bind. destruct (m w) as [[a|e] w'] eqn:Hw; simpl in *; [|by eauto].
  destruct (steps_run _ _ _ _ Hs Hw HR) as [HR1 HR2].
  destruct (Hf a w' eq_refl HR1 HR2 HR2) as (l' & H3 & H4).
  exists (l' ++ l). rewrite H3, H1, <-app_assoc. split; [done|]. by apply Forall_app.
Qed.

Lemma own_rely {E A} (m : M S E A) w : (rely R w -> own m w) -> own m w.
Proof. intros Hm HR. by apply Hm. Qed.

Lemma own_map_err {E E' A} (f : E -> E') (m : M S E A) w : own m w -> own (map_err f m) w.
Proof. intros Hm HR. specialize (Hm HR). unfold map_err. by destruct (m w). Qed.
Lemma own_wrap {T A} t (m : M S (error T) A) w : own m w -> own (wrap t m) w.
Proof. apply own_map_err. Qed.
Lemma own_try {E E' A} (m : M S E A) w : own m w -> own (try (E':=E') m) w.
Proof. intros Hm HR. specialize (Hm HR). unfold try. by destruct (m w). Qed.

Lemma own_tx {E A} down (q : S -> result E (A * S)) w :
  (forall s1 a s2, R (w_st w) s1 -> q s1 = Ok (a, s2) -> Q s1 s2) -> own (db_tx down q) w.
Proof.
  intros Hq HR. unfold db_tx.
  pose proof (HR (env_fault_pos (w_env w)) (w_st w)) as Hs.
  destruct (env_fault _ _); simpl; [by exists []|].
  destruct (q _) as [[a s2]|e] eqn:E1; simpl; [|by exists []].
  exists [(w_other w (env_fault_pos (w_env w)) (w_st w), s2)]. split; [done|].
  repeat constructor. by eapply Hq.
Qed.

Lemma own_best_effort {E} (f : S -> S) w :
  (forall s, Q s (f s)) -> own (best_effort f : M S E unit) w.
Proof.
  intros Hf HR. unfold best_effort.
  assert (own (db_exec (fun s => Ok (tt, f s))) w) as Hs.
  { apply own_tx. intros s1 a s2 _ [= _ <-]. apply Hf. }
  specialize (Hs HR). by destruct (db_exec _ w) as [? ?].
Qed.

End own.
Arguments own {S} R Q {E A} m w.

(** Whatever the other requests do. *)
Definition anything {S} (_ _ : S) : Prop := True.
Lemma own_bind_any {S} {Q : S -> S -> Prop} {E A B} (m : M S E A) (f : A -> M S E B) w :
  own anything Q m w -> (forall a w', m w = (Ok a, w') -> own anything Q (f a) w') ->
  own anything Q (m ≫= f) w.
Proof.
  intros Hm Hf _. destruct (Hm (fun _ _ => I)) as (l & H1 & H2).
  unfold mbind, M_bind. destruct (m w) as [[a|e] w'] eqn:Hw; simpl in *; [|by eauto].
  destruct (Hf a w' eq_refl (fun _ _ => I)) as (l' & H3 & H4).
  exists (l' ++ l). rewrite H3, H1, <-app_assoc. split; [done|]. by apply Forall_app.
Qed.

(** A transaction that succeeded is the last entry of its log. *)
Lemma tx_logged {S E A} (down : E) (q : S -> result E (A * S)) w a w' :
  db_tx down q w = (Ok a, w') ->
  let s1 := w_other w (env_fault_pos (w_env w)) (w_st w) in
  q s1 = Ok (a, w_st w') /\ w_log w' = (s1, w_st w') :: w_log w.
Proof.
  unfold db_tx. destruct (env_fault _ _); [done|]. destruct (q _) as [[a' s2]|]; [|done]. by intros [= -> <-].
Qed.

(** On the database and the published events. *)
Section own_store.
Context {D Ev : Type} {R : D -> D -> Prop} `{!PreOrder R} {Q : D -> D -> Prop}.
Implicit Types (w : World (Store D Ev)).

Lemma own_store_exec {A} (q : D -> result pg_error (A * D)) w :
  (forall d a d', R (store_db (w_st w)) d -> q d = Ok (a, d') -> Q d d') ->
  own (store_step R) (store_step Q) (q_exec q) w.
Proof.
  intros Hq. apply own_tx. intros s1 a s2 [Hs _] H. unfold on_db in H.
  destruct (q (store_db s1)) as [[a' d]|] eqn:Hd; simplify_eq. split; [by eapply Hq|done].
Qed.

Lemma own_store_query `{!Reflexive Q} {A} (q : D -> result pg_error A) w :
  own (store_step R) (store_step Q) (q_query q) w.
Proof. apply own_store_exec. intros d a d' _ H. destruct (q d); by simplify_eq. Qed.

Lemma own_emit `{!Reflexive Q} {E} b ev w : own (store_step R) (store_step Q) (emit (E:=E) b ev) w.
Proof.
  unfold emit. destruct b; [|apply own_ret]. apply own_best_effort.
  intros s. split; [done|]. by eexists.
Qed.

End own_store.

Ltac own_tac :=
  repeat match goal with
  | |- forall _, _ => intros ?
  | |- own _ _ (mret _) _ => apply own_ret
  | |- own _ _ (mthrow _) _ => apply own_throw
  | |- own _ _ (lift_result _) _ => apply own_lift
  | |- own _ _ uuid_new _ => apply own_uuid
  | |- own _ _ time_now _ => apply own_time
  | |- own _ _ (map_err _ _) _ => apply own_map_err
  | |- own _ _ (wrap _ _) _ => apply own_wrap
  | |- own _ _ (try _) _ => apply own_try
  | |- own _ _ (if decide ?P then _ else _) _ => destruct (decide P)
  | |- own _ _ (if ?b then _ else _) _ => destruct b eqn:?
  | |- own _ _ (match ?x with _ => _ end) _ => destruct x eqn:?
  end.

(** Weakest preconditions for a request that runs alone: no other request changes
    the state meanwhile, but any of its calls to other processes may fail.
    [wp u m Q s] says that [m], started in [s] with [u] as the stream of fresh
    UUIDs, ends in a result and a state that satisfy [Q]. *)

Section wp.
Context {S : Type}.
Variable u : nat -> uuid.

Definition alone (w : World S) : Prop :=
  (forall n s, w_other w n s = s) /\ env_uuid (w_env w) = u.

Definition wp {E A} (m : M S E A) (Q : result E A -> S -> Prop) (s : S) : Prop :=
  forall w, alone w -> w_st w = s -> alone (m w).2 /\ Q (m w).1 (w_st (m w).2).

Lemma wp_run {E A} (m : M S E A) Q w r w' :
  wp m Q (w_st w) -> alone w -> m w = (r, w') -> alone w' /\ Q r (w_st w').
Proof. intros Hwp Ha Hw. specialize (Hwp w Ha eq_refl). by rewrite Hw in Hwp. Qed.

Lemma wp_mono {E A} (m : M S E A) (Q Q' : result E A -> S -> Prop) s :
  wp m Q s -> (forall r s', Q r s' -> Q' r s') -> wp m Q' s.
Proof. intros Hwp HQ w Ha Hs. destruct (Hwp w Ha Hs). auto. Qed.

Lemma wp_ret {E A} (a : A) (Q : result E A -> S -> Prop) s : Q (Ok a) s -> wp (mret a) Q s.
Proof. by intros HQ w Ha <-. Qed.
Lemma wp_throw {E A} (e : E) (Q : result E A -> S -> Prop) s : Q (Err e) s -> wp (mthrow e) Q s.
Proof. by intros HQ w Ha <-. Qed.
Lemma wp_lift {E A} (r : result E A) (Q : result E A -> S -> Prop) s :
  Q r s -> wp (lift_result r) Q s.
Proof. by intros HQ w Ha <-. Qed.
Lemma wp_uuid {E} (Q : result E uuid -> S -> Prop) s : (forall n, Q (Ok (u n)) s) -> wp uuid_new Q s.
Proof. intros HQ w [Ho Hu] <-. split; [done|]. simpl. rewrite Hu. apply HQ. Qed.
Lemma wp_time {E} (Q : result E Time -> S -> Prop) s : (forall t, Q (Ok t) s) -> wp time_now Q s.
Proof. intros HQ w Ha <-. split; [done|apply HQ]. Qed.
Lemma wp_zone {E} (Q : result E Z -> S -> Prop) s : (forall t, Q (Ok t) s) -> wp local_zone Q s.
Proof. intros HQ w Ha <-. split; [done|apply HQ]. Qed.

Lemma wp_bind {E A B} (m : M S E A) (f : A -> M S E B) (Q : result E B -> S -> Prop) s :
  wp m (fun r s' => match r with Ok a => wp (f a) Q s' | Err e => Q (Err e) s' end) s ->
  wp (m ≫= f) Q s.
Proof.
  intros Hwp w Ha Hs. destruct (Hwp w Ha Hs) as [Ha' HQ].
  unfold mbind, M_bind. destruct (m w) as [[a|e] w']; simpl in *; [|done]. by apply HQ.
Qed.
Lemma wp_try {E E' A} (m : M S E A) (Q : result E' (result E A) -> S -> Prop) s :
  wp m (fun r s' => Q (Ok r) s') s -> wp (try m) Q s.
Proof.
  intros Hwp w Ha Hs. specialize (Hwp w Ha Hs). unfold try. by destruct (m w).
Qed.
Lemma wp_map_err {E E' A} (f : E -> E') (m : M S E A) (Q : result E' A -> S -> Prop) s :
  wp m (fun r s' => Q (match r with Ok a => Ok a | Err e => Err (f e) end) s') s ->
  wp (map_err f m) Q s.
Proof.
  intros Hwp w Ha Hs. specialize (Hwp w Ha Hs). unfold map_err. by destruct (m w).
Qed.
Lemma wp_wrap {T A} text (m : M S (error T) A) (Q : result (error T) A -> S -> Prop) s :
  wp m (fun r s' => Q (match r with Ok a => Ok a | Err e => Err (EWrap text e) end) s') s ->
  wp (wrap text m) Q s.
Proof. apply wp_map_err. Qed.

(** A transaction fails with nothing done, or its body runs. *)
Lemma wp_tx {E A} down (body : S -> result E (A * S)) (Q : result E A -> S -> Prop) s :
  Q (Err down) s ->
  match body s with Ok (a, s') => Q (Ok a) s' | Err e => Q (Err e) s end ->
  wp (db_tx down body) Q s.
Proof.
  intros Hdown Hbody w [Ho Hu] <-. unfold db_tx. rewrite Ho.
  destruct (env_fault _ _); [done|]. by destruct (body (w_st w)) as [[]|].
Qed.
Lemma wp_best_effort {E} (f : S -> S) (Q : result E unit -> S -> Prop) s :
  Q (Ok tt) s -> Q (Ok tt) (f s) -> wp (best_effort f) Q s.
Proof.
  intros H1 H2 w Ha <-. unfold best_effort, db_exec.
  pose proof (wp_tx PgConnection (fun s => Ok (tt, f s)) (fun _ s' => Q (Ok tt) s') (w_st w) H1 H2 w Ha eq_refl)
    as [? ?]. by destruct (db_tx _ _ w).
Qed.
Lemma wp_query {A} (q : S -> result pg_error A) (Q : result pg_error A -> S -> Prop) s :
  Q (Err PgConnection) s -> Q (q s) s -> wp (db_query q) Q s.
Proof. intros H1 H2. apply wp_tx; [done|]. by destruct (q s). Qed.

(** A call that only reads, or whose effect the caller does not see: [f] of the
    state is kept. *)
Definition keeps {E A B} (f : S -> B) (m : M S E A) : Prop :=
  forall s, wp m (fun _ s' => f s' = f s) s.

Lemma wp_keeps {E A B} (f : S -> B) (m : M S E A) (Q : result E A -> S -> Prop) s :
  keeps f m -> (forall r s', f s' = f s -> Q r s') -> wp m Q s.
Proof. intros Hk HQ. eapply wp_mono; [apply Hk|]. auto. Qed.

End wp.

(** A store statement: the connection fails and nothing happens, or it runs. *)
Lemma wp_with_tx {D Ev E A} u (down : E) (body : D -> result E (A * D))
    (Q : result E A -> Store D Ev -> Prop) st :
  Q (Err down) st ->
  match body (store_db st) with
  | Ok (a, d) => Q (Ok a) (mkStore d (store_events st))
  | Err e => Q (Err e) st
  end ->
  wp u (with_tx down body) Q st.
Proof.
  intros Hd Hb. apply wp_tx; [done|]. unfold on_db. by destruct (body (store_db st)) as [[a d]|].
Qed.

(** A store query: the connection fails, or the rows are those of the state. *)
Lemma wp_store_query {D Ev A} u (q : D -> result pg_error A) (Q : result pg_error A -> Store D Ev -> Prop) st :
  Q (Err PgConnection) st -> Q (q (store_db st)) st -> wp u (q_query q) Q st.
Proof.
  intros Hd Hq. apply wp_with_tx; [done|]. destruct st as [d ev]. simpl in *. by destruct (q d).
Qed.

(** Runs the program up to the next call that is not one of the rules above. *)
Ltac wp_tac :=
  repeat match goal with
  | |- forall _, _ => intros ?
  | |- wp _ (mret _) _ _ => apply wp_ret
  | |- wp _ (mthrow _) _ _ => apply wp_throw
  | |- wp _ (lift_result _) _ _ => apply wp_lift
  | |- wp _ uuid_new _ _ => apply wp_uuid
  | |- wp _ time_now _ _ => apply wp_time
  | |- wp _ local_zone _ _ => apply wp_zone
  | |- wp _ (_ ≫= _) _ _ => apply wp_bind
  | |- wp _ (try _) _ _ => apply wp_try
  | |- wp _ (wrap _ _) _ _ => apply wp_wrap
  | |- wp _ (map_err _ _) _ _ => apply wp_map_err
  end.
