(* ===== verification/Budget.v ===== *)
(** Budget planning (services/budget): the records of models.go, the tables of
    migrations/budget with the statements of db/queries.sql.go, the repository of
    db/postgres.go in the module [Postgres], and the service of service.go. *)

From S2P Require Export Vertical Store.
Local Open Scope Z_scope.

(** ** Errors (errors.go) *)

(** The last is [vertical.ErrNotFound], which [grpcErr] also tests for. *)
Inductive BgErr :=
| ErrBudgetNotFound | ErrLineItemNotFound | ErrBudgetLocked | ErrBudgetNotApproved
| ErrInvalidCategory | ErrInsufficientFunds | ErrAlreadyApproved | ErrVerticalNotFound.

#[export] Instance BgErr_eq_dec : EqDecision BgErr.
Proof. solve_decision. Defined.

Definition BgErr_text (e : BgErr) : string :=
  match e with
  | ErrBudgetNotFound => "budget: budget not found"
  | ErrLineItemNotFound => "budget: line item not found"
  | ErrBudgetLocked => "budget: budget is locked"
  | ErrBudgetNotApproved => "budget: budget is not approved"
  | ErrInvalidCategory => "budget: invalid category for this vertical"
  | ErrInsufficientFunds => "budget: insufficient funds on line item"
  | ErrAlreadyApproved => "budget: budget is already approved"
  | ErrVerticalNotFound => "vertical: config not found"
  end.

(** ** Records (models.go) *)

Section model.
Context {X : External}.

Record Budget := mkBudget {
  b_ID : uuid;
  b_ProductionID : uuid;
  b_TenantID : uuid;
  b_Label : string;
  b_Status : string;
  b_Currency : string;
  b_TotalAmount : Dec;
  b_SubmittedBy : option uuid;
  b_ApprovedBy : option uuid;
  b_SubmittedAt : option Time;
  b_ApprovedAt : option Time;
  b_CreatedBy : uuid;
  b_CreatedAt : Time;
  b_UpdatedAt : Time;
}.

Record BudgetLineItem := mkLineItem {
  li_ID : uuid;
  li_BudgetID : uuid;
  li_TenantID : uuid;
  li_CategoryID : string;
  li_Description : string;
  li_AccountCode : string;
  li_BudgetedAmount : Dec;
  li_ActualAmount : Dec;
  li_CommittedAmount : Dec;
  li_IsLocked : bool;
  li_CreatedAt : Time;
  li_UpdatedAt : Time;
}.

(** What the publisher is called with. *)
Inductive Event := BudgetApproved (b : Budget).

(** ** Tables (db/models.go): no column of a line item is nullable *)

Record BudgetRow := mkBudgetRow {
  br_ID : uuid;
  br_ProductionID : uuid;
  br_TenantID : uuid;
  br_Label : string;
  br_Status : string;
  br_Currency : string;
  br_TotalAmount : Dec;
  br_SubmittedBy : option uuid;
  br_ApprovedBy : option uuid;
  br_SubmittedAt : option Time;
  br_ApprovedAt : option Time;
  br_CreatedBy : uuid;
  br_CreatedAt : Time;
  br_UpdatedAt : Time;
}.

Record LineItemRow := mkLineItemRow {
  lir_ID : uuid;
  lir_BudgetID : uuid;
  lir_TenantID : uuid;
  lir_CategoryID : string;
  lir_Description : string;
  lir_AccountCode : string;
  lir_BudgetedAmount : Dec;
  lir_ActualAmount : Dec;
  lir_CommittedAmount : Dec;
  lir_IsLocked : bool;
  lir_CreatedAt : Time;
  lir_UpdatedAt : Time;
}.

Record DB := mkDB {
  budgets : gmap uuid BudgetRow;
  budget_line_items : gmap uuid LineItemRow;
}.
Definition empty_db : DB := mkDB ∅ ∅.
Definition set_budgets (t : gmap uuid BudgetRow) (d : DB) : DB := mkDB t (budget_line_items d).
Definition set_line_items (t : gmap uuid LineItemRow) (d : DB) : DB := mkDB (budgets d) t.
Definition empty_st : Store DB Event := mkStore empty_db [].

End model.

Abbreviation St := (Store DB Event) (only parsing).

(** ** Statements (db/queries.sql.go) *)

Module Queries.
Section queries.
Context {X : External}.

Definition budget_status_ok (status : string) : bool :=
  bool_decide (status ∈ ["draft"; "submitted"; "approved"; "locked"]).

(** ON CONFLICT (id) DO NOTHING RETURNING: no row when the id is taken. *)
Definition CreateBudget (now : Time) (id productionID tenantID : uuid)
    (label status currency : string) (createdBy : uuid) (d : DB) : result pg_error (BudgetRow * DB) :=
  if negb (budget_status_ok status) then Err PgConstraint
  else if bool_decide (is_Some (budgets d !! id)) then Err PgNoRows
  else let r := mkBudgetRow id productionID tenantID label status currency dec_zero None None None
                  None createdBy now now in
       Ok (r, set_budgets (<[id := r]> (budgets d)) d).

Definition of_tenant (tenantID : uuid) (r : BudgetRow) : bool := bool_decide (br_TenantID r = tenantID).
Definition GetBudget (tenantID id : uuid) (d : DB) : result pg_error BudgetRow :=
  get_row (budgets d) id (of_tenant tenantID).

(** [$2::uuid IS NULL OR production_id = $2], [$3 = '' OR status = $3],
    [ORDER BY created_at DESC] *)
Definition budget_listed (tenantID : uuid) (productionID : option uuid) (status : string)
    (r : BudgetRow) : bool :=
  of_tenant tenantID r
  && match productionID with None => true | Some p => bool_decide (br_ProductionID r = p) end
  && (bool_decide (status = "") || bool_decide (br_Status r = status)).
Definition ListBudgets (tenantID : uuid) (productionID : option uuid) (status : string)
    (limit offset : Z) (d : DB) : result pg_error (list BudgetRow) :=
  Ok (limit_offset limit offset
        (order_by (fun a b => bool_decide (br_CreatedAt b <= br_CreatedAt a))
           (select (budget_listed tenantID productionID status) (budgets d)))).

(** The CASEs of the SET list; the WHERE clause names the id and the tenant, not
    the status. *)
Definition with_status (now : Time) (status : string) (actor : option uuid) (r : BudgetRow) : BudgetRow :=
  let submitted := bool_decide (status = "submitted") in
  let approved := bool_decide (status = "approved") in
  mkBudgetRow (br_ID r) (br_ProductionID r) (br_TenantID r) (br_Label r) status (br_Currency r)
    (br_TotalAmount r) (if submitted then actor else br_SubmittedBy r)
    (if approved then actor else br_ApprovedBy r)
    (if submitted then Some now else br_SubmittedAt r)
    (if approved then Some now else br_ApprovedAt r) (br_CreatedBy r) (br_CreatedAt r) now.
Definition UpdateBudgetStatus (now : Time) (tenantID id : uuid) (status : string)
    (actor : option uuid) (d : DB) : result pg_error (BudgetRow * DB) :=
  match GetBudget tenantID id d with
  | Err e => Err e
  | Ok r => if negb (budget_status_ok status) then Err PgConstraint
            else let r' := with_status now status actor r in
                 Ok (r', set_budgets (<[id := r']> (budgets d)) d)
  end.

(** budget_id REFERENCES budgets(id), of any tenant. *)
Definition CreateLineItem (now : Time) (id budgetID tenantID : uuid)
    (categoryID description accountCode : string) (budgeted : Dec) (d : DB) :
    result pg_error (LineItemRow * DB) :=
  match dec_numeric_14_2 budgeted with
  | None => Err PgConstraint
  | Some amount =>
    if bool_decide (is_Some (budget_line_items d !! id)) then Err PgNoRows
    else if negb (bool_decide (is_Some (budgets d !! budgetID))) then Err PgConstraint
    else let r := mkLineItemRow id budgetID tenantID categoryID description accountCode amount
                    dec_zero dec_zero false now now in
         Ok (r, set_line_items (<[id := r]> (budget_line_items d)) d)
  end.

Definition line_of_tenant (tenantID : uuid) (r : LineItemRow) : bool :=
  bool_decide (lir_TenantID r = tenantID).
Definition GetLineItem (tenantID id : uuid) (d : DB) : result pg_error LineItemRow :=
  get_row (budget_line_items d) id (line_of_tenant tenantID).

(** [WHERE budget_id = $1 AND tenant_id = $2] *)
Definition line_of (budgetID tenantID : uuid) (r : LineItemRow) : bool :=
  bool_decide (lir_BudgetID r = budgetID) && line_of_tenant tenantID r.
(** [ORDER BY category_id, created_at ASC] *)
Definition line_le (a b : LineItemRow) : bool :=
  text_le (lir_CategoryID a) (lir_CategoryID b)
  && (negb (text_le (lir_CategoryID b) (lir_CategoryID a))
      || bool_decide (lir_CreatedAt a <= lir_CreatedAt b)).
Definition ListLineItems (budgetID tenantID : uuid) (limit offset : Z) (d : DB) :
    result pg_error (list LineItemRow) :=
  Ok (limit_offset limit offset
        (order_by line_le (select (line_of budgetID tenantID) (budget_line_items d)))).

Definition locked_line (now : Time) (r : LineItemRow) : LineItemRow :=
  mkLineItemRow (lir_ID r) (lir_BudgetID r) (lir_TenantID r) (lir_CategoryID r) (lir_Description r)
    (lir_AccountCode r) (lir_BudgetedAmount r) (lir_ActualAmount r) (lir_CommittedAmount r) true
    (lir_CreatedAt r) now.
(** Nothing calls it. *)
Definition LockLineItem (now : Time) (tenantID id : uuid) (d : DB) : result pg_error (unit * DB) :=
  match GetLineItem tenantID id d with
  | Err e => Ok (tt, d)
  | Ok r => Ok (tt, set_line_items (<[id := locked_line now r]> (budget_line_items d)) d)
  end.

(** [COALESCE(SUM(bli.budgeted_amount), 0)] over the lines of the budget that the
    tenant owns *)
Definition total_of (budgetID tenantID : uuid) (d : DB) : Dec :=
  foldr dec_add dec_zero
    (lir_BudgetedAmount <$> select (line_of budgetID tenantID) (budget_line_items d)).
Definition with_total (now : Time) (total : Dec) (r : BudgetRow) : BudgetRow :=
  mkBudgetRow (br_ID r) (br_ProductionID r) (br_TenantID r) (br_Label r) (br_Status r)
    (br_Currency r) total (br_SubmittedBy r) (br_ApprovedBy r) (br_SubmittedAt r) (br_ApprovedAt r)
    (br_CreatedBy r) (br_CreatedAt r) now.
(** An UPDATE that matches no row is no error. *)
Definition UpdateBudgetTotals (now : Time) (budgetID tenantID : uuid) (d : DB) :
    result pg_error (unit * DB) :=
  match GetBudget tenantID budgetID d with
  | Err _ => Ok (tt, d)
  | Ok r =>
    match dec_numeric_14_2 (total_of budgetID tenantID d) with
    | None => Err PgConstraint
    | Some total => Ok (tt, set_budgets (<[budgetID := with_total now total r]> (budgets d)) d)
    end
  end.

(** [COALESCE($n, column)]: NULL keeps the column; the rest is rounded to it. *)
Definition new_amount (arg : option Dec) (column : Dec) : option Dec :=
  match arg with None => Some column | Some a => dec_numeric_14_2 a end.
Definition with_amounts (now : Time) (budgeted actual committed : Dec) (r : LineItemRow) : LineItemRow :=
  mkLineItemRow (lir_ID r) (lir_BudgetID r) (lir_TenantID r) (lir_CategoryID r) (lir_Description r)
    (lir_AccountCode r) budgeted actual committed (lir_IsLocked r) (lir_CreatedAt r) now.
Definition UpdateLineItemAmounts (now : Time) (tenantID id : uuid)
    (budgeted actual committed : option Dec) (d : DB) : result pg_error (LineItemRow * DB) :=
  match GetLineItem tenantID id d with
  | Err e => Err e
  | Ok r =>
    match new_amount budgeted (lir_BudgetedAmount r), new_amount actual (lir_ActualAmount r),
          new_amount committed (lir_CommittedAmount r) with
    | Some b, Some a, Some c =>
      let r' := with_amounts now b a c r in
      Ok (r', set_line_items (<[id := r']> (budget_line_items d)) d)
    | _, _, _ => Err PgConstraint
    end
  end.

End queries.
End Queries.

(** ** Repository (db/postgres.go) *)

Module Postgres.
Section repository.
Context {X : External}.

Abbreviation Op := (M St (error BgErr)) (only parsing).

Definition budgetFromDB (r : BudgetRow) : Budget :=
  mkBudget (br_ID r) (br_ProductionID r) (br_TenantID r) (br_Label r) (br_Status r) (br_Currency r)
    (br_TotalAmount r) (br_SubmittedBy r) (br_ApprovedBy r) (br_SubmittedAt r) (br_ApprovedAt r)
    (br_CreatedBy r) (br_CreatedAt r) (br_UpdatedAt r).
Definition lineItemFromDB (r : LineItemRow) : BudgetLineItem :=
  mkLineItem (lir_ID r) (lir_BudgetID r) (lir_TenantID r) (lir_CategoryID r) (lir_Description r)
    (lir_AccountCode r) (lir_BudgetedAmount r) (lir_ActualAmount r) (lir_CommittedAmount r)
    (lir_IsLocked r) (lir_CreatedAt r) (lir_UpdatedAt r).

Definition CreateBudget (b : Budget) : Op unit :=
  now ← time_now;
  _ ← map_err (pg_wrap "budget: create budget: %w")
        (q_exec (Queries.CreateBudget now (b_ID b) (b_ProductionID b) (b_TenantID b) (b_Label b)
                   (b_Status b) (b_Currency b) (b_CreatedBy b)));
  mret tt.

Definition GetBudget (tenantID id : uuid) : Op Budget :=
  r ← map_err (no_rows_as ErrBudgetNotFound "budget: get budget: %w")
        (q_query (Queries.GetBudget tenantID id));
  mret (budgetFromDB r).

Definition ListBudgets (tenantID productionID : uuid) (status : string) (limit offset : Z) :
    Op (list Budget) :=
  l ← map_err (pg_wrap "budget: list budgets: %w")
        (q_query (Queries.ListBudgets tenantID (nullableUUID productionID) status limit offset));
  mret (budgetFromDB <$> l).

Definition UpdateBudgetStatus (tenantID id : uuid) (status : string) (approvedBy : option uuid) :
    Op unit :=
  now ← time_now;
  _ ← map_err (no_rows_as ErrBudgetNotFound "budget: update budget status: %w")
        (q_exec (Queries.UpdateBudgetStatus now tenantID id status approvedBy));
  mret tt.

(** Two statements: the insert and the new total. *)
Definition CreateLineItem (li : BudgetLineItem) : Op unit :=
  now ← time_now;
  _ ← map_err (fun e => pg_wrap (if isUniqueViolation e then "budget: line item already exists: %w"
                                 else "budget: create line item: %w") e)
        (q_exec (Queries.CreateLineItem now (li_ID li) (li_BudgetID li) (li_TenantID li)
                   (li_CategoryID li) (li_Description li) (li_AccountCode li) (li_BudgetedAmount li)));
  now ← time_now;
  _ ← map_err (pg_wrap "budget: update budget totals: %w")
        (q_exec (Queries.UpdateBudgetTotals now (li_BudgetID li) (li_TenantID li)));
  mret tt.

Definition GetLineItem (tenantID id : uuid) : Op BudgetLineItem :=
  r ← map_err (no_rows_as ErrLineItemNotFound "budget: get line item: %w")
        (q_query (Queries.GetLineItem tenantID id));
  mret (lineItemFromDB r).

Definition ListLineItems (tenantID budgetID : uuid) (limit offset : Z) : Op (list BudgetLineItem) :=
  l ← map_err (pg_wrap "budget: list line items: %w")
        (q_query (Queries.ListLineItems budgetID tenantID limit offset));
  mret (lineItemFromDB <$> l).

Definition UpdateLineItemActuals (tenantID id : uuid) (actual committed : Dec) : Op unit :=
  now ← time_now;
  li ← map_err (no_rows_as ErrLineItemNotFound "budget: update line item actuals: %w")
         (q_exec (Queries.UpdateLineItemAmounts now tenantID id None (Some actual) (Some committed)));
  now ← time_now;
  _ ← map_err (pg_wrap "budget: update budget totals after actuals: %w")
        (q_exec (Queries.UpdateBudgetTotals now (lir_BudgetID li) tenantID));
  mret tt.

Definition CheckLineAvailability (tenantID id : uuid) : Op Dec :=
  li ← GetLineItem tenantID id;
  mret (dec_sub (dec_sub (li_BudgetedAmount li) (li_ActualAmount li)) (li_CommittedAmount li)).

End repository.
End Postgres.

(** ** Service (service.go) *)

Section service.
Context {X : External}.

(** The service: whether an event publisher is configured. *)
Record Service := mkService { s_publisher : bool }.

Abbreviation Op := (M St (error BgErr)) (only parsing).

Variable s : Service.
Implicit Types (vcfg : Config).

Definition publish (ev : Event) : Op unit := emit (s_publisher s) ev.

(** [if b.ID == uuid.Nil], [if b.Status == ""] *)
Definition with_defaults (id : uuid) (b : Budget) : Budget :=
  mkBudget id (b_ProductionID b) (b_TenantID b) (b_Label b)
    (if decide (b_Status b = "") then "draft" else b_Status b) (b_Currency b) (b_TotalAmount b)
    (b_SubmittedBy b) (b_ApprovedBy b) (b_SubmittedAt b) (b_ApprovedAt b) (b_CreatedBy b)
    (b_CreatedAt b) (b_UpdatedAt b).

(** Returns the budget it was given, with its defaults. *)
Definition CreateBudget (b : Budget) : Op Budget :=
  id ← (if decide (b_ID b = uuid_nil) then uuid_new else mret (b_ID b));
  let b := with_defaults id b in
  _ ← Postgres.CreateBudget b;
  mret b.

Definition GetBudget (tenantID id : uuid) : Op Budget := Postgres.GetBudget tenantID id.

Definition ListBudgets (tenantID productionID : uuid) (status : string) (limit offset : Z) :
    Op (list Budget) :=
  let limit := if bool_decide (limit <= 0) || bool_decide (100 < limit) then 20 else limit in
  Postgres.ListBudgets tenantID productionID status limit offset.

Definition SubmitBudget (tenantID id submittedBy : uuid) : Op unit :=
  b ← wrap "get budget: %w" (Postgres.GetBudget tenantID id);
  if negb (bool_decide (b_Status b = "draft"))
  then mthrow (EWrap "%w: current status is %q, must be draft" (ESent ErrBudgetLocked))
  else Postgres.UpdateBudgetStatus tenantID id "submitted" None.

Definition approved_budget (approvedBy : uuid) (b : Budget) : Budget :=
  mkBudget (b_ID b) (b_ProductionID b) (b_TenantID b) (b_Label b) "approved" (b_Currency b)
    (b_TotalAmount b) (b_SubmittedBy b) (Some approvedBy) (b_SubmittedAt b) (b_ApprovedAt b)
    (b_CreatedBy b) (b_CreatedAt b) (b_UpdatedAt b).
Definition ApproveBudget (tenantID id approvedBy : uuid) : Op unit :=
  b ← wrap "get budget: %w" (Postgres.GetBudget tenantID id);
  if bool_decide (b_Status b = "approved") || bool_decide (b_Status b = "locked")
  then mthrow (EWrap "%w: current status is %q" (ESent ErrAlreadyApproved))
  else if negb (bool_decide (b_Status b = "submitted"))
  then mthrow (EWrap "%w: current status is %q, must be submitted" (ESent ErrBudgetNotApproved))
  else
    _ ← Postgres.UpdateBudgetStatus tenantID id "approved" (Some approvedBy);
    publish (BudgetApproved (approved_budget approvedBy b)).

(** The default account code and the new id. *)
Definition with_code (id : uuid) (cat : BudgetCategory) (li : BudgetLineItem) : BudgetLineItem :=
  mkLineItem id (li_BudgetID li) (li_TenantID li) (li_CategoryID li) (li_Description li)
    (if decide (li_AccountCode li = "") then bc_DefaultAccountCode cat else li_AccountCode li)
    (li_BudgetedAmount li) (li_ActualAmount li) (li_CommittedAmount li) (li_IsLocked li)
    (li_CreatedAt li) (li_UpdatedAt li).
Definition CreateLineItem vcfg (li : BudgetLineItem) : Op BudgetLineItem :=
  match FindBudgetCategory vcfg (li_CategoryID li) with
  | None => mthrow (EWrap "%w: %q is not valid for vertical %s (valid: %s)" (ESent ErrInvalidCategory))
  | Some cat =>
    id ← (if decide (li_ID li = uuid_nil) then uuid_new else mret (li_ID li));
    let li := with_code id cat li in
    _ ← Postgres.CreateLineItem li;
    mret li
  end.

Definition GetLineItem (tenantID id : uuid) : Op BudgetLineItem := Postgres.GetLineItem tenantID id.

Definition ListLineItems (tenantID budgetID : uuid) (limit offset : Z) : Op (list BudgetLineItem) :=
  let limit := if bool_decide (limit <= 0) || bool_decide (200 < limit) then 100 else limit in
  Postgres.ListLineItems tenantID budgetID limit offset.

Definition UpdateLineItemActuals (tenantID id : uuid) (actual committed : Dec) : Op unit :=
  Postgres.UpdateLineItemActuals tenantID id actual committed.

Definition CheckLineAvailability (tenantID id : uuid) : Op Dec :=
  Postgres.CheckLineAvailability tenantID id.

Definition template_line (b : Budget) (id : uuid) (t : TemplateLineItem) : BudgetLineItem :=
  mkLineItem id (b_ID b) (b_TenantID b) (tl_CategoryID t) (tl_Description t) (tl_AccountCode t)
    (tl_DefaultAmount t) dec_zero dec_zero false zero_time zero_time.
Definition CreateBudgetFromTemplate vcfg (b : Budget) (templateName : string) : Op Budget :=
  match FindBudgetTemplate vcfg templateName with
  | None => mthrow (EText "budget: template %q not found in vertical %s")
  | Some tmpl =>
    id ← (if decide (b_ID b = uuid_nil) then uuid_new else mret (b_ID b));
    let b := with_defaults id b in
    _ ← wrap "create budget: %w" (Postgres.CreateBudget b);
    _ ← forM_ (bt_LineItems tmpl) (fun t =>
          id ← uuid_new;
          wrap "create template line item %q: %w" (Postgres.CreateLineItem (template_line b id t)));
    mret b
  end.

Definition GetBudgetCategories vcfg : list BudgetCategory := cfg_BudgetCategories vcfg.
Definition GetBudgetTemplates vcfg : list BudgetTemplate := cfg_BudgetTemplates vcfg.

End service.
