(* ===== verification/BudgetHandler.v ===== *)
(** Budget planning: the gRPC handlers of services/budget/handler.go behind the
    vertical interceptor.  A handler takes the tenant from the context, checks
    its permission, parses the request, calls the service and renders the record
    it reads back.  The submitter, the approver and the creator it passes are the
    nil UUID. *)

From S2P Require Export Budget.
Local Open Scope Z_scope.

(** ** Messages *)

Record PbBudget := mkPbBudget {
  pbb_Id : string; pbb_TenantId : string; pbb_ProductionId : string; pbb_Label : string;
  pbb_Status : string; pbb_Currency : string; pbb_TotalAmount : string; pbb_CreatedBy : string;
  pbb_CreatedAt : Time; pbb_UpdatedAt : Time; pbb_SubmittedBy : string; pbb_ApprovedBy : string;
  pbb_SubmittedAt : option Time; pbb_ApprovedAt : option Time;
}.
Record PbBudgetLineItem := mkPbLineItem {
  pbl_Id : string; pbl_BudgetId : string; pbl_TenantId : string; pbl_CategoryId : string;
  pbl_Description : string; pbl_AccountCode : string; pbl_BudgetedAmount : string;
  pbl_ActualAmount : string; pbl_CommittedAmount : string; pbl_IsLocked : bool;
  pbl_CreatedAt : Time; pbl_UpdatedAt : Time;
}.
Record CategoryInfo := mkCategoryInfo {
  ci_Id : string; ci_Label : string; ci_Description : string; ci_DefaultAccountCode : string }.
Record TemplateLineItemInfo := mkTemplateLineItemInfo {
  ti_CategoryId : string; ti_Description : string; ti_AccountCode : string;
  ti_DefaultAmount : string; ti_IsRequired : bool }.
Record TemplateInfo := mkTemplateInfo {
  tpi_Name : string; tpi_Description : string; tpi_LineItems : list TemplateLineItemInfo }.

(** CreateBudgetRequest, and CreateBudgetFromTemplateRequest without the
    template's name. *)
Record BudgetReq := mkBudgetReq { rb_ProductionId : string; rb_Label : string; rb_Currency : string }.
Record LineItemReq := mkLineItemReq {
  rli_BudgetId : string; rli_CategoryId : string; rli_Description : string;
  rli_AccountCode : string; rli_BudgetedAmount : string }.

(** The RPCs of BudgetService. *)
Inductive Rpc :=
| CreateBudgetRpc (r : BudgetReq)
| GetBudgetRpc (id : string)
| ListBudgetsRpc (production status : string) (limit : Z)
| SubmitBudgetRpc (id : string)
| ApproveBudgetRpc (id : string)
| CreateBudgetFromTemplateRpc (r : BudgetReq) (template : string)
| CreateLineItemRpc (r : LineItemReq)
| GetLineItemRpc (id : string)
| ListLineItemsRpc (budget : string)
| UpdateLineItemActualsRpc (id actual committed : string)
| CheckLineAvailabilityRpc (id : string)
| GetBudgetCategoriesRpc
| GetBudgetTemplatesRpc.

Inductive Response :=
| BudgetResp (b : PbBudget)
| BudgetsResp (l : list PbBudget)
| LineItemResp (i : PbBudgetLineItem)
| LineItemsResp (l : list PbBudgetLineItem)
| AvailabilityResp (amount : string)
| CategoriesResp (l : list CategoryInfo)
| TemplatesResp (l : list TemplateInfo).

(** [grpcErr]: the first case of its switch that [errors.Is] accepts. *)
Definition grpcErr (e : error BgErr) : status :=
  let isE s := errors_Is e s in
  if isE ErrBudgetNotFound then mkStatus NotFound "budget not found"
  else if isE ErrLineItemNotFound then mkStatus NotFound "line item not found"
  else if isE ErrBudgetLocked then mkStatus FailedPrecondition "budget is locked"
  else if isE ErrBudgetNotApproved
  then mkStatus FailedPrecondition "budget is not in submitted status"
  else if isE ErrAlreadyApproved
  then mkStatus FailedPrecondition "budget is already approved or locked"
  else if isE ErrInvalidCategory
  then mkStatus InvalidArgument "invalid budget category for this vertical"
  else if isE ErrInsufficientFunds
  then mkStatus FailedPrecondition "insufficient funds on line item"
  else if isE ErrVerticalNotFound
  then mkStatus FailedPrecondition "vertical config not found for tenant"
  else mkStatus Internal "internal error".

Section handler.
Context {X : External}.

(** The handler's collaborators: the service, the permission checker, the
    project-scoped RBAC flag, and the vertical loader of the interceptor,
    whose answers are fixed as long as the handler is. *)
Record Handler := mkHandler {
  h_svc : Budget.Service;
  h_perm : option PermissionChecker;
  h_scoped : bool;
  h_loader : uuid -> option Config;
}.

Abbreviation Op := (M St status) (only parsing).

Variable h : Handler.
Variable ctx : Ctx.
(** The configuration the interceptor stored. *)
Variable vcfg : option Config.

Definition svc {A} (m : M St (error BgErr) A) : Op A := map_err grpcErr m.
Definition require (perm : string) : result status unit :=
  RequirePermission (h_scoped h) (h_perm h) ctx perm.
Definition currency_or_INR (s : string) : string := if decide (s = "") then "INR" else s.

(** ** Rendering *)

Definition opt_id_string (id : option uuid) : string :=
  match id with Some i => uuid_string i | None => "" end.

Definition budgetToProto (b : Budget.Budget) : PbBudget :=
  mkPbBudget (uuid_string (b_ID b)) (uuid_string (b_TenantID b)) (uuid_string (b_ProductionID b))
    (b_Label b) (b_Status b) (b_Currency b) (dec_string_fixed2 (b_TotalAmount b))
    (uuid_string (b_CreatedBy b)) (b_CreatedAt b) (b_UpdatedAt b)
    (opt_id_string (b_SubmittedBy b)) (opt_id_string (b_ApprovedBy b)) (b_SubmittedAt b)
    (b_ApprovedAt b).

Definition lineItemToProto (li : BudgetLineItem) : PbBudgetLineItem :=
  mkPbLineItem (uuid_string (li_ID li)) (uuid_string (li_BudgetID li))
    (uuid_string (li_TenantID li)) (li_CategoryID li) (li_Description li) (li_AccountCode li)
    (dec_string_fixed2 (li_BudgetedAmount li)) (dec_string_fixed2 (li_ActualAmount li))
    (dec_string_fixed2 (li_CommittedAmount li)) (li_IsLocked li) (li_CreatedAt li)
    (li_UpdatedAt li).

(** The budget of a request. *)
Definition new_budget (tenantID productionID : uuid) (r : BudgetReq) : Budget.Budget :=
  mkBudget uuid_nil productionID tenantID (rb_Label r) "" (currency_or_INR (rb_Currency r)) dec_zero
    None None None None uuid_nil zero_time zero_time.

(** ** Budgets *)

Definition CreateBudget (r : BudgetReq) : Op Response :=
  tenantID ← lift_result (tenantFromContext ctx);
  _ ← lift_result (require "budget:write");
  productionID ← lift_result (parse_id (rb_ProductionId r) "invalid production ID");
  b ← svc (Budget.CreateBudget (new_budget tenantID productionID r));
  out ← svc (Budget.GetBudget tenantID (b_ID b));
  mret (BudgetResp (budgetToProto out)).

Definition GetBudget (id : string) : Op Response :=
  tenantID ← lift_result (tenantFromContext ctx);
  _ ← lift_result (require "budget:read");
  budgetID ← lift_result (parse_id id "invalid budget ID");
  b ← svc (Budget.GetBudget tenantID budgetID);
  mret (BudgetResp (budgetToProto b)).

Definition ListBudgets (production status : string) (limit : Z) : Op Response :=
  tenantID ← lift_result (tenantFromContext ctx);
  _ ← lift_result (require "budget:read");
  productionID ← lift_result (if decide (production = "") then Ok uuid_nil
                              else parse_id production "invalid production ID");
  l ← svc (Budget.ListBudgets tenantID productionID status limit 0);
  mret (BudgetsResp (budgetToProto <$> l)).

Definition SubmitBudget (id : string) : Op Response :=
  tenantID ← lift_result (tenantFromContext ctx);
  _ ← lift_result (require "budget:write");
  budgetID ← lift_result (parse_id id "invalid budget ID");
  _ ← svc (Budget.SubmitBudget tenantID budgetID uuid_nil);
  b ← svc (Budget.GetBudget tenantID budgetID);
  mret (BudgetResp (budgetToProto b)).

Definition ApproveBudget (id : string) : Op Response :=
  tenantID ← lift_result (tenantFromContext ctx);
  _ ← lift_result (require "budget:approve");
  budgetID ← lift_result (parse_id id "invalid budget ID");
  _ ← svc (Budget.ApproveBudget (h_svc h) tenantID budgetID uuid_nil);
  b ← svc (Budget.GetBudget tenantID budgetID);
  mret (BudgetResp (budgetToProto b)).

Definition CreateBudgetFromTemplate (r : BudgetReq) (template : string) : Op Response :=
  tenantID ← lift_result (tenantFromContext ctx);
  _ ← lift_result (require "budget:write");
  productionID ← lift_result (parse_id (rb_ProductionId r) "invalid production ID");
  cfg ← lift_result (MustFromContext vcfg);
  b ← svc (Budget.CreateBudgetFromTemplate cfg (new_budget tenantID productionID r) template);
  out ← svc (Budget.GetBudget tenantID (b_ID b));
  mret (BudgetResp (budgetToProto out)).

(** ** Line items *)

Definition CreateLineItem (r : LineItemReq) : Op Response :=
  tenantID ← lift_result (tenantFromContext ctx);
  _ ← lift_result (require "budget:write");
  budgetID ← lift_result (parse_id (rli_BudgetId r) "invalid budget ID");
  amount ← lift_result (parse_decimal (rli_BudgetedAmount r)
                          "invalid budgeted_amount: must be a decimal string");
  cfg ← lift_result (MustFromContext vcfg);
  li ← svc (Budget.CreateLineItem cfg
              (mkLineItem uuid_nil budgetID tenantID (rli_CategoryId r) (rli_Description r)
                 (rli_AccountCode r) amount dec_zero dec_zero false zero_time zero_time));
  created ← svc (Budget.GetLineItem tenantID (li_ID li));
  mret (LineItemResp (lineItemToProto created)).

Definition GetLineItem (id : string) : Op Response :=
  tenantID ← lift_result (tenantFromContext ctx);
  _ ← lift_result (require "budget:read");
  itemID ← lift_result (parse_id id "invalid line item ID");
  li ← svc (Budget.GetLineItem tenantID itemID);
  mret (LineItemResp (lineItemToProto li)).

Definition ListLineItems (budget : string) : Op Response :=
  tenantID ← lift_result (tenantFromContext ctx);
  _ ← lift_result (require "budget:read");
  budgetID ← lift_result (parse_id budget "invalid budget ID");
  l ← svc (Budget.ListLineItems tenantID budgetID 100 0);
  mret (LineItemsResp (lineItemToProto <$> l)).

Definition UpdateLineItemActuals (id actual committed : string) : Op Response :=
  tenantID ← lift_result (tenantFromContext ctx);
  _ ← lift_result (require "budget:write");
  itemID ← lift_result (parse_id id "invalid line item ID");
  actualAmount ← lift_result (parse_decimal actual "invalid actual_amount");
  committedAmount ← lift_result (parse_decimal committed "invalid committed_amount");
  _ ← svc (Budget.UpdateLineItemActuals tenantID itemID actualAmount committedAmount);
  li ← svc (Budget.GetLineItem tenantID itemID);
  mret (LineItemResp (lineItemToProto li)).

Definition CheckLineAvailability (id : string) : Op Response :=
  tenantID ← lift_result (tenantFromContext ctx);
  _ ← lift_result (require "budget:read");
  itemID ← lift_result (parse_id id "invalid line_item_id");
  available ← svc (Budget.CheckLineAvailability tenantID itemID);
  mret (AvailabilityResp (dec_string_fixed2 available)).

(** ** Vertical metadata: no tenant or permission is checked *)

Definition category_info (c : BudgetCategory) : CategoryInfo :=
  mkCategoryInfo (bc_ID c) (bc_Label c) (bc_Description c) (bc_DefaultAccountCode c).
Definition GetBudgetCategories : Op Response :=
  cfg ← lift_result (MustFromContext vcfg);
  mret (CategoriesResp (category_info <$> Budget.GetBudgetCategories cfg)).

Definition template_line_info (t : TemplateLineItem) : TemplateLineItemInfo :=
  mkTemplateLineItemInfo (tl_CategoryID t) (tl_Description t) (tl_AccountCode t)
    (dec_string_fixed2 (tl_DefaultAmount t)) (tl_IsRequired t).
Definition template_info (t : BudgetTemplate) : TemplateInfo :=
  mkTemplateInfo (bt_Name t) (bt_Description t) (template_line_info <$> bt_LineItems t).
Definition GetBudgetTemplates : Op Response :=
  cfg ← lift_result (MustFromContext vcfg);
  mret (TemplatesResp (template_info <$> Budget.GetBudgetTemplates cfg)).

End handler.

(** ** Dispatch: the vertical interceptor, then the handler *)

Section dispatch.
Context {X : External}.
Variable h : Handler.
Variable ctx : Ctx.

Definition handle_rpc (vcfg : option Config) (r : Rpc) : M St status Response :=
  match r with
  | CreateBudgetRpc q => CreateBudget h ctx q
  | GetBudgetRpc i => GetBudget h ctx i
  | ListBudgetsRpc p s l => ListBudgets h ctx p s l
  | SubmitBudgetRpc i => SubmitBudget h ctx i
  | ApproveBudgetRpc i => ApproveBudget h ctx i
  | CreateBudgetFromTemplateRpc q t => CreateBudgetFromTemplate h ctx vcfg q t
  | CreateLineItemRpc q => CreateLineItem h ctx vcfg q
  | GetLineItemRpc i => GetLineItem h ctx i
  | ListLineItemsRpc b => ListLineItems h ctx b
  | UpdateLineItemActualsRpc i a c => UpdateLineItemActuals h ctx i a c
  | CheckLineAvailabilityRpc i => CheckLineAvailability h ctx i
  | GetBudgetCategoriesRpc => GetBudgetCategories vcfg
  | GetBudgetTemplatesRpc => GetBudgetTemplates vcfg
  end.

Definition handle (r : Rpc) : M St status Response :=
  vcfg ← lift_result (attachConfig (h_loader h) ctx);
  handle_rpc vcfg r.

End dispatch.
