(* ===== verification/BudgetProps.v ===== *)
(** Budget planning: how the tables may change.  [bstep] is what the service's
    statements do to each row, whatever requests interleave, and [handle_bstep]
    shows that every RPC stays within it; [binv] holds in every state such steps
    reach from the empty tables.  In such a state a total is a sum of lines, and a
    request of one tenant leaves what others own as it was. *)

From S2P Require Export BudgetHandler.
Local Open Scope Z_scope.

Section relation.
Context {X : External} {L : ExternalLaws}.

(** ** Budgets *)

(** What holds of a stored budget: nobody is named as its creator or submitter,
    and an approval names the nil UUID; its status is one the service writes,
    with the times of the moves it made. *)
Record budget_ok (r : BudgetRow) : Prop := {
  bo_created : br_CreatedBy r = uuid_nil;
  bo_submitter : br_SubmittedBy r = None;
  bo_approver : br_ApprovedBy r = (fun _ => uuid_nil) <$> br_ApprovedAt r;
  bo_status : br_Status r ∈ ["draft"; "submitted"; "approved"];
  bo_draft : br_Status r = "draft" -> br_SubmittedAt r = None /\ br_ApprovedAt r = None;
  bo_moved : br_Status r <> "draft" -> is_Some (br_SubmittedAt r);
  bo_approved : br_Status r = "approved" -> is_Some (br_ApprovedAt r);
}.

(** The columns no statement writes again. *)
Record same_budget (r r' : BudgetRow) : Prop := {
  sb_id : br_ID r' = br_ID r;
  sb_production : br_ProductionID r' = br_ProductionID r;
  sb_tenant : br_TenantID r' = br_TenantID r;
  sb_label : br_Label r' = br_Label r;
  sb_currency : br_Currency r' = br_Currency r;
  sb_created_at : br_CreatedAt r' = br_CreatedAt r;
}.

(** What holds of a stored line. *)
Record line_ok (r : LineItemRow) : Prop := {
  lo_budgeted : two_places (dec_val (lir_BudgetedAmount r));
  lo_unlocked : lir_IsLocked r = false;
}.

(** The columns of a line that no statement writes again, its budgeted amount
    and its lock among them. *)
Record same_line (r r' : LineItemRow) : Prop := {
  sl_id : lir_ID r' = lir_ID r;
  sl_budget : lir_BudgetID r' = lir_BudgetID r;
  sl_tenant : lir_TenantID r' = lir_TenantID r;
  sl_category : lir_CategoryID r' = lir_CategoryID r;
  sl_budgeted : lir_BudgetedAmount r' = lir_BudgetedAmount r;
  sl_locked : lir_IsLocked r' = lir_IsLocked r;
  sl_created_at : lir_CreatedAt r' = lir_CreatedAt r;
}.

#[export] Instance same_budget_preorder : PreOrder same_budget.
Proof. split; [by split|]. intros r1 r2 r3 [] []. split; congruence. Qed.
#[export] Instance same_line_preorder : PreOrder same_line.
Proof. split; [by split|]. intros r1 r2 r3 [] []. split; congruence. Qed.

(** ** Totals *)

(** What the line with that id budgets. *)
Definition budgeted_at (t : gmap uuid LineItemRow) (k : uuid) : Qc :=
  match t !! k with Some r => dec_val (lir_BudgetedAmount r) | None => 0%Qc end.

(** The total is the exact sum of some of the budget's lines, each counted once. *)
Definition counts_lines (lines : gmap uuid LineItemRow) (id : uuid) (r : BudgetRow) : Prop :=
  exists counted : list uuid, NoDup counted
    /\ Forall (fun k => exists li, lines !! k = Some li
                        /\ Queries.line_of id (br_TenantID r) li = true) counted
    /\ dec_val (br_TotalAmount r) = qsum (budgeted_at lines <$> counted).
Definition totals_ok (d : DB) : Prop :=
  map_Forall (counts_lines (budget_line_items d)) (budgets d).

(** Every line's budget exists: the foreign key. *)
Definition fk_ok (d : DB) : Prop :=
  map_Forall (fun _ r => is_Some (budgets d !! lir_BudgetID r)) (budget_line_items d).

(** ** Steps: [own] tells which tenants' rows may change *)
Variable own : uuid -> Prop.

Definition budget_chg (k : uuid) (o : option BudgetRow) (r' : BudgetRow) : Prop :=
  own (br_TenantID r')
  /\ match o with
     | None => br_ID r' = k /\ budget_ok r'
     | Some r => same_budget r r'
                 /\ (is_Some (br_SubmittedAt r) -> is_Some (br_SubmittedAt r'))
                 /\ (budget_ok r -> budget_ok r')
     end.

Definition line_chg (k : uuid) (o : option LineItemRow) (r' : LineItemRow) : Prop :=
  own (lir_TenantID r')
  /\ match o with
     | None => lir_ID r' = k /\ line_ok r'
     | Some r => same_line r r'
     end.

Record bstep (d d' : DB) : Prop := {
  bs_budgets : table_step budget_chg (budgets d) (budgets d');
  bs_lines : table_step line_chg (budget_line_items d) (budget_line_items d');
  bs_totals : map_Forall (fun _ => line_ok) (budget_line_items d) -> totals_ok d -> totals_ok d';
  bs_fk : fk_ok d -> fk_ok d';
}.

Lemma budget_chg_trans k o r1 r2 : budget_chg k o r1 -> budget_chg k (Some r1) r2 -> budget_chg k o r2.
Proof.
  intros [H1 H2] [H3 (Hh & Hs & Hk)]. split; [done|]. destruct o as [r|].
  - destruct H2 as (Hh' & Hs' & Hk'). split; [by transitivity r1|]. split; auto.
  - destruct H2 as (Hid & Hok). split; [|by apply Hk]. by rewrite (sb_id _ _ Hh).
Qed.
Lemma line_ok_same r r' : same_line r r' -> line_ok r -> line_ok r'.
Proof. intros [] []. split; congruence. Qed.
Lemma line_chg_trans k o r1 r2 : line_chg k o r1 -> line_chg k (Some r1) r2 -> line_chg k o r2.
Proof.
  intros [H1 H2] [H3 Hh]. split; [done|]. destruct o as [r|]; [by transitivity r1|].
  destruct H2 as [Hk H5]. split; [by rewrite (sl_id _ _ Hh)|by eapply line_ok_same].
Qed.

Definition lines_ok (d : DB) : Prop := map_Forall (fun _ => line_ok) (budget_line_items d).

Lemma lines_ok_step (t t' : gmap uuid LineItemRow) :
  table_step line_chg t t' -> map_Forall (fun _ => line_ok) t -> map_Forall (fun _ => line_ok) t'.
Proof.
  apply table_step_forall. intros k o r [_ H] Ho. destruct o as [r0|]; [|by destruct H].
  by apply (line_ok_same r0), Ho.
Qed.

#[export] Instance bstep_preorder : PreOrder bstep.
Proof.
  pose proof (table_step_preorder budget_chg_trans) as HP1.
  pose proof (table_step_preorder line_chg_trans) as HP2.
  split; [intros d; by split|]. intros d1 d2 d3 [H1 H2 H3 F1] [H4 H5 H6 F2].
  split; [by transitivity (budgets d2)|by transitivity (budget_line_items d2)| |auto].
  intros Hl Ht. apply H6; [by eapply lines_ok_step|auto].
Qed.

(** A line that counts still counts after the lines moved. *)
Lemma counts_lines_step lines lines' id r :
  table_step line_chg lines lines' -> counts_lines lines id r -> counts_lines lines' id r.
Proof.
  intros Hs (l & Hnd & Hall & Hsum). exists l. split; [done|].
  assert (Hkeep : forall k li, lines !! k = Some li -> exists li', lines' !! k = Some li'
            /\ same_line li li').
  { intros k li Hk. destruct (table_step_some _ _ _ _ Hs Hk) as (li' & Hk' & HQ).
    exists li'. split; [done|]. by destruct HQ as [->|[_ HQ]]. }
  split.
  - eapply Forall_impl; [exact Hall|]. intros k (li & Hk & Hof).
    destruct (Hkeep k li Hk) as (li' & Hk' & Hh). exists li'. split; [done|].
    unfold Queries.line_of, Queries.line_of_tenant in *.
    by rewrite (sl_budget _ _ Hh), (sl_tenant _ _ Hh).
  - rewrite Hsum. f_equal. apply list_fmap_ext. intros i k Hi.
    rewrite Forall_lookup in Hall. destruct (Hall i k Hi) as (li & Hk & _).
    destruct (Hkeep k li Hk) as (li' & Hk' & Hh). unfold budgeted_at. rewrite Hk, Hk'.
    by rewrite (sl_budgeted _ _ Hh).
Qed.

(** A budget whose tenant and total are kept counts the same lines. *)
Lemma counts_lines_same lines id r r' :
  br_TenantID r' = br_TenantID r -> br_TotalAmount r' = br_TotalAmount r ->
  counts_lines lines id r -> counts_lines lines id r'.
Proof. unfold counts_lines. by intros -> ->. Qed.

Lemma bstep_line d k r' :
  line_chg k (budget_line_items d !! k) r' ->
  (fk_ok d -> is_Some (budgets d !! lir_BudgetID r')) ->
  bstep d (set_line_items (<[k := r']> (budget_line_items d)) d).
Proof.
  intros H Hfk. assert (Hs := table_step_insert _ k r' H).
  split; [apply table_step_refl|done|..].
  - intros _ Ht id r Hr. eapply counts_lines_step; [exact Hs|]. by apply Ht.
  - intros Hf id r. simpl. destruct (decide (k = id)) as [<-|Hne].
    + rewrite lookup_insert_eq. intros [= <-]. auto.
    + rewrite lookup_insert_ne by done. apply Hf.
Qed.
Lemma bstep_budget d k r' :
  budget_chg k (budgets d !! k) r' ->
  (lines_ok d -> totals_ok d -> counts_lines (budget_line_items d) k r') ->
  bstep d (set_budgets (<[k := r']> (budgets d)) d).
Proof.
  intros Hc Ht. split; [by apply table_step_insert|apply table_step_refl|..].
  - intros Hl Hok id r. simpl. destruct (decide (k = id)) as [<-|Hne].
    + rewrite lookup_insert_eq. intros [= <-]. by apply Ht.
    + rewrite lookup_insert_ne by done. apply Hok.
  - intros Hf id r Hid. simpl. rewrite lookup_insert_is_Some. destruct (decide (k = lir_BudgetID r));
      [by left|right; split; [done|by apply (Hf id)]].
Qed.

(** ** Statements *)

Lemma CreateBudget_bstep now id p t label currency d a d' :
  own t -> Queries.CreateBudget now id p t label "draft" currency uuid_nil d = Ok (a, d') ->
  bstep d d'.
Proof.
  intros Ho. unfold Queries.CreateBudget. simpl. case_bool_decide as Hid; [done|].
  intros [= <- <-]. apply bstep_budget.
  - rewrite free_key by done. split; [done|]. split; [done|]. split; simpl; try done.
    apply list_elem_of_here.
  - intros _ _. exists []. split; [constructor|]. split; [constructor|]. apply dec_val_zero.
Qed.

(** The total the UPDATE computes is the sum of all the lines of the budget. *)
Lemma select_counts (t : gmap uuid LineItemRow) (p : LineItemRow -> bool) :
  exists l, NoDup l
    /\ Forall (fun k => exists li, t !! k = Some li /\ p li = true) l
    /\ dec_val <$> (lir_BudgetedAmount <$> select p t) = budgeted_at t <$> l.
Proof.
  exists (List.filter (p ∘ snd) (map_to_list t)).*1.
  assert (Hin : forall kv, kv ∈ List.filter (p ∘ snd) (map_to_list t) ->
                           t !! kv.1 = Some kv.2 /\ p kv.2 = true).
  { intros [k v] H. apply filter_elem in H as [H Hp]. by apply elem_of_map_to_list in H. }
  split; [|split].
  - pose proof (NoDup_fst_map_to_list t) as Hnd. induction (map_to_list t) as [|[k v] l IH]; [done|].
    apply NoDup_cons in Hnd as [Hk Hnd]. simpl. case_match; [|apply IH; [|done]].
    + simpl. constructor; [|apply IH; [|done]].
      * intros ([k' v'] & -> & [Hf _]%filter_elem)%list_elem_of_fmap. apply Hk.
        by apply (list_elem_of_fmap_2 fst) in Hf.
      * intros kv Hkv. apply Hin. simpl. rewrite H. by right.
    + intros kv Hkv. apply Hin. simpl. by rewrite H.
  - apply Forall_fmap, Forall_forall. intros kv Hkv. destruct (Hin kv Hkv). eauto.
  - unfold select, rows. rewrite filter_fmap, <-!list_fmap_compose.
    apply list_fmap_ext. intros i kv Hkv. apply list_elem_of_lookup_2, Hin in Hkv as [Hk _].
    unfold budgeted_at. simpl. by rewrite Hk.
Qed.

Lemma total_of_val id t d :
  dec_val (Queries.total_of id t d)
  = qsum (dec_val <$> (lir_BudgetedAmount
            <$> select (Queries.line_of id t) (budget_line_items d))).
Proof. apply foldr_dec_add. Qed.

(** It has room for the total: the column holds it exactly. *)
Lemma total_exact id t d total :
  Forall (fun r => two_places (dec_val (lir_BudgetedAmount r)))
    (select (Queries.line_of id t) (budget_line_items d)) ->
  dec_numeric_14_2 (Queries.total_of id t d) = Some total ->
  dec_val total = qsum (dec_val <$> (lir_BudgetedAmount
                          <$> select (Queries.line_of id t) (budget_line_items d))).
Proof.
  intros Hl Hn. rewrite <-total_of_val. eapply dec_numeric_exact, Hn.
  rewrite total_of_val. apply two_places_qsum. rewrite <-list_fmap_compose. by apply Forall_fmap.
Qed.

Lemma lines_ok_select p d :
  lines_ok d -> Forall (fun r => two_places (dec_val (lir_BudgetedAmount r)))
                  (select p (budget_line_items d)).
Proof.
  intros Hl. apply Forall_forall. intros r [[k Hk] _]%select_elem. apply (lo_budgeted r), (Hl k r Hk).
Qed.

Lemma UpdateBudgetTotals_bstep now id t d a d' :
  own t -> Queries.UpdateBudgetTotals now id t d = Ok (a, d') -> bstep d d'.
Proof.
  intros Ho. unfold Queries.UpdateBudgetTotals, Queries.GetBudget, Queries.of_tenant.
  destruct (get_row _ _ _) as [r|] eqn:Hg; [|by intros [= _ <-]].
  apply get_row_tenant in Hg as [Hr <-].
  destruct (dec_numeric_14_2 _) as [total|] eqn:Hn; [|done]. intros [= _ <-].
  apply bstep_budget.
  - rewrite Hr. split; [done|]. split; [done|]. split; [done|]. by intros [].
  - intros Hl _. destruct (select_counts (budget_line_items d)
      (Queries.line_of id (br_TenantID r))) as (l & Hnd & Hall & Hsum).
    exists l. split; [done|]. split; [done|]. simpl.
    by rewrite (total_exact _ _ _ _ (lines_ok_select _ _ Hl) Hn), Hsum.
Qed.

Lemma UpdateBudgetStatus_Ok now t id st actor d r d' :
  Queries.UpdateBudgetStatus now t id st actor d = Ok (r, d') ->
  budgets d' !! id = Some r /\ exists r0, budgets d !! id = Some r0 /\ br_TenantID r0 = t
                                        /\ r = Queries.with_status now st actor r0.
Proof.
  unfold Queries.UpdateBudgetStatus, Queries.GetBudget, Queries.of_tenant.
  destruct (get_row _ _ _) as [r0|] eqn:Hg; [|done]. apply get_row_tenant in Hg as [Hr <-].
  destruct (negb _); [done|]. intros [= <- <-]. split; [apply lookup_insert_eq|by exists r0].
Qed.

Lemma UpdateBudgetStatus_submit now t id d a d' :
  own t -> Queries.UpdateBudgetStatus now t id "submitted" None d = Ok (a, d') -> bstep d d'.
Proof.
  intros Ho. unfold Queries.UpdateBudgetStatus, Queries.GetBudget, Queries.of_tenant.
  destruct (get_row _ _ _) as [r|] eqn:Hg; [|done]. apply get_row_tenant in Hg as [Hr <-].
  intros [= _ <-]. apply bstep_budget.
  - rewrite Hr. split; [done|]. split; [done|]. split; [by eexists|].
    intros []. split; simpl; try done. apply list_elem_of_further, list_elem_of_here.
  - intros _ Ht. by eapply (counts_lines_same _ _ r); [..|by apply Ht].
Qed.

(** An approval of a budget that has been submitted. *)
Lemma UpdateBudgetStatus_approve now t id d a d' :
  own t ->
  (forall r, budgets d !! id = Some r -> br_TenantID r = t -> is_Some (br_SubmittedAt r)) ->
  Queries.UpdateBudgetStatus now t id "approved" (Some uuid_nil) d = Ok (a, d') -> bstep d d'.
Proof.
  intros Ho Hs. unfold Queries.UpdateBudgetStatus, Queries.GetBudget, Queries.of_tenant.
  destruct (get_row _ _ _) as [r|] eqn:Hg; [|done]. apply get_row_tenant in Hg as [Hr <-].
  intros [= _ <-]. apply bstep_budget.
  - rewrite Hr. split; [done|]. split; [done|]. split; [done|].
    intros []. split; simpl; try done; [by repeat constructor|auto].
  - intros _ Ht. by eapply (counts_lines_same _ _ r); [..|by apply Ht].
Qed.

Lemma CreateLineItem_bstep now id b t c de ac amt d a d' :
  own t -> Queries.CreateLineItem now id b t c de ac amt d = Ok (a, d') -> bstep d d'.
Proof.
  intros Ho. unfold Queries.CreateLineItem. destruct (dec_numeric_14_2 _) as [m|] eqn:Hn; [|done].
  case_bool_decide as Hid; [done|]. case_bool_decide as Hb; [|done]. intros [= _ <-].
  apply bstep_line; [|done]. rewrite free_key by done.
  split; [done|]. split; [done|]. split; [|done]. by eapply dec_numeric_places.
Qed.

Lemma UpdateLineItemAmounts_bstep now t id ac cm d a d' :
  own t -> Queries.UpdateLineItemAmounts now t id None (Some ac) (Some cm) d = Ok (a, d') ->
  bstep d d'.
Proof.
  intros Ho. unfold Queries.UpdateLineItemAmounts, Queries.GetLineItem, Queries.line_of_tenant.
  destruct (get_row _ _ _) as [r|] eqn:Hg; [|done]. apply get_row_tenant in Hg as [Hr <-].
  simpl. destruct (dec_numeric_14_2 ac) as [ac'|]; [|done].
  destruct (dec_numeric_14_2 cm) as [cm'|]; [|done]. intros [= _ <-].
  apply bstep_line; [rewrite Hr; by split|]. intros Hf. exact (Hf id r Hr).
Qed.

(** A budget that was submitted stays so. *)
Lemma bstep_submitted d d' k r r' :
  bstep d d' -> budgets d !! k = Some r -> is_Some (br_SubmittedAt r) ->
  budgets d' !! k = Some r' -> is_Some (br_SubmittedAt r').
Proof.
  intros [Hs _ _ _] Hr Hsub Hr'. destruct (table_step_some _ _ _ _ Hs Hr) as (r1 & Hr1 & Hq).
  rewrite Hr' in Hr1. injection Hr1 as <-. destruct Hq as [->|[_ (_ & Hq & _)]]; auto.
Qed.

(** ** The invariant *)

Record binv (d : DB) : Prop := {
  bi_budget_keys : map_Forall (fun k r => br_ID r = k) (budgets d);
  bi_line_keys : map_Forall (fun k r => lir_ID r = k) (budget_line_items d);
  bi_budgets : map_Forall (fun _ => budget_ok) (budgets d);
  bi_lines : map_Forall (fun _ => line_ok) (budget_line_items d);
  bi_totals : totals_ok d;
  bi_fk : fk_ok d;
}.

Lemma binv_empty : binv empty_db.
Proof. split; apply map_Forall_empty. Qed.

Lemma binv_step d d' : bstep d d' -> binv d -> binv d'.
Proof.
  intros [H1 H2 H3 H4] [K1 K2 K3 K4 K5 K6]. split.
  - eapply table_step_forall, K1; [|exact H1]. intros k o r [_ HQ] Ho.
    destruct o as [r0|]; [|by destruct HQ]. destruct HQ as [Hh _].
    rewrite (sb_id _ _ Hh). by apply Ho.
  - eapply table_step_forall, K2; [|exact H2]. intros k o r [_ HQ] Ho.
    destruct o as [r0|]; [|by destruct HQ]. rewrite (sl_id _ _ HQ).
    by apply Ho.
  - eapply table_step_forall, K3; [|exact H1]. intros k o r [_ HQ] Ho.
    destruct o as [r0|]; [|by destruct HQ]. destruct HQ as (_ & _ & HQ). auto.
  - by eapply lines_ok_step.
  - auto.
  - auto.
Qed.

End relation.

(** ** Programs: every RPC moves the tables along [bstep] *)

Section programs.
Context {X : External} {L : ExternalLaws}.
Variable own : uuid -> Prop.
Variable s : Service.
Variable t : uuid.
Hypothesis Ho : own t.
Abbreviation R := (store_step (D:=DB) (Ev:=Event) (bstep own)) (only parsing).

(** Splits a service call into its statements. *)
Ltac service_steps :=
  repeat (steps_tac; try done; try apply steps_store_query; try apply steps_store_exec;
          try apply steps_emit).

Lemma steps_GetBudget tn id w : steps R (Budget.GetBudget tn id) w.
Proof. unfold Budget.GetBudget, Postgres.GetBudget. service_steps. Qed.
Lemma steps_ListBudgets tn p st l o w : steps R (Budget.ListBudgets tn p st l o) w.
Proof. unfold Budget.ListBudgets, Postgres.ListBudgets. service_steps. Qed.
Lemma steps_GetLineItem tn id w : steps R (Budget.GetLineItem tn id) w.
Proof. unfold Budget.GetLineItem, Postgres.GetLineItem. service_steps. Qed.
Lemma steps_ListLineItems tn id l o w : steps R (Budget.ListLineItems tn id l o) w.
Proof. unfold Budget.ListLineItems, Postgres.ListLineItems. service_steps. Qed.
Lemma steps_CheckLineAvailability tn id w : steps R (Budget.CheckLineAvailability tn id) w.
Proof.
  unfold Budget.CheckLineAvailability, Postgres.CheckLineAvailability, Postgres.GetLineItem.
  service_steps.
Qed.

Lemma steps_repo_CreateBudget b w :
  b_TenantID b = t -> b_Status b = "draft" -> b_CreatedBy b = uuid_nil ->
  steps R (Postgres.CreateBudget b) w.
Proof.
  intros Ht Hs Hc. unfold Postgres.CreateBudget. service_steps.
  rewrite Ht, Hs, Hc in *. by eapply CreateBudget_bstep.
Qed.
Lemma steps_repo_CreateLineItem li w :
  li_TenantID li = t -> steps R (Postgres.CreateLineItem li) w.
Proof.
  intros Ht. unfold Postgres.CreateLineItem. service_steps; rewrite Ht in *.
  - by eapply CreateLineItem_bstep.
  - by eapply UpdateBudgetTotals_bstep.
Qed.

Lemma steps_CreateBudget b w :
  b_TenantID b = t -> b_Status b = "" -> b_CreatedBy b = uuid_nil ->
  steps R (Budget.CreateBudget b) w.
Proof.
  intros Ht Hs Hc. unfold Budget.CreateBudget. steps_tac; apply steps_repo_CreateBudget; try done;
    simpl; by rewrite Hs.
Qed.
Lemma steps_SubmitBudget id u w : steps R (Budget.SubmitBudget t id u) w.
Proof.
  unfold Budget.SubmitBudget, Postgres.GetBudget, Postgres.UpdateBudgetStatus. service_steps.
  by eapply UpdateBudgetStatus_submit.
Qed.
Lemma steps_CreateLineItem cfg li w :
  li_TenantID li = t -> steps R (Budget.CreateLineItem cfg li) w.
Proof.
  intros Ht. unfold Budget.CreateLineItem. steps_tac; by apply steps_repo_CreateLineItem.
Qed.
Lemma steps_UpdateLineItemActuals id a c w : steps R (Budget.UpdateLineItemActuals t id a c) w.
Proof.
  unfold Budget.UpdateLineItemActuals, Postgres.UpdateLineItemActuals. service_steps.
  - by eapply UpdateLineItemAmounts_bstep.
  - by eapply UpdateBudgetTotals_bstep.
Qed.
Lemma steps_CreateBudgetFromTemplate cfg b name w :
  b_TenantID b = t -> b_Status b = "" -> b_CreatedBy b = uuid_nil ->
  steps R (Budget.CreateBudgetFromTemplate cfg b name) w.
Proof.
  intros Ht Hs Hc. unfold Budget.CreateBudgetFromTemplate. steps_tac;
    first [apply steps_repo_CreateBudget; try done; simpl; by rewrite Hs
          |by apply steps_repo_CreateLineItem].
Qed.

(** The approval writes what it read as submitted. *)
Lemma steps_ApproveBudget id (w : World St) :
  binv (store_db (w_st w)) -> steps R (Budget.ApproveBudget s t id uuid_nil) w.
Proof.
  intros Hi. unfold Budget.ApproveBudget, Postgres.GetBudget, Postgres.UpdateBudgetStatus.
  apply steps_bind; [service_steps|].
  intros b w1 Hg HR _ _. apply wrap_Ok, bind_Ok in Hg as (row & w2 & Hq & Hret).
  apply map_err_Ok, (store_query_Ok (R:=bstep own)) in Hq as (Hs & Hq & _); [|done].
  apply ret_Ok in Hret as [-> ->]. apply get_row_tenant in Hq as [Hrow Htn].
  assert (Hok : budget_ok row) by (eapply (bi_budgets _ (binv_step own _ _ (proj1 Hs) Hi)), Hrow).
  repeat (steps_tac; try apply steps_emit). apply steps_store_exec_from. intros d upd d' Hd Hup.
  eapply UpdateBudgetStatus_approve; [exact Ho| |exact Hup].
  intros r Hr _. eapply (bstep_submitted own (store_db (w_st w2))); [|exact Hrow| |exact Hr].
  - step_chain.
  - apply (bo_moved row Hok). intros Hdr.
    match goal with H : negb _ = false |- _ => simpl in H; by rewrite Hdr in H end.
Qed.

End programs.

Section handle.
Context {X : External} {L : ExternalLaws}.
Variable own : uuid -> Prop.
Variable h : BudgetHandler.Handler.
Variable ctx : Ctx.

Lemma tenantFromContext_Ok u (w : World St) w' :
  lift_result (tenantFromContext ctx) w = (Ok u, w') -> IDFromContext ctx = Some u.
Proof.
  intros [H _]%lift_Ok. unfold tenantFromContext in H.
  destruct (IDFromContext ctx); [|done]. by injection H as ->.
Qed.

(** A service call of a handler. *)
Ltac leaf Hown :=
  repeat match goal with
  | H : lift_result (tenantFromContext ctx) _ = (Ok ?u, _) |- _ =>
      apply tenantFromContext_Ok, Hown in H
  end;
  first
  [ apply steps_GetBudget | apply steps_ListBudgets | apply steps_GetLineItem
  | apply steps_ListLineItems | apply steps_CheckLineAvailability
  | by eapply steps_CreateBudget | by eapply steps_SubmitBudget | by eapply steps_CreateLineItem
  | by eapply steps_UpdateLineItemActuals | by eapply steps_CreateBudgetFromTemplate
  | eapply steps_ApproveBudget ].

(** A request whose tenant, if it has one, may change its rows. *)
Lemma handle_bstep r (w : World St) :
  (forall t, IDFromContext ctx = Some t -> own t) -> binv (store_db (w_st w)) ->
  steps (store_step (bstep own)) (BudgetHandler.handle h ctx r) w.
Proof.
  intros Hown Hi. unfold BudgetHandler.handle. apply steps_bind; [apply steps_lift|].
  intros vcfg w1 [_ ->]%lift_Ok _ _ _.
  destruct r; simpl;
    unfold BudgetHandler.CreateBudget, BudgetHandler.GetBudget, BudgetHandler.ListBudgets,
      BudgetHandler.SubmitBudget, BudgetHandler.ApproveBudget,
      BudgetHandler.CreateBudgetFromTemplate, BudgetHandler.CreateLineItem,
      BudgetHandler.GetLineItem, BudgetHandler.ListLineItems, BudgetHandler.UpdateLineItemActuals,
      BudgetHandler.CheckLineAvailability, BudgetHandler.GetBudgetCategories,
      BudgetHandler.GetBudgetTemplates, BudgetHandler.svc.
  all: steps_tac; leaf Hown.
  - done.
  - eapply binv_step, Hi. step_chain.
Qed.

End handle.

(** Budget planning: the states the service can reach, whatever requests
    interleave, and what holds in all of them; what a request of one tenant
    leaves of the others' rows; and the outcomes of the calls that write, branch
    by branch, when they run alone. *)

Local Open Scope Z_scope.

(** ** Reachable states *)

Section system.
Context {X : External} {L : ExternalLaws}.
Variable h : BudgetHandler.Handler.

(** What the requests of the service do to the tables. *)
Definition budget_step : DB -> DB -> Prop := bstep (fun _ => True).

(** From the empty tables, after any RPC and between any two of its statements,
    while other requests that respect [budget_step] run beside it. *)
Inductive budget_reachable : St -> Prop :=
| bg_empty : budget_reachable empty_st
| bg_rpc ctx r w :
    budget_reachable (w_st w) -> rely (store_step budget_step) w ->
    budget_reachable (w_st (BudgetHandler.handle h ctx r w).2)
| bg_statement s s' ctx r w :
    budget_reachable (w_st w) -> budget_reachable s -> rely (store_step budget_step) w ->
    w_log w = [] -> (s, s') ∈ w_log (BudgetHandler.handle h ctx r w).2 -> budget_reachable s'
| bg_others s s' :
    budget_reachable s -> store_step budget_step s s' -> budget_reachable s'.

Lemma handle_budget_step ctx r (w : World St) :
  binv (store_db (w_st w)) ->
  steps (store_step budget_step) (BudgetHandler.handle h ctx r) w.
Proof. intros Hi. by apply handle_bstep. Qed.

Lemma budget_reachable_inv s : budget_reachable s -> binv (store_db s).
Proof.
  induction 1 as [|ctx r w _ IH HR|s s' ctx r w _ IH _ IHs HR Hlog Hin|s s' _ IH [Hs _]].
  - apply binv_empty.
  - eapply binv_step, IH. by apply (handle_budget_step ctx r w IH).
  - destruct (handle_budget_step ctx r w IH HR) as (_ & _ & own & Hown & Hall).
    rewrite Hlog, app_nil_r in Hown. rewrite Hown in Hin. rewrite Forall_forall in Hall.
    exact (binv_step _ _ _ (proj1 (Hall _ Hin)) IHs).
  - by eapply binv_step.
Qed.

(** C29: In every reachable state, whatever requests interleave and wherever they
    fail, the stored total of a budget is the exact sum of the budgeted amounts
    of some of its tenant's lines on it, each counted once: rounding never makes
    a total differ from the amounts it stands for, and a line of another budget
    or tenant never counts.  (A total may miss lines: one added between an
    insert and its UPDATE, or one whose UPDATE overflowed the column.) *)
Theorem budget_total_counts_lines (s : St) (id : uuid) (r : BudgetRow) :
  budget_reachable s -> budgets (store_db s) !! id = Some r ->
  exists counted : list uuid, NoDup counted
    /\ Forall (fun k => exists li, budget_line_items (store_db s) !! k = Some li
                        /\ lir_BudgetID li = id /\ lir_TenantID li = br_TenantID r) counted
    /\ dec_val (br_TotalAmount r)
       = qsum (budgeted_at (budget_line_items (store_db s)) <$> counted).
Proof.
  intros Hr Hid. destruct (bi_totals _ (budget_reachable_inv _ Hr) id r Hid) as (l & Hnd & Hl & Hs).
  exists l. split; [done|]. split; [|done]. eapply Forall_impl; [exact Hl|].
  intros k (li & Hk & Hof). exists li. split; [done|]. unfold Queries.line_of in Hof.
  apply andb_true_iff in Hof as [H1%bool_decide_eq_true H2%bool_decide_eq_true]. by split.
Qed.

(** No stored budget names anyone, and none is ever locked.  The handlers pass
    the nil UUID for the caller and SubmitBudget drops the submitter, so in every
    reachable state a budget has the nil creator, no submitter, and the nil UUID
    as its approver exactly from the time it was approved; its status is draft,
    submitted or approved, an approved budget was submitted before, a draft was
    never moved; and no line item is locked. *)
Theorem budget_names_nobody (s : St) :
  budget_reachable s ->
  (forall id r, budgets (store_db s) !! id = Some r ->
     br_ID r = id /\ br_CreatedBy r = uuid_nil /\ br_SubmittedBy r = None
     /\ br_ApprovedBy r = match br_ApprovedAt r with Some _ => Some uuid_nil | None => None end
     /\ (br_Status r = "draft" /\ br_SubmittedAt r = None /\ br_ApprovedAt r = None
         \/ br_Status r = "submitted" /\ is_Some (br_SubmittedAt r)
         \/ br_Status r = "approved" /\ is_Some (br_SubmittedAt r) /\ is_Some (br_ApprovedAt r)))
  /\ forall id li, budget_line_items (store_db s) !! id = Some li ->
     lir_ID li = id /\ lir_IsLocked li = false /\ is_Some (budgets (store_db s) !! lir_BudgetID li).
Proof.
  intros Hr%budget_reachable_inv. destruct Hr as [K1 K2 K3 K4 _ K6]. split.
  - intros id r Hid. destruct (K3 id r Hid) as [H1 H2 H3 H4 H5 H6 H7].
    split; [by apply K1|]. split; [done|]. split; [done|].
    split; [by rewrite H3; destruct (br_ApprovedAt r)|].
    rewrite !elem_of_cons, elem_of_nil in H4. destruct H4 as [H4|[H4|[H4|[]]]].
    + left. split; [done|]. by apply H5.
    + right; left. split; [done|]. apply H6. by rewrite H4.
    + right; right. split; [done|]. split; [|by apply H7]. apply H6. by rewrite H4.
  - intros id li Hid. split; [by apply K2|]. split; [apply (K4 id li Hid)|by apply (K6 id li)].
Qed.

End system.

(** ** Isolation *)

Section isolation.
Context {X : External} {L : ExternalLaws}.
Variable u : uuid.

(** Everything the tables hold for tenant [u]. *)
Definition tenant_view (d : DB) : gmap uuid BudgetRow * gmap uuid LineItemRow :=
  (filter (fun kv => br_TenantID kv.2 = u) (budgets d),
   filter (fun kv => lir_TenantID kv.2 = u) (budget_line_items d)).
Definition same_tenant_rows (d d' : DB) : Prop := tenant_view d = tenant_view d'.

Lemma bstep_view d d' : bstep (fun t => t <> u) d d' -> same_tenant_rows d d'.
Proof.
  intros [H1 H2 _ _]. unfold same_tenant_rows, tenant_view.
  f_equal; [apply (table_step_filter (fun r => br_TenantID r = u) _ _) in H1; [exact H1|]
           |apply (table_step_filter (fun r => lir_TenantID r = u) _ _) in H2; [exact H2|]];
    intros k o r [Hn HQ]; (split; [exact Hn|]); intros r0 ->.
  - destruct HQ as [Hh _]. by rewrite <-(sb_tenant _ _ Hh).
  - by rewrite <-(sl_tenant _ _ HQ).
Qed.

(** An RPC of a caller who is not of tenant [u] leaves every budget and every
    line item of tenant [u] exactly as it was, whatever ids it names (a line may
    be added to another tenant's budget, and counts for nobody) and whatever its
    outcome, as long as the requests running beside it do; and so does each
    statement it runs. *)
Theorem budget_tenant_isolation (h : BudgetHandler.Handler) (ctx : Ctx) (r : BudgetHandler.Rpc)
    (w w' : World St) (res : result status BudgetHandler.Response) :
  (forall c, ctx_caller ctx = Some c -> ci_TenantID c <> u) ->
  binv (store_db (w_st w)) -> rely (store_step (bstep (fun t => t <> u))) w ->
  BudgetHandler.handle h ctx r w = (res, w') ->
  tenant_view (store_db (w_st w')) = tenant_view (store_db (w_st w))
  /\ exists own, w_log w' = own ++ w_log w
     /\ Forall (fun p => tenant_view (store_db p.1) = tenant_view (store_db p.2)) own.
Proof.
  intros Hu Hi HR Hh.
  assert (Hown : forall t, IDFromContext ctx = Some t -> t <> u).
  { intros t Ht. apply IDFromContext_inv in Ht as (c & Hc & <- & _). by apply Hu. }
  destruct (handle_bstep (fun t => t <> u) h ctx r w Hown Hi HR) as ([Hs _] & _ & own & Hl & Hall).
  rewrite Hh in Hs, Hl. split; [symmetry; by apply bstep_view|]. exists own. split; [done|].
  eapply Forall_impl; [exact Hall|]. intros p [Hp _]. by apply bstep_view.
Qed.

End isolation.
