(* ===== verification/BudgetCalls.v ===== *)
(** Budget planning: what each call that writes does when it runs alone, branch
    by branch, and a concrete service on the reference libraries, whose runs the
    witnesses evaluate. *)

From S2P Require Export BudgetProps.
From S2P Require Import Logic.
Local Open Scope Z_scope.

(** ** The life of a budget *)

(** The specification: a draft can be submitted, a submitted budget approved. *)
Inductive Move := Submit | Approve.
Definition next_status (m : Move) (status : string) : result BgErr string :=
  match m with
  | Submit => if decide (status = "draft") then Ok "submitted" else Err ErrBudgetLocked
  | Approve =>
    if decide (status ∈ ["approved"; "locked"]) then Err ErrAlreadyApproved
    else if decide (status = "submitted") then Ok "approved" else Err ErrBudgetNotApproved
  end.

Section calls.
Context {X : External} {L : ExternalLaws}.
Variable s : Service.

(** The service's call for each move. *)
Definition move_call (m : Move) (t id actor : uuid) : M St (error BgErr) unit :=
  match m with
  | Submit => Budget.SubmitBudget t id actor
  | Approve => Budget.ApproveBudget s t id actor
  end.
(** The budget the event of an approval carries: what was read, with the approval. *)
Definition move_events (m : Move) (actor : uuid) (r : BudgetRow) : list Event :=
  match m with
  | Submit => []
  | Approve => if s_publisher s then [BudgetApproved (Budget.approved_budget actor (Postgres.budgetFromDB r))]
               else []
  end.

Lemma evals_GetBudget t id (w : World St) :
  quiet w ->
  evals (Postgres.GetBudget t id) w
    (match owned br_TenantID t (budgets (store_db (w_st w))) id with
     | Some r => Ok (Postgres.budgetFromDB r)
     | None => Err (ESent ErrBudgetNotFound)
     end) (w_st w).
Proof.
  intros Hw. unfold Postgres.GetBudget. pose proof (evals_store_query (Queries.GetBudget t id) w Hw) as Hq.
  unfold Queries.GetBudget, Queries.of_tenant in *. rewrite get_row_owned in Hq.
  destruct (owned _ _ _ _) as [r|].
  - eapply evals_bind; [by apply evals_map_ok|]. intros w1 Hw1 <-. by apply evals_ret.
  - apply evals_bind_err. exact (evals_map_fail (no_rows_as ErrBudgetNotFound _) _ _ _ _ Hq).
Qed.

(** A status update of a budget of the tenant. *)
Lemma evals_UpdateBudgetStatus t id st actor r (w : World St) :
  quiet w -> owned br_TenantID t (budgets (store_db (w_st w))) id = Some r ->
  Queries.budget_status_ok st = true ->
  exists now, evals (Postgres.UpdateBudgetStatus t id st actor) w (Ok tt)
    (mkStore (set_budgets (<[id := Queries.with_status now st actor r]> (budgets (store_db (w_st w))))
                (store_db (w_st w))) (store_events (w_st w))).
Proof.
  intros Hw Hr Hst. destruct (evals_time (E := error BgErr) w Hw) as [now Hnow]. exists now.
  unfold Postgres.UpdateBudgetStatus. eapply evals_bind; [exact Hnow|]. intros w1 Hw1 Hs1.
  rewrite <-Hs1 in Hr |- *.
  eapply evals_bind; [|intros w2 Hw2 <-; by apply evals_ret].
  apply evals_map_ok, evals_store_exec; [done|].
  unfold Queries.UpdateBudgetStatus, Queries.GetBudget, Queries.of_tenant.
  rewrite get_row_owned, Hr. by rewrite Hst.
Qed.

Lemma closed_statuses st :
  bool_decide (st = "approved") || bool_decide (st = "locked")
  = bool_decide (st ∈ ["approved"; "locked"]).
Proof.
  apply eq_true_iff_eq. rewrite orb_true_iff, !bool_decide_eq_true, !elem_of_cons, elem_of_nil. tauto.
Qed.

(** C30: Alone, with no call failing, SubmitBudget and ApproveBudget implement the
    two moves of [next_status] on every branch.  A budget the tenant does not have
    answers not found; a move its status does not allow answers the error of the
    specification, and nothing has changed; an allowed one succeeds, the budget
    has the new status, with the actor (of an approval only) and the time in the
    columns of the move, and nothing else changes but the event of an approval. *)
Theorem budget_moves_refine_spec (m : Move) (t id actor : uuid) (w w' : World St)
    (res : result (error BgErr) unit) :
  quiet w -> move_call m t id actor w = (res, w') ->
  match owned br_TenantID t (budgets (store_db (w_st w))) id with
  | None => exists e, res = Err e /\ errors_Is e ErrBudgetNotFound = true /\ w_st w' = w_st w
  | Some r =>
    match next_status m (br_Status r) with
    | Err err => exists e, res = Err e /\ errors_Is e err = true /\ w_st w' = w_st w
    | Ok st => res = Ok tt /\ exists now,
        w_st w' = mkStore
          (set_budgets (<[id := Queries.with_status now st
                                  (match m with Submit => None | Approve => Some actor end) r]>
                          (budgets (store_db (w_st w)))) (store_db (w_st w)))
          (store_events (w_st w) ++ move_events m actor r)
    end
  end.
Proof.
  intros Hw Hrun. pattern res, (w_st w'). refine (yields_run _ _ _ _ _ _ Hrun).
  pose proof (evals_GetBudget t id w Hw) as Hg.
  destruct (owned br_TenantID t _ id) as [r|] eqn:Hr.
  - apply (evals_map_ok (EWrap "get budget: %w")) in Hg.
    destruct m; (eapply yields_bind; [exact Hg|]); intros w1 Hw1 Hs1; rewrite <-Hs1 in Hr |- *; simpl.
    + case_decide as Hst; [rewrite bool_decide_true by done|rewrite bool_decide_false by done]; simpl.
      * destruct (evals_UpdateBudgetStatus t id "submitted" None r w1) as [now Hnow]; [done..|].
        eapply yields_evals; [exact Hnow|]. rewrite app_nil_r. eauto.
      * eapply yields_evals; [by apply evals_throw|]. eexists. by split.
    + rewrite closed_statuses. case_decide as Hcl;
        [rewrite bool_decide_true by done|rewrite bool_decide_false by done].
      { eapply yields_evals; [by apply evals_throw|]. eexists. by split. }
      case_decide as Hst; [rewrite bool_decide_true by done|rewrite bool_decide_false by done]; simpl.
      * destruct (evals_UpdateBudgetStatus t id "approved" (Some actor) r w1) as [now Hnow]; [done..|].
        eapply yields_bind; [exact Hnow|]. intros w2 Hw2 Hs2.
        eapply yields_evals; [by apply evals_emit|]. rewrite Hs2. eauto.
      * eapply yields_evals; [by apply evals_throw|]. eexists. by split.
  - apply (evals_map_fail (EWrap "get budget: %w")) in Hg.
    destruct m; (eapply yields_evals; [apply evals_bind_err; exact Hg|]); eexists; by split.
Qed.

(** ** Line items *)

(** The row of a line item that budgets [m]. *)
Definition line_row (now : Time) (li : BudgetLineItem) (m : Dec) : LineItemRow :=
  mkLineItemRow (li_ID li) (li_BudgetID li) (li_TenantID li) (li_CategoryID li) (li_Description li)
    (li_AccountCode li) m dec_zero dec_zero false now now.
Definition with_line (row : LineItemRow) (d : DB) : DB :=
  set_line_items (<[lir_ID row := row]> (budget_line_items d)) d.

(** The repository's two statements, alone, whatever calls fail: nothing happens,
    or the line is stored and the total fails, or both are written. *)
Lemma wp_repo_CreateLineItem u li st (P : result (error BgErr) unit -> St -> Prop) :
  (forall e, P (Err e) st) ->
  (forall m now, dec_numeric_14_2 (li_BudgetedAmount li) = Some m ->
     budget_line_items (store_db st) !! li_ID li = None ->
     is_Some (budgets (store_db st) !! li_BudgetID li) ->
     (forall e, P (Err e) (mkStore (with_line (line_row now li m) (store_db st)) (store_events st)))
     /\ forall now' d,
        Queries.UpdateBudgetTotals now' (li_BudgetID li) (li_TenantID li)
          (with_line (line_row now li m) (store_db st)) = Ok (tt, d) ->
        P (Ok tt) (mkStore d (store_events st))) ->
  wp u (Postgres.CreateLineItem li) P st.
Proof.
  intros He HP. unfold Postgres.CreateLineItem. wp_tac. apply wp_with_tx; [apply He|].
  unfold Queries.CreateLineItem. destruct (dec_numeric_14_2 _) as [m|] eqn:Hm; [|apply He].
  case_bool_decide as Hid; [apply He|]. case_bool_decide as Hb; [|apply He]. simpl.
  destruct (HP m t eq_refl) as [HE HO]; [by apply free_key|done|]. wp_tac. apply wp_with_tx; [apply HE|].
  simpl. unfold with_line in HO. simpl in HO.
  destruct (Queries.UpdateBudgetTotals _ _ _ _) as [[[] d]|e] eqn:Hu; [|apply HE].
  wp_tac. by eapply HO.
Qed.

(** The total of a budget of the tenant, when there is room for it. *)
Lemma UpdateBudgetTotals_Ok now id t d d' r :
  budgets d !! id = Some r -> br_TenantID r = t ->
  Forall (fun r => two_places (dec_val (lir_BudgetedAmount r)))
    (select (Queries.line_of id t) (budget_line_items d)) ->
  Queries.UpdateBudgetTotals now id t d = Ok (tt, d') ->
  exists total, d' = set_budgets (<[id := Queries.with_total now total r]> (budgets d)) d
    /\ dec_val total = qsum (dec_val <$> (lir_BudgetedAmount
                               <$> select (Queries.line_of id t) (budget_line_items d))).
Proof.
  intros Hr Ht Hl. unfold Queries.UpdateBudgetTotals, Queries.GetBudget, get_row, Queries.of_tenant.
  rewrite Hr, bool_decide_true by done.
  destruct (dec_numeric_14_2 _) as [total|] eqn:Hn; [|done]. intros [= <-].
  exists total. split; [done|]. by apply total_exact.
Qed.

(** A new line among the lines of its budget. *)
Lemma select_with_line row d :
  budget_line_items d !! lir_ID row = None ->
  select (Queries.line_of (lir_BudgetID row) (lir_TenantID row))
    (budget_line_items (with_line row d))
  ≡ₚ row :: select (Queries.line_of (lir_BudgetID row) (lir_TenantID row)) (budget_line_items d).
Proof.
  intros Hk. simpl. rewrite select_insert by done.
  unfold Queries.line_of, Queries.line_of_tenant. by rewrite !bool_decide_true.
Qed.

(** The total after a new line of the tenant's budget. *)
Lemma totals_after_line now now' li m d d' r :
  budgets d !! li_BudgetID li = Some r -> br_TenantID r = li_TenantID li ->
  budget_line_items d !! li_ID li = None ->
  dec_numeric_14_2 (li_BudgetedAmount li) = Some m ->
  Forall (fun r => two_places (dec_val (lir_BudgetedAmount r)))
    (select (Queries.line_of (li_BudgetID li) (li_TenantID li)) (budget_line_items d)) ->
  Queries.UpdateBudgetTotals now' (li_BudgetID li) (li_TenantID li) (with_line (line_row now li m) d)
  = Ok (tt, d') ->
  exists total,
    d' = set_budgets (<[li_BudgetID li := Queries.with_total now' total r]> (budgets d))
           (with_line (line_row now li m) d)
    /\ dec_val total = (dec_val m + qsum (dec_val <$> (lir_BudgetedAmount
          <$> select (Queries.line_of (li_BudgetID li) (li_TenantID li)) (budget_line_items d))))%Qc.
Proof.
  intros Hr Ht Hk Hm Hl Hu.
  pose proof (select_with_line (line_row now li m) d Hk) as Hsel. simpl in Hsel.
  eapply UpdateBudgetTotals_Ok in Hu as (total & -> & Htot); [|exact Hr|exact Ht|].
  - exists total. split; [done|]. rewrite Htot. simpl. by rewrite Hsel.
  - simpl. rewrite Hsel. constructor; [|done]. by eapply dec_numeric_places.
Qed.

(** C31: Alone, whatever calls fail and whatever the status of the budget, an
    approved or locked one included, CreateLineItem on a budget of the tenant
    either answers an error with nothing changed, or answers an error with the
    line stored and the total as it was, or succeeds: the category is one of the
    vertical, the account code is the given one or the category's, the line is
    stored with its amount rounded to the column, and the budget's total is the
    exact sum of the new amount and those of the lines it had. *)
Theorem line_item_outcomes (vcfg : Config) (li : BudgetLineItem) (r : BudgetRow) (u : nat -> uuid)
    (w w' : World St) (res : result (error BgErr) BudgetLineItem) :
  alone u w -> binv (store_db (w_st w)) ->
  owned br_TenantID (li_TenantID li) (budgets (store_db (w_st w))) (li_BudgetID li) = Some r ->
  Budget.CreateLineItem vcfg li w = (res, w') ->
  match res with
  | Ok li' => exists cat m now now' total,
      FindBudgetCategory vcfg (li_CategoryID li) = Some cat
      /\ li' = with_code (li_ID li') cat li
      /\ dec_numeric_14_2 (li_BudgetedAmount li) = Some m
      /\ budget_line_items (store_db (w_st w)) !! li_ID li' = None
      /\ w_st w' = mkStore (set_budgets (<[li_BudgetID li := Queries.with_total now' total r]>
                                           (budgets (store_db (w_st w))))
                              (with_line (line_row now li' m) (store_db (w_st w))))
                     (store_events (w_st w))
      /\ dec_val total = (dec_val m + qsum (dec_val <$> (lir_BudgetedAmount
            <$> select (Queries.line_of (li_BudgetID li) (li_TenantID li))
                  (budget_line_items (store_db (w_st w))))))%Qc
  | Err _ => w_st w' = w_st w
      \/ exists cat id m now,
           FindBudgetCategory vcfg (li_CategoryID li) = Some cat
           /\ dec_numeric_14_2 (li_BudgetedAmount li) = Some m
           /\ budget_line_items (store_db (w_st w)) !! id = None
           /\ w_st w' = mkStore (with_line (line_row now (with_code id cat li) m) (store_db (w_st w)))
                          (store_events (w_st w))
  end.
Proof.
  intros Ha Hi [Hr Ht]%owned_Some Hrun. pattern res, (w_st w').
  refine (proj2 (wp_run u _ _ _ _ _ _ Ha Hrun)). unfold Budget.CreateLineItem.
  destruct (FindBudgetCategory _ _) as [cat|]; [|wp_tac; by left].
  destruct (decide _); wp_tac; (apply wp_repo_CreateLineItem; [by left|]);
    intros m now Hm Hk _; (split; [intros err; right; by repeat eexists|]); intros now' d Hu; wp_tac;
    destruct (totals_after_line _ _ (with_code _ cat li) _ _ _ _ Hr Ht Hk Hm (lines_ok_select _ _ (bi_lines _ Hi)) Hu)
      as (total & -> & Htot); by repeat eexists.
Qed.

(** ** Budgets from a template *)

(** The row of a new budget. *)
Definition budget_row (now : Time) (b : Budget.Budget) : BudgetRow :=
  mkBudgetRow (b_ID b) (b_ProductionID b) (b_TenantID b) (b_Label b) (b_Status b) (b_Currency b)
    dec_zero None None None None (b_CreatedBy b) now now.

(** A line of the template as it is stored in budget [b]. *)
Record stored_as (b : Budget.Budget) (tl : TemplateLineItem) (r : LineItemRow) : Prop := {
  sa_budget : lir_BudgetID r = b_ID b;
  sa_tenant : lir_TenantID r = b_TenantID b;
  sa_category : lir_CategoryID r = tl_CategoryID tl;
  sa_description : lir_Description r = tl_Description tl;
  sa_account : lir_AccountCode r = tl_AccountCode tl;
  sa_amount : dec_numeric_14_2 (tl_DefaultAmount tl) = Some (lir_BudgetedAmount r);
}.

(** [d'] is [d] with the new budget [b], holding a line for each of [ts] and no
    other, and a total that counts the first [n] of them. *)
Record filled (b : Budget.Budget) (d : DB) (ts : list TemplateLineItem) (n : nat) (d' : DB) : Prop := {
  fl_budget : exists now upd total rows,
    budgets d !! b_ID b = None
    /\ budgets d' = <[b_ID b := Queries.with_total upd total (budget_row now b)]> (budgets d)
    /\ Forall2 (stored_as b) ts rows
    /\ select (Queries.line_of (b_ID b) (b_TenantID b)) (budget_line_items d') ≡ₚ rows
    /\ dec_val total = qsum (dec_val <$> (lir_BudgetedAmount <$> take n rows));
  fl_kept : forall k r, budget_line_items d !! k = Some r -> budget_line_items d' !! k = Some r;
  fl_new : forall k r, budget_line_items d' !! k = Some r ->
    budget_line_items d !! k = Some r \/ lir_BudgetID r = b_ID b;
}.

Lemma filled_new b now d d' :
  fk_ok d -> Queries.CreateBudget now (b_ID b) (b_ProductionID b) (b_TenantID b) (b_Label b)
               (b_Status b) (b_Currency b) (b_CreatedBy b) d = Ok (budget_row now b, d') ->
  filled b d [] 0 d'.
Proof.
  intros Hfk. unfold Queries.CreateBudget. destruct (negb _); [done|].
  case_bool_decide as Hid; [done|]. intros [= <-]. apply free_key in Hid.
  split; simpl; [|done|by left]. exists now, now, dec_zero, [].
  split; [done|]. split; [done|]. split; [constructor|]. split; [|apply dec_val_zero].
  rewrite select_nil; [done|]. intros k r Hk. unfold Queries.line_of. apply andb_false_iff. left.
  apply bool_decide_eq_false. intros Hb. destruct (Hfk k r Hk) as [x Hx]. congruence.
Qed.

(** One more line, with the total or without it. *)
Lemma filled_line b d ts d' now tl id m :
  filled b d ts (length ts) d' ->
  dec_numeric_14_2 (tl_DefaultAmount tl) = Some m ->
  budget_line_items d' !! id = None ->
  filled b d (ts ++ [tl]) (length ts) (with_line (line_row now (template_line b id tl) m) d')
  /\ forall now' d'',
       Queries.UpdateBudgetTotals now' (b_ID b) (b_TenantID b)
         (with_line (line_row now (template_line b id tl) m) d') = Ok (tt, d'') ->
       filled b d (ts ++ [tl]) (length (ts ++ [tl])) d''.
Proof.
  intros [(now0 & upd & total & rows & Hn & Hb & Hrows & Hsel & Htot) Hkept Hnew] Hm Hk.
  set (row := line_row now (template_line b id tl) m).
  assert (Hlen : length rows = length ts) by (symmetry; by eapply Forall2_length).
  assert (Hrow : Forall2 (stored_as b) (ts ++ [tl]) (rows ++ [row])).
  { apply Forall2_app; [done|]. constructor; [by split|constructor]. }
  assert (Hsel' : select (Queries.line_of (b_ID b) (b_TenantID b))
            (budget_line_items (with_line row d')) ≡ₚ rows ++ [row]).
  { etrans; [exact (select_with_line row d' Hk)|]. simpl. rewrite Hsel.
    apply Permutation_cons_append. }
  assert (Hkept' : forall k r, budget_line_items d !! k = Some r ->
            budget_line_items (with_line row d') !! k = Some r).
  { intros k r Hr. simpl. rewrite lookup_insert_ne; [by apply Hkept|].
    intros <-. apply Hkept in Hr. simpl in *. congruence. }
  assert (Hnew' : forall k r, budget_line_items (with_line row d') !! k = Some r ->
            budget_line_items d !! k = Some r \/ lir_BudgetID r = b_ID b).
  { intros k r. simpl. destruct (decide (id = k)) as [<-|Hne].
    - rewrite lookup_insert_eq. intros [= <-]. by right.
    - rewrite lookup_insert_ne by done. apply Hnew. }
  split.
  - split; [|done|done]. exists now0, upd, total, (rows ++ [row]). simpl.
    split; [done|]. split; [done|]. split; [done|]. split; [done|].
    by rewrite <-Hlen, take_app_length, Htot, <-Hlen, firstn_all.
  - intros now' d'' Hu.
    destruct (totals_after_line now now' (template_line b id tl) m d' d'' (Queries.with_total upd total
      (budget_row now0 b))) as (total' & -> & Htot'); [..|exact Hu|]; try done.
    + rewrite Hb. apply lookup_insert_eq.
    + simpl. rewrite Hsel. apply Forall_forall. intros r Hr.
      apply list_elem_of_lookup in Hr as [i Hi]. eapply Forall2_lookup_r in Hrows as (t0 & _ & Hs); [|exact Hi].
      eapply dec_numeric_places, sa_amount, Hs.
    + split; [|done|done]. exists now0, now', total', (rows ++ [row]). simpl.
      split; [done|]. split; [by rewrite Hb, insert_insert_eq|]. split; [done|]. split; [done|].
      assert (length (ts ++ [tl]) = length (rows ++ [row])) as ->
        by (rewrite !length_app; simpl; lia).
      rewrite Htot', firstn_all, Hsel, !fmap_app, qsum_app.
      change (qsum (dec_val <$> (lir_BudgetedAmount <$> [row]))) with (dec_val m + 0)%Qc. ring.
Qed.

Lemma filled_loop u b d rest ts (st : St) :
  filled b d ts (length ts) (store_db st) ->
  wp u (forM_ rest (fun t => id ← uuid_new;
          wrap "create template line item %q: %w" (Postgres.CreateLineItem (template_line b id t))))
    (fun r st' => store_events st' = store_events st /\ match r with
       | Ok _ => filled b d (ts ++ rest) (length (ts ++ rest)) (store_db st')
       | Err _ => exists ts' n, ts' `prefix_of` ts ++ rest
                  /\ (n = length ts' \/ S n = length ts') /\ filled b d ts' n (store_db st')
       end) st.
Proof.
  revert ts st. induction rest as [|tl rest IH]; intros ts st Hf.
  { simpl. wp_tac. by rewrite app_nil_r. }
  simpl. wp_tac. apply wp_repo_CreateLineItem.
  - intros err. split; [done|]. exists ts, (length ts). split; [by eexists|]. by split; [left|].
  - intros m now Hm Hk _. destruct (filled_line b d ts (store_db st) now tl (u n) m Hf Hm Hk) as [H1 H2].
    assert (Hpre : (ts ++ tl :: rest) = (ts ++ [tl]) ++ rest) by (by rewrite <-app_assoc).
    split.
    + intros err. split; [done|]. exists (ts ++ [tl]), (length ts).
      split; [rewrite Hpre; by eexists|]. split; [right; rewrite length_app; simpl; lia|done].
    + intros now' d' Hu. apply H2 in Hu. rewrite Hpre. apply (IH (ts ++ [tl]) (mkStore d' _) Hu).
Qed.

(** Alone, whatever calls fail, CreateBudgetFromTemplate either answers an
    error with nothing changed, or succeeds: the budget is new, holds exactly one
    line for each line of the template, with its amount rounded to the column, and
    its total is their exact sum; or it answers an error and leaves the budget
    behind with the lines it had written, a first part of the template's, and a
    total that counts them all or all but the last: nothing undoes them. *)
Theorem template_budget_outcomes (vcfg : Config) (b : Budget.Budget) (name : string) (u : nat -> uuid)
    (w w' : World St) (res : result (error BgErr) Budget.Budget) :
  alone u w -> binv (store_db (w_st w)) ->
  Budget.CreateBudgetFromTemplate vcfg b name w = (res, w') ->
  store_events (w_st w') = store_events (w_st w)
  /\ match res with
     | Ok b' => exists tmpl, FindBudgetTemplate vcfg name = Some tmpl
         /\ b' = with_defaults (b_ID b') b
         /\ filled b' (store_db (w_st w)) (bt_LineItems tmpl) (length (bt_LineItems tmpl))
              (store_db (w_st w'))
     | Err _ => store_db (w_st w') = store_db (w_st w)
         \/ exists tmpl id ts n, FindBudgetTemplate vcfg name = Some tmpl
              /\ ts `prefix_of` bt_LineItems tmpl /\ (n = length ts \/ S n = length ts)
              /\ filled (with_defaults id b) (store_db (w_st w)) ts n (store_db (w_st w'))
     end.
Proof.
  intros Ha Hi Hrun. pattern res, (w_st w').
  refine (proj2 (wp_run u _ _ _ _ _ _ Ha Hrun)). unfold Budget.CreateBudgetFromTemplate.
  destruct (FindBudgetTemplate _ _) as [tmpl|]; [|wp_tac; split; [done|by left]].
  set (P := fun (r : result (error BgErr) Budget.Budget) (s : St) => _ /\ _).
  assert (Hid : forall id, wp u (_ ← wrap "create budget: %w" (Postgres.CreateBudget (with_defaults id b));
    _ ← forM_ (bt_LineItems tmpl) (fun t => id0 ← uuid_new;
          wrap "create template line item %q: %w"
            (Postgres.CreateLineItem (template_line (with_defaults id b) id0 t)));
    mret (with_defaults id b)) P (w_st w)); 
    [|destruct (decide _); apply wp_bind; [apply wp_uuid; intros n|apply wp_ret]; apply Hid].
  intros id. unfold Postgres.CreateBudget. wp_tac. apply wp_with_tx; [by split; [|left]|].
  destruct (Queries.CreateBudget _ _ _ _ _ _ _ _ _) as [[row d]|e] eqn:Hq; [|by split; [|left]].
  assert (row = budget_row t (with_defaults id b)) as ->.
  { revert Hq. unfold Queries.CreateBudget. repeat case_match; by intros [= <- _]. }
  apply filled_new in Hq; [|apply Hi]. simpl. wp_tac.
  eapply wp_mono; [apply (filled_loop u _ _ _ [] (mkStore d _) Hq)|].
  intros [[]|err] st [Hev Hst]; wp_tac; (split; [done|]).
  - by exists tmpl.
  - right. destruct Hst as (ts & n & Hts & Hn & Hf). by exists tmpl, id, ts, n.
Qed.

End calls.

(** ** A concrete service on the reference libraries *)

(** Two categories and two templates: "pilot" has two lines, one with three
    decimals, and "epic" does not fit the total's column.  UUIDs count up from
    100; users 9 and below may do anything. *)
Module BudgetDemo.

#[local] Existing Instance ref_external.

Definition config : Config :=
  mkConfig "film" "Film" "1" "" (mkEntityLabels "" "" "" "" "" "" "" "") []
    [mkBudgetCategory "cast" "Cast" "" "6000"; mkBudgetCategory "sets" "Sets" "" "6100"]
    [mkBudgetTemplate "pilot" "" [mkTemplateLineItem "cast" "leads" "6000" 1500005 true;
                                  mkTemplateLineItem "sets" "studio" "6100" 250000 false];
     mkBudgetTemplate "epic" "" [mkTemplateLineItem "cast" "leads" "6000" 600000000000000 true;
                                 mkTemplateLineItem "sets" "city" "6100" 600000000000000 true]]
    [] (mkApprovalWorkflow [] 0) [] [] (mkCustomFields [] []) [] ∅.

Definition caller (user t : uuid) : Ctx :=
  mkCtx (Some (mkCaller user t 0%N "a@b.co" [] [] "")).
Definition perms : PermissionChecker := fun u _ _ => Ok (bool_decide (u <= 9)%N).
Definition handler : BudgetHandler.Handler :=
  BudgetHandler.mkHandler (Budget.mkService true) (Some perms) false (fun _ => Some config).
Definition env : Env :=
  mkEnv (fun n => 100 + N.of_nat n)%N 0 (fun n => 1700000000 * ns_per_sec + Z.of_nat n) 0
    (fun _ => false) 0 0.
Definition world (s : St) : World St := mkWorld s env (fun _ s => s) [].

(** Runs RPCs one after the other, each for its caller. *)
Fixpoint run (rs : list (Ctx * BudgetHandler.Rpc)) (w : World St) : World St :=
  match rs with
  | [] => w
  | (c, r) :: rs' => run rs' (BudgetHandler.handle handler c r w).2
  end.

Definition manager : Ctx := caller 9 7.
Definition pilot : BudgetHandler.Rpc :=
  BudgetHandler.CreateBudgetFromTemplateRpc (BudgetHandler.mkBudgetReq "1" "Pilot" "") "pilot".

(** Tenant 7 has budget 100 with lines 101 and 102. *)
Definition drafted : World St := run [(manager, pilot)] (world empty_st).
(** The same submitted and approved. *)
Definition approved : World St :=
  run [(manager, BudgetHandler.SubmitBudgetRpc "100"); (manager, BudgetHandler.ApproveBudgetRpc "100")]
    drafted.

(** Another request submits and approves the draft. *)
Definition approve_meanwhile (s : St) : St :=
  match Queries.UpdateBudgetStatus 1 7 100 "submitted" None (store_db s) with
  | Ok (_, d) =>
    match Queries.UpdateBudgetStatus 2 7 100 "approved" (Some uuid_nil) d with
    | Ok (_, d') => mkStore d' (store_events s)
    | Err _ => s
    end
  | Err _ => s
  end.
(** ... between the first call of a request to the database and the second. *)
Definition racing : World St :=
  mkWorld (w_st drafted) env (fun n s => if decide (n = 1%nat) then approve_meanwhile s else s) [].

End BudgetDemo.

Section witnesses.
#[local] Existing Instance ref_external.
Import BudgetDemo.

Lemma demo_rely (w : World St) : (forall n s, w_other w n s = s) -> rely (store_step budget_step) w.
Proof. intros H n s. rewrite H. split; [apply bstep_preorder|done]. Qed.

Lemma demo_run_reachable rs (w : World St) :
  budget_reachable handler (w_st w) -> (forall n s, w_other w n s = s) ->
  budget_reachable handler (w_st (run rs w)) /\ forall n s, w_other (run rs w) n s = s.
Proof.
  revert w. induction rs as [|[c r] rs IH]; intros w Hr Ho; simpl; [done|].
  pose proof (demo_rely w Ho) as HR.
  apply IH; [by apply bg_rpc|].
  destruct (handle_budget_step handler c r w (budget_reachable_inv _ _ Hr) HR) as (_ & Hoth & _).
  intros n s. etrans; [exact (f_equal (fun f => f n s) Hoth)|apply Ho].
Qed.

Lemma pilot_reachable :
  budget_reachable handler (w_st drafted) /\ forall n s, w_other drafted n s = s.
Proof. exact (demo_run_reachable _ (world empty_st) (bg_empty _) (fun n s => eq_refl)). Qed.
Lemma approved_reachable :
  budget_reachable handler (w_st approved) /\ forall n s, w_other approved n s = s.
Proof. exact (demo_run_reachable _ drafted (proj1 pilot_reachable) (proj2 pilot_reachable)). Qed.

Definition approved_row : BudgetRow :=
  mkBudgetRow 100 1 7 "Pilot" "approved" "INR" 1750010 None (Some uuid_nil)
    (Some 1700000000000000005) (Some 1700000000000000006) uuid_nil 1700000000000000000
    1700000000000000006.
Definition drafted_row : BudgetRow :=
  mkBudgetRow 100 1 7 "Pilot" "draft" "INR" 1750010 None None None None uuid_nil
    1700000000000000000 1700000000000000004.
Lemma drafted_row_there : budgets (store_db (w_st drafted)) !! 100%N = Some drafted_row.
Proof. vm_refl. Qed.
Lemma approved_row_there : budgets (store_db (w_st approved)) !! 100%N = Some approved_row.
Proof. vm_refl. Qed.

Lemma budget_total_counts_lines_witness :
  exists counted : list uuid, NoDup counted
    /\ Forall (fun k => exists li, budget_line_items (store_db (w_st approved)) !! k = Some li
                        /\ lir_BudgetID li = 100%N /\ lir_TenantID li = 7%N) counted
    /\ dec_val (br_TotalAmount approved_row)
       = qsum (budgeted_at (budget_line_items (store_db (w_st approved))) <$> counted).
Proof.
  exact (budget_total_counts_lines handler (w_st approved) 100%N approved_row
           (proj1 approved_reachable) approved_row_there).
Defined.

Lemma budget_names_nobody_witness :
  br_Status approved_row = "approved" /\ br_SubmittedBy approved_row = None
  /\ br_ApprovedBy approved_row = Some uuid_nil.
Proof.
  destruct (proj1 (budget_names_nobody handler (w_st approved) (proj1 approved_reachable))
    100%N approved_row approved_row_there) as (_ & _ & H1 & H2 & _).
  split; [reflexivity|]. split; [exact H1|exact H2].
Defined.

(** A caller of tenant 8 names tenant 7's budget. *)
Definition intruder : Ctx := caller 9 8.
Lemma approved_rely_of_7 : rely (store_step (bstep (fun t : uuid => t <> 7%N))) approved.
Proof.
  intros n s. rewrite (proj2 approved_reachable n s). split; [apply bstep_preorder|done].
Qed.
Lemma budget_tenant_isolation_witness :
  tenant_view 7%N (store_db (w_st (BudgetHandler.handle handler intruder
      (BudgetHandler.CreateLineItemRpc (BudgetHandler.mkLineItemReq "100" "cast" "x" "" "5"))
      approved).2))
  = tenant_view 7%N (store_db (w_st approved)).
Proof.
  assert (Hu : forall c, ctx_caller intruder = Some c -> ci_TenantID c <> 7%N)
    by (intros c Hc; injection Hc as <-; discriminate).
  exact (proj1 (budget_tenant_isolation 7%N handler intruder
    (BudgetHandler.CreateLineItemRpc (BudgetHandler.mkLineItemReq "100" "cast" "x" "" "5")) approved _ _ Hu
    (budget_reachable_inv handler _ (proj1 approved_reachable)) approved_rely_of_7
    (surjective_pairing _))).
Defined.

Lemma demo_quiet (s : St) : quiet (world s).
Proof. split; reflexivity. Qed.
Lemma demo_alone (s : St) : alone (env_uuid env) (world s).
Proof. split; reflexivity. Qed.
Lemma budget_moves_refine_spec_witness :
  exists e, (move_call (Budget.mkService true) Approve 7 100 uuid_nil (world (w_st drafted))).1 = Err e
  /\ errors_Is e ErrBudgetNotApproved = true.
Proof.
  pose proof drafted_row_there as Hrow. revert Hrow. generalize (w_st drafted). intros s Hrow.
  pose proof (budget_moves_refine_spec (Budget.mkService true) Approve 7 100 uuid_nil (world s)) as H.
  specialize (H _ _ (demo_quiet _) (surjective_pairing _)). simpl w_st in H.
  rewrite (proj2 (owned_Some br_TenantID 7%N _ 100%N drafted_row) (conj Hrow eq_refl)) in H.
  destruct H as (e & H1 & H2 & _). exists e. split; [exact H1|exact H2].
Defined.

(** A line of 5 on the approved budget: it has room for it. *)
Definition extra : BudgetLineItem :=
  mkLineItem uuid_nil 100 7 "cast" "extras" "" 5000 0 0 false zero_time zero_time.
Definition extra_line : BudgetLineItem :=
  mkLineItem 100 100 7 "cast" "extras" "6000" 5000 0 0 false zero_time zero_time.
Lemma line_item_outcomes_witness :
  exists li total now, (Budget.CreateLineItem config extra (world (w_st approved))).1 = Ok li
  /\ li_AccountCode li = "6000"
  /\ budgets (store_db (w_st (Budget.CreateLineItem config extra (world (w_st approved))).2)) !! 100%N
     = Some (Queries.with_total now total approved_row).
Proof.
  assert (Hli : (Budget.CreateLineItem config extra (world (w_st approved))).1 = Ok extra_line) by vm_refl.
  pose proof (budget_reachable_inv handler _ (proj1 approved_reachable)) as Hi.
  pose proof approved_row_there as Hrow. revert Hli Hi Hrow. generalize (w_st approved). intros s Hli Hi Hrow.
  pose proof (line_item_outcomes config extra approved_row (env_uuid env) (world s)) as H.
  specialize (H _ _ (demo_alone _) Hi (proj2 (owned_Some _ _ _ _ _) (conj Hrow eq_refl))
    (surjective_pairing _)).
  rewrite Hli in H.
  destruct H as (cat & m & now & now' & total & Hc & Hl & _ & _ & Hst & _).
  exists extra_line, total, now'. split; [exact Hli|]. split; [reflexivity|].
  rewrite Hst. apply lookup_insert_eq.
Defined.

Definition pilot_budget : Budget.Budget :=
  BudgetHandler.new_budget 7 1 (BudgetHandler.mkBudgetReq "1" "Pilot" "").
Lemma template_budget_outcomes_witness :
  exists b tmpl, FindBudgetTemplate config "pilot" = Some tmpl
  /\ filled b empty_db (bt_LineItems tmpl) 2
       (store_db (w_st (Budget.CreateBudgetFromTemplate config pilot_budget "pilot" (world empty_st)).2)).
Proof.
  pose proof (template_budget_outcomes config pilot_budget "pilot" (env_uuid env) (world empty_st)) as H.
  specialize (H _ _ (demo_alone _) binv_empty (surjective_pairing _)). destruct H as [_ H].
  assert (Hb : (Budget.CreateBudgetFromTemplate config pilot_budget "pilot" (world empty_st)).1
               = Ok (with_defaults 100%N pilot_budget)) by vm_refl.
  rewrite Hb in H. destruct H as (tmpl & Ht & _ & Hf).
  exists (with_defaults 100%N pilot_budget), tmpl. split; [exact Ht|].
  unfold FindBudgetTemplate in Ht. injection Ht as <-. exact Hf.
Defined.

(** What does not fit the column leaves the budget and both lines behind: the
    total counts the first only. *)
Example epic_left_behind :
  let w' := (Budget.CreateBudgetFromTemplate config pilot_budget "epic" (world empty_st)).2 in
  (Budget.CreateBudgetFromTemplate config pilot_budget "epic" (world empty_st)).1
    = Err (EWrap "create template line item %q: %w"
             (EWrap "budget: update budget totals: %w" (EText "constraint violation")))
  /\ size (budget_line_items (store_db (w_st w'))) = 2%nat
  /\ br_TotalAmount <$> (budgets (store_db (w_st w')) !! 100%N) = Some 600000000000000.
Proof. split; [vm_refl|]. split; vm_refl. Qed.

Definition drafted_row_submitted : BudgetRow := Queries.with_status 1 "submitted" None drafted_row.
Lemma unapproving_rely : rely (store_step budget_step) racing.
Proof.
  intros n s. simpl. case_decide; [|split; [apply bstep_preorder|done]].
  unfold approve_meanwhile.
  destruct (Queries.UpdateBudgetStatus 1 7 100 "submitted" None (store_db s)) as [[r1 d]|] eqn:H1;
    [|split; [apply bstep_preorder|done]].
  destruct (Queries.UpdateBudgetStatus 2 7 100 "approved" (Some uuid_nil) d) as [[r2 d']|] eqn:H2;
    [|split; [apply bstep_preorder|done]].
  split; [|done]. simpl. transitivity d; [by eapply (UpdateBudgetStatus_submit _ 1 7%N)|].
  eapply (UpdateBudgetStatus_approve _ 2 7%N); [done| |exact H2]. intros r Hr _.
  apply UpdateBudgetStatus_Ok in H1 as [Hd (r0 & _ & _ & ->)]. rewrite Hd in Hr.
  injection Hr as <-. by eexists.
Qed.

(** Two submissions of one draft can take its approval back.  The state
    machine is checked on what was read and the UPDATE names no status: in this
    reachable state, while SubmitBudget runs, another request submits and approves
    the budget between its read and its write; SubmitBudget then answers
    success, and the approved budget is only submitted again, with its approval
    still recorded. *)
Theorem approval_can_be_undone :
  exists (w : World St) (r r' : BudgetRow),
    budget_reachable handler (w_st w) /\ rely (store_step budget_step) w
    /\ budgets (store_db (w_other w 1%nat (w_st w))) !! 100%N = Some r
    /\ br_Status r = "approved"
    /\ (BudgetHandler.handle handler manager (BudgetHandler.SubmitBudgetRpc "100") w).1
       = Ok (BudgetHandler.BudgetResp (BudgetHandler.budgetToProto (Postgres.budgetFromDB r')))
    /\ budgets (store_db (w_st (BudgetHandler.handle handler manager
                                  (BudgetHandler.SubmitBudgetRpc "100") w).2)) !! 100%N = Some r'
    /\ br_Status r' = "submitted" /\ br_ApprovedAt r' = br_ApprovedAt r.
Proof.
  exists racing, (Queries.with_status 2 "approved" (Some uuid_nil) drafted_row_submitted),
    (Queries.with_status 1700000000000000000 "submitted" None
       (Queries.with_status 2 "approved" (Some uuid_nil) drafted_row_submitted)).
  split; [exact (proj1 pilot_reachable)|]. split; [exact unapproving_rely|].
  split; [vm_refl|]. split; [reflexivity|]. split; [vm_refl|]. split; [vm_refl|]. by split.
Qed.

End witnesses.
