(* ===== verification/Project.v ===== *)
(** Project management (services/project): the records of models.go, the tables
    of migrations/project with the statements of db/queries.sql.go, the repository
    of db/postgres.go in the module [Postgres], and the service of service.go. *)

From S2P Require Export Vertical Store.
Local Open Scope Z_scope.

(** ** Errors (errors.go) *)

(** The last is [vertical.ErrNotFound], which [grpcErr] also tests for. *)
Inductive PjErr :=
| ErrProductionNotFound | ErrPhaseNotFound | ErrCrewNotFound | ErrInvalidPhaseType
| ErrInvalidTransition | ErrProductionArchived | ErrDuplicateSlug | ErrVerticalNotFound.

#[export] Instance PjErr_eq_dec : EqDecision PjErr.
Proof. solve_decision. Defined.

Definition PjErr_text (e : PjErr) : string :=
  match e with
  | ErrProductionNotFound => "project: production not found"
  | ErrPhaseNotFound => "project: phase not found"
  | ErrCrewNotFound => "project: crew member not found"
  | ErrInvalidPhaseType => "project: invalid phase type for this vertical"
  | ErrInvalidTransition => "project: phase transition not allowed"
  | ErrProductionArchived => "project: production is archived"
  | ErrDuplicateSlug => "project: production slug already exists"
  | ErrVerticalNotFound => "vertical: config not found"
  end.

(** ** Records (models.go) *)

Section model.
Context {X : External} {D : Dates}.

Record Production := mkProduction {
  p_ID : uuid;
  p_TenantID : uuid;
  p_Title : string;
  p_Slug : string;
  p_Description : string;
  p_Genre : string;
  p_Language : string;
  p_Status : string;
  p_StartDate : option string;
  p_EndDate : option string;
  p_CreatedBy : uuid;
  p_CreatedAt : Time;
  p_UpdatedAt : Time;
}.

Record Phase := mkPhase {
  ph_ID : uuid;
  ph_ProductionID : uuid;
  ph_TenantID : uuid;
  ph_PhaseType : string;
  ph_Status : string;
  ph_StartDate : option string;
  ph_EndDate : option string;
  ph_CreatedAt : Time;
  ph_UpdatedAt : Time;
}.

Record CrewMember := mkCrewMember {
  c_ID : uuid;
  c_ProductionID : uuid;
  c_TenantID : uuid;
  c_UserID : option uuid;
  c_Name : string;
  c_Role : string;
  c_Department : string;
  c_DayRate : Dec;
  c_Currency : string;
  c_StartDate : option string;
  c_EndDate : option string;
  c_CreatedAt : Time;
}.

(** What the publisher is called with. *)
Inductive Event := ProductionCreated (p : Production) | CrewMemberAdded (c : CrewMember).

(** ** Tables (db/models.go): a nullable column is an option *)

Record ProductionRow := mkProductionRow {
  pr_ID : uuid;
  pr_TenantID : uuid;
  pr_Title : string;
  pr_Slug : string;
  pr_Description : option string;
  pr_Genre : option string;
  pr_Language : option string;
  pr_Status : string;
  pr_StartDate : option Date;
  pr_EndDate : option Date;
  pr_CreatedBy : uuid;
  pr_CreatedAt : Time;
  pr_UpdatedAt : Time;
}.

Record PhaseRow := mkPhaseRow {
  phr_ID : uuid;
  phr_ProductionID : uuid;
  phr_TenantID : uuid;
  phr_PhaseType : string;
  phr_Status : string;
  phr_StartDate : option Date;
  phr_EndDate : option Date;
  phr_CreatedAt : Time;
  phr_UpdatedAt : Time;
}.

Record CrewRow := mkCrewRow {
  cr_ID : uuid;
  cr_ProductionID : uuid;
  cr_TenantID : uuid;
  cr_UserID : option uuid;
  cr_Name : string;
  cr_Role : string;
  cr_Department : option string;
  cr_DayRate : option Dec;
  cr_Currency : option string;
  cr_StartDate : option Date;
  cr_EndDate : option Date;
  cr_CreatedAt : Time;
}.

Record DB := mkDB {
  productions : gmap uuid ProductionRow;
  phases : gmap uuid PhaseRow;
  crew_members : gmap uuid CrewRow;
}.
Definition empty_db : DB := mkDB ∅ ∅ ∅.
Definition set_productions (t : gmap uuid ProductionRow) (d : DB) : DB :=
  mkDB t (phases d) (crew_members d).
Definition set_phases (t : gmap uuid PhaseRow) (d : DB) : DB := mkDB (productions d) t (crew_members d).
Definition set_crew (t : gmap uuid CrewRow) (d : DB) : DB := mkDB (productions d) (phases d) t.
Definition empty_st : Store DB Event := mkStore empty_db [].

End model.

Abbreviation St := (Store DB Event) (only parsing).

(** ** Statements (db/queries.sql.go) *)

Module Queries.
Section queries.
Context {X : External} {D : Dates}.

Definition production_status_ok (status : string) : bool :=
  bool_decide (status ∈ ["development"; "pre_production"; "production"; "post_production";
                         "released"; "archived"]).
Definition phase_status_ok (status : string) : bool :=
  bool_decide (status ∈ ["pending"; "active"; "completed"]).

Definition of_tenant (tenantID : uuid) (r : ProductionRow) : bool :=
  bool_decide (pr_TenantID r = tenantID).

(** UNIQUE (tenant_id, slug) *)
Definition slug_taken (tenantID : uuid) (slug : string) (d : DB) : bool :=
  exists_row (fun r => of_tenant tenantID r && bool_decide (pr_Slug r = slug)) (productions d).

(** ON CONFLICT (id) DO NOTHING RETURNING: no row when the id is taken. *)
Definition CreateProduction (now : Time) (id tenantID : uuid) (title slug : string)
    (description genre language : option string) (status : string) (start end_ : option Date)
    (createdBy : uuid) (d : DB) : result pg_error (ProductionRow * DB) :=
  if negb (production_status_ok status) then Err PgConstraint
  else if bool_decide (is_Some (productions d !! id)) then Err PgNoRows
  else if slug_taken tenantID slug d then Err PgUniqueViolation
  else let r := mkProductionRow id tenantID title slug description genre language status start end_
                  createdBy now now in
       Ok (r, set_productions (<[id := r]> (productions d)) d).

Definition GetProduction (tenantID id : uuid) (d : DB) : result pg_error ProductionRow :=
  get_row (productions d) id (of_tenant tenantID).

(** [$2 = '' OR status = $2], [ORDER BY created_at DESC] *)
Definition production_listed (tenantID : uuid) (status : string) (r : ProductionRow) : bool :=
  of_tenant tenantID r && (bool_decide (status = "") || bool_decide (pr_Status r = status)).
Definition ListProductions (tenantID : uuid) (status : string) (limit offset : Z) (d : DB) :
    result pg_error (list ProductionRow) :=
  Ok (limit_offset limit offset
        (order_by (fun a b => bool_decide (pr_CreatedAt b <= pr_CreatedAt a))
           (select (production_listed tenantID status) (productions d)))).

(** [COALESCE(NULLIF($n, ''), column)] *)
Definition or_column (arg column : string) : string := if decide (arg = "") then column else arg.
Definition or_nullable (arg : string) (column : option string) : option string :=
  if decide (arg = "") then column else Some arg.
Definition updated_production (now : Time) (title : string) (description : option string)
    (genre status : string) (start end_ : option Date) (r : ProductionRow) : ProductionRow :=
  mkProductionRow (pr_ID r) (pr_TenantID r) (or_column title (pr_Title r)) (pr_Slug r) description
    (or_nullable genre (pr_Genre r)) (pr_Language r) (or_column status (pr_Status r)) start end_
    (pr_CreatedBy r) (pr_CreatedAt r) now.
Definition UpdateProduction (now : Time) (tenantID id : uuid) (title : string)
    (description : option string) (genre status : string) (start end_ : option Date) (d : DB) :
    result pg_error (ProductionRow * DB) :=
  match GetProduction tenantID id d with
  | Err e => Err e
  | Ok r =>
    let r' := updated_production now title description genre status start end_ r in
    if negb (production_status_ok (pr_Status r')) then Err PgConstraint
    else Ok (r', set_productions (<[id := r']> (productions d)) d)
  end.

Definition archived_production (now : Time) (r : ProductionRow) : ProductionRow :=
  mkProductionRow (pr_ID r) (pr_TenantID r) (pr_Title r) (pr_Slug r) (pr_Description r) (pr_Genre r)
    (pr_Language r) "archived" (pr_StartDate r) (pr_EndDate r) (pr_CreatedBy r) (pr_CreatedAt r) now.
Definition ArchiveProduction (now : Time) (tenantID id : uuid) (d : DB) :
    result pg_error (ProductionRow * DB) :=
  match GetProduction tenantID id d with
  | Err e => Err e
  | Ok r => let r' := archived_production now r in
            Ok (r', set_productions (<[id := r']> (productions d)) d)
  end.

(** production_id REFERENCES productions(id), of any tenant; a taken id is a
    unique violation. *)
Definition CreatePhase (now : Time) (id productionID tenantID : uuid) (phaseType status : string)
    (start end_ : option Date) (d : DB) : result pg_error (PhaseRow * DB) :=
  if negb (phase_status_ok status) then Err PgConstraint
  else if bool_decide (is_Some (phases d !! id)) then Err PgUniqueViolation
  else if negb (bool_decide (is_Some (productions d !! productionID))) then Err PgConstraint
  else let r := mkPhaseRow id productionID tenantID phaseType status start end_ now now in
       Ok (r, set_phases (<[id := r]> (phases d)) d).

Definition phase_of_tenant (tenantID : uuid) (r : PhaseRow) : bool :=
  bool_decide (phr_TenantID r = tenantID).
Definition GetPhase (tenantID id : uuid) (d : DB) : result pg_error PhaseRow :=
  get_row (phases d) id (phase_of_tenant tenantID).
(** [ORDER BY created_at ASC] *)
Definition ListPhases (productionID tenantID : uuid) (limit offset : Z) (d : DB) :
    result pg_error (list PhaseRow) :=
  Ok (limit_offset limit offset
        (order_by (fun a b => bool_decide (phr_CreatedAt a <= phr_CreatedAt b))
           (select (fun r => bool_decide (phr_ProductionID r = productionID) && phase_of_tenant tenantID r)
              (phases d)))).

Definition with_phase_status (now : Time) (status : string) (r : PhaseRow) : PhaseRow :=
  mkPhaseRow (phr_ID r) (phr_ProductionID r) (phr_TenantID r) (phr_PhaseType r) status
    (phr_StartDate r) (phr_EndDate r) (phr_CreatedAt r) now.
Definition UpdatePhaseStatus (now : Time) (tenantID id : uuid) (status : string) (d : DB) :
    result pg_error (PhaseRow * DB) :=
  match GetPhase tenantID id d with
  | Err e => Err e
  | Ok r => if negb (phase_status_ok status) then Err PgConstraint
            else let r' := with_phase_status now status r in
                 Ok (r', set_phases (<[id := r']> (phases d)) d)
  end.

(** day_rate is NUMERIC(14,2). *)
Definition AddCrewMember (now : Time) (id productionID tenantID : uuid) (userID : option uuid)
    (name role : string) (department : option string) (dayRate : Dec) (currency : option string)
    (start end_ : option Date) (d : DB) : result pg_error (CrewRow * DB) :=
  match dec_numeric_14_2 dayRate with
  | None => Err PgConstraint
  | Some rate =>
    if bool_decide (is_Some (crew_members d !! id)) then Err PgNoRows
    else if negb (bool_decide (is_Some (productions d !! productionID))) then Err PgConstraint
    else let r := mkCrewRow id productionID tenantID userID name role department (Some rate) currency
                    start end_ now in
         Ok (r, set_crew (<[id := r]> (crew_members d)) d)
  end.

Definition crew_of_tenant (tenantID : uuid) (r : CrewRow) : bool :=
  bool_decide (cr_TenantID r = tenantID).
(** [ORDER BY name ASC] *)
Definition ListCrewMembers (productionID tenantID : uuid) (limit offset : Z) (d : DB) :
    result pg_error (list CrewRow) :=
  Ok (limit_offset limit offset
        (order_by (fun a b => text_le (cr_Name a) (cr_Name b))
           (select (fun r => bool_decide (cr_ProductionID r = productionID) && crew_of_tenant tenantID r)
              (crew_members d)))).

(** Nothing calls it: the repository deletes with a statement of its own. *)
Definition RemoveCrewMember (tenantID id : uuid) (d : DB) : result pg_error (unit * DB) :=
  match get_row (crew_members d) id (crew_of_tenant tenantID) with
  | Err _ => Ok (tt, d)
  | Ok _ => Ok (tt, set_crew (delete id (crew_members d)) d)
  end.

End queries.
End Queries.

(** ** Repository (db/postgres.go) *)

Module Postgres.
Section repository.
Context {X : External} {D : Dates}.

Abbreviation Op := (M St (error PjErr)) (only parsing).

Definition pgTextFromStr (s : string) : option string := Some s.
Definition strFromPgText (t : option string) : string := match t with Some s => s | None => "" end.
Definition pgDateFromPtr (s : option string) : option Date :=
  match s with None => None | Some s => if decide (s = "") then None else date_scan s end.
Definition ptrFromPgDate (d : option Date) : option string := date_format <$> d.
Definition decimalFromPgNumeric (n : option Dec) : Dec :=
  match n with Some d => d | None => dec_zero end.

Definition productionFromDB (r : ProductionRow) : Production :=
  mkProduction (pr_ID r) (pr_TenantID r) (pr_Title r) (pr_Slug r) (strFromPgText (pr_Description r))
    (strFromPgText (pr_Genre r)) (strFromPgText (pr_Language r)) (pr_Status r)
    (ptrFromPgDate (pr_StartDate r)) (ptrFromPgDate (pr_EndDate r)) (pr_CreatedBy r) (pr_CreatedAt r)
    (pr_UpdatedAt r).
Definition phaseFromDB (r : PhaseRow) : Phase :=
  mkPhase (phr_ID r) (phr_ProductionID r) (phr_TenantID r) (phr_PhaseType r) (phr_Status r)
    (ptrFromPgDate (phr_StartDate r)) (ptrFromPgDate (phr_EndDate r)) (phr_CreatedAt r)
    (phr_UpdatedAt r).
Definition crewFromDB (r : CrewRow) : CrewMember :=
  mkCrewMember (cr_ID r) (cr_ProductionID r) (cr_TenantID r) (cr_UserID r) (cr_Name r) (cr_Role r)
    (strFromPgText (cr_Department r)) (decimalFromPgNumeric (cr_DayRate r))
    (strFromPgText (cr_Currency r)) (ptrFromPgDate (cr_StartDate r)) (ptrFromPgDate (cr_EndDate r))
    (cr_CreatedAt r).

Definition CreateProduction (p : Production) : Op unit :=
  now ← time_now;
  _ ← map_err (fun e => if isUniqueViolation e then ESent ErrDuplicateSlug
                        else pg_wrap "project: create production: %w" e)
        (q_exec (Queries.CreateProduction now (p_ID p) (p_TenantID p) (p_Title p) (p_Slug p)
                   (pgTextFromStr (p_Description p)) (pgTextFromStr (p_Genre p))
                   (pgTextFromStr (p_Language p)) (p_Status p) (pgDateFromPtr (p_StartDate p))
                   (pgDateFromPtr (p_EndDate p)) (p_CreatedBy p)));
  mret tt.

Definition GetProduction (tenantID id : uuid) : Op Production :=
  r ← map_err (no_rows_as ErrProductionNotFound "project: get production: %w")
        (q_query (Queries.GetProduction tenantID id));
  mret (productionFromDB r).

Definition ListProductions (tenantID : uuid) (status : string) (limit offset : Z) :
    Op (list Production) :=
  l ← map_err (pg_wrap "project: list productions: %w")
        (q_query (Queries.ListProductions tenantID status limit offset));
  mret (productionFromDB <$> l).

Definition UpdateProduction (p : Production) : Op unit :=
  now ← time_now;
  _ ← map_err (no_rows_as ErrProductionNotFound "project: update production: %w")
        (q_exec (Queries.UpdateProduction now (p_TenantID p) (p_ID p) (p_Title p)
                   (pgTextFromStr (p_Description p)) (p_Genre p) (p_Status p)
                   (pgDateFromPtr (p_StartDate p)) (pgDateFromPtr (p_EndDate p))));
  mret tt.

Definition ArchiveProduction (tenantID id : uuid) : Op unit :=
  now ← time_now;
  _ ← map_err (no_rows_as ErrProductionNotFound "project: archive production: %w")
        (q_exec (Queries.ArchiveProduction now tenantID id));
  mret tt.

Definition CreatePhase (p : Phase) : Op unit :=
  now ← time_now;
  _ ← map_err (pg_wrap "project: create phase: %w")
        (q_exec (Queries.CreatePhase now (ph_ID p) (ph_ProductionID p) (ph_TenantID p)
                   (ph_PhaseType p) (ph_Status p) (pgDateFromPtr (ph_StartDate p))
                   (pgDateFromPtr (ph_EndDate p))));
  mret tt.

Definition GetPhase (tenantID id : uuid) : Op Phase :=
  r ← map_err (no_rows_as ErrPhaseNotFound "project: get phase: %w")
        (q_query (Queries.GetPhase tenantID id));
  mret (phaseFromDB r).

Definition ListPhases (tenantID productionID : uuid) (limit offset : Z) : Op (list Phase) :=
  l ← map_err (pg_wrap "project: list phases: %w")
        (q_query (Queries.ListPhases productionID tenantID limit offset));
  mret (phaseFromDB <$> l).

Definition UpdatePhaseStatus (tenantID id : uuid) (status : string) : Op unit :=
  now ← time_now;
  _ ← map_err (no_rows_as ErrPhaseNotFound "project: update phase status: %w")
        (q_exec (Queries.UpdatePhaseStatus now tenantID id status));
  mret tt.

Definition AddCrewMember (c : CrewMember) : Op unit :=
  now ← time_now;
  _ ← map_err (pg_wrap "project: add crew member: %w")
        (q_exec (Queries.AddCrewMember now (c_ID c) (c_ProductionID c) (c_TenantID c) (c_UserID c)
                   (c_Name c) (c_Role c) (pgTextFromStr (c_Department c)) (c_DayRate c)
                   (pgTextFromStr (c_Currency c)) (pgDateFromPtr (c_StartDate c))
                   (pgDateFromPtr (c_EndDate c))));
  mret tt.

Definition ListCrewMembers (tenantID productionID : uuid) (limit offset : Z) : Op (list CrewMember) :=
  l ← map_err (pg_wrap "project: list crew members: %w")
        (q_query (Queries.ListCrewMembers productionID tenantID limit offset));
  mret (crewFromDB <$> l).

(** The DELETE, with the number of rows it affected. *)
Definition delete_crew_member (tenantID id : uuid) (d : DB) : result pg_error (Z * DB) :=
  match get_row (crew_members d) id (Queries.crew_of_tenant tenantID) with
  | Err _ => Ok (0, d)
  | Ok _ => Ok (1, set_crew (delete id (crew_members d)) d)
  end.
Definition RemoveCrewMember (tenantID id : uuid) : Op unit :=
  n ← map_err (pg_wrap "project: remove crew member: %w") (q_exec (delete_crew_member tenantID id));
  if decide (n = 0) then mthrow (ESent ErrCrewNotFound) else mret tt.

End repository.
End Postgres.

(** ** Service (service.go) *)

Section service.
Context {X : External} {D : Dates}.

(** The service: whether an event publisher is configured. *)
Record Service := mkService { s_publisher : bool }.

Abbreviation Op := (M St (error PjErr)) (only parsing).

Variable s : Service.
Implicit Types (vcfg : Config).

Definition publish (ev : Event) : Op unit := emit (s_publisher s) ev.

Definition with_production_id (id : uuid) (p : Production) : Production :=
  mkProduction id (p_TenantID p) (p_Title p) (p_Slug p) (p_Description p) (p_Genre p) (p_Language p)
    (p_Status p) (p_StartDate p) (p_EndDate p) (p_CreatedBy p) (p_CreatedAt p) (p_UpdatedAt p).
(** Returns the production it was given, with its id; so do the other calls that
    create a record. *)
Definition CreateProduction (p : Production) : Op Production :=
  id ← id_or_new (p_ID p);
  let p := with_production_id id p in
  _ ← Postgres.CreateProduction p;
  _ ← publish (ProductionCreated p);
  mret p.

Definition GetProduction (tenantID id : uuid) : Op Production := Postgres.GetProduction tenantID id.

Definition ListProductions (tenantID : uuid) (status : string) (limit offset : Z) :
    Op (list Production) :=
  let limit := if bool_decide (limit <= 0) || bool_decide (100 < limit) then 20 else limit in
  Postgres.ListProductions tenantID status limit offset.

Definition with_phase_id (id : uuid) (p : Phase) : Phase :=
  mkPhase id (ph_ProductionID p) (ph_TenantID p) (ph_PhaseType p) (ph_Status p) (ph_StartDate p)
    (ph_EndDate p) (ph_CreatedAt p) (ph_UpdatedAt p).
Definition CreatePhase vcfg (p : Phase) : Op Phase :=
  match FindPhaseType vcfg (ph_PhaseType p) with
  | None => mthrow (EWrap "%w: %q is not valid for vertical %s" (ESent ErrInvalidPhaseType))
  | Some _ =>
    id ← id_or_new (ph_ID p);
    let p := with_phase_id id p in
    _ ← Postgres.CreatePhase p;
    mret p
  end.

Definition GetPhase (tenantID id : uuid) : Op Phase := Postgres.GetPhase tenantID id.

Definition ListPhases (tenantID productionID : uuid) (limit offset : Z) : Op (list Phase) :=
  Postgres.ListPhases tenantID productionID limit offset.

(** The checks of a transition, in the code's order. *)
Definition check_transition vcfg (current target : string) : result (error PjErr) unit :=
  match FindPhaseType vcfg current with
  | None => Err (EWrap "%w: current phase type %q not found" (ESent ErrInvalidPhaseType))
  | Some currentPT =>
    if negb (CanTransitionTo currentPT target)
    then Err (EWrap "%w: cannot transition from %q to %q" (ESent ErrInvalidTransition))
    else match FindPhaseType vcfg target with
         | None => Err (EWrap "%w: target %q is not valid" (ESent ErrInvalidPhaseType))
         | Some _ => Ok tt
         end
  end.
(** The new phase type is stored as the status. *)
Definition UpdatePhaseStatus vcfg (tenantID phaseID : uuid) (newPhaseType : string) : Op unit :=
  phase ← wrap "get phase: %w" (Postgres.GetPhase tenantID phaseID);
  _ ← lift_result (check_transition vcfg (ph_PhaseType phase) newPhaseType);
  Postgres.UpdatePhaseStatus tenantID phaseID newPhaseType.

Definition GetEntityLabels vcfg : EntityLabels := cfg_EntityLabels vcfg.
Definition GetPhaseTypes vcfg : list PhaseType := cfg_PhaseTypes vcfg.

Definition UpdateProduction (p : Production) : Op unit := Postgres.UpdateProduction p.
Definition ArchiveProduction (tenantID id : uuid) : Op unit := Postgres.ArchiveProduction tenantID id.

Definition with_crew_id (id : uuid) (c : CrewMember) : CrewMember :=
  mkCrewMember id (c_ProductionID c) (c_TenantID c) (c_UserID c) (c_Name c) (c_Role c)
    (c_Department c) (c_DayRate c) (c_Currency c) (c_StartDate c) (c_EndDate c) (c_CreatedAt c).
Definition AddCrewMember (c : CrewMember) : Op CrewMember :=
  id ← id_or_new (c_ID c);
  let c := with_crew_id id c in
  _ ← Postgres.AddCrewMember c;
  _ ← publish (CrewMemberAdded c);
  mret c.

Definition ListCrewMembers (tenantID productionID : uuid) (limit offset : Z) : Op (list CrewMember) :=
  let limit := if bool_decide (limit <= 0) || bool_decide (200 < limit) then 50 else limit in
  Postgres.ListCrewMembers tenantID productionID limit offset.

Definition RemoveCrewMember (tenantID id : uuid) : Op unit := Postgres.RemoveCrewMember tenantID id.

End service.
