(* ===== verification/ProjectHandler.v ===== *)
(** Project management: the gRPC handlers of services/project/handler.go behind
    the vertical interceptor.  A handler takes the tenant from the context, checks
    its permission, parses the request, calls the service and renders the record
    it reads back.  The creator it passes is the nil UUID. *)

From S2P Require Export Project.
Local Open Scope Z_scope.

(** ** Messages *)

Record PbProduction := mkPbProduction {
  pbp_Id : string; pbp_TenantId : string; pbp_Title : string; pbp_Slug : string;
  pbp_Description : string; pbp_Genre : string; pbp_Language : string; pbp_Status : string;
  pbp_CreatedBy : string; pbp_CreatedAt : Time; pbp_UpdatedAt : Time; pbp_StartDate : string;
  pbp_EndDate : string;
}.
Record PbPhase := mkPbPhase {
  pbph_Id : string; pbph_ProductionId : string; pbph_PhaseType : string; pbph_Status : string;
  pbph_StartDate : string; pbph_EndDate : string;
}.
Record PbCrewMember := mkPbCrewMember {
  pbc_Id : string; pbc_ProductionId : string; pbc_Name : string; pbc_Role : string;
  pbc_Department : string; pbc_DayRate : string; pbc_Currency : string; pbc_UserId : string;
}.
Record PhaseTypeInfo := mkPhaseTypeInfo {
  pti_Id : string; pti_Label : string; pti_Order : Z; pti_IsBillable : bool;
  pti_AllowedTransitions : list string }.

Record ProductionReq := mkProductionReq {
  rp_Title : string; rp_Description : string; rp_Genre : string }.
Record CrewReq := mkCrewReq {
  rc_ProductionId : string; rc_Name : string; rc_Role : string; rc_Department : string;
  rc_DayRate : string }.

(** The RPCs of ProjectService. *)
Inductive Rpc :=
| CreateProductionRpc (r : ProductionReq)
| GetProductionRpc (id : string)
| ListProductionsRpc (status : string) (limit : Z)
| UpdateProductionRpc (id title description : string)
| ArchiveProductionRpc (id : string)
| CreatePhaseRpc (production phaseType : string)
| ListPhasesRpc (production : string)
| UpdatePhaseStatusRpc (phase newPhaseType : string)
| AddCrewMemberRpc (r : CrewReq)
| ListCrewMembersRpc (production : string)
| RemoveCrewMemberRpc (id : string)
| GetEntityLabelsRpc
| GetPhaseTypesRpc.

Inductive Response :=
| ProductionResp (p : PbProduction)
| ProductionsResp (l : list PbProduction)
| PhaseResp (p : PbPhase)
| PhasesResp (l : list PbPhase)
| CrewResp (c : PbCrewMember)
| CrewsResp (l : list PbCrewMember)
| RemovedResp
| LabelsResp (l : EntityLabels)
| PhaseTypesResp (l : list PhaseTypeInfo).

(** [grpcErr]: the first case of its switch that [errors.Is] accepts. *)
Definition grpcErr (e : error PjErr) : status :=
  let isE s := errors_Is e s in
  if isE ErrProductionNotFound then mkStatus NotFound "production not found"
  else if isE ErrPhaseNotFound then mkStatus NotFound "phase not found"
  else if isE ErrCrewNotFound then mkStatus NotFound "crew member not found"
  else if isE ErrDuplicateSlug
  then mkStatus AlreadyExists "production with this slug already exists"
  else if isE ErrInvalidPhaseType
  then mkStatus InvalidArgument "invalid phase type for this vertical"
  else if isE ErrInvalidTransition
  then mkStatus FailedPrecondition "phase transition not allowed"
  else if isE ErrProductionArchived then mkStatus FailedPrecondition "production is archived"
  else if isE ErrVerticalNotFound
  then mkStatus FailedPrecondition "vertical config not found for tenant"
  else mkStatus Internal "internal error".

Section handler.
Context {X : External} {D : Dates}.

(** The handler's collaborators: the service, the permission checker, the
    project-scoped RBAC flag, and the vertical loader of the interceptor,
    whose answers are fixed as long as the handler is. *)
Record Handler := mkHandler {
  h_svc : Project.Service;
  h_perm : option PermissionChecker;
  h_scoped : bool;
  h_loader : uuid -> option Config;
}.

Abbreviation Op := (M St status) (only parsing).

Variable h : Handler.
Variable ctx : Ctx.
(** The configuration the interceptor stored. *)
Variable vcfg : option Config.

Definition svc {A} (m : M St (error PjErr) A) : Op A := map_err grpcErr m.
Definition require (perm : string) : result status unit :=
  RequirePermission (h_scoped h) (h_perm h) ctx perm.

(** ** Rendering *)

Definition date_text (d : option string) : string := match d with Some s => s | None => "" end.

Definition productionToProto (p : Production) : PbProduction :=
  mkPbProduction (uuid_string (p_ID p)) (uuid_string (p_TenantID p)) (p_Title p) (p_Slug p)
    (p_Description p) (p_Genre p) (p_Language p) (p_Status p) (uuid_string (p_CreatedBy p))
    (p_CreatedAt p) (p_UpdatedAt p) (date_text (p_StartDate p)) (date_text (p_EndDate p)).
Definition phaseToProto (p : Phase) : PbPhase :=
  mkPbPhase (uuid_string (ph_ID p)) (uuid_string (ph_ProductionID p)) (ph_PhaseType p) (ph_Status p)
    (date_text (ph_StartDate p)) (date_text (ph_EndDate p)).
Definition crewToProto (c : CrewMember) : PbCrewMember :=
  mkPbCrewMember (uuid_string (c_ID c)) (uuid_string (c_ProductionID c)) (c_Name c) (c_Role c)
    (c_Department c) (dec_string_fixed2 (c_DayRate c)) (c_Currency c)
    (match c_UserID c with Some u => uuid_string u | None => "" end).

(** ** Productions *)

(** The slug is the title as it is. *)
Definition new_production (tenantID : uuid) (r : ProductionReq) : Production :=
  mkProduction uuid_nil tenantID (rp_Title r) (rp_Title r) (rp_Description r) (rp_Genre r) ""
    "development" None None uuid_nil zero_time zero_time.
Definition CreateProduction (r : ProductionReq) : Op Response :=
  tenantID ← lift_result (tenantFromContext ctx);
  _ ← lift_result (require "production:write");
  p ← svc (Project.CreateProduction (h_svc h) (new_production tenantID r));
  out ← svc (Project.GetProduction tenantID (p_ID p));
  mret (ProductionResp (productionToProto out)).

Definition GetProduction (id : string) : Op Response :=
  tenantID ← lift_result (tenantFromContext ctx);
  _ ← lift_result (require "production:read");
  productionID ← lift_result (parse_id id "invalid production ID");
  p ← svc (Project.GetProduction tenantID productionID);
  mret (ProductionResp (productionToProto p)).

Definition ListProductions (status : string) (limit : Z) : Op Response :=
  tenantID ← lift_result (tenantFromContext ctx);
  _ ← lift_result (require "production:read");
  let limit := if bool_decide (limit <= 0) || bool_decide (100 < limit) then 20 else limit in
  l ← svc (Project.ListProductions tenantID status limit 0);
  mret (ProductionsResp (productionToProto <$> l)).

(** Everything but the id, the tenant, the title and the description is left empty. *)
Definition production_update (tenantID id : uuid) (title description : string) : Production :=
  mkProduction id tenantID title "" description "" "" "" None None uuid_nil zero_time zero_time.
Definition UpdateProduction (id title description : string) : Op Response :=
  tenantID ← lift_result (tenantFromContext ctx);
  _ ← lift_result (require "production:write");
  productionID ← lift_result (parse_id id "invalid production ID");
  _ ← svc (Project.UpdateProduction (production_update tenantID productionID title description));
  p ← svc (Project.GetProduction tenantID productionID);
  mret (ProductionResp (productionToProto p)).

Definition ArchiveProduction (id : string) : Op Response :=
  tenantID ← lift_result (tenantFromContext ctx);
  _ ← lift_result (require "production:write");
  productionID ← lift_result (parse_id id "invalid production ID");
  _ ← svc (Project.ArchiveProduction tenantID productionID);
  p ← svc (Project.GetProduction tenantID productionID);
  mret (ProductionResp (productionToProto p)).

(** ** Phases *)

Definition new_phase (tenantID productionID : uuid) (phaseType : string) : Phase :=
  mkPhase uuid_nil productionID tenantID phaseType "pending" None None zero_time zero_time.
Definition CreatePhase (production phaseType : string) : Op Response :=
  tenantID ← lift_result (tenantFromContext ctx);
  _ ← lift_result (require "production:write");
  productionID ← lift_result (parse_id production "invalid production ID");
  cfg ← lift_result (MustFromContext vcfg);
  p ← svc (Project.CreatePhase cfg (new_phase tenantID productionID phaseType));
  created ← svc (Project.GetPhase tenantID (ph_ID p));
  mret (PhaseResp (phaseToProto created)).

Definition ListPhases (production : string) : Op Response :=
  tenantID ← lift_result (tenantFromContext ctx);
  _ ← lift_result (require "production:read");
  productionID ← lift_result (parse_id production "invalid production ID");
  l ← svc (Project.ListPhases tenantID productionID 50 0);
  mret (PhasesResp (phaseToProto <$> l)).

Definition UpdatePhaseStatus (phase newPhaseType : string) : Op Response :=
  tenantID ← lift_result (tenantFromContext ctx);
  _ ← lift_result (require "production:write");
  phaseID ← lift_result (parse_id phase "invalid phase ID");
  cfg ← lift_result (MustFromContext vcfg);
  _ ← svc (Project.UpdatePhaseStatus cfg tenantID phaseID newPhaseType);
  p ← svc (Project.GetPhase tenantID phaseID);
  mret (PhaseResp (phaseToProto p)).

(** ** Crew *)

Definition new_crew_member (tenantID productionID : uuid) (dayRate : Dec) (r : CrewReq) : CrewMember :=
  mkCrewMember uuid_nil productionID tenantID None (rc_Name r) (rc_Role r) (rc_Department r) dayRate
    "INR" None None zero_time.
(** The stored member, if it is among the first 200 of the production. *)
Definition persisted (c : CrewMember) (members : list CrewMember) : CrewMember :=
  match find (fun m => bool_decide (c_ID m = c_ID c)) members with Some m => m | None => c end.
Definition AddCrewMember (r : CrewReq) : Op Response :=
  tenantID ← lift_result (tenantFromContext ctx);
  _ ← lift_result (require "resource:manage");
  productionID ← lift_result (parse_id (rc_ProductionId r) "invalid production ID");
  dayRate ← lift_result (parse_decimal (rc_DayRate r) "invalid day_rate: must be a decimal string");
  c ← svc (Project.AddCrewMember (h_svc h) (new_crew_member tenantID productionID dayRate r));
  members ← svc (Project.ListCrewMembers tenantID productionID 200 0);
  mret (CrewResp (crewToProto (persisted c members))).

Definition ListCrewMembers (production : string) : Op Response :=
  tenantID ← lift_result (tenantFromContext ctx);
  _ ← lift_result (require "production:read");
  productionID ← lift_result (parse_id production "invalid production ID");
  l ← svc (Project.ListCrewMembers tenantID productionID 50 0);
  mret (CrewsResp (crewToProto <$> l)).

Definition RemoveCrewMember (id : string) : Op Response :=
  tenantID ← lift_result (tenantFromContext ctx);
  _ ← lift_result (require "resource:manage");
  crewID ← lift_result (parse_id id "invalid crew member ID");
  _ ← svc (Project.RemoveCrewMember tenantID crewID);
  mret RemovedResp.

(** ** Vertical metadata: no tenant or permission is checked *)

Definition GetEntityLabels : Op Response :=
  cfg ← lift_result (MustFromContext vcfg);
  mret (LabelsResp (Project.GetEntityLabels cfg)).

Definition phase_type_info (pt : PhaseType) : PhaseTypeInfo :=
  mkPhaseTypeInfo (pt_ID pt) (pt_Label pt) (int32 (pt_Order pt)) (pt_IsBillable pt)
    (pt_AllowedTransitions pt).
Definition GetPhaseTypes : Op Response :=
  cfg ← lift_result (MustFromContext vcfg);
  mret (PhaseTypesResp (phase_type_info <$> Project.GetPhaseTypes cfg)).

End handler.

(** ** Dispatch: the vertical interceptor, then the handler *)

Section dispatch.
Context {X : External} {D : Dates}.
Variable h : Handler.
Variable ctx : Ctx.

Definition handle_rpc (vcfg : option Config) (r : Rpc) : M St status Response :=
  match r with
  | CreateProductionRpc q => CreateProduction h ctx q
  | GetProductionRpc i => GetProduction h ctx i
  | ListProductionsRpc s l => ListProductions h ctx s l
  | UpdateProductionRpc i t d => UpdateProduction h ctx i t d
  | ArchiveProductionRpc i => ArchiveProduction h ctx i
  | CreatePhaseRpc p t => CreatePhase h ctx vcfg p t
  | ListPhasesRpc p => ListPhases h ctx p
  | UpdatePhaseStatusRpc p t => UpdatePhaseStatus h ctx vcfg p t
  | AddCrewMemberRpc q => AddCrewMember h ctx q
  | ListCrewMembersRpc p => ListCrewMembers h ctx p
  | RemoveCrewMemberRpc i => RemoveCrewMember h ctx i
  | GetEntityLabelsRpc => GetEntityLabels vcfg
  | GetPhaseTypesRpc => GetPhaseTypes vcfg
  end.

Definition handle (r : Rpc) : M St status Response :=
  vcfg ← lift_result (attachConfig (h_loader h) ctx);
  handle_rpc vcfg r.

End dispatch.
