(* ===== verification/ProjectCalls.v ===== *)
(** Project management: how the tables may change, whatever requests interleave
    ([pstep]), that every RPC stays within it ([handle_pstep]), and what holds in
    the states the service can reach; what moving a phase and adding and removing crew
    do alone; a concrete service whose runs the witnesses evaluate. *)

From S2P Require Export ProjectHandler.
Local Open Scope Z_scope.

Section relation.
Context {X : External} {D : Dates}.
Variable loader : uuid -> option Config.

(** ** Rows *)

(** The tenant's vertical lets a phase of type [from] move to type [target]. *)
Definition may_move (t : uuid) (from target : string) : Prop :=
  exists cfg, loader t = Some cfg /\ check_transition cfg from target = Ok tt.

(** What holds of a stored production: it is in development or archived, nobody
    is named as its creator, and it has no language and no dates. *)
Record production_ok (r : ProductionRow) : Prop := {
  po_status : pr_Status r = "development" \/ pr_Status r = "archived";
  po_created : pr_CreatedBy r = uuid_nil;
  po_language : pr_Language r = Some "";
  po_start : pr_StartDate r = None;
  po_end : pr_EndDate r = None;
}.

(** What holds of a stored phase: its type is one of the vertical's, and its
    status is pending or the name of a type its own may move to. *)
Record phase_ok (r : PhaseRow) : Prop := {
  pho_type : exists cfg, loader (phr_TenantID r) = Some cfg
                         /\ is_Some (FindPhaseType cfg (phr_PhaseType r));
  pho_status : phr_Status r = "pending"
    \/ Queries.phase_status_ok (phr_Status r) = true
       /\ may_move (phr_TenantID r) (phr_PhaseType r) (phr_Status r);
}.

(** The columns no statement writes again. *)
Record same_production (r r' : ProductionRow) : Prop := {
  sp_id : pr_ID r' = pr_ID r;
  sp_tenant : pr_TenantID r' = pr_TenantID r;
  sp_slug : pr_Slug r' = pr_Slug r;
}.
Record same_phase (r r' : PhaseRow) : Prop := {
  sph_id : phr_ID r' = phr_ID r;
  sph_production : phr_ProductionID r' = phr_ProductionID r;
  sph_tenant : phr_TenantID r' = phr_TenantID r;
  sph_type : phr_PhaseType r' = phr_PhaseType r;
}.
#[export] Instance same_production_preorder : PreOrder same_production.
Proof. split; [by split|]. intros r1 r2 r3 [] []. split; congruence. Qed.
#[export] Instance same_phase_preorder : PreOrder same_phase.
Proof. split; [by split|]. intros r1 r2 r3 [] []. split; congruence. Qed.

(** No tenant has a slug twice: the UNIQUE constraint. *)
Definition slugs_ok (d : DB) : Prop :=
  forall k1 k2 r1 r2, productions d !! k1 = Some r1 -> productions d !! k2 = Some r2 ->
    pr_TenantID r1 = pr_TenantID r2 -> pr_Slug r1 = pr_Slug r2 -> k1 = k2.
(** The production of a phase or a crew member exists: the foreign keys. *)
Record fk_ok (d : DB) : Prop := {
  fk_phases : map_Forall (fun _ r => is_Some (productions d !! phr_ProductionID r)) (phases d);
  fk_crew : map_Forall (fun _ r => is_Some (productions d !! cr_ProductionID r)) (crew_members d);
}.

(** ** Steps: [own] tells which tenants' rows may change *)
Variable own : uuid -> Prop.

Definition production_chg (k : uuid) (o : option ProductionRow) (r' : ProductionRow) : Prop :=
  own (pr_TenantID r')
  /\ match o with
     | None => pr_ID r' = k /\ production_ok r'
     | Some r => same_production r r' /\ (production_ok r -> production_ok r')
     end.
Definition phase_chg (k : uuid) (o : option PhaseRow) (r' : PhaseRow) : Prop :=
  own (phr_TenantID r')
  /\ match o with
     | None => phr_ID r' = k /\ phase_ok r'
     | Some r => same_phase r r' /\ (phase_ok r -> phase_ok r')
     end.
(** Crew members come and go. *)
Definition crew_step (t t' : gmap uuid CrewRow) : Prop :=
  forall k, t' !! k = t !! k
    \/ (forall r, t !! k = Some r -> own (cr_TenantID r))
       /\ (forall r', t' !! k = Some r' -> own (cr_TenantID r') /\ cr_ID r' = k).

Record pstep (d d' : DB) : Prop := {
  ps_productions : table_step production_chg (productions d) (productions d');
  ps_phases : table_step phase_chg (phases d) (phases d');
  ps_crew : crew_step (crew_members d) (crew_members d');
  ps_slugs : slugs_ok d -> slugs_ok d';
  ps_fk : fk_ok d -> fk_ok d';
}.

Lemma production_chg_trans k o r1 r2 :
  production_chg k o r1 -> production_chg k (Some r1) r2 -> production_chg k o r2.
Proof.
  intros [H1 H2] [H3 [Hs Hk]]. split; [done|]. destruct o as [r|].
  - destruct H2 as [Hs' Hk']. split; [by transitivity r1|auto].
  - destruct H2 as [Hid Hok]. split; [|by apply Hk]. by rewrite (sp_id _ _ Hs).
Qed.
Lemma phase_chg_trans k o r1 r2 :
  phase_chg k o r1 -> phase_chg k (Some r1) r2 -> phase_chg k o r2.
Proof.
  intros [H1 H2] [H3 [Hs Hk]]. split; [done|]. destruct o as [r|].
  - destruct H2 as [Hs' Hk']. split; [by transitivity r1|auto].
  - destruct H2 as [Hid Hok]. split; [|by apply Hk]. by rewrite (sph_id _ _ Hs).
Qed.
Lemma crew_step_refl t : crew_step t t.
Proof. intros k. by left. Qed.
Lemma crew_step_trans t1 t2 t3 : crew_step t1 t2 -> crew_step t2 t3 -> crew_step t1 t3.
Proof.
  intros H1 H2 k. destruct (H2 k) as [->|[Hb Ha]]; [done|]. right. split; [|done].
  destruct (H1 k) as [He|[Hb' _]]; [|done]. intros r Hr. apply Hb. by rewrite He.
Qed.

#[export] Instance pstep_preorder : PreOrder pstep.
Proof.
  pose proof (table_step_preorder production_chg_trans) as HP1.
  pose proof (table_step_preorder phase_chg_trans) as HP2.
  split; [intros d; split; [done|done|apply crew_step_refl|done|done]|].
  intros d1 d2 d3 [] []. split;
    [by transitivity (productions d2)|by transitivity (phases d2)|by eapply crew_step_trans|auto|auto].
Qed.

(** The shapes of a step: one production, one phase, or the crew. *)
Lemma pstep_production d k r' :
  production_chg k (productions d !! k) r' ->
  (slugs_ok d -> forall k2 r2, productions d !! k2 = Some r2 -> pr_TenantID r2 = pr_TenantID r' ->
     pr_Slug r2 = pr_Slug r' -> k2 = k) ->
  pstep d (set_productions (<[k := r']> (productions d)) d).
Proof.
  intros Hc Hu. split; [by apply table_step_insert|apply table_step_refl|apply crew_step_refl|..].
  - intros Hs k1 k2 r1 r2. simpl. rewrite !lookup_insert_Some.
    intros [[<- <-]|[Hne1 H1]] [[<- <-]|[Hne2 H2]] Ht He; [done|..].
    + symmetry. by eapply Hu.
    + by eapply Hu.
    + by eapply Hs.
  - intros [F1 F2]. split; intros i r Hr; simpl; rewrite lookup_insert_is_Some';
      right; [by eapply F1|by eapply F2].
Qed.
Lemma pstep_phase d k r' :
  phase_chg k (phases d !! k) r' ->
  (fk_ok d -> is_Some (productions d !! phr_ProductionID r')) ->
  pstep d (set_phases (<[k := r']> (phases d)) d).
Proof.
  intros Hc Hf. split; [apply table_step_refl|by apply table_step_insert|apply crew_step_refl|done|].
  intros HF. destruct HF as [F1 F2]. split; [|done]. intros i r. simpl.
  rewrite lookup_insert_Some. intros [[_ <-]|[_ Hr]]; [by apply Hf|by eapply F1].
Qed.
Lemma pstep_crew d t :
  crew_step (crew_members d) t ->
  (fk_ok d -> map_Forall (fun _ r => is_Some (productions d !! cr_ProductionID r)) t) ->
  pstep d (set_crew t d).
Proof.
  intros Hc Hf. split; [apply table_step_refl|apply table_step_refl|done|done|].
  intros HF. split; [apply HF|by apply Hf].
Qed.

(** ** Statements *)

Lemma CreateProduction_pstep now id t title slug de ge d a d' :
  own t ->
  Queries.CreateProduction now id t title slug de ge (Some "") "development" None None uuid_nil d
  = Ok (a, d') -> pstep d d'.
Proof.
  intros Ho. unfold Queries.CreateProduction. simpl. case_bool_decide as Hid; [done|].
  destruct (Queries.slug_taken t slug d) eqn:Hs; [done|]. intros [= <- <-].
  apply pstep_production.
  - rewrite free_key by done. split; [done|]. split; [done|]. split; try done. by left.
  - intros _ k2 r2 H2 Ht He. simpl in *. unfold Queries.slug_taken in Hs.
    rewrite exists_row_false in Hs. specialize (Hs k2 r2 H2).
    unfold Queries.of_tenant in Hs. by rewrite !bool_decide_true in Hs.
Qed.

(** A row that keeps its tenant and slug. *)
Lemma pstep_same_production d id r r' :
  productions d !! id = Some r -> own (pr_TenantID r) -> same_production r r' ->
  (production_ok r -> production_ok r') ->
  pstep d (set_productions (<[id := r']> (productions d)) d).
Proof.
  intros Hr Ho Hs Hok. apply pstep_production.
  - rewrite Hr. split; [by rewrite (sp_tenant _ _ Hs)|by split].
  - intros Hu k2 r2 H2 Ht He. eapply (Hu k2 id r2 r); [done|done|..].
    + by rewrite Ht, (sp_tenant _ _ Hs).
    + by rewrite He, (sp_slug _ _ Hs).
Qed.

Lemma UpdateProduction_pstep now t id title de d a d' :
  own t -> Queries.UpdateProduction now t id title de "" "" None None d = Ok (a, d') -> pstep d d'.
Proof.
  intros Ho. unfold Queries.UpdateProduction, Queries.GetProduction, Queries.of_tenant.
  destruct (get_row _ _ _) as [r|] eqn:Hg; [|done]. apply get_row_tenant in Hg as [Hr <-].
  destruct (negb _); [done|]. intros [= _ <-]. apply (pstep_same_production _ _ r); [done|done|by split|].
  intros []. by split.
Qed.
Lemma ArchiveProduction_pstep now t id d a d' :
  own t -> Queries.ArchiveProduction now t id d = Ok (a, d') -> pstep d d'.
Proof.
  intros Ho. unfold Queries.ArchiveProduction, Queries.GetProduction, Queries.of_tenant.
  destruct (get_row _ _ _) as [r|] eqn:Hg; [|done]. apply get_row_tenant in Hg as [Hr <-].
  intros [= _ <-]. apply (pstep_same_production _ _ r); [done|done|by split|].
  intros []. split; try done. by right.
Qed.

Lemma CreatePhase_pstep now id p t ty cfg d a d' :
  own t -> loader t = Some cfg -> is_Some (FindPhaseType cfg ty) ->
  Queries.CreatePhase now id p t ty "pending" None None d = Ok (a, d') -> pstep d d'.
Proof.
  intros Ho Hc Hty. unfold Queries.CreatePhase. simpl. case_bool_decide as Hid; [done|].
  case_bool_decide as Hp; [|done]. intros [= _ <-]. apply pstep_phase; [|done].
  rewrite free_key by done. split; [done|]. split; [done|]. split; [by exists cfg|by left].
Qed.
(** A move that was checked against the type the row has. *)
Lemma UpdatePhaseStatus_pstep now t id st d a d' :
  own t ->
  (forall r, phases d !! id = Some r -> phr_TenantID r = t -> may_move t (phr_PhaseType r) st) ->
  Queries.UpdatePhaseStatus now t id st d = Ok (a, d') -> pstep d d'.
Proof.
  intros Ho Hm. unfold Queries.UpdatePhaseStatus, Queries.GetPhase, Queries.phase_of_tenant.
  destruct (get_row _ _ _) as [r|] eqn:Hg; [|done]. apply get_row_tenant in Hg as [Hr <-].
  destruct (negb _) eqn:Hst; [done|]. intros [= _ <-]. apply negb_false_iff in Hst.
  apply pstep_phase; [|intros F; exact (fk_phases d F id r Hr)].
  rewrite Hr. split; [done|]. split; [by split|]. intros []. split; [done|]. right.
  split; [done|exact (Hm r Hr eq_refl)].
Qed.

Lemma AddCrewMember_pstep now id p t u n ro de ra cu d a d' :
  own t -> Queries.AddCrewMember now id p t u n ro de ra cu None None d = Ok (a, d') -> pstep d d'.
Proof.
  intros Ho. unfold Queries.AddCrewMember. destruct (dec_numeric_14_2 _) as [m|]; [|done].
  case_bool_decide as Hid; [done|]. case_bool_decide as Hp; [|done]. intros [= _ <-].
  apply pstep_crew.
  - intros k. destruct (decide (id = k)) as [<-|Hne]; [|left; by apply lookup_insert_ne].
    right. rewrite free_key by done. split; [done|]. rewrite lookup_insert_eq. by intros ? [= <-].
  - intros [_ F] k r. rewrite lookup_insert_Some. intros [[_ <-]|[_ Hr]]; [done|by eapply F].
Qed.
Lemma delete_crew_member_pstep t id d n d' :
  own t -> Postgres.delete_crew_member t id d = Ok (n, d') -> pstep d d'.
Proof.
  intros Ho. unfold Postgres.delete_crew_member, Queries.crew_of_tenant.
  destruct (get_row _ _ _) as [r|] eqn:Hg; [|by intros [= _ <-]].
  apply get_row_tenant in Hg as [Hr <-]. intros [= _ <-]. apply pstep_crew.
  - intros k. destruct (decide (id = k)) as [<-|Hne]; [|left; by apply lookup_delete_ne].
    right. rewrite lookup_delete_eq, Hr. split; [by intros ? [= <-]|done].
  - intros [_ F] k r0. rewrite lookup_delete_Some. intros [_ Hk]. by eapply F.
Qed.

(** A phase keeps its type. *)
Lemma pstep_phase_type d d' k r :
  pstep d d' -> phases d !! k = Some r ->
  exists r', phases d' !! k = Some r' /\ phr_PhaseType r' = phr_PhaseType r
             /\ phr_ProductionID r' = phr_ProductionID r /\ phr_TenantID r' = phr_TenantID r.
Proof.
  intros Hs Hr. destruct (table_step_some _ _ _ _ (ps_phases _ _ Hs) Hr) as (r' & Hr' & HQ).
  exists r'. split; [done|]. destruct HQ as [->|[_ [[] _]]]; [done|]. by split.
Qed.

(** ** The invariant *)

Record pinv (d : DB) : Prop := {
  pi_production_keys : map_Forall (fun k r => pr_ID r = k) (productions d);
  pi_phase_keys : map_Forall (fun k r => phr_ID r = k) (phases d);
  pi_crew_keys : map_Forall (fun k r => cr_ID r = k) (crew_members d);
  pi_productions : map_Forall (fun _ => production_ok) (productions d);
  pi_phases : map_Forall (fun _ => phase_ok) (phases d);
  pi_slugs : slugs_ok d;
  pi_fk : fk_ok d;
}.

Lemma pinv_empty : pinv empty_db.
Proof. split; try apply map_Forall_empty; [done|split; apply map_Forall_empty]. Qed.

Lemma pinv_step d d' : pstep d d' -> pinv d -> pinv d'.
Proof.
  intros [H1 H2 H3 H4 H5] [K1 K2 K3 K4 K5 K6 K7]. split; [..|by auto|by auto].
  - eapply table_step_forall, K1; [|exact H1]. intros k o r [_ HQ] Ho.
    destruct o as [r0|]; [|by destruct HQ]. destruct HQ as [Hs _]. rewrite (sp_id _ _ Hs). by apply Ho.
  - eapply table_step_forall, K2; [|exact H2]. intros k o r [_ HQ] Ho.
    destruct o as [r0|]; [|by destruct HQ]. destruct HQ as [Hs _]. rewrite (sph_id _ _ Hs). by apply Ho.
  - intros k r Hk. destruct (H3 k) as [He|[_ Ha]]; [apply (K3 k); congruence|by apply Ha].
  - eapply table_step_forall, K4; [|exact H1]. intros k o r [_ HQ] Ho.
    destruct o as [r0|]; [|by destruct HQ]. destruct HQ as [_ HQ]. auto.
  - eapply table_step_forall, K5; [|exact H2]. intros k o r [_ HQ] Ho.
    destruct o as [r0|]; [|by destruct HQ]. destruct HQ as [_ HQ]. auto.
Qed.

End relation.

(** ** Programs: every RPC moves the tables along [pstep] *)

Section programs.
Context {X : External} {D : Dates}.
Variable own : uuid -> Prop.
Variable h : ProjectHandler.Handler.
Variable s : Service.
Variable t : uuid.
Hypothesis Ho : own t.
Abbreviation L := (ProjectHandler.h_loader h) (only parsing).
Abbreviation R := (store_step (D:=DB) (Ev:=Event) (pstep L own)) (only parsing).

(** Splits a service call into its statements. *)
Ltac service_steps :=
  repeat (steps_tac; try done; try apply steps_store_query; try apply steps_store_exec;
          try apply steps_emit).

Lemma steps_GetProduction tn id w : steps R (Project.GetProduction tn id) w.
Proof. unfold Project.GetProduction, Postgres.GetProduction. service_steps. Qed.
Lemma steps_ListProductions tn st l o w : steps R (Project.ListProductions tn st l o) w.
Proof. unfold Project.ListProductions, Postgres.ListProductions. service_steps. Qed.
Lemma steps_GetPhase tn id w : steps R (Project.GetPhase tn id) w.
Proof. unfold Project.GetPhase, Postgres.GetPhase. service_steps. Qed.
Lemma steps_ListPhases tn p l o w : steps R (Project.ListPhases tn p l o) w.
Proof. unfold Project.ListPhases, Postgres.ListPhases. service_steps. Qed.
Lemma steps_ListCrewMembers tn p l o w : steps R (Project.ListCrewMembers tn p l o) w.
Proof. unfold Project.ListCrewMembers, Postgres.ListCrewMembers. service_steps. Qed.

Lemma steps_CreateProduction r w :
  steps R (Project.CreateProduction s (ProjectHandler.new_production t r)) w.
Proof.
  unfold Project.CreateProduction, Postgres.CreateProduction, publish. service_steps;
    by eapply CreateProduction_pstep.
Qed.
Lemma steps_UpdateProduction id title de w :
  steps R (Project.UpdateProduction (ProjectHandler.production_update t id title de)) w.
Proof.
  unfold Project.UpdateProduction, Postgres.UpdateProduction. service_steps.
  by eapply UpdateProduction_pstep.
Qed.
Lemma steps_ArchiveProduction id w : steps R (Project.ArchiveProduction t id) w.
Proof.
  unfold Project.ArchiveProduction, Postgres.ArchiveProduction. service_steps.
  by eapply ArchiveProduction_pstep.
Qed.
Lemma steps_CreatePhase cfg p ty w :
  L t = Some cfg -> steps R (Project.CreatePhase cfg (ProjectHandler.new_phase t p ty)) w.
Proof.
  intros Hc. unfold Project.CreatePhase, Postgres.CreatePhase. service_steps;
    (eapply CreatePhase_pstep; [exact Ho|exact Hc|by eexists|eassumption]).
Qed.
Lemma steps_AddCrewMember p rate r w :
  steps R (Project.AddCrewMember s (ProjectHandler.new_crew_member t p rate r)) w.
Proof.
  unfold Project.AddCrewMember, Postgres.AddCrewMember, publish. service_steps;
    by eapply AddCrewMember_pstep.
Qed.
Lemma steps_RemoveCrewMember id w : steps R (Project.RemoveCrewMember t id) w.
Proof.
  unfold Project.RemoveCrewMember, Postgres.RemoveCrewMember. service_steps.
  by eapply delete_crew_member_pstep.
Qed.

(** The move is checked against a type that never changes. *)
Lemma steps_UpdatePhaseStatus cfg id ty w :
  L t = Some cfg -> steps R (Project.UpdatePhaseStatus cfg t id ty) w.
Proof.
  intros Hc. unfold Project.UpdatePhaseStatus, Postgres.GetPhase, Postgres.UpdatePhaseStatus.
  apply steps_bind; [service_steps|].
  intros p w1 Hg HR _ _. apply wrap_Ok, bind_Ok in Hg as (row & w2 & Hq & Hret).
  apply map_err_Ok, (store_query_Ok (R:=pstep L own)) in Hq as (_ & Hq & _); [|done].
  apply ret_Ok in Hret as [-> ->]. apply get_row_tenant in Hq as [Hrow Htn].
  apply steps_bind; [apply steps_lift|]. intros [] w3 [Hchk ->]%lift_Ok _ _ _.
  repeat steps_tac. apply steps_store_exec_from. intros d upd d' Hd Hup.
  eapply UpdatePhaseStatus_pstep; [exact Ho| |exact Hup]. intros r Hr _.
  assert (Hs : pstep L own (store_db (w_st w2)) d) by step_chain.
  destruct (pstep_phase_type _ _ _ _ _ _ Hs Hrow) as (r' & Hr' & Hty & _).
  rewrite Hr in Hr'. injection Hr' as <-. rewrite Hty. exists cfg. by split.
Qed.

End programs.

Section handle.
Context {X : External} {D : Dates}.
Variable own : uuid -> Prop.
Variable h : ProjectHandler.Handler.
Variable ctx : Ctx.

Lemma project_tenant_Ok u (w : World St) w' :
  lift_result (tenantFromContext ctx) w = (Ok u, w') -> IDFromContext ctx = Some u.
Proof.
  intros [H _]%lift_Ok. unfold tenantFromContext in H.
  destruct (IDFromContext ctx); [|done]. by injection H as ->.
Qed.
Lemma project_config_Ok vcfg c (w : World St) w' :
  lift_result (MustFromContext vcfg) w = (Ok c, w') -> vcfg = Some c.
Proof. intros [H _]%lift_Ok. destruct vcfg; [by injection H as ->|done]. Qed.

(** A service call of a handler. *)
Ltac leaf Hown Hcfg :=
  repeat match goal with
  | H : lift_result (tenantFromContext ctx) _ = (Ok ?u, _) |- _ =>
      let Ht := fresh "Ht" in
      apply project_tenant_Ok in H; pose proof (Hown _ H) as Ht; pose proof (Hcfg _ H); clear H
  | H : lift_result (MustFromContext _) _ = _ |- _ => apply project_config_Ok in H
  end;
  first
  [ apply steps_GetProduction | apply steps_ListProductions | apply steps_GetPhase
  | apply steps_ListPhases | apply steps_ListCrewMembers | by apply steps_CreateProduction
  | by apply steps_UpdateProduction | by apply steps_ArchiveProduction
  | apply steps_CreatePhase; by auto | by apply steps_AddCrewMember
  | by apply steps_RemoveCrewMember | apply steps_UpdatePhaseStatus; by auto ].

(** A request whose tenant, if it has one, may change its rows. *)
Lemma handle_pstep r (w : World St) :
  (forall t, IDFromContext ctx = Some t -> own t) ->
  steps (store_step (pstep (ProjectHandler.h_loader h) own)) (ProjectHandler.handle h ctx r) w.
Proof.
  intros Hown. unfold ProjectHandler.handle. apply steps_bind; [apply steps_lift|].
  intros vcfg w1 [Hv ->]%lift_Ok _ _ _.
  assert (Hcfg : forall u, IDFromContext ctx = Some u -> forall c, vcfg = Some c ->
                           ProjectHandler.h_loader h u = Some c).
  { intros u Hu c ->. unfold attachConfig in Hv. rewrite Hu in Hv.
    destruct (ProjectHandler.h_loader h u); by simplify_eq. }
  destruct r; simpl;
    unfold ProjectHandler.CreateProduction, ProjectHandler.GetProduction,
      ProjectHandler.ListProductions, ProjectHandler.UpdateProduction,
      ProjectHandler.ArchiveProduction, ProjectHandler.CreatePhase, ProjectHandler.ListPhases,
      ProjectHandler.UpdatePhaseStatus, ProjectHandler.AddCrewMember,
      ProjectHandler.ListCrewMembers, ProjectHandler.RemoveCrewMember,
      ProjectHandler.GetEntityLabels, ProjectHandler.GetPhaseTypes, ProjectHandler.svc.
  all: steps_tac; leaf Hown Hcfg.
Qed.

End handle.

(** ** Reachable states *)

Section system.
Context {X : External} {D : Dates}.
Variable h : ProjectHandler.Handler.

(** What the requests of the service do to the tables. *)
Definition project_step : DB -> DB -> Prop := pstep (ProjectHandler.h_loader h) (fun _ => True).

(** From the empty tables, after any RPC and between any two of its statements,
    while other requests that respect [project_step] run beside it. *)
Inductive project_reachable : St -> Prop :=
| pj_empty : project_reachable empty_st
| pj_rpc ctx r w :
    project_reachable (w_st w) -> rely (store_step project_step) w ->
    project_reachable (w_st (ProjectHandler.handle h ctx r w).2)
| pj_statement s s' ctx r w :
    project_reachable (w_st w) -> project_reachable s -> rely (store_step project_step) w ->
    w_log w = [] -> (s, s') ∈ w_log (ProjectHandler.handle h ctx r w).2 -> project_reachable s'
| pj_others s s' :
    project_reachable s -> store_step project_step s s' -> project_reachable s'.

Lemma handle_project_step ctx r (w : World St) :
  steps (store_step project_step) (ProjectHandler.handle h ctx r) w.
Proof. by apply handle_pstep. Qed.

Lemma project_reachable_inv s :
  project_reachable s -> pinv (ProjectHandler.h_loader h) (store_db s).
Proof.
  induction 1 as [|ctx r w _ IH HR|s s' ctx r w _ IH _ IHs HR Hlog Hin|s s' _ IH [Hs _]].
  - apply pinv_empty.
  - eapply pinv_step, IH. by apply (handle_project_step ctx r w).
  - destruct (handle_project_step ctx r w HR) as (_ & _ & own & Hown & Hall).
    rewrite Hlog, app_nil_r in Hown. rewrite Hown in Hin. rewrite Forall_forall in Hall.
    exact (pinv_step _ _ _ _ (proj1 (Hall _ Hin)) IHs).
  - by eapply pinv_step.
Qed.

(** In every reachable state, whatever requests interleave and wherever they fail:
    no tenant has two productions with one slug; a production is in development or
    archived, and nothing else, has the nil creator, the empty language and no
    dates; and the production of every phase and of every crew member exists. *)
Theorem project_tables_ok (s : St) :
  project_reachable s ->
  (forall k1 k2 r1 r2, productions (store_db s) !! k1 = Some r1 ->
     productions (store_db s) !! k2 = Some r2 -> pr_TenantID r1 = pr_TenantID r2 ->
     pr_Slug r1 = pr_Slug r2 -> k1 = k2)
  /\ (forall id r, productions (store_db s) !! id = Some r ->
       pr_ID r = id /\ (pr_Status r = "development" \/ pr_Status r = "archived")
       /\ pr_CreatedBy r = uuid_nil /\ pr_Language r = Some ""
       /\ pr_StartDate r = None /\ pr_EndDate r = None)
  /\ (forall id r, phases (store_db s) !! id = Some r ->
       phr_ID r = id /\ is_Some (productions (store_db s) !! phr_ProductionID r))
  /\ (forall id r, crew_members (store_db s) !! id = Some r ->
       cr_ID r = id /\ is_Some (productions (store_db s) !! cr_ProductionID r)).
Proof.
  intros [K1 K2 K3 K4 K5 K6 [F1 F2]]%project_reachable_inv. split; [exact K6|]. split_and!.
  - intros id r Hr. destruct (K4 id r Hr). split; [by apply K1|]. by split_and!.
  - intros id r Hr. split; [by apply K2|by eapply F1].
  - intros id r Hr. split; [by apply K3|by eapply F2].
Qed.

(** C32: No phase ever moves on.  UpdatePhaseStatus writes the new phase type into the
    status column: in every reachable state a phase has a type of its tenant's
    vertical and is pending, or its status is active or completed where the
    vertical happens to have a phase type of that name which its own type may move
    to; and no RPC, whatever runs beside it, changes the type of a phase or removes
    one.  The vertical's configuration is the same over the history. *)
Theorem phase_never_advances (s : St) :
  project_reachable s ->
  (forall id r, phases (store_db s) !! id = Some r ->
     (exists cfg, ProjectHandler.h_loader h (phr_TenantID r) = Some cfg
                  /\ is_Some (FindPhaseType cfg (phr_PhaseType r)))
     /\ (phr_Status r = "pending"
         \/ phr_Status r ∈ ["active"; "completed"]
            /\ exists cfg, ProjectHandler.h_loader h (phr_TenantID r) = Some cfg
               /\ check_transition cfg (phr_PhaseType r) (phr_Status r) = Ok tt))
  /\ forall ctx rpc (w : World St), w_st w = s -> rely (store_step project_step) w ->
     forall id r, phases (store_db s) !! id = Some r ->
     exists r', phases (store_db (w_st (ProjectHandler.handle h ctx rpc w).2)) !! id = Some r'
                /\ phr_PhaseType r' = phr_PhaseType r.
Proof.
  intros Hi%project_reachable_inv. split.
  - intros id r Hr. destruct (pi_phases _ _ Hi id r Hr) as [Hty Hst]. split; [done|].
    destruct Hst as [Hst|[Hok Hm]]; [by left|]. unfold Queries.phase_status_ok in Hok.
    apply bool_decide_eq_true, elem_of_cons in Hok as [Hp|Hac]; [by left|by right].
  - intros ctx rpc w <- HR id r Hr.
    destruct (handle_project_step ctx rpc w HR) as ([Hs _] & _).
    destruct (pstep_phase_type _ _ _ _ _ _ Hs Hr) as (r' & Hr' & Hty & _). by exists r'.
Qed.

End system.

(** Project management: what the calls that move phases and crew do when they run
    alone, branch by branch, and a concrete service on the reference libraries,
    whose runs the witnesses evaluate. *)

Local Open Scope Z_scope.

Section calls.
Context {X : External} {D : Dates}.
Variable s : Service.

(** ** Phases *)

(** The transitions of a vertical, as its definition documents them. *)
Definition transition_spec (cfg : Config) (from target : string) : result PjErr unit :=
  match FindPhaseType cfg from with
  | None => Err ErrInvalidPhaseType
  | Some pt =>
    if decide (target ∈ pt_AllowedTransitions pt)
    then match FindPhaseType cfg target with None => Err ErrInvalidPhaseType | Some _ => Ok tt end
    else Err ErrInvalidTransition
  end.

Lemma CanTransitionTo_spec pt target :
  CanTransitionTo pt target = bool_decide (target ∈ pt_AllowedTransitions pt).
Proof.
  apply eq_true_iff_eq. unfold CanTransitionTo. rewrite existsb_exists, bool_decide_eq_true.
  setoid_rewrite <-list_elem_of_In. setoid_rewrite bool_decide_eq_true.
  split; [by intros (x & Hx & <-)|]. intros H. by exists target.
Qed.

Lemma check_transition_spec cfg from target :
  match transition_spec cfg from target with
  | Ok _ => check_transition cfg from target = Ok tt
  | Err err => exists text, check_transition cfg from target = Err (EWrap text (ESent err))
  end.
Proof.
  unfold transition_spec, check_transition. destruct (FindPhaseType cfg from) as [pt|]; [|by eexists].
  rewrite CanTransitionTo_spec. case_decide as Hin.
  - rewrite bool_decide_true by done. simpl. destruct (FindPhaseType cfg target); [done|by eexists].
  - rewrite bool_decide_false by done. by eexists.
Qed.

Lemma evals_GetPhase t id (w : World St) :
  quiet w ->
  evals (Postgres.GetPhase t id) w
    (match owned phr_TenantID t (phases (store_db (w_st w))) id with
     | Some r => Ok (Postgres.phaseFromDB r)
     | None => Err (ESent ErrPhaseNotFound)
     end) (w_st w).
Proof.
  intros Hw. unfold Postgres.GetPhase. pose proof (evals_store_query (Queries.GetPhase t id) w Hw) as Hq.
  unfold Queries.GetPhase, Queries.phase_of_tenant in *. rewrite get_row_owned in Hq.
  destruct (owned _ _ _ _) as [r|].
  - eapply evals_bind; [by apply evals_map_ok|]. intros w1 Hw1 <-. by apply evals_ret.
  - apply evals_bind_err. exact (evals_map_fail (no_rows_as ErrPhaseNotFound _) _ _ _ _ Hq).
Qed.

(** The UPDATE, on a phase of the tenant. *)
Lemma yields_UpdatePhaseStatus t id st r (w : World St) :
  quiet w -> owned phr_TenantID t (phases (store_db (w_st w))) id = Some r ->
  yields (Postgres.UpdatePhaseStatus t id st) w (fun res s' =>
    if decide (st ∈ ["pending"; "active"; "completed"])
    then res = Ok tt /\ exists now,
      s' = mkStore (set_phases (<[id := Queries.with_phase_status now st r]>
                                  (phases (store_db (w_st w)))) (store_db (w_st w)))
             (store_events (w_st w))
    else exists e, res = Err e
         /\ ProjectHandler.grpcErr e = mkStatus Internal "internal error" /\ s' = w_st w).
Proof.
  intros Hw Hr. destruct (evals_time (E := error PjErr) w Hw) as [now Hnow].
  unfold Postgres.UpdatePhaseStatus. eapply yields_bind; [exact Hnow|]. intros w1 Hw1 Hs1.
  rewrite <-Hs1 in Hr |- *.
  assert (Hq : Queries.UpdatePhaseStatus now t id st (store_db (w_st w1))
    = if decide (st ∈ ["pending"; "active"; "completed"])
      then Ok (Queries.with_phase_status now st r,
               set_phases (<[id := Queries.with_phase_status now st r]> (phases (store_db (w_st w1))))
                 (store_db (w_st w1)))
      else Err PgConstraint).
  { unfold Queries.UpdatePhaseStatus, Queries.GetPhase, Queries.phase_of_tenant.
    rewrite get_row_owned, Hr. unfold Queries.phase_status_ok.
    case_decide; [by rewrite bool_decide_true|by rewrite bool_decide_false]. }
  case_decide as Hst.
  - eapply yields_evals; [|split; [reflexivity|by exists now]].
    eapply evals_bind; [by apply evals_map_ok, evals_store_exec|]. intros w2 Hw2 <-. by apply evals_ret.
  - eapply yields_evals; [apply evals_bind_err, evals_map_fail, evals_store_exec_err; [done|exact Hq]|].
    eexists. split; [reflexivity|]. by split; [vm_refl|].
Qed.

(** C33: Alone, with no call failing, UpdatePhaseStatus answers on every branch as the
    transitions of the vertical say, up to the last step: a phase the tenant does
    not have is not found; a type the vertical does not know, and a transition it
    does not list, are refused with their errors, and nothing has changed; but an
    allowed one succeeds only to a phase type named pending, active or completed,
    which becomes the status while the type stays, and is answered Internal, with
    nothing changed, to any other. *)
Theorem update_phase_outcomes (cfg : Config) (t id : uuid) (target : string) (w w' : World St)
    (res : result (error PjErr) unit) :
  quiet w -> Project.UpdatePhaseStatus cfg t id target w = (res, w') ->
  match owned phr_TenantID t (phases (store_db (w_st w))) id with
  | None => exists e, res = Err e /\ errors_Is e ErrPhaseNotFound = true /\ w_st w' = w_st w
  | Some r =>
    match transition_spec cfg (phr_PhaseType r) target with
    | Err err => exists e, res = Err e /\ errors_Is e err = true /\ w_st w' = w_st w
    | Ok _ =>
      if decide (target ∈ ["pending"; "active"; "completed"])
      then res = Ok tt /\ exists now,
        w_st w' = mkStore (set_phases (<[id := Queries.with_phase_status now target r]>
                                         (phases (store_db (w_st w)))) (store_db (w_st w)))
                    (store_events (w_st w))
      else exists e, res = Err e
           /\ ProjectHandler.grpcErr e = mkStatus Internal "internal error" /\ w_st w' = w_st w
    end
  end.
Proof.
  intros Hw Hrun. pattern res, (w_st w'). refine (yields_run _ _ _ _ _ _ Hrun).
  pose proof (evals_GetPhase t id w Hw) as Hg.
  destruct (owned phr_TenantID t _ id) as [r|] eqn:Hr.
  - apply (evals_map_ok (EWrap "get phase: %w")) in Hg.
    eapply yields_bind; [exact Hg|]. intros w1 Hw1 Hs1. rewrite <-Hs1 in Hr |- *. simpl.
    pose proof (check_transition_spec cfg (phr_PhaseType r) target) as Hspec.
    destruct (transition_spec cfg (phr_PhaseType r) target) as [[]|err].
    + rewrite Hspec. eapply yields_bind; [by apply evals_pure|]. intros w2 Hw2 Hs2.
      rewrite <-Hs2 in Hr |- *. by apply yields_UpdatePhaseStatus.
    + destruct Hspec as [text ->].
      eapply yields_evals; [apply evals_bind_err; by apply evals_pure|].
      eexists. split; [reflexivity|]. split; [|done]. simpl. by rewrite bool_decide_true.
  - apply (evals_map_fail (EWrap "get phase: %w")) in Hg.
    eapply yields_evals; [apply evals_bind_err; exact Hg|]. eexists. by split.
Qed.

(** ** Crew *)

(** The row of a crew member with a rate the column holds. *)
Definition crew_row (now : Time) (c : CrewMember) (rate : Dec) : CrewRow :=
  mkCrewRow (c_ID c) (c_ProductionID c) (c_TenantID c) (c_UserID c) (c_Name c) (c_Role c)
    (Some (c_Department c)) (Some rate) (Some (c_Currency c)) (Postgres.pgDateFromPtr (c_StartDate c))
    (Postgres.pgDateFromPtr (c_EndDate c)) now.

(** What the INSERT can do. *)
Lemma AddCrewMember_query now c d :
  let q := Queries.AddCrewMember now (c_ID c) (c_ProductionID c) (c_TenantID c) (c_UserID c)
             (c_Name c) (c_Role c) (Postgres.pgTextFromStr (c_Department c)) (c_DayRate c)
             (Postgres.pgTextFromStr (c_Currency c)) (Postgres.pgDateFromPtr (c_StartDate c))
             (Postgres.pgDateFromPtr (c_EndDate c)) d in
  (exists e, q = Err e)
  \/ exists rate, dec_numeric_14_2 (c_DayRate c) = Some rate /\ crew_members d !! c_ID c = None
     /\ is_Some (productions d !! c_ProductionID c)
     /\ q = Ok (crew_row now c rate, set_crew (<[c_ID c := crew_row now c rate]> (crew_members d)) d).
Proof.
  cbv zeta. unfold Queries.AddCrewMember. destruct (dec_numeric_14_2 _) as [rate|]; [|left; by eexists].
  case_bool_decide as Hid; [left; by eexists|]. case_bool_decide as Hp; [|left; by eexists].
  right. exists rate. split; [done|]. split; [by apply free_key|]. by split.
Qed.

Lemma evals_repo_AddCrewMember c (w : World St) :
  quiet w ->
  (exists e, evals (Postgres.AddCrewMember c) w (Err e) (w_st w))
  \/ exists now rate, dec_numeric_14_2 (c_DayRate c) = Some rate
     /\ crew_members (store_db (w_st w)) !! c_ID c = None
     /\ is_Some (productions (store_db (w_st w)) !! c_ProductionID c)
     /\ evals (Postgres.AddCrewMember c) w (Ok tt)
          (mkStore (set_crew (<[c_ID c := crew_row now c rate]> (crew_members (store_db (w_st w))))
                      (store_db (w_st w))) (store_events (w_st w))).
Proof.
  intros Hw. destruct (evals_time (E := error PjErr) w Hw) as [now Hnow]. unfold Postgres.AddCrewMember.
  destruct (AddCrewMember_query now c (store_db (w_st w))) as [[e Hq]|(rate & Hrate & Hk & Hp & Hq)].
  - left. eexists. eapply evals_bind; [exact Hnow|]. intros w2 Hw2 Hs2. rewrite <-Hs2 in Hq |- *.
    apply evals_bind_err, evals_map_fail, evals_store_exec_err; [done|exact Hq].
  - right. exists now, rate. split; [done|]. split; [done|]. split; [done|].
    eapply evals_bind; [exact Hnow|]. intros w2 Hw2 Hs2. rewrite <-Hs2 in Hq |- *.
    eapply evals_bind; [apply evals_map_ok, evals_store_exec; [done|exact Hq]|].
    intros w3 Hw3 Hs3. rewrite <-Hs3. by apply evals_ret.
Qed.

(** Adding a crew member, alone: the member is stored, or nothing happened. *)
Lemma evals_AddCrewMember c (w : World St) :
  quiet w ->
  (exists e, evals (Project.AddCrewMember s c) w (Err e) (w_st w))
  \/ exists id now rate st, dec_numeric_14_2 (c_DayRate c) = Some rate
     /\ crew_members (store_db (w_st w)) !! id = None
     /\ is_Some (productions (store_db (w_st w)) !! c_ProductionID c)
     /\ store_db st = set_crew (<[id := crew_row now (with_crew_id id c) rate]>
                                  (crew_members (store_db (w_st w)))) (store_db (w_st w))
     /\ evals (Project.AddCrewMember s c) w (Ok (with_crew_id id c)) st.
Proof.
  intros Hw. unfold Project.AddCrewMember.
  destruct (evals_id_or_new (E := error PjErr) (c_ID c) w Hw) as (id & w1 & H1 & Hs1 & Hw1). rewrite <-Hs1.
  destruct (evals_repo_AddCrewMember (with_crew_id id c) w1 Hw1)
    as [[e He]|(now & rate & Hrate & Hk & Hp & He)].
  - left. exists e. eapply evals_bind_run; [exact H1|]. by apply evals_bind_err.
  - right. exists id, now, rate, (mkStore
      (set_crew (<[id := crew_row now (with_crew_id id c) rate]> (crew_members (store_db (w_st w1))))
         (store_db (w_st w1)))
      (store_events (w_st w1) ++ if s_publisher s then [CrewMemberAdded (with_crew_id id c)] else [])).
    split; [done|]. split; [done|]. split; [done|]. split; [done|].
    eapply evals_bind_run; [exact H1|]. eapply evals_bind; [exact He|]. intros w2 Hw2 Hs2.
    eapply evals_bind; [by apply evals_emit|]. intros w3 Hw3 Hs3. rewrite Hs2 in Hs3.
    simpl in Hs3. rewrite <-Hs3. by apply evals_ret.
Qed.

(** The DELETE, on a member of the tenant and on none. *)
Lemma evals_RemoveCrewMember t id (w : World St) :
  quiet w ->
  match owned cr_TenantID t (crew_members (store_db (w_st w))) id with
  | Some _ => evals (Project.RemoveCrewMember t id) w (Ok tt)
                (mkStore (set_crew (delete id (crew_members (store_db (w_st w)))) (store_db (w_st w)))
                   (store_events (w_st w)))
  | None => evals (Project.RemoveCrewMember t id) w (Err (ESent ErrCrewNotFound)) (w_st w)
  end.
Proof.
  intros Hw. unfold Project.RemoveCrewMember, Postgres.RemoveCrewMember.
  assert (Hq : forall n d, Postgres.delete_crew_member t id (store_db (w_st w)) = Ok (n, d) ->
    evals (map_err (pg_wrap (T := PjErr) "project: remove crew member: %w")
             (q_exec (Postgres.delete_crew_member t id))) w (Ok n) (mkStore d (store_events (w_st w))))
    by (intros n d H; by apply evals_map_ok, evals_store_exec).
  unfold Postgres.delete_crew_member, Queries.crew_of_tenant in Hq.
  rewrite get_row_owned in Hq. destruct (owned _ _ _ _) as [r|].
  - eapply evals_bind; [by apply Hq|]. intros w1 Hw1 <-. by apply evals_ret.
  - eapply evals_bind; [by apply Hq|]. intros w1 Hw1 Hs1.
    assert (w_st w1 = w_st w) as <- by (rewrite Hs1; by destruct (w_st w)). by apply evals_throw.
Qed.

(** Adding a crew member and removing it gives the tables back.  Alone, with no
    call failing, AddCrewMember answers an error with nothing changed, or stores
    the member, with the day rate rounded to the column, on a production that
    exists; then RemoveCrewMember with the id it returned succeeds, for the
    member's tenant and for no other, and the tables are exactly as before. *)
Theorem crew_round_trip (c : CrewMember) (w w1 w2 : World St) (res : result (error PjErr) CrewMember)
    (t : uuid) (res2 : result (error PjErr) unit) :
  quiet w -> Project.AddCrewMember s c w = (res, w1) ->
  match res with
  | Err _ => w_st w1 = w_st w
  | Ok c' => (exists now rate, crew_members (store_db (w_st w1)) !! c_ID c' = Some (crew_row now c' rate)
                /\ dec_numeric_14_2 (c_DayRate c) = Some rate)
      /\ c' = with_crew_id (c_ID c') c
      /\ is_Some (productions (store_db (w_st w)) !! c_ProductionID c)
      /\ (Project.RemoveCrewMember t (c_ID c') w1 = (res2, w2) ->
          if decide (t = c_TenantID c)
          then res2 = Ok tt /\ store_db (w_st w2) = store_db (w_st w)
          else res2 = Err (ESent ErrCrewNotFound) /\ w_st w2 = w_st w1)
  end.
Proof.
  intros Hw Hrun. destruct (evals_AddCrewMember c w Hw)
    as [[e (w' & He & Hs & _)]|(id & now & rate & st & Hrate & Hk & Hp & Hst & w' & He & Hs & Hq)];
    rewrite Hrun in He; injection He as -> ->; [done|].
  assert (Hdb : store_db (w_st w') = set_crew (<[id := crew_row now (with_crew_id id c) rate]>
    (crew_members (store_db (w_st w)))) (store_db (w_st w))) by (by rewrite Hs).
  split; [|split; [done|split; [done|]]].
  - exists now, rate. split; [|done]. rewrite Hdb. apply lookup_insert_eq.
  - intros Hrem. simpl in Hrem. pose proof (evals_RemoveCrewMember t id w' Hq) as Hr.
    rewrite Hdb in Hr. simpl in Hr. unfold owned in Hr. rewrite lookup_insert_eq in Hr. simpl in Hr.
    destruct (decide (t = c_TenantID c)) as [Ht|Ht].
    + rewrite option_guard_True in Hr by done. simpl in Hr. destruct Hr as (w3 & H3 & Hs3 & _).
      rewrite Hrem in H3. injection H3 as -> ->. split; [done|]. rewrite Hs3. simpl.
      rewrite delete_insert_id by done. by destruct (store_db (w_st w)).
    + rewrite option_guard_False in Hr by (simpl; congruence). simpl in Hr.
      destruct Hr as (w3 & H3 & Hs3 & _). rewrite Hrem in H3. by injection H3 as -> ->.
Qed.

End calls.

(** ** A concrete service on the reference libraries *)

(** A vertical whose development may move to shooting, which the status column
    does not know, or to completed, which it does.  UUIDs count up from 100; users
    9 and below may do anything. *)
Module ProjectDemo.

#[local] Existing Instance ref_external.
#[local] Existing Instance ref_dates.

Definition config : Config :=
  mkConfig "film" "Film" "1" "" (mkEntityLabels "" "" "" "" "" "" "" "")
    [mkPhaseType "development" "Development" 1 false ["shooting"; "completed"];
     mkPhaseType "shooting" "Shooting" 2 true [];
     mkPhaseType "completed" "Completed" 3 false []]
    [] [] [] (mkApprovalWorkflow [] 0) [] [] (mkCustomFields [] []) [] ∅.

Definition caller (user t : uuid) : Ctx :=
  mkCtx (Some (mkCaller user t 0%N "a@b.co" [] [] "")).
Definition perms : PermissionChecker := fun u _ _ => Ok (bool_decide (u <= 9)%N).
Definition handler : ProjectHandler.Handler :=
  ProjectHandler.mkHandler (Project.mkService true) (Some perms) false (fun _ => Some config).
Definition env : Env :=
  mkEnv (fun n => 100 + N.of_nat n)%N 0 (fun n => 1700000000 * ns_per_sec + Z.of_nat n) 0
    (fun _ => false) 0 0.
Definition world (s : St) : World St := mkWorld s env (fun _ s => s) [].

(** Runs RPCs one after the other, each for its caller. *)
Fixpoint run (rs : list (Ctx * ProjectHandler.Rpc)) (w : World St) : World St :=
  match rs with
  | [] => w
  | (c, r) :: rs' => run rs' (ProjectHandler.handle handler c r w).2
  end.

Definition manager : Ctx := caller 9 7.
Definition create (title : string) : ProjectHandler.Rpc :=
  ProjectHandler.CreateProductionRpc (ProjectHandler.mkProductionReq title "" "").

(** Tenant 7's production 100 with a phase 101 in development, which a request
    tried to move to shooting. *)
Definition started : World St :=
  run [(manager, create "Pilot"); (manager, ProjectHandler.CreatePhaseRpc "100" "development");
       (manager, ProjectHandler.UpdatePhaseStatusRpc "101" "shooting")] (world empty_st).
(** The same, archived and then renamed. *)
Definition renamed : World St :=
  run [(manager, ProjectHandler.ArchiveProductionRpc "100");
       (manager, ProjectHandler.UpdateProductionRpc "100" "Episode" "")] started.

Definition phase_row : PhaseRow :=
  mkPhaseRow 101 100 7 "development" "pending" None None 1700000000000000001 1700000000000000001.
Definition production_row : ProductionRow :=
  mkProductionRow 100 7 "Pilot" "Pilot" (Some "") (Some "") (Some "") "development" None None uuid_nil
    1700000000000000000 1700000000000000000.
Definition driver : CrewMember :=
  mkCrewMember uuid_nil 100 7 None "Ana" "driver" "" 400005 "INR" None None zero_time.

End ProjectDemo.

Section witnesses.
#[local] Existing Instance ref_external.
#[local] Existing Instance ref_dates.
Import ProjectDemo.

Lemma project_demo_rely (w : World St) :
  (forall n s, w_other w n s = s) -> rely (store_step (project_step handler)) w.
Proof. intros H n s. rewrite H. split; [apply pstep_preorder|done]. Qed.

Lemma project_run_reachable rs (w : World St) :
  project_reachable handler (w_st w) -> (forall n s, w_other w n s = s) ->
  project_reachable handler (w_st (run rs w)) /\ forall n s, w_other (run rs w) n s = s.
Proof.
  revert w. induction rs as [|[c r] rs IH]; intros w Hr Ho; simpl; [done|].
  pose proof (project_demo_rely w Ho) as HR.
  apply IH; [by apply pj_rpc|].
  destruct (handle_project_step handler c r w HR) as (_ & Hoth & _).
  intros n s. etrans; [exact (f_equal (fun f => f n s) Hoth)|apply Ho].
Qed.

Lemma started_reachable :
  project_reachable handler (w_st started) /\ forall n s, w_other started n s = s.
Proof. exact (project_run_reachable _ (world empty_st) (pj_empty _) (fun n s => eq_refl)). Qed.

Lemma phase_row_there : phases (store_db (w_st started)) !! 101%N = Some phase_row.
Proof. vm_refl. Qed.
Lemma production_row_there : productions (store_db (w_st started)) !! 100%N = Some production_row.
Proof. vm_refl. Qed.

(** The move to shooting is answered Internal. *)
Example allowed_move_is_internal :
  check_transition config "development" "shooting" = Ok tt
  /\ (ProjectHandler.handle handler manager (ProjectHandler.UpdatePhaseStatusRpc "101" "shooting")
        started).1 = Err (mkStatus Internal "internal error").
Proof. split; vm_refl. Qed.

(** The title "Pilot" is free again, its slug is not: a new production of that
    title is refused.  An archived production is renamed like any other. *)
Example renamed_title_stays_taken :
  pr_Title <$> (productions (store_db (w_st renamed)) !! 100%N) = Some "Episode"
  /\ pr_Slug <$> (productions (store_db (w_st renamed)) !! 100%N) = Some "Pilot"
  /\ pr_Status <$> (productions (store_db (w_st renamed)) !! 100%N) = Some "archived"
  /\ (ProjectHandler.handle handler manager (create "Pilot") renamed).1
     = Err (mkStatus AlreadyExists "production with this slug already exists").
Proof. split; [vm_refl|]. split; [vm_refl|]. split; vm_refl. Qed.

(** An archived production takes new phases. *)
Example archived_takes_phases :
  (ProjectHandler.handle handler manager (ProjectHandler.CreatePhaseRpc "100" "shooting") renamed).1
  = Ok (ProjectHandler.PhaseResp (ProjectHandler.mkPbPhase "102" "100" "shooting" "pending" "" "")).
Proof. vm_refl. Qed.

Lemma project_tables_ok_witness :
  pr_Status production_row = "development" /\ pr_CreatedBy production_row = uuid_nil
  /\ is_Some (productions (store_db (w_st started)) !! 100%N).
Proof.
  destruct (project_tables_ok handler (w_st started) (proj1 started_reachable)) as (_ & H1 & H2 & _).
  split; [reflexivity|]. split.
  - exact (proj1 (proj2 (proj2 (H1 100%N production_row production_row_there)))).
  - exact (proj2 (H2 101%N phase_row phase_row_there)).
Defined.

Lemma phase_never_advances_witness :
  (exists cfg, ProjectHandler.h_loader handler 7 = Some cfg
               /\ is_Some (FindPhaseType cfg (phr_PhaseType phase_row)))
  /\ exists r', phases (store_db (w_st (ProjectHandler.handle handler manager
                  (ProjectHandler.UpdatePhaseStatusRpc "101" "completed") started).2)) !! 101%N = Some r'
                /\ phr_PhaseType r' = phr_PhaseType phase_row.
Proof.
  destruct (phase_never_advances handler (w_st started) (proj1 started_reachable)) as [H1 H2].
  split; [exact (proj1 (H1 101%N phase_row phase_row_there))|].
  exact (H2 manager (ProjectHandler.UpdatePhaseStatusRpc "101" "completed") started eq_refl
           (project_demo_rely started (proj2 started_reachable)) 101%N phase_row phase_row_there).
Defined.

Lemma project_demo_quiet (s : St) : quiet (world s).
Proof. split; reflexivity. Qed.
Lemma update_phase_outcomes_witness :
  exists e, (Project.UpdatePhaseStatus config 7 101 "shooting" (world (w_st started))).1 = Err e
  /\ ProjectHandler.grpcErr e = mkStatus Internal "internal error".
Proof.
  pose proof phase_row_there as Hrow. revert Hrow. generalize (w_st started). intros s Hrow.
  pose proof (update_phase_outcomes config 7 101 "shooting" (world s)) as H.
  specialize (H _ _ (project_demo_quiet _) (surjective_pairing _)). simpl w_st in H.
  rewrite (proj2 (owned_Some phr_TenantID 7%N _ 101%N phase_row) (conj Hrow eq_refl)) in H.
  destruct H as (e & H1 & H2 & _). exists e. split; [exact H1|exact H2].
Defined.

Lemma crew_round_trip_witness :
  exists c, (Project.AddCrewMember (Project.mkService true) driver (world (w_st started))).1 = Ok c
  /\ store_db (w_st (Project.RemoveCrewMember 7 (c_ID c)
       (Project.AddCrewMember (Project.mkService true) driver (world (w_st started))).2).2)
     = store_db (w_st started).
Proof.
  assert (Hok : (Project.AddCrewMember (Project.mkService true) driver (world (w_st started))).1
                = Ok (with_crew_id 100%N driver)) by vm_refl.
  exists (with_crew_id 100%N driver). split; [exact Hok|]. revert Hok.
  generalize (w_st started). intros s Hok.
  pose proof (crew_round_trip (Project.mkService true) driver (world s)) as H.
  specialize (H _ (Project.RemoveCrewMember 7 100
    (Project.AddCrewMember (Project.mkService true) driver (world s)).2).2 _ 7%N
    (Project.RemoveCrewMember 7 100
    (Project.AddCrewMember (Project.mkService true) driver (world s)).2).1
    (project_demo_quiet _) (surjective_pairing _)).
  rewrite Hok in H. destruct H as (_ & _ & _ & H).
  exact (proj2 (H (surjective_pairing _))).
Defined.

End witnesses.
