(* ===== verification/Inventory.v ===== *)
(** Inventory management (services/inventory): the records of models.go, the tables
    of migrations/inventory with the statements of db/queries.sql.go, the
    repository of db/postgres.go in the module [Postgres], and the service of
    service.go. *)

From S2P Require Export Vertical Store.
Local Open Scope Z_scope.

(** ** Errors (errors.go) *)

(** The last is [vertical.ErrNotFound], which [grpcErr] also tests for. *)
Inductive IvErr :=
| ErrAssetNotFound | ErrAssetNotAvailable | ErrInvalidCategory | ErrAlreadyCheckedOut
| ErrNoActiveCheckout | ErrVerticalNotFound.

#[export] Instance IvErr_eq_dec : EqDecision IvErr.
Proof. solve_decision. Defined.

Definition IvErr_text (e : IvErr) : string :=
  match e with
  | ErrAssetNotFound => "inventory: asset not found"
  | ErrAssetNotAvailable => "inventory: asset is not available for checkout"
  | ErrInvalidCategory => "inventory: invalid category for this vertical"
  | ErrAlreadyCheckedOut => "inventory: asset is already checked out"
  | ErrNoActiveCheckout => "inventory: no open checkout for this asset"
  | ErrVerticalNotFound => "vertical: config not found"
  end.

(** PostgreSQL where a statement leaves it a choice: [ILIKE], which depends on the
    locale, and which row a [LIMIT 1] without ORDER BY returns among those that
    match. *)
Class Planner := {
  text_ilike : string -> string -> bool;
  any_row : forall A, list A -> option A;
  any_row_in : forall A (l : list A) r, any_row A l = Some r -> r ∈ l;
  any_row_none : forall A (l : list A), any_row A l = None -> l = [];
}.
Arguments any_row {_ A} l.

(** ** Records (models.go) *)

Section model.
Context {X : External} {D : Dates}.

Record Asset := mkAsset {
  a_ID : uuid;
  a_TenantID : uuid;
  a_AssetCode : string;
  a_Name : string;
  a_CategoryID : string;
  a_Description : string;
  a_OwnershipType : string;
  a_Status : string;
  a_PurchaseDate : option string;
  a_PurchaseCost : Dec;
  a_SerialNumber : string;
  a_CreatedAt : Time;
  a_UpdatedAt : Time;
}.

Record AssetCheckout := mkAssetCheckout {
  co_ID : uuid;
  co_AssetID : uuid;
  co_ProductionID : uuid;
  co_TenantID : uuid;
  co_CheckedOutTo : uuid;
  co_CheckedOutAt : Time;
  co_ExpectedReturn : option string;
  co_CheckedInAt : option Time;
  co_ConditionOut : string;
  co_ConditionIn : string;
  co_Notes : string;
  co_ReportDamage : bool;
  co_DamageSeverity : string;
  co_DamageDescription : string;
  co_RepairCost : option Dec;
}.

Record CheckInInput := mkCheckInInput {
  cin_ConditionIn : string;
  cin_Notes : string;
  cin_ReportDamage : bool;
  cin_DamageSeverity : string;
  cin_DamageDescription : string;
  cin_RepairCost : option Dec;
}.

(** ** Tables (db/models.go): a nullable column is an option *)

Record AssetRow := mkAssetRow {
  ar_ID : uuid;
  ar_TenantID : uuid;
  ar_AssetCode : string;
  ar_Name : string;
  ar_CategoryID : string;
  ar_Description : option string;
  ar_OwnershipType : string;
  ar_Status : string;
  ar_PurchaseDate : option Date;
  ar_PurchaseCost : option Dec;
  ar_SerialNumber : option string;
  ar_CreatedAt : Time;
  ar_UpdatedAt : Time;
}.

Record CheckoutRow := mkCheckoutRow {
  cr_ID : uuid;
  cr_AssetID : uuid;
  cr_ProductionID : uuid;
  cr_TenantID : uuid;
  cr_CheckedOutTo : uuid;
  cr_CheckedOutAt : Time;
  cr_ExpectedReturn : option Date;
  cr_CheckedInAt : option Time;
  cr_ConditionOut : option string;
  cr_ConditionIn : option string;
  cr_Notes : option string;
  cr_ReportDamage : bool;
  cr_DamageSeverity : option string;
  cr_DamageDescription : option string;
  cr_RepairCost : option Dec;
}.

Record DB := mkDB {
  assets : gmap uuid AssetRow;
  checkouts : gmap uuid CheckoutRow;
}.
Definition empty_db : DB := mkDB ∅ ∅.
Definition set_assets (t : gmap uuid AssetRow) (d : DB) : DB := mkDB t (checkouts d).
Definition set_checkouts (t : gmap uuid CheckoutRow) (d : DB) : DB := mkDB (assets d) t.

End model.

(** The service publishes nothing. *)
Abbreviation St := (Store DB Empty_set) (only parsing).
Definition empty_st {X : External} {D : Dates} : St := mkStore empty_db [].

(** ** Statements (db/queries.sql.go) *)

Module Queries.
Section queries.
Context {X : External} {D : Dates} {P : Planner}.

Definition ownership_ok (ownership : string) : bool :=
  bool_decide (ownership ∈ ["owned"; "rented"; "borrowed"]).
Definition status_ok (status : string) : bool :=
  bool_decide (status ∈ ["available"; "checked_out"; "under_repair"; "retired"]).

Definition of_tenant (tenantID : uuid) (r : AssetRow) : bool :=
  bool_decide (ar_TenantID r = tenantID).
Definition checkout_of_tenant (tenantID : uuid) (r : CheckoutRow) : bool :=
  bool_decide (cr_TenantID r = tenantID).

(** A nullable NUMERIC(14,2) column: [None] when the value does not fit. *)
Definition numeric_opt (cost : option Dec) : option (option Dec) :=
  match cost with None => Some None | Some c => Some <$> dec_numeric_14_2 c end.

(** UNIQUE (tenant_id, asset_code) *)
Definition code_taken (tenantID : uuid) (code : string) (d : DB) : bool :=
  exists_row (fun r => of_tenant tenantID r && bool_decide (ar_AssetCode r = code)) (assets d).

(** ON CONFLICT (id) DO NOTHING RETURNING: no row when the id is taken. *)
Definition CreateAsset (now : Time) (id tenantID : uuid) (code name category : string)
    (description : option string) (ownership status : string) (purchaseDate : option Date)
    (purchaseCost : option Dec) (serial : option string) (d : DB) :
    result pg_error (AssetRow * DB) :=
  match numeric_opt purchaseCost with
  | None => Err PgConstraint
  | Some cost =>
    if negb (ownership_ok ownership) || negb (status_ok status) then Err PgConstraint
    else if bool_decide (is_Some (assets d !! id)) then Err PgNoRows
    else if code_taken tenantID code d then Err PgUniqueViolation
    else let r := mkAssetRow id tenantID code name category description ownership status purchaseDate
                    cost serial now now in
         Ok (r, set_assets (<[id := r]> (assets d)) d)
  end.

Definition GetAsset (tenantID id : uuid) (d : DB) : result pg_error AssetRow :=
  get_row (assets d) id (of_tenant tenantID).

(** No two rows match: the code is unique.  Nothing calls it. *)
Definition GetAssetByCode (tenantID : uuid) (code : string) (d : DB) : result pg_error AssetRow :=
  one_row (select (fun r => bool_decide (ar_AssetCode r = code) && of_tenant tenantID r) (assets d)).

(** ['%' || $6 || '%'] *)
Definition search_pattern (search : string) : string := "%" +:+ search +:+ "%".
Definition asset_listed (tenantID : uuid) (status category search : string) (r : AssetRow) : bool :=
  of_tenant tenantID r
  && (bool_decide (status = "") || bool_decide (ar_Status r = status))
  && (bool_decide (category = "") || bool_decide (ar_CategoryID r = category))
  && (bool_decide (search = "") || text_ilike (ar_Name r) (search_pattern search)
      || text_ilike (ar_AssetCode r) (search_pattern search)).
(** [ORDER BY name ASC] *)
Definition ListAssets (tenantID : uuid) (status category search : string) (limit offset : Z) (d : DB) :
    result pg_error (list AssetRow) :=
  Ok (limit_offset limit offset
        (order_by (fun a b => text_le (ar_Name a) (ar_Name b))
           (select (asset_listed tenantID status category search) (assets d)))).

(** [COALESCE(NULLIF($n, ''), column)] *)
Definition or_column (arg column : string) : string := if decide (arg = "") then column else arg.
(** Nothing calls it. *)
Definition UpdateAsset (now : Time) (tenantID id : uuid) (name : string) (description : option string)
    (category : string) (d : DB) : result pg_error (AssetRow * DB) :=
  match GetAsset tenantID id d with
  | Err e => Err e
  | Ok r =>
    let r' := mkAssetRow (ar_ID r) (ar_TenantID r) (ar_AssetCode r) (or_column name (ar_Name r))
                (or_column category (ar_CategoryID r)) description (ar_OwnershipType r) (ar_Status r)
                (ar_PurchaseDate r) (ar_PurchaseCost r) (ar_SerialNumber r) (ar_CreatedAt r) now in
    Ok (r', set_assets (<[id := r']> (assets d)) d)
  end.

Definition with_status (now : Time) (status : string) (r : AssetRow) : AssetRow :=
  mkAssetRow (ar_ID r) (ar_TenantID r) (ar_AssetCode r) (ar_Name r) (ar_CategoryID r)
    (ar_Description r) (ar_OwnershipType r) status (ar_PurchaseDate r) (ar_PurchaseCost r)
    (ar_SerialNumber r) (ar_CreatedAt r) now.
Definition UpdateAssetStatus (now : Time) (tenantID id : uuid) (status : string) (d : DB) :
    result pg_error (AssetRow * DB) :=
  match GetAsset tenantID id d with
  | Err e => Err e
  | Ok r => if negb (status_ok status) then Err PgConstraint
            else let r' := with_status now status r in
                 Ok (r', set_assets (<[id := r']> (assets d)) d)
  end.

(** asset_id REFERENCES assets(id), of any tenant; nothing keeps an asset from
    having two open checkouts. *)
Definition CheckoutAsset (now : Time) (id assetID productionID tenantID checkedOutTo : uuid)
    (expectedReturn : option Date) (conditionOut : option string) (d : DB) :
    result pg_error (CheckoutRow * DB) :=
  if bool_decide (is_Some (checkouts d !! id)) then Err PgNoRows
  else if negb (bool_decide (is_Some (assets d !! assetID))) then Err PgConstraint
  else let r := mkCheckoutRow id assetID productionID tenantID checkedOutTo now expectedReturn None
                  conditionOut None None false None None None in
       Ok (r, set_checkouts (<[id := r]> (checkouts d)) d).

Definition GetCheckout (tenantID id : uuid) (d : DB) : result pg_error CheckoutRow :=
  get_row (checkouts d) id (checkout_of_tenant tenantID).

Definition open_checkout (tenantID assetID : uuid) (r : CheckoutRow) : bool :=
  bool_decide (cr_AssetID r = assetID) && checkout_of_tenant tenantID r
  && bool_decide (cr_CheckedInAt r = None).
(** [LIMIT 1] without an order. *)
Definition GetActiveCheckout (tenantID assetID : uuid) (d : DB) : result pg_error CheckoutRow :=
  match any_row (select (open_checkout tenantID assetID) (checkouts d)) with
  | Some r => Ok r
  | None => Err PgNoRows
  end.

Definition checked_in (now : Time) (conditionIn notes : option string) (reportDamage : bool)
    (severity description : option string) (cost : option Dec) (r : CheckoutRow) : CheckoutRow :=
  mkCheckoutRow (cr_ID r) (cr_AssetID r) (cr_ProductionID r) (cr_TenantID r) (cr_CheckedOutTo r)
    (cr_CheckedOutAt r) (cr_ExpectedReturn r) (Some now) (cr_ConditionOut r) conditionIn notes
    reportDamage severity description cost.
(** A checkout that was checked in before is checked in again. *)
Definition CheckinAsset (now : Time) (tenantID id : uuid) (conditionIn notes : option string)
    (reportDamage : bool) (severity description : option string) (repairCost : option Dec) (d : DB) :
    result pg_error (CheckoutRow * DB) :=
  match GetCheckout tenantID id d with
  | Err e => Err e
  | Ok r =>
    match numeric_opt repairCost with
    | None => Err PgConstraint
    | Some cost =>
      let r' := checked_in now conditionIn notes reportDamage severity description cost r in
      Ok (r', set_checkouts (<[id := r']> (checkouts d)) d)
    end
  end.

(** [ORDER BY checked_out_at DESC], strictly before the cursor. *)
Definition checkout_listed (tenantID assetID : uuid) (after : option Time) (r : CheckoutRow) : bool :=
  checkout_of_tenant tenantID r && bool_decide (cr_AssetID r = assetID)
  && match after with None => true | Some t => bool_decide (cr_CheckedOutAt r < t) end.
Definition newest_first (a b : CheckoutRow) : bool :=
  bool_decide (cr_CheckedOutAt b <= cr_CheckedOutAt a).
Definition ListCheckouts (tenantID assetID : uuid) (after : option Time) (limit : Z) (d : DB) :
    result pg_error (list CheckoutRow) :=
  Ok (limit_offset limit 0
        (order_by newest_first (select (checkout_listed tenantID assetID after) (checkouts d)))).

End queries.
End Queries.

(** ** Repository (db/postgres.go) *)

Module Postgres.
Section repository.
Context {X : External} {D : Dates} {P : Planner}.

Abbreviation Op := (M St (error IvErr)) (only parsing).

Definition decimalFromPgNumeric (n : option Dec) : Dec :=
  match n with Some d => d | None => dec_zero end.
(** [nil] is NULL, both ways. *)
Definition pgNumericFromDecimalPtr (d : option Dec) : option Dec := d.
Definition decimalPtrFromPgNumeric (n : option Dec) : option Dec := n.
Definition pgDateFromPtrString (s : option string) : option Date :=
  match s with None => None | Some s => if decide (s = "") then None else date_scan s end.
Definition ptrStringFromPgDate (d : option Date) : option string := date_format <$> d.

Definition assetFromDB (r : AssetRow) : Asset :=
  mkAsset (ar_ID r) (ar_TenantID r) (ar_AssetCode r) (ar_Name r) (ar_CategoryID r)
    (stringFromPgText (ar_Description r)) (ar_OwnershipType r) (ar_Status r)
    (ptrStringFromPgDate (ar_PurchaseDate r)) (decimalFromPgNumeric (ar_PurchaseCost r))
    (stringFromPgText (ar_SerialNumber r)) (ar_CreatedAt r) (ar_UpdatedAt r).
Definition checkoutFromDB (r : CheckoutRow) : AssetCheckout :=
  mkAssetCheckout (cr_ID r) (cr_AssetID r) (cr_ProductionID r) (cr_TenantID r) (cr_CheckedOutTo r)
    (cr_CheckedOutAt r) (ptrStringFromPgDate (cr_ExpectedReturn r)) (cr_CheckedInAt r)
    (stringFromPgText (cr_ConditionOut r)) (stringFromPgText (cr_ConditionIn r))
    (stringFromPgText (cr_Notes r)) (cr_ReportDamage r) (stringFromPgText (cr_DamageSeverity r))
    (stringFromPgText (cr_DamageDescription r)) (decimalPtrFromPgNumeric (cr_RepairCost r)).

Definition CreateAsset (a : Asset) : Op unit :=
  now ← time_now;
  _ ← map_err (pg_wrap "inventory: create asset: %w")
        (q_exec (Queries.CreateAsset now (a_ID a) (a_TenantID a) (a_AssetCode a) (a_Name a)
                   (a_CategoryID a) (pgTextFromString (a_Description a)) (a_OwnershipType a)
                   (a_Status a) (pgDateFromPtrString (a_PurchaseDate a)) (Some (a_PurchaseCost a))
                   (pgTextFromString (a_SerialNumber a))));
  mret tt.

Definition GetAsset (tenantID id : uuid) : Op Asset :=
  r ← map_err (no_rows_as ErrAssetNotFound "inventory: get asset: %w")
        (q_query (Queries.GetAsset tenantID id));
  mret (assetFromDB r).

Definition ListAssets (tenantID : uuid) (status categoryID search : string) (limit offset : Z) :
    Op (list Asset) :=
  l ← map_err (pg_wrap "inventory: list assets: %w")
        (q_query (Queries.ListAssets tenantID status categoryID search (int32 limit) (int32 offset)));
  mret (assetFromDB <$> l).

Definition UpdateAssetStatus (tenantID id : uuid) (status : string) : Op unit :=
  now ← time_now;
  _ ← map_err (no_rows_as ErrAssetNotFound "inventory: update asset status: %w")
        (q_exec (Queries.UpdateAssetStatus now tenantID id status));
  mret tt.

Definition CheckOutAsset (c : AssetCheckout) : Op unit :=
  now ← time_now;
  _ ← map_err (pg_wrap "inventory: checkout asset: %w")
        (q_exec (Queries.CheckoutAsset now (co_ID c) (co_AssetID c) (co_ProductionID c)
                   (co_TenantID c) (co_CheckedOutTo c) (pgDateFromPtrString (co_ExpectedReturn c))
                   (pgTextFromString (co_ConditionOut c))));
  mret tt.

Definition GetActiveCheckout (tenantID assetID : uuid) : Op AssetCheckout :=
  r ← map_err (no_rows_as ErrNoActiveCheckout "inventory: get active checkout: %w")
        (q_query (Queries.GetActiveCheckout tenantID assetID));
  mret (checkoutFromDB r).

Definition CheckInAsset (tenantID checkoutID : uuid) (i : CheckInInput) : Op AssetCheckout :=
  now ← time_now;
  r ← map_err (no_rows_as ErrAssetNotFound "inventory: check in asset: %w")
        (q_exec (Queries.CheckinAsset now tenantID checkoutID (pgTextFromString (cin_ConditionIn i))
                   (pgTextFromString (cin_Notes i)) (cin_ReportDamage i)
                   (pgTextFromString (cin_DamageSeverity i))
                   (pgTextFromString (cin_DamageDescription i))
                   (pgNumericFromDecimalPtr (cin_RepairCost i))));
  mret (checkoutFromDB r).

Definition GetCheckout (tenantID id : uuid) : Op AssetCheckout :=
  r ← map_err (no_rows_as ErrAssetNotFound "inventory: get checkout: %w")
        (q_query (Queries.GetCheckout tenantID id));
  mret (checkoutFromDB r).

(** The cursor is parsed before the statement runs. *)
Definition parse_cursor (after : string) : result (error IvErr) (option Time) :=
  if decide (after = "") then Ok None
  else match parse_rfc3339 after with
       | Some t => Ok (Some t)
       | None => Err (EWrap "inventory/db: invalid after cursor: %w" (EText "cannot parse"))
       end.
Definition ListCheckouts (tenantID assetID : uuid) (limit : Z) (after : string) :
    Op (list AssetCheckout) :=
  afterTS ← lift_result (parse_cursor after);
  l ← map_err (pg_wrap "inventory: list checkouts: %w")
        (q_query (Queries.ListCheckouts tenantID assetID afterTS (int32 limit)));
  mret (checkoutFromDB <$> l).

End repository.
End Postgres.

(** ** Service (service.go): it has no state of its own *)

Section service.
Context {X : External} {D : Dates} {P : Planner}.

Abbreviation Op := (M St (error IvErr)) (only parsing).

Implicit Types (vcfg : Config).

Definition with_asset_id (id : uuid) (a : Asset) : Asset :=
  mkAsset id (a_TenantID a) (a_AssetCode a) (a_Name a) (a_CategoryID a) (a_Description a)
    (a_OwnershipType a) (a_Status a) (a_PurchaseDate a) (a_PurchaseCost a) (a_SerialNumber a)
    (a_CreatedAt a) (a_UpdatedAt a).
(** Returns the asset it was given, with its id; so does [CheckOutAsset]. *)
Definition CreateAsset vcfg (a : Asset) : Op Asset :=
  match FindInventoryCategory vcfg (a_CategoryID a) with
  | None => mthrow (EWrap "%w: %q is not valid for vertical %s" (ESent ErrInvalidCategory))
  | Some _ =>
    id ← id_or_new (a_ID a);
    let a := with_asset_id id a in
    _ ← Postgres.CreateAsset a;
    mret a
  end.

Definition GetAsset (tenantID id : uuid) : Op Asset := Postgres.GetAsset tenantID id.

Definition ListAssets (tenantID : uuid) (status categoryID search : string) (limit offset : Z) :
    Op (list Asset) :=
  let limit := if bool_decide (limit <= 0) || bool_decide (100 < limit) then 20 else limit in
  Postgres.ListAssets tenantID status categoryID search limit offset.

Definition with_checkout_id (id : uuid) (c : AssetCheckout) : AssetCheckout :=
  mkAssetCheckout id (co_AssetID c) (co_ProductionID c) (co_TenantID c) (co_CheckedOutTo c)
    (co_CheckedOutAt c) (co_ExpectedReturn c) (co_CheckedInAt c) (co_ConditionOut c)
    (co_ConditionIn c) (co_Notes c) (co_ReportDamage c) (co_DamageSeverity c)
    (co_DamageDescription c) (co_RepairCost c).
(** Three statements, each on its own: the status is read, the checkout inserted,
    the status written. *)
Definition CheckOutAsset (c : AssetCheckout) : Op AssetCheckout :=
  asset ← wrap "get asset: %w" (Postgres.GetAsset (co_TenantID c) (co_AssetID c));
  if negb (bool_decide (a_Status asset = "available"))
  then mthrow (EWrap "%w: current status is %q" (ESent ErrAssetNotAvailable))
  else id ← id_or_new (co_ID c);
       let c := with_checkout_id id c in
       _ ← Postgres.CheckOutAsset c;
       _ ← Postgres.UpdateAssetStatus (co_TenantID c) (co_AssetID c) "checked_out";
       mret c.

Definition returned_status (i : CheckInInput) : string :=
  if cin_ReportDamage i then "under_repair" else "available".
(** Three statements again. *)
Definition CheckInAsset (tenantID assetID : uuid) (i : CheckInInput) : Op AssetCheckout :=
  co ← Postgres.GetActiveCheckout tenantID assetID;
  updated ← Postgres.CheckInAsset tenantID (co_ID co) i;
  _ ← Postgres.UpdateAssetStatus tenantID assetID (returned_status i);
  mret updated.

Definition GetInventoryCategories vcfg : list InventoryCategory := cfg_InventoryCategories vcfg.

Definition GetCheckout (tenantID id : uuid) : Op AssetCheckout := Postgres.GetCheckout tenantID id.

Definition ListCheckouts (tenantID assetID : uuid) (limit : Z) (after : string) :
    Op (list AssetCheckout) :=
  let limit := if bool_decide (limit <= 0) || bool_decide (200 < limit) then 20 else limit in
  Postgres.ListCheckouts tenantID assetID limit after.

End service.
