(* ===== verification/InventoryHandler.v ===== *)
(** Inventory management: the gRPC handlers of services/inventory/handler.go behind
    the vertical interceptor.  A handler takes the tenant from the context, checks
    its permission, parses the request, calls the service and renders what it
    reads back. *)

From S2P Require Export Inventory.
Local Open Scope Z_scope.

(** ** Messages *)

Record PbAsset := mkPbAsset {
  pba_Id : string; pba_TenantId : string; pba_AssetCode : string; pba_Name : string;
  pba_CategoryId : string; pba_Description : string; pba_OwnershipType : string;
  pba_Status : string; pba_SerialNumber : string; pba_PurchaseCost : string; pba_CreatedAt : Time;
  pba_UpdatedAt : Time; pba_PurchaseDate : string;
}.
Record PbCheckout := mkPbCheckout {
  pbk_Id : string; pbk_AssetId : string; pbk_ProductionId : string; pbk_TenantId : string;
  pbk_CheckedOutTo : string; pbk_CheckedOutAt : Time; pbk_ConditionOut : string;
  pbk_ConditionIn : string; pbk_ExpectedReturn : string; pbk_CheckedInAt : option Time;
  pbk_Notes : string; pbk_ReportDamage : bool; pbk_DamageSeverity : string;
  pbk_DamageDescription : string; pbk_RepairCost : string;
}.
Record CategoryInfo := mkCategoryInfo {
  cat_Id : string; cat_Label : string; cat_IsTrackable : bool; cat_DepreciationYears : Z }.

Record AssetReq := mkAssetReq {
  ra_AssetCode : string; ra_Name : string; ra_CategoryId : string; ra_Description : string;
  ra_OwnershipType : string; ra_PurchaseDate : string; ra_PurchaseCost : string;
  ra_SerialNumber : string }.
Record CheckOutReq := mkCheckOutReq {
  rk_AssetId : string; rk_ProductionId : string; rk_CheckedOutTo : string;
  rk_ExpectedReturn : string; rk_ConditionOut : string }.
Record CheckInReq := mkCheckInReq {
  ri_AssetId : string; ri_ConditionIn : string; ri_Notes : string; ri_ReportDamage : bool;
  ri_DamageSeverity : string; ri_DamageDescription : string; ri_RepairCost : string }.

(** The RPCs of InventoryService. *)
Inductive Rpc :=
| CreateAssetRpc (r : AssetReq)
| GetAssetRpc (id : string)
| ListAssetsRpc (status category search : string) (limit : Z)
| CheckOutAssetRpc (r : CheckOutReq)
| CheckInAssetRpc (r : CheckInReq)
| ListCheckoutsRpc (asset : string) (limit : Z) (after : string)
| GetInventoryCategoriesRpc.

Inductive Response :=
| AssetResp (a : PbAsset)
| AssetsResp (l : list PbAsset)
| CheckoutResp (c : PbCheckout)
| CheckoutsResp (l : list PbCheckout)
| CategoriesResp (l : list CategoryInfo).

(** [err.Error()]; the text of a wrapped error is its format string. *)
Definition error_text (e : error IvErr) : string :=
  match e with ESent s => IvErr_text s | EWrap t _ => t | EText t => t end.
(** [grpcErr]: the first case of its switch that [errors.Is] accepts. *)
Definition grpcErr (e : error IvErr) : status :=
  let isE s := errors_Is e s in
  if isE ErrAssetNotFound then mkStatus NotFound "asset not found"
  else if isE ErrAssetNotAvailable
  then mkStatus FailedPrecondition "asset is not available for checkout"
  else if isE ErrAlreadyCheckedOut then mkStatus FailedPrecondition "asset is already checked out"
  else if isE ErrInvalidCategory
  then mkStatus InvalidArgument "invalid category for this vertical"
  else if isE ErrNoActiveCheckout then mkStatus FailedPrecondition (error_text e)
  else if isE ErrVerticalNotFound
  then mkStatus FailedPrecondition "vertical config not found for tenant"
  else mkStatus Internal "internal error".

Section handler.
Context {X : External} {D : Dates} {P : Planner}.

(** The handler's collaborators: the permission checker, the project-scoped RBAC
    flag, and the vertical loader of the interceptor,
    whose answers are fixed as long as the handler is. *)
Record Handler := mkHandler {
  h_perm : option PermissionChecker;
  h_scoped : bool;
  h_loader : uuid -> option Config;
}.

Abbreviation Op := (M St status) (only parsing).

Variable h : Handler.
Variable ctx : Ctx.
(** The configuration the interceptor stored. *)
Variable vcfg : option Config.

Definition svc {A} (m : M St (error IvErr) A) : Op A := map_err grpcErr m.
Definition require (perm : string) : result status unit :=
  RequirePermission (h_scoped h) (h_perm h) ctx perm.

(** ** Rendering *)

Definition date_text (d : option string) : string := match d with Some s => s | None => "" end.
(** A request field that is absent when empty. *)
Definition opt_text (s : string) : option string := if decide (s = "") then None else Some s.

Definition assetToProto (a : Asset) : PbAsset :=
  mkPbAsset (uuid_string (a_ID a)) (uuid_string (a_TenantID a)) (a_AssetCode a) (a_Name a)
    (a_CategoryID a) (a_Description a) (a_OwnershipType a) (a_Status a) (a_SerialNumber a)
    (dec_string_fixed2 (a_PurchaseCost a)) (a_CreatedAt a) (a_UpdatedAt a)
    (date_text (a_PurchaseDate a)).
Definition checkoutToProto (c : AssetCheckout) : PbCheckout :=
  mkPbCheckout (uuid_string (co_ID c)) (uuid_string (co_AssetID c)) (uuid_string (co_ProductionID c))
    (uuid_string (co_TenantID c)) (uuid_string (co_CheckedOutTo c)) (co_CheckedOutAt c)
    (co_ConditionOut c) (co_ConditionIn c) (date_text (co_ExpectedReturn c)) (co_CheckedInAt c)
    (co_Notes c) (co_ReportDamage c) (co_DamageSeverity c) (co_DamageDescription c)
    (match co_RepairCost c with Some d => dec_string_fixed2 d | None => "" end).

(** ** Assets *)

(** An absent cost is zero. *)
Definition parse_purchase_cost (s : string) : result status Dec :=
  if decide (s = "") then Ok dec_zero
  else parse_decimal s "invalid purchase_cost: must be a decimal string".
Definition new_asset (tenantID : uuid) (cost : Dec) (r : AssetReq) : Asset :=
  mkAsset uuid_nil tenantID (ra_AssetCode r) (ra_Name r) (ra_CategoryId r) (ra_Description r)
    (ra_OwnershipType r) "available" (opt_text (ra_PurchaseDate r)) cost (ra_SerialNumber r)
    zero_time zero_time.
Definition CreateAsset (r : AssetReq) : Op Response :=
  tenantID ← lift_result (tenantFromContext ctx);
  _ ← lift_result (require "inventory:write");
  cost ← lift_result (parse_purchase_cost (ra_PurchaseCost r));
  cfg ← lift_result (MustFromContext vcfg);
  a ← svc (Inventory.CreateAsset cfg (new_asset tenantID cost r));
  out ← svc (Inventory.GetAsset tenantID (a_ID a));
  mret (AssetResp (assetToProto out)).

Definition GetAsset (id : string) : Op Response :=
  tenantID ← lift_result (tenantFromContext ctx);
  _ ← lift_result (require "inventory:read");
  assetID ← lift_result (parse_id id "invalid asset ID");
  a ← svc (Inventory.GetAsset tenantID assetID);
  mret (AssetResp (assetToProto a)).

Definition ListAssets (status category search : string) (limit : Z) : Op Response :=
  tenantID ← lift_result (tenantFromContext ctx);
  _ ← lift_result (require "inventory:read");
  l ← svc (Inventory.ListAssets tenantID status category search limit 0);
  mret (AssetsResp (assetToProto <$> l)).

(** ** Checkouts *)

Definition new_checkout (tenantID assetID productionID checkedOutTo : uuid) (r : CheckOutReq) :
    AssetCheckout :=
  mkAssetCheckout uuid_nil assetID productionID tenantID checkedOutTo zero_time
    (opt_text (rk_ExpectedReturn r)) None (rk_ConditionOut r) "" "" false "" "" None.
Definition CheckOutAsset (r : CheckOutReq) : Op Response :=
  tenantID ← lift_result (tenantFromContext ctx);
  _ ← lift_result (require "inventory:checkout");
  assetID ← lift_result (parse_id (rk_AssetId r) "invalid asset_id");
  productionID ← lift_result (parse_id (rk_ProductionId r) "invalid production_id");
  checkedOutTo ← lift_result (parse_id (rk_CheckedOutTo r) "invalid checked_out_to: must be a valid UUID");
  c ← svc (Inventory.CheckOutAsset (new_checkout tenantID assetID productionID checkedOutTo r));
  out ← svc (Inventory.GetCheckout tenantID (co_ID c));
  mret (CheckoutResp (checkoutToProto out)).

(** [cost.IsNegative()] *)
Definition parse_repair_cost (s : string) : result status (option Dec) :=
  if decide (s = "") then Ok None
  else match parse_decimal s "invalid repair_cost: must be a decimal string" with
       | Err e => Err e
       | Ok cost => if dec_greater dec_zero cost
                    then Err (mkStatus InvalidArgument "repair_cost must not be negative")
                    else Ok (Some cost)
       end.
Definition check_severity (r : CheckInReq) : result status unit :=
  if ri_ReportDamage r && bool_decide (TrimSpace (ri_DamageSeverity r) = "")
  then Err (mkStatus InvalidArgument "damage_severity is required when report_damage is set")
  else Ok tt.
Definition check_in_input (cost : option Dec) (r : CheckInReq) : CheckInInput :=
  mkCheckInInput (ri_ConditionIn r) (ri_Notes r) (ri_ReportDamage r) (ri_DamageSeverity r)
    (ri_DamageDescription r) cost.
Definition CheckInAsset (r : CheckInReq) : Op Response :=
  tenantID ← lift_result (tenantFromContext ctx);
  _ ← lift_result (require "inventory:checkout");
  assetID ← lift_result (parse_id (ri_AssetId r) "invalid asset_id");
  cost ← lift_result (parse_repair_cost (ri_RepairCost r));
  _ ← lift_result (check_severity r);
  co ← svc (Inventory.CheckInAsset tenantID assetID (check_in_input cost r));
  mret (CheckoutResp (checkoutToProto co)).

Definition check_cursor (after : string) : result status unit :=
  if decide (after = "") then Ok tt
  else match parse_rfc3339 after with
       | Some _ => Ok tt
       | None => Err (mkStatus InvalidArgument "invalid after: must be an RFC3339 timestamp")
       end.
Definition ListCheckouts (asset : string) (limit : Z) (after : string) : Op Response :=
  tenantID ← lift_result (tenantFromContext ctx);
  _ ← lift_result (require "inventory:read");
  assetID ← lift_result (parse_id asset "invalid asset_id");
  _ ← lift_result (check_cursor after);
  l ← svc (Inventory.ListCheckouts tenantID assetID limit after);
  mret (CheckoutsResp (checkoutToProto <$> l)).

(** ** Vertical metadata: no tenant or permission is checked *)

Definition category_info (c : InventoryCategory) : CategoryInfo :=
  mkCategoryInfo (ic_ID c) (ic_Label c) (ic_IsTrackable c)
    (match ic_DepreciationYears c with Some y => int32 y | None => 0 end).
Definition GetInventoryCategories : Op Response :=
  cfg ← lift_result (MustFromContext vcfg);
  mret (CategoriesResp (category_info <$> Inventory.GetInventoryCategories cfg)).

End handler.

(** ** Dispatch: the vertical interceptor, then the handler *)

Section dispatch.
Context {X : External} {D : Dates} {P : Planner}.
Variable h : Handler.
Variable ctx : Ctx.

Definition handle_rpc (vcfg : option Config) (r : Rpc) : M St status Response :=
  match r with
  | CreateAssetRpc q => CreateAsset h ctx vcfg q
  | GetAssetRpc i => GetAsset h ctx i
  | ListAssetsRpc st c s l => ListAssets h ctx st c s l
  | CheckOutAssetRpc q => CheckOutAsset h ctx q
  | CheckInAssetRpc q => CheckInAsset h ctx q
  | ListCheckoutsRpc a l af => ListCheckouts h ctx a l af
  | GetInventoryCategoriesRpc => GetInventoryCategories vcfg
  end.

Definition handle (r : Rpc) : M St status Response :=
  vcfg ← lift_result (attachConfig (h_loader h) ctx);
  handle_rpc vcfg r.

End dispatch.
