(* ===== verification/InventoryProps.v ===== *)
(** Inventory management: how the tables may change, whatever requests interleave
    ([vstep]), that every RPC stays within it ([handle_vstep]), and what holds in
    the states the service can reach. *)

From S2P Require Export InventoryHandler.
Local Open Scope Z_scope.

Section relation.
Context {X : External} {D : Dates} {P : Planner} {L : ExternalLaws}.
Variable loader : uuid -> option Config.

(** ** Rows *)

(** What holds of a stored asset. *)
Record asset_ok (r : AssetRow) : Prop := {
  ao_status : ar_Status r ∈ ["available"; "checked_out"; "under_repair"];
  ao_ownership : ar_OwnershipType r ∈ ["owned"; "rented"; "borrowed"];
  ao_category : exists cfg, loader (ar_TenantID r) = Some cfg
                            /\ is_Some (FindInventoryCategory cfg (ar_CategoryID r));
}.

(** What a check-in may write. *)
Definition report_ok (damaged : bool) (severity : option string) (cost : option Dec) : Prop :=
  (damaged = true -> exists s, severity = Some s /\ TrimSpace s <> "")
  /\ forall c, cost = Some c -> (0 <= dec_val c)%Qc.
(** What holds of a stored checkout: an open one has no report yet, and a report of
    damage names its severity. *)
Record checkout_ok (r : CheckoutRow) : Prop := {
  ko_open : cr_CheckedInAt r = None ->
    cr_ConditionIn r = None /\ cr_Notes r = None /\ cr_ReportDamage r = false
    /\ cr_DamageSeverity r = None /\ cr_DamageDescription r = None /\ cr_RepairCost r = None;
  ko_report : report_ok (cr_ReportDamage r) (cr_DamageSeverity r) (cr_RepairCost r);
}.

(** The columns no statement writes again. *)
Record same_asset (r r' : AssetRow) : Prop := {
  sa_id : ar_ID r' = ar_ID r;
  sa_tenant : ar_TenantID r' = ar_TenantID r;
  sa_code : ar_AssetCode r' = ar_AssetCode r;
  sa_category : ar_CategoryID r' = ar_CategoryID r;
}.
(** Nor is a checkout opened again. *)
Record same_checkout (r r' : CheckoutRow) : Prop := {
  sk_id : cr_ID r' = cr_ID r;
  sk_asset : cr_AssetID r' = cr_AssetID r;
  sk_tenant : cr_TenantID r' = cr_TenantID r;
  sk_out : cr_CheckedOutAt r' = cr_CheckedOutAt r;
  sk_to : cr_CheckedOutTo r' = cr_CheckedOutTo r;
  sk_in : is_Some (cr_CheckedInAt r) -> is_Some (cr_CheckedInAt r');
}.
#[export] Instance same_asset_preorder : PreOrder same_asset.
Proof. split; [by split|]. intros r1 r2 r3 [] []. split; congruence. Qed.
#[export] Instance same_checkout_preorder : PreOrder same_checkout.
Proof. split; [by split|]. intros r1 r2 r3 [] []. split; [congruence..|by auto]. Qed.

(** No tenant has an asset code twice: the UNIQUE constraint. *)
Definition codes_ok (d : DB) : Prop :=
  forall k1 k2 r1 r2, assets d !! k1 = Some r1 -> assets d !! k2 = Some r2 ->
    ar_TenantID r1 = ar_TenantID r2 -> ar_AssetCode r1 = ar_AssetCode r2 -> k1 = k2.
(** The asset of a checkout is its tenant's. *)
Definition asset_of (d : DB) (k : uuid) (r : CheckoutRow) : Prop :=
  exists a, assets d !! cr_AssetID r = Some a /\ ar_TenantID a = cr_TenantID r.
Definition fk_ok (d : DB) : Prop := map_Forall (asset_of d) (checkouts d).

(** ** Steps *)

Definition asset_chg (k : uuid) (o : option AssetRow) (r' : AssetRow) : Prop :=
  match o with
  | None => ar_ID r' = k /\ asset_ok r'
  | Some r => same_asset r r' /\ (asset_ok r -> asset_ok r')
  end.
Definition checkout_chg (k : uuid) (o : option CheckoutRow) (r' : CheckoutRow) : Prop :=
  match o with
  | None => cr_ID r' = k /\ checkout_ok r'
  | Some r => same_checkout r r' /\ (checkout_ok r -> checkout_ok r')
  end.

Record vstep (d d' : DB) : Prop := {
  vs_assets : table_step asset_chg (assets d) (assets d');
  vs_checkouts : table_step checkout_chg (checkouts d) (checkouts d');
  vs_codes : codes_ok d -> codes_ok d';
  vs_fk : fk_ok d -> fk_ok d';
}.

Lemma asset_chg_trans k o r1 r2 : asset_chg k o r1 -> asset_chg k (Some r1) r2 -> asset_chg k o r2.
Proof.
  intros H [Hs Hk]. destruct o as [r|]; destruct H as [H1 H2].
  - split; [by transitivity r1|auto].
  - split; [by rewrite (sa_id _ _ Hs)|by apply Hk].
Qed.
Lemma checkout_chg_trans k o r1 r2 :
  checkout_chg k o r1 -> checkout_chg k (Some r1) r2 -> checkout_chg k o r2.
Proof.
  intros H [Hs Hk]. destruct o as [r|]; destruct H as [H1 H2].
  - split; [by transitivity r1|auto].
  - split; [by rewrite (sk_id _ _ Hs)|by apply Hk].
Qed.

#[export] Instance vstep_preorder : PreOrder vstep.
Proof.
  pose proof (table_step_preorder asset_chg_trans) as HP1.
  pose proof (table_step_preorder checkout_chg_trans) as HP2.
  split; [intros d; by split|]. intros d1 d2 d3 [] [].
  split; [by transitivity (assets d2)|by transitivity (checkouts d2)|auto|auto].
Qed.

(** An asset keeps its tenant. *)
Lemma vstep_asset d d' k r :
  vstep d d' -> assets d !! k = Some r ->
  exists r', assets d' !! k = Some r' /\ ar_TenantID r' = ar_TenantID r.
Proof.
  intros Hs Hr. destruct (table_step_some _ _ _ _ (vs_assets _ _ Hs) Hr) as (r' & Hr' & HQ).
  exists r'. split; [done|]. by destruct HQ as [->|[[] _]].
Qed.
Lemma asset_of_step d d' k r :
  table_step asset_chg (assets d) (assets d') -> asset_of d k r -> asset_of d' k r.
Proof.
  intros Hs (a & Ha & Ht). destruct (table_step_some _ _ _ _ Hs Ha) as (a' & Ha' & HQ).
  exists a'. split; [done|]. destruct HQ as [->|[[] _]]; congruence.
Qed.

(** The shapes of a step: one asset or one checkout. *)
Lemma vstep_set_asset d k r' :
  asset_chg k (assets d !! k) r' ->
  (codes_ok d -> forall k2 r2, assets d !! k2 = Some r2 -> ar_TenantID r2 = ar_TenantID r' ->
     ar_AssetCode r2 = ar_AssetCode r' -> k2 = k) ->
  vstep d (set_assets (<[k := r']> (assets d)) d).
Proof.
  intros Hc Hu. assert (Ht : table_step asset_chg (assets d) (<[k := r']> (assets d)))
    by by apply table_step_insert.
  split; [done|apply table_step_refl|..].
  - intros Hs k1 k2 r1 r2. simpl. rewrite !lookup_insert_Some.
    intros [[<- <-]|[Hne1 H1]] [[<- <-]|[Hne2 H2]] Hte He; [done|..].
    + symmetry. by eapply Hu.
    + by eapply Hu.
    + by eapply Hs.
  - intros F i r Hr. eapply asset_of_step; [exact Ht|by apply F].
Qed.
Lemma vstep_set_checkout d k r' :
  checkout_chg k (checkouts d !! k) r' -> (fk_ok d -> asset_of d k r') ->
  vstep d (set_checkouts (<[k := r']> (checkouts d)) d).
Proof.
  intros Hc Hf. split; [apply table_step_refl|by apply table_step_insert|done|].
  intros F i r. simpl. rewrite lookup_insert_Some. intros [[<- <-]|[_ Hr]]; [by apply Hf|].
  exact (F i r Hr).
Qed.

(** ** Statements *)

Lemma CreateAsset_vstep now id t code name cat de ow pd pc se cfg d a d' :
  loader t = Some cfg -> is_Some (FindInventoryCategory cfg cat) ->
  Queries.CreateAsset now id t code name cat de ow "available" pd pc se d = Ok (a, d') -> vstep d d'.
Proof.
  intros Hl Hcat. unfold Queries.CreateAsset. destruct (Queries.numeric_opt pc) as [cost|]; [|done].
  destruct (negb _ || _) eqn:Hok; [done|]. case_bool_decide as Hid; [done|].
  destruct (Queries.code_taken t code d) eqn:Hs; [done|]. intros [= _ <-].
  bool_hyps. unfold Queries.ownership_ok in *. bool_hyps. apply vstep_set_asset.
  - rewrite free_key by done. split; [done|]. split; simpl; [by left|done|by exists cfg].
  - intros _ k2 r2 H2 Ht He. simpl in *. unfold Queries.code_taken in Hs.
    rewrite exists_row_false in Hs. specialize (Hs k2 r2 H2).
    unfold Queries.of_tenant in Hs. by rewrite !bool_decide_true in Hs.
Qed.

(** The service never retires an asset. *)
Lemma UpdateAssetStatus_vstep now t id st d a d' :
  st ∈ ["available"; "checked_out"; "under_repair"] ->
  Queries.UpdateAssetStatus now t id st d = Ok (a, d') -> vstep d d'.
Proof.
  intros Hst. unfold Queries.UpdateAssetStatus, Queries.GetAsset, Queries.of_tenant.
  destruct (get_row _ _ _) as [r|] eqn:Hg; [|done]. apply get_row_tenant in Hg as [Hr <-].
  destruct (negb _); [done|]. intros [= _ <-]. apply vstep_set_asset.
  - rewrite Hr. split; [by split|]. intros []. by split.
  - intros Hu k2 r2 H2 Ht He. by eapply (Hu k2 id r2 r).
Qed.

Lemma CheckoutAsset_vstep now id a p t u er co d row d' :
  (fk_ok d -> exists r, assets d !! a = Some r /\ ar_TenantID r = t) ->
  Queries.CheckoutAsset now id a p t u er co d = Ok (row, d') -> vstep d d'.
Proof.
  intros Ha. unfold Queries.CheckoutAsset. case_bool_decide as Hid; [done|].
  case_bool_decide as Hp; [|done]. intros [= _ <-]. apply vstep_set_checkout; [|done].
  rewrite free_key by done. split; [done|]. split; [done|]. split; [done|by intros c [=]].
Qed.

Lemma numeric_opt_nonneg c c' :
  Queries.numeric_opt c = Some c' -> (forall x, c = Some x -> (0 <= dec_val x)%Qc) ->
  forall x, c' = Some x -> (0 <= dec_val x)%Qc.
Proof.
  unfold Queries.numeric_opt. destruct c as [c|]; [|by intros [= <-]].
  destruct (dec_numeric_14_2 c) as [y|] eqn:Hy; [|done]. intros [= <-] H x [= <-].
  eapply dec_numeric_sign; eauto.
Qed.
Lemma CheckinAsset_vstep now t id ci n rd se de rc d row d' :
  report_ok rd se rc ->
  Queries.CheckinAsset now t id ci n rd se de rc d = Ok (row, d') -> vstep d d'.
Proof.
  intros [H1 H2]. unfold Queries.CheckinAsset, Queries.GetCheckout, Queries.checkout_of_tenant.
  destruct (get_row _ _ _) as [r|] eqn:Hg; [|done]. apply get_row_tenant in Hg as [Hr <-].
  destruct (Queries.numeric_opt rc) as [cost|] eqn:Hc; [|done]. intros [= _ <-].
  apply vstep_set_checkout.
  - rewrite Hr. split; [by split|]. intros []. split; [done|].
    split; [done|]. by eapply numeric_opt_nonneg.
  - intros F. exact (F id r Hr).
Qed.

(** ** The invariant *)

Record vinv (d : DB) : Prop := {
  vi_asset_keys : map_Forall (fun k r => ar_ID r = k) (assets d);
  vi_checkout_keys : map_Forall (fun k r => cr_ID r = k) (checkouts d);
  vi_assets : map_Forall (fun _ => asset_ok) (assets d);
  vi_checkouts : map_Forall (fun _ => checkout_ok) (checkouts d);
  vi_codes : codes_ok d;
  vi_fk : fk_ok d;
}.

Lemma vinv_empty : vinv empty_db.
Proof. split; try apply map_Forall_empty. done. Qed.

Lemma vinv_step d d' : vstep d d' -> vinv d -> vinv d'.
Proof.
  intros [H1 H2 H3 H4] [K1 K2 K3 K4 K5 K6]. split; [..|by auto|by auto].
  - eapply table_step_forall, K1; [|exact H1]. intros k [r0|] r [HQ _] Ho; [|done].
    rewrite (sa_id _ _ HQ). by apply Ho.
  - eapply table_step_forall, K2; [|exact H2]. intros k [r0|] r [HQ _] Ho; [|done].
    rewrite (sk_id _ _ HQ). by apply Ho.
  - eapply table_step_forall, K3; [|exact H1]. intros k [r0|] r [_ HQ] Ho; [|done]. auto.
  - eapply table_step_forall, K4; [|exact H2]. intros k [r0|] r [_ HQ] Ho; [|done]. auto.
Qed.

End relation.

(** ** Programs: every RPC moves the tables along [vstep] *)

Section programs.
Context {X : External} {D : Dates} {P : Planner} {L : ExternalLaws}.
Variable h : InventoryHandler.Handler.
Variable ctx : Ctx.
Abbreviation R := (store_step (D:=DB) (Ev:=Empty_set) (vstep (InventoryHandler.h_loader h))) (only parsing).

(** Splits a service call into its statements. *)
Ltac service_steps :=
  repeat (steps_tac; try done; try apply steps_store_query; try apply steps_store_exec).

Lemma steps_GetAsset t id w : steps R (Inventory.GetAsset t id) w.
Proof. unfold Inventory.GetAsset, Postgres.GetAsset. service_steps. Qed.
Lemma steps_ListAssets t st c s l o w : steps R (Inventory.ListAssets t st c s l o) w.
Proof. unfold Inventory.ListAssets, Postgres.ListAssets. service_steps. Qed.
Lemma steps_GetCheckout t id w : steps R (Inventory.GetCheckout t id) w.
Proof. unfold Inventory.GetCheckout, Postgres.GetCheckout. service_steps. Qed.
Lemma steps_ListCheckouts t a l af w : steps R (Inventory.ListCheckouts t a l af) w.
Proof. unfold Inventory.ListCheckouts, Postgres.ListCheckouts. service_steps. Qed.

Lemma steps_CreateAsset cfg t cost r w :
  InventoryHandler.h_loader h t = Some cfg ->
  steps R (Inventory.CreateAsset cfg (InventoryHandler.new_asset t cost r)) w.
Proof.
  intros Hc. unfold Inventory.CreateAsset, Postgres.CreateAsset. service_steps;
    (eapply CreateAsset_vstep; [exact Hc|by eexists|eassumption]).
Qed.

Lemma steps_UpdateAssetStatus t id st w :
  st ∈ ["available"; "checked_out"; "under_repair"] ->
  steps R (Postgres.UpdateAssetStatus t id st) w.
Proof. intros Hst. unfold Postgres.UpdateAssetStatus. service_steps. by eapply UpdateAssetStatus_vstep. Qed.

(** The checkout is stored for the asset that was read, which is still there. *)
Lemma steps_CheckOutAsset c w : steps R (Inventory.CheckOutAsset c) w.
Proof.
  unfold Inventory.CheckOutAsset. apply steps_bind; [apply steps_wrap, steps_GetAsset|].
  intros a w1 Hg HR _ _. apply wrap_Ok, bind_Ok in Hg as (row & w2 & Hq & Hret).
  apply map_err_Ok, (store_query_Ok (R:=vstep (InventoryHandler.h_loader h))) in Hq as (_ & Hq & _); [|done].
  apply ret_Ok in Hret as [-> ->]. apply get_row_tenant in Hq as [Hrow Htn].
  unfold Postgres.CheckOutAsset. steps_tac.
  - apply steps_store_exec_from. intros d upd d' Hd. apply CheckoutAsset_vstep. intros _. simpl.
    destruct (vstep_asset (InventoryHandler.h_loader h) (store_db (w_st w2)) d (co_AssetID c) row)
      as (r' & Hr' & Ht); [by step_chain|done|]. exists r'. split; [done|congruence].
  - apply steps_UpdateAssetStatus. by right; left.
Qed.

(** What the handler passes on. *)
Definition input_ok (i : CheckInInput) : Prop :=
  (cin_ReportDamage i = true -> TrimSpace (cin_DamageSeverity i) <> "")
  /\ forall c, cin_RepairCost i = Some c -> (0 <= dec_val c)%Qc.
Lemma input_report i :
  input_ok i ->
  report_ok (cin_ReportDamage i) (pgTextFromString (cin_DamageSeverity i)) (cin_RepairCost i).
Proof.
  intros [H1 H2]. split; [|done]. intros Hd. specialize (H1 Hd). unfold pgTextFromString.
  case_decide as He; [by rewrite He in H1|]. by eexists.
Qed.
Lemma returned_status_ok i : Inventory.returned_status i ∈ ["available"; "checked_out"; "under_repair"].
Proof. unfold Inventory.returned_status. destruct (cin_ReportDamage i); set_solver. Qed.

Lemma steps_CheckInAsset t a i w : input_ok i -> steps R (Inventory.CheckInAsset t a i) w.
Proof.
  intros Hi. unfold Inventory.CheckInAsset, Postgres.GetActiveCheckout, Postgres.CheckInAsset.
  steps_tac; try apply steps_store_query.
  - apply steps_store_exec. intros d upd d'. by apply CheckinAsset_vstep, input_report.
  - apply steps_UpdateAssetStatus, returned_status_ok.
Qed.

Lemma parse_repair_cost_nonneg s c :
  InventoryHandler.parse_repair_cost s = Ok (Some c) -> (0 <= dec_val c)%Qc.
Proof.
  unfold InventoryHandler.parse_repair_cost, parse_decimal. case_decide; [done|].
  destruct (dec_of_string s) as [x|]; [|done]. destruct (dec_greater dec_zero x) eqn:Hg; [done|].
  intros [= <-]. apply not_true_iff_false in Hg. rewrite dec_greater_spec, dec_val_zero in Hg.
  by apply Qcnot_lt_le.
Qed.
Lemma check_in_input_ok r c s :
  InventoryHandler.parse_repair_cost s = Ok c -> InventoryHandler.check_severity r = Ok tt ->
  input_ok (InventoryHandler.check_in_input c r).
Proof.
  intros Hc Hs. split; simpl.
  - intros Hd He. unfold InventoryHandler.check_severity in Hs.
    by rewrite Hd, bool_decide_true in Hs.
  - intros x ->. by eapply parse_repair_cost_nonneg.
Qed.

Lemma inventory_tenant_Ok u (w : World St) w' :
  lift_result (tenantFromContext ctx) w = (Ok u, w') -> IDFromContext ctx = Some u.
Proof.
  intros [H _]%lift_Ok. unfold tenantFromContext in H.
  destruct (IDFromContext ctx); [|done]. by injection H as ->.
Qed.

Lemma handle_vstep r (w : World St) : steps R (InventoryHandler.handle h ctx r) w.
Proof.
  unfold InventoryHandler.handle. apply steps_bind; [apply steps_lift|].
  intros vcfg w1 [Hv ->]%lift_Ok _ _ _.
  destruct r; simpl;
    unfold InventoryHandler.CreateAsset, InventoryHandler.GetAsset, InventoryHandler.ListAssets,
      InventoryHandler.CheckOutAsset, InventoryHandler.CheckInAsset,
      InventoryHandler.ListCheckouts, InventoryHandler.GetInventoryCategories, InventoryHandler.svc;
    steps_tac;
    try first [apply steps_GetAsset | apply steps_ListAssets | apply steps_CheckOutAsset
              | apply steps_GetCheckout | apply steps_ListCheckouts].
  - apply steps_CreateAsset.
    repeat match goal with
    | H : lift_result (tenantFromContext ctx) _ = _ |- _ => apply inventory_tenant_Ok in H
    | H : lift_result (MustFromContext vcfg) _ = _ |- _ => apply lift_Ok in H as [H _]
    end.
    unfold attachConfig in Hv. repeat case_match; by simplify_eq/=.
  - apply steps_CheckInAsset.
    repeat match goal with
    | H : lift_result (InventoryHandler.parse_repair_cost _) _ = _ |- _ => apply lift_Ok in H as [H _]
    | H : lift_result (InventoryHandler.check_severity _) _ = (Ok ?u, _) |- _ =>
        destruct u; apply lift_Ok in H as [H _]
    end.
    by eapply check_in_input_ok.
Qed.

End programs.

(** ** Reachable states *)

Section system.
Context {X : External} {D : Dates} {P : Planner} {L : ExternalLaws}.
Variable h : InventoryHandler.Handler.

(** What the requests of the service do to the tables. *)
Definition inventory_step : DB -> DB -> Prop := vstep (InventoryHandler.h_loader h).

(** From the empty tables, after any RPC and between any two of its statements,
    while other requests that respect [inventory_step] run beside it. *)
Inductive inventory_reachable : St -> Prop :=
| iv_empty : inventory_reachable empty_st
| iv_rpc ctx r w :
    inventory_reachable (w_st w) -> rely (store_step inventory_step) w ->
    inventory_reachable (w_st (InventoryHandler.handle h ctx r w).2)
| iv_statement s s' ctx r w :
    inventory_reachable (w_st w) -> inventory_reachable s -> rely (store_step inventory_step) w ->
    w_log w = [] -> (s, s') ∈ w_log (InventoryHandler.handle h ctx r w).2 -> inventory_reachable s'
| iv_others s s' :
    inventory_reachable s -> store_step inventory_step s s' -> inventory_reachable s'.

Lemma handle_inventory_step ctx r (w : World St) :
  steps (store_step inventory_step) (InventoryHandler.handle h ctx r) w.
Proof. apply handle_vstep. Qed.

Lemma inventory_reachable_inv s :
  inventory_reachable s -> vinv (InventoryHandler.h_loader h) (store_db s).
Proof.
  induction 1 as [|ctx r w _ IH HR|s s' ctx r w _ IH _ IHs HR Hlog Hin|s s' _ IH [Hs _]].
  - apply vinv_empty.
  - eapply vinv_step, IH. by apply (handle_inventory_step ctx r w).
  - destruct (handle_inventory_step ctx r w HR) as (_ & _ & own & Hown & Hall).
    rewrite Hlog, app_nil_r in Hown. rewrite Hown in Hin. rewrite Forall_forall in Hall.
    exact (vinv_step _ _ _ (proj1 (Hall _ Hin)) IHs).
  - by eapply vinv_step.
Qed.

(** C36: In every reachable state, whatever requests interleave and wherever they fail:
    no tenant has an asset code twice; an asset is available, checked out or under
    repair, never retired, and of a category of its tenant's vertical; the asset of
    a checkout exists and is the checkout's tenant's; an open checkout carries no
    report; a report of damage names a severity that is not blank; and a repair
    cost is not negative.  The vertical's configuration is the same over the
    history. *)
Theorem inventory_tables_ok (s : St) :
  inventory_reachable s ->
  (forall k1 k2 r1 r2, assets (store_db s) !! k1 = Some r1 -> assets (store_db s) !! k2 = Some r2 ->
     ar_TenantID r1 = ar_TenantID r2 -> ar_AssetCode r1 = ar_AssetCode r2 -> k1 = k2)
  /\ (forall id r, assets (store_db s) !! id = Some r ->
       ar_ID r = id /\ ar_Status r ∈ ["available"; "checked_out"; "under_repair"]
       /\ exists cfg, InventoryHandler.h_loader h (ar_TenantID r) = Some cfg
                      /\ is_Some (FindInventoryCategory cfg (ar_CategoryID r)))
  /\ (forall id r, checkouts (store_db s) !! id = Some r ->
       cr_ID r = id
       /\ (exists a, assets (store_db s) !! cr_AssetID r = Some a /\ ar_TenantID a = cr_TenantID r)
       /\ (cr_CheckedInAt r = None -> cr_ReportDamage r = false /\ cr_RepairCost r = None)
       /\ (cr_ReportDamage r = true ->
           exists severity, cr_DamageSeverity r = Some severity /\ TrimSpace severity <> "")
       /\ forall cost, cr_RepairCost r = Some cost -> (0 <= dec_val cost)%Qc).
Proof.
  intros [K1 K2 K3 K4 K5 K6]%inventory_reachable_inv. split; [exact K5|]. split.
  - intros id r Hr. destruct (K3 id r Hr). split; [by apply K1|]. by split.
  - intros id r Hr. destruct (K4 id r Hr) as [Ko [Kr Kc]]. split; [by apply K2|].
    split; [exact (K6 id r Hr)|]. split; [|by split]. intros Hn. by destruct (Ko Hn) as (_ & _ & ? & _ & _ & ?).
Qed.

End system.
