(* ===== verification/InventoryCalls.v ===== *)
(** Inventory management: what the calls do when each request runs alone, as a
    refinement of an abstract lending desk, and a concrete service on the reference
    libraries, whose runs the witnesses evaluate. *)

From S2P Require Export InventoryProps.
Local Open Scope Z_scope.

Section calls.
Context {X : External} {D : Dates} {P : Planner}.

(** ** Assets *)

Lemma evals_repo_GetAsset t id (w : World St) :
  quiet w ->
  evals (Postgres.GetAsset t id) w
    (match owned ar_TenantID t (assets (store_db (w_st w))) id with
     | Some r => Ok (Postgres.assetFromDB r)
     | None => Err (ESent ErrAssetNotFound)
     end) (w_st w).
Proof.
  intros Hw. unfold Postgres.GetAsset. pose proof (evals_store_query (Queries.GetAsset t id) w Hw) as Hq.
  unfold Queries.GetAsset, Queries.of_tenant in *. rewrite get_row_owned in Hq.
  destruct (owned _ _ _ _) as [r|].
  - eapply evals_bind; [by apply evals_map_ok|]. intros w1 Hw1 <-. by apply evals_ret.
  - apply evals_bind_err. exact (evals_map_fail (no_rows_as ErrAssetNotFound _) _ _ _ _ Hq).
Qed.

(** The status update of an asset of the tenant. *)
Lemma evals_UpdateAssetStatus t id st r (w : World St) :
  quiet w -> assets (store_db (w_st w)) !! id = Some r -> ar_TenantID r = t ->
  Queries.status_ok st = true ->
  exists now, evals (Postgres.UpdateAssetStatus t id st) w (Ok tt)
    (mkStore (set_assets (<[id := Queries.with_status now st r]> (assets (store_db (w_st w))))
                (store_db (w_st w))) (store_events (w_st w))).
Proof.
  intros Hw Hr Ht Hst. destruct (evals_time (E := error IvErr) w Hw) as [now Hnow]. exists now.
  unfold Postgres.UpdateAssetStatus. eapply evals_bind; [exact Hnow|]. intros w1 Hw1 Hs1.
  rewrite <-Hs1 in Hr |- *.
  eapply evals_bind; [|intros w2 Hw2 <-; by apply evals_ret].
  apply evals_map_ok, evals_store_exec; [done|].
  unfold Queries.UpdateAssetStatus, Queries.GetAsset, Queries.of_tenant.
  rewrite get_row_owned, (proj2 (owned_Some ar_TenantID t _ id r)) by done. by rewrite Hst.
Qed.

(** ** Checking out *)

(** The row of a new checkout. *)
Definition checkout_row (now : Time) (c : AssetCheckout) : CheckoutRow :=
  mkCheckoutRow (co_ID c) (co_AssetID c) (co_ProductionID c) (co_TenantID c) (co_CheckedOutTo c) now
    (Postgres.pgDateFromPtrString (co_ExpectedReturn c)) None (pgTextFromString (co_ConditionOut c))
    None None false None None None.
(** The tables with one asset and one checkout written. *)
Definition put (a : uuid) (r : AssetRow) (k : uuid) (c : CheckoutRow) (d : DB) : DB :=
  mkDB (<[a := r]> (assets d)) (<[k := c]> (checkouts d)).

(** The INSERT of a checkout of an asset that is there. *)
Lemma evals_repo_CheckOutAsset c (w : World St) :
  quiet w -> is_Some (assets (store_db (w_st w)) !! co_AssetID c) ->
  if decide (is_Some (checkouts (store_db (w_st w)) !! co_ID c))
  then exists e, evals (Postgres.CheckOutAsset c) w (Err e) (w_st w)
  else exists now, evals (Postgres.CheckOutAsset c) w (Ok tt)
         (mkStore (set_checkouts (<[co_ID c := checkout_row now c]> (checkouts (store_db (w_st w))))
                     (store_db (w_st w))) (store_events (w_st w))).
Proof.
  intros Hw Ha. destruct (evals_time (E := error IvErr) w Hw) as [now Hnow].
  unfold Postgres.CheckOutAsset. case_decide as Hid.
  - eexists. eapply evals_bind; [exact Hnow|]. intros w1 Hw1 Hs1. rewrite <-Hs1 in *.
    apply evals_bind_err, evals_map_fail, evals_store_exec_err; [done|].
    unfold Queries.CheckoutAsset. by rewrite bool_decide_true.
  - exists now. eapply evals_bind; [exact Hnow|]. intros w1 Hw1 Hs1. rewrite <-Hs1 in *.
    eapply evals_bind; [|intros w2 Hw2 <-; by apply evals_ret].
    apply evals_map_ok, evals_store_exec; [done|].
    unfold Queries.CheckoutAsset. by rewrite bool_decide_false, bool_decide_true.
Qed.

(** What checking out may answer, and the state it leaves; [d] is the tables the
    call finds. *)
Definition checkout_outcome (c : AssetCheckout) (s : St) (res : result (error IvErr) AssetCheckout)
    (s' : St) : Prop :=
  let d := store_db s in
  match owned ar_TenantID (co_TenantID c) (assets d) (co_AssetID c) with
  | None => exists e, res = Err e /\ errors_Is e ErrAssetNotFound = true /\ s' = s
  | Some r =>
    if decide (ar_Status r = "available")
    then (exists e id, res = Err e /\ is_Some (checkouts d !! id) /\ s' = s)
         \/ exists id now now', res = Ok (Inventory.with_checkout_id id c) /\ checkouts d !! id = None
            /\ s' = mkStore (put (co_AssetID c) (Queries.with_status now' "checked_out" r) id
                               (checkout_row now (Inventory.with_checkout_id id c)) d) (store_events s)
    else exists e, res = Err e /\ errors_Is e ErrAssetNotAvailable = true /\ s' = s
  end.

Lemma CheckOutAsset_yields c (w : World St) :
  quiet w -> yields (Inventory.CheckOutAsset c) w (checkout_outcome c (w_st w)).
Proof.
  intros Hw. unfold checkout_outcome, Inventory.CheckOutAsset.
  pose proof (evals_repo_GetAsset (co_TenantID c) (co_AssetID c) w Hw) as Hg.
  destruct (owned ar_TenantID _ _ _) as [r|] eqn:Hr.
  - apply owned_Some in Hr as [Hr Ht]. apply (evals_map_ok (EWrap "get asset: %w")) in Hg.
    eapply yields_bind; [exact Hg|]. intros w1 Hw1 Hs1. rewrite <-Hs1 in Hr |- *. simpl. case_decide as Hst.
    + rewrite bool_decide_true by done. simpl.
      destruct (evals_id_or_new (E := error IvErr) (co_ID c) w1 Hw1) as [id Hid].
      eapply yields_bind; [exact Hid|]. intros w2 Hw2 Hs2. rewrite <-Hs2 in Hr |- *.
      pose proof (evals_repo_CheckOutAsset (Inventory.with_checkout_id id c) w2 Hw2
                    ltac:(simpl; by eexists)) as Hi. simpl in Hi.
      case_decide as Hk.
      * destruct Hi as [e Hi]. eapply yields_evals; [apply evals_bind_err, Hi|]. left. by exists e, id.
      * destruct Hi as [now Hi]. eapply yields_bind; [exact Hi|]. intros w3 Hw3 Hs3.
        destruct (evals_UpdateAssetStatus (co_TenantID c) (co_AssetID c) "checked_out" r w3 Hw3)
          as [now' Hu]; [by rewrite Hs3|done|done|].
        eapply yields_bind; [exact Hu|]. intros w4 Hw4 Hs4.
        eapply yields_evals; [by apply evals_ret|]. right. exists id, now, now'. split; [done|].
        split; [by apply free_key|]. by rewrite Hs4, Hs3.
    + rewrite bool_decide_false by done. simpl. eapply yields_evals; [by apply evals_throw|].
      eexists. split; [reflexivity|]. by split.
  - apply (evals_map_fail (EWrap "get asset: %w")) in Hg.
    eapply yields_evals; [apply evals_bind_err; exact Hg|]. eexists. by split.
Qed.

(** ** Checking in *)

(** The checkout the call picks: some open checkout of the asset, if there is one. *)
Definition picked (t a : uuid) (d : DB) : option CheckoutRow :=
  any_row (select (Queries.open_checkout t a) (checkouts d)).
Definition checked_in_row (now : Time) (i : CheckInInput) (cost : option Dec) (k : CheckoutRow) :
    CheckoutRow :=
  Queries.checked_in now (pgTextFromString (cin_ConditionIn i)) (pgTextFromString (cin_Notes i))
    (cin_ReportDamage i) (pgTextFromString (cin_DamageSeverity i))
    (pgTextFromString (cin_DamageDescription i)) cost k.
Definition checkin_outcome (t a : uuid) (i : CheckInInput) (s : St)
    (res : result (error IvErr) AssetCheckout) (s' : St) : Prop :=
  let d := store_db s in
  match picked t a d with
  | None => res = Err (ESent ErrNoActiveCheckout) /\ s' = s
  | Some k =>
    match Queries.numeric_opt (cin_RepairCost i) with
    | None => exists e, res = Err e
                        /\ InventoryHandler.grpcErr e = mkStatus Internal "internal error" /\ s' = s
    | Some cost => exists now now' r, assets d !! a = Some r
        /\ res = Ok (Postgres.checkoutFromDB (checked_in_row now i cost k))
        /\ s' = mkStore (put a (Queries.with_status now' (Inventory.returned_status i) r) (cr_ID k)
                           (checked_in_row now i cost k) d) (store_events s)
    end
  end.

Lemma picked_open t a d k :
  map_Forall (fun i r => cr_ID r = i) (checkouts d) -> picked t a d = Some k ->
  checkouts d !! cr_ID k = Some k /\ cr_AssetID k = a /\ cr_TenantID k = t /\ cr_CheckedInAt k = None.
Proof.
  intros Hk [[i Hi] Ho]%any_row_in%select_elem. unfold Queries.open_checkout, Queries.checkout_of_tenant in Ho.
  bool_hyps. by rewrite (Hk i k Hi).
Qed.

Lemma evals_repo_CheckInAsset t i k (w : World St) :
  quiet w -> checkouts (store_db (w_st w)) !! cr_ID k = Some k -> cr_TenantID k = t ->
  match Queries.numeric_opt (cin_RepairCost i) with
  | None => exists e, InventoryHandler.grpcErr e = mkStatus Internal "internal error"
      /\ evals (Postgres.CheckInAsset t (cr_ID k) i) w (Err e) (w_st w)
  | Some cost => exists now,
      evals (Postgres.CheckInAsset t (cr_ID k) i) w
        (Ok (Postgres.checkoutFromDB (checked_in_row now i cost k)))
        (mkStore (set_checkouts (<[cr_ID k := checked_in_row now i cost k]>
                    (checkouts (store_db (w_st w)))) (store_db (w_st w))) (store_events (w_st w)))
  end.
Proof.
  intros Hw Hk Ht. destruct (evals_time (E := error IvErr) w Hw) as [now Hnow].
  assert (Hg : Queries.GetCheckout t (cr_ID k) (store_db (w_st w)) = Ok k).
  { unfold Queries.GetCheckout, Queries.checkout_of_tenant.
    by rewrite get_row_owned, (proj2 (owned_Some cr_TenantID t _ _ k)). }
  unfold Postgres.CheckInAsset. destruct (Queries.numeric_opt (cin_RepairCost i)) as [cost|] eqn:Hc.
  - exists now. eapply evals_bind; [exact Hnow|]. intros w1 Hw1 Hs1. rewrite <-Hs1 in *.
    eapply evals_bind; [|intros w2 Hw2 <-; by apply evals_ret].
    apply evals_map_ok, evals_store_exec; [done|].
    unfold Queries.CheckinAsset, Postgres.pgNumericFromDecimalPtr. by rewrite Hg, Hc.
  - eexists. split; [|eapply evals_bind; [exact Hnow|]; intros w1 Hw1 Hs1; rewrite <-Hs1 in *;
      apply evals_bind_err, evals_map_fail, evals_store_exec_err; [done|];
      unfold Queries.CheckinAsset, Postgres.pgNumericFromDecimalPtr; by rewrite Hg, Hc].
    vm_refl.
Qed.

Lemma evals_GetActiveCheckout t a (w : World St) :
  quiet w ->
  evals (Postgres.GetActiveCheckout t a) w
    (match picked t a (store_db (w_st w)) with
     | Some k => Ok (Postgres.checkoutFromDB k)
     | None => Err (ESent ErrNoActiveCheckout)
     end) (w_st w).
Proof.
  intros Hw. unfold Postgres.GetActiveCheckout.
  pose proof (evals_store_query (Queries.GetActiveCheckout t a) w Hw) as Hq.
  unfold Queries.GetActiveCheckout in Hq at 2. fold (picked t a (store_db (w_st w))) in Hq.
  destruct (picked _ _ _) as [k|].
  - eapply evals_bind; [by apply evals_map_ok|]. intros w1 Hw1 <-. by apply evals_ret.
  - apply evals_bind_err. exact (evals_map_fail (no_rows_as ErrNoActiveCheckout _) _ _ _ _ Hq).
Qed.

(** The asset of the checkout is there: the foreign key. *)
Lemma CheckInAsset_yields t a i (w : World St) :
  map_Forall (fun i r => cr_ID r = i) (checkouts (store_db (w_st w))) -> fk_ok (store_db (w_st w)) ->
  quiet w -> yields (Inventory.CheckInAsset t a i) w (checkin_outcome t a i (w_st w)).
Proof.
  intros Hkeys Hfk Hw. unfold checkin_outcome, Inventory.CheckInAsset.
  pose proof (evals_GetActiveCheckout t a w Hw) as Hg.
  destruct (picked t a _) as [k|] eqn:Hp.
  - destruct (picked_open _ _ _ _ Hkeys Hp) as (Hk & Ha & Ht & _).
    destruct (Hfk _ _ Hk) as (r & Hr & Htr). rewrite Ha in Hr.
    eapply yields_bind; [exact Hg|]. intros w1 Hw1 Hs1. rewrite <-Hs1 in *.
    pose proof (evals_repo_CheckInAsset t i k w1 Hw1 Hk Ht) as Hc. simpl.
    destruct (Queries.numeric_opt _) as [cost|].
    + destruct Hc as [now Hc]. eapply yields_bind; [exact Hc|]. intros w2 Hw2 Hs2.
      destruct (evals_UpdateAssetStatus t a (Inventory.returned_status i) r w2 Hw2) as [now' Hu];
        [by rewrite Hs2|congruence|by unfold Inventory.returned_status; destruct (cin_ReportDamage i)|].
      eapply yields_bind; [exact Hu|]. intros w3 Hw3 Hs3.
      eapply yields_evals; [by apply evals_ret|]. exists now, now', r. split; [done|].
      split; [done|]. by rewrite Hs3, Hs2.
    + destruct Hc as (e & He & Hc). eapply yields_evals; [apply evals_bind_err, Hc|]. by exists e.
  - eapply yields_evals; [apply evals_bind_err, Hg|]. done.
Qed.

End calls.

(** ** Requests that run one at a time *)

(** The abstract lending desk: every asset is available, out on one checkout, or
    under repair. *)
Inductive Place := Available | Out (checkout : uuid) | Repair.
Abbreviation Desk := (gmap uuid Place) (only parsing).
Inductive desk_step : Desk -> Desk -> Prop :=
| register m a : m !! a = None -> desk_step m (<[a := Available]> m)
| hand_out m a k :
    m !! a = Some Available -> (forall a', m !! a' <> Some (Out k)) -> desk_step m (<[a := Out k]> m)
| take_back m a k : m !! a = Some (Out k) -> desk_step m (<[a := Available]> m)
| set_aside m a k : m !! a = Some (Out k) -> desk_step m (<[a := Repair]> m).

Definition place_status (p : Place) : string :=
  match p with Available => "available" | Out _ => "checked_out" | Repair => "under_repair" end.

Section desk.
Context {X : External} {D : Dates} {P : Planner}.

(** The asset has that open checkout. *)
Definition open_at (d : DB) (a k : uuid) : Prop :=
  exists c, checkouts d !! k = Some c /\ cr_AssetID c = a /\ cr_CheckedInAt c = None.
(** The tables implement the desk: the status column says where the asset is, and
    its open checkouts are the one it is out on. *)
Definition tracks (m : Desk) (d : DB) : Prop :=
  forall a, match m !! a, assets d !! a with
            | None, None => True
            | Some p, Some r => ar_Status r = place_status p /\ forall k, open_at d a k <-> p = Out k
            | _, _ => False
            end.

(** What a request that runs alone does to the tables. *)
Inductive effect (d : DB) : DB -> Prop :=
| eff_none : effect d d
| eff_create a r :
    assets d !! a = None -> ar_Status r = "available" -> effect d (set_assets (<[a := r]> (assets d)) d)
| eff_out a r r' k c :
    assets d !! a = Some r -> ar_Status r = "available" -> ar_Status r' = "checked_out" ->
    checkouts d !! k = None -> cr_AssetID c = a -> cr_CheckedInAt c = None -> effect d (put a r' k c d)
| eff_in a r r' k c c' :
    assets d !! a = Some r -> ar_Status r' = "available" \/ ar_Status r' = "under_repair" ->
    checkouts d !! k = Some c -> cr_AssetID c = a -> cr_CheckedInAt c = None ->
    cr_AssetID c' = a -> is_Some (cr_CheckedInAt c') -> effect d (put a r' k c' d).

Lemma tracks_empty : tracks ∅ empty_db.
Proof. intros a. by rewrite !lookup_empty. Qed.

Lemma tracks_known m d a p :
  tracks m d -> m !! a = Some p ->
  exists r, assets d !! a = Some r /\ ar_Status r = place_status p /\ forall k, open_at d a k <-> p = Out k.
Proof. intros H Ha. specialize (H a). rewrite Ha in H. destruct (assets d !! a) as [r|]; [|done]. by exists r. Qed.
Lemma tracks_row m d a r :
  tracks m d -> assets d !! a = Some r ->
  exists p, m !! a = Some p /\ ar_Status r = place_status p /\ forall k, open_at d a k <-> p = Out k.
Proof. intros H Ha. specialize (H a). rewrite Ha in H. destruct (m !! a) as [p|]; [|done]. by exists p. Qed.

(** A checkout of one asset is no other's. *)
Lemma open_at_other d a b k r c :
  (forall c0, checkouts d !! k = Some c0 -> cr_AssetID c0 = a) -> cr_AssetID c = a -> b <> a ->
  forall i, open_at (put a r k c d) b i <-> open_at d b i.
Proof.
  intros Ho Hc Hne i. unfold open_at, put. simpl. destruct (decide (k = i)) as [<-|Hi].
  - rewrite lookup_insert_eq. split.
    + intros (c0 & [= <-] & H1 & _). congruence.
    + intros (c0 & Hk & H1 & _). pose proof (Ho _ Hk). congruence.
  - by rewrite lookup_insert_ne.
Qed.

(** One asset moves, with the checkout it moves by. *)
Lemma tracks_put m d a p r k c :
  tracks m d -> is_Some (assets d !! a) ->
  (forall c0, checkouts d !! k = Some c0 -> cr_AssetID c0 = a) -> cr_AssetID c = a ->
  ar_Status r = place_status p ->
  (forall i, open_at (put a r k c d) a i <-> p = Out i) ->
  tracks (<[a := p]> m) (put a r k c d).
Proof.
  intros Ht Ha Ho Hc Hs Hp b. simpl. destruct (decide (a = b)) as [<-|Hne].
  - by rewrite !lookup_insert_eq.
  - rewrite !lookup_insert_ne by done. specialize (Ht b).
    destruct (m !! b), (assets d !! b); try done. destruct Ht as [H1 H2]. split; [done|].
    intros i. rewrite <-H2. by apply open_at_other.
Qed.

Lemma status_available p : place_status p = "available" -> p = Available.
Proof. by destruct p. Qed.

(** Out of an open checkout: there is no other. *)
Lemma tracks_return m d a p r k c c' :
  tracks m d -> m !! a = Some (Out k) -> checkouts d !! k = Some c -> cr_AssetID c = a ->
  cr_AssetID c' = a -> is_Some (cr_CheckedInAt c') ->
  ar_Status r = place_status p -> (forall i, p <> Out i) ->
  tracks (<[a := p]> m) (put a r k c' d).
Proof.
  intros Ht Hm Hk Ha Ha' [t Hin] Hs Hp.
  destruct (tracks_known _ _ _ _ Ht Hm) as (r0 & Hr0 & _ & Hopen).
  apply tracks_put; [done|by eexists|..|done|done|].
  - intros c0 Hc0. congruence.
  - intros i. split; [|intros Hpi; by destruct (Hp i)]. intros (c1 & H1 & H2 & H3). simpl in H1.
    apply lookup_insert_Some in H1 as [[<- <-]|[Hne H1]]; [congruence|].
    assert (He : Out k = Out i) by (apply Hopen; by exists c1). by injection He as ->.
Qed.

(** Each effect is a step of the desk, or none. *)
Lemma effect_desk m d d' :
  fk_ok d -> tracks m d -> effect d d' -> exists m', (m' = m \/ desk_step m m') /\ tracks m' d'.
Proof.
  intros Hfk Ht [|a r Ha Hs|a r r' k c Hr Hs Hs' Hk Ha Hc|a r r' k c c' Hr Hs Hk Ha Hc Ha' Hc'].
  - exists m. split; [by left|done].
  - exists (<[a := Available]> m). split; [right; apply register; specialize (Ht a);
      rewrite Ha in Ht; by destruct (m !! a)|].
    intros b. simpl. destruct (decide (a = b)) as [<-|Hne].
    + rewrite !lookup_insert_eq. split; [done|]. intros i. split; [|done].
      intros (c & Hi & Hca & _). simpl in Hi. destruct (Hfk _ _ Hi) as (r0 & Hr0 & _). congruence.
    + rewrite !lookup_insert_ne by done. exact (Ht b).
  - destruct (tracks_row _ _ _ _ Ht Hr) as (p & Hm & Hps & Hopen). rewrite Hs in Hps.
    symmetry in Hps. apply status_available in Hps as ->.
    exists (<[a := Out k]> m). split.
    + right. apply hand_out; [done|]. intros a' Ha'.
      destruct (tracks_known _ _ _ _ Ht Ha') as (_ & _ & _ & Ho).
      destruct (proj2 (Ho k) eq_refl) as (c0 & Hc0 & _). congruence.
    + apply tracks_put; [done|by eexists|intros c0 Hc0; congruence|done|done|].
      intros i. split.
      * intros (c1 & H1 & H2 & H3). simpl in H1.
        apply lookup_insert_Some in H1 as [[<- _]|[_ H1]]; [done|].
        assert (He : Available = Out i) by (apply Hopen; by exists c1). done.
      * intros [= <-]. exists c. simpl. by rewrite lookup_insert_eq.
  - destruct (tracks_row _ _ _ _ Ht Hr) as (p & Hm & Hps & Hopen).
    assert (p = Out k) as -> by (apply Hopen; by exists c).
    destruct Hs as [Hs|Hs].
    + exists (<[a := Available]> m). split; [right; by eapply take_back|].
      by eapply (tracks_return _ _ _ _ _ _ c).
    + exists (<[a := Repair]> m). split; [right; by eapply set_aside|].
      by eapply (tracks_return _ _ _ _ _ _ c).
Qed.

(** ** The effect of each RPC *)

Lemma CreateAsset_query_effect now id t code name cat de ow pd pc se d r d' :
  Queries.CreateAsset now id t code name cat de ow "available" pd pc se d = Ok (r, d') -> effect d d'.
Proof.
  unfold Queries.CreateAsset. destruct (Queries.numeric_opt pc); [|done]. destruct (_ || _); [done|].
  case_bool_decide as Hid; [done|]. destruct (Queries.code_taken t code d); [done|].
  intros [= _ <-]. apply eff_create; [by apply free_key|done].
Qed.
Lemma CreateAsset_effect cfg t cost q (w : World St) :
  quiet w ->
  yields (Inventory.CreateAsset cfg (InventoryHandler.new_asset t cost q)) w
    (fun _ s => effect (store_db (w_st w)) (store_db s)).
Proof.
  intros Hw. unfold Inventory.CreateAsset. destruct (FindInventoryCategory _ _);
    [|eapply yields_evals; [by apply evals_throw|apply eff_none]].
  destruct (evals_id_or_new (E := error IvErr) uuid_nil w Hw) as [id Hid].
  eapply yields_bind; [exact Hid|]. intros w1 Hw1 <-. apply yields_then_read; [|intros; by apply reads_ret].
  destruct (evals_time (E := error IvErr) w1 Hw1) as [now Hnow].
  unfold Postgres.CreateAsset. eapply yields_bind; [exact Hnow|]. intros w2 Hw2 <-.
  apply yields_then_read; [|intros; by apply reads_ret]. apply yields_map_err. simpl.
  match goal with |- yields (q_exec ?q) _ _ => destruct (q (store_db (w_st w2))) as [[r d]|e] eqn:Hq end.
  - eapply yields_evals; [by apply evals_store_exec|]. by eapply CreateAsset_query_effect.
  - eapply yields_evals; [by apply evals_store_exec_err|]. apply eff_none.
Qed.

Lemma checkout_outcome_effect c s res s' :
  checkout_outcome c s res s' -> effect (store_db s) (store_db s').
Proof.
  unfold checkout_outcome. destruct (owned _ _ _ _) as [r|] eqn:Hr; [apply owned_Some in Hr as [Hr _]|].
  - case_decide as Hs.
    + intros [(e & id & _ & _ & ->)|(id & now & now' & _ & Hk & ->)]; [apply eff_none|].
      by eapply eff_out.
    + intros (e & _ & _ & ->). apply eff_none.
  - intros (e & _ & _ & ->). apply eff_none.
Qed.
Lemma checkin_outcome_effect t a i s res s' :
  map_Forall (fun k r => cr_ID r = k) (checkouts (store_db s)) ->
  checkin_outcome t a i s res s' -> effect (store_db s) (store_db s').
Proof.
  intros Hkeys. unfold checkin_outcome. destruct (picked t a _) as [k|] eqn:Hp.
  - destruct (picked_open _ _ _ _ Hkeys Hp) as (Hk & Ha & _ & Ho).
    destruct (Queries.numeric_opt _) as [cost|]; [|intros (e & _ & _ & ->); apply eff_none].
    intros (now & now' & r & Hr & _ & ->). eapply (eff_in _ _ r _ _ k); try done.
    simpl. unfold Inventory.returned_status. destruct (cin_ReportDamage i); auto.
  - intros [_ ->]. apply eff_none.
Qed.

Section handle.
Variable h : InventoryHandler.Handler.
Variable ctx : Ctx.

Lemma reads_GetAsset t id (w : World St) : quiet w -> reads (Inventory.GetAsset t id) w.
Proof. intros Hw. unfold Inventory.GetAsset, Postgres.GetAsset. reads_tac. Qed.
Lemma reads_GetCheckout t id (w : World St) : quiet w -> reads (Inventory.GetCheckout t id) w.
Proof. intros Hw. unfold Inventory.GetCheckout, Postgres.GetCheckout. reads_tac. Qed.
Lemma reads_ListAssets t st c q l o (w : World St) : quiet w -> reads (Inventory.ListAssets t st c q l o) w.
Proof. intros Hw. unfold Inventory.ListAssets, Postgres.ListAssets. reads_tac. Qed.
Lemma reads_ListCheckouts t a l af (w : World St) : quiet w -> reads (Inventory.ListCheckouts t a l af) w.
Proof. intros Hw. unfold Inventory.ListCheckouts, Postgres.ListCheckouts. reads_tac. Qed.

(** Passes the guards of a handler. *)
Ltac guards :=
  repeat match goal with
  | |- yields (lift_result ?r ≫= _) _ _ =>
      apply yields_after_read; [by apply reads_pure|apply eff_none|];
      let w := fresh "w" in let Hq := fresh "Hq" in let Hs := fresh "Hs" in
      intros ? w Hq Hs; rewrite <-Hs in *
  end.

(** An RPC, alone, has one of the effects. *)
Lemma handle_effect r (w : World St) :
  map_Forall (fun k c => cr_ID c = k) (checkouts (store_db (w_st w))) -> fk_ok (store_db (w_st w)) ->
  quiet w ->
  yields (InventoryHandler.handle h ctx r) w (fun _ s => effect (store_db (w_st w)) (store_db s)).
Proof.
  intros Hkeys Hfk Hw. unfold InventoryHandler.handle. guards.
  destruct r; simpl;
    unfold InventoryHandler.CreateAsset, InventoryHandler.GetAsset, InventoryHandler.ListAssets,
      InventoryHandler.CheckOutAsset, InventoryHandler.CheckInAsset,
      InventoryHandler.ListCheckouts, InventoryHandler.GetInventoryCategories, InventoryHandler.svc;
    guards.
  all: try solve [apply reads_yields; [reads_tac;
    first [by apply reads_GetAsset|by apply reads_ListAssets|by apply reads_ListCheckouts]
    |apply eff_none]].
  - apply yields_then_read; [|intros; reads_tac; by apply reads_GetAsset].
    apply yields_map_err. by apply CreateAsset_effect.
  - apply yields_then_read; [|intros; reads_tac; by apply reads_GetCheckout].
    apply yields_map_err. eapply yields_weaken; [by apply CheckOutAsset_yields|].
    intros res s. apply checkout_outcome_effect.
  - apply yields_then_read; [|intros; by reads_tac].
    apply yields_map_err. eapply yields_weaken; [by apply CheckInAsset_yields|].
    intros res s. by apply checkin_outcome_effect.
Qed.

End handle.
End desk.

Section sequential.
Context {X : External} {D : Dates} {P : Planner} {L : ExternalLaws}.
Variable h : InventoryHandler.Handler.

(** The states after RPCs that ran one after the other, with no call failing. *)
Inductive sequential : St -> Prop :=
| seq_empty : sequential empty_st
| seq_rpc ctx r w :
    sequential (w_st w) -> quiet w -> sequential (w_st (InventoryHandler.handle h ctx r w).2).

Lemma quiet_inventory_rely (w : World St) : quiet w -> rely (store_step (inventory_step h)) w.
Proof. apply quiet_rely. intros s. split; [apply vstep_preorder|done]. Qed.
Lemma sequential_reachable s : sequential s -> inventory_reachable h s.
Proof. induction 1; [apply iv_empty|apply iv_rpc; [done|by apply quiet_inventory_rely]]. Qed.

Lemma sequential_effect ctx r (w : World St) :
  sequential (w_st w) -> quiet w ->
  effect (store_db (w_st w)) (store_db (w_st (InventoryHandler.handle h ctx r w).2)).
Proof.
  intros Hs%sequential_reachable%inventory_reachable_inv Hw.
  pose proof (handle_effect h ctx r w (vi_checkout_keys _ _ Hs) (vi_fk _ _ Hs) Hw) as He.
  exact (yields_run _ _ _ _ _ He (surjective_pairing _)).
Qed.
Lemma sequential_tracks s :
  sequential s -> exists m, rtc desk_step ∅ m /\ tracks m (store_db s).
Proof.
  induction 1 as [|ctx r w Hs (m & Hm & Ht) Hw].
  - exists ∅. split; [apply rtc_refl|apply tracks_empty].
  - pose proof (vi_fk _ _ (inventory_reachable_inv h _ (sequential_reachable _ Hs))) as Hfk.
    destruct (effect_desk _ _ _ Hfk Ht (sequential_effect ctx r w Hs Hw)) as (m' & Hstep & Ht').
    exists m'. split; [|done]. destruct Hstep as [->|Hstep]; [done|]. by eapply rtc_r.
Qed.

(** C34: Requests that run one at a time implement the lending desk.  After any RPCs, one
    after the other with no call failing, the tables are those of a desk that the
    abstract steps reach: every asset's status is available, checked out or under
    repair as the desk says, and an asset has exactly one open checkout when it is
    out and none otherwise; one more RPC is one step of the desk or none; and an
    asset under repair stays there whatever is called. *)
Theorem inventory_refines_desk (s : St) :
  sequential s ->
  (exists m, rtc desk_step ∅ m /\ tracks m (store_db s))
  /\ forall ctx r (w : World St), w_st w = s -> quiet w ->
     let s' := w_st (InventoryHandler.handle h ctx r w).2 in
     (forall m, tracks m (store_db s) ->
        exists m', (m' = m \/ desk_step m m') /\ tracks m' (store_db s'))
     /\ forall a row, assets (store_db s) !! a = Some row -> ar_Status row = "under_repair" ->
        exists row', assets (store_db s') !! a = Some row' /\ ar_Status row' = "under_repair".
Proof.
  intros Hs. pose proof (vi_fk _ _ (inventory_reachable_inv h _ (sequential_reachable _ Hs))) as Hfk.
  destruct (sequential_tracks s Hs) as (m0 & Hm0 & Ht0). split; [by exists m0|].
  intros ctx r w <- Hw s'. pose proof (sequential_effect ctx r w Hs Hw) as He. fold s' in He.
  split; [intros m Hm; by eapply effect_desk|]. intros a row Ha Hst.
  destruct (tracks_row _ _ _ _ Ht0 Ha) as (p & Hp & Hps & Hopen). rewrite Hst in Hps.
  assert (p = Repair) as -> by by destruct p.
  assert (Hkeep : forall b r', b <> a -> <[b := r']> (assets (store_db (w_st w))) !! a = Some row)
    by (intros b r' Hne; by rewrite lookup_insert_ne).
  destruct He as [|b r0 Hb Hs0|b r0 r' k c Hb Hs0 _ _ _ _|b r0 r' k c c' Hb _ Hk Hc Hin _ _];
    exists row; (split; [|done]); [done|..]; simpl; apply Hkeep; intros ->; [congruence..|].
  assert (He : Repair = Out k) by (apply Hopen; by exists c). done.
Qed.

(** C35: Alone, with no call failing, CheckInAsset closes one open checkout of the asset:
    with none open it answers that and changes nothing; a repair cost the column has
    no room for is answered Internal with nothing changed; otherwise the checkout
    it picked among the open ones carries the report and the time, the asset is
    available, or under repair when damage is reported, and every other asset and
    checkout is as before. *)
Theorem check_in_outcomes (t a : uuid) (i : CheckInInput) (w w' : World St)
    (res : result (error IvErr) AssetCheckout) :
  inventory_reachable h (w_st w) -> quiet w -> Inventory.CheckInAsset t a i w = (res, w') ->
  let d := store_db (w_st w) in
  (res = Err (ESent ErrNoActiveCheckout) /\ w_st w' = w_st w
   /\ forall k c, checkouts d !! k = Some c -> cr_AssetID c = a -> cr_TenantID c = t ->
      is_Some (cr_CheckedInAt c))
  \/ exists c, checkouts d !! cr_ID c = Some c /\ cr_AssetID c = a /\ cr_TenantID c = t
     /\ cr_CheckedInAt c = None
     /\ match Queries.numeric_opt (cin_RepairCost i) with
        | None => w_st w' = w_st w
                  /\ exists e, res = Err e
                     /\ InventoryHandler.grpcErr e = mkStatus Internal "internal error"
        | Some cost => exists now now' r,
            assets d !! a = Some r
            /\ res = Ok (Postgres.checkoutFromDB (checked_in_row now i cost c))
            /\ w_st w' = mkStore
                 (put a (Queries.with_status now'
                           (if cin_ReportDamage i then "under_repair" else "available") r)
                    (cr_ID c) (checked_in_row now i cost c) d) (store_events (w_st w))
        end.
Proof.
  intros Hr%inventory_reachable_inv Hw Hrun d.
  pose proof (yields_run _ _ _ _ _ (CheckInAsset_yields t a i w (vi_checkout_keys _ _ Hr)
                                      (vi_fk _ _ Hr) Hw) Hrun) as Ho.
  unfold checkin_outcome in Ho. fold d in Ho. destruct (picked t a d) as [c|] eqn:Hp.
  - right. destruct (picked_open _ _ _ _ (vi_checkout_keys _ _ Hr) Hp) as (H1 & H2 & H3 & H4).
    exists c. split_and!; [done..|]. destruct (Queries.numeric_opt _) as [cost|]; [exact Ho|].
    destruct Ho as (e & He & Hg & Hs). split; [done|]. by exists e.
  - left. destruct Ho as [-> ->]. split_and!; [done|done|]. intros k c Hk Ha Ht.
    destruct (cr_CheckedInAt c) as [x|] eqn:Hc; [by eexists|]. exfalso.
    apply any_row_none in Hp. assert (Hin : c ∈ select (Queries.open_checkout t a) (checkouts d)).
    { apply select_elem. split; [by eexists|]. unfold Queries.open_checkout, Queries.checkout_of_tenant.
      by rewrite Hc, !bool_decide_true. }
    rewrite Hp in Hin. by apply not_elem_of_nil in Hin.
Qed.

End sequential.

(** ** A concrete service on the reference libraries *)

(** A vertical with one category.  A date is a text of ten bytes.  UUIDs count up
    from the environment's start; users 9 and below may do anything. *)
Module InventoryDemo.

#[local] Existing Instance ref_external.
#[export] Instance iso_dates : Dates := {|
  Date := string;
  date_scan := fun s => if decide (String.length s = 10%nat) then Some s else None;
  date_format := fun d => d
|}.

Lemma head_in A (l : list A) r : head l = Some r -> r ∈ l.
Proof. destruct l; intros [= ->]. apply list_elem_of_here. Qed.
Lemma head_none A (l : list A) : head l = None -> l = [].
Proof. by destruct l. Qed.
(** [ILIKE] of a pattern between wildcards that is the whole text; the first row. *)
#[export] Instance first_row : Planner := {|
  text_ilike := fun s pattern => bool_decide (pattern = Queries.search_pattern s);
  any_row := fun A l => head l;
  any_row_in := head_in;
  any_row_none := head_none
|}.

Definition config : Config :=
  mkConfig "film" "Film" "1" "" (mkEntityLabels "" "" "" "" "" "" "" "") [] [] [] []
    (mkApprovalWorkflow [] 0) [mkInventoryCategory "camera" "Camera" true (Some 5)] []
    (mkCustomFields [] []) [] ∅.

Definition caller (user t : uuid) : Ctx :=
  mkCtx (Some (mkCaller user t 0%N "a@b.co" [] [] "")).
Definition perms : PermissionChecker := fun u _ _ => Ok (bool_decide (u <= 9)%N).
Definition handler : InventoryHandler.Handler :=
  InventoryHandler.mkHandler (Some perms) false (fun _ => Some config).
Definition env (first : N) : Env :=
  mkEnv (fun n => first + N.of_nat n)%N 0 (fun n => 1700000000 * ns_per_sec + Z.of_nat n) 0
    (fun _ => false) 0 0.
Definition world (first : N) (s : St) : World St := mkWorld s (env first) (fun _ s => s) [].

(** Runs RPCs one after the other, each for its caller. *)
Fixpoint run (rs : list (Ctx * InventoryHandler.Rpc)) (w : World St) : World St :=
  match rs with
  | [] => w
  | (c, r) :: rs' => run rs' (InventoryHandler.handle handler c r w).2
  end.

Definition manager : Ctx := caller 9 7.
Definition add (code ownership date : string) : InventoryHandler.Rpc :=
  InventoryHandler.CreateAssetRpc
    (InventoryHandler.mkAssetReq code "Alexa" "camera" "" ownership date "" "").
Definition check_out (to : string) : InventoryHandler.Rpc :=
  InventoryHandler.CheckOutAssetRpc (InventoryHandler.mkCheckOutReq "100" "50" to "" "good").
Definition check_in (damaged : bool) (severity : string) : InventoryHandler.Rpc :=
  InventoryHandler.CheckInAssetRpc
    (InventoryHandler.mkCheckInReq "100" "worn" "" damaged severity "" "").

(** Tenant 7's asset 100, available; and after it was lent and came back damaged. *)
Definition stocked : World St := run [(manager, add "CAM-1" "owned" "")] (world 100 empty_st).
Definition damaged : World St :=
  run [(manager, check_out "20"); (manager, check_in true "high")] stocked.
Definition asset_row (st : string) (t : Time) : AssetRow :=
  mkAssetRow 100 7 "CAM-1" "Alexa" "camera" None "owned" st None (Some 0) None
    1700000000000000000 t.

(** Another request lends the asset to user 30, just before the second statement. *)
Definition lend_meanwhile (n : nat) (s : St) : St :=
  if decide (n = 3%nat) then w_st (InventoryHandler.handle handler manager (check_out "30") (world 500 s)).2
  else s.
Definition racing : World St :=
  mkWorld (w_st stocked) (w_env stocked) lend_meanwhile (w_log stocked).
(** The connection is lost before the third statement. *)
Definition losing (n : nat) : World St :=
  let e := w_env stocked in
  mkWorld (w_st stocked)
    (mkEnv (env_uuid e) (env_uuid_pos e) (env_clock e) (env_clock_pos e)
       (fun i => bool_decide (i = n)) (env_fault_pos e) 0) (fun _ s => s) [].

Definition lent_twice : World St := (InventoryHandler.handle handler manager (check_out "20") racing).2.
Definition returned_once : World St :=
  (InventoryHandler.handle handler manager (check_in false "") (world 900 (w_st lent_twice))).2.
Definition open_row (k to : uuid) (at_ : Time) : CheckoutRow :=
  mkCheckoutRow k 100 50 7 to at_ None None (Some "good") None None false None None None.

End InventoryDemo.

Section witnesses.
#[local] Existing Instance ref_external.
Import InventoryDemo.

Lemma inventory_world_quiet first s : quiet (world first s).
Proof. split; reflexivity. Qed.

Lemma inventory_run_sequential rs (w : World St) :
  sequential handler (w_st w) -> quiet w -> sequential handler (w_st (run rs w)) /\ quiet (run rs w).
Proof.
  revert w. induction rs as [|[c r] rs IH]; intros w Hs Hw; simpl; [done|].
  pose proof (inventory_reachable_inv handler _ (sequential_reachable handler _ Hs)) as Hi.
  destruct (handle_effect handler c r w (vi_checkout_keys _ _ Hi) (vi_fk _ _ Hi) Hw)
    as (res & s & (w' & Hrun & _ & Hq) & _).
  apply IH; [by apply seq_rpc|]. by rewrite Hrun.
Qed.
Lemma stocked_sequential : sequential handler (w_st stocked) /\ quiet stocked.
Proof. exact (inventory_run_sequential _ (world 100 empty_st) (seq_empty handler) (inventory_world_quiet _ _)). Qed.
Lemma damaged_sequential : sequential handler (w_st damaged) /\ quiet damaged.
Proof. exact (inventory_run_sequential _ stocked (proj1 stocked_sequential) (proj2 stocked_sequential)). Qed.

Lemma damaged_row_there :
  assets (store_db (w_st damaged)) !! 100%N = Some (asset_row "under_repair" 1700000000000000004).
Proof. vm_refl. Qed.
Lemma stocked_row_there :
  assets (store_db (w_st stocked)) !! 100%N = Some (asset_row "available" 1700000000000000000).
Proof. vm_refl. Qed.

Lemma racing_inventory_rely : rely (store_step (inventory_step handler)) racing.
Proof.
  intros n s. unfold racing, lend_meanwhile. cbn [w_other]. case_decide; [|split; [apply vstep_preorder|done]].
  apply (handle_inventory_step handler manager (check_out "30") (world 500 s)).
  apply quiet_inventory_rely, inventory_world_quiet.
Qed.

(** One asset can be lent to two people, and be available while one of them has it.
    The status is read by one statement and the checkout inserted by another, and
    neither this nor the schema asks whether there is an open checkout: while a
    request lends the only camera, another lends it too, both are answered with
    their checkout, and the asset has two open checkouts; the check-in that follows,
    alone, closes one of them and makes the asset available. *)
Theorem one_asset_lent_twice :
  exists (w w1 w2 : World St) (k1 k2 : uuid),
    inventory_reachable handler (w_st w) /\ rely (store_step (inventory_step handler)) w
    /\ ar_Status <$> (assets (store_db (w_st w)) !! 100%N) = Some "available"
    /\ w1 = (InventoryHandler.handle handler manager (check_out "20") w).2
    /\ is_ok (InventoryHandler.handle handler manager (check_out "20") w).1 = true
    /\ k1 <> k2 /\ open_at (store_db (w_st w1)) 100 k1 /\ open_at (store_db (w_st w1)) 100 k2
    /\ w2 = (InventoryHandler.handle handler manager (check_in false "") (world 900 (w_st w1))).2
    /\ ar_Status <$> (assets (store_db (w_st w2)) !! 100%N) = Some "available"
    /\ open_at (store_db (w_st w2)) 100 k2.
Proof.
  exists racing, lent_twice, returned_once, 500%N, 101%N.
  split; [exact (sequential_reachable _ _ (proj1 stocked_sequential))|].
  split; [exact racing_inventory_rely|]. split; [vm_refl|]. split; [reflexivity|].
  split; [vm_refl|]. split; [discriminate|].
  split; [exists (open_row 500 30 1700000000000000000); split; [vm_refl|by split]|].
  split; [exists (open_row 101 20 1700000000000000001); split; [vm_refl|by split]|].
  split; [reflexivity|]. split; [vm_refl|].
  exists (open_row 101 20 1700000000000000001). split; [vm_refl|by split].
Qed.

(** A failure between the statements: the checkout is stored and the asset is still
    available, the caller is told Internal. *)
Example half_checkout :
  (InventoryHandler.handle handler manager (check_out "20") (losing 4)).1
  = Err (mkStatus Internal "internal error")
  /\ checkouts (store_db (w_st (InventoryHandler.handle handler manager (check_out "20") (losing 4)).2))
       !! 101%N = Some (open_row 101 20 1700000000000000001)
  /\ ar_Status <$> (assets (store_db (w_st (InventoryHandler.handle handler manager
       (check_out "20") (losing 4)).2)) !! 100%N) = Some "available".
Proof. split; [vm_refl|]. split; vm_refl. Qed.

(** A code that is taken, and an ownership type that is not given, are answered
    Internal; a purchase date that does not parse is dropped. *)
Example taken_code_is_internal :
  (InventoryHandler.handle handler manager (add "CAM-1" "owned" "") stocked).1
  = Err (mkStatus Internal "internal error")
  /\ (InventoryHandler.handle handler manager (add "CAM-2" "" "") stocked).1
     = Err (mkStatus Internal "internal error").
Proof. split; vm_refl. Qed.
Example bad_date_is_dropped :
  ar_PurchaseDate <$> (assets (store_db (w_st (InventoryHandler.handle handler manager
    (add "CAM-2" "owned" "yesterday") stocked).2)) !! 101%N) = Some None.
Proof. vm_refl. Qed.

Lemma inventory_tables_ok_witness :
  ar_ID (asset_row "under_repair" 1700000000000000004) = 100%N
  /\ "under_repair" ∈ ["available"; "checked_out"; "under_repair"].
Proof.
  destruct (inventory_tables_ok handler _ (sequential_reachable _ _ (proj1 damaged_sequential)))
    as (_ & H & _).
  destruct (H 100%N _ damaged_row_there) as (H1 & H2 & _). split; [exact H1|exact H2].
Defined.

(** The damaged camera is still under repair after an attempt to lend it. *)
Lemma inventory_refines_desk_witness :
  exists row, assets (store_db (w_st (InventoryHandler.handle handler manager (check_out "20")
                (world 900 (w_st damaged))).2)) !! 100%N = Some row
              /\ ar_Status row = "under_repair".
Proof.
  pose proof damaged_row_there as Hrow. pose proof (proj1 damaged_sequential) as Hs.
  revert Hrow Hs. generalize (w_st damaged). intros s Hrow Hs.
  destruct (inventory_refines_desk handler s Hs) as [_ H].
  destruct (H manager (check_out "20") (world 900 s) eq_refl (inventory_world_quiet _ _)) as [_ H2].
  exact (H2 100%N _ Hrow eq_refl).
Defined.

(** Nothing is out: a check-in says so. *)
Lemma check_in_outcomes_witness :
  (Inventory.CheckInAsset 7 100 (mkCheckInInput "" "" false "" "" None) (world 900 (w_st stocked))).1
  = Err (ESent ErrNoActiveCheckout).
Proof.
  pose proof (sequential_reachable _ _ (proj1 stocked_sequential)) as Hr.
  assert (Hnone : checkouts (store_db (w_st stocked)) = ∅) by vm_refl.
  revert Hr Hnone. generalize (w_st stocked). intros s Hr Hnone.
  destruct (check_in_outcomes handler 7 100 (mkCheckInInput "" "" false "" "" None) (world 900 s) _ _
              Hr (inventory_world_quiet _ _) (surjective_pairing _)) as [[H _]|(c & H & _)]; [exact H|].
  simpl w_st in H. rewrite Hnone in H. discriminate H.
Defined.

End witnesses.
