(* ===== verification/Document.v ===== *)
(** Documents (services/document): the records of models.go, the tables of
    migrations/document with the statements of db/queries.sql.go and the ones
    written in db/postgres.go (module [Queries]), the repository (module
    [Postgres]), and the service of service.go over an object store. *)

From S2P Require Export Interceptor Store.
Local Open Scope Z_scope.

(** ** Errors (errors.go) *)

Inductive DcErr :=
| ErrDocumentNotFound | ErrDocumentDeleted | ErrFolderNotFound | ErrVersionNotFound
| ErrUploadNotConfirmed | ErrStorageKeyConflict | ErrPresignFailed.

#[export] Instance DcErr_eq_dec : EqDecision DcErr.
Proof. solve_decision. Defined.

Definition DcErr_text (e : DcErr) : string :=
  match e with
  | ErrDocumentNotFound => "document: document not found"
  | ErrDocumentDeleted => "document: document has been deleted"
  | ErrFolderNotFound => "document: folder not found"
  | ErrVersionNotFound => "document: document version not found"
  | ErrUploadNotConfirmed => "document: upload has not been confirmed yet"
  | ErrStorageKeyConflict => "document: storage key already exists"
  | ErrPresignFailed => "document: failed to generate presigned URL"
  end.

(** The URLs the object store signs for a key and a validity window; the interface
    ObjectStore has no implementation in the repository. *)
Class SignedURLs := {
  presigned_put_url : string -> Z -> string;
  presigned_get_url : string -> Z -> string;
}.

(** ** Records (models.go) *)

Record Folder := mkFolder {
  f_ID : uuid;
  f_TenantID : uuid;
  f_ProductionID : option uuid;
  f_Name : string;
  f_ParentID : option uuid;
  f_CreatedBy : uuid;
  f_CreatedAt : Time;
}.

Record Document := mkDocument {
  d_ID : uuid;
  d_TenantID : uuid;
  d_ProductionID : option uuid;
  d_FolderID : option uuid;
  d_Name : string;
  d_MimeType : string;
  d_SizeBytes : Z;
  d_StorageKey : string;
  d_CurrentVersion : Z;
  d_UploadedBy : uuid;
  d_CreatedAt : Time;
  d_DeletedAt : option Time;
}.

Record DocumentVersion := mkDocumentVersion {
  v_ID : uuid;
  v_DocumentID : uuid;
  v_Version : Z;
  v_StorageKey : string;
  v_SizeBytes : Z;
  v_UploadedBy : uuid;
  v_CreatedAt : Time;
}.

Record InitiateUploadRequest := mkInitiateUploadRequest {
  iu_TenantID : uuid;
  iu_ProductionID : option uuid;
  iu_FolderID : option uuid;
  iu_Name : string;
  iu_MimeType : string;
  iu_UploadedBy : uuid;
  iu_SizeHintBytes : Z;
}.

Record UploadURL := mkUploadURL {
  uu_DocumentID : uuid;
  uu_URL : string;
  uu_ExpiresAt : Time;
}.
Record DownloadURL := mkDownloadURL {
  du_URL : string;
  du_ExpiresAt : Time;
}.

(** What the publisher is called with: tenant and document. *)
Inductive Event := DocumentUploaded (tenantID documentID : uuid) | DocumentDeleted (tenantID documentID : uuid).

(** ** Tables (db/models.go) and the object store

    A nullable column is an option.  The rows have the columns of the records, so
    the two share a type where the code has two.  [objects] is the size of each
    stored object by key: clients write it through the URLs they were given. *)
Record DB := mkDB {
  folders : gmap uuid Folder;
  documents : gmap uuid Document;
  document_versions : gmap uuid DocumentVersion;
  objects : gmap string Z;
}.
Definition empty_db : DB := mkDB ∅ ∅ ∅ ∅.
Definition set_folders (t : gmap uuid Folder) (d : DB) : DB :=
  mkDB t (documents d) (document_versions d) (objects d).
Definition set_documents (t : gmap uuid Document) (d : DB) : DB :=
  mkDB (folders d) t (document_versions d) (objects d).
Definition set_versions (t : gmap uuid DocumentVersion) (d : DB) : DB :=
  mkDB (folders d) (documents d) t (objects d).
Definition empty_st : Store DB Event := mkStore empty_db [].

Abbreviation St := (Store DB Event) (only parsing).

(** ** Statements *)

Module Queries.
Section queries.
Context {X : External}.

Definition folder_of_tenant (tenantID : uuid) (r : Folder) : bool :=
  bool_decide (f_TenantID r = tenantID).
(** A foreign key that may be NULL; any tenant's row will do. *)
Definition references {A} (t : gmap uuid A) (id : option uuid) : bool :=
  match id with None => true | Some i => bool_decide (is_Some (t !! i)) end.
(** [$n::uuid IS NULL OR column = $n] *)
Definition matches (arg column : option uuid) : bool :=
  match arg with None => true | Some _ => bool_decide (column = arg) end.

Definition CreateFolder (now : Time) (id tenantID : uuid) (productionID : option uuid) (name : string)
    (parentID : option uuid) (createdBy : uuid) (d : DB) : result pg_error (Folder * DB) :=
  if bool_decide (is_Some (folders d !! id)) then Err PgUniqueViolation
  else if negb (references (folders d) parentID) then Err PgConstraint
  else let r := mkFolder id tenantID productionID name parentID createdBy now in
       Ok (r, set_folders (<[id := r]> (folders d)) d).

Definition GetFolder (tenantID id : uuid) (d : DB) : result pg_error Folder :=
  get_row (folders d) id (folder_of_tenant tenantID).

(** [ORDER BY name ASC] *)
Definition folder_listed (tenantID : uuid) (productionID : option uuid) (r : Folder) : bool :=
  folder_of_tenant tenantID r && matches productionID (f_ProductionID r).
Definition ListFolders (tenantID : uuid) (productionID : option uuid) (limit offset : Z) (d : DB) :
    result pg_error (list Folder) :=
  Ok (limit_offset limit offset
        (order_by (fun a b => text_le (f_Name a) (f_Name b))
           (select (folder_listed tenantID productionID) (folders d)))).

(** storage_key UNIQUE, among all documents but the one with [id] *)
Definition key_taken (id : uuid) (key : string) (d : DB) : bool :=
  exists_row (fun r => negb (bool_decide (d_ID r = id)) && bool_decide (d_StorageKey r = key)) (documents d).

(** current_version takes its default, 1. *)
Definition CreateDocument (now : Time) (id tenantID : uuid) (productionID folderID : option uuid)
    (name mimeType : string) (sizeBytes : Z) (storageKey : string) (uploadedBy : uuid) (d : DB) :
    result pg_error (Document * DB) :=
  if bool_decide (is_Some (documents d !! id)) then Err PgUniqueViolation
  else if key_taken id storageKey d then Err PgUniqueViolation
  else if negb (references (folders d) folderID) then Err PgConstraint
  else let r := mkDocument id tenantID productionID folderID name mimeType sizeBytes storageKey 1
                  uploadedBy now None in
       Ok (r, set_documents (<[id := r]> (documents d)) d).

Definition document_of_tenant (tenantID : uuid) (r : Document) : bool :=
  bool_decide (d_TenantID r = tenantID).
(** A deleted document is not found. *)
Definition live_document (tenantID : uuid) (r : Document) : bool :=
  document_of_tenant tenantID r && bool_decide (d_DeletedAt r = None).
Definition GetDocument (tenantID id : uuid) (d : DB) : result pg_error Document :=
  get_row (documents d) id (live_document tenantID).

(** [ORDER BY created_at DESC] *)
Definition document_listed (tenantID : uuid) (productionID folderID : option uuid) (r : Document) : bool :=
  live_document tenantID r && matches productionID (d_ProductionID r) && matches folderID (d_FolderID r).
Definition ListDocuments (tenantID : uuid) (productionID folderID : option uuid) (limit offset : Z)
    (d : DB) : result pg_error (list Document) :=
  Ok (limit_offset limit offset
        (order_by (fun a b => bool_decide (d_CreatedAt b <= d_CreatedAt a))
           (select (document_listed tenantID productionID folderID) (documents d)))).

(** The columns the UPDATE sets; it does not look at deleted_at. *)
Definition updated_document (sizeBytes : Z) (folderID : option uuid) (storageKey : string)
    (currentVersion : Z) (r : Document) : Document :=
  mkDocument (d_ID r) (d_TenantID r) (d_ProductionID r) folderID (d_Name r) (d_MimeType r) sizeBytes
    storageKey currentVersion (d_UploadedBy r) (d_CreatedAt r) (d_DeletedAt r).
(** The number of rows it affects.  current_version is an INT: the driver refuses an
    [int] that does not fit. *)
Definition UpdateDocument (tenantID id : uuid) (sizeBytes : Z) (folderID : option uuid)
    (storageKey : string) (currentVersion : Z) (d : DB) : result pg_error (Z * DB) :=
  if negb (bool_decide (int32 currentVersion = currentVersion)) then Err PgConstraint else
  match get_row (documents d) id (document_of_tenant tenantID) with
  | Err _ => Ok (0, d)
  | Ok r =>
    if key_taken id storageKey d then Err PgUniqueViolation
    else if negb (references (folders d) folderID) then Err PgConstraint
    else Ok (1, set_documents (<[id := updated_document sizeBytes folderID storageKey currentVersion r]>
                                 (documents d)) d)
  end.

Definition deleted_document (now : Time) (r : Document) : Document :=
  mkDocument (d_ID r) (d_TenantID r) (d_ProductionID r) (d_FolderID r) (d_Name r) (d_MimeType r)
    (d_SizeBytes r) (d_StorageKey r) (d_CurrentVersion r) (d_UploadedBy r) (d_CreatedAt r) (Some now).
(** :exec, so no row is no error. *)
Definition SoftDeleteDocument (now : Time) (tenantID id : uuid) (d : DB) : result pg_error (unit * DB) :=
  match get_row (documents d) id (document_of_tenant tenantID) with
  | Err _ => Ok (tt, d)
  | Ok r => Ok (tt, set_documents (<[id := deleted_document now r]> (documents d)) d)
  end.

(** UNIQUE (document_id, version) *)
Definition version_row (documentID : uuid) (version : Z) (r : DocumentVersion) : bool :=
  bool_decide (v_DocumentID r = documentID) && bool_decide (v_Version r = version).
Definition CreateDocumentVersion (now : Time) (id documentID : uuid) (version : Z) (storageKey : string)
    (sizeBytes : Z) (uploadedBy : uuid) (d : DB) : result pg_error (DocumentVersion * DB) :=
  if bool_decide (is_Some (document_versions d !! id)) then Err PgUniqueViolation
  else if exists_row (version_row documentID version) (document_versions d) then Err PgUniqueViolation
  else if negb (bool_decide (is_Some (documents d !! documentID))) then Err PgConstraint
  else let r := mkDocumentVersion id documentID version storageKey sizeBytes uploadedBy now in
       Ok (r, set_versions (<[id := r]> (document_versions d)) d).

(** No two rows match. *)
Definition GetDocumentVersion (documentID : uuid) (version : Z) (d : DB) :
    result pg_error DocumentVersion :=
  one_row (select (version_row documentID version) (document_versions d)).

(** [ORDER BY version ASC] *)
Definition ListDocumentVersions (documentID : uuid) (limit offset : Z) (d : DB) :
    result pg_error (list DocumentVersion) :=
  Ok (limit_offset limit offset
        (order_by (fun a b => bool_decide (v_Version a <= v_Version b))
           (select (fun r => bool_decide (v_DocumentID r = documentID)) (document_versions d)))).

End queries.
End Queries.

(** ** Repository (db/postgres.go) *)

Module Postgres.
Section repository.
Context {X : External}.

Abbreviation Op := (M St (error DcErr)) (only parsing).

(** Rows to records, column by column. *)
Definition docFromDB (r : Document) : Document :=
  mkDocument (d_ID r) (d_TenantID r) (d_ProductionID r) (d_FolderID r) (d_Name r) (d_MimeType r)
    (d_SizeBytes r) (d_StorageKey r) (d_CurrentVersion r) (d_UploadedBy r) (d_CreatedAt r)
    (d_DeletedAt r).
Definition versionFromDB (r : DocumentVersion) : DocumentVersion :=
  mkDocumentVersion (v_ID r) (v_DocumentID r) (v_Version r) (v_StorageKey r) (v_SizeBytes r)
    (v_UploadedBy r) (v_CreatedAt r).
Definition folderFromDB (r : Folder) : Folder :=
  mkFolder (f_ID r) (f_TenantID r) (f_ProductionID r) (f_Name r) (f_ParentID r) (f_CreatedBy r)
    (f_CreatedAt r).
(** [nil] is NULL. *)
Definition uuidToPgUUID (id : option uuid) : option uuid := id.

Definition CreateFolder (f : Folder) : Op Folder :=
  now ← time_now;
  row ← map_err (pg_wrap "document: create folder: %w")
          (q_exec (Queries.CreateFolder now (f_ID f) (f_TenantID f) (uuidToPgUUID (f_ProductionID f))
                     (f_Name f) (uuidToPgUUID (f_ParentID f)) (f_CreatedBy f)));
  mret (folderFromDB row).

Definition GetFolder (tenantID id : uuid) : Op Folder :=
  row ← map_err (no_rows_as ErrFolderNotFound "document: get folder %s: %w")
          (q_query (Queries.GetFolder tenantID id));
  mret (folderFromDB row).

Definition ListFolders (tenantID : uuid) (productionID : option uuid) (limit offset : Z) :
    Op (list Folder) :=
  rows ← map_err (pg_wrap "document: list folders: %w")
           (q_query (Queries.ListFolders tenantID productionID limit offset));
  mret (folderFromDB <$> rows).

Definition CreateDocument (doc : Document) : Op Document :=
  now ← time_now;
  row ← map_err (pg_wrap "document: create document: %w")
          (q_exec (Queries.CreateDocument now (d_ID doc) (d_TenantID doc)
                     (uuidToPgUUID (d_ProductionID doc)) (uuidToPgUUID (d_FolderID doc)) (d_Name doc)
                     (d_MimeType doc) (d_SizeBytes doc) (d_StorageKey doc) (d_UploadedBy doc)));
  mret (docFromDB row).

Definition GetDocument (tenantID id : uuid) : Op Document :=
  row ← map_err (no_rows_as ErrDocumentNotFound "document: get document %s: %w")
          (q_query (Queries.GetDocument tenantID id));
  mret (docFromDB row).

Definition ListDocuments (tenantID : uuid) (productionID folderID : option uuid) (limit offset : Z) :
    Op (list Document) :=
  rows ← map_err (pg_wrap "document: list documents: %w")
           (q_query (Queries.ListDocuments tenantID productionID folderID (int32 limit) (int32 offset)));
  mret (docFromDB <$> rows).

Definition UpdateDocument (doc : Document) : Op unit :=
  n ← map_err (pg_wrap "document: update document %s: %w")
        (q_exec (Queries.UpdateDocument (d_TenantID doc) (d_ID doc) (d_SizeBytes doc)
                   (uuidToPgUUID (d_FolderID doc)) (d_StorageKey doc) (d_CurrentVersion doc)));
  if decide (n = 0) then mthrow (ESent ErrDocumentNotFound) else mret tt.

(** The time it is given is not used. *)
Definition SoftDeleteDocument (tenantID id : uuid) (deletedAt : Time) : Op unit :=
  now ← time_now;
  map_err pg_text (q_exec (Queries.SoftDeleteDocument now tenantID id)).

Definition CreateVersion (v : DocumentVersion) : Op DocumentVersion :=
  now ← time_now;
  row ← map_err (pg_wrap "document: create version: %w")
          (q_exec (Queries.CreateDocumentVersion now (v_ID v) (v_DocumentID v) (int32 (v_Version v))
                     (v_StorageKey v) (v_SizeBytes v) (v_UploadedBy v)));
  mret (versionFromDB row).

Definition GetVersion (documentID : uuid) (version : Z) : Op DocumentVersion :=
  row ← map_err (no_rows_as ErrVersionNotFound "document: get version %d: %w")
          (q_query (Queries.GetDocumentVersion documentID (int32 version)));
  mret (versionFromDB row).

Definition ListVersions (documentID : uuid) (limit offset : Z) : Op (list DocumentVersion) :=
  rows ← map_err (pg_wrap "document: list versions: %w")
           (q_query (Queries.ListDocumentVersions documentID (int32 limit) (int32 offset)));
  mret (versionFromDB <$> rows).

End repository.
End Postgres.

(** ** Service (service.go) *)

Section service.
Context {X : External} {U : SignedURLs}.

(** The service: whether an object store and an event publisher are configured. *)
Record Service := mkService { s_store : bool; s_publisher : bool }.

Abbreviation Op := (M St (error DcErr)) (only parsing).

Variable s : Service.

Definition assumedBandwidthBytesPerSec : Z := 1250000.
Definition urlWindowBuffer : Z := 5 * 60 * ns_per_sec.
Definition urlWindowMin : Z := 15 * 60 * ns_per_sec.
Definition urlWindowMax : Z := 4 * 3600 * ns_per_sec.

(** int64 arithmetic: both the sum and the product may wrap. *)
Definition presignedURLWindow (sizeBytes : Z) : Z :=
  if bool_decide (sizeBytes <= 0) then urlWindowMin
  else
    let transferSecs :=
      Z.quot (int64 (int64 (sizeBytes + assumedBandwidthBytesPerSec) - 1)) assumedBandwidthBytesPerSec in
    let window := int64 (int64 (transferSecs * ns_per_sec) + urlWindowBuffer) in
    let window := if bool_decide (window < urlWindowMin) then urlWindowMin else window in
    if bool_decide (urlWindowMax < window) then urlWindowMax else window.

(** {tenantID}/{productionID|shared}/{documentID}/v{version}/{filename} *)
Definition storageKey (tenantID documentID : uuid) (productionID : option uuid) (version : Z)
    (filename : string) : string :=
  uuid_string tenantID +:+ "/"
  +:+ match productionID with Some p => uuid_string p | None => "shared" end +:+ "/"
  +:+ uuid_string documentID +:+ "/" +:+ "v" +:+ Itoa version +:+ "/" +:+ filename.

(** Calls of the object store: without one the nil interface panics, and the
    recovery interceptor answers Internal; otherwise they may fail. *)
Definition store_call {A} (fail : pg_error -> error DcErr) (q : DB -> result pg_error A) : Op A :=
  if s_store s then map_err fail (q_query q) else mthrow (EText "nil pointer dereference").
Definition PresignedPutURL (key : string) (ttl : Z) : Op string :=
  store_call (fun _ => EWrap "%w: %v" (ESent ErrPresignFailed)) (fun _ => Ok (presigned_put_url key ttl)).
Definition PresignedGetURL (key : string) (ttl : Z) : Op string :=
  store_call (fun _ => EWrap "%w: %v" (ESent ErrPresignFailed)) (fun _ => Ok (presigned_get_url key ttl)).
Definition Stat (text key : string) : Op Z :=
  store_call (fun _ => EWrap text (EText "stat object"))
    (fun d => match objects d !! key with Some size => Ok size | None => Err PgNoRows end).

Definition publish (ev : Event) : Op unit := emit (s_publisher s) ev.

(** ** Upload lifecycle *)

Definition new_document (docID : uuid) (key : string) (req : InitiateUploadRequest) : Document :=
  mkDocument docID (iu_TenantID req) (iu_ProductionID req) (iu_FolderID req) (iu_Name req)
    (iu_MimeType req) 0 key 1 (iu_UploadedBy req) zero_time None.
(** Whatever error the folder's read gives, the folder is not found. *)
Definition check_folder (text : string) (tenantID folderID : uuid) : Op Folder :=
  map_err (fun _ => EWrap text (ESent ErrFolderNotFound)) (Postgres.GetFolder tenantID folderID).
Definition InitiateUpload (req : InitiateUploadRequest) : Op UploadURL :=
  docID ← uuid_new;
  let key := storageKey (iu_TenantID req) docID (iu_ProductionID req) 1 (iu_Name req) in
  _ ← match iu_FolderID req with
      | None => mret tt
      | Some folderID =>
        _ ← check_folder "document: initiate upload — %w" (iu_TenantID req) folderID;
        mret tt
      end;
  let ttl := presignedURLWindow (iu_SizeHintBytes req) in
  url ← PresignedPutURL key ttl;
  _ ← wrap "document: initiate upload — create record: %w"
        (Postgres.CreateDocument (new_document docID key req));
  now ← time_now;
  mret (mkUploadURL docID url (now + ttl)).

Definition with_size (size : Z) (doc : Document) : Document :=
  mkDocument (d_ID doc) (d_TenantID doc) (d_ProductionID doc) (d_FolderID doc) (d_Name doc)
    (d_MimeType doc) size (d_StorageKey doc) (d_CurrentVersion doc) (d_UploadedBy doc)
    (d_CreatedAt doc) (d_DeletedAt doc).
Definition new_version (id documentID : uuid) (version : Z) (key : string) (size : Z)
    (uploadedBy : uuid) : DocumentVersion :=
  mkDocumentVersion id documentID version key size uploadedBy zero_time.
(** [if doc.DeletedAt != nil { return nil, ErrDocumentDeleted }] *)
Definition not_deleted (doc : Document) : result (error DcErr) unit :=
  match d_DeletedAt doc with Some _ => Err (ESent ErrDocumentDeleted) | None => Ok tt end.
Definition ConfirmUpload (tenantID documentID : uuid) : Op Document :=
  doc ← wrap "document: confirm upload — get record: %w" (Postgres.GetDocument tenantID documentID);
  _ ← lift_result (not_deleted doc);
  sizeBytes ← Stat "document: confirm upload — stat object: %w" (d_StorageKey doc);
  let doc := with_size sizeBytes doc in
  _ ← wrap "document: confirm upload — update size: %w" (Postgres.UpdateDocument doc);
  id ← uuid_new;
  _ ← wrap "document: confirm upload — create version: %w"
        (Postgres.CreateVersion
           (new_version id documentID 1 (d_StorageKey doc) sizeBytes (d_UploadedBy doc)));
  _ ← publish (DocumentUploaded tenantID documentID);
  mret doc.

(** ** Document management *)

Definition GetDocument (tenantID id : uuid) : Op Document :=
  doc ← wrap "document: get %s: %w" (Postgres.GetDocument tenantID id);
  _ ← lift_result (not_deleted doc);
  mret doc.

Definition ListDocuments (tenantID : uuid) (productionID folderID : option uuid) (limit offset : Z) :
    Op (list Document) :=
  let limit := if bool_decide (limit <= 0) || bool_decide (100 < limit) then 20 else limit in
  wrap "document: list: %w" (Postgres.ListDocuments tenantID productionID folderID limit offset).

Definition DeleteDocument (tenantID id : uuid) : Op unit :=
  doc ← wrap "document: delete — get record: %w" (Postgres.GetDocument tenantID id);
  match d_DeletedAt doc with
  | Some _ => mret tt
  | None =>
    now ← time_now;
    _ ← wrap "document: soft delete %s: %w" (Postgres.SoftDeleteDocument tenantID id now);
    publish (DocumentDeleted tenantID id)
  end.

Definition confirmed (doc : Document) : result (error DcErr) unit :=
  if decide (d_SizeBytes doc = 0) then Err (ESent ErrUploadNotConfirmed) else Ok tt.
Definition GetDownloadURL (tenantID id : uuid) : Op DownloadURL :=
  doc ← GetDocument tenantID id;
  _ ← lift_result (confirmed doc);
  let ttl := presignedURLWindow (d_SizeBytes doc) in
  url ← PresignedGetURL (d_StorageKey doc) ttl;
  now ← time_now;
  mret (mkDownloadURL url (now + ttl)).

Definition with_folder (folderID : uuid) (doc : Document) : Document :=
  mkDocument (d_ID doc) (d_TenantID doc) (d_ProductionID doc) (Some folderID) (d_Name doc)
    (d_MimeType doc) (d_SizeBytes doc) (d_StorageKey doc) (d_CurrentVersion doc) (d_UploadedBy doc)
    (d_CreatedAt doc) (d_DeletedAt doc).
Definition MoveDocument (tenantID documentID folderID : uuid) : Op Document :=
  doc ← GetDocument tenantID documentID;
  _ ← check_folder "document: move — %w" tenantID folderID;
  let doc := with_folder folderID doc in
  _ ← wrap "document: move %s to folder %s: %w" (Postgres.UpdateDocument doc);
  mret doc.

(** ** Versioning *)

(** The key of a version of the document. *)
Definition version_key (doc : Document) (version : Z) : string :=
  storageKey (d_TenantID doc) (d_ID doc) (d_ProductionID doc) version (d_Name doc).
(** [uploadedBy] is not used. *)
Definition CreateVersion (tenantID documentID uploadedBy : uuid) : Op UploadURL :=
  doc ← GetDocument tenantID documentID;
  _ ← lift_result (confirmed doc);
  let nextVersion := d_CurrentVersion doc + 1 in
  let ttl := presignedURLWindow (d_SizeBytes doc) in
  url ← PresignedPutURL (version_key doc nextVersion) ttl;
  now ← time_now;
  mret (mkUploadURL documentID url (now + ttl)).

(** The document moved to a version. *)
Definition at_version (version : Z) (key : string) (size : Z) (doc : Document) : Document :=
  mkDocument (d_ID doc) (d_TenantID doc) (d_ProductionID doc) (d_FolderID doc) (d_Name doc)
    (d_MimeType doc) size key version (d_UploadedBy doc) (d_CreatedAt doc) (d_DeletedAt doc).
Definition ConfirmVersion (tenantID documentID : uuid) (version : Z) (uploadedBy : uuid) :
    Op DocumentVersion :=
  doc ← GetDocument tenantID documentID;
  if negb (bool_decide (version = d_CurrentVersion doc + 1))
  then mthrow (EText "document: confirm version — expected %d got %d")
  else
    let key := version_key doc version in
    sizeBytes ← Stat "document: confirm version — stat object: %w" key;
    id ← uuid_new;
    dv ← wrap "document: create version record: %w"
           (Postgres.CreateVersion (new_version id documentID version key sizeBytes uploadedBy));
    _ ← wrap "document: update current version pointer: %w"
          (Postgres.UpdateDocument (at_version version key sizeBytes doc));
    mret dv.

Definition ListVersions (tenantID documentID : uuid) (limit offset : Z) : Op (list DocumentVersion) :=
  let limit := if bool_decide (limit <= 0) || bool_decide (200 < limit) then 50 else limit in
  _ ← GetDocument tenantID documentID;
  wrap "document: list versions: %w" (Postgres.ListVersions documentID limit offset).

(** Whatever error the version's read gives, the version is not found. *)
Definition RestoreVersion (tenantID documentID : uuid) (version : Z) : Op Document :=
  doc ← GetDocument tenantID documentID;
  if decide (version = d_CurrentVersion doc) then mret doc
  else
    dv ← map_err (fun _ => EWrap "document: restore — %w" (ESent ErrVersionNotFound))
           (Postgres.GetVersion documentID version);
    let doc := at_version (v_Version dv) (v_StorageKey dv) (v_SizeBytes dv) doc in
    _ ← wrap "document: restore version %d: %w" (Postgres.UpdateDocument doc);
    mret doc.

(** ** Folders *)

Definition with_folder_id (id : uuid) (f : Folder) : Folder :=
  mkFolder id (f_TenantID f) (f_ProductionID f) (f_Name f) (f_ParentID f) (f_CreatedBy f)
    (f_CreatedAt f).
(** The parent is not looked at. *)
Definition CreateFolder (f : Folder) : Op Folder :=
  id ← id_or_new (f_ID f);
  wrap "document: create folder: %w" (Postgres.CreateFolder (with_folder_id id f)).

Definition ListFolders (tenantID : uuid) (productionID : option uuid) (limit offset : Z) :
    Op (list Folder) :=
  let limit := if bool_decide (limit <= 0) || bool_decide (500 < limit) then 100 else limit in
  wrap "document: list folders: %w" (Postgres.ListFolders tenantID productionID limit offset).

End service.
