(* ===== verification/DocumentHandler.v ===== *)
(** Documents: the gRPC handlers of services/document/handler.go.  A handler takes
    the tenant from the request against the caller's, checks its permission, parses
    the identifiers, calls the service and renders the answer.  Who uploads and who
    creates is what the request says. *)

From S2P Require Export Document.
Local Open Scope Z_scope.

(** ** Messages *)

Record PbUploadURL := mkPbUploadURL { pbu_DocumentId : string; pbu_Url : string; pbu_ExpiresAt : Time }.
Record PbDownloadURL := mkPbDownloadURL { pbd_Url : string; pbd_ExpiresAt : Time }.
Record PbDocument := mkPbDocument {
  pbo_Id : string; pbo_TenantId : string; pbo_Name : string; pbo_MimeType : string;
  pbo_SizeBytes : Z; pbo_StorageKey : string; pbo_CurrentVersion : Z; pbo_UploadedBy : string;
  pbo_CreatedAt : Time; pbo_ProductionId : string; pbo_FolderId : string;
  pbo_DeletedAt : option Time;
}.
Record PbVersion := mkPbVersion {
  pbv_Id : string; pbv_DocumentId : string; pbv_Version : Z; pbv_StorageKey : string;
  pbv_SizeBytes : Z; pbv_UploadedBy : string; pbv_CreatedAt : Time;
}.
Record PbFolder := mkPbFolder {
  pbf_Id : string; pbf_TenantId : string; pbf_Name : string; pbf_CreatedBy : string;
  pbf_CreatedAt : Time; pbf_ProductionId : string; pbf_ParentId : string;
}.

Record UploadReq := mkUploadReq {
  rq_TenantId : string; rq_UploadedBy : string; rq_Name : string; rq_MimeType : string;
  rq_ProductionId : string; rq_FolderId : string }.
Record FolderReq := mkFolderReq {
  rf_TenantId : string; rf_CreatedBy : string; rf_Name : string; rf_ProductionId : string;
  rf_ParentId : string }.

(** The RPCs of DocumentService; the first argument is the request's tenant. *)
Inductive Rpc :=
| InitiateUploadRpc (r : UploadReq)
| ConfirmUploadRpc (tenant document : string)
| GetDocumentRpc (tenant id : string)
| ListDocumentsRpc (tenant production folder : string) (limit offset : Z)
| DeleteDocumentRpc (tenant id : string)
| GetDownloadURLRpc (tenant id : string)
| MoveDocumentRpc (tenant document folder : string)
| CreateVersionRpc (tenant document uploadedBy : string)
| ConfirmVersionRpc (tenant document : string) (version : Z) (uploadedBy : string)
| ListVersionsRpc (tenant document : string)
| RestoreVersionRpc (tenant document : string) (version : Z)
| CreateFolderRpc (r : FolderReq)
| ListFoldersRpc (tenant production : string).

Inductive Response :=
| UploadResp (u : PbUploadURL)
| DownloadResp (u : PbDownloadURL)
| DocumentResp (d : PbDocument)
| DocumentsResp (l : list PbDocument)
| DeletedResp
| VersionResp (v : PbVersion)
| VersionsResp (l : list PbVersion)
| FolderResp (f : PbFolder)
| FoldersResp (l : list PbFolder).

(** [err.Error()]; the text of a wrapped error is its format string. *)
Definition error_text (e : error DcErr) : string :=
  match e with ESent s => DcErr_text s | EWrap t _ => t | EText t => t end.
(** [grpcErr]: the first case of its switch that [errors.Is] accepts. *)
Definition grpcErr (e : error DcErr) : status :=
  let isE s := errors_Is e s in
  if isE ErrDocumentNotFound || isE ErrFolderNotFound || isE ErrVersionNotFound
  then mkStatus NotFound (error_text e)
  else if isE ErrDocumentDeleted then mkStatus FailedPrecondition (error_text e)
  else if isE ErrUploadNotConfirmed then mkStatus FailedPrecondition (error_text e)
  else if isE ErrStorageKeyConflict then mkStatus AlreadyExists (error_text e)
  else if isE ErrPresignFailed then mkStatus Internal (error_text e)
  else mkStatus Internal "internal error".

Section handler.
Context {X : External} {U : SignedURLs}.

(** The handler's collaborators: the service, the permission checker, the
    project-scoped RBAC flag. *)
Record Handler := mkHandler {
  h_svc : Document.Service;
  h_perm : option PermissionChecker;
  h_scoped : bool;
}.

Abbreviation Op := (M St status) (only parsing).

Variable h : Handler.
Variable ctx : Ctx.

Definition svc {A} (m : M St (error DcErr) A) : Op A := map_err grpcErr m.
(** Every RPC begins so. *)
Definition guard_ (tenant perm : string) : Op uuid :=
  tenantID ← lift_result (TenantFromRequest ctx tenant);
  _ ← lift_result (RequirePermission (h_scoped h) (h_perm h) ctx perm);
  mret tenantID.

(** ** Rendering *)

Definition opt_id (id : option uuid) : string := match id with Some i => uuid_string i | None => "" end.
Definition docToProto (d : Document) : PbDocument :=
  mkPbDocument (uuid_string (d_ID d)) (uuid_string (d_TenantID d)) (d_Name d) (d_MimeType d)
    (d_SizeBytes d) (d_StorageKey d) (int32 (d_CurrentVersion d)) (uuid_string (d_UploadedBy d))
    (d_CreatedAt d) (opt_id (d_ProductionID d)) (opt_id (d_FolderID d)) (d_DeletedAt d).
Definition versionToProto (v : DocumentVersion) : PbVersion :=
  mkPbVersion (uuid_string (v_ID v)) (uuid_string (v_DocumentID v)) (int32 (v_Version v))
    (v_StorageKey v) (v_SizeBytes v) (uuid_string (v_UploadedBy v)) (v_CreatedAt v).
Definition folderToProto (f : Folder) : PbFolder :=
  mkPbFolder (uuid_string (f_ID f)) (uuid_string (f_TenantID f)) (f_Name f)
    (uuid_string (f_CreatedBy f)) (f_CreatedAt f) (opt_id (f_ProductionID f)) (opt_id (f_ParentID f)).
Definition uploadToProto (u : UploadURL) : PbUploadURL :=
  mkPbUploadURL (uuid_string (uu_DocumentID u)) (uu_URL u) (uu_ExpiresAt u).

(** ** Upload lifecycle *)

(** The size hint of the service's request is not set. *)
Definition upload_request (tenantID uploadedBy : uuid) (production folder : option uuid) (r : UploadReq) :
    InitiateUploadRequest :=
  mkInitiateUploadRequest tenantID production folder (rq_Name r) (rq_MimeType r) uploadedBy 0.
Definition InitiateUpload (r : UploadReq) : Op Response :=
  tenantID ← guard_ (rq_TenantId r) "document:write";
  uploadedBy ← lift_result (parse_id (rq_UploadedBy r) "invalid uploaded_by");
  production ← lift_result (parse_opt_id (rq_ProductionId r) "invalid production_id");
  folder ← lift_result (parse_opt_id (rq_FolderId r) "invalid folder_id");
  u ← svc (Document.InitiateUpload (h_svc h) (upload_request tenantID uploadedBy production folder r));
  mret (UploadResp (uploadToProto u)).

Definition ConfirmUpload (tenant document : string) : Op Response :=
  tenantID ← guard_ tenant "document:write";
  docID ← lift_result (parse_id document "invalid document_id");
  doc ← svc (Document.ConfirmUpload (h_svc h) tenantID docID);
  mret (DocumentResp (docToProto doc)).

(** ** Document management *)

Definition GetDocument (tenant id : string) : Op Response :=
  tenantID ← guard_ tenant "document:read";
  docID ← lift_result (parse_id id "invalid id");
  doc ← svc (Document.GetDocument tenantID docID);
  mret (DocumentResp (docToProto doc)).

Definition ListDocuments (tenant production folder : string) (limit offset : Z) : Op Response :=
  tenantID ← guard_ tenant "document:read";
  productionID ← lift_result (parse_opt_id production "invalid production_id");
  folderID ← lift_result (parse_opt_id folder "invalid folder_id");
  l ← svc (Document.ListDocuments tenantID productionID folderID limit offset);
  mret (DocumentsResp (docToProto <$> l)).

Definition DeleteDocument (tenant id : string) : Op Response :=
  tenantID ← guard_ tenant "document:delete";
  docID ← lift_result (parse_id id "invalid id");
  _ ← svc (Document.DeleteDocument (h_svc h) tenantID docID);
  mret DeletedResp.

Definition GetDownloadURL (tenant id : string) : Op Response :=
  tenantID ← guard_ tenant "document:read";
  docID ← lift_result (parse_id id "invalid id");
  u ← svc (Document.GetDownloadURL (h_svc h) tenantID docID);
  mret (DownloadResp (mkPbDownloadURL (du_URL u) (du_ExpiresAt u))).

Definition MoveDocument (tenant document folder : string) : Op Response :=
  tenantID ← guard_ tenant "document:write";
  docID ← lift_result (parse_id document "invalid document_id");
  folderID ← lift_result (parse_id folder "invalid folder_id");
  doc ← svc (Document.MoveDocument tenantID docID folderID);
  mret (DocumentResp (docToProto doc)).

(** ** Versioning *)

Definition CreateVersion (tenant document uploadedBy : string) : Op Response :=
  tenantID ← guard_ tenant "document:write";
  docID ← lift_result (parse_id document "invalid document_id");
  user ← lift_result (parse_id uploadedBy "invalid uploaded_by");
  u ← svc (Document.CreateVersion (h_svc h) tenantID docID user);
  mret (UploadResp (uploadToProto u)).

Definition ConfirmVersion (tenant document : string) (version : Z) (uploadedBy : string) : Op Response :=
  tenantID ← guard_ tenant "document:write";
  docID ← lift_result (parse_id document "invalid document_id");
  user ← lift_result (parse_id uploadedBy "invalid uploaded_by");
  dv ← svc (Document.ConfirmVersion (h_svc h) tenantID docID version user);
  mret (VersionResp (versionToProto dv)).

Definition ListVersions (tenant document : string) : Op Response :=
  tenantID ← guard_ tenant "document:read";
  docID ← lift_result (parse_id document "invalid document_id");
  l ← svc (Document.ListVersions tenantID docID 50 0);
  mret (VersionsResp (versionToProto <$> l)).

Definition RestoreVersion (tenant document : string) (version : Z) : Op Response :=
  tenantID ← guard_ tenant "document:delete";
  docID ← lift_result (parse_id document "invalid document_id");
  doc ← svc (Document.RestoreVersion tenantID docID version);
  mret (DocumentResp (docToProto doc)).

(** ** Folders *)

Definition new_folder (tenantID createdBy : uuid) (production parent : option uuid) (r : FolderReq) : Folder :=
  mkFolder uuid_nil tenantID production (rf_Name r) parent createdBy zero_time.
Definition CreateFolder (r : FolderReq) : Op Response :=
  tenantID ← guard_ (rf_TenantId r) "document:write";
  createdBy ← lift_result (parse_id (rf_CreatedBy r) "invalid created_by");
  production ← lift_result (parse_opt_id (rf_ProductionId r) "invalid production_id");
  parent ← lift_result (parse_opt_id (rf_ParentId r) "invalid parent_id");
  f ← svc (Document.CreateFolder (new_folder tenantID createdBy production parent r));
  mret (FolderResp (folderToProto f)).

Definition ListFolders (tenant production : string) : Op Response :=
  tenantID ← guard_ tenant "document:read";
  productionID ← lift_result (parse_opt_id production "invalid production_id");
  l ← svc (Document.ListFolders tenantID productionID 100 0);
  mret (FoldersResp (folderToProto <$> l)).

Definition handle (r : Rpc) : Op Response :=
  match r with
  | InitiateUploadRpc q => InitiateUpload q
  | ConfirmUploadRpc t i => ConfirmUpload t i
  | GetDocumentRpc t i => GetDocument t i
  | ListDocumentsRpc t p f l o => ListDocuments t p f l o
  | DeleteDocumentRpc t i => DeleteDocument t i
  | GetDownloadURLRpc t i => GetDownloadURL t i
  | MoveDocumentRpc t i f => MoveDocument t i f
  | CreateVersionRpc t i u => CreateVersion t i u
  | ConfirmVersionRpc t i v u => ConfirmVersion t i v u
  | ListVersionsRpc t i => ListVersions t i
  | RestoreVersionRpc t i v => RestoreVersion t i v
  | CreateFolderRpc q => CreateFolder q
  | ListFoldersRpc t p => ListFolders t p
  end.

End handler.
