(* ===== verification/DocumentProps.v ===== *)
(** Documents: how the tables may change, whatever requests interleave and whatever
    clients upload ([docstep]), that every RPC stays within it ([handle_docstep]),
    what holds in the states the service can reach, the window of signed URLs, and
    the keys they are for. *)

From S2P Require Export DocumentHandler.
Local Open Scope Z_scope.

(** ** The window of a signed URL *)

(** A file of [size] bytes as the comment computes it, without overflow. *)
Definition ideal_window (size : Z) : Z :=
  Z.min urlWindowMax (Z.max urlWindowMin
    ((size + assumedBandwidthBytesPerSec - 1) / assumedBandwidthBytesPerSec * ns_per_sec
     + urlWindowBuffer)).

Lemma int64_small z : - 2 ^ 63 <= z < 2 ^ 63 -> int64 z = z.
Proof. intros H. unfold int64. rewrite Z.mod_small; lia. Qed.
Lemma int64_wraps z : 2 ^ 63 <= z < 2 ^ 63 + 2 ^ 64 -> int64 z = z - 2 ^ 64.
Proof.
  intros H. unfold int64. rewrite (Z.mod_eq (z + 2 ^ 63)) by lia.
  replace ((z + 2 ^ 63) / 2 ^ 64) with 1; [lia|]. apply (Z.div_unique _ _ _ (z + 2 ^ 63 - 2 ^ 64)); lia.
Qed.

Lemma window_range size : urlWindowMin <= presignedURLWindow size <= urlWindowMax.
Proof.
  unfold presignedURLWindow. case_bool_decide; [done|]. cbv zeta.
  generalize (int64 (int64 (Z.quot (int64 (int64 (size + assumedBandwidthBytesPerSec) - 1))
    assumedBandwidthBytesPerSec * ns_per_sec) + urlWindowBuffer)). intros v.
  unfold urlWindowMin, urlWindowMax, ns_per_sec. repeat case_bool_decide; lia.
Qed.

(** C38: A signed URL is good for fifteen minutes to four hours, whatever size the store or
    a client reports, although the sum and the product of the computation wrap
    around for the largest sizes; up to eleven petabytes it is the documented
    formula, so a larger file never gets a shorter window; and at the top of int64
    the sum wraps and the window is the shortest one. *)
Theorem window_bounds (size : Z) :
  - 2 ^ 63 <= size < 2 ^ 63 ->
  urlWindowMin <= presignedURLWindow size <= urlWindowMax
  /\ (size <= 11 * 10 ^ 15 -> presignedURLWindow size = ideal_window size)
  /\ (forall size', size <= size' <= 11 * 10 ^ 15 -> presignedURLWindow size <= presignedURLWindow size')
  /\ (2 ^ 63 - assumedBandwidthBytesPerSec < size -> presignedURLWindow size = urlWindowMin).
Proof.
  intros Hsize.
  assert (Hideal : forall z, - 2 ^ 63 <= z <= 11 * 10 ^ 15 -> presignedURLWindow z = ideal_window z).
  { intros z Hz. unfold presignedURLWindow, ideal_window. case_bool_decide as Hz0.
    - unfold urlWindowMax, urlWindowMin, urlWindowBuffer, assumedBandwidthBytesPerSec, ns_per_sec in *.
      assert ((z + 1250000 - 1) / 1250000 < 1) by (apply Z.div_lt_upper_bound; lia). lia.
    - unfold urlWindowMax, urlWindowMin, urlWindowBuffer, assumedBandwidthBytesPerSec, ns_per_sec in *.
      rewrite (int64_small (z + 1250000)) by lia. rewrite (int64_small (_ - 1)) by lia.
      rewrite Z.quot_div_nonneg by lia.
      assert (0 <= (z + 1250000 - 1) / 1250000) by (apply Z.div_pos; lia).
      assert ((z + 1250000 - 1) / 1250000 <= 8800000001) by (apply Z.div_le_upper_bound; lia).
      rewrite (int64_small (_ * _)) by lia. rewrite (int64_small (_ + _)) by lia.
      repeat case_bool_decide; lia. }
  split; [|split; [|split]].
  - apply window_range.
  - intros H. apply Hideal. lia.
  - intros size' H. rewrite !Hideal by lia. unfold ideal_window.
    assert ((size + assumedBandwidthBytesPerSec - 1) / assumedBandwidthBytesPerSec
            <= (size' + assumedBandwidthBytesPerSec - 1) / assumedBandwidthBytesPerSec)
      by (apply Z.div_le_mono; unfold assumedBandwidthBytesPerSec; lia).
    unfold ns_per_sec. lia.
  - intros H. unfold presignedURLWindow. rewrite bool_decide_false by (unfold assumedBandwidthBytesPerSec in H; lia).
    assert (Hsum : int64 (int64 (size + assumedBandwidthBytesPerSec) - 1)
                   = size + assumedBandwidthBytesPerSec - 2 ^ 64 - 1).
    { unfold assumedBandwidthBytesPerSec in *.
      rewrite (int64_wraps (size + 1250000)) by lia.
      apply int64_small. lia. }
    rewrite Hsum. cbv zeta.
    assert (Ht : let t := Z.quot (size + assumedBandwidthBytesPerSec - 2 ^ 64 - 1) assumedBandwidthBytesPerSec in
                 t = -7378697629483 \/ t = -7378697629482).
    { unfold assumedBandwidthBytesPerSec in *. cbv zeta. Z.to_euclidean_division_equations. lia. }
    cbv zeta in Ht. destruct Ht as [-> | ->]; reflexivity.
Qed.

(** ** Storage keys *)

Section keys.
Context {X : External} {L : ExternalLaws}.

Lemma uuid_string_inj a b : (a < 2 ^ 128)%N -> (b < 2 ^ 128)%N -> uuid_string a = uuid_string b -> a = b.
Proof.
  intros Ha Hb H. apply (f_equal uuid_parse) in H. rewrite !uuid_parse_string in H by done. congruence.
Qed.

(** A path is split by its slashes. *)
Lemma path_split a a' b b' :
  no_slash a = true -> no_slash a' = true -> a +:+ "/" +:+ b = a' +:+ "/" +:+ b' -> a = a' /\ b = b'.
Proof. apply sep_unique. by rewrite bool_decide_true. Qed.

(** A key names its tenant and its document. *)
Lemma storageKey_inj t t' i i' p p' n n' f f' :
  (t < 2 ^ 128)%N -> (t' < 2 ^ 128)%N -> (i < 2 ^ 128)%N -> (i' < 2 ^ 128)%N ->
  storageKey t i p n f = storageKey t' i' p' n' f' -> t = t' /\ i = i'.
Proof.
  intros Ht Ht' Hi Hi' H. unfold storageKey in H.
  apply path_split in H as [H1 H]; [|apply uuid_string_no_slash..].
  apply path_split in H as [_ H].
  2, 3: match goal with |- no_slash (match ?o with _ => _ end) = true => destruct o end;
    [apply uuid_string_no_slash|done].
  apply path_split in H as [H2 _]; [|apply uuid_string_no_slash..].
  split; by apply uuid_string_inj.
Qed.

(** ** Rows *)

(** The columns of a document no statement writes again. *)
Record same_document (r r' : Document) : Prop := {
  sd_id : d_ID r' = d_ID r;
  sd_tenant : d_TenantID r' = d_TenantID r;
  sd_production : d_ProductionID r' = d_ProductionID r;
  sd_name : d_Name r' = d_Name r;
  sd_deleted : is_Some (d_DeletedAt r) -> is_Some (d_DeletedAt r');
}.
#[export] Instance same_document_preorder : PreOrder same_document.
Proof. split; [by split|]. intros r1 r2 r3 [] []. split; [congruence..|by auto]. Qed.

(** A key of a version of the document. *)
Definition own_key (r : Document) (key : string) : Prop := exists n, key = version_key r n.
Lemma own_key_same r r' key : same_document r r' -> own_key r key -> own_key r' key.
Proof.
  intros [H1 H2 H3 H4 _] [n ->]. exists n. unfold version_key. by rewrite H1, H2, H3, H4.
Qed.

(** What holds between the tables. *)
Definition folder_at (d : DB) (t f : uuid) : Prop :=
  exists fr, folders d !! f = Some fr /\ f_TenantID fr = t.
Definition document_fk (d : DB) (r : Document) : Prop :=
  forall f, d_FolderID r = Some f -> folder_at d (d_TenantID r) f.
Definition version_fk (d : DB) (v : DocumentVersion) : Prop :=
  exists r, documents d !! v_DocumentID v = Some r /\ own_key r (v_StorageKey v).
Definition versions_unique (d : DB) : Prop :=
  forall k1 k2 v1 v2, document_versions d !! k1 = Some v1 -> document_versions d !! k2 = Some v2 ->
    v_DocumentID v1 = v_DocumentID v2 -> v_Version v1 = v_Version v2 -> k1 = k2.

Record docinv (d : DB) : Prop := {
  di_document_keys : map_Forall (fun k r => d_ID r = k) (documents d);
  di_version_keys : map_Forall (fun k v => v_ID v = k) (document_versions d);
  di_documents : map_Forall (fun _ r => own_key r (d_StorageKey r)) (documents d);
  di_folders : map_Forall (fun _ => document_fk d) (documents d);
  di_versions : map_Forall (fun _ => version_fk d) (document_versions d);
  di_unique : versions_unique d;
}.

(** ** Steps *)

(** Folders and versions are only added; a document keeps its identity and is
    given keys of its own and folders of its tenant.  Clients write objects. *)
Definition folder_chg (k : uuid) (o : option Folder) (r' : Folder) : Prop := o = None.
Definition document_chg (k : uuid) (o : option Document) (r' : Document) : Prop :=
  match o with
  | None => d_ID r' = k /\ own_key r' (d_StorageKey r')
  | Some r => same_document r r' /\ (own_key r (d_StorageKey r) -> own_key r' (d_StorageKey r'))
  end.
Definition version_chg (k : uuid) (o : option DocumentVersion) (r' : DocumentVersion) : Prop :=
  o = None /\ v_ID r' = k.

Record docstep (d d' : DB) : Prop := {
  dcs_folders : table_step folder_chg (folders d) (folders d');
  dcs_documents : table_step document_chg (documents d) (documents d');
  dcs_versions : table_step version_chg (document_versions d) (document_versions d');
  dcs_inv : docinv d -> docinv d';
}.

Lemma folder_chg_trans k o r1 r2 : folder_chg k o r1 -> folder_chg k (Some r1) r2 -> folder_chg k o r2.
Proof. intros _ [=]. Qed.
Lemma version_chg_trans k o r1 r2 : version_chg k o r1 -> version_chg k (Some r1) r2 -> version_chg k o r2.
Proof. intros _ [[=] _]. Qed.
Lemma document_chg_trans k o r1 r2 :
  document_chg k o r1 -> document_chg k (Some r1) r2 -> document_chg k o r2.
Proof.
  intros H [Hs Hk]. destruct o as [r|]; destruct H as [H1 H2].
  - split; [by transitivity r1|auto].
  - split; [by rewrite (sd_id _ _ Hs)|auto].
Qed.
#[export] Instance docstep_preorder : PreOrder docstep.
Proof.
  pose proof (table_step_preorder folder_chg_trans) as HP1.
  pose proof (table_step_preorder document_chg_trans) as HP2.
  pose proof (table_step_preorder version_chg_trans) as HP3.
  split; [intros d; by split|]. intros d1 d2 d3 [] [].
  split; [by transitivity (folders d2)|by transitivity (documents d2)|
          by transitivity (document_versions d2)|auto].
Qed.

(** What is stable along steps. *)
Lemma folder_at_step d d' t f : table_step folder_chg (folders d) (folders d') -> folder_at d t f -> folder_at d' t f.
Proof.
  intros Hs (fr & Hf & Ht). destruct (table_step_some _ _ _ _ Hs Hf) as (fr' & Hf' & HQ).
  exists fr'. split; [done|]. by destruct HQ as [->|[=]].
Qed.
Lemma document_step d d' k r :
  table_step document_chg (documents d) (documents d') -> documents d !! k = Some r ->
  exists r', documents d' !! k = Some r' /\ same_document r r'.
Proof.
  intros Hs Hr. destruct (table_step_some _ _ _ _ Hs Hr) as (r' & Hr' & HQ).
  exists r'. split; [done|]. by destruct HQ as [->|[HQ _]].
Qed.
Lemma version_fk_step d d' v :
  table_step document_chg (documents d) (documents d') -> version_fk d v -> version_fk d' v.
Proof.
  intros Hs (r & Hr & Hk). destruct (document_step _ _ _ _ Hs Hr) as (r' & Hr' & Hsame).
  exists r'. split; [done|]. by eapply own_key_same.
Qed.

(** The shapes of a step. *)
Lemma docstep_folder d k r : folders d !! k = None -> docstep d (set_folders (<[k := r]> (folders d)) d).
Proof.
  intros Hk. assert (Ht : table_step folder_chg (folders d) (<[k := r]> (folders d)))
    by by apply table_step_insert.
  split; [done|apply table_step_refl|apply table_step_refl|].
  intros []. split; try done. intros i x Hx f Hf. eapply folder_at_step; [exact Ht|by eapply di_folders0].
Qed.
Lemma docstep_document d k r' :
  document_chg k (documents d !! k) r' -> (docinv d -> document_fk d r') ->
  docstep d (set_documents (<[k := r']> (documents d)) d).
Proof.
  intros Hc Hf. assert (Ht : table_step document_chg (documents d) (<[k := r']> (documents d)))
    by by apply table_step_insert.
  split; [apply table_step_refl|done|apply table_step_refl|].
  intros Hi. pose proof Hi as [I1 I2 I3 I4 I5 I6]. split; [..|done].
  - intros i r. simpl. rewrite lookup_insert_Some. intros [[<- <-]|[_ Hr]]; [|by apply I1].
    unfold document_chg in Hc. destruct (documents d !! k) as [r0|] eqn:Hr0.
    + rewrite (sd_id _ _ (proj1 Hc)). by apply I1.
    + apply Hc.
  - done.
  - intros i r. simpl. rewrite lookup_insert_Some. intros [[<- <-]|[_ Hr]]; [|by eapply I3].
    unfold document_chg in Hc. destruct (documents d !! k) as [r0|] eqn:Hr0; [|apply Hc].
    apply Hc. by eapply I3.
  - intros i r. simpl. rewrite lookup_insert_Some. intros [[<- <-]|[_ Hr]]; [by apply Hf|by apply (I4 i)].
  - intros i v Hv. eapply version_fk_step; [exact Ht|by eapply I5].
Qed.
Lemma docstep_version d k v :
  document_versions d !! k = None -> v_ID v = k ->
  (forall k2 v2, document_versions d !! k2 = Some v2 -> v_DocumentID v2 = v_DocumentID v ->
     v_Version v2 = v_Version v -> False) ->
  (docinv d -> version_fk d v) -> docstep d (set_versions (<[k := v]> (document_versions d)) d).
Proof.
  intros Hk Hid Hu Hf. assert (Ht : table_step version_chg (document_versions d) (<[k := v]> (document_versions d)))
    by by apply table_step_insert.
  split; [apply table_step_refl|apply table_step_refl|done|].
  intros Hi. pose proof Hi as [I1 I2 I3 I4 I5 I6]. split; [done| |done|done| |].
  - intros i r. simpl. rewrite lookup_insert_Some. intros [[<- <-]|[_ Hr]]; [done|by apply I2].
  - intros i r. simpl. rewrite lookup_insert_Some. intros [[<- <-]|[_ Hr]]; [by apply Hf|by eapply I5].
  - intros k1 k2 v1 v2. simpl. rewrite !lookup_insert_Some.
    intros [[<- <-]|[Hne1 H1]] [[<- <-]|[Hne2 H2]] Hd Hv; [done|..].
    + exfalso. by eapply Hu.
    + exfalso. by eapply Hu.
    + by eapply I6.
Qed.

(** ** Statements *)

Lemma CreateFolder_docstep now id t p n pa c d a d' :
  Queries.CreateFolder now id t p n pa c d = Ok (a, d') -> docstep d d'.
Proof.
  unfold Queries.CreateFolder. case_bool_decide as Hid; [done|]. destruct (negb _); [done|].
  intros [= _ <-]. by apply docstep_folder, free_key.
Qed.
Lemma CreateDocument_docstep now id t p fo n m key up d a d' :
  (exists v, key = storageKey t id p v n) -> (forall f, fo = Some f -> folder_at d t f) ->
  Queries.CreateDocument now id t p fo n m 0 key up d = Ok (a, d') -> docstep d d'.
Proof.
  intros [v ->] Hf. unfold Queries.CreateDocument. case_bool_decide as Hid; [done|].
  destruct (Queries.key_taken _ _ _); [done|]. destruct (negb _); [done|]. intros [= _ <-].
  apply docstep_document; [|done]. rewrite free_key by done. split; [done|]. by exists v.
Qed.
Lemma UpdateDocument_docstep t id size fo key cv d a d' :
  (forall r, documents d !! id = Some r -> d_TenantID r = t ->
     own_key r key /\ forall f, fo = Some f -> folder_at d t f) ->
  Queries.UpdateDocument t id size fo key cv d = Ok (a, d') -> docstep d d'.
Proof.
  intros H. unfold Queries.UpdateDocument, Queries.document_of_tenant. destruct (negb (bool_decide _)); [done|].
  destruct (get_row _ _ _) as [r|] eqn:Hg; [|by intros [= _ <-]]. apply get_row_tenant in Hg as [Hr <-].
  destruct (Queries.key_taken _ _ _); [done|]. destruct (negb _); [done|]. intros [= _ <-].
  destruct (H r Hr eq_refl) as [[n ->] Hf]. apply docstep_document; [|by intros _ f Hff; apply Hf].
  rewrite Hr. split; [by split|]. intros _. by exists n.
Qed.
Lemma SoftDeleteDocument_docstep now t id d a d' :
  Queries.SoftDeleteDocument now t id d = Ok (a, d') -> docstep d d'.
Proof.
  unfold Queries.SoftDeleteDocument, Queries.document_of_tenant.
  destruct (get_row _ _ _) as [r|] eqn:Hg; [|by intros [= _ <-]]. apply get_row_tenant in Hg as [Hr <-].
  intros [= _ <-]. apply docstep_document; [|intros Hi; exact (di_folders _ Hi id r Hr)].
  rewrite Hr. split; [split; try done; by eexists|]. intros [n Hn]. by exists n.
Qed.
Lemma CreateDocumentVersion_docstep now id i n key size up d a d' :
  (forall r, documents d !! i = Some r -> own_key r key) ->
  Queries.CreateDocumentVersion now id i n key size up d = Ok (a, d') -> docstep d d'.
Proof.
  intros Hkey. unfold Queries.CreateDocumentVersion. case_bool_decide as Hid; [done|].
  destruct (exists_row _ _) eqn:He; [done|]. case_bool_decide as Hd; [|done]. intros [= _ <-].
  apply docstep_version; [by apply free_key|done|..].
  - intros k2 v2 H2 Hi Hn. rewrite exists_row_false in He. specialize (He k2 v2 H2).
    unfold Queries.version_row in He. by rewrite !bool_decide_true in He.
  - intros _. destruct Hd as [r Hr]. exists r. split; [done|]. by apply Hkey.
Qed.

End keys.

(** ** Programs: every RPC moves the tables along [docstep] *)

Section programs.
Context {X : External} {U : SignedURLs}.
Variable s : Service.
Abbreviation R := (store_step (D:=DB) (Ev:=Event) docstep) (only parsing).

Lemma docFromDB_id r : Postgres.docFromDB r = r.
Proof. by destruct r. Qed.
Lemma versionFromDB_id r : Postgres.versionFromDB r = r.
Proof. by destruct r. Qed.
Lemma folderFromDB_id r : Postgres.folderFromDB r = r.
Proof. by destruct r. Qed.

(** What a request knows of a document it has read, for as long as it runs. *)
Record facts (d : DB) (doc : Document) : Prop := {
  fa_row : exists r, documents d !! d_ID doc = Some r /\ same_document doc r;
  fa_key : own_key doc (d_StorageKey doc);
  fa_folder : document_fk d doc;
}.
Lemma facts_step d d' doc : docstep d d' -> facts d doc -> facts d' doc.
Proof.
  intros [H1 H2 _ _] [(r & Hr & Hs) Hk Hf]. split; [|done|].
  - destruct (document_step _ _ _ _ H2 Hr) as (r' & Hr' & Hs'). exists r'. split; [done|]. by transitivity r.
  - intros f Hff. eapply folder_at_step; [exact H1|by apply Hf].
Qed.
(** The columns a request never changes on its copy of a document. *)
Definition identity (doc : Document) : uuid * uuid * option uuid * string * option Time :=
  (d_ID doc, d_TenantID doc, d_ProductionID doc, d_Name doc, d_DeletedAt doc).
Lemma facts_identity d doc doc' :
  identity doc' = identity doc -> facts d doc -> own_key doc (d_StorageKey doc') -> document_fk d doc' ->
  facts d doc'.
Proof.
  intros [= H1 H2 H3 H4 H5] [(r & Hr & Hs) _ _] [n Hk] Hf. split; [|exists n|done].
  - exists r. rewrite H1. split; [done|]. destruct Hs. split; try congruence.
    rewrite H5. done.
  - rewrite Hk. unfold version_key. by rewrite H1, H2, H3, H4.
Qed.
Lemma own_key_identity doc doc' key : identity doc' = identity doc -> own_key doc key -> own_key doc' key.
Proof. intros [= H1 H2 H3 H4 H5] [n ->]. exists n. unfold version_key. by rewrite H1, H2, H3, H4. Qed.

(** A document that was read. *)
Lemma read_document t id (w : World St) doc w' :
  Postgres.GetDocument t id w = (Ok doc, w') -> rely R w -> docinv (store_db (w_st w)) ->
  d_ID doc = id /\ d_TenantID doc = t /\ d_DeletedAt doc = None
  /\ documents (store_db (w_st w')) !! id = Some doc /\ facts (store_db (w_st w')) doc.
Proof.
  intros (row & w1 & Hq & Hret)%bind_Ok HR Hi. apply ret_Ok in Hret as [-> ->]. rewrite docFromDB_id.
  apply map_err_Ok, (store_query_Ok (R:=docstep)) in Hq as ([Hs _] & Hq & _); [|done].
  apply get_row_Ok in Hq as [Hrow Hl]. unfold Queries.live_document, Queries.document_of_tenant in Hl.
  bool_hyps. pose proof (dcs_inv _ _ Hs Hi) as Hi'.
  split; [exact (di_document_keys _ Hi' id row Hrow)|]. split_and!; [done..|].
  split; [|exact (di_documents _ Hi' id row Hrow)|exact (di_folders _ Hi' id row Hrow)].
  exists row. rewrite (di_document_keys _ Hi' id row Hrow). by split.
Qed.
Lemma read_folder t id (w : World St) f w' :
  Postgres.GetFolder t id w = (Ok f, w') -> rely R w -> folder_at (store_db (w_st w')) t id.
Proof.
  intros (row & w1 & Hq & Hret)%bind_Ok HR. apply ret_Ok in Hret as [-> ->].
  apply map_err_Ok, (store_query_Ok (R:=docstep)) in Hq as (_ & Hq & _); [|done].
  apply get_row_tenant in Hq as [Hrow Ht]. by exists row.
Qed.
Lemma read_version i n (w : World St) v w' :
  Postgres.GetVersion i n w = (Ok v, w') -> rely R w -> docinv (store_db (w_st w)) ->
  v_DocumentID v = i /\ v_Version v = int32 n /\ version_fk (store_db (w_st w')) v.
Proof.
  intros (row & w1 & Hq & Hret)%bind_Ok HR Hi. apply ret_Ok in Hret as [-> ->]. rewrite versionFromDB_id.
  apply map_err_Ok, (store_query_Ok (R:=docstep)) in Hq as ([Hs _] & Hq & _); [|done].
  unfold Queries.GetDocumentVersion in Hq. apply one_row_Ok, select_elem in Hq as [[k Hk] Hv].
  unfold Queries.version_row in Hv. bool_hyps.
  split_and!; [done..|]. exact (di_versions _ (dcs_inv _ _ Hs Hi) k row Hk).
Qed.

(** Splits a call into its statements. *)
Ltac doc_steps :=
  repeat (steps_tac; try done; try apply steps_store_query; try apply steps_store_exec;
          try apply steps_emit).

Lemma steps_GetDocument_repo t id w : steps R (Postgres.GetDocument t id) w.
Proof. unfold Postgres.GetDocument. doc_steps. Qed.
Lemma steps_GetFolder t id w : steps R (Postgres.GetFolder t id) w.
Proof. unfold Postgres.GetFolder. doc_steps. Qed.
Lemma steps_GetVersion i n w : steps R (Postgres.GetVersion i n) w.
Proof. unfold Postgres.GetVersion. doc_steps. Qed.
Lemma steps_GetDocument t id w : steps R (Document.GetDocument t id) w.
Proof.
  unfold Document.GetDocument. apply steps_bind; [apply steps_wrap, steps_GetDocument_repo|]. doc_steps.
Qed.
Lemma steps_ListDocuments t p f l o w : steps R (Document.ListDocuments t p f l o) w.
Proof. unfold Document.ListDocuments, Postgres.ListDocuments. doc_steps. Qed.
Lemma steps_ListVersions t i l o w : steps R (Document.ListVersions t i l o) w.
Proof.
  unfold Document.ListVersions. apply steps_bind; [apply steps_GetDocument|].
  intros. unfold Postgres.ListVersions. doc_steps.
Qed.
Lemma steps_ListFolders t p l o w : steps R (Document.ListFolders t p l o) w.
Proof. unfold Document.ListFolders, Postgres.ListFolders. doc_steps. Qed.
Lemma steps_store_call {A} fail (q : DB -> result pg_error A) w : steps R (store_call s fail q) w.
Proof. unfold store_call. doc_steps. Qed.
Lemma steps_CreateFolder f w : steps R (Document.CreateFolder f) w.
Proof.
  unfold Document.CreateFolder, Postgres.CreateFolder. doc_steps. by eapply CreateFolder_docstep.
Qed.
Lemma steps_DeleteDocument t id w : steps R (Document.DeleteDocument s t id) w.
Proof.
  unfold Document.DeleteDocument. apply steps_bind; [apply steps_wrap, steps_GetDocument_repo|].
  intros. unfold Postgres.SoftDeleteDocument, publish. doc_steps. by eapply SoftDeleteDocument_docstep.
Qed.
Lemma steps_GetDownloadURL t id w : steps R (Document.GetDownloadURL s t id) w.
Proof.
  unfold Document.GetDownloadURL. apply steps_bind; [apply steps_GetDocument|]. intros.
  unfold PresignedGetURL. steps_tac. apply steps_store_call.
Qed.
Lemma steps_CreateVersion t i u w : steps R (Document.CreateVersion s t i u) w.
Proof.
  unfold Document.CreateVersion. apply steps_bind; [apply steps_GetDocument|]. intros.
  unfold PresignedPutURL. steps_tac. apply steps_store_call.
Qed.

Lemma steps_UpdateDocument doc w :
  facts (store_db (w_st w)) doc -> steps R (Postgres.UpdateDocument doc) w.
Proof.
  intros Hf. unfold Postgres.UpdateDocument. steps_tac.
  apply steps_store_exec_from. intros d n d' Hd. apply UpdateDocument_docstep. intros r Hr Ht.
  destruct (facts_step _ _ _ Hd Hf) as [(r0 & Hr0 & Hs) Hk Hff]. rewrite Hr in Hr0. injection Hr0 as <-.
  split; [by eapply own_key_same|]. intros f Hfo. exact (Hff f Hfo).
Qed.
Lemma steps_CreateVersion_repo v doc w :
  facts (store_db (w_st w)) doc -> v_DocumentID v = d_ID doc -> own_key doc (v_StorageKey v) ->
  steps R (Postgres.CreateVersion v) w.
Proof.
  intros Hf Hi Hk. unfold Postgres.CreateVersion. apply steps_bind; [apply steps_time|].
  intros now w1 _ _ [H1 _] _. apply (facts_step _ _ _ H1) in Hf. steps_tac.
  apply steps_store_exec_from. intros d n d' Hd. apply CreateDocumentVersion_docstep. intros r Hr.
  destruct (facts_step _ _ _ Hd Hf) as [(r0 & Hr0 & Hs) _ _].
  rewrite Hi, Hr0 in Hr. injection Hr as <-. by eapply own_key_same.
Qed.

(** ** The calls that write a document they have read *)

Lemma not_deleted_Ok doc u (w w' : World St) :
  lift_result (not_deleted doc) w = (Ok u, w') -> w' = w.
Proof. by intros [_ ->]%lift_Ok. Qed.

(** [Document.GetDocument], like the repository's. *)
Lemma read_document_svc t id (w : World St) doc w' :
  Document.GetDocument t id w = (Ok doc, w') -> rely R w -> docinv (store_db (w_st w)) ->
  d_ID doc = id /\ d_TenantID doc = t /\ d_DeletedAt doc = None
  /\ documents (store_db (w_st w')) !! id = Some doc /\ facts (store_db (w_st w')) doc.
Proof.
  intros (doc0 & w1 & Hg & Hrest)%bind_Ok HR Hi. apply bind_Ok in Hrest as (u & w2 & ->%not_deleted_Ok & Hret).
  apply ret_Ok in Hret as [-> ->]. apply wrap_Ok in Hg. by eapply read_document.
Qed.

(** The facts hold in the next world. *)
Ltac forward :=
  repeat match goal with
  | Hf : facts (store_db (w_st ?w)) _, H : store_step docstep (w_st ?w) (w_st _) |- _ =>
      let Hd := fresh "Hd" in
      destruct H as [Hd _]; apply (facts_step _ _ _ Hd) in Hf; clear Hd
  end.

Lemma steps_ConfirmUpload t id w :
  docinv (store_db (w_st w)) -> steps R (Document.ConfirmUpload s t id) w.
Proof.
  intros Hi. unfold Document.ConfirmUpload.
  apply steps_bind; [apply steps_wrap, steps_GetDocument_repo|]. intros doc w1 Hg HR _ _.
  apply wrap_Ok in Hg. destruct (read_document _ _ _ _ _ Hg HR Hi) as (Hid & Ht & _ & _ & Hf).
  apply steps_bind; [apply steps_lift|]. intros ? w2 ->%not_deleted_Ok _ _ _.
  apply steps_bind; [apply steps_store_call|]. intros size w3 _ _ Hst _. forward.
  assert (Hf' : facts (store_db (w_st w3)) (with_size size doc)).
  { apply (facts_identity _ doc); [done|done|apply Hf|apply Hf]. }
  apply steps_bind; [by apply steps_wrap, steps_UpdateDocument|]. intros u w4 _ _ Hst4 _.
  clear Hf. forward. apply steps_bind; [apply steps_uuid|]. intros vid w5 _ _ Hst5 _. forward.
  apply steps_bind; [apply steps_wrap, (steps_CreateVersion_repo _ (with_size size doc)); [done|done|apply Hf']|].
  intros. unfold publish. doc_steps.
Qed.

Lemma steps_check_folder text t f w : steps R (check_folder text t f) w.
Proof. unfold check_folder. apply steps_map_err, steps_GetFolder. Qed.

Lemma steps_MoveDocument t i f w :
  docinv (store_db (w_st w)) -> steps R (Document.MoveDocument t i f) w.
Proof.
  intros Hi. unfold Document.MoveDocument.
  apply steps_bind; [apply steps_GetDocument|]. intros doc w1 Hg HR _ HR1.
  destruct (read_document_svc _ _ _ _ _ Hg HR Hi) as (Hid & Ht & _ & _ & Hf).
  apply steps_bind; [apply steps_check_folder|]. intros fo w2 Hc _ Hst _. forward.
  apply map_err_Ok in Hc. pose proof (read_folder _ _ _ _ _ Hc HR1) as Hfo.
  apply steps_bind; [|intros; apply steps_ret]. apply steps_wrap, steps_UpdateDocument.
  apply (facts_identity _ doc); [done|done|apply Hf|]. intros f' [= <-]. simpl. by rewrite Ht.
Qed.

Lemma steps_ConfirmVersion t i n u w :
  docinv (store_db (w_st w)) -> steps R (Document.ConfirmVersion s t i n u) w.
Proof.
  intros Hi. unfold Document.ConfirmVersion.
  apply steps_bind; [apply steps_GetDocument|]. intros doc w1 Hg HR _ HR1.
  destruct (read_document_svc _ _ _ _ _ Hg HR Hi) as (Hid & Ht & _ & _ & Hf).
  destruct (negb _); [apply steps_throw|].
  assert (Hk : own_key doc (version_key doc n)) by by exists n.
  apply steps_bind; [apply steps_store_call|]. intros size w2 _ _ Hst _. forward.
  apply steps_bind; [apply steps_uuid|]. intros vid w3 _ _ Hst3 _. forward.
  apply steps_bind; [by apply steps_wrap, (steps_CreateVersion_repo _ doc)|]. intros dv w4 _ _ Hst4 _. forward.
  apply steps_bind; [|intros; apply steps_ret]. apply steps_wrap, steps_UpdateDocument.
  apply (facts_identity _ doc); [done|done|done|apply Hf].
Qed.

Lemma steps_RestoreVersion t i n w :
  docinv (store_db (w_st w)) -> steps R (Document.RestoreVersion t i n) w.
Proof.
  intros Hi. unfold Document.RestoreVersion.
  apply steps_bind; [apply steps_GetDocument|]. intros doc w1 Hg HR [Hd1 _] HR1.
  destruct (read_document_svc _ _ _ _ _ Hg HR Hi) as (Hid & Ht & _ & _ & Hf).
  case_decide; [apply steps_ret|].
  apply steps_bind; [apply steps_map_err, steps_GetVersion|]. intros dv w2 Hv _ Hst2 _.
  apply map_err_Ok in Hv.
  destruct (read_version _ _ _ _ _ Hv HR1 (dcs_inv _ _ Hd1 Hi)) as (Hvi & _ & r & Hr & Hk).
  forward. apply steps_bind; [|intros; apply steps_ret]. apply steps_wrap, steps_UpdateDocument.
  apply (facts_identity _ doc); [done|done| |apply Hf]. simpl.
  destruct (fa_row _ _ Hf) as (r' & Hr' & Hs). rewrite Hvi, <-Hid, Hr' in Hr. injection Hr as ->.
  destruct Hk as [m ->]. exists m. unfold version_key. destruct Hs. congruence.
Qed.

Lemma steps_InitiateUpload req w : steps R (Document.InitiateUpload s req) w.
Proof.
  unfold Document.InitiateUpload. apply steps_bind; [apply steps_uuid|]. intros id w1 _ HR _ HR1.
  set (key := storageKey _ _ _ _ _). apply steps_bind.
  { destruct (iu_FolderID req); [|apply steps_ret]. apply steps_bind; [apply steps_check_folder|].
    intros. apply steps_ret. }
  intros ? w2 Hc _ _ _.
  assert (Hf : forall f, iu_FolderID req = Some f -> folder_at (store_db (w_st w2)) (iu_TenantID req) f).
  { intros f Hf. rewrite Hf in Hc. apply bind_Ok in Hc as (fo & w3 & Hc & Hret).
    apply ret_Ok in Hret as [-> ->]. apply map_err_Ok in Hc. by eapply read_folder. }
  apply steps_bind; [apply steps_store_call|]. intros url w3 _ _ [Hd _] _.
  apply steps_bind; [|intros; steps_tac]. apply steps_wrap. unfold Postgres.CreateDocument.
  apply steps_bind; [apply steps_time|]. intros now w4 _ _ [Hd' _] _. steps_tac.
  apply steps_store_exec_from. intros d upd d' Hdd. apply CreateDocument_docstep; [by exists 1|].
  intros f Hff. eapply folder_at_step; [|by apply Hf].
  exact (dcs_folders _ _ (transitivity Hd (transitivity Hd' Hdd))).
Qed.

End programs.

Section handle.
Context {X : External} {U : SignedURLs}.
Variable h : DocumentHandler.Handler.
Variable ctx : Ctx.

Lemma handle_docstep r (w : World St) :
  docinv (store_db (w_st w)) -> steps (store_step docstep) (DocumentHandler.handle h ctx r) w.
Proof.
  intros Hi. destruct r; simpl;
    unfold DocumentHandler.InitiateUpload, DocumentHandler.ConfirmUpload, DocumentHandler.GetDocument,
      DocumentHandler.ListDocuments, DocumentHandler.DeleteDocument, DocumentHandler.GetDownloadURL,
      DocumentHandler.MoveDocument, DocumentHandler.CreateVersion, DocumentHandler.ConfirmVersion,
      DocumentHandler.ListVersions, DocumentHandler.RestoreVersion, DocumentHandler.CreateFolder,
      DocumentHandler.ListFolders, DocumentHandler.guard_, DocumentHandler.svc;
    steps_tac;
    try first
      [ apply steps_InitiateUpload | apply steps_GetDocument | apply steps_ListDocuments
      | apply steps_DeleteDocument | apply steps_GetDownloadURL | apply steps_CreateVersion
      | apply steps_ListVersions | apply steps_CreateFolder | apply steps_ListFolders ].
  all: repeat match goal with
       | H : store_step docstep (w_st ?v) (w_st _) |- _ =>
           destruct H as [?Hd _]; match goal with Hd' : docstep _ _ |- _ => apply (dcs_inv _ _ Hd') in Hi; clear Hd' end
       end.
  all: first [ by apply steps_ConfirmUpload | by apply steps_MoveDocument | by apply steps_ConfirmVersion
             | by apply steps_RestoreVersion ].
Qed.

End handle.

(** ** Signed URLs *)

Section signed.
Context {X : External} {U : SignedURLs}.

Lemma docinv_empty : docinv empty_db.
Proof. split; try apply map_Forall_empty. intros k1 k2 v1 v2 H. cbn in H. by rewrite lookup_empty in H. Qed.

(** A URL for an object of a document of the tenant, good for a window in bounds. *)
Definition signed_for (d : DB) (t i : uuid) (url : string) : Prop :=
  exists r key ttl, documents d !! i = Some r /\ d_TenantID r = t /\ own_key r key
    /\ (url = presigned_put_url key ttl \/ url = presigned_get_url key ttl)
    /\ urlWindowMin <= ttl <= urlWindowMax.

Lemma signed_for_step d d' t i url : docstep d d' -> signed_for d t i url -> signed_for d' t i url.
Proof.
  intros [_ H2 _ _] (r & key & ttl & Hr & Ht & Hk & H). destruct (document_step _ _ _ _ H2 Hr) as (r' & Hr' & Hs).
  exists r', key, ttl. split; [done|]. split; [by rewrite (sd_tenant _ _ Hs)|].
  split; [by eapply own_key_same|done].
Qed.

Variable s : Service.
Implicit Types w : World St.

(** A successful signature. *)
Lemma store_call_Ok {A} fail (a b : A) w w' :
  store_call s fail (fun _ => Ok a) w = (Ok b, w') -> b = a.
Proof.
  unfold store_call. destruct (s_store s); [|done]. intros H%map_err_Ok%store_query_read. by injection H.
Qed.
Lemma time_Ok {E} w (now : Time) w' : (time_now : M St E Time) w = (Ok now, w') -> w_st w' = w_st w.
Proof. by intros [= _ <-]. Qed.
(** A run that stays within the steps. *)
Lemma steps_db {E A} (m : M St E A) w r w' :
  steps (store_step docstep) m w -> m w = (r, w') -> rely (store_step docstep) w ->
  docstep (store_db (w_st w)) (store_db (w_st w')) /\ rely (store_step docstep) w'.
Proof. intros Hm Hrun HR. by destruct (steps_run m w r w' Hm Hrun HR) as [[Hs _] HR']. Qed.

(** A URL of a document that was read. *)
Lemma signed_doc d doc key ttl url :
  documents d !! d_ID doc = Some doc -> own_key doc key -> urlWindowMin <= ttl <= urlWindowMax ->
  url = presigned_put_url key ttl \/ url = presigned_get_url key ttl ->
  signed_for d (d_TenantID doc) (d_ID doc) url.
Proof. intros. by exists doc, key, ttl. Qed.

(** The rest of a call that signs a URL and tells the time. *)
Lemma signing_Ok {A} fail a (f : string -> Time -> A) (w : World St) r w' :
  (url ← store_call s fail (fun _ => Ok a); now ← time_now; mret (f url now)) w = (Ok r, w') ->
  rely (store_step docstep) w ->
  (exists now, r = f a now) /\ docstep (store_db (w_st w)) (store_db (w_st w')).
Proof.
  intros Hrest HR. apply bind_Ok in Hrest as (b & w3 & Hp & Hrest).
  destruct (steps_db _ _ _ _ (steps_store_call _ _ _ _) Hp HR) as [Hd _].
  apply store_call_Ok in Hp as ->. apply bind_Ok in Hrest as (now & w4 & Hn & [-> ->]%ret_Ok).
  apply time_Ok in Hn as ->. split; [by exists now|done].
Qed.

Lemma CreateVersion_signed t i u w url w' :
  Document.CreateVersion s t i u w = (Ok url, w') -> rely (store_step docstep) w ->
  docinv (store_db (w_st w)) -> signed_for (store_db (w_st w')) t i (uu_URL url).
Proof.
  intros (doc & w1 & Hg & Hrest)%bind_Ok HR Hi.
  destruct (read_document_svc _ _ _ _ _ Hg HR Hi) as (<- & <- & _ & Hr & _).
  destruct (steps_db _ _ _ _ (steps_GetDocument _ _ _) Hg HR) as [_ HR1].
  apply bind_Ok in Hrest as (x & w2 & [_ ->]%lift_Ok & Hrest). cbv zeta in Hrest.
  destruct (signing_Ok _ _ _ _ _ _ Hrest HR1) as [[now ->] Hd].
  eapply signed_for_step; [exact Hd|]. eapply signed_doc; [done|by eexists|apply window_range|by left].
Qed.
Lemma GetDownloadURL_signed t i w url w' :
  Document.GetDownloadURL s t i w = (Ok url, w') -> rely (store_step docstep) w ->
  docinv (store_db (w_st w)) -> signed_for (store_db (w_st w')) t i (du_URL url).
Proof.
  intros (doc & w1 & Hg & Hrest)%bind_Ok HR Hi.
  destruct (read_document_svc _ _ _ _ _ Hg HR Hi) as (<- & <- & _ & Hr & Hf).
  destruct (steps_db _ _ _ _ (steps_GetDocument _ _ _) Hg HR) as [_ HR1].
  apply bind_Ok in Hrest as (x & w2 & [_ ->]%lift_Ok & Hrest). cbv zeta in Hrest.
  destruct (signing_Ok _ _ _ _ _ _ Hrest HR1) as [[now ->] Hd].
  eapply signed_for_step; [exact Hd|]. eapply signed_doc; [done|apply Hf|apply window_range|by right].
Qed.
Lemma CreateDocument_row now id t p f n m size key up d row d' :
  Queries.CreateDocument now id t p f n m size key up d = Ok (row, d') ->
  documents d' !! id = Some (mkDocument id t p f n m size key 1 up now None).
Proof.
  unfold Queries.CreateDocument. case_bool_decide; [done|]. destruct (Queries.key_taken _ _ _); [done|].
  destruct (negb _); [done|]. intros [= _ <-]. apply lookup_insert_eq.
Qed.
Lemma InitiateUpload_signed req w url w' :
  Document.InitiateUpload s req w = (Ok url, w') ->
  signed_for (store_db (w_st w')) (iu_TenantID req) (uu_DocumentID url) (uu_URL url).
Proof.
  intros (id & w1 & _ & Hrest)%bind_Ok. cbv zeta in Hrest.
  apply bind_Ok in Hrest as (x & w2 & _ & Hrest). apply bind_Ok in Hrest as (b & w3 & Hp & Hrest).
  apply store_call_Ok in Hp as ->. apply bind_Ok in Hrest as (row & w4 & Hc & Hrest).
  apply bind_Ok in Hrest as (now & w5 & Hn & [-> ->]%ret_Ok). apply time_Ok in Hn as ->.
  apply wrap_Ok, bind_Ok in Hc as (now' & w6 & _ & Hc). apply bind_Ok in Hc as (row' & w7 & Hc & [_ ->]%ret_Ok).
  apply map_err_Ok, tx_Ok in Hc as [Hc _]. unfold on_db in Hc.
  destruct (Queries.CreateDocument _ _ _ _ _ _ _ _ _ _ _) as [[row'' d]|] eqn:Hq; [|done].
  injection Hc as <- <-. apply CreateDocument_row in Hq. do 3 eexists.
  split; [exact Hq|]. split; [done|]. split; [by exists 1|]. split; [by left|apply window_range].
Qed.

End signed.

(** ** The system *)

Section system.
Context {X : External} {U : SignedURLs} {L : ExternalLaws}.
Variable h : DocumentHandler.Handler.

(** From the empty tables, after any RPC and between any two of its statements,
    while clients upload and other requests that respect [docstep] run beside it. *)
Inductive document_reachable : St -> Prop :=
| dc_empty : document_reachable empty_st
| dc_rpc ctx r w :
    document_reachable (w_st w) -> rely (store_step docstep) w ->
    document_reachable (w_st (DocumentHandler.handle h ctx r w).2)
| dc_statement s s' ctx r w :
    document_reachable (w_st w) -> document_reachable s -> rely (store_step docstep) w ->
    w_log w = [] -> (s, s') ∈ w_log (DocumentHandler.handle h ctx r w).2 -> document_reachable s'
| dc_others s s' :
    document_reachable s -> store_step docstep s s' -> document_reachable s'.

Lemma document_reachable_inv s : document_reachable s -> docinv (store_db s).
Proof.
  induction 1 as [|ctx r w _ IH HR|s s' ctx r w _ IH _ IHs HR Hlog Hin|s s' _ IH [Hs _]].
  - apply docinv_empty.
  - destruct (handle_docstep h ctx r w IH HR) as ([Hd _] & _). by apply (dcs_inv _ _ Hd).
  - destruct (handle_docstep h ctx r w IH HR) as (_ & _ & own & Hown & Hall).
    rewrite Hlog, app_nil_r in Hown. rewrite Hown in Hin. rewrite Forall_forall in Hall.
    exact (dcs_inv _ _ (proj1 (Hall _ Hin)) IHs).
  - by apply (dcs_inv _ _ Hs).
Qed.

Lemma guard_Ok ctx tenant perm (w : World St) t w' :
  DocumentHandler.guard_ h ctx tenant perm w = (Ok t, w') ->
  exists c, ctx_caller ctx = Some c /\ t = ci_TenantID c /\ w' = w.
Proof.
  intros (t0 & w1 & [Ht ->]%lift_Ok & Hrest)%bind_Ok. apply bind_Ok in Hrest as (x & w2 & [_ ->]%lift_Ok & Hret).
  apply ret_Ok in Hret as [-> ->]. destruct (TenantFromRequest_inv _ _ _ Ht) as (c & Hc & -> & _). by exists c.
Qed.
(** Opens a run of parsing and one call, and drops the answers without a URL. *)
Ltac opened H :=
  repeat match type of H with
  | (lift_result _ ≫= _) _ = _ => apply bind_Ok in H as (? & ? & [_ ->]%lift_Ok & H)
  | (DocumentHandler.svc _ ≫= _) _ = _ => apply bind_Ok in H as (? & ? & ? & H)
  | mret _ _ = _ => apply ret_Ok in H as [-> ->]; try discriminate
  end.

(** The URL an answer carries. *)
Definition url_of (r : DocumentHandler.Response) : option string :=
  match r with
  | DocumentHandler.UploadResp u => Some (DocumentHandler.pbu_Url u)
  | DocumentHandler.DownloadResp u => Some (DocumentHandler.pbd_Url u)
  | _ => None
  end.

(** C37: Whatever requests interleave, a URL that an RPC answers is signed for fifteen
    minutes to four hours and for the key of a version of a document of the
    caller's tenant; and no key is of two documents, so a client can neither read
    nor overwrite the file of another tenant, nor of another document. *)
Theorem signed_urls_stay_in_tenant (ctx : Ctx) (r : DocumentHandler.Rpc) (w w' : World St)
    (resp : DocumentHandler.Response) (url : string) :
  document_reachable (w_st w) -> rely (store_step docstep) w ->
  DocumentHandler.handle h ctx r w = (Ok resp, w') -> url_of resp = Some url ->
  (exists c i, ctx_caller ctx = Some c /\ signed_for (store_db (w_st w')) (ci_TenantID c) i url)
  /\ forall k1 k2 r1 r2 key,
       documents (store_db (w_st w')) !! k1 = Some r1 -> documents (store_db (w_st w')) !! k2 = Some r2 ->
       own_key r1 key -> own_key r2 key ->
       (d_TenantID r1 < 2 ^ 128)%N -> (d_TenantID r2 < 2 ^ 128)%N -> (k1 < 2 ^ 128)%N -> (k2 < 2 ^ 128)%N ->
       k1 = k2.
Proof.
  intros Hr%document_reachable_inv HR Hrun Hurl. split.
  - destruct r; simpl in Hrun; unfold DocumentHandler.InitiateUpload, DocumentHandler.ConfirmUpload,
      DocumentHandler.GetDocument, DocumentHandler.ListDocuments, DocumentHandler.DeleteDocument,
      DocumentHandler.GetDownloadURL, DocumentHandler.MoveDocument, DocumentHandler.CreateVersion,
      DocumentHandler.ConfirmVersion, DocumentHandler.ListVersions, DocumentHandler.RestoreVersion,
      DocumentHandler.CreateFolder, DocumentHandler.ListFolders in Hrun.
    all: apply bind_Ok in Hrun as (t & w1 & (c & Hc & -> & ->)%guard_Ok & Hrun).
    all: opened Hrun; injection Hurl as <-; exists c; eexists; (split; [exact Hc|]).
    + match goal with H : DocumentHandler.svc _ _ = _ |- _ => apply map_err_Ok, InitiateUpload_signed in H end.
      eassumption.
    + match goal with H : DocumentHandler.svc _ _ = _ |- _ =>
        apply map_err_Ok, GetDownloadURL_signed in H end; [eassumption|done..].
    + match goal with H : DocumentHandler.svc _ _ = _ |- _ =>
        apply map_err_Ok, CreateVersion_signed in H end; [eassumption|done..].
  - assert (Hi : docinv (store_db (w_st w'))).
    { pose proof (handle_docstep h ctx r w Hr HR) as ([Hd _] & _). rewrite Hrun in Hd. by apply (dcs_inv _ _ Hd). }
    intros k1 k2 r1 r2 key H1 H2 [n1 ->] [n2 Hkey] Ht1 Ht2 Hk1 Hk2.
    rewrite <-(di_document_keys _ Hi _ _ H1) in *. rewrite <-(di_document_keys _ Hi _ _ H2) in *.
    by destruct (storageKey_inj _ _ _ _ _ _ _ _ _ _ Ht1 Ht2 Hk1 Hk2 Hkey).
Qed.

End system.
