(* ===== verification/DocumentCalls.v ===== *)
(** Documents: what the versioning calls do alone, whatever calls fail; a restored
    document whose next version can neither be kept from being overwritten nor be
    confirmed until it is restored again; and a concrete service on the reference libraries. *)

From S2P Require Export DocumentProps Logic.
Local Open Scope Z_scope.

Section calls.
Context {X : External} {U : SignedURLs}.
Variable s : Service.
Variable u : nat -> uuid.
Implicit Types st : St.

(** ** Reads *)

(** A document of the tenant that is not deleted. *)
Definition live_at (d : DB) (t i : uuid) (doc : Document) : Prop :=
  documents d !! i = Some doc /\ d_TenantID doc = t /\ d_DeletedAt doc = None.

Lemma wp_GetDocument t i (Q : result (error DcErr) Document -> St -> Prop) st :
  (forall e, Q (Err e) st) -> (forall doc, live_at (store_db st) t i doc -> Q (Ok doc) st) ->
  wp u (Document.GetDocument t i) Q st.
Proof.
  intros He HO. unfold Document.GetDocument, Postgres.GetDocument. wp_tac.
  apply wp_store_query; [by wp_tac|]. destruct (Queries.GetDocument _ _ _) as [row|] eqn:Hg; [|by wp_tac].
  apply get_row_Ok in Hg as [Hr Hl]. unfold Queries.live_document, Queries.document_of_tenant in Hl. bool_hyps.
  rewrite docFromDB_id. wp_tac. unfold not_deleted. destruct (d_DeletedAt row) eqn:Hd; [done|]. wp_tac.
  apply HO. split_and!; done.
Qed.
(** The object store: it may fail, or it answers from the state. *)
Lemma wp_store_call {A} fail (q : DB -> result pg_error A) (Q : result (error DcErr) A -> St -> Prop) st :
  (forall e, Q (Err e) st) -> (forall a, q (store_db st) = Ok a -> Q (Ok a) st) ->
  wp u (store_call s fail q) Q st.
Proof.
  intros He HO. unfold store_call. destruct (s_store s); wp_tac; [|done].
  apply wp_store_query; [done|]. destruct (q _) eqn:Hq; [by apply HO|done].
Qed.

(** ** Statements that write *)

(** The document written with a version. *)
Definition pointed (i : uuid) (r : Document) (d : DB) : DB := set_documents (<[i := r]> (documents d)) d.
Definition stored (v : DocumentVersion) (d : DB) : DB := set_versions (<[v_ID v := v]> (document_versions d)) d.
Definition dated (now : Time) (v : DocumentVersion) : DocumentVersion :=
  mkDocumentVersion (v_ID v) (v_DocumentID v) (int32 (v_Version v)) (v_StorageKey v) (v_SizeBytes v)
    (v_UploadedBy v) now.
(** The versions of a document with a number. *)
Definition has_version (d : DB) (i : uuid) (n : Z) : Prop :=
  exists k v, document_versions d !! k = Some v /\ v_DocumentID v = i /\ v_Version v = n.

Lemma wp_CreateVersion_repo v (Q : result (error DcErr) DocumentVersion -> St -> Prop) st :
  (forall e, Q (Err e) st) ->
  (forall now, document_versions (store_db st) !! v_ID v = None ->
     ~ has_version (store_db st) (v_DocumentID v) (int32 (v_Version v)) ->
     Q (Ok (dated now v)) (mkStore (stored (dated now v) (store_db st)) (store_events st))) ->
  wp u (Postgres.CreateVersion v) Q st.
Proof.
  intros He HO. unfold Postgres.CreateVersion. wp_tac. apply wp_with_tx; [apply He|].
  unfold Queries.CreateDocumentVersion. case_bool_decide as Hid; [apply He|].
  destruct (exists_row _ _) eqn:Hx; [apply He|]. case_bool_decide; [|apply He]. simpl. wp_tac.
  rewrite versionFromDB_id. apply HO; [by apply free_key|]. intros (k & v' & Hk & Hi & Hn). rewrite exists_row_false in Hx.
  specialize (Hx k v' Hk). unfold Queries.version_row in Hx. by rewrite !bool_decide_true in Hx.
Qed.
Lemma updated_same doc doc' :
  identity doc' = identity doc -> d_MimeType doc' = d_MimeType doc -> d_UploadedBy doc' = d_UploadedBy doc ->
  d_CreatedAt doc' = d_CreatedAt doc ->
  Queries.updated_document (d_SizeBytes doc') (d_FolderID doc') (d_StorageKey doc') (d_CurrentVersion doc') doc
  = doc'.
Proof. destruct doc, doc'. intros [=] ???. simpl in *. unfold Queries.updated_document. simpl. congruence. Qed.
(** The columns the UPDATE writes, of a document that is as it was read. *)
Lemma wp_UpdateDocument doc doc' (Q : result (error DcErr) unit -> St -> Prop) st :
  documents (store_db st) !! d_ID doc = Some doc -> identity doc' = identity doc ->
  d_MimeType doc' = d_MimeType doc -> d_UploadedBy doc' = d_UploadedBy doc -> d_CreatedAt doc' = d_CreatedAt doc ->
  (forall e, Q (Err e) st) ->
  Q (Ok tt) (mkStore (pointed (d_ID doc) doc' (store_db st)) (store_events st)) ->
  wp u (Postgres.UpdateDocument doc') Q st.
Proof.
  intros Hr Hid H6 H7 H8 He HO. pose proof Hid as [= H1 H2 H3 H4 H5]. unfold Postgres.UpdateDocument. wp_tac.
  apply wp_with_tx; [by wp_tac|]. unfold Queries.UpdateDocument, get_row.
  destruct (negb (bool_decide _)); [by wp_tac|]. rewrite H1, Hr.
  unfold Queries.document_of_tenant. rewrite bool_decide_true by done.
  destruct (Queries.key_taken _ _ _); [by wp_tac|]. destruct (negb _); [by wp_tac|]. wp_tac.
  unfold Postgres.uuidToPgUUID. rewrite (updated_same doc doc'); [|done..]. case_decide; [done|]. wp_tac. exact HO.
Qed.

(** ** Versions *)

(** The row of a confirmed version. *)
Definition confirmed_version (vid i : uuid) (n : Z) (key : string) (size : Z) (up : uuid) (now : Time) :
    DocumentVersion := mkDocumentVersion vid i (int32 n) key size up now.

(** C39: Alone, whatever calls fail, ConfirmVersion of a document of the tenant either
    answers an error with nothing changed, or answers an error with the version
    stored and the document still at the version before, or succeeds: the number is
    the next one, the client has put the object of that version's key, and the
    version and the document both carry that key and the object's size.  The two
    writes are not one transaction. *)
Theorem confirm_version_outcomes (t i : uuid) (n : Z) (up : uuid) (w w' : World St)
    (res : result (error DcErr) DocumentVersion) :
  alone u w -> docinv (store_db (w_st w)) -> Document.ConfirmVersion s t i n up w = (res, w') ->
  (w_st w' = w_st w /\ exists e, res = Err e)
  \/ exists doc size vid now,
       let d := store_db (w_st w) in
       let v := confirmed_version vid i n (version_key doc n) size up now in
       live_at d t i doc /\ n = d_CurrentVersion doc + 1
       /\ objects d !! version_key doc n = Some size
       /\ document_versions d !! vid = None /\ ~ has_version d i (int32 n)
       /\ match res with
          | Err _ => w_st w' = mkStore (stored v d) (store_events (w_st w))
          | Ok v' => v' = v
              /\ w_st w' = mkStore (pointed i (at_version n (version_key doc n) size doc) (stored v d))
                             (store_events (w_st w))
          end.
Proof.
  intros Ha Hi Hrun. pattern res, (w_st w'). refine (proj2 (wp_run u _ _ _ _ _ _ Ha Hrun)).
  unfold Document.ConfirmVersion. apply wp_bind, wp_GetDocument; [by left; eauto|]. intros doc Hl.
  pose proof Hl as (Hr & Ht & _). assert (Hid : d_ID doc = i) by exact (di_document_keys _ Hi _ _ Hr).
  case_bool_decide as Hn; simpl; [|wp_tac; by left; eauto].
  apply wp_bind, wp_store_call; [by left; eauto|]. intros size Hsize.
  destruct (objects _ !! _) as [size'|] eqn:Ho; [|done]. injection Hsize as ->.
  wp_tac. apply wp_CreateVersion_repo; [by left; eauto|]. intros now Hfree Hnone. wp_tac. simpl in Hnone, Hfree.
  apply (wp_UpdateDocument doc); [by rewrite Hid|done..| |].
  - intros e. right. exists doc, size, (u n0), now. by split_and!.
  - wp_tac. right. exists doc, size, (u n0), now. rewrite Hid. by split_and!.
Qed.

Lemma evals_GetDocument t i doc (w : World St) :
  quiet w -> live_at (store_db (w_st w)) t i doc ->
  evals (Document.GetDocument t i) w (Ok doc) (w_st w).
Proof.
  intros Hw (Hr & Ht & Hd). unfold Document.GetDocument, Postgres.GetDocument.
  pose proof (evals_store_query (Queries.GetDocument t i) w Hw) as Hq.
  assert (Hg : Queries.GetDocument t i (store_db (w_st w)) = Ok doc).
  { apply get_row_Ok. split; [done|]. unfold Queries.live_document, Queries.document_of_tenant.
    by rewrite Ht, Hd, !bool_decide_true. }
  rewrite Hg in Hq. destruct Hq as (w1 & Hq & Hs1 & Hw1). exists w1. split; [|done].
  erewrite bind_run; [|unfold wrap, map_err at 1; erewrite bind_run; [|unfold map_err; by rewrite Hq]; done].
  unfold not_deleted. rewrite docFromDB_id, Hd. done.
Qed.

Lemma evals_CreateVersion t i up doc (w : World St) :
  quiet w -> live_at (store_db (w_st w)) t i doc -> s_store s = true -> d_SizeBytes doc <> 0 ->
  exists now, evals (Document.CreateVersion s t i up) w
    (Ok (mkUploadURL i (presigned_put_url (version_key doc (d_CurrentVersion doc + 1))
                          (presignedURLWindow (d_SizeBytes doc)))
           (now + presignedURLWindow (d_SizeBytes doc)))) (w_st w).
Proof.
  intros Hw Hl Hs Hsize. pose proof (evals_GetDocument _ _ _ _ Hw Hl) as He.
  pose proof He as (w1 & Hg & Hs1 & Hw1).
  destruct (evals_store_query (fun _ : DB => Ok (presigned_put_url
    (version_key doc (d_CurrentVersion doc + 1)) (presignedURLWindow (d_SizeBytes doc)))) w1 Hw1)
    as (w2 & Hp & Hs2 & Hw2).
  destruct (evals_time (E := error DcErr) w2 Hw2) as (now & w3 & Ht & Hs3 & Hw3).
  exists now, w3. split; [|split; [congruence|done]]. unfold Document.CreateVersion.
  rewrite (bind_run _ _ _ _ _ Hg). unfold confirmed. case_decide; [done|].
  change (lift_result (Ok tt) ≫= ?f) with (f tt). unfold PresignedPutURL, store_call. rewrite Hs.
  erewrite bind_run; [|by unfold map_err; rewrite Hp]. by rewrite (bind_run _ _ _ _ _ Ht).
Qed.
End calls.

(** ** A document whose next version is stored already *)

(** It is at version n, and its version n+1 has a row. *)
Definition stuck (i : uuid) (n : Z) (d : DB) : Prop :=
  (exists r, documents d !! i = Some r /\ d_CurrentVersion r = n) /\ has_version d i (int32 (n + 1)).
(** What requests do that do not get it out of there. *)
Definition pinstep `{!External} (i : uuid) (n : Z) (d d' : DB) : Prop :=
  docstep d d' /\ (stuck i n d -> stuck i n d').
#[export] Instance pinstep_preorder `{!External} i n : PreOrder (pinstep i n).
Proof. split; [by intros d; split|]. intros d1 d2 d3 [] []. split; [by transitivity d2|auto]. Qed.

Section pinned.
Context {X : External} {U : SignedURLs}.
Variables (i : uuid) (n : Z).
Implicit Types (w : World St) (d : DB).
Abbreviation P := (store_step (D:=DB) (Ev:=Event) (pinstep i n)) (only parsing).

Lemma has_version_step d d' k m : docstep d d' -> has_version d k m -> has_version d' k m.
Proof.
  intros [_ _ Hv _] (v & r & Hr & Hd & Hm). destruct (table_step_some _ _ _ _ Hv Hr) as (r' & Hr' & [->|[[=] _]]).
  by exists v, r.
Qed.
(** Only the document's own row can get it out. *)
Lemma pinstep_intro d d' :
  docstep d d' ->
  (forall r r', documents d !! i = Some r -> documents d' !! i = Some r' -> d_CurrentVersion r = n ->
     d_CurrentVersion r' = n) ->
  pinstep i n d d'.
Proof.
  intros Hd H. split; [done|]. intros [(r & Hr & Hn) Hv]. split; [|by eapply has_version_step].
  destruct (document_step _ _ _ _ (dcs_documents _ _ Hd) Hr) as (r' & Hr' & _). exists r'. by eauto.
Qed.
Lemma pinstep_same d d' : docstep d d' -> documents d' = documents d -> pinstep i n d d'.
Proof. intros Hd He. apply pinstep_intro; [done|]. rewrite He. congruence. Qed.
Lemma pin_rely w : rely P w -> rely (store_step docstep) w.
Proof. intros HR m st. by destruct (HR m st) as [[] ?]. Qed.
(** What holds in the next world. *)
Definition knows w doc : Prop := facts (store_db (w_st w)) doc /\ (d_ID doc = i -> d_CurrentVersion doc = n).
Lemma knows_step w w' doc : P (w_st w) (w_st w') -> knows w doc -> knows w' doc.
Proof. intros [[Hd _] _] [Hf Hn]. split; [by eapply facts_step|done]. Qed.

(** *** Statements *)

Lemma CreateFolder_pin now id t p nm pa c d a d' :
  Queries.CreateFolder now id t p nm pa c d = Ok (a, d') -> pinstep i n d d'.
Proof.
  intros H. apply pinstep_same; [by eapply CreateFolder_docstep|]. revert H. unfold Queries.CreateFolder.
  case_bool_decide; [done|]. destruct (negb _); [done|]. by intros [= _ <-].
Qed.
Lemma CreateDocument_pin now id t p fo nm m key up d a d' :
  (exists v, key = storageKey t id p v nm) -> (forall f, fo = Some f -> folder_at d t f) ->
  Queries.CreateDocument now id t p fo nm m 0 key up d = Ok (a, d') -> pinstep i n d d'.
Proof.
  intros Hk Hf H. apply pinstep_intro; [by eapply CreateDocument_docstep|]. revert H. unfold Queries.CreateDocument.
  case_bool_decide as Hid; [done|]. destruct (Queries.key_taken _ _ _); [done|]. destruct (negb _); [done|].
  intros [= _ <-] r r' Hr. simpl. rewrite lookup_insert_ne; [congruence|]. intros ->. apply Hid. by eexists.
Qed.
Lemma SoftDeleteDocument_pin now t id d a d' :
  Queries.SoftDeleteDocument now t id d = Ok (a, d') -> pinstep i n d d'.
Proof.
  intros H. apply pinstep_intro; [by eapply SoftDeleteDocument_docstep|]. revert H.
  unfold Queries.SoftDeleteDocument. destruct (get_row _ _ _) as [r0|] eqn:Hg; intros [= _ <-]; [|congruence].
  apply get_row_Ok in Hg as [Hg _]. intros r r' Hr. simpl. rewrite lookup_insert_Some. intros [[-> <-]|[_ Hr']].
  - simpl. congruence.
  - congruence.
Qed.
Lemma CreateDocumentVersion_pin now id k v key size up d a d' :
  (forall r, documents d !! k = Some r -> own_key r key) ->
  Queries.CreateDocumentVersion now id k v key size up d = Ok (a, d') -> pinstep i n d d' /\ ~ has_version d k v.
Proof.
  intros Hk H. split.
  - apply pinstep_same; [by eapply CreateDocumentVersion_docstep|]. revert H. unfold Queries.CreateDocumentVersion.
    case_bool_decide; [done|]. destruct (exists_row _ _); [done|]. destruct (negb _); [done|]. by intros [= _ <-].
  - revert H. unfold Queries.CreateDocumentVersion. case_bool_decide; [done|].
    destruct (exists_row _ _) eqn:Hx; [done|]. intros _ (k' & v' & Hv & Hd & Hm). rewrite exists_row_false in Hx.
    specialize (Hx k' v' Hv). unfold Queries.version_row in Hx. by rewrite !bool_decide_true in Hx.
Qed.
Lemma UpdateDocument_pin t id size fo key cv d a d' :
  (forall r, documents d !! id = Some r -> d_TenantID r = t ->
     own_key r key /\ forall f, fo = Some f -> folder_at d t f) -> (id = i -> cv = n) ->
  Queries.UpdateDocument t id size fo key cv d = Ok (a, d') -> pinstep i n d d'.
Proof.
  intros Hr Hn H. apply pinstep_intro; [by eapply UpdateDocument_docstep|]. revert H. unfold Queries.UpdateDocument.
  destruct (negb _); [done|]. destruct (get_row _ _ _) as [r0|]; [|intros [= _ <-]; congruence].
  destruct (Queries.key_taken _ _ _); [done|]. destruct (negb _); [done|]. intros [= _ <-] r r' Hr0. simpl.
  rewrite lookup_insert_Some. intros [[-> <-]|[_ Hr']]; [by auto|congruence].
Qed.

(** *** Calls *)

Section calls.
Variable s : Service.

Lemma pin_GetDocument_repo t id w : steps P (Postgres.GetDocument t id) w.
Proof. unfold Postgres.GetDocument. steps_tac. apply steps_store_query. Qed.
Lemma pin_GetDocument t id w : steps P (Document.GetDocument t id) w.
Proof. unfold Document.GetDocument, not_deleted. steps_tac. apply pin_GetDocument_repo. Qed.
Lemma pin_check_folder text t f w : steps P (check_folder text t f) w.
Proof. unfold check_folder, Postgres.GetFolder. steps_tac. apply steps_store_query. Qed.
Lemma pin_store_call {A} fail (q : DB -> result pg_error A) w : steps P (store_call s fail q) w.
Proof. unfold store_call. steps_tac. apply steps_store_query. Qed.
Lemma pin_UpdateDocument doc w : knows w doc -> steps P (Postgres.UpdateDocument doc) w.
Proof.
  intros [Hf Hn]. unfold Postgres.UpdateDocument. steps_tac.
  apply steps_store_exec_from. intros d m d' [Hd _]. apply UpdateDocument_pin; [|done]. intros r Hr Ht.
  destruct (facts_step _ _ _ Hd Hf) as [(r0 & Hr0 & Hs) Hk Hff]. rewrite Hr in Hr0. injection Hr0 as <-.
  split; [by eapply own_key_same|]. intros f Hfo. exact (Hff f Hfo).
Qed.
Lemma own_key_now d doc v r :
  facts d doc -> v_DocumentID v = d_ID doc -> own_key doc (v_StorageKey v) ->
  documents d !! v_DocumentID v = Some r -> own_key r (v_StorageKey v).
Proof. intros [(r0 & Hr0 & Hs) _ _] -> Hk Hr. rewrite Hr0 in Hr. injection Hr as <-. by eapply own_key_same. Qed.
Lemma pin_CreateVersion_repo v doc w :
  knows w doc -> v_DocumentID v = d_ID doc -> own_key doc (v_StorageKey v) -> steps P (Postgres.CreateVersion v) w.
Proof.
  intros Hf Hi Hk. unfold Postgres.CreateVersion. apply steps_bind; [apply steps_time|].
  intros now w1 _ _ H1 _. apply (knows_step _ _ _ H1) in Hf as [Hf _]. steps_tac.
  apply steps_store_exec_from. intros d a d' [Hd _] H. apply (CreateDocumentVersion_pin _ _ _ _ _ _ _ _ _ _) in H as [? _].
  - done.
  - intros r. apply own_key_now with doc; [by eapply facts_step|done..].
Qed.
(** A version that is there is not created again, whoever is beside. *)
Lemma no_second_version v w dv w' :
  Postgres.CreateVersion v w = (Ok dv, w') -> rely P w ->
  has_version (store_db (w_st w)) (v_DocumentID v) (int32 (v_Version v)) -> False.
Proof.
  intros (now & w1 & Ht & H)%bind_Ok HR Hv. destruct (steps_run _ _ _ _ (steps_time w) Ht HR) as [[[H1 _] _] HR1].
  apply (has_version_step _ _ _ _ H1) in Hv. apply bind_Ok in H as (row & w2 & H & _). apply map_err_Ok in H.
  apply (store_exec_Ok (R:=pinstep i n)) in H as (d & [Hd _] & H & _); [|done].
  apply (has_version_step _ _ _ _ Hd) in Hv. revert H. unfold Queries.CreateDocumentVersion.
  case_bool_decide; [done|]. destruct (exists_row _ _) eqn:Hx; [done|]. intros _.
  destruct Hv as (k & r & Hk & Hr & Hm). rewrite exists_row_false in Hx.
  specialize (Hx k r Hk). unfold Queries.version_row in Hx. by rewrite !bool_decide_true in Hx.
Qed.

(** What is there when the document is at its version. *)
Definition pinned w : Prop := docinv (store_db (w_st w)) /\ stuck i n (store_db (w_st w)).
Lemma pinned_step w w' : P (w_st w) (w_st w') -> pinned w -> pinned w'.
Proof. intros [[Hd Hs] _] [Hi Hk]. split; [by apply (dcs_inv _ _ Hd)|auto]. Qed.
Lemma knows_read id doc w :
  pinned w -> documents (store_db (w_st w)) !! id = Some doc -> facts (store_db (w_st w)) doc -> d_ID doc = id ->
  knows w doc.
Proof. intros [_ [(r & Hr & Hn) _]] Hd Hf <-. split; [done|]. intros He. congruence. Qed.
Lemma pin_read_repo t id w doc w' :
  Postgres.GetDocument t id w = (Ok doc, w') -> rely P w -> pinned w ->
  d_ID doc = id /\ d_TenantID doc = t /\ knows w' doc /\ pinned w'.
Proof.
  intros Hg HR Hp. destruct (read_document _ _ _ _ _ Hg (pin_rely _ HR) (proj1 Hp)) as (Hid & Ht & _ & Hr & Hf).
  destruct (steps_run _ _ _ _ (pin_GetDocument_repo t id w) Hg HR) as [Hs _]. apply (pinned_step _ _ Hs) in Hp.
  split_and!; [done..| |done]. by eapply knows_read.
Qed.
Lemma pin_read t id w doc w' :
  Document.GetDocument t id w = (Ok doc, w') -> rely P w -> pinned w ->
  d_ID doc = id /\ d_TenantID doc = t /\ knows w' doc /\ pinned w'.
Proof.
  intros (doc0 & w1 & Hg & Hrest)%bind_Ok HR Hp. apply bind_Ok in Hrest as (u & w2 & ->%not_deleted_Ok & Hret).
  apply ret_Ok in Hret as [-> ->]. apply wrap_Ok in Hg. by eapply pin_read_repo.
Qed.
Lemma knows_identity w doc doc' :
  identity doc' = identity doc -> d_CurrentVersion doc' = d_CurrentVersion doc -> knows w doc ->
  own_key doc (d_StorageKey doc') -> document_fk (store_db (w_st w)) doc' -> knows w doc'.
Proof.
  intros Hid Hv [Hf Hn] Hk Hfk. split; [by apply (facts_identity _ doc)|]. injection Hid as ->. by rewrite Hv.
Qed.
End calls.

(** *** Calls that write *)

(** What is known holds in the next world. *)
Ltac ahead :=
  repeat match goal with
  | Hk : knows ?w _, H : store_step (pinstep i n) (w_st ?w) (w_st _) |- _ => apply (knows_step _ _ _ H) in Hk
  | Hp : pinned ?w, H : store_step (pinstep i n) (w_st ?w) (w_st _) |- _ => apply (pinned_step _ _ H) in Hp; clear H
  end.

Section writes.
Variable s : Service.

Lemma pin_ConfirmUpload t id w : pinned w -> steps P (Document.ConfirmUpload s t id) w.
Proof.
  intros Hp. unfold Document.ConfirmUpload.
  apply steps_bind; [apply steps_wrap, pin_GetDocument_repo|]. intros doc w1 Hg HR _ _. apply wrap_Ok in Hg.
  destruct (pin_read_repo _ _ _ _ _ Hg HR Hp) as (Hid & Ht & Hk & Hp1).
  apply steps_bind; [apply steps_lift|]. intros ? w2 ->%not_deleted_Ok _ _ _.
  apply steps_bind; [apply pin_store_call|]. intros size w3 _ _ Hst _. ahead.
  assert (Hk' : knows w3 (with_size size doc)).
  { apply (knows_identity _ doc); [done|done|done|apply Hk|apply Hk]. }
  apply steps_bind; [by apply steps_wrap, pin_UpdateDocument|]. intros u w4 _ _ Hst4 _. clear Hk. ahead.
  apply steps_bind; [apply steps_uuid|]. intros vid w5 _ _ Hst5 _. ahead.
  apply steps_bind; [apply steps_wrap, (pin_CreateVersion_repo _ (with_size size doc)); [done|done|apply Hk']|].
  intros. unfold publish. steps_tac. apply steps_emit.
Qed.

Lemma pin_MoveDocument t id f w : pinned w -> steps P (Document.MoveDocument t id f) w.
Proof.
  intros Hp. unfold Document.MoveDocument.
  apply steps_bind; [apply pin_GetDocument|]. intros doc w1 Hg HR _ HR1.
  destruct (pin_read _ _ _ _ _ Hg HR Hp) as (Hid & Ht & Hk & Hp1).
  apply steps_bind; [apply pin_check_folder|]. intros fo w2 Hc _ Hst _. ahead.
  apply map_err_Ok in Hc. pose proof (read_folder _ _ _ _ _ Hc (pin_rely _ HR1)) as Hfo.
  apply steps_bind; [|intros; apply steps_ret]. apply steps_wrap, pin_UpdateDocument.
  apply (knows_identity _ doc); [done|done|done|apply Hk|]. intros f' [= <-]. simpl. by rewrite Ht.
Qed.

Lemma pin_InitiateUpload req w : steps P (Document.InitiateUpload s req) w.
Proof.
  unfold Document.InitiateUpload. apply steps_bind; [apply steps_uuid|]. intros id w1 _ HR _ HR1.
  set (key := storageKey _ _ _ _ _). apply steps_bind.
  { destruct (iu_FolderID req); [|apply steps_ret]. apply steps_bind; [apply pin_check_folder|].
    intros. apply steps_ret. }
  intros ? w2 Hc _ _ _.
  assert (Hf : forall f, iu_FolderID req = Some f -> folder_at (store_db (w_st w2)) (iu_TenantID req) f).
  { intros f Hf. rewrite Hf in Hc. apply bind_Ok in Hc as (fo & w3 & Hc & Hret).
    apply ret_Ok in Hret as [-> ->]. apply map_err_Ok in Hc. by eapply read_folder, pin_rely. }
  apply steps_bind; [apply pin_store_call|]. intros url w3 _ _ [[Hd _] _] _.
  apply steps_bind; [|intros; steps_tac]. apply steps_wrap. unfold Postgres.CreateDocument.
  apply steps_bind; [apply steps_time|]. intros now w4 _ _ [[Hd' _] _] _. steps_tac.
  apply steps_store_exec_from. intros d upd d' [Hdd _]. apply CreateDocument_pin; [by exists 1|].
  intros f Hff. eapply folder_at_step; [|by apply Hf].
  exact (dcs_folders _ _ (transitivity Hd (transitivity Hd' Hdd))).
Qed.

(** A confirmation gets no further than its version's row when it is of this document. *)
Lemma own_version_taken v doc m w dv w' :
  knows w doc -> d_ID doc = i -> m = d_CurrentVersion doc + 1 -> v_DocumentID v = d_ID doc -> v_Version v = m ->
  pinned w -> rely P w -> Postgres.CreateVersion v w = (Ok dv, w') -> False.
Proof.
  intros [_ Hn] Hid -> Hv Hm [_ [_ Hs]] HR Hrun. apply (no_second_version _ _ _ _ Hrun HR).
  by rewrite Hv, Hm, Hid, (Hn Hid).
Qed.
Lemma pin_ConfirmVersion t id m up w : pinned w -> steps P (Document.ConfirmVersion s t id m up) w.
Proof.
  intros Hp. unfold Document.ConfirmVersion.
  apply steps_bind; [apply pin_GetDocument|]. intros doc w1 Hg HR _ _.
  destruct (pin_read _ _ _ _ _ Hg HR Hp) as (Hid & Ht & Hk & Hp1).
  case_bool_decide as Hm; simpl; [|apply steps_throw].
  assert (Hok : own_key doc (version_key doc m)) by by exists m.
  apply steps_bind; [apply pin_store_call|]. intros size w2 _ _ Hst2 _. ahead.
  apply steps_bind; [apply steps_uuid|]. intros vid w3 _ _ Hst3 _. ahead.
  apply steps_bind; [by apply steps_wrap, (pin_CreateVersion_repo _ doc)|]. intros dv w4 Hc HR3 Hst4 _.
  apply wrap_Ok in Hc. assert (Hne : d_ID doc <> i).
  { intros He. by eapply (own_version_taken (new_version vid id m _ _ _) doc m). }
  ahead. apply steps_bind; [|intros; apply steps_ret]. apply steps_wrap, pin_UpdateDocument.
  destruct Hk as [Hf _]. split; [|done]. apply (facts_identity _ doc); [done|done|done|apply Hf].
Qed.
Lemma pinned_not_confirmed t m up w dv w' :
  pinned w -> rely P w -> Document.ConfirmVersion s t i m up w = (Ok dv, w') -> False.
Proof.
  intros Hp HR (doc & w1 & Hg & H)%bind_Ok.
  destruct (steps_run _ _ _ _ (pin_GetDocument _ _ _) Hg HR) as [_ HR1].
  destruct (pin_read _ _ _ _ _ Hg HR Hp) as (Hid & Ht & Hk & Hp1).
  revert H. case_bool_decide as Hm; simpl; [|done]. intros (size & w2 & Hs & H)%bind_Ok.
  destruct (steps_run _ _ _ _ (pin_store_call _ _ _ _) Hs HR1) as [Hst2 HR2]. ahead.
  apply bind_Ok in H as (vid & w3 & Hu & H).
  destruct (steps_run _ _ _ _ (steps_uuid _) Hu HR2) as [Hst3 HR3]. ahead.
  apply bind_Ok in H as (dv' & w4 & Hc & _). apply wrap_Ok in Hc.
  by eapply (own_version_taken (new_version vid i m _ _ _) doc m).
Qed.
Lemma pin_RestoreVersion t id m w : id <> i -> pinned w -> steps P (Document.RestoreVersion t id m) w.
Proof.
  intros Hne Hp. unfold Document.RestoreVersion.
  apply steps_bind; [apply pin_GetDocument|]. intros doc w1 Hg HR [[Hd1 _] _] HR1.
  destruct (pin_read _ _ _ _ _ Hg HR Hp) as (Hid & Ht & Hk & Hp1).
  case_decide; [apply steps_ret|].
  apply steps_bind; [unfold Postgres.GetVersion; steps_tac; apply steps_store_query|]. intros dv w2 Hv _ Hst2 _.
  apply map_err_Ok in Hv.
  destruct (read_version _ _ _ _ _ Hv (pin_rely _ HR1) (proj1 Hp1)) as (Hvi & _ & r & Hr & Hok).
  ahead. apply steps_bind; [|intros; apply steps_ret]. apply steps_wrap, pin_UpdateDocument.
  destruct Hk as [Hf _]. split; [|simpl; congruence]. apply (facts_identity _ doc); [done|done| |apply Hf]. simpl.
  destruct (fa_row _ _ Hf) as (r' & Hr' & Hs). rewrite Hvi, <-Hid, Hr' in Hr. injection Hr as ->.
  destruct Hok as [k ->]. exists k. unfold version_key. destruct Hs. congruence.
Qed.
End writes.

(** *** RPCs *)

Variable h : DocumentHandler.Handler.
(** The document a request restores. *)
Definition restores (r : DocumentHandler.Rpc) : option uuid :=
  match r with DocumentHandler.RestoreVersionRpc _ document _ => uuid_parse document | _ => None end.

Lemma handle_pinstep ctx r w :
  pinned w -> restores r <> Some i -> steps P (DocumentHandler.handle h ctx r) w.
Proof.
  intros Hp Hr. destruct r; simpl;
    unfold DocumentHandler.InitiateUpload, DocumentHandler.ConfirmUpload, DocumentHandler.GetDocument,
      DocumentHandler.ListDocuments, DocumentHandler.DeleteDocument, DocumentHandler.GetDownloadURL,
      DocumentHandler.MoveDocument, DocumentHandler.CreateVersion, DocumentHandler.ConfirmVersion,
      DocumentHandler.ListVersions, DocumentHandler.RestoreVersion, DocumentHandler.CreateFolder,
      DocumentHandler.ListFolders, DocumentHandler.guard_, DocumentHandler.svc;
    steps_tac; ahead;
    try first [ apply pin_InitiateUpload | by apply pin_ConfirmUpload | by apply pin_MoveDocument
              | by apply pin_ConfirmVersion | apply pin_GetDocument ].
  all: try solve [unfold Document.ListDocuments, Document.DeleteDocument, Document.GetDownloadURL,
      Document.CreateVersion, Document.ListVersions, Document.CreateFolder, Document.ListFolders,
      Postgres.ListDocuments, Postgres.SoftDeleteDocument, Postgres.ListVersions, Postgres.CreateFolder,
      Postgres.ListFolders, PresignedGetURL, PresignedPutURL, publish, confirmed;
    repeat first [apply pin_GetDocument | apply pin_GetDocument_repo | apply pin_store_call | progress steps_tac];
    first [apply steps_store_query | apply steps_emit | apply steps_store_exec; intros ???];
    eauto using SoftDeleteDocument_pin, CreateFolder_pin].
  apply pin_RestoreVersion; [|done]. intros ->. apply Hr. simpl.
  match goal with H : lift_result (parse_id _ _) _ = _ |- _ => apply lift_Ok in H as [H _]; revert H end.
  unfold parse_id. destruct (uuid_parse _); [by intros [= ->]|done].
Qed.

(** What a state becomes while RPCs other than a restore of this document run,
    beside each other and beside requests that leave it pinned; clients put objects. *)
Inductive later (st0 : St) : St -> Prop :=
| la_here : later st0 st0
| la_rpc ctx r w :
    later st0 (w_st w) -> rely P w -> restores r <> Some i ->
    later st0 (w_st (DocumentHandler.handle h ctx r w).2)
| la_statement st st' ctx r w :
    later st0 (w_st w) -> later st0 st -> rely P w -> restores r <> Some i -> w_log w = [] ->
    (st, st') ∈ w_log (DocumentHandler.handle h ctx r w).2 -> later st0 st'
| la_others st st' : later st0 st -> P st st' -> later st0 st'.

Lemma later_pinned st0 st :
  docinv (store_db st0) -> stuck i n (store_db st0) -> later st0 st ->
  docinv (store_db st) /\ stuck i n (store_db st).
Proof.
  intros Hi Hs. assert (Hst : forall st st', P st st' -> docinv (store_db st) /\ stuck i n (store_db st) ->
    docinv (store_db st') /\ stuck i n (store_db st')).
  { intros st1 st2 [[Hd Hk] _] []. split; [by apply (dcs_inv _ _ Hd)|auto]. }
  induction 1 as [|ctx r w _ IH HR Hr|st st' ctx r w _ IH _ IHs HR Hr Hlog Hin|st st' _ IH Hstep]; [done|..].
  - apply (Hst (w_st w)); [|done]. by apply (handle_pinstep ctx r w IH Hr HR).
  - destruct (handle_pinstep ctx r w IH Hr HR) as (_ & _ & own & Hown & Hall).
    rewrite Hlog, app_nil_r in Hown. rewrite Hown in Hin. rewrite Forall_forall in Hall.
    exact (Hst _ _ (Hall _ Hin) IHs).
  - by apply (Hst st).
Qed.
End pinned.

Section restored.
Context {X : External} {U : SignedURLs}.
Variable h : DocumentHandler.Handler.
Implicit Types w : World St.

(** What a successful restore leaves, whatever runs beside it. *)
Lemma RestoreVersion_leaves t i n w doc w' :
  docinv (store_db (w_st w)) -> rely (store_step docstep) w -> Document.RestoreVersion t i n w = (Ok doc, w') ->
  int32 n = n ->
  docstep (store_db (w_st w)) (store_db (w_st w'))
  /\ exists r, documents (store_db (w_st w')) !! i = Some r /\ d_CurrentVersion r = n.
Proof.
  intros Hi HR Hrun Hn. destruct (steps_run _ _ _ _ (steps_RestoreVersion t i n w Hi) Hrun HR) as [[Hd _] _].
  split; [done|]. clear Hd. revert Hrun. intros (doc0 & w1 & Hg & H)%bind_Ok.
  destruct (steps_run _ _ _ _ (steps_GetDocument t i w) Hg HR) as [[Hd1 _] HR1].
  destruct (read_document_svc _ _ _ _ _ Hg HR Hi) as (Hid & Ht & _ & Hr & Hf). revert H.
  case_decide as Heq; [intros [-> ->]%ret_Ok; by eauto|].
  intros (dv & w2 & Hv & H)%bind_Ok. apply map_err_Ok in Hv.
  destruct (read_version _ _ _ _ _ Hv HR1 (dcs_inv _ _ Hd1 Hi)) as (_ & Hvn & _).
  destruct (steps_run _ _ _ _ (steps_GetVersion i n w1) Hv HR1) as [_ HR2].
  apply bind_Ok in H as (x & w3 & H & [_ ->]%ret_Ok). apply wrap_Ok in H.
  apply bind_Ok in H as (k & w4 & H & Hk). apply map_err_Ok in H.
  assert (Hw : k <> 0 /\ w3 = w4) by (revert Hk; case_decide; [done|by intros [_ ->]%ret_Ok]).
  destruct Hw as [Hk0 ->]. apply (store_exec_Ok (R:=docstep)) in H as (d & _ & H & _); [|done].
  simpl in H. rewrite Hid, Hvn, Hn in H. revert H. unfold Queries.UpdateDocument. destruct (negb _); [done|].
  destruct (get_row _ _ _) as [r|]; [|intros [= <- _]; done]. destruct (Queries.key_taken _ _ _); [done|].
  destruct (negb _); [done|]. intros [= _ <-]. eexists. simpl. by rewrite lookup_insert_eq.
Qed.

(** A pinned document's confirmation, as an RPC. *)
Lemma ConfirmVersionRpc_fails i n ctx tenant document m up w res w' :
  pinned i n w -> rely (store_step (pinstep i n)) w -> uuid_parse document = Some i ->
  DocumentHandler.handle h ctx (DocumentHandler.ConfirmVersionRpc tenant document m up) w = (res, w') ->
  exists e, res = Err e.
Proof.
  intros Hp HR Hdoc Hrun. destruct res as [a|e]; [exfalso|by eexists]. revert Hrun. simpl.
  intros (t & w1 & (c & _ & _ & ->)%guard_Ok & H)%bind_Ok. apply bind_Ok in H as (id & w2 & [Hid ->]%lift_Ok & H).
  apply bind_Ok in H as (user & w3 & [_ ->]%lift_Ok & H). apply bind_Ok in H as (dv & w4 & H & _).
  apply map_err_Ok in H. unfold parse_id in Hid. rewrite Hdoc in Hid. injection Hid as <-.
  by eapply pinned_not_confirmed.
Qed.
Lemma wp_ConfirmVersionRpc u i n ctx tenant document m up st :
  docinv (store_db st) -> stuck i n (store_db st) -> uuid_parse document = Some i ->
  wp u (DocumentHandler.handle h ctx (DocumentHandler.ConfirmVersionRpc tenant document m up)) (fun _ st' => st' = st) st.
Proof.
  intros Hi ((r & Hr & Hn) & Hv) Hdoc. simpl. unfold DocumentHandler.ConfirmVersion, DocumentHandler.guard_. wp_tac.
  destruct (TenantFromRequest _ _) as [t|]; [|done]. wp_tac. destruct (RequirePermission _ _ _ _); [|done]. wp_tac.
  unfold parse_id. rewrite Hdoc. destruct (uuid_parse up) as [user|]; [|wp_tac; done]. wp_tac.
  unfold DocumentHandler.svc. wp_tac. unfold Document.ConfirmVersion. apply wp_bind, wp_GetDocument; [done|].
  intros doc (Hd & _). rewrite Hd in Hr. injection Hr as ->.
  case_bool_decide as Hm; simpl; [|by wp_tac]. apply wp_bind, wp_store_call; [done|]. intros size _. wp_tac.
  apply wp_CreateVersion_repo; [done|]. intros now _ []. simpl.
  by rewrite Hm, Hn.
Qed.

(** C40: A document restored to version n while version n+1 is stored can get no new
    version until it is restored again: after any history of RPCs that do not
    restore it, whoever runs beside them (requests that were under way at the
    restore count among the others, and are assumed to leave it pinned too), it is
    still at version n, every ConfirmVersion of it is answered an error, and
    changes nothing when it runs alone; yet CreateVersion answers the URL to put
    the object of version n+1, so an upload overwrites the file of a version that is
    stored. *)
Theorem restored_document_is_stuck (t i : uuid) (n : Z) (doc : Document) (w w' : World St) (st : St) :
  docinv (store_db (w_st w)) -> rely (store_step docstep) w ->
  Document.RestoreVersion t i n w = (Ok doc, w') -> int32 n = n ->
  has_version (store_db (w_st w)) i (int32 (n + 1)) -> later i n h (w_st w') st ->
  stuck i n (store_db st)
  /\ (forall ctx tenant document m up w2 res w3,
        w_st w2 = st -> rely (store_step (pinstep i n)) w2 -> uuid_parse document = Some i ->
        DocumentHandler.handle h ctx (DocumentHandler.ConfirmVersionRpc tenant document m up) w2 = (res, w3) ->
        (exists e, res = Err e) /\ (alone (env_uuid (w_env w2)) w2 -> w_st w3 = st))
  /\ forall t' up doc' w2,
       quiet w2 -> w_st w2 = st -> live_at (store_db st) t' i doc' -> s_store (DocumentHandler.h_svc h) = true ->
       d_SizeBytes doc' <> 0 ->
       exists url w3, Document.CreateVersion (DocumentHandler.h_svc h) t' i up w2 = (Ok url, w3) /\ w_st w3 = st
         /\ uu_URL url = presigned_put_url (version_key doc' (n + 1)) (presignedURLWindow (d_SizeBytes doc')).
Proof.
  intros Hi HR Hrun Hint Hv Hl. destruct (RestoreVersion_leaves _ _ _ _ _ _ Hi HR Hrun Hint) as [Hd Hr].
  apply (has_version_step _ _ _ _ Hd) in Hv. apply (dcs_inv _ _ Hd) in Hi.
  destruct (later_pinned i n h _ _ Hi (conj Hr Hv) Hl) as [Hi2 Hs]. split; [done|]. split.
  - intros ctx tenant document m up w2 res w3 <- HR2 Hdoc Hc. split; [by eapply ConfirmVersionRpc_fails|].
    intros Ha. pattern res, (w_st w3). refine (proj2 (wp_run _ _ _ _ _ _ _ Ha Hc)). by eapply wp_ConfirmVersionRpc.
  - intros t' up doc' w2 Hq <- Hlive Hst Hsz. destruct (evals_CreateVersion _ _ i up _ _ Hq Hlive Hst Hsz) as
      (now & w3 & Hrun3 & Hst3 & _). destruct Hs as [(r & Hr2 & Hn) _]. destruct Hlive as [Hlive _].
    rewrite Hlive in Hr2. injection Hr2 as <-. rewrite <-Hn. by eexists _, w3.
Qed.

End restored.

(** ** A concrete service on the reference libraries *)

(** A signed URL is the key after the method.  UUIDs count up from the
    environment's start; users 9 and below may do anything. *)
Module DocumentDemo.

#[local] Existing Instance ref_external.
#[export] Instance plain_urls : SignedURLs := {|
  presigned_put_url := fun key _ => "PUT " +:+ key;
  presigned_get_url := fun key _ => "GET " +:+ key
|}.

Definition caller (user t : uuid) : Ctx :=
  mkCtx (Some (mkCaller user t 0%N "a@b.co" [] [] "")).
Definition perms : PermissionChecker := fun u _ _ => Ok (bool_decide (u <= 9)%N).
Definition service : Document.Service := Document.mkService true true.
Definition handler : DocumentHandler.Handler := DocumentHandler.mkHandler service (Some perms) false.
Definition env (first : N) : Env :=
  mkEnv (fun n => first + N.of_nat n)%N 0 (fun n => 1700000000 * ns_per_sec + Z.of_nat n) 0
    (fun _ => false) 0 0.
Definition world (first : N) (s : St) : World St := mkWorld s (env first) (fun _ s => s) [].

(** A client that puts an object, and an RPC. *)
Inductive move := Put (key : string) (size : Z) | Call (r : DocumentHandler.Rpc).
Definition put_object (key : string) (size : Z) (s : St) : St :=
  let d := store_db s in
  mkStore (mkDB (folders d) (documents d) (document_versions d) (<[key := size]> (objects d)))
    (store_events s).
Definition editor : Ctx := caller 9 7.
Definition do_move (m : move) (w : World St) : World St :=
  match m with
  | Put key size => mkWorld (put_object key size (w_st w)) (w_env w) (w_other w) []
  | Call r => let w' := (DocumentHandler.handle handler editor r w).2 in
              mkWorld (w_st w') (w_env w') (w_other w') []
  end.
Fixpoint run (l : list move) (w : World St) : World St :=
  match l with [] => w | m :: l' => run l' (do_move m w) end.

(** Tenant 7's call sheet, document 100: uploaded; and with a second version. *)
Definition start : DocumentHandler.Rpc :=
  DocumentHandler.InitiateUploadRpc (DocumentHandler.mkUploadReq "7" "9" "sheet" "text/plain" "" "").
Definition key_of (n : Z) : string := storageKey 7 100 None n "sheet".
Definition uploaded : World St :=
  run [Call start; Put (key_of 1) 10; Call (DocumentHandler.ConfirmUploadRpc "7" "100")]
    (world 100 empty_st).
Definition revised : World St :=
  run [Put (key_of 2) 20; Call (DocumentHandler.ConfirmVersionRpc "7" "100" 2 "9")] uploaded.
(** The document's row at a version. *)
Definition sheet (n size : Z) : Document :=
  mkDocument 100 7 None None "sheet" "text/plain" size (key_of n) n 9 1700000000000000000 None.
(** The same state in a world of its own. *)
Definition fresh (s : St) : World St := world 900 s.
(** The connection is lost before a statement. *)
Definition losing (n : nat) (s : St) : World St :=
  mkWorld s (mkEnv (fun n => 900 + N.of_nat n)%N 0 (fun n => Z.of_nat n) 0
    (fun i => bool_decide (i = n)) 0 0) (fun _ s => s) [].

End DocumentDemo.

Section witnesses.
#[local] Existing Instance ref_external.
Import DocumentDemo.

Lemma fresh_quiet s : quiet (fresh s).
Proof. split; reflexivity. Qed.
Lemma docstep_objects key size (s : St) : store_step docstep s (put_object key size s).
Proof. split; [|by exists []; rewrite app_nil_r]. split; try apply table_step_refl. by intros []. Qed.

Lemma documents_run_reachable l (w : World St) :
  document_reachable handler (w_st w) -> rely (store_step docstep) w ->
  document_reachable handler (w_st (run l w)) /\ rely (store_step docstep) (run l w).
Proof.
  revert w. induction l as [|m l IH]; intros w Hr HR; simpl; [done|]. apply IH; destruct m; simpl.
  - eapply dc_others; [exact Hr|apply docstep_objects].
  - by apply (dc_rpc handler editor).
  - exact HR.
  - destruct (handle_docstep handler editor r w (document_reachable_inv handler _ Hr) HR) as (_ & Ho & _).
    intros k s. simpl. rewrite Ho. apply HR.
Qed.
Lemma uploaded_reachable : document_reachable handler (w_st uploaded).
Proof. apply documents_run_reachable; [apply dc_empty|]. apply quiet_rely; [apply _|]. by split. Qed.
Lemma revised_reachable : document_reachable handler (w_st revised).
Proof.
  apply documents_run_reachable; [exact uploaded_reachable|]. intros k s. reflexivity.
Qed.
Lemma uploaded_there : documents (store_db (w_st uploaded)) !! 100%N = Some (sheet 1 10).
Proof. vm_refl. Qed.
Lemma revised_there : documents (store_db (w_st revised)) !! 100%N = Some (sheet 2 20).
Proof. vm_refl. Qed.

(** The largest size a store may report has the shortest window. *)
Lemma window_bounds_witness :
  urlWindowMin <= presignedURLWindow (2 ^ 63 - 1) <= urlWindowMax
  /\ presignedURLWindow (2 ^ 63 - 1) = urlWindowMin.
Proof.
  destruct (window_bounds (2 ^ 63 - 1) ltac:(lia)) as (H1 & _ & _ & H4). split; [exact H1|].
  apply H4. unfold assumedBandwidthBytesPerSec. lia.
Defined.

Definition download : DocumentHandler.Rpc := DocumentHandler.GetDownloadURLRpc "7" "100".
Definition downloaded : DocumentHandler.Response :=
  DocumentHandler.DownloadResp (DocumentHandler.mkPbDownloadURL ("GET " +:+ key_of 2) 1700000900000000000).
Lemma signed_urls_stay_in_tenant_witness :
  exists c i, ctx_caller editor = Some c
    /\ signed_for (store_db (w_st (DocumentHandler.handle handler editor download (fresh (w_st revised))).2))
         (ci_TenantID c) i ("GET " +:+ key_of 2).
Proof.
  assert (Hrun : (DocumentHandler.handle handler editor download (fresh (w_st revised))).1 = Ok downloaded)
    by vm_refl.
  pose proof revised_reachable as Hr. revert Hr Hrun. generalize (w_st revised). intros s Hr Hrun.
  refine (proj1 (signed_urls_stay_in_tenant handler editor download (fresh s) _ downloaded _ Hr
    (quiet_rely (store_step docstep) _ (fresh_quiet s)) _ eq_refl)).
  rewrite <-Hrun. apply surjective_pairing.
Defined.

(** The client has put the second version. *)
Definition put_second : St := put_object (key_of 2) 20 (w_st uploaded).
Definition second : DocumentVersion :=
  confirmed_version 900 100 2 (key_of 2) 20 9 1700000000000000000.
Lemma confirm_version_outcomes_witness :
  (Document.ConfirmVersion service 7 100 2 9 (fresh put_second)).1 = Ok second
  /\ exists doc, live_at (store_db put_second) 7 100 doc /\ 2 = d_CurrentVersion doc + 1.
Proof.
  assert (Hrun : (Document.ConfirmVersion service 7 100 2 9 (fresh put_second)).1 = Ok second) by vm_refl.
  assert (Hr : docinv (store_db put_second)).
  { apply (document_reachable_inv handler). eapply dc_others; [exact uploaded_reachable|apply docstep_objects]. }
  revert Hrun Hr. generalize put_second. intros s Hrun Hr.
  destruct (confirm_version_outcomes service (fun n => 900 + N.of_nat n)%N 7 100 2 9 (fresh s) _ _
              (conj (fun _ _ => eq_refl) eq_refl) Hr (surjective_pairing _)) as [[_ [e He]]|H].
  - rewrite Hrun in He. discriminate He.
  - destruct H as (doc & size & vid & now & Hl & Hn & _). split; [exact Hrun|]. exists doc. by split.
Defined.

Definition second_row : DocumentVersion :=
  confirmed_version 102 100 2 (key_of 2) 20 9 1700000000000000003.
Lemma second_there : document_versions (store_db (w_st revised)) !! 102%N = Some second_row.
Proof. vm_refl. Qed.
(** The second version is restored to the first, and the client puts its object
    again: confirming it is an error. *)
Definition back (n : Z) (s : St) : result (error DcErr) Document * World St :=
  Document.RestoreVersion 7 100 n (fresh s).
Definition confirm (m : Z) : DocumentHandler.Rpc := DocumentHandler.ConfirmVersionRpc "7" "100" m "9".
Definition put_again : St := put_object (key_of 2) 30 (w_st (back 1 (w_st revised)).2).
Lemma restored_document_is_stuck_witness :
  (back 1 (w_st revised)).1 = Ok (sheet 1 10) /\ stuck 100 1 (store_db put_again)
  /\ exists e, (DocumentHandler.handle handler editor (confirm 2) (fresh put_again)).1 = Err e.
Proof.
  assert (Hrun : (back 1 (w_st revised)).1 = Ok (sheet 1 10)) by vm_refl.
  pose proof (document_reachable_inv handler _ revised_reachable) as Hi. pose proof second_there as Hv.
  unfold put_again. revert Hrun Hi Hv. generalize (w_st revised). intros s Hrun Hi Hv.
  assert (Hl : later 100 1 handler (w_st (back 1 s).2) (put_object (key_of 2) 30 (w_st (back 1 s).2))).
  { eapply la_others; [apply la_here|]. destruct (docstep_objects (key_of 2) 30 (w_st (back 1 s).2)) as [H ?].
    split; [by apply pinstep_same|done]. }
  destruct (restored_document_is_stuck handler 7 100 1 (sheet 1 10) (fresh s) (back 1 s).2 _ Hi
    (quiet_rely (store_step docstep) _ (fresh_quiet s)) ltac:(by rewrite <-Hrun; apply surjective_pairing) eq_refl
    ltac:(by exists 102%N, second_row) Hl) as (Hs & Hc & _).
  split; [exact Hrun|]. split; [exact Hs|].
  exact (proj1 (Hc editor "7" "100" 2 "9" (fresh _) _ _ eq_refl
    (quiet_rely (store_step (pinstep 100 1)) _ (fresh_quiet _)) eq_refl (surjective_pairing _))).
Defined.

(** Restored to the second version again, it can be given a third. *)
Definition forth : St := put_object (key_of 3) 30 (w_st (back 2 put_again).2).
Example restored_forth_is_freed :
  let (res, w') := DocumentHandler.handle handler editor (confirm 3) (fresh forth) in
  is_ok res = true /\ d_CurrentVersion <$> (documents (store_db (w_st w')) !! 100%N) = Some 3.
Proof. vm_compute. by split. Qed.

(** The connection is lost between the two writes: the version is stored, the
    document stays at the first one, and confirming it again is answered Internal. *)
Example half_confirmed :
  let w' := (DocumentHandler.handle handler editor (DocumentHandler.ConfirmVersionRpc "7" "100" 2 "9")
               (losing 3 put_second)).2 in
  documents (store_db (w_st w')) !! 100%N = Some (sheet 1 10)
  /\ document_versions (store_db (w_st w')) !! 900%N
     = Some (confirmed_version 900 100 2 (key_of 2) 20 9 0)
  /\ (DocumentHandler.handle handler editor (DocumentHandler.ConfirmVersionRpc "7" "100" 2 "9")
        (world 950 (w_st w'))).1 = Err (mkStatus Internal "internal error").
Proof. split; [vm_refl|]. split; vm_refl. Qed.

(** A file of no bytes is uploaded and confirmed, and cannot be downloaded. *)
Example empty_file_not_confirmed :
  (DocumentHandler.handle handler editor download
     (run [Call start; Put (key_of 1) 0; Call (DocumentHandler.ConfirmUploadRpc "7" "100")]
        (world 100 empty_st))).1
  = Err (mkStatus FailedPrecondition "document: upload has not been confirmed yet").
Proof. vm_refl. Qed.

(** A document that is deleted again is not found, and confirming an upload a
    second time is Internal. *)
Example second_delete_not_found :
  (DocumentHandler.handle handler editor (DocumentHandler.DeleteDocumentRpc "7" "100")
     (run [Call (DocumentHandler.DeleteDocumentRpc "7" "100")] uploaded)).1
  = Err (mkStatus NotFound "document: delete — get record: %w").
Proof. vm_refl. Qed.
Example second_confirmation_is_internal :
  (DocumentHandler.handle handler editor (DocumentHandler.ConfirmUploadRpc "7" "100") uploaded).1
  = Err (mkStatus Internal "internal error").
Proof. vm_refl. Qed.

(** Moving a document writes every column it has read: a version confirmed between
    the read and the write is undone. *)
Definition folder : DocumentHandler.Rpc :=
  DocumentHandler.CreateFolderRpc (DocumentHandler.mkFolderReq "7" "9" "scripts" "" "").
Definition with_folder_there : World St := run [Call folder; Put (key_of 2) 20] uploaded.
Definition confirm_meanwhile (n : nat) (s : St) : St :=
  if decide (n = 2%nat)
  then w_st (DocumentHandler.handle handler editor
               (DocumentHandler.ConfirmVersionRpc "7" "100" 2 "9") (world 500 s)).2
  else s.
Definition moving : World St :=
  mkWorld (w_st with_folder_there) (env 900) confirm_meanwhile [].
Example move_loses_version :
  let (res, w') := DocumentHandler.handle handler editor
                     (DocumentHandler.MoveDocumentRpc "7" "100" "102") moving in
  is_ok res = true
  /\ d_CurrentVersion <$> (documents (store_db (w_st w')) !! 100%N) = Some 1
  /\ is_Some (document_versions (store_db (w_st w')) !! 500%N).
Proof. vm_compute. split; [done|]. split; [done|]. by eexists. Qed.

End witnesses.
