(* ===== verification/RegistrationModel.v ===== *)
(** Tenant registration: the data of pkg/registration (request.go, saga.go,
    errors.go, events.go), the validation of a request, slugs (slug.go) and the
    country table of pkg/locale.  Times are nanoseconds; an error kept in a
    record stands for its text. *)

From S2P Require Export Vertical.
Local Open Scope Z_scope.

(** ** Strings *)

(** [unicode.ToLower] on the runes whose lower case is an ASCII letter: A to Z,
    the dotted capital I and the Kelvin sign.  Any other rune is kept: the callers
    match the result against ASCII classes, which it fails either way. *)
Definition lower_rune (r : N * list N) : N * list N :=
  if in_range 65 r.1 90 then ((r.1 + 32)%N, [(r.1 + 32)%N])
  else if bool_decide (r.1 = 304)%N then (105%N, [105%N])
  else if bool_decide (r.1 = 8490)%N then (107%N, [107%N])
  else r.
Definition ToLower (s : string) : string := of_runes (lower_rune <$> runes s).

(** [strings.Fields]; [cur] is the field being read, reversed. *)
Fixpoint fields_go (cur : list (N * list N)) (rs : list (N * list N)) : list string :=
  let flush := if decide (cur = []) then [] else [of_runes (reverse cur)] in
  match rs with
  | [] => flush
  | r :: rs' => if IsSpace r.1 then flush ++ fields_go [] rs' else fields_go (r :: cur) rs'
  end.
Definition Fields (s : string) : list string := fields_go [] (runes s).

(** The characters of a string that satisfy [p]. *)
Fixpoint string_filter (p : ascii -> bool) (s : string) : string :=
  match s with
  | EmptyString => EmptyString
  | String c s' => if p c then String c (string_filter p s') else string_filter p s'
  end.

(** [strings.ReplaceAll(s, " ", "-")] *)
Fixpoint spaces_to_dashes (s : string) : string :=
  match s with
  | EmptyString => EmptyString
  | String c s' => String (if bool_decide (c = " "%char) then "-"%char else c) (spaces_to_dashes s')
  end.

Definition is_dash (c : ascii) : bool := bool_decide (c = "-"%char).

(** [multiDash.ReplaceAllString(s, "-")]: every run of dashes becomes one. *)
Fixpoint collapse_dashes (s : string) : string :=
  match s with
  | EmptyString => EmptyString
  | String c s' =>
    match s' with
    | String c' _ => if is_dash c && is_dash c' then collapse_dashes s' else String c (collapse_dashes s')
    | EmptyString => String c EmptyString
    end
  end.

(** [strings.Trim(s, "-")] *)
Fixpoint trim_left_dashes (s : string) : string :=
  match s with
  | String c s' => if is_dash c then trim_left_dashes s' else s
  | EmptyString => EmptyString
  end.
Fixpoint trim_right_dashes (s : string) : string :=
  match s with
  | String c s' =>
    match trim_right_dashes s' with
    | EmptyString => if is_dash c then EmptyString else String c EmptyString
    | t => String c t
    end
  | EmptyString => EmptyString
  end.

(** [a-z0-9\-] *)
Definition slug_char (c : ascii) : bool := is_lower c || is_digit c || is_dash c.

Definition Slugify (name : string) : string :=
  trim_right_dashes (trim_left_dashes (collapse_dashes
    (string_filter slug_char (spaces_to_dashes (ToLower (TrimSpace name)))))).

(** ** Errors *)

Inductive RErr :=
| ErrVerticalNotFound
| ErrVerticalInactive
| ErrEmailTaken
| ErrTenantNameTaken
| ErrCountryRequired
| ErrUnknownCountry
| ErrSlugTaken
| ErrInvalidPlan
| ErrInvalidRequest
| ErrSagaNotFound.
#[export] Instance RErr_eq_dec : EqDecision RErr.
Proof. solve_decision. Defined.

(** ** Requests *)

Record RegisterRequest := mkRequest {
  rr_CompanyName : string;
  rr_Email : string;
  rr_Password : string;
  rr_VerticalID : string;
  rr_Plan : string;
  rr_Country : string;
  rr_PrimaryCurrency : string;
}.

Definition ValidPlans : list string := ["starter"; "professional"; "enterprise"].
Definition isValidPlan (plan : string) : bool := bool_decide (plan ∈ ValidPlans).

Definition is_letter (c : ascii) : bool := is_lower c || is_upper c.
Definition local_char (c : ascii) : bool :=
  is_letter c || is_digit c || bool_decide (c ∈ ["."; "_"; "%"; "+"; "-"]%char).
Definition domain_char (c : ascii) : bool :=
  is_letter c || is_digit c || bool_decide (c ∈ ["."; "-"]%char).

(** [[a-zA-Z0-9.\-]+\.[a-zA-Z]{2,}$]: some dot has domain characters before it
    and only letters, at least two, after it. *)
Fixpoint domain_match (some : bool) (s : string) : bool :=
  match s with
  | EmptyString => false
  | String c s' =>
    (some && bool_decide (c = "."%char) && string_forallb is_letter s'
     && bool_decide (2 <= String.length s')%nat)
    || (domain_char c && domain_match true s')
  end.
(** [^[a-zA-Z0-9._%+\-]+@] and then the domain. *)
Fixpoint email_match (some : bool) (s : string) : bool :=
  match s with
  | EmptyString => false
  | String c s' =>
    (some && bool_decide (c = "@"%char) && domain_match false s')
    || (local_char c && email_match true s')
  end.
Definition emailRegex (s : string) : bool := email_match false s.

(** ** Countries (pkg/locale) *)

Definition countryCurrency : list (string * string) :=
  [("AE", "AED"); ("AR", "ARS"); ("AT", "EUR"); ("AU", "AUD"); ("BD", "BDT");
   ("BE", "EUR"); ("BG", "BGN"); ("BH", "BHD"); ("BR", "BRL"); ("CA", "CAD");
   ("CH", "CHF"); ("CL", "CLP"); ("CN", "CNY"); ("CO", "COP"); ("CY", "EUR");
   ("CZ", "CZK"); ("DE", "EUR"); ("DK", "DKK"); ("EE", "EUR"); ("EG", "EGP");
   ("ES", "EUR"); ("FI", "EUR"); ("FR", "EUR"); ("GB", "GBP"); ("GR", "EUR");
   ("HK", "HKD"); ("HR", "EUR"); ("HU", "HUF"); ("ID", "IDR"); ("IE", "EUR");
   ("IL", "ILS"); ("IN", "INR"); ("IS", "ISK"); ("IT", "EUR"); ("JP", "JPY");
   ("KE", "KES"); ("KR", "KRW"); ("KW", "KWD"); ("LK", "LKR"); ("LT", "EUR");
   ("LU", "EUR"); ("LV", "EUR"); ("MA", "MAD"); ("MT", "EUR"); ("MX", "MXN");
   ("MY", "MYR"); ("NG", "NGN"); ("NL", "EUR"); ("NO", "NOK"); ("NZ", "NZD");
   ("OM", "OMR"); ("PE", "PEN"); ("PH", "PHP"); ("PK", "PKR"); ("PL", "PLN");
   ("PT", "EUR"); ("QA", "QAR"); ("RO", "RON"); ("RU", "RUB"); ("SA", "SAR");
   ("SE", "SEK"); ("SG", "SGD"); ("SI", "EUR"); ("SK", "EUR"); ("TH", "THB");
   ("TR", "TRY"); ("TW", "TWD"); ("UA", "UAH"); ("US", "USD"); ("VN", "VND");
   ("ZA", "ZAR")].

(** [None] is an error. *)
Definition CurrencyForCountry (countryCode : string) : option string :=
  let code := ToUpper (TrimSpace countryCode) in
  if negb (bool_decide (len code = 2)) then None
  else '(_, p) ← list_find (fun p => p.1 = code) countryCurrency; Some p.2.
Definition IsKnownCountry (countryCode : string) : bool :=
  bool_decide (is_Some (CurrencyForCountry countryCode)).

(** [Validate] normalises the request in place; the request it leaves is
    returned. *)
Definition Validate (r : RegisterRequest) : result (error RErr) RegisterRequest :=
  let CompanyName := String.concat " " (Fields (rr_CompanyName r)) in
  let Email := TrimSpace (ToLower (rr_Email r)) in
  let Plan := TrimSpace (ToLower (rr_Plan r)) in
  let VerticalID := TrimSpace (rr_VerticalID r) in
  let Country := ToUpper (TrimSpace (rr_Country r)) in
  let PrimaryCurrency := ToUpper (TrimSpace (rr_PrimaryCurrency r)) in
  let with_currency cur :=
    mkRequest CompanyName Email (rr_Password r) VerticalID Plan Country cur in
  if decide (CompanyName = "") then
    Err (EWrap "%w: company_name is required" (ESent ErrInvalidRequest))
  else if bool_decide (len CompanyName < 2) || bool_decide (200 < len CompanyName) then
    Err (EWrap "%w: company_name must be 2-200 characters" (ESent ErrInvalidRequest))
  else if decide (Email = "") then
    Err (EWrap "%w: email is required" (ESent ErrInvalidRequest))
  else if negb (emailRegex Email) then
    Err (EWrap "%w: email format is invalid" (ESent ErrInvalidRequest))
  else if decide (rr_Password r = "") then
    Err (EWrap "%w: password is required" (ESent ErrInvalidRequest))
  else if bool_decide (len (rr_Password r) < 8) then
    Err (EWrap "%w: password must be at least 8 characters" (ESent ErrInvalidRequest))
  else if decide (VerticalID = "") then
    Err (EWrap "%w: vertical_id is required" (ESent ErrInvalidRequest))
  else if negb (isValidPlan Plan) then
    Err (EWrap "%w: plan must be one of: %s" (ESent ErrInvalidPlan))
  else if decide (Country = "") then Err (ESent ErrCountryRequired)
  else if negb (IsKnownCountry Country) then Err (EWrap "%w: %q" (ESent ErrUnknownCountry))
  else if decide (PrimaryCurrency = "") then
    match CurrencyForCountry Country with
    | None => Err (EWrap "%w: %q" (ESent ErrUnknownCountry))
    | Some cur => Ok (with_currency cur)
    end
  else Ok (with_currency PrimaryCurrency).

(** ** Steps and sagas *)

(** [StepNone] is the zero value. *)
Inductive Step :=
| StepNone
| StepCreateTenant
| StepCreateUser
| StepBindVertical
| StepSeedChartOfAccounts
| StepSeedBudgetTemplates
| StepSeedExpenseCategories
| StepOpenAccountingPeriod
| StepPublishEvent
| StepSendWelcomeEmail.
#[export] Instance Step_eq_dec : EqDecision Step.
Proof. solve_decision. Defined.

Definition Step_String (s : Step) : string :=
  match s with
  | StepCreateTenant => "create_tenant"
  | StepCreateUser => "create_user"
  | StepBindVertical => "bind_vertical"
  | StepSeedChartOfAccounts => "seed_chart_of_accounts"
  | StepSeedBudgetTemplates => "seed_budget_templates"
  | StepSeedExpenseCategories => "seed_expense_categories"
  | StepOpenAccountingPeriod => "open_accounting_period"
  | StepPublishEvent => "publish_event"
  | StepSendWelcomeEmail => "send_welcome_email"
  | StepNone => "unknown"
  end.

Inductive StepStatus := StepCompleted | StepFailed | StepSkipped.

Record StepResult := mkStepResult {
  sr_Step : Step;
  sr_Name : string;
  sr_Status : StepStatus;
  sr_Error : option (error RErr);
  sr_Elapsed : Z;
}.

Record RegisterResult := mkResult {
  res_TenantID : uuid;
  res_UserID : uuid;
  res_VerticalID : string;
  res_Plan : string;
  res_CompletedSteps : list StepResult;
}.

Inductive SagaStatus :=
| SagaInProgress
| SagaCompleted
| SagaFailed
| SagaCompensating
| SagaCompensated
| SagaCompensationFailed.
#[export] Instance SagaStatus_eq_dec : EqDecision SagaStatus.
Proof. solve_decision. Defined.

Record RegistrationSaga := mkSaga {
  sg_ID : uuid;
  sg_Email : string;
  sg_TenantID : uuid;
  sg_UserID : uuid;
  sg_Status : SagaStatus;
  sg_CompletedSteps : list Step;
  sg_FailedStep : Step;
  sg_FailureReason : option (error RErr);
  sg_CompensationErrors : list (string * error RErr);
  sg_Request : RegisterRequest;
  sg_CreatedAt : Time;
  sg_UpdatedAt : Time;
}.

Definition stepCompleted (s : RegistrationSaga) (step : Step) : bool :=
  bool_decide (step ∈ sg_CompletedSteps s).

Definition set_steps (steps : list Step) (s : RegistrationSaga) : RegistrationSaga :=
  mkSaga (sg_ID s) (sg_Email s) (sg_TenantID s) (sg_UserID s) (sg_Status s) steps
    (sg_FailedStep s) (sg_FailureReason s) (sg_CompensationErrors s) (sg_Request s)
    (sg_CreatedAt s) (sg_UpdatedAt s).
Definition markStepCompleted (step : Step) (s : RegistrationSaga) : RegistrationSaga :=
  if stepCompleted s step then s else set_steps (sg_CompletedSteps s ++ [step]) s.

Definition set_tenant (id : uuid) (s : RegistrationSaga) : RegistrationSaga :=
  mkSaga (sg_ID s) (sg_Email s) id (sg_UserID s) (sg_Status s) (sg_CompletedSteps s)
    (sg_FailedStep s) (sg_FailureReason s) (sg_CompensationErrors s) (sg_Request s)
    (sg_CreatedAt s) (sg_UpdatedAt s).
Definition set_user (id : uuid) (s : RegistrationSaga) : RegistrationSaga :=
  mkSaga (sg_ID s) (sg_Email s) (sg_TenantID s) id (sg_Status s) (sg_CompletedSteps s)
    (sg_FailedStep s) (sg_FailureReason s) (sg_CompensationErrors s) (sg_Request s)
    (sg_CreatedAt s) (sg_UpdatedAt s).
Definition set_status (st : SagaStatus) (s : RegistrationSaga) : RegistrationSaga :=
  mkSaga (sg_ID s) (sg_Email s) (sg_TenantID s) (sg_UserID s) st (sg_CompletedSteps s)
    (sg_FailedStep s) (sg_FailureReason s) (sg_CompensationErrors s) (sg_Request s)
    (sg_CreatedAt s) (sg_UpdatedAt s).
Definition set_failure (step : Step) (reason : option (error RErr)) (s : RegistrationSaga) :
    RegistrationSaga :=
  mkSaga (sg_ID s) (sg_Email s) (sg_TenantID s) (sg_UserID s) (sg_Status s) (sg_CompletedSteps s)
    step reason (sg_CompensationErrors s) (sg_Request s) (sg_CreatedAt s) (sg_UpdatedAt s).
Definition set_compensation_errors (errs : list (string * error RErr)) (s : RegistrationSaga) :
    RegistrationSaga :=
  mkSaga (sg_ID s) (sg_Email s) (sg_TenantID s) (sg_UserID s) (sg_Status s) (sg_CompletedSteps s)
    (sg_FailedStep s) (sg_FailureReason s) errs (sg_Request s) (sg_CreatedAt s) (sg_UpdatedAt s).
Definition set_updated (t : Time) (s : RegistrationSaga) : RegistrationSaga :=
  mkSaga (sg_ID s) (sg_Email s) (sg_TenantID s) (sg_UserID s) (sg_Status s) (sg_CompletedSteps s)
    (sg_FailedStep s) (sg_FailureReason s) (sg_CompensationErrors s) (sg_Request s)
    (sg_CreatedAt s) t.

(** ** Events and definitions *)

Record TenantCreatedEvent := mkTenantCreated {
  tce_TenantID : uuid;
  tce_Name : string;
  tce_Slug : string;
  tce_Plan : string;
  tce_VerticalID : string;
  tce_AdminEmail : string;
  tce_AdminUserID : uuid;
  tce_OccurredAt : Time;
}.

(** [Config] is JSON text. *)
Record VerticalDefinitionRow := mkVerticalDefinitionRow {
  vdr_ID : string;
  vdr_Name : string;
  vdr_Version : string;
  vdr_Description : string;
  vdr_Config : string;
  vdr_IsActive : bool;
}.
