(* ===== verification/RegistrationQueries.v ===== *)
(** Tenant registration: the tables the platform schema holds (tenants, users,
    tenant_verticals, vertical_definitions), and the SQL statements of
    pkg/registration/db/queries.sql.go and the two of
    pkg/vertical/db/queries.sql.go that registration runs, with the constraints
    of migrations/iam and migrations/shared. *)

From S2P Require Export RegistrationModel Platform.
Local Open Scope Z_scope.

(** ** Rows *)

Record TenantVerticalRow := mkTenantVerticalRow {
  tv_TenantID : uuid;
  tv_VerticalID : string;
  tv_ConfigOverride : option string;
  tv_RegisteredAt : Time;
  tv_RegisteredBy : uuid;
}.

Record VerticalRow := mkVerticalRow {
  vd_ID : string;
  vd_Name : string;
  vd_Version : string;
  vd_Description : option string;
  vd_Config : string;
  vd_IsActive : bool;
  vd_CreatedAt : Time;
  vd_UpdatedAt : Time;
}.

(** The platform tables. *)
Record Platform := mkPlatform {
  tenants : gmap uuid TenantRow;
  users : gmap uuid UserRow;
  tenant_verticals : gmap uuid TenantVerticalRow;
  vertical_definitions : gmap string VerticalRow;
}.
Definition set_tenants (t : gmap uuid TenantRow) (d : Platform) : Platform :=
  mkPlatform t (users d) (tenant_verticals d) (vertical_definitions d).
Definition set_users (t : gmap uuid UserRow) (d : Platform) : Platform :=
  mkPlatform (tenants d) t (tenant_verticals d) (vertical_definitions d).
Definition set_tenant_verticals (t : gmap uuid TenantVerticalRow) (d : Platform) : Platform :=
  mkPlatform (tenants d) (users d) t (vertical_definitions d).

(** ** Statements *)

Section queries.
(** [regexp_replace(lower(trim(name)), '\s+', ' ', 'g')] in the database. *)
Variable name_key : string -> string.

(** CHECK constraints first (and the lengths of the CHAR columns), then the
    unique indexes in the order they were created. *)
Definition CreateTenant (id : uuid) (now : Time) (name slug plan country currency : string)
    (d : Platform) : result named_pg_error (TenantRow * Platform) :=
  if negb (isValidPlan plan)
     || negb (string_forallb is_upper country && bool_decide (String.length country = 2%nat))
     || negb (matches_upper3 currency)
  then Err (OtherPg PgConstraint)
  else if bool_decide (is_Some (tenants d !! id)) then Err (UniqueOn "tenants_pkey")
  else if exists_row (fun t => bool_decide (tn_Slug t = slug)) (tenants d)
  then Err (UniqueOn "tenants_slug_key")
  else if exists_row (fun t => bool_decide (name_key (tn_Name t) = name_key name)) (tenants d)
  then Err (UniqueOn "tenants_name_ci_unique")
  else let t := mkTenantRow id name slug plan "active" now false None None None country None
                  currency None None None None None in
       Ok (t, set_tenants (<[id := t]> (tenants d)) d).

Definition CreateUser (id : uuid) (now : Time) (tenantID : uuid)
    (email displayName passwordHash : string) (d : Platform) :
    result pg_error (UserRow * Platform) :=
  if bool_decide (is_Some (users d !! id)) then Err PgUniqueViolation
  else if exists_row (fun u => bool_decide (us_TenantID u = tenantID)
                               && bool_decide (us_Email u = email)) (users d)
  then Err PgUniqueViolation
  else if negb (bool_decide (is_Some (tenants d !! tenantID))) then Err PgConstraint
  else let u := mkUserRow id tenantID email displayName passwordHash "active" now in
       Ok (u, set_users (<[id := u]> (users d)) d).

Definition TenantExistsByNormalizedName (name : string) (d : Platform) : result pg_error bool :=
  Ok (exists_row (fun t => bool_decide (name_key (tn_Name t) = name_key name)) (tenants d)).
Definition TenantExistsBySlug (slug : string) (d : Platform) : result pg_error bool :=
  Ok (exists_row (fun t => bool_decide (tn_Slug t = slug)) (tenants d)).
Definition UserExistsByEmail (email : string) (d : Platform) : result pg_error bool :=
  Ok (exists_row (fun u => bool_decide (us_Email u = email)) (users d)).

Definition GetVerticalDefinition (id : string) (d : Platform) : result pg_error VerticalRow :=
  match vertical_definitions d !! id with
  | Some v => if vd_IsActive v then Ok v else Err PgNoRows
  | None => Err PgNoRows
  end.

(** ON CONFLICT (tenant_id) DO NOTHING; tenant_id has no foreign key. *)
Definition BindTenantVertical (now : Time) (tenantID : uuid) (verticalID : string)
    (configOverride : option string) (registeredBy : uuid) (d : Platform) :
    result pg_error (unit * Platform) :=
  if bool_decide (is_Some (tenant_verticals d !! tenantID)) then Ok (tt, d)
  else if negb (bool_decide (is_Some (vertical_definitions d !! verticalID))) then Err PgConstraint
  else Ok (tt, set_tenant_verticals
                 (<[tenantID := mkTenantVerticalRow tenantID verticalID configOverride now registeredBy]>
                    (tenant_verticals d)) d).
End queries.
