(* ===== verification/RegistrationStore.v ===== *)
(** Tenant registration: the [Store] of pkg/registration/db/store.go over the
    statements of [RegistrationQueries], and the state registration shares with
    the rest of the platform. *)

From S2P Require Export RegistrationQueries.
Local Open Scope Z_scope.

(** The shared state: the platform tables, and whatever the other ports of the
    registration keep (saga records, tenant schemas, mail). *)
Record Shared (Rest : Type) := mkShared { platform : Platform; rest : Rest }.
Arguments mkShared {Rest} platform rest.
Arguments platform {Rest} s.
Arguments rest {Rest} s.

Section store.
Context {Rest : Type}.
Variable name_key : string -> string.

Abbreviation St := (Shared Rest) (only parsing).
Abbreviation Op := (M (Shared Rest) (error RErr)) (only parsing).

Definition on_platform {E A} (q : Platform -> result E (A * Platform)) (s : St) :
    result E (A * St) :=
  match q (platform s) with
  | Ok (a, d) => Ok (a, mkShared d (rest s))
  | Err e => Err e
  end.

Definition pg_error_text (e : pg_error) : error RErr := EText "postgres".

Definition CreateTenant (name slug plan country currency : string) : Op uuid :=
  id ← uuid_new;
  now ← time_now;
  t ← map_err (fun e => match e with
                        | UniqueOn "tenants_name_ci_unique" => ESent ErrTenantNameTaken
                        | UniqueOn _ => EWrap "create tenant: %w" (EText "unique violation")
                        | OtherPg e => EWrap "create tenant: %w" (pg_error_text e)
                        end)
        (db_tx (OtherPg PgConnection)
           (on_platform (RegistrationQueries.CreateTenant name_key id now name slug plan country currency)));
  mret (tn_ID t).

Definition CreateUser (tenantID : uuid) (email displayName passwordHash : string) : Op uuid :=
  id ← uuid_new;
  now ← time_now;
  u ← map_err (fun e => EWrap "create user: %w" (pg_error_text e))
        (db_exec (on_platform (RegistrationQueries.CreateUser id now tenantID email displayName passwordHash)));
  mret (us_ID u).

(** A read, with the error passed on as it is. *)
Definition read {A} (q : Platform -> result pg_error A) : M St pg_error A :=
  db_query (fun s => q (platform s)).

Definition TenantExistsBySlug (slug : string) : Op bool :=
  map_err pg_error_text (read (RegistrationQueries.TenantExistsBySlug slug)).
Definition TenantExistsByNormalizedName (name : string) : Op bool :=
  map_err pg_error_text (read (RegistrationQueries.TenantExistsByNormalizedName name_key name)).
Definition UserExistsByEmail (email : string) : Op bool :=
  map_err pg_error_text (read (RegistrationQueries.UserExistsByEmail email)).

Definition GetVerticalDefinition (id : string) : Op VerticalDefinitionRow :=
  vd ← map_err (fun e => match e with
                         | PgNoRows => ESent ErrVerticalNotFound
                         | e => EWrap "get vertical %s: %w" (pg_error_text e)
                         end) (read (RegistrationQueries.GetVerticalDefinition id));
  mret (mkVerticalDefinitionRow (vd_ID vd) (vd_Name vd) (vd_Version vd)
          (stringFromPgText (vd_Description vd)) (vd_Config vd) (vd_IsActive vd)).

Definition BindTenantVertical (tenantID : uuid) (verticalID : string) (registeredBy : uuid) :
    Op unit :=
  now ← time_now;
  map_err pg_error_text
    (db_exec (on_platform (RegistrationQueries.BindTenantVertical now tenantID verticalID None registeredBy))).

End store.
