(* ===== verification/Registration.v ===== *)
(** Tenant registration: the pipeline (pkg/registration/pipeline.go) and the saga
    orchestrator (saga.go) over the store of [RegistrationStore].  The ports that
    have no implementation in the repository (ports.go's seeders, publisher,
    notifier and hasher; saga.go's store and compensator) are the operations of
    the class [Ports]; log lines are left out. *)

From S2P Require Export RegistrationStore.
Local Open Scope Z_scope.

Class Ports `{X : External} (Rest : Type) := {
  (** LedgerSeeder *)
  SeedChartOfAccounts : uuid -> list ChartOfAccountEntry -> M (Shared Rest) (error RErr) unit;
  OpenAccountingPeriod : uuid -> Z -> Z -> M (Shared Rest) (error RErr) unit;
  (** BudgetSeeder, ExpenseSeeder *)
  SeedBudgetTemplates : uuid -> list BudgetTemplate -> M (Shared Rest) (error RErr) unit;
  SeedExpenseCategories : uuid -> list ExpenseCategory -> M (Shared Rest) (error RErr) unit;
  (** EventPublisher, Notifier, PasswordHasher *)
  PublishTenantCreated : TenantCreatedEvent -> M (Shared Rest) (error RErr) unit;
  SendWelcomeEmail : uuid -> string -> string -> string -> M (Shared Rest) (error RErr) unit;
  Hash : string -> M (Shared Rest) (error RErr) string;
  (** SagaStore *)
  SagaCreate : RegistrationSaga -> M (Shared Rest) (error RErr) unit;
  SagaUpdate : RegistrationSaga -> M (Shared Rest) (error RErr) unit;
  SagaGetByID : uuid -> M (Shared Rest) (error RErr) RegistrationSaga;
  SagaGetByEmail : string -> M (Shared Rest) (error RErr) RegistrationSaga;
  (** Compensator *)
  DeleteTenant : uuid -> M (Shared Rest) (error RErr) unit;
  DeleteUser : uuid -> uuid -> M (Shared Rest) (error RErr) unit;
  UnbindVertical : uuid -> string -> M (Shared Rest) (error RErr) unit;
}.

Section registration.
Context {X : External} {Rest : Type} {P : Ports Rest}.
(** The database's name normalisation, and [json.Unmarshal] into a [Config]. *)
Variable name_key : string -> string.
Variable unmarshal : string -> option Config.

Abbreviation St := (Shared Rest) (only parsing).
Abbreviation Op := (M (Shared Rest) (error RErr)) (only parsing).

(** [loadVerticalConfig], also the same lines of [Run] *)
Definition loadVerticalConfig (verticalID : string) : Op (VerticalDefinitionRow * Config) :=
  vd ← wrap "validate vertical: %w" (RegistrationStore.GetVerticalDefinition verticalID);
  if negb (vdr_IsActive vd) then mthrow (ESent ErrVerticalInactive)
  else match unmarshal (vdr_Config vd) with
       | None => mthrow (EWrap "parse vertical config: %w" (EText "json"))
       | Some cfg => mret (vd, cfg)
       end.

(** [saga.ID.String()[:8]], [uuid.New().String()[:8]] *)
Definition short (id : uuid) : string := String.substring 0 8 (uuid_string id).

Definition base_slug (name : string) : string :=
  let slug := Slugify name in if decide (slug = "") then "tenant" else slug.

(** ** The pipeline *)

(** What [Run] returns with an error: the result so far, if it got that far. *)
Abbreviation RunM := (M (Shared Rest) (option RegisterResult * error RErr)) (only parsing).

Definition before_steps {A} (m : Op A) : RunM A := map_err (fun e => (None, e)) m.

Definition stepResult (step : Step) (start now : Time) (err : option (error RErr)) : StepResult :=
  mkStepResult step (Step_String step) (match err with Some _ => StepFailed | None => StepCompleted end)
    err (now - start).

Definition add_step (r : StepResult) (res : RegisterResult) : RegisterResult :=
  mkResult (res_TenantID res) (res_UserID res) (res_VerticalID res) (res_Plan res)
    (res_CompletedSteps res ++ [r]).
Definition set_res_tenant (id : uuid) (res : RegisterResult) : RegisterResult :=
  mkResult id (res_UserID res) (res_VerticalID res) (res_Plan res) (res_CompletedSteps res).
Definition set_res_user (id : uuid) (res : RegisterResult) : RegisterResult :=
  mkResult (res_TenantID res) id (res_VerticalID res) (res_Plan res) (res_CompletedSteps res).

(** A timed step: [start := time.Now(); err := call; append(stepResult(...))]. *)
Definition timed {A} (step : Step) (call : Op A) (res : RegisterResult) :
    RunM (result (error RErr) A * RegisterResult) :=
  start ← time_now;
  r ← try call;
  now ← time_now;
  mret (r, add_step (stepResult step start now (match r with Err e => Some e | Ok _ => None end)) res).

(** A step whose error ends the run. *)
Definition required {A} (step : Step) (text : string) (call : Op A) (res : RegisterResult) :
    RunM (A * RegisterResult) :=
  '(r, res) ← timed step call res;
  match r with
  | Err e => mthrow (Some res, EWrap text e)
  | Ok a => mret (a, res)
  end.

Definition Run (request : RegisterRequest) : RunM RegisterResult :=
  req ← before_steps (lift_result (Validate request));
  '(vd, cfg) ← before_steps (loadVerticalConfig (rr_VerticalID req));
  emailTaken ← before_steps (wrap "check email: %w"
                 (RegistrationStore.UserExistsByEmail (rr_Email req)));
  if (emailTaken : bool) then mthrow (None, ESent ErrEmailTaken) else
  nameTaken ← before_steps (wrap "check tenant name: %w"
                (RegistrationStore.TenantExistsByNormalizedName name_key (rr_CompanyName req)));
  if (nameTaken : bool) then mthrow (None, ESent ErrTenantNameTaken) else
  slugTaken ← before_steps (wrap "check slug: %w"
                (RegistrationStore.TenantExistsBySlug (base_slug (rr_CompanyName req))));
  slug ← (if (slugTaken : bool)
          then id ← uuid_new; mret (base_slug (rr_CompanyName req) +:+ "-" +:+ short id)
          else mret (base_slug (rr_CompanyName req)));
  passwordHash ← before_steps (wrap "hash password: %w" (Hash (rr_Password req)));
  let res := mkResult uuid_nil uuid_nil (rr_VerticalID req) (rr_Plan req) [] in
  '(tenantID, res) ← required StepCreateTenant "step 1 create tenant: %w"
      (RegistrationStore.CreateTenant name_key (rr_CompanyName req) slug (rr_Plan req)
         (rr_Country req) (rr_PrimaryCurrency req)) res;
  let res := set_res_tenant tenantID res in
  '(userID, res) ← required StepCreateUser "step 2 create user: %w"
      (RegistrationStore.CreateUser tenantID (rr_Email req) (rr_CompanyName req +:+ " Admin")
         passwordHash) res;
  let res := set_res_user userID res in
  '(_, res) ← required StepBindVertical "step 3 bind vertical: %w"
      (RegistrationStore.BindTenantVertical tenantID (rr_VerticalID req) userID) res;
  '(_, res) ← required StepSeedChartOfAccounts "step 4 seed chart of accounts: %w"
      (SeedChartOfAccounts tenantID (cfg_DefaultChartOfAccounts cfg)) res;
  '(_, res) ← required StepSeedBudgetTemplates "step 5 seed budget templates: %w"
      (SeedBudgetTemplates tenantID (cfg_BudgetTemplates cfg)) res;
  '(_, res) ← required StepSeedExpenseCategories "step 6 seed expense categories: %w"
      (SeedExpenseCategories tenantID (cfg_ExpenseCategories cfg)) res;
  '(_, res) ← required StepOpenAccountingPeriod "step 7 open accounting period: %w"
      (now ← time_now; zone ← local_zone;
       OpenAccountingPeriod tenantID (year_utc (now + zone)) (month_utc (now + zone))) res;
  '(_, res) ← timed StepPublishEvent
      (now ← time_now;
       PublishTenantCreated (mkTenantCreated tenantID (rr_CompanyName req) slug (rr_Plan req)
         (rr_VerticalID req) (rr_Email req) userID now)) res;
  '(_, res) ← timed StepSendWelcomeEmail
      (SendWelcomeEmail tenantID (rr_Email req) (rr_CompanyName req) (vdr_Name vd)) res;
  mret res.

(** ** The saga *)

(** What [Start], [Resume] and [run] return with an error: the saga, if any. *)
Abbreviation SagaM := (M (Shared Rest) (option RegistrationSaga * error RErr)) (only parsing).

(** The record is shared through its pointer: each operation returns the record
    it leaves. *)
Definition persist {E} (saga : RegistrationSaga) : M St E RegistrationSaga :=
  now ← time_now;
  let saga := set_updated now saga in
  _ ← try (SagaUpdate saga);
  mret saga.

Definition failSaga {E} (saga : RegistrationSaga) (step : Step) (err : error RErr) :
    M St E RegistrationSaga :=
  now ← time_now;
  persist (set_updated now (set_failure step (Some err) (set_status SagaFailed saga))).

(** One compensating transaction, run when its step completed. *)
Definition compensate {E} (saga : RegistrationSaga) (step : Step) (name : string) (call : Op unit)
    (errs : list (string * error RErr)) : M St E (list (string * error RErr)) :=
  if stepCompleted saga step then
    r ← try call;
    mret (match r with Err e => errs ++ [(name, e)] | Ok _ => errs end)
  else mret errs.

Definition failAndCompensate {E} (saga : RegistrationSaga) (step : Step) (stepErr : error RErr) :
    M St E RegistrationSaga :=
  saga ← failSaga saga step stepErr;
  saga ← persist (set_status SagaCompensating saga);
  errs ← compensate saga StepBindVertical "UnbindVertical: %v"
           (UnbindVertical (sg_TenantID saga) (rr_VerticalID (sg_Request saga))) [];
  errs ← compensate saga StepCreateUser "DeleteUser: %v"
           (DeleteUser (sg_TenantID saga) (sg_UserID saga)) errs;
  errs ← compensate saga StepCreateTenant "DeleteTenant: %v" (DeleteTenant (sg_TenantID saga)) errs;
  let saga := if decide (errs = []) then set_status SagaCompensated saga
              else set_compensation_errors errs (set_status SagaCompensationFailed saga) in
  now ← time_now;
  persist (set_updated now saga).

(** [return saga, o.failSaga(...)] and [return saga, o.failAndCompensate(...)] *)
Definition fail {A} (saga : RegistrationSaga) (step : Step) (err : error RErr) : SagaM A :=
  saga ← failSaga saga step err; mthrow (Some saga, err).
Definition fail_compensate {A} (saga : RegistrationSaga) (step : Step) (err : error RErr) : SagaM A :=
  saga ← failAndCompensate saga step err; mthrow (Some saga, err).

Definition completed_step {E} (step : Step) (saga : RegistrationSaga) : M St E RegistrationSaga :=
  persist (markStepCompleted step saga).

(** A step skipped when it completed before; [call] yields what the saga
    records of it. *)
Definition saga_step (step : Step) (saga : RegistrationSaga) (call : SagaM RegistrationSaga) :
    SagaM RegistrationSaga :=
  if stepCompleted saga step then mret saga
  else saga ← call; completed_step step saga.

(** [if err := call; err != nil { return saga, o.failAndCompensate(...) }] *)
Definition or_compensate {A} (saga : RegistrationSaga) (step : Step) (text : string) (call : Op A) :
    SagaM A :=
  r ← try call;
  match r with
  | Err e => fail_compensate saga step (EWrap text e)
  | Ok a => mret a
  end.

Definition create_tenant (saga : RegistrationSaga) : SagaM RegistrationSaga :=
  let req := sg_Request saga in
  taken ← try (RegistrationStore.TenantExistsBySlug (base_slug (rr_CompanyName req)));
  let slug := match taken with
              | Ok true => base_slug (rr_CompanyName req) +:+ "-" +:+ short (sg_ID saga)
              | _ => base_slug (rr_CompanyName req)
              end in
  taken ← try (RegistrationStore.TenantExistsByNormalizedName name_key (rr_CompanyName req));
  match taken with
  | Err e => fail saga StepCreateTenant (EWrap "check tenant name: %w" e)
  | Ok true => fail saga StepCreateTenant (ESent ErrTenantNameTaken)
  | Ok false =>
    r ← try (RegistrationStore.CreateTenant name_key (rr_CompanyName req) slug (rr_Plan req)
               (rr_Country req) (rr_PrimaryCurrency req));
    match r with
    | Err e => fail saga StepCreateTenant (EWrap "step 1 create tenant: %w" e)
    | Ok tenantID => mret (set_tenant tenantID saga)
    end
  end.

Definition create_user (saga : RegistrationSaga) : SagaM RegistrationSaga :=
  let req := sg_Request saga in
  passwordHash ← or_compensate saga StepCreateUser "step 2 hash password: %w" (Hash (rr_Password req));
  userID ← or_compensate saga StepCreateUser "step 2 create user: %w"
             (RegistrationStore.CreateUser (sg_TenantID saga) (rr_Email req)
                (rr_CompanyName req +:+ " Admin") passwordHash);
  mret (set_user userID saga).

(** Steps 3 to 7: a call whose failure rolls the saga back. *)
Definition critical (step : Step) (text : string) (call : RegistrationSaga -> Op unit)
    (saga : RegistrationSaga) : SagaM RegistrationSaga :=
  saga_step step saga (_ ← or_compensate saga step text (call saga); mret saga).

(** Steps 8 and 9: marked whether the call fails or not. *)
Definition best_effort_step (step : Step) (call : RegistrationSaga -> Op unit)
    (saga : RegistrationSaga) : SagaM RegistrationSaga :=
  saga_step step saga (_ ← try (call saga); mret saga).

Definition run (saga : RegistrationSaga) : SagaM RegistrationSaga :=
  let req := sg_Request saga in
  loaded ← try (loadVerticalConfig (rr_VerticalID req));
  match loaded with
  | Err e => fail saga StepNone e
  | Ok (vd, cfg) =>
    saga ← saga_step StepCreateTenant saga (create_tenant saga);
    saga ← saga_step StepCreateUser saga (create_user saga);
    saga ← critical StepBindVertical "step 3 bind vertical: %w"
             (fun s => RegistrationStore.BindTenantVertical (sg_TenantID s) (rr_VerticalID req)
                         (sg_UserID s)) saga;
    saga ← critical StepSeedChartOfAccounts "step 4 seed chart of accounts: %w"
             (fun s => SeedChartOfAccounts (sg_TenantID s) (cfg_DefaultChartOfAccounts cfg)) saga;
    saga ← critical StepSeedBudgetTemplates "step 5 seed budget templates: %w"
             (fun s => SeedBudgetTemplates (sg_TenantID s) (cfg_BudgetTemplates cfg)) saga;
    saga ← critical StepSeedExpenseCategories "step 6 seed expense categories: %w"
             (fun s => SeedExpenseCategories (sg_TenantID s) (cfg_ExpenseCategories cfg)) saga;
    saga ← critical StepOpenAccountingPeriod "step 7 open accounting period: %w"
             (fun s => now ← time_now;
                       OpenAccountingPeriod (sg_TenantID s) (year_utc now) (month_utc now)) saga;
    saga ← best_effort_step StepPublishEvent
             (fun s => now ← time_now;
                PublishTenantCreated (mkTenantCreated (sg_TenantID s) (rr_CompanyName req)
                  (Slugify (rr_CompanyName req)) (rr_Plan req) (rr_VerticalID req) (rr_Email req)
                  (sg_UserID s) now)) saga;
    saga ← best_effort_step StepSendWelcomeEmail
             (fun s => SendWelcomeEmail (sg_TenantID s) (rr_Email req) (rr_CompanyName req)
                         (vdr_Name vd)) saga;
    now ← time_now;
    persist (set_updated now (set_status SagaCompleted saga))
  end.

Definition new_saga (id : uuid) (req : RegisterRequest) (created updated : Time) : RegistrationSaga :=
  mkSaga id (rr_Email req) uuid_nil uuid_nil SagaInProgress [] StepNone None [] req created updated.

(** The part of [Start] past the deduplication. *)
Definition start_new (req : RegisterRequest) : SagaM RegistrationSaga :=
  id ← uuid_new;
  created ← time_now;
  updated ← time_now;
  _ ← map_err (fun e => (None, EWrap "registration: persist saga: %w" e))
        (SagaCreate (new_saga id req created updated));
  run (new_saga id req created updated).

Definition Start (request : RegisterRequest) : SagaM RegistrationSaga :=
  match Validate request with
  | Err e => mthrow (None, e)
  | Ok req =>
    existing ← try (SagaGetByEmail (rr_Email req));
    match existing with
    | Ok s =>
      match sg_Status s with
      | SagaCompleted => mret s
      | SagaInProgress | SagaFailed =>
        mthrow (Some s, EText "registration: saga %s already exists for %s (status: %s)")
      | _ => start_new req
      end
    | Err _ => start_new req
    end
  end.

Definition Resume (sagaID : uuid) : SagaM RegistrationSaga :=
  saga ← map_err (fun e => (None, EWrap "registration: load saga %s: %w" e)) (SagaGetByID sagaID);
  if decide (sg_Status saga = SagaCompleted) then mret saga
  else if decide (sg_Status saga <> SagaFailed) then
    mthrow (None, EText "registration: saga %s cannot be resumed (status: %s)")
  else
    now ← time_now;
    let saga := set_updated now (set_failure StepNone None (set_status SagaInProgress saga)) in
    _ ← map_err (fun e => (None, EWrap "registration: update saga for resume: %w" e))
          (SagaUpdate saga);
    run saga.

Definition GetStatus (sagaID : uuid) : Op RegistrationSaga := SagaGetByID sagaID.

End registration.
