(* ===== verification/RegistrationProps.v ===== *)
(** Tenant registration: what a saga leaves on the platform.  [PortLaws] states
    what saga.go and ports.go document of the ports; under it a saga that runs
    alone either completes with exactly one new tenant, administrator and vertical
    binding, or leaves the platform as it was, or is marked as needing manual
    intervention and has touched nothing outside the tenant it created, whichever
    of its calls fail. *)

From S2P Require Export Registration Logic.
Local Open Scope Z_scope.

(** ** What the ports promise *)

Definition other_tenants (t : uuid) (us : gmap uuid UserRow) : gmap uuid UserRow :=
  filter (fun p => us_TenantID p.2 <> t) us.

(** The same platform but for what belongs to tenant [t]. *)
Definition outside (t : uuid) (d d' : Platform) : Prop :=
  delete t (tenants d') = delete t (tenants d)
  /\ other_tenants t (users d') = other_tenants t (users d)
  /\ delete t (tenant_verticals d') = delete t (tenant_verticals d)
  /\ vertical_definitions d' = vertical_definitions d.

(** The tenants row goes, and its users with it (ON DELETE CASCADE). *)
Definition tenant_deleted (t : uuid) (d : Platform) : Platform :=
  mkPlatform (delete t (tenants d)) (other_tenants t (users d)) (tenant_verticals d)
    (vertical_definitions d).

Class PortLaws `{X : External} {Rest : Type} (P : Ports Rest) := {
  (** Seeders write the tenant schema, the store its saga table. *)
  seed_accounts_keeps : forall u t l, keeps u platform (SeedChartOfAccounts t l);
  open_period_keeps : forall u t y m, keeps u platform (OpenAccountingPeriod t y m);
  seed_budgets_keeps : forall u t l, keeps u platform (SeedBudgetTemplates t l);
  seed_expenses_keeps : forall u t l, keeps u platform (SeedExpenseCategories t l);
  publish_keeps : forall u e, keeps u platform (PublishTenantCreated e);
  email_keeps : forall u t a b c, keeps u platform (SendWelcomeEmail t a b c);
  hash_keeps : forall u p, keeps u platform (Hash p);
  create_keeps : forall u s, keeps u platform (SagaCreate s);
  update_keeps : forall u s, keeps u platform (SagaUpdate s);
  get_id_keeps : forall u i, keeps u platform (SagaGetByID i);
  get_email_keeps : forall u e, keeps u platform (SagaGetByEmail e);
  (** A compensating transaction that succeeds removed its record; one that
      fails touched at most the tenant it names. *)
  delete_tenant_law : forall u t s, wp u (DeleteTenant t) (fun r s' =>
    match r with
    | Ok _ => platform s' = tenant_deleted t (platform s)
    | Err _ => outside t (platform s) (platform s')
    end) s;
  delete_user_law : forall u t x s, wp u (DeleteUser t x) (fun r s' =>
    match r with
    | Ok _ => platform s' = set_users (delete x (users (platform s))) (platform s)
    | Err _ => outside t (platform s) (platform s')
    end) s;
  unbind_law : forall u t v s, wp u (UnbindVertical t v) (fun r s' =>
    match r with
    | Ok _ => platform s' = set_tenant_verticals (delete t (tenant_verticals (platform s))) (platform s)
    | Err _ => outside t (platform s) (platform s')
    end) s;
}.

#[global] Instance outside_equiv t : Equivalence (outside t).
Proof.
  unfold outside. split.
  - by intros d.
  - intros d d' (H1 & H2 & H3 & H4). split_and!; congruence.
  - intros d d' d'' (H1 & H2 & H3 & H4) (? & ? & ? & ?). split_and!; congruence.
Qed.

Lemma outside_deleted t d : outside t d (tenant_deleted t d).
Proof.
  unfold outside, tenant_deleted; simpl. split_and!; [|by apply map_filter_filter_l|done|done].
  apply map_eq. intros i. destruct (decide (i = t)) as [->|Hne]; [by rewrite !lookup_delete_eq|].
  by rewrite !lookup_delete_ne.
Qed.

(** Every user belongs to a tenant: the foreign key of the users table. *)
Definition users_have_tenants (d : Platform) : Prop :=
  forall i x, users d !! i = Some x -> is_Some (tenants d !! us_TenantID x).

Lemma other_tenants_all t d :
  users_have_tenants d -> tenants d !! t = None -> other_tenants t (users d) = users d.
Proof.
  intros Hfk Ht. apply map_filter_id. intros i x Hx He. apply Hfk in Hx as [y Hy].
  simpl in He. congruence.
Qed.

(** ** How far a saga got *)

Definition all_steps : list Step :=
  [StepCreateTenant; StepCreateUser; StepBindVertical; StepSeedChartOfAccounts;
   StepSeedBudgetTemplates; StepSeedExpenseCategories; StepOpenAccountingPeriod;
   StepPublishEvent; StepSendWelcomeEmail].

Definition tenant_for (req : RegisterRequest) (id : uuid) (t : TenantRow) : Prop :=
  tn_ID t = id /\ tn_Name t = rr_CompanyName req /\ tn_Plan t = rr_Plan req
  /\ tn_Status t = "active" /\ tn_CountryCode t = rr_Country req
  /\ tn_PrimaryCurrencyCode t = rr_PrimaryCurrency req.

Definition admin_for (req : RegisterRequest) (tenant id : uuid) (x : UserRow) : Prop :=
  us_ID x = id /\ us_TenantID x = tenant /\ us_Email x = rr_Email req /\ us_Status x = "active".

Definition binding_for (req : RegisterRequest) (tenant user : uuid) (b : TenantVerticalRow) : Prop :=
  tv_TenantID b = tenant /\ tv_VerticalID b = rr_VerticalID req /\ tv_RegisteredBy b = user.

Definition insert_opt {A} (i : uuid) (x : option A) (m : gmap uuid A) : gmap uuid A :=
  match x with Some x => <[i := x]> m | None => m end.

(** The platform [d] with the rows of a saga added. *)
Definition extended (d : Platform) (s : RegistrationSaga) (t : option TenantRow)
    (x : option UserRow) (b : option TenantVerticalRow) : Platform :=
  mkPlatform (insert_opt (sg_TenantID s) t (tenants d)) (insert_opt (sg_UserID s) x (users d))
    (insert_opt (sg_TenantID s) b (tenant_verticals d)) (vertical_definitions d).

Record rows_of (d : Platform) (s : RegistrationSaga) (t : option TenantRow) (x : option UserRow)
    (b : option TenantVerticalRow) : Prop := mkRowsOf {
  ro_tenant : forall r, t = Some r ->
    tenants d !! sg_TenantID s = None /\ tenant_verticals d !! sg_TenantID s = None
    /\ tenant_for (sg_Request s) (sg_TenantID s) r;
  ro_user : forall r, x = Some r ->
    users d !! sg_UserID s = None /\ admin_for (sg_Request s) (sg_TenantID s) (sg_UserID s) r;
  ro_binding : forall r, b = Some r ->
    binding_for (sg_Request s) (sg_TenantID s) (sg_UserID s) r;
}.

(** The first [k] steps are done, and the platform is [d] with their rows. *)
Definition progress (k : nat) (d : Platform) (s : RegistrationSaga) (d' : Platform) : Prop :=
  sg_CompletedSteps s = take k all_steps
  /\ exists t x b, d' = extended d s t x b /\ rows_of d s t x b
       /\ (is_Some t <-> 1 <= k)%nat /\ (is_Some x <-> 2 <= k)%nat /\ (is_Some b <-> 3 <= k)%nat.

(** How a saga that does not complete ends. *)
Definition rolled_back (d : Platform) (s : RegistrationSaga) (d' : Platform) : Prop :=
  sg_Status s = SagaCompensated /\ d' = d
  \/ sg_Status s = SagaCompensationFailed /\ sg_CompensationErrors s <> []
     /\ outside (sg_TenantID s) d d'.

Definition stopped (d : Platform) (s : RegistrationSaga) (d' : Platform) : Prop :=
  sg_Status s = SagaFailed /\ d' = d \/ rolled_back d s d'.

(** ** Rolling back *)

Section rollback.
Context {X : External} {Rest : Type} {P : Ports Rest} {L : PortLaws P}.
Variable u : nat -> uuid.

Lemma outside_delete_user t i d d' :
  outside t d d' -> users d !! i = None ->
  outside t d (set_users (delete i (users d')) d').
Proof.
  intros (H1 & H2 & H3 & H4) Hi. unfold outside; simpl. split_and!; [done| |done..].
  unfold other_tenants in *. rewrite map_filter_delete, H2. apply delete_id.
  apply map_lookup_filter_None_2. by left.
Qed.

Lemma outside_unbind t d d' :
  outside t d d' -> outside t d (set_tenant_verticals (delete t (tenant_verticals d')) d').
Proof.
  intros (H1 & H2 & H3 & H4). unfold outside; simpl. by rewrite delete_delete_eq.
Qed.

Lemma extended_outside d s t x b : rows_of d s t x b -> outside (sg_TenantID s) d (extended d s t x b).
Proof.
  intros [_ Hx _]. unfold outside, extended; simpl. split_and!; [| | |done].
  - destruct t; simpl; [apply delete_insert_eq|done].
  - destruct x as [r|]; simpl; [|done]. destruct (Hx r eq_refl) as (Hi & _ & Hr & _).
    unfold other_tenants. rewrite map_filter_insert_False; [|simpl; congruence].
    rewrite map_filter_delete. apply delete_id. apply map_lookup_filter_None_2. by left.
  - destruct b; simpl; [apply delete_insert_eq|done].
Qed.

(** What each compensating transaction gives back. *)
Lemma unbind_extended d s t x b :
  tenant_verticals d !! sg_TenantID s = None ->
  set_tenant_verticals (delete (sg_TenantID s) (tenant_verticals (extended d s t x b)))
    (extended d s t x b) = extended d s t x None.
Proof.
  intros Hn. unfold set_tenant_verticals, extended; simpl. f_equal.
  destruct b; simpl; [|by apply delete_id]. by apply delete_insert_id.
Qed.
Lemma delete_user_extended d s t x :
  users d !! sg_UserID s = None ->
  set_users (delete (sg_UserID s) (users (extended d s t x None))) (extended d s t x None)
  = extended d s t None None.
Proof.
  intros Hn. unfold set_users, extended; simpl. f_equal.
  destruct x; simpl; [|by apply delete_id]. by apply delete_insert_id.
Qed.
Lemma delete_tenant_extended d s t :
  users_have_tenants d -> tenants d !! sg_TenantID s = None ->
  tenant_deleted (sg_TenantID s) (extended d s t None None) = d.
Proof.
  intros Hfk Hn. unfold tenant_deleted, extended; simpl.
  rewrite (other_tenants_all _ d) by done. destruct d as [ts us tv vd]; simpl in *. f_equal.
  destruct t; simpl; [|by apply delete_id]. by apply delete_insert_id.
Qed.

(** While no transaction failed the platform is the one expected; after a
    failure only the saga's tenant is unaccounted for. *)
Definition undone (t : uuid) (d expected : Platform) (errs : list (string * error RErr))
    (d' : Platform) : Prop :=
  errs = [] /\ d' = expected \/ errs <> [] /\ outside t d d'.

Lemma wp_compensate {E} t d before after saga step name
    (call : M (Shared Rest) (error RErr) unit) errs (s : Shared Rest) :
  undone t d before errs (platform s) -> outside t d before ->
  (if stepCompleted saga step
   then wp u call (fun r s' =>
          match r with
          | Ok _ => (platform s = before -> platform s' = after)
                    /\ (outside t d (platform s) -> outside t d (platform s'))
          | Err _ => outside t (platform s) (platform s')
          end) s
   else after = before) ->
  wp u (compensate (E := E) saga step name call errs)
    (fun r s' => exists errs', r = Ok errs' /\ undone t d after errs' (platform s')) s.
Proof.
  intros Hun Hout Hcall. unfold compensate.
  destruct (stepCompleted saga step); [|wp_tac; rewrite Hcall; by eexists].
  wp_tac. eapply wp_mono; [exact Hcall|]. intros r s' Hr. wp_tac. eexists. split; [done|].
  destruct r as [[]|e].
  - destruct Hr as [H1 H2]. destruct Hun as [[-> He]|[Hne Ho]]; [left|right]; auto.
  - right. split; [by destruct errs|]. etrans; [|exact Hr]. by destruct Hun as [[_ ->]|[_ ?]].
Qed.

Lemma wp_persist {E} saga (Q : result E RegistrationSaga -> Shared Rest -> Prop) s :
  (forall now s', platform s' = platform s -> Q (Ok (set_updated now saga)) s') ->
  wp u (persist saga) Q s.
Proof.
  intros HQ. unfold persist. wp_tac. eapply wp_keeps; [apply update_keeps|]. intros r s' Hs.
  wp_tac. by apply HQ.
Qed.

Lemma wp_failSaga {E} saga step err (Q : result E RegistrationSaga -> Shared Rest -> Prop) s :
  (forall now now' s', platform s' = platform s ->
     Q (Ok (set_updated now (set_updated now'
              (set_failure step (Some err) (set_status SagaFailed saga))))) s') ->
  wp u (failSaga saga step err) Q s.
Proof. intros HQ. unfold failSaga. wp_tac. apply wp_persist. intros now s' Hs. by apply HQ. Qed.

Lemma undone_result t d saga errs now now' s' :
  undone t d d errs s' -> t = sg_TenantID saga ->
  rolled_back d
    (set_updated now (set_updated now'
       (if decide (errs = []) then set_status SagaCompensated saga
        else set_compensation_errors errs (set_status SagaCompensationFailed saga)))) s'.
Proof.
  intros [[-> ->]|[Hne Ho]] ->; [by left|right]. rewrite decide_False by done. by split_and!.
Qed.

(** A step of the list is completed when it is among the first [k]. *)
Lemma all_steps_NoDup : NoDup all_steps.
Proof. by apply (bool_decide_unpack _). Qed.
Lemma stepCompleted_at k s n st :
  sg_CompletedSteps s = take k all_steps -> all_steps !! n = Some st ->
  stepCompleted s st = bool_decide (S n <= k)%nat.
Proof.
  intros Hs Hn. unfold stepCompleted. apply bool_decide_ext. rewrite Hs, elem_of_take. split.
  - intros (i & Hi & Hlt). rewrite <- (NoDup_lookup all_steps i n st all_steps_NoDup Hi Hn). lia.
  - intros Hlt. by exists n.
Qed.

(** The three transactions in the code's order, on a saga that failed. *)
Lemma wp_failAndCompensate {E} k d saga step err (s : Shared Rest) :
  users_have_tenants d -> progress k d saga (platform s) ->
  wp u (failAndCompensate (E := E) saga step err)
    (fun r s' => exists saga', r = Ok saga' /\ rolled_back d saga' (platform s')) s.
Proof.
  intros Hfk (Hsteps & t & x & b & Hd & Hrows & Ht & Hx & Hb).
  pose proof (fun n st => stepCompleted_at k saga n st Hsteps) as Hc.
  assert (Hrows2 : rows_of d saga t x None) by (destruct Hrows; by constructor).
  assert (Hrows1 : rows_of d saga t None None) by (destruct Hrows; by constructor).
  assert (Hnt : (1 <= k)%nat -> tenants d !! sg_TenantID saga = None
                                 /\ tenant_verticals d !! sg_TenantID saga = None).
  { intros [r Hr]%Ht. by destruct (ro_tenant _ _ _ _ _ Hrows r Hr) as (? & ? & _). }
  assert (Hnu : (2 <= k)%nat -> users d !! sg_UserID saga = None).
  { intros [r Hr]%Hx. by destruct (ro_user _ _ _ _ _ Hrows r Hr) as (? & _). }
  rewrite <- !not_eq_None_Some in *.
  unfold failAndCompensate. wp_tac. apply wp_failSaga. intros n1 n2 s1 Hs1.
  wp_tac. apply wp_persist. intros n3 s2 Hs2.
  set (saga2 := set_updated n3 _).
  change (sg_TenantID saga2) with (sg_TenantID saga). change (sg_UserID saga2) with (sg_UserID saga).
  wp_tac. eapply wp_mono.
  { apply (wp_compensate (sg_TenantID saga) d (extended d saga t x b) (extended d saga t x None));
      [left; split; [done|congruence]|by apply extended_outside|].
    change (stepCompleted saga2) with (stepCompleted saga). rewrite (Hc 2%nat) by done.
    case_bool_decide as Hk; [|by destruct b; [destruct Hk; apply Hb|]].
    eapply wp_mono; [apply unbind_law|]. intros [[]|e] s' Hs'; [|done].
    rewrite Hs'. split; [intros ->; apply unbind_extended, Hnt; lia|by apply outside_unbind]. }
  intros r s3 (errs1 & -> & Hun1). wp_tac. eapply wp_mono.
  { eapply (wp_compensate _ d _ (extended d saga t None None)); [exact Hun1|by apply extended_outside|].
    change (stepCompleted saga2) with (stepCompleted saga). rewrite (Hc 1%nat) by done.
    case_bool_decide as Hk; [|by destruct x; [destruct Hk; apply Hx|]].
    eapply wp_mono; [apply delete_user_law|]. intros [[]|e] s' Hs'; [|done].
    rewrite Hs'. split; [intros ->; by apply delete_user_extended, Hnu|].
    intros Ho. by apply outside_delete_user; [|apply Hnu]. }
  intros r s4 (errs2 & -> & Hun2). wp_tac. eapply wp_mono.
  { eapply (wp_compensate _ d _ d); [exact Hun2|by apply extended_outside|].
    change (stepCompleted saga2) with (stepCompleted saga). rewrite (Hc 0%nat) by done.
    case_bool_decide as Hk; [|destruct t; [destruct Hk; by apply Ht|by destruct d]].
    eapply wp_mono; [apply delete_tenant_law|]. intros [[]|e] s' Hs'; [|done].
    rewrite Hs'. split; [intros ->; apply delete_tenant_extended; [done|by apply Hnt]|].
    intros Ho. etrans; [exact Ho|apply outside_deleted]. }
  intros r s5 (errs3 & -> & Hun3). wp_tac. apply wp_persist. intros n5 s6 Hs6.
  eexists. split; [done|]. eapply undone_result; [by rewrite Hs6|done].
Qed.

(** ** Going forward *)

(** The part of a saga that decides how far it got. *)
Definition core (s : RegistrationSaga) : uuid * uuid * RegisterRequest * list Step :=
  (sg_TenantID s, sg_UserID s, sg_Request s, sg_CompletedSteps s).

Lemma progress_core k d s s' d' : core s = core s' -> progress k d s d' -> progress k d s' d'.
Proof.
  intros [= Ht Hu Hr Hs] (Hsteps & t & x & b & He & [H1 H2 H3] & Hk).
  split; [congruence|]. exists t, x, b. unfold extended in *. rewrite <- Ht, <- Hu.
  split; [done|]. split; [|done]. constructor; rewrite <- Ht, <- ?Hu, <- Hr; auto.
Qed.

(** What a step leaves when [k] steps are done after it. *)
Definition after_step (d : Platform) (req : RegisterRequest) (k : nat)
    (r : result (option RegistrationSaga * error RErr) RegistrationSaga) (s' : Shared Rest) : Prop :=
  match r with
  | Ok saga => progress k d saga (platform s') /\ sg_Request saga = req
  | Err (Some saga, _) => stopped d saga (platform s')
  | Err (None, _) => False
  end.

Lemma wp_or_compensate {A} k d saga step text (call : M (Shared Rest) (error RErr) A)
    (Q : result _ A -> Shared Rest -> Prop) (s : Shared Rest) :
  users_have_tenants d -> progress k d saga (platform s) ->
  wp u call (fun r s' =>
    match r with Ok a => Q (Ok a) s' | Err _ => platform s' = platform s end) s ->
  (forall saga' e s', rolled_back d saga' (platform s') -> Q (Err (Some saga', e)) s') ->
  wp u (or_compensate saga step text call) Q s.
Proof.
  intros Hfk Hp Hcall HQ. unfold or_compensate. wp_tac. eapply wp_mono; [exact Hcall|].
  intros [a|e] s1 Hs1; wp_tac; [done|]. unfold fail_compensate. wp_tac. eapply wp_mono.
  { eapply (wp_failAndCompensate k); [done|]. by rewrite Hs1. }
  intros r s2 (saga' & -> & Hrb). wp_tac. by apply HQ.
Qed.

(** A step done for the first time. *)
Lemma wp_saga_step k d req saga step call (s : Shared Rest) :
  all_steps !! k = Some step -> sg_CompletedSteps saga = take k all_steps ->
  wp u call (fun r s' =>
    match r with
    | Ok saga' => sg_CompletedSteps saga' = take k all_steps
        /\ after_step d req (S k) (Ok (set_steps (take (S k) all_steps) saga')) s'
    | Err e => after_step d req (S k) (Err e) s'
    end) s ->
  wp u (saga_step (P := P) step saga call) (after_step d req (S k)) s.
Proof.
  intros Hst Hsteps Hcall. unfold saga_step.
  rewrite (stepCompleted_at k saga k step) by done. rewrite bool_decide_eq_false_2 by lia.
  wp_tac. eapply wp_mono; [exact Hcall|]. intros [saga'|e] s' Hs'; [|exact Hs'].
  destruct Hs' as [Hsteps' [Hp Hreq]]. unfold completed_step. apply wp_persist. intros now s'' Hs''.
  unfold markStepCompleted. rewrite (stepCompleted_at k saga' k step) by done.
  rewrite bool_decide_eq_false_2 by lia. rewrite Hsteps', <- (take_S_r _ _ _ Hst).
  split; [|done]. rewrite Hs''. by eapply progress_core; [|exact Hp].
Qed.

(** Steps 4 to 9 leave the platform tables alone. *)
Lemma progress_more k d saga d' :
  (3 <= k)%nat -> progress k d saga d' ->
  progress (S k) d (set_steps (take (S k) all_steps) saga) d'.
Proof.
  intros Hk (_ & t & x & b & Hd & [H1 H2 H3] & Ht & Hx & Hb). split; [done|].
  exists t, x, b. split; [exact Hd|]. split; [by constructor|]. rewrite Ht, Hx, Hb. lia.
Qed.

Lemma wp_critical k d saga step text call (s : Shared Rest) :
  users_have_tenants d -> all_steps !! k = Some step -> (3 <= k)%nat ->
  progress k d saga (platform s) -> (forall x, keeps u platform (call x)) ->
  wp u (critical (P := P) step text call saga) (after_step d (sg_Request saga) (S k)) s.
Proof.
  intros Hfk Hst Hk Hp Hcall. unfold critical. apply wp_saga_step; [done|apply Hp|].
  wp_tac. eapply wp_or_compensate; [done|exact Hp| |by right].
  apply (wp_keeps u platform); [apply Hcall|]. intros [[]|e] s' Hs'; [|done].
  wp_tac. split; [apply Hp|]. split; [|done]. apply progress_more; [done|]. by rewrite Hs'.
Qed.

Lemma wp_best_effort_step k d saga step call (s : Shared Rest) :
  all_steps !! k = Some step -> (3 <= k)%nat ->
  progress k d saga (platform s) -> (forall x, keeps u platform (call x)) ->
  wp u (best_effort_step (P := P) step call saga) (after_step d (sg_Request saga) (S k)) s.
Proof.
  intros Hst Hk Hp Hcall. unfold best_effort_step. apply wp_saga_step; [done|apply Hp|].
  wp_tac. apply (wp_keeps u platform); [apply Hcall|]. intros r s' Hs'. wp_tac.
  split; [apply Hp|]. split; [|done]. apply progress_more; [done|]. by rewrite Hs'.
Qed.

(** ** The store *)

Variable name_key : string -> string.

Lemma CreateTenant_Ok id now name slug plan country cur d t d' :
  RegistrationQueries.CreateTenant name_key id now name slug plan country cur d = Ok (t, d') ->
  tenants d !! id = None /\ d' = set_tenants (<[id := t]> (tenants d)) d
  /\ tn_ID t = id /\ tn_Name t = name /\ tn_Plan t = plan /\ tn_Status t = "active"
  /\ tn_CountryCode t = country /\ tn_PrimaryCurrencyCode t = cur.
Proof.
  unfold RegistrationQueries.CreateTenant. destruct (_ || _ || _); [done|].
  case_bool_decide as Hid; [done|]. destruct (exists_row _ _); [done|].
  destruct (exists_row _ _); [done|]. intros [= <- <-].
  split; [by apply eq_None_not_Some|]. by split_and!.
Qed.

Lemma CreateUser_Ok id now tenant email name hash d x d' :
  RegistrationQueries.CreateUser id now tenant email name hash d = Ok (x, d') ->
  users d !! id = None /\ d' = set_users (<[id := x]> (users d)) d
  /\ us_ID x = id /\ us_TenantID x = tenant /\ us_Email x = email /\ us_Status x = "active".
Proof.
  unfold RegistrationQueries.CreateUser. case_bool_decide as Hid; [done|].
  destruct (exists_row _ _); [done|]. destruct (negb _); [done|]. intros [= <- <-].
  split; [by apply eq_None_not_Some|]. by split_and!.
Qed.

Lemma BindTenantVertical_Ok now tenant v user d r d' :
  RegistrationQueries.BindTenantVertical now tenant v None user d = Ok (r, d') ->
  tenant_verticals d !! tenant = None ->
  d' = set_tenant_verticals (<[tenant := mkTenantVerticalRow tenant v None now user]>
                               (tenant_verticals d)) d.
Proof.
  unfold RegistrationQueries.BindTenantVertical. intros Hq Hn. revert Hq.
  rewrite Hn, bool_decide_eq_false_2 by by intros [? [=]].
  destruct (negb _); [done|]. by intros [= _ <-].
Qed.

Lemma read_keeps {A} (q : Platform -> result pg_error A) :
  keeps u platform (RegistrationStore.read (Rest := Rest) q).
Proof. intros s. by apply wp_query. Qed.

Lemma read_err_keeps {A} (f : pg_error -> error RErr) (q : Platform -> result pg_error A) :
  keeps u platform (map_err f (RegistrationStore.read (Rest := Rest) q)).
Proof. intros s. apply wp_map_err, read_keeps. Qed.
Lemma slug_exists_keeps slug :
  keeps u platform (RegistrationStore.TenantExistsBySlug (Rest := Rest) slug).
Proof. apply read_err_keeps. Qed.
Lemma name_exists_keeps name :
  keeps u platform (RegistrationStore.TenantExistsByNormalizedName (Rest := Rest) name_key name).
Proof. apply read_err_keeps. Qed.
Lemma get_vertical_keeps id :
  keeps u platform (RegistrationStore.GetVerticalDefinition (Rest := Rest) id).
Proof.
  intros s. unfold RegistrationStore.GetVerticalDefinition. wp_tac.
  eapply wp_keeps; [apply read_keeps|]. intros [v|e] s' Hs'; [by wp_tac|done].
Qed.

Lemma wp_store_CreateTenant name slug plan country cur
    (Q : result (error RErr) uuid -> Shared Rest -> Prop) s :
  (forall e, Q (Err e) s) ->
  (forall n now t d',
     RegistrationQueries.CreateTenant name_key (u n) now name slug plan country cur (platform s)
     = Ok (t, d') -> Q (Ok (tn_ID t)) (mkShared d' (rest s))) ->
  wp u (RegistrationStore.CreateTenant name_key name slug plan country cur) Q s.
Proof.
  intros Herr Hok. unfold RegistrationStore.CreateTenant. wp_tac. apply wp_tx; [apply Herr|].
  unfold RegistrationStore.on_platform.
  destruct (RegistrationQueries.CreateTenant _ _ _ _ _ _ _ _ _) as [[t' d']|e] eqn:Hq; [|apply Herr].
  wp_tac. by eapply Hok.
Qed.

Lemma wp_store_CreateUser tenant email name hash
    (Q : result (error RErr) uuid -> Shared Rest -> Prop) s :
  (forall e, Q (Err e) s) ->
  (forall n now x d',
     RegistrationQueries.CreateUser (u n) now tenant email name hash (platform s) = Ok (x, d') ->
     Q (Ok (us_ID x)) (mkShared d' (rest s))) ->
  wp u (RegistrationStore.CreateUser tenant email name hash) Q s.
Proof.
  intros Herr Hok. unfold RegistrationStore.CreateUser. wp_tac. apply wp_tx; [apply Herr|].
  unfold RegistrationStore.on_platform.
  destruct (RegistrationQueries.CreateUser _ _ _ _ _ _ _) as [[x d']|e] eqn:Hq; [|apply Herr].
  wp_tac. by eapply Hok.
Qed.

Lemma wp_store_Bind tenant v user (Q : result (error RErr) unit -> Shared Rest -> Prop) s :
  (forall e, Q (Err e) s) ->
  (forall now d',
     RegistrationQueries.BindTenantVertical now tenant v None user (platform s) = Ok (tt, d') ->
     Q (Ok tt) (mkShared d' (rest s))) ->
  wp u (RegistrationStore.BindTenantVertical tenant v user) Q s.
Proof.
  intros Herr Hok. unfold RegistrationStore.BindTenantVertical. wp_tac. apply wp_tx; [apply Herr|].
  unfold RegistrationStore.on_platform.
  destruct (RegistrationQueries.BindTenantVertical _ _ _ _ _ _) as [[[] d']|e] eqn:Hq; [|apply Herr].
  by eapply Hok.
Qed.

(** ** The first three steps *)

(** No binding is left over for a tenant that does not exist yet. *)
Definition fresh_ids (d : Platform) : Prop := forall n, tenant_verticals d !! u n = None.

Lemma progress_0 d s d' : progress 0 d s d' -> d' = d.
Proof.
  intros (_ & t & x & b & -> & _ & Ht & Hx & Hb).
  rewrite (proj2 (eq_None_not_Some t)) by (rewrite Ht; lia).
  rewrite (proj2 (eq_None_not_Some x)) by (rewrite Hx; lia).
  rewrite (proj2 (eq_None_not_Some b)) by (rewrite Hb; lia). by destruct d.
Qed.

Lemma progress_start d s : sg_CompletedSteps s = [] -> progress 0 d s d.
Proof.
  intros Hs. split; [done|]. exists None, None, None. split; [by destruct d|].
  split; [by constructor|]. rewrite !is_Some_alt. lia.
Qed.

Lemma wp_fail {A} saga step e (Q : result _ A -> Shared Rest -> Prop) (s : Shared Rest) :
  (forall saga' s', sg_Status saga' = SagaFailed -> platform s' = platform s ->
     Q (Err (Some saga', e)) s') ->
  wp u (fail saga step e) Q s.
Proof. intros HQ. unfold fail. wp_tac. apply wp_failSaga. intros. wp_tac. by apply HQ. Qed.

Lemma wp_step_1 d saga (s : Shared Rest) :
  fresh_ids d -> progress 0 d saga (platform s) ->
  wp u (saga_step StepCreateTenant saga (create_tenant name_key saga))
    (after_step d (sg_Request saga) 1) s.
Proof.
  intros Hfresh Hp. pose proof (progress_0 _ _ _ Hp) as Hd.
  apply (wp_saga_step 0); [done|apply Hp|].
  assert (Hfail : forall A step e (s1 : Shared Rest), platform s1 = platform s ->
    wp u (fail (A := A) saga step e) (fun r s' =>
      match r with Ok _ => False | Err e => after_step d (sg_Request saga) 1 (Err e) s' end) s1).
  { intros A step e s1 Hs1. apply wp_fail. intros saga' s' Hst Hs'. left. split; [done|congruence]. }
  unfold create_tenant. wp_tac. eapply wp_keeps; [apply slug_exists_keeps|]. intros slug s1 Hs1.
  wp_tac. eapply wp_keeps; [apply name_exists_keeps|]. intros taken s2 Hs2.
  destruct taken as [[]|e]; try by (eapply wp_mono; [apply Hfail; congruence|by intros []]).
  wp_tac. apply wp_store_CreateTenant.
  { intros e. wp_tac. eapply wp_mono; [apply Hfail; congruence|by intros []]. }
  intros n now t d' (Hn & -> & Hid & Hname & Hplan & Hst & Hco & Hcu)%CreateTenant_Ok. wp_tac.
  split; [by apply Hp|]. split; [|done]. split; [done|].
  assert (Hdd : platform s2 = d) by congruence. rewrite Hdd in *.
  exists (Some t), None, None. simpl. rewrite Hid.
  split; [by unfold extended; simpl; destruct d|]. split; [|rewrite !is_Some_alt; lia].
  constructor; [|done..]. intros r [= <-]. simpl. split_and!; [done|apply Hfresh|].
  by split_and!.
Qed.

Lemma wp_step_2 d saga (s : Shared Rest) :
  users_have_tenants d -> progress 1 d saga (platform s) ->
  wp u (saga_step StepCreateUser saga (create_user saga)) (after_step d (sg_Request saga) 2) s.
Proof.
  intros Hfk Hp. apply (wp_saga_step 1); [done|apply Hp|]. unfold create_user. wp_tac.
  eapply wp_or_compensate; [done|exact Hp| |by right].
  apply (wp_keeps u platform); [apply hash_keeps|]. intros [hash|e] s1 Hs1; [|done].
  wp_tac. eapply wp_or_compensate; [done|by rewrite Hs1| |by right].
  apply wp_store_CreateUser; [done|].
  intros n now x d' (Hn & -> & Hid & Hten & Hmail & Hst)%CreateUser_Ok. wp_tac.
  split; [apply Hp|]. split; [|done]. split; [done|].
  destruct Hp as (_ & t & x' & b & Hd & Hrows & Ht & Hx & Hb).
  assert (x' = None) as -> by (apply eq_None_not_Some; rewrite Hx; lia).
  assert (b = None) as -> by (apply eq_None_not_Some; rewrite Hb; lia).
  exists t, (Some x), None. rewrite Hs1, Hd in *. simpl in *. rewrite Hid.
  split; [done|]. split; [|rewrite Ht, !is_Some_alt; lia].
  constructor; simpl; [apply (ro_tenant _ _ _ _ _ Hrows)| |done].
  intros r [= <-]. by split_and!.
Qed.

Lemma wp_step_3 d saga (s : Shared Rest) :
  users_have_tenants d -> progress 2 d saga (platform s) ->
  wp u (critical (P := P) StepBindVertical "step 3 bind vertical: %w"
          (fun s => RegistrationStore.BindTenantVertical (sg_TenantID s)
                      (rr_VerticalID (sg_Request saga)) (sg_UserID s)) saga)
    (after_step d (sg_Request saga) 3) s.
Proof.
  intros Hfk Hp. unfold critical. apply (wp_saga_step 2); [done|apply Hp|]. wp_tac.
  eapply wp_or_compensate; [done|exact Hp| |by right].
  destruct Hp as (Hsteps & t & x & b & Hd & Hrows & Ht & Hx & Hb).
  assert (b = None) as -> by (apply eq_None_not_Some; rewrite Hb; lia).
  assert (is_Some t) as [r Hr] by (rewrite Ht; lia).
  destruct (ro_tenant _ _ _ _ _ Hrows r Hr) as (Hn & Hnv & _).
  apply wp_store_Bind; [done|]. intros now d' Hq.
  apply BindTenantVertical_Ok in Hq; [|by rewrite Hd]. subst d'. wp_tac.
  split; [done|]. split; [|done]. split; [done|].
  exists t, x, (Some (mkTenantVerticalRow (sg_TenantID saga) (rr_VerticalID (sg_Request saga)) None now
                        (sg_UserID saga))).
  simpl. rewrite Hd. split; [done|]. split; [|rewrite Ht, Hx, !is_Some_alt; lia].
  constructor; simpl; [apply (ro_tenant _ _ _ _ _ Hrows)|apply (ro_user _ _ _ _ _ Hrows)|].
  intros r' [= <-]. by split_and!.
Qed.

(** ** The whole saga *)

Variable unmarshal : string -> option Config.

Lemma load_keeps v : keeps u platform (loadVerticalConfig (Rest := Rest) unmarshal v).
Proof.
  intros s. unfold loadVerticalConfig. wp_tac. eapply wp_keeps; [apply get_vertical_keeps|].
  intros [vd|e] s' Hs'; [|done]. destruct (negb _); [by wp_tac|].
  destruct (unmarshal _); by wp_tac.
Qed.

(** Runs the steps one after the other; an error ends the saga. *)
Lemma wp_after {A} d req k (m : M (Shared Rest) _ RegistrationSaga) (f : RegistrationSaga -> M _ _ A)
    (Q : result (option RegistrationSaga * error RErr) A -> Shared Rest -> Prop) s :
  wp u m (after_step d req k) s ->
  (forall saga s', progress k d saga (platform s') -> sg_Request saga = req -> wp u (f saga) Q s') ->
  (forall saga e s', stopped d saga (platform s') -> Q (Err (Some saga, e)) s') ->
  wp u (m ≫= f) Q s.
Proof.
  intros Hm Hf HQ. apply wp_bind. eapply wp_mono; [exact Hm|].
  intros [saga|[[saga|] e]] s' Hs'; [|by apply HQ|done]. destruct Hs' as [Hp Hreq]. by apply Hf.
Qed.

(** How a run that starts with no step done may end. *)
Definition saga_outcome (d : Platform)
    (r : result (option RegistrationSaga * error RErr) RegistrationSaga) (d' : Platform) : Prop :=
  match r with
  | Ok saga => sg_Status saga = SagaCompleted /\ progress 9 d saga d'
  | Err (Some saga, _) => stopped d saga d'
  | Err (None, _) => False
  end.

Lemma wp_saga_run saga (s : Shared Rest) :
  users_have_tenants (platform s) -> fresh_ids (platform s) -> sg_CompletedSteps saga = [] ->
  wp u (run name_key unmarshal saga) (fun r s' => saga_outcome (platform s) r (platform s')) s.
Proof.
  intros Hfk Hfresh Hsteps. set (d := platform s) in *. unfold run. wp_tac.
  eapply wp_keeps; [apply load_keeps|]. intros [[vd cfg]|e] s1 Hs1.
  2: { apply wp_fail. intros saga' s' Hst Hs'. left. split; [done|]. by rewrite Hs'. }
  assert (Hend : forall saga' (e : error RErr) (s' : Shared Rest), stopped d saga' (platform s') ->
            saga_outcome d (Err (Some saga', e)) (platform s')) by done.
  assert (Hp0 : progress 0 d saga (platform s1)) by (rewrite Hs1; by apply progress_start).
  eapply wp_after; [by eapply wp_step_1; [exact Hfresh|exact Hp0]| |exact Hend]. intros saga1 s2 Hp1 Hr1.
  rewrite <- Hr1.
  eapply wp_after; [by eapply wp_step_2; [exact Hfk|exact Hp1]| |exact Hend]. intros saga2 s3 Hp2 Hr2.
  rewrite <- Hr2.
  eapply wp_after; [by eapply wp_step_3; [exact Hfk|exact Hp2]| |exact Hend]. intros saga3 s4 Hp3 Hr3.
  eapply wp_after; [eapply (wp_critical 3); [done|done|lia|exact Hp3|intros; apply seed_accounts_keeps]| |exact Hend].
  intros saga4 s5 Hp4 Hr4.
  eapply wp_after; [eapply (wp_critical 4); [done|done|lia|exact Hp4|intros; apply seed_budgets_keeps]| |exact Hend].
  intros saga5 s6 Hp5 Hr5.
  eapply wp_after; [eapply (wp_critical 5); [done|done|lia|exact Hp5|intros; apply seed_expenses_keeps]| |exact Hend].
  intros saga6 s7 Hp6 Hr6.
  eapply wp_after; [eapply (wp_critical 6); [done|done|lia|exact Hp6|]| |exact Hend].
  { intros x sx. wp_tac. apply open_period_keeps. }
  intros saga7 s8 Hp7 Hr7.
  eapply wp_after; [eapply (wp_best_effort_step 7); [done|lia|exact Hp7|]| |exact Hend].
  { intros x sx. wp_tac. apply publish_keeps. }
  intros saga8 s9 Hp8 Hr8.
  eapply wp_after; [eapply (wp_best_effort_step 8); [done|lia|exact Hp8|intros; apply email_keeps]| |exact Hend].
  intros saga9 s10 Hp9 Hr9. wp_tac. apply wp_persist. intros now s' Hs'.
  split; [done|]. rewrite Hs'. by eapply progress_core; [|exact Hp9].
Qed.

(** ** Starting a saga *)

(** The platform [d] with exactly the tenant of a completed saga, its
    administrator and its vertical binding added. *)
Definition registered (d : Platform) (s : RegistrationSaga) (d' : Platform) : Prop :=
  let req := sg_Request s in
  sg_CompletedSteps s = all_steps
  /\ tenants d !! sg_TenantID s = None /\ users d !! sg_UserID s = None
  /\ exists t x b,
       tenant_for req (sg_TenantID s) t
       /\ admin_for req (sg_TenantID s) (sg_UserID s) x
       /\ binding_for req (sg_TenantID s) (sg_UserID s) b
       /\ d' = mkPlatform (<[sg_TenantID s := t]> (tenants d)) (<[sg_UserID s := x]> (users d))
                (<[sg_TenantID s := b]> (tenant_verticals d)) (vertical_definitions d).

Lemma progress_registered d s d' : progress 9 d s d' -> registered d s d'.
Proof.
  intros (Hs & t & x & b & -> & [H1 H2 H3] & Ht & Hx & Hb).
  assert (is_Some t) as [rt ->] by (apply Ht; lia). assert (is_Some x) as [rx ->] by (apply Hx; lia).
  assert (is_Some b) as [rb ->] by (apply Hb; lia).
  destruct (H1 rt eq_refl) as (? & _ & ?). destruct (H2 rx eq_refl).
  unfold registered. split_and!; [done..|]. exists rt, rx, rb. split_and!; [done..|by apply H3|done].
Qed.

(** How [Start] may end. *)
Definition start_outcome (d : Platform)
    (r : result (option RegistrationSaga * error RErr) RegistrationSaga) (d' : Platform) : Prop :=
  match r with
  | Ok s => sg_Status s = SagaCompleted /\ (d' = d \/ registered d s d')
  | Err (None, _) => d' = d
  | Err (Some s, _) => (sg_Status s = SagaInProgress \/ sg_Status s = SagaFailed) /\ d' = d
                       \/ rolled_back d s d'
  end.

Lemma wp_Start request (s : Shared Rest) :
  users_have_tenants (platform s) -> fresh_ids (platform s) ->
  wp u (Start name_key unmarshal request)
    (fun r s' => start_outcome (platform s) r (platform s')) s.
Proof.
  intros Hfk Hfresh. unfold Start. destruct (Validate request) as [req|e]; [|by wp_tac].
  wp_tac. eapply wp_keeps; [apply get_email_keeps|]. intros existing s1 Hs1.
  assert (Hnew : wp u (start_new name_key unmarshal req)
                   (fun r s' => start_outcome (platform s) r (platform s')) s1).
  { unfold start_new. wp_tac. eapply wp_keeps; [apply create_keeps|].
    intros [[]|e] s2 Hs2; [|simpl; congruence]. eapply wp_mono; [apply wp_saga_run|].
    - by rewrite Hs2, Hs1.
    - by rewrite Hs2, Hs1.
    - done.
    - rewrite Hs2, Hs1. intros [saga|[[saga|] e]] s3 Hs3; [| |done]; simpl in *.
      + destruct Hs3 as [Hst Hp]. split; [done|]. right. by apply progress_registered.
      + destruct Hs3 as [[]|]; auto. }
  destruct existing as [saga|e]; [|exact Hnew].
  destruct (sg_Status saga) eqn:Hst; try exact Hnew; wp_tac; simpl; auto 10.
Qed.

End rollback.

(** C12: A registration is all or nothing.  However its calls fail, a [Start]
    that runs alone over ports that keep their promises either returns a
    completed saga, and then the platform is as before (the saga existed already)
    or has exactly one more tenant, its administrator and its vertical binding, as
    the request asked; or returns an error, and then the platform is as before,
    unless a compensating transaction failed as well: the saga then is marked
    [SagaCompensationFailed] with the errors, and nothing outside its own tenant
    has changed. *)
Theorem registration_all_or_nothing {X : External} {Rest : Type} {P : Ports Rest} {L : PortLaws P}
    (name_key : string -> string) (unmarshal : string -> option Config)
    (request : RegisterRequest) (u : nat -> uuid) (w : World (Shared Rest)) :
  alone u w -> users_have_tenants (platform (w_st w)) -> fresh_ids u (platform (w_st w)) ->
  let d := platform (w_st w) in
  let '(r, w') := Start name_key unmarshal request w in
  let d' := platform (w_st w') in
  match r with
  | Ok s => sg_Status s = SagaCompleted /\ (d' = d \/ registered d s d')
  | Err (None, _) => d' = d
  | Err (Some s, _) =>
    (sg_Status s = SagaInProgress \/ sg_Status s = SagaFailed) /\ d' = d
    \/ sg_Status s = SagaCompensated /\ d' = d
    \/ sg_Status s = SagaCompensationFailed /\ sg_CompensationErrors s <> []
       /\ outside (sg_TenantID s) d d'
  end.
Proof.
  intros Ha Hfk Hfresh. destruct (Start name_key unmarshal request w) as [r w'] eqn:Hw.
  by destruct (wp_run u _ _ _ _ _ (wp_Start u name_key unmarshal request _ Hfk Hfresh) Ha Hw).
Qed.
