(* ===== verification/RegistrationPipeline.v ===== *)
(** Tenant registration: the slugs of slug.go are URL-safe; what a failed
    run of the pipeline leaves blocks its retries; ports in memory that satisfy the
    laws of the ports, and a lost update of the saga store. *)

From S2P Require Export RegistrationModel RegistrationProps.
Local Open Scope Z_scope.

Definition starts_with_dash (s : string) : bool :=
  match s with String c _ => is_dash c | EmptyString => false end.
Fixpoint ends_with_dash (s : string) : bool :=
  match s with
  | EmptyString => false
  | String c EmptyString => is_dash c
  | String _ s' => ends_with_dash s'
  end.
Fixpoint double_dash (s : string) : bool :=
  match s with
  | String c s' => is_dash c && starts_with_dash s' || double_dash s'
  | EmptyString => false
  end.

Lemma filter_all p s : string_forallb p (string_filter p s) = true.
Proof. induction s as [|c s IH]; simpl; [done|]. destruct (p c) eqn:Hc; simpl; [by rewrite Hc|done]. Qed.

(** Collapsing runs of dashes. *)
Lemma collapse_all p s : string_forallb p s = true -> string_forallb p (collapse_dashes s) = true.
Proof.
  induction s as [|c s IH]; [done|]. intros [Hc Hs]%andb_true_iff.
  destruct s as [|c' s']; [by simpl; rewrite Hc|].
  change (string_forallb p (if is_dash c && is_dash c' then collapse_dashes (String c' s')
                            else String c (collapse_dashes (String c' s'))) = true).
  destruct (is_dash c && is_dash c'); [by apply IH|]. cbn [string_forallb]. by rewrite Hc, IH.
Qed.
Lemma collapse_start s : starts_with_dash (collapse_dashes s) = starts_with_dash s.
Proof.
  induction s as [|c s IH]; [done|]. destruct s as [|c' s']; [done|].
  change (starts_with_dash (if is_dash c && is_dash c' then collapse_dashes (String c' s')
                            else String c (collapse_dashes (String c' s'))) = is_dash c).
  destruct (is_dash c) eqn:Hc; cbn [andb]; [|exact Hc].
  destruct (is_dash c') eqn:Hc'; cbn [andb]; [|exact Hc]. rewrite IH. exact Hc'.
Qed.
Lemma collapse_double s : double_dash (collapse_dashes s) = false.
Proof.
  induction s as [|c s IH]; [done|]. destruct s as [|c' s']; [by simpl; rewrite andb_false_r|].
  change (double_dash (if is_dash c && is_dash c' then collapse_dashes (String c' s')
                       else String c (collapse_dashes (String c' s'))) = false).
  destruct (is_dash c && is_dash c') eqn:Hcc; [done|].
  cbn [double_dash]. by rewrite collapse_start, IH, orb_false_r.
Qed.

(** Trimming keeps what the other steps established. *)
Lemma trim_left_all p s : string_forallb p s = true -> string_forallb p (trim_left_dashes s) = true.
Proof.
  induction s as [|c s IH]; [done|]. intros H. simpl. destruct (is_dash c); [|done].
  apply IH. by apply andb_true_iff in H as [_ H].
Qed.
Lemma trim_left_start s : starts_with_dash (trim_left_dashes s) = false.
Proof. induction s as [|c s IH]; simpl; [done|]. by destruct (is_dash c) eqn:Hc. Qed.
Lemma trim_left_double s : double_dash s = false -> double_dash (trim_left_dashes s) = false.
Proof.
  induction s as [|c s IH]; [done|]. intros H. simpl. destruct (is_dash c); [|done].
  apply IH. by apply orb_false_iff in H as [_ H].
Qed.

Lemma trim_right_cons c s :
  trim_right_dashes (String c s) =
  if bool_decide (trim_right_dashes s = "")
  then (if is_dash c then "" else String c "") else String c (trim_right_dashes s).
Proof. simpl. by destruct (trim_right_dashes s). Qed.
Lemma trim_right_all p s : string_forallb p s = true -> string_forallb p (trim_right_dashes s) = true.
Proof.
  induction s as [|c s IH]; [done|]. intros [Hc Hs]%andb_true_iff. rewrite trim_right_cons.
  case_bool_decide; [destruct (is_dash c); [done|]; simpl; by rewrite Hc|].
  cbn [string_forallb]. by rewrite Hc, IH.
Qed.
Lemma trim_right_start s : starts_with_dash s = false -> starts_with_dash (trim_right_dashes s) = false.
Proof.
  destruct s as [|c s]; [done|]. intros Hc. rewrite trim_right_cons. cbn [starts_with_dash] in Hc.
  case_bool_decide; by rewrite ?Hc.
Qed.
Lemma trim_right_starts s : starts_with_dash (trim_right_dashes s) = true -> starts_with_dash s = true.
Proof.
  destruct s as [|c s]; [done|]. rewrite trim_right_cons. case_bool_decide; [|done].
  by destruct (is_dash c) eqn:Hc; cbn.
Qed.
Lemma trim_right_end s : ends_with_dash (trim_right_dashes s) = false.
Proof.
  induction s as [|c s IH]; [done|]. rewrite trim_right_cons. case_bool_decide as Ht.
  - by destruct (is_dash c) eqn:Hc; cbn.
  - destruct (trim_right_dashes s); [done|]. exact IH.
Qed.
Lemma trim_right_double s : double_dash s = false -> double_dash (trim_right_dashes s) = false.
Proof.
  induction s as [|c s IH]; [done|]. intros [Hc Hs]%orb_false_iff. rewrite trim_right_cons.
  case_bool_decide; [destruct (is_dash c) eqn:Hd; [done|]; cbn; by rewrite Hd|].
  cbn [double_dash]. rewrite (IH Hs), orb_false_r.
  destruct (is_dash c); [|done]. simpl in *. by apply trim_right_start.
Qed.

(** A slug is safe in a URL and as a host label: it has only lower-case
    letters, digits and dashes, no two dashes in a row and none at either end,
    whatever bytes the company name has. *)
Theorem slug_url_safe (name : string) :
  string_forallb slug_char (Slugify name) = true
  /\ starts_with_dash (Slugify name) = false
  /\ ends_with_dash (Slugify name) = false
  /\ double_dash (Slugify name) = false.
Proof.
  unfold Slugify. set (s := string_filter slug_char _).
  split_and!.
  - by apply trim_right_all, trim_left_all, collapse_all, filter_all.
  - apply trim_right_start, trim_left_start.
  - apply trim_right_end.
  - by apply trim_right_double, trim_left_double, collapse_double.
Qed.

Example slug_of_name : Slugify " Acme Software Pvt. Ltd. " = "acme-software-pvt-ltd".
Proof. vm_compute. reflexivity. Qed.

(** Tenant registration: the pipeline of pipeline.go, which has no compensation.
    A run that fails after its first step leaves the tenant behind, and the name
    check then refuses every retry of the same request. *)

Local Open Scope Z_scope.

Section pipeline.
Context {X : External} {Rest : Type} {P : Ports Rest} {L : PortLaws P}.
Variable u : nat -> uuid.
Variable name_key : string -> string.
Variable unmarshal : string -> option Config.

(** A tenant of that name exists. *)
Definition name_taken (name : string) (s : Shared Rest) : Prop :=
  exists_row (fun t => bool_decide (name_key (tn_Name t) = name_key name)) (tenants (platform s)) = true.

Lemma name_taken_insert name (s : Shared Rest) id t d' rst :
  tenants d' = <[id := t]> (tenants (platform s)) -> tn_Name t = name ->
  name_taken name (mkShared d' rst).
Proof.
  intros Hd Ht. unfold name_taken, exists_row, rows. simpl. rewrite Hd. apply existsb_exists.
  exists t. rewrite Ht, bool_decide_eq_true_2 by done. split; [|done].
  apply in_map_iff. exists (id, t). split; [done|]. apply list_elem_of_In, elem_of_map_to_list.
  apply lookup_insert_eq.
Qed.

Definition steps_of (res : RegisterResult) : nat := length (res_CompletedSteps res).

Lemma wp_timed {A} step (call : M (Shared Rest) (error RErr) A) res
    (Q : result (option RegisterResult * error RErr) (result (error RErr) A * RegisterResult) ->
         Shared Rest -> Prop) s :
  wp u call (fun r s' => forall res', steps_of res' = S (steps_of res) -> Q (Ok (r, res')) s') s ->
  wp u (timed step call res) Q s.
Proof.
  intros Hcall. unfold timed. wp_tac. eapply wp_mono; [exact Hcall|]. intros r s' HQ. wp_tac.
  apply HQ. unfold steps_of. simpl. rewrite length_app. simpl. lia.
Qed.

Lemma wp_required {A} step text (call : M (Shared Rest) (error RErr) A) res
    (Q : result (option RegisterResult * error RErr) (A * RegisterResult) -> Shared Rest -> Prop) s :
  wp u call (fun r s' => forall res', steps_of res' = S (steps_of res) ->
    match r with
    | Ok a => Q (Ok (a, res')) s'
    | Err e => Q (Err (Some res', EWrap text e)) s'
    end) s ->
  wp u (required step text call res) Q s.
Proof.
  intros Hcall. unfold required. wp_tac. apply wp_timed. eapply wp_mono; [exact Hcall|].
  intros [a|e] s' HQ res' Hres; wp_tac; by apply HQ.
Qed.

(** What a run leaves: past its first step, a tenant of that name. *)
Definition left_behind (name : string)
    (r : result (option RegisterResult * error RErr) RegisterResult) (s : Shared Rest) : Prop :=
  match r with
  | Err (Some res, _) => (1 < steps_of res)%nat -> name_taken name s
  | _ => True
  end.

Lemma name_taken_same name s s' :
  tenants (platform s') = tenants (platform s) -> name_taken name s -> name_taken name s'.
Proof. unfold name_taken. by intros ->. Qed.

(** A later step, which adds no tenant. *)
Lemma wp_later {A B} name step text (call : M (Shared Rest) (error RErr) A) res
    (f : A * RegisterResult -> M (Shared Rest) _ B)
    (Q : result (option RegisterResult * error RErr) B -> Shared Rest -> Prop) s :
  keeps u (fun s => tenants (platform s)) call -> name_taken name s ->
  (forall res' e s', name_taken name s' -> Q (Err (Some res', e)) s') ->
  (forall a res' s', name_taken name s' -> wp u (f (a, res')) Q s') ->
  wp u (required step text call res ≫= f) Q s.
Proof.
  intros Hcall Hn HQ Hf. wp_tac. apply wp_required.
  apply (wp_keeps u (fun s => tenants (platform s))); [done|]. intros [a|e] s' Hs' res' _.
  - apply Hf. by eapply name_taken_same.
  - apply HQ. by eapply name_taken_same.
Qed.

Lemma keeps_tenants {E A} (m : M (Shared Rest) E A) :
  keeps u platform m -> keeps u (fun s => tenants (platform s)) m.
Proof. intros Hm s. eapply wp_keeps; [exact Hm|]. by intros r s' ->. Qed.
Lemma CreateUser_tenants t e n h :
  keeps u (fun s => tenants (platform s)) (RegistrationStore.CreateUser (Rest := Rest) t e n h).
Proof.
  intros s. apply wp_store_CreateUser; [done|]. intros k now x d' (_ & -> & _)%CreateUser_Ok. done.
Qed.
Lemma Bind_tenants t v x :
  keeps u (fun s => tenants (platform s)) (RegistrationStore.BindTenantVertical (Rest := Rest) t v x).
Proof.
  intros s. apply wp_store_Bind; [done|]. intros now d'.
  unfold RegistrationQueries.BindTenantVertical. destruct (bool_decide _); [by intros [= <-]|].
  destruct (negb _); [done|]. by intros [= <-].
Qed.

Lemma email_exists_keeps email :
  keeps u platform (RegistrationStore.UserExistsByEmail (Rest := Rest) email).
Proof. apply read_err_keeps. Qed.

(** The calls before the first step leave the platform as it is, and so does a
    run that ends there. *)
Lemma wp_before {A B} text (call : M (Shared Rest) (error RErr) A) (f : A -> M (Shared Rest) _ B)
    (Q : result (option RegisterResult * error RErr) B -> Shared Rest -> Prop) s :
  keeps u platform call ->
  (forall e s', platform s' = platform s -> Q (Err (None, e)) s') ->
  (forall a s', platform s' = platform s -> wp u (f a) Q s') ->
  wp u (before_steps (wrap text call) ≫= f) Q s.
Proof.
  intros Hcall HQ Hf. unfold before_steps. wp_tac. eapply wp_keeps; [exact Hcall|].
  intros [a|e] s' Hs'; auto.
Qed.

(** The steps after the first. *)
Lemma wp_Run_after name tenantID hash req vd cfg slug res (s : Shared Rest) :
  name_taken name s ->
  wp u
    ('(userID, res) ← required StepCreateUser "step 2 create user: %w"
         (RegistrationStore.CreateUser tenantID (rr_Email req) (rr_CompanyName req +:+ " Admin")
            hash) res;
     let res := set_res_user userID res in
     '(_, res) ← required StepBindVertical "step 3 bind vertical: %w"
         (RegistrationStore.BindTenantVertical tenantID (rr_VerticalID req) userID) res;
     '(_, res) ← required StepSeedChartOfAccounts "step 4 seed chart of accounts: %w"
         (SeedChartOfAccounts tenantID (cfg_DefaultChartOfAccounts cfg)) res;
     '(_, res) ← required StepSeedBudgetTemplates "step 5 seed budget templates: %w"
         (SeedBudgetTemplates tenantID (cfg_BudgetTemplates cfg)) res;
     '(_, res) ← required StepSeedExpenseCategories "step 6 seed expense categories: %w"
         (SeedExpenseCategories tenantID (cfg_ExpenseCategories cfg)) res;
     '(_, res) ← required StepOpenAccountingPeriod "step 7 open accounting period: %w"
         (now ← time_now; zone ← local_zone;
          OpenAccountingPeriod tenantID (year_utc (now + zone)) (month_utc (now + zone))) res;
     '(_, res) ← timed StepPublishEvent
         (now ← time_now;
          PublishTenantCreated (mkTenantCreated tenantID (rr_CompanyName req) slug (rr_Plan req)
            (rr_VerticalID req) (rr_Email req) userID now)) res;
     '(_, res) ← timed StepSendWelcomeEmail
         (SendWelcomeEmail tenantID (rr_Email req) (rr_CompanyName req) (vdr_Name vd)) res;
     mret res)
    (left_behind name) s.
Proof.
  intros Hn.
  apply (wp_later name); [apply CreateUser_tenants|done|by intros ??? ? _|]. intros userID res1 s1 H1. cbv zeta.
  apply (wp_later name); [apply Bind_tenants|done|by intros ??? ? _|]. intros [] res2 s2 H2.
  apply (wp_later name); [apply keeps_tenants, seed_accounts_keeps|done|by intros ??? ? _|]. intros [] res3 s3 H3.
  apply (wp_later name); [apply keeps_tenants, seed_budgets_keeps|done|by intros ??? ? _|]. intros [] res4 s4 H4.
  apply (wp_later name); [apply keeps_tenants, seed_expenses_keeps|done|by intros ??? ? _|]. intros [] res5 s5 H5.
  apply (wp_later name); [|done|by intros ??? ? _|].
  { apply keeps_tenants. intros sx. wp_tac. apply open_period_keeps. }
  intros [] res6 s6 H6. wp_tac. apply wp_timed. wp_tac.
  eapply wp_keeps; [apply publish_keeps|]. intros r7 s7 _ res7 _. wp_tac. apply wp_timed.
  eapply wp_keeps; [apply email_keeps|]. intros r8 s8 _ res8 _. by wp_tac.
Qed.

Lemma wp_Run_left request req (s : Shared Rest) :
  Validate request = Ok req ->
  wp u (Run name_key unmarshal request) (left_behind (rr_CompanyName req)) s.
Proof.
  intros Hv. unfold Run. rewrite Hv. apply wp_bind, wp_map_err, wp_lift.
  apply wp_bind, wp_map_err. eapply wp_keeps; [apply load_keeps|].
  intros [[vd cfg]|e] s1 _; [|done].
  apply wp_before; [apply email_exists_keeps|done|]. intros [] s2 _; [by wp_tac|].
  apply wp_before; [apply name_exists_keeps|done|]. intros [] s3 _; [by wp_tac|].
  apply wp_before; [apply slug_exists_keeps|done|]. intros taken s4 _. cbv zeta.
  apply wp_bind. apply wp_mono with (Q := fun r s' => exists slug, r = Ok slug).
  { destruct taken; wp_tac; by eexists. }
  intros r s5 [slug ->].
  apply wp_before; [apply hash_keeps|done|]. intros hash s6 _.
  apply wp_bind, wp_required. apply wp_store_CreateTenant.
  { intros e res Hres. simpl. unfold steps_of in *. simpl in *. lia. }
  intros n now t d' (_ & -> & _ & Hname & _)%CreateTenant_Ok res Hres.
  apply wp_Run_after. eapply name_taken_insert; [done|exact Hname].
Qed.

(** While a tenant has the name, a run ends before its first step. *)
Lemma wp_Run_refused request req (s : Shared Rest) :
  Validate request = Ok req -> name_taken (rr_CompanyName req) s ->
  wp u (Run name_key unmarshal request)
    (fun r s' => (exists e, r = Err (None, e)) /\ platform s' = platform s) s.
Proof.
  intros Hv Hn. unfold Run. rewrite Hv. apply wp_bind, wp_map_err, wp_lift.
  apply wp_bind, wp_map_err. eapply wp_keeps; [apply load_keeps|].
  intros [[vd cfg]|e] s1 Hs1; [|by eauto].
  apply wp_before; [apply email_exists_keeps|intros; split; [by eauto|congruence]|].
  intros [] s2 Hs2; [wp_tac; split; [by eauto|congruence]|].
  apply wp_bind, wp_map_err, wp_wrap. unfold RegistrationStore.TenantExistsByNormalizedName.
  apply wp_map_err.
  apply wp_query; [split; [by eauto|congruence]|].
  unfold RegistrationQueries.TenantExistsByNormalizedName. rewrite Hs2, Hs1.
  unfold name_taken in Hn. rewrite Hn. wp_tac. split; [by eauto|congruence].
Qed.

End pipeline.

(** The pipeline does not undo its steps: when [Run] fails after creating the
    tenant (the administrator could not be created, say), no later run of the same
    request succeeds. It is refused before its first step, however often it is
    tried, because the tenant left behind has the name. *)
Theorem failed_run_blocks_retry {X : External} {Rest : Type} {P : Ports Rest} {L : PortLaws P}
    (name_key : string -> string) (unmarshal : string -> option Config)
    (request : RegisterRequest) (u u' : nat -> uuid) (w w1 w2 : World (Shared Rest))
    (res : RegisterResult) (e : error RErr) :
  alone u w -> Run name_key unmarshal request w = (Err (Some res, e), w1) ->
  (1 < length (res_CompletedSteps res))%nat ->
  alone u' w2 -> platform (w_st w2) = platform (w_st w1) ->
  (exists e', (Run name_key unmarshal request w2).1 = Err (None, e'))
  /\ platform (w_st (Run name_key unmarshal request w2).2) = platform (w_st w2).
Proof.
  intros Ha Hrun Hlen Ha2 Hw2. destruct (Validate request) as [req|ev] eqn:Hv.
  - destruct (wp_run u _ _ _ _ _ (wp_Run_left u name_key unmarshal request req (w_st w) Hv) Ha Hrun)
      as [_ Hleft].
    apply (wp_Run_refused u' name_key unmarshal request req (w_st w2) Hv); [|done|done].
    eapply name_taken_same; [by rewrite Hw2|by apply Hleft].
  - exfalso. revert Hrun. unfold Run. rewrite Hv. unfold before_steps, mbind, M_bind, map_err.
    simpl. congruence.
Qed.

(** Tenant registration: ports kept in memory, which satisfy [PortLaws], and runs
    of the saga and the pipeline on them whose calls fail at chosen places. *)

Local Open Scope Z_scope.

(** ** Ports in memory *)

Module RegDemo.

#[local] Existing Instance ref_external.

Abbreviation Sagas := (gmap uuid RegistrationSaga) (only parsing).
Abbreviation Op := (M (Shared (gmap uuid RegistrationSaga)) (error RErr)) (only parsing).

(** Each call may fail, and then does nothing. *)
Definition call (f : Shared Sagas -> Shared Sagas) : Op unit :=
  db_tx (EText "unavailable") (fun s => Ok (tt, f s)).
Definition found_or (o : option RegistrationSaga) (s : Shared Sagas) :
    result (error RErr) (RegistrationSaga * Shared Sagas) :=
  match o with Some g => Ok (g, s) | None => Err (ESent ErrSagaNotFound) end.

Definition put_saga (g : RegistrationSaga) (s : Shared Sagas) : Shared Sagas :=
  mkShared (platform s) (<[sg_ID g := g]> (rest s)).

#[export] Instance memory : Ports (gmap uuid RegistrationSaga) := {|
  SeedChartOfAccounts := fun _ _ => call id;
  OpenAccountingPeriod := fun _ _ _ => call id;
  SeedBudgetTemplates := fun _ _ => call id;
  SeedExpenseCategories := fun _ _ => call id;
  PublishTenantCreated := fun _ => call id;
  SendWelcomeEmail := fun _ _ _ _ => call id;
  Hash := fun p => mret ("hash of " +:+ p);
  SagaCreate := fun g => call (put_saga g);
  SagaUpdate := fun g => call (put_saga g);
  SagaGetByID := fun i => db_tx (EText "unavailable") (fun s => found_or (rest s !! i) s);
  SagaGetByEmail := fun e => db_tx (EText "unavailable") (fun s =>
    found_or (last (order_by (fun a b => bool_decide (sg_CreatedAt a <= sg_CreatedAt b))
                      (select (fun g => bool_decide (sg_Email g = e)) (rest s)))) s);
  DeleteTenant := fun t => call (fun s => mkShared (tenant_deleted t (platform s)) (rest s));
  DeleteUser := fun _ x => call (fun s =>
    mkShared (set_users (delete x (users (platform s))) (platform s)) (rest s));
  UnbindVertical := fun t _ => call (fun s =>
    mkShared (set_tenant_verticals (delete t (tenant_verticals (platform s))) (platform s)) (rest s));
|}.

Lemma call_keeps u f : (forall s, platform (f s) = platform s) -> keeps u platform (call f).
Proof. intros Hf s. by apply wp_tx. Qed.
Lemma found_platform (o : option RegistrationSaga) (s : Shared Sagas) g s' :
  found_or o s = Ok (g, s') -> platform s' = platform s.
Proof. destruct o; [by intros [= _ <-]|done]. Qed.

#[export] Instance memory_laws : PortLaws memory.
Proof.
  split; intros; simpl; try by apply call_keeps.
  - intros s. by apply wp_ret.
  - intros s. apply wp_tx; [done|]. by destruct (rest s !! i).
  - intros s. apply wp_tx; [done|]. destruct (found_or _ s) as [[g s']|] eqn:Hf; [|done].
    by eapply found_platform.
  - by apply wp_tx.
  - by apply wp_tx.
  - by apply wp_tx.
Qed.

(** ** A platform, a request and the places calls fail *)

Definition config : Config :=
  mkConfig "film" "Film" "1" "" (mkEntityLabels "" "" "" "" "" "" "" "") []
    [] [] [] (mkApprovalWorkflow [] 0) [] [] (mkCustomFields [] []) [] ∅.
Definition unmarshal (text : string) : option Config :=
  if bool_decide (text = "{}") then Some config else None.

Definition empty_platform : Platform :=
  mkPlatform ∅ ∅ ∅ {["film" := mkVerticalRow "film" "Film" "1" None "{}" true 0 0]}.

Definition request : RegisterRequest :=
  mkRequest " Acme   Films " "Admin@Acme.example" "secret-password" "film" "Starter" "in" "".

Definition uuids (n : nat) : uuid := (100 + N.of_nat n)%N.
(** The calls whose positions are in [faults] fail. *)
Definition env (faults : list nat) : Env :=
  mkEnv uuids 0 (fun n => 1700000000 * ns_per_sec + Z.of_nat n) 0
    (fun n => bool_decide (n ∈ faults)) 0 0.
Definition world (faults : list nat) : World (Shared (gmap uuid RegistrationSaga)) :=
  mkWorld (mkShared empty_platform ∅) (env faults) (fun _ s => s) [].

Abbreviation start := (Start ToLower unmarshal).
Abbreviation run_pipeline := (Run ToLower unmarshal).

Lemma world_alone faults : alone uuids (world faults).
Proof. done. Qed.

End RegDemo.

(** ** Runs *)

Section runs.
#[local] Existing Instance ref_external.
Import RegDemo.

Definition status_of (r : result (option RegistrationSaga * error RErr) RegistrationSaga) :
    option SagaStatus :=
  match r with
  | Ok s => Some (sg_Status s)
  | Err (s, _) => sg_Status <$> s
  end.

(** With no fault the saga completes, and the slug comes from the name. *)
Example registers :
  status_of (start request (world [])).1 = Some SagaCompleted
  /\ (tn_Slug <$> tenants (platform (w_st (start request (world [])).2)) !! 101%N) = Some "acme-films".
Proof. split; vm_refl. Qed.

(** The chart of accounts cannot be seeded (the twelfth call): the saga is
    compensated and the platform is empty again. *)
Definition seed_fails : World (Shared (gmap uuid RegistrationSaga)) := world [11%nat].

Lemma registration_all_or_nothing_witness :
  status_of (start request seed_fails).1 = Some SagaCompensated
  /\ platform (w_st (start request seed_fails).2) = empty_platform.
Proof.
  assert (Hst : status_of (start request seed_fails).1 = Some SagaCompensated) by vm_refl.
  split; [exact Hst|].
  pose proof (registration_all_or_nothing ToLower unmarshal request uuids seed_fails
                (world_alone [11%nat]) ltac:(intros i x [=]) ltac:(intros n; reflexivity)) as H.
  cbv zeta in H. revert H Hst.
  destruct (start request seed_fails) as [[s|[[s|] e]] w']; intros H [= Hst].
  - destruct H as [Hc _]. rewrite Hc in Hst. discriminate Hst.
  - destruct H as [[[Hc|Hc] _]|[[_ Hd]|[Hc _]]];
      try (rewrite Hc in Hst; discriminate Hst). exact Hd.
Defined.

(** The administrator cannot be created (the sixth call of the pipeline). *)
Definition user_fails : World (Shared (gmap uuid RegistrationSaga)) := world [5%nat].
Definition partial_result : RegisterResult :=
  mkResult 100 uuid_nil "film" "starter"
    [mkStepResult StepCreateTenant "create_tenant" StepCompleted None 2;
     mkStepResult StepCreateUser "create_user" StepFailed
       (Some (EWrap "create user: %w" (EText "postgres"))) 2].
Definition user_error : error RErr :=
  EWrap "step 2 create user: %w" (EWrap "create user: %w" (EText "postgres")).
(** Later, with everything up again. *)
Definition later : World (Shared (gmap uuid RegistrationSaga)) :=
  mkWorld (w_st (run_pipeline request user_fails).2) (env []) (fun _ s => s) [].

Lemma w_st_mkWorld {S} (s : S) e o l : w_st (mkWorld s e o l) = s.
Proof. reflexivity. Qed.

Lemma failed_run_blocks_retry_witness :
  exists e', (run_pipeline request later).1 = Err (None, e').
Proof.
  assert (H1 : (run_pipeline request user_fails).1 = Err (Some partial_result, user_error)) by vm_refl.
  refine (proj1 (failed_run_blocks_retry ToLower unmarshal request uuids uuids user_fails
                   (run_pipeline request user_fails).2 later partial_result user_error
                   (world_alone [5%nat]) _ _ _ _)).
  - rewrite <- H1. apply surjective_pairing.
  - cbn. lia.
  - split; [intros n s; reflexivity|reflexivity].
  - unfold later. rewrite w_st_mkWorld. reflexivity.
Defined.

(** A compensated saga can be resumed into a tenant that no longer exists.
    [persist] ignores a failed update, so when the updates that should record the
    compensation are lost the stored saga still says failed, with its first three
    steps completed. [Resume] then skips them, seeds the deleted tenant and
    reports the registration completed, while no tenant and no user exist. *)
Theorem resume_without_tenant :
  let w := (start request (world [11; 13; 17]%nat)).2 in
  status_of (start request (world [11; 13; 17]%nat)).1 = Some SagaCompensated
  /\ is_ok (Resume ToLower unmarshal 100%N w).1 = true
  /\ status_of (Resume ToLower unmarshal 100%N w).1 = Some SagaCompleted
  /\ tenants (platform (w_st (Resume ToLower unmarshal 100%N w).2)) = ∅
  /\ users (platform (w_st (Resume ToLower unmarshal 100%N w).2)) = ∅.
Proof. cbv zeta. split_and!; vm_refl. Qed.

End runs.
