(* ===== verification/TenancyModel.v ===== *)
(** The tenant lifecycle of the IAM service: the data of services/iam/models.go,
    errors.go and pkg/audit, the pure rules of lifecycle.go and
    retention_override.go, and those of the retention sweeper
    (cmd/retention-sweeper). *)

From S2P Require Export Interceptor Store Platform AuthModel.
Local Open Scope Z_scope.

(** ** Errors *)

(** The sentinels of services/iam/errors.go, and those of pkg/auth that
    [grpcError] knows. *)
Inductive IamErr :=
| ErrNotPlatformAdmin | ErrTenantNotFound | ErrUserNotFound | ErrNotDeactivated
| ErrUserAlreadyExists | ErrRoleNotFound | ErrInvitationNotFound | ErrInvitationExpired
| ErrInvitationAccepted | ErrTenantSlugTaken | ErrTenantNameTaken | ErrInvalidPlan
| ErrRoleNotProjectScoped | ErrAmbiguousEmail | ErrCountryRequired | ErrUnknownCountry
| ErrTenantNotHoldable | ErrTenantHoldExists | ErrHoldUntilInPast | ErrHoldNarrowsIndefinite
| ErrTenantNotPurgeable | ErrPurgeRequestExists | ErrPurgeRequestNotFound | ErrSelfApproval
| ErrPurgeRequestNotApproved
| ErrInvalidCredentials | ErrTokenExpired | ErrTokenInvalid | ErrSessionRevoked
| ErrRefreshTokenNotFound | ErrTenantSuspended | ErrTenantInactive | ErrAccountDeactivated
| ErrAccountInvited
| ErrOIDCConfigMissing | ErrOIDCTokenExchange | ErrOIDCClaimMapping | ErrOIDCKeyNotConfigured.

#[export] Instance IamErr_eq_dec : EqDecision IamErr.
Proof. solve_decision. Defined.

Definition IamErr_text (e : IamErr) : string :=
  match e with
  | ErrNotPlatformAdmin => "iam: caller does not have platform_admin role"
  | ErrTenantNotFound => "iam: tenant not found"
  | ErrUserNotFound => "iam: user not found"
  | ErrNotDeactivated => "iam: user is not deactivated"
  | ErrUserAlreadyExists => "iam: user already exists for tenant"
  | ErrRoleNotFound => "iam: role not found"
  | ErrInvitationNotFound => "iam: invitation not found"
  | ErrInvitationExpired => "iam: invitation has expired"
  | ErrInvitationAccepted => "iam: invitation already accepted"
  | ErrTenantSlugTaken => "iam: tenant slug already taken"
  | ErrTenantNameTaken => "iam: tenant name already taken"
  | ErrInvalidPlan => "iam: invalid plan; must be starter, professional, or enterprise"
  | ErrRoleNotProjectScoped => "iam: role cannot be project-scoped"
  | ErrAmbiguousEmail => "iam: email exists in multiple tenants — supply tenant_id"
  | ErrCountryRequired => "iam: country_code is required"
  | ErrUnknownCountry => "iam: unknown country_code"
  | ErrTenantNotHoldable => "iam: tenant status has no retention clock to hold"
  | ErrTenantHoldExists => "iam: tenant already has an active hold; pass overwrite to replace it"
  | ErrHoldUntilInPast => "iam: hold_until must be in the future"
  | ErrHoldNarrowsIndefinite =>
    "iam: cannot convert an indefinite hold into a dated one; clear the existing hold first"
  | ErrTenantNotPurgeable => "iam: tenant is not purge_eligible"
  | ErrPurgeRequestExists => "iam: an open purge request already exists for this tenant"
  | ErrPurgeRequestNotFound => "iam: no open purge request for this tenant"
  | ErrSelfApproval => "iam: purge approver must differ from the requester"
  | ErrPurgeRequestNotApproved => "iam: purge request is not in approved state"
  | ErrInvalidCredentials => "auth: invalid email or password"
  | ErrTokenExpired => "auth: token has expired"
  | ErrTokenInvalid => "auth: token is invalid"
  | ErrSessionRevoked => "auth: session revoked"
  | ErrRefreshTokenNotFound => "auth: refresh token not found"
  | ErrTenantSuspended => "auth: tenant is suspended"
  | ErrTenantInactive => "auth: tenant is not active"
  | ErrAccountDeactivated => "auth: account is deactivated"
  | ErrAccountInvited => "auth: account is pending invitation acceptance"
  | ErrOIDCConfigMissing => "auth: OIDC configuration not found for tenant"
  | ErrOIDCTokenExchange => "auth: OIDC token exchange failed"
  | ErrOIDCClaimMapping => "auth: required claims missing from ID token"
  | ErrOIDCKeyNotConfigured => "iam: OIDC encryption key not configured"
  end.

(** [err.Error()]; the text of a wrapped error is its format string. *)
Definition iam_error_text (e : error IamErr) : string :=
  match e with
  | ESent s => IamErr_text s
  | EWrap t _ => t
  | EText t => t
  end.

(** ** Domain model *)

Record Tenant := mkTenant {
  t_ID : uuid;
  t_Name : string;
  t_Slug : string;
  t_Plan : string;
  t_Status : string;
  t_IsDemo : bool;
  t_CreatedAt : Time;
  t_AddressLine1 : string;
  t_AddressLine2 : string;
  t_City : string;
  t_CountryCode : string;
  t_PostalCode : string;
  t_PrimaryCurrencyCode : string;
  t_SuspendedAt : option Time;
  t_DeactivatedAt : option Time;
  t_HoldUntil : option Time;
  t_FreezeReason : option string;
}.

Record TenantPurgeRequest := mkPurgeRequest {
  pr_ID : uuid;
  pr_TenantID : uuid;
  pr_Status : string;
  pr_RequestedBy : uuid;
  pr_RequestedAt : Time;
  pr_RequestReason : string;
  pr_ApprovedBy : option uuid;
  pr_ApprovedAt : option Time;
  pr_CancelledBy : option uuid;
  pr_CancelledAt : option Time;
  pr_ExecutedAt : option Time;
  pr_FailureReason : option string;
  pr_TenantName : string;
  pr_TenantSlug : string;
}.

Record LifecycleTransition := mkTransition {
  lt_TenantID : uuid;
  lt_TenantName : string;
  lt_FromStatus : string;
  lt_ToStatus : string;
  lt_OccurredAt : Time;
}.

(** ** Audit events (pkg/audit) *)

Record ActorInfo := mkActor { ac_UserID : uuid; ac_Email : string; ac_IP : string }.

(** [audit.ActorFromContext]: [authenticate] puts the caller and the actor into
    the context together, from the same claims. *)
Definition ActorFromContext (ctx : Ctx) : ActorInfo * bool :=
  match CallerFromContext ctx with
  | Some c => (mkActor (ci_UserID c) (ci_Email c) (ci_IP c), true)
  | None => (mkActor uuid_nil "" "", false)
  end.

Inductive Action :=
| ActionStatusChanged | ActionLegalHoldApplied | ActionLegalHoldCleared
| ActionPurgeRequested | ActionPurgeApproved | ActionPurgeCancelled | ActionTenantPurged.

(** The fields the lifecycle sets; [ResourceType] is "tenant" in all of them and
    [ProductionID] is nil. *)
Record Event := mkEvent {
  ev_ID : uuid;
  ev_TenantID : uuid;
  ev_ActorID : uuid;
  ev_ActorEmail : string;
  ev_ActorIP : string;
  ev_Action : Action;
  ev_ResourceID : uuid;
  ev_OldState : option json;
  ev_NewState : option json;
  ev_Metadata : option json;
  ev_OccurredAt : Time;
}.
Definition with_event_id (id : uuid) (e : Event) : Event :=
  mkEvent id (ev_TenantID e) (ev_ActorID e) (ev_ActorEmail e) (ev_ActorIP e) (ev_Action e)
    (ev_ResourceID e) (ev_OldState e) (ev_NewState e) (ev_Metadata e) (ev_OccurredAt e).
Definition with_event_time (t : Time) (e : Event) : Event :=
  mkEvent (ev_ID e) (ev_TenantID e) (ev_ActorID e) (ev_ActorEmail e) (ev_ActorIP e)
    (ev_Action e) (ev_ResourceID e) (ev_OldState e) (ev_NewState e) (ev_Metadata e) t.

Definition SystemActorRetentionSweeper : string := "system:retention-sweeper".
Definition SystemActorPurgeWorker : string := "system:purge-worker".

Definition mustMarshalStatus (status : string) : json := JObject [("status", JString status)].

Definition mustMarshalHoldState (t : option Tenant) : json :=
  match t with
  | None => JObject []
  | Some t =>
    JObject ((match t_FreezeReason t with Some r => [("freeze_reason", JString r)] | None => [] end)
             ++ (match t_HoldUntil t with
                 | Some h => [("hold_until", JString (format_rfc3339 h))] | None => [] end)
             ++ [("status", JString (t_Status t))])
  end.

Definition mustMarshalClearReason (reason : string) : json :=
  if decide (reason = "") then JObject [] else JObject [("reason", JString reason)].

Definition mustMarshalRetentionMeta (overwrote : bool) (previousReason : option string) : json :=
  JObject (("overwrote_previous", JBool overwrote)
           :: match previousReason with Some r => [("previous_reason", JString r)] | None => [] end).

(** ** The retention clock *)

Definition TenantStatusActive : string := "active".
Definition TenantStatusSuspended : string := "suspended".
Definition TenantStatusGrace : string := "grace".
Definition TenantStatusDeactivated : string := "deactivated".
Definition TenantStatusPurgeEligible : string := "purge_eligible".

Definition PurgeRequestPending : string := "pending".
Definition PurgeRequestApproved : string := "approved".
Definition PurgeRequestExecuted : string := "executed".
Definition PurgeRequestFailed : string := "failed".
Definition PurgeRequestCancelled : string := "cancelled".

Definition SuspensionGracePeriod : Z := 30 * 24 * ns_per_hour.
Definition GraceToDeactivatedDuration : Z := 90 * 24 * ns_per_hour.
Definition DeactivatedToPurgeDuration : Z := 180 * 24 * ns_per_hour.

(** The status due when at least [period] has passed since [anchor]. *)
Definition due_after (anchor : option Time) (period : Z) (now : Time) (next : string) :
    option string :=
  match anchor with
  | None => None
  | Some a => if bool_decide (time_Sub now a < period) then None else Some next
  end.

Definition nextLifecycleStatus (t : Tenant) (now : Time) : option string :=
  if decide (t_Status t = TenantStatusSuspended)
  then due_after (t_SuspendedAt t) SuspensionGracePeriod now TenantStatusGrace
  else if decide (t_Status t = TenantStatusGrace)
  then due_after (t_SuspendedAt t) GraceToDeactivatedDuration now TenantStatusDeactivated
  else if decide (t_Status t = TenantStatusDeactivated)
  then due_after (t_DeactivatedAt t) DeactivatedToPurgeDuration now TenantStatusPurgeEligible
  else None.

Definition isHoldableStatus (status : string) : bool :=
  bool_decide (status = TenantStatusSuspended) || bool_decide (status = TenantStatusGrace)
  || bool_decide (status = TenantStatusDeactivated).

(** [pendingAge]: how overdue a tenant is, in nanoseconds. *)
Definition pendingAge (t : Tenant) (now : Time) : Z :=
  let age anchor period :=
    match anchor with None => 0 | Some a => int64 (time_Sub now a - period) end in
  if decide (t_Status t = TenantStatusSuspended)
  then age (t_SuspendedAt t) SuspensionGracePeriod
  else if decide (t_Status t = TenantStatusGrace)
  then age (t_SuspendedAt t) GraceToDeactivatedDuration
  else if decide (t_Status t = TenantStatusDeactivated)
  then age (t_DeactivatedAt t) DeactivatedToPurgeDuration
  else 0.

(** ** Stored state *)

Record PurgeRow := mkPurgeRow {
  pq_ID : uuid;
  pq_TenantID : uuid;
  pq_Status : string;
  pq_RequestedBy : uuid;
  pq_RequestedAt : Time;
  pq_RequestReason : string;
  pq_ApprovedBy : option uuid;
  pq_ApprovedAt : option Time;
  pq_CancelledBy : option uuid;
  pq_CancelledAt : option Time;
  pq_ExecutedAt : option Time;
  pq_FailureReason : option string;
  pq_TenantName : string;
  pq_TenantSlug : string;
}.

(** The tables, the tenants whose schema tenant_<uuid> exists, and the Redis
    server behind the token issuer. *)
Record DB := mkDB {
  tenants : gmap uuid TenantRow;
  purge_requests : gmap uuid PurgeRow;
  schemas : gset uuid;
  sessions : Redis;
  accounts : Accounts;
}.
Definition set_tenants (t : gmap uuid TenantRow) (d : DB) : DB :=
  mkDB t (purge_requests d) (schemas d) (sessions d) (accounts d).
Definition set_purge_requests (t : gmap uuid PurgeRow) (d : DB) : DB :=
  mkDB (tenants d) t (schemas d) (sessions d) (accounts d).
Definition set_schemas (s : gset uuid) (d : DB) : DB :=
  mkDB (tenants d) (purge_requests d) s (sessions d) (accounts d).
Definition set_sessions (r : Redis) (d : DB) : DB :=
  mkDB (tenants d) (purge_requests d) (schemas d) r (accounts d).
Definition set_accounts (a : Accounts) (d : DB) : DB :=
  mkDB (tenants d) (purge_requests d) (schemas d) (sessions d) a.

(** The state of the service: the stores above and the audit events accepted. *)
Abbreviation St := (Store DB Event) (only parsing).
