(* ===== verification/AuthTokens.v ===== *)
(** The token issuer of pkg/auth/jwt.go over its Redis keys, the verifier of
    pkg/auth/verifier.go, and the interceptor of pkg/interceptor/authjwt.go that
    turns an access token into a caller. *)

From S2P Require Export TenancyModel.
Local Open Scope Z_scope.

(** ** golang-jwt *)

(** [SignedString] with the issuer's key and [ParseWithClaims] with its public
    key, RSA methods only and an expiry required. *)
Inductive jwt_error := JwtExpired | JwtOther.
Class Jwt := {
  SignedString : jwtClaims -> option string;
  ParseWithClaims : Time -> string -> result jwt_error jwtClaims;
}.

(** [utf8.ValidString]; encoding/json keeps such strings. *)
Definition ValidString (s : string) : bool :=
  forallb (fun r => negb (bool_decide (r.1 = 65533%N) && bool_decide (length r.2 = 1%nat))) (runes s).
Definition valid_claims (c : jwtClaims) : bool :=
  forallb ValidString (jc_Subject c :: jc_TenantID c :: jc_Email c :: jc_Roles c ++ jc_Permissions c).
Definition whole_seconds (t : Time) : Prop := t mod ns_per_sec = 0.

(** A signed token parses to its claims until it expires. *)
Class JwtLaws `{Jwt} := {
  parse_signed : forall now c tok iat exp,
    SignedString c = Some tok -> valid_claims c = true ->
    jc_IssuedAt c = Some iat -> whole_seconds iat ->
    jc_ExpiresAt c = Some exp -> whole_seconds exp ->
    ParseWithClaims now tok = if bool_decide (now < exp) then Ok c else Err JwtExpired;
  (** three parts with dots between them *)
  signed_not_empty : forall c tok, SignedString c = Some tok -> tok <> "";
}.

(** 32 bytes of crypto/rand in hexadecimal, as two draws of 16. *)
Fixpoint hex_digits (n : nat) (z : N) : string :=
  match n with
  | O => ""
  | S n' => hex_digits n' (z / 16)%N
            +:+ String (ascii_of_N (let d := (z mod 16)%N in if bool_decide (d < 10)%N then 48 + d else 87 + d)%N) ""
  end.
Definition generateToken {S E} : M S E string :=
  a ← uuid_new; b ← uuid_new; mret (hex_digits 32 a +:+ hex_digits 32 b).

Section tokens.
Context {X : External} {J : Jwt}.

Abbreviation Op := (M St (error IamErr)) (only parsing).

(** One command, or one pipeline that cannot be told from a command. *)
Definition redis {A} (text : string) (f : Redis -> A * Redis) : Op A :=
  with_tx (EWrap text (EText "connection failed"))
    (fun d => let '(a, r) := f (sessions d) in Ok (a, set_sessions r d)).

(** ** Generations *)

Definition currentGeneration (userID : uuid) : Op Z :=
  redis "auth: jwt: read token generation: %w" (fun r => (user_generation userID r, r)).
Definition currentTenantGeneration (tenantID : uuid) : Op Z :=
  redis "auth: jwt: read tenant generation: %w" (fun r => (tenant_generation tenantID r, r)).

Variable j : JWTIssuer.

Definition RevokeAllForUser (userID : uuid) : Op unit :=
  redis "auth: jwt: revoke all sessions: %w"
    (fun r => (tt, incr_user_generation (ji_refreshTTL j * 2) userID r)).
(** ** Refresh tokens *)

Definition issueRefreshToken (payload : refreshPayload) : Op string :=
  token ← generateToken;
  _ ← redis "auth: jwt: store refresh token: %w" (fun r => (tt, set_refresh token payload (ji_refreshTTL j) r));
  mret token.

(** GET and DEL in a pipeline, which is not a transaction: other clients'
    commands may run between them. *)
Definition consumeRefreshToken (token : string) : Op refreshPayload :=
  got ← try (redis "auth: jwt: consume refresh token: %w" (fun r => (get_refresh token r, r)));
  del ← try (redis "auth: jwt: consume refresh token: %w" (fun r => (tt, del_refresh token r)));
  match got, del with
  | Err e, _ => mthrow e
  | Ok None, _ => mthrow (ESent ErrRefreshTokenNotFound)
  | Ok (Some _), Err e => mthrow e
  | Ok (Some payload), Ok _ => mret payload
  end.

Definition Revoke (refreshToken : string) : Op unit :=
  deleted ← redis "auth: jwt: revoke refresh token: %w"
    (fun r => (bool_decide (is_Some (get_refresh refreshToken r)), del_refresh refreshToken r));
  if deleted : bool then mret tt else mthrow (ESent ErrRefreshTokenNotFound).

(** ** Issue and refresh *)

(** [jwt.NewNumericDate] *)
Definition NumericDate (t : Time) : Time := t / ns_per_sec * ns_per_sec.

Definition access_claims (r : AuthResult) (now : Time) : jwtClaims :=
  mkJwtClaims (uuid_string (res_UserID r)) (Some (NumericDate now))
    (Some (NumericDate (now + ji_accessTTL j))) (uuid_string (res_TenantID r)) (res_Email r)
    (res_Roles r) (res_Permissions r) (res_AuthMethod r).
Definition refresh_payload (r : AuthResult) (g : generations) : refreshPayload :=
  mkRefreshPayload (res_UserID r) (res_TenantID r) (res_Email r) (res_Roles r) (res_Permissions r)
    (res_AuthMethod r) (g_User g) (g_Tenant g).

Definition issueWithGeneration (r : AuthResult) (g : generations) : Op TokenPair :=
  now ← time_now;
  match SignedString (access_claims r now) with
  | None => mthrow (EText "auth: jwt: sign access token: %w")
  | Some accessToken =>
    refreshToken ← issueRefreshToken (refresh_payload r g);
    mret (mkTokenPair accessToken refreshToken "Bearer" (ji_accessTTL j / ns_per_sec)
            (now + ji_accessTTL j))
  end.

Definition Issue (r : AuthResult) : Op TokenPair :=
  userGen ← currentGeneration (res_UserID r);
  tenantGen ← currentTenantGeneration (res_TenantID r);
  issueWithGeneration r (mkGenerations userGen tenantGen).

Definition payload_result (p : refreshPayload) (now : Time) : AuthResult :=
  mkAuthResult (rp_UserID p) (rp_TenantID p) (rp_Email p) "" (rp_Roles p) (rp_Permissions p)
    (rp_AuthMethod p) false now.

Definition Refresh (refreshToken : string) : Op TokenPair :=
  payload ← consumeRefreshToken refreshToken;
  userGen ← currentGeneration (rp_UserID payload);
  tenantGen ← currentTenantGeneration (rp_TenantID payload);
  if negb (bool_decide (rp_Generation payload = userGen))
     || negb (bool_decide (rp_TenantGeneration payload = tenantGen))
  then mthrow (ESent ErrSessionRevoked)
  else now ← time_now;
       issueWithGeneration (payload_result payload now) (mkGenerations userGen tenantGen).

(** ** Verification *)

(** The claims of a parsed token: the ids must be UUIDs. *)
Definition claims_of (c : jwtClaims) : result IamErr Claims :=
  match uuid_parse (jc_Subject c), uuid_parse (jc_TenantID c) with
  | Some userID, Some tenantID =>
    Ok (mkClaims userID tenantID (jc_Email c) (jc_Roles c) (jc_Permissions c) (jc_AuthMethod c)
          (default zero_time (jc_IssuedAt c)) (default zero_time (jc_ExpiresAt c)))
  | _, _ => Err ErrTokenInvalid
  end.

(** [Verifier.Verify] *)
Definition Verify (now : Time) (accessToken : string) : result IamErr Claims :=
  match ParseWithClaims now accessToken with
  | Err JwtExpired => Err ErrTokenExpired
  | Err JwtOther => Err ErrTokenInvalid
  | Ok c => claims_of c
  end.

(** [JWTIssuer.Validate]: the same against the issuer's own public key. *)
Definition Validate (accessToken : string) : Op Claims :=
  now ← time_now;
  lift_result (match Verify now accessToken with Ok c => Ok c | Err e => Err (ESent e) end).

End tokens.

(** ** The interceptor *)

(** The request metadata the interceptor reads. *)
Record Metadata := mkMetadata {
  md_authorization : list string;
  md_project_id : list string;
  md_forwarded_for : list string;
}.

Definition PublicMethods : list string :=
  ["/thittam.iam.v1.IAMService/Login"; "/thittam.iam.v1.IAMService/RefreshToken";
   "/thittam.iam.v1.IAMService/AcceptInvitation";
   "/grpc.reflection.v1.ServerReflection/ServerReflectionInfo";
   "/grpc.reflection.v1alpha.ServerReflection/ServerReflectionInfo"].

Definition firstMD (vals : list string) : string := default "" (head vals).

(** [strings.EqualFold(s[:7], "bearer ")]: no rune outside ASCII folds to one of
    these letters. *)
Definition lower_ascii (c : ascii) : ascii :=
  if is_upper c then ascii_of_N (byte_of c + 32) else c.
Fixpoint lower_string (s : string) : string :=
  match s with
  | EmptyString => EmptyString
  | String c s' => String (lower_ascii c) (lower_string s')
  end.
Definition bearerPrefix : string := "bearer ".

(** The token after "Bearer ", in any case. *)
Definition bearer_token (raw : string) : option string :=
  if bool_decide (len raw <= len bearerPrefix)
     || negb (bool_decide (lower_string (String.substring 0 7 raw) = bearerPrefix))
  then None else Some (slice_from 7 raw).

Section interceptor.
Context {X : External} {J : Jwt}.

Definition uuidFromMD (vals : list string) : uuid :=
  let s := firstMD vals in
  if decide (s = "") then uuid_nil else default uuid_nil (uuid_parse s).

(** A public method goes on without a caller. *)
Definition authenticate (now : Time) (md : Metadata) (method : string) : result status Ctx :=
  if bool_decide (method ∈ PublicMethods) then Ok (mkCtx None)
  else let raw := firstMD (md_authorization md) in
  if decide (raw = "") then Err (mkStatus Unauthenticated "missing authorization token")
  else match bearer_token raw with
  | None => Err (mkStatus Unauthenticated "authorization must be a Bearer token")
  | Some token =>
    match Verify now token with
    | Err ErrTokenExpired => Err (mkStatus Unauthenticated "token expired")
    | Err _ => Err (mkStatus Unauthenticated "token invalid")
    | Ok c =>
      Ok (mkCtx (Some (mkCaller (cm_Subject c) (cm_TenantID c) (uuidFromMD (md_project_id md))
                         (cm_Email c) (cm_Roles c) (cm_Permissions c)
                         (firstMD (md_forwarded_for md)))))
    end
  end.

End interceptor.
