(* ===== verification/TenancyQueries.v ===== *)
(** The tenant lifecycle: the SQL statements of services/iam/db/queries.sql.go on
    tenants and tenant_purge_requests, those written out in db/postgres.go, with
    the constraints of migrations/iam (001, 015-019), and the tenant counters
    pkg/auth/jwt.go keeps in Redis.  Statements that stamp a row take the
    transaction's [now()]. *)

From S2P Require Export TenancyModel.
Local Open Scope Z_scope.

(** ** tenants *)

Definition tenant_status_ok (status : string) : bool :=
  bool_decide (status ∈ ["active"; "suspended"; "grace"; "deactivated"; "purge_eligible"; "purged"]).

Definition with_lifecycle (status : string) (suspended deactivated : option Time) (r : TenantRow) :
    TenantRow :=
  mkTenantRow (tn_ID r) (tn_Name r) (tn_Slug r) (tn_Plan r) status (tn_CreatedAt r) (tn_IsDemo r)
    (tn_AddressLine1 r) (tn_AddressLine2 r) (tn_City r) (tn_CountryCode r) (tn_PostalCode r)
    (tn_PrimaryCurrencyCode r) suspended deactivated (tn_HoldUntil r) (tn_FreezeReason r)
    (tn_PurgedAt r).
Definition with_hold (hold : option Time) (reason : option string) (r : TenantRow) : TenantRow :=
  mkTenantRow (tn_ID r) (tn_Name r) (tn_Slug r) (tn_Plan r) (tn_Status r) (tn_CreatedAt r)
    (tn_IsDemo r) (tn_AddressLine1 r) (tn_AddressLine2 r) (tn_City r) (tn_CountryCode r)
    (tn_PostalCode r) (tn_PrimaryCurrencyCode r) (tn_SuspendedAt r) (tn_DeactivatedAt r) hold reason
    (tn_PurgedAt r).
Definition tombstoned (name : string) (now : Time) (r : TenantRow) : TenantRow :=
  mkTenantRow (tn_ID r) name (tn_Slug r) (tn_Plan r) "purged" (tn_CreatedAt r) (tn_IsDemo r)
    None None None (tn_CountryCode r) None (tn_PrimaryCurrencyCode r) (tn_SuspendedAt r)
    (tn_DeactivatedAt r) (tn_HoldUntil r) (tn_FreezeReason r) (Some now).

(** [CASE WHEN to = state AND col IS NULL THEN now() ELSE col END] *)
Definition stamp (to state : string) (now : Time) (col : option Time) : option Time :=
  if bool_decide (to = state) && bool_decide (col = None) then Some (pg_time now) else col.
Definition coalesce {A} (o o' : option A) : option A :=
  match o with Some a => Some a | None => o' end.

Definition GetTenant (id : uuid) (d : DB) : result pg_error TenantRow :=
  get_row (tenants d) id (fun _ => true).

Definition UpdateTenantStatus (now : Time) (id : uuid) (status : string) (hold : option Time)
    (reason : option string) (d : DB) : result pg_error (TenantRow * DB) :=
  match tenants d !! id with
  | None => Err PgNoRows
  | Some r =>
    if negb (tenant_status_ok status) then Err PgConstraint
    else let r' := with_hold (coalesce (pg_time <$> hold) (tn_HoldUntil r))
                     (coalesce reason (tn_FreezeReason r))
                     (with_lifecycle status (stamp status "suspended" now (tn_SuspendedAt r))
                        (stamp status "deactivated" now (tn_DeactivatedAt r)) r) in
         Ok (r', set_tenants (<[id := r']> (tenants d)) d)
  end.

Definition TransitionTenantStatus (now : Time) (id : uuid) (from to : string) (d : DB) :
    result pg_error (TenantRow * DB) :=
  match get_row (tenants d) id (fun r => bool_decide (tn_Status r = from)) with
  | Err e => Err e
  | Ok r =>
    if negb (tenant_status_ok to) then Err PgConstraint
    else let r' := with_lifecycle to (stamp to "suspended" now (tn_SuspendedAt r))
                     (stamp to "deactivated" now (tn_DeactivatedAt r)) r in
         Ok (r', set_tenants (<[id := r']> (tenants d)) d)
  end.

Definition SetTenantLegalHold (id : uuid) (hold : option Time) (reason : option string) (d : DB) :
    result pg_error (TenantRow * DB) :=
  match tenants d !! id with
  | None => Err PgNoRows
  | Some r => let r' := with_hold (pg_time <$> hold) reason r in
              Ok (r', set_tenants (<[id := r']> (tenants d)) d)
  end.

Definition ClearTenantLegalHold (id : uuid) (d : DB) : result pg_error (TenantRow * DB) :=
  match tenants d !! id with
  | None => Err PgNoRows
  | Some r => let r' := with_hold None None r in
              Ok (r', set_tenants (<[id := r']> (tenants d)) d)
  end.

Definition CountTenantsOnHold (d : DB) : result pg_error Z :=
  Ok (Z.of_nat (length (select (fun r => negb (bool_decide (tn_FreezeReason r = None))) (tenants d)))).

(** A comparison with NULL is not true. *)
Definition at_or_before (o : option Time) (t : Time) : bool :=
  match o with Some a => bool_decide (a <= t) | None => false end.

(** [ORDER BY COALESCE(deactivated_at, suspended_at) NULLS LAST] *)
Definition clock_le (r r' : TenantRow) : bool :=
  match coalesce (tn_DeactivatedAt r) (tn_SuspendedAt r),
        coalesce (tn_DeactivatedAt r') (tn_SuspendedAt r') with
  | Some a, Some b => bool_decide (a <= b)
  | _, None => true
  | None, Some _ => false
  end.

Section due.
(** [t - INTERVAL 'n days'] in the session's time zone. *)
Variable days_before : Z -> Time -> Time.

(** The two conditions of the statement: due, and no hold in force. *)
Definition clock_due (now : Time) (r : TenantRow) : bool :=
  (bool_decide (tn_Status r = "suspended") && at_or_before (tn_SuspendedAt r) (days_before 30 now))
  || (bool_decide (tn_Status r = "grace") && at_or_before (tn_SuspendedAt r) (days_before 90 now))
  || (bool_decide (tn_Status r = "deactivated")
      && at_or_before (tn_DeactivatedAt r) (days_before 180 now)).
Definition hold_released (now : Time) (r : TenantRow) : bool :=
  bool_decide (tn_FreezeReason r = None) || at_or_before (tn_HoldUntil r) now.

Definition ListTenantsDueForLifecycle (now : Time) (limit : Z) (d : DB) :
    result pg_error (list TenantRow) :=
  let t := pg_time now in
  if bool_decide (limit < 0) then Err PgConstraint
  else Ok (limit_offset limit 0 (order_by clock_le
         (select (fun r => clock_due t r && hold_released t r) (tenants d)))).
End due.

(** ** tenant_purge_requests *)

Definition is_open (status : string) : bool :=
  bool_decide (status = "pending") || bool_decide (status = "approved").

(** PRIMARY KEY (id), then the partial unique index on open requests. *)
Definition CreateTenantPurgeRequest (now : Time) (id tenantID requestedBy : uuid)
    (reason name slug : string) (d : DB) : result named_pg_error (PurgeRow * DB) :=
  if bool_decide (is_Some (purge_requests d !! id)) then Err (UniqueOn "tenant_purge_requests_pkey")
  else if exists_row (fun r => bool_decide (pq_TenantID r = tenantID) && is_open (pq_Status r))
            (purge_requests d)
  then Err (UniqueOn "tenant_purge_requests_one_open")
  else let r := mkPurgeRow id tenantID "pending" requestedBy (pg_time now) reason None None None None
                  None None name slug in
       Ok (r, set_purge_requests (<[id := r]> (purge_requests d)) d).

Definition GetOpenTenantPurgeRequest (tenantID : uuid) (d : DB) : result pg_error PurgeRow :=
  one_row (select (fun r => bool_decide (pq_TenantID r = tenantID) && is_open (pq_Status r))
             (purge_requests d)).

(** UPDATE ... WHERE id = $1 AND the condition RETURNING the row. *)
Definition update_request (p : PurgeRow -> bool) (f : PurgeRow -> PurgeRow) (id : uuid) (d : DB) :
    result pg_error (PurgeRow * DB) :=
  match get_row (purge_requests d) id p with
  | Err e => Err e
  | Ok r => let r' := f r in Ok (r', set_purge_requests (<[id := r']> (purge_requests d)) d)
  end.

Definition approved_request (by_ : option uuid) (now : Time) (r : PurgeRow) : PurgeRow :=
  mkPurgeRow (pq_ID r) (pq_TenantID r) "approved" (pq_RequestedBy r) (pq_RequestedAt r)
    (pq_RequestReason r) by_ (Some (pg_time now)) (pq_CancelledBy r) (pq_CancelledAt r)
    (pq_ExecutedAt r) (pq_FailureReason r) (pq_TenantName r) (pq_TenantSlug r).
Definition cancelled_request (by_ : option uuid) (now : Time) (r : PurgeRow) : PurgeRow :=
  mkPurgeRow (pq_ID r) (pq_TenantID r) "cancelled" (pq_RequestedBy r) (pq_RequestedAt r)
    (pq_RequestReason r) (pq_ApprovedBy r) (pq_ApprovedAt r) by_ (Some (pg_time now))
    (pq_ExecutedAt r) (pq_FailureReason r) (pq_TenantName r) (pq_TenantSlug r).
Definition failed_request (reason : option string) (r : PurgeRow) : PurgeRow :=
  mkPurgeRow (pq_ID r) (pq_TenantID r) "failed" (pq_RequestedBy r) (pq_RequestedAt r)
    (pq_RequestReason r) (pq_ApprovedBy r) (pq_ApprovedAt r) (pq_CancelledBy r) (pq_CancelledAt r)
    (pq_ExecutedAt r) reason (pq_TenantName r) (pq_TenantSlug r).
Definition executed_request (now : Time) (r : PurgeRow) : PurgeRow :=
  mkPurgeRow (pq_ID r) (pq_TenantID r) "executed" (pq_RequestedBy r) (pq_RequestedAt r)
    (pq_RequestReason r) (pq_ApprovedBy r) (pq_ApprovedAt r) (pq_CancelledBy r) (pq_CancelledAt r)
    (Some (pg_time now)) (pq_FailureReason r) (pq_TenantName r) (pq_TenantSlug r).

Definition ApproveTenantPurgeRequest (now : Time) (id : uuid) (by_ : option uuid) (tenantID : uuid)
    (d : DB) : result pg_error (PurgeRow * DB) :=
  update_request (fun r => bool_decide (pq_Status r = "pending") && bool_decide (pq_TenantID r = tenantID))
    (approved_request by_ now) id d.

Definition CancelTenantPurgeRequest (now : Time) (id : uuid) (by_ : option uuid) (tenantID : uuid)
    (d : DB) : result pg_error (PurgeRow * DB) :=
  update_request (fun r => is_open (pq_Status r) && bool_decide (pq_TenantID r = tenantID))
    (cancelled_request by_ now) id d.

Definition MarkTenantPurgeRequestFailed (id : uuid) (reason : option string) (d : DB) :
    result pg_error (PurgeRow * DB) :=
  update_request (fun r => bool_decide (pq_Status r = "approved")) (failed_request reason) id d.

(** [ORDER BY approved_at], nulls last. *)
Definition approved_le (r r' : PurgeRow) : bool :=
  match pq_ApprovedAt r, pq_ApprovedAt r' with
  | Some a, Some b => bool_decide (a <= b)
  | _, None => true
  | None, Some _ => false
  end.
Definition ListApprovedTenantPurgeRequests (limit : Z) (d : DB) : result pg_error (list PurgeRow) :=
  if bool_decide (limit < 0) then Err PgConstraint
  else Ok (limit_offset limit 0
         (order_by approved_le (select (fun r => bool_decide (pq_Status r = "approved")) (purge_requests d)))).

(** ** The statements of the purge transaction *)

(** Each returns the number of rows affected. *)
Definition claim_request (now : Time) (id : uuid) (d : DB) : Z * DB :=
  match update_request (fun r => bool_decide (pq_Status r = "approved")) (executed_request now) id d with
  | Ok (_, d') => (1, d')
  | Err _ => (0, d)
  end.

(** DROP SCHEMA IF EXISTS "tenant_<uuid>" CASCADE *)
Definition drop_schema (tenantID : uuid) (d : DB) : DB := set_schemas (schemas d ∖ {[tenantID]}) d.

Section tombstone.
Context {X : External}.
(** [regexp_replace(lower(trim(name)), '\s+', ' ', 'g')] in the database. *)
Variable name_key : string -> string.

(** Another tenant may hold the tombstone's name in tenants_name_ci_unique. *)
Definition name_taken (id : uuid) (name : string) (d : DB) : bool :=
  exists_row (fun r => negb (bool_decide (tn_ID r = id))
                       && bool_decide (name_key (tn_Name r) = name_key name)) (tenants d).

Definition tombstone (now : Time) (id : uuid) (d : DB) : result pg_error (Z * DB) :=
  match get_row (tenants d) id (fun r => bool_decide (tn_Status r = "purge_eligible")) with
  | Err _ => Ok (0, d)
  | Ok r =>
    let name := "purged-" +:+ uuid_string id in
    if name_taken id name d then Err PgUniqueViolation
    else Ok (1, set_tenants (<[id := tombstoned name (pg_time now) r]> (tenants d)) d)
  end.
End tombstone.

(** ** Session generations *)

Definition currentTenantGeneration (tenantID : uuid) (d : DB) : Z :=
  tenant_generation tenantID (sessions d).

(** INCR and EXPIRE *)
Definition incr_generation (tenantID : uuid) (d : DB) : DB :=
  set_sessions (incr_tenant_generation (ji_refreshTTL tokenIssuer * 2) tenantID (sessions d)) d.

(** [Refresh] refuses a refresh token whose tenant generation differs from the
    counter. *)
Definition session_live (tokenGen : Z) (tenantID : uuid) (d : DB) : bool :=
  bool_decide (tokenGen = currentTenantGeneration tenantID d).
