(* ===== verification/TenancyPostgres.v ===== *)
(** The tenant lifecycle: the repository methods of services/iam/db/postgres.go
    over the statements of [TenancyQueries], and the revocation of a tenant's
    sessions of pkg/auth/jwt.go. *)

From S2P Require Export TenancyModel.
From S2P Require TenancyQueries.
Local Open Scope Z_scope.

Section postgres.
Context {X : External}.
Variable days_before : Z -> Time -> Time.
Variable name_key : string -> string.

Abbreviation Repo := (M St (error IamErr)) (only parsing).

(** ** Conversions *)

Definition pgTextToString (t : option string) : string := default "" t.

Definition dbTenantToDomain (t : TenantRow) : Tenant :=
  mkTenant (tn_ID t) (tn_Name t) (tn_Slug t) (tn_Plan t) (tn_Status t) (tn_IsDemo t) (tn_CreatedAt t)
    (pgTextToString (tn_AddressLine1 t)) (pgTextToString (tn_AddressLine2 t))
    (pgTextToString (tn_City t)) (tn_CountryCode t) (pgTextToString (tn_PostalCode t))
    (tn_PrimaryCurrencyCode t) (tn_SuspendedAt t) (tn_DeactivatedAt t) (tn_HoldUntil t)
    (tn_FreezeReason t).

Definition dbPurgeRequestToDomain (r : PurgeRow) : TenantPurgeRequest :=
  mkPurgeRequest (pq_ID r) (pq_TenantID r) (pq_Status r) (pq_RequestedBy r) (pq_RequestedAt r)
    (pq_RequestReason r) (pq_ApprovedBy r) (pq_ApprovedAt r) (pq_CancelledBy r) (pq_CancelledAt r)
    (pq_ExecutedAt r) (pq_FailureReason r) (pq_TenantName r) (pq_TenantSlug r).

(** ** Tenants *)

Definition GetTenant (id : uuid) : Repo Tenant :=
  row ← map_err (no_rows_as ErrTenantNotFound "iam/db: get tenant: %w")
    (q_query (TenancyQueries.GetTenant id));
  mret (dbTenantToDomain row).

Definition UpdateTenantStatus (id : uuid) (newStatus : string) (holdUntil : option Time)
    (freezeReason : option string) : Repo unit :=
  now ← time_now;
  _ ← map_err (no_rows_as ErrTenantNotFound "iam/db: update tenant status: %w")
    (q_exec (TenancyQueries.UpdateTenantStatus now id newStatus holdUntil freezeReason));
  mret tt.

Definition CountTenantsOnHold : Repo Z :=
  map_err (pg_wrap "iam/db: count tenants on hold: %w") (q_query TenancyQueries.CountTenantsOnHold).

Definition ClearTenantLegalHold (id : uuid) : Repo Tenant :=
  row ← map_err (no_rows_as ErrTenantNotFound "iam/db: clear tenant legal hold: %w")
    (q_exec (TenancyQueries.ClearTenantLegalHold id));
  mret (dbTenantToDomain row).

Definition SetTenantLegalHold (id : uuid) (holdUntil : option Time) (freezeReason : string) :
    Repo Tenant :=
  row ← map_err (no_rows_as ErrTenantNotFound "iam/db: set tenant legal hold: %w")
    (q_exec (TenancyQueries.SetTenantLegalHold id holdUntil (Some freezeReason)));
  mret (dbTenantToDomain row).

(** (tenant, ok): no row means another worker was first, or no such tenant. *)
Definition TransitionTenantStatus (id : uuid) (from to : string) : Repo (option Tenant) :=
  now ← time_now;
  r ← try (q_exec (TenancyQueries.TransitionTenantStatus now id from to));
  match r with
  | Ok row => mret (Some (dbTenantToDomain row))
  | Err PgNoRows => mret None
  | Err e => mthrow (pg_wrap "iam/db: transition tenant status: %w" e)
  end.

Definition ListTenantsDueForLifecycle (now : Time) (limit : Z) : Repo (list Tenant) :=
  rows ← map_err (pg_wrap "iam/db: list due-for-lifecycle: %w")
    (q_query (TenancyQueries.ListTenantsDueForLifecycle days_before now (int32 limit)));
  mret (dbTenantToDomain <$> rows).

(** ** Purge requests *)

(** [isUniqueViolationOn(err, "tenant_purge_requests_one_open")] *)
Definition create_purge_error (e : named_pg_error) : error IamErr :=
  match e with
  | UniqueOn c => if decide (c = "tenant_purge_requests_one_open") then ESent ErrPurgeRequestExists
                  else pg_wrap "iam/db: create purge request: %w" PgUniqueViolation
  | OtherPg e => pg_wrap "iam/db: create purge request: %w" e
  end.

Definition CreateTenantPurgeRequest (req : TenantPurgeRequest) : Repo TenantPurgeRequest :=
  now ← time_now;
  row ← map_err create_purge_error
    (with_tx (OtherPg PgConnection)
       (TenancyQueries.CreateTenantPurgeRequest now (pr_ID req) (pr_TenantID req)
          (pr_RequestedBy req) (pr_RequestReason req) (pr_TenantName req) (pr_TenantSlug req)));
  mret (dbPurgeRequestToDomain row).

Definition GetOpenTenantPurgeRequest (tenantID : uuid) : Repo TenantPurgeRequest :=
  row ← map_err (no_rows_as ErrPurgeRequestNotFound "iam/db: get open purge request: %w")
    (q_query (TenancyQueries.GetOpenTenantPurgeRequest tenantID));
  mret (dbPurgeRequestToDomain row).

Definition ApproveTenantPurgeRequest (tenantID requestID approverID : uuid) :
    Repo TenantPurgeRequest :=
  now ← time_now;
  row ← map_err (no_rows_as ErrPurgeRequestNotFound "iam/db: approve purge request: %w")
    (q_exec (TenancyQueries.ApproveTenantPurgeRequest now requestID
               (pgUUIDFromPtr (Some approverID)) tenantID));
  mret (dbPurgeRequestToDomain row).

Definition CancelTenantPurgeRequest (tenantID requestID cancellerID : uuid) :
    Repo TenantPurgeRequest :=
  now ← time_now;
  row ← map_err (no_rows_as ErrPurgeRequestNotFound "iam/db: cancel purge request: %w")
    (q_exec (TenancyQueries.CancelTenantPurgeRequest now requestID
               (pgUUIDFromPtr (Some cancellerID)) tenantID));
  mret (dbPurgeRequestToDomain row).

Definition ListApprovedTenantPurgeRequests (limit : Z) : Repo (list TenantPurgeRequest) :=
  rows ← map_err (pg_wrap "iam/db: list approved purge requests: %w")
    (q_query (TenancyQueries.ListApprovedTenantPurgeRequests (int32 limit)));
  mret (dbPurgeRequestToDomain <$> rows).

Definition MarkTenantPurgeRequestFailed (requestID : uuid) (reason : string) :
    Repo TenantPurgeRequest :=
  row ← map_err (no_rows_as ErrPurgeRequestNotFound "iam/db: mark purge request failed: %w")
    (q_exec (TenancyQueries.MarkTenantPurgeRequestFailed requestID (pgTextFromString reason)));
  mret (dbPurgeRequestToDomain row).

(** The body of the purge transaction: claim the request, drop the schema,
    tombstone the tenant; an error rolls all of it back. *)
Definition purge_tx (now : Time) (tenantID requestID : uuid) (d : DB) :
    result (error IamErr) (unit * DB) :=
  let '(claimed, d1) := TenancyQueries.claim_request now requestID d in
  if decide (claimed = 0) then Err (ESent ErrPurgeRequestNotApproved)
  else let d2 := TenancyQueries.drop_schema tenantID d1 in
       match TenancyQueries.tombstone name_key now tenantID d2 with
       | Err e => Err (pg_wrap "iam/db: tombstone tenant %s: %w" e)
       | Ok (ct, d3) => if decide (ct = 0) then Err (ESent ErrTenantNotPurgeable) else Ok (tt, d3)
       end.

(** [tx.Commit]: the answer may be lost after the server committed. *)
Definition commit_answer : Repo unit :=
  with_tx (EText "commit: connection failed") (fun d => Ok (tt, d)).

Definition PurgeTenantSchemaAndTombstone (tenantID requestID : uuid) : Repo unit :=
  now ← time_now;
  _ ← with_tx (EWrap "iam/db: purge begin tx: %w" (EText "connection failed"))
        (purge_tx now tenantID requestID);
  commit_answer.

(** ** Sessions *)

(** [RevokeAllForTenant]: INCR and EXPIRE in one pipeline. *)
Definition RevokeAllForTenant (tenantID : uuid) : Repo unit :=
  with_tx (EWrap "auth: jwt: revoke all tenant sessions: %w" (EText "connection failed"))
    (fun d => Ok (tt, TenancyQueries.incr_generation tenantID d)).

End postgres.
