(* ===== verification/Tenancy.v ===== *)
(** The tenant lifecycle: the methods of services/iam/lifecycle.go, purge.go and
    retention_override.go, SuspendTenant and ClearTenantLegalHold of service.go,
    the billing consumer, and the two batch workers cmd/retention-sweeper and
    cmd/purge-worker. *)

From S2P Require Export TenancyModel.
From S2P Require TenancyPostgres.
Local Open Scope Z_scope.

Section service.
Context {X : External}.
Variable days_before : Z -> Time -> Time.
Variable name_key : string -> string.

(** The part of the service the lifecycle uses: whether an audit logger is
    attached ([WithAuditLogger]). *)
Record Service := mkService { s_audit : bool }.

Abbreviation Op := (M St (error IamErr)) (only parsing).

(** [audit.Logger.Log]: fills in the id and the time, and drops the event when
    the buffer is full. *)
Definition Log (ev : Event) : Op unit :=
  ev ← (if decide (ev_ID ev = uuid_nil) then id ← uuid_new; mret (with_event_id id ev) else mret ev);
  ev ← (if decide (ev_OccurredAt ev = zero_time)
        then now ← time_now; mret (with_event_time now ev) else mret ev);
  emit true ev.

Variable s : Service.
Variable ctx : Ctx.

(** [if s.audit != nil { s.audit.Log(...) }] with the current time. *)
Definition log_now (ev : Time -> Event) : Op unit :=
  if s_audit s then now ← time_now; Log (ev now) else mret tt.

(** ** Reads *)

Definition GetTenant (id : uuid) : Op Tenant :=
  wrap "iam: get tenant %s: %w" (TenancyPostgres.GetTenant id).

Definition ListTenantsDueForLifecycle (now : Time) (limit : Z) : Op (list Tenant) :=
  let limit := if bool_decide (limit <= 0) then 500 else limit in
  TenancyPostgres.ListTenantsDueForLifecycle days_before now limit.

Definition CountTenantsOnHold : Op Z := TenancyPostgres.CountTenantsOnHold.

Definition ListApprovedPurges (limit : Z) : Op (list TenantPurgeRequest) :=
  TenancyPostgres.ListApprovedTenantPurgeRequests limit.

(** ** The lifecycle *)

Definition AdvanceTenantLifecycle (id : uuid) (now : Time) : Op (option LifecycleTransition) :=
  t ← wrap "iam: advance lifecycle %s: %w" (TenancyPostgres.GetTenant id);
  match nextLifecycleStatus t now with
  | None => mret None
  | Some nextStatus =>
    updated ← wrap "iam: transition %s → %s for %s: %w"
      (TenancyPostgres.TransitionTenantStatus id (t_Status t) nextStatus);
    match updated with
    | None => mret None
    | Some updated =>
      let transition := mkTransition (t_ID updated) (t_Name updated) (t_Status t) (t_Status updated) now in
      _ ← (if s_audit s
           then Log (mkEvent uuid_nil id uuid_nil SystemActorRetentionSweeper "" ActionStatusChanged id
                       (Some (mustMarshalStatus (t_Status t)))
                       (Some (mustMarshalStatus (t_Status updated))) None now)
           else mret tt);
      mret (Some transition)
    end
  end.

(** ** Suspension and legal holds *)

Definition actor : ActorInfo := fst (ActorFromContext ctx).

(** The audit event of a hold put on or taken off. *)
Definition hold_event (action : Action) (id : uuid) (before : option Tenant) (after : Tenant)
    (metadata : option json) (now : Time) : Event :=
  mkEvent uuid_nil id (ac_UserID actor) (ac_Email actor) (ac_IP actor) action id
    (Some (mustMarshalHoldState before)) (Some (mustMarshalHoldState (Some after))) metadata now.

Definition SuspendTenant (id : uuid) (holdUntil : option Time) (freezeReason : option string) :
    Op Tenant :=
  let hold := bool_decide (freezeReason <> None) && s_audit s in
  before ← (if hold
            then t ← wrap "iam: suspend tenant %s: %w" (TenancyPostgres.GetTenant id); mret (Some t)
            else mret None);
  _ ← wrap "iam: suspend tenant %s: %w"
        (TenancyPostgres.UpdateTenantStatus id TenantStatusSuspended holdUntil freezeReason);
  _ ← wrap "iam: suspend tenant %s: revoke sessions: %w" (TenancyPostgres.RevokeAllForTenant id);
  after ← wrap "iam: suspend tenant %s: %w" (TenancyPostgres.GetTenant id);
  _ ← (if hold then log_now (hold_event ActionLegalHoldApplied id before after None) else mret tt);
  mret after.

Definition ClearTenantLegalHold (id : uuid) (reason : string) : Op Tenant :=
  before ← wrap "iam: clear legal hold %s: %w" (TenancyPostgres.GetTenant id);
  after ← wrap "iam: clear legal hold %s: %w" (TenancyPostgres.ClearTenantLegalHold id);
  _ ← (if bool_decide (t_FreezeReason before <> None)
       then log_now (hold_event ActionLegalHoldCleared id (Some before) after
                       (Some (mustMarshalClearReason reason)))
       else mret tt);
  mret after.

(** Whether the tenant has a hold in force: a reason that is not empty. *)
Definition held_with_reason (t : Tenant) : bool :=
  match t_FreezeReason t with Some r => negb (bool_decide (r = "")) | None => false end.

Definition SetTenantRetention (id : uuid) (holdUntil : option Time) (freezeReason : string)
    (overwrite : bool) : Op Tenant :=
  before ← wrap "iam: set tenant retention %s: %w" (TenancyPostgres.GetTenant id);
  if negb (isHoldableStatus (t_Status before))
  then mthrow (EWrap "iam: set tenant retention %s (status %s): %w" (ESent ErrTenantNotHoldable))
  else
  past ← match holdUntil with
         | None => mret false
         | Some h => now ← time_now; mret (bool_decide (h <= now))
         end;
  if past : bool then mthrow (EWrap "iam: set tenant retention %s: %w" (ESent ErrHoldUntilInPast))
  else
  let overwrote := held_with_reason before in
  if overwrote && negb overwrite
  then mthrow (EWrap "iam: set tenant retention %s (existing hold %q): %w" (ESent ErrTenantHoldExists))
  else
  let existingIndefinite := held_with_reason before && bool_decide (t_HoldUntil before = None) in
  if existingIndefinite && bool_decide (holdUntil <> None)
  then mthrow (EWrap "iam: set tenant retention %s: %w" (ESent ErrHoldNarrowsIndefinite))
  else
  after ← wrap "iam: set tenant retention %s: %w"
    (TenancyPostgres.SetTenantLegalHold id holdUntil freezeReason);
  let prevReason := if overwrote then t_FreezeReason before else None in
  _ ← log_now (hold_event ActionLegalHoldApplied id (Some before) after
                 (Some (mustMarshalRetentionMeta overwrote prevReason)));
  mret after.

(** ** The two-person purge *)

Definition auditPurge (action : Action) (tenantID : uuid) (actor : ActorInfo) (reason : string) :
    Op unit :=
  log_now (fun now => mkEvent uuid_nil tenantID (ac_UserID actor) (ac_Email actor) (ac_IP actor)
                        action tenantID None None (Some (mustMarshalClearReason reason)) now).

Definition RequestTenantPurge (tenantID : uuid) (reason : string) : Op TenantPurgeRequest :=
  tenant ← wrap "iam: request tenant purge %s: %w" (TenancyPostgres.GetTenant tenantID);
  if negb (bool_decide (t_Status tenant = TenantStatusPurgeEligible))
  then mthrow (EWrap "iam: request tenant purge %s (status %s): %w" (ESent ErrTenantNotPurgeable))
  else
  id ← uuid_new;
  let req := mkPurgeRequest id tenantID PurgeRequestPending (ac_UserID actor) zero_time reason
               None None None None None None (t_Name tenant) (t_Slug tenant) in
  req ← wrap "iam: request tenant purge %s: %w" (TenancyPostgres.CreateTenantPurgeRequest req);
  _ ← auditPurge ActionPurgeRequested tenantID actor reason;
  mret req.

Definition ApproveTenantPurge (tenantID : uuid) (reason : string) : Op TenantPurgeRequest :=
  open ← wrap "iam: approve tenant purge %s: %w" (TenancyPostgres.GetOpenTenantPurgeRequest tenantID);
  if negb (bool_decide (pr_Status open = PurgeRequestPending))
  then mthrow (EWrap "iam: approve tenant purge %s: %w" (ESent ErrPurgeRequestNotFound))
  else if bool_decide (ac_UserID actor = pr_RequestedBy open)
  then mthrow (EWrap "iam: approve tenant purge %s: %w" (ESent ErrSelfApproval))
  else
  tenant ← wrap "iam: approve tenant purge %s: %w" (TenancyPostgres.GetTenant tenantID);
  if negb (bool_decide (t_Status tenant = TenantStatusPurgeEligible))
  then mthrow (EWrap "iam: approve tenant purge %s (status %s): %w" (ESent ErrTenantNotPurgeable))
  else
  approved ← wrap "iam: approve tenant purge %s: %w"
    (TenancyPostgres.ApproveTenantPurgeRequest tenantID (pr_ID open) (ac_UserID actor));
  _ ← auditPurge ActionPurgeApproved tenantID actor reason;
  mret approved.

Definition CancelTenantPurge (tenantID : uuid) (reason : string) : Op TenantPurgeRequest :=
  open ← wrap "iam: cancel tenant purge %s: %w" (TenancyPostgres.GetOpenTenantPurgeRequest tenantID);
  cancelled ← wrap "iam: cancel tenant purge %s: %w"
    (TenancyPostgres.CancelTenantPurgeRequest tenantID (pr_ID open) (ac_UserID actor));
  _ ← auditPurge ActionPurgeCancelled tenantID actor reason;
  mret cancelled.

Definition PurgeApprovedTenant (req : TenantPurgeRequest) : Op unit :=
  r ← try (TenancyPostgres.PurgeTenantSchemaAndTombstone name_key (pr_TenantID req) (pr_ID req));
  match r with
  | Ok _ =>
    log_now (fun now => mkEvent uuid_nil (pr_TenantID req) uuid_nil SystemActorPurgeWorker ""
                          ActionTenantPurged (pr_TenantID req) None None None now)
  | Err err =>
    f ← try (TenancyPostgres.MarkTenantPurgeRequestFailed (pr_ID req) (iam_error_text err));
    match f with
    | Ok _ => mthrow (EWrap "iam: purge %s: %w" err)
    | Err ferr =>
      if errors_Is ferr ErrPurgeRequestNotFound then mret tt
      else mthrow (EWrap "iam: purge %s failed (%v) and mark-failed errored: %w" ferr)
    end
  end.

(** ** The billing consumer *)

(** [Ok] acknowledges the message; an error has it redelivered. *)
Definition Handle (env : Envelope) : Op unit :=
  if negb (bool_decide (env_Type env = SubjectBillingSubscriptionSuspended)) then mret tt
  else
  tenant ← GetTenant (env_TenantID env);
  if negb (bool_decide (t_Status tenant = TenantStatusActive)) then mret tt
  else _ ← SuspendTenant (env_TenantID env) None None; mret tt.

(** ** The retention sweeper *)

(** The counters of a run; metrics and log lines are left out. *)
Record Sweep := mkSweep {
  sw_seen : Z;
  sw_failed : Z;
  sw_transitions : gmap string Z;
  sw_oldestPending : Z;
}.
Definition sweep_start : Sweep := mkSweep 0 0 ∅ 0.

Definition saw (t : Tenant) (now : Time) (w : Sweep) : Sweep :=
  mkSweep (sw_seen w + 1) (sw_failed w) (sw_transitions w)
    (if bool_decide (sw_oldestPending w < pendingAge t now) then pendingAge t now else sw_oldestPending w).
Definition sweep_failure (w : Sweep) : Sweep :=
  mkSweep (sw_seen w) (sw_failed w + 1) (sw_transitions w) (sw_oldestPending w).
Definition sweep_moved (tr : LifecycleTransition) (w : Sweep) : Sweep :=
  let key := lt_FromStatus tr +:+ "→" +:+ lt_ToStatus tr in
  mkSweep (sw_seen w) (sw_failed w) (<[key := default 0 (sw_transitions w !! key) + 1]> (sw_transitions w))
    (sw_oldestPending w).

(** [for _, t := range due] *)
Fixpoint sweep_batch (now : Time) (due : list Tenant) (w : Sweep) : Op Sweep :=
  match due with
  | [] => mret w
  | t :: due' =>
    let w := saw t now w in
    r ← try (AdvanceTenantLifecycle (t_ID t) now);
    sweep_batch now due' (match r with
                          | Err _ => sweep_failure w
                          | Ok None => w
                          | Ok (Some tr) => sweep_moved tr w
                          end)
  end.

(** [for batch := 0; batch < maxBatches; batch++] *)
Fixpoint sweep_batches (n : nat) (now : Time) (batchSize : Z) (w : Sweep) : Op Sweep :=
  match n with
  | O => mret w
  | S n' =>
    due ← wrap "list due tenants: %w" (ListTenantsDueForLifecycle now batchSize);
    if decide (due = []) then mret w
    else w ← sweep_batch now due w;
         if bool_decide (Z.of_nat (length due) < batchSize) then mret w
         else sweep_batches n' now batchSize w
  end.

Definition runSweep (batchSize maxBatches : Z) : Op unit :=
  now ← time_now;
  _ ← try (E' := error IamErr) CountTenantsOnHold;
  w ← sweep_batches (Z.to_nat maxBatches) now batchSize sweep_start;
  if bool_decide (0 < sw_failed w)
  then mthrow (EText "one or more tenants failed to advance (see earlier logs)")
  else mret tt.

(** ** The purge worker *)

(** The requests purged and those that failed. *)
Fixpoint purge_each (reqs : list TenantPurgeRequest) (purged failures : Z) : Op (Z * Z) :=
  match reqs with
  | [] => mret (purged, failures)
  | req :: reqs' =>
    r ← try (E' := error IamErr) (PurgeApprovedTenant req);
    match r with
    | Ok _ => purge_each reqs' (purged + 1) failures
    | Err _ => purge_each reqs' purged (failures + 1)
    end
  end.

Definition runPurge (batchSize : Z) : Op (Z * Z) :=
  reqs ← wrap "list approved purges: %w" (ListApprovedPurges batchSize);
  purge_each reqs 0 0.

End service.
