(* ===== verification/TenancyHandler.v ===== *)
(** The tenant lifecycle: the gRPC handlers of services/iam/handler.go for the
    tenant, its suspension, its legal holds and its purge. *)

From S2P Require Export TenancyModel.
From S2P Require Tenancy.
Local Open Scope Z_scope.

(** ** Messages *)

Record PbTenant := mkPbTenant {
  pbt_Id : string; pbt_Name : string; pbt_Slug : string; pbt_Plan : string; pbt_Status : string;
  pbt_IsDemo : bool; pbt_CreatedAt : Time; pbt_AddressLine1 : string; pbt_AddressLine2 : string;
  pbt_City : string; pbt_CountryCode : string; pbt_PostalCode : string;
  pbt_PrimaryCurrencyCode : string;
}.
Record PbPurgeRequest := mkPbPurgeRequest {
  pbr_Id : string; pbr_TenantId : string; pbr_Status : string; pbr_RequestedBy : string;
  pbr_RequestedAt : Time; pbr_RequestReason : string; pbr_ApprovedBy : string;
  pbr_ApprovedAt : option Time; pbr_ExecutedAt : option Time; pbr_FailureReason : string;
}.

(** The lifecycle RPCs of IAMService. *)
Inductive Rpc :=
| GetTenantRpc (id : string)
| SuspendTenantRpc (id : string) (holdUntil : option Time) (freezeReason : option string)
| ClearTenantLegalHoldRpc (id reason : string)
| SetTenantRetentionRpc (id : string) (holdUntil : option Time) (freezeReason : string)
    (overwrite : bool)
| RequestTenantPurgeRpc (tenantID reason : string)
| ApproveTenantPurgeRpc (tenantID reason : string)
| CancelTenantPurgeRpc (tenantID reason : string).

Inductive Response :=
| TenantResp (t : PbTenant)
| PurgeResp (r : PbPurgeRequest).

(** [grpcError]: the first case of its switch that [errors.Is] accepts. *)
Definition grpcError (e : error IamErr) : status :=
  let any l := existsb (errors_Is e) l in
  if any [ErrUserNotFound; ErrTenantNotFound; ErrRoleNotFound; ErrInvitationNotFound]
  then mkStatus NotFound (iam_error_text e)
  else if any [ErrUserAlreadyExists; ErrTenantSlugTaken; ErrTenantNameTaken]
  then mkStatus AlreadyExists (iam_error_text e)
  else if any [ErrInvitationExpired; ErrInvitationAccepted]
  then mkStatus FailedPrecondition (iam_error_text e)
  else if any [ErrInvalidPlan; ErrRoleNotProjectScoped; ErrHoldUntilInPast; ErrCountryRequired;
               ErrUnknownCountry; ErrAmbiguousEmail]
  then mkStatus InvalidArgument (iam_error_text e)
  else if any [ErrTenantNotHoldable; ErrTenantHoldExists; ErrHoldNarrowsIndefinite; ErrNotDeactivated]
  then mkStatus FailedPrecondition (iam_error_text e)
  else if any [ErrTenantNotPurgeable; ErrSelfApproval; ErrPurgeRequestNotApproved]
  then mkStatus FailedPrecondition (iam_error_text e)
  else if any [ErrPurgeRequestExists] then mkStatus AlreadyExists (iam_error_text e)
  else if any [ErrPurgeRequestNotFound] then mkStatus NotFound (iam_error_text e)
  else if any [ErrInvalidCredentials; ErrTokenExpired; ErrTokenInvalid; ErrSessionRevoked;
               ErrRefreshTokenNotFound]
  then mkStatus Unauthenticated (iam_error_text e)
  else if any [ErrTenantSuspended; ErrTenantInactive; ErrAccountDeactivated; ErrNotPlatformAdmin]
  then mkStatus PermissionDenied (iam_error_text e)
  else if any [ErrAccountInvited] then mkStatus FailedPrecondition (iam_error_text e)
  else mkStatus Internal "internal error".

Section handler.
Context {X : External}.

Definition opt_string (id : option uuid) : string :=
  match id with Some u => uuid_string u | None => "" end.

Definition tenantToProto (t : Tenant) : PbTenant :=
  mkPbTenant (uuid_string (t_ID t)) (t_Name t) (t_Slug t) (t_Plan t) (t_Status t) (t_IsDemo t)
    (t_CreatedAt t) (t_AddressLine1 t) (t_AddressLine2 t) (t_City t) (t_CountryCode t)
    (t_PostalCode t) (t_PrimaryCurrencyCode t).

Definition purgeRequestToProto (pr : TenantPurgeRequest) : PbPurgeRequest :=
  mkPbPurgeRequest (uuid_string (pr_ID pr)) (uuid_string (pr_TenantID pr)) (pr_Status pr)
    (uuid_string (pr_RequestedBy pr)) (pr_RequestedAt pr) (pr_RequestReason pr)
    (opt_string (pr_ApprovedBy pr)) (pr_ApprovedAt pr) (pr_ExecutedAt pr)
    (default "" (pr_FailureReason pr)).

Definition RolePlatformAdmin : string := "platform_admin".

Variable s : Tenancy.Service.
Variable ctx : Ctx.

Abbreviation Op := (M St status) (only parsing).

(** [if err != nil { return nil, grpcError(err) }] *)
Definition svc {A} (m : M St (error IamErr) A) : Op A := map_err grpcError m.

(** [RequireRole] and [uuid.Parse], which every platform RPC starts with. *)
Definition admin_id (id text : string) : Op uuid :=
  _ ← lift_result (RequireRole ctx RolePlatformAdmin);
  lift_result (parse_id id text).
(** [if strings.TrimSpace(req.GetReason()) == ""] *)
Definition not_blank (reason text : string) : Op unit :=
  if bool_decide (TrimSpace reason = "") then mthrow (mkStatus InvalidArgument text) else mret tt.

Definition GetTenant (id : string) : Op PbTenant :=
  tenantID ← lift_result (TenantFromRequest ctx id);
  tenant ← svc (Tenancy.GetTenant tenantID);
  mret (tenantToProto tenant).

Definition SuspendTenant (id : string) (holdUntil : option Time) (freezeReason : option string) :
    Op PbTenant :=
  id ← admin_id id "invalid id";
  tenant ← svc (Tenancy.SuspendTenant s ctx id holdUntil freezeReason);
  mret (tenantToProto tenant).

Definition ClearTenantLegalHold (id reason : string) : Op PbTenant :=
  id ← admin_id id "invalid id";
  tenant ← svc (Tenancy.ClearTenantLegalHold s ctx id reason);
  mret (tenantToProto tenant).

Definition SetTenantRetention (id : string) (holdUntil : option Time) (freezeReason : string)
    (overwrite : bool) : Op PbTenant :=
  id ← admin_id id "invalid id";
  _ ← not_blank freezeReason "freeze_reason is required";
  tenant ← svc (Tenancy.SetTenantRetention s ctx id holdUntil freezeReason overwrite);
  mret (tenantToProto tenant).

Definition RequestTenantPurge (tenantID reason : string) : Op PbPurgeRequest :=
  id ← admin_id tenantID "invalid tenant_id";
  _ ← not_blank reason "reason is required";
  pr ← svc (Tenancy.RequestTenantPurge s ctx id reason);
  mret (purgeRequestToProto pr).

Definition ApproveTenantPurge (tenantID reason : string) : Op PbPurgeRequest :=
  id ← admin_id tenantID "invalid tenant_id";
  _ ← not_blank reason "reason is required";
  pr ← svc (Tenancy.ApproveTenantPurge s ctx id reason);
  mret (purgeRequestToProto pr).

Definition CancelTenantPurge (tenantID reason : string) : Op PbPurgeRequest :=
  id ← admin_id tenantID "invalid tenant_id";
  _ ← not_blank reason "reason is required";
  pr ← svc (Tenancy.CancelTenantPurge s ctx id reason);
  mret (purgeRequestToProto pr).

Definition handle (r : Rpc) : Op Response :=
  match r with
  | GetTenantRpc id => t ← GetTenant id; mret (TenantResp t)
  | SuspendTenantRpc id h f => t ← SuspendTenant id h f; mret (TenantResp t)
  | ClearTenantLegalHoldRpc id reason => t ← ClearTenantLegalHold id reason; mret (TenantResp t)
  | SetTenantRetentionRpc id h f o => t ← SetTenantRetention id h f o; mret (TenantResp t)
  | RequestTenantPurgeRpc id reason => p ← RequestTenantPurge id reason; mret (PurgeResp p)
  | ApproveTenantPurgeRpc id reason => p ← ApproveTenantPurge id reason; mret (PurgeResp p)
  | CancelTenantPurgeRpc id reason => p ← CancelTenantPurge id reason; mret (PurgeResp p)
  end.

End handler.
