(* ===== verification/TenancySteps.v ===== *)
(** The tenant lifecycle: the relation every statement stays within, whatever
    requests interleave.  Rows are never deleted; a tenant's clock starts once; a
    purge request keeps who asked and who approved, and a closed one never
    changes; a schema goes only with an executed request for its tenant. *)

From S2P Require Export TenancyModel Logic.
From S2P Require TenancyQueries TenancyPostgres Tenancy TenancyHandler.
Local Open Scope Z_scope.

(** ** The relation *)

Section tenancy.
(** Who may act as a platform administrator. *)
Variable admin : uuid -> Prop.

(** Set once: a value that is there stays. *)
Definition kept {A} (o o' : option A) : Prop := forall a, o = Some a -> o' = Some a.

Definition tenant_step (k : uuid) (o : option TenantRow) (r' : TenantRow) : Prop :=
  tn_ID r' = k
  /\ match o with
     | None => True
     | Some r => kept (tn_SuspendedAt r) (tn_SuspendedAt r')
                 /\ kept (tn_DeactivatedAt r) (tn_DeactivatedAt r')
                 /\ (is_Some (tn_PurgedAt r) -> is_Some (tn_PurgedAt r'))
     end.

(** A request comes from an administrator; one that got as far as an approval was
    approved by another one. *)
Definition second_person (r : PurgeRow) : Prop :=
  exists b, pq_ApprovedBy r = Some b /\ b <> pq_RequestedBy r /\ admin b.
Definition approved_well (r : PurgeRow) : Prop :=
  admin (pq_RequestedBy r)
  /\ (pq_Status r = "approved" \/ pq_Status r = "failed" \/ pq_Status r = "executed" ->
      second_person r).

(** How a request moves: a pending one anywhere, an approved one never back, a
    closed one not at all. *)
Definition request_moves (r r' : PurgeRow) : Prop :=
  r' = r
  \/ pq_Status r = "pending"
  \/ pq_Status r = "approved" /\ pq_Status r' <> "pending".

Definition request_step (k : uuid) (o : option PurgeRow) (r' : PurgeRow) : Prop :=
  pq_ID r' = k
  /\ match o with
     | None => approved_well r'
     | Some r => pq_TenantID r' = pq_TenantID r /\ pq_RequestedBy r' = pq_RequestedBy r
                 /\ request_moves r r' /\ (approved_well r -> approved_well r')
     end.

(** Why a schema is gone: an executed request for its tenant, which is a
    tombstone. *)
Definition purged_tenant (d : DB) (t : uuid) : Prop :=
  (exists k r, purge_requests d !! k = Some r /\ pq_TenantID r = t /\ pq_Status r = "executed")
  /\ exists tr, tenants d !! t = Some tr /\ is_Some (tn_PurgedAt tr).

Record tstep (d d' : DB) : Prop := {
  ts_tenants : table_step tenant_step (tenants d) (tenants d');
  ts_requests : table_step request_step (purge_requests d) (purge_requests d');
  ts_schemas : forall t, t ∈ schemas d -> t ∉ schemas d' -> purged_tenant d' t;
}.

Lemma kept_refl {A} (o : option A) : kept o o.
Proof. by intros a. Qed.
Lemma kept_trans {A} (o1 o2 o3 : option A) : kept o1 o2 -> kept o2 o3 -> kept o1 o3.
Proof. unfold kept. auto. Qed.
Lemma kept_stamp to state now o : kept o (TenancyQueries.stamp to state now o).
Proof. intros a ->. unfold TenancyQueries.stamp. by rewrite andb_false_r. Qed.
#[local] Hint Resolve kept_refl kept_stamp : core.

#[local] Instance tenant_step_preorder : PreOrder (table_step tenant_step).
Proof.
  apply table_step_preorder. intros k o r1 r2 [Hk Ho] [Hk2 (H1 & H2 & H3)]. split; [done|].
  destruct o as [r|]; [|done]. destruct Ho as (? & ? & ?). split_and!; [by eapply kept_trans..|auto].
Qed.

Lemma request_moves_trans r1 r2 r3 :
  request_moves r1 r2 -> request_moves r2 r3 -> request_moves r1 r3.
Proof.
  intros [->|[Hp|[Ha Hn]]] H; [done|by right; left|].
  destruct H as [->|[Hp|[Ha2 Hn2]]]; [by right; right|congruence|]. right. right. by split.
Qed.

#[local] Instance request_step_preorder : PreOrder (table_step request_step).
Proof.
  apply table_step_preorder. intros k o r1 r2 [Hk Ho] [Hk2 (H1 & H2 & H3 & H4)]. split; [done|].
  destruct o as [r|]; [|by apply H4]. destruct Ho as (H5 & H6 & H7 & H8).
  split_and!; [congruence..|by eapply request_moves_trans|auto].
Qed.

(** A closed request stays as it is. *)
Lemma closed_request_kept t t' k r :
  table_step request_step t t' -> t !! k = Some r ->
  pq_Status r <> "pending" -> pq_Status r <> "approved" -> t' !! k = Some r.
Proof.
  intros Hst Hk Hp Ha. destruct (table_step_some _ _ _ _ Hst Hk) as (r' & Hk' & [->|HQ]); [done|].
  destruct HQ as (_ & _ & _ & [->|[?|[? _]]] & _); done.
Qed.

Lemma purged_tenant_step d d' t :
  table_step tenant_step (tenants d) (tenants d') ->
  table_step request_step (purge_requests d) (purge_requests d') ->
  purged_tenant d t -> purged_tenant d' t.
Proof.
  intros Ht Hr [(k & r & Hk & Hrt & Hs) (tr & Htr & Hp)]. split.
  - exists k, r. split; [|done]. eapply closed_request_kept; [done..| |]; by rewrite Hs.
  - destruct (table_step_some _ _ _ _ Ht Htr) as (tr' & Htr' & [->|HQ]); [by eauto|].
    destruct HQ as (_ & _ & _ & Hkept). exists tr'. split; [done|]. by apply Hkept.
Qed.

#[local] Instance tstep_preorder : PreOrder tstep.
Proof.
  split.
  - intros d. split; [reflexivity..|done].
  - intros d1 d2 d3 [H1 H2 H3] [H4 H5 H6]. split; [by etrans..|].
    intros t Hin Hout. destruct (decide (t ∈ schemas d2)) as [Hi|Hi]; [by apply H6|].
    eapply purged_tenant_step; [done..|]. by apply H3.
Qed.

(** Rows sit under their own id. *)
Record keyed (d : DB) : Prop := {
  keyed_tenants : map_Forall (fun k r => tn_ID r = k) (tenants d);
  keyed_requests : map_Forall (fun k r => pq_ID r = k) (purge_requests d);
}.
Lemma keyed_tstep d d' : tstep d d' -> keyed d -> keyed d'.
Proof.
  intros [Ht Hr _] [Kt Kr]. split.
  - eapply table_step_forall; [|exact Ht|done]. intros k o r [-> _] _. done.
  - eapply table_step_forall; [|exact Hr|done]. intros k o r [-> _] _. done.
Qed.

(** ** Statements *)

Lemma tstep_tenant d k r r' :
  tenants d !! k = Some r -> tenant_step k (Some r) r' -> tstep d (set_tenants (<[k := r']> (tenants d)) d).
Proof.
  intros Hk HQ. split; simpl; [|reflexivity|done]. apply table_step_insert. by rewrite Hk.
Qed.
Lemma tstep_request d k o r' :
  purge_requests d !! k = o -> request_step k o r' ->
  tstep d (set_purge_requests (<[k := r']> (purge_requests d)) d).
Proof.
  intros Hk HQ. split; simpl; [reflexivity| |done]. apply table_step_insert. by rewrite Hk.
Qed.
Lemma tstep_generation d t : tstep d (TenancyQueries.incr_generation t d).
Proof. split; simpl; [reflexivity..|done]. Qed.

Section statements.
Context {X : External}.

Lemma UpdateTenantStatus_tstep now id st h f d a d' :
  keyed d -> TenancyQueries.UpdateTenantStatus now id st h f d = Ok (a, d') -> tstep d d'.
Proof.
  intros [Kt _]. unfold TenancyQueries.UpdateTenantStatus. intros H.
  destruct (tenants d !! id) as [r|] eqn:Hk; [|done]. case_match; [done|]. simplify_eq.
  eapply tstep_tenant; [done|]. split; [exact (Kt _ _ Hk)|]. simpl. auto.
Qed.
Lemma TransitionTenantStatus_tstep now id from to d a d' :
  keyed d -> TenancyQueries.TransitionTenantStatus now id from to d = Ok (a, d') -> tstep d d'.
Proof.
  intros [Kt _]. unfold TenancyQueries.TransitionTenantStatus. intros H.
  destruct (get_row _ _ _) as [r|] eqn:Hk; [|done]. apply get_row_Ok in Hk as [Hk _].
  case_match; [done|]. simplify_eq. eapply tstep_tenant; [done|].
  split; [exact (Kt _ _ Hk)|]. simpl. auto.
Qed.
Lemma SetTenantLegalHold_tstep id h f d a d' :
  keyed d -> TenancyQueries.SetTenantLegalHold id h f d = Ok (a, d') -> tstep d d'.
Proof.
  intros [Kt _]. unfold TenancyQueries.SetTenantLegalHold. intros H.
  destruct (tenants d !! id) as [r|] eqn:Hk; [|done]. simplify_eq.
  eapply tstep_tenant; [done|]. split; [exact (Kt _ _ Hk)|]. simpl. auto.
Qed.
Lemma ClearTenantLegalHold_tstep id d a d' :
  keyed d -> TenancyQueries.ClearTenantLegalHold id d = Ok (a, d') -> tstep d d'.
Proof.
  intros [Kt _]. unfold TenancyQueries.ClearTenantLegalHold. intros H.
  destruct (tenants d !! id) as [r|] eqn:Hk; [|done]. simplify_eq.
  eapply tstep_tenant; [done|]. split; [exact (Kt _ _ Hk)|]. simpl. auto.
Qed.

Lemma CreateTenantPurgeRequest_tstep now id t by_ re n s d a d' :
  admin by_ ->
  TenancyQueries.CreateTenantPurgeRequest now id t by_ re n s d = Ok (a, d') -> tstep d d'.
Proof.
  unfold TenancyQueries.CreateTenantPurgeRequest. intros Had H.
  case_bool_decide as Hk; [done|]. case_match; [done|]. simplify_eq.
  eapply tstep_request; [by apply eq_None_not_Some|]. split; [done|]. split; [done|].
  intros [[=]|[[=]|[=]]].
Qed.

(** A guarded update of a request. *)
Lemma update_request_Ok p f id d a d' :
  TenancyQueries.update_request p f id d = Ok (a, d') ->
  exists r, purge_requests d !! id = Some r /\ p r = true /\ a = f r
            /\ d' = set_purge_requests (<[id := f r]> (purge_requests d)) d.
Proof.
  unfold TenancyQueries.update_request. destruct (get_row _ _ _) as [r|] eqn:Hk; [|done].
  apply get_row_Ok in Hk as [Hk Hp]. intros [= <- <-]. eauto.
Qed.

Lemma Approve_tstep now id b t d a d' :
  keyed d -> admin b -> (forall r, purge_requests d !! id = Some r -> b <> pq_RequestedBy r) ->
  TenancyQueries.ApproveTenantPurgeRequest now id (Some b) t d = Ok (a, d') -> tstep d d'.
Proof.
  intros [_ Kr] Had Hb H. apply update_request_Ok in H as (r & Hk & Hp & -> & ->).
  bool_hyps. eapply tstep_request; [done|]. split; [exact (Kr _ _ Hk)|]. simpl.
  split_and!; [done..|by right; left|]. intros [Hr _]. split; [done|].
  intros _. exists b. split; [done|]. split; [exact (Hb _ Hk)|done].
Qed.
Lemma Cancel_tstep now id b t d a d' :
  keyed d -> TenancyQueries.CancelTenantPurgeRequest now id b t d = Ok (a, d') -> tstep d d'.
Proof.
  intros [_ Kr] H. apply update_request_Ok in H as (r & Hk & Hp & -> & ->).
  apply andb_true_iff in Hp as [Hp _]. eapply tstep_request; [done|]. split; [exact (Kr _ _ Hk)|]. simpl.
  split_and!; [done..| |intros [Hr _]; split; [done|by intros [[=]|[[=]|[=]]]]]. right.
  apply orb_true_iff in Hp as [Hp|Hp]; bool_hyps; [by left|right; by split].
Qed.
Lemma MarkFailed_tstep id re d a d' :
  keyed d -> TenancyQueries.MarkTenantPurgeRequestFailed id re d = Ok (a, d') -> tstep d d'.
Proof.
  intros [_ Kr] H. apply update_request_Ok in H as (r & Hk & Hp & -> & ->). bool_hyps.
  eapply tstep_request; [done|]. split; [exact (Kr _ _ Hk)|]. simpl.
  split_and!; [done..|by right; right|]. intros [Hr Hw]. split; [done|]. intros _. apply Hw. by left.
Qed.

(** What the purge transaction did when it did anything. *)
Lemma purge_tx_Ok name_key now t id d a d' :
  TenancyPostgres.purge_tx name_key now t id d = Ok (a, d') ->
  exists r tr, purge_requests d !! id = Some r /\ pq_Status r = "approved"
    /\ tenants d !! t = Some tr /\ tn_Status tr = "purge_eligible"
    /\ d' = mkDB (<[t := TenancyQueries.tombstoned ("purged-" +:+ uuid_string t)
                           (pg_time now) tr]> (tenants d))
              (<[id := TenancyQueries.executed_request now r]> (purge_requests d))
              (schemas d ∖ {[t]}) (sessions d) (accounts d).
Proof.
  unfold TenancyPostgres.purge_tx, TenancyQueries.claim_request.
  destruct (TenancyQueries.update_request _ _ id d) as [[r' d1]|] eqn:Hu; [|done].
  apply update_request_Ok in Hu as (r & Hk & Hp & -> & ->). bool_hyps.
  unfold TenancyQueries.tombstone, TenancyQueries.drop_schema. simpl.
  destruct (get_row _ _ _) as [tr|] eqn:Ht; simpl; [|done].
  apply get_row_Ok in Ht as [Ht Hs]. bool_hyps. destruct (TenancyQueries.name_taken _ _ _ _); [done|].
  simpl. intros [= _ <-]. by exists r, tr.
Qed.


Lemma purge_tx_tstep name_key now t id d a d' :
  keyed d -> (forall r, purge_requests d !! id = Some r -> pq_TenantID r = t) ->
  TenancyPostgres.purge_tx name_key now t id d = Ok (a, d') -> tstep d d'.
Proof.
  intros [Kt Kr] Hreq H. apply purge_tx_Ok in H as (r & tr & Hk & Hs & Ht & Hts & ->).
  split; simpl.
  - apply table_step_insert. rewrite Ht. split; [exact (Kt _ _ Ht)|]. simpl. split_and!; [done..|eauto].
  - apply table_step_insert. rewrite Hk. split; [exact (Kr _ _ Hk)|]. simpl.
    split_and!; [done..|by right; right|]. intros [Hr Hw]. split; [done|]. intros _. apply Hw. by left.
  - intros u Hu Hnu. rewrite elem_of_difference, elem_of_singleton in Hnu.
    destruct (decide (u = t)) as [->|]; [|naive_solver]. split; simpl.
    + eexists id, _. rewrite lookup_insert_eq. split; [done|]. split; [exact (Hreq _ Hk)|done].
    + eexists. rewrite lookup_insert_eq. split; [done|]. simpl. eauto.
Qed.

End statements.

(** ** Programs *)

Section programs.
Implicit Types (w : World St).

Abbreviation R := (store_step (Ev:=Event) tstep) (only parsing).

Lemma steps_keyed_tx {E A} (down : E) (body : DB -> result E (A * DB)) w :
  keyed (store_db (w_st w)) ->
  (forall d a d', tstep (store_db (w_st w)) d -> keyed d -> body d = Ok (a, d') -> tstep d d') ->
  steps R (with_tx down body) w.
Proof.
  intros Hk Hq. apply steps_tx. intros s1 a s2 _ [Hs _] H. unfold on_db in H.
  destruct (body (store_db s1)) as [[a' d]|] eqn:Hd; simplify_eq. split; [|done].
  eapply Hq; [exact Hs| |exact Hd]. by eapply keyed_tstep.
Qed.
Lemma steps_keyed {A} (q : DB -> result pg_error (A * DB)) w :
  keyed (store_db (w_st w)) ->
  (forall d a d', tstep (store_db (w_st w)) d -> keyed d -> q d = Ok (a, d') -> tstep d d') ->
  steps R (q_exec q) w.
Proof. exact (steps_keyed_tx PgConnection q w). Qed.

(** Rows stay keyed from one call to the next. *)
Lemma steps_bind_keyed {E A B} (m : M St E A) (f : A -> M St E B) w :
  keyed (store_db (w_st w)) -> steps R m w ->
  (forall a w', m w = (Ok a, w') -> keyed (store_db (w_st w')) -> R (w_st w) (w_st w') ->
     rely R w -> rely R w' -> steps R (f a) w') ->
  steps R (m ≫= f) w.
Proof.
  intros Hk Hm Hf. apply steps_bind; [done|]. intros a w' Hw HR Hs HR'. apply Hf; [done| |done..].
  destruct Hs as [Hs _]. by eapply keyed_tstep.
Qed.

End programs.

End tenancy.

#[export] Existing Instance tstep_preorder.

(** The tenant lifecycle: every method, RPC and worker of the IAM service stays
    within [tstep], whatever runs beside it. *)

Local Open Scope Z_scope.

(** Structural goals of programs that need keyed rows. *)
Ltac ksteps :=
  repeat match goal with
  | |- forall _, _ => intros ?
  | |- steps _ (mret _) _ => apply steps_ret
  | |- steps _ (mthrow _) _ => apply steps_throw
  | |- steps _ (lift_result _) _ => apply steps_lift
  | |- steps _ uuid_new _ => apply steps_uuid
  | |- steps _ time_now _ => apply steps_time
  | |- steps _ (_ ≫= _) _ => apply steps_bind_keyed; [assumption| |]
  | |- steps _ (map_err _ _) _ => apply steps_map_err
  | |- steps _ (wrap _ _) _ => apply steps_wrap
  | |- steps _ (try _) _ => apply steps_try
  | |- steps _ (emit _ _) _ => apply steps_emit
  | |- steps _ (q_query _) _ => apply steps_store_query
  | |- steps _ (if decide ?P then _ else _) _ => destruct (decide P)
  | |- steps _ (if ?b then _ else _) _ => destruct b eqn:?
  | |- steps _ (match ?x with _ => _ end) _ => destruct x eqn:?
  end.

Section service.
Context {X : External}.
Variable admin : uuid -> Prop.
Variable days_before : Z -> Time -> Time.
Variable name_key : string -> string.
Variable s : Tenancy.Service.
Implicit Types (w : World St).
Abbreviation R := (store_step (Ev:=Event) (tstep admin)) (only parsing).

Lemma Log_steps ev w : keyed (store_db (w_st w)) -> steps R (Tenancy.Log ev) w.
Proof. intros. unfold Tenancy.Log. ksteps. Qed.
Lemma log_now_steps ev w : keyed (store_db (w_st w)) -> steps R (Tenancy.log_now s ev) w.
Proof. intros. unfold Tenancy.log_now. ksteps. by apply Log_steps. Qed.
Lemma GetTenant_steps id w : keyed (store_db (w_st w)) -> steps R (TenancyPostgres.GetTenant id) w.
Proof. intros. unfold TenancyPostgres.GetTenant. ksteps. Qed.
Lemma GetOpen_steps id w :
  keyed (store_db (w_st w)) -> steps R (TenancyPostgres.GetOpenTenantPurgeRequest id) w.
Proof. intros. unfold TenancyPostgres.GetOpenTenantPurgeRequest. ksteps. Qed.

Lemma Advance_steps id now w :
  keyed (store_db (w_st w)) -> steps R (Tenancy.AdvanceTenantLifecycle s id now) w.
Proof.
  intros. unfold Tenancy.AdvanceTenantLifecycle, TenancyPostgres.TransitionTenantStatus.
  ksteps; [by apply GetTenant_steps| |by apply Log_steps].
  apply steps_keyed; [done|]. intros. by eapply TransitionTenantStatus_tstep.
Qed.

Lemma UpdateStatus_steps id st h f w :
  keyed (store_db (w_st w)) -> steps R (TenancyPostgres.UpdateTenantStatus id st h f) w.
Proof.
  intros. unfold TenancyPostgres.UpdateTenantStatus. ksteps.
  apply steps_keyed; [done|]. intros. by eapply UpdateTenantStatus_tstep.
Qed.
Lemma Revoke_steps id w :
  keyed (store_db (w_st w)) -> steps R (TenancyPostgres.RevokeAllForTenant id) w.
Proof. intros. apply steps_keyed_tx; [done|]. intros d a d' _ _ [= _ <-]. apply tstep_generation. Qed.

#[local] Hint Resolve Log_steps log_now_steps GetTenant_steps GetOpen_steps UpdateStatus_steps
  Revoke_steps : core.

Lemma Suspend_steps ctx id h f w :
  keyed (store_db (w_st w)) -> steps R (Tenancy.SuspendTenant s ctx id h f) w.
Proof. intros. unfold Tenancy.SuspendTenant. cbv zeta. ksteps; eauto. Qed.

Lemma ClearHold_steps ctx id re w :
  keyed (store_db (w_st w)) -> steps R (Tenancy.ClearTenantLegalHold s ctx id re) w.
Proof.
  intros. unfold Tenancy.ClearTenantLegalHold, TenancyPostgres.ClearTenantLegalHold. ksteps; eauto.
  apply steps_keyed; [done|]. intros. by eapply ClearTenantLegalHold_tstep.
Qed.

Lemma SetRetention_steps ctx id h f o w :
  keyed (store_db (w_st w)) -> steps R (Tenancy.SetTenantRetention s ctx id h f o) w.
Proof.
  intros. unfold Tenancy.SetTenantRetention, TenancyPostgres.SetTenantLegalHold. cbv zeta.
  ksteps; eauto. apply steps_keyed; [done|]. intros. by eapply SetTenantLegalHold_tstep.
Qed.

Lemma RequestPurge_steps ctx id re w :
  keyed (store_db (w_st w)) -> admin (ac_UserID (Tenancy.actor ctx)) -> steps R (Tenancy.RequestTenantPurge s ctx id re) w.
Proof.
  intros. unfold Tenancy.RequestTenantPurge, TenancyPostgres.CreateTenantPurgeRequest,
    Tenancy.auditPurge. cbv zeta. ksteps; eauto.
  apply steps_keyed_tx; [done|]. intros. by eapply CreateTenantPurgeRequest_tstep.
Qed.

Lemma CancelPurge_steps ctx id re w :
  keyed (store_db (w_st w)) -> steps R (Tenancy.CancelTenantPurge s ctx id re) w.
Proof.
  intros. unfold Tenancy.CancelTenantPurge, TenancyPostgres.CancelTenantPurgeRequest,
    Tenancy.auditPurge. ksteps; eauto.
  apply steps_keyed; [done|]. intros. by eapply Cancel_tstep.
Qed.

(** The open request read is a stored one, which keeps its tenant and requester. *)
Lemma request_kept d d' k r :
  tstep admin d d' -> purge_requests d !! k = Some r ->
  exists r', purge_requests d' !! k = Some r' /\ pq_TenantID r' = pq_TenantID r
             /\ pq_RequestedBy r' = pq_RequestedBy r.
Proof.
  intros [_ Hr _] Hk. destruct (table_step_some _ _ _ _ Hr Hk) as (r' & Hk' & [->|HQ]); [by eauto|].
  destruct HQ as (_ & ? & ? & _). eauto.
Qed.

Lemma GetOpen_read id w pr w' :
  TenancyPostgres.GetOpenTenantPurgeRequest id w = (Ok pr, w') -> keyed (store_db (w_st w')) ->
  exists r, purge_requests (store_db (w_st w')) !! pr_ID pr = Some r
            /\ pr = TenancyPostgres.dbPurgeRequestToDomain r.
Proof.
  intros H [_ Kr]. apply bind_Ok in H as (row & w1 & Hq & [-> ->]%ret_Ok).
  apply map_err_Ok, store_query_read, one_row_Ok, select_elem in Hq as [[k Hk] _].
  exists row. split; [|done]. simpl. by rewrite (Kr _ _ Hk).
Qed.

Lemma ApprovePurge_steps ctx id re w :
  keyed (store_db (w_st w)) -> admin (ac_UserID (Tenancy.actor ctx)) -> steps R (Tenancy.ApproveTenantPurge s ctx id re) w.
Proof.
  intros Hk Had. unfold Tenancy.ApproveTenantPurge. apply steps_bind_keyed; [done|apply steps_wrap; auto|].
  intros open w1 Ho Hk1 _ _ _. apply wrap_Ok in Ho.
  destruct (GetOpen_read _ _ _ _ Ho Hk1) as (r & Hr & ->). clear Ho. simpl.
  destruct (negb _); [apply steps_throw|]. case_bool_decide as Hself; [apply steps_throw|].
  unfold TenancyPostgres.ApproveTenantPurgeRequest, Tenancy.auditPurge.
  apply steps_bind_keyed; [done|apply steps_wrap; auto|]. intros t w2 _ Hk2 [Hs2 _] _ _.
  ksteps; eauto. apply steps_keyed; [done|]. intros d x d' Hd Hkd Hap. eapply Approve_tstep; [done|done| |exact Hap].
  intros r' Hr'.
  assert (Hs : tstep admin (store_db (w_st w1)) d) by
    (etrans; [exact Hs2|]; etrans; [|exact Hd];
     match goal with H : store_step _ (w_st w2) _ |- _ => apply H end).
  destruct (request_kept _ _ _ _ Hs Hr) as (r2 & Hr2 & _ & Hby).
  simpl in Hr', Hr2. rewrite Hr2 in Hr'. injection Hr' as <-. by rewrite Hby.
Qed.

(** A purge request as the worker got it: a stored row has its id and tenant. *)
Definition stored_request (d : DB) (req : TenantPurgeRequest) : Prop :=
  exists r, purge_requests d !! pr_ID req = Some r /\ pq_TenantID r = pr_TenantID req.

Lemma stored_request_kept d d' req : tstep admin d d' -> stored_request d req -> stored_request d' req.
Proof.
  intros Hs (r & Hr & Ht). destruct (request_kept _ _ _ _ Hs Hr) as (r' & ? & ? & _).
  exists r'. split; [done|congruence].
Qed.

Lemma PurgeApproved_steps req w :
  keyed (store_db (w_st w)) -> stored_request (store_db (w_st w)) req ->
  steps R (Tenancy.PurgeApprovedTenant name_key s req) w.
Proof.
  intros Hk Hreq. unfold Tenancy.PurgeApprovedTenant, TenancyPostgres.PurgeTenantSchemaAndTombstone,
    TenancyPostgres.MarkTenantPurgeRequestFailed, TenancyPostgres.commit_answer.
  ksteps; eauto.
  - apply steps_keyed_tx; [done|]. intros d u d' Hd Hkd Hp. eapply purge_tx_tstep; [done| |exact Hp].
    intros r Hr. destruct (stored_request_kept (store_db (w_st w)) d req) as (r' & Hr' & Ht); [|done|].
    + etrans; [|exact Hd]. match goal with H : store_step _ (w_st w) _ |- _ => apply H end.
    + rewrite Hr in Hr'. by injection Hr' as <-.
  - apply steps_keyed_tx; [done|]. by intros d u d' _ _ [= _ <-].
  - apply steps_keyed; [done|]. intros. by eapply MarkFailed_tstep.
Qed.

Lemma purge_each_steps reqs p f w :
  keyed (store_db (w_st w)) -> Forall (stored_request (store_db (w_st w))) reqs ->
  steps R (Tenancy.purge_each name_key s reqs p f) w.
Proof.
  revert p f w. induction reqs as [|req reqs IH]; intros p f w Hk Hr; [apply steps_ret|].
  inversion_clear Hr as [|? ? Hreq Hreqs]. cbn [Tenancy.purge_each].
  apply steps_bind_keyed; [done|apply steps_try; by apply PurgeApproved_steps|].
  intros r w' _ Hk' [Hs _] _ _.
  assert (Forall (stored_request (store_db (w_st w'))) reqs)
    by (eapply Forall_impl; [exact Hreqs|]; intros; by eapply stored_request_kept).
  destruct r; by apply IH.
Qed.

Lemma runPurge_steps n w : keyed (store_db (w_st w)) -> steps R (Tenancy.runPurge name_key s n) w.
Proof.
  intros Hk. unfold Tenancy.runPurge, Tenancy.ListApprovedPurges,
    TenancyPostgres.ListApprovedTenantPurgeRequests.
  apply steps_bind_keyed; [done|ksteps|]. intros reqs w1 Hl Hk1 _ _ _.
  apply purge_each_steps; [done|]. apply wrap_Ok, bind_Ok in Hl as (rs & w2 & Hq & [-> ->]%ret_Ok).
  apply map_err_Ok, store_query_read in Hq.
  unfold TenancyQueries.ListApprovedTenantPurgeRequests in Hq. case_match; [done|].
  injection Hq as <-. apply Forall_fmap, Forall_forall. intros r [[k Hr] _]%page_elem.
  exists r. split; [|done]. simpl. by rewrite (keyed_requests _ Hk1 _ _ Hr).
Qed.

Lemma sweep_batch_steps now due v w :
  keyed (store_db (w_st w)) -> steps R (Tenancy.sweep_batch s now due v) w.
Proof.
  revert v w. induction due as [|t due IH]; intros v w Hk; [apply steps_ret|].
  cbn [Tenancy.sweep_batch]. cbv zeta.
  apply steps_bind_keyed; [done|apply steps_try; by apply Advance_steps|].
  intros r w' _ Hk' _ _ _. by apply IH.
Qed.

Lemma sweep_batches_steps n now b v w :
  keyed (store_db (w_st w)) -> steps R (Tenancy.sweep_batches days_before s n now b v) w.
Proof.
  revert v w. induction n as [|n IH]; intros v w Hk; [apply steps_ret|].
  cbn [Tenancy.sweep_batches].
  apply steps_bind_keyed; [done|
    unfold Tenancy.ListTenantsDueForLifecycle, TenancyPostgres.ListTenantsDueForLifecycle; ksteps|].
  intros due w1 _ Hk1 _ _ _. case_decide; [apply steps_ret|].
  apply steps_bind_keyed; [done|by apply sweep_batch_steps|].
  intros v' w2 _ Hk2 _ _ _. case_bool_decide; [apply steps_ret|by apply IH].
Qed.

Lemma runSweep_steps b n w :
  keyed (store_db (w_st w)) -> steps R (Tenancy.runSweep days_before s b n) w.
Proof.
  intros. unfold Tenancy.runSweep, Tenancy.CountTenantsOnHold, TenancyPostgres.CountTenantsOnHold.
  ksteps. by apply sweep_batches_steps.
Qed.

Lemma Handle_steps env ctx w :
  keyed (store_db (w_st w)) -> steps R (Tenancy.Handle s ctx env) w.
Proof. intros. unfold Tenancy.Handle, Tenancy.GetTenant. ksteps; auto. by apply Suspend_steps. Qed.

#[local] Hint Resolve Suspend_steps ClearHold_steps SetRetention_steps RequestPurge_steps
  CancelPurge_steps ApprovePurge_steps : core.

(** The caller of the context, if it is an administrator, is one of [admin]. *)
Definition admins_known (ctx : Ctx) : Prop :=
  forall c, ctx_caller ctx = Some c -> HasRole c "platform_admin" = true -> admin (ci_UserID c).

Lemma admin_id_actor ctx id text w a w' :
  admins_known ctx -> TenancyHandler.admin_id ctx id text w = (Ok a, w') ->
  admin (ac_UserID (Tenancy.actor ctx)).
Proof.
  intros Hc H. apply bind_Ok in H as ([] & w1 & [Hr _]%lift_Ok & _).
  unfold RequireRole in Hr. unfold Tenancy.actor, ActorFromContext, CallerFromContext in *.
  destruct (ctx_caller ctx) as [c|] eqn:Hctx; [|done]. simpl.
  apply (Hc c Hctx). by destruct (HasRole c _).
Qed.

Lemma handle_tsteps ctx r w :
  admins_known ctx -> keyed (store_db (w_st w)) -> steps R (TenancyHandler.handle s ctx r) w.
Proof.
  intros Hc Hk. destruct r; unfold TenancyHandler.handle, TenancyHandler.GetTenant,
    TenancyHandler.SuspendTenant, TenancyHandler.ClearTenantLegalHold,
    TenancyHandler.SetTenantRetention, TenancyHandler.RequestTenantPurge,
    TenancyHandler.ApproveTenantPurge, TenancyHandler.CancelTenantPurge,
    TenancyHandler.not_blank, TenancyHandler.svc, Tenancy.GetTenant; ksteps;
    try (unfold TenancyHandler.admin_id; by ksteps); auto.
  all: eauto using admin_id_actor.
Qed.

(** ** Everything the IAM service and its workers run on the tenants *)

Inductive Job :=
| RpcJob (ctx : Ctx) (r : TenancyHandler.Rpc)
| BillingJob (env : Envelope)
| SweepJob (batchSize maxBatches : Z)
| PurgeJob (batchSize : Z).

Definition forget {E A} (m : M St E A) : M St unit unit := r ← try m; mret tt.

Definition run_job (j : Job) : M St unit unit :=
  match j with
  | RpcJob ctx r => forget (TenancyHandler.handle s ctx r)
  | BillingJob env => forget (Tenancy.Handle s (mkCtx None) env)
  | SweepJob b n => forget (Tenancy.runSweep days_before s b n)
  | PurgeJob b => forget (Tenancy.runPurge name_key s b)
  end.

Definition job_known (j : Job) : Prop :=
  match j with RpcJob ctx _ => admins_known ctx | _ => True end.

Lemma run_job_steps j w : job_known j -> keyed (store_db (w_st w)) -> steps R (run_job j) w.
Proof.
  intros Hj Hk. assert (Hf : forall E A (m : M St E A), steps R m w -> steps R (forget m) w).
  { intros E A m Hm. unfold forget. apply steps_bind; [by apply steps_try|]. intros. apply steps_ret. }
  destruct j; apply Hf;
    [by apply handle_tsteps|by apply Handle_steps|by apply runSweep_steps|by apply runPurge_steps].
Qed.

End service.
