(* ===== verification/TenancyProps.v ===== *)
(** The tenant lifecycle: histories of the IAM service and its workers, whatever
    requests interleave.  A tenant's data goes only after two administrators, a
    closed purge request stays closed, and the lifecycle advances only when its
    clock has run. *)

From S2P Require Export TenancySteps.
From S2P Require TenancyQueries TenancyPostgres Tenancy TenancyHandler.
Local Open Scope Z_scope.

Section histories.
Context {X : External}.
Variable days_before : Z -> Time -> Time.
Variable name_key : string -> string.
Variable s : Tenancy.Service.
(** The users who hold the platform_admin role. *)
Variable admin : uuid -> Prop.

Implicit Types (w : World St).
Abbreviation R := (store_step (Ev:=Event) (tstep admin)) (only parsing).
Abbreviation job := (run_job days_before name_key s) (only parsing).

(** No purge was ever requested. *)
Definition started (st : St) : Prop :=
  purge_requests (store_db st) = ∅ /\ keyed (store_db st).

(** What can come after [st]: jobs run one after the other or between any two
    statements of each other, while other requests that respect [tstep] run
    beside them. *)
Inductive reaches (st : St) : St -> Prop :=
| reaches_here : reaches st st
| reaches_job j w :
    reaches st (w_st w) -> rely R w -> job_known admin j ->
    reaches st (w_st (job j w).2)
| reaches_statement j w a b :
    reaches st (w_st w) -> reaches st a -> rely R w -> job_known admin j -> w_log w = [] ->
    (a, b) ∈ w_log (job j w).2 -> reaches st b.

Lemma reaches_tstep st st' :
  keyed (store_db st) -> reaches st st' -> tstep admin (store_db st) (store_db st').
Proof.
  intros Hk. induction 1 as [|j w _ IH HR Hj|j w a b _ IHw _ IHa HR Hj Hl Hin]; [reflexivity|..].
  - etrans; [exact IH|]. eapply keyed_tstep in Hk; [|exact IH].
    by destruct (run_job_steps admin days_before name_key s j w Hj Hk HR) as ([? _] & _).
  - eapply keyed_tstep in Hk; [|exact IHw].
    destruct (run_job_steps admin days_before name_key s j w Hj Hk HR) as (_ & _ & own & Ho & Hall).
    rewrite Hl, app_nil_r in Ho. rewrite Ho in Hin. rewrite Forall_forall in Hall.
    destruct (Hall _ Hin) as [Hab _]. by etrans.
Qed.

Lemma reaches_trans s1 s2 s3 : reaches s1 s2 -> reaches s2 s3 -> reaches s1 s3.
Proof.
  intros H12. induction 1 as [|j w _ IH HR Hj|j w a b _ IHw _ IHa HR Hj Hl Hin]; [done|..].
  - by apply reaches_job.
  - by eapply reaches_statement.
Qed.

(** Every stored request is well approved. *)
Lemma started_approved_well st st' :
  started st -> reaches st st' -> map_Forall (fun _ => approved_well admin) (purge_requests (store_db st')).
Proof.
  intros [He Hk] Hr. destruct (reaches_tstep _ _ Hk Hr) as [_ Hq _].
  eapply table_step_forall; [|exact Hq|rewrite He; apply map_Forall_empty].
  intros k [r|] r' [_ HQ] Ho; [|done]. destruct HQ as (_ & _ & _ & HQ). apply HQ. by apply Ho.
Qed.

(** C13: A tenant's schema is dropped only after two people agreed.  In any history
    that began without purge requests, whatever requests interleave: if a tenant's
    schema exists at one moment and not at a later one, there is an executed purge
    request for that tenant which one administrator made and another, different one
    approved, and the tenant's row is a tombstone. *)
Theorem schema_dropped_by_two (s0 s1 s2 : St) (t : uuid) :
  started s0 -> reaches s0 s1 -> reaches s1 s2 ->
  t ∈ schemas (store_db s1) -> t ∉ schemas (store_db s2) ->
  (exists id r b, purge_requests (store_db s2) !! id = Some r
     /\ pq_TenantID r = t /\ pq_Status r = "executed"
     /\ pq_ApprovedBy r = Some b /\ b <> pq_RequestedBy r
     /\ admin (pq_RequestedBy r) /\ admin b)
  /\ exists tr, tenants (store_db s2) !! t = Some tr /\ is_Some (tn_PurgedAt tr).
Proof.
  intros H0 H01 H12 Hin Hout. pose proof H0 as [_ Hk].
  eapply keyed_tstep in Hk; [|by apply reaches_tstep].
  destruct (ts_schemas _ _ _ (reaches_tstep _ _ Hk H12) t Hin Hout) as [(id & r & Hid & Ht & Hs) Htr].
  split; [|done].
  destruct (started_approved_well _ _ H0 (reaches_trans _ _ _ H01 H12) _ _ Hid) as [Ha Hb].
  destruct Hb as (b & Hb & Hne & Hadm); [by right; right|]. by exists id, r, b.
Qed.

(** A closed purge request stays closed.  In any history a request that was
    cancelled, failed or executed is found exactly as it was at every later moment,
    so a cancelled purge is never executed; and an open one keeps its tenant and
    who asked for it. *)
Theorem closed_requests_final (s0 s1 s2 : St) (id : uuid) (r : PurgeRow) :
  started s0 -> reaches s0 s1 -> reaches s1 s2 ->
  purge_requests (store_db s1) !! id = Some r ->
  (TenancyQueries.is_open (pq_Status r) = false -> purge_requests (store_db s2) !! id = Some r)
  /\ exists r', purge_requests (store_db s2) !! id = Some r'
       /\ pq_TenantID r' = pq_TenantID r /\ pq_RequestedBy r' = pq_RequestedBy r.
Proof.
  intros [_ Hk] H01 H12 Hid. eapply keyed_tstep in Hk; [|by apply reaches_tstep].
  pose proof (reaches_tstep _ _ Hk H12) as Hs. split; [|by eapply request_kept].
  unfold TenancyQueries.is_open. intros Ho. bool_hyps. eapply closed_request_kept; [apply Hs|done..].
Qed.

(** ** The sweeper's own statements *)

Definition days (n : Z) : Z := n * ns_per_day.

(** The next stage a row is due for at [now], and since when. *)
Inductive due_stage (now : Time) (r : TenantRow) : string -> Prop :=
| due_grace a : tn_Status r = "suspended" -> tn_SuspendedAt r = Some a ->
    a + days 30 <= now -> due_stage now r "grace"
| due_deactivated a : tn_Status r = "grace" -> tn_SuspendedAt r = Some a ->
    a + days 90 <= now -> due_stage now r "deactivated"
| due_purge a : tn_Status r = "deactivated" -> tn_DeactivatedAt r = Some a ->
    a + days 180 <= now -> due_stage now r "purge_eligible".

(** The row at a stage: the clocks are kept, the second one started on entry to
    "deactivated". *)
Definition at_stage (st : string) (r r' : TenantRow) : Prop :=
  exists deactivated, r' = TenancyQueries.with_lifecycle st (tn_SuspendedAt r) deactivated r
    /\ (deactivated = tn_DeactivatedAt r
        \/ st = "deactivated" /\ tn_DeactivatedAt r = None /\ is_Some deactivated).

Definition sweeper_step (now : Time) (d d' : DB) : Prop :=
  d' = d
  \/ exists id r r' st, tenants d !! id = Some r /\ due_stage now r st /\ at_stage st r r'
       /\ d' = set_tenants (<[id := r']> (tenants d)) d.

#[local] Instance sweeper_step_refl now : Reflexive (sweeper_step now).
Proof. intros d. by left. Qed.

Lemma time_Sub_le p now a : 0 <= p <= max_duration -> ~ time_Sub now a < p -> a + p <= now.
Proof. unfold time_Sub, min_duration. intros. lia. Qed.

Lemma due_after_Some o p now next st :
  0 <= p <= max_duration -> due_after o p now next = Some st ->
  st = next /\ exists a, o = Some a /\ a + p <= now.
Proof.
  intros Hp. unfold due_after. destruct o as [a|]; [|done]. case_bool_decide as H; [done|].
  intros [= <-]. split; [done|]. exists a. split; [done|]. by apply time_Sub_le.
Qed.

(** What the code computes from a row is due for any row with the same status and
    the same clocks. *)
Lemma next_due r r' now st :
  tn_Status r' = tn_Status r -> kept (tn_SuspendedAt r) (tn_SuspendedAt r') ->
  kept (tn_DeactivatedAt r) (tn_DeactivatedAt r') ->
  nextLifecycleStatus (TenancyPostgres.dbTenantToDomain r) now = Some st -> due_stage now r' st.
Proof.
  intros Hs Hsus Hdea. unfold nextLifecycleStatus. simpl. intros H.
  repeat case_decide; [..|done]; apply due_after_Some in H as (-> & a & Ha & Hle); try by compute.
  - eapply due_grace; [by rewrite Hs|by apply Hsus|exact Hle].
  - eapply due_deactivated; [by rewrite Hs|by apply Hsus|exact Hle].
  - eapply due_purge; [by rewrite Hs|by apply Hdea|exact Hle].
Qed.

Lemma stamp_other to state now col : to <> state -> TenancyQueries.stamp to state now col = col.
Proof. intros H. unfold TenancyQueries.stamp. by rewrite bool_decide_eq_false_2. Qed.

Lemma stamp_at_stage to now r :
  to <> "suspended" ->
  at_stage to r (TenancyQueries.with_lifecycle to
    (TenancyQueries.stamp to "suspended" now (tn_SuspendedAt r))
    (TenancyQueries.stamp to "deactivated" now (tn_DeactivatedAt r)) r).
Proof.
  intros H. rewrite stamp_other by done. eexists. split; [reflexivity|].
  unfold TenancyQueries.stamp. case_bool_decide; simpl; [|by left].
  case_bool_decide as Hn; simpl; [right; eauto|by left].
Qed.

Lemma GetTenant_read id w t w' :
  TenancyPostgres.GetTenant id w = (Ok t, w') ->
  exists r, tenants (store_db (w_st w')) !! id = Some r /\ t = TenancyPostgres.dbTenantToDomain r.
Proof.
  intros H. apply bind_Ok in H as (r & w1 & Hq & [-> ->]%ret_Ok).
  apply map_err_Ok, store_query_read, get_row_Ok in Hq as [Hr _]. eauto.
Qed.

Lemma Transition_sweeper now0 now id from to d0 d a d' st :
  tstep admin d0 d -> (exists r, tenants d0 !! id = Some r
     /\ from = tn_Status r /\ nextLifecycleStatus (TenancyPostgres.dbTenantToDomain r) now0 = Some st) ->
  to = st -> TenancyQueries.TransitionTenantStatus now id from to d = Ok (a, d') -> sweeper_step now0 d d'.
Proof.
  intros [Ht _ _] (r & Hr & -> & Hn) -> H. unfold TenancyQueries.TransitionTenantStatus in H.
  destruct (get_row _ _ _) as [r1|] eqn:Hg; [|done]. apply get_row_Ok in Hg as [Hr1 Hs]. bool_hyps.
  case_match; [done|]. simplify_eq. right.
  destruct (table_step_some _ _ _ _ Ht Hr) as (r2 & Hr2 & Hk). rewrite Hr1 in Hr2. injection Hr2 as <-.
  assert (Hd : due_stage now0 r1 st).
  { destruct Hk as [->|(_ & Hk1 & Hk2 & _)]; apply (next_due r); auto using kept_refl. }
  do 4 eexists. split; [exact Hr1|]. split; [exact Hd|]. split; [|reflexivity].
  apply stamp_at_stage. by destruct Hd.
Qed.

Abbreviation O now := (own R (store_step (sweeper_step now))) (only parsing).

Lemma Log_own now ev w : O now (Tenancy.Log ev) w.
Proof.
  unfold Tenancy.Log. apply own_bind; [case_decide; own_tac|case_decide; steps_tac|].
  - apply own_bind; [own_tac|steps_tac|]. intros. own_tac.
  - intros ev1 w1 _ _ _. apply own_bind; [case_decide; own_tac|case_decide; steps_tac|].
    + apply own_bind; [own_tac|steps_tac|]. intros. own_tac.
    + intros. apply own_emit.
Qed.

Lemma Advance_own id now w :
  keyed (store_db (w_st w)) -> O now (Tenancy.AdvanceTenantLifecycle s id now) w.
Proof.
  intros Hk. unfold Tenancy.AdvanceTenantLifecycle. apply own_bind.
  - own_tac. unfold TenancyPostgres.GetTenant.
    apply own_bind; [own_tac; apply own_store_query|steps_tac; apply steps_store_query|]. intros. own_tac.
  - apply steps_wrap. by apply GetTenant_steps.
  - intros t w1 Hg [Hs1 _] _. apply wrap_Ok in Hg. destruct (GetTenant_read _ _ _ _ Hg) as (r & Hr & ->).
    eapply keyed_tstep in Hk; [|exact Hs1].
    destruct (nextLifecycleStatus _ now) as [st|] eqn:Hn; [|own_tac].
    unfold TenancyPostgres.TransitionTenantStatus. apply own_bind.
    + own_tac. apply own_bind; [own_tac|steps_tac|]. intros now1 w2 _ [Hs2 _] _.
      apply own_bind; [|steps_tac; apply steps_keyed|intros; own_tac].
      * own_tac. apply own_store_exec. intros d a d' Hd Hq.
        eapply (Transition_sweeper now now1 id _ st (store_db (w_st w1)) d a d' st); [by etrans| |done|exact Hq]. eauto.
      * by eapply keyed_tstep.
      * intros. by eapply TransitionTenantStatus_tstep.
    + ksteps. apply steps_keyed; [done|]. intros. by eapply TransitionTenantStatus_tstep.
    + intros u w2 _ _ _. destruct u; [|own_tac].
      apply own_bind; [destruct (Tenancy.s_audit s); [apply Log_own|own_tac]|steps_tac|intros; own_tac].
      unfold Tenancy.Log. repeat (steps_tac; try apply steps_emit).
Qed.

Lemma sweep_batch_own now due v w :
  keyed (store_db (w_st w)) -> O now (Tenancy.sweep_batch s now due v) w.
Proof.
  revert v w. induction due as [|t due IH]; intros v w Hk; [apply own_ret|].
  cbn [Tenancy.sweep_batch]. cbv zeta.
  apply own_bind; [apply own_try; by apply Advance_own|apply steps_try; by apply Advance_steps|].
  intros r w1 _ [Hs _] _. apply IH. by eapply keyed_tstep.
Qed.

Lemma sweep_batches_own n now b v w :
  keyed (store_db (w_st w)) -> O now (Tenancy.sweep_batches days_before s n now b v) w.
Proof.
  revert v w. induction n as [|n IH]; intros v w Hk; [apply own_ret|].
  cbn [Tenancy.sweep_batches].
  assert (Hl : forall w', steps R (wrap "list due tenants: %w"
      (Tenancy.ListTenantsDueForLifecycle days_before now b)) w'
    /\ O now (wrap "list due tenants: %w" (Tenancy.ListTenantsDueForLifecycle days_before now b)) w').
  { intros w'. unfold Tenancy.ListTenantsDueForLifecycle, TenancyPostgres.ListTenantsDueForLifecycle.
    split; [repeat (steps_tac; try apply steps_store_query)|].
    own_tac. apply own_bind; [own_tac; apply own_store_query|steps_tac; apply steps_store_query|].
    intros. own_tac. }
  apply own_bind; [apply Hl..|]. intros due w1 _ [Hs1 _] _. case_decide; [apply own_ret|].
  eapply keyed_tstep in Hk; [|exact Hs1].
  apply own_bind; [by apply sweep_batch_own|by apply sweep_batch_steps|].
  intros v' w2 _ [Hs2 _] _. case_bool_decide; [apply own_ret|]. apply IH. by eapply keyed_tstep.
Qed.

(** C15: The sweeper advances a tenant only when its clock has run.  Beside any
    other requests, every change a sweeper run makes to the stores moves one tenant
    one stage on, counted from the row it updates: to "grace" 30 days after the
    suspension, to "deactivated" 90 days after it, to "purge_eligible" 180 days after
    the deactivation, all measured at the start of the run; the rest of the row, the
    clocks included, stays, and the deactivation clock starts on entry. *)
Theorem sweeper_on_time (batchSize maxBatches : Z) (w : World St) :
  keyed (store_db (w_st w)) -> rely (store_step (tstep admin)) w -> w_log w = [] ->
  let now := env_clock (w_env w) (env_clock_pos (w_env w)) in
  forall a b, (a, b) ∈ w_log (Tenancy.runSweep days_before s batchSize maxBatches w).2 ->
  store_db b = store_db a
  \/ exists id r r' st, tenants (store_db a) !! id = Some r /\ due_stage now r st /\ at_stage st r r'
       /\ store_db b = set_tenants (<[id := r']> (tenants (store_db a))) (store_db a).
Proof.
  intros Hk HR Hl now a b Hin.
  assert (Ho : O now (Tenancy.runSweep days_before s batchSize maxBatches) w).
  { unfold Tenancy.runSweep. apply own_bind; [own_tac|steps_tac|]. intros now' w1 [= <- <-] _ _.
    apply own_bind; [own_tac|steps_tac|].
    - unfold Tenancy.CountTenantsOnHold, TenancyPostgres.CountTenantsOnHold. own_tac. apply own_store_query.
    - unfold Tenancy.CountTenantsOnHold, TenancyPostgres.CountTenantsOnHold. steps_tac. apply steps_store_query.
    - intros c w2 _ [Hs _] _. eapply keyed_tstep in Hk; [|exact Hs].
      apply own_bind; [by apply sweep_batches_own|by apply sweep_batches_steps|]. intros. own_tac. }
  destruct (Ho HR) as (own & Hown & Hall). rewrite Hl, app_nil_r in Hown. rewrite Hown in Hin.
  rewrite Forall_forall in Hall. destruct (Hall _ Hin) as [H _]. exact H.
Qed.

End histories.

(** The tenant lifecycle: what one run of the retention sweeper does when nothing
    disturbs it.  The statement that lists the due tenants agrees with the Go code
    that advances them, so a run moves exactly the tenants that are due and not on
    hold, each by one stage. *)

Local Open Scope Z_scope.

(** ** The clock in SQL and in Go *)

Section clock.
Context {days_before : Z -> Time -> Time}.
(** The database session runs in UTC, where a day has 24 hours. *)
Hypothesis days_utc : forall n t, days_before n t = t - days n.

Definition whole_us (o : option Time) : Prop := forall a, o = Some a -> (1000 | a).
(** Stored times are whole microseconds. *)
Definition whole_row (r : TenantRow) : Prop :=
  whole_us (tn_SuspendedAt r) /\ whole_us (tn_DeactivatedAt r) /\ whole_us (tn_HoldUntil r).

Lemma pg_time_le a now : (1000 | a) -> a <= pg_time now <-> a <= now.
Proof. intros [k ->]. unfold pg_time.
  pose proof (Z.div_mod now 1000 ltac:(lia)). pose proof (Z.mod_pos_bound now 1000 ltac:(lia)). lia.
Qed.

Lemma at_or_before_days o n now next :
  whole_us o -> 0 <= n <= 36500 ->
  TenancyQueries.at_or_before o (days_before n (pg_time now)) = true
  <-> due_after o (days n) now next = Some next.
Proof.
  intros Ho Hn. destruct o as [a|]; simpl; [|done]. rewrite days_utc, bool_decide_eq_true.
  assert (Hp : 0 <= days n <= max_duration)
    by (unfold days, ns_per_day, ns_per_sec, max_duration; lia).
  assert (Hd : (1000 | a + days n)).
  { apply Z.divide_add_r; [by apply Ho|]. exists (n * 86400000000). unfold days, ns_per_day, ns_per_sec. lia. }
  pose proof (pg_time_le _ now Hd) as Hle. case_bool_decide as Hlt; split; try done.
  - intros. assert (a + days n <= now) by (apply Hle; lia). unfold time_Sub in Hlt. unfold min_duration in *. lia.
  - intros _. apply time_Sub_le in Hlt; [|done]. apply Hle in Hlt. lia.
Qed.

(** The condition of the statement on the clock is the code's. *)
Lemma clock_due_agrees now r :
  whole_row r ->
  TenancyQueries.clock_due days_before (pg_time now) r = true
  <-> exists st, nextLifecycleStatus (TenancyPostgres.dbTenantToDomain r) now = Some st.
Proof.
  intros (Hs & Hd & _). unfold TenancyQueries.clock_due, nextLifecycleStatus. cbn [t_Status t_SuspendedAt
    t_DeactivatedAt TenancyPostgres.dbTenantToDomain].
  rewrite !orb_true_iff, !andb_true_iff, !bool_decide_eq_true.
  rewrite (at_or_before_days _ 30 now TenantStatusGrace), (at_or_before_days _ 90 now TenantStatusDeactivated),
    (at_or_before_days _ 180 now TenantStatusPurgeEligible) by (done || lia).
  unfold TenantStatusSuspended, TenantStatusGrace, TenantStatusDeactivated.
  split.
  - intros [[[-> H]|[-> H]]|[-> H]]; simpl; eauto.
  - intros [st H]. repeat case_decide; [..|done];
      (assert (Hst : st = _) by (eapply proj1, due_after_Some; [|exact H]; by compute); subst st);
      naive_solver.
Qed.

End clock.

(** ** One run *)

(** A legal hold in force. *)
Definition on_hold (now : Time) (r : TenantRow) : bool :=
  match tn_FreezeReason r, tn_HoldUntil r with
  | None, _ => false
  | Some _, None => true
  | Some _, Some h => bool_decide (now < h)
  end.
(** The stage a run that started at [now] moves the row to. *)
Definition due_now (now : Time) (r : TenantRow) : option string :=
  if on_hold now r then None else nextLifecycleStatus (TenancyPostgres.dbTenantToDomain r) now.

Lemma hold_released_spec now r :
  whole_row r -> TenancyQueries.hold_released (pg_time now) r = negb (on_hold now r).
Proof.
  intros (_ & _ & Hh). unfold TenancyQueries.hold_released, on_hold.
  destruct (tn_FreezeReason r) as [f|]; [|done]. destruct (tn_HoldUntil r) as [h|]; [|done].
  pose proof (pg_time_le h now (Hh _ eq_refl)). simpl. apply Bool.eq_iff_eq_true.
  rewrite negb_true_iff, bool_decide_eq_true, bool_decide_eq_false. lia.
Qed.

Section run.
Context {X : External}.
Variable s : Tenancy.Service.
Implicit Types (w : World St) (d : DB).

Lemma GetTenant_evals id r w :
  quiet w -> tenants (store_db (w_st w)) !! id = Some r ->
  evals (TenancyPostgres.GetTenant id) w (Ok (TenancyPostgres.dbTenantToDomain r)) (w_st w).
Proof.
  intros Hw Hr. unfold TenancyPostgres.GetTenant.
  pose proof (evals_store_query (TenancyQueries.GetTenant id) w Hw) as H.
  replace (TenancyQueries.GetTenant id (store_db (w_st w))) with (Ok (E:=pg_error) r) in H
    by (unfold TenancyQueries.GetTenant, get_row; by rewrite Hr).
  eapply evals_bind; [by apply evals_map_ok|]. intros w1 Hq <-. by apply evals_ret.
Qed.

Lemma Log_evals e w :
  quiet w -> exists evs, evals (Tenancy.Log e) w (Ok tt) (mkStore (store_db (w_st w)) evs).
Proof.
  intros Hw. unfold Tenancy.Log.
  assert (H1 : exists e1, evals (if decide (ev_ID e = uuid_nil)
     then id ← uuid_new; mret (with_event_id id e) else mret e) w (Ok e1 : result (error IamErr) Event) (w_st w)).
  { case_decide; [|eexists; by apply evals_ret]. destruct (evals_uuid (E:=error IamErr) w Hw) as [id Hid].
    eexists. eapply evals_bind; [exact Hid|]. intros w1 Hq <-. by apply evals_ret. }
  destruct H1 as [e1 H1].
  assert (H2 : forall w1, quiet w1 -> w_st w1 = w_st w -> exists evs, evals
     (ev ← (if decide (ev_OccurredAt e1 = zero_time)
            then now ← time_now; mret (with_event_time now e1) else mret e1); emit true ev)
     w1 (Ok tt : result (error IamErr) unit) (mkStore (store_db (w_st w)) evs)).
  { intros w1 Hq Hs. destruct (decide (ev_OccurredAt e1 = zero_time)).
    - destruct (evals_time (E:=error IamErr) w1 Hq) as [now Hnow].
      assert (Hb : evals (now ← time_now; mret (with_event_time now e1)) w1
                     (Ok (with_event_time now e1) : result (error IamErr) Event) (w_st w1))
        by (eapply evals_bind; [exact Hnow|intros w2 Hq2 <-; by apply evals_ret]).
      exists (store_events (w_st w) ++ [with_event_time now e1]). eapply evals_bind; [exact Hb|].
      intros w3 Hq3 Hs3. replace (w_st w) with (w_st w3) by congruence.
      exact (evals_emit true _ w3 Hq3).
    - exists (store_events (w_st w) ++ [e1]). eapply evals_bind; [by apply evals_ret|]. intros w3 Hq3 Hs3.
      replace (w_st w) with (w_st w3) by congruence.
      exact (evals_emit true _ w3 Hq3). }
  destruct H1 as (w1 & Hr1 & Hs1 & Hq1). destruct (H2 w1 Hq1 Hs1) as [evs H3]. exists evs.
  destruct H3 as (w2 & Hr2 & H3). exists w2. split; [|done].
  unfold mbind at 1, M_bind at 1. by rewrite Hr1.
Qed.

Lemma Transition_evals id r now st w :
  quiet w -> tenants (store_db (w_st w)) !! id = Some r ->
  nextLifecycleStatus (TenancyPostgres.dbTenantToDomain r) now = Some st ->
  exists r', at_stage st r r' /\
    evals (TenancyPostgres.TransitionTenantStatus id (tn_Status r) st) w
      (Ok (Some (TenancyPostgres.dbTenantToDomain r')))
      (mkStore (set_tenants (<[id := r']> (tenants (store_db (w_st w)))) (store_db (w_st w)))
         (store_events (w_st w))).
Proof.
  intros Hw Hr Hn.
  assert (Hd : due_stage now r st) by (apply (next_due r); auto using kept_refl).
  destruct (evals_time (E:=error IamErr) w Hw) as [t Ht].
  pose (r' := TenancyQueries.with_lifecycle st (TenancyQueries.stamp st "suspended" t (tn_SuspendedAt r))
                (TenancyQueries.stamp st "deactivated" t (tn_DeactivatedAt r)) r).
  exists r'. split; [apply (stamp_at_stage st t); by destruct Hd|].
  assert (Hq : TenancyQueries.TransitionTenantStatus t id (tn_Status r) st (store_db (w_st w))
               = Ok (r', set_tenants (<[id := r']> (tenants (store_db (w_st w)))) (store_db (w_st w)))).
  { unfold TenancyQueries.TransitionTenantStatus, get_row. rewrite Hr, bool_decide_eq_true_2 by done.
    by replace (TenancyQueries.tenant_status_ok st) with true by (by destruct Hd). }
  unfold TenancyPostgres.TransitionTenantStatus. eapply evals_bind; [exact Ht|].
  intros w1 Hq1 Hs1. rewrite <-Hs1 in Hq |- *.
  eapply evals_bind; [apply evals_try; by apply evals_store_exec|].
  intros w2 Hq2 <-. by apply evals_ret.
Qed.

Lemma Advance_evals id r now st w :
  quiet w -> tenants (store_db (w_st w)) !! id = Some r ->
  nextLifecycleStatus (TenancyPostgres.dbTenantToDomain r) now = Some st ->
  exists tr r' evs, at_stage st r r' /\
    evals (Tenancy.AdvanceTenantLifecycle s id now) w (Ok (Some tr))
      (mkStore (set_tenants (<[id := r']> (tenants (store_db (w_st w)))) (store_db (w_st w))) evs).
Proof.
  intros Hw Hr Hn.
  destruct (GetTenant_evals id r w Hw Hr) as (w1 & Hr1 & Hs1 & Hq1).
  destruct (Transition_evals id r now st w1) as (r' & Hst & w2 & Hr2 & Hs2 & Hq2); [done|by rewrite Hs1|done|].
  assert (Hlog : forall e w0, quiet w0 -> exists evs,
      evals (if Tenancy.s_audit s then Tenancy.Log e else mret tt) w0 (Ok tt) (mkStore (store_db (w_st w0)) evs)).
  { intros e w0 H0. destruct (Tenancy.s_audit s); [by apply Log_evals|]. exists (store_events (w_st w0)).
    replace (mkStore _ _) with (w_st w0) by (by destruct (w_st w0)). by apply evals_ret. }
  edestruct (Hlog (mkEvent uuid_nil id uuid_nil SystemActorRetentionSweeper "" ActionStatusChanged id
       (Some (mustMarshalStatus (tn_Status r))) (Some (mustMarshalStatus (tn_Status r'))) None now) w2 Hq2)
    as (evs & w3 & Hr3 & Hs3 & Hq3).
  do 3 eexists. split; [exact Hst|]. exists w3. split; [|split; [|exact Hq3]].
  - unfold Tenancy.AdvanceTenantLifecycle. rewrite (bind_wrap_Ok _ _ _ _ _ _ Hr1), Hn.
    cbn [t_Status TenancyPostgres.dbTenantToDomain]. rewrite (bind_wrap_Ok _ _ _ _ _ _ Hr2).
    cbn [t_Status TenancyPostgres.dbTenantToDomain]. rewrite (bind_run _ _ _ _ _ Hr3). reflexivity.
  - rewrite Hs3, Hs2, Hs1. reflexivity.
Qed.

(** A batch moves the tenants of the list, each present once and due. *)
Lemma sweep_batch_evals now l v w :
  quiet w -> NoDup (tn_ID <$> l) ->
  (forall r, r ∈ l -> tenants (store_db (w_st w)) !! tn_ID r = Some r
     /\ exists st, nextLifecycleStatus (TenancyPostgres.dbTenantToDomain r) now = Some st) ->
  exists v' w', Tenancy.sweep_batch s now (TenancyPostgres.dbTenantToDomain <$> l) v w = (Ok v', w')
    /\ quiet w' /\ Tenancy.sw_failed v' = Tenancy.sw_failed v
    /\ exists t, store_db (w_st w') = set_tenants t (store_db (w_st w))
       /\ (forall id, id ∉ (tn_ID <$> l) -> t !! id = tenants (store_db (w_st w)) !! id)
       /\ forall r, r ∈ l -> exists r' st, t !! tn_ID r = Some r'
            /\ nextLifecycleStatus (TenancyPostgres.dbTenantToDomain r) now = Some st /\ at_stage st r r'.
Proof.
  revert v w. induction l as [|r l IH]; intros v w Hw Hnd Hl.
  { exists v, w. split_and!; [done..|]. exists (tenants (store_db (w_st w))).
    split; [by destruct (store_db _)|]. split; [done|]. intros r Hr. by apply elem_of_nil in Hr. }
  apply NoDup_cons in Hnd as [Hnin Hnd]. destruct (Hl r) as (Hr & st & Hst); [by left|].
  destruct (Advance_evals _ _ now st w Hw Hr Hst) as (tr & r' & evs & Hat & w1 & Hr1 & Hs1 & Hq1).
  destruct (IH (Tenancy.sweep_moved tr (Tenancy.saw (TenancyPostgres.dbTenantToDomain r) now v)) w1 Hq1 Hnd)
    as (v' & w' & Hrun & Hq' & Hf & t & Hdb & Hout & Hin).
  { intros r0 Hr0. destruct (Hl r0) as [Hk Hnx]; [by right|]. split; [|done]. rewrite Hs1. simpl.
    rewrite lookup_insert_ne; [done|]. intros He. apply Hnin. rewrite He. by apply list_elem_of_fmap_2. }
  exists v', w'. split; [|split; [done|split; [by rewrite Hf|]]].
  - cbn [Tenancy.sweep_batch fmap list_fmap]. cbv zeta.
    unfold mbind, M_bind, try. cbn [t_ID TenancyPostgres.dbTenantToDomain]. rewrite Hr1. exact Hrun.
  - exists t. rewrite Hs1 in Hdb, Hout. simpl in *. split; [done|]. split.
    + intros id Hid. apply not_elem_of_cons in Hid as [Hne Hid]. rewrite (Hout _ Hid).
      by apply lookup_insert_ne.
    + intros r0 [->|Hr0]%elem_of_cons; [|by apply Hin].
      exists r', st. split; [|done]. rewrite (Hout _ Hnin). apply lookup_insert_eq.
Qed.
(** ** The list of due tenants *)

Context {days_before : Z -> Time -> Time}.
Hypothesis days_utc : forall n t, days_before n t = t - days n.

Definition is_due (now : Time) (r : TenantRow) : bool := bool_decide (is_Some (due_now now r)).

Lemma listed_due now r :
  whole_row r ->
  TenancyQueries.clock_due days_before (pg_time now) r
    && TenancyQueries.hold_released (pg_time now) r = is_due now r.
Proof.
  intros Hr. unfold is_due, due_now. rewrite (hold_released_spec _ _ Hr).
  destruct (on_hold now r); [by rewrite andb_false_r|]. rewrite andb_true_r.
  apply Bool.eq_iff_eq_true. rewrite (clock_due_agrees days_utc now r Hr), bool_decide_eq_true. done.
Qed.

(** Selected rows have different ids. *)
Lemma select_ids (p : TenantRow -> bool) (t : gmap uuid TenantRow) :
  map_Forall (fun k r => tn_ID r = k) t -> NoDup (tn_ID <$> select p t).
Proof.
  intros Hk. unfold select, rows. rewrite filter_fmap, <-list_fmap_compose.
  assert (Hs : NoDup (fst <$> List.filter (p ∘ snd) (map_to_list t))).
  { assert (Hsub : List.filter (p ∘ snd) (map_to_list t) `sublist_of` map_to_list t).
    { induction (map_to_list t) as [|kv l IH]; simpl; [done|].
      case_match; by constructor. }
    eapply sublist_NoDup; [apply (NoDup_fst_map_to_list t)|]. by apply fmap_sublist. }
  erewrite list_fmap_ext; [exact Hs|]. intros i [k r] Hi. simpl.
  apply list_elem_of_lookup_2, filter_elem in Hi as [Hi _]. apply elem_of_map_to_list in Hi. by apply Hk.
Qed.

Lemma filter_same {A} (p q : A -> bool) (l : list A) :
  (forall x, x ∈ l -> p x = q x) -> List.filter p l = List.filter q l.
Proof.
  induction l as [|x l IH]; intros H; simpl; [done|]. rewrite (H x) by (by left).
  rewrite IH; [done|]. intros y Hy. apply H. by right.
Qed.

Lemma select_same {A} (p q : A -> bool) (t : gmap uuid A) :
  (forall k r, t !! k = Some r -> p r = q r) -> select p t = select q t.
Proof. intros H. apply filter_same. intros r [k Hk]%rows_elem. by eapply H. Qed.

Lemma List_evals now limit w :
  quiet w -> map_Forall (fun _ => whole_row) (tenants (store_db (w_st w))) ->
  0 <= limit < 2 ^ 31 -> Z.of_nat (length (select (is_due now) (tenants (store_db (w_st w))))) <= limit ->
  exists l, l ≡ₚ select (is_due now) (tenants (store_db (w_st w)))
    /\ evals (TenancyPostgres.ListTenantsDueForLifecycle days_before now limit) w
         (Ok (TenancyPostgres.dbTenantToDomain <$> l)) (w_st w).
Proof.
  intros Hw Hwhole Hl Hlen. set (d := store_db (w_st w)) in *.
  exists (order_by TenancyQueries.clock_le (select (is_due now) (tenants d))).
  split; [apply order_by_perm|].
  assert (Hq : TenancyQueries.ListTenantsDueForLifecycle days_before now (int32 limit) d
    = Ok (order_by TenancyQueries.clock_le (select (is_due now) (tenants d)))).
  { unfold TenancyQueries.ListTenantsDueForLifecycle, int32.
    rewrite Z.mod_small by lia. rewrite bool_decide_eq_false_2 by lia. f_equal.
    rewrite (select_same _ (is_due now)); [|intros k r Hr; apply listed_due; exact (Hwhole k r Hr)].
    unfold limit_offset. change (Z.to_nat 0) with 0%nat. rewrite drop_0, take_ge; [done|].
    rewrite (Permutation_length (order_by_perm _ _)). lia. }
  unfold TenancyPostgres.ListTenantsDueForLifecycle. eapply evals_bind.
  - apply evals_map_ok. pose proof (evals_store_query
      (TenancyQueries.ListTenantsDueForLifecycle days_before now (int32 limit)) w Hw) as He.
    fold d in He. rewrite Hq in He. exact He.
  - intros w1 Hq1 <-. by apply evals_ret.
Qed.
(** ** The whole run *)

(** What a run that started at [now] makes of a row. *)
Definition swept (now : Time) (r r' : TenantRow) : Prop :=
  match due_now now r with
  | None => r' = r
  | Some st => at_stage st r r'
  end.

Lemma is_due_Some now r st :
  nextLifecycleStatus (TenancyPostgres.dbTenantToDomain r) now = Some st -> is_due now r = true ->
  due_now now r = Some st.
Proof. unfold is_due, due_now. intros Hn Hd. bool_hyps. destruct (on_hold now r); [by destruct Hd|done]. Qed.

Lemma sweep_batches_evals n now batchSize v w :
  quiet w -> keyed (store_db (w_st w)) ->
  map_Forall (fun _ => whole_row) (tenants (store_db (w_st w))) ->
  1 <= batchSize < 2 ^ 31 -> (1 <= n)%nat ->
  Z.of_nat (length (select (is_due now) (tenants (store_db (w_st w))))) < batchSize ->
  exists v' w', Tenancy.sweep_batches days_before s n now batchSize v w = (Ok v', w')
    /\ quiet w' /\ Tenancy.sw_failed v' = Tenancy.sw_failed v
    /\ exists t, store_db (w_st w') = set_tenants t (store_db (w_st w))
       /\ (forall id, tenants (store_db (w_st w)) !! id = None -> t !! id = None)
       /\ forall id r, tenants (store_db (w_st w)) !! id = Some r ->
            exists r', t !! id = Some r' /\ swept now r r'.
Proof.
  intros Hw [Hk _] Hwhole Hb Hn Hlen. destruct n as [|n]; [lia|]. cbn [Tenancy.sweep_batches].
  destruct (List_evals now batchSize w Hw Hwhole) as (l & Hp & w1 & Hr1 & Hs1 & Hq1); [lia..|].
  assert (Hl1 : Tenancy.ListTenantsDueForLifecycle days_before now batchSize w
                = (Ok (TenancyPostgres.dbTenantToDomain <$> l), w1)).
  { unfold Tenancy.ListTenantsDueForLifecycle. cbv zeta. by rewrite bool_decide_eq_false_2 by lia. }
  rewrite (bind_wrap_Ok _ _ _ _ _ _ Hl1).
  assert (Hin : forall r, r ∈ l <-> tenants (store_db (w_st w)) !! tn_ID r = Some r /\ is_due now r = true).
  { intros r. rewrite Hp, select_elem. split; [|intros [Hr Hd]; eauto].
    intros [[k Hr] Hd]. pose proof (Hk _ _ Hr) as <-. done. }
  destruct (sweep_batch_evals now l v w1) as (v' & w2 & Hrun & Hq2 & Hf & t & Hdb & Hout & Hmoved).
  { done. }
  { rewrite Hp. by apply select_ids. }
  { intros r [Hr Hd]%Hin. rewrite Hs1. split; [done|]. unfold is_due, due_now in Hd. bool_hyps.
    destruct (on_hold now r); [by destruct Hd|done]. }
  rewrite Hs1 in Hdb, Hout.
  assert (Hall : exists t0, store_db (w_st w2) = set_tenants t0 (store_db (w_st w))
       /\ (forall id, tenants (store_db (w_st w)) !! id = None -> t0 !! id = None)
       /\ forall id r, tenants (store_db (w_st w)) !! id = Some r -> exists r', t0 !! id = Some r' /\ swept now r r').
  { exists t. split; [done|].
    assert (Hnone : forall id, (forall r, r ∈ l -> tn_ID r <> id) -> t !! id = tenants (store_db (w_st w)) !! id).
    { intros id Hid. apply Hout. intros (r & -> & Hr)%list_elem_of_fmap. by apply (Hid r). }
    split.
    - intros id Hid. rewrite Hnone; [done|]. intros r [Hr _]%Hin Heq. by rewrite Heq, Hid in Hr.
    - intros id r Hr. pose proof (Hk _ _ Hr) as Hid. simpl in Hid. destruct (is_due now r) eqn:Hd.
      + destruct (Hmoved r) as (r' & st & Hr' & Hst & Hat); [apply Hin; split; [by rewrite Hid|done]|].
        exists r'. split; [by rewrite <-Hid|]. unfold swept. by rewrite (is_due_Some _ _ _ Hst Hd).
      + exists r. rewrite Hnone; [split; [done|]|].
        * unfold swept. unfold is_due in Hd. bool_hyps. destruct (due_now now r); [|done].
          exfalso. apply Hd. eauto.
        * intros r2 [Hr2 Hd2]%Hin Heq. rewrite Heq, Hr in Hr2. injection Hr2 as <-. congruence. }
  destruct (decide (TenancyPostgres.dbTenantToDomain <$> l = [])) as [He|He].
  - exists v, w1. split; [done|]. split; [done|]. split; [done|].
    apply fmap_nil_inv in He as ->. cbn in Hrun. injection Hrun as _ <-. done.
  - exists v', w2. rewrite (bind_run _ _ _ _ _ Hrun). rewrite bool_decide_eq_true_2; [done|].
    rewrite length_fmap, (Permutation_length Hp). done.
Qed.

(** C16: A sweep moves exactly the tenants that are due and not on hold.  A run of
    the retention sweeper that nothing disturbs, whose batch holds all the tenants
    due, ends without an error; each tenant whose clock has run at the start and
    whose legal hold, if it has one, is over moves one stage on; every other tenant,
    and everything else stored, is as it was. *)
Theorem sweep_moves_exactly_due (batchSize maxBatches : Z) (w : World St) :
  quiet w -> keyed (store_db (w_st w)) ->
  map_Forall (fun _ => whole_row) (tenants (store_db (w_st w))) ->
  1 <= batchSize < 2 ^ 31 -> 1 <= maxBatches ->
  let d := store_db (w_st w) in
  let now := env_clock (w_env w) (env_clock_pos (w_env w)) in
  Z.of_nat (length (select (is_due now) (tenants d))) < batchSize ->
  exists w', Tenancy.runSweep days_before s batchSize maxBatches w = (Ok tt, w')
    /\ purge_requests (store_db (w_st w')) = purge_requests d
    /\ schemas (store_db (w_st w')) = schemas d
    /\ sessions (store_db (w_st w')) = sessions d /\ accounts (store_db (w_st w')) = accounts d
    /\ (forall id, tenants d !! id = None -> tenants (store_db (w_st w')) !! id = None)
    /\ forall id r, tenants d !! id = Some r ->
         exists r', tenants (store_db (w_st w')) !! id = Some r' /\ swept now r r'.
Proof.
  intros Hw Hk Hwhole Hb Hm d now Hlen. unfold Tenancy.runSweep.
  set (w1 := with_env (mkEnv (env_uuid (w_env w)) (env_uuid_pos (w_env w)) (env_clock (w_env w))
    (Datatypes.S (env_clock_pos (w_env w))) (env_fault (w_env w)) (env_fault_pos (w_env w))
    (env_zone (w_env w))) w).
  assert (Hq1 : quiet w1) by exact Hw.
  assert (Ht : time_now (E:=error IamErr) w = (Ok now, w1)) by reflexivity.
  rewrite (bind_run _ _ _ _ _ Ht).
  destruct (evals_store_query TenancyQueries.CountTenantsOnHold w1 Hq1) as (w2 & Hr2 & Hs2 & Hq2).
  assert (Hc : exists r, try (E':=error IamErr) Tenancy.CountTenantsOnHold w1 = (Ok r, w2)).
  { unfold try, Tenancy.CountTenantsOnHold, TenancyPostgres.CountTenantsOnHold, map_err. rewrite Hr2. eauto. }
  destruct Hc as [r Hc]. rewrite (bind_run _ _ _ _ _ Hc).
  change (w_st w1) with (w_st w) in Hs2.
  destruct (sweep_batches_evals (Z.to_nat maxBatches) now batchSize Tenancy.sweep_start w2)
    as (v' & w' & Hrun & _ & Hf & t & Hdb & Hnone & Hall); rewrite ?Hs2; try done; [lia|].
  rewrite (bind_run _ _ _ _ _ Hrun), Hf. rewrite Hs2 in *.
  exists w'. split; [reflexivity|]. rewrite Hdb. by split_and!.
Qed.
End run.
