(* ===== verification/TenancyCalls.v ===== *)
(** The tenant lifecycle: executing an approved purge is all or nothing, and a
    success means the tenant is gone or somebody else had settled the request;
    what suspension does; a concrete service whose runs the witnesses evaluate. *)

From S2P Require Export TenancySteps Logic TenancyProps.
From S2P Require TenancyQueries TenancyPostgres Tenancy TenancyHandler.
Local Open Scope Z_scope.

Section purge.
Context {X : External}.
Variable name_key : string -> string.
Variable s : Tenancy.Service.
Variable u : nat -> uuid.
Implicit Types (d : DB) (st : St).

(** The tables after a purge at [now]: the request executed, the schema gone, the
    tenant a tombstone. *)
Definition purge_done (now : Time) (req : TenantPurgeRequest) (d d' : DB) : Prop :=
  exists r tr, purge_requests d !! pr_ID req = Some r /\ pq_Status r = "approved"
    /\ tenants d !! pr_TenantID req = Some tr /\ tn_Status tr = "purge_eligible"
    /\ d' = mkDB (<[pr_TenantID req := TenancyQueries.tombstoned
                      ("purged-" +:+ uuid_string (pr_TenantID req)) (pg_time now) tr]> (tenants d))
              (<[pr_ID req := TenancyQueries.executed_request now r]> (purge_requests d))
              (schemas d ∖ {[pr_TenantID req]}) (sessions d) (accounts d).

Definition approved_now (d : DB) (req : TenantPurgeRequest) : Prop :=
  exists r, purge_requests d !! pr_ID req = Some r /\ pq_Status r = "approved".

(** Nothing destroyed: at most the request is marked failed. *)
Definition purge_aborted (req : TenantPurgeRequest) (d d' : DB) : Prop :=
  d' = d
  \/ exists r reason, purge_requests d !! pr_ID req = Some r /\ pq_Status r = "approved"
     /\ d' = set_purge_requests (<[pr_ID req := TenancyQueries.failed_request reason r]> (purge_requests d)) d.

Lemma keeps_log_now ev : keeps u store_db (Tenancy.log_now s ev).
Proof.
  assert (Hlog : forall e, keeps u store_db (Tenancy.Log e)).
  { intros e st. unfold Tenancy.Log. wp_tac. case_decide; wp_tac; case_decide; wp_tac;
      by apply wp_best_effort. }
  intros st. unfold Tenancy.log_now. destruct (Tenancy.s_audit s); wp_tac; [apply Hlog|done].
Qed.

Lemma wp_purge_tx req (Q : result (error IamErr) unit -> St -> Prop) st :
  (forall now d, purge_done now req (store_db st) d ->
     Q (Ok tt) (mkStore d (store_events st)) /\ Q (Err (EText "commit: connection failed")) (mkStore d (store_events st))) ->
  (forall e, Q (Err e) st) ->
  wp u (TenancyPostgres.PurgeTenantSchemaAndTombstone name_key (pr_TenantID req) (pr_ID req)) Q st.
Proof.
  intros Hdone Herr. unfold TenancyPostgres.PurgeTenantSchemaAndTombstone. wp_tac.
  apply wp_with_tx; [done|].
  destruct (TenancyPostgres.purge_tx _ _ _ _ _) as [[[] d]|e] eqn:Hp; [|done].
  apply purge_tx_Ok in Hp. destruct (Hdone t d Hp) as [H1 H2].
  unfold TenancyPostgres.commit_answer. by apply wp_with_tx.
Qed.

Lemma wp_mark_failed req text (Q : result (error IamErr) TenantPurgeRequest -> St -> Prop) st :
  (forall e, errors_Is e ErrPurgeRequestNotFound = false -> Q (Err e) st) ->
  (~ approved_now (store_db st) req -> forall e, Q (Err e) st) ->
  (forall r reason pr, purge_requests (store_db st) !! pr_ID req = Some r -> pq_Status r = "approved" ->
     Q (Ok pr) (mkStore (set_purge_requests (<[pr_ID req := TenancyQueries.failed_request reason r]>
       (purge_requests (store_db st))) (store_db st)) (store_events st))) ->
  wp u (TenancyPostgres.MarkTenantPurgeRequestFailed (pr_ID req) text) Q st.
Proof.
  intros Hc Hn Hok. unfold TenancyPostgres.MarkTenantPurgeRequestFailed. wp_tac.
  apply wp_with_tx; [by apply Hc|].
  destruct (TenancyQueries.MarkTenantPurgeRequestFailed _ _ _) as [[row d]|e] eqn:Hm.
  - apply update_request_Ok in Hm as (r & Hr & Hp & -> & ->). bool_hyps. wp_tac. by apply Hok.
  - unfold TenancyQueries.MarkTenantPurgeRequestFailed, TenancyQueries.update_request, get_row in Hm.
    apply Hn. intros (r & Hr & Hs). rewrite Hr, Hs in Hm. done.
Qed.

(** C14: Executing a purge request is all or nothing.  When the worker executes a
    request alone, though any of its calls may fail: either the request, approved
    until then, is executed, the tenant, purge-eligible until then, is a tombstone
    and its schema is gone, all three together; or the schema and the tenant are as
    they were, at most the request is marked failed, and a success is answered only
    for a request that was no longer approved, with nothing changed at all. *)
Theorem purge_all_or_nothing (req : TenantPurgeRequest) (st : St) :
  wp u (Tenancy.PurgeApprovedTenant name_key s req)
    (fun r st' =>
       (exists now, purge_done now req (store_db st) (store_db st'))
       \/ purge_aborted req (store_db st) (store_db st')
          /\ (r = Ok tt -> ~ approved_now (store_db st) req /\ store_db st' = store_db st)) st.
Proof.
  unfold Tenancy.PurgeApprovedTenant. wp_tac. apply wp_purge_tx.
  - intros now d Hd. split.
    + eapply wp_keeps; [apply keeps_log_now|]. simpl. intros r st' ->. left. eauto.
    + wp_tac. apply wp_mark_failed; simpl.
      * intros e ->. wp_tac. left. eauto.
      * intros _ e. destruct (errors_Is e _); wp_tac; left; eauto.
      * intros r reason pr Hr Hs. exfalso.
        destruct Hd as (r0 & tr & _ & _ & _ & _ & ->). simpl in Hr. rewrite lookup_insert_eq in Hr.
        by injection Hr as <-.
  - intros err. wp_tac. apply wp_mark_failed.
    + intros e ->. wp_tac. right. by split; [left|].
    + intros Hn e. destruct (errors_Is e _); wp_tac; right; (split; [by left|done]).
    + intros r reason pr Hr Hs. wp_tac. right. split; [|done]. right. eauto 10.
Qed.

End purge.

(** The tenant lifecycle: suspension.  What SuspendTenant does to a tenant in any
    status, how it shortens a legal hold that SetTenantRetention protects, and a
    suspension whose session revocation failed. *)

Local Open Scope Z_scope.

Section suspend.
Context {X : External}.
Variable s : Tenancy.Service.
Implicit Types (w : World St) (d : DB).

Lemma UpdateTenantStatus_evals id st h f r w :
  quiet w -> tenants (store_db (w_st w)) !! id = Some r -> TenancyQueries.tenant_status_ok st = true ->
  exists t, evals (TenancyPostgres.UpdateTenantStatus id st h f) w (Ok tt)
    (let r' := TenancyQueries.with_hold (TenancyQueries.coalesce (pg_time <$> h) (tn_HoldUntil r))
                 (TenancyQueries.coalesce f (tn_FreezeReason r))
                 (TenancyQueries.with_lifecycle st (TenancyQueries.stamp st "suspended" t (tn_SuspendedAt r))
                    (TenancyQueries.stamp st "deactivated" t (tn_DeactivatedAt r)) r) in
     mkStore (set_tenants (<[id := r']> (tenants (store_db (w_st w)))) (store_db (w_st w)))
       (store_events (w_st w))).
Proof.
  intros Hw Hr Hst. destruct (evals_time (E:=error IamErr) w Hw) as [t Ht]. exists t.
  unfold TenancyPostgres.UpdateTenantStatus. eapply evals_bind; [exact Ht|].
  intros w1 Hq1 Hs1. rewrite <-Hs1 in Hr |- *. cbv zeta.
  eapply evals_bind; [apply evals_map_ok, evals_store_exec; [done|]|].
  - unfold TenancyQueries.UpdateTenantStatus. rewrite Hr, Hst. reflexivity.
  - intros w2 Hq2 <-. by apply evals_ret.
Qed.

Lemma Revoke_evals id w :
  quiet w -> evals (TenancyPostgres.RevokeAllForTenant id) w (Ok tt)
    (mkStore (TenancyQueries.incr_generation id (store_db (w_st w))) (store_events (w_st w))).
Proof.
  intros Hw. unfold TenancyPostgres.RevokeAllForTenant, with_tx.
  exact (evals_tx _ (on_db (fun d => Ok (tt, TenancyQueries.incr_generation id d))) w Hw).
Qed.

(** The row of a suspended tenant. *)
Definition suspended_row (hold : option Time) (reason : option string) (r r' : TenantRow) : Prop :=
  exists at_, r' = TenancyQueries.with_hold
      (TenancyQueries.coalesce (pg_time <$> hold) (tn_HoldUntil r))
      (TenancyQueries.coalesce reason (tn_FreezeReason r))
      (TenancyQueries.with_lifecycle "suspended" (Some at_) (tn_DeactivatedAt r) r)
    /\ (forall t, tn_SuspendedAt r = Some t -> at_ = t).

Lemma stamp_suspended t o : exists at_, TenancyQueries.stamp "suspended" "suspended" t o = Some at_
  /\ forall t', o = Some t' -> at_ = t'.
Proof.
  unfold TenancyQueries.stamp. destruct o as [a|]; simpl; eexists; (split; [reflexivity|]).
  - by intros t' [= ->].
  - done.
Qed.

Lemma Suspend_run (ctx : Ctx) (id : uuid) (hold : option Time) (reason : option string)
    (r : TenantRow) (w : World St) :
  quiet w -> tenants (store_db (w_st w)) !! id = Some r ->
  exists r' w', Tenancy.SuspendTenant s ctx id hold reason w = (Ok (TenancyPostgres.dbTenantToDomain r'), w')
    /\ quiet w' /\ suspended_row hold reason r r'
    /\ store_db (w_st w') = TenancyQueries.incr_generation id
         (set_tenants (<[id := r']> (tenants (store_db (w_st w)))) (store_db (w_st w)))
    /\ (reason = None -> store_events (w_st w') = store_events (w_st w))
    /\ forall g, TenancyQueries.session_live g id (store_db (w_st w)) = true ->
                 TenancyQueries.session_live g id (store_db (w_st w')) = false.
Proof.
  intros Hw Hr. unfold Tenancy.SuspendTenant. cbv zeta.
  set (audit := bool_decide (reason <> None) && Tenancy.s_audit s).
  assert (Hb : exists before w1, (if audit
      then t ← wrap "iam: suspend tenant %s: %w" (TenancyPostgres.GetTenant id); mret (Some t)
      else mret None) w = (Ok before : result (error IamErr) (option Tenant), w1)
      /\ w_st w1 = w_st w /\ quiet w1).
  { destruct audit; [|by exists None, w]. destruct (GetTenant_evals id r w Hw Hr) as (w1 & H1 & H2 & H3).
    do 2 eexists. by rewrite (bind_wrap_Ok _ _ _ _ _ _ H1). }
  destruct Hb as (before & w1 & Hb & Hs1 & Hq1). rewrite (bind_run _ _ _ _ _ Hb).
  rewrite <-Hs1 in Hr |- *.
  destruct (UpdateTenantStatus_evals id "suspended" hold reason r w1 Hq1 Hr eq_refl) as (t & w2 & H2 & Hs2 & Hq2).
  rewrite (bind_wrap_Ok _ _ _ _ _ _ H2). cbv zeta in Hs2.
  destruct (stamp_suspended t (tn_SuspendedAt r)) as (at_ & Hat & Hkeep). rewrite Hat in Hs2.
  rewrite (stamp_other "suspended" "deactivated") in Hs2 by done.
  set (r' := TenancyQueries.with_hold _ _ _) in Hs2.
  destruct (Revoke_evals id w2 Hq2) as (w3 & H3 & Hs3 & Hq3). rewrite (bind_wrap_Ok _ _ _ _ _ _ H3).
  rewrite Hs2 in Hs3. simpl in Hs3.
  destruct (GetTenant_evals id r' w3 Hq3) as (w4 & H4 & Hs4 & Hq4).
  { rewrite Hs3. simpl. apply lookup_insert_eq. }
  rewrite (bind_wrap_Ok _ _ _ _ _ _ H4).
  assert (Hlog : exists w5, (if audit
      then Tenancy.log_now s (Tenancy.hold_event ctx ActionLegalHoldApplied id before
             (TenancyPostgres.dbTenantToDomain r') None)
      else mret tt) w4 = (Ok tt, w5) /\ quiet w5 /\ store_db (w_st w5) = store_db (w_st w4)
      /\ (reason = None -> store_events (w_st w5) = store_events (w_st w4))).
  { subst audit. destruct reason as [f|]; simpl; [|by exists w4].
    unfold Tenancy.log_now. destruct (Tenancy.s_audit s); [|by exists w4].
    destruct (evals_time (E:=error IamErr) w4 Hq4) as (now & wt & Ht & Hst & Hqt).
    rewrite (bind_run _ _ _ _ _ Ht).
    edestruct (Log_evals (Tenancy.hold_event ctx ActionLegalHoldApplied id before
             (TenancyPostgres.dbTenantToDomain r') None now) wt Hqt) as (evs & w5 & H5 & Hs5 & Hq5).
    exists w5. split; [exact H5|]. split; [done|]. split; [by rewrite Hs5, Hst|done]. }
  destruct Hlog as (w5 & H5 & Hq5 & Hd5 & He5). rewrite (bind_run _ _ _ _ _ H5).
  exists r', w5. split; [reflexivity|]. split; [done|]. split; [by exists at_|].
  rewrite Hd5, Hs4, Hs3. split; [reflexivity|]. split.
  - intros Hn. rewrite He5, Hs4, Hs3 by done. reflexivity.
  - intros g. unfold TenancyQueries.session_live, TenancyQueries.incr_generation,
      TenancyQueries.currentTenantGeneration. cbn [sessions set_sessions store_db].
    rewrite tenant_generation_incr by done. cbn [sessions set_tenants]. intros Hg. bool_hyps. apply bool_decide_eq_false. lia.
Qed.
(** SuspendTenant suspends a tenant in whatever status it is, purge-eligible and
    purged ones included.  Undisturbed, it answers with the row it stored: status
    suspended, the suspension clock as it was or started, the deactivation clock, the
    tombstone mark and the rest kept, a hold replaced only by what the call names;
    the session generation of the tenant goes up, so no refresh token that was live
    still is; nothing else in the stores changes. *)
Theorem suspend_tenant_spec (ctx : Ctx) (id : uuid) (hold : option Time) (reason : option string)
    (r : TenantRow) (w : World St) :
  quiet w -> tenants (store_db (w_st w)) !! id = Some r ->
  exists r' w', Tenancy.SuspendTenant s ctx id hold reason w = (Ok (TenancyPostgres.dbTenantToDomain r'), w')
    /\ quiet w' /\ suspended_row hold reason r r'
    /\ store_db (w_st w') = TenancyQueries.incr_generation id
         (set_tenants (<[id := r']> (tenants (store_db (w_st w)))) (store_db (w_st w)))
    /\ (reason = None -> store_events (w_st w') = store_events (w_st w))
    /\ forall g, TenancyQueries.session_live g id (store_db (w_st w)) = true ->
                 TenancyQueries.session_live g id (store_db (w_st w')) = false.
Proof. apply Suspend_run. Qed.

(** Putting a date on an indefinite hold is refused. *)
Lemma SetRetention_indefinite ctx id h reason overwrite f r w :
  quiet w -> tenants (store_db (w_st w)) !! id = Some r ->
  isHoldableStatus (tn_Status r) = true ->
  tn_FreezeReason r = Some f -> f <> "" -> tn_HoldUntil r = None ->
  exists e, evals (Tenancy.SetTenantRetention s ctx id (Some h) reason overwrite) w (Err e) (w_st w)
    /\ existsb (errors_Is e) [ErrHoldNarrowsIndefinite; ErrHoldUntilInPast; ErrTenantHoldExists] = true.
Proof.
  intros Hw Hr Hst Hf Hne Hh. destruct (GetTenant_evals id r w Hw Hr) as (w1 & H1 & Hs1 & Hq1).
  destruct (evals_time (E:=error IamErr) w1 Hq1) as (now & w2 & H2 & Hs2 & Hq2).
  unfold Tenancy.SetTenantRetention, evals. rewrite (bind_wrap_Ok _ _ _ _ _ _ H1).
  cbn [t_Status TenancyPostgres.dbTenantToDomain]. rewrite Hst. cbn [negb].
  assert (Hp : (now ← time_now; mret (bool_decide (h <= now))) w1
               = (Ok (bool_decide (h <= now)) : result (error IamErr) bool, w2))
    by (by rewrite (bind_run _ _ _ _ _ H2)).
  rewrite (bind_run _ _ _ _ _ Hp).
  assert (Hheld : Tenancy.held_with_reason (TenancyPostgres.dbTenantToDomain r) = true).
  { unfold Tenancy.held_with_reason. cbn [t_FreezeReason TenancyPostgres.dbTenantToDomain]. rewrite Hf.
    by rewrite bool_decide_eq_false_2. }
  case_bool_decide; [|rewrite Hheld; destruct overwrite; cbn [andb negb];
                      cbn [t_HoldUntil TenancyPostgres.dbTenantToDomain]; rewrite ?Hh; cbn [andb]].
  all: eexists; split; [exists w2; split; [reflexivity|by rewrite Hs2, Hs1]|]; reflexivity.
Qed.

(** An indefinite legal hold can be given an end through the back door.
    SetTenantRetention refuses any end date for an indefinite hold, even with
    overwrite; SuspendTenant with only a date, undisturbed, puts that date on the
    hold, records no audit event, and from the date on the hold is over although
    nobody cleared it. *)
Theorem suspend_narrows_hold (ctx : Ctx) (id : uuid) (h : Time) (f : string) (r : TenantRow)
    (w : World St) :
  quiet w -> tenants (store_db (w_st w)) !! id = Some r ->
  isHoldableStatus (tn_Status r) = true -> (1000 | h) ->
  tn_FreezeReason r = Some f -> f <> "" -> tn_HoldUntil r = None ->
  (forall now, on_hold now r = true)
  /\ (forall reason overwrite, exists e,
       evals (Tenancy.SetTenantRetention s ctx id (Some h) reason overwrite) w (Err e) (w_st w)
       /\ existsb (errors_Is e) [ErrHoldNarrowsIndefinite; ErrHoldUntilInPast; ErrTenantHoldExists] = true)
  /\ exists t w' r', Tenancy.SuspendTenant s ctx id (Some h) None w = (Ok t, w')
       /\ tenants (store_db (w_st w')) !! id = Some r'
       /\ store_events (w_st w') = store_events (w_st w)
       /\ tn_FreezeReason r' = Some f
       /\ forall now, on_hold now r' = bool_decide (now < h).
Proof.
  intros Hw Hr Hst Hdiv Hf Hne Hh. split; [intros now; unfold on_hold; by rewrite Hf, Hh|].
  split; [intros; by eapply SetRetention_indefinite|].
  destruct (Suspend_run ctx id (Some h) None r w Hw Hr) as (r' & w' & Hrun & _ & (at_ & -> & _) & Hdb & Hev & _).
  eexists _, w', _. split; [exact Hrun|]. split; [rewrite Hdb; apply lookup_insert_eq|].
  split; [by apply Hev|]. simpl. split; [done|]. intros now. unfold on_hold. simpl. rewrite Hf. simpl.
  destruct Hdiv as [k ->]. unfold pg_time. by rewrite Z.div_mul by lia.
Qed.

(** ** A suspension that did not revoke the sessions *)

(** A redelivered event finds the tenant suspended and changes nothing. *)
Lemma Handle_not_active u ctx env r st :
  tenants (store_db st) !! env_TenantID env = Some r -> tn_Status r <> "active" ->
  wp u (Tenancy.Handle s ctx env) (fun res st' => st' = st) st.
Proof.
  intros Hr Hne. unfold Tenancy.Handle. destruct (negb _); [by wp_tac|].
  unfold Tenancy.GetTenant, TenancyPostgres.GetTenant. wp_tac. apply wp_tx; [done|].
  unfold on_db, TenancyQueries.GetTenant, get_row. rewrite Hr. wp_tac.
  cbn [t_Status TenancyPostgres.dbTenantToDomain].
  rewrite bool_decide_eq_false_2 by done. wp_tac. by destruct st.
Qed.
(** One call of a request that runs alone: it goes through, or it fails. *)
Definition one_call (w w1 : World St) : Prop :=
  w_other w1 = w_other w /\ env_fault (w_env w1) = env_fault (w_env w)
  /\ env_fault_pos (w_env w1) = Datatypes.S (env_fault_pos (w_env w)).

Lemma call_ok {E A} (down : E) (body : DB -> result E (A * DB)) w a d :
  (forall n s0, w_other w n s0 = s0) -> env_fault (w_env w) (env_fault_pos (w_env w)) = false ->
  body (store_db (w_st w)) = Ok (a, d) ->
  exists w1, with_tx down body w = (Ok a, w1) /\ w_st w1 = mkStore d (store_events (w_st w)) /\ one_call w w1.
Proof.
  intros Ho Hf Hb. unfold with_tx, db_tx. rewrite Hf, Ho. unfold on_db at 1. rewrite Hb.
  eexists. split; [reflexivity|]. by split.
Qed.
Lemma call_down {E A} (down : E) (body : DB -> result E (A * DB)) w :
  (forall n s0, w_other w n s0 = s0) -> env_fault (w_env w) (env_fault_pos (w_env w)) = true ->
  exists w1, with_tx down body w = (Err down, w1) /\ w_st w1 = w_st w /\ one_call w w1.
Proof. intros Ho Hf. unfold with_tx, db_tx. rewrite Hf, Ho. eexists. split; [reflexivity|]. by split. Qed.

Lemma GetTenant_call id r w :
  (forall n s0, w_other w n s0 = s0) -> env_fault (w_env w) (env_fault_pos (w_env w)) = false ->
  tenants (store_db (w_st w)) !! id = Some r ->
  exists w1, TenancyPostgres.GetTenant id w = (Ok (TenancyPostgres.dbTenantToDomain r), w1)
    /\ w_st w1 = w_st w /\ one_call w w1.
Proof.
  intros Ho Hf Hr.
  destruct (call_ok PgConnection (fun d => match TenancyQueries.GetTenant id d with
      Ok a => Ok (a, d) | Err e => Err e end) w r (store_db (w_st w)) Ho Hf) as (w1 & H1 & Hs1 & Hc).
  { unfold TenancyQueries.GetTenant, get_row. by rewrite Hr. }
  exists w1. split; [|split; [by rewrite Hs1; destruct (w_st w)|done]].
  unfold TenancyPostgres.GetTenant. erewrite bind_run; [reflexivity|].
  unfold map_err, q_query. unfold with_tx in H1. unfold q_exec. by rewrite H1.
Qed.

Lemma UpdateTenantStatus_call id st r w :
  (forall n s0, w_other w n s0 = s0) -> env_fault (w_env w) (env_fault_pos (w_env w)) = false ->
  tenants (store_db (w_st w)) !! id = Some r -> TenancyQueries.tenant_status_ok st = true ->
  exists w1 r1, TenancyPostgres.UpdateTenantStatus id st None None w = (Ok tt, w1)
    /\ store_db (w_st w1) = set_tenants (<[id := r1]> (tenants (store_db (w_st w)))) (store_db (w_st w))
    /\ tn_Status r1 = st /\ one_call w w1.
Proof.
  intros Ho Hf Hr Hst. unfold TenancyPostgres.UpdateTenantStatus.
  destruct (time_now (E:=error IamErr) w) as [[now|] wt] eqn:Ht; [|done]. rewrite (bind_run _ _ _ _ _ Ht).
  injection Ht as <- <-. set (wt := with_env _ w).
  destruct (call_ok PgConnection (TenancyQueries.UpdateTenantStatus
      (env_clock (w_env w) (env_clock_pos (w_env w))) id st None None) wt _ _ Ho Hf
      ltac:(unfold TenancyQueries.UpdateTenantStatus; change (w_st wt) with (w_st w); rewrite Hr, Hst;
            reflexivity)) as (w1 & H1 & Hs1 & Hc).
  exists w1. eexists. split; [|split; [by rewrite Hs1|split; [reflexivity|done]]].
  erewrite bind_run; [reflexivity|]. unfold map_err, q_exec. unfold with_tx in H1. by rewrite H1.
Qed.

(** The run whose third call fails. *)
Lemma Handle_revocation_lost ctx id eid at_ payload r w :
  (forall n s0, w_other w n s0 = s0) -> tenants (store_db (w_st w)) !! id = Some r -> tn_Status r = "active" ->
  env_fault (w_env w) (env_fault_pos (w_env w)) = false ->
  env_fault (w_env w) (1 + env_fault_pos (w_env w)) = false ->
  env_fault (w_env w) (2 + env_fault_pos (w_env w)) = true ->
  exists e w1 r1, Tenancy.Handle s ctx (mkEnvelope eid SubjectBillingSubscriptionSuspended id at_ payload) w
                  = (Err e, w1)
    /\ store_db (w_st w1) = set_tenants (<[id := r1]> (tenants (store_db (w_st w)))) (store_db (w_st w))
    /\ tn_Status r1 = "suspended".
Proof.
  intros Ho Hr Hact F0 F1 F2. destruct (GetTenant_call id r w Ho F0 Hr) as (w1 & H1 & Hs1 & Ho1 & Hf1 & Hp1).
  destruct (UpdateTenantStatus_call id "suspended" r w1) as (w2 & r1 & H2 & Hd2 & Hst & Ho2 & Hf2 & Hp2);
    [by rewrite Ho1|by rewrite Hf1, Hp1|by rewrite Hs1|done|].
  destruct (call_down (EWrap (S:=IamErr) "auth: jwt: revoke all tenant sessions: %w" (EText "connection failed"))
     (fun d => Ok (tt, TenancyQueries.incr_generation id d)) w2) as (w3 & H3 & Hs3 & _);
    [by rewrite Ho2, Ho1|by rewrite Hf2, Hp2, Hf1, Hp1|].
  unfold Tenancy.Handle. cbn [env_Type env_TenantID]. rewrite bool_decide_eq_true_2 by done.
  cbn [negb]. unfold Tenancy.GetTenant. rewrite (bind_wrap_Ok _ _ _ _ _ _ H1).
  cbn [t_Status TenancyPostgres.dbTenantToDomain]. rewrite Hact, bool_decide_eq_true_2 by done. cbn [negb].
  unfold Tenancy.SuspendTenant. cbv zeta. rewrite bool_decide_eq_false_2 by (intros H; by apply H). cbn [andb].
  unfold mbind at 1 2, M_bind at 1 2. cbn [mret M_ret].
  rewrite (bind_wrap_Ok _ _ _ _ _ _ H2). unfold mbind at 1, M_bind at 1, wrap at 1, map_err at 1.
  unfold TenancyPostgres.RevokeAllForTenant. rewrite H3.
  do 3 eexists. split; [reflexivity|]. split; [by rewrite Hs3, Hd2, Hs1|done].
Qed.

(** A suspension whose session revocation failed is never completed.  The billing
    event of an active tenant is handled alone, and the third call fails: the tenant
    is stored as suspended, its sessions are live, and the error has the event
    redelivered.  But every redelivery, whatever fails then, leaves the stores as
    they are, and one whose read succeeds acknowledges the event: the sessions stay
    live for ever. *)
Theorem redelivery_never_revokes (u : nat -> uuid) (ctx : Ctx) (eventID tenantID : uuid)
    (occurredAt : Time) (payload : json) (r : TenantRow) (g : Z) (w : World St) :
  let env := mkEnvelope eventID SubjectBillingSubscriptionSuspended tenantID occurredAt payload in
  let fault n := env_fault (w_env w) (n + env_fault_pos (w_env w)) in
  alone u w -> tenants (store_db (w_st w)) !! tenantID = Some r -> tn_Status r = "active" ->
  TenancyQueries.session_live g tenantID (store_db (w_st w)) = true ->
  fault 0%nat = false -> fault 1%nat = false -> fault 2%nat = true ->
  exists e st1, (Tenancy.Handle s ctx env w).1 = Err e
    /\ w_st (Tenancy.Handle s ctx env w).2 = st1
    /\ (exists r1, tenants (store_db st1) !! tenantID = Some r1 /\ tn_Status r1 = "suspended")
    /\ TenancyQueries.session_live g tenantID (store_db st1) = true
    /\ forall w1, alone u w1 -> w_st w1 = st1 ->
         w_st (Tenancy.Handle s ctx env w1).2 = st1
         /\ (env_fault (w_env w1) (env_fault_pos (w_env w1)) = false ->
             (Tenancy.Handle s ctx env w1).1 = Ok tt).
Proof.
  intros env fault [Ho Hu] Hr Hact Hg F0 F1 F2.
  destruct (Handle_revocation_lost ctx tenantID eventID occurredAt payload r w Ho Hr Hact F0 F1 F2) as (e & w1 & r1 & H1 & Hd1 & Hst).
  fold env in H1. exists e, (w_st w1). rewrite H1. split; [done|]. split; [done|].
  assert (Hr1 : tenants (store_db (w_st w1)) !! tenantID = Some r1)
    by (rewrite Hd1; apply lookup_insert_eq).
  split; [by exists r1|]. split; [by rewrite Hd1|].
  intros w2 Ha2 Hs2. pose proof Ha2 as [Ho2 _]. split.
  - destruct (Tenancy.Handle s ctx env w2) as [res w3] eqn:Hh.
    eapply wp_run in Hh as [_ Hw]; [|eapply Handle_not_active|done]; [by simpl; rewrite Hw|by rewrite Hs2|by rewrite Hst].
  - intros F. destruct (GetTenant_call tenantID r1 w2 Ho2 F) as (w3 & H3 & _); [by rewrite Hs2|].
    unfold Tenancy.Handle, env. cbn [env_Type env_TenantID].
    rewrite bool_decide_eq_true_2 by done. cbn [negb]. unfold Tenancy.GetTenant.
    rewrite (bind_wrap_Ok _ _ _ _ _ _ H3). cbn [t_Status TenancyPostgres.dbTenantToDomain].
    by rewrite Hst.
Qed.
End suspend.

(** The tenant lifecycle: a concrete service with its workers, the witnesses of the
    theorems on it, and a sweep that advances a tenant put on hold meanwhile. *)

Local Open Scope Z_scope.

(** Tenant 7 may be purged; tenant 8 has been suspended for 40 days; tenant 9 is in
    grace for 100 days, on an indefinite hold; tenant 6 is active.  Users 1 and 2 are
    platform administrators; UUIDs count up from 100; the clock advances by a
    microsecond a reading. *)
Module TenDemo.

#[local] Existing Instance ref_external.

Definition start_time : Time := 1700000000 * ns_per_sec.
Definition ago (n : Z) : option Time := Some (start_time - days n).

Definition row (t : uuid) (status : string) (suspended deactivated : option Time)
    (reason : option string) : TenantRow :=
  mkTenantRow t ("Tenant " +:+ uuid_string t) ("tenant-" +:+ uuid_string t) "starter" status
    (start_time - days 900) false None None None "IN" None "INR" suspended deactivated None reason None.

Definition row6 : TenantRow := row 6 "active" None None None.
Definition row7 : TenantRow := row 7 "purge_eligible" (ago 400) (ago 300) None.
Definition row8 : TenantRow := row 8 "suspended" (ago 40) None None.
Definition row9 : TenantRow := row 9 "grace" (ago 100) None (Some "litigation").

Definition db0 : DB :=
  mkDB (<[6%N := row6]> (<[7%N := row7]> (<[8%N := row8]> {[9%N := row9]}))) ∅
    {[6%N; 7%N; 8%N; 9%N]} (empty_redis start_time) empty_accounts.
Definition st0 : St := mkStore db0 [].

Definition service : Tenancy.Service := Tenancy.mkService true.
Definition days_before (n : Z) (t : Time) : Time := t - days n.
Definition name_key (s : string) : string := s.

Definition env : Env :=
  mkEnv (fun n => 100 + N.of_nat n)%N 0 (fun n => start_time + Z.of_nat n * 1000) 0
    (fun _ => false) 0 0.
Definition world (st : St) : World St := mkWorld st env (fun _ st => st) [].

Definition admin_ctx (user : uuid) : Ctx :=
  mkCtx (Some (mkCaller user 1%N 0%N "ops@example.com" ["platform_admin"] [] "")).
Definition admins (u : uuid) : Prop := u = 1%N \/ u = 2%N.

Definition job (j : Job) : M St unit unit := run_job days_before name_key service j.
Fixpoint run (js : list Job) (w : World St) : World St :=
  match js with
  | [] => w
  | j :: js' => run js' (job j w).2
  end.

Definition request : Job := RpcJob (admin_ctx 1) (TenancyHandler.RequestTenantPurgeRpc "7" "left").
Definition approve : Job := RpcJob (admin_ctx 2) (TenancyHandler.ApproveTenantPurgeRpc "7" "agreed").
Definition cancel : Job := RpcJob (admin_ctx 1) (TenancyHandler.CancelTenantPurgeRpc "7" "came back").

(** The purge of tenant 7, requested by 1 and approved by 2. *)
Definition asked : World St := run [request] (world st0).
Definition purged : World St := run [approve; PurgeJob 10] asked.
(** The same request cancelled before it is approved, and what follows. *)
Definition cancelled : World St := run [cancel] asked.
Definition after_cancel : World St := run [approve; PurgeJob 10] cancelled.

End TenDemo.

Section witnesses.
#[local] Existing Instance ref_external.
Import TenDemo.

Lemma db0_keyed : keyed db0.
Proof.
  split; [|apply map_Forall_empty].
  repeat (apply map_Forall_insert_2; [reflexivity|]). apply map_Forall_empty.
Qed.
Lemma st0_started : started st0.
Proof. split; [reflexivity|exact db0_keyed]. Qed.

Lemma admin_known u r : admins u -> job_known admins (RpcJob (admin_ctx u) r).
Proof. intros Hu c [= <-] _. exact Hu. Qed.

Lemma run_reaches js w st :
  keyed (store_db st) -> Forall (job_known admins) js -> (forall n s, w_other w n s = s) ->
  reaches days_before name_key service admins st (w_st w) ->
  reaches days_before name_key service admins st (w_st (run js w))
  /\ forall n s, w_other (run js w) n s = s.
Proof.
  revert w. induction js as [|j js IH]; intros w Hk Hjs Ho Hr; [done|].
  inversion_clear Hjs as [|? ? Hj Hjs']. cbn [run].
  assert (HR : rely (store_step (tstep admins)) w) by (intros n s; by rewrite Ho).
  pose proof (keyed_tstep _ _ _ (reaches_tstep _ _ _ _ _ _ Hk Hr) Hk) as Hkw.
  destruct (run_job_steps admins days_before name_key service j w Hj Hkw HR) as (_ & Hoth & _).
  apply IH; [done|done| |by apply reaches_job].
  intros n s. unfold job. by rewrite Hoth.
Qed.

Lemma request_known : job_known admins request.
Proof. apply admin_known. by left. Qed.
Lemma approve_known : job_known admins approve.
Proof. apply admin_known. by right. Qed.
Lemma cancel_known : job_known admins cancel.
Proof. apply admin_known. by left. Qed.
Lemma purge_known : job_known admins (PurgeJob 10).
Proof. done. Qed.
Local Hint Resolve request_known approve_known cancel_known purge_known : core.

Lemma asked_reached : reaches days_before name_key service admins st0 (w_st asked).
Proof.
  refine (proj1 (run_reaches [request] (world st0) st0 db0_keyed _ _ (reaches_here _ _ _ _ _))); [|done].
  auto.
Qed.

Lemma runs_from_asked js :
  Forall (job_known admins) js ->
  reaches days_before name_key service admins (w_st asked) (w_st (run js asked)).
Proof.
  intros Hjs. apply run_reaches; [|done| |apply reaches_here].
  - exact (keyed_tstep _ _ _ (reaches_tstep _ _ _ _ st0 _ db0_keyed asked_reached) db0_keyed).
  - refine (proj2 (run_reaches [request] (world st0) st0 db0_keyed _ _ (reaches_here _ _ _ _ _))); [|done].
    auto.
Qed.

Lemma schema_dropped_by_two_witness :
  exists id r b, purge_requests (store_db (w_st purged)) !! id = Some r
    /\ pq_TenantID r = 7%N /\ pq_ApprovedBy r = Some b /\ b <> pq_RequestedBy r.
Proof.
  destruct (schema_dropped_by_two days_before name_key service admins st0 (w_st asked) (w_st purged) 7%N
              st0_started asked_reached) as [(id & r & b & Hid & Ht & _ & Hb & Hne & _) _].
  - apply (runs_from_asked [approve; PurgeJob 10]).
    auto.
  - apply (bool_decide_eq_true_1 _). vm_refl.
  - apply (bool_decide_eq_false_1 _). vm_refl.
  - exists id, r, b. exact (conj Hid (conj Ht (conj Hb Hne))).
Defined.

Definition cancelled_row : PurgeRow :=
  mkPurgeRow 100 7 "cancelled" 1 start_time "left" None None (Some 1%N) (Some (start_time + 2000)) None None
    "Tenant 7" "tenant-7".

Lemma cancelled_reached : reaches days_before name_key service admins st0 (w_st cancelled).
Proof.
  eapply reaches_trans; [exact asked_reached|]. apply (runs_from_asked [cancel]).
  auto.
Qed.

Lemma closed_requests_final_witness :
  purge_requests (store_db (w_st after_cancel)) !! 100%N = Some cancelled_row.
Proof.
  refine (proj1 (closed_requests_final days_before name_key service admins st0 (w_st cancelled)
            (w_st after_cancel) 100%N cancelled_row st0_started cancelled_reached _ _) _).
  - apply run_reaches; [| | |apply reaches_here].
    + exact (keyed_tstep _ _ _ (reaches_tstep _ _ _ _ st0 _ db0_keyed cancelled_reached) db0_keyed).
    + auto.
    + reflexivity.
  - vm_refl.
  - reflexivity.
Defined.

(** A sweep of the four tenants. *)
Definition sweep : result (error IamErr) unit * World St := Tenancy.runSweep days_before service 500 20 (world st0).

Definition grace8 : TenantRow := TenancyQueries.with_lifecycle "grace" (ago 40) None row8.

(** The sweep's write: what it logged before its audit event. *)
Definition write : St * St := default (st0, st0) (w_log sweep.2 !! 1%nat).

Lemma sweeper_on_time_witness :
  store_db write.2 = store_db write.1
  \/ exists id r r' st, tenants (store_db write.1) !! id = Some r /\ due_stage start_time r st
      /\ at_stage st r r'
      /\ store_db write.2 = set_tenants (<[id := r']> (tenants (store_db write.1))) (store_db write.1).
Proof.
  refine (sweeper_on_time days_before service admins 500 20 (world st0) db0_keyed
            (fun n s => reflexivity s) eq_refl write.1 write.2 _).
  apply (list_elem_of_lookup_2 _ 1%nat). vm_refl.
Defined.

Example sweep_writes :
  (tn_Status <$> tenants (store_db write.1) !! 8%N, tn_Status <$> tenants (store_db write.2) !! 8%N)
  = (Some "suspended", Some "grace").
Proof. vm_refl. Qed.

Example sweeps : sweep.1 = Ok tt /\ tenants (store_db (w_st sweep.2)) !! 8%N = Some grace8.
Proof. split; vm_refl. Qed.

Lemma rows_whole : map_Forall (fun _ => whole_row) (tenants db0).
Proof.
  assert (Hd : forall n t, ago n = Some t -> (1000 | t)).
  { intros n t [= <-]. exists (1700000000 * 1000000 - n * 86400000000). unfold start_time, days, ns_per_day, ns_per_sec. lia. }
  assert (Hr : forall t st n m f, whole_row (row t st (ago n) (ago m) f)
    /\ whole_row (row t st (ago n) None f) /\ whole_row (row t st None None f)).
  { intros. split_and!; repeat split; intros a Ha; cbn in Ha; try discriminate Ha; exact (Hd _ _ Ha). }
  apply map_Forall_insert_2; [exact (proj2 (proj2 (Hr 6%N "active" 0 0 None)))|].
  apply map_Forall_insert_2; [exact (proj1 (Hr 7%N "purge_eligible" 400 300 None))|].
  apply map_Forall_insert_2; [exact (proj1 (proj2 (Hr 8%N "suspended" 40 0 None)))|].
  apply map_Forall_insert_2; [exact (proj1 (proj2 (Hr 9%N "grace" 100 0 (Some "litigation"))))|].
  apply map_Forall_empty.
Qed.

Lemma sweep_moves_exactly_due_witness :
  exists w' r', Tenancy.runSweep days_before service 500 20 (world st0) = (Ok tt, w')
    /\ tenants (store_db (w_st w')) !! 9%N = Some r' /\ swept start_time row9 r'.
Proof.
  destruct (sweep_moves_exactly_due service (days_before:=days_before) (fun n t => eq_refl) 500 20
              (world st0) (conj (fun n st => eq_refl) (fun n => eq_refl)) db0_keyed rows_whole
              ltac:(lia) ltac:(lia)) as (w' & Hrun & _ & _ & _ & _ & _ & Hrows).
  - vm_compute. reflexivity.
  - destruct (Hrows 9%N row9 eq_refl) as (r' & Hr' & Hs). exact (ex_intro _ w' (ex_intro _ r' (conj Hrun (conj Hr' Hs)))).
Defined.

Lemma suspend_tenant_spec_witness :
  exists r' w', Tenancy.SuspendTenant service (admin_ctx 1) 7%N None None (world st0)
                  = (Ok (TenancyPostgres.dbTenantToDomain r'), w')
    /\ suspended_row None None row7 r'
    /\ TenancyQueries.session_live 0 7%N (store_db (w_st w')) = false.
Proof.
  destruct (suspend_tenant_spec service (admin_ctx 1) 7%N None None row7 (world st0)
              (conj (fun n st => eq_refl) (fun n => eq_refl)) eq_refl)
    as (r' & w' & Hrun & _ & Hr' & _ & _ & Hg).
  exists r', w'. exact (conj Hrun (conj Hr' (Hg 0 eq_refl))).
Defined.

Lemma suspend_narrows_hold_witness :
  (forall now, on_hold now row9 = true)
  /\ exists t w' r', Tenancy.SuspendTenant service (admin_ctx 1) 9%N (Some (start_time + 1000)) None (world st0)
                       = (Ok t, w')
       /\ tenants (store_db (w_st w')) !! 9%N = Some r'
       /\ on_hold (start_time + 1000) r' = false.
Proof.
  destruct (suspend_narrows_hold service (admin_ctx 1) 9%N (start_time + 1000) "litigation" row9 (world st0)
              (conj (fun n st => eq_refl) (fun n => eq_refl)) eq_refl eq_refl
              ltac:(exists (1700000000 * 1000000 + 1); reflexivity) eq_refl ltac:(discriminate) eq_refl)
    as (Hon & _ & t & w' & r' & Hrun & Hr' & _ & _ & Hoff).
  split; [exact Hon|]. exists t, w', r'. split; [exact Hrun|]. split; [exact Hr'|].
  rewrite Hoff. vm_compute. reflexivity.
Defined.

(** The connection fails once, at the third call. *)
Definition third_fails : World St :=
  mkWorld st0 (mkEnv (env_uuid env) 0 (env_clock env) 0 (fun n => Nat.eqb n 2) 0 0) (fun _ st => st) [].
Definition suspended_event : Envelope :=
  mkEnvelope 1%N SubjectBillingSubscriptionSuspended 6%N start_time (JObject []).

Lemma redelivery_never_revokes_witness :
  exists st1, w_st (Tenancy.Handle service (mkCtx None) suspended_event third_fails).2 = st1
    /\ TenancyQueries.session_live 0 6%N (store_db st1) = true
    /\ (Tenancy.Handle service (mkCtx None) suspended_event (world st1)).1 = Ok tt.
Proof.
  destruct (redelivery_never_revokes service (env_uuid env) (mkCtx None) 1%N 6%N start_time (JObject [])
              row6 0 third_fails
              (conj (fun n st => eq_refl) eq_refl) eq_refl eq_refl eq_refl eq_refl eq_refl eq_refl)
    as (e & st1 & _ & Hst & _ & Hg & Hnext).
  exists st1. split; [exact Hst|]. split; [exact Hg|].
  exact (proj2 (Hnext (world st1) (conj (fun n st => eq_refl) eq_refl) eq_refl) eq_refl).
Defined.

(** ** A hold put on during a sweep *)

(** An administrator puts tenant 8 on an indefinite hold after the sweeper has
    listed the tenants that are due. *)
Definition hold8 (st : St) :=
  TenancyHandler.handle service (admin_ctx 1)
    (TenancyHandler.SetTenantRetentionRpc "8" None "litigation" false) (world st).
Definition during_sweep : World St :=
  mkWorld st0 env (fun n st => if Nat.eqb n 2 then w_st (hold8 st).2 else st) [].

(** A tenant put on hold while a sweep runs is still moved.  The sweeper looks for
    holds when it lists the tenants, TransitionTenantStatus looks only at the
    status: an administrator's hold, answered with success between the two, does not
    keep tenant 8 from "grace", although it was in force when the sweeper wrote. *)
Theorem held_tenant_advanced :
  let final := (Tenancy.runSweep days_before service 500 20 during_sweep).2 in
  is_ok (hold8 st0).1 = true
  /\ (on_hold (start_time + days 1) <$> tenants (store_db (w_st (hold8 st0).2)) !! 8%N) = Some true
  /\ ((fun r => (tn_Status r, tn_FreezeReason r)) <$> tenants (store_db (w_st final)) !! 8%N)
     = Some ("grace", Some "litigation").
Proof. cbv zeta. split_and!; vm_refl. Qed.
End witnesses.
