(* ===== verification/AccountQueries.v ===== *)
(** Users, roles, assignments, invitations, OIDC configurations and new tenants:
    the SQL statements of services/iam/db/queries.sql.go and those written out in
    db/postgres.go, with the constraints and the trigger of migrations/iam
    (001-003, 007-009, 012, 014, 018, 024). *)

From S2P Require Export TenancyModel.
From S2P Require Import RegistrationModel.
From S2P Require TenancyQueries.
Local Open Scope Z_scope.

Definition put_users (t : gmap uuid UserRow) (d : DB) : DB := set_accounts (set_users t (accounts d)) d.
Definition put_roles (t : gmap uuid RoleRow) (d : DB) : DB := set_accounts (set_roles t (accounts d)) d.
Definition put_user_roles (t : gmap GrantKey UserRoleRow) (d : DB) : DB :=
  set_accounts (set_user_roles t (accounts d)) d.
Definition put_invitations (t : gmap uuid InvitationRow) (d : DB) : DB :=
  set_accounts (set_invitations t (accounts d)) d.
Definition put_auth_configs (t : gmap uuid AuthConfigRow) (d : DB) : DB :=
  set_accounts (set_auth_configs t (accounts d)) d.

(** ** users *)

Definition user_status_ok (status : string) : bool :=
  bool_decide (status ∈ ["active"; "invited"; "deactivated"]).

Definition with_user_status (status : string) (r : UserRow) : UserRow :=
  mkUserRow (us_ID r) (us_TenantID r) (us_Email r) (us_DisplayName r) (us_PasswordHash r) status
    (us_CreatedAt r).
Definition with_display_name (name : string) (r : UserRow) : UserRow :=
  mkUserRow (us_ID r) (us_TenantID r) (us_Email r) name (us_PasswordHash r) (us_Status r)
    (us_CreatedAt r).
Definition with_password_hash (hash : string) (r : UserRow) : UserRow :=
  mkUserRow (us_ID r) (us_TenantID r) (us_Email r) (us_DisplayName r) hash (us_Status r)
    (us_CreatedAt r).

Definition user_email_is (tenantID : uuid) (email : string) (r : UserRow) : bool :=
  bool_decide (us_TenantID r = tenantID) && bool_decide (us_Email r = email).
Definition in_tenant (tenantID : uuid) (r : UserRow) : bool := bool_decide (us_TenantID r = tenantID).

(** ON CONFLICT (tenant_id, email) DO NOTHING RETURNING: no row when taken. *)
Definition CreateUser (now : Time) (id tenantID : uuid) (email displayName passwordHash status : string)
    (d : DB) : result pg_error (UserRow * DB) :=
  let a := accounts d in
  if negb (user_status_ok status) then Err PgConstraint
  else if exists_row (user_email_is tenantID email) (users a) then Err PgNoRows
  else if bool_decide (is_Some (users a !! id)) then Err PgUniqueViolation
  else if negb (bool_decide (is_Some (tenants d !! tenantID))) then Err PgConstraint
  else let r := mkUserRow id tenantID email displayName passwordHash status (pg_time now) in
       Ok (r, put_users (<[id := r]> (users a)) d).

Definition GetUser (id tenantID : uuid) (d : DB) : result pg_error UserRow :=
  get_row (users (accounts d)) id (in_tenant tenantID).
Definition GetUserByEmail (tenantID : uuid) (email : string) (d : DB) : result pg_error UserRow :=
  one_row (select (user_email_is tenantID email) (users (accounts d))).
(** SELECT tenant_id FROM users WHERE email = $1 LIMIT 2 *)
Definition TenantsOfEmail (email : string) (d : DB) : result pg_error (list uuid) :=
  Ok (us_TenantID <$> take 2 (select (fun r => bool_decide (us_Email r = email)) (users (accounts d)))).

Section listing.
Context {X : External}.

Definition display_name_le (r r' : UserRow) : bool := text_le (us_DisplayName r) (us_DisplayName r').
Definition ListUsers (tenantID : uuid) (status : string) (limit offset : Z) (d : DB) :
    result pg_error (list UserRow) :=
  if bool_decide (limit < 0) || bool_decide (offset < 0) then Err PgConstraint
  else Ok (limit_offset limit offset (order_by display_name_le
         (select (fun r => in_tenant tenantID r
                           && (bool_decide (status = "") || bool_decide (us_Status r = status)))
            (users (accounts d))))).
End listing.

(** UPDATE users SET ... WHERE id = $1 AND tenant_id = $2 AND the condition. *)
Definition update_user (p : UserRow -> bool) (f : UserRow -> UserRow) (id tenantID : uuid) (d : DB) :
    result pg_error (UserRow * DB) :=
  match get_row (users (accounts d)) id (fun r => in_tenant tenantID r && p r) with
  | Err e => Err e
  | Ok r => let r' := f r in
            if negb (user_status_ok (us_Status r')) then Err PgConstraint
            else Ok (r', put_users (<[id := r']> (users (accounts d))) d)
  end.
(** The rows an UPDATE affected. *)
Definition affected {A} (d : DB) (r : result pg_error (A * DB)) : result pg_error (Z * DB) :=
  match r with
  | Ok (_, d') => Ok (1, d')
  | Err PgNoRows => Ok (0, d)
  | Err e => Err e
  end.

(** status = COALESCE(NULLIF($3, ''), status) *)
Definition UpdateUser (id : uuid) (displayName status : string) (tenantID : uuid) (d : DB) :
    result pg_error (Z * DB) :=
  affected d (update_user (fun _ => true)
    (fun r => with_display_name displayName
                (if decide (status = "") then r else with_user_status status r)) id tenantID d).
Definition UpdateUserPasswordHash (id : uuid) (hash : string) (tenantID : uuid) (d : DB) :
    result pg_error (Z * DB) :=
  affected d (update_user (fun _ => true) (with_password_hash hash) id tenantID d).
Definition UpdateUserStatus (id : uuid) (status : string) (tenantID : uuid) (d : DB) :
    result pg_error (UserRow * DB) :=
  update_user (fun _ => true) (with_user_status status) id tenantID d.
Definition ReactivateUser (id tenantID : uuid) (d : DB) : result pg_error (UserRow * DB) :=
  update_user (fun r => bool_decide (us_Status r = "deactivated")) (with_user_status "active") id tenantID d.

(** ** tenants *)

(** Migration 014: CHAR(2) and CHAR(3) of capital letters. *)
Definition address_ok (country currency : string) : bool :=
  string_forallb is_upper country && bool_decide (String.length country = 2%nat)
  && matches_upper3 currency.

Section names.
(** [regexp_replace(lower(trim(name)), '\s+', ' ', 'g')] in the database. *)
Variable name_key : string -> string.

(** ON CONFLICT (slug) DO NOTHING RETURNING: no row when the slug is taken;
    is_demo takes its default. *)
Definition CreateTenant (now : Time) (id : uuid) (name slug plan status : string)
    (line1 line2 city : option string) (country : string) (postal : option string)
    (currency : string) (d : DB) : result named_pg_error (TenantRow * DB) :=
  if negb (isValidPlan plan) || negb (TenancyQueries.tenant_status_ok status)
     || negb (address_ok country currency)
  then Err (OtherPg PgConstraint)
  else if exists_row (fun t => bool_decide (tn_Slug t = slug)) (tenants d) then Err (OtherPg PgNoRows)
  else if bool_decide (is_Some (tenants d !! id)) then Err (UniqueOn "tenants_pkey")
  else if exists_row (fun t => bool_decide (name_key (tn_Name t) = name_key name)) (tenants d)
  then Err (UniqueOn "tenants_name_ci_unique")
  else let t := mkTenantRow id name slug plan status (pg_time now) false line1 line2 city country
                  postal currency None None None None None in
       Ok (t, set_tenants (<[id := t]> (tenants d)) d).

Definition FindTenantByNormalizedName (name : string) (d : DB) : result pg_error TenantRow :=
  one_row (select (fun t => bool_decide (name_key (tn_Name t) = name_key name)) (tenants d)).
End names.

Definition with_address (line1 line2 city : option string) (country : string) (postal : option string)
    (currency : string) (r : TenantRow) : TenantRow :=
  mkTenantRow (tn_ID r) (tn_Name r) (tn_Slug r) (tn_Plan r) (tn_Status r) (tn_CreatedAt r)
    (tn_IsDemo r) line1 line2 city country postal currency (tn_SuspendedAt r) (tn_DeactivatedAt r)
    (tn_HoldUntil r) (tn_FreezeReason r) (tn_PurgedAt r).
Definition UpdateTenantAddress (id : uuid) (line1 line2 city : option string) (country : string)
    (postal : option string) (currency : string) (d : DB) : result pg_error (TenantRow * DB) :=
  match tenants d !! id with
  | None => Err PgNoRows
  | Some r =>
    if negb (address_ok country currency) then Err PgConstraint
    else let r' := with_address line1 line2 city country postal currency r in
         Ok (r', set_tenants (<[id := r']> (tenants d)) d)
  end.

(** ** roles *)

Definition role_is (tenantID : uuid) (name : string) (r : RoleRow) : bool :=
  bool_decide (ro_TenantID r = tenantID) && bool_decide (ro_Name r = name).
Definition role_in (tenantID : uuid) (r : RoleRow) : bool := bool_decide (ro_TenantID r = tenantID).

(** ON CONFLICT (tenant_id, name) DO NOTHING RETURNING: no row when taken. *)
Definition CreateRole (id tenantID : uuid) (name : string) (permissions : list string)
    (isSystem : bool) (d : DB) : result pg_error (RoleRow * DB) :=
  let a := accounts d in
  if exists_row (role_is tenantID name) (roles a) then Err PgNoRows
  else if bool_decide (is_Some (roles a !! id)) then Err PgUniqueViolation
  else if negb (bool_decide (is_Some (tenants d !! tenantID))) then Err PgConstraint
  else let r := mkRoleRow id tenantID name permissions isSystem in
       Ok (r, put_roles (<[id := r]> (roles a)) d).

Definition GetRole (tenantID : uuid) (name : string) (d : DB) : result pg_error RoleRow :=
  one_row (select (role_is tenantID name) (roles (accounts d))).
Definition GetRoleByID (tenantID roleID : uuid) (d : DB) : result pg_error RoleRow :=
  get_row (roles (accounts d)) roleID (role_in tenantID).

Section role_listing.
Context {X : External}.
Definition ListRoles (tenantID : uuid) (d : DB) : result pg_error (list RoleRow) :=
  Ok (order_by (fun r r' => text_le (ro_Name r) (ro_Name r'))
        (select (role_in tenantID) (roles (accounts d)))).
End role_listing.

(** ** user_roles *)

Definition tenant_wide_roles : list string :=
  ["super_admin"; "manager"; "coordinator"; "accountant"; "inventory_manager"; "member"].

(** The trigger enforce_user_role_scope, before every insert; a role that does
    not exist passes, and fails its foreign key. *)
Definition enforce_user_role_scope (role : option RoleRow) (projectID : option uuid) : bool :=
  match role with
  | None => true
  | Some r =>
    if negb (ro_IsSystem r) then true
    else if bool_decide (ro_Name r = "project_supervisor") && bool_decide (projectID = None) then false
    else if bool_decide (ro_Name r ∈ tenant_wide_roles) && bool_decide (projectID <> None) then false
    else true
  end.

Definition grant_key (userID roleID : uuid) (projectID : option uuid) : GrantKey :=
  (userID, roleID, default uuid_nil projectID).

Definition AssignRole (now : Time) (userID roleID : uuid) (projectID : option uuid)
    (assignedBy : uuid) (d : DB) : result pg_error (unit * DB) :=
  let a := accounts d in
  let k := grant_key userID roleID projectID in
  if negb (enforce_user_role_scope (roles a !! roleID) projectID) then Err PgConstraint
  else if bool_decide (is_Some (user_roles a !! k)) then Ok (tt, d)
  else if negb (bool_decide (is_Some (users a !! userID)) && bool_decide (is_Some (roles a !! roleID))
                && bool_decide (is_Some (users a !! assignedBy)))
  then Err PgConstraint
  else Ok (tt, put_user_roles
                 (<[k := mkUserRoleRow userID roleID projectID assignedBy (pg_time now)]> (user_roles a)) d).

(** DELETE FROM user_roles WHERE user_id = $1 AND role_id = $2 *)
Definition RevokeRole (userID roleID : uuid) (d : DB) : result pg_error (unit * DB) :=
  let a := accounts d in
  Ok (tt, put_user_roles
            (filter (fun kv => ~ (ur_UserID kv.2 = userID /\ ur_RoleID kv.2 = roleID)) (user_roles a)) d).

(** The assignments of a user, in no particular order. *)
Definition grants_of (userID : uuid) (a : Accounts) : list UserRoleRow :=
  List.filter (fun g => bool_decide (ur_UserID g = userID)) ((map_to_list (user_roles a)).*2).
(** ur.project_id IS NULL OR ur.project_id = $2; a NULL parameter equals nothing. *)
Definition in_scope (projectID : option uuid) (g : UserRoleRow) : bool :=
  match ur_ProjectID g, projectID with
  | None, _ => true
  | Some p, Some q => bool_decide (p = q)
  | Some _, None => false
  end.

(** JOIN roles ON ur.role_id = r.id *)
Definition join_roles (a : Accounts) (gs : list UserRoleRow) : list RoleRow :=
  omap (fun g => roles a !! ur_RoleID g) gs.
Definition UserPermissionRows (userID : uuid) (projectID : option uuid) (d : DB) :
    result pg_error (list (list string)) :=
  let a := accounts d in
  Ok (ro_Permissions <$> join_roles a (List.filter (in_scope projectID) (grants_of userID a))).
Definition ListUserRoles (userID : uuid) (d : DB) : result pg_error (list RoleRow) :=
  Ok (join_roles (accounts d) (grants_of userID (accounts d))).

(** ** invitations *)

Definition invited_as (tenantID : uuid) (email : string) (r : InvitationRow) : bool :=
  bool_decide (iv_TenantID r = tenantID) && bool_decide (iv_Email r = email).
Definition reinvited (token : string) (expires : Time) (roleID : option uuid) (r : InvitationRow) :
    InvitationRow :=
  mkInvitationRow (iv_ID r) (iv_TenantID r) (iv_Email r) roleID token "pending" (iv_InvitedBy r)
    (pg_time expires) (iv_CreatedAt r).
Definition accepted_invitation (r : InvitationRow) : InvitationRow :=
  mkInvitationRow (iv_ID r) (iv_TenantID r) (iv_Email r) (iv_RoleID r) (iv_Token r) "accepted"
    (iv_InvitedBy r) (iv_ExpiresAt r) (iv_CreatedAt r).

(** token is UNIQUE. *)
Definition token_taken (id : uuid) (token : string) (a : Accounts) : bool :=
  exists_row (fun r => negb (bool_decide (iv_ID r = id)) && bool_decide (iv_Token r = token)) (invitations a).
Definition role_exists (roleID : option uuid) (a : Accounts) : bool :=
  match roleID with None => true | Some r => bool_decide (is_Some (roles a !! r)) end.

(** ON CONFLICT (tenant_id, email) DO UPDATE SET token, expires_at, status and
    role_id; the row keeps its id and who invited first. *)
Definition CreateInvitation (now : Time) (id tenantID : uuid) (email : string) (invitedBy : uuid)
    (token : string) (expires : Time) (roleID : option uuid) (d : DB) :
    result pg_error (InvitationRow * DB) :=
  let a := accounts d in
  match select (invited_as tenantID email) (invitations a) with
  | r :: _ =>
    if token_taken (iv_ID r) token a then Err PgUniqueViolation
    else if negb (role_exists roleID a) then Err PgConstraint
    else let r' := reinvited token expires roleID r in
         Ok (r', put_invitations (<[iv_ID r := r']> (invitations a)) d)
  | [] =>
    if bool_decide (is_Some (invitations a !! id)) || token_taken id token a then Err PgUniqueViolation
    else if negb (bool_decide (is_Some (tenants d !! tenantID)) && role_exists roleID a
                  && bool_decide (is_Some (users a !! invitedBy)))
    then Err PgConstraint
    else let r' := mkInvitationRow id tenantID email roleID token "pending" invitedBy
                     (pg_time expires) (pg_time now) in
         Ok (r', put_invitations (<[id := r']> (invitations a)) d)
  end.

(** WHERE token = $1 AND status = 'pending' AND expires_at > now() *)
Definition GetInvitationByToken (now : Time) (token : string) (d : DB) : result pg_error InvitationRow :=
  one_row (select (fun r => bool_decide (iv_Token r = token) && bool_decide (iv_Status r = "pending")
                            && bool_decide (pg_time now < iv_ExpiresAt r)) (invitations (accounts d))).

(** UPDATE invitations SET status = 'accepted' WHERE id = $1 *)
Definition AcceptInvitation (id : uuid) (d : DB) : result pg_error (unit * DB) :=
  let t := invitations (accounts d) in
  match t !! id with
  | None => Ok (tt, d)
  | Some r => Ok (tt, put_invitations (<[id := accepted_invitation r]> t) d)
  end.

(** ** tenant_auth_config *)

(** WHERE tenant_id = $1 AND auth_method = 'oidc' *)
Definition GetOIDCConfig (tenantID : uuid) (d : DB) : result pg_error AuthConfigRow :=
  get_row (auth_configs (accounts d)) tenantID (fun r => bool_decide (tc_AuthMethod r = "oidc")).

Definition UpsertOIDCConfig (now : Time) (tenantID : uuid) (issuer client secret : string)
    (scopes : list string) (email name : string) (groups : option string) (auto : bool)
    (role : string) (d : DB) : result pg_error (unit * DB) :=
  let t := auth_configs (accounts d) in
  if negb (bool_decide (is_Some (tenants d !! tenantID))) then Err PgConstraint
  else let created := match t !! tenantID with Some r => tc_CreatedAt r | None => pg_time now end in
       let r := mkAuthConfigRow "oidc" (Some issuer) (Some client) (Some secret) scopes email name
                  groups auto role created (pg_time now) in
       Ok (tt, put_auth_configs (<[tenantID := r]> t) d).
