(* ===== verification/AccountPostgres.v ===== *)
(** Users, roles, invitations, OIDC configurations and new tenants: the
    repository methods of services/iam/db/postgres.go over the statements of
    [AccountQueries]. *)

From S2P Require Export AuthTokens.
From S2P Require AccountQueries TenancyQueries TenancyPostgres.
Local Open Scope Z_scope.

Section postgres.
Context {X : External}.
Variable name_key : string -> string.

Abbreviation Repo := (M St (error IamErr)) (only parsing).

(** A method a transaction can run too ([WithTx]): what it does to the tables. *)
Abbreviation Body A := (DB -> result (error IamErr) (A * DB)) (only parsing).

(** ** Login lookups (auth.UserStore, auth.TenantStore, auth.OIDCConfigStore) *)

Definition FindTenantByEmail (email : string) : Repo uuid :=
  tenants ← map_err (pg_wrap "iam/db: find tenant by email: %w") (q_query (AccountQueries.TenantsOfEmail email));
  match tenants with
  | [] => mthrow (ESent ErrUserNotFound)
  | [t] => mret t
  | _ => mthrow (ESent ErrAmbiguousEmail)
  end.

(** Role names, and permissions without repetitions; the map they are collected
    in gives them in no particular order. *)
Definition loadRolesAndPerms (userID : uuid) : Repo (list string * list string) :=
  roles ← map_err (pg_wrap "iam/db: load roles for user %s: %w") (q_query (AccountQueries.ListUserRoles userID));
  mret (ro_Name <$> roles, remove_dups (mjoin (ro_Permissions <$> roles))).

Definition user_record (u : UserRow) (rp : list string * list string) : UserRecord :=
  mkUserRecord (us_ID u) (us_TenantID u) (us_Email u) (us_DisplayName u) (us_PasswordHash u)
    (us_Status u) rp.1 rp.2.

Definition GetUserByEmail (tenantID : uuid) (email : string) : Repo UserRecord :=
  u ← map_err (no_rows_as ErrInvalidCredentials "iam/db: get user by email: %w")
    (q_query (AccountQueries.GetUserByEmail tenantID email));
  rp ← loadRolesAndPerms (us_ID u);
  mret (user_record u rp).

Definition GetUserByID (tenantID userID : uuid) : Repo UserRecord :=
  u ← map_err (no_rows_as ErrUserNotFound "iam/db: get user by id: %w")
    (q_query (AccountQueries.GetUser userID tenantID));
  rp ← loadRolesAndPerms (us_ID u);
  mret (user_record u rp).

Definition CreateOIDCUser (tenantID : uuid) (email displayName : string) : Repo UserRecord :=
  id ← uuid_new;
  now ← time_now;
  u ← map_err (pg_wrap "iam/db: create oidc user: %w")
    (q_exec (AccountQueries.CreateUser now id tenantID email displayName "" "active"));
  mret (mkUserRecord (us_ID u) (us_TenantID u) (us_Email u) (us_DisplayName u) "" (us_Status u) [] []).

Definition GetTenantStatus (tenantID : uuid) : Repo string :=
  t ← map_err (no_rows_as ErrTenantNotFound "iam/db: get tenant status: %w")
    (q_query (TenancyQueries.GetTenant tenantID));
  mret (tn_Status t).

(** A NULL does not scan into a string. *)
Definition oidc_config (tenantID : uuid) (r : AuthConfigRow) : result (error IamErr) OIDCConfig :=
  match tc_IssuerURL r, tc_ClientID r, tc_ClientSecretEnc r with
  | Some issuer, Some client, Some secret =>
    Ok (mkOIDCConfig tenantID issuer client secret (tc_Scopes r) (tc_EmailClaim r)
          (tc_DisplayNameClaim r) (default "" (tc_GroupsClaim r)) (tc_AutoProvision r) (tc_DefaultRole r))
  | _, _, _ => Err (EText "iam/db: get oidc config: %w")
  end.
Definition GetOIDCConfig (tenantID : uuid) : Repo OIDCConfig :=
  r ← map_err (no_rows_as ErrOIDCConfigMissing "iam/db: get oidc config: %w")
    (q_query (AccountQueries.GetOIDCConfig tenantID));
  lift_result (oidc_config tenantID r).

(** ** Users *)

Definition dbUserToDomain (u : UserRow) : User :=
  mkUser (us_ID u) (us_TenantID u) (us_Email u) (us_DisplayName u) (us_PasswordHash u) (us_Status u)
    (us_CreatedAt u).
Definition with_created (t : Time) (u : User) : User :=
  mkUser (u_ID u) (u_TenantID u) (u_Email u) (u_DisplayName u) (u_PasswordHash u) (u_Status u) t.

Definition create_user_error : pg_error -> error IamErr := pg_wrap "iam/db: create user: %w".
Definition create_user (now : Time) (u : User) : Body User := fun d =>
  match AccountQueries.CreateUser now (u_ID u) (u_TenantID u) (u_Email u) (u_DisplayName u)
          (u_PasswordHash u) (u_Status u) d with
  | Err e => Err (create_user_error e)
  | Ok (row, d') =>
    if decide (us_ID row = uuid_nil) then Err (ESent ErrUserAlreadyExists)
    else Ok (with_created (us_CreatedAt row) u, d')
  end.
Definition CreateUser (u : User) : Repo User :=
  now ← time_now; with_tx (create_user_error PgConnection) (create_user now u).

Definition GetUser (tenantID id : uuid) : Repo User :=
  row ← map_err (no_rows_as ErrUserNotFound "iam/db: get user: %w")
    (q_query (AccountQueries.GetUser id tenantID));
  if negb (bool_decide (us_TenantID row = tenantID)) then mthrow (ESent ErrUserNotFound)
  else mret (dbUserToDomain row).

Definition ListUsers (tenantID : uuid) (statusFilter : string) (limit offset : Z) : Repo (list User) :=
  rows ← map_err (pg_wrap "iam/db: list users: %w")
    (q_query (AccountQueries.ListUsers tenantID statusFilter (int32 limit) (int32 offset)));
  mret (dbUserToDomain <$> rows).

(** [if n == 0 { return iam.ErrUserNotFound }] *)
Definition found_user (n : Z) : Repo unit :=
  if decide (n = 0) then mthrow (ESent ErrUserNotFound) else mret tt.

Definition UpdateUser (u : User) : Repo unit :=
  n ← map_err (pg_wrap "iam/db: update user: %w")
    (q_exec (AccountQueries.UpdateUser (u_ID u) (u_DisplayName u) (u_Status u) (u_TenantID u)));
  found_user n.

Definition UpdatePasswordHash (tenantID userID : uuid) (hash : string) : Repo unit :=
  n ← map_err (pg_wrap "iam/db: update password hash: %w")
    (q_exec (AccountQueries.UpdateUserPasswordHash userID hash tenantID));
  found_user n.

(** No row is an error of the driver here, so the test after it never holds. *)
Definition DeactivateUser (tenantID id : uuid) : Repo unit :=
  row ← map_err (pg_wrap "iam/db: deactivate user: %w")
    (q_exec (AccountQueries.UpdateUserStatus id "deactivated" tenantID));
  if decide (us_ID row = uuid_nil) then mthrow (ESent ErrUserNotFound) else mret tt.

Definition ActivateUser (tenantID id : uuid) : Repo unit :=
  r ← try (q_exec (AccountQueries.ReactivateUser id tenantID));
  match r with
  | Ok _ => mret tt
  | Err PgNoRows =>
    _ ← map_err (no_rows_as ErrUserNotFound "iam/db: activate user: %w")
      (q_query (AccountQueries.GetUser id tenantID));
    mthrow (ESent ErrNotDeactivated)
  | Err e => mthrow (pg_wrap "iam/db: activate user: %w" e)
  end.

(** ** Tenants *)

Definition FindTenantByNormalizedName (name : string) : Repo (option Tenant) :=
  r ← try (q_query (AccountQueries.FindTenantByNormalizedName name_key name));
  match r with
  | Ok row => mret (Some (TenancyPostgres.dbTenantToDomain row))
  | Err PgNoRows => mret None
  | Err e => mthrow (pg_wrap "iam/db: find tenant by name: %w" e)
  end.

(** [TenantNameTakenErr]; the text carries the id. *)
Definition TenantNameTakenErr (id : uuid) : error IamErr :=
  EWrap "%w (existing tenant %s)" (ESent ErrTenantNameTaken).

Definition with_stored (row : TenantRow) (t : Tenant) : Tenant :=
  mkTenant (t_ID t) (t_Name t) (t_Slug t) (t_Plan t) (t_Status t) (tn_IsDemo row) (tn_CreatedAt row)
    (t_AddressLine1 t) (t_AddressLine2 t) (t_City t) (t_CountryCode t) (t_PostalCode t)
    (t_PrimaryCurrencyCode t) (t_SuspendedAt t) (t_DeactivatedAt t) (t_HoldUntil t) (t_FreezeReason t).

Definition CreateTenant (t : Tenant) : Repo Tenant :=
  now ← time_now;
  r ← try (with_tx (OtherPg PgConnection)
        (AccountQueries.CreateTenant name_key now (t_ID t) (t_Name t) (t_Slug t) (t_Plan t) (t_Status t)
           (pgTextFromString (t_AddressLine1 t)) (pgTextFromString (t_AddressLine2 t))
           (pgTextFromString (t_City t)) (t_CountryCode t) (pgTextFromString (t_PostalCode t))
           (t_PrimaryCurrencyCode t)));
  match r with
  | Err (UniqueOn c) =>
    if decide (c = "tenants_name_ci_unique")
    then existing ← try (E' := error IamErr) (FindTenantByNormalizedName (t_Name t));
         match existing with
         | Ok (Some e) => mthrow (TenantNameTakenErr (t_ID e))
         | _ => mthrow (ESent ErrTenantNameTaken)
         end
    else mthrow (pg_wrap "iam/db: create tenant: %w" PgUniqueViolation)
  | Err (OtherPg e) => mthrow (pg_wrap "iam/db: create tenant: %w" e)
  | Ok row =>
    if decide (tn_ID row = uuid_nil) then mthrow (ESent ErrTenantSlugTaken)
    else mret (with_stored row t)
  end.

Definition UpdateTenantAddress (t : Tenant) : Repo Tenant :=
  row ← map_err (no_rows_as ErrTenantNotFound "iam/db: update tenant address: %w")
    (q_exec (AccountQueries.UpdateTenantAddress (t_ID t)
       (pgTextFromString (t_AddressLine1 t)) (pgTextFromString (t_AddressLine2 t))
       (pgTextFromString (t_City t)) (t_CountryCode t) (pgTextFromString (t_PostalCode t))
       (t_PrimaryCurrencyCode t)));
  mret (TenancyPostgres.dbTenantToDomain row).

(** ** Roles *)

Definition roleFromDB (r : RoleRow) : Role :=
  mkRole (ro_ID r) (ro_TenantID r) (ro_Name r) (ro_Permissions r) (ro_IsSystem r).

(** No row is an error of the driver here too, so a role that exists is not
    "fine for seeding". *)
Definition CreateRole (r : Role) : Repo unit :=
  _ ← map_err (pg_wrap "iam/db: create role: %w")
    (q_exec (AccountQueries.CreateRole (r_ID r) (r_TenantID r) (r_Name r) (r_Permissions r) (r_IsSystem r)));
  mret tt.

Definition GetRole (tenantID : uuid) (name : string) : Repo Role :=
  row ← map_err (no_rows_as ErrRoleNotFound "iam/db: get role: %w")
    (q_query (AccountQueries.GetRole tenantID name));
  mret (roleFromDB row).

Definition get_role_error : pg_error -> error IamErr :=
  no_rows_as ErrRoleNotFound "iam/db: get role by id: %w".
Definition get_role_by_id (tenantID roleID : uuid) : Body Role := fun d =>
  match AccountQueries.GetRoleByID tenantID roleID d with
  | Err e => Err (get_role_error e)
  | Ok row => Ok (roleFromDB row, d)
  end.
Definition GetRoleByID (tenantID roleID : uuid) : Repo Role :=
  with_tx (get_role_error PgConnection) (get_role_by_id tenantID roleID).

Definition ListRoles (tenantID : uuid) : Repo (list Role) :=
  rows ← map_err (pg_wrap "iam/db: list roles: %w") (q_query (AccountQueries.ListRoles tenantID));
  mret (roleFromDB <$> rows).

Definition assign_role_error : pg_error -> error IamErr := pg_wrap "iam/db: assign role: %w".
Definition assign_role (now : Time) (ur : UserRole) : Body unit := fun d =>
  match AccountQueries.AssignRole now (g_UserID ur) (g_RoleID ur) (g_ProjectID ur) (g_AssignedBy ur) d with
  | Err e => Err (assign_role_error e)
  | Ok r => Ok r
  end.
Definition AssignRole (ur : UserRole) : Repo unit :=
  now ← time_now; with_tx (assign_role_error PgConnection) (assign_role now ur).

Definition RevokeRole (userID roleID : uuid) : Repo unit :=
  map_err (pg_wrap "iam/db: revoke role: %w") (q_exec (AccountQueries.RevokeRole userID roleID)).

Definition GetUserPermissions (userID : uuid) (projectID : option uuid) : Repo (list string) :=
  rows ← map_err (pg_wrap "iam/db: get user permissions: %w")
    (q_query (AccountQueries.UserPermissionRows userID projectID));
  mret (remove_dups (mjoin rows)).

(** ** Invitations *)

Definition with_inv_created (t : Time) (i : Invitation) : Invitation :=
  mkInvitation (i_ID i) (i_TenantID i) (i_Email i) (i_RoleID i) (i_Token i) (i_Status i) (i_InvitedBy i)
    (i_ExpiresAt i) t.

(** Of the stored row only the creation time is taken over. *)
Definition CreateInvitation (inv : Invitation) : Repo Invitation :=
  now ← time_now;
  row ← map_err (pg_wrap "iam/db: create invitation: %w")
    (q_exec (AccountQueries.CreateInvitation now (i_ID inv) (i_TenantID inv) (i_Email inv)
               (i_InvitedBy inv) (i_Token inv) (i_ExpiresAt inv) (i_RoleID inv)));
  mret (with_inv_created (iv_CreatedAt row) inv).

Definition invitationFromDB (r : InvitationRow) : Invitation :=
  mkInvitation (iv_ID r) (iv_TenantID r) (iv_Email r) (iv_RoleID r) (iv_Token r) (iv_Status r)
    (iv_InvitedBy r) (iv_ExpiresAt r) (iv_CreatedAt r).

Definition GetInvitationByToken (token : string) : Repo Invitation :=
  now ← time_now;
  row ← map_err (no_rows_as ErrInvitationNotFound "iam/db: get invitation by token: %w")
    (q_query (AccountQueries.GetInvitationByToken now token));
  mret (invitationFromDB row).

Definition mark_accepted (id : uuid) : Body unit := fun d =>
  match AccountQueries.AcceptInvitation id d with
  | Err e => Err (pg_wrap "iam/db: mark invitation accepted: %w" e)
  | Ok r => Ok r
  end.

(** ** OIDC configuration *)

Definition or_default (s d : string) : string := if decide (s = "") then d else s.

Definition UpsertOIDCConfig (p : OIDCConfigParams) : Repo unit :=
  let scopes := if decide (op_Scopes p = []) then ["openid"; "email"; "profile"] else op_Scopes p in
  match uuid_parse (op_TenantID p) with
  | None => mthrow (EText "iam/db: upsert oidc config: invalid tenant_id: %w")
  | Some tenantID =>
    now ← time_now;
    map_err (pg_wrap "iam/db: upsert oidc config for tenant %s: %w")
      (q_exec (AccountQueries.UpsertOIDCConfig now tenantID (op_IssuerURL p) (op_ClientID p)
                 (op_ClientSecretEnc p) scopes (or_default (op_EmailClaim p) "email")
                 (or_default (op_DisplayNameClaim p) "name") (pgTextFromString (op_GroupsClaim p))
                 (op_AutoProvision p) (or_default (op_DefaultRole p) "member")))
  end.

End postgres.
