(* ===== verification/AuthProviders.v ===== *)
(** Login: the providers of pkg/auth (local.go, oidc.go) over the repository, the
    resolver that chooses between them (resolver.go), the rule on the tenant's
    status (tenant_status.go), and the store that decrypts a tenant's client
    secret (cmd/iam). *)

From S2P Require Export AuthTokens Passwords.
From S2P Require AccountPostgres.
Local Open Scope Z_scope.

(** Only an active tenant may log in. *)
Definition tenantStatusError (status : string) : option IamErr :=
  if decide (status = "active") then None
  else if decide (status = "suspended") then Some ErrTenantSuspended
  else Some ErrTenantInactive.

Section providers.
Context {X : External} {C : Primitives}.

Abbreviation Op := (M St (error IamErr)) (only parsing).

(** The identity provider: what the exchange of an authorization code answers,
    given the configuration, the code, the redirect URI and the verifier. *)
Variable Exchange : OIDCConfig -> string -> string -> string -> option OIDCClaims.
(** The key the secrets are encrypted under, and whether an OIDC provider is wired. *)
Variable oidcKey : list N.
Variable has_oidc : bool.

Definition result_of (u : UserRecord) (m : ProviderType) (isNew : bool) : AuthResult :=
  mkAuthResult (rec_ID u) (rec_TenantID u) (rec_Email u) (rec_DisplayName u) (rec_Roles u)
    (rec_Permissions u) m isNew zero_time.

(** The check both providers start with. *)
Definition check_tenant (tenantID : uuid) : Op unit :=
  status ← wrap "auth: check tenant: %w" (AccountPostgres.GetTenantStatus tenantID);
  match tenantStatusError status with Some e => mthrow (ESent e) | None => mret tt end.

(** ** Email and password *)

Definition local_Authenticate (req : AuthRequest) : Op AuthResult :=
  _ ← check_tenant (rq_TenantID req);
  found ← try (AccountPostgres.GetUserByEmail (rq_TenantID req) (rq_Email req));
  match found with
  | Err _ => mthrow (ESent ErrInvalidCredentials)
  | Ok user =>
    if decide (rec_Status user = "deactivated") then mthrow (ESent ErrAccountDeactivated)
    else if decide (rec_Status user = "invited") then mthrow (ESent ErrAccountInvited)
    else if decide (rec_PasswordHash user = "") then mthrow (ESent ErrInvalidCredentials)
    else if negb (VerifyPassword (rq_Password req) (rec_PasswordHash user))
    then mthrow (ESent ErrInvalidCredentials)
    else mret (result_of user ProviderLocal false)
  end.

(** ** OpenID Connect *)

Definition with_secret (secret : string) (c : OIDCConfig) : OIDCConfig :=
  mkOIDCConfig (oc_TenantID c) (oc_IssuerURL c) (oc_ClientID c) secret (oc_Scopes c) (oc_EmailClaim c)
    (oc_DisplayNameClaim c) (oc_GroupsClaim c) (oc_AutoProvision c) (oc_DefaultRole c).

(** [decryptingOIDCStore.GetOIDCConfig] *)
Definition GetOIDCConfig (tenantID : uuid) : Op OIDCConfig :=
  cfg ← AccountPostgres.GetOIDCConfig tenantID;
  match Decrypt oidcKey (oc_ClientSecret cfg) with
  | None => mthrow (EText "iam: decrypt client secret for tenant %s: %w")
  | Some plaintext => mret (with_secret plaintext cfg)
  end.

Definition oidc_Authenticate (req : AuthRequest) : Op AuthResult :=
  _ ← check_tenant (rq_TenantID req);
  cfg ← map_err (fun _ => EWrap "%w: %v" (ESent ErrOIDCConfigMissing)) (GetOIDCConfig (rq_TenantID req));
  match Exchange cfg (rq_AuthorizationCode req) (rq_RedirectURI req) (rq_CodeVerifier req) with
  | None => mthrow (EWrap "%w: %v" (ESent ErrOIDCTokenExchange))
  | Some claims =>
    if decide (cl_Email claims = "")
    then mthrow (EWrap "%w: email claim is empty" (ESent ErrOIDCClaimMapping))
    else
    found ← try (AccountPostgres.GetUserByEmail (rq_TenantID req) (cl_Email claims));
    match found with
    | Err _ =>
      if negb (oc_AutoProvision cfg) then mthrow (ESent ErrInvalidCredentials)
      else let displayName := if decide (cl_DisplayName claims = "") then cl_Email claims
                              else cl_DisplayName claims in
           user ← wrap "auth: JIT provision user: %w"
             (AccountPostgres.CreateOIDCUser (rq_TenantID req) (cl_Email claims) displayName);
           mret (result_of user ProviderOIDC true)
    | Ok user =>
      if decide (rec_Status user = "deactivated") then mthrow (ESent ErrAccountDeactivated)
      else mret (result_of user ProviderOIDC false)
    end
  end.

(** ** The resolver *)

(** Any error of the configuration store means the local provider. *)
Definition Resolve (tenantID : uuid) : Op ProviderType :=
  if has_oidc
  then cfg ← try (E' := error IamErr) (GetOIDCConfig tenantID);
       mret (match cfg with Ok _ => ProviderOIDC | Err _ => ProviderLocal end)
  else mret ProviderLocal.

Definition Authenticate (req : AuthRequest) : Op AuthResult :=
  if negb (bool_decide (rq_AuthorizationCode req = "")) && has_oidc then oidc_Authenticate req
  else provider ← Resolve (rq_TenantID req);
       match provider with
       | ProviderOIDC => oidc_Authenticate req
       | ProviderLocal => local_Authenticate req
       end.

End providers.
