(* ===== verification/Accounts.v ===== *)
(** The IAM service: the methods of services/iam/service.go on sessions, users,
    roles, tenants, invitations and OIDC configurations. *)

From S2P Require Import RegistrationModel.
From S2P Require Export AuthProviders.
From S2P Require AccountPostgres TenancyPostgres.
Local Open Scope Z_scope.

(** ** Roles *)

Definition permUserManage : string := "user:manage".
Definition permLedgerRead : string := "ledger:read".
Definition permLedgerWrite : string := "ledger:write".
Definition permLedgerPost : string := "ledger:post".
Definition permLedgerAdmin : string := "ledger:admin".

(** Seeded for every tenant. *)
Definition systemRoles : list (string * list string) :=
  [("super_admin",
    ["production:read"; "production:write"; "budget:read"; "budget:write"; "budget:approve";
     "expense:read"; "expense:submit"; "expense:approve"; "inventory:read"; "inventory:checkout";
     "report:read"; permLedgerRead; permLedgerWrite; permLedgerPost; permLedgerAdmin;
     permUserManage; "billing:read"; "billing:manage"; "document:read"; "document:write";
     "document:delete"; "notifications:read"; "notifications:manage"]);
   ("manager",
    ["production:read"; "production:write"; "budget:read"; "budget:approve"; "expense:read";
     "expense:approve"; "inventory:read"; "inventory:checkout"; "report:read"; permLedgerRead;
     "billing:read"; "billing:manage"; "document:read"; "document:write"; "document:delete";
     "notifications:read"; "notifications:manage"]);
   ("coordinator",
    ["production:read"; "production:write"; "budget:read"; "budget:write"; "expense:read";
     "expense:approve"; "inventory:read"; "inventory:checkout"; "report:read"; permLedgerRead;
     "document:read"; "document:write"]);
   ("accountant",
    ["budget:read"; "expense:read"; "expense:submit"; "expense:approve"; "report:read";
     permLedgerRead; permLedgerWrite; permLedgerPost; "billing:read"; "document:read";
     "document:write"]);
   ("member", ["production:read"; "expense:submit"; "document:read"]);
   ("inventory_manager",
    ["inventory:read"; "inventory:write"; "inventory:checkout"; "inventory:retire"; "document:read"]);
   ("project_supervisor",
    ["production:read"; "budget:read"; "expense:read"; "expense:submit"; "expense:approve";
     "resource:manage"; "inventory:read"; "inventory:checkout"; "document:read"; "document:write"])].

Definition projectScopedRoles (name : string) : bool := bool_decide (name = "project_supervisor").

Section service.
Context {X : External} {J : Jwt} {C : Primitives}.
Variable name_key : string -> string.
Variable Exchange : OIDCConfig -> string -> string -> string -> option OIDCClaims.

Abbreviation Op := (M St (error IamErr)) (only parsing).

(** The service's dependencies: the token issuer, the encryption key, whether
    the resolver has an OIDC provider, and the schema migrator, an interface. *)
Record Service := mkService {
  s_tokens : JWTIssuer;
  s_oidcKey : list N;
  s_oidc : bool;
  s_migrator : option (uuid -> Op unit);
}.
Variable s : Service.

(** ** Sessions *)

Definition Login (tenantID : uuid) (email password : string) : Op TokenPair :=
  tenantID ← (if decide (tenantID = uuid_nil)
              then wrap "iam: resolve tenant for %s: %w" (AccountPostgres.FindTenantByEmail email)
              else mret tenantID);
  result ← wrap "iam: login %s: %w"
    (Authenticate Exchange (s_oidcKey s) (s_oidc s) (mkAuthRequest tenantID email password "" "" ""));
  wrap "iam: issue token: %w" (Issue (s_tokens s) result).

(** The goroutine a successful login starts; its errors are dropped. *)
Definition rehashIfNeeded (tenantID : uuid) (email password : string) : Op unit :=
  record ← try (E' := error IamErr) (AccountPostgres.GetUserByEmail tenantID email);
  match record with
  | Err _ => mret tt
  | Ok record =>
    if negb (NeedsRehash (rec_PasswordHash record)) then mret tt
    else newHash ← Hash password;
         _ ← try (E' := error IamErr) (AccountPostgres.UpdatePasswordHash tenantID (rec_ID record) newHash);
         mret tt
  end.

Definition RefreshToken (refreshToken : string) : Op TokenPair :=
  wrap "iam: refresh token: %w" (Refresh (s_tokens s) refreshToken).

Definition GetCurrentUser (accessToken : string) : Op (User * Tenant) :=
  claims ← wrap "iam: validate token: %w" (Validate accessToken);
  user ← wrap "iam: get user %s: %w" (AccountPostgres.GetUser (cm_TenantID claims) (cm_Subject claims));
  tenant ← wrap "iam: get tenant %s: %w" (TenancyPostgres.GetTenant (cm_TenantID claims));
  mret (user, tenant).

Definition Logout (refreshToken : string) : Op unit :=
  wrap "iam: logout: %w" (Revoke refreshToken).

(** ** Users *)

(** [prepareNewUser]: an id, a status and the password's hash. *)
Definition prepareNewUser (u : User) (plainPassword : string) : Op User :=
  id ← (if decide (u_ID u = uuid_nil) then uuid_new else mret (u_ID u));
  hash ← Hash plainPassword;
  mret (mkUser id (u_TenantID u) (u_Email u) (u_DisplayName u) hash
          (if decide (u_Status u = "") then "active" else u_Status u) (u_CreatedAt u)).

Definition CreateUser (u : User) (plainPassword : string) : Op User :=
  u ← prepareNewUser u plainPassword;
  wrap "iam: create user: %w" (AccountPostgres.CreateUser u).

Definition GetUser (tenantID id : uuid) : Op User :=
  wrap "iam: get user %s: %w" (AccountPostgres.GetUser tenantID id).

Definition ListUsers (tenantID : uuid) (status : string) (limit offset : Z) : Op (list User) :=
  let limit := if bool_decide (limit <= 0) || bool_decide (100 < limit) then 20 else limit in
  wrap "iam: list users: %w" (AccountPostgres.ListUsers tenantID status limit offset).

Definition UpdateUser (u : User) : Op User :=
  _ ← wrap "iam: update user %s: %w" (AccountPostgres.UpdateUser u);
  mret u.

Definition DeactivateUser (tenantID id : uuid) : Op unit :=
  _ ← wrap "iam: deactivate user %s: %w" (AccountPostgres.DeactivateUser tenantID id);
  wrap "iam: deactivate user %s: revoke sessions: %w" (RevokeAllForUser (s_tokens s) id).

Definition ActivateUser (tenantID id : uuid) : Op unit :=
  wrap "iam: activate user %s: %w" (AccountPostgres.ActivateUser tenantID id).

Definition ChangePassword (tenantID userID : uuid) (oldPassword newPassword : string) : Op unit :=
  record ← wrap "iam: get user for password change: %w" (AccountPostgres.GetUserByID tenantID userID);
  if negb (VerifyPassword oldPassword (rec_PasswordHash record)) then mthrow (ESent ErrInvalidCredentials)
  else
  hash ← Hash newPassword;
  _ ← wrap "iam: update password hash: %w" (AccountPostgres.UpdatePasswordHash tenantID userID hash);
  wrap "iam: change password: revoke sessions: %w" (RevokeAllForUser (s_tokens s) userID).

(** ** Roles and permissions *)

Definition AssignRole (tenantID userID roleID assignedBy : uuid) : Op unit :=
  _ ← AccountPostgres.GetRoleByID tenantID roleID;
  _ ← AccountPostgres.GetUser tenantID userID;
  now ← time_now;
  wrap "iam: assign role %s to user %s: %w"
    (AccountPostgres.AssignRole (mkUserRole userID roleID None assignedBy now)).

Definition RevokeRole (tenantID userID roleID : uuid) : Op unit :=
  _ ← AccountPostgres.GetRoleByID tenantID roleID;
  _ ← AccountPostgres.GetUser tenantID userID;
  _ ← wrap "iam: revoke role %s from user %s: %w" (AccountPostgres.RevokeRole userID roleID);
  wrap "iam: revoke role %s from user %s: revoke sessions: %w" (RevokeAllForUser (s_tokens s) userID).

Definition ListRoles (tenantID : uuid) : Op (list Role) :=
  roles ← wrap "iam: list roles: %w" (AccountPostgres.ListRoles tenantID);
  mret (take 200 roles).

Definition CheckPermission (userID : uuid) (permission : string) (projectID : option uuid) : Op bool :=
  perms ← wrap "iam: get permissions for user %s: %w" (AccountPostgres.GetUserPermissions userID projectID);
  mret (existsb (fun p => bool_decide (p = permission)) perms).

Definition AssignProjectRole (tenantID userID roleID projectID assignedBy : uuid) : Op unit :=
  role ← wrap "iam: lookup role %s: %w" (AccountPostgres.GetRoleByID tenantID roleID);
  if r_IsSystem role && negb (projectScopedRoles (r_Name role)) then mthrow (ESent ErrRoleNotProjectScoped)
  else
  _ ← AccountPostgres.GetUser tenantID userID;
  now ← time_now;
  wrap "iam: assign project role %s to user %s on project %s: %w"
    (AccountPostgres.AssignRole (mkUserRole userID roleID (Some projectID) assignedBy now)).

(** ** Tenants *)

(** The country in capitals, known, and the currency: the caller's in capitals,
    or the country's. *)
Definition with_locale (country currency : string) (t : Tenant) : Tenant :=
  mkTenant (t_ID t) (t_Name t) (t_Slug t) (t_Plan t) (t_Status t) (t_IsDemo t) (t_CreatedAt t)
    (t_AddressLine1 t) (t_AddressLine2 t) (t_City t) country (t_PostalCode t) currency
    (t_SuspendedAt t) (t_DeactivatedAt t) (t_HoldUntil t) (t_FreezeReason t).
Definition localize (unknown : string) (t : Tenant) : result (error IamErr) Tenant :=
  if decide (t_CountryCode t = "") then Err (ESent ErrCountryRequired)
  else let country := ToUpper (t_CountryCode t) in
  if negb (IsKnownCountry country) then Err (EWrap unknown (ESent ErrUnknownCountry))
  else if decide (t_PrimaryCurrencyCode t = "")
  then match CurrencyForCountry country with
       | None => Err (EText "iam: derive currency: %w")
       | Some currency => Ok (with_locale country currency t)
       end
  else Ok (with_locale country (ToUpper (t_PrimaryCurrencyCode t)) t).

Definition SetTenantAddress (t : Tenant) : Op Tenant :=
  t ← lift_result (localize "iam: set tenant address: %w: %q" t);
  wrap "iam: update tenant address: %w" (AccountPostgres.UpdateTenantAddress t).

(** [strings.Join(strings.Fields(name), " ")] *)
Definition canonical_name (name : string) : string := String.concat " " (Fields name).

(** What CreateTenant fills in before it looks at the plan and the country. *)
Definition new_tenant (id : uuid) (name : string) (t : Tenant) : Tenant :=
  mkTenant id name (if decide (t_Slug t = "") then Slugify name else t_Slug t)
    (if decide (t_Plan t = "") then "starter" else t_Plan t)
    (if decide (t_Status t = "") then "active" else t_Status t) (t_IsDemo t) (t_CreatedAt t)
    (t_AddressLine1 t) (t_AddressLine2 t) (t_City t) (t_CountryCode t) (t_PostalCode t)
    (t_PrimaryCurrencyCode t) (t_SuspendedAt t) (t_DeactivatedAt t) (t_HoldUntil t) (t_FreezeReason t).

Definition seedSystemRoles (tenantID : uuid) : Op unit :=
  forM_ systemRoles (fun sr =>
    id ← uuid_new;
    wrap "seed role %q: %w" (AccountPostgres.CreateRole (mkRole id tenantID sr.1 sr.2 true))).

Definition CreateTenant (t : Tenant) : Op Tenant :=
  let name := canonical_name (t_Name t) in
  existing ← wrap "iam: create tenant: %w" (AccountPostgres.FindTenantByNormalizedName name_key name);
  match existing with
  | Some e => mthrow (AccountPostgres.TenantNameTakenErr (t_ID e))
  | None =>
    id ← (if decide (t_ID t = uuid_nil) then uuid_new else mret (t_ID t));
    let t := new_tenant id name t in
    if negb (isValidPlan (t_Plan t)) then mthrow (ESent ErrInvalidPlan)
    else
    t ← lift_result (localize "iam: create tenant: %w: %q" t);
    t ← wrap "iam: create tenant: %w" (AccountPostgres.CreateTenant name_key t);
    _ ← wrap "iam: seed system roles for tenant %s: %w" (seedSystemRoles (t_ID t));
    _ ← (match s_migrator s with
         | None => mret tt
         | Some migrate => wrap "iam: migrate schema for tenant %s: %w" (migrate (t_ID t))
         end);
    mret t
  end.

(** ** Invitations *)

Definition invitation_ttl : Z := 7 * 24 * ns_per_hour.

Definition InviteUser (inv : Invitation) : Op Invitation :=
  _ ← (match i_RoleID inv with
       | None => mret tt
       | Some roleID => _ ← AccountPostgres.GetRoleByID (i_TenantID inv) roleID; mret tt
       end);
  id ← (if decide (i_ID inv = uuid_nil) then uuid_new else mret (i_ID inv));
  tok ← generateToken;
  now ← time_now;
  wrap "iam: create invitation for %s: %w"
    (AccountPostgres.CreateInvitation
       (mkInvitation id (i_TenantID inv) (i_Email inv) (i_RoleID inv) tok "pending" (i_InvitedBy inv)
          (now + invitation_ttl) (i_CreatedAt inv))).

(** [strings.SplitN(email, "@", 2)[0]] *)
Definition local_part (email : string) : string := default "" (head (Split "@" email)).

(** The three writes of AcceptInvitation, in one transaction. *)
Definition accept_tx (now : Time) (inv : Invitation) (user : User) (d : DB) :
    result (error IamErr) (User * DB) :=
  match AccountPostgres.create_user now user d with
  | Err e => Err (EWrap "iam: create user: %w" e)
  | Ok (user, d1) =>
    match (match i_RoleID inv with
           | None => Ok (tt, d1)
           | Some roleID =>
             match AccountPostgres.get_role_by_id (i_TenantID inv) roleID d1 with
             | Err e => Err e
             | Ok _ =>
               match AccountPostgres.assign_role now
                       (mkUserRole (u_ID user) roleID None (i_InvitedBy inv) now) d1 with
               | Err e => Err (EWrap "iam: assign role %s to user %s: %w" e)
               | Ok r => Ok r
               end
             end
           end) with
    | Err e => Err e
    | Ok (_, d2) =>
      match AccountPostgres.mark_accepted (i_ID inv) d2 with
      | Err e => Err e
      | Ok (_, d3) => Ok (user, d3)
      end
    end
  end.

Definition AcceptInvitation (token plainPassword : string) : Op TokenPair :=
  inv ← map_err (fun _ => ESent ErrInvitationNotFound) (AccountPostgres.GetInvitationByToken token);
  if decide (i_Status inv = "accepted") then mthrow (ESent ErrInvitationAccepted)
  else
  now ← time_now;
  if bool_decide (i_ExpiresAt inv < now) then mthrow (ESent ErrInvitationExpired)
  else
  user ← wrap "iam: accept invitation — prepare user: %w"
    (prepareNewUser (mkUser uuid_nil (i_TenantID inv) (i_Email inv) (local_part (i_Email inv)) ""
                       "active" zero_time) plainPassword);
  now ← time_now;
  user ← with_tx (EWrap "iam/db: begin tx: %w" (EText "connection failed")) (accept_tx now inv user);
  _ ← TenancyPostgres.commit_answer;
  now ← time_now;
  wrap "iam: issue token after invitation: %w"
    (Issue (s_tokens s)
       (mkAuthResult (u_ID user) (u_TenantID user) (u_Email user) (u_DisplayName user) [] []
          ProviderLocal false now)).

(** ** OIDC configuration *)

Definition with_client_secret (secret : string) (p : OIDCConfigParams) : OIDCConfigParams :=
  mkOIDCConfigParams (op_TenantID p) (op_IssuerURL p) (op_ClientID p) secret (op_Scopes p)
    (op_EmailClaim p) (op_DisplayNameClaim p) (op_GroupsClaim p) (op_AutoProvision p) (op_DefaultRole p).

Definition SetOIDCConfig (p : OIDCConfigParams) : Op unit :=
  if decide (s_oidcKey s = []) then mthrow (ESent ErrOIDCKeyNotConfigured)
  else
  enc ← Encrypt (s_oidcKey s) (op_ClientSecretEnc p);
  match enc with
  | None => mthrow (EText "iam: encrypt client secret: %w")
  | Some enc =>
    wrap "iam: upsert oidc config for tenant %s: %w"
      (AccountPostgres.UpsertOIDCConfig (with_client_secret enc p))
  end.

End service.
