(* ===== verification/AccountHandler.v ===== *)
(** The IAM service: the gRPC handlers of services/iam/handler.go on sessions,
    users, roles, new tenants, addresses, invitations and OIDC configurations. *)

From S2P Require Export AuthProviders.
From S2P Require Accounts TenancyHandler.
Local Open Scope Z_scope.

(** ** Messages *)

Record PbUser := mkPbUser {
  pbu_Id : string; pbu_TenantId : string; pbu_Email : string; pbu_DisplayName : string;
  pbu_Status : string; pbu_CreatedAt : Time; pbu_Roles : list string; pbu_Permissions : list string;
}.
Record PbRole := mkPbRole {
  pbo_Id : string; pbo_TenantId : string; pbo_Name : string; pbo_Permissions : list string;
  pbo_IsSystem : bool;
}.
Record PbInvitation := mkPbInvitation {
  pbi_Id : string; pbi_TenantId : string; pbi_Email : string; pbi_RoleId : string;
  pbi_Status : string; pbi_InvitedBy : string; pbi_ExpiresAt : Time; pbi_CreatedAt : Time;
}.
Record PbTokenPair := mkPbTokenPair {
  pbp_AccessToken : string; pbp_RefreshToken : string; pbp_TokenType : string; pbp_ExpiresIn : Z;
  pbp_ExpiresAt : Time;
}.

(** A new tenant or an address, as the requests carry them. *)
Record TenantReq := mkTenantReq {
  tq_Name : string; tq_Plan : string; tq_IsDemo : bool; tq_AddressLine1 : string;
  tq_AddressLine2 : string; tq_City : string; tq_CountryCode : string; tq_PostalCode : string;
  tq_PrimaryCurrencyCode : string;
}.

Inductive Rpc :=
| LoginRpc (tenantID email password : string)
| RefreshTokenRpc (refreshToken : string)
| LogoutRpc (refreshToken : string)
| ValidateTokenRpc
| GetCurrentUserRpc
| CreateUserRpc (tenantID email displayName password : string)
| GetUserRpc (tenantID id : string)
| ListUsersRpc (tenantID status : string) (limit offset : Z)
| UpdateUserRpc (tenantID id displayName : string)
| DeactivateUserRpc (tenantID id : string)
| ActivateUserRpc (tenantID id : string)
| ChangePasswordRpc (userID oldPassword newPassword : string)
| AssignRoleRpc (tenantID userID roleID : string)
| RevokeRoleRpc (userID roleID : string)
| ListRolesRpc (tenantID : string)
| CheckPermissionRpc (userID permission projectID : string)
| AssignProjectRoleRpc (tenantID userID roleID projectID : string)
| CreateTenantRpc (req : TenantReq)
| SetTenantAddressRpc (tenantID : string) (req : TenantReq)
| InviteUserRpc (tenantID email roleID : string)
| AcceptInvitationRpc (token password : string)
| SetOIDCConfigRpc (params : OIDCConfigParams)
| StartImpersonationRpc
| EndImpersonationRpc.

Inductive Response :=
| EmptyResp
| TokenResp (p : PbTokenPair)
| UserResp (u : PbUser)
| UsersResp (us : list PbUser)
| CurrentUserResp (u : PbUser) (t : TenancyHandler.PbTenant)
| RolesResp (rs : list PbRole)
| AllowedResp (allowed : bool)
| TenantResp (t : TenancyHandler.PbTenant)
| InvitationResp (i : PbInvitation).

Section handler.
Context {X : External} {J : Jwt} {C : Primitives}.
Variable name_key : string -> string.
Variable Exchange : OIDCConfig -> string -> string -> string -> option OIDCClaims.
Variable s : Accounts.Service.
Variable ctx : Ctx.
(** The values of the authorization header, for GetCurrentUser. *)
Variable authorization : list string.

Abbreviation Op := (M St status) (only parsing).
Abbreviation svc := TenancyHandler.svc (only parsing).

(** ** Rendering *)

Definition userToProto (u : User) : PbUser :=
  mkPbUser (uuid_string (u_ID u)) (uuid_string (u_TenantID u)) (u_Email u) (u_DisplayName u)
    (u_Status u) (u_CreatedAt u) [] [].
Definition with_claims (c : Claims) (u : PbUser) : PbUser :=
  mkPbUser (pbu_Id u) (pbu_TenantId u) (pbu_Email u) (pbu_DisplayName u) (pbu_Status u)
    (pbu_CreatedAt u) (cm_Roles c) (cm_Permissions c).
Definition roleToProto (r : Role) : PbRole :=
  mkPbRole (uuid_string (r_ID r)) (uuid_string (r_TenantID r)) (r_Name r) (r_Permissions r) (r_IsSystem r).
Definition invitationToProto (i : Invitation) : PbInvitation :=
  mkPbInvitation (uuid_string (i_ID i)) (uuid_string (i_TenantID i)) (i_Email i)
    (TenancyHandler.opt_string (i_RoleID i)) (i_Status i) (uuid_string (i_InvitedBy i))
    (i_ExpiresAt i) (i_CreatedAt i).
Definition tokenPairToProto (p : TokenPair) : PbTokenPair :=
  mkPbTokenPair (tp_AccessToken p) (tp_RefreshToken p) (tp_TokenType p) (int32 (tp_ExpiresIn p))
    (tp_ExpiresAt p).

(** ** Guards *)

(** [CallerFromContext], or Unauthenticated. *)
Definition caller : result status CallerInfo :=
  match CallerFromContext ctx with
  | None => Err (mkStatus Unauthenticated "caller identity not present in context")
  | Some c => Ok c
  end.

(** The caller holds user:manage tenant-wide; every failure denies. *)
Definition requireUserManage : Op unit :=
  c ← lift_result caller;
  allowed ← map_err (fun _ => mkStatus Internal "permission check failed")
    (Accounts.CheckPermission (ci_UserID c) Accounts.permUserManage None);
  if allowed : bool then mret tt
  else mthrow (mkStatus PermissionDenied "requires permission %s").

(** ** Sessions *)

Definition Login (tenantID email password : string) : Op PbTokenPair :=
  id ← (if decide (tenantID = "") then mret uuid_nil
        else lift_result (parse_id tenantID "invalid tenant_id"));
  pair ← svc (Accounts.Login Exchange s id email password);
  mret (tokenPairToProto pair).

Definition RefreshToken (refreshToken : string) : Op PbTokenPair :=
  pair ← svc (Accounts.RefreshToken s refreshToken);
  mret (tokenPairToProto pair).

Definition Logout (refreshToken : string) : Op unit := svc (Accounts.Logout refreshToken).

(** Retired, like the two impersonation RPCs. *)
Definition retired {A} (text : string) : Op A := mthrow (mkStatus Unimplemented text).

Definition bearerTokenFromContext : result status string :=
  match authorization with
  | [] => Err (mkStatus Unauthenticated "missing authorization header")
  | v :: _ =>
    match bearer_token v with
    | None => Err (mkStatus Unauthenticated "authorization header must be 'Bearer <token>'")
    | Some token => Ok token
    end
  end.

Definition GetCurrentUser : Op (PbUser * TenancyHandler.PbTenant) :=
  token ← lift_result bearerTokenFromContext;
  ut ← svc (Accounts.GetCurrentUser token);
  claims ← svc (Validate token);
  mret (with_claims claims (userToProto ut.1), TenancyHandler.tenantToProto ut.2).

(** ** Users *)

Definition CreateUser (tenantID email displayName password : string) : Op PbUser :=
  tenantID ← lift_result (TenantFromRequest ctx tenantID);
  _ ← requireUserManage;
  created ← svc (Accounts.CreateUser (mkUser uuid_nil tenantID email displayName "" "" zero_time) password);
  mret (userToProto created).

Definition GetUser (tenantID id : string) : Op PbUser :=
  tenantID ← lift_result (TenantFromRequest ctx tenantID);
  id ← lift_result (parse_id id "invalid id");
  user ← svc (Accounts.GetUser tenantID id);
  mret (userToProto user).

Definition ListUsers (tenantID status : string) (limit offset : Z) : Op (list PbUser) :=
  tenantID ← lift_result (TenantFromRequest ctx tenantID);
  _ ← requireUserManage;
  users ← svc (Accounts.ListUsers tenantID status limit offset);
  mret (userToProto <$> users).

Definition UpdateUser (tenantID id displayName : string) : Op PbUser :=
  tenantID ← lift_result (TenantFromRequest ctx tenantID);
  _ ← requireUserManage;
  id ← lift_result (parse_id id "invalid id");
  updated ← svc (Accounts.UpdateUser (mkUser id tenantID "" displayName "" "" zero_time));
  mret (userToProto updated).

(** The two platform RPCs on a user of any tenant. *)
Definition admin_user (tenantID id : string) : Op (uuid * uuid) :=
  _ ← lift_result (RequireRole ctx TenancyHandler.RolePlatformAdmin);
  tenantID ← lift_result (parse_id tenantID "invalid tenant_id");
  id ← lift_result (parse_id id "invalid id");
  mret (tenantID, id).
Definition DeactivateUser (tenantID id : string) : Op unit :=
  ids ← admin_user tenantID id; svc (Accounts.DeactivateUser s ids.1 ids.2).
Definition ActivateUser (tenantID id : string) : Op unit :=
  ids ← admin_user tenantID id; svc (Accounts.ActivateUser ids.1 ids.2).

Definition ChangePassword (userID oldPassword newPassword : string) : Op unit :=
  userID ← lift_result (ActorFromRequest ctx userID);
  match CallerFromContext ctx with
  | None => mthrow (mkStatus Unauthenticated "caller tenant not present in context")
  | Some c =>
    if decide (ci_TenantID c = uuid_nil)
    then mthrow (mkStatus Unauthenticated "caller tenant not present in context")
    else svc (Accounts.ChangePassword s (ci_TenantID c) userID oldPassword newPassword)
  end.

(** ** Roles and permissions *)

Definition AssignRole (tenantID userID roleID : string) : Op unit :=
  tenantID ← lift_result (TenantFromRequest ctx tenantID);
  userID ← lift_result (parse_id userID "invalid user_id");
  roleID ← lift_result (parse_id roleID "invalid role_id");
  c ← lift_result caller;
  _ ← requireUserManage;
  svc (Accounts.AssignRole tenantID userID roleID (ci_UserID c)).

Definition RevokeRole (userID roleID : string) : Op unit :=
  userID ← lift_result (parse_id userID "invalid user_id");
  roleID ← lift_result (parse_id roleID "invalid role_id");
  c ← lift_result caller;
  _ ← requireUserManage;
  svc (Accounts.RevokeRole s (ci_TenantID c) userID roleID).

Definition ListRoles (tenantID : string) : Op (list PbRole) :=
  tenantID ← lift_result (TenantFromRequest ctx tenantID);
  roles ← svc (Accounts.ListRoles tenantID);
  mret (roleToProto <$> roles).

(** A caller may only ask about itself. *)
Definition CheckPermission (userID permission projectID : string) : Op bool :=
  userID ← lift_result (parse_id userID "invalid user_id");
  projectID ← lift_result (parse_opt_id projectID "invalid project_id");
  match CallerFromContext ctx with
  | None => mthrow (mkStatus Unauthenticated "caller identity not present in context")
  | Some c =>
    if decide (ci_UserID c = uuid_nil)
    then mthrow (mkStatus Unauthenticated "caller identity not present in context")
    else if negb (bool_decide (userID = ci_UserID c))
    then mthrow (mkStatus PermissionDenied "user_id does not match the authenticated caller")
    else svc (Accounts.CheckPermission userID permission projectID)
  end.

Definition AssignProjectRole (tenantID userID roleID projectID : string) : Op unit :=
  tenantID ← lift_result (TenantFromRequest ctx tenantID);
  userID ← lift_result (parse_id userID "invalid user_id");
  roleID ← lift_result (parse_id roleID "invalid role_id");
  projectID ← lift_result (parse_id projectID "invalid project_id");
  c ← lift_result caller;
  _ ← requireUserManage;
  svc (Accounts.AssignProjectRole tenantID userID roleID projectID (ci_UserID c)).

(** ** Tenants *)

Definition tenant_of_req (id : uuid) (q : TenantReq) : Tenant :=
  mkTenant id (tq_Name q) "" (tq_Plan q) "" (tq_IsDemo q) zero_time (tq_AddressLine1 q)
    (tq_AddressLine2 q) (tq_City q) (tq_CountryCode q) (tq_PostalCode q) (tq_PrimaryCurrencyCode q)
    None None None None.

Definition CreateTenant (q : TenantReq) : Op TenancyHandler.PbTenant :=
  _ ← lift_result (RequireRole ctx TenancyHandler.RolePlatformAdmin);
  created ← svc (Accounts.CreateTenant name_key s (tenant_of_req uuid_nil q));
  mret (TenancyHandler.tenantToProto created).

(** The request has no name, plan or demo flag. *)
Definition SetTenantAddress (tenantID : string) (q : TenantReq) : Op TenancyHandler.PbTenant :=
  id ← lift_result (TenantFromRequest ctx tenantID);
  _ ← requireUserManage;
  updated ← svc (Accounts.SetTenantAddress
    (tenant_of_req id (mkTenantReq "" "" false (tq_AddressLine1 q) (tq_AddressLine2 q) (tq_City q)
       (tq_CountryCode q) (tq_PostalCode q) (tq_PrimaryCurrencyCode q))));
  mret (TenancyHandler.tenantToProto updated).

(** ** Invitations and OIDC *)

Definition InviteUser (tenantID email roleID : string) : Op PbInvitation :=
  tenantID ← lift_result (TenantFromRequest ctx tenantID);
  roleID ← lift_result (parse_opt_id roleID "invalid role_id");
  c ← lift_result caller;
  _ ← requireUserManage;
  created ← svc (Accounts.InviteUser
    (mkInvitation uuid_nil tenantID email roleID "" "" (ci_UserID c) zero_time zero_time));
  mret (invitationToProto created).

Definition AcceptInvitation (token password : string) : Op PbTokenPair :=
  pair ← svc (Accounts.AcceptInvitation s token password);
  mret (tokenPairToProto pair).

Definition SetOIDCConfig (p : OIDCConfigParams) : Op unit :=
  _ ← lift_result (RequireRole ctx TenancyHandler.RolePlatformAdmin);
  svc (Accounts.SetOIDCConfig s p).

(** ** Dispatch *)

Definition done_ (m : Op unit) : Op Response := _ ← m; mret EmptyResp.

Definition handle (r : Rpc) : Op Response :=
  match r with
  | LoginRpc t e p => x ← Login t e p; mret (TokenResp x)
  | RefreshTokenRpc t => x ← RefreshToken t; mret (TokenResp x)
  | LogoutRpc t => done_ (Logout t)
  | ValidateTokenRpc => retired "ValidateToken is retired; verify tokens in-process against the JWT public key"
  | GetCurrentUserRpc => x ← GetCurrentUser; mret (CurrentUserResp x.1 x.2)
  | CreateUserRpc t e n p => x ← CreateUser t e n p; mret (UserResp x)
  | GetUserRpc t i => x ← GetUser t i; mret (UserResp x)
  | ListUsersRpc t st l o => x ← ListUsers t st l o; mret (UsersResp x)
  | UpdateUserRpc t i n => x ← UpdateUser t i n; mret (UserResp x)
  | DeactivateUserRpc t i => done_ (DeactivateUser t i)
  | ActivateUserRpc t i => done_ (ActivateUser t i)
  | ChangePasswordRpc u o n => done_ (ChangePassword u o n)
  | AssignRoleRpc t u r => done_ (AssignRole t u r)
  | RevokeRoleRpc u r => done_ (RevokeRole u r)
  | ListRolesRpc t => x ← ListRoles t; mret (RolesResp x)
  | CheckPermissionRpc u p j => x ← CheckPermission u p j; mret (AllowedResp x)
  | AssignProjectRoleRpc t u r p => done_ (AssignProjectRole t u r p)
  | CreateTenantRpc q => x ← CreateTenant q; mret (TenantResp x)
  | SetTenantAddressRpc t q => x ← SetTenantAddress t q; mret (TenantResp x)
  | InviteUserRpc t e r => x ← InviteUser t e r; mret (InvitationResp x)
  | AcceptInvitationRpc t p => x ← AcceptInvitation t p; mret (TokenResp x)
  | SetOIDCConfigRpc p => done_ (SetOIDCConfig p)
  | StartImpersonationRpc => retired "impersonation is retired (#139)"
  | EndImpersonationRpc => retired "impersonation is retired (#139)"
  end.

End handler.
