(* ===== verification/AccountSteps.v ===== *)
(** The IAM service: what is true of its accounts and sessions in every state, and
    the relation every statement stays within, whatever requests interleave.
    Users keep their tenant and e-mail, roles never change, a grant links a user
    and a role of one tenant and passes the scope trigger, and a live token
    generation only goes up. *)

From S2P Require Import RegistrationModel.
From S2P Require Export AuthProviders Logic.
From S2P Require AccountQueries AccountPostgres Accounts TenancyQueries TenancyPostgres AccountHandler Tenancy TenancyHandler TenancySteps.
Local Open Scope Z_scope.

(** ** Accounts *)

(** Only super_admin, a system role, carries user:manage. *)
Definition role_ok (k : uuid) (r : RoleRow) : Prop :=
  ro_ID r = k
  /\ (Accounts.permUserManage ∈ ro_Permissions r <-> ro_Name r = "super_admin" /\ ro_IsSystem r = true).

Definition grant_ok (a : Accounts) (k : GrantKey) (g : UserRoleRow) : Prop :=
  k = AccountQueries.grant_key (ur_UserID g) (ur_RoleID g) (ur_ProjectID g)
  /\ exists u r, users a !! ur_UserID g = Some u /\ roles a !! ur_RoleID g = Some r
       /\ us_TenantID u = ro_TenantID r
       /\ AccountQueries.enforce_user_role_scope (Some r) (ur_ProjectID g) = true.

Definition emails_unique (t : gmap uuid UserRow) : Prop :=
  forall k k' u u', t !! k = Some u -> t !! k' = Some u' ->
    us_TenantID u = us_TenantID u' -> us_Email u = us_Email u' -> k = k'.

Record accounts_ok (a : Accounts) : Prop := {
  ok_users : map_Forall (fun k u => us_ID u = k) (users a);
  ok_emails : emails_unique (users a);
  ok_roles : map_Forall role_ok (roles a);
  ok_grants : map_Forall (grant_ok a) (user_roles a);
  ok_invitations : map_Forall (fun k i => iv_ID i = k) (invitations a);
}.

Definition same_user (u u' : UserRow) : Prop :=
  us_ID u' = us_ID u /\ us_TenantID u' = us_TenantID u /\ us_Email u' = us_Email u.

Record accounts_moved (a a' : Accounts) : Prop := {
  am_users : forall k u, users a !! k = Some u -> exists u', users a' !! k = Some u' /\ same_user u u';
  am_roles : roles a ⊆ roles a';
}.

#[export] Instance accounts_moved_preorder : PreOrder accounts_moved.
Proof.
  split.
  - intros a. split; [|done]. intros k u Hu. by exists u.
  - intros a1 a2 a3 [H1 R1] [H2 R2]. split; [|by etrans]. intros k u Hu.
    destruct (H1 k u Hu) as (u2 & Hu2 & ? & ? & ?). destruct (H2 k u2 Hu2) as (u3 & Hu3 & ? & ? & ?).
    exists u3. split; [done|]. split_and!; congruence.
Qed.

Lemma grant_ok_moved a a' k g : accounts_moved a a' -> grant_ok a k g -> grant_ok a' k g.
Proof.
  intros [Hu Hr] (Hk & u & r & Hgu & Hgr & Ht & Hs). split; [done|].
  destruct (Hu _ _ Hgu) as (u' & Hu' & _ & Htu & _). exists u', r. split; [done|].
  split; [by eapply lookup_weaken|]. by rewrite Htu.
Qed.

(** ** Sessions *)

Definition session_ttl : Z := ji_refreshTTL tokenIssuer.

(** Counters were bumped at least once and expire within two lifetimes; tokens
    within one. *)
Definition counters_ok (now : Time) (t : gmap uuid (Z * Time)) : Prop :=
  map_Forall (fun _ c => 1 <= c.1 /\ c.2 <= now + session_ttl * 2) t.
Record redis_ok (r : Redis) : Prop := {
  ok_user_gens : counters_ok (rd_now r) (user_generations r);
  ok_tenant_gens : counters_ok (rd_now r) (tenant_generations r);
  ok_tokens : map_Forall (fun _ e => e.2 <= rd_now r + session_ttl) (refresh_tokens r);
}.

(** A counter that has not expired never goes back. *)
Definition counters_moved (now' : Time) (t t' : gmap uuid (Z * Time)) : Prop :=
  forall k v e, t !! k = Some (v, e) -> now' < e -> exists v' e', t' !! k = Some (v', e') /\ v <= v' /\ e <= e'.
Record redis_moved (r r' : Redis) : Prop := {
  rm_now : rd_now r <= rd_now r';
  rm_user_gens : counters_moved (rd_now r') (user_generations r) (user_generations r');
  rm_tenant_gens : counters_moved (rd_now r') (tenant_generations r) (tenant_generations r');
}.

Lemma counters_moved_trans n2 n3 t1 t2 t3 :
  n2 <= n3 -> counters_moved n2 t1 t2 -> counters_moved n3 t2 t3 -> counters_moved n3 t1 t3.
Proof.
  intros Hn H1 H2 k v e Hk He. destruct (H1 k v e Hk ltac:(lia)) as (v2 & e2 & Hk2 & ? & ?).
  destruct (H2 k v2 e2 Hk2 ltac:(lia)) as (v3 & e3 & Hk3 & ? & ?). exists v3, e3. split; [done|lia].
Qed.
Lemma counters_moved_refl n t : counters_moved n t t.
Proof. intros k v e Hk _. exists v, e. split; [done|lia]. Qed.

#[export] Instance redis_moved_preorder : PreOrder redis_moved.
Proof.
  split.
  - intros r. split; [lia|apply counters_moved_refl..].
  - intros r1 r2 r3 [N1 U1 T1] [N2 U2 T2]. split; [lia|by eapply counters_moved_trans..].
Qed.

(** ** The whole database *)

Record iam_ok (d : DB) : Prop := {
  iam_accounts : accounts_ok (accounts d);
  iam_redis : redis_ok (sessions d);
}.
Record iam_moved (d d' : DB) : Prop := {
  im_ok : iam_ok d';
  im_accounts : accounts_moved (accounts d) (accounts d');
  im_redis : redis_moved (sessions d) (sessions d');
}.
Definition istep (d d' : DB) : Prop := iam_ok d -> iam_moved d d'.

#[export] Instance istep_preorder : PreOrder istep.
Proof.
  split.
  - intros d H. by split.
  - intros d1 d2 d3 H12 H23 H1. destruct (H12 H1) as [I2 A2 R2]. destruct (H23 I2) as [I3 A3 R3].
    split; [done|by etrans..].
Qed.

(** A statement on other tables. *)
Lemma istep_other d d' : accounts d' = accounts d -> sessions d' = sessions d -> istep d d'.
Proof. intros Ha Hs [Oa Or]. split; [split|..]; rewrite ?Ha, ?Hs; done. Qed.

Lemma istep_accounts d a' :
  (accounts_ok (accounts d) -> accounts_ok a' /\ accounts_moved (accounts d) a') -> istep d (set_accounts a' d).
Proof. intros H [Oa Or]. destruct (H Oa). by split. Qed.

Lemma istep_sessions d r' :
  (redis_ok (sessions d) -> redis_ok r' /\ redis_moved (sessions d) r') -> istep d (set_sessions r' d).
Proof. intros H [Oa Or]. destruct (H Or). by split. Qed.

(** ** Redis commands *)

Lemma ttl_pos : 0 < session_ttl.
Proof. done. Qed.

Lemma incr_ok now t k : counters_ok now t -> counters_ok now (redis_incr now (session_ttl * 2) t k).
Proof.
  intros Ht. apply map_Forall_insert_2; [|done]. simpl. split; [|lia].
  destruct (redis_get now t k) as [v|] eqn:Hg; simpl; [|lia].
  apply redis_get_Some in Hg as (e & Hk & _). destruct (Ht _ _ Hk). simpl in *. lia.
Qed.
Lemma incr_moved now t k :
  counters_ok now t -> counters_moved now t (redis_incr now (session_ttl * 2) t k).
Proof.
  intros Ht k' v e Hk He. unfold redis_incr. destruct (decide (k = k')) as [<-|Hne].
  - assert (redis_get now t k = Some v) as -> by (apply redis_get_Some; by exists e).
    eexists _, _. rewrite lookup_insert_eq. split; [done|]. destruct (Ht _ _ Hk). simpl in *. lia.
  - exists v, e. rewrite lookup_insert_ne by done. split; [done|lia].
Qed.

Lemma istep_incr_user u d :
  istep d (set_sessions (incr_user_generation (session_ttl * 2) u (sessions d)) d).
Proof.
  apply istep_sessions. intros [U T K]. split.
  - split; [by apply incr_ok|done..].
  - split; [done|by apply incr_moved|apply counters_moved_refl].
Qed.
Lemma istep_incr_tenant t d : istep d (TenancyQueries.incr_generation t d).
Proof.
  apply istep_sessions. intros [U T K]. split.
  - split; [done|by apply incr_ok|done].
  - split; [done|apply counters_moved_refl|by apply incr_moved].
Qed.
Lemma istep_set_refresh tok p d : istep d (set_sessions (set_refresh tok p session_ttl (sessions d)) d).
Proof.
  apply istep_sessions. intros [U T K]. split.
  - split; [done..|]. by apply map_Forall_insert_2.
  - split; [done|apply counters_moved_refl..].
Qed.
Lemma istep_del_refresh tok d : istep d (set_sessions (del_refresh tok (sessions d)) d).
Proof.
  apply istep_sessions. intros [U T K]. split.
  - split; [done..|]. by apply map_Forall_delete.
  - split; [done|apply counters_moved_refl..].
Qed.
Lemma istep_read d : istep d (set_sessions (sessions d) d).
Proof. by apply istep_other. Qed.

(** The IAM service: every statement, method, RPC and background job stays within
    [istep], whatever runs beside it. *)

Local Open Scope Z_scope.

Create HintDb isteps.

(** ** Statements on accounts *)

Section statements.
Context {X : External}.

Lemma CreateUser_istep now id t e n h st d a d' :
  AccountQueries.CreateUser now id t e n h st d = Ok (a, d') -> istep d d'.
Proof.
  unfold AccountQueries.CreateUser. intros H. case_match; [done|].
  destruct (exists_row _ _) eqn:He; [done|]. case_bool_decide as Hn; [done|]. case_match; [done|]. simplify_eq.
  apply istep_accounts. intros [Ku Ue Kr Kg Ki].
  rewrite exists_row_false in He. apply eq_None_not_Some in Hn.
  assert (Hno : forall k u, users (accounts d) !! k = Some u -> us_TenantID u = t -> us_Email u <> e).
  { intros k u Hu <- <-. specialize (He k u Hu). unfold AccountQueries.user_email_is in He.
    by rewrite !bool_decide_eq_true_2 in He. }
  assert (Hm : accounts_moved (accounts d) (set_users (<[id := mkUserRow id t e n h st (pg_time now)]> (users (accounts d))) (accounts d))).
  { split; [|done]. intros k u Hu. exists u. split; [|done]. simpl. rewrite lookup_insert_ne; [done|congruence]. }
  split; [|done]. split; simpl; [by apply map_Forall_insert_2| |done| |done].
  - intros k k' u u' Hk Hk' Ht Hem.
    apply lookup_insert_Some in Hk as [[<- <-]|[_ Hk]];
      apply lookup_insert_Some in Hk' as [[<- <-]|[_ Hk']]; simpl in *; [done| | |by eapply Ue].
    + by destruct (Hno _ _ Hk').
    + by destruct (Hno _ _ Hk).
  - intros k g Hg. eapply grant_ok_moved; [exact Hm|]. by apply Kg.
Qed.

(** An update of one user that keeps who it is. *)
Lemma update_user_istep p f id t d a d' :
  (forall u, same_user u (f u)) ->
  AccountQueries.update_user p f id t d = Ok (a, d') -> istep d d'.
Proof.
  unfold AccountQueries.update_user. intros Hf H. destruct (get_row _ _ _) as [u|] eqn:Hu; [|done].
  apply get_row_Ok in Hu as [Hu _]. case_match; [done|]. simplify_eq.
  apply istep_accounts. intros [Ku Ue Kr Kg Ki].
  assert (Hm : accounts_moved (accounts d) (set_users (<[id := f u]> (users (accounts d))) (accounts d))).
  { split; [|done]. intros k u' Hu'. simpl. destruct (decide (id = k)) as [<-|Hne].
    - exists (f u). rewrite lookup_insert_eq. split; [done|]. rewrite Hu in Hu'. injection Hu' as <-. apply Hf.
    - exists u'. by rewrite lookup_insert_ne. }
  split; [|done]. destruct (Hf u) as (Hi & Ht & He). split; simpl; [| |done| |done].
  - apply map_Forall_insert_2; [|done]. rewrite Hi. by apply (Ku id).
  - intros k k' u1 u2 Hk Hk' Ht12 He12.
    apply lookup_insert_Some in Hk as [[<- <-]|[_ Hk]];
      apply lookup_insert_Some in Hk' as [[<- <-]|[_ Hk']]; [done| | |by eapply Ue].
    + eapply (Ue id); [exact Hu|exact Hk'|congruence..].
    + eapply (Ue _ id); [exact Hk|exact Hu|congruence..].
  - intros k g Hg. eapply grant_ok_moved; [exact Hm|]. by apply Kg.
Qed.

Lemma affected_istep {A} d (r : result pg_error (A * DB)) n d' :
  (forall a d1, r = Ok (a, d1) -> istep d d1) -> AccountQueries.affected d r = Ok (n, d') -> istep d d'.
Proof.
  unfold AccountQueries.affected. intros Hr H. destruct r as [[a d1]|[]]; simplify_eq; [by eapply Hr|done].
Qed.

Lemma with_user_status_same st u : same_user u (AccountQueries.with_user_status st u).
Proof. done. Qed.

Lemma UpdateUser_istep id n st t d z d' : AccountQueries.UpdateUser id n st t d = Ok (z, d') -> istep d d'.
Proof.
  apply affected_istep. intros a d1. apply update_user_istep. intros u. by case_decide.
Qed.
Lemma UpdateHash_istep id h t d z d' :
  AccountQueries.UpdateUserPasswordHash id h t d = Ok (z, d') -> istep d d'.
Proof. apply affected_istep. intros a d1. by apply update_user_istep. Qed.
Lemma UpdateUserStatus_istep id st t d a d' :
  AccountQueries.UpdateUserStatus id st t d = Ok (a, d') -> istep d d'.
Proof. by apply update_user_istep. Qed.
Lemma ReactivateUser_istep id t d a d' : AccountQueries.ReactivateUser id t d = Ok (a, d') -> istep d d'.
Proof. by apply update_user_istep. Qed.

Lemma CreateTenant_istep nk now id n sl pl st l1 l2 c co po cu d a d' :
  AccountQueries.CreateTenant nk now id n sl pl st l1 l2 c co po cu d = Ok (a, d') -> istep d d'.
Proof. unfold AccountQueries.CreateTenant. intros H. repeat case_match; simplify_eq. by apply istep_other. Qed.
Lemma UpdateAddress_istep id l1 l2 c co po cu d a d' :
  AccountQueries.UpdateTenantAddress id l1 l2 c co po cu d = Ok (a, d') -> istep d d'.
Proof. unfold AccountQueries.UpdateTenantAddress. intros H. repeat case_match; simplify_eq. by apply istep_other. Qed.

(** The roles the service seeds. *)
Lemma system_role_ok id t sr : sr ∈ Accounts.systemRoles -> role_ok id (mkRoleRow id t sr.1 sr.2 true).
Proof.
  intros Hsr. split; [done|]. simpl.
  assert (forallb (fun sr => Bool.eqb (bool_decide (Accounts.permUserManage ∈ sr.2))
                                 (bool_decide (sr.1 = "super_admin"))) Accounts.systemRoles = true)
    as Hall by (vm_compute; reflexivity).
  rewrite forallb_forall in Hall. apply list_elem_of_In in Hsr. specialize (Hall sr Hsr).
  apply Bool.eqb_prop in Hall.
  split.
  - intros Hp. rewrite bool_decide_eq_true_2 in Hall by done.
    symmetry in Hall. by apply bool_decide_eq_true in Hall.
  - intros [Hn _]. rewrite (bool_decide_eq_true_2 (sr.1 = _)) in Hall by done.
    by apply bool_decide_eq_true in Hall.
Qed.

Lemma CreateRole_istep id t n ps sys d a d' :
  role_ok id (mkRoleRow id t n ps sys) -> AccountQueries.CreateRole id t n ps sys d = Ok (a, d') -> istep d d'.
Proof.
  intros Hok H. unfold AccountQueries.CreateRole in H. case_match; [done|].
  case_bool_decide as Hn; [done|]. case_match; [done|]. simplify_eq. apply eq_None_not_Some in Hn.
  apply istep_accounts. intros [Ku Ue Kr Kg Ki].
  assert (Hm : accounts_moved (accounts d) (set_roles (<[id := mkRoleRow id t n ps sys]> (roles (accounts d))) (accounts d))).
  { split; [|by apply insert_subseteq]. intros k u Hu. by exists u. }
  split; [|done]. split; simpl; [done..|by apply map_Forall_insert_2| |done].
  intros k g Hg. eapply grant_ok_moved; [exact Hm|]. by apply Kg.
Qed.

(** A grant between a user and a role of one tenant. *)
Lemma AssignRole_istep now u r p b d x d' :
  (forall ur rr, users (accounts d) !! u = Some ur -> roles (accounts d) !! r = Some rr ->
     us_TenantID ur = ro_TenantID rr) ->
  AccountQueries.AssignRole now u r p b d = Ok (x, d') -> istep d d'.
Proof.
  intros Hsame H. unfold AccountQueries.AssignRole in H. destruct (negb _) eqn:Hsc; [done|].
  case_bool_decide as Hk; [by simplify_eq|]. destruct (negb _) eqn:Hfk in H; [done|]. simplify_eq.
  apply istep_accounts. intros [Ku Ue Kr Kg Ki]. split; [|by split; [intros k v Hv; exists v|]].
  split; simpl; [done..| |done]. apply map_Forall_insert_2; [|exact Kg].
  bool_hyps. repeat match goal with H : is_Some _ |- _ => destruct H end.
  split; [done|]. simpl. do 2 eexists. split_and!; [done|done|by eapply Hsame|].
  match goal with H : roles _ !! r = Some _ |- _ => rewrite H in Hsc end. done.
Qed.

Lemma RevokeRole_istep u r d x d' : AccountQueries.RevokeRole u r d = Ok (x, d') -> istep d d'.
Proof.
  intros [= _ <-]. apply istep_accounts. intros [Ku Ue Kr Kg Ki].
  split; [|by split; [intros k v Hv; exists v|]]. split; simpl; [done..| |done].
  intros k g [Hg _]%map_lookup_filter_Some. by apply Kg.
Qed.

Lemma invitations_istep t d :
  (accounts_ok (accounts d) -> map_Forall (fun k i => iv_ID i = k) t) ->
  istep d (AccountQueries.put_invitations t d).
Proof.
  intros Ht. apply istep_accounts. intros H. specialize (Ht H). destruct H as [Ku Ue Kr Kg Ki].
  split; [|by split; [intros k v Hv; exists v|]]. by split.
Qed.
Lemma CreateInvitation_istep now id t e b tok ex r d a d' :
  AccountQueries.CreateInvitation now id t e b tok ex r d = Ok (a, d') -> istep d d'.
Proof.
  unfold AccountQueries.CreateInvitation. intros H. repeat case_match; simplify_eq;
    apply invitations_istep; intros [_ _ _ _ Ki]; (apply map_Forall_insert_2; [|exact Ki]); reflexivity.
Qed.
Lemma AcceptInvitation_istep id d x d' : AccountQueries.AcceptInvitation id d = Ok (x, d') -> istep d d'.
Proof.
  unfold AccountQueries.AcceptInvitation. intros H. case_match eqn:Hi; simplify_eq; [|done].
  apply invitations_istep. intros [_ _ _ _ Ki]. apply map_Forall_insert_2; [exact (Ki id _ Hi)|done].
Qed.
Lemma UpsertOIDC_istep now t i c sc sco em nm gr au ro d x d' :
  AccountQueries.UpsertOIDCConfig now t i c sc sco em nm gr au ro d = Ok (x, d') -> istep d d'.
Proof.
  unfold AccountQueries.UpsertOIDCConfig. intros H. case_match; simplify_eq. apply istep_accounts.
  intros [Ku Ue Kr Kg Ki]. split; [|by split; [intros k v Hv; exists v|]]. by split.
Qed.

End statements.

#[export] Hint Resolve CreateUser_istep UpdateUser_istep UpdateHash_istep UpdateUserStatus_istep
  ReactivateUser_istep UpdateAddress_istep RevokeRole_istep CreateInvitation_istep
  AcceptInvitation_istep UpsertOIDC_istep : isteps.

(** ** Methods *)

Section redis.
Context {X : External}.
Implicit Types (w : World St).

Lemma redis_steps {A} t (f : Redis -> A * Redis) w :
  (forall d, istep d (set_sessions (f (sessions d)).2 d)) ->
  steps (store_step istep) (redis t f) w.
Proof.
  intros Hf. apply steps_store_tx. intros d a d' H. specialize (Hf d).
  destruct (f (sessions d)). by simplify_eq.
Qed.
Lemma commit_steps w : steps (store_step istep) TenancyPostgres.commit_answer w.
Proof. apply steps_store_tx. by intros d a d' [= _ <-]. Qed.
End redis.
#[export] Hint Resolve istep_read istep_incr_user istep_set_refresh istep_del_refresh commit_steps : isteps.

(** Programs whose statements all are hints. *)
Ltac isteps := repeat first
  [ progress steps_tac
  | match goal with |- steps _ (match ?x with _ => _ end _) _ => destruct x end
  | apply steps_store_query
  | solve [eauto with isteps]
  | apply redis_steps; simpl; solve [eauto with isteps]
  | apply steps_store_exec; solve [eauto with isteps] ].

Section repository.
Context {X : External} {J : Jwt} {C : Primitives}.
Variable name_key : string -> string.
Variable Exchange : OIDCConfig -> string -> string -> string -> option OIDCClaims.
Implicit Types (w : World St).
Abbreviation R := (store_step (Ev:=Event) istep) (only parsing).

Lemma create_user_istep now u d a d' : AccountPostgres.create_user now u d = Ok (a, d') -> istep d d'.
Proof. unfold AccountPostgres.create_user. intros H. repeat case_match; simplify_eq. eauto with isteps. Qed.
Lemma get_role_unchanged t r d a d' : AccountPostgres.get_role_by_id t r d = Ok (a, d') -> d' = d.
Proof. unfold AccountPostgres.get_role_by_id. intros H. by case_match; simplify_eq. Qed.

Lemma Refresh_steps t w : steps R (Refresh tokenIssuer t) w.
Proof.
  unfold Refresh, consumeRefreshToken, currentGeneration, currentTenantGeneration,
    issueWithGeneration, issueRefreshToken, generateToken. isteps.
Qed.
Lemma Issue_steps r w : steps R (Issue tokenIssuer r) w.
Proof.
  unfold Issue, currentGeneration, currentTenantGeneration, issueWithGeneration, issueRefreshToken,
    generateToken. isteps.
Qed.
Lemma RevokeToken_steps t w : steps R (Revoke t) w.
Proof. unfold Revoke. isteps. Qed.
Lemma RevokeUser_steps u w : steps R (RevokeAllForUser tokenIssuer u) w.
Proof. unfold RevokeAllForUser. isteps. Qed.

Lemma GetByEmail_steps t e w : steps R (AccountPostgres.GetUserByEmail t e) w.
Proof. unfold AccountPostgres.GetUserByEmail, AccountPostgres.loadRolesAndPerms. isteps. Qed.
#[local] Hint Resolve Issue_steps GetByEmail_steps : isteps.

Lemma Authenticate_steps k o r w : steps R (Authenticate Exchange k o r) w.
Proof.
  unfold Authenticate, Resolve, oidc_Authenticate, local_Authenticate, GetOIDCConfig, check_tenant,
    AccountPostgres.GetOIDCConfig, AccountPostgres.GetTenantStatus, AccountPostgres.CreateOIDCUser. isteps.
Qed.

Lemma GetRoleByID_steps t r w : steps R (AccountPostgres.GetRoleByID t r) w.
Proof. apply steps_store_tx. by intros d a d' ->%get_role_unchanged. Qed.

(** A role or a user read in one tenant stays one of that tenant. *)
Lemma GetRoleByID_read t r w a w' :
  AccountPostgres.GetRoleByID t r w = (Ok a, w') ->
  exists rr, roles (accounts (store_db (w_st w'))) !! r = Some rr /\ ro_TenantID rr = t.
Proof.
  intros [H _]%tx_Ok. unfold on_db, AccountPostgres.get_role_by_id in H. repeat case_match; simplify_eq.
  match goal with H : AccountQueries.GetRoleByID _ _ _ = _ |- _ => apply get_row_Ok in H as [? ?] end.
  unfold AccountQueries.role_in in *. bool_hyps.
  match goal with H : _ = w_st w' |- _ => rewrite <-H end. eauto.
Qed.
Lemma GetUser_read t u w a w' :
  AccountPostgres.GetUser t u w = (Ok a, w') ->
  exists ur, users (accounts (store_db (w_st w'))) !! u = Some ur /\ us_TenantID ur = t.
Proof.
  intros (row & w1 & Hq & H)%bind_Ok. apply map_err_Ok, store_query_read, get_row_Ok in Hq as [Hq Ht].
  case_match; [done|]. apply ret_Ok in H as [_ ->]. unfold AccountQueries.in_tenant in Ht. bool_hyps. eauto.
Qed.
Lemma same_tenant_moved d d' u r t ur rr :
  iam_moved d d' -> roles (accounts d) !! r = Some rr -> ro_TenantID rr = t ->
  users (accounts d) !! u = Some ur -> us_TenantID ur = t ->
  forall ur' rr', users (accounts d') !! u = Some ur' -> roles (accounts d') !! r = Some rr' ->
    us_TenantID ur' = ro_TenantID rr'.
Proof.
  intros [_ [Mu Mr] _] Hr Htr Hu Htu ur' rr' Hu' Hr'.
  destruct (Mu _ _ Hu) as (u2 & Hu2 & _ & Ht2 & _). eapply lookup_weaken in Hr; [|exact Mr].
  rewrite Hu' in Hu2. rewrite Hr' in Hr. simplify_eq. congruence.
Qed.

Lemma GetUser_steps t u w : steps R (AccountPostgres.GetUser t u) w.
Proof. unfold AccountPostgres.GetUser. isteps. Qed.

(** An assignment after both reads of its tenant. *)
Lemma AssignRole_steps ur rr t u r p b at_ w :
  iam_ok (store_db (w_st w)) ->
  roles (accounts (store_db (w_st w))) !! r = Some rr -> ro_TenantID rr = t ->
  users (accounts (store_db (w_st w))) !! u = Some ur -> us_TenantID ur = t ->
  steps R (AccountPostgres.AssignRole (mkUserRole u r p b at_)) w.
Proof.
  intros I Hr Htr Hu Htu. unfold AccountPostgres.AssignRole. apply steps_bind; [apply steps_time|].
  intros now w1 [= <- <-] _ _ _. apply steps_store_tx_from. intros d x d' Hd H.
  unfold AccountPostgres.assign_role in H. case_match eqn:Hq; simplify_eq.
  eapply AssignRole_istep, Hq. intros. by eapply same_tenant_moved; [exact (Hd I)|..].
Qed.

End repository.
