(* ===== verification/AccountReach.v ===== *)
(** The IAM service: every method, RPC and worker stays within [istep], and what
    any history of them, interleaved statement by statement, can reach. *)

From S2P Require Import RegistrationModel.
From S2P Require Export AccountSteps.
From S2P Require AccountQueries AccountPostgres Accounts AccountHandler.
From S2P Require TenancyQueries TenancyPostgres Tenancy TenancyHandler TenancySteps.
Local Open Scope Z_scope.

Section service.
Context {X : External} {J : Jwt} {C : Primitives}.
Variable name_key : string -> string.
Variable Exchange : OIDCConfig -> string -> string -> string -> option OIDCClaims.
Variable s : Accounts.Service.
Implicit Types (w : World St).
Abbreviation R := (store_step (Ev:=Event) istep) (only parsing).

(** The server's issuer, and a schema migrator that keeps to tenant schemas. *)
Record service_ok : Prop := {
  so_tokens : Accounts.s_tokens s = tokenIssuer;
  so_migrator : forall m, Accounts.s_migrator s = Some m -> forall t w, steps R (m t) w;
}.
Hypothesis Hs : service_ok.

#[local] Hint Resolve Issue_steps GetByEmail_steps Refresh_steps RevokeToken_steps RevokeUser_steps
  Authenticate_steps GetRoleByID_steps GetUser_steps : isteps.

(** ** Sessions *)

Lemma Login_steps t e p w : steps R (Accounts.Login Exchange s t e p) w.
Proof.
  unfold Accounts.Login, AccountPostgres.FindTenantByEmail. rewrite (so_tokens Hs). isteps.
Qed.
Lemma rehash_steps t e p w : steps R (Accounts.rehashIfNeeded t e p) w.
Proof.
  unfold Accounts.rehashIfNeeded, AccountPostgres.UpdatePasswordHash, AccountPostgres.found_user, Hash. isteps.
Qed.
Lemma RefreshToken_steps t w : steps R (Accounts.RefreshToken s t) w.
Proof. unfold Accounts.RefreshToken. rewrite (so_tokens Hs). isteps. Qed.
Lemma Logout_steps t w : steps R (Accounts.Logout t) w.
Proof. unfold Accounts.Logout. isteps. Qed.
Lemma Validate_steps t w : steps R (Validate t) w.
Proof. unfold Validate. isteps. Qed.
#[local] Hint Resolve Validate_steps : isteps.
Lemma GetCurrentUser_steps t w : steps R (Accounts.GetCurrentUser t) w.
Proof. unfold Accounts.GetCurrentUser, TenancyPostgres.GetTenant. isteps. Qed.

(** ** Users *)

Lemma prepare_steps u p w : steps R (Accounts.prepareNewUser u p) w.
Proof. unfold Accounts.prepareNewUser, Hash. isteps. Qed.
Lemma prepare_tenant u p w u' w' :
  Accounts.prepareNewUser u p w = (Ok u', w') -> u_TenantID u' = u_TenantID u.
Proof.
  intros (id & w1 & _ & (h & w2 & _ & [-> _]%ret_Ok)%bind_Ok)%bind_Ok. done.
Qed.
#[local] Hint Resolve prepare_steps : isteps.

Lemma CreateUser_steps u p w : steps R (Accounts.CreateUser u p) w.
Proof.
  unfold Accounts.CreateUser, AccountPostgres.CreateUser. isteps.
  apply steps_store_tx. intros. by eapply create_user_istep.
Qed.
Lemma ListUsers_steps t st l o w : steps R (Accounts.ListUsers t st l o) w.
Proof. unfold Accounts.ListUsers, AccountPostgres.ListUsers. cbv zeta. isteps. Qed.
Lemma UpdateUser_steps u w : steps R (Accounts.UpdateUser u) w.
Proof. unfold Accounts.UpdateUser, AccountPostgres.UpdateUser, AccountPostgres.found_user. isteps. Qed.
Lemma DeactivateUser_steps t i w : steps R (Accounts.DeactivateUser s t i) w.
Proof.
  unfold Accounts.DeactivateUser, AccountPostgres.DeactivateUser. rewrite (so_tokens Hs). isteps.
Qed.
Lemma ActivateUser_steps t i w : steps R (Accounts.ActivateUser t i) w.
Proof. unfold Accounts.ActivateUser, AccountPostgres.ActivateUser. isteps. Qed.
Lemma ChangePassword_steps t u o n w : steps R (Accounts.ChangePassword s t u o n) w.
Proof.
  unfold Accounts.ChangePassword, AccountPostgres.UpdatePasswordHash, AccountPostgres.found_user,
    AccountPostgres.GetUserByID, AccountPostgres.loadRolesAndPerms, Hash.
  rewrite (so_tokens Hs). isteps.
Qed.

(** ** Roles *)

(** The reads of one tenant before a grant, then the grant. *)
Lemma grant_steps u r p b at_ t w w1 w2 w3 role user :
  iam_ok (store_db (w_st w1)) -> R (w_st w1) (w_st w2) ->
  AccountPostgres.GetRoleByID t r w = (Ok role, w1) ->
  AccountPostgres.GetUser t u w1 = (Ok user, w2) -> w_st w3 = w_st w2 ->
  steps R (AccountPostgres.AssignRole (mkUserRole u r p b at_)) w3.
Proof.
  intros I [Hm _] Hr Hu Hw3. specialize (Hm I).
  apply GetRoleByID_read in Hr as (rr & Hr & Ht). apply GetUser_read in Hu as (ur & Hu & Htu).
  eapply AssignRole_steps; rewrite ?Hw3; [apply Hm|eapply lookup_weaken, Hm; exact Hr|exact Ht|exact Hu|exact Htu].
Qed.

Lemma AssignRole_svc_steps t u r b w :
  iam_ok (store_db (w_st w)) -> steps R (Accounts.AssignRole t u r b) w.
Proof.
  intros I. unfold Accounts.AssignRole. apply steps_bind; [apply GetRoleByID_steps|].
  intros role w1 Hr _ [Hm1 _] _. apply steps_bind; [apply GetUser_steps|]. intros user w2 Hu _ Hm2 _.
  apply steps_bind; [apply steps_time|]. intros now w3 [= <- <-] _ _ _. apply steps_wrap.
  eapply grant_steps; [apply (Hm1 I)|exact Hm2|exact Hr|exact Hu|done].
Qed.
Lemma AssignProjectRole_svc_steps t u r p b w :
  iam_ok (store_db (w_st w)) -> steps R (Accounts.AssignProjectRole t u r p b) w.
Proof.
  intros I. unfold Accounts.AssignProjectRole. apply steps_bind; [apply steps_wrap, GetRoleByID_steps|].
  intros role w1 Hr _ [Hm1 _] _. apply wrap_Ok in Hr. destruct (_ && _); [apply steps_throw|].
  apply steps_bind; [apply GetUser_steps|]. intros user w2 Hu _ Hm2 _.
  apply steps_bind; [apply steps_time|]. intros now w3 [= <- <-] _ _ _. apply steps_wrap.
  eapply grant_steps; [apply (Hm1 I)|exact Hm2|exact Hr|exact Hu|done].
Qed.
Lemma RevokeRole_svc_steps t u r w : steps R (Accounts.RevokeRole s t u r) w.
Proof. unfold Accounts.RevokeRole, AccountPostgres.RevokeRole. rewrite (so_tokens Hs). isteps. Qed.
Lemma ListRoles_svc_steps t w : steps R (Accounts.ListRoles t) w.
Proof. unfold Accounts.ListRoles, AccountPostgres.ListRoles. isteps. Qed.
Lemma CheckPermission_steps u p j w : steps R (Accounts.CheckPermission u p j) w.
Proof. unfold Accounts.CheckPermission, AccountPostgres.GetUserPermissions. isteps. Qed.

(** ** Tenants *)

Lemma SetAddress_steps t w : steps R (Accounts.SetTenantAddress t) w.
Proof. unfold Accounts.SetTenantAddress, AccountPostgres.UpdateTenantAddress. isteps. Qed.

Lemma seed_steps t w : steps R (Accounts.seedSystemRoles t) w.
Proof.
  unfold Accounts.seedSystemRoles. apply steps_forM_in. intros sr w' Hsr.
  unfold AccountPostgres.CreateRole. steps_tac. apply steps_store_exec. intros d row d'.
  by apply CreateRole_istep, system_role_ok.
Qed.

Lemma FindName_steps n w : steps R (AccountPostgres.FindTenantByNormalizedName name_key n) w.
Proof. unfold AccountPostgres.FindTenantByNormalizedName. isteps. Qed.
#[local] Hint Resolve seed_steps FindName_steps : isteps.

Lemma CreateTenant_repo_steps t w : steps R (AccountPostgres.CreateTenant name_key t) w.
Proof.
  unfold AccountPostgres.CreateTenant. isteps. apply steps_store_tx. intros d row d'. apply CreateTenant_istep.
Qed.
#[local] Hint Resolve CreateTenant_repo_steps : isteps.
Lemma CreateTenant_svc_steps t w : steps R (Accounts.CreateTenant name_key s t) w.
Proof. unfold Accounts.CreateTenant. cbv zeta. isteps. by apply (so_migrator Hs). Qed.

(** ** Invitations *)

Lemma InviteUser_steps i w : steps R (Accounts.InviteUser i) w.
Proof.
  unfold Accounts.InviteUser, AccountPostgres.CreateInvitation, generateToken. isteps.
Qed.

(** The user an insert leaves in the table. *)
Lemma create_user_stored now u d u1 d1 :
  AccountPostgres.create_user now u d = Ok (u1, d1) ->
  u_ID u1 = u_ID u
  /\ exists row, users (accounts d1) !! u_ID u = Some row /\ us_TenantID row = u_TenantID u
       /\ us_Email row = u_Email u /\ us_PasswordHash row = u_PasswordHash u.
Proof.
  unfold AccountPostgres.create_user. destruct (AccountQueries.CreateUser _ _ _ _ _ _ _ d) as [[row d']|] eqn:Hc;
    [|done]. case_decide; [done|]. intros [= <- <-]. split; [done|].
  unfold AccountQueries.CreateUser in Hc. do 4 (case_match; [done|]). injection Hc as <- <-.
  eexists. simpl. by rewrite lookup_insert_eq.
Qed.

Lemma accept_tx_istep now inv u d a d' :
  u_TenantID u = i_TenantID inv -> Accounts.accept_tx now inv u d = Ok (a, d') -> istep d d'.
Proof.
  intros Ht H. unfold Accounts.accept_tx in H.
  destruct (AccountPostgres.create_user now u d) as [[u1 d1]|] eqn:Hc; [|done].
  assert (Hu1 : exists row, users (accounts d1) !! u_ID u1 = Some row /\ us_TenantID row = i_TenantID inv).
  { apply create_user_stored in Hc as (-> & row & Hrow & Ht' & _). exists row. split; [done|congruence]. }
  apply create_user_istep in Hc. etrans; [exact Hc|]. clear Hc.
  assert (forall d2, AccountPostgres.mark_accepted (i_ID inv) d2 = Ok (tt, d') -> istep d2 d') as Hmark.
  { unfold AccountPostgres.mark_accepted. intros d2 Hm. case_match; simplify_eq. eauto with isteps. }
  destruct (i_RoleID inv) as [r|].
  - destruct (AccountPostgres.get_role_by_id _ _ d1) as [[rl d1']|] eqn:Hg; [|done].
    destruct (AccountPostgres.assign_role _ _ _) as [[[] d2]|] eqn:Ha; [|done].
    destruct (AccountPostgres.mark_accepted _ _) as [[[] d3]|] eqn:Hm; [|done]. simplify_eq.
    etrans; [|by apply Hmark].
    unfold AccountPostgres.assign_role in Ha. case_match eqn:Hq; simplify_eq.
    eapply AssignRole_istep, Hq. simpl. intros ur rr Hur Hrr.
    destruct Hu1 as (row & Hrow & Htr). rewrite Hrow in Hur. simplify_eq.
    unfold AccountPostgres.get_role_by_id in Hg. case_match eqn:Hg2; simplify_eq.
    apply get_row_Ok in Hg2 as [Hg2 Hin]. unfold AccountQueries.role_in in Hin. bool_hyps. congruence.
  - destruct (AccountPostgres.mark_accepted _ _) as [[[] d3]|] eqn:Hm; [|done]. simplify_eq. by apply Hmark.
Qed.

Lemma AcceptInvitation_svc_steps t p w : steps R (Accounts.AcceptInvitation s t p) w.
Proof.
  unfold Accounts.AcceptInvitation, AccountPostgres.GetInvitationByToken. rewrite (so_tokens Hs).
  apply steps_bind; [isteps|]. intros inv w1 _ _ _ _. destruct (decide _); [apply steps_throw|].
  apply steps_bind; [apply steps_time|]. intros now w2 _ _ _ _. destruct (bool_decide _); [apply steps_throw|].
  apply steps_bind; [isteps|]. intros u w3 Hu%wrap_Ok%prepare_tenant _ _ _.
  apply steps_bind; [apply steps_time|]. intros now' w4 _ _ _ _.
  apply steps_bind; [|isteps]. apply steps_store_tx. intros d a d'. by apply accept_tx_istep.
Qed.

Lemma SetOIDC_steps p w : steps R (Accounts.SetOIDCConfig s p) w.
Proof.
  unfold Accounts.SetOIDCConfig, AccountPostgres.UpsertOIDCConfig, Encrypt. cbv zeta. isteps.
Qed.

(** ** RPCs *)

#[local] Hint Resolve Login_steps RefreshToken_steps Logout_steps GetCurrentUser_steps CreateUser_steps
  ListUsers_steps UpdateUser_steps DeactivateUser_steps ActivateUser_steps ChangePassword_steps
  RevokeRole_svc_steps ListRoles_svc_steps CheckPermission_steps SetAddress_steps
  CreateTenant_svc_steps InviteUser_steps AcceptInvitation_svc_steps SetOIDC_steps : isteps.

Lemma requireUserManage_steps ctx w : steps R (AccountHandler.requireUserManage ctx) w.
Proof. unfold AccountHandler.requireUserManage. isteps. Qed.
#[local] Hint Resolve requireUserManage_steps : isteps.

(** A check that passes leaves a state with the invariant. *)
Lemma steps_after_check ctx {A} (f : unit -> M St status A) w :
  iam_ok (store_db (w_st w)) -> (forall w', iam_ok (store_db (w_st w')) -> steps R (f tt) w') ->
  steps R (AccountHandler.requireUserManage ctx ≫= f) w.
Proof.
  intros I Hf. apply steps_bind; [apply requireUserManage_steps|]. intros [] w' _ _ [Hm _] _. apply Hf, Hm, I.
Qed.
Lemma steps_bind_lift {A B} (x : result status A) (f : A -> M St status B) w :
  (forall a, steps R (f a) w) -> steps R (lift_result x ≫= f) w.
Proof. intros Hf. apply steps_bind; [apply steps_lift|]. intros a w' [= _ <-] _ _ _. apply Hf. Qed.

Lemma AssignRole_rpc_steps ctx t u r w :
  iam_ok (store_db (w_st w)) -> steps R (AccountHandler.AssignRole ctx t u r) w.
Proof.
  intros I. unfold AccountHandler.AssignRole. do 4 (apply steps_bind_lift; intros ?).
  apply steps_after_check; [done|]. intros. by apply steps_map_err, AssignRole_svc_steps.
Qed.
Lemma AssignProjectRole_rpc_steps ctx t u r p w :
  iam_ok (store_db (w_st w)) -> steps R (AccountHandler.AssignProjectRole ctx t u r p) w.
Proof.
  intros I. unfold AccountHandler.AssignProjectRole. do 5 (apply steps_bind_lift; intros ?).
  apply steps_after_check; [done|]. intros. by apply steps_map_err, AssignProjectRole_svc_steps.
Qed.

Lemma iam_handle_steps ctx auth r w :
  iam_ok (store_db (w_st w)) -> steps R (AccountHandler.handle name_key Exchange s ctx auth r) w.
Proof.
  intros I. destruct r; unfold AccountHandler.handle, AccountHandler.done_, AccountHandler.retired,
    TenancyHandler.svc; try solve [unfold
    AccountHandler.Login, AccountHandler.RefreshToken, AccountHandler.Logout,
    AccountHandler.GetCurrentUser, AccountHandler.CreateUser, AccountHandler.GetUser,
    AccountHandler.ListUsers, AccountHandler.UpdateUser, AccountHandler.DeactivateUser,
    AccountHandler.ActivateUser, AccountHandler.admin_user, AccountHandler.ChangePassword,
    AccountHandler.RevokeRole, AccountHandler.ListRoles, AccountHandler.CheckPermission,
    AccountHandler.CreateTenant, AccountHandler.SetTenantAddress, AccountHandler.InviteUser,
    AccountHandler.AcceptInvitation, AccountHandler.SetOIDCConfig, TenancyHandler.svc, Accounts.GetUser;
    isteps].
  - apply steps_bind; [by apply AssignRole_rpc_steps|]. isteps.
  - apply steps_bind; [by apply AssignProjectRole_rpc_steps|]. isteps.
Qed.

End service.

(** ** The tenant lifecycle *)

(** A statement that only reads or writes tenants, purge requests and schemas. *)
Definition lifecycle_only (d d' : DB) : Prop := accounts d' = accounts d /\ sessions d' = sessions d.

Ltac lifecycle_stmt :=
  let H := fresh in intros ? ? ? H; revert H;
  unfold TenancyQueries.UpdateTenantStatus, TenancyQueries.ClearTenantLegalHold,
    TenancyQueries.SetTenantLegalHold, TenancyQueries.TransitionTenantStatus,
    TenancyQueries.CreateTenantPurgeRequest, TenancyQueries.ApproveTenantPurgeRequest,
    TenancyQueries.CancelTenantPurgeRequest, TenancyQueries.MarkTenantPurgeRequestFailed,
    TenancyQueries.update_request;
  repeat case_match; intros; by simplify_eq.

Section lifecycle.
Context {X : External}.
Variable days_before : Z -> Time -> Time.
Variable name_key : string -> string.
Variable s : Tenancy.Service.
Implicit Types (w : World St).
Abbreviation R := (store_step (Ev:=Event) istep) (only parsing).

Lemma lifecycle_tx {E A} (down : E) (q : DB -> result E (A * DB)) w :
  (forall d a d', q d = Ok (a, d') -> lifecycle_only d d') -> steps R (with_tx down q) w.
Proof. intros Hq. apply steps_store_tx. intros d a d' [??]%Hq. by apply istep_other. Qed.

Lemma purge_tx_lifecycle now t r d a d' :
  TenancyPostgres.purge_tx name_key now t r d = Ok (a, d') -> lifecycle_only d d'.
Proof.
  unfold TenancyPostgres.purge_tx, TenancyQueries.claim_request, TenancyQueries.update_request,
    TenancyQueries.tombstone. intros H. repeat case_match; by simplify_eq.
Qed.

Create HintDb lsteps.
Ltac lsteps := repeat first
  [ progress steps_tac | apply steps_store_query | apply steps_emit | solve [eauto with lsteps]
  | apply lifecycle_tx; solve [lifecycle_stmt | intros ? ? ?; apply purge_tx_lifecycle]
  | apply lifecycle_tx; by intros ? ? ? [= _ <-] ].

Lemma RevokeTenant_isteps t w : steps R (TenancyPostgres.RevokeAllForTenant t) w.
Proof. apply steps_store_tx. intros d a d' [= _ <-]. apply istep_incr_tenant. Qed.
#[local] Hint Resolve RevokeTenant_isteps : lsteps.

Lemma Advance_isteps id now w : steps R (Tenancy.AdvanceTenantLifecycle s id now) w.
Proof.
  unfold Tenancy.AdvanceTenantLifecycle, TenancyPostgres.TransitionTenantStatus, TenancyPostgres.GetTenant,
    Tenancy.Log. lsteps.
Qed.
Lemma Suspend_isteps ctx id h f w : steps R (Tenancy.SuspendTenant s ctx id h f) w.
Proof.
  unfold Tenancy.SuspendTenant, TenancyPostgres.UpdateTenantStatus, TenancyPostgres.GetTenant,
    Tenancy.log_now, Tenancy.Log. cbv zeta. lsteps.
Qed.
#[local] Hint Resolve Advance_isteps Suspend_isteps : lsteps.

Lemma runSweep_isteps b n w : steps R (Tenancy.runSweep days_before s b n) w.
Proof.
  assert (Hbatch : forall now due v w, steps R (Tenancy.sweep_batch s now due v) w).
  { intros now due. induction due as [|t due IH]; intros v w1; [apply steps_ret|].
    cbn [Tenancy.sweep_batch]. cbv zeta. apply steps_bind; [lsteps|]. intros. apply IH. }
  assert (Hbatches : forall m now v w, steps R (Tenancy.sweep_batches days_before s m now b v) w).
  { intros m now. induction m as [|m IH]; intros v w1; [apply steps_ret|]. cbn [Tenancy.sweep_batches].
    unfold Tenancy.ListTenantsDueForLifecycle, TenancyPostgres.ListTenantsDueForLifecycle. lsteps; auto. }
  unfold Tenancy.runSweep, Tenancy.CountTenantsOnHold, TenancyPostgres.CountTenantsOnHold. lsteps.
Qed.

Lemma runPurge_isteps b w : steps R (Tenancy.runPurge name_key s b) w.
Proof.
  unfold Tenancy.runPurge, Tenancy.ListApprovedPurges, TenancyPostgres.ListApprovedTenantPurgeRequests.
  apply steps_bind; [lsteps|]. intros reqs w1 _ _ _ _. generalize 0 at 1 as p. generalize 0 as n.
  revert w1. induction reqs as [|req reqs IH]; intros w1 n p; [apply steps_ret|]. cbn [Tenancy.purge_each].
  apply steps_bind; [|intros r w2 _ _ _ _; destruct r; apply IH].
  unfold Tenancy.PurgeApprovedTenant, TenancyPostgres.PurgeTenantSchemaAndTombstone,
    TenancyPostgres.MarkTenantPurgeRequestFailed, TenancyPostgres.commit_answer, Tenancy.log_now, Tenancy.Log.
  lsteps.
Qed.

Lemma Handle_isteps ctx e w : steps R (Tenancy.Handle s ctx e) w.
Proof. unfold Tenancy.Handle, Tenancy.GetTenant, TenancyPostgres.GetTenant. lsteps. Qed.

Lemma lifecycle_handle_isteps ctx r w : steps R (TenancyHandler.handle s ctx r) w.
Proof.
  destruct r; unfold TenancyHandler.handle, TenancyHandler.GetTenant, TenancyHandler.SuspendTenant,
    TenancyHandler.ClearTenantLegalHold, TenancyHandler.SetTenantRetention, TenancyHandler.RequestTenantPurge,
    TenancyHandler.ApproveTenantPurge, TenancyHandler.CancelTenantPurge, TenancyHandler.not_blank,
    TenancyHandler.svc, TenancyHandler.admin_id, Tenancy.GetTenant, Tenancy.ClearTenantLegalHold,
    Tenancy.SetTenantRetention, Tenancy.RequestTenantPurge, Tenancy.ApproveTenantPurge,
    Tenancy.CancelTenantPurge, Tenancy.auditPurge, Tenancy.log_now, Tenancy.Log, TenancyPostgres.GetTenant,
    TenancyPostgres.ClearTenantLegalHold, TenancyPostgres.SetTenantLegalHold,
    TenancyPostgres.CreateTenantPurgeRequest, TenancyPostgres.GetOpenTenantPurgeRequest,
    TenancyPostgres.ApproveTenantPurgeRequest, TenancyPostgres.CancelTenantPurgeRequest; cbv zeta; lsteps.
Qed.

Lemma run_job_isteps j w : steps R (TenancySteps.run_job days_before name_key s j) w.
Proof.
  destruct j; unfold TenancySteps.run_job, TenancySteps.forget; lsteps;
    [apply lifecycle_handle_isteps|apply Handle_isteps|apply runSweep_isteps|apply runPurge_isteps].
Qed.
End lifecycle.

(** ** Everything the IAM service runs *)

Section histories.
Context {X : External} {J : Jwt} {C : Primitives}.
Variable days_before : Z -> Time -> Time.
Variable name_key : string -> string.
Variable Exchange : OIDCConfig -> string -> string -> string -> option OIDCClaims.
Variable s : Accounts.Service.
Variable ts : Tenancy.Service.
Hypothesis Hs : service_ok s.
Implicit Types (w : World St).

Inductive IamJob :=
| AccountJob (ctx : Ctx) (authorization : list string) (r : AccountHandler.Rpc)
| RehashJob (tenantID : uuid) (email password : string)
| LifecycleJob (j : TenancySteps.Job).

Definition run_iam (j : IamJob) : M St unit unit :=
  match j with
  | AccountJob ctx auth r =>
    TenancySteps.forget (AccountHandler.handle name_key Exchange s ctx auth r)
  | RehashJob t e p => TenancySteps.forget (Accounts.rehashIfNeeded t e p)
  | LifecycleJob j => TenancySteps.run_job days_before name_key ts j
  end.

Lemma run_iam_steps j w : iam_ok (store_db (w_st w)) -> steps (store_step istep) (run_iam j) w.
Proof.
  intros I. destruct j; simpl; unfold TenancySteps.forget; [steps_tac..|apply run_job_isteps].
  - by apply iam_handle_steps.
  - apply rehash_steps.
Qed.

(** What can come after [st]: calls, logins' rehashing, workers and the billing
    consumer, one after the other or between any two statements of each other,
    beside others that respect [istep]; each may stop after any statement. *)
Inductive iam_reaches (st : St) : St -> Prop :=
| iam_here : iam_reaches st st
| iam_job j w :
    iam_reaches st (w_st w) -> rely (store_step istep) w -> iam_reaches st (w_st (run_iam j w).2)
| iam_statement j w a b :
    iam_reaches st (w_st w) -> iam_reaches st a -> rely (store_step istep) w -> w_log w = [] ->
    (a, b) ∈ w_log (run_iam j w).2 -> iam_reaches st b.

Lemma iam_reaches_step st st' :
  iam_ok (store_db st) -> iam_reaches st st' -> store_step istep st st'.
Proof.
  intros I. induction 1 as [|j w _ IH HR|j w a b _ IHw _ IHa HR Hl Hin]; [done| |].
  - etrans; [exact IH|]. by apply run_iam_steps; [apply IH|].
  - destruct (run_iam_steps j w) as (_ & _ & l & Hlog & Hall); [by apply IHw|done|].
    rewrite Hl, app_nil_r in Hlog. rewrite Hlog in Hin. rewrite Forall_forall in Hall.
    etrans; [exact IHa|exact (Hall _ Hin)].
Qed.
Lemma iam_reaches_moved st st' :
  iam_ok (store_db st) -> iam_reaches st st' -> iam_moved (store_db st) (store_db st').
Proof. intros I H. by apply (iam_reaches_step st st' I H). Qed.
End histories.
