(* ===== verification/AccountRoles.v ===== *)
(** The IAM service: what roles mean.  In any history a grant stays within one
    tenant and passes the scope trigger, user:manage is held exactly by tenant-wide
    super admins, and a caller who is not one changes nothing that needs it. *)

From S2P Require Import RegistrationModel.
From S2P Require Export AccountReach Logic.
From S2P Require AccountQueries AccountPostgres Accounts AccountHandler TenancyHandler.
Local Open Scope Z_scope.

(** ** The invariant *)

Section invariant.
Context {X : External} {J : Jwt} {C : Primitives}.
Variable days_before : Z -> Time -> Time.
Variable name_key : string -> string.
Variable Exchange : OIDCConfig -> string -> string -> string -> option OIDCClaims.
Variable s : Accounts.Service.
Variable ts : Tenancy.Service.
Hypothesis Hs : service_ok s.

(** C21: Whatever calls, workers and logins ran, one after the other or interleaved
    statement by statement, stopped half way or not: every stored grant links a
    stored user and a stored role of one tenant, a grant of project_supervisor is on
    a project and one of the other system roles is tenant-wide; an e-mail address
    names one user of a tenant; and no user has changed tenant or address and no role
    its name or permissions since any earlier state. *)
Theorem accounts_invariant (st st' : St) :
  iam_ok (store_db st) ->
  iam_reaches days_before name_key Exchange s ts st st' ->
  let a := accounts (store_db st) in
  let a' := accounts (store_db st') in
  (forall k g, user_roles a' !! k = Some g ->
     exists u r, users a' !! ur_UserID g = Some u /\ roles a' !! ur_RoleID g = Some r
       /\ us_TenantID u = ro_TenantID r
       /\ (ro_IsSystem r = true -> ro_Name r = "project_supervisor" -> ur_ProjectID g <> None)
       /\ (ro_IsSystem r = true -> ro_Name r ∈ AccountQueries.tenant_wide_roles -> ur_ProjectID g = None))
  /\ (forall k k' u u', users a' !! k = Some u -> users a' !! k' = Some u' ->
        us_TenantID u = us_TenantID u' -> us_Email u = us_Email u' -> k = k')
  /\ (forall k u, users a !! k = Some u -> exists u', users a' !! k = Some u'
        /\ us_TenantID u' = us_TenantID u /\ us_Email u' = us_Email u)
  /\ roles a ⊆ roles a'.
Proof.
  intros I H. apply iam_reaches_moved in H as [[[_ Ue _ Kg _] _] [Mu Mr] _]; [|done..].
  split_and!; [|exact Ue| |exact Mr].
  - intros k g Hg. destruct (Kg _ _ Hg) as (_ & u & r & Hu & Hr & Ht & Hsc). exists u, r.
    split_and!; [done..| |]; intros Hsys Hn; unfold AccountQueries.enforce_user_role_scope in Hsc;
      rewrite Hsys in Hsc; simpl in Hsc.
    + intros Hp. by rewrite !bool_decide_eq_true_2 in Hsc.
    + destruct (decide (ur_ProjectID g = None)) as [|Hp]; [done|].
      rewrite (bool_decide_eq_false_2 (ur_ProjectID g = None)), andb_false_r in Hsc by done.
      by rewrite !bool_decide_eq_true_2 in Hsc.
  - intros k u Hu. destruct (Mu _ _ Hu) as (u' & ? & _ & ? & ?). eauto.
Qed.

End invariant.

(** ** user:manage *)

(** A tenant-wide grant of the system role super_admin. *)
Definition super_admin (u : uuid) (a : Accounts) : Prop :=
  exists k g r, user_roles a !! k = Some g /\ ur_UserID g = u /\ ur_ProjectID g = None
    /\ roles a !! ur_RoleID g = Some r /\ ro_Name r = "super_admin" /\ ro_IsSystem r = true.

Lemma grants_of_elem u a g :
  g ∈ AccountQueries.grants_of u a <-> (exists k, user_roles a !! k = Some g) /\ ur_UserID g = u.
Proof.
  unfold AccountQueries.grants_of. rewrite filter_elem, bool_decide_eq_true, list_elem_of_fmap.
  split; intros [Hg Hu]; (split; [|done]).
  - destruct Hg as ([k g'] & -> & Hk%elem_of_map_to_list). eauto.
  - destruct Hg as [k Hk]. exists (k, g). split; [done|]. by apply elem_of_map_to_list.
Qed.

(** The permissions the join finds: those of the granted roles in scope. *)
Lemma permission_rows_elem u j d ps p :
  AccountQueries.UserPermissionRows u j d = Ok ps ->
  p ∈ mjoin ps <-> exists k g r, user_roles (accounts d) !! k = Some g /\ ur_UserID g = u
    /\ AccountQueries.in_scope j g = true /\ roles (accounts d) !! ur_RoleID g = Some r
    /\ p ∈ ro_Permissions r.
Proof.
  intros [= <-]. rewrite list_elem_of_join. setoid_rewrite list_elem_of_fmap.
  unfold AccountQueries.join_roles. setoid_rewrite list_elem_of_omap.
  setoid_rewrite filter_elem. setoid_rewrite grants_of_elem. split.
  - intros (x & Hp & r & -> & g & [[[k Hk] Hu] Hsc] & Hr). by exists k, g, r.
  - intros (k & g & r & Hk & Hu & Hsc & Hr & Hp). exists (ro_Permissions r). split; [done|].
    exists r. split; [done|]. exists g. split; [|done]. split; [|done]. split; [by exists k|done].
Qed.

Lemma user_manage_super_admin d u j ps :
  iam_ok d -> AccountQueries.UserPermissionRows u j d = Ok ps ->
  Accounts.permUserManage ∈ mjoin ps <-> super_admin u (accounts d).
Proof.
  intros [[_ _ Kr Kg _] _] Hps. rewrite permission_rows_elem by done. split.
  - intros (k & g & r & Hg & Hu & _ & Hr & Hp). destruct (Kr _ _ Hr) as [_ [Hsys _]].
    destruct (Hsys Hp) as [Hn Hss]. exists k, g, r. split_and!; [done..| |done|done|done].
    destruct (Kg _ _ Hg) as (_ & u' & r' & _ & Hr' & _ & Hsc). rewrite Hr in Hr'. simplify_eq.
    destruct (ur_ProjectID g) eqn:Hj; [|done]. unfold AccountQueries.enforce_user_role_scope in Hsc.
    by rewrite Hss, Hn in Hsc.
  - intros (k & g & r & Hg & Hu & Hj & Hr & Hn & Hss). exists k, g, r. destruct (Kr _ _ Hr) as [_ [_ Hp]].
    split_and!; [done..| |done|by apply Hp]. unfold AccountQueries.in_scope. by rewrite Hj.
Qed.

Lemma CheckPermission_read `{External} u p j w b w' :
  Accounts.CheckPermission u p j w = (Ok b, w') ->
  exists ps, AccountQueries.UserPermissionRows u j (store_db (w_st w')) = Ok ps
    /\ b = bool_decide (p ∈ mjoin ps).
Proof.
  intros (l & w1 & Hl & [-> ->]%ret_Ok)%bind_Ok. apply wrap_Ok in Hl.
  apply bind_Ok in Hl as (rows & w2 & Hq & [-> ->]%ret_Ok). apply map_err_Ok, store_query_read in Hq.
  exists rows. split; [done|]. apply Bool.eq_true_iff_eq. rewrite existsb_exists, bool_decide_eq_true.
  setoid_rewrite <-list_elem_of_In. setoid_rewrite bool_decide_eq_true. setoid_rewrite elem_of_remove_dups.
  split; [by intros (x & Hx & ->)|]. intros Hp. by exists p.
Qed.

Section manage.
Context {X : External} {J : Jwt} {C : Primitives}.
Implicit Types (w : World St).

(** Asked about user:manage, on any project or none, CheckPermission answers yes
    exactly when the user holds super_admin, a system role, tenant-wide: no other
    role carries the permission, and the trigger keeps super_admin off projects.  The
    answer is right of the state the query read, whatever else runs. *)
Theorem check_user_manage_spec (u : uuid) (project : option uuid) w b w' :
  iam_ok (store_db (w_st w')) ->
  Accounts.CheckPermission u Accounts.permUserManage project w = (Ok b, w') ->
  b = true <-> super_admin u (accounts (store_db (w_st w'))).
Proof.
  intros I (ps & Hps & ->)%CheckPermission_read. rewrite bool_decide_eq_true.
  by apply user_manage_super_admin with project.
Qed.

(** ** Calls that need user:manage *)

(** The RPCs that start with [requireUserManage]. *)
Definition managed (r : AccountHandler.Rpc) : bool :=
  match r with
  | AccountHandler.CreateUserRpc _ _ _ _ | AccountHandler.ListUsersRpc _ _ _ _
  | AccountHandler.UpdateUserRpc _ _ _ | AccountHandler.AssignRoleRpc _ _ _
  | AccountHandler.RevokeRoleRpc _ _ | AccountHandler.AssignProjectRoleRpc _ _ _ _
  | AccountHandler.SetTenantAddressRpc _ _ | AccountHandler.InviteUserRpc _ _ _ => true
  | _ => false
  end.

(** While the others keep the invariant and do not promote the user. *)
Definition not_admin (u : uuid) (st : St) : Prop :=
  iam_ok (store_db st) /\ ~ super_admin u (accounts (store_db st)).
Definition stays_not_admin (u : uuid) (st st' : St) : Prop := not_admin u st -> not_admin u st'.
#[export] Instance stays_preorder u : PreOrder (stays_not_admin u).
Proof. split; [by intros ? ?|]. intros ??? H1 H2 H. by apply H2, H1. Qed.

Variable name_key : string -> string.
Variable Exchange : OIDCConfig -> string -> string -> string -> option OIDCClaims.
Variable s : Accounts.Service.

(** What a refused call does: nothing, and it says so. *)
Definition refused {A} (u : uuid) (m : M St status A) : Prop :=
  forall w, not_admin u (w_st w) -> rely (stays_not_admin u) w ->
    (forall a, (m w).1 <> Ok a) /\ exists l, w_log (m w).2 = l ++ w_log w /\ Forall (fun p => p.1 = p.2) l.

Lemma refused_lift {A B} u (x : result status A) (f : A -> M St status B) :
  (forall a, x = Ok a -> refused u (f a)) -> refused u (lift_result x ≫= f).
Proof.
  intros Hf w Hn HR. unfold mbind, M_bind, lift_result. destruct x as [a|e]; simpl.
  - by apply (Hf a).
  - split; [done|]. by exists [].
Qed.
Lemma refused_then {A B} u (m : M St status A) (f : A -> M St status B) : refused u m -> refused u (m ≫= f).
Proof.
  intros Hm w Hn HR. destruct (Hm w Hn HR) as [Hno Hl]. unfold mbind, M_bind.
  destruct (m w) as [[a|e] w'] eqn:Hw; [by destruct (Hno a)|]. simpl in *. by split.
Qed.

Lemma requireUserManage_refused ctx c :
  CallerFromContext ctx = Some c -> refused (ci_UserID c) (AccountHandler.requireUserManage ctx).
Proof.
  intros Hc w Hn HR. unfold AccountHandler.requireUserManage, AccountHandler.caller. rewrite Hc.
  set (m := Accounts.CheckPermission (ci_UserID c) Accounts.permUserManage None : M St (error IamErr) bool).
  assert (own anything eq m w) as Hown.
  { apply own_bind_any; [|intros; apply own_ret]. apply own_wrap, own_bind_any; [|intros; apply own_ret].
    apply own_map_err, own_tx. intros s1 a s2 _. unfold on_db. intros Hq. repeat case_match; simplify_eq.
    by destruct s1. }
  assert (forall b w', m w = (Ok b, w') -> b = false) as Hb.
  { intros b w' Hm. destruct b; [|done]. pose proof Hm as (ps & Hps & Hps')%CheckPermission_read.
    assert (not_admin (ci_UserID c) (w_st w')) as [I Hna].
    { assert (steps (stays_not_admin (ci_UserID c)) m w) as Hst.
      { apply steps_bind; [|intros; apply steps_ret]. apply steps_wrap, steps_bind; [|intros; apply steps_ret].
        apply steps_map_err, steps_tx. intros s1 a s2 _ _. unfold on_db. intros Hq. repeat case_match; simplify_eq.
        by destruct s1. }
      by apply (steps_run _ _ _ _ Hst Hm HR). }
    symmetry in Hps'. apply bool_decide_eq_true in Hps'. by apply (user_manage_super_admin _ _ _ _ I Hps) in Hps'. }
  destruct (Hown (fun _ _ => I)) as (l & Hl & Hall).
  unfold mbind, M_bind, lift_result, map_err. cbn. fold m.
  destruct (m w) as [[b|e] w'] eqn:Hm; simpl in *; [rewrite (Hb b w' eq_refl)|]; (split; [done|by exists l]).
Qed.

(** C22: A caller who is not a super admin of its tenant, and whom nobody promotes
    meanwhile, changes nothing by any of the calls on users, roles, invitations or
    the address that need user:manage, and gets an error, whatever the request says
    and whatever fails or runs beside it: no statement of the call, in any
    interleaving, alters the database. *)
Theorem managed_calls_need_super_admin ctx authorization (r : AccountHandler.Rpc) c w :
  managed r = true -> CallerFromContext ctx = Some c ->
  not_admin (ci_UserID c) (w_st w) -> rely (stays_not_admin (ci_UserID c)) w ->
  let out := AccountHandler.handle name_key Exchange s ctx authorization r w in
  (forall resp, out.1 <> Ok resp)
  /\ exists l, w_log out.2 = l ++ w_log w /\ Forall (fun p => p.1 = p.2) l.
Proof.
  intros Hr Hc. pose proof (requireUserManage_refused ctx c Hc) as Hreq.
  assert (refused (ci_UserID c) (AccountHandler.handle name_key Exchange s ctx authorization r)) as H;
    [|intros Hn HR; exact (H w Hn HR)].
  destruct r; try done; cbn [AccountHandler.handle]; unfold AccountHandler.done_; apply refused_then;
    unfold AccountHandler.CreateUser, AccountHandler.ListUsers, AccountHandler.UpdateUser, AccountHandler.AssignRole,
      AccountHandler.RevokeRole, AccountHandler.AssignProjectRole, AccountHandler.SetTenantAddress,
      AccountHandler.InviteUser; repeat (apply refused_lift; intros ? _); by apply refused_then.
Qed.

End manage.

(** The IAM service: tenants are kept apart.  No statement of a call made for a
    caller of one tenant touches the accounts, invitations, address or sessions of
    another. *)

Local Open Scope Z_scope.

(** What a statement of tenant [t] leaves alone: every row of the other tenants. *)
Record within (t : uuid) (d d' : DB) : Prop := {
  wi_users : forall k u, us_TenantID u <> t ->
    users (accounts d') !! k = Some u <-> users (accounts d) !! k = Some u;
  wi_roles : roles (accounts d') = roles (accounts d);
  wi_grants : forall k g u, users (accounts d) !! ur_UserID g = Some u -> us_TenantID u <> t ->
    user_roles (accounts d') !! k = Some g <-> user_roles (accounts d) !! k = Some g;
  wi_invitations : forall k i, iv_TenantID i <> t ->
    invitations (accounts d') !! k = Some i <-> invitations (accounts d) !! k = Some i;
  wi_configs : auth_configs (accounts d') = auth_configs (accounts d);
  wi_tenants : forall k, k <> t -> tenants d' !! k = tenants d !! k;
  wi_generations : forall k u, users (accounts d) !! k = Some u -> us_TenantID u <> t ->
    user_generations (sessions d') !! k = user_generations (sessions d) !! k;
  wi_sessions : refresh_tokens (sessions d') = refresh_tokens (sessions d)
    /\ tenant_generations (sessions d') = tenant_generations (sessions d);
}.
#[export] Instance within_refl t : Reflexive (within t).
Proof. intros d. by split. Qed.

(** A row of the tenant put in place of one of the tenant, or of none. *)
Lemma insert_within {A} (tenant : A -> uuid) t (m : gmap uuid A) k r :
  tenant r = t -> (forall r0, m !! k = Some r0 -> tenant r0 = t) ->
  forall k' u, tenant u <> t -> <[k := r]> m !! k' = Some u <-> m !! k' = Some u.
Proof.
  intros Hr Hold k' u Hu. destruct (decide (k = k')) as [<-|Hne]; [|by rewrite lookup_insert_ne].
  rewrite lookup_insert_eq. split; [by intros [= <-]|]. intros Hk. by destruct Hu; apply Hold.
Qed.

Section statements.
Context {X : External}.

Lemma CreateUser_within now id t e n h st d a d' :
  AccountQueries.CreateUser now id t e n h st d = Ok (a, d') -> within t d d'.
Proof.
  unfold AccountQueries.CreateUser. intros H. do 2 (case_match; [done|]). case_bool_decide as Hn; [done|].
  case_match; [done|]. injection H as <- <-. split; try done. simpl. apply insert_within; [done|].
  intros r0 Hr0. by destruct Hn.
Qed.

Lemma update_user_within p f id t d a d' :
  (forall u, us_TenantID (f u) = us_TenantID u) ->
  AccountQueries.update_user p f id t d = Ok (a, d') -> within t d d'.
Proof.
  unfold AccountQueries.update_user. intros Hf H. destruct (get_row _ _ _) as [u|] eqn:Hu; [|done].
  apply get_row_Ok in Hu as [Hu Hp]. case_match; [done|]. simplify_eq.
  unfold AccountQueries.in_tenant in Hp. bool_hyps. subst t. split; try done.
  simpl. apply insert_within; [by rewrite Hf|]. intros r0 Hr0. congruence.
Qed.
Lemma affected_within {A} t d (r : result pg_error (A * DB)) n d' :
  (forall a d1, r = Ok (a, d1) -> within t d d1) -> AccountQueries.affected d r = Ok (n, d') -> within t d d'.
Proof.
  unfold AccountQueries.affected. intros Hr H. destruct r as [[a d1]|[]]; simplify_eq; [by eapply Hr|done].
Qed.
Lemma UpdateUser_within id n st t d z d' : AccountQueries.UpdateUser id n st t d = Ok (z, d') -> within t d d'.
Proof. apply affected_within. intros a d1. apply update_user_within. intros u. by case_decide. Qed.
Lemma UpdateHash_within id h t d z d' :
  AccountQueries.UpdateUserPasswordHash id h t d = Ok (z, d') -> within t d d'.
Proof. apply affected_within. intros a d1. by apply update_user_within. Qed.

Lemma UpdateAddress_within t l1 l2 c co po cu d a d' :
  AccountQueries.UpdateTenantAddress t l1 l2 c co po cu d = Ok (a, d') -> within t d d'.
Proof.
  unfold AccountQueries.UpdateTenantAddress. intros H. repeat case_match; simplify_eq. split; try done.
  simpl. intros k Hk. by rewrite lookup_insert_ne.
Qed.

(** Grants of a user of the tenant. *)
Lemma AssignRole_within now u r p b t ur d x d' :
  users (accounts d) !! u = Some ur -> us_TenantID ur = t ->
  AccountQueries.AssignRole now u r p b d = Ok (x, d') -> within t d d'.
Proof.
  intros Hu Ht H. unfold AccountQueries.AssignRole in H. case_match; [done|].
  case_bool_decide as Hk; [injection H as _ <-; reflexivity|]. case_match; [done|]. injection H as _ <-.
  split; try done. intros k g u' Hu' Hne. simpl.
  match goal with |- <[?k0 := _]> _ !! _ = _ <-> _ => destruct (decide (k0 = k)) as [<-|] end;
    [|by rewrite lookup_insert_ne].
  rewrite lookup_insert_eq. split; [intros [= <-]; simpl in *; congruence|]. intros Hg. by destruct Hk.
Qed.
Lemma RevokeRole_within u r t ur d x d' :
  users (accounts d) !! u = Some ur -> us_TenantID ur = t ->
  AccountQueries.RevokeRole u r d = Ok (x, d') -> within t d d'.
Proof.
  intros Hu Ht [= _ <-]. split; try done. intros k g u' Hu' Hne. simpl.
  rewrite map_lookup_filter_Some. split; [by intros [? _]|]. intros Hg. split; [done|].
  intros [Hgu _]. simpl in Hgu. congruence.
Qed.

Lemma CreateInvitation_within now id t e b tok ex r d a d' :
  iam_ok d -> AccountQueries.CreateInvitation now id t e b tok ex r d = Ok (a, d') -> within t d d'.
Proof.
  intros I. unfold AccountQueries.CreateInvitation. destruct (select _ _) as [|i0 l] eqn:Hs.
  - destruct (_ || _) eqn:Hn; [done|]. case_match; [done|]. intros [= <- <-]. bool_hyps.
    split; try done. simpl. apply insert_within; [done|]. intros i Hi. match goal with Hn : ~ is_Some _ |- _ => by destruct Hn end.
  - do 2 (case_match; [done|]). intros [= <- <-].
    assert (i0 ∈ select (AccountQueries.invited_as t e) (invitations (accounts d))) as [[k Hk] Hi]%select_elem
      by (rewrite Hs; apply list_elem_of_here).
    assert (iv_ID i0 = k) as <- by by apply (ok_invitations _ (iam_accounts _ I) _ _ Hk).
    unfold AccountQueries.invited_as in Hi. bool_hyps.
    split; try done. simpl. apply insert_within; [done|]. intros i Hi. congruence.
Qed.

(** The revocation of one user's sessions. *)
Lemma incr_within u t ur d :
  users (accounts d) !! u = Some ur -> us_TenantID ur = t ->
  within t d (set_sessions (incr_user_generation (session_ttl * 2) u (sessions d)) d).
Proof.
  intros Hu Ht. split; try done. intros k u' Hu' Hne. simpl. unfold redis_incr.
  destruct (decide (u = k)) as [->|]; [congruence|by rewrite lookup_insert_ne].
Qed.
End statements.

Create HintDb within.
#[export] Hint Resolve CreateUser_within UpdateUser_within UpdateHash_within UpdateAddress_within : within.

(** ** Calls *)

Section calls.
Context {X : External} {J : Jwt} {C : Primitives}.
Variable name_key : string -> string.
Variable Exchange : OIDCConfig -> string -> string -> string -> option OIDCClaims.
Variable s : Accounts.Service.
Hypothesis Hs : service_ok s.
Variable t : uuid.
Implicit Types (w : World St).
Abbreviation does := (own (store_step (Ev:=Event) istep) (store_step (within t))) (only parsing).

#[local] Hint Resolve GetUser_steps GetRoleByID_steps Validate_steps requireUserManage_steps
  prepare_steps RevokeUser_steps Issue_steps GetByEmail_steps : isteps.

Lemma user_within d d' u ur :
  iam_moved d d' -> users (accounts d) !! u = Some ur ->
  exists ur', users (accounts d') !! u = Some ur' /\ us_TenantID ur' = us_TenantID ur.
Proof. intros [_ [Mu _] _] Hu. destruct (Mu _ _ Hu) as (ur' & ? & _ & ? & _). eauto. Qed.

(** A transaction of the tenant. *)
Lemma own_with_tx {E A} (down : E) (q : DB -> result E (A * DB)) w :
  (forall d a d', istep (store_db (w_st w)) d -> q d = Ok (a, d') -> within t d d') -> does (with_tx down q) w.
Proof.
  intros Hq. apply own_tx. intros s1 a s2 [Hr _] H. unfold on_db in H.
  destruct (q (store_db s1)) as [[a' d]|] eqn:Hd; simplify_eq. split; [by eapply Hq|done].
Qed.

Ltac otac := repeat first
  [ progress own_tac
  | match goal with |- own _ _ (_ ≫= _) _ => apply own_bind; [|isteps|intros ? ? _ _ _] end
  | apply own_store_query
  | solve [eauto with within nocore]
  | apply own_store_exec; intros ? ? ? _; solve [eauto with within]
  | apply own_with_tx; intros ? ? ? _; solve [eauto with within] ].

Lemma GetUser_within i w : does (AccountPostgres.GetUser t i) w.
Proof. unfold AccountPostgres.GetUser. otac. Qed.
Lemma GetRoleByID_within r w : does (AccountPostgres.GetRoleByID t r) w.
Proof. apply own_with_tx. by intros d a d' _ ->%get_role_unchanged. Qed.
Lemma requireUserManage_within ctx w : does (AccountHandler.requireUserManage ctx) w.
Proof.
  unfold AccountHandler.requireUserManage, Accounts.CheckPermission, AccountPostgres.GetUserPermissions. otac.
Qed.

(** After the read of a user of the tenant: what needs the user to be one. *)
Definition has_user (u : uuid) (d : DB) : Prop :=
  iam_ok d /\ exists ur, users (accounts d) !! u = Some ur /\ us_TenantID ur = t.
Lemma has_user_istep u d d' : istep d d' -> has_user u d -> has_user u d'.
Proof.
  intros Hm [I (ur & Hu & Ht)]. specialize (Hm I). split; [apply Hm|].
  destruct (user_within _ _ _ _ Hm Hu) as (ur' & ? & ?). exists ur'. split; [done|congruence].
Qed.
Lemma GetUser_has u w a w' :
  AccountPostgres.GetUser t u w = (Ok a, w') -> iam_ok (store_db (w_st w')) -> has_user u (store_db (w_st w')).
Proof. intros Hu I. split; [done|]. by apply GetUser_read in Hu. Qed.

Lemma RevokeUser_within u w : has_user u (store_db (w_st w)) -> does (RevokeAllForUser tokenIssuer u) w.
Proof.
  intros Hu. apply own_with_tx. intros d a d' Hd [= _ <-]. destruct (has_user_istep u _ d Hd Hu) as [_ (ur & Hur & Ht)]. by eapply incr_within.
Qed.
Lemma AssignRole_own u r p b at_ w :
  has_user u (store_db (w_st w)) -> does (AccountPostgres.AssignRole (mkUserRole u r p b at_)) w.
Proof.
  intros Hu. apply own_bind; [own_tac|apply steps_time|]. intros now w1 [= <- <-] _ _.
  apply own_with_tx. intros d a d' Hd Hq. destruct (has_user_istep u _ d Hd Hu) as [_ (ur & Hur & Ht)].
  unfold AccountPostgres.assign_role in Hq. case_match eqn:Ha; simplify_eq. by eapply AssignRole_within.
Qed.

(** ** Service calls *)

#[local] Hint Resolve GetUser_within GetRoleByID_within requireUserManage_within : within.

Lemma AssignRole_svc_within u r b w :
  iam_ok (store_db (w_st w)) -> does (Accounts.AssignRole t u r b) w.
Proof.
  intros I. unfold Accounts.AssignRole. apply own_bind; [apply GetRoleByID_within|isteps|].
  intros role w1 _ [Hm1 _] _. apply own_bind; [apply GetUser_within|isteps|]. intros user w2 Hu [Hm2 _] _.
  assert (has_user u (store_db (w_st w2))) as Hhas by (eapply GetUser_has; [exact Hu|apply Hm2, Hm1, I]).
  apply own_bind; [own_tac|apply steps_time|]. intros now w3 [= <- <-] _ _. by apply own_wrap, AssignRole_own.
Qed.
Lemma AssignProjectRole_svc_within u r p b w :
  iam_ok (store_db (w_st w)) -> does (Accounts.AssignProjectRole t u r p b) w.
Proof.
  intros I. unfold Accounts.AssignProjectRole. apply own_bind; [apply own_wrap, GetRoleByID_within|isteps|].
  intros role w1 _ [Hm1 _] _. destruct (_ && _); [apply own_throw|].
  apply own_bind; [apply GetUser_within|isteps|]. intros user w2 Hu [Hm2 _] _.
  assert (has_user u (store_db (w_st w2))) as Hhas by (eapply GetUser_has; [exact Hu|apply Hm2, Hm1, I]).
  apply own_bind; [own_tac|apply steps_time|]. intros now w3 [= <- <-] _ _. by apply own_wrap, AssignRole_own.
Qed.
Lemma RevokeRole_svc_within u r w :
  iam_ok (store_db (w_st w)) -> does (Accounts.RevokeRole s t u r) w.
Proof.
  intros I. unfold Accounts.RevokeRole, AccountPostgres.RevokeRole. rewrite (so_tokens s Hs).
  apply own_bind; [apply GetRoleByID_within|isteps|]. intros role w1 _ [Hm1 _] _.
  apply own_bind; [apply GetUser_within|isteps|]. intros user w2 Hu [Hm2 _] _.
  assert (has_user u (store_db (w_st w2))) as Hhas by (eapply GetUser_has; [exact Hu|apply Hm2, Hm1, I]).
  apply own_bind; [apply own_wrap, own_map_err, own_store_exec| |].
  - intros d a d' Hd Hq. destruct (has_user_istep u _ d Hd Hhas) as [_ (ur & Hur & Ht)].
    by eapply RevokeRole_within.
  - isteps.
  - intros [] w3 _ [Hm3 _] _. apply own_wrap, RevokeUser_within. by eapply has_user_istep.
Qed.
Lemma loadRoles_steps u w : steps (store_step istep) (AccountPostgres.loadRolesAndPerms u) w.
Proof. unfold AccountPostgres.loadRolesAndPerms. isteps. Qed.
#[local] Hint Resolve loadRoles_steps : isteps.
Lemma GetUserByID_has u w a w' :
  AccountPostgres.GetUserByID t u w = (Ok a, w') -> rely (store_step istep) w ->
  iam_ok (store_db (w_st w)) -> has_user u (store_db (w_st w')).
Proof.
  intros (row & w1 & Hq & (rp & w2 & Hl & [_ ->]%ret_Ok)%bind_Ok)%bind_Ok HR I.
  apply map_err_Ok in Hq. destruct (store_query_Ok _ _ _ _ Hq HR) as ([Hm1 _] & Hrow & HR1).
  destruct (steps_run _ _ _ _ (loadRoles_steps _ w1) Hl HR1) as [[Hm2 _] _].
  apply (has_user_istep u _ _ Hm2). split; [apply Hm1, I|]. apply get_row_Ok in Hrow as [Hrow Ht].
  unfold AccountQueries.in_tenant in Ht. bool_hyps. eauto.
Qed.
Lemma ChangePassword_within u o n w :
  iam_ok (store_db (w_st w)) -> does (Accounts.ChangePassword s t u o n) w.
Proof.
  intros I. unfold Accounts.ChangePassword. rewrite (so_tokens s Hs). apply own_rely. intros HR.
  assert (forall w, steps (store_step istep) (AccountPostgres.GetUserByID t u) w) as Hget
    by (intros; unfold AccountPostgres.GetUserByID; isteps).
  apply own_bind; [unfold AccountPostgres.GetUserByID, AccountPostgres.loadRolesAndPerms; otac|by apply steps_wrap|].
  intros record w1 Hr%wrap_Ok _ _. apply GetUserByID_has in Hr; [|done..].
  destruct (negb _); [apply own_throw|]. unfold Hash, AccountPostgres.UpdatePasswordHash, AccountPostgres.found_user.
  apply own_bind; [otac|isteps|]. intros h w2 _ [Hm2 _] _. apply own_bind; [otac|isteps|].
  intros [] w3 _ [Hm3 _] _. apply own_wrap, RevokeUser_within.
  by eapply has_user_istep, has_user_istep.
Qed.
Lemma UpdateUser_svc_within u n w :
  does (Accounts.UpdateUser (mkUser u t "" n "" "" zero_time)) w.
Proof. unfold Accounts.UpdateUser, AccountPostgres.UpdateUser, AccountPostgres.found_user. otac. Qed.
Lemma CreateUser_svc_within e n p w :
  does (Accounts.CreateUser (mkUser uuid_nil t e n "" "" zero_time) p) w.
Proof.
  unfold Accounts.CreateUser. apply own_bind; [|isteps|].
  - unfold Accounts.prepareNewUser, Hash. otac.
  - intros u w1 Hu%prepare_tenant _ _. apply own_wrap, own_bind; [own_tac|apply steps_time|].
    intros now w2 _ _ _. apply own_with_tx. intros d a d' _ Hq. unfold AccountPostgres.create_user in Hq.
    repeat case_match; simplify_eq. simpl in Hu. rewrite Hu in *. eauto with within.
Qed.
Lemma SetAddress_within q w : does (Accounts.SetTenantAddress (AccountHandler.tenant_of_req t q)) w.
Proof.
  unfold Accounts.SetTenantAddress, AccountPostgres.UpdateTenantAddress. apply own_bind; [otac|isteps|].
  intros t' w1 [Hl _]%lift_Ok _ _. apply own_wrap, own_bind; [|isteps|intros; otac].
  apply own_map_err, own_store_exec. intros d a d' _.
  assert (t_ID t' = t) as ->; [|apply UpdateAddress_within].
  unfold Accounts.localize in Hl. repeat case_match; by simplify_eq.
Qed.
Lemma InviteUser_within i w :
  iam_ok (store_db (w_st w)) -> i_TenantID i = t -> does (Accounts.InviteUser i) w.
Proof.
  intros I Ht. unfold Accounts.InviteUser. rewrite Ht. apply own_bind; [otac|isteps|]. intros [] w1 _ [Hm1 _] _.
  apply own_bind; [otac|isteps|]. intros id w2 _ [Hm2 _] _. unfold generateToken, AccountPostgres.CreateInvitation.
  apply own_bind; [otac|isteps|]. intros tok w3 _ [Hm3 _] _. apply own_bind; [otac|isteps|].
  intros now w4 _ [Hm4 _] _. apply own_wrap, own_bind; [otac|isteps|]. intros now' w5 _ [Hm5 _] _.
  apply own_bind; [|isteps|intros; otac]. apply own_map_err, own_store_exec. intros d a d' Hd. simpl.
  apply CreateInvitation_within, Hd, Hm5, Hm4, Hm3, Hm2, Hm1, I.
Qed.

(** ** RPCs *)

(** The calls on a caller's own tenant: the rest are public, or platform RPCs. *)
Definition tenant_call (r : AccountHandler.Rpc) : bool :=
  match r with
  | AccountHandler.LoginRpc _ _ _ | AccountHandler.RefreshTokenRpc _ | AccountHandler.LogoutRpc _
  | AccountHandler.AcceptInvitationRpc _ _ | AccountHandler.DeactivateUserRpc _ _
  | AccountHandler.ActivateUserRpc _ _ | AccountHandler.CreateTenantRpc _
  | AccountHandler.SetOIDCConfigRpc _ => false
  | _ => true
  end.

(** After the guards, in a state that still has the invariant. *)
Lemma own_lift_then {A B} (x : result status A) (f : A -> M St status B) w :
  (forall a, x = Ok a -> does (f a) w) -> does (lift_result x ≫= f) w.
Proof.
  intros Hf. apply own_bind; [apply own_lift|apply steps_lift|]. intros a w' [-> ->]%lift_Ok _ _. by apply Hf.
Qed.
Lemma own_check_then ctx {B} (f : unit -> M St status B) w :
  iam_ok (store_db (w_st w)) -> (forall w', iam_ok (store_db (w_st w')) -> does (f tt) w') ->
  does (AccountHandler.requireUserManage ctx ≫= f) w.
Proof.
  intros I Hf. apply own_bind; [apply requireUserManage_within|apply requireUserManage_steps|].
  intros [] w' _ [Hm _] _. apply Hf, Hm, I.
Qed.
Lemma own_then {A} (m : M St status A) (f : A -> AccountHandler.Response) w :
  does m w -> steps (store_step istep) m w -> does (x ← m; mret (f x)) w.
Proof. intros Hm Hs'. apply own_bind; [done|done|]. intros. apply own_ret. Qed.

#[local] Hint Resolve AssignRole_svc_within AssignProjectRole_svc_within RevokeRole_svc_within
  ChangePassword_within UpdateUser_svc_within CreateUser_svc_within SetAddress_within
  InviteUser_within : within.
#[local] Hint Resolve CreateUser_steps ListUsers_steps UpdateUser_steps ChangePassword_steps
  AssignRole_svc_steps AssignProjectRole_svc_steps RevokeRole_svc_steps ListRoles_svc_steps
  CheckPermission_steps SetAddress_steps InviteUser_steps GetCurrentUser_steps : isteps.

Ltac unfold_rpc :=
  unfold AccountHandler.GetCurrentUser, AccountHandler.CreateUser, AccountHandler.GetUser,
    AccountHandler.ListUsers, AccountHandler.UpdateUser, AccountHandler.ChangePassword,
    AccountHandler.AssignRole, AccountHandler.RevokeRole, AccountHandler.ListRoles,
    AccountHandler.CheckPermission, AccountHandler.AssignProjectRole, AccountHandler.SetTenantAddress,
    AccountHandler.InviteUser, TenancyHandler.svc.

(** C23: No statement of a call made for a caller of one tenant, whatever ids the
    request names and whatever runs beside it, changes a user, an invitation, a
    tenant's row, an OIDC configuration or a role of another tenant, a grant to a
    user of another tenant, or the session counters of one. *)
Theorem calls_stay_in_tenant ctx authorization (r : AccountHandler.Rpc) c w :
  tenant_call r = true -> CallerFromContext ctx = Some c -> ci_TenantID c = t ->
  iam_ok (store_db (w_st w)) -> rely (store_step istep) w ->
  exists l, w_log (AccountHandler.handle name_key Exchange s ctx authorization r w).2 = l ++ w_log w
    /\ Forall (fun p => within t (store_db p.1) (store_db p.2)) l.
Proof.
  intros Hr Hc Ht I HR.
  assert (does (AccountHandler.handle name_key Exchange s ctx authorization r) w) as H.
  2:{ destruct (H HR) as (l & Hl & Hall). exists l. split; [done|]. eapply Forall_impl; [exact Hall|]. by intros ? [? _]. }
  assert (forall req t', TenantFromRequest ctx req = Ok t' -> t' = t) as Htenant.
  { intros req t' (c' & Hc' & -> & _)%TenantFromRequest_inv. unfold CallerFromContext in Hc. congruence. }
  assert (ci_TenantID c = t) as Hct by done.
  destruct r; try done; cbn [AccountHandler.handle]; unfold AccountHandler.done_, AccountHandler.retired;
    try apply own_throw; (apply own_then; [unfold_rpc|first [by apply AssignRole_rpc_steps
      |by apply AssignProjectRole_rpc_steps|unfold_rpc; unfold Accounts.GetUser; isteps]]).
  all: unfold AccountHandler.caller; rewrite ?Hc, ?Hct.
  all: repeat first [ apply own_check_then; [done|intros ? ?] | apply own_lift_then; intros ? Hl;
    first [apply Htenant in Hl as -> | injection Hl as <-; rewrite ?Hct | clear Hl] | progress own_tac ].
  all: rewrite ?Hct; unfold Accounts.GetCurrentUser, Accounts.GetUser, Accounts.ListUsers, Accounts.ListRoles,
    Accounts.CheckPermission, AccountPostgres.ListUsers, AccountPostgres.ListRoles,
    AccountPostgres.GetUserPermissions, TenancyPostgres.GetTenant, Validate; cbv zeta; otac.
  - unfold AccountPostgres.GetUser. otac.
  - by apply InviteUser_within.
Qed.

End calls.
