(* ===== verification/Sessions.v ===== *)
(** Sessions: a session that is revoked while it is live is refused for ever, a
    refresh token is exchanged once, and an access token lets its holder in as the
    user it was issued for until it expires. *)

From S2P Require Import RegistrationModel.
From S2P Require Export AccountReach.
From S2P Require AccountQueries AccountPostgres Accounts AccountHandler.
Local Open Scope Z_scope.

(** ** Revocation *)

Section revocation.
Context {X : External} {J : Jwt} {C : Primitives}.
Variable days_before : Z -> Time -> Time.
Variable name_key : string -> string.
Variable Exchange : OIDCConfig -> string -> string -> string -> option OIDCClaims.
Variable s : Accounts.Service.
Variable ts : Tenancy.Service.
Hypothesis Hs : service_ok s.
Implicit Types (w : World St).

(** The session of payload [p], which expires at [x], is over: it has expired, or a
    counter that outlives it by a lifetime has passed it. *)
Definition counter_past (g x : Z) (c : option (Z * Time)) : Prop :=
  exists v e, c = Some (v, e) /\ g < v /\ x + session_ttl <= e.
Definition over (p : refreshPayload) (x : Time) (d : DB) : Prop :=
  let r := sessions d in
  x <= rd_now r
  \/ counter_past (rp_Generation p) x (user_generations r !! rp_UserID p)
  \/ counter_past (rp_TenantGeneration p) x (tenant_generations r !! rp_TenantID p).

Lemma counter_past_moved n g x t t' k :
  counters_moved n t t' -> n < x + session_ttl -> counter_past g x (t !! k) -> counter_past g x (t' !! k).
Proof.
  intros Hm Hn (v & e & Hc & Hg & He). destruct (Hm _ _ _ Hc ltac:(lia)) as (v' & e' & Hc' & ? & ?).
  exists v', e'. split; [done|lia].
Qed.
Lemma over_istep p x d d' : iam_ok d -> istep d d' -> over p x d -> over p x d'.
Proof.
  intros I Hm. destruct (Hm I) as [_ _ [Hn Hu Ht]]. unfold over. intros Ho.
  destruct (decide (x <= rd_now (sessions d'))) as [|Hx]; [by left|].
  destruct Ho as [|[Hc|Hc]]; [lia|right; left|right; right]; (eapply counter_past_moved; [done| |done]);
    pose proof ttl_pos; lia.
Qed.
(** Read less than a lifetime after the session's end, its counters differ. *)
Lemma counter_past_read now g x (t : gmap uuid (Z * Time)) k :
  counter_past g x (t !! k) -> now < x + session_ttl -> default 0 (redis_get now t k) <> g.
Proof.
  intros (v & e & Hk & Hg & He) Hn.
  assert (redis_get now t k = Some v) as -> by (apply redis_get_Some; exists e; split; [done|lia]). simpl. lia.
Qed.

(** The request is over less than a lifetime after the session would have ended, and
    meanwhile nobody stores another session under the token. *)
Record in_time (tok : string) (p : refreshPayload) (x : Time) (d d' : DB) : Prop := {
  it_step : istep d d';
  it_token : forall e, refresh_tokens (sessions d') !! tok = Some e -> refresh_tokens (sessions d) !! tok = Some e;
  it_clock : rd_now (sessions d) < x + session_ttl -> rd_now (sessions d') < x + session_ttl;
}.
#[export] Instance in_time_preorder tok p x : PreOrder (in_time tok p x).
Proof.
  split; [by split|]. intros d1 d2 d3 [S1 T1 C1] [S2 T2 C2]. split; [by etrans|auto|auto].
Qed.

Lemma redis_in_time {A} tok p x t (f : Redis -> A * Redis) w :
  (forall d, istep d (set_sessions (f (sessions d)).2 d)) ->
  (forall r, rd_now (f r).2 = rd_now r) ->
  (forall r e, refresh_tokens (f r).2 !! tok = Some e -> refresh_tokens r !! tok = Some e) ->
  steps (store_step (in_time tok p x)) (redis t f) w.
Proof.
  intros Hf Hn Ht. apply steps_store_tx. intros d a d' H. specialize (Hf d).
  destruct (f (sessions d)) as [b r'] eqn:Hfd. simplify_eq.
  pose proof (Hn (sessions d)) as Hnow. pose proof (fun e => Ht (sessions d) e) as Htok.
  rewrite Hfd in Hnow, Htok. simpl in *. split; [done|exact Htok|]. simpl. by rewrite Hnow.
Qed.

Lemma consume_in_time tok p x w :
  steps (store_step (in_time tok p x)) (consumeRefreshToken tok) w.
Proof.
  unfold consumeRefreshToken. apply steps_bind; [apply steps_try, redis_in_time; [apply istep_read|done..]|].
  intros got w1 _ _ _ _. apply steps_bind; [apply steps_try, redis_in_time; [apply istep_del_refresh|done|]|].
  - intros r e. simpl. rewrite lookup_delete_Some. by intros [].
  - intros del w2 _ _ _ _. destruct got as [[]|]; [destruct del|..]; steps_tac.
Qed.

(** A read, and the state it was made in. *)
Lemma redis_read_in_time {A} t (f : Redis -> A) w g w' p x tok :
  redis t (fun r => (f r, r)) w = (Ok g, w') -> rely (store_step (in_time tok p x)) w ->
  in_time tok p x (store_db (w_st w)) (store_db (w_st w')) /\ g = f (sessions (store_db (w_st w')))
  /\ rely (store_step (in_time tok p x)) w'.
Proof.
  intros H HR. assert (steps (store_step (in_time tok p x)) (redis t (fun r => (f r, r))) w) as Hst
    by (apply redis_in_time; [apply istep_read|done..]).
  destruct (steps_run _ _ _ _ Hst H HR) as [[Hm _] HR']. split; [done|]. split; [|done].
  apply tx_Ok in H as [H _]. unfold on_db in H. injection H as <- Hw. by rewrite <-Hw.
Qed.

(** What the exchange found under the token, in a state before it went on. *)
Lemma consume_found tok p x w q w' :
  consumeRefreshToken tok w = (Ok q, w') -> rely (store_step (in_time tok p x)) w ->
  exists d, in_time tok p x (store_db (w_st w)) d /\ in_time tok p x d (store_db (w_st w'))
    /\ get_refresh tok (sessions d) = Some q /\ rely (store_step (in_time tok p x)) w'.
Proof.
  intros H HR. pose proof (steps_run _ _ _ _ (consume_in_time tok p x w) H HR) as [_ HR'].
  apply bind_Ok in H as (got & w1 & Hgot & (del & w2 & Hdel & H)%bind_Ok).
  destruct got as [[q'|]|]; [|done..]. destruct del; [|done]. apply ret_Ok in H as [-> ->].
  assert (redis "auth: jwt: consume refresh token: %w" (fun r => (get_refresh tok r, r)) w = (Ok (Some q'), w1)) as Hget.
  { unfold try in Hgot. destruct (redis _ _ w) as [r w0]. by simplify_eq. }
  exists (store_db (w_st w1)). destruct (redis_read_in_time _ _ _ _ _ p x tok Hget HR) as (Hm1 & Hq & HR1).
  assert (steps (store_step (in_time tok p x)) (try (E' := error IamErr)
    (redis "auth: jwt: consume refresh token: %w" (fun r => (tt, del_refresh tok r)))) w1) as Hst.
  { apply steps_try, redis_in_time; [apply istep_del_refresh|done|]. intros r e. simpl.
    rewrite lookup_delete_Some. by intros []. }
  destruct (steps_run _ _ _ _ Hst Hdel HR1) as [[Hm2 _] _].
  by split_and!.
Qed.

Lemma over_refused tok p x w r w' :
  iam_ok (store_db (w_st w)) -> over p x (store_db (w_st w)) ->
  (forall e, refresh_tokens (sessions (store_db (w_st w))) !! tok = Some e -> e = (p, x)) ->
  rely (store_step (in_time tok p x)) w -> Refresh tokenIssuer tok w = (r, w') -> is_ok r = false.
Proof.
  intros I Ho Htok HR H. destruct r as [pair|e]; [exfalso|done].
  apply bind_Ok in H as (q & w1 & Hq & H). destruct (consume_found _ _ _ _ _ _ Hq HR) as (d & Hd & Hd1 & Hget & HR1).
  unfold get_refresh in Hget. apply redis_get_Some in Hget as (e & Hk & Hlive).
  pose proof (it_token _ _ _ _ _ Hd _ Hk) as Hk0. apply Htok in Hk0. injection Hk0 as -> ->.
  apply bind_Ok in H as (ug & w2 & Hu & (tg & w3 & Ht & H)%bind_Ok).
  destruct (redis_read_in_time _ _ _ _ _ p x tok Hu HR1) as (Hm2 & -> & HR2).
  destruct (redis_read_in_time _ _ _ _ _ p x tok Ht HR2) as (Hm3 & -> & _). simpl in *.
  assert (iam_ok d) as Id by apply Hd, I.
  assert (Ho' : over p x d) by (eapply over_istep; [exact I|apply Hd|exact Ho]).
  assert (rd_now (sessions d) < x + session_ttl) as Hc by (pose proof ttl_pos; lia).
  assert (rd_now (sessions (store_db (w_st w2))) < x + session_ttl) as Hc2 by by apply Hm2, Hd1.
  assert (rd_now (sessions (store_db (w_st w3))) < x + session_ttl) as Hc3 by by apply Hm3.
  assert (iam_moved d (store_db (w_st w2))) as [I2 _ [_ Mu Mt]].
  { apply (transitivity (R:=istep) (it_step _ _ _ _ _ Hd1) (it_step _ _ _ _ _ Hm2) Id). }
  destruct (it_step _ _ _ _ _ Hm3 I2) as [_ _ [_ _ Mt3]].
  destruct Ho' as [|[Hp|Hp]]; [lia| |].
  - eapply counter_past_moved in Hp; [|exact Mu|done]. apply (counter_past_read _ _ _ _ _ Hp) in Hc2.
    rewrite (bool_decide_eq_false_2 (rp_Generation p = _)) in H; [done|]. unfold user_generation. congruence.
  - eapply counter_past_moved in Hp; [|exact Mt|done]. eapply counter_past_moved in Hp; [|exact Mt3|done].
    apply (counter_past_read _ _ _ _ _ Hp) in Hc3.
    rewrite (bool_decide_eq_false_2 (rp_TenantGeneration p = _)), orb_true_r in H; [done|].
    unfold tenant_generation. congruence.
Qed.

(** The two ways to revoke: a user's sessions, and those of a whole tenant. *)
Inductive revokes (p : refreshPayload) (d : DB) : DB -> Prop :=
| revoke_user : revokes p d (set_sessions (incr_user_generation (session_ttl * 2) (rp_UserID p) (sessions d)) d)
| revoke_tenant : revokes p d (TenancyQueries.incr_generation (rp_TenantID p) d).

Lemma revoked_over p x d d' :
  rp_Generation p = user_generation (rp_UserID p) (sessions d) ->
  rp_TenantGeneration p = tenant_generation (rp_TenantID p) (sessions d) ->
  x <= rd_now (sessions d) + session_ttl -> revokes p d d' -> over p x d'.
Proof.
  intros Hg Htg Hx [|]; right; [left|right]; eexists _, _; (split; [apply lookup_insert_eq|]); simpl;
    rewrite ?Hg, ?Htg; unfold user_generation, tenant_generation; (split; [lia|]);
    unfold session_ttl in *; simpl in *; lia.
Qed.

(** C24: A session that is live when its user's or its tenant's sessions are revoked
    is never refreshed again: after any later history of calls, logins and workers,
    in any interleaving, the refresh token in which it is kept is refused.  The
    request may take as long as a lifetime after the session's own end. *)
Theorem revoked_session_stays_revoked (st0 st1 : St) (tok : string) (p : refreshPayload) (x : Time) w :
  iam_ok (store_db st0) ->
  refresh_tokens (sessions (store_db st0)) !! tok = Some (p, x) ->
  rp_Generation p = user_generation (rp_UserID p) (sessions (store_db st0)) ->
  rp_TenantGeneration p = tenant_generation (rp_TenantID p) (sessions (store_db st0)) ->
  revokes p (store_db st0) (store_db st1) ->
  iam_reaches days_before name_key Exchange s ts st1 (w_st w) ->
  (forall e, refresh_tokens (sessions (store_db (w_st w))) !! tok = Some e -> e = (p, x)) ->
  rely (store_step (in_time tok p x)) w ->
  is_ok (Accounts.RefreshToken s tok w).1 = false.
Proof.
  intros I Htok Hg Htg Hrev Hreach Hsame HR.
  assert (x <= rd_now (sessions (store_db st0)) + session_ttl) as Hx by apply (ok_tokens _ (iam_redis _ I) _ _ Htok).
  assert (iam_ok (store_db st1)) as I1.
  { destruct Hrev; [by apply istep_incr_user|by apply istep_incr_tenant]. }
  assert (over p x (store_db (w_st w))) as Ho.
  { eapply over_istep; [exact I1| |by eapply revoked_over]. intros _. by eapply iam_reaches_moved. }
  unfold Accounts.RefreshToken, wrap, map_err. rewrite (so_tokens s Hs).
  destruct (Refresh tokenIssuer tok w) as [r w'] eqn:H. apply over_refused with (p := p) (x := x) in H; [|try done..].
  - by destruct r.
  - by eapply iam_reaches_moved.
Qed.
End revocation.

(** Sessions: exchanging a refresh token, and the round trip of an access token
    through the interceptor that reads it. *)

Local Open Scope Z_scope.

(** ** Refreshing *)

Section refresh.
Context {X : External} {J : Jwt}.
Implicit Types (w : World St).

(** A command of a request that runs undisturbed. *)
Definition with_redis (f : Redis -> Redis) (st : St) : St :=
  mkStore (set_sessions (f (sessions (store_db st))) (store_db st)) (store_events st).

Lemma evals_redis {A} t (f : Redis -> A * Redis) w :
  quiet w ->
  evals (redis t f) w (Ok (f (sessions (store_db (w_st w)))).1) (with_redis (fun r => (f r).2) (w_st w)).
Proof.
  intros Hq. unfold redis. apply evals_with_tx; [done|]. by destruct (f (sessions (store_db (w_st w)))).
Qed.
Lemma with_redis_id st : with_redis (fun r => r) st = st.
Proof. by destruct st as [[]]. Qed.
Lemma evals_redis_read {A} t (f : Redis -> A) w :
  quiet w -> evals (redis t (fun r => (f r, r))) w (Ok (f (sessions (store_db (w_st w))))) (w_st w).
Proof.
  intros Hq. pose proof (evals_redis t (fun r => (f r, r)) w Hq) as He. simpl in He.
  by rewrite (with_redis_id (w_st w)) in He.
Qed.

Lemma evals_consume tok w :
  quiet w ->
  evals (consumeRefreshToken tok) w
    (match get_refresh tok (sessions (store_db (w_st w))) with
     | Some p => Ok p | None => Err (ESent ErrRefreshTokenNotFound) end)
    (with_redis (del_refresh tok) (w_st w)).
Proof.
  intros Hq. unfold consumeRefreshToken. eapply evals_bind; [by apply evals_try, evals_redis_read|].
  intros w1 Hq1 Hs1. eapply evals_bind; [by apply evals_try, evals_redis|]. intros w2 Hq2 Hs2.
  rewrite Hs1 in Hs2. change (w_st w2 = with_redis (del_refresh tok) (w_st w)) in Hs2. rewrite <-Hs2.
  destruct (get_refresh tok _); [by apply evals_ret|by apply evals_throw].
Qed.

(** Whether the counters still are those the session was stored with. *)
Definition generations_match (p : refreshPayload) (r : Redis) : bool :=
  bool_decide (rp_Generation p = user_generation (rp_UserID p) r)
  && bool_decide (rp_TenantGeneration p = tenant_generation (rp_TenantID p) r).

Lemma evals_generateToken w : quiet w -> exists t, evals (generateToken (E:=error IamErr)) w (Ok t) (w_st w).
Proof.
  intros Hq. unfold generateToken. destruct (evals_uuid (E:=error IamErr) w Hq) as [a Ha].
  destruct Ha as (w1 & H1 & Hs1 & Hq1). destruct (evals_uuid (E:=error IamErr) w1 Hq1) as [b (w2 & H2 & Hs2 & Hq2)].
  eexists. exists w2. split; [|by rewrite <-Hs1]. unfold mbind, M_bind. rewrite H1, H2. reflexivity.
Qed.

(** The exchange after the session is taken. *)
Definition reissue (j : JWTIssuer) (p : refreshPayload) : M St (error IamErr) TokenPair :=
  userGen ← currentGeneration (rp_UserID p);
  tenantGen ← currentTenantGeneration (rp_TenantID p);
  if negb (bool_decide (rp_Generation p = userGen)) || negb (bool_decide (rp_TenantGeneration p = tenantGen))
  then mthrow (ESent ErrSessionRevoked)
  else now ← time_now; issueWithGeneration j (payload_result p now) (mkGenerations userGen tenantGen).
Lemma Refresh_reissue j tok : Refresh j tok = consumeRefreshToken tok ≫= reissue j.
Proof. reflexivity. Qed.

(** A step that returned, in front of the rest. *)
Lemma evals_after {E A B} (m : M St E A) (f : A -> M St E B) w a s w1 r s' :
  m w = (Ok a, w1) -> w_st w1 = s -> evals (f a) w1 r s' -> evals (m ≫= f) w r s'.
Proof. intros H _ He. unfold evals. by rewrite (bind_run _ _ _ _ _ H). Qed.

Lemma evals_issue j r g w :
  quiet w -> (forall c, is_Some (SignedString c)) ->
  exists pair now, evals (issueWithGeneration j r g) w (Ok pair)
      (with_redis (set_refresh (tp_RefreshToken pair) (refresh_payload r g) (ji_refreshTTL j)) (w_st w))
    /\ SignedString (access_claims j r now) = Some (tp_AccessToken pair)
    /\ tp_ExpiresAt pair = now + ji_accessTTL j.
Proof.
  intros Hq Hsign. destruct (evals_time (E:=error IamErr) w Hq) as (now & w1 & H1 & Hs1 & Hq1).
  destruct (Hsign (access_claims j r now)) as [at_ Hat].
  destruct (evals_generateToken w1 Hq1) as (t & w2 & H2 & Hs2 & Hq2).
  exists (mkTokenPair at_ t "Bearer" (ji_accessTTL j / ns_per_sec) (now + ji_accessTTL j)), now.
  split; [|done]. unfold issueWithGeneration. eapply evals_after; [exact H1|done|]. rewrite Hat.
  eapply evals_bind; [|intros w4 Hq4 <-; by apply evals_ret].
  unfold issueRefreshToken. eapply evals_after; [exact H2|done|]. rewrite <-Hs1, <-Hs2.
  eapply evals_bind; [by apply evals_redis|]. intros w3 Hq3 Hs3.
  change (w_st w3 = with_redis (set_refresh t (refresh_payload r g) (ji_refreshTTL j)) (w_st w2)) in Hs3.
  cbn [tp_RefreshToken]. rewrite <-Hs3. by apply evals_ret.
Qed.

Lemma evals_Issue j r w :
  quiet w -> (forall c, is_Some (SignedString c)) -> exists pair w', Issue j r w = (Ok pair, w').
Proof.
  intros Hq Hsign.
  destruct (evals_redis_read "auth: jwt: read token generation: %w" (user_generation (res_UserID r)) w Hq)
    as (w1 & H1 & _ & Hq1).
  destruct (evals_redis_read "auth: jwt: read tenant generation: %w" (tenant_generation (res_TenantID r)) w1 Hq1)
    as (w2 & H2 & _ & Hq2).
  destruct (evals_issue j r (mkGenerations (user_generation (res_UserID r) (sessions (store_db (w_st w))))
    (tenant_generation (res_TenantID r) (sessions (store_db (w_st w1))))) w2 Hq2 Hsign) as (pair & now & (w3 & H3 & _) & _).
  exists pair, w3. unfold Issue. rewrite (bind_run _ _ _ _ _ H1). cbn beta. by rewrite (bind_run _ _ _ _ _ H2).
Qed.

Lemma evals_reissue j p w :
  quiet w -> (forall c, is_Some (SignedString c)) ->
  if generations_match p (sessions (store_db (w_st w)))
  then exists pair, evals (reissue j p) w (Ok pair)
         (with_redis (set_refresh (tp_RefreshToken pair) p (ji_refreshTTL j)) (w_st w))
  else evals (reissue j p) w (Err (ESent ErrSessionRevoked)) (w_st w).
Proof.
  intros Hq Hsign. set (r := sessions (store_db (w_st w))).
  destruct (evals_redis_read "auth: jwt: read token generation: %w" (user_generation (rp_UserID p)) w Hq)
    as (w1 & H1 & Hs1 & Hq1).
  destruct (evals_redis_read "auth: jwt: read tenant generation: %w" (tenant_generation (rp_TenantID p)) w1 Hq1)
    as (w2 & H2 & Hs2 & Hq2). rewrite Hs1 in H2, Hs2. fold r in H1, H2.
  assert (forall res st, evals
      (if negb (generations_match p r) then mthrow (ESent ErrSessionRevoked)
       else now ← time_now; issueWithGeneration j (payload_result p now)
              (mkGenerations (user_generation (rp_UserID p) r) (tenant_generation (rp_TenantID p) r))) w2 res st ->
    evals (reissue j p) w res st) as Hgo.
  { intros res st He. eapply evals_after; [exact H1|done|]. eapply evals_after; [exact H2|done|].
    by rewrite <-negb_andb. }
  destruct (generations_match p r) eqn:Hg; [|apply Hgo; rewrite <-Hs2; by apply evals_throw].
  unfold generations_match in Hg. bool_hyps.
  destruct (evals_time (E:=error IamErr) w2 Hq2) as (now & w3 & H3 & Hs3 & Hq3).
  destruct (evals_issue j (payload_result p now)
    (mkGenerations (user_generation (rp_UserID p) r) (tenant_generation (rp_TenantID p) r)) w3 Hq3 Hsign)
    as (pair & now' & He & _). exists pair. apply Hgo. eapply evals_after; [exact H3|done|].
  rewrite Hs3, Hs2 in He. eassert (refresh_payload _ _ = p) as Hp; [|by rewrite Hp in He].
  destruct p. unfold refresh_payload. simpl in *. congruence.
Qed.

(** What an exchange does, run undisturbed: the session leaves the old token; if its
    counters are current, it is stored unchanged, for a new lifetime, under a new one. *)
Lemma evals_refresh j tok w :
  quiet w -> (forall c, is_Some (SignedString c)) ->
  let d := store_db (w_st w) in
  match get_refresh tok (sessions d) with
  | None => evals (Refresh j tok) w (Err (ESent ErrRefreshTokenNotFound)) (with_redis (del_refresh tok) (w_st w))
  | Some p =>
    if generations_match p (sessions d)
    then exists pair, evals (Refresh j tok) w (Ok pair)
           (with_redis (fun r => set_refresh (tp_RefreshToken pair) p (ji_refreshTTL j) (del_refresh tok r)) (w_st w))
    else evals (Refresh j tok) w (Err (ESent ErrSessionRevoked)) (with_redis (del_refresh tok) (w_st w))
  end.
Proof.
  intros Hq Hsign d. pose proof (evals_consume tok w Hq) as Hc. fold d in Hc. rewrite Refresh_reissue.
  destruct (get_refresh tok (sessions d)) as [p|] eqn:Hget; [|by apply evals_bind_err].
  destruct Hc as (w1 & H1 & Hs1 & Hq1). pose proof (evals_reissue j p w1 Hq1 Hsign) as Hr.
  rewrite Hs1 in Hr. cbv zeta in Hr. change (generations_match p (sessions (store_db (with_redis (del_refresh tok) (w_st w)))))
    with (generations_match p (sessions d)) in Hr.
  assert (forall r st, evals (reissue j p) w1 r st -> evals (consumeRefreshToken tok ≫= reissue j) w r st) as Hgo.
  { intros r st He. unfold evals. by rewrite (bind_run _ _ _ _ _ H1). }
  destruct (generations_match p (sessions d)); [|by apply Hgo].
  destruct Hr as [pair Hr]. exists pair. by apply Hgo.
Qed.
Lemma get_refresh_set tok tok' p ttl r :
  0 < ttl -> get_refresh tok' (set_refresh tok p ttl r) = if decide (tok = tok') then Some p else get_refresh tok' r.
Proof.
  intros Ht. unfold get_refresh, redis_get. simpl. case_decide as Hd.
  - subst. rewrite lookup_insert_eq, bool_decide_eq_true_2; [done|lia].
  - by rewrite lookup_insert_ne.
Qed.
Lemma get_refresh_del tok r : get_refresh tok (del_refresh tok r) = None.
Proof. unfold get_refresh, redis_get. simpl. by rewrite lookup_delete_eq. Qed.

Lemma evals_RefreshToken s tok w r st :
  Accounts.s_tokens s = tokenIssuer -> evals (Refresh tokenIssuer tok) w r st ->
  evals (Accounts.RefreshToken s tok) w
    (match r with Ok a => Ok a | Err e => Err (EWrap "iam: refresh token: %w" e) end) st.
Proof. intros Hs He. unfold Accounts.RefreshToken. rewrite Hs. by apply evals_map_err. Qed.

(** C25: Undisturbed, a live session whose counters are current is exchanged for a
    pair of tokens, once: it then sits unchanged under the new refresh token, and the
    old one is no longer known.  A session whose counters moved is refused, and gone. *)
Theorem refresh_is_single_use (s : Accounts.Service) (tok : string) (p : refreshPayload) w :
  Accounts.s_tokens s = tokenIssuer -> quiet w -> (forall c, is_Some (SignedString c)) ->
  get_refresh tok (sessions (store_db (w_st w))) = Some p ->
  if generations_match p (sessions (store_db (w_st w)))
  then exists pair w', Accounts.RefreshToken s tok w = (Ok pair, w') /\ quiet w'
    /\ get_refresh (tp_RefreshToken pair) (sessions (store_db (w_st w'))) = Some p
    /\ (tp_RefreshToken pair <> tok ->
        sentinel (match (Accounts.RefreshToken s tok w').1 with Err e => e | Ok _ => EText "" end)
        = Some ErrRefreshTokenNotFound)
  else exists w', Accounts.RefreshToken s tok w = (Err (EWrap "iam: refresh token: %w" (ESent ErrSessionRevoked)), w')
    /\ get_refresh tok (sessions (store_db (w_st w'))) = None.
Proof.
  intros Hs Hq Hsign Hget. pose proof (evals_refresh tokenIssuer tok w Hq Hsign) as Hr. cbv zeta in Hr.
  rewrite Hget in Hr. destruct (generations_match p _).
  - destruct Hr as [pair Hr]. apply evals_RefreshToken with (s := s) in Hr as (w' & H & Hst & Hq'); [|done].
    exists pair, w'. split_and!; [done|done| |].
    + rewrite Hst. simpl. by rewrite get_refresh_set, decide_True by done.
    + intros Hne. pose proof (evals_refresh tokenIssuer tok w' Hq' Hsign) as Hr. cbv zeta in Hr.
      assert (get_refresh tok (sessions (store_db (w_st w'))) = None) as Hnone
        by (rewrite Hst; simpl; by rewrite get_refresh_set, decide_False, get_refresh_del by done).
      rewrite Hnone in Hr.
      apply evals_RefreshToken with (s := s) in Hr as (w2 & H2 & _); [|done]. by rewrite H2.
  - apply evals_RefreshToken with (s := s) in Hr as (w' & H & Hst & _); [|done]. exists w'. split; [done|].
    rewrite Hst. apply get_refresh_del.
Qed.

(** Revoking can bring a session back.  The counter of a user's revocations
    lives for two lifetimes of a session and starts again at 0; a session stored with
    1, whose counter has since expired, is refused, until the user's sessions are
    revoked once more: that puts the counter back at 1 and the session is live. *)
Theorem revocation_can_revive (s : Accounts.Service) (tok : string) (p : refreshPayload) w w1 :
  Accounts.s_tokens s = tokenIssuer -> quiet w -> (forall c, is_Some (SignedString c)) ->
  let r := sessions (store_db (w_st w)) in
  get_refresh tok r = Some p ->
  rp_Generation p = 1 -> redis_get (rd_now r) (user_generations r) (rp_UserID p) = None ->
  rp_TenantGeneration p = tenant_generation (rp_TenantID p) r ->
  RevokeAllForUser tokenIssuer (rp_UserID p) w = (Ok tt, w1) ->
  (exists w', Accounts.RefreshToken s tok w = (Err (EWrap "iam: refresh token: %w" (ESent ErrSessionRevoked)), w'))
  /\ (exists pair w', Accounts.RefreshToken s tok w1 = (Ok pair, w')).
Proof.
  intros Hs Hq Hsign r Hget Hg Hno Htg Hrev. split.
  - pose proof (evals_refresh tokenIssuer tok w Hq Hsign) as Hr. cbv zeta in Hr. fold r in Hr. rewrite Hget in Hr.
    unfold generations_match, user_generation in Hr. rewrite Hg, Hno in Hr. simpl in Hr.
    apply evals_RefreshToken with (s := s) in Hr as (w' & Href & _); [|done]. by exists w'.
  - destruct (evals_redis "auth: jwt: revoke all sessions: %w"
      (fun r => (tt, incr_user_generation (ji_refreshTTL tokenIssuer * 2) (rp_UserID p) r)) w Hq) as (w1' & H1 & Hst & Hq1).
    unfold RevokeAllForUser in Hrev. rewrite H1 in Hrev. simplify_eq.
    pose proof (evals_refresh tokenIssuer tok w1 Hq1 Hsign) as Hr. cbv zeta in Hr.
    assert (sessions (store_db (w_st w1)) = incr_user_generation (ji_refreshTTL tokenIssuer * 2) (rp_UserID p) r)
      as Hr1 by by rewrite Hst.
    rewrite Hr1 in Hr. change (get_refresh tok (incr_user_generation _ _ r)) with (get_refresh tok r) in Hr.
    rewrite Hget in Hr. unfold generations_match in Hr. rewrite user_generation_incr in Hr by done.
    unfold user_generation in Hr. rewrite Hno, Hg, (bool_decide_eq_true_2 (1 = _)) in Hr by done.
    rewrite bool_decide_eq_true_2 in Hr by done. destruct Hr as [pair Hr].
    apply evals_RefreshToken with (s := s) in Hr as (w' & Href & _); [|done]. by exists pair, w'.
Qed.
End refresh.

(** ** Access tokens *)

Section access.
Context {X : External} {XL : ExternalLaws} {J : Jwt} {JL : JwtLaws}.
Implicit Types (w : World St).

Lemma substring_app p t : String.substring 0 (String.length p) (p +:+ t) = p.
Proof. induction p as [|c p IH]; simpl; [by destruct t|]. by rewrite IH. Qed.
Lemma substring_all t : String.substring 0 (String.length t) t = t.
Proof. induction t as [|c t IH]; simpl; [done|]. by rewrite IH. Qed.
Lemma slice_from_app p t : slice_from (String.length p) (p +:+ t) = t.
Proof.
  unfold slice_from. induction p as [|c p IH]; simpl; [by rewrite Nat.sub_0_r, substring_all|]. exact IH.
Qed.
Lemma lower_length p : String.length (lower_string p) = String.length p.
Proof. induction p as [|c p IH]; simpl; [done|]. by rewrite IH. Qed.
Lemma length_app_string p t : String.length (p +:+ t) = (String.length p + String.length t)%nat.
Proof. induction p as [|c p IH]; simpl; [done|]. by rewrite IH. Qed.

(** The scheme in any case, then the token. *)
Lemma bearer_token_app p tok : lower_string p = bearerPrefix -> tok <> "" -> bearer_token (p +:+ tok) = Some tok.
Proof.
  intros Hp Ht. assert (String.length p = 7%nat) as Hlen by by rewrite <-lower_length, Hp.
  unfold bearer_token. rewrite <-Hlen, substring_app, slice_from_app, Hp, (bool_decide_eq_true_2 (bearerPrefix = _)) by done.
  rewrite bool_decide_eq_false_2; [done|]. unfold len. rewrite length_app_string, Hlen.
  destruct tok; [done|]. simpl. lia.
Qed.

Lemma whole_seconds_NumericDate t : whole_seconds (NumericDate t).
Proof. unfold whole_seconds, NumericDate. apply Z.mod_mul. done. Qed.

(** Parsed within its lifetime, a signed token gives back who it was issued for. *)
Lemma verify_access j (r : AuthResult) now at_ tok :
  SignedString (access_claims j r now) = Some tok -> valid_claims (access_claims j r now) = true ->
  (res_UserID r < 2 ^ 128)%N -> (res_TenantID r < 2 ^ 128)%N ->
  Verify at_ tok = if bool_decide (at_ < NumericDate (now + ji_accessTTL j))
    then Ok (mkClaims (res_UserID r) (res_TenantID r) (res_Email r) (res_Roles r) (res_Permissions r)
               (res_AuthMethod r) (NumericDate now) (NumericDate (now + ji_accessTTL j)))
    else Err ErrTokenExpired.
Proof.
  intros Hs Hv Hu Ht. unfold Verify.
  rewrite (parse_signed at_ _ _ _ _ Hs Hv eq_refl (whole_seconds_NumericDate _) eq_refl (whole_seconds_NumericDate _)).
  destruct (bool_decide _); [|done]. unfold claims_of. simpl. by rewrite !uuid_parse_string.
Qed.

(** The access token of a pair lets its holder in as the user it was issued
    for: any call that is not public, with the token after "Bearer " in any case,
    runs with that user's id, tenant, e-mail, roles and permissions for fifteen
    minutes, less the fraction of a second the token drops, and is refused as
    expired ever after. *)
Theorem access_token_round_trip (r : AuthResult) w pair w' :
  Issue tokenIssuer r w = (Ok pair, w') ->
  forallb ValidString (res_Email r :: res_Roles r ++ res_Permissions r) = true ->
  ValidString (uuid_string (res_UserID r)) = true -> ValidString (uuid_string (res_TenantID r)) = true ->
  (res_UserID r < 2 ^ 128)%N -> (res_TenantID r < 2 ^ 128)%N ->
  exists expires, tp_ExpiresAt pair - ns_per_sec < expires <= tp_ExpiresAt pair
    /\ forall at_ method scheme project forwarded,
      method ∉ PublicMethods -> lower_string scheme = "bearer " ->
      authenticate at_ (mkMetadata [scheme +:+ tp_AccessToken pair] project forwarded) method
      = if bool_decide (at_ < expires)
        then Ok (mkCtx (Some (mkCaller (res_UserID r) (res_TenantID r) (uuidFromMD project) (res_Email r)
                                (res_Roles r) (res_Permissions r) (firstMD forwarded))))
        else Err (mkStatus Unauthenticated "token expired").
Proof.
  intros H Hstr Hsu Hst Hu Ht.
  apply bind_Ok in H as (ug & w1 & _ & (tg & w2 & _ & (now & w3 & _ & H)%bind_Ok)%bind_Ok).
  destruct (SignedString (access_claims tokenIssuer r now)) as [tok|] eqn:Hsig; [|done].
  apply bind_Ok in H as (rt & w4 & _ & [-> _]%ret_Ok). simpl.
  exists (NumericDate (now + ji_accessTTL tokenIssuer)). split.
  { unfold NumericDate. change ns_per_sec with 1000000000. set (z := now + _).
    pose proof (Z.div_mod z 1000000000 ltac:(done)). pose proof (Z.mod_pos_bound z 1000000000 ltac:(done)). lia. }
  intros at_ method scheme project forwarded Hm Hsch. unfold authenticate. rewrite bool_decide_eq_false_2 by done.
  pose proof (signed_not_empty _ _ Hsig) as Hne. cbv zeta.
  set (raw := firstMD (md_authorization _)). change raw with (scheme +:+ tp_AccessToken (mkTokenPair tok rt "Bearer"
    (ji_accessTTL tokenIssuer / ns_per_sec) (now + ji_accessTTL tokenIssuer))). cbn [tp_AccessToken].
  rewrite decide_False by (intros He; destruct scheme; [done|discriminate]).
  rewrite bearer_token_app by done.
  rewrite (verify_access tokenIssuer r now at_ tok Hsig); [destruct (bool_decide _); done| |done|done].
  unfold valid_claims. cbn [forallb jc_Subject jc_TenantID jc_Email jc_Roles jc_Permissions access_claims].
  by rewrite Hsu, Hst.
Qed.
End access.
