(* ===== verification/AccountCreation.v ===== *)
(** The IAM service: who can log in with a password, and what the upgrade of the
    stored hash after a login can undo; an acceptance of an invitation is all or
    nothing, and what creating a tenant leaves. *)

From S2P Require Import RegistrationModel.
From S2P Require Export Sessions AccountReach Logic Passwords.
From S2P Require AccountQueries AccountPostgres Accounts TenancyQueries AccountHandler TenancyHandler.
Local Open Scope Z_scope.

(** ** Reads of a request that runs undisturbed *)

Lemma steps_read {D Ev A} (q : D -> result pg_error A) (w : World (Store D Ev)) : steps eq (q_query q) w.
Proof.
  apply steps_tx. intros s1 a s2 _ _ H. unfold on_db in H. destruct (q _); [|done]. simplify_eq. by destruct s1.
Qed.
Ltac read_steps := repeat first [progress steps_tac | apply steps_read].

(** A table's rows are different when each sits under its own id. *)
Lemma rows_NoDup {A} (id : A -> uuid) (t : gmap uuid A) :
  map_Forall (fun k r => id r = k) t -> NoDup (rows t).
Proof.
  intros Hk. apply (NoDup_fmap_1 id). unfold rows. rewrite <-list_fmap_compose.
  replace (id ∘ snd <$> map_to_list t) with ((map_to_list t).*1); [apply NoDup_fst_map_to_list|].
  apply list_fmap_ext. intros i [k r] Hi. simpl. symmetry. apply (Hk k).
  apply elem_of_map_to_list. by apply list_elem_of_lookup_2 in Hi.
Qed.
Lemma List_filter_NoDup {A} (p : A -> bool) l : NoDup l -> NoDup (List.filter p l).
Proof.
  induction 1 as [|x l Hx _ IH]; simpl; [constructor|]. destruct (p x); [|done].
  constructor; [|done]. rewrite filter_elem. by intros [? _].
Qed.
Lemma all_equal_singleton {A} (x : A) l : NoDup l -> x ∈ l -> (forall y, y ∈ l -> y = x) -> l = [x].
Proof.
  intros Hd Hx Hall. destruct l as [|y [|z l]]; [by apply not_elem_of_nil in Hx| |].
  - f_equal. apply Hall, list_elem_of_here.
  - apply NoDup_cons in Hd as [Hy _]. exfalso. apply Hy.
    rewrite (Hall y), (Hall z); [|right; left|left]; apply list_elem_of_here.
Qed.

Section login.
Context {X : External} {J : Jwt} {C : Primitives}.
Variable Exchange : OIDCConfig -> string -> string -> string -> option OIDCClaims.
Variable s : Accounts.Service.
Implicit Types (w : World St).

(** The account a login names: by tenant and address, or, when the request leaves
    the tenant out, the only one with that address anywhere. *)
Definition named_account (d : DB) (t : uuid) (email : string) (u : UserRow) : Prop :=
  (exists k, users (accounts d) !! k = Some u) /\ us_Email u = email
  /\ if decide (t = uuid_nil)
     then forall k v, users (accounts d) !! k = Some v -> us_Email v = email -> v = u
     else us_TenantID u = t.

(** The conditions of the password provider. *)
Definition may_log_in (d : DB) (u : UserRow) (password : string) : Prop :=
  (exists row, tenants d !! us_TenantID u = Some row /\ tn_Status row = "active")
  /\ us_Status u <> "deactivated" /\ us_Status u <> "invited" /\ us_PasswordHash u <> ""
  /\ VerifyPassword password (us_PasswordHash u) = true.

(** The tenant signs in with passwords. *)
Definition password_tenant (d : DB) (t : uuid) : Prop :=
  Accounts.s_oidc s = false \/ auth_configs (accounts d) !! t = None.

Definition request (t : uuid) (email password : string) : AuthRequest := mkAuthRequest t email password "" "" "".

Lemma tenant_status_active st : tenantStatusError st = None <-> st = "active".
Proof. unfold tenantStatusError. repeat case_decide; by split. Qed.

(** ** What a login that succeeded found *)

Lemma check_tenant_Ok t w a w' :
  check_tenant t w = (Ok a, w') -> rely eq w ->
  w_st w' = w_st w /\ rely eq w'
  /\ exists row, tenants (store_db (w_st w)) !! t = Some row /\ tn_Status row = "active".
Proof.
  intros H HR. assert (steps eq (check_tenant t) w) as Hst
    by (unfold check_tenant, AccountPostgres.GetTenantStatus; read_steps).
  destruct (steps_run _ _ _ _ Hst H HR) as [Hs HR']. split; [done|]. split; [done|]. rewrite Hs.
  apply bind_Ok in H as (st & w1 & Hg%wrap_Ok & H).
  apply bind_Ok in Hg as (row & w2 & Hq%map_err_Ok%store_query_read & [-> ->]%ret_Ok).
  apply get_row_Ok in Hq as [Hq _].
  destruct (tenantStatusError (tn_Status row)) eqn:He; [done|]. apply ret_Ok in H as [_ ->].
  exists row. split; [done|]. by apply tenant_status_active.
Qed.

Lemma local_Authenticate_Ok t e p w r w' :
  local_Authenticate (request t e p) w = (Ok r, w') -> rely eq w ->
  w_st w' = w_st w
  /\ exists u k, users (accounts (store_db (w_st w))) !! k = Some u /\ us_TenantID u = t /\ us_Email u = e
       /\ may_log_in (store_db (w_st w)) u p
       /\ res_UserID r = us_ID u /\ res_TenantID r = us_TenantID u /\ res_Email r = us_Email u.
Proof.
  intros (a & w1 & Hc & H)%bind_Ok HR. destruct (check_tenant_Ok _ _ _ _ Hc HR) as (Hs1 & HR1 & row & Hrow & Hact).
  apply bind_Ok in H as (found & w2 & Hf & H). unfold try in Hf.
  destruct (AccountPostgres.GetUserByEmail _ _ w1) as [fr w2'] eqn:Hget. simplify_eq.
  destruct found as [rec|]; [|done].
  assert (steps eq (AccountPostgres.GetUserByEmail t e) w1) as Hst
    by (unfold AccountPostgres.GetUserByEmail, AccountPostgres.loadRolesAndPerms; read_steps).
  destruct (steps_run _ _ _ _ Hst Hget HR1) as [Hs2 _].
  apply bind_Ok in Hget as (u & w3 & Hq%map_err_Ok & (rp & w4 & Hl & [-> ->]%ret_Ok)%bind_Ok).
  destruct (steps_run _ _ _ _ (steps_read _ w1) Hq HR1) as [Hs3 _].
  apply store_query_read, one_row_Ok, select_elem in Hq as [[k Hk] Hu]. unfold AccountQueries.user_email_is in Hu.
  bool_hyps. simpl in H. do 3 (case_decide; [done|]). destruct (negb _) eqn:Hv in H; [done|]. bool_hyps.
  apply ret_Ok in H as [-> ->]. rewrite Hs1 in Hs3. split; [congruence|]. rewrite <-Hs3 in Hk.
  exists u, k. split_and!; [done|assumption|assumption| |done|done|done].
  split; [|by split_and!]. exists row. split; [|done].
  match goal with H : us_TenantID u = _ |- _ => by rewrite H end.
Qed.

Lemma Authenticate_password_Ok t e p w r w' :
  Authenticate Exchange (Accounts.s_oidcKey s) (Accounts.s_oidc s) (request t e p) w = (Ok r, w') ->
  rely eq w -> password_tenant (store_db (w_st w)) t ->
  exists w1, w_st w1 = w_st w /\ rely eq w1 /\ local_Authenticate (request t e p) w1 = (Ok r, w').
Proof.
  unfold Authenticate, Resolve. simpl. intros H HR Hp. apply bind_Ok in H as (prov & w1 & Hres & H).
  destruct (Accounts.s_oidc s) eqn:Ho; [|apply ret_Ok in Hres as [-> ->]; by exists w].
  destruct Hp as [|Hno]; [congruence|].
  apply bind_Ok in Hres as (cfg & w2 & Hcfg & [-> ->]%ret_Ok). unfold try in Hcfg.
  destruct (GetOIDCConfig (Accounts.s_oidcKey s) t w) as [cr w3] eqn:Hget. simplify_eq.
  assert (steps eq (GetOIDCConfig (Accounts.s_oidcKey s) t) w) as Hst
    by (unfold GetOIDCConfig, AccountPostgres.GetOIDCConfig; read_steps).
  destruct (steps_run _ _ _ _ Hst Hget HR) as [Hs HR1].
  destruct cfg as [cfg|]; [|by exists w2].
  apply bind_Ok in Hget as (c0 & w4 & (row & w5 & Hq%map_err_Ok & Hr)%bind_Ok & _).
  destruct (steps_run _ _ _ _ (steps_read _ w) Hq HR) as [Hs5 _].
  apply store_query_read, get_row_Ok in Hq as [Hq _]. rewrite <-Hs5 in Hq. congruence.
Qed.

Lemma FindTenant_Ok e w t w' :
  AccountPostgres.FindTenantByEmail e w = (Ok t, w') -> rely eq w ->
  w_st w' = w_st w /\ rely eq w'
  /\ exists u, select (fun r => bool_decide (us_Email r = e)) (users (accounts (store_db (w_st w)))) = [u]
       /\ us_TenantID u = t.
Proof.
  intros (l & w1 & Hq%map_err_Ok & H)%bind_Ok HR.
  destruct (steps_run _ _ _ _ (steps_read _ w) Hq HR) as [Hs HR1].
  apply store_query_read in Hq. injection Hq as Hl. rewrite <-Hs in Hl.
  destruct l as [|t1 [|]]; [done| |done]. apply ret_Ok in H as [-> ->]. split_and!; [done|done|].
  destruct (select _ _) as [|u [|v l]]; try done. exists u. by injection Hl.
Qed.

(** ** What a login needs to succeed *)

Lemma evals_check_tenant t row w :
  quiet w -> tenants (store_db (w_st w)) !! t = Some row -> tn_Status row = "active" ->
  evals (check_tenant t) w (Ok tt) (w_st w).
Proof.
  intros Hq Ht Hact. unfold check_tenant, AccountPostgres.GetTenantStatus.
  pose proof (evals_store_query (TenancyQueries.GetTenant t) w Hq) as He.
  unfold TenancyQueries.GetTenant, get_row in He. rewrite Ht in He.
  eapply (evals_bind _ _ _ _ (w_st w)).
  - apply evals_map_ok. eapply evals_bind; [apply evals_map_ok, He|]. intros w1 Hq1 <-. by apply evals_ret.
  - intros w1 Hq1 <-. rewrite Hact. by apply evals_ret.
Qed.

Lemma evals_user_by_email t e st u :
  AccountQueries.GetUserByEmail t e (store_db st) = Ok u ->
  exists rp, forall w, quiet w -> w_st w = st ->
    evals (AccountPostgres.GetUserByEmail t e) w (Ok (AccountPostgres.user_record u rp)) st.
Proof.
  intros Hu. set (rs := AccountQueries.join_roles (accounts (store_db st)) (AccountQueries.grants_of (us_ID u) (accounts (store_db st)))).
  exists (ro_Name <$> rs, remove_dups (mjoin (ro_Permissions <$> rs))). intros w Hq Hst.
  pose proof (evals_store_query (AccountQueries.GetUserByEmail t e) w Hq) as He. rewrite Hst, Hu in He.
  destruct He as (w1 & H1 & Hs1 & Hq1).
  pose proof (evals_store_query (AccountQueries.ListUserRoles (us_ID u)) w1 Hq1) as He. rewrite Hs1 in He.
  unfold AccountQueries.ListUserRoles in He at 2. fold rs in He. clearbody rs.
  eapply evals_after; [unfold map_err; rewrite H1; reflexivity|done|].
  eapply evals_bind; [|intros w2 Hq2 <-; by apply evals_ret].
  unfold AccountPostgres.loadRolesAndPerms. eapply evals_bind; [apply evals_map_ok, He|].
  intros w2 Hq2 <-. by apply evals_ret.
Qed.

Lemma evals_local u p st :
  accounts_ok (accounts (store_db st)) ->
  (exists k, users (accounts (store_db st)) !! k = Some u) -> may_log_in (store_db st) u p ->
  exists r, forall w, quiet w -> w_st w = st ->
    evals (local_Authenticate (request (us_TenantID u) (us_Email u) p)) w (Ok r) st.
Proof.
  intros [Ku Ue _ _ _] [k Hk] ((row & Hrow & Hact) & Hd & Hi & Hh & Hv).
  assert (AccountQueries.GetUserByEmail (us_TenantID u) (us_Email u) (store_db st) = Ok u) as Hget.
  { unfold AccountQueries.GetUserByEmail.
    rewrite (all_equal_singleton u (select _ _)); [done|by apply List_filter_NoDup, (rows_NoDup us_ID)| |].
    - apply select_elem. split; [by exists k|]. unfold AccountQueries.user_email_is. by rewrite !bool_decide_eq_true_2.
    - intros v [[k' Hk'] Hm]%select_elem. unfold AccountQueries.user_email_is in Hm. bool_hyps.
      assert (k = k') as <- by (eapply Ue; [exact Hk|exact Hk'|congruence..]). congruence. }
  destruct (evals_user_by_email _ _ _ _ Hget) as [rp He].
  exists (result_of (AccountPostgres.user_record u rp) ProviderLocal false). intros w Hq Hst. subst st.
  destruct (evals_check_tenant _ row w Hq Hrow Hact) as (w1 & H1 & Hs1 & Hq1).
  unfold local_Authenticate. eapply evals_after; [exact H1|done|].
  eapply evals_bind; [by apply evals_try, He|]. intros w2 Hq2 Hs2. rewrite <-Hs2. simpl.
  rewrite !decide_False by done. rewrite Hv. by apply evals_ret.
Qed.

Lemma evals_Authenticate t e p r w :
  quiet w -> password_tenant (store_db (w_st w)) t ->
  (forall w', quiet w' -> w_st w' = w_st w -> evals (local_Authenticate (request t e p)) w' (Ok r) (w_st w)) ->
  evals (Authenticate Exchange (Accounts.s_oidcKey s) (Accounts.s_oidc s) (request t e p)) w (Ok r) (w_st w).
Proof.
  intros Hq Hp Hl. unfold Authenticate, Resolve. simpl.
  destruct (Accounts.s_oidc s) eqn:Ho; [|eapply evals_bind; [by apply evals_ret|]; exact Hl].
  destruct Hp as [|Hno]; [congruence|]. eapply (evals_bind _ _ _ ProviderLocal (w_st w)); [|exact Hl].
  assert (evals (GetOIDCConfig (Accounts.s_oidcKey s) t) w (Err (ESent ErrOIDCConfigMissing)) (w_st w)) as He.
  { unfold GetOIDCConfig. apply evals_bind_err. unfold AccountPostgres.GetOIDCConfig. apply evals_bind_err.
    pose proof (evals_store_query (AccountQueries.GetOIDCConfig t) w Hq) as He.
    unfold AccountQueries.GetOIDCConfig, get_row in He. rewrite Hno in He.
    exact (evals_map_fail (no_rows_as ErrOIDCConfigMissing "iam/db: get oidc config: %w") _ w PgNoRows (w_st w) He). }
  apply (evals_try (E' := error IamErr)) in He as (w1 & H1 & Hs1 & Hq1).
  eapply evals_after; [exact H1|done|]. rewrite <-Hs1. by apply evals_ret.
Qed.

Lemma evals_FindTenant e u w :
  quiet w -> select (fun r => bool_decide (us_Email r = e)) (users (accounts (store_db (w_st w)))) = [u] ->
  evals (AccountPostgres.FindTenantByEmail e) w (Ok (us_TenantID u)) (w_st w).
Proof.
  intros Hq Hsel. unfold AccountPostgres.FindTenantByEmail.
  pose proof (evals_store_query (AccountQueries.TenantsOfEmail e) w Hq) as He.
  unfold AccountQueries.TenantsOfEmail in He at 2. rewrite Hsel in He.
  eapply evals_bind; [apply evals_map_ok, He|]. intros w1 Hq1 <-. by apply evals_ret.
Qed.

Lemma only_account d e u :
  accounts_ok (accounts d) ->
  select (fun r => bool_decide (us_Email r = e)) (users (accounts d)) = [u]
  <-> (exists k, users (accounts d) !! k = Some u) /\ us_Email u = e
      /\ forall k v, users (accounts d) !! k = Some v -> us_Email v = e -> v = u.
Proof.
  intros [Ku _ _ _ _]. split.
  - intros Hs. assert (forall v, v ∈ [u] <-> (exists k, users (accounts d) !! k = Some v) /\ us_Email v = e) as Hall.
    { intros v. rewrite <-Hs, select_elem. by rewrite bool_decide_eq_true. }
    destruct (proj1 (Hall u)) as [Hk He]; [apply list_elem_of_here|]. split_and!; [done..|].
    intros k v Hv Hev. assert (v ∈ [u]) as Hin by (apply Hall; eauto). by apply list_elem_of_singleton in Hin.
  - intros (Hk & He & Hall). apply all_equal_singleton.
    + by apply List_filter_NoDup, (rows_NoDup us_ID).
    + apply select_elem. by rewrite bool_decide_eq_true.
    + intros v [[k Hv] Hev]%select_elem. apply bool_decide_eq_true in Hev. by eapply Hall.
Qed.

(** C26: Undisturbed, a login with a password succeeds exactly for the holder of an
    account: the request names the account by tenant and address, or by an address
    that only one account anywhere has; the tenant is active; the account is neither
    deactivated nor only invited, has a password, and it is the one given. *)
Theorem login_succeeds_iff (t : uuid) (email password : string) w :
  quiet w -> (forall c, is_Some (SignedString c)) -> iam_ok (store_db (w_st w)) ->
  (forall t', t' = t \/ t = uuid_nil -> password_tenant (store_db (w_st w)) t') ->
  (exists pair w', Accounts.Login Exchange s t email password w = (Ok pair, w'))
  <-> exists u, named_account (store_db (w_st w)) t email u /\ may_log_in (store_db (w_st w)) u password.
Proof.
  intros Hq Hsign [I _] Hpt. split.
  - intros (pair & w' & (t' & w1 & Ht & (r & w2 & Hr%wrap_Ok & _)%bind_Ok)%bind_Ok).
    assert (w_st w1 = w_st w /\ rely eq w1 /\ forall u k, users (accounts (store_db (w_st w))) !! k = Some u ->
      us_TenantID u = t' -> us_Email u = email -> named_account (store_db (w_st w)) t email u) as (Hs1 & HR1 & Hname).
    { apply (quiet_rely eq) in Hq. unfold named_account. destruct (decide (t = uuid_nil)).
      - apply wrap_Ok in Ht. destruct (FindTenant_Ok _ _ _ _ Ht Hq) as (? & ? & v & Hsel%only_account & Hv); [|done].
        destruct Hsel as (Hkv & Hev & Hall). split_and!; [done..|]. intros u k Hk _ Hem. split_and!; [by exists k|done|].
        assert (u = v) as -> by by eapply Hall. exact Hall.
      - apply ret_Ok in Ht as [-> ->]. split_and!; [done..|]. intros u k Hk Htu Hem. split_and!; [by exists k|done..]. }
    assert (password_tenant (store_db (w_st w1)) t') as Hp.
    { rewrite Hs1. apply Hpt. destruct (decide (t = uuid_nil)); [by right|left]. by apply ret_Ok in Ht as [-> _]. }
    destruct (Authenticate_password_Ok _ _ _ _ _ _ Hr HR1 Hp) as (w3 & Hs3 & HR3 & Hl).
    apply local_Authenticate_Ok in Hl as (_ & u & k & Hk & Htu & Heu & Hmay & _); [|done].
    rewrite Hs3, Hs1 in Hk, Hmay. exists u. split; [by eapply Hname|done].
  - intros (u & (Hk & He & Hn) & Hmay). destruct (evals_local u password (w_st w) I Hk Hmay) as [r Hl].
    assert (exists w1, (if decide (t = uuid_nil) then wrap "iam: resolve tenant for %s: %w" (AccountPostgres.FindTenantByEmail email)
              else mret t) w = (Ok (us_TenantID u), w1) /\ w_st w1 = w_st w /\ quiet w1) as (w1 & H1 & Hs1 & Hq1).
    { destruct (decide (t = uuid_nil)); [|exists w; by rewrite Hn].
      destruct (evals_FindTenant email u w Hq) as (w1 & H1 & ? & ?); [by apply only_account|].
      exists w1. unfold wrap, map_err. by rewrite H1. }
    assert (password_tenant (store_db (w_st w1)) (us_TenantID u)) as Hp.
    { rewrite Hs1. apply Hpt. destruct (decide (t = uuid_nil)); [by right|by left]. }
    destruct (evals_Authenticate (us_TenantID u) email password r w1 Hq1 Hp) as (w2 & H2 & _ & Hq2).
    { intros w' Hq' Hst. rewrite Hs1, <-He. apply Hl; [done|congruence]. }
    destruct (evals_Issue (Accounts.s_tokens s) r w2 Hq2 Hsign) as (pair & w3 & H3). exists pair, w3.
    unfold Accounts.Login. rewrite (bind_run _ _ _ _ _ H1). cbn beta. rewrite (bind_wrap_Ok _ _ _ _ _ _ H2).
    unfold wrap, map_err. by rewrite H3.
Qed.
End login.

(** The IAM service: new accounts.  Accepting an invitation happens as a whole or not
    at all, and once; what seeding a tenant's roles leaves; and what a duplicate
    answers. *)

Local Open Scope Z_scope.

(** ** What the acceptance transaction does *)

(** The user the invitation becomes: as invited, active, with the password given. *)
Definition invited_user `{Primitives} (inv : Invitation) (password : string) (u : UserRow) : Prop :=
  us_TenantID u = i_TenantID inv /\ us_Email u = i_Email inv /\ us_Status u = "active"
  /\ us_DisplayName u = Accounts.local_part (i_Email inv)
  /\ VerifyPassword password (us_PasswordHash u) = true.

(** A role of the tenant that may be granted tenant-wide, and its grant. *)
Definition invited_grant (inv : Invitation) (u : uuid) (a : Accounts) (t : gmap GrantKey UserRoleRow) : Prop :=
  match i_RoleID inv with
  | None => t = user_roles a
  | Some r => exists row at_, roles a !! r = Some row /\ ro_TenantID row = i_TenantID inv
      /\ AccountQueries.enforce_user_role_scope (Some row) None = true
      /\ t = <[AccountQueries.grant_key u r None := mkUserRoleRow u r None (i_InvitedBy inv) at_]> (user_roles a)
  end.

(** All of it, over the database the other requests had left. *)
Definition accepted `{Primitives} (inv : Invitation) (password : string) (d d' : DB) : Prop :=
  exists u, users (accounts d) !! us_ID u = None
    /\ (forall k v, users (accounts d) !! k = Some v -> us_TenantID v = i_TenantID inv -> us_Email v <> i_Email inv)
    /\ invited_user inv password u
    /\ users (accounts d') = <[us_ID u := u]> (users (accounts d))
    /\ invited_grant inv (us_ID u) (accounts d) (user_roles (accounts d'))
    /\ (forall i, invitations (accounts d) !! i_ID inv = Some i ->
          invitations (accounts d') = <[i_ID inv := AccountQueries.accepted_invitation i]> (invitations (accounts d))).

Section accept.
Context {X : External} {J : Jwt} {C : Primitives} {L : PrimitivesLaws}.
Implicit Types (w : World St).

Lemma create_user_inv now u d u1 d1 :
  AccountPostgres.create_user now u d = Ok (u1, d1) ->
  exists row, row = mkUserRow (u_ID u) (u_TenantID u) (u_Email u) (u_DisplayName u) (u_PasswordHash u) (u_Status u) (pg_time now)
    /\ u1 = AccountPostgres.with_created (us_CreatedAt row) u
    /\ users (accounts d) !! u_ID u = None
    /\ (forall k v, users (accounts d) !! k = Some v -> us_TenantID v = u_TenantID u -> us_Email v <> u_Email u)
    /\ d1 = AccountQueries.put_users (<[u_ID u := row]> (users (accounts d))) d.
Proof.
  unfold AccountPostgres.create_user. destruct (AccountQueries.CreateUser _ _ _ _ _ _ _ d) as [[row d']|] eqn:Hc;
    [|done]. case_decide; [done|]. intros [= <- <-].
  unfold AccountQueries.CreateUser in Hc. case_match; [done|]. destruct (exists_row _ _) eqn:He; [done|].
  case_bool_decide as Hn; [done|]. case_match; [done|]. injection Hc as <- <-. eexists. split; [reflexivity|].
  split_and!; [done|by apply eq_None_not_Some| |done].
  rewrite exists_row_false in He. intros k v Hv Ht Hem. specialize (He k v Hv).
  unfold AccountQueries.user_email_is in He. by rewrite !bool_decide_eq_true_2 in He.
Qed.

(** A new user has no grants yet. *)
Lemma new_user_no_grants a u r p :
  accounts_ok a -> users a !! u = None -> user_roles a !! AccountQueries.grant_key u r p = None.
Proof.
  intros I Hu. destruct (user_roles a !! _) as [g|] eqn:Hg; [|done].
  destruct (ok_grants _ I _ _ Hg) as ([= <- _ _] & v & _ & Hv & _). congruence.
Qed.

Lemma accept_tx_accepted now inv user password d a d' :
  accounts_ok (accounts d) ->
  u_TenantID user = i_TenantID inv -> u_Email user = i_Email inv -> u_Status user = "active" ->
  u_DisplayName user = Accounts.local_part (i_Email inv) ->
  VerifyPassword password (u_PasswordHash user) = true ->
  Accounts.accept_tx now inv user d = Ok (a, d') -> accepted inv password d d'.
Proof.
  intros I Ht He Hst Hn Hv H. unfold Accounts.accept_tx in H.
  destruct (AccountPostgres.create_user now user d) as [[u1 d1]|] eqn:Hc; [|done].
  apply create_user_inv in Hc as (row & Hrow & -> & Hno & Hfree & ->).
  assert (us_ID row = u_ID user) as Hid by by rewrite Hrow.
  assert (forall d2, AccountPostgres.mark_accepted (i_ID inv) d2 = Ok (tt, d') ->
    users (accounts d') = users (accounts d2) /\ user_roles (accounts d') = user_roles (accounts d2)
    /\ forall i, invitations (accounts d2) !! i_ID inv = Some i ->
         invitations (accounts d') = <[i_ID inv := AccountQueries.accepted_invitation i]> (invitations (accounts d2)))
    as Hmark.
  { intros d2. unfold AccountPostgres.mark_accepted, AccountQueries.AcceptInvitation.
    destruct (invitations (accounts d2) !! i_ID inv) eqn:Hi; intros [= <-]; [|done].
    split_and!; [done..|]. by intros i' [= <-]. }
  assert (invited_user inv password row) as Hu by (rewrite Hrow; by split_and!).
  exists row. rewrite Hid. unfold invited_grant. destruct (i_RoleID inv) as [r|].
  - destruct (AccountPostgres.get_role_by_id _ _ _) as [[rl d1']|] eqn:Hg; [|done].
    destruct (AccountPostgres.assign_role _ _ _) as [[[] d2]|] eqn:Ha; [|done].
    destruct (AccountPostgres.mark_accepted _ _) as [[[] d3]|] eqn:Hm; [|done]. simplify_eq.
    apply Hmark in Hm as (Hmu & Hmr & Hmi). unfold AccountPostgres.get_role_by_id in Hg. case_match eqn:Hr; [|done].
    apply get_row_Ok in Hr as [Hr Hin]. unfold AccountQueries.role_in in Hin. bool_hyps. simpl in Hr.
    unfold AccountPostgres.assign_role, AccountQueries.AssignRole in Ha. simpl in Ha. rewrite Hr in Ha.
    destruct (negb (AccountQueries.enforce_user_role_scope _ _)) eqn:Hsc in Ha; [done|]. bool_hyps.
    rewrite (bool_decide_eq_false_2 (is_Some _)) in Ha.
    2:{ simpl. rewrite (new_user_no_grants _ _ _ _ I Hno). by intros []. }
    destruct (negb _) in Ha; [done|]. injection Ha as <-.
    split_and!; [done|by rewrite <-Ht, <-He|done|done| |exact Hmi].
    do 2 eexists. split; [exact Hr|]. split; [done|]. split; [done|]. by rewrite Hmr.
  - destruct (AccountPostgres.mark_accepted _ _) as [[[] d3]|] eqn:Hm; [|done]. simplify_eq.
    apply Hmark in Hm as (Hmu & Hmr & Hmi). split_and!; [done|by rewrite <-Ht, <-He|done..].
Qed.

(** ** The call *)

Variable s : Accounts.Service.
Hypothesis Hs : service_ok s.

Lemma prepare_Ok u p w u' w' :
  Accounts.prepareNewUser u p w = (Ok u', w') ->
  u_TenantID u' = u_TenantID u /\ u_Email u' = u_Email u /\ u_DisplayName u' = u_DisplayName u
  /\ (u_Status u = "active" -> u_Status u' = "active") /\ VerifyPassword p (u_PasswordHash u') = true.
Proof.
  intros (id & w1 & _ & (h & w2 & Hh%Hash_verifies & [-> _]%ret_Ok)%bind_Ok)%bind_Ok. simpl.
  split_and!; try done. intros ->. by rewrite decide_False.
Qed.

Lemma GetInvitation_read token w inv w' :
  AccountPostgres.GetInvitationByToken token w = (Ok inv, w') ->
  exists i, (exists k, invitations (accounts (store_db (w_st w'))) !! k = Some i)
    /\ inv = AccountPostgres.invitationFromDB i /\ iv_Token i = token /\ iv_Status i = "pending".
Proof.
  intros (now & w1 & _ & (i & w2 & Hq%map_err_Ok%store_query_read & [-> ->]%ret_Ok)%bind_Ok)%bind_Ok.
  apply one_row_Ok, select_elem in Hq as [Hk Hi]. bool_hyps. by exists i.
Qed.

(** A statement leaves the accounts as they were, or is the acceptance of one of [P]. *)
Definition accepts_only (P : Invitation -> DB -> Prop) (password : string) (a b : DB) : Prop :=
  accounts b = accounts a \/ exists inv, P inv a /\ accepted inv password a b.
#[local] Instance accepts_only_refl P password : Reflexive (accepts_only P password).
Proof. by left. Qed.

Abbreviation does P password :=
  (own (store_step (Ev:=Event) istep) (store_step (accepts_only P password))) (only parsing).

(** The pending invitation the call reads first, and a state after that. *)
Definition read_first (token : string) w (inv : Invitation) (d : DB) : Prop :=
  i_Token inv = token /\ i_Status inv = "pending"
  /\ (exists w1, AccountPostgres.GetInvitationByToken token w = (Ok inv, w1))
  /\ iam_moved (store_db (w_st w)) d.

Lemma accepts_tx {E A} P password (down : E) (q : DB -> result E (A * DB)) w :
  (forall d a d', istep (store_db (w_st w)) d -> q d = Ok (a, d') -> accepts_only P password d d') ->
  does P password (with_tx down q) w.
Proof.
  intros Hq. apply own_tx. intros s1 a s2 [Hr _] H. unfold on_db in H.
  destruct (q (store_db s1)) as [[a' d]|] eqn:Hd; simplify_eq. split; [by eapply Hq|done].
Qed.
Lemma does_redis {A} P password t (f : Redis -> A * Redis) w : does P password (redis t f) w.
Proof. apply accepts_tx. intros d a d' _ H. destruct (f _). injection H as _ <-. by left. Qed.

#[local] Hint Resolve prepare_steps Issue_steps : isteps.

Lemma Issue_does P password r w : does P password (Issue tokenIssuer r) w.
Proof.
  unfold Issue, currentGeneration, currentTenantGeneration, issueWithGeneration, issueRefreshToken, generateToken.
  repeat first [apply does_redis | progress own_tac
    | match goal with |- own _ _ (_ ≫= _) _ => apply own_bind; [|isteps|intros ? ? _ _ _] end].
Qed.

(** After the user is prepared: the transaction and the tokens. *)
Lemma accept_rest_does (P : Invitation -> DB -> Prop) password inv user w f :
  iam_ok (store_db (w_st w)) -> (forall d, iam_moved (store_db (w_st w)) d -> P inv d) ->
  u_TenantID user = i_TenantID inv -> u_Email user = i_Email inv -> u_Status user = "active" ->
  u_DisplayName user = Accounts.local_part (i_Email inv) -> VerifyPassword password (u_PasswordHash user) = true ->
  does P password (now ← time_now;
    user ← with_tx (EWrap "iam/db: begin tx: %w" (EText "connection failed")) (Accounts.accept_tx now inv user);
    _ ← TenancyPostgres.commit_answer; now ← time_now;
    wrap "iam: issue token after invitation: %w" (Issue (Accounts.s_tokens s) (f user now))) w.
Proof.
  intros I HP Ht He Hst Hn Hv. rewrite (so_tokens s Hs).
  apply own_bind; [own_tac|apply steps_time|]. intros now w1 [= _ <-] _ _.
  apply own_bind.
  - apply accepts_tx. intros d a d' Hd Hq. right. exists inv. split; [apply HP, Hd, I|].
    eapply accept_tx_accepted; [apply (Hd I)|done..|exact Hq].
  - apply steps_store_tx. intros d a d'. by apply accept_tx_istep.
  - intros u w2 _ _ _. apply own_bind; [apply accepts_tx; intros d a d' _ [= _ <-]; by left|isteps|].
    intros [] w3 _ _ _. apply own_bind; [own_tac|isteps|]. intros. apply own_wrap, Issue_does.
Qed.

Lemma GetInvitation_does P password t w : does P password (AccountPostgres.GetInvitationByToken t) w.
Proof.
  unfold AccountPostgres.GetInvitationByToken. apply own_bind; [own_tac|apply steps_time|]. intros now w1 _ _ _.
  apply own_bind; [apply own_map_err, own_store_query|isteps|]. intros. apply own_ret.
Qed.
Lemma prepare_does P password u p w : does P password (Accounts.prepareNewUser u p) w.
Proof.
  unfold Accounts.prepareNewUser, Hash.
  repeat first [progress own_tac
    | match goal with |- own _ _ (_ ≫= _) _ => apply own_bind; [|isteps|intros ? ? _ _ _] end].
Qed.

Lemma AcceptInvitation_does token password w :
  iam_ok (store_db (w_st w)) -> does (read_first token w) password (Accounts.AcceptInvitation s token password) w.
Proof.
  intros I. unfold Accounts.AcceptInvitation. apply own_bind; [apply own_map_err, GetInvitation_does| |].
  { unfold AccountPostgres.GetInvitationByToken. isteps. }
  intros inv w1 Hread%map_err_Ok [Hm1 _] _. specialize (Hm1 I).
  pose proof Hread as (i & _ & -> & Htok & Hpend)%GetInvitation_read.
  destruct (decide _); [apply own_throw|]. apply own_bind; [own_tac|apply steps_time|].
  intros now w2 [= _ <-] _ _. destruct (bool_decide _); [apply own_throw|].
  apply own_bind; [apply own_wrap, prepare_does|apply steps_wrap, prepare_steps|].
  intros u w3 Hu%wrap_Ok%prepare_Ok [Hm3 _] _. simpl in Hu. destruct Hu as (Ht & He & Hn & Hst & Hv).
  eapply accept_rest_does with (f := fun user now => mkAuthResult (u_ID user) (u_TenantID user) (u_Email user)
    (u_DisplayName user) [] [] ProviderLocal false now) (inv := AccountPostgres.invitationFromDB i); auto.
  - apply Hm3, Hm1.
  - intros d Hd. split_and!; [done|done|by exists w1|].
    apply (transitivity (R:=istep) (fun _ => Hm1) (transitivity (R:=istep) Hm3 (fun _ => Hd))), I.
Qed.

(** What the rest of a call logs is put on top. *)
Lemma log_grows {E A} P password (m : M St E A) w r w' :
  does P password m w -> rely (store_step istep) w -> m w = (r, w') -> exists l, w_log w' = l ++ w_log w.
Proof. intros Hd HR Hm. destruct (Hd HR) as (l & Hl & _). rewrite Hm in Hl. eauto. Qed.

(** The acceptance is among the statements of a call that succeeded. *)
Lemma AcceptInvitation_logged token password w pair w' :
  iam_ok (store_db (w_st w)) -> rely (store_step istep) w ->
  Accounts.AcceptInvitation s token password w = (Ok pair, w') ->
  exists a b inv, (a, b) ∈ w_log w' /\ read_first token w inv (store_db a) /\ accepted inv password (store_db a) (store_db b).
Proof.
  intros I HR H. unfold Accounts.AcceptInvitation in H.
  apply bind_Ok in H as (inv & w1 & Hread%map_err_Ok & H).
  assert (steps (store_step istep) (AccountPostgres.GetInvitationByToken token) w) as Hst1
    by (unfold AccountPostgres.GetInvitationByToken; isteps).
  destruct (steps_run _ _ _ _ Hst1 Hread HR) as [[Hm1 _] HR1].
  pose proof Hread as (i & _ & -> & Htok & Hpend)%GetInvitation_read.
  destruct (decide _); [done|]. apply bind_Ok in H as (now & w2 & [= _ <-] & H).
  destruct (bool_decide _); [done|]. apply bind_Ok in H as (u & w3 & Hu%wrap_Ok & H).
  destruct (steps_run _ _ _ _ (prepare_steps _ _ _) Hu HR1) as [[Hm3 _] HR3]. simpl in Hm3.
  apply prepare_Ok in Hu as (Ht & He & Hn & Hst & Hv).
  apply bind_Ok in H as (now' & w4 & [= _ <-] & (u' & w5 & Htx & H)%bind_Ok).
  destruct (steps_run (R:=store_step istep) _ _ _ _
    (steps_store_tx _ _ _ (fun d a d' => accept_tx_istep _ _ _ d a d' Ht)) Htx HR3) as [_ HR5].
  apply tx_logged in Htx as [Hq Hl5].
  assert (exists l, w_log w' = l ++ w_log w5) as [l Hl].
  { eapply (log_grows (read_first token w) password); [|exact HR5|exact H]. rewrite (so_tokens s Hs).
    apply own_bind; [apply accepts_tx; intros d a d' _ [= _ <-]; by left|isteps|].
    intros [] w6 _ _ _. apply own_bind; [own_tac|isteps|]. intros. apply own_wrap, Issue_does. }
  set (s1 := w_other _ _ _) in Hq, Hl5. exists s1, (w_st w5), (AccountPostgres.invitationFromDB i).
  destruct (HR3 (env_fault_pos (w_env w3)) (w_st w3)) as [Hm4 _].
  assert (iam_moved (store_db (w_st w)) (store_db s1)) as Hmoved
    by (apply (transitivity (R:=istep) Hm1 (transitivity (R:=istep) Hm3 Hm4)), I).
  split; [rewrite Hl, Hl5; apply elem_of_app; right; left|]. split; [split_and!; [done|done|by exists w1|exact Hmoved]|].
  unfold on_db in Hq. destruct (Accounts.accept_tx _ _ _ (store_db s1)) as [[a d']|] eqn:Hacc; [|done].
  injection Hq as <- <-. simpl.
  eapply accept_tx_accepted; [|exact Ht|exact He|by apply Hst|exact Hn|exact Hv|exact Hacc].
  apply (iam_accounts _), Hmoved.
Qed.

(** C27: Accepting an invitation happens as a whole or not at all.  Whatever runs
    beside it and whatever fails, each statement of the call leaves every account as
    it was, except one at most that does all of it: it stores a new active user with
    the tenant and the address of the pending invitation that carries the token, whose
    password is the one given, where the tenant had no user with that address; grants
    the invitation's role, if it has one, a role of the tenant that may be held
    tenant-wide; and marks the invitation as accepted.  A call that succeeds did so. *)
Theorem accept_invitation_all_or_nothing (token password : string) w :
  iam_ok (store_db (w_st w)) -> rely (store_step istep) w -> w_log w = [] ->
  let out := Accounts.AcceptInvitation s token password w in
  Forall (fun p => accepts_only (read_first token w) password (store_db p.1) (store_db p.2)) (w_log out.2)
  /\ forall pair, out.1 = Ok pair -> exists a b inv, (a, b) ∈ w_log out.2
       /\ read_first token w inv (store_db a) /\ accepted inv password (store_db a) (store_db b).
Proof.
  intros I HR Hlog out. split.
  - destruct (AcceptInvitation_does token password w I HR) as (l & Hl & Hall). fold out in Hl.
    rewrite Hlog, app_nil_r in Hl. rewrite Hl. eapply Forall_impl; [exact Hall|]. by intros ? [? _].
  - intros pair Hok. subst out. destruct (Accounts.AcceptInvitation s token password w) as [r w'] eqn:H.
    simpl in *. subst r. by eapply AcceptInvitation_logged.
Qed.

(** ** The role that cannot be granted this way *)

(** An invitation as project supervisor can never be accepted, though InviteUser
    takes one: the trigger wants a project for the grant, and an acceptance has none.
    Whoever tries, undisturbed, gets an error and no account is changed. *)
Theorem supervisor_invitation_never_accepted (token password : string) (r : uuid) (row : RoleRow) w :
  iam_ok (store_db (w_st w)) -> quiet w -> w_log w = [] ->
  roles (accounts (store_db (w_st w))) !! r = Some row ->
  ro_Name row = "project_supervisor" -> ro_IsSystem row = true ->
  (forall k i, invitations (accounts (store_db (w_st w))) !! k = Some i -> iv_Token i = token -> iv_RoleID i = Some r) ->
  let out := Accounts.AcceptInvitation s token password w in
  (forall pair, out.1 <> Ok pair)
  /\ Forall (fun p => accounts (store_db p.2) = accounts (store_db p.1)) (w_log out.2).
Proof.
  intros I Hq Hlog Hr Hname Hsys Hinv out.
  assert (rely (store_step istep) w) as HR by (intros n st; by rewrite (proj1 Hq)).
  assert (forall inv a b, read_first token w inv a -> ~ accepted inv password a b) as Hno.
  { intros inv a b (Htok & _ & (w1 & Hread) & [_ [_ Hroles] _]) (u & _ & _ & _ & _ & Hg & _).
    enough (i_RoleID inv = Some r) as Hrole.
    { unfold invited_grant in Hg. rewrite Hrole in Hg. destruct Hg as (row' & _ & Hr' & _ & Hsc & _).
      eapply lookup_weaken in Hr; [|exact Hroles]. rewrite Hr in Hr'. injection Hr' as <-.
      unfold AccountQueries.enforce_user_role_scope in Hsc. by rewrite Hsys, Hname in Hsc. }
    pose proof Hread as (i & [k Hk] & -> & Hi & _)%GetInvitation_read.
    apply (Hinv k); [|done].
    assert (steps eq (AccountPostgres.GetInvitationByToken token) w) as Hst
      by (unfold AccountPostgres.GetInvitationByToken; read_steps).
    destruct (steps_run _ _ _ _ Hst Hread (quiet_rely eq _ Hq)) as [Hw _]. by rewrite Hw. }
  split.
  - intros pair Hok. subst out. destruct (Accounts.AcceptInvitation s token password w) as [res w'] eqn:H.
    simpl in Hok. subst res. destruct (AcceptInvitation_logged _ _ _ _ _ I HR H) as (a & b & inv & _ & Hread & Hacc).
    by eapply Hno.
  - destruct (AcceptInvitation_does token password w I HR) as (l & Hl & Hall). fold out in Hl.
    rewrite Hlog, app_nil_r in Hl. rewrite Hl. eapply Forall_impl; [exact Hall|].
    intros [a b] [[?|(inv & Hread & Hacc)] _]; [done|]. by destruct (Hno _ _ _ Hread Hacc).
Qed.
End accept.

(** The IAM service: new tenants, and how statements that find no row answer. *)

Local Open Scope Z_scope.

Section tenants.
Context {X : External} {J : Jwt} {C : Primitives}.
Variable name_key : string -> string.
Variable s : Accounts.Service.
Hypothesis Hs : service_ok s.
Implicit Types (w : World St).

(** ** Seeding *)

(** The tenant has the role. *)
Definition has_role (t : uuid) (sr : string * list string) (d : DB) : Prop :=
  exists k, roles (accounts d) !! k = Some (mkRoleRow k t sr.1 sr.2 true).

Lemma has_role_moved t sr (st st' : St) :
  iam_ok (store_db st) -> store_step istep st st' -> has_role t sr (store_db st) -> has_role t sr (store_db st').
Proof.
  intros I [Hm _] [k Hk]. destruct (Hm I) as [_ [_ Mr] _]. exists k. by eapply lookup_weaken.
Qed.

Lemma CreateRole_has id t sr w w' :
  AccountPostgres.CreateRole (mkRole id t sr.1 sr.2 true) w = (Ok tt, w') -> has_role t sr (store_db (w_st w')).
Proof.
  intros (row & w1 & Hq%map_err_Ok & [_ ->]%ret_Ok)%bind_Ok. apply tx_logged in Hq as [Hq _].
  unfold on_db in Hq. destruct (AccountQueries.CreateRole _ _ _ _ _ _) as [[row' d]|] eqn:Hc; [|done].
  injection Hq as _ <-. unfold AccountQueries.CreateRole in Hc. do 3 (case_match; [done|]).
  injection Hc as _ <-. exists id. simpl. by rewrite lookup_insert_eq.
Qed.

Lemma seed_roles_Ok t l w w' :
  l ⊆ Accounts.systemRoles ->
  forM_ l (fun sr => id ← uuid_new;
    wrap (T := IamErr) "seed role %q: %w" (AccountPostgres.CreateRole (mkRole id t sr.1 sr.2 true))) w = (Ok tt, w') ->
  iam_ok (store_db (w_st w)) -> rely (store_step istep) w ->
  store_step istep (w_st w) (w_st w') /\ rely (store_step istep) w'
  /\ forall sr, sr ∈ l -> has_role t sr (store_db (w_st w')).
Proof.
  revert w. induction l as [|sr l IH]; intros w Hsub H I HR.
  { apply ret_Ok in H as [_ ->]. split_and!; [done|done|]. by intros sr ?%not_elem_of_nil. }
  cbn [forM_] in H. apply bind_Ok in H as ([] & w1 & H1 & H).
  apply bind_Ok in H1 as (id & w0 & [= _ <-] & H1%wrap_Ok).
  assert (forall w, steps (store_step istep) (AccountPostgres.CreateRole (mkRole id t sr.1 sr.2 true)) w) as Hst.
  { intros w2. unfold AccountPostgres.CreateRole. apply steps_bind; [|isteps]. apply steps_map_err, steps_store_exec.
    intros d row d'. apply CreateRole_istep, system_role_ok, Hsub, list_elem_of_here. }
  destruct (steps_run _ _ _ _ (Hst _) H1 HR) as [Hm1 HR1]. simpl in Hm1.
  apply IH in H as (Hm2 & HR2 & Hall); [| |by apply Hm1|done].
  - split_and!; [by etrans|done|]. intros sr' [->|Hin]%elem_of_cons; [|by apply Hall].
    eapply has_role_moved; [by apply Hm1|exact Hm2|]. by eapply CreateRole_has.
  - intros x Hx. by apply Hsub, list_elem_of_further.
Qed.

Lemma localize_Ok text t t' :
  Accounts.localize text t = Ok t' ->
  t_ID t' = t_ID t /\ t_Name t' = t_Name t /\ t_Plan t' = t_Plan t
  /\ t_CountryCode t' = ToUpper (t_CountryCode t) /\ IsKnownCountry (t_CountryCode t') = true
  /\ (t_PrimaryCurrencyCode t = "" -> CurrencyForCountry (t_CountryCode t') = Some (t_PrimaryCurrencyCode t'))
  /\ (t_PrimaryCurrencyCode t <> "" -> t_PrimaryCurrencyCode t' = ToUpper (t_PrimaryCurrencyCode t)).
Proof.
  unfold Accounts.localize. intros H. case_decide; [done|]. destruct (negb _) eqn:Hk; [done|]. bool_hyps.
  case_decide; [destruct (CurrencyForCountry _) eqn:Hc; [|done]|]; injection H as <-; by split_and!.
Qed.

(** The tenant an insert stored. *)
Lemma CreateTenant_repo_Ok t w t' w' :
  AccountPostgres.CreateTenant name_key t w = (Ok t', w') ->
  exists row, t' = AccountPostgres.with_stored row t /\ tenants (store_db (w_st w')) !! t_ID t = Some row
    /\ tn_Name row = t_Name t /\ tn_Status row = t_Status t /\ tn_Plan row = t_Plan t.
Proof.
  intros (now & w1 & _ & (r & w2 & Hq & H)%bind_Ok)%bind_Ok. unfold try in Hq.
  destruct (with_tx _ _ w1) as [r0 w3] eqn:Htx. injection Hq as -> ->.
  destruct r as [row|[]]; [|case_decide; [|done]; by apply bind_Ok in H as ([[]|] & ? & _ & ?)|done].
  case_decide; [done|]. apply ret_Ok in H as [-> ->]. exists row. split; [done|].
  apply tx_logged in Htx as [Hq _]. unfold on_db in Hq.
  destruct (AccountQueries.CreateTenant _ _ _ _ _ _ _ _ _ _ _ _ _ _) as [[row' d]|] eqn:Hc; [|done].
  injection Hq as -> <-. unfold AccountQueries.CreateTenant in Hc. do 4 (case_match; [done|]).
  injection Hc as <- <-. simpl. by rewrite lookup_insert_eq.
Qed.

(** A tenant that was created is complete.  When CreateTenant succeeds, whatever
    runs beside it, its plan is one of the known ones, its country, in capitals, is a
    known one, its currency is the one asked for or the country's, its name has no
    spare blanks, and it has, and keeps, each of the seven system roles with all its
    permissions. *)
Theorem created_tenant_is_complete (t t' : Tenant) w w' :
  iam_ok (store_db (w_st w)) -> rely (store_step istep) w ->
  Accounts.CreateTenant name_key s t w = (Ok t', w') ->
  isValidPlan (t_Plan t') = true /\ IsKnownCountry (t_CountryCode t') = true
  /\ t_CountryCode t' = ToUpper (t_CountryCode t)
  /\ (if decide (t_PrimaryCurrencyCode t = "")
      then CurrencyForCountry (t_CountryCode t') = Some (t_PrimaryCurrencyCode t')
      else t_PrimaryCurrencyCode t' = ToUpper (t_PrimaryCurrencyCode t))
  /\ t_Name t' = Accounts.canonical_name (t_Name t)
  /\ forall sr, sr ∈ Accounts.systemRoles -> has_role (t_ID t') sr (store_db (w_st w')).
Proof.
  intros I HR H. unfold Accounts.CreateTenant in H. cbv zeta in H.
  apply bind_Ok in H as (ex & w1 & Hex%wrap_Ok & H).
  destruct (steps_run _ _ _ _ (FindName_steps name_key _ w) Hex HR) as [[Hm1 _] HR1].
  destruct ex as [|]; [done|].
  apply bind_Ok in H as (id & w2 & Hid & H).
  assert (steps (store_step istep) (if decide (t_ID t = uuid_nil) then uuid_new (E := error IamErr) else mret (t_ID t)) w1)
    as Hst by steps_tac.
  destruct (steps_run _ _ _ _ Hst Hid HR1) as [[Hm2 _] HR2].
  destruct (negb _) eqn:Hplan in H; [done|]. apply bind_Ok in H as (tl & w3 & [Hl ->]%lift_Ok & H).
  apply localize_Ok in Hl as (_ & Hn & Hp & Hc & Hk & Hcur1 & Hcur2). simpl in Hn, Hp, Hc, Hcur1, Hcur2. bool_hyps.
  apply bind_Ok in H as (ts & w4 & Hts%wrap_Ok & H).
  destruct (steps_run _ _ _ _ (CreateTenant_repo_steps name_key tl w2) Hts HR2) as [[Hm4 _] HR4].
  apply CreateTenant_repo_Ok in Hts as (row & -> & _).
  apply bind_Ok in H as ([] & w5 & Hseed%wrap_Ok & H).
  assert (iam_ok (store_db (w_st w4))) as I4 by apply Hm4, Hm2, Hm1, I.
  apply seed_roles_Ok in Hseed as (Hm5 & HR5 & Hroles); [|done..].
  apply bind_Ok in H as ([] & w6 & Hmig & [-> ->]%ret_Ok).
  assert (store_step istep (w_st w5) (w_st w6)) as Hm6.
  { destruct (Accounts.s_migrator s) as [m|] eqn:Hm; [|by apply ret_Ok in Hmig as [_ ->]].
    apply wrap_Ok in Hmig. by apply (steps_run _ _ _ _ (so_migrator s Hs m Hm _ _) Hmig HR5). }
  simpl. split_and!; [by rewrite Hp|done|done| |done|].
  - destruct (decide (t_PrimaryCurrencyCode t = "")); auto.
  - intros sr Hsr. eapply has_role_moved; [|exact Hm6|by apply Hroles]. by apply Hm5.
Qed.
End tenants.

(** ** Statements that find no row *)

Section no_row.
Context {X : External} {J : Jwt} {C : Primitives}.
Variable name_key : string -> string.
Variable s : Accounts.Service.
Implicit Types (w : World St).

Lemma pg_wrap_sentinel {T} text e : sentinel (pg_wrap (T := T) text e) = None.
Proof. by destruct e. Qed.
Lemma grpc_internal e : sentinel e = None -> st_code (TenancyHandler.grpcError e) = Internal.
Proof.
  intros He. assert (forall x, errors_Is e x = false) as Hno.
  { revert He. induction e as [x|? e IH|?]; simpl; [done|exact IH|done]. }
  unfold TenancyHandler.grpcError. cbn [existsb]. by rewrite !Hno.
Qed.

(** An error of a call on the tables, unless it is one of [P]. *)
Definition answers_only {A} (P : IamErr -> Prop) (m : M St (error IamErr) A) : Prop :=
  forall w e w', m w = (Err e, w') -> match sentinel e with None => True | Some x => P x end.

Lemma bind_Err {E A B} (m : M St E A) (f : A -> M St E B) w e w' :
  (m ≫= f) w = (Err e, w') -> m w = (Err e, w') \/ exists a w1, m w = (Ok a, w1) /\ f a w1 = (Err e, w').
Proof. unfold mbind, M_bind. destruct (m w) as [[a|x] w1]; [by eauto|]. intros [= -> ->]. by left. Qed.
Lemma answers_bind {A B} P (m : M St (error IamErr) A) (f : A -> M St (error IamErr) B) :
  answers_only P m -> (forall a, answers_only P (f a)) -> answers_only P (m ≫= f).
Proof. intros Hm Hf w e w' [H|(a & w1 & _ & H)]%bind_Err; [exact (Hm _ _ _ H)|exact (Hf _ _ _ _ H)]. Qed.
Lemma answers_wrap {A} P t (m : M St (error IamErr) A) : answers_only P m -> answers_only P (wrap t m).
Proof.
  intros Hm w e w' H. unfold wrap, map_err in H. destruct (m w) as [[a|x] w1] eqn:Hw; [done|].
  injection H as <- _. exact (Hm _ _ _ Hw).
Qed.
Lemma answers_pure {A} P (m : M St (error IamErr) A) : (forall w e w', m w <> (Err e, w')) -> answers_only P m.
Proof. intros Hm w e w' H. by destruct (Hm w e w'). Qed.
Lemma tx_Err {D Ev E A} (down : E) (q : D -> result E (A * D)) (w w' : World (Store D Ev)) e :
  with_tx down q w = (Err e, w') -> e = down \/ exists d, q d = Err e.
Proof.
  unfold with_tx, db_tx, on_db. intros H. destruct (env_fault _ _); [left; by injection H|right].
  destruct (q (store_db _)) as [[a d]|x] eqn:Hq; [done|]. injection H as <- _. eauto.
Qed.

(** An insert keeps the id, so the test of a row of zeros never holds. *)
Lemma CreateUser_answers u : u_ID u <> uuid_nil -> answers_only (fun _ => False) (AccountPostgres.CreateUser u).
Proof.
  intros Hid. apply answers_bind; [by apply answers_pure|]. intros now w e w' [->|[d H]]%tx_Err.
  - unfold AccountPostgres.create_user_error. by rewrite pg_wrap_sentinel.
  - unfold AccountPostgres.create_user in H. destruct (AccountQueries.CreateUser _ _ _ _ _ _ _ d) as [[row d']|] eqn:Hc.
    + case_decide as Hr; [|done]. exfalso. unfold AccountQueries.CreateUser in Hc.
      do 4 (case_match; [done|]). injection Hc as <- <-. done.
    + injection H as <-. unfold AccountPostgres.create_user_error. by rewrite pg_wrap_sentinel.
Qed.
Lemma CreateTenant_answers t :
  t_ID t <> uuid_nil -> answers_only (fun x => x = ErrTenantNameTaken) (AccountPostgres.CreateTenant name_key t).
Proof.
  intros Hid w e w' H. apply bind_Err in H as [[=]|(now & w1 & _ & H)].
  apply bind_Err in H as [H|(r & w2 & Hr & H)].
  { unfold try in H. by destruct (with_tx _ _ w1). }
  destruct r as [row|[c|x]].
  - exfalso. case_decide as Hn; [|done]. unfold try in Hr. destruct (with_tx _ _ w1) as [r0 w3] eqn:Htx.
    injection Hr as -> ->. apply tx_logged in Htx as [Hq _]. unfold on_db in Hq.
    destruct (AccountQueries.CreateTenant _ _ _ _ _ _ _ _ _ _ _ _ _ _) as [[row' d]|] eqn:Hc; [|done].
    injection Hq as -> _. unfold AccountQueries.CreateTenant in Hc. do 4 (case_match; [done|]).
    injection Hc as <- _. done.
  - case_decide; [|injection H as <- _; by rewrite pg_wrap_sentinel].
    apply bind_Err in H as [H|([[e0|]|] & w4 & _ & H)]; [unfold try in H; by destruct (AccountPostgres.FindTenantByNormalizedName _ _ w2)|..];
      by injection H as <- _.
  - injection H as <- _. by rewrite pg_wrap_sentinel.
Qed.
(** Statements that find no row answer Internal.  They end in RETURNING and are
    read with QueryRow, so "no row" comes back as an error of the driver and not as a
    row of zeros, which the code then tests for: a user whose address is taken is
    never reported as existing already, nor a tenant's slug as taken. *)
Theorem missing_rows_answer_internal (u : User) (t : Tenant) (password : string) w :
  u_ID u <> uuid_nil -> t_ID t <> uuid_nil ->
  (forall e w', Accounts.CreateUser u password w = (Err e, w') -> st_code (TenancyHandler.grpcError e) = Internal)
  /\ (forall e w', AccountPostgres.CreateTenant name_key t w = (Err e, w') ->
        sentinel e = None \/ sentinel e = Some ErrTenantNameTaken).
Proof.
  intros Hu Ht. split.
  - intros e w' H. apply grpc_internal. unfold Accounts.CreateUser in H.
    apply bind_Err in H as [H|(u' & w1 & Hp & H)].
    { exfalso. apply bind_Err in H as [H|(id & w1 & _ & H)]; [by rewrite decide_False in H|].
      by apply bind_Err in H as [H|(h & w2 & _ & H)]. }
    assert (u_ID u' <> uuid_nil) as Hid.
    { apply bind_Ok in Hp as (id & w2 & Hid & (h & w3 & _ & [-> _]%ret_Ok)%bind_Ok). rewrite decide_False in Hid by done.
      by apply ret_Ok in Hid as [-> _]. }
    apply (answers_wrap (fun _ => False) _ _ (CreateUser_answers u' Hid)) in H. by destruct (sentinel e).
  - intros e w' H. apply (CreateTenant_answers t Ht) in H. destruct (sentinel e) as [x|]; [right; by rewrite H|by left].
Qed.
End no_row.
