(* ===== verification/AccountExamples.v ===== *)
(** IAM accounts and sessions: a concrete service, the witnesses of the theorems on
    it, and two concrete runs: a refresh token exchanged twice, and a password change
    undone by the upgrade of the old hash. *)

From S2P Require Import RegistrationModel.
From S2P Require Export AccountRoles Sessions AccountCreation.
From S2P Require Export AccountCreation Passwords.
From S2P Require AccountQueries AccountPostgres Accounts AccountHandler.
Local Open Scope Z_scope.

(** ** Reference instances *)

(** A token that is its claims written in binary.  It protects nothing, but it is
    lawful. *)
#[local] Instance ProviderType_eq_dec : EqDecision ProviderType.
Proof. solve_decision. Defined.
#[local] Instance ProviderType_countable : Countable ProviderType :=
  inj_countable' (fun p => match p with ProviderLocal => true | ProviderOIDC => false end)
    (fun b => if b : bool then ProviderLocal else ProviderOIDC)
    ltac:(by intros []).
Definition claims_tuple (c : jwtClaims) :=
  (jc_Subject c, jc_IssuedAt c, jc_ExpiresAt c, jc_TenantID c, jc_Email c, jc_Roles c, jc_Permissions c,
   jc_AuthMethod c).

Fixpoint bits_string (p : positive) : string :=
  match p with
  | xH => "."
  | xO p' => String "0" (bits_string p')
  | xI p' => String "1" (bits_string p')
  end.
Fixpoint string_bits (s : string) : positive :=
  match s with
  | String "0" s' => xO (string_bits s')
  | String "1" s' => xI (string_bits s')
  | _ => xH
  end.
Lemma bits_round p : string_bits (bits_string p) = p.
Proof. induction p as [p IH|p IH|]; simpl; by rewrite ?IH. Qed.

Definition ref_parse (now : Time) (tok : string) : result jwt_error jwtClaims :=
  match decode (string_bits tok) with
  | Some (sub, iat, Some exp, ten, email, rs, ps, m) =>
    if bool_decide (now < exp) then Ok (mkJwtClaims sub iat (Some exp) ten email rs ps m) else Err JwtExpired
  | _ => Err JwtOther
  end.
Definition ref_jwt : Jwt := {|
  SignedString := fun c => Some (bits_string (encode (claims_tuple c)));
  ParseWithClaims := ref_parse;
|}.
Lemma ref_jwt_laws : @JwtLaws ref_jwt.
Proof.
  split.
  - intros now c tok iat exp [= <-] _ _ _ Hexp _. simpl. unfold ref_parse. rewrite bits_round, decode_encode.
    destruct c. simpl in *. by subst.
  - intros c tok [= <-]. by destruct (encode _).
Qed.

Lemma ref_primitives_laws : @PrimitivesLaws ref_primitives.
Proof.
  split; cbn [argon2_IDKey gcm_Seal gcm_Open ref_primitives]; unfold ref_key, is_byte.
  - intros. by rewrite length_fmap, length_seq.
  - intros. apply Forall_fmap, Forall_forall. intros i _. by apply N.mod_lt.
  - intros key nonce text Htext. f_equal. rewrite length_app, length_fmap, repeat_length, Nat.add_sub.
    rewrite take_app_length' by by rewrite length_fmap.
    rewrite <-(list_fmap_id text) at 2. apply Forall_fmap_ext_1. eapply Forall_impl; [exact Htext|].
    intros b Hb. by apply N.mod_small.
  - intros. by rewrite length_app, length_fmap, repeat_length.
  - intros. apply Forall_app. split.
    + apply Forall_fmap, Forall_forall. intros b _. by apply N.mod_lt.
    + apply Forall_forall. intros b Hb. apply list_elem_of_In, repeat_spec in Hb. by subst.
Qed.

(** ** A tenant with two users *)

(** Tenant 6 is active; user 1 is its super admin, user 2 is a member; "sup" invites a
    project supervisor and "tok" a member.  A session of user 2 sits under "live", and
    one stored with generation 1, whose counter has expired, under "late".  UUIDs count
    up from 100; the clock advances by a microsecond a reading. *)
Module AccDemo.

#[local] Existing Instance ref_external.
#[local] Existing Instance ref_jwt.
#[local] Existing Instance ref_primitives.

Definition start_time : Time := 1700000000 * ns_per_sec.
Definition hash_of (password : string) : string := hash_with password (be_bytes 16 5).

Definition tenant6 : TenantRow :=
  mkTenantRow 6 "Acme" "acme" "starter" "active" (start_time - ns_per_hour) false None None None "IN" None "INR"
    None None None None None.
Definition user (id : uuid) (email password : string) : UserRow :=
  mkUserRow id 6 email email (hash_of password) "active" (start_time - ns_per_hour).
Definition user1 : UserRow := user 1 "asha@example.com" "secret".
Definition user2 : UserRow := user 2 "ravi@example.com" "hidden".
Definition role (id : uuid) (n : nat) : RoleRow :=
  let sr := default ("", []) (Accounts.systemRoles !! n) in mkRoleRow id 6 sr.1 sr.2 true.
Definition grant (u r : uuid) : UserRoleRow := mkUserRoleRow u r None 1 (start_time - ns_per_hour).
Definition invitation (id : uuid) (email token : string) (r : uuid) : InvitationRow :=
  mkInvitationRow id 6 email (Some r) token "pending" 1 (start_time + ns_per_hour) (start_time - ns_per_hour).

Definition accounts0 : Accounts :=
  mkAccounts (<[1%N := user1]> {[2%N := user2]})
    (<[50%N := role 50 0]> (<[51%N := role 51 4]> {[52%N := role 52 6]}))
    (<[AccountQueries.grant_key 1 50 None := grant 1 50]> {[AccountQueries.grant_key 2 51 None := grant 2 51]})
    (<[60%N := invitation 60 "new@example.com" "tok" 51]> {[61%N := invitation 61 "lead@example.com" "sup" 52]})
    ∅.
Definition payload (gen : Z) : refreshPayload :=
  mkRefreshPayload 2 6 "ravi@example.com" ["member"] ["document:read"] ProviderLocal gen 0.
Definition session_end : Time := start_time + ns_per_hour.
Definition redis0 : Redis :=
  mkRedis start_time (<["live" := (payload 0, session_end)]> {["late" := (payload 1, session_end)]}) ∅ ∅.
Definition db0 : DB := mkDB {[6%N := tenant6]} ∅ {[6%N]} redis0 accounts0.
Definition st0 : St := mkStore db0 [].

Definition no_provider (_ : OIDCConfig) (_ _ _ : string) : option OIDCClaims := None.
Definition service : Accounts.Service := Accounts.mkService tokenIssuer [] false None.
Definition lifecycle : Tenancy.Service := Tenancy.mkService true.
Definition days_before (n : Z) (t : Time) : Time := t - n * ns_per_day.
Definition name_key (s : string) : string := s.

Definition env : Env :=
  mkEnv (fun n => 100 + N.of_nat n)%N 0 (fun n => start_time + Z.of_nat n * 1000) 0 (fun _ => false) 0 0.
Definition world (st : St) : World St := mkWorld st env (fun _ st => st) [].

Definition caller (u : uuid) : CallerInfo := mkCaller u 6 0 "" [] [] "".
Definition ctx (u : uuid) : Ctx := mkCtx (Some (caller u)).
Definition reaches : St -> St -> Prop := iam_reaches days_before name_key no_provider service lifecycle.

End AccDemo.

Section witnesses.
#[local] Existing Instance ref_external.
#[local] Existing Instance ref_external_laws.
#[local] Existing Instance ref_jwt.
#[local] Existing Instance ref_jwt_laws.
#[local] Existing Instance ref_primitives.
#[local] Existing Instance ref_primitives_laws.
Import AccDemo.

Lemma service_lawful : service_ok service.
Proof. by split. Qed.
Lemma iam_world_quiet st : quiet (world st).
Proof. by split. Qed.
Lemma iam_world_rely R `{!Reflexive R} st : rely R (world st).
Proof. intros n s. reflexivity. Qed.
Lemma signs (c : jwtClaims) : is_Some (SignedString c).
Proof. by eexists. Qed.

Lemma role_lawful id n : (n < 7)%nat -> role_ok id (role id n).
Proof.
  intros Hn. unfold role. destruct (Accounts.systemRoles !! n) as [sr|] eqn:Hsr.
  - by apply system_role_ok, (list_elem_of_lookup_2 _ n).
  - apply lookup_ge_None in Hsr. simpl in Hsr. lia.
Qed.
Lemma accounts0_ok : accounts_ok accounts0.
Proof.
  split.
  - by repeat apply map_Forall_insert_2; [| |apply map_Forall_empty].
  - intros k k' u u' Hk Hk' _ He. cbn [users accounts0] in Hk, Hk'.
    apply lookup_insert_Some in Hk as [[<- <-]|[_ [<- <-]%lookup_singleton_Some]];
      by apply lookup_insert_Some in Hk' as [[<- <-]|[_ [<- <-]%lookup_singleton_Some]].
  - repeat apply map_Forall_insert_2; [apply role_lawful; lia..|apply map_Forall_empty].
  - apply map_Forall_insert_2; [|apply map_Forall_insert_2; [|apply map_Forall_empty]].
    + split; [done|]. by exists user1, (role 50 0).
    + split; [done|]. by exists user2, (role 51 4).
  - by repeat apply map_Forall_insert_2; [| |apply map_Forall_empty].
Qed.
Lemma st0_ok : iam_ok (store_db st0).
Proof.
  split; [exact accounts0_ok|]. split; [apply map_Forall_empty..|].
  repeat apply map_Forall_insert_2; [done|done|apply map_Forall_empty].
Qed.
Lemma member_not_admin : not_admin 2 st0.
Proof.
  split; [exact st0_ok|]. rewrite <-(user_manage_super_admin db0 2 None _ st0_ok eq_refl).
  apply (bool_decide_eq_false_1 _). vm_compute. reflexivity.
Qed.

(** A call from [st0], run alone. *)
Lemma one_job j : reaches st0 (w_st (run_iam days_before name_key no_provider service lifecycle j (world st0)).2).
Proof. apply iam_job; [apply iam_here|apply iam_world_rely, _]. Qed.

Definition grant_job : IamJob := AccountJob (ctx 1) [] (AccountHandler.AssignRoleRpc "6" "2" "50").

Lemma accounts_invariant_witness :
  exists st', reaches st0 st' /\ emails_unique (users (accounts (store_db st'))).
Proof.
  eexists. split; [exact (one_job grant_job)|].
  exact (proj1 (proj2 (accounts_invariant days_before name_key no_provider service lifecycle service_lawful
    st0 _ st0_ok (one_job grant_job)))).
Defined.

(** A run and its result, without the world it leaves. *)
Lemma run_eq {E A} (m : M St E A) w r : (m w).1 = r -> m w = (r, (m w).2).
Proof. destruct (m w) as [r' w']. simpl. by intros ->. Qed.
Lemma run_ok {E A} (m : M St E A) w : is_ok (m w).1 = true -> exists a, m w = (Ok a, (m w).2).
Proof. destruct (m w) as [[a|e] w']; [by exists a|done]. Qed.

Lemma check_user_manage_spec_witness :
  exists w', Accounts.CheckPermission 1 Accounts.permUserManage (Some 9%N) (world st0) = (Ok true, w')
    /\ super_admin 1 (accounts (store_db (w_st w'))).
Proof.
  assert ((Accounts.CheckPermission 1 Accounts.permUserManage (Some 9%N) (world st0)).1 = Ok true) as H
    by (vm_compute; reflexivity).
  apply run_eq in H. eexists. split; [exact H|].
  refine (proj1 (check_user_manage_spec 1 (Some 9%N) (world st0) true _ _ H) eq_refl).
  apply (steps_run (R := store_step istep) _ _ _ _ (CheckPermission_steps _ _ _ _) H (iam_world_rely _ st0)), st0_ok.
Defined.

Lemma managed_calls_witness :
  exists l, w_log (AccountHandler.handle name_key no_provider service (ctx 2) []
      (AccountHandler.AssignRoleRpc "6" "2" "50") (world st0)).2 = l ++ []
    /\ Forall (fun p => p.1 = p.2) l.
Proof.
  exact (proj2 (managed_calls_need_super_admin name_key no_provider service (ctx 2) []
    (AccountHandler.AssignRoleRpc "6" "2" "50") (caller 2) (world st0) eq_refl eq_refl member_not_admin
    (iam_world_rely _ st0))).
Defined.

Lemma calls_stay_in_tenant_witness :
  exists l, w_log (AccountHandler.handle name_key no_provider service (ctx 1) []
      (AccountHandler.AssignRoleRpc "6" "2" "50") (world st0)).2 = l ++ []
    /\ Forall (fun p => within 6 (store_db p.1) (store_db p.2)) l.
Proof.
  exact (calls_stay_in_tenant name_key no_provider service service_lawful 6 (ctx 1) []
    (AccountHandler.AssignRoleRpc "6" "2" "50") (caller 1) (world st0) eq_refl eq_refl eq_refl st0_ok
    (iam_world_rely _ st0)).
Defined.

(** ** Sessions *)

Definition revoked : St :=
  mkStore (set_sessions (incr_user_generation (session_ttl * 2) 2 redis0) db0) [].

Lemma revoked_session_stays_revoked_witness :
  is_ok (Accounts.RefreshToken service "live" (world revoked)).1 = false.
Proof.
  refine (revoked_session_stays_revoked days_before name_key no_provider service lifecycle service_lawful
    st0 revoked "live" (payload 0) session_end (world revoked) st0_ok eq_refl eq_refl eq_refl
    (revoke_user (payload 0) db0) (iam_here _ _ _ _ _ _) _ _).
  - intros e He. vm_compute in He. injection He as <-. vm_compute. reflexivity.
  - apply iam_world_rely. intros st. split; [by split|done].
Defined.

Lemma refresh_is_single_use_witness :
  exists pair w', Accounts.RefreshToken service "live" (world st0) = (Ok pair, w')
    /\ get_refresh (tp_RefreshToken pair) (sessions (store_db (w_st w'))) = Some (payload 0).
Proof.
  destruct (refresh_is_single_use service "live" (payload 0) (world st0) eq_refl (iam_world_quiet st0) signs eq_refl)
    as (pair & w' & H & _ & Hs & _). exists pair, w'. exact (conj H Hs).
Defined.

Lemma revocation_can_revive_witness :
  exists pair w', Accounts.RefreshToken service "late" (RevokeAllForUser tokenIssuer 2 (world st0)).2 = (Ok pair, w').
Proof.
  refine (proj2 (revocation_can_revive service "late" (payload 1) (world st0) _ eq_refl (iam_world_quiet st0) signs
    eq_refl eq_refl eq_refl eq_refl (run_eq _ _ _ _))).
  vm_compute. reflexivity.
Defined.

Definition result2 : AuthResult :=
  mkAuthResult 2 6 "ravi@example.com" "Ravi" ["member"] ["document:read"] ProviderLocal false start_time.
Lemma access_token_round_trip_witness :
  exists pair w' expires, Issue tokenIssuer result2 (world st0) = (Ok pair, w')
    /\ tp_ExpiresAt pair - ns_per_sec < expires.
Proof.
  destruct (evals_Issue tokenIssuer result2 (world st0) (iam_world_quiet st0) signs) as (pair & w' & H).
  destruct (access_token_round_trip result2 (world st0) pair w' H) as (expires & [He _] & _);
    [vm_compute; reflexivity..|]. exists pair, w', expires. exact (conj H He).
Defined.

Lemma hash_of_verifies password : VerifyPassword password (hash_of password) = true.
Proof.
  unfold hash_of. rewrite verify_hash by auto using be_bytes_length, be_bytes_bytes. by apply bool_decide_eq_true.
Qed.

Lemma login_succeeds_iff_witness :
  exists pair w', Accounts.Login no_provider service 6 "ravi@example.com" "hidden" (world st0) = (Ok pair, w').
Proof.
  apply (login_succeeds_iff no_provider service 6 "ravi@example.com" "hidden" (world st0) (iam_world_quiet st0) signs st0_ok).
  - intros t' _. by left.
  - exists user2. split; [by split; [exists 2%N|]|].
    split; [by exists tenant6|]. split; [done|]. split; [done|]. split; [done|]. apply hash_of_verifies.
Defined.

(** ** Invitations and tenants *)

Lemma accept_invitation_witness :
  exists a b inv, (a, b) ∈ w_log (Accounts.AcceptInvitation service "tok" "chosen" (world st0)).2
    /\ i_Email inv = "new@example.com" /\ accepted inv "chosen" (store_db a) (store_db b).
Proof.
  assert (is_ok (Accounts.AcceptInvitation service "tok" "chosen" (world st0)).1 = true) as Hok by (vm_compute; reflexivity).
  destruct (run_ok _ _ Hok) as [pair Hrun].
  destruct (proj2 (accept_invitation_all_or_nothing service service_lawful "tok" "chosen" (world st0) st0_ok
    (iam_world_rely _ st0) eq_refl) pair) as (a & b & inv & Hin & (Htok & _ & (w1 & Hread) & _) & Hacc); [by rewrite Hrun|].
  exists a, b, inv. split; [exact Hin|]. split; [|exact Hacc].
  assert ((AccountPostgres.GetInvitationByToken "tok" (world st0)).1
    = Ok (AccountPostgres.invitationFromDB (invitation 60 "new@example.com" "tok" 51))) as Hget by (vm_compute; reflexivity).
  rewrite Hread in Hget. injection Hget as ->. reflexivity.
Defined.

Lemma supervisor_invitation_witness :
  Forall (fun p => accounts (store_db p.2) = accounts (store_db p.1))
    (w_log (Accounts.AcceptInvitation service "sup" "chosen" (world st0)).2).
Proof.
  refine (proj2 (supervisor_invitation_never_accepted service service_lawful "sup" "chosen" 52 (role 52 6) (world st0)
    st0_ok (iam_world_quiet st0) eq_refl _ eq_refl eq_refl _)).
  - vm_compute. reflexivity.
  - intros k i Hk Htok. cbn [store_db w_st world st0 db0 accounts accounts0 invitations] in Hk.
    by apply lookup_insert_Some in Hk as [[<- <-]|[_ [<- <-]%lookup_singleton_Some]].
Defined.

Definition new_tenant_request : Tenant :=
  AccountHandler.tenant_of_req uuid_nil (AccountHandler.mkTenantReq "  Blue   Sky " "starter" false "" "" "" "in" "" "").
Lemma created_tenant_witness :
  exists t' w', Accounts.CreateTenant name_key service new_tenant_request (world st0) = (Ok t', w')
    /\ t_CountryCode t' = "IN" /\ forall sr, sr ∈ Accounts.systemRoles -> has_role (t_ID t') sr (store_db (w_st w')).
Proof.
  assert (is_ok (Accounts.CreateTenant name_key service new_tenant_request (world st0)).1 = true) as Hok
    by (vm_compute; reflexivity).
  destruct (run_ok _ _ Hok) as [t' Hrun]. exists t'. eexists. split; [exact Hrun|].
  destruct (created_tenant_is_complete name_key service service_lawful new_tenant_request t' (world st0) _ st0_ok
    (iam_world_rely _ st0) Hrun) as (_ & _ & Hc & _ & _ & Hr). exact (conj Hc Hr).
Defined.

Definition duplicate : User := mkUser 9 6 "ravi@example.com" "Ravi" "" "" zero_time.
Lemma missing_rows_witness :
  exists e w', Accounts.CreateUser duplicate "x" (world st0) = (Err e, w')
    /\ st_code (TenancyHandler.grpcError e) = Internal.
Proof.
  assert (is_ok (Accounts.CreateUser duplicate "x" (world st0)).1 = false) as Hno by (vm_compute; reflexivity).
  destruct (Accounts.CreateUser duplicate "x" (world st0)) as [[u|e] w'] eqn:H; [done|]. exists e, w'. split; [done|].
  refine (proj1 (missing_rows_answer_internal name_key duplicate (AccountHandler.tenant_of_req 6
    (AccountHandler.mkTenantReq "" "" false "" "" "" "" "" "")) "x" (world st0) _ _) e w' H); done.
Defined.

(** ** Passwords and secrets *)

Lemma password_round_trip_witness :
  VerifyPassword "secret" (hash_with "secret" (be_bytes 16 5)) = true.
Proof.
  exact (proj1 (password_round_trip "secret" "other" (be_bytes 16 5) (be_bytes_length 16 5) (be_bytes_bytes 16 5))).
Defined.

Definition key0 : list N := repeat 7%N 32.
Lemma secret_round_trip_witness :
  match encrypt_with key0 (be_bytes 12 9) "s3cret" with
  | Some stored => length key0 = keyLen /\ Decrypt key0 stored = Some "s3cret"
  | None => length key0 <> keyLen /\ forall stored, Decrypt key0 stored = None
  end.
Proof. exact (secret_round_trip key0 (be_bytes 12 9) "s3cret" (be_bytes_length 12 9) (be_bytes_bytes 12 9)). Defined.

(** ** Two runs that go wrong *)

(** Between the GET and the DEL of one exchange of "live", another client makes the
    same exchange. *)
Definition env2 : Env :=
  mkEnv (fun n => 900 + N.of_nat n)%N 0 (fun n => start_time + Z.of_nat n * 1000) 0 (fun _ => false) 0 0.
Definition exchange_race : World St :=
  mkWorld st0 env2
    (fun n st => if Nat.eqb n 1 then w_st (Accounts.RefreshToken service "live" (world st)).2 else st) [].

(** A refresh token can be exchanged twice.  Its GET and DEL go out in one
    pipeline, which is no transaction: the server may run another client's commands
    between the two, and if both clients read before either deletes, both get a pair
    of tokens, and two sessions live on from the one. *)
Theorem refresh_token_exchanged_twice :
  is_ok (Accounts.RefreshToken service "live" (world st0)).1 = true
  /\ is_ok (Accounts.RefreshToken service "live" exchange_race).1 = true
  /\ length (List.filter (fun e => bool_decide (rp_UserID e.2.1 = 2%N) && bool_decide (rp_Generation e.2.1 = 0))
      (map_to_list (refresh_tokens (sessions (store_db (w_st (Accounts.RefreshToken service "live" exchange_race).2))))))
     = 2%nat.
Proof. split_and!; vm_compute; reflexivity. Qed.

(** User 3 still has a bcrypt hash of "old" (the reference primitive's form). *)
Definition user3 : UserRow :=
  mkUserRow 3 6 "meera@example.com" "Meera" "$2a$old" "active" (start_time - ns_per_hour).
Definition st3 : St :=
  mkStore (set_accounts (set_users (<[3%N := user3]> (users accounts0)) accounts0) db0) [].
(** After a login with "old" has read the hash, and before it stores a new one, the
    password is changed to "new". *)
Definition rehash_race : World St :=
  mkWorld st3 env (fun n st => if Nat.eqb n 2 then w_st (Accounts.ChangePassword service 6 3 "old" "new" (world st)).2 else st) [].
Definition hash3 (w : World St) : string :=
  default "" (us_PasswordHash <$> users (accounts (store_db (w_st w))) !! 3%N).

(** The upgrade of an old hash can undo a password change.  The goroutine a login
    starts stores a hash of the password it was given without asking whether the hash
    it read is still there: when the user changes the password in between, the old
    password logs in afterwards and the new one does not.  ChangePassword reported
    success. *)
Theorem rehash_undoes_password_change :
  is_ok (Accounts.ChangePassword service 6 3 "old" "new" (world st3)).1 = true
  /\ is_ok (Accounts.rehashIfNeeded 6 "meera@example.com" "old" rehash_race).1 = true
  /\ VerifyPassword "old" (hash3 (Accounts.rehashIfNeeded 6 "meera@example.com" "old" rehash_race).2) = true
  /\ VerifyPassword "new" (hash3 (Accounts.rehashIfNeeded 6 "meera@example.com" "old" rehash_race).2) = false.
Proof. split_and!; vm_compute; reflexivity. Qed.

(** A request for a tenant whose fifth database call, the third role, fails. *)
Definition seeding_fails : World St :=
  mkWorld st0 (mkEnv (fun n => 100 + N.of_nat n)%N 0 (fun n => start_time + Z.of_nat n * 1000) 0 (Nat.eqb 4) 0 0)
    (fun _ st => st) [].
Definition error_of {A} (r : result (error IamErr) A) : option IamErr :=
  match r with Ok _ => None | Err e => sentinel e end.

(** A tenant whose seeding failed stays, with some of its roles, and blocks the
    retry the comment promises: the name is taken. *)
Theorem failed_seeding_blocks_retry :
  let first := Accounts.CreateTenant name_key service new_tenant_request seeding_fails in
  is_ok first.1 = false
  /\ length (List.filter (fun r => negb (bool_decide (ro_TenantID r = 6%N))) (rows (roles (accounts (store_db (w_st first.2))))))
     = 2%nat
  /\ error_of (Accounts.CreateTenant name_key service new_tenant_request (world (w_st first.2))).1 = Some ErrTenantNameTaken.
Proof. split_and!; vm_compute; reflexivity. Qed.

End witnesses.
