(* ===== verification/BillingModel.v ===== *)
(** Billing: the data of services/billing/models.go and errors.go, and the tables
    of migrations/billing. *)

From S2P Require Export Interceptor Platform.
Local Open Scope Z_scope.

(** ** Errors *)

Inductive BErr :=
| ErrSubscriptionNotFound | ErrSubscriptionAlreadyExists | ErrInvoiceNotFound
| ErrPaymentMethodNotFound | ErrInvalidPlan | ErrDowngradeNotAllowed | ErrSubscriptionCancelled
| ErrSubscriptionSuspended | ErrInvoiceAlreadyPaid | ErrPlanLimitExceeded
| ErrNoDefaultPaymentMethod | ErrOutboxEventNotFound.

#[export] Instance BErr_eq_dec : EqDecision BErr.
Proof. solve_decision. Defined.

Definition BErr_text (e : BErr) : string :=
  match e with
  | ErrSubscriptionNotFound => "billing: subscription not found"
  | ErrSubscriptionAlreadyExists => "billing: tenant already has a subscription"
  | ErrInvoiceNotFound => "billing: invoice not found"
  | ErrPaymentMethodNotFound => "billing: payment method not found"
  | ErrInvalidPlan => "billing: invalid plan name"
  | ErrDowngradeNotAllowed => "billing: downgrade not allowed — remove resources first"
  | ErrSubscriptionCancelled => "billing: subscription is cancelled"
  | ErrSubscriptionSuspended => "billing: subscription is suspended"
  | ErrInvoiceAlreadyPaid => "billing: invoice is already paid"
  | ErrPlanLimitExceeded => "billing: plan limit exceeded"
  | ErrNoDefaultPaymentMethod => "billing: no default payment method on file"
  | ErrOutboxEventNotFound => "billing: outbox event not found"
  end.

(** [err.Error()] *)
Definition error_text (e : error BErr) : string :=
  match e with
  | ESent s => BErr_text s
  | EWrap t _ => t
  | EText t => t
  end.

(** ** Plans *)

(** -1 means unlimited. *)
Record PlanLimits := mkLimits {
  MaxActiveProductions : Z;
  MaxUsers : Z;
  MaxStorageGB : Z;
}.

Definition PlanLimitsByName (plan : string) : option PlanLimits :=
  if decide (plan = "starter") then Some (mkLimits 2 10 5)
  else if decide (plan = "professional") then Some (mkLimits 10 50 50)
  else if decide (plan = "enterprise") then Some (mkLimits (-1) (-1) (-1))
  else None.

Record CheckLimitRequest := mkCheckLimit {
  cl_TenantID : uuid;
  cl_Resource : string;
  cl_CurrentProductions : Z;
  cl_CurrentUsers : Z;
}.
Record LimitResult := mkLimitResult { lr_Allowed : bool; lr_Reason : string }.

Definition TrialDays : Z := 14.

Section model.
Context {X : External}.

(** ** Domain model *)

Record Subscription := mkSubscription {
  su_ID : uuid;
  su_TenantID : uuid;
  su_Plan : string;
  su_Status : string;
  su_BillingCycle : string;
  su_CurrentPeriodStart : Time;
  su_CurrentPeriodEnd : Time;
  su_TrialEndsAt : option Time;
  su_CancelledAt : option Time;
  su_SuspendedAt : option Time;
  su_RazorpaySubID : string;
  su_StripeSubID : string;
  su_CreatedAt : Time;
  su_UpdatedAt : Time;
}.

Record Invoice := mkInvoice {
  iv_ID : uuid;
  iv_TenantID : uuid;
  iv_SubscriptionID : uuid;
  iv_InvoiceNumber : string;
  iv_PeriodStart : Time;
  iv_PeriodEnd : Time;
  iv_Plan : string;
  iv_Amount : Dec;
  iv_TaxAmount : Dec;
  iv_TotalAmount : Dec;
  iv_Currency : string;
  iv_Status : string;
  iv_DueDate : Time;
  iv_PaidAt : option Time;
  iv_PaymentMethod : string;
  iv_GatewayTxnID : string;
  iv_PDFDocumentID : option uuid;
  iv_CreatedAt : Time;
}.

Record PaymentMethod := mkPaymentMethod {
  pm_ID : uuid;
  pm_TenantID : uuid;
  pm_Type : string;
  pm_DisplayName : string;
  pm_IsDefault : bool;
  pm_RazorpayToken : string;
  pm_StripePMID : string;
  pm_ExpiresAt : option Time;
  pm_CreatedAt : Time;
}.

(** A stored usage record has the same columns. *)
Record UsageRecord := mkUsage {
  us_ID : uuid;
  us_TenantID : uuid;
  us_PeriodStart : Time;
  us_PeriodEnd : Time;
  us_ActiveProductions : Z;
  us_UserCount : Z;
  us_StorageGB : Dec;
  us_RecordedAt : Time;
}.

(** A stored attempt has the same columns; gateway_response is never written. *)
Record DunningAttempt := mkDunning {
  da_ID : uuid;
  da_InvoiceID : uuid;
  da_AttemptNumber : Z;
  da_AttemptedAt : Time;
  da_Result : string;
  da_NextRetryAt : option Time;
}.

Record UsageSummary := mkUsageSummary {
  um_TenantID : uuid;
  um_Plan : string;
  um_Usage : UsageRecord;
  um_Limits : PlanLimits;
  um_UpdatedAt : Time;
}.

(** A row of event_outbox. *)
Record OutboxEvent := mkOutbox {
  ob_ID : uuid;
  ob_Subject : string;
  ob_TenantID : uuid;
  ob_Payload : json;
  ob_CreatedAt : Time;
  ob_SentAt : option Time;
  ob_Attempts : Z;
  ob_LastError : option string;
}.

(** [OldestPendingSeconds] is a gauge for the dashboard and is left out. *)
Record OutboxStats := mkStats { os_Pending : Z; os_Dead : Z }.

(** ** Tables *)

Record SubscriptionRow := mkSubscriptionRow {
  sr_ID : uuid;
  sr_TenantID : uuid;
  sr_Plan : string;
  sr_Status : string;
  sr_BillingCycle : string;
  sr_CurrentPeriodStart : Time;
  sr_CurrentPeriodEnd : Time;
  sr_TrialEndsAt : option Time;
  sr_CancelledAt : option Time;
  sr_SuspendedAt : option Time;
  sr_RazorpaySubID : option string;
  sr_StripeSubID : option string;
  sr_CreatedAt : Time;
  sr_UpdatedAt : Time;
}.

Record InvoiceRow := mkInvoiceRow {
  ir_ID : uuid;
  ir_TenantID : uuid;
  ir_SubscriptionID : uuid;
  ir_InvoiceNumber : string;
  ir_Plan : string;
  ir_Amount : Dec;
  ir_TaxAmount : Dec;
  ir_TotalAmount : Dec;
  ir_Currency : string;
  ir_Status : string;
  ir_DueDate : Time;
  ir_PeriodStart : Time;
  ir_PeriodEnd : Time;
  ir_PaidAt : option Time;
  ir_PaymentMethod : option string;
  ir_GatewayTxnID : option string;
  ir_CreatedAt : Time;
}.

Record PaymentMethodRow := mkPaymentMethodRow {
  pw_ID : uuid;
  pw_TenantID : uuid;
  pw_Type : string;
  pw_DisplayName : string;
  pw_IsDefault : bool;
  pw_RazorpayToken : option string;
  pw_StripePMID : option string;
  pw_ExpiresAt : option Time;
  pw_CreatedAt : Time;
}.

Record DeadEvent := mkDead {
  de_ID : uuid;
  de_Subject : string;
  de_TenantID : uuid;
  de_Payload : json;
  de_CreatedAt : Time;
  de_Attempts : Z;
  de_LastError : option string;
  de_DiedAt : Time;
}.

(** What a consumer acts on: the subject, the tenant and the payload. *)
Definition Content : Type := string * uuid * json.

(** The tables; [tenant_ids] are the keys of the tenants table.  Two fields record
    the past and no statement reads them: [issued], the identifiers
    gen_random_uuid() has given to outbox rows, each with the event it was given
    to, and [replayed], the events an operator has brought back from the dead
    table. *)
Record DB := mkDB {
  tenant_ids : gset uuid;
  subscriptions : gmap uuid SubscriptionRow;
  invoices : gmap uuid InvoiceRow;
  payment_methods : gmap uuid PaymentMethodRow;
  usage_records : gmap uuid UsageRecord;
  invoice_sequences : gmap Z Z;
  dunning_attempts : gmap uuid DunningAttempt;
  event_outbox : gmap uuid OutboxEvent;
  event_outbox_dead : gmap uuid DeadEvent;
  issued : gmap uuid Content;
  replayed : gset uuid;
}.
Definition set_subscriptions t d := mkDB (tenant_ids d) t (invoices d) (payment_methods d) (usage_records d)
  (invoice_sequences d) (dunning_attempts d) (event_outbox d) (event_outbox_dead d) (issued d) (replayed d).
Definition set_invoices t d := mkDB (tenant_ids d) (subscriptions d) t (payment_methods d) (usage_records d)
  (invoice_sequences d) (dunning_attempts d) (event_outbox d) (event_outbox_dead d) (issued d) (replayed d).
Definition set_payment_methods t d := mkDB (tenant_ids d) (subscriptions d) (invoices d) t (usage_records d)
  (invoice_sequences d) (dunning_attempts d) (event_outbox d) (event_outbox_dead d) (issued d) (replayed d).
Definition set_usage_records t d := mkDB (tenant_ids d) (subscriptions d) (invoices d) (payment_methods d) t
  (invoice_sequences d) (dunning_attempts d) (event_outbox d) (event_outbox_dead d) (issued d) (replayed d).
Definition set_invoice_sequences t d := mkDB (tenant_ids d) (subscriptions d) (invoices d) (payment_methods d) (usage_records d)
  t (dunning_attempts d) (event_outbox d) (event_outbox_dead d) (issued d) (replayed d).
Definition set_dunning_attempts t d := mkDB (tenant_ids d) (subscriptions d) (invoices d) (payment_methods d) (usage_records d)
  (invoice_sequences d) t (event_outbox d) (event_outbox_dead d) (issued d) (replayed d).
Definition set_outbox t d := mkDB (tenant_ids d) (subscriptions d) (invoices d) (payment_methods d) (usage_records d)
  (invoice_sequences d) (dunning_attempts d) t (event_outbox_dead d) (issued d) (replayed d).
Definition set_outboxes t dead ids d := mkDB (tenant_ids d) (subscriptions d) (invoices d) (payment_methods d)
  (usage_records d) (invoice_sequences d) (dunning_attempts d) t dead ids (replayed d).
Definition set_replayed ids d := mkDB (tenant_ids d) (subscriptions d) (invoices d) (payment_methods d)
  (usage_records d) (invoice_sequences d) (dunning_attempts d) (event_outbox d) (event_outbox_dead d) (issued d)
  ids.

End model.

(** The state of the service: the tables and the envelopes in the stream. *)
Abbreviation St := (Store DB Envelope) (only parsing).
