(* ===== verification/BillingQueries.v ===== *)
(** Billing: the SQL statements written out in services/billing/db/postgres.go, on
    the tables of migrations/billing with their constraints. *)

From S2P Require Export BillingModel.
Local Open Scope Z_scope.

(** UPDATE ... WHERE and DELETE ... WHERE. *)
Definition update_where {A} (p : A -> bool) (f : A -> A) (t : gmap uuid A) : gmap uuid A :=
  (fun r => if p r then f r else r) <$> t.
Definition delete_where {A} (p : A -> bool) (t : gmap uuid A) : gmap uuid A :=
  filter (fun kv => p kv.2 = false) t.

(** A DATE column keeps the day. *)
Definition pg_date (t : Time) : Time := t / ns_per_day * ns_per_day.

(** pgx refuses an int that an INTEGER column cannot hold. *)
Definition int4_ok (z : Z) : bool := bool_decide (- 2 ^ 31 <= z < 2 ^ 31).

Section queries.
Context {X : External}.

(** ** subscriptions *)

Definition subscriptions_check (plan status cycle : string) : bool :=
  bool_decide (plan ∈ ["starter"; "professional"; "enterprise"])
  && bool_decide (status ∈ ["trialing"; "active"; "past_due"; "cancelled"; "suspended"])
  && bool_decide (cycle ∈ ["monthly"; "annual"]).

Definition of_tenant (tenantID : uuid) (r : SubscriptionRow) : bool :=
  bool_decide (sr_TenantID r = tenantID).

(** ON CONFLICT (tenant_id) DO NOTHING *)
Definition CreateSubscription (s : Subscription) (d : DB) : result pg_error (unit * DB) :=
  if negb (subscriptions_check (su_Plan s) (su_Status s) (su_BillingCycle s)) then Err PgConstraint
  else if exists_row (of_tenant (su_TenantID s)) (subscriptions d) then Ok (tt, d)
  else if bool_decide (is_Some (subscriptions d !! su_ID s)) then Err PgUniqueViolation
  else if bool_decide (su_TenantID s ∉ tenant_ids d) then Err PgConstraint
  else let r := mkSubscriptionRow (su_ID s) (su_TenantID s) (su_Plan s) (su_Status s)
                  (su_BillingCycle s) (pg_time (su_CurrentPeriodStart s))
                  (pg_time (su_CurrentPeriodEnd s)) (pg_time <$> su_TrialEndsAt s) None None None None
                  (pg_time (su_CreatedAt s)) (pg_time (su_UpdatedAt s)) in
       Ok (tt, set_subscriptions (<[su_ID s := r]> (subscriptions d)) d).

Definition GetSubscriptionByTenant (tenantID : uuid) (d : DB) : result pg_error SubscriptionRow :=
  one_row (select (of_tenant tenantID) (subscriptions d)).

Definition updated_subscription (s : Subscription) (r : SubscriptionRow) : SubscriptionRow :=
  mkSubscriptionRow (sr_ID r) (sr_TenantID r) (su_Plan s) (su_Status s) (su_BillingCycle s)
    (pg_time (su_CurrentPeriodStart s)) (pg_time (su_CurrentPeriodEnd s))
    (pg_time <$> su_TrialEndsAt s) (pg_time <$> su_CancelledAt s) (pg_time <$> su_SuspendedAt s)
    (Some (su_RazorpaySubID s)) (Some (su_StripeSubID s)) (sr_CreatedAt r)
    (pg_time (su_UpdatedAt s)).

Definition UpdateSubscription (s : Subscription) (d : DB) : result pg_error (unit * DB) :=
  let p := of_tenant (su_TenantID s) in
  if exists_row p (subscriptions d)
     && negb (subscriptions_check (su_Plan s) (su_Status s) (su_BillingCycle s))
  then Err PgConstraint
  else Ok (tt, set_subscriptions (update_where p (updated_subscription s) (subscriptions d)) d).

(** ** event_outbox and event_outbox_dead *)

Definition is_unsent (r : OutboxEvent) : bool := bool_decide (ob_SentAt r = None).

(** The row gets a fresh id and the defaults. *)
Definition insert_outbox (id : uuid) (now : Time) (subject : string) (tenantID : uuid)
    (payload : json) (d : DB) : result pg_error (unit * DB) :=
  if bool_decide (is_Some (event_outbox d !! id)) then Err PgUniqueViolation
  else Ok (tt, set_outboxes
        (<[id := mkOutbox id subject tenantID payload (pg_time now) None 0 None]> (event_outbox d))
        (event_outbox_dead d) (<[id := (subject, tenantID, payload)]> (issued d)) d).

Definition created_le (r r' : OutboxEvent) : bool := bool_decide (ob_CreatedAt r <= ob_CreatedAt r').
Definition bump_attempts (r : OutboxEvent) : OutboxEvent :=
  mkOutbox (ob_ID r) (ob_Subject r) (ob_TenantID r) (ob_Payload r) (ob_CreatedAt r) (ob_SentAt r)
    (ob_Attempts r + 1) (ob_LastError r).

Section claim.
(** The rows other sessions hold locked when the statement runs, and the order in
    which it returns the rows it updated. *)
Variable locked : DB -> uuid -> bool.
Variable returning : list OutboxEvent -> list OutboxEvent.

(** SELECT id ... WHERE sent_at IS NULL ORDER BY created_at FOR UPDATE SKIP LOCKED
    LIMIT $1 *)
Definition claimed_ids (limit : Z) (d : DB) : gset uuid :=
  list_to_set (ob_ID <$> limit_offset limit 0 (order_by created_le
    (select (fun r => is_unsent r && negb (locked d (ob_ID r))) (event_outbox d)))).

Definition ClaimUnsentOutbox (limit : Z) (d : DB) : result pg_error (list OutboxEvent * DB) :=
  if bool_decide (limit < 0) then Err PgConstraint
  else let ids := claimed_ids limit d in
       let claimed r := bool_decide (ob_ID r ∈ ids) in
       let t := update_where claimed bump_attempts (event_outbox d) in
       Ok (returning (select claimed t), set_outbox t d).
End claim.

Definition sent_row (now : Time) (r : OutboxEvent) : OutboxEvent :=
  mkOutbox (ob_ID r) (ob_Subject r) (ob_TenantID r) (ob_Payload r) (ob_CreatedAt r)
    (Some (pg_time now)) (ob_Attempts r) (ob_LastError r).
Definition MarkOutboxSent (now : Time) (id : uuid) (d : DB) : result pg_error (unit * DB) :=
  Ok (tt, set_outbox (alter (sent_row now) id (event_outbox d)) d).

Definition failed_row (errMsg : string) (r : OutboxEvent) : OutboxEvent :=
  mkOutbox (ob_ID r) (ob_Subject r) (ob_TenantID r) (ob_Payload r) (ob_CreatedAt r) (ob_SentAt r)
    (ob_Attempts r) (Some errMsg).
Definition RecordOutboxFailure (id : uuid) (errMsg : string) (d : DB) : result pg_error (unit * DB) :=
  Ok (tt, set_outbox (alter (failed_row errMsg) id (event_outbox d)) d).

Definition sent_before (cutoff : Time) (r : OutboxEvent) : bool :=
  match ob_SentAt r with Some t => bool_decide (t < cutoff) | None => false end.
Definition DeleteSentOutboxOlderThan (cutoff : Time) (d : DB) : result pg_error (Z * DB) :=
  let p := sent_before (pg_time cutoff) in
  Ok (Z.of_nat (length (select p (event_outbox d))),
      set_outbox (delete_where p (event_outbox d)) d).

Definition dead_row (now : Time) (errMsg : string) (r : OutboxEvent) : DeadEvent :=
  mkDead (ob_ID r) (ob_Subject r) (ob_TenantID r) (ob_Payload r) (ob_CreatedAt r) (ob_Attempts r)
    (Some errMsg) (pg_time now).

(** The two statements of MoveOutboxToDead.  Their transaction runs at READ
    COMMITTED: each sees what was committed when it began, and what the first
    inserts is visible to others only once the transaction commits, after the
    second.

    INSERT ... SELECT ... ON CONFLICT (id) DO NOTHING: the row it adds, none when
    there is no event to copy or the dead table has it already. *)
Definition insert_dead (now : Time) (id : uuid) (errMsg : string) (d : DB) : option DeadEvent :=
  match event_outbox d !! id, event_outbox_dead d !! id with
  | Some r, None => Some (dead_row now errMsg r)
  | _, _ => None
  end.
(** The dead table with the row the transaction inserted. *)
Definition with_dead (id : uuid) (inserted : option DeadEvent) (dead : gmap uuid DeadEvent) :
    gmap uuid DeadEvent :=
  match inserted, dead !! id with
  | Some r, None => <[id := r]> dead
  | _, _ => dead
  end.
(** DELETE FROM event_outbox, whatever event has the identifier by now, and the
    commit. *)
Definition delete_moved (id : uuid) (inserted : option DeadEvent) (d : DB) :
    result pg_error (unit * DB) :=
  Ok (tt, set_outboxes (delete id (event_outbox d)) (with_dead id inserted (event_outbox_dead d))
            (issued d) d).

Definition OutboxStats (d : DB) : result pg_error BillingModel.OutboxStats :=
  Ok (mkStats (Z.of_nat (length (select is_unsent (event_outbox d))))
        (Z.of_nat (length (rows (event_outbox_dead d))))).

(** The columns ListDeadOutbox selects. *)
Definition dead_event (r : DeadEvent) : OutboxEvent :=
  mkOutbox (de_ID r) (de_Subject r) (de_TenantID r) (de_Payload r) (de_CreatedAt r) None
    (de_Attempts r) (de_LastError r).
Definition died_ge (r r' : DeadEvent) : bool := bool_decide (de_DiedAt r' <= de_DiedAt r).
Definition ListDeadOutbox (limit : Z) (d : DB) : result pg_error (list OutboxEvent) :=
  if bool_decide (limit < 0) then Err PgConstraint
  else Ok (dead_event <$> limit_offset limit 0 (order_by died_ge (rows (event_outbox_dead d)))).

Definition rearmed (r : DeadEvent) : OutboxEvent :=
  mkOutbox (de_ID r) (de_Subject r) (de_TenantID r) (de_Payload r) (de_CreatedAt r) None 0 None.

(** INSERT ... SELECT, which returns the number of rows, then DELETE. *)
Definition reinsert_outbox (id : uuid) (d : DB) : result pg_error (Z * DB) :=
  match event_outbox_dead d !! id with
  | None => Ok (0, d)
  | Some r =>
    if bool_decide (is_Some (event_outbox d !! id)) then Err PgUniqueViolation
    else Ok (1, set_outbox (<[id := rearmed r]> (event_outbox d)) d)
  end.
Definition delete_dead (id : uuid) (d : DB) : DB :=
  set_replayed ({[id]} ∪ replayed d)
    (set_outboxes (event_outbox d) (delete id (event_outbox_dead d)) (issued d) d).

(** ** invoices and invoice_sequences *)

Definition invoice_status_ok (status : string) : bool :=
  bool_decide (status ∈ ["pending"; "paid"; "overdue"; "void"; "failed"]).

(** ON CONFLICT (id) DO NOTHING *)
Definition CreateInvoice (inv : Invoice) (d : DB) : result pg_error (unit * DB) :=
  match dec_numeric_14_2 (iv_Amount inv), dec_numeric_14_2 (iv_TaxAmount inv),
        dec_numeric_14_2 (iv_TotalAmount inv) with
  | Some amount, Some tax, Some total =>
    if negb (invoice_status_ok (iv_Status inv)) then Err PgConstraint
    else if bool_decide (is_Some (invoices d !! iv_ID inv)) then Ok (tt, d)
    else if exists_row (fun r => bool_decide (ir_InvoiceNumber r = iv_InvoiceNumber inv)) (invoices d)
    then Err PgUniqueViolation
    else if bool_decide (iv_TenantID inv ∉ tenant_ids d)
            || bool_decide (subscriptions d !! iv_SubscriptionID inv = None) then Err PgConstraint
    else let r := mkInvoiceRow (iv_ID inv) (iv_TenantID inv) (iv_SubscriptionID inv)
                    (iv_InvoiceNumber inv) (iv_Plan inv) amount tax total (iv_Currency inv)
                    (iv_Status inv) (pg_date (iv_DueDate inv)) (pg_time (iv_PeriodStart inv))
                    (pg_time (iv_PeriodEnd inv)) None None None (pg_time (iv_CreatedAt inv)) in
         Ok (tt, set_invoices (<[iv_ID inv := r]> (invoices d)) d)
  | _, _, _ => Err PgConstraint
  end.

Definition GetInvoice (tenantID id : uuid) (d : DB) : result pg_error InvoiceRow :=
  get_row (invoices d) id (fun r => bool_decide (ir_TenantID r = tenantID)).

(** ORDER BY created_at DESC *)
Definition invoice_newer (r r' : InvoiceRow) : bool := bool_decide (ir_CreatedAt r' <= ir_CreatedAt r).
Definition ListInvoices (tenantID : uuid) (limit offset : Z) (d : DB) :
    result pg_error (list InvoiceRow) :=
  if bool_decide (limit < 0) || bool_decide (offset < 0) then Err PgConstraint
  else Ok (limit_offset limit offset
         (order_by invoice_newer (select (fun r => bool_decide (ir_TenantID r = tenantID)) (invoices d)))).

Definition updated_invoice (inv : Invoice) (r : InvoiceRow) : InvoiceRow :=
  mkInvoiceRow (ir_ID r) (ir_TenantID r) (ir_SubscriptionID r) (ir_InvoiceNumber r) (ir_Plan r)
    (ir_Amount r) (ir_TaxAmount r) (ir_TotalAmount r) (ir_Currency r) (iv_Status inv) (ir_DueDate r)
    (ir_PeriodStart r) (ir_PeriodEnd r) (pg_time <$> iv_PaidAt inv) (Some (iv_PaymentMethod inv))
    (Some (iv_GatewayTxnID inv)) (ir_CreatedAt r).
Definition UpdateInvoice (inv : Invoice) (d : DB) : result pg_error (unit * DB) :=
  match GetInvoice (iv_TenantID inv) (iv_ID inv) d with
  | Err _ => Ok (tt, d)
  | Ok r =>
    if negb (invoice_status_ok (iv_Status inv)) then Err PgConstraint
    else Ok (tt, set_invoices (<[iv_ID inv := updated_invoice inv r]> (invoices d)) d)
  end.

Definition NextInvoiceSeq (year : Z) (d : DB) : result pg_error (Z * DB) :=
  let seq := match invoice_sequences d !! year with Some n => n + 1 | None => 1 end in
  if int4_ok seq then Ok (seq, set_invoice_sequences (<[year := seq]> (invoice_sequences d)) d)
  else Err PgConstraint.

(** ** payment_methods *)

Definition pm_of_tenant (tenantID : uuid) (r : PaymentMethodRow) : bool :=
  bool_decide (pw_TenantID r = tenantID).

(** ON CONFLICT (id) DO NOTHING *)
Definition CreatePaymentMethod (pm : PaymentMethod) (d : DB) : result pg_error (unit * DB) :=
  if bool_decide (is_Some (payment_methods d !! pm_ID pm)) then Ok (tt, d)
  else if bool_decide (pm_TenantID pm ∉ tenant_ids d) then Err PgConstraint
  else let r := mkPaymentMethodRow (pm_ID pm) (pm_TenantID pm) (pm_Type pm) (pm_DisplayName pm)
                  (pm_IsDefault pm) (Some (pm_RazorpayToken pm)) (Some (pm_StripePMID pm))
                  (pg_time <$> pm_ExpiresAt pm) (pg_time (pm_CreatedAt pm)) in
       Ok (tt, set_payment_methods (<[pm_ID pm := r]> (payment_methods d)) d).

Definition GetPaymentMethod (tenantID id : uuid) (d : DB) : result pg_error PaymentMethodRow :=
  get_row (payment_methods d) id (pm_of_tenant tenantID).

(** ORDER BY is_default DESC, created_at ASC *)
Definition pm_le (r r' : PaymentMethodRow) : bool :=
  match pw_IsDefault r, pw_IsDefault r' with
  | true, false => true
  | false, true => false
  | _, _ => bool_decide (pw_CreatedAt r <= pw_CreatedAt r')
  end.
Definition ListPaymentMethods (tenantID : uuid) (d : DB) : result pg_error (list PaymentMethodRow) :=
  Ok (order_by pm_le (select (pm_of_tenant tenantID) (payment_methods d))).

Definition with_default (is_default : bool) (expires : option Time) (r : PaymentMethodRow) :
    PaymentMethodRow :=
  mkPaymentMethodRow (pw_ID r) (pw_TenantID r) (pw_Type r) (pw_DisplayName r) is_default
    (pw_RazorpayToken r) (pw_StripePMID r) expires (pw_CreatedAt r).
(** The number of rows updated, and deleted. *)
Definition UpdatePaymentMethod (pm : PaymentMethod) (d : DB) : result pg_error (Z * DB) :=
  match GetPaymentMethod (pm_TenantID pm) (pm_ID pm) d with
  | Err _ => Ok (0, d)
  | Ok r => Ok (1, set_payment_methods
                     (<[pm_ID pm := with_default (pm_IsDefault pm) (pg_time <$> pm_ExpiresAt pm) r]>
                        (payment_methods d)) d)
  end.
Definition DeletePaymentMethod (tenantID id : uuid) (d : DB) : result pg_error (Z * DB) :=
  match GetPaymentMethod tenantID id d with
  | Err _ => Ok (0, d)
  | Ok _ => Ok (1, set_payment_methods (delete id (payment_methods d)) d)
  end.
Definition ClearDefaultPaymentMethods (tenantID : uuid) (d : DB) : result pg_error (unit * DB) :=
  Ok (tt, set_payment_methods
       (update_where (pm_of_tenant tenantID) (fun r => with_default false (pw_ExpiresAt r) r)
          (payment_methods d)) d).

(** ** usage_records and dunning_attempts *)

(** ON CONFLICT (id) DO NOTHING *)
Definition CreateUsageRecord (u : UsageRecord) (d : DB) : result pg_error (unit * DB) :=
  match dec_numeric_14_2 (us_StorageGB u) with
  | None => Err PgConstraint
  | Some storage =>
    if negb (int4_ok (us_ActiveProductions u) && int4_ok (us_UserCount u)) then Err PgConstraint
    else if bool_decide (is_Some (usage_records d !! us_ID u)) then Ok (tt, d)
    else if bool_decide (us_TenantID u ∉ tenant_ids d) then Err PgConstraint
    else let r := mkUsage (us_ID u) (us_TenantID u) (pg_time (us_PeriodStart u))
                    (pg_time (us_PeriodEnd u)) (us_ActiveProductions u) (us_UserCount u) storage
                    (pg_time (us_RecordedAt u)) in
         Ok (tt, set_usage_records (<[us_ID u := r]> (usage_records d)) d)
  end.
(** ORDER BY recorded_at DESC LIMIT 1 *)
Definition recorded_later (r r' : UsageRecord) : bool := bool_decide (us_RecordedAt r' <= us_RecordedAt r).
Definition LatestUsageRecord (tenantID : uuid) (d : DB) : result pg_error UsageRecord :=
  one_row (order_by recorded_later
             (select (fun r => bool_decide (us_TenantID r = tenantID)) (usage_records d))).

Definition outcome_ok (outcome : string) : bool :=
  bool_decide (outcome ∈ ["success"; "failed"; "card_declined"; "insufficient_funds"]).
(** ON CONFLICT (id) DO NOTHING *)
Definition CreateDunningAttempt (a : DunningAttempt) (d : DB) : result pg_error (unit * DB) :=
  if negb (outcome_ok (da_Result a) && int4_ok (da_AttemptNumber a)) then Err PgConstraint
  else if bool_decide (is_Some (dunning_attempts d !! da_ID a)) then Ok (tt, d)
  else if bool_decide (invoices d !! da_InvoiceID a = None) then Err PgConstraint
  else let r := mkDunning (da_ID a) (da_InvoiceID a) (da_AttemptNumber a) (pg_time (da_AttemptedAt a))
                  (da_Result a) (pg_time <$> da_NextRetryAt a) in
       Ok (tt, set_dunning_attempts (<[da_ID a := r]> (dunning_attempts d)) d).

Definition attempt_le (r r' : DunningAttempt) : bool :=
  bool_decide (da_AttemptNumber r <= da_AttemptNumber r').
(** JOIN invoices ... ORDER BY attempt_number *)
Definition ListDunningAttempts (tenantID invoiceID : uuid) (d : DB) :
    result pg_error (list DunningAttempt) :=
  Ok (order_by attempt_le (select (fun r => bool_decide (da_InvoiceID r = invoiceID)
        && is_ok (GetInvoice tenantID invoiceID d)) (dunning_attempts d))).

End queries.
