(* ===== verification/BillingPostgres.v ===== *)
(** Billing: the repository methods of services/billing/db/postgres.go over the
    statements of [BillingQueries]. *)

From S2P Require Export BillingModel.
From S2P Require BillingQueries.
Local Open Scope Z_scope.

Section postgres.
Context {X : External}.
(** gen_random_uuid() from a random draw, given the identifiers it has already
    handed out. *)
Variable gen_random_uuid : uuid -> gset uuid -> uuid.
Variable locked : DB -> uuid -> bool.
Variable returning : list OutboxEvent -> list OutboxEvent.

Abbreviation Repo := (M St (error BErr)) (only parsing).

(** ** Row scanners *)

Definition scanSubscription (r : SubscriptionRow) : Subscription :=
  mkSubscription (sr_ID r) (sr_TenantID r) (sr_Plan r) (sr_Status r) (sr_BillingCycle r)
    (sr_CurrentPeriodStart r) (sr_CurrentPeriodEnd r) (sr_TrialEndsAt r) (sr_CancelledAt r)
    (sr_SuspendedAt r) (stringFromPgText (sr_RazorpaySubID r)) (stringFromPgText (sr_StripeSubID r))
    (sr_CreatedAt r) (sr_UpdatedAt r).

(** [PDFDocumentID] is not a column. *)
Definition scanInvoice (r : InvoiceRow) : Invoice :=
  mkInvoice (ir_ID r) (ir_TenantID r) (ir_SubscriptionID r) (ir_InvoiceNumber r) (ir_PeriodStart r)
    (ir_PeriodEnd r) (ir_Plan r) (ir_Amount r) (ir_TaxAmount r) (ir_TotalAmount r) (ir_Currency r)
    (ir_Status r) (ir_DueDate r) (ir_PaidAt r) (stringFromPgText (ir_PaymentMethod r))
    (stringFromPgText (ir_GatewayTxnID r)) None (ir_CreatedAt r).

Definition scanPaymentMethod (r : PaymentMethodRow) : PaymentMethod :=
  mkPaymentMethod (pw_ID r) (pw_TenantID r) (pw_Type r) (pw_DisplayName r) (pw_IsDefault r)
    (stringFromPgText (pw_RazorpayToken r)) (stringFromPgText (pw_StripePMID r)) (pw_ExpiresAt r)
    (pw_CreatedAt r).

(** ** Subscriptions *)

Definition CreateSubscription (s : Subscription) : Repo unit :=
  map_err (pg_wrap "billing: create subscription: %w") (q_exec (BillingQueries.CreateSubscription s)).

Definition GetSubscriptionByTenant (tenantID : uuid) : Repo Subscription :=
  row ← map_err (no_rows_as ErrSubscriptionNotFound "billing: get subscription by tenant: %w")
    (q_query (BillingQueries.GetSubscriptionByTenant tenantID));
  mret (scanSubscription row).

Definition UpdateSubscription (s : Subscription) : Repo unit :=
  map_err (pg_wrap "billing: update subscription: %w") (q_exec (BillingQueries.UpdateSubscription s)).

(** ** Outbox *)

(** [tx.Commit]: the answer may be lost after the server committed. *)
Definition commit_answer : Repo unit :=
  with_tx (EText "commit: connection failed") (fun d => Ok (tt, d)).

(** One transaction: the subscription's update and the event, or neither. *)
Definition suspend_tx (draw : uuid) (now : Time) (s : Subscription) (subject : string)
    (payload : json) (d : DB) : result (error BErr) (unit * DB) :=
  match BillingQueries.UpdateSubscription s d with
  | Err e => Err (pg_wrap "billing: suspend subscription (tx): %w" e)
  | Ok (_, d1) =>
    match BillingQueries.insert_outbox (gen_random_uuid draw (dom (issued d1))) now subject (su_TenantID s)
            payload d1 with
    | Err e => Err (pg_wrap "billing: insert outbox: %w" e)
    | Ok (_, d2) => Ok (tt, d2)
    end
  end.
Definition SuspendSubscriptionWithOutbox (s : Subscription) (subject : string) (payload : json) :
    Repo unit :=
  draw ← uuid_new;
  now ← time_now;
  _ ← with_tx (EWrap "billing: begin suspend+outbox tx: %w" (EText "connection failed"))
        (suspend_tx draw now s subject payload);
  commit_answer.

Definition ClaimUnsentOutbox (limit : Z) : Repo (list OutboxEvent) :=
  map_err (pg_wrap "billing: claim outbox: %w")
    (q_exec (BillingQueries.ClaimUnsentOutbox locked returning limit)).

Definition MarkOutboxSent (id : uuid) : Repo unit :=
  now ← time_now;
  map_err (pg_wrap "billing: mark outbox sent: %w") (q_exec (BillingQueries.MarkOutboxSent now id)).

Definition RecordOutboxFailure (id : uuid) (errMsg : string) : Repo unit :=
  map_err (pg_wrap "billing: record outbox failure: %w")
    (q_exec (BillingQueries.RecordOutboxFailure id errMsg)).

Definition DeleteSentOutboxOlderThan (cutoff : Time) : Repo Z :=
  map_err (pg_wrap "billing: delete sent outbox: %w")
    (q_exec (BillingQueries.DeleteSentOutboxOlderThan cutoff)).

(** One transaction of two statements.  Other requests may commit between them, a
    replay that brings the event back included; a failure before the commit leaves
    nothing done. *)
Definition MoveOutboxToDead (id : uuid) (errMsg : string) : Repo unit :=
  now ← time_now;
  inserted ← map_err (pg_wrap "billing: insert dead outbox: %w")
               (q_query (fun d => Ok (BillingQueries.insert_dead now id errMsg d)));
  _ ← map_err (pg_wrap "billing: delete moved outbox: %w")
        (q_exec (BillingQueries.delete_moved id inserted));
  commit_answer.

Definition OutboxStats : Repo BillingModel.OutboxStats :=
  map_err (pg_wrap "billing: outbox stats: %w") (q_query BillingQueries.OutboxStats).

Definition ListDeadOutbox (limit : Z) : Repo (list OutboxEvent) :=
  map_err (pg_wrap "billing: list dead outbox: %w") (q_query (BillingQueries.ListDeadOutbox limit)).

(** One step: its insertion keeps other replays of the event waiting, and the dead
    table's row, once there, is removed by replays only. *)
Definition replay_tx (id : uuid) (d : DB) : result (error BErr) (unit * DB) :=
  match BillingQueries.reinsert_outbox id d with
  | Err e => Err (pg_wrap "billing: reinsert outbox: %w" e)
  | Ok (ct, d1) =>
    if decide (ct = 0) then Err (ESent ErrOutboxEventNotFound)
    else Ok (tt, BillingQueries.delete_dead id d1)
  end.
Definition ReplayDeadOutbox (id : uuid) : Repo unit :=
  _ ← with_tx (EWrap "billing: begin replay tx: %w" (EText "connection failed")) (replay_tx id);
  commit_answer.

(** ** Invoices *)

Definition CreateInvoice (inv : Invoice) : Repo unit :=
  map_err (pg_wrap "billing: create invoice: %w") (q_exec (BillingQueries.CreateInvoice inv)).

Definition GetInvoice (tenantID id : uuid) : Repo Invoice :=
  row ← map_err (no_rows_as ErrInvoiceNotFound "billing: scan invoice: %w")
    (q_query (BillingQueries.GetInvoice tenantID id));
  mret (scanInvoice row).

Definition ListInvoices (tenantID : uuid) (limit offset : Z) : Repo (list Invoice) :=
  rows ← map_err (pg_wrap "billing: list invoices: %w")
    (q_query (BillingQueries.ListInvoices tenantID limit offset));
  mret (scanInvoice <$> rows).

Definition UpdateInvoice (inv : Invoice) : Repo unit :=
  map_err (pg_wrap "billing: update invoice: %w") (q_exec (BillingQueries.UpdateInvoice inv)).

Definition NextInvoiceSeq (year : Z) : Repo Z :=
  map_err (pg_wrap "billing: next invoice seq: %w") (q_exec (BillingQueries.NextInvoiceSeq year)).

(** ** Payment methods *)

Definition CreatePaymentMethod (pm : PaymentMethod) : Repo unit :=
  map_err (pg_wrap "billing: create payment method: %w")
    (q_exec (BillingQueries.CreatePaymentMethod pm)).

Definition GetPaymentMethod (tenantID id : uuid) : Repo PaymentMethod :=
  row ← map_err (fun e => match e with PgNoRows => ESent ErrPaymentMethodNotFound | _ => pg_text e end)
    (q_query (BillingQueries.GetPaymentMethod tenantID id));
  mret (scanPaymentMethod row).

Definition ListPaymentMethods (tenantID : uuid) : Repo (list PaymentMethod) :=
  rows ← map_err (pg_wrap "billing: list payment methods: %w")
    (q_query (BillingQueries.ListPaymentMethods tenantID));
  mret (scanPaymentMethod <$> rows).

(** [if tag.RowsAffected() == 0 { return ErrPaymentMethodNotFound }] *)
Definition some_rows (tag : Z) : Repo unit :=
  if decide (tag = 0) then mthrow (ESent ErrPaymentMethodNotFound) else mret tt.

Definition UpdatePaymentMethod (pm : PaymentMethod) : Repo unit :=
  tag ← map_err (pg_wrap "billing: update payment method: %w")
    (q_exec (BillingQueries.UpdatePaymentMethod pm));
  some_rows tag.

Definition DeletePaymentMethod (tenantID id : uuid) : Repo unit :=
  tag ← map_err (pg_wrap "billing: delete payment method: %w")
    (q_exec (BillingQueries.DeletePaymentMethod tenantID id));
  some_rows tag.

Definition ClearDefaultPaymentMethods (tenantID : uuid) : Repo unit :=
  map_err (pg_wrap "billing: clear default payment methods: %w")
    (q_exec (BillingQueries.ClearDefaultPaymentMethods tenantID)).

(** ** Usage and dunning *)

Definition CreateUsageRecord (u : UsageRecord) : Repo unit :=
  map_err (pg_wrap "billing: create usage record: %w") (q_exec (BillingQueries.CreateUsageRecord u)).

(** No sentinel for a missing record. *)
Definition LatestUsageRecord (tenantID : uuid) : Repo UsageRecord :=
  map_err (fun e => match e with
                    | PgNoRows => EText "billing: no usage record found"
                    | _ => pg_wrap "billing: latest usage record: %w" e end)
    (q_query (BillingQueries.LatestUsageRecord tenantID)).

(** The invoice is the tenant boundary. *)
Definition CreateDunningAttempt (tenantID : uuid) (a : DunningAttempt) : Repo unit :=
  _ ← GetInvoice tenantID (da_InvoiceID a);
  map_err (pg_wrap "billing: create dunning attempt: %w")
    (q_exec (BillingQueries.CreateDunningAttempt a)).

Definition ListDunningAttempts (tenantID invoiceID : uuid) : Repo (list DunningAttempt) :=
  map_err (pg_wrap "billing: list dunning attempts: %w")
    (q_query (BillingQueries.ListDunningAttempts tenantID invoiceID)).

End postgres.
