(* ===== verification/Billing.v ===== *)
(** Billing: the service methods of services/billing/service.go. *)

From S2P Require Export BillingModel.
From S2P Require BillingPostgres.
Local Open Scope Z_scope.

(** The rest of [decimal.Decimal] that invoices use. *)
Class InvoiceMath `{External} := {
  dec_mul : Dec -> Dec -> Dec;
  dec_round : Z -> Dec -> Dec;
  (** [decimal.NewFromFloat(0.18)] *)
  dec_018 : Dec;
}.

Section service.
Context {X : External}.
Variable gen_random_uuid : uuid -> gset uuid -> uuid.

Abbreviation Op := (M St (error BErr)) (only parsing).

Definition invalid_plan {A} : Op A := mthrow (EWrap "%w: %q" (ESent ErrInvalidPlan)).

(** [sub, err := s.repo.GetSubscriptionByTenant(...)], wrapped on error. *)
Definition get_subscription (tenantID : uuid) : Op Subscription :=
  wrap "get subscription: %w" (BillingPostgres.GetSubscriptionByTenant tenantID).

(** ** Subscription management *)

Definition period_end (billingCycle : string) (now : Time) : Time :=
  if decide (billingCycle = "annual") then AddDate 1 0 0 now else AddDate 0 1 0 now.
Definition new_subscription (id tenantID : uuid) (plan billingCycle : string) (now : Time) :
    Subscription :=
  mkSubscription id tenantID plan "trialing" billingCycle now (period_end billingCycle now)
    (Some (now + TrialDays * 24 * ns_per_hour)) None None "" "" now now.

Definition CreateSubscription (tenantID : uuid) (plan billingCycle : string) : Op Subscription :=
  match PlanLimitsByName plan with
  | None => invalid_plan
  | Some _ =>
    let billingCycle := if decide (billingCycle = "") then "monthly" else billingCycle in
    existing ← try (E' := error BErr) (BillingPostgres.GetSubscriptionByTenant tenantID);
    if is_ok existing then mthrow (ESent ErrSubscriptionAlreadyExists)
    else
    now ← time_now;
    id ← uuid_new;
    let sub := new_subscription id tenantID plan billingCycle now in
    _ ← wrap "create subscription: %w" (BillingPostgres.CreateSubscription sub);
    mret sub
  end.

Definition GetSubscription (tenantID : uuid) : Op Subscription := get_subscription tenantID.

Definition set_plan (plan status : string) (now : Time) (s : Subscription) : Subscription :=
  mkSubscription (su_ID s) (su_TenantID s) plan status (su_BillingCycle s) (su_CurrentPeriodStart s)
    (su_CurrentPeriodEnd s) (su_TrialEndsAt s) (su_CancelledAt s) (su_SuspendedAt s)
    (su_RazorpaySubID s) (su_StripeSubID s) (su_CreatedAt s) now.

Definition UpgradeSubscription (tenantID : uuid) (newPlan : string) : Op Subscription :=
  match PlanLimitsByName newPlan with
  | None => invalid_plan
  | Some _ =>
    sub ← get_subscription tenantID;
    if decide (su_Status sub = "cancelled") then mthrow (ESent ErrSubscriptionCancelled)
    else if decide (su_Status sub = "suspended") then mthrow (ESent ErrSubscriptionSuspended)
    else
    let status := if decide (su_Status sub = "trialing") then "active" else su_Status sub in
    now ← time_now;
    let sub := set_plan newPlan status now sub in
    _ ← wrap "update subscription: %w" (BillingPostgres.UpdateSubscription sub);
    mret sub
  end.

Definition cancelled (now : Time) (s : Subscription) : Subscription :=
  mkSubscription (su_ID s) (su_TenantID s) (su_Plan s) "cancelled" (su_BillingCycle s)
    (su_CurrentPeriodStart s) (su_CurrentPeriodEnd s) (su_TrialEndsAt s) (Some now) (su_SuspendedAt s)
    (su_RazorpaySubID s) (su_StripeSubID s) (su_CreatedAt s) now.
Definition CancelSubscription (tenantID : uuid) : Op Subscription :=
  sub ← get_subscription tenantID;
  if decide (su_Status sub = "cancelled") then mthrow (ESent ErrSubscriptionCancelled)
  else
  now ← time_now;
  let sub := cancelled now sub in
  _ ← wrap "cancel subscription: %w" (BillingPostgres.UpdateSubscription sub);
  mret sub.

Definition suspended (now : Time) (s : Subscription) : Subscription :=
  mkSubscription (su_ID s) (su_TenantID s) (su_Plan s) "suspended" (su_BillingCycle s)
    (su_CurrentPeriodStart s) (su_CurrentPeriodEnd s) (su_TrialEndsAt s) (su_CancelledAt s) (Some now)
    (su_RazorpaySubID s) (su_StripeSubID s) (su_CreatedAt s) now.
Definition suspended_payload (subID : uuid) (now : Time) : json :=
  marshal_suspended (mkSuspendedPayload (uuid_string subID) (format_rfc3339 now)
                       (format_rfc3339 (AddDate 0 0 30 now))).
Definition SuspendSubscription (tenantID : uuid) : Op Subscription :=
  sub ← get_subscription tenantID;
  now ← time_now;
  let sub := suspended now sub in
  _ ← wrap "suspend subscription: %w"
        (BillingPostgres.SuspendSubscriptionWithOutbox gen_random_uuid sub
           SubjectBillingSubscriptionSuspended (suspended_payload (su_ID sub) now));
  mret sub.

(** ** Plan enforcement *)

(** [limits.Max != -1 && current >= limits.Max] *)
Definition at_limit (current max : Z) : bool := negb (bool_decide (max = -1)) && bool_decide (max <= current).
Definition limit_reached (what : string) (current max : Z) (plan : string) : LimitResult :=
  mkLimitResult false (what +:+ " limit reached (" +:+ Itoa current +:+ "/" +:+ Itoa max +:+ ") on "
                       +:+ plan +:+ " plan").

Definition CheckPlanLimit (req : CheckLimitRequest) : Op LimitResult :=
  sub ← get_subscription (cl_TenantID req);
  if decide (su_Status sub = "suspended") then mret (mkLimitResult false "account is suspended")
  else match PlanLimitsByName (su_Plan sub) with
  | None => invalid_plan
  | Some limits =>
    if decide (cl_Resource req = "production")
    then if at_limit (cl_CurrentProductions req) (MaxActiveProductions limits)
         then mret (limit_reached "production" (cl_CurrentProductions req)
                      (MaxActiveProductions limits) (su_Plan sub))
         else mret (mkLimitResult true "")
    else if decide (cl_Resource req = "user")
    then if at_limit (cl_CurrentUsers req) (MaxUsers limits)
         then mret (limit_reached "user" (cl_CurrentUsers req) (MaxUsers limits) (su_Plan sub))
         else mret (mkLimitResult true "")
    else mthrow (EText "billing: unknown resource type %q")
  end.

(** ** Invoices *)

Section invoices.
Context {MM : InvoiceMath}.

Definition invoice_number (year seq : Z) : string := "INV-" +:+ Itoa year +:+ "-" +:+ pad0 5 seq.

(** The struct after the method filled it in; the year is that of the local
    clock. *)
Definition CreateInvoice (inv : Invoice) : Op Invoice :=
  id ← (if decide (iv_ID inv = uuid_nil) then uuid_new else mret (iv_ID inv));
  number ← (if decide (iv_InvoiceNumber inv = "")
            then now ← time_now;
                 zone ← local_zone;
                 let year := year_utc (now + zone) in
                 seq ← wrap "allocate invoice number: %w" (BillingPostgres.NextInvoiceSeq year);
                 mret (invoice_number year seq)
            else mret (iv_InvoiceNumber inv));
  let status := if decide (iv_Status inv = "") then "pending" else iv_Status inv in
  let tax := if bool_decide (iv_Currency inv = "INR") && dec_equal (iv_TaxAmount inv) dec_zero
             then dec_round 2 (dec_mul (iv_Amount inv) dec_018) else iv_TaxAmount inv in
  now ← time_now;
  let inv := mkInvoice id (iv_TenantID inv) (iv_SubscriptionID inv) number (iv_PeriodStart inv)
               (iv_PeriodEnd inv) (iv_Plan inv) (iv_Amount inv) tax (dec_add (iv_Amount inv) tax)
               (iv_Currency inv) status (iv_DueDate inv) (iv_PaidAt inv) (iv_PaymentMethod inv)
               (iv_GatewayTxnID inv) (iv_PDFDocumentID inv) now in
  _ ← BillingPostgres.CreateInvoice inv;
  mret inv.
End invoices.

Definition GetInvoice (tenantID id : uuid) : Op Invoice := BillingPostgres.GetInvoice tenantID id.

Definition ListInvoices (tenantID : uuid) (limit offset : Z) : Op (list Invoice) :=
  let limit := if bool_decide (limit <= 0) || bool_decide (100 < limit) then 20 else limit in
  BillingPostgres.ListInvoices tenantID limit offset.

Definition set_invoice_status (status : string) (paid : option Time) (txn : string) (inv : Invoice) :
    Invoice :=
  mkInvoice (iv_ID inv) (iv_TenantID inv) (iv_SubscriptionID inv) (iv_InvoiceNumber inv)
    (iv_PeriodStart inv) (iv_PeriodEnd inv) (iv_Plan inv) (iv_Amount inv) (iv_TaxAmount inv)
    (iv_TotalAmount inv) (iv_Currency inv) status (iv_DueDate inv) paid (iv_PaymentMethod inv) txn
    (iv_PDFDocumentID inv) (iv_CreatedAt inv).

Definition MarkInvoicePaid (tenantID id : uuid) (gatewayTxnID : string) : Op Invoice :=
  inv ← wrap "get invoice: %w" (BillingPostgres.GetInvoice tenantID id);
  if decide (iv_Status inv = "paid") then mthrow (ESent ErrInvoiceAlreadyPaid)
  else
  now ← time_now;
  let inv := set_invoice_status "paid" (Some now) gatewayTxnID inv in
  _ ← wrap "update invoice: %w" (BillingPostgres.UpdateInvoice inv);
  sub ← try (E' := error BErr) (BillingPostgres.GetSubscriptionByTenant tenantID);
  _ ← match sub with
      | Ok sub =>
        if decide (su_Status sub = "past_due")
        then _ ← try (E' := error BErr) (BillingPostgres.UpdateSubscription (set_plan (su_Plan sub) "active" now sub));
             mret tt
        else mret tt
      | Err _ => mret tt
      end;
  mret inv.

Definition MarkInvoiceOverdue (tenantID id : uuid) : Op Invoice :=
  inv ← wrap "get invoice: %w" (BillingPostgres.GetInvoice tenantID id);
  let inv := set_invoice_status "overdue" (iv_PaidAt inv) (iv_GatewayTxnID inv) inv in
  _ ← wrap "update invoice: %w" (BillingPostgres.UpdateInvoice inv);
  mret inv.

(** ** Payment methods *)

Definition with_pm_id (id : uuid) (now : Time) (pm : PaymentMethod) : PaymentMethod :=
  mkPaymentMethod id (pm_TenantID pm) (pm_Type pm) (pm_DisplayName pm) (pm_IsDefault pm)
    (pm_RazorpayToken pm) (pm_StripePMID pm) (pm_ExpiresAt pm) now.
(** The struct after the method filled it in. *)
Definition AddPaymentMethod (pm : PaymentMethod) : Op PaymentMethod :=
  id ← (if decide (pm_ID pm = uuid_nil) then uuid_new else mret (pm_ID pm));
  now ← time_now;
  let pm := with_pm_id id now pm in
  _ ← BillingPostgres.CreatePaymentMethod pm;
  mret pm.

Definition RemovePaymentMethod (tenantID id : uuid) : Op unit :=
  _ ← wrap "get payment method: %w" (BillingPostgres.GetPaymentMethod tenantID id);
  BillingPostgres.DeletePaymentMethod tenantID id.

Definition maxPaymentMethods : nat := 20.
Definition ListPaymentMethods (tenantID : uuid) : Op (list PaymentMethod) :=
  methods ← BillingPostgres.ListPaymentMethods tenantID;
  mret (take maxPaymentMethods methods).

Definition as_default (pm : PaymentMethod) : PaymentMethod :=
  mkPaymentMethod (pm_ID pm) (pm_TenantID pm) (pm_Type pm) (pm_DisplayName pm) true
    (pm_RazorpayToken pm) (pm_StripePMID pm) (pm_ExpiresAt pm) (pm_CreatedAt pm).
Definition SetDefaultPaymentMethod (tenantID id : uuid) : Op unit :=
  pm ← wrap "get payment method: %w" (BillingPostgres.GetPaymentMethod tenantID id);
  _ ← wrap "clear defaults: %w" (BillingPostgres.ClearDefaultPaymentMethods tenantID);
  BillingPostgres.UpdatePaymentMethod (as_default pm).

(** ** Usage metering and dunning *)

Definition RecordUsage (u : UsageRecord) : Op UsageRecord :=
  id ← (if decide (us_ID u = uuid_nil) then uuid_new else mret (us_ID u));
  now ← time_now;
  let u := mkUsage id (us_TenantID u) (us_PeriodStart u) (us_PeriodEnd u) (us_ActiveProductions u)
             (us_UserCount u) (us_StorageGB u) now in
  _ ← BillingPostgres.CreateUsageRecord u;
  mret u.

Definition no_usage (tenantID : uuid) : UsageRecord :=
  mkUsage uuid_nil tenantID zero_time zero_time 0 0 dec_zero zero_time.
Definition GetUsageSummary (tenantID : uuid) : Op UsageSummary :=
  sub ← get_subscription tenantID;
  match PlanLimitsByName (su_Plan sub) with
  | None => invalid_plan
  | Some limits =>
    r ← try (E' := error BErr) (BillingPostgres.LatestUsageRecord tenantID);
    let usage := match r with Ok u => u | Err _ => no_usage tenantID end in
    mret (mkUsageSummary tenantID (su_Plan sub) usage limits (us_RecordedAt usage))
  end.

Definition RecordDunningAttempt (tenantID : uuid) (a : DunningAttempt) : Op DunningAttempt :=
  id ← (if decide (da_ID a = uuid_nil) then uuid_new else mret (da_ID a));
  now ← time_now;
  let a := mkDunning id (da_InvoiceID a) (da_AttemptNumber a) now (da_Result a) (da_NextRetryAt a) in
  _ ← BillingPostgres.CreateDunningAttempt tenantID a;
  mret a.

Definition ListDunningAttempts (tenantID invoiceID : uuid) : Op (list DunningAttempt) :=
  BillingPostgres.ListDunningAttempts tenantID invoiceID.

End service.
