(* ===== verification/BillingRelay.v ===== *)
(** Billing: the outbox relay of services/billing/outbox_relay.go and the commands
    of cmd/outbox-admin. *)

From S2P Require Export BillingModel.
From S2P Require BillingPostgres.
Local Open Scope Z_scope.

Definition relayBatchSize : Z := 100.
Definition relayCleanupEach : Z := 240.
Definition relaySentTTL : Z := 7 * 24 * ns_per_hour.
Definition maxOutboxAttempts : Z := 5.
Definition brokerHealthyWindow : Z := 5 * 60 * ns_per_sec.

Section relay.
Context {X : External}.
Variable locked : DB -> uuid -> bool.
Variable returning : list OutboxEvent -> list OutboxEvent.

Abbreviation Op := (M St (error BErr)) (only parsing).

(** The field a relay keeps between batches. *)
Record Relay := mkRelay { lastPublishSuccess : Time }.
Definition NewRelay : Relay := mkRelay zero_time.

(** What the first loop of a batch has so far: the count, the relay, and the events
    that failed with their errors. *)
Record Batch := mkBatch {
  bt_published : Z;
  bt_relay : Relay;
  bt_failed : list (OutboxEvent * error BErr);
}.

(** [for _, e := range events] *)
Fixpoint publish_each (events : list OutboxEvent) (b : Batch) : Op Batch :=
  match events with
  | [] => mret b
  | e :: events' =>
    r ← try (E' := error BErr) (Publish (ob_Subject e) (ob_TenantID e) (ob_Payload e));
    match r with
    | Err perr => publish_each events' (mkBatch (bt_published b) (bt_relay b) (bt_failed b ++ [(e, perr)]))
    | Ok _ =>
      m ← try (E' := error BErr) (BillingPostgres.MarkOutboxSent (ob_ID e));
      match m with
      | Err _ => publish_each events' b
      | Ok _ =>
        now ← time_now;
        publish_each events' (mkBatch (bt_published b + 1) (mkRelay now) (bt_failed b))
      end
    end
  end.

(** [for _, f := range failed] *)
Fixpoint settle_each (brokerHealthy : bool) (failed : list (OutboxEvent * error BErr)) : Op unit :=
  match failed with
  | [] => mret tt
  | (e, err) :: failed' =>
    _ ← (if brokerHealthy && bool_decide (maxOutboxAttempts <= ob_Attempts e)
         then try (E' := error BErr) (BillingPostgres.MoveOutboxToDead (ob_ID e) (error_text err))
         else try (E' := error BErr) (BillingPostgres.RecordOutboxFailure (ob_ID e) (error_text err)));
    settle_each brokerHealthy failed'
  end.

(** The clock is read only when nothing was published. *)
Definition broker_healthy (b : Batch) : Op bool :=
  if bool_decide (0 < bt_published b) then mret true
  else now ← time_now;
       mret (bool_decide (time_Sub now (lastPublishSuccess (bt_relay b)) < brokerHealthyWindow)).

Definition processBatch (r : Relay) (limit : Z) : Op (Z * Relay) :=
  events ← BillingPostgres.ClaimUnsentOutbox locked returning limit;
  b ← publish_each events (mkBatch 0 r []);
  healthy ← broker_healthy b;
  _ ← settle_each healthy (bt_failed b);
  mret (bt_published b, bt_relay b).

(** The gauges themselves are left out. *)
Definition updateGauges : Op unit :=
  _ ← try (E' := error BErr) BillingPostgres.OutboxStats; mret tt.

(** One tick of [Run], the [ticks]-th: a batch that failed as a whole is logged,
    and leaves the relay as it was. *)
Definition tick (r : Relay) (ticks : Z) : Op Relay :=
  b ← try (E' := error BErr) (processBatch r relayBatchSize);
  _ ← updateGauges;
  _ ← (if decide (ticks `mod` relayCleanupEach = 0)
       then now ← time_now;
            _ ← try (E' := error BErr) (BillingPostgres.DeleteSentOutboxOlderThan (now - relaySentTTL)); mret tt
       else mret tt);
  mret (match b with Ok (_, r') => r' | Err _ => r end).

(** [Run] until its context is cancelled, after [n] more ticks. *)
Fixpoint run_ticks (n : nat) (r : Relay) (ticks : Z) : Op Relay :=
  match n with
  | O => mret r
  | S n' => r' ← tick r (ticks + 1); run_ticks n' r' (ticks + 1)
  end.
Definition Run (n : nat) : Op Relay := run_ticks n NewRelay 0.

(** ** cmd/outbox-admin *)

Definition deadListLimit : Z := 100.

Definition admin_list : Op (list OutboxEvent) :=
  dead ← BillingPostgres.ListDeadOutbox deadListLimit;
  if decide (dead = []) then mret dead
  else _ ← try (E' := error BErr) BillingPostgres.OutboxStats; mret dead.

Definition admin_replay (id : uuid) : Op unit :=
  map_err (fun e => if errors_Is e ErrOutboxEventNotFound then EText "no dead event with id %s" else e)
    (BillingPostgres.ReplayDeadOutbox id).

(** The events replayed and those that failed. *)
Fixpoint replay_each (dead : list OutboxEvent) (replayed failed : Z) : Op (Z * Z) :=
  match dead with
  | [] => mret (replayed, failed)
  | e :: dead' =>
    r ← try (E' := error BErr) (BillingPostgres.ReplayDeadOutbox (ob_ID e));
    match r with
    | Ok _ => replay_each dead' (replayed + 1) failed
    | Err _ => replay_each dead' replayed (failed + 1)
    end
  end.

Definition admin_replay_all : Op (Z * Z) :=
  dead ← BillingPostgres.ListDeadOutbox deadListLimit;
  if decide (dead = []) then mret (0, 0)
  else _ ← try (E' := error BErr) BillingPostgres.OutboxStats;
       counts ← replay_each dead 0 0;
       if bool_decide (0 < counts.2) then mthrow (EText "%d of %d event(s) failed to replay")
       else mret counts.

End relay.
