(* ===== verification/BillingHandler.v ===== *)
(** Billing: the gRPC handlers of services/billing/handler.go. *)

From S2P Require Export BillingModel.
From S2P Require Billing.
Local Open Scope Z_scope.

(** ** Messages *)

Record PbSubscription := mkPbSubscription {
  pbs_Id : string; pbs_TenantId : string; pbs_Plan : string; pbs_Status : string;
  pbs_BillingCycle : string; pbs_CurrentPeriodStart : Time; pbs_CurrentPeriodEnd : Time;
  pbs_TrialEndsAt : option Time; pbs_CancelledAt : option Time; pbs_CreatedAt : Time;
  pbs_UpdatedAt : Time;
}.
Record PbInvoice := mkPbInvoice {
  pbi_Id : string; pbi_TenantId : string; pbi_SubscriptionId : string; pbi_InvoiceNumber : string;
  pbi_Plan : string; pbi_Amount : string; pbi_TaxAmount : string; pbi_TotalAmount : string;
  pbi_Currency : string; pbi_Status : string; pbi_PeriodStart : Time; pbi_PeriodEnd : Time;
  pbi_DueDate : Time; pbi_GatewayTxnId : string; pbi_CreatedAt : Time; pbi_PaidAt : option Time;
}.
(** No token is ever rendered. *)
Record PbPaymentMethod := mkPbPaymentMethod {
  pbm_Id : string; pbm_TenantId : string; pbm_Type : string; pbm_DisplayName : string;
  pbm_IsDefault : bool; pbm_CreatedAt : Time; pbm_ExpiresAt : option Time;
}.
Record PbUsageSummary := mkPbUsageSummary {
  pbu_TenantId : string; pbu_Plan : string; pbu_ActiveProductions : Z; pbu_UserCount : Z;
  pbu_StorageGb : string; pbu_MaxProductions : Z; pbu_MaxUsers : Z; pbu_MaxStorageGb : Z;
  pbu_UpdatedAt : Time;
}.
Record PaymentMethodReq := mkPaymentMethodReq {
  rm_Type : string; rm_DisplayName : string; rm_RazorpayToken : string; rm_StripePmId : string;
  rm_ExpiresAt : string;
}.

(** The RPCs of BillingService; each but the webhook carries the request's
    tenant_id first. *)
Inductive Rpc :=
| GetSubscriptionRpc (tenant : string)
| CreateSubscriptionRpc (tenant plan billingCycle : string)
| UpgradeSubscriptionRpc (tenant newPlan : string)
| CancelSubscriptionRpc (tenant : string)
| CheckPlanLimitRpc (tenant resource : string) (currentProductions currentUsers : Z)
| ListInvoicesRpc (tenant : string) (limit offset : Z)
| GetInvoiceRpc (tenant invoice : string)
| DownloadInvoiceRpc (tenant invoice : string)
| AddPaymentMethodRpc (tenant : string) (r : PaymentMethodReq)
| RemovePaymentMethodRpc (tenant id : string)
| ListPaymentMethodsRpc (tenant : string)
| SetDefaultPaymentMethodRpc (tenant id : string)
| GetUsageSummaryRpc (tenant : string)
| HandlePaymentWebhookRpc (gateway event body signature : string).

Inductive Response :=
| SubscriptionResp (s : PbSubscription)
| LimitResp (allowed : bool) (reason : string)
| InvoicesResp (l : list PbInvoice) (total : Z)
| InvoiceResp (i : PbInvoice)
| DownloadResp (url expiresAt : string)
| PaymentMethodResp (p : PbPaymentMethod)
| PaymentMethodsResp (l : list PbPaymentMethod)
| UsageResp (u : PbUsageSummary)
| EmptyResp.

(** [grpcErr]: the first case of its switch that [errors.Is] accepts. *)
Definition grpcErr (e : error BErr) : status :=
  let isE s := errors_Is e s in
  if isE ErrSubscriptionNotFound then mkStatus NotFound "subscription not found"
  else if isE ErrSubscriptionAlreadyExists then mkStatus AlreadyExists "subscription already exists"
  else if isE ErrInvoiceNotFound then mkStatus NotFound "invoice not found"
  else if isE ErrPaymentMethodNotFound then mkStatus NotFound "payment method not found"
  else if isE ErrInvalidPlan then mkStatus InvalidArgument "invalid plan name"
  else if isE ErrDowngradeNotAllowed
  then mkStatus FailedPrecondition "downgrade not allowed — remove resources first"
  else if isE ErrSubscriptionCancelled then mkStatus FailedPrecondition "subscription is cancelled"
  else if isE ErrSubscriptionSuspended then mkStatus FailedPrecondition "subscription is suspended"
  else if isE ErrInvoiceAlreadyPaid then mkStatus FailedPrecondition "invoice is already paid"
  else if isE ErrPlanLimitExceeded then mkStatus ResourceExhausted "plan limit exceeded"
  else if isE ErrNoDefaultPaymentMethod
  then mkStatus FailedPrecondition "no default payment method on file"
  else mkStatus Internal "internal error".

Section handler.
Context {X : External}.

(** ** Rendering *)

Definition subToProto (s : Subscription) : PbSubscription :=
  mkPbSubscription (uuid_string (su_ID s)) (uuid_string (su_TenantID s)) (su_Plan s) (su_Status s)
    (su_BillingCycle s) (su_CurrentPeriodStart s) (su_CurrentPeriodEnd s) (su_TrialEndsAt s)
    (su_CancelledAt s) (su_CreatedAt s) (su_UpdatedAt s).

Definition invoiceToProto (i : Invoice) : PbInvoice :=
  mkPbInvoice (uuid_string (iv_ID i)) (uuid_string (iv_TenantID i)) (uuid_string (iv_SubscriptionID i))
    (iv_InvoiceNumber i) (iv_Plan i) (dec_string_fixed2 (iv_Amount i))
    (dec_string_fixed2 (iv_TaxAmount i)) (dec_string_fixed2 (iv_TotalAmount i)) (iv_Currency i)
    (iv_Status i) (iv_PeriodStart i) (iv_PeriodEnd i) (iv_DueDate i) (iv_GatewayTxnID i)
    (iv_CreatedAt i) (iv_PaidAt i).

Definition pmToProto (pm : PaymentMethod) : PbPaymentMethod :=
  mkPbPaymentMethod (uuid_string (pm_ID pm)) (uuid_string (pm_TenantID pm)) (pm_Type pm)
    (pm_DisplayName pm) (pm_IsDefault pm) (pm_CreatedAt pm) (pm_ExpiresAt pm).

Definition usageSummaryToProto (s : UsageSummary) : PbUsageSummary :=
  mkPbUsageSummary (uuid_string (um_TenantID s)) (um_Plan s) (int32 (us_ActiveProductions (um_Usage s)))
    (int32 (us_UserCount (um_Usage s))) (dec_string_fixed2 (us_StorageGB (um_Usage s)))
    (int32 (MaxActiveProductions (um_Limits s))) (int32 (MaxUsers (um_Limits s)))
    (int32 (MaxStorageGB (um_Limits s))) (um_UpdatedAt s).

(** ** The handlers *)

(** What the document service answers: the URL and when it expires. *)
Definition DocClient : Type := string -> string -> result string (string * option Time).

Record Handler := mkHandler {
  h_scoped : bool;
  h_perm : option PermissionChecker;
  h_docClient : option DocClient;
}.
Variable h : Handler.
Variable ctx : Ctx.

Abbreviation Op := (M St status) (only parsing).

(** [TenantFromRequest] and [RequirePermission], which every RPC but the webhook
    starts with. *)
Definition guard (tenant perm : string) : Op uuid :=
  tenantID ← lift_result (TenantFromRequest ctx tenant);
  _ ← lift_result (RequirePermission (h_scoped h) (h_perm h) ctx perm);
  mret tenantID.
(** [if err != nil { return nil, grpcErr(err) }] *)
Definition svc {A} (m : M St (error BErr) A) : Op A := map_err grpcErr m.

Definition GetSubscription (tenant : string) : Op PbSubscription :=
  tenantID ← guard tenant "billing:read";
  sub ← svc (Billing.GetSubscription tenantID);
  mret (subToProto sub).

Definition CreateSubscription (tenant plan billingCycle : string) : Op PbSubscription :=
  tenantID ← guard tenant "billing:manage";
  sub ← svc (Billing.CreateSubscription tenantID plan billingCycle);
  mret (subToProto sub).

Definition UpgradeSubscription (tenant newPlan : string) : Op PbSubscription :=
  tenantID ← guard tenant "billing:manage";
  sub ← svc (Billing.UpgradeSubscription tenantID newPlan);
  mret (subToProto sub).

Definition CancelSubscription (tenant : string) : Op PbSubscription :=
  tenantID ← guard tenant "billing:manage";
  sub ← svc (Billing.CancelSubscription tenantID);
  mret (subToProto sub).

Definition CheckPlanLimit (tenant resource : string) (productions users : Z) : Op LimitResult :=
  tenantID ← guard tenant "billing:read";
  svc (Billing.CheckPlanLimit (mkCheckLimit tenantID resource productions users)).

Definition ListInvoices (tenant : string) (limit offset : Z) : Op (list PbInvoice * Z) :=
  tenantID ← guard tenant "billing:read";
  invoices ← svc (Billing.ListInvoices tenantID limit offset);
  let protos := invoiceToProto <$> invoices in
  mret (protos, int32 (Z.of_nat (length protos))).

Definition invoice_of (tenant invoice : string) : Op (uuid * Invoice) :=
  tenantID ← guard tenant "billing:read";
  id ← lift_result (parse_id invoice "invalid invoice_id: %v");
  inv ← svc (Billing.GetInvoice tenantID id);
  mret (tenantID, inv).

Definition GetInvoice (tenant invoice : string) : Op PbInvoice :=
  '(_, inv) ← invoice_of tenant invoice;
  mret (invoiceToProto inv).

Definition DownloadInvoice (tenant invoice : string) : Op (string * string) :=
  '(tenantID, inv) ← invoice_of tenant invoice;
  match iv_PDFDocumentID inv with
  | None => mthrow (mkStatus NotFound "invoice PDF not yet available")
  | Some doc =>
    match h_docClient h with
    | None => mthrow (mkStatus Unavailable "document service not configured")
    | Some client =>
      match client (uuid_string tenantID) (uuid_string doc) with
      | Err _ => mthrow (mkStatus Internal "fetch invoice download URL: %v")
      | Ok (url, expires) =>
        mret (url, match expires with Some t => format_rfc3339 t | None => "" end)
      end
    end
  end.

Definition AddPaymentMethod (tenant : string) (r : PaymentMethodReq) : Op PbPaymentMethod :=
  tenantID ← guard tenant "billing:manage";
  expires ← lift_result
    (if decide (rm_ExpiresAt r = "") then Ok None
     else match parse_rfc3339 (rm_ExpiresAt r) with
          | Some t => Ok (Some t)
          | None => Err (mkStatus InvalidArgument "invalid expires_at: %v")
          end);
  pm ← svc (Billing.AddPaymentMethod
              (mkPaymentMethod uuid_nil tenantID (rm_Type r) (rm_DisplayName r) false
                 (rm_RazorpayToken r) (rm_StripePmId r) expires zero_time));
  mret (pmToProto pm).

Definition RemovePaymentMethod (tenant id : string) : Op unit :=
  tenantID ← guard tenant "billing:manage";
  id ← lift_result (parse_id id "invalid payment_method_id: %v");
  svc (Billing.RemovePaymentMethod tenantID id).

Definition ListPaymentMethods (tenant : string) : Op (list PbPaymentMethod) :=
  tenantID ← guard tenant "billing:read";
  methods ← svc (Billing.ListPaymentMethods tenantID);
  mret (pmToProto <$> methods).

(** Sets it, then looks for it in the list. *)
Definition SetDefaultPaymentMethod (tenant id : string) : Op PbPaymentMethod :=
  tenantID ← guard tenant "billing:manage";
  id ← lift_result (parse_id id "invalid payment_method_id: %v");
  _ ← svc (Billing.SetDefaultPaymentMethod tenantID id);
  methods ← svc (Billing.ListPaymentMethods tenantID);
  match List.find (fun pm => bool_decide (pm_ID pm = id)) methods with
  | Some pm => mret (pmToProto pm)
  | None => mthrow (mkStatus NotFound "payment method not found after update")
  end.

Definition GetUsageSummary (tenant : string) : Op PbUsageSummary :=
  tenantID ← guard tenant "billing:read";
  summary ← svc (Billing.GetUsageSummary tenantID);
  mret (usageSummaryToProto summary).

(** It ignores the payload. *)
Definition HandlePaymentWebhook (gateway event body signature : string) : Op unit := mret tt.

Definition handle (r : Rpc) : Op Response :=
  match r with
  | GetSubscriptionRpc t => s ← GetSubscription t; mret (SubscriptionResp s)
  | CreateSubscriptionRpc t p c => s ← CreateSubscription t p c; mret (SubscriptionResp s)
  | UpgradeSubscriptionRpc t p => s ← UpgradeSubscription t p; mret (SubscriptionResp s)
  | CancelSubscriptionRpc t => s ← CancelSubscription t; mret (SubscriptionResp s)
  | CheckPlanLimitRpc t r p u =>
    l ← CheckPlanLimit t r p u; mret (LimitResp (lr_Allowed l) (lr_Reason l))
  | ListInvoicesRpc t l o => '(i, n) ← ListInvoices t l o; mret (InvoicesResp i n)
  | GetInvoiceRpc t i => i ← GetInvoice t i; mret (InvoiceResp i)
  | DownloadInvoiceRpc t i => '(u, e) ← DownloadInvoice t i; mret (DownloadResp u e)
  | AddPaymentMethodRpc t r => p ← AddPaymentMethod t r; mret (PaymentMethodResp p)
  | RemovePaymentMethodRpc t i => _ ← RemovePaymentMethod t i; mret EmptyResp
  | ListPaymentMethodsRpc t => l ← ListPaymentMethods t; mret (PaymentMethodsResp l)
  | SetDefaultPaymentMethodRpc t i => p ← SetDefaultPaymentMethod t i; mret (PaymentMethodResp p)
  | GetUsageSummaryRpc t => u ← GetUsageSummary t; mret (UsageResp u)
  | HandlePaymentWebhookRpc g e b s => _ ← HandlePaymentWebhook g e b s; mret EmptyResp
  end.

End handler.
