(* ===== verification/BillingSteps.v ===== *)
(** Billing: the invariant of the outbox and of the subscriptions, and the relation
    [ostep] that every statement of the service, the relay and the operator's
    commands stays within: a recorded event keeps its identifier and content until
    it was published or an operator has replayed it, and an identifier is never
    given to another event. *)

From S2P Require Export BillingModel.
From S2P Require BillingQueries BillingPostgres Billing BillingRelay BillingHandler.
Local Open Scope Z_scope.

Section inv.
Context {X : External}.
Implicit Types (d : DB) (st : St).

Definition row_content (r : OutboxEvent) : Content := (ob_Subject r, ob_TenantID r, ob_Payload r).
Definition dead_content (r : DeadEvent) : Content := (de_Subject r, de_TenantID r, de_Payload r).
Definition env_content (e : Envelope) : Content := (env_Type e, env_TenantID e, env_Payload e).

(** The stream holds an envelope with that content. *)
Definition published (c : Content) (st : St) : Prop := c ∈ env_content <$> store_events st.

(** The content recorded under an identifier, waiting or dead. *)
Definition recorded (k : uuid) (d : DB) : option Content :=
  match event_outbox d !! k with
  | Some r => Some (row_content r)
  | None => dead_content <$> event_outbox_dead d !! k
  end.

(** ** The invariant *)

Definition row_ok (st : St) (k : uuid) (r : OutboxEvent) : Prop :=
  ob_ID r = k /\ issued (store_db st) !! k = Some (row_content r) /\ (ob_SentAt r <> None -> published (row_content r) st).
Definition dead_ok (d : DB) (k : uuid) (r : DeadEvent) : Prop :=
  de_ID r = k /\ issued d !! k = Some (dead_content r) /\ event_outbox d !! k = None.
Definition sub_ok (k : uuid) (r : SubscriptionRow) : Prop :=
  sr_ID r = k /\ BillingQueries.subscriptions_check (sr_Plan r) (sr_Status r) (sr_BillingCycle r) = true.
(** UNIQUE (tenant_id) *)
Definition one_per_tenant (t : gmap uuid SubscriptionRow) : Prop :=
  forall k r k' r', t !! k = Some r -> t !! k' = Some r' -> sr_TenantID r = sr_TenantID r' -> k = k'.

Definition subs_ok (t : gmap uuid SubscriptionRow) : Prop := map_Forall sub_ok t /\ one_per_tenant t.

Record Inv (st : St) : Prop := mkInv {
  inv_rows : map_Forall (row_ok st) (event_outbox (store_db st));
  inv_dead : map_Forall (dead_ok (store_db st)) (event_outbox_dead (store_db st));
  inv_subs : subs_ok (subscriptions (store_db st));
}.

(** ** The relation *)

Record moved (st st' : St) : Prop := mkMoved {
  mv_inv : Inv st';
  mv_events : store_events st `prefix_of` store_events st';
  mv_issued : issued (store_db st) ⊆ issued (store_db st');
  mv_replayed : replayed (store_db st) ⊆ replayed (store_db st');
  mv_gone : forall k, is_Some (issued (store_db st) !! k) -> event_outbox (store_db st) !! k = None ->
    event_outbox (store_db st') !! k = None \/ k ∈ replayed (store_db st');
  mv_kept : forall k c, recorded k (store_db st) = Some c ->
    recorded k (store_db st') = Some c \/ published c st' \/ k ∈ replayed (store_db st');
}.
Definition ostep (st st' : St) : Prop := Inv st -> moved st st'.

Lemma published_prefix c st st' :
  store_events st `prefix_of` store_events st' -> published c st -> published c st'.
Proof. unfold published. intros [l ->]. rewrite fmap_app, elem_of_app. auto. Qed.

#[export] Instance ostep_preorder : PreOrder ostep.
Proof.
  split.
  - intros st H. split; auto.
  - intros s1 s2 s3 H12 H23 H1. destruct (H12 H1) as [I2 E2 S2 R2 G2 K2].
    destruct (H23 I2) as [I3 E3 S3 R3 G3 K3]. split; [done|by etrans|by etrans|by etrans| |].
    + intros k [c Hc] Hk. destruct (G2 k) as [Hn|Hr]; [by eexists|done| |right; by apply R3].
      apply G3; [|done]. exists c. by eapply lookup_weaken.
    + intros k c Hc. destruct (K2 k c Hc) as [Hr|[Hp|Hr]]; [by apply K3|right; left|right; right; by apply R3].
      eapply published_prefix, Hp. done.
Qed.

Lemma recorded_row k r d : event_outbox d !! k = Some r -> recorded k d = Some (row_content r).
Proof. unfold recorded. by intros ->. Qed.
Lemma recorded_dead k r d :
  event_outbox d !! k = None -> event_outbox_dead d !! k = Some r -> recorded k d = Some (dead_content r).
Proof. unfold recorded. by intros -> ->. Qed.

Lemma recorded_issued st k c : Inv st -> recorded k (store_db st) = Some c -> issued (store_db st) !! k = Some c.
Proof.
  intros [Hr Hd _]. unfold recorded. destruct (event_outbox _ !! k) as [r|] eqn:Hk.
  - intros [= <-]. by apply (Hr k r).
  - destruct (event_outbox_dead _ !! k) as [r|] eqn:Hk'; [|done]. intros [= <-]. by apply (Hd k r).
Qed.

(** ** Statements *)

(** A statement that leaves the outbox alone. *)
Lemma ostep_same st d' :
  event_outbox d' = event_outbox (store_db st) -> event_outbox_dead d' = event_outbox_dead (store_db st) ->
  issued d' = issued (store_db st) -> replayed d' = replayed (store_db st) ->
  (subs_ok (subscriptions (store_db st)) -> subs_ok (subscriptions d')) ->
  ostep st (mkStore d' (store_events st)).
Proof.
  intros Ho Hd Hi Hrp Hs [Ir Id Is].
  assert (Hrec : forall k, recorded k d' = recorded k (store_db st)) by (intros; unfold recorded; by rewrite Ho, Hd).
  split; simpl; [|done|by rewrite Hi|by rewrite Hrp|rewrite Ho; auto|intros; left; by rewrite Hrec].
  split; simpl; [rewrite Ho|rewrite Hd|by auto]; intros k r Hk.
  - destruct (Ir k r Hk) as (? & ? & Hp). split_and!; [done|simpl; by rewrite Hi|exact Hp].
  - destruct (Id k r Hk) as (? & ? & ?). split_and!; [done|by rewrite Hi|by rewrite Ho].
Qed.

(** What may become of a row of the outbox: it keeps its identity and content, is
    marked sent only when published, and goes only when it was sent. *)
Definition row_step (st : St) (o o' : option OutboxEvent) : Prop :=
  match o, o' with
  | Some r, Some r' => ob_ID r' = ob_ID r /\ row_content r' = row_content r
      /\ (ob_SentAt r' <> None -> ob_SentAt r <> None \/ published (row_content r) st)
  | Some r, None => ob_SentAt r <> None
  | None, _ => o' = None
  end.

Lemma row_step_refl st o : row_step st o o.
Proof. destruct o; simpl; auto. Qed.

Lemma ostep_rows st t :
  (Inv st -> forall k, row_step st (event_outbox (store_db st) !! k) (t !! k)) ->
  ostep st (mkStore (set_outbox t (store_db st)) (store_events st)).
Proof.
  intros Ht I. specialize (Ht I). destruct I as [Ir Id Is].
  split; simpl; [|done|done|done| |intros k c Hc].
  - split; simpl; [| |done]; intros k r Hk; specialize (Ht k).
    + rewrite Hk in Ht. destruct (event_outbox _ !! k) as [r0|] eqn:Hk0; [|done].
      destruct Ht as (Hid & Hc & Hs), (Ir k r0 Hk0) as (<- & ? & Hp). unfold row_ok. simpl. rewrite Hc.
      split_and!; [done..|]. intros Hsent. by destruct (Hs Hsent); [apply Hp|].
    + destruct (Id k r Hk) as (? & ? & Hn). rewrite Hn in Ht. by split_and!.
  - intros k _ Hk. left. specialize (Ht k). by rewrite Hk in Ht.
  - unfold recorded in *. simpl in *. specialize (Ht k). destruct (event_outbox _ !! k) as [r|] eqn:Hk.
    + injection Hc as <-. destruct (t !! k) as [r'|]; [left; by destruct Ht as (_ & -> & _)|right; left].
      by apply (Ir k r Hk).
    + simpl in Ht. rewrite Ht. by left.
Qed.

(** A new event under an identifier never given before. *)
Lemma ostep_insert st d id r :
  ostep st (mkStore d (store_events st)) -> issued d = issued (store_db st) ->
  replayed d = replayed (store_db st) ->
  event_outbox d = event_outbox (store_db st) -> event_outbox_dead d = event_outbox_dead (store_db st) ->
  issued d !! id = None -> ob_ID r = id -> ob_SentAt r = None ->
  ostep st (mkStore (set_outboxes (<[id := r]> (event_outbox d)) (event_outbox_dead d)
                       (<[id := row_content r]> (issued d)) d) (store_events st)).
Proof.
  intros Hst Hi Hrp Ho Hd Hid Hr Hs I. destruct (Hst I) as [I' _ _ _ _ _].
  assert (Hn : recorded id (store_db st) = None).
  { destruct (recorded id (store_db st)) as [c|] eqn:Hc; [|done].
    apply recorded_issued in Hc; [|done]. rewrite Hi in Hid. congruence. }
  destruct I' as [Ir Id Is]. simpl in *.
  assert (Hrec : forall k, k <> id -> recorded k (set_outboxes (<[id := r]> (event_outbox d)) (event_outbox_dead d)
                       (<[id := row_content r]> (issued d)) d) = recorded k (store_db st)).
  { intros k Hk. unfold recorded. simpl. rewrite lookup_insert_ne by done. by rewrite Ho, Hd. }
  split; simpl; [|done|rewrite <-Hi; by apply insert_subseteq|by rewrite Hrp| |].
  - split; simpl; [| |done].
    + intros k r' Hk. apply lookup_insert_Some in Hk as [[<- <-]|[Hne Hk]].
      * split_and!; [done|simpl; apply lookup_insert_eq|congruence].
      * destruct (Ir k r' Hk) as (? & ? & ?). split_and!; [done|simpl; by rewrite lookup_insert_ne|done].
    + intros k r' Hk. destruct (Id k r' Hk) as (? & ? & Hk').
      assert (k <> id) by (intros ->; congruence). split_and!; [done|simpl; by rewrite lookup_insert_ne|].
      simpl. by rewrite lookup_insert_ne.
  - intros k [c Hc] Hk. left. rewrite lookup_insert_ne; [congruence|]. intros ->. congruence.
  - intros k c Hc. destruct (decide (k = id)) as [->|Hne]; [congruence|]. left. by rewrite Hrec.
Qed.

(** An event that changes its table. *)
Lemma ostep_swap st t dead ids :
  (Inv st ->
     map_Forall (row_ok st) t
     /\ map_Forall (fun k r => de_ID r = k /\ issued (store_db st) !! k = Some (dead_content r)
                               /\ t !! k = None) dead
     /\ (forall k, event_outbox (store_db st) !! k = None -> t !! k = None \/ k ∈ ids)
     /\ replayed (store_db st) ⊆ ids
     /\ forall k c, recorded k (store_db st) = Some c ->
          recorded k (set_outboxes t dead (issued (store_db st)) (store_db st)) = Some c \/ k ∈ ids) ->
  ostep st (mkStore (set_replayed ids (set_outboxes t dead (issued (store_db st)) (store_db st)))
              (store_events st)).
Proof.
  intros H I. destruct (H I) as (H1 & H2 & H3 & H4 & H5).
  split; simpl; [split; simpl; [exact H1|exact H2|apply I]|done|done|done|by auto|].
  intros k c Hc. destruct (H5 k c Hc) as [Hr|Hr]; [by left|by right; right].
Qed.

End inv.

(** Billing: every method, RPC, relay tick and operator's command stays within
    [ostep], whatever runs beside it. *)

Local Open Scope Z_scope.

Section statements.
Context {X : External}.
Implicit Types (d : DB) (st : St).

(** ** Subscriptions *)

Lemma CreateSubscription_subs s d a d' :
  BillingQueries.CreateSubscription s d = Ok (a, d') ->
  subs_ok (subscriptions d) -> subs_ok (subscriptions d').
Proof.
  unfold BillingQueries.CreateSubscription. intros H [Hk Hu].
  destruct (negb _) eqn:Hc; [done|]. destruct (exists_row _ _) eqn:He; [by simplify_eq|].
  case_bool_decide as Hn; [done|]. case_bool_decide; [done|]. simplify_eq. simpl.
  rewrite exists_row_false in He. bool_hyps.
  assert (Hno : forall k r, subscriptions d !! k = Some r -> sr_TenantID r <> su_TenantID s).
  { intros k r Hr Ht. specialize (He k r Hr). unfold BillingQueries.of_tenant in He. by bool_hyps. }
  split; [by apply map_Forall_insert_2|].
  intros k r k' r' Hkr Hkr' Ht.
  apply lookup_insert_Some in Hkr as [[<- <-]|[_ Hkr]];
    apply lookup_insert_Some in Hkr' as [[<- <-]|[_ Hkr']]; simpl in Ht; [done| | |by eapply Hu].
  - by destruct (Hno _ _ Hkr').
  - by destruct (Hno _ _ Hkr).
Qed.

Lemma UpdateSubscription_subs s d a d' :
  BillingQueries.UpdateSubscription s d = Ok (a, d') ->
  subs_ok (subscriptions d) -> subs_ok (subscriptions d').
Proof.
  unfold BillingQueries.UpdateSubscription. intros H [Hk Hu].
  destruct (exists_row _ _ && _) eqn:Hc; [done|]. simplify_eq. simpl.
  assert (Hl : forall k r', BillingQueries.update_where (BillingQueries.of_tenant (su_TenantID s))
      (BillingQueries.updated_subscription s) (subscriptions d) !! k = Some r' ->
    exists r, subscriptions d !! k = Some r /\ sr_ID r' = sr_ID r /\ sr_TenantID r' = sr_TenantID r
      /\ (r' = r \/ BillingQueries.of_tenant (su_TenantID s) r = true
                    /\ r' = BillingQueries.updated_subscription s r)).
  { intros k r'. unfold BillingQueries.update_where. rewrite lookup_fmap.
    destruct (subscriptions d !! k) as [r|]; [|done]. intros [= <-]. exists r.
    destruct (BillingQueries.of_tenant _ r) eqn:Hr; auto 10. }
  split.
  - intros k r' Hr'. destruct (Hl k r' Hr') as (r & Hr & Hid & _ & [->|[Ht ->]]); [by apply Hk|].
    split; [rewrite Hid; by apply (Hk k r)|]. simpl. apply andb_false_iff in Hc as [Hc|Hc].
    + rewrite exists_row_false in Hc. by rewrite (Hc k r Hr) in Ht.
    + by bool_hyps.
  - intros k r1 k' r2 H1 H2 Ht. destruct (Hl _ _ H1) as (r1' & H1' & _ & Ht1 & _).
    destruct (Hl _ _ H2) as (r2' & H2' & _ & Ht2 & _). eapply Hu; [exact H1'|exact H2'|congruence].
Qed.

Lemma UpdateSubscription_same s d a d' :
  BillingQueries.UpdateSubscription s d = Ok (a, d') ->
  event_outbox d' = event_outbox d /\ event_outbox_dead d' = event_outbox_dead d /\ issued d' = issued d
  /\ replayed d' = replayed d.
Proof. unfold BillingQueries.UpdateSubscription. destruct (_ && _); intros; by simplify_eq. Qed.

(** ** The outbox *)

Lemma update_where_lookup {A} (p : A -> bool) f (t : gmap uuid A) k :
  BillingQueries.update_where p f t !! k = (fun r => if p r then f r else r) <$> t !! k.
Proof. unfold BillingQueries.update_where. apply lookup_fmap. Qed.

Lemma Claim_ostep locked returning limit st a d' :
  BillingQueries.ClaimUnsentOutbox locked returning limit (store_db st) = Ok (a, d') ->
  ostep st (mkStore d' (store_events st)).
Proof.
  unfold BillingQueries.ClaimUnsentOutbox. case_bool_decide; [done|]. intros [= _ <-].
  apply ostep_rows. intros _ k. rewrite update_where_lookup.
  destruct (event_outbox _ !! k) as [r|]; simpl; [|done]. case_match; auto.
Qed.

Lemma alter_row_step st (f : OutboxEvent -> OutboxEvent) id :
  (Inv st -> forall r, event_outbox (store_db st) !! id = Some r -> row_step st (Some r) (Some (f r))) ->
  ostep st (mkStore (set_outbox (alter f id (event_outbox (store_db st))) (store_db st)) (store_events st)).
Proof.
  intros Hf. apply ostep_rows. intros I k. destruct (decide (k = id)) as [->|Hne].
  - rewrite lookup_alter_eq. destruct (event_outbox _ !! id) as [r|] eqn:Hr; [|done]. by apply Hf.
  - rewrite lookup_alter_ne by done. apply row_step_refl.
Qed.

Lemma Failure_ostep id msg st a d' :
  BillingQueries.RecordOutboxFailure id msg (store_db st) = Ok (a, d') ->
  ostep st (mkStore d' (store_events st)).
Proof. intros [= _ <-]. apply alter_row_step. simpl. auto. Qed.

(** Marking a row sent is safe once its content was published. *)
Lemma Mark_ostep now id c st a d' :
  BillingQueries.MarkOutboxSent now id (store_db st) = Ok (a, d') ->
  published c st -> (Inv st -> forall c', recorded id (store_db st) = Some c' -> c' = c) ->
  ostep st (mkStore d' (store_events st)).
Proof.
  intros [= _ <-] Hp Hc. apply alter_row_step. intros I r Hr. split_and!; [done..|].
  intros _. right. by rewrite (Hc I _ (recorded_row _ _ _ Hr)).
Qed.

Lemma Delete_ostep cutoff st a d' :
  BillingQueries.DeleteSentOutboxOlderThan cutoff (store_db st) = Ok (a, d') ->
  ostep st (mkStore d' (store_events st)).
Proof.
  intros [= _ <-]. apply ostep_rows. intros _ k. unfold BillingQueries.delete_where.
  destruct (event_outbox _ !! k) as [r|] eqn:Hk; simpl.
  - destruct (filter _ _ !! k) as [r'|] eqn:Hf.
    + apply map_lookup_filter_Some in Hf as [Hf _]. simplify_eq. auto.
    + rewrite map_lookup_filter_None in Hf. destruct Hf as [Hf|Hf]; [congruence|].
      specialize (Hf r Hk). simpl in Hf. unfold BillingQueries.sent_before in Hf.
      by destruct (ob_SentAt r).
  - by rewrite map_lookup_filter, Hk.
Qed.

(** What a transaction that moves an event knows once its first statement ran: the
    row it inserted is a copy of the event, or the event was not in the outbox. *)
Definition moving (st : St) (id : uuid) (inserted : option DeadEvent) : Prop :=
  match inserted with
  | Some r => de_ID r = id /\ issued (store_db st) !! id = Some (dead_content r)
  | None => event_outbox (store_db st) !! id = None \/ id ∈ replayed (store_db st)
  end.

Lemma insert_dead_moving now id msg st :
  Inv st -> moving st id (BillingQueries.insert_dead now id msg (store_db st)).
Proof.
  intros [Ir Id _]. unfold BillingQueries.insert_dead.
  destruct (event_outbox (store_db st) !! id) as [r|] eqn:Hr; [|by left].
  destruct (event_outbox_dead (store_db st) !! id) as [dr|] eqn:Hd.
  - destruct (Id _ _ Hd) as (_ & _ & ?). congruence.
  - destruct (Ir _ _ Hr) as (Hid & His & _). by split.
Qed.
Lemma moving_moved st st' id inserted :
  moved st st' -> is_Some (issued (store_db st) !! id) -> moving st id inserted -> moving st' id inserted.
Proof.
  intros Hm Hi. unfold moving. destruct inserted as [r|].
  - intros [? His]. split; [done|]. eapply lookup_weaken; [exact His|apply Hm].
  - intros [Hn|Hr]; [by apply (mv_gone _ _ Hm)|right; by apply (mv_replayed _ _ Hm)].
Qed.

Lemma with_dead_lookup id inserted dead k :
  BillingQueries.with_dead id inserted dead !! k
  = if decide (k = id) then match dead !! id with Some r => Some r | None => inserted end else dead !! k.
Proof.
  unfold BillingQueries.with_dead. case_decide as Hk; [subst k|];
    (destruct inserted as [r|]; [|by destruct (dead !! id)]); destruct (dead !! id) eqn:Hd; try done.
  - apply lookup_insert_eq.
  - by apply lookup_insert_ne.
Qed.

Lemma set_replayed_id d t dead ids : set_replayed (replayed d) (set_outboxes t dead ids d) = set_outboxes t dead ids d.
Proof. done. Qed.

Lemma delete_moved_ostep id inserted st a d' :
  BillingQueries.delete_moved id inserted (store_db st) = Ok (a, d') -> moving st id inserted ->
  ostep st (mkStore d' (store_events st)).
Proof.
  unfold BillingQueries.delete_moved. intros [= _ <-] Hm. rewrite <-set_replayed_id.
  apply ostep_swap. intros I. pose proof I as [Ir Id _]. split_and!.
  - by apply map_Forall_delete.
  - intros k r. rewrite with_dead_lookup. case_decide as Hk; [subst k; rewrite lookup_delete_eq|].
    + destruct (event_outbox_dead _ !! id) as [dr|] eqn:Hd; [|intros ->; by destruct Hm].
      intros [= <-]. by destruct (Id _ _ Hd) as (? & ? & _).
    + intros Hr. rewrite lookup_delete_ne by done. by apply Id.
  - intros k Hk. left. destruct (decide (k = id)) as [->|]; [apply lookup_delete_eq|by rewrite lookup_delete_ne].
  - done.
  - intros k c Hc. pose proof (recorded_issued _ _ _ I Hc) as Hi. unfold recorded in *. simpl.
    rewrite with_dead_lookup. destruct (decide (k = id)) as [->|]; [|left; by rewrite lookup_delete_ne].
    rewrite lookup_delete_eq. destruct (event_outbox_dead _ !! id) as [dr|] eqn:Hd.
    + destruct (Id _ _ Hd) as (_ & _ & Hn). rewrite Hn in Hc. by left.
    + destruct inserted as [r|]; [destruct Hm as [_ Hm]; left; simpl; congruence|].
      destruct Hm as [Hn|]; [|by right]. by rewrite Hn in Hc.
Qed.

Lemma replay_ostep id st a d' :
  BillingPostgres.replay_tx id (store_db st) = Ok (a, d') -> ostep st (mkStore d' (store_events st)).
Proof.
  unfold BillingPostgres.replay_tx, BillingQueries.reinsert_outbox. intros H.
  destruct (event_outbox_dead (store_db st) !! id) as [r|] eqn:Hd; [|done].
  case_bool_decide as Hn; [done|]. case_decide; [done|]. simplify_eq.
  apply ostep_swap. intros [Ir Id _]. destruct (Id _ _ Hd) as (Hid & His & Ho). split_and!.
  - by apply map_Forall_insert_2.
  - intros k r' Hk. apply lookup_delete_Some in Hk as [Hne Hk]. destruct (Id k r' Hk) as (? & ? & ?).
    simpl. by rewrite lookup_insert_ne by done.
  - intros k Hk. destruct (decide (k = id)) as [->|Hne]; [right; set_solver|left].
    simpl. by rewrite lookup_insert_ne.
  - set_solver.
  - intros k c Hc. left. unfold recorded in *. simpl. destruct (decide (k = id)) as [->|Hne].
    + rewrite Ho, Hd in Hc. by rewrite lookup_insert_eq.
    + by rewrite lookup_insert_ne, lookup_delete_ne by done.
Qed.

Section suspend.
Context {gen : uuid -> gset uuid -> uuid}.
(** gen_random_uuid() does not repeat an identifier. *)
Hypothesis gen_fresh : forall draw ids, gen draw ids ∉ ids.

Lemma suspend_ostep draw now s subject payload st a d' :
  BillingPostgres.suspend_tx gen draw now s subject payload (store_db st) = Ok (a, d') ->
  ostep st (mkStore d' (store_events st)).
Proof.
  unfold BillingPostgres.suspend_tx. intros H.
  destruct (BillingQueries.UpdateSubscription _ _) as [[u d1]|] eqn:Hu; [|done].
  destruct (UpdateSubscription_same _ _ _ _ Hu) as (Ho & Hd & Hi & Hrp).
  destruct (BillingQueries.insert_outbox _ _ _ _ _ _) as [[u2 d2]|] eqn:Hins; [|done]. simplify_eq.
  unfold BillingQueries.insert_outbox in Hins. case_bool_decide; [done|]. simplify_eq.
  apply (ostep_insert st d1 _ (mkOutbox _ subject (su_TenantID s) payload (pg_time now) None 0 None));
    auto; [|by apply not_elem_of_dom, gen_fresh].
  apply ostep_same; auto. by eapply UpdateSubscription_subs.
Qed.
End suspend.

End statements.

(** ** Programs *)

Section programs.
Context {X : External}.
Implicit Types (w : World St).

Lemma steps_ostep_tx {E A} (down : E) (q : DB -> result E (A * DB)) w :
  (forall st a d', q (store_db st) = Ok (a, d') -> ostep st (mkStore d' (store_events st))) ->
  steps ostep (with_tx down q) w.
Proof.
  intros Hq. apply steps_tx. intros st a st' _ _ H. unfold on_db in H.
  destruct (q (store_db st)) as [[a' d']|] eqn:Hd; simplify_eq. by eapply Hq.
Qed.
Lemma steps_ostep_exec {A} (q : DB -> result pg_error (A * DB)) w :
  (forall st a d', q (store_db st) = Ok (a, d') -> ostep st (mkStore d' (store_events st))) ->
  steps ostep (q_exec q) w.
Proof. apply steps_ostep_tx. Qed.
Lemma steps_ostep_query {A} (q : DB -> result pg_error A) w : steps ostep (q_query q) w.
Proof.
  apply steps_ostep_exec. intros st a d' H. destruct (q _); simplify_eq. by destruct st.
Qed.
(** A call that only waits for an answer. *)
Lemma answer_steps {E} (down : E) w : steps ostep (with_tx down (fun d => Ok (tt, d))) w.
Proof. apply steps_ostep_tx. intros [] a d' [= _ <-]. reflexivity. Qed.

Lemma steps_bind_inv {E A B} (m : M St E A) (f : A -> M St E B) w :
  Inv (w_st w) -> steps ostep m w ->
  (forall a w', m w = (Ok a, w') -> moved (w_st w) (w_st w') -> rely ostep w' -> steps ostep (f a) w') ->
  steps ostep (m ≫= f) w.
Proof. intros I Hm Hf. apply steps_bind; [done|]. intros a w' Hr _ Hs HR. apply Hf; auto. Qed.

Lemma steps_rely {E A} (m : M St E A) w : (rely ostep w -> steps ostep m w) -> steps ostep m w.
Proof. intros H HR. by apply H. Qed.

(** ** Publication *)

Lemma ostep_append env st : ostep st (mkStore (store_db st) (store_events st ++ [env])).
Proof.
  intros [Ir Id Is]. split; simpl; [|by apply prefix_app_r|done|done|by left|by left].
  split; [|exact Id|exact Is]. intros k r Hk. destruct (Ir k r Hk) as (? & ? & Hp).
  split_and!; [done..|]. intros Hs. eapply published_prefix, Hp, Hs. by apply prefix_app_r.
Qed.

Lemma js_publish_steps env w : steps ostep (js_publish (T:=BErr) env) w.
Proof.
  unfold js_publish. apply steps_bind; [|intros; apply answer_steps].
  apply steps_tx. intros st a st' _ _ [= _ <-]. apply ostep_append.
Qed.

Lemma Publish_steps subject tenant payload w :
  steps ostep (Publish (T:=BErr) subject tenant payload) w.
Proof. unfold Publish, NewEnvelope. steps_tac. apply js_publish_steps. Qed.

Lemma try_Ok {E E' A} (m : M St E A) w r w' :
  try (E':=E') m w = (Ok r, w') -> m w = (r, w').
Proof. unfold try. destruct (m w). by intros [= -> ->]. Qed.

(** An acknowledged publication is in the stream. *)
Lemma Publish_published subject tenant payload w a w' :
  Publish (T:=BErr) subject tenant payload w = (Ok a, w') -> Inv (w_st w) -> rely ostep w ->
  published (subject, tenant, payload) (w_st w').
Proof.
  intros H I HR. apply bind_Ok in H as (env & w1 & Hn & H).
  apply bind_Ok in Hn as (id & w0 & [= <- <-] & Hn). apply bind_Ok in Hn as (now & w0 & [= <- <-] & Hn).
  apply ret_Ok in Hn as [-> ->]. apply wrap_Ok, bind_Ok in H as ([] & w2 & Hst & Hack).
  set (env := mkEnvelope _ _ _ _ _) in *.
  match type of Hst with db_tx ?d ?q ?w0 = _ => set (ws := w0) in * end.
  assert (HR2 : rely ostep w2).
  { intros n s. apply tx_Ok in Hst as [_ ->]. apply HR. }
  assert (Hp : published (subject, tenant, payload) (w_st w2)).
  { apply tx_Ok in Hst as [[= <-] _]. unfold published. simpl. rewrite fmap_app. apply elem_of_app. right.
    apply list_elem_of_here. }
  assert (I2 : Inv (w_st w2)).
  { apply tx_Ok in Hst as [[= <-] _]. by eapply mv_inv, ostep_append, mv_inv, (HR _ (w_st ws)). }
  destruct (steps_run _ _ _ _ (answer_steps _ w2) Hack HR2) as [Hm _].
  eapply published_prefix; [|exact Hp]. by apply mv_events, Hm.
Qed.

(** ** The relay *)

(** An event a relay holds: its identifier was given to an event with its content. *)
Definition known (st : St) (e : OutboxEvent) : Prop :=
  issued (store_db st) !! ob_ID e = Some (row_content e).

Lemma known_moved st st' e : moved st st' -> known st e -> known st' e.
Proof.
  intros Hm Hi. eapply lookup_weaken; [exact Hi|apply Hm].
Qed.
Lemma known_all_moved st st' l : moved st st' -> Forall (known st) l -> Forall (known st') l.
Proof. intros Hm Hl. eapply Forall_impl; [exact Hl|]. intros e. by apply known_moved. Qed.

Lemma MarkOutboxSent_steps e w :
  Inv (w_st w) -> known (w_st w) e -> published (row_content e) (w_st w) ->
  steps ostep (BillingPostgres.MarkOutboxSent (ob_ID e)) w.
Proof.
  intros I Hk Hp. unfold BillingPostgres.MarkOutboxSent. apply steps_bind; [apply steps_time|].
  intros now w1 [= <- <-] _ _ _. apply steps_map_err, steps_tx. intros s1 a s2 _ Hs H.
  unfold on_db in H. destruct (BillingQueries.MarkOutboxSent _ _ _) as [[u d']|] eqn:Hq; [|done]. simplify_eq.
  specialize (Hs I). eapply Mark_ostep; [exact Hq|eapply published_prefix, Hp; apply Hs|].
  intros I1 c Hc. apply (recorded_issued _ _ _ I1) in Hc.
  pose proof (known_moved _ _ _ Hs Hk) as Hk1. unfold known in Hk1. congruence.
Qed.

Lemma publish_each_steps events b w :
  Inv (w_st w) -> Forall (known (w_st w)) events -> steps ostep (BillingRelay.publish_each events b) w.
Proof.
  revert b w. induction events as [|e events IH]; intros b w I Hk; [apply steps_ret|].
  cbn [BillingRelay.publish_each]. pose proof (Forall_inv Hk) as He. apply Forall_inv_tail in Hk.
  apply steps_rely. intros HR. apply steps_bind_inv; [done|apply steps_try, Publish_steps|].
  intros r w1 Hr Hm HR1. apply try_Ok in Hr.
  destruct r as [[]|perr]; [|apply IH; [apply Hm|by eapply known_all_moved]].
  apply steps_bind_inv; [apply Hm|apply steps_try|].
  - apply MarkOutboxSent_steps; [apply Hm|by eapply known_moved|].
    by eapply Publish_published.
  - intros m w2 _ Hm2 _. destruct m as [u|]; [|apply IH; [apply Hm2|eapply known_all_moved, known_all_moved; eauto]].
    apply steps_bind_inv; [apply Hm2|apply steps_time|]. intros now w3 [= <- <-] _ _.
    apply IH; [apply Hm2|eapply known_all_moved, known_all_moved; eauto].
Qed.

Lemma MoveOutboxToDead_steps id msg w :
  Inv (w_st w) -> is_Some (issued (store_db (w_st w)) !! id) ->
  steps ostep (BillingPostgres.MoveOutboxToDead id msg) w.
Proof.
  intros I Hi. unfold BillingPostgres.MoveOutboxToDead. apply steps_bind; [apply steps_time|].
  intros now w1 [= _ <-] _ _ _. apply steps_bind_inv; [done|apply steps_map_err, steps_ostep_query|].
  intros inserted w2 Hq%map_err_Ok Hm _. simpl in Hm.
  apply store_query_read in Hq. injection Hq as <-.
  pose proof (insert_dead_moving now id msg _ (mv_inv _ _ Hm)) as Hmov.
  assert (Hi2 : is_Some (issued (store_db (w_st w2)) !! id)).
  { destruct Hi as [c Hc]. exists c. eapply lookup_weaken; [exact Hc|apply Hm]. }
  apply steps_bind; [|intros; apply answer_steps]. apply steps_map_err, steps_tx.
  intros s1 a s2 _ Hs H. unfold on_db in H.
  destruct (BillingQueries.delete_moved _ _ _) as [[u d']|] eqn:Hd; [|done]. simplify_eq.
  specialize (Hs (mv_inv _ _ Hm)). eapply delete_moved_ostep; [exact Hd|]. by eapply moving_moved.
Qed.
Lemma RecordOutboxFailure_steps id msg w : steps ostep (BillingPostgres.RecordOutboxFailure id msg) w.
Proof. apply steps_map_err, steps_ostep_exec, Failure_ostep. Qed.
Lemma DeleteSent_steps cutoff w : steps ostep (BillingPostgres.DeleteSentOutboxOlderThan cutoff) w.
Proof. apply steps_map_err, steps_ostep_exec, Delete_ostep. Qed.
Lemma Replay_steps id w : steps ostep (BillingPostgres.ReplayDeadOutbox id) w.
Proof.
  unfold BillingPostgres.ReplayDeadOutbox. steps_tac; [|apply answer_steps].
  apply steps_ostep_tx, replay_ostep.
Qed.

Lemma settle_each_steps healthy failed w :
  Inv (w_st w) -> Forall (known (w_st w)) failed.*1 -> steps ostep (BillingRelay.settle_each healthy failed) w.
Proof.
  revert w. induction failed as [|[e err] failed IH]; intros w I Hk; [apply steps_ret|].
  cbn [BillingRelay.settle_each]. pose proof (Forall_inv Hk) as He. apply Forall_inv_tail in Hk.
  apply steps_bind_inv; [done| |intros u w' _ Hm _; apply IH; [apply Hm|by eapply known_all_moved]].
  case_match; apply steps_try; [|apply RecordOutboxFailure_steps].
  apply MoveOutboxToDead_steps; [done|by eexists].
Qed.

(** The failed events of a batch's first loop are among those it was given. *)
Lemma publish_each_failed events b w b' w' :
  BillingRelay.publish_each events b w = (Ok b', w') ->
  forall e, e ∈ (BillingRelay.bt_failed b').*1 -> e ∈ (BillingRelay.bt_failed b).*1 \/ e ∈ events.
Proof.
  revert b w. induction events as [|e events IH]; intros b w H e0 He.
  { apply ret_Ok in H as [-> _]. by left. }
  cbn [BillingRelay.publish_each] in H. apply bind_Ok in H as (r & w1 & _ & H).
  rewrite elem_of_cons. destruct r as [[]|perr].
  - apply bind_Ok in H as (m & w2 & _ & H). destruct m as [u|].
    + apply bind_Ok in H as (now & w3 & _ & H). destruct (IH _ _ H _ He); auto.
    + destruct (IH _ _ H _ He); auto.
  - destruct (IH _ _ H _ He) as [Hf|]; [|by auto]. simpl in Hf. rewrite fmap_app, elem_of_app in Hf.
    destruct Hf as [|Hf]; [by left|]. right; left. by apply list_elem_of_singleton in Hf.
Qed.

Lemma updateGauges_steps w : steps ostep BillingRelay.updateGauges w.
Proof.
  unfold BillingRelay.updateGauges, BillingPostgres.OutboxStats. steps_tac. apply steps_ostep_query.
Qed.

Section relay.
Variable locked : DB -> uuid -> bool.
Variable returning : list OutboxEvent -> list OutboxEvent.
(** A statement returns the rows it updated, in some order. *)
Hypothesis returning_perm : forall l, returning l ≡ₚ l.

Lemma Claim_steps limit w : steps ostep (BillingPostgres.ClaimUnsentOutbox locked returning limit) w.
Proof. apply steps_map_err, steps_ostep_exec, Claim_ostep. Qed.

Lemma Claim_rows limit w events w' :
  BillingPostgres.ClaimUnsentOutbox locked returning limit w = (Ok events, w') ->
  Forall (fun e => exists k, event_outbox (store_db (w_st w')) !! k = Some e) events.
Proof.
  intros H. apply map_err_Ok, tx_Ok in H as [H _]. unfold on_db, BillingQueries.ClaimUnsentOutbox in H.
  destruct (bool_decide (limit < 0)); [done|]. injection H as <- <-.
  apply Forall_forall. intros e He. rewrite returning_perm in He. by apply select_elem in He as [? _].
Qed.

Lemma stored_known st k e : Inv st -> event_outbox (store_db st) !! k = Some e -> known st e.
Proof.
  intros I Hk. by destruct (inv_rows _ I _ _ Hk) as (<- & ? & _).
Qed.

Lemma processBatch_steps r limit w :
  Inv (w_st w) -> steps ostep (BillingRelay.processBatch locked returning r limit) w.
Proof.
  intros I. unfold BillingRelay.processBatch. apply steps_bind_inv; [done|apply Claim_steps|].
  intros events w1 Hc Hm1 _. apply Claim_rows in Hc.
  assert (Hk : Forall (known (w_st w1)) events).
  { eapply Forall_impl; [exact Hc|]. intros e (k & He). by eapply stored_known, He; apply Hm1. }
  apply steps_bind_inv; [apply Hm1|apply publish_each_steps; [apply Hm1|done]|]. intros b w2 Hp Hm2 _.
  apply steps_bind_inv; [apply Hm2|unfold BillingRelay.broker_healthy; steps_tac|].
  intros healthy w3 _ Hm3 _. apply steps_bind; [|intros; apply steps_ret].
  apply settle_each_steps; [apply Hm3|]. apply Forall_forall. intros e He.
  destruct (publish_each_failed _ _ _ _ _ Hp e He) as [Hf|Hf]; [by apply elem_of_nil in Hf|].
  rewrite Forall_forall in Hk. by eapply known_moved, known_moved, Hk.
Qed.

Lemma tick_steps r ticks w : Inv (w_st w) -> steps ostep (BillingRelay.tick locked returning r ticks) w.
Proof.
  intros I. unfold BillingRelay.tick. apply steps_bind; [by apply steps_try, processBatch_steps|].
  steps_tac; [apply updateGauges_steps|apply DeleteSent_steps].
Qed.

Lemma run_ticks_steps n r ticks w :
  Inv (w_st w) -> steps ostep (BillingRelay.run_ticks locked returning n r ticks) w.
Proof.
  revert r ticks w. induction n as [|n IH]; intros r ticks w I; [apply steps_ret|].
  cbn [BillingRelay.run_ticks]. apply steps_bind_inv; [done|by apply tick_steps|].
  intros r' w' _ Hm _. apply IH, Hm.
Qed.
End relay.

(** ** The operator's commands *)

Lemma replay_each_steps dead n m w : steps ostep (BillingRelay.replay_each dead n m) w.
Proof.
  revert n m w. induction dead as [|e dead IH]; intros n m w; [apply steps_ret|].
  cbn [BillingRelay.replay_each]. apply steps_bind; [apply steps_try, Replay_steps|].
  intros r w' _ _ _ _. destruct r; apply IH.
Qed.

Lemma admin_list_steps w : steps ostep BillingRelay.admin_list w.
Proof.
  unfold BillingRelay.admin_list, BillingPostgres.ListDeadOutbox, BillingPostgres.OutboxStats.
  repeat (steps_tac; try apply steps_ostep_query).
Qed.
Lemma admin_replay_steps id w : steps ostep (BillingRelay.admin_replay id) w.
Proof. unfold BillingRelay.admin_replay. steps_tac. apply Replay_steps. Qed.
Lemma admin_replay_all_steps w : steps ostep BillingRelay.admin_replay_all w.
Proof.
  unfold BillingRelay.admin_replay_all, BillingPostgres.ListDeadOutbox, BillingPostgres.OutboxStats.
  repeat (steps_tac; try apply steps_ostep_query). apply replay_each_steps.
Qed.
End programs.

(** ** The service *)

(** A statement on another table than the outbox's. *)
Ltac other_tables :=
  apply steps_ostep_exec; let Hq := fresh in intros ? ? ? Hq; apply ostep_same;
  revert Hq; unfold BillingQueries.CreateInvoice, BillingQueries.UpdateInvoice, BillingQueries.NextInvoiceSeq,
    BillingQueries.CreatePaymentMethod, BillingQueries.UpdatePaymentMethod,
    BillingQueries.DeletePaymentMethod, BillingQueries.ClearDefaultPaymentMethods,
    BillingQueries.CreateUsageRecord, BillingQueries.CreateDunningAttempt;
  repeat case_match; intros; simplify_eq; done.

Ltac bsteps := repeat first
  [ progress steps_tac | apply steps_ostep_query | solve [eauto with bsteps] | other_tables ].

Create HintDb bsteps.

Section service.
Context {X : External}.
Implicit Types (w : World St).

Lemma CreateSubscription_steps s w : steps ostep (BillingPostgres.CreateSubscription s) w.
Proof.
  apply steps_map_err, steps_ostep_exec. intros st a d' H. pose proof H as H'.
  unfold BillingQueries.CreateSubscription in H. apply ostep_same; [..|by eapply CreateSubscription_subs];
    repeat case_match; by simplify_eq.
Qed.
Lemma UpdateSubscription_steps s w : steps ostep (BillingPostgres.UpdateSubscription s) w.
Proof.
  apply steps_map_err, steps_ostep_exec. intros st a d' H.
  destruct (UpdateSubscription_same _ _ _ _ H) as (? & ? & ? & ?).
  apply ostep_same; auto. by eapply UpdateSubscription_subs.
Qed.
Lemma GetSubscription_steps t w : steps ostep (BillingPostgres.GetSubscriptionByTenant t) w.
Proof. unfold BillingPostgres.GetSubscriptionByTenant. bsteps. Qed.
Lemma GetInvoice_steps t id w : steps ostep (BillingPostgres.GetInvoice t id) w.
Proof. unfold BillingPostgres.GetInvoice. bsteps. Qed.
Lemma GetPaymentMethod_steps t id w : steps ostep (BillingPostgres.GetPaymentMethod t id) w.
Proof. unfold BillingPostgres.GetPaymentMethod. bsteps. Qed.
Lemma ListPaymentMethods_steps t w : steps ostep (Billing.ListPaymentMethods t) w.
Proof. unfold Billing.ListPaymentMethods, BillingPostgres.ListPaymentMethods. bsteps. Qed.
Lemma UpdateInvoice_steps i w : steps ostep (BillingPostgres.UpdateInvoice i) w.
Proof. unfold BillingPostgres.UpdateInvoice. bsteps. Qed.
Lemma InvoiceRow_steps i w : steps ostep (BillingPostgres.CreateInvoice i) w.
Proof. unfold BillingPostgres.CreateInvoice. bsteps. Qed.
#[local] Hint Resolve InvoiceRow_steps CreateSubscription_steps UpdateSubscription_steps GetSubscription_steps
  GetInvoice_steps GetPaymentMethod_steps ListPaymentMethods_steps UpdateInvoice_steps : bsteps.

(** *** The RPCs *)

Section rpcs.
Variable h : BillingHandler.Handler.
Variable ctx : Ctx.

Lemma bguard_steps t p w : steps ostep (BillingHandler.guard h ctx t p) w.
Proof. unfold BillingHandler.guard. bsteps. Qed.
Lemma invoice_of_steps t i w : steps ostep (BillingHandler.invoice_of h ctx t i) w.
Proof. unfold BillingHandler.invoice_of, BillingHandler.svc, Billing.GetInvoice. repeat (bsteps || apply bguard_steps). Qed.
#[local] Hint Resolve bguard_steps invoice_of_steps : bsteps.

Lemma bhandle_steps r w : steps ostep (BillingHandler.handle h ctx r) w.
Proof.
  destruct r; unfold BillingHandler.handle, BillingHandler.GetSubscription, BillingHandler.CreateSubscription,
    BillingHandler.UpgradeSubscription, BillingHandler.CancelSubscription, BillingHandler.CheckPlanLimit,
    BillingHandler.ListInvoices, BillingHandler.GetInvoice, BillingHandler.DownloadInvoice,
    BillingHandler.AddPaymentMethod, BillingHandler.RemovePaymentMethod, BillingHandler.ListPaymentMethods,
    BillingHandler.SetDefaultPaymentMethod, BillingHandler.GetUsageSummary,
    BillingHandler.HandlePaymentWebhook, BillingHandler.svc,
    Billing.GetSubscription, Billing.CreateSubscription, Billing.UpgradeSubscription,
    Billing.CancelSubscription, Billing.CheckPlanLimit, Billing.ListInvoices,
    Billing.AddPaymentMethod, Billing.RemovePaymentMethod, Billing.SetDefaultPaymentMethod,
    Billing.GetUsageSummary, Billing.get_subscription, BillingPostgres.ListInvoices, Billing.invalid_plan,
    BillingPostgres.CreatePaymentMethod, BillingPostgres.UpdatePaymentMethod,
    BillingPostgres.DeletePaymentMethod, BillingPostgres.ClearDefaultPaymentMethods,
    BillingPostgres.LatestUsageRecord, BillingPostgres.some_rows; cbv zeta; bsteps.
Qed.
End rpcs.

(** *** The methods no RPC calls *)

Section internal.
Context {MM : Billing.InvoiceMath} {gen : uuid -> gset uuid -> uuid}.
Hypothesis gen_fresh : forall draw ids, gen draw ids ∉ ids.

Lemma SuspendWithOutbox_steps s subject payload w :
  steps ostep (BillingPostgres.SuspendSubscriptionWithOutbox gen s subject payload) w.
Proof.
  unfold BillingPostgres.SuspendSubscriptionWithOutbox. steps_tac; [|apply answer_steps].
  apply steps_ostep_tx. intros. by eapply suspend_ostep.
Qed.
Lemma SuspendSubscription_steps t w : steps ostep (Billing.SuspendSubscription gen t) w.
Proof.
  unfold Billing.SuspendSubscription, Billing.get_subscription. bsteps. apply SuspendWithOutbox_steps.
Qed.

Lemma BCreateInvoice_steps i w : steps ostep (Billing.CreateInvoice i) w.
Proof.
  unfold Billing.CreateInvoice, BillingPostgres.NextInvoiceSeq. bsteps.
Qed.
Lemma MarkInvoicePaid_steps t id txn w : steps ostep (Billing.MarkInvoicePaid t id txn) w.
Proof. unfold Billing.MarkInvoicePaid. bsteps. Qed.
Lemma MarkInvoiceOverdue_steps t id w : steps ostep (Billing.MarkInvoiceOverdue t id) w.
Proof. unfold Billing.MarkInvoiceOverdue. bsteps. Qed.
Lemma RecordUsage_steps u w : steps ostep (Billing.RecordUsage u) w.
Proof. unfold Billing.RecordUsage, BillingPostgres.CreateUsageRecord. bsteps. Qed.
Lemma RecordDunning_steps t a w : steps ostep (Billing.RecordDunningAttempt t a) w.
Proof. unfold Billing.RecordDunningAttempt, BillingPostgres.CreateDunningAttempt. bsteps. Qed.
Lemma ListDunning_steps t i w : steps ostep (Billing.ListDunningAttempts t i) w.
Proof. unfold Billing.ListDunningAttempts, BillingPostgres.ListDunningAttempts. bsteps. Qed.

(** ** Everything that runs on the tables of the service *)

Inductive BillingJob :=
| BillingRpc (h : BillingHandler.Handler) (ctx : Ctx) (r : BillingHandler.Rpc)
| SuspendCall (tenantID : uuid)
| CreateInvoiceCall (inv : Invoice)
| InvoicePaidCall (tenantID id : uuid) (txn : string)
| InvoiceOverdueCall (tenantID id : uuid)
| RecordUsageCall (u : UsageRecord)
| RecordDunningCall (tenantID : uuid) (a : DunningAttempt)
| ListDunningCall (tenantID id : uuid)
| RelayBatch (r : BillingRelay.Relay) (limit : Z)
| RelayRun (n : nat)
| AdminList
| AdminReplay (id : uuid)
| AdminReplayAll.

Variable locked : DB -> uuid -> bool.
Variable returning : list OutboxEvent -> list OutboxEvent.
Hypothesis returning_perm : forall l, returning l ≡ₚ l.

(** Runs a program for its effects. *)
Definition run_for_effect {E A} (m : M St E A) : M St unit unit := r ← try m; mret tt.

Definition run_billing (j : BillingJob) : M St unit unit :=
  match j with
  | BillingRpc h ctx r => run_for_effect (BillingHandler.handle h ctx r)
  | SuspendCall t => run_for_effect (Billing.SuspendSubscription gen t)
  | CreateInvoiceCall i => run_for_effect (Billing.CreateInvoice i)
  | InvoicePaidCall t id txn => run_for_effect (Billing.MarkInvoicePaid t id txn)
  | InvoiceOverdueCall t id => run_for_effect (Billing.MarkInvoiceOverdue t id)
  | RecordUsageCall u => run_for_effect (Billing.RecordUsage u)
  | RecordDunningCall t a => run_for_effect (Billing.RecordDunningAttempt t a)
  | ListDunningCall t id => run_for_effect (Billing.ListDunningAttempts t id)
  | RelayBatch r limit => run_for_effect (BillingRelay.processBatch locked returning r limit)
  | RelayRun n => run_for_effect (BillingRelay.Run locked returning n)
  | AdminList => run_for_effect BillingRelay.admin_list
  | AdminReplay id => run_for_effect (BillingRelay.admin_replay id)
  | AdminReplayAll => run_for_effect BillingRelay.admin_replay_all
  end.

Lemma run_billing_steps j w : Inv (w_st w) -> steps ostep (run_billing j) w.
Proof.
  intros I.
  assert (Hf : forall E A (m : M St E A), steps ostep m w -> steps ostep (run_for_effect m) w).
  { intros E A m Hm. unfold run_for_effect. steps_tac. exact Hm. }
  destruct j; apply Hf;
    [apply bhandle_steps|apply SuspendSubscription_steps|apply BCreateInvoice_steps
    |apply MarkInvoicePaid_steps|apply MarkInvoiceOverdue_steps|apply RecordUsage_steps
    |apply RecordDunning_steps|apply ListDunning_steps|by apply processBatch_steps
    |by apply run_ticks_steps|apply admin_list_steps|apply admin_replay_steps|apply admin_replay_all_steps].
Qed.
End internal.

End service.
