(* ===== verification/BillingOutbox.v ===== *)
(** Billing: the transactional outbox.  In any history an event that was recorded is
    waiting, dead or published, unless an operator has replayed it; the relay gives an event up only after enough
    attempts and only while the broker answers; dead events can be replayed. *)

From S2P Require Export BillingSteps Logic.
From S2P Require BillingQueries BillingPostgres Billing BillingRelay BillingHandler.
Local Open Scope Z_scope.

Section histories.
Context {X : External} {MM : Billing.InvoiceMath}.
Variable gen_random_uuid : uuid -> gset uuid -> uuid.
Variable locked : DB -> uuid -> bool.
Variable returning : list OutboxEvent -> list OutboxEvent.
Hypothesis gen_fresh : forall draw ids, gen_random_uuid draw ids ∉ ids.
Hypothesis returning_perm : forall l, returning l ≡ₚ l.
Implicit Types (w : World St).

(** What can come after [st]: calls of the service, relays and commands run one
    after the other or between any two statements of each other, beside others that
    respect [ostep]; each may stop after any of its statements. *)
Inductive billing_reaches (st : St) : St -> Prop :=
| billing_here : billing_reaches st st
| billing_job j w :
    billing_reaches st (w_st w) -> rely ostep w ->
    billing_reaches st (w_st (run_billing (gen:=gen_random_uuid) locked returning j w).2)
| billing_statement j w a b :
    billing_reaches st (w_st w) -> billing_reaches st a -> rely ostep w -> w_log w = [] ->
    (a, b) ∈ w_log (run_billing (gen:=gen_random_uuid) locked returning j w).2 -> billing_reaches st b.

Lemma billing_reaches_moved st st' : Inv st -> billing_reaches st st' -> moved st st'.
Proof.
  intros I. induction 1 as [|j w _ IH HR|j w a b _ IHw _ IHa HR Hl Hin].
  - by apply (reflexivity (R:=ostep)).
  - apply (transitivity (R:=ostep) (fun _ => IH)); [|done].
    by destruct (run_billing_steps gen_fresh locked returning returning_perm j w (mv_inv _ _ IH) HR).
  - destruct (run_billing_steps gen_fresh locked returning returning_perm j w (mv_inv _ _ IHw) HR)
      as (_ & _ & own & Ho & Hall).
    rewrite Hl, app_nil_r in Ho. rewrite Ho in Hin. rewrite Forall_forall in Hall.
    by apply (transitivity (R:=ostep) (fun _ => IHa) (Hall _ Hin)).
Qed.

(** C17: A recorded event is never lost or altered before an operator replays it.
    Take any history of RPCs, suspensions, invoice and usage calls, relay runs and
    operator commands, interleaved between any two statements, the two of the
    transaction that parks an event included, with failed calls, lost answers and
    processes that stop half way: an event that was in the outbox at one moment is,
    at any later moment, waiting under its identifier with the same subject, tenant
    and payload, not marked as sent; or dead under it with the same content; or an
    envelope with that content is in the stream; or an operator has replayed it from
    the dead table.  A waiting and a dead event never share an identifier, an
    identifier, also of a replayed event, only ever stands for the content it was
    given to, and an event marked as sent is in the stream.  (A replayed event can
    be lost: [replayed_event_lost].) *)
Theorem outbox_never_loses (st0 st1 st2 : St) (k : uuid) (r : OutboxEvent) :
  Inv st0 -> billing_reaches st0 st1 -> billing_reaches st1 st2 ->
  event_outbox (store_db st1) !! k = Some r ->
  ((exists r', event_outbox (store_db st2) !! k = Some r' /\ ob_SentAt r' = None
               /\ row_content r' = row_content r)
   \/ (exists r', event_outbox_dead (store_db st2) !! k = Some r' /\ dead_content r' = row_content r)
   \/ published (row_content r) st2
   \/ k ∈ replayed (store_db st2))
  /\ (is_Some (event_outbox_dead (store_db st2) !! k) -> event_outbox (store_db st2) !! k = None)
  /\ (forall r', event_outbox (store_db st2) !! k = Some r' -> row_content r' = row_content r)
  /\ (forall r', event_outbox_dead (store_db st2) !! k = Some r' -> dead_content r' = row_content r)
  /\ forall k' r', event_outbox (store_db st2) !! k' = Some r' -> ob_SentAt r' <> None ->
       published (row_content r') st2.
Proof.
  intros I H01 H12 Hk. apply billing_reaches_moved in H01; [|done].
  apply billing_reaches_moved in H12; [|apply H01]. pose proof (mv_inv _ _ H01) as [Ir1 _ _].
  destruct H12 as [[Ir Id _] _ Hiss _ _ Hkept]. destruct (Ir1 _ _ Hk) as (_ & His & _).
  pose proof (lookup_weaken _ _ _ _ His Hiss) as His2.
  assert (Hrow : forall r', event_outbox (store_db st2) !! k = Some r' -> row_content r' = row_content r).
  { intros r' Hr'. destruct (Ir _ _ Hr') as (_ & ? & _). congruence. }
  assert (Hdead : forall r', event_outbox_dead (store_db st2) !! k = Some r' -> dead_content r' = row_content r).
  { intros r' Hr'. destruct (Id _ _ Hr') as (_ & ? & _). congruence. }
  split_and!; [|intros [r' Hr']; by apply (Id _ _ Hr')|done|done|intros k' r' Hk' Hs; by apply (Ir _ _ Hk')].
  destruct (Hkept k _ (recorded_row _ _ _ Hk)) as [Hr|[|]]; [|by auto..]. unfold recorded in Hr.
  destruct (event_outbox (store_db st2) !! k) as [r'|] eqn:Hk2.
  - destruct (ob_SentAt r') eqn:Hs; [|by left; eauto]. right; right; left.
    rewrite <-(Hrow r' eq_refl). apply (Ir _ _ Hk2). by rewrite Hs.
  - right; left. apply fmap_Some in Hr as (r' & Hr' & Hc). eauto.
Qed.

End histories.

(** ** Giving up *)

Section parking.
Context {X : External}.
Variable locked : DB -> uuid -> bool.
Variable returning : list OutboxEvent -> list OutboxEvent.
Hypothesis returning_perm : forall l, returning l ≡ₚ l.
Implicit Types (w : World St).

(** The statement moved the event [k] to the dead table. *)
Definition parks (k : uuid) (a b : St) : Prop :=
  event_outbox_dead (store_db a) !! k = None /\ is_Some (event_outbox_dead (store_db b) !! k).
(** It parks only what [P] allows. *)
Definition parks_only (P : uuid -> Prop) (a b : St) : Prop := forall k, parks k a b -> P k.

Abbreviation does P := (own anything (parks_only P)) (only parsing).

Lemma parks_only_mono {E A} (P P' : uuid -> Prop) (m : M St E A) w :
  (forall k, P k -> P' k) -> does P m w -> does P' m w.
Proof.
  intros HP Hm HR. destruct (Hm HR) as (l & Hl & Hall). exists l. split; [done|].
  eapply Forall_impl; [exact Hall|]. intros p Hp k Hk. by apply HP, Hp.
Qed.

(** A transaction that keeps the dead table. *)
Lemma does_tx {E A} P (down : E) (q : DB -> result E (A * DB)) w :
  (forall d a d', q d = Ok (a, d') -> event_outbox_dead d' = event_outbox_dead d) ->
  does P (with_tx down q) w.
Proof.
  intros Hq. apply own_tx. intros s1 a s2 _ H k [Hn [dr Hd]]. unfold on_db in H.
  destruct (q _) as [[a' d']|] eqn:Hq'; [|done]. apply Hq in Hq'. simplify_eq. simpl in Hd. congruence.
Qed.
Lemma does_answer {E} P (down : E) w : does P (with_tx down (fun d => Ok (tt, d))) w.
Proof. apply does_tx. by intros ??? [= _ <-]. Qed.

Ltac dtac := repeat match goal with
  | |- own _ _ (_ ≫= _) _ => apply own_bind_any; [|intros ? ? _]
  | _ => progress own_tac
  end.

Lemma Publish_does P subject tenant payload w : does P (Publish (T:=BErr) subject tenant payload) w.
Proof.
  unfold Publish, NewEnvelope, js_publish. dtac; [|apply does_answer].
  apply own_tx. intros s1 ? s2 _ [= _ <-] k [Hn [dr Hd]]. simpl in Hd. congruence.
Qed.
Lemma Mark_does P id w : does P (BillingPostgres.MarkOutboxSent id) w.
Proof. unfold BillingPostgres.MarkOutboxSent. dtac. apply does_tx. by intros ??? [= _ <-]. Qed.

Lemma publish_each_does P events b w : does P (BillingRelay.publish_each events b) w.
Proof.
  revert b w. induction events as [|e events IH]; intros b w; [apply own_ret|].
  cbn [BillingRelay.publish_each]. dtac; [apply Publish_does|apply Mark_does|apply IH..].
Qed.

Lemma settle_each_does healthy failed w :
  does (fun k => healthy = true /\ exists e err, (e, err) ∈ failed /\ ob_ID e = k
                 /\ BillingRelay.maxOutboxAttempts <= ob_Attempts e)
    (BillingRelay.settle_each healthy failed) w.
Proof.
  revert w. induction failed as [|[e err] failed IH]; intros w; [apply own_ret|].
  cbn [BillingRelay.settle_each]. apply own_bind_any.
  - destruct (healthy && _) eqn:Hb; apply own_try; bool_hyps.
    + unfold BillingPostgres.MoveOutboxToDead. dtac; try apply does_answer.
      { apply does_tx. by intros d ? d' [= _ <-]. }
      apply own_tx. intros s1 ? s2 _ [= _ <-] k [Hn [dr Hd]]. split; [done|].
      exists e, err. split; [apply list_elem_of_here|]. split; [|done]. simpl in Hd.
      rewrite with_dead_lookup in Hd. case_decide; [done|congruence].
    + unfold BillingPostgres.RecordOutboxFailure. dtac. apply does_tx. by intros ??? [= _ <-].
  - intros _ w' _. eapply parks_only_mono; [|apply IH]. intros k (Hh & e' & err' & Hin & Hk & Ha).
    split; [done|]. exists e', err'. split; [by apply list_elem_of_further|done].
Qed.

(** What a batch's first loop returns. *)
Lemma publish_each_batch events b w b' w' :
  BillingRelay.publish_each events b w = (Ok b', w') ->
  (forall e err, (e, err) ∈ BillingRelay.bt_failed b' ->
     (e, err) ∈ BillingRelay.bt_failed b \/ e ∈ events)
  /\ BillingRelay.bt_published b <= BillingRelay.bt_published b'
  /\ (BillingRelay.bt_published b' = BillingRelay.bt_published b ->
      BillingRelay.bt_relay b' = BillingRelay.bt_relay b).
Proof.
  revert b w. induction events as [|e events IH]; intros b w H.
  { apply ret_Ok in H as [-> _]. split_and!; [by left|lia|done]. }
  cbn [BillingRelay.publish_each] in H. apply bind_Ok in H as (r & w1 & _ & H).
  assert (Hlift : forall l, l = BillingRelay.bt_failed b
      \/ (exists err, l = BillingRelay.bt_failed b ++ [(e, err)]) ->
    forall e1 err1, (e1, err1) ∈ l \/ e1 ∈ events ->
      (e1, err1) ∈ BillingRelay.bt_failed b \/ e1 ∈ e :: events).
  { intros l [->|(err & ->)] e1 err1 [He|He];
      try (right; by apply list_elem_of_further); [by left|].
    apply elem_of_app in He as [He|He]; [by left|]. apply list_elem_of_singleton in He. simplify_eq.
    right. apply list_elem_of_here. }
  destruct r as [[]|perr].
  - apply bind_Ok in H as (m & w2 & _ & H). destruct m as [u|].
    + apply bind_Ok in H as (now & w3 & _ & H). apply IH in H as (H1 & H2 & H3). simpl in *.
      split_and!; [|lia|lia]. intros e1 err1 He. eapply Hlift; [by left|]. by apply H1.
    + apply IH in H as (H1 & H2 & H3). split_and!; [|done..]. intros e1 err1 He.
      eapply Hlift; [by left|]. by apply H1.
  - apply IH in H as (H1 & H2 & H3). simpl in *. split_and!; [|done..]. intros e1 err1 He.
    eapply Hlift; [|by apply H1]. right. by exists perr.
Qed.


(** The programs of a relay leave the stream of clock readings as it is. *)
Definition same_clock {E A} (m : M St E A) : Prop :=
  forall w, env_clock (w_env (m w).2) = env_clock (w_env w).

Lemma same_clock_bind {E A B} (m : M St E A) (f : A -> M St E B) :
  same_clock m -> (forall a, same_clock (f a)) -> same_clock (m ≫= f).
Proof.
  intros Hm Hf w. specialize (Hm w). unfold mbind, M_bind. destruct (m w) as [[a|e] w1]; [|done].
  simpl in Hm. by rewrite Hf, Hm.
Qed.
Lemma same_clock_try {E E' A} (m : M St E A) : same_clock m -> same_clock (try (E':=E') m).
Proof. intros Hm w. specialize (Hm w). unfold try. by destruct (m w). Qed.
Lemma same_clock_map_err {E E' A} (f : E -> E') (m : M St E A) : same_clock m -> same_clock (map_err f m).
Proof. intros Hm w. specialize (Hm w). unfold map_err. by destruct (m w). Qed.
Lemma same_clock_tx {E A} (down : E) (q : St -> result E (A * St)) : same_clock (db_tx down q).
Proof. intros w. unfold db_tx. destruct (env_fault _ _); [done|]. by destruct (q _) as [[]|]. Qed.

Lemma publish_each_clock events b : same_clock (BillingRelay.publish_each events b).
Proof.
  revert b. induction events as [|e events IH]; intros b; [done|]. cbn [BillingRelay.publish_each].
  apply same_clock_bind.
  - apply same_clock_try. unfold Publish, NewEnvelope, js_publish, wrap.
    repeat (apply same_clock_bind; [done || apply same_clock_tx|intros ?]); try done.
    apply same_clock_map_err, same_clock_bind; [apply same_clock_tx|intros ?; apply same_clock_tx].
  - intros [u|err]; [|apply IH]. apply same_clock_bind; [|intros [?|?]; [|apply IH]].
    + apply same_clock_try. unfold BillingPostgres.MarkOutboxSent.
      apply same_clock_bind; [done|]. intros. apply same_clock_map_err, same_clock_tx.
    + apply same_clock_bind; [done|]. intros. apply IH.
Qed.

Lemma claim_log limit w events w' :
  BillingPostgres.ClaimUnsentOutbox locked returning limit w = (Ok events, w') ->
  exists c, w_log w' = (c, w_st w') :: w_log w /\ env_clock (w_env w') = env_clock (w_env w).
Proof.
  intros H. apply map_err_Ok in H. unfold q_exec, db_tx in H. destruct (env_fault _ _); [done|].
  destruct (on_db _ _) as [[a s2]|]; [|done]. injection H as _ <-. by eexists.
Qed.

Lemma broker_healthy_run b w :
  exists hl w', BillingRelay.broker_healthy b w = (Ok hl, w') /\ w_log w' = w_log w
    /\ (hl = true -> 0 < BillingRelay.bt_published b
        \/ exists i, time_Sub (env_clock (w_env w) i) (BillingRelay.lastPublishSuccess (BillingRelay.bt_relay b))
                     < BillingRelay.brokerHealthyWindow).
Proof.
  unfold BillingRelay.broker_healthy. case_bool_decide; (do 2 eexists; split; [reflexivity|]; split; [done|]).
  - by left.
  - rewrite bool_decide_eq_true. intros Hb. right. eauto.
Qed.

Lemma publish_each_returns events b w : exists b' w', BillingRelay.publish_each events b w = (Ok b', w').
Proof.
  revert b w. induction events as [|e events IH]; intros b w; [by do 2 eexists|].
  cbn [BillingRelay.publish_each]. unfold mbind at 1, M_bind at 1, try at 1.
  destruct (Publish _ _ _ w) as [[[]|perr] w1]; [|apply IH].
  unfold mbind at 1, M_bind at 1, try at 1.
  destruct (BillingPostgres.MarkOutboxSent _ w1) as [[u|merr] w2]; apply IH.
Qed.
Lemma settle_each_returns healthy failed w : exists w', BillingRelay.settle_each healthy failed w = (Ok tt, w').
Proof.
  revert w. induction failed as [|[e err] failed IH]; intros w; [by eexists|].
  cbn [BillingRelay.settle_each]. unfold mbind at 1, M_bind at 1, try at 1 2.
  destruct (healthy && _).
  - destruct (BillingPostgres.MoveOutboxToDead _ _ w). apply IH.
  - destruct (BillingPostgres.RecordOutboxFailure _ _ w). apply IH.
Qed.

(** An outage of the broker parks nothing.  Whatever else runs, in one batch of
    a relay: an event moves to the dead table only if the batch claimed it at its
    maxOutboxAttempts-th attempt or later, and only if the broker is known to
    answer: the batch itself published something, or this relay's last success is
    less than brokerHealthyWindow older than a reading of its clock.  So while
    nothing can be published for longer than that, every event stays in the outbox,
    however often it is tried. *)
Theorem outage_parks_nothing (limit : Z) (r : BillingRelay.Relay) (w w' : World St)
    (res : result (error BErr) (Z * BillingRelay.Relay)) :
  w_log w = [] -> BillingRelay.processBatch locked returning r limit w = (res, w') ->
  forall a b k, (a, b) ∈ w_log w' -> parks k a b ->
  (exists l c d k' e, w_log w' = l ++ [(c, d)] /\ event_outbox (store_db d) !! k' = Some e
     /\ ob_ID e = k /\ BillingRelay.maxOutboxAttempts <= ob_Attempts e)
  /\ ((exists n r', res = Ok (n, r') /\ 0 < n)
      \/ exists i, time_Sub (env_clock (w_env w) i) (BillingRelay.lastPublishSuccess r)
                   < BillingRelay.brokerHealthyWindow).
Proof.
  intros Hl H a b k Hin Hp. unfold BillingRelay.processBatch in H.
  assert (Hcl : does (fun _ => False) (BillingPostgres.ClaimUnsentOutbox locked returning limit) w).
  { apply own_map_err, does_tx. intros d a' d'. unfold BillingQueries.ClaimUnsentOutbox.
    case_bool_decide; [done|]. by intros [= _ <-]. }
  destruct (Hcl (fun _ _ => Logic.I)) as (l0 & Hl0 & Hall0). rewrite Hl, app_nil_r in Hl0.
  destruct (BillingPostgres.ClaimUnsentOutbox locked returning limit w) as [[events|e] w1] eqn:Hc.
  2: { unfold mbind, M_bind in H. rewrite Hc in H. injection H as _ <-. simpl in Hl0. rewrite Hl0 in Hin.
       rewrite Forall_forall in Hall0. by destruct (Hall0 _ Hin k Hp). }
  rewrite (bind_run _ _ _ _ _ Hc) in H. pose proof (Claim_rows _ _ returning_perm _ _ _ _ Hc) as Hrows.
  destruct (claim_log _ _ _ _ Hc) as (c & Hlog & Hclk). rewrite Hl in Hlog. simpl in Hl0.
  set (b0 := BillingRelay.mkBatch 0 r []) in H.
  destruct (publish_each_returns events b0 w1) as (bt & w2 & Hpub). rewrite (bind_run _ _ _ _ _ Hpub) in H.
  destruct (publish_each_does (fun _ => False) events b0 w1 (fun _ _ => Logic.I)) as (l1 & Hl1 & Hall1).
  pose proof (publish_each_clock events b0 w1) as Hclk2. rewrite Hpub in Hl1, Hclk2. simpl in Hl1, Hclk2.
  destruct (publish_each_batch _ _ _ _ _ Hpub) as (Hfail & Hpos & Hrel).
  destruct (broker_healthy_run bt w2) as (hl & w3 & Hh & Hlog3 & Hhl). rewrite (bind_run _ _ _ _ _ Hh) in H.
  destruct (settle_each_does hl (BillingRelay.bt_failed bt) w3 (fun _ _ => Logic.I)) as (l2 & Hl2 & Hall2).
  destruct (settle_each_returns hl (BillingRelay.bt_failed bt) w3) as (w4 & Hs). rewrite Hs in Hl2. simpl in Hl2.
  rewrite (bind_run _ _ _ _ _ Hs) in H. injection H as <- <-.
  assert (Hk : hl = true /\ exists e err, (e, err) ∈ BillingRelay.bt_failed bt /\ ob_ID e = k
                 /\ BillingRelay.maxOutboxAttempts <= ob_Attempts e).
  { rewrite Hl2, Hlog3, Hl1, !elem_of_app in Hin. rewrite Hl0 in Hin. rewrite !Forall_forall in Hall0, Hall1, Hall2.
    destruct Hin as [Hin|[Hin|Hin]]; [by apply (Hall2 _ Hin)|by destruct (Hall1 _ Hin k Hp)|
      by destruct (Hall0 _ Hin k Hp)]. }
  destruct Hk as (-> & e & err & He & Hid & Hatt). split.
  - destruct (Hfail _ _ He) as [He'|He']; [by apply elem_of_nil in He'|].
    rewrite Forall_forall in Hrows. destruct (Hrows _ He') as (k' & Hk').
    exists (l2 ++ l1), c, (w_st w1), k', e. split_and!; [|done..].
    by rewrite Hl2, Hlog3, Hl1, Hlog, app_assoc.
  - destruct (Hhl eq_refl) as [Hpub'|(i & Hi)]; [left; eauto|].
    destruct (decide (0 < BillingRelay.bt_published bt)); [left; eauto|right]. exists i.
    rewrite Hrel in Hi by (simpl in *; lia). by rewrite Hclk2, Hclk in Hi.
Qed.

End parking.

(** Billing: what the relay does when nothing disturbs it.  Enough ticks publish
    every waiting event exactly once, and an event that was given up can be
    replayed. *)

Local Open Scope Z_scope.

Section quiet_outbox.
Context {X : External}.
Implicit Types (w : World St) (d : DB).

Abbreviation outbox w := (event_outbox (store_db (w_st w))) (only parsing).
(** The stores with another outbox and more envelopes. *)
Definition with_outbox (t : gmap uuid OutboxEvent) (envs : list Envelope) (st : St) : St :=
  mkStore (set_outbox t (store_db st)) (store_events st ++ envs).
Definition waiting (st : St) : list OutboxEvent :=
  select BillingQueries.is_unsent (event_outbox (store_db st)).

Lemma with_outbox_with t t' l l' st : with_outbox t' l' (with_outbox t l st) = with_outbox t' (l ++ l') st.
Proof. unfold with_outbox. simpl. by rewrite app_assoc. Qed.
Lemma with_outbox_id st : with_outbox (event_outbox (store_db st)) [] st = st.
Proof. unfold with_outbox. rewrite app_nil_r. by destruct st as [[] ?]. Qed.

(** ** One event *)

Lemma Publish_evals subject tenant payload w :
  quiet w -> exists env, env_content env = (subject, tenant, payload)
    /\ evals (Publish (T:=BErr) subject tenant payload) w (Ok tt) (with_outbox (outbox w) [env] (w_st w)).
Proof.
  intros [Ho Hf]. exists (mkEnvelope (env_uuid (w_env w) (env_uuid_pos (w_env w))) subject tenant
    (env_clock (w_env w) (env_clock_pos (w_env w))) payload). split; [done|].
  unfold evals, Publish, NewEnvelope, js_publish, with_tx, wrap, map_err, mbind, M_bind, uuid_new,
    time_now, mret, M_ret, db_tx, on_db. simpl. rewrite Hf, Ho. simpl. rewrite Hf, Ho. simpl.
  eexists. split; [reflexivity|]. split; [|done]. unfold with_outbox. simpl.
  by destruct (w_st w) as [[] ?].
Qed.

Lemma Mark_evals id w :
  quiet w -> exists t, evals (BillingPostgres.MarkOutboxSent id) w (Ok tt)
    (with_outbox (alter (BillingQueries.sent_row t) id (outbox w)) [] (w_st w)).
Proof.
  intros Hw. destruct (evals_time (E:=error BErr) w Hw) as (t & Ht). exists t.
  unfold BillingPostgres.MarkOutboxSent. eapply evals_bind; [exact Ht|]. intros w1 Hq1 Hs1.
  unfold with_outbox. rewrite app_nil_r, <-Hs1. by apply evals_map_ok, evals_store_exec.
Qed.

(** ** One batch *)

(** [r'] is the event [r], marked as sent. *)
Definition sent_as (r r' : OutboxEvent) : Prop :=
  ob_ID r' = ob_ID r /\ row_content r' = row_content r /\ ob_SentAt r' <> None.
(** The rows with those identifiers are marked, the others kept. *)
Definition marks (ids : list uuid) (t t' : gmap uuid OutboxEvent) : Prop :=
  forall k, match t !! k, t' !! k with
            | Some r, Some r' => if decide (k ∈ ids) then sent_as r r' else r' = r
            | None, None => True
            | _, _ => False
            end.

Lemma marks_alter n ids id t t' :
  marks ids (alter (BillingQueries.sent_row n) id t) t' -> marks (id :: ids) t t'.
Proof.
  intros H k. specialize (H k). destruct (decide (k = id)) as [->|Hne].
  - rewrite lookup_alter_eq in H. destruct (t !! id) as [r|], (t' !! id) as [r'|]; simpl in H; try done.
    rewrite decide_True by apply list_elem_of_here. case_decide; [|by subst r']. by destruct H as (? & ? & ?).
  - rewrite lookup_alter_ne in H by done. destruct (t !! k) as [r|], (t' !! k) as [r'|]; try done.
    case_decide as H1; case_decide as H2; try done; exfalso.
    + apply H2. by apply list_elem_of_further.
    + apply elem_of_cons in H2 as [?|?]; done.
Qed.

Lemma publish_each_evals events b w :
  quiet w -> exists b' t envs,
    evals (BillingRelay.publish_each events b) w (Ok b') (with_outbox t envs (w_st w))
    /\ BillingRelay.bt_failed b' = BillingRelay.bt_failed b
    /\ env_content <$> envs = row_content <$> events
    /\ marks (ob_ID <$> events) (outbox w) t.
Proof.
  revert b w. induction events as [|e events IH]; intros b w Hw.
  - exists b, (outbox w), []. split_and!; [|done..|].
    + rewrite with_outbox_id. by apply evals_ret.
    + intros k. by destruct (_ !! k).
  - cbn [BillingRelay.publish_each].
    destruct (Publish_evals (ob_Subject e) (ob_TenantID e) (ob_Payload e) w Hw) as (env & Henv & w1 & H1 & Hs1 & Hq1).
    destruct (Mark_evals (ob_ID e) w1 Hq1) as (t & w2 & H2 & Hs2 & Hq2).
    destruct (evals_time (E:=error BErr) w2 Hq2) as (now & w3 & H3 & Hs3 & Hq3).
    destruct (IH (BillingRelay.mkBatch (BillingRelay.bt_published b + 1) (BillingRelay.mkRelay now)
                   (BillingRelay.bt_failed b)) w3 Hq3) as (b' & t' & envs & (w4 & H4 & Hs4 & Hq4) & Hf & Hc & Hm).
    exists b', t', (env :: envs). split_and!; [|done| |].
    + exists w4. split; [|split; [|done]].
      * unfold mbind at 1, M_bind at 1, try at 1. rewrite H1.
        unfold mbind at 1, M_bind at 1, try at 1. rewrite H2. by rewrite (bind_run _ _ _ _ _ H3).
      * rewrite Hs4, Hs3, Hs2, Hs1, !with_outbox_with. done.
    + csimpl. rewrite Hc, Henv. done.
    + rewrite Hs3, Hs2, Hs1 in Hm. simpl in Hm. by eapply marks_alter.
Qed.

(** *** Claiming *)

Definition keyed_outbox (t : gmap uuid OutboxEvent) : Prop := map_Forall (fun k r => ob_ID r = k) t.

Lemma NoDup_fmap_filter {A B} (f : A -> B) (p : A -> bool) (l : list A) :
  NoDup (f <$> l) -> NoDup (f <$> List.filter p l).
Proof.
  induction l as [|x l IH]; [done|]. rewrite fmap_cons. intros [Hx Hl]%NoDup_cons. simpl.
  destruct (p x); [|by apply IH]. rewrite fmap_cons. apply NoDup_cons. split; [|by apply IH].
  intros (y & Hy & Hin)%list_elem_of_fmap. apply filter_elem in Hin as [Hin _].
  apply Hx. apply list_elem_of_fmap. eauto.
Qed.

Lemma select_ids_NoDup p t : keyed_outbox t -> NoDup (ob_ID <$> select p t).
Proof.
  intros Hk. apply NoDup_fmap_filter. unfold rows. rewrite <-list_fmap_compose.
  rewrite (list_fmap_ext _ fst); [apply NoDup_fst_map_to_list|].
  intros i [k r] Hin. apply Hk, elem_of_map_to_list. by eapply list_elem_of_lookup_2.
Qed.

(** The waiting events in the order a batch takes them. *)
Definition queue (t : gmap uuid OutboxEvent) : list OutboxEvent :=
  order_by BillingQueries.created_le (select BillingQueries.is_unsent t).
Definition first (limit : Z) t := take (Z.to_nat limit) (queue t).
Definition rest (limit : Z) t := drop (Z.to_nat limit) (queue t).

Lemma first_rest limit t : first limit t ++ rest limit t ≡ₚ select BillingQueries.is_unsent t.
Proof. unfold first, rest. rewrite take_drop. apply order_by_perm. Qed.

Lemma queue_elem t r : keyed_outbox t -> r ∈ select BillingQueries.is_unsent t ->
  t !! ob_ID r = Some r /\ ob_SentAt r = None.
Proof.
  intros Hk [[k Hr] Hu]%select_elem. rewrite (Hk _ _ Hr). split; [done|].
  unfold BillingQueries.is_unsent in Hu. by bool_hyps.
Qed.
Lemma first_elem limit t r : keyed_outbox t -> r ∈ first limit t -> t !! ob_ID r = Some r /\ ob_SentAt r = None.
Proof. intros Hk Hr. apply queue_elem; [done|]. rewrite <-first_rest. apply elem_of_app. by left. Qed.

Section relay.
Variable returning : list OutboxEvent -> list OutboxEvent.
Hypothesis returning_perm : forall l, returning l ≡ₚ l.
Abbreviation unlocked := (fun (_ : DB) (_ : uuid) => false) (only parsing).

Lemma claimed_ids_first limit d :
  BillingQueries.claimed_ids unlocked limit d = list_to_set (ob_ID <$> first limit (event_outbox d)).
Proof.
  unfold BillingQueries.claimed_ids, first, queue, limit_offset, select. rewrite drop_0.
  by rewrite (filter_ext _ BillingQueries.is_unsent) by (intros; apply andb_true_r).
Qed.

Lemma claim_evals limit w :
  quiet w -> 0 <= limit -> keyed_outbox (outbox w) -> exists events t,
    evals (BillingPostgres.ClaimUnsentOutbox unlocked returning limit) w (Ok events) (with_outbox t [] (w_st w))
    /\ events ≡ₚ (BillingQueries.bump_attempts <$> first limit (outbox w))
    /\ forall k, t !! k = (fun r => if decide (k ∈ ob_ID <$> first limit (outbox w))
                                   then BillingQueries.bump_attempts r else r) <$> outbox w !! k.
Proof.
  intros Hw Hl Hk. set (ids := ob_ID <$> first limit (outbox w)).
  set (claimed := fun r => bool_decide (ob_ID r ∈ (list_to_set ids : gset uuid))).
  set (t := BillingQueries.update_where claimed BillingQueries.bump_attempts (outbox w)).
  assert (Ht : forall k, t !! k = (fun r => if decide (k ∈ ids) then BillingQueries.bump_attempts r else r)
                                  <$> outbox w !! k).
  { intros k. unfold t. rewrite update_where_lookup. destruct (outbox w !! k) as [r|] eqn:Hr; [|done].
    simpl. unfold claimed. rewrite (Hk _ _ Hr). case_bool_decide as H1; case_decide as H2; try done;
      rewrite elem_of_list_to_set in H1; done. }
  exists (returning (select claimed t)), t. split_and!; [| |exact Ht].
  - unfold with_outbox. rewrite app_nil_r.
    apply evals_map_ok, evals_store_exec; [done|]. unfold BillingQueries.ClaimUnsentOutbox.
    rewrite bool_decide_eq_false_2 by lia. rewrite claimed_ids_first. reflexivity.
  - rewrite returning_perm. assert (Hkt : keyed_outbox t).
    { intros k r'. rewrite Ht. destruct (outbox w !! k) as [r|] eqn:Hr; [|done]. intros [= <-].
      rewrite <-(Hk _ _ Hr). by case_decide. }
    assert (Hn : NoDup (ob_ID <$> first limit (outbox w))).
    { pose proof (select_ids_NoDup BillingQueries.is_unsent _ Hk) as Hn. rewrite <-(first_rest limit), fmap_app in Hn.
      by apply NoDup_app in Hn as [? _]. }
    apply NoDup_Permutation.
    + eapply NoDup_fmap_1. by apply (select_ids_NoDup claimed t).
    + eapply (NoDup_fmap_1 ob_ID). rewrite <-list_fmap_compose. exact Hn.
    + intros e. rewrite select_elem, list_elem_of_fmap. unfold claimed. rewrite bool_decide_eq_true, elem_of_list_to_set.
      split.
      * intros [[k He] Hid]. pose proof (Hkt _ _ He) as Hke. rewrite Ht in He.
        destruct (outbox w !! k) as [r|] eqn:Hr; [|done]. simpl in He.
        rewrite decide_True in He by (by rewrite <-Hke). injection He as <-. exists r. split; [done|].
        apply list_elem_of_fmap in Hid as (r0 & Hr0 & Hin). destruct (first_elem _ _ _ Hk Hin) as [Hr0' _].
        rewrite <-Hr0, Hke, Hr in Hr0'. by injection Hr0' as ->.
      * intros (r & -> & Hin). destruct (first_elem _ _ _ Hk Hin) as [Hr _].
        assert (Hid : ob_ID r ∈ ids) by (apply list_elem_of_fmap; eauto). split; [|exact Hid].
        exists (ob_ID r). rewrite Ht, Hr. simpl. by rewrite decide_True.
Qed.

(** *** Batches and ticks *)

(** What a batch leaves: the first events published and marked, the rest waiting. *)
Lemma batch_table limit t t1 t2 events :
  keyed_outbox t ->
  (forall k, t1 !! k = (fun r => if decide (k ∈ ob_ID <$> first limit t)
                                 then BillingQueries.bump_attempts r else r) <$> t !! k) ->
  events ≡ₚ (BillingQueries.bump_attempts <$> first limit t) ->
  marks (ob_ID <$> events) t1 t2 ->
  keyed_outbox t2 /\ select BillingQueries.is_unsent t2 ≡ₚ rest limit t.
Proof.
  intros Hk Ht1 Hev Hm.
  assert (Hids : (ob_ID <$> events) ≡ₚ (ob_ID <$> first limit t)).
  { rewrite Hev, <-list_fmap_compose. done. }
  assert (Hm' : forall k r2, t2 !! k = Some r2 -> exists r, t !! k = Some r /\
     (k ∈ (ob_ID <$> first limit t) /\ ob_ID r2 = ob_ID r /\ ob_SentAt r2 <> None
      \/ (k ∉ ob_ID <$> first limit t) /\ r2 = r)).
  { intros k r2 Hk2. specialize (Hm k). rewrite Hk2, Ht1 in Hm. destruct (t !! k) as [r|]; [|done].
    exists r. split; [done|]. simpl in Hm. destruct (decide (k ∈ ob_ID <$> events)) as [Hin|Hin]; rewrite Hids in Hin.
    - left. rewrite decide_True in Hm by done. by destruct Hm as (Hid & _ & Hs).
    - right. by rewrite decide_False in Hm. }
  assert (Hk2 : keyed_outbox t2).
  { intros k r2 H2. destruct (Hm' _ _ H2) as (r & Hr & [(_ & -> & _)|(_ & ->)]); by apply Hk. }
  split; [done|].
  pose proof (select_ids_NoDup BillingQueries.is_unsent _ Hk) as Hn.
  rewrite <-(first_rest limit), fmap_app in Hn. apply NoDup_app in Hn as (_ & Hdis & Hnr).
  apply NoDup_Permutation; [eapply NoDup_fmap_1; by apply select_ids_NoDup|by eapply NoDup_fmap_1|].
  intros e. split.
  - intros He. destruct (queue_elem _ _ Hk2 He) as [H2 Hs].
    destruct (Hm' _ _ H2) as (r & Hr & [(_ & _ & ?)|(Hni & ->)]); [done|].
    assert (Hin : r ∈ first limit t ++ rest limit t).
    { rewrite first_rest. apply select_elem. split; [eauto|]. unfold BillingQueries.is_unsent. by rewrite Hs. }
    apply elem_of_app in Hin as [Hin|]; [|done]. destruct Hni. apply list_elem_of_fmap. eauto.
  - intros He. assert (Hin : e ∈ select BillingQueries.is_unsent t).
    { rewrite <-(first_rest limit). apply elem_of_app. by right. }
    destruct (queue_elem _ _ Hk Hin) as [Hr Hs]. apply select_elem. split.
    + exists (ob_ID e). specialize (Hm (ob_ID e)). rewrite Ht1, Hr in Hm. simpl in Hm.
      assert (Hni : ob_ID e ∉ ob_ID <$> first limit t).
      { intros Hf. apply (Hdis _ Hf). apply list_elem_of_fmap. eauto. }
      destruct (t2 !! ob_ID e); [|done]. rewrite !decide_False in Hm by (by rewrite ?Hids). by subst.
    + unfold BillingQueries.is_unsent. by rewrite Hs.
Qed.

Lemma processBatch_evals r limit w :
  quiet w -> 0 <= limit -> keyed_outbox (outbox w) -> exists n r' t envs,
    evals (BillingRelay.processBatch unlocked returning r limit) w (Ok (n, r')) (with_outbox t envs (w_st w))
    /\ (env_content <$> envs) ≡ₚ (row_content <$> first limit (outbox w))
    /\ keyed_outbox t /\ select BillingQueries.is_unsent t ≡ₚ rest limit (outbox w).
Proof.
  intros Hw Hl Hk. destruct (claim_evals limit w Hw Hl Hk) as (events & t1 & (w1 & H1 & Hs1 & Hq1) & Hev & Ht1).
  destruct (publish_each_evals events (BillingRelay.mkBatch 0 r []) w1 Hq1)
    as (b & t2 & envs & (w2 & H2 & Hs2 & Hq2) & Hf & Hc & Hm).
  rewrite Hs1 in Hm. simpl in Hm.
  destruct (batch_table limit (outbox w) t1 t2 events Hk Ht1 Hev Hm) as [Hk2 Hsel].
  exists (BillingRelay.bt_published b), (BillingRelay.bt_relay b), t2, envs.
  split_and!; [|by rewrite Hc, Hev, <-list_fmap_compose|done..].
  assert (Hh : exists hl w3, BillingRelay.broker_healthy b w2 = (Ok hl, w3) /\ w_st w3 = w_st w2 /\ quiet w3).
  { unfold BillingRelay.broker_healthy. case_bool_decide; [by exists true, w2|].
    by do 2 eexists; split; [reflexivity|]. }
  destruct Hh as (hl & w3 & H3 & Hs3 & Hq3).
  exists w3. split; [|split; [|done]].
  - unfold BillingRelay.processBatch. rewrite (bind_run _ _ _ _ _ H1), (bind_run _ _ _ _ _ H2),
      (bind_run _ _ _ _ _ H3), Hf. reflexivity.
  - rewrite Hs3, Hs2, Hs1, with_outbox_with. done.
Qed.

Lemma Delete_evals cutoff w :
  quiet w -> exists n t, evals (BillingPostgres.DeleteSentOutboxOlderThan cutoff) w (Ok n) (with_outbox t [] (w_st w))
    /\ (keyed_outbox (outbox w) -> keyed_outbox t)
    /\ select BillingQueries.is_unsent t ≡ₚ select BillingQueries.is_unsent (outbox w).
Proof.
  intros Hw. do 2 eexists. split_and!.
  - unfold with_outbox. rewrite app_nil_r. by apply evals_map_ok, evals_store_exec.
  - intros Hk k r Hr. apply map_lookup_filter_Some in Hr as [Hr _]. by apply Hk.
  - apply select_perm. intros k r Hu. unfold BillingQueries.delete_where. rewrite map_lookup_filter_Some.
    split; [by intros [? _]|]. intros Hr. split; [done|]. simpl. unfold BillingQueries.sent_before,
      BillingQueries.is_unsent in *. bool_hyps. by rewrite Hu.
Qed.

Lemma updateGauges_evals w : quiet w -> evals BillingRelay.updateGauges w (Ok tt) (w_st w).
Proof.
  intros Hw. unfold BillingRelay.updateGauges, BillingPostgres.OutboxStats.
  eapply evals_bind; [apply evals_try, evals_map_err, evals_store_query; done|].
  intros w1 Hq1 <-. by apply evals_ret.
Qed.

Lemma tick_evals r ticks w :
  quiet w -> keyed_outbox (outbox w) -> exists r' t envs,
    evals (BillingRelay.tick unlocked returning r ticks) w (Ok r') (with_outbox t envs (w_st w))
    /\ (env_content <$> envs) ≡ₚ (row_content <$> first BillingRelay.relayBatchSize (outbox w))
    /\ keyed_outbox t
    /\ select BillingQueries.is_unsent t ≡ₚ rest BillingRelay.relayBatchSize (outbox w).
Proof.
  intros Hw Hk.
  destruct (processBatch_evals r BillingRelay.relayBatchSize w Hw ltac:(done) Hk)
    as (n & r' & t & envs & (w1 & H1 & Hs1 & Hq1) & Hc & Hk1 & Hsel).
  destruct (updateGauges_evals w1 Hq1) as (w2 & H2 & Hs2 & Hq2).
  assert (Hclean : exists w3 t', (if decide (ticks `mod` BillingRelay.relayCleanupEach = 0)
       then now ← time_now;
            _ ← try (E' := error BErr) (BillingPostgres.DeleteSentOutboxOlderThan (now - BillingRelay.relaySentTTL)); mret tt
       else mret tt) w2 = (Ok tt, w3) /\ w_st w3 = with_outbox t' [] (w_st w2) /\ quiet w3
       /\ keyed_outbox t' /\ select BillingQueries.is_unsent t' ≡ₚ select BillingQueries.is_unsent t).
  { case_decide.
    - destruct (evals_time (E:=error BErr) w2 Hq2) as (now & wt & Ht & Hst & Hqt).
      destruct (Delete_evals (now - BillingRelay.relaySentTTL) wt Hqt) as (m & t' & (w3 & H3 & Hs3 & Hq3) & Hk3 & Hsel3).
      exists w3, t'. rewrite (bind_run _ _ _ _ _ Ht). unfold mbind, M_bind, try. rewrite H3.
      rewrite Hst, Hs2, Hs1 in Hk3, Hsel3. split_and!; [done|by rewrite Hs3, Hst|done|by apply Hk3|done].
    - exists w2, t. split_and!; [done| |done..]. rewrite Hs2, Hs1, with_outbox_with. by rewrite app_nil_r. }
  destruct Hclean as (w3 & t' & H3 & Hs3 & Hq3 & Hk3 & Hsel3).
  exists r', t', envs. split_and!; [|done|done|by rewrite Hsel3].
  exists w3. split; [|split; [|done]].
  - unfold BillingRelay.tick. unfold mbind at 1, M_bind at 1, try at 1. rewrite H1.
    rewrite (bind_run _ _ _ _ _ H2), (bind_run _ _ _ _ _ H3). reflexivity.
  - rewrite Hs3, Hs2, Hs1, with_outbox_with. by rewrite app_nil_r.
Qed.

Lemma run_ticks_evals n r ticks w :
  quiet w -> keyed_outbox (outbox w) ->
  Z.of_nat (length (waiting (w_st w))) <= Z.of_nat n * BillingRelay.relayBatchSize ->
  exists r' t envs,
    evals (BillingRelay.run_ticks unlocked returning n r ticks) w (Ok r') (with_outbox t envs (w_st w))
    /\ (env_content <$> envs) ≡ₚ (row_content <$> waiting (w_st w))
    /\ keyed_outbox t /\ select BillingQueries.is_unsent t = [].
Proof.
  revert r ticks w. induction n as [|n IH]; intros r ticks w Hw Hk Hlen.
  - exists r, (outbox w), []. assert (Hnil : waiting (w_st w) = []) by (apply length_zero_iff_nil; lia).
    rewrite Hnil. split_and!; [|done|done|exact Hnil]. rewrite with_outbox_id. by apply evals_ret.
  - cbn [BillingRelay.run_ticks].
    destruct (tick_evals r (ticks + 1) w Hw Hk) as (r1 & t1 & envs1 & (w1 & H1 & Hs1 & Hq1) & Hc1 & Hk1 & Hsel1).
    destruct (IH r1 (ticks + 1) w1 Hq1) as (r2 & t2 & envs2 & (w2 & H2 & Hs2 & Hq2) & Hc2 & Hk2 & Hsel2).
    + by rewrite Hs1.
    + rewrite Hs1. unfold waiting in *. simpl. rewrite Hsel1. unfold rest, queue. rewrite length_drop, order_by_perm.
      unfold BillingRelay.relayBatchSize in *. lia.
    + exists r2, t2, (envs1 ++ envs2). split_and!; [|  |done..].
      * exists w2. rewrite (bind_run _ _ _ _ _ H1). split; [done|]. split; [|done]. by rewrite Hs2, Hs1, with_outbox_with.
      * rewrite fmap_app, Hc1, Hc2, Hs1. unfold waiting. simpl.
        rewrite Hsel1, <-fmap_app, first_rest. done.
Qed.

(** C19: The relay drains the outbox.  Undisturbed, with the broker up and no row
    locked elsewhere, a relay started on an outbox with at most n batches of waiting
    events returns from its first n ticks with no event waiting, and the stream grew
    by exactly one envelope per event that was waiting, with its subject, tenant and
    payload; dead events and all other tables are as they were. *)
Theorem outbox_drains (n : nat) (w : World St) :
  quiet w -> Inv (w_st w) ->
  Z.of_nat (length (waiting (w_st w))) <= Z.of_nat n * BillingRelay.relayBatchSize ->
  exists r t envs,
    evals (BillingRelay.Run unlocked returning n) w (Ok r)
      (mkStore (set_outbox t (store_db (w_st w))) (store_events (w_st w) ++ envs))
    /\ (env_content <$> envs) ≡ₚ (row_content <$> waiting (w_st w))
    /\ forall k r', t !! k = Some r' -> ob_SentAt r' <> None.
Proof.
  intros Hw I Hlen.
  destruct (run_ticks_evals n BillingRelay.NewRelay 0 w Hw) as (r & t & envs & He & Hc & Hk & Hsel); [|done|].
  - intros k r' Hr. by apply (inv_rows _ I _ _ Hr).
  - exists r, t, envs. split_and!; [exact He|exact Hc|]. intros k r' Hr Hs.
    assert (Hin : r' ∈ select BillingQueries.is_unsent t).
    { apply select_elem. split; [eauto|]. unfold BillingQueries.is_unsent. by rewrite Hs. }
    rewrite Hsel in Hin. by apply elem_of_nil in Hin.
Qed.
End relay.

(** ** Replaying a dead event *)

Lemma Move_evals id msg r w :
  quiet w -> outbox w !! id = Some r -> event_outbox_dead (store_db (w_st w)) !! id = None ->
  exists t, evals (BillingPostgres.MoveOutboxToDead id msg) w (Ok tt)
    (mkStore (set_outboxes (delete id (outbox w))
       (<[id := BillingQueries.dead_row t msg r]> (event_outbox_dead (store_db (w_st w))))
       (issued (store_db (w_st w))) (store_db (w_st w))) (store_events (w_st w))).
Proof.
  intros Hw Hr Hd. destruct (evals_time (E:=error BErr) w Hw) as (t & Ht). exists t.
  unfold BillingPostgres.MoveOutboxToDead. eapply evals_bind; [exact Ht|]. intros w1 Hq1 Hs1.
  eapply evals_bind.
  { apply evals_map_ok. exact (evals_store_query (fun d => Ok (BillingQueries.insert_dead t id msg d)) w1 Hq1). }
  intros w2 Hq2 Hs2. rewrite Hs1 in Hs2 |- *. unfold BillingQueries.insert_dead. rewrite Hr, Hd.
  eapply evals_bind; [apply evals_map_ok, evals_store_exec; [done|reflexivity]|]. intros w3 Hq3 Hs3.
  rewrite Hs2 in Hs3. simpl in Hs3. rewrite Hd in Hs3.
  pose proof (evals_with_tx (EText (S:=BErr) "commit: connection failed") (fun d => Ok (tt, d)) w3 _ _ Hq3
    eq_refl) as Hc. rewrite Hs3 in Hc. exact Hc.
Qed.

Lemma Replay_evals id r w :
  quiet w -> event_outbox_dead (store_db (w_st w)) !! id = Some r -> outbox w !! id = None ->
  evals (BillingPostgres.ReplayDeadOutbox id) w (Ok tt)
    (mkStore (set_replayed ({[id]} ∪ replayed (store_db (w_st w)))
       (set_outboxes (<[id := BillingQueries.rearmed r]> (outbox w))
       (delete id (event_outbox_dead (store_db (w_st w)))) (issued (store_db (w_st w))) (store_db (w_st w))))
       (store_events (w_st w))).
Proof.
  intros Hw Hd Hr. unfold BillingPostgres.ReplayDeadOutbox.
  eapply evals_bind.
  - apply evals_with_tx; [done|]. unfold BillingPostgres.replay_tx, BillingQueries.reinsert_outbox.
    rewrite Hd, Hr. reflexivity.
  - intros w2 Hq2 Hs2. pose proof (evals_with_tx (EText (S:=BErr) "commit: connection failed")
      (fun d => Ok (tt, d)) w2 _ _ Hq2 eq_refl) as Hc. by rewrite Hs2 in Hc.
Qed.

Lemma Replay_missing id w :
  quiet w -> event_outbox_dead (store_db (w_st w)) !! id = None ->
  evals (BillingPostgres.ReplayDeadOutbox id) w (Err (ESent ErrOutboxEventNotFound)) (w_st w).
Proof.
  intros Hw Hd. unfold BillingPostgres.ReplayDeadOutbox. apply evals_bind_err.
  apply evals_with_tx_err; [done|]. unfold BillingPostgres.replay_tx, BillingQueries.reinsert_outbox.
  by rewrite Hd.
Qed.

(** A dead event can be brought back.  Undisturbed, moving an event of the
    outbox to the dead table takes it out of the relay's sight with its content, age
    and attempts and the error; replaying it gives back the stores as they were,
    except that the row is waiting with its old identifier, content and age, no
    attempt and no error; and a second replay is refused with ErrOutboxEventNotFound
    and changes nothing. *)
Theorem dead_replay_roundtrip (id : uuid) (msg : string) (r : OutboxEvent) (w : World St) :
  quiet w -> Inv (w_st w) -> outbox w !! id = Some r ->
  exists t w1 w2,
    BillingPostgres.MoveOutboxToDead id msg w = (Ok tt, w1)
    /\ outbox w1 !! id = None
    /\ event_outbox_dead (store_db (w_st w1)) !! id
       = Some (mkDead id (ob_Subject r) (ob_TenantID r) (ob_Payload r) (ob_CreatedAt r) (ob_Attempts r)
                 (Some msg) t)
    /\ BillingPostgres.ReplayDeadOutbox id w1 = (Ok tt, w2)
    /\ w_st w2 = mkStore (set_replayed ({[id]} ∪ replayed (store_db (w_st w))) (set_outbox
         (<[id := mkOutbox id (ob_Subject r) (ob_TenantID r) (ob_Payload r) (ob_CreatedAt r) None 0 None]> (outbox w))
         (store_db (w_st w)))) (store_events (w_st w))
    /\ evals (BillingPostgres.ReplayDeadOutbox id) w2 (Err (ESent ErrOutboxEventNotFound)) (w_st w2).
Proof.
  intros Hw I Hr. destruct (inv_rows _ I _ _ Hr) as (Hid & _ & _).
  assert (Hd : event_outbox_dead (store_db (w_st w)) !! id = None).
  { destruct (event_outbox_dead (store_db (w_st w)) !! id) as [dr|] eqn:Hd; [|done]. destruct (inv_dead _ I _ _ Hd) as (_ & _ & ?). congruence. }
  destruct (Move_evals id msg r w Hw Hr Hd) as (t & w1 & H1 & Hs1 & Hq1).
  destruct (Replay_evals id (BillingQueries.dead_row t msg r) w1 Hq1) as (w2 & H2 & Hs2 & Hq2).
  { rewrite Hs1. apply lookup_insert_eq. }
  { rewrite Hs1. apply lookup_delete_eq. }
  exists (pg_time t), w1, w2. rewrite Hs1 in Hs2. simpl in Hs2.
  rewrite insert_delete_eq, delete_insert_id in Hs2 by done. split_and!; [done| | |done| |].
  - rewrite Hs1. apply lookup_delete_eq.
  - rewrite Hs1. simpl. rewrite lookup_insert_eq. unfold BillingQueries.dead_row. by rewrite Hid.
  - rewrite Hs2. unfold BillingQueries.rearmed. simpl. rewrite Hid. by destruct (w_st w) as [[] ?].
  - apply Replay_missing; [done|]. by rewrite Hs2.
Qed.

End quiet_outbox.
