(* ===== verification/BillingSubs.v ===== *)
(** Billing: subscriptions.  A suspension and its event are stored together or not at
    all, what happens when it meets an upgrade, and the plan limits; a
    suspension reaches the tenant; a concrete service and its witnesses. *)

From S2P Require Export BillingOutbox Logic.
From S2P Require BillingQueries BillingPostgres Billing BillingHandler Tenancy TenancyCalls BillingRelay.
Local Open Scope Z_scope.

Section subscriptions.
Context {X : External}.
Implicit Types (w : World St) (d : DB) (st : St).

(** ** Reading and writing one subscription *)

Lemma update_where_insert {A} (p : A -> bool) f (t : gmap uuid A) k r :
  t !! k = Some r -> p r = true -> (forall k' r', t !! k' = Some r' -> p r' = true -> k' = k) ->
  BillingQueries.update_where p f t = <[k := f r]> t.
Proof.
  intros Hk Hp Hu. apply map_eq. intros k'. rewrite update_where_lookup.
  destruct (decide (k' = k)) as [->|Hne].
  - rewrite lookup_insert_eq, Hk. simpl. by rewrite Hp.
  - rewrite lookup_insert_ne by done. destruct (t !! k') as [r'|] eqn:Hk'; [|done]. simpl.
    destruct (p r') eqn:Hp'; [|done]. by destruct Hne; eapply Hu.
Qed.

Lemma of_tenant_true t r : BillingQueries.of_tenant t r = true <-> sr_TenantID r = t.
Proof. apply bool_decide_eq_true. Qed.

Lemma tenant_subscription t d k r :
  subs_ok (subscriptions d) -> subscriptions d !! k = Some r -> sr_TenantID r = t ->
  BillingQueries.GetSubscriptionByTenant t d = Ok r.
Proof.
  intros [_ Hu] Hk Ht. unfold BillingQueries.GetSubscriptionByTenant, one_row.
  destruct (select _ _) as [|r' l] eqn:Hs.
  - assert (Hin : r ∈ select (BillingQueries.of_tenant t) (subscriptions d))
      by (apply select_elem; split; [eauto|by apply of_tenant_true]).
    rewrite Hs in Hin. by apply elem_of_nil in Hin.
  - assert (Hin : r' ∈ select (BillingQueries.of_tenant t) (subscriptions d))
      by (rewrite Hs; apply list_elem_of_here).
    apply select_elem in Hin as [[k' Hk'] Ht']. apply of_tenant_true in Ht'.
    assert (k' = k) as -> by (eapply Hu; [done..|congruence]). congruence.
Qed.

Lemma tenant_subscription_inv t d r :
  subs_ok (subscriptions d) -> BillingQueries.GetSubscriptionByTenant t d = Ok r ->
  subscriptions d !! sr_ID r = Some r /\ sr_TenantID r = t.
Proof.
  intros [Hk _] H%one_row_Ok. apply select_elem in H as [[k Hr] Ht%of_tenant_true].
  destruct (Hk _ _ Hr) as [<- _]. done.
Qed.

Lemma update_one s d k r :
  subs_ok (subscriptions d) -> subscriptions d !! k = Some r -> sr_TenantID r = su_TenantID s ->
  BillingQueries.subscriptions_check (su_Plan s) (su_Status s) (su_BillingCycle s) = true ->
  BillingQueries.UpdateSubscription s d
  = Ok (tt, set_subscriptions (<[k := BillingQueries.updated_subscription s r]> (subscriptions d)) d).
Proof.
  intros [_ Hu] Hk Ht Hc. unfold BillingQueries.UpdateSubscription. rewrite Hc, andb_false_r.
  erewrite update_where_insert; [reflexivity|exact Hk|by apply of_tenant_true|].
  intros k' r' Hk' Ht'%of_tenant_true. eapply Hu; [done..|congruence].
Qed.

Lemma get_subscription_run t w k r :
  quiet w -> Inv (w_st w) -> subscriptions (store_db (w_st w)) !! k = Some r -> sr_TenantID r = t ->
  exists w1, Billing.get_subscription t w = (Ok (BillingPostgres.scanSubscription r), w1)
    /\ w_st w1 = w_st w /\ quiet w1.
Proof.
  intros Hw I Hk Ht. pose proof (evals_store_query (BillingQueries.GetSubscriptionByTenant t) w Hw) as Hq.
  rewrite (tenant_subscription _ _ _ _ (inv_subs _ I) Hk Ht) in Hq. destruct Hq as (w1 & H1 & Hs1 & Hq1).
  exists w1. split; [|done]. unfold Billing.get_subscription, BillingPostgres.GetSubscriptionByTenant, wrap, map_err.
  unfold mbind, M_bind. by rewrite H1.
Qed.

(** ** Suspension *)

(** The row of a subscription suspended at [t]. *)
Definition suspended_subscription (t : Time) (r : SubscriptionRow) : SubscriptionRow :=
  mkSubscriptionRow (sr_ID r) (sr_TenantID r) (sr_Plan r) "suspended" (sr_BillingCycle r)
    (pg_time (sr_CurrentPeriodStart r)) (pg_time (sr_CurrentPeriodEnd r)) (pg_time <$> sr_TrialEndsAt r)
    (pg_time <$> sr_CancelledAt r) (Some (pg_time t)) (Some (stringFromPgText (sr_RazorpaySubID r)))
    (Some (stringFromPgText (sr_StripeSubID r))) (sr_CreatedAt r) (pg_time t).

(** The event of that suspension, waiting. *)
Definition suspension_event (id sub tenant : uuid) (t now : Time) : OutboxEvent :=
  mkOutbox id SubjectBillingSubscriptionSuspended tenant
    (JObject [("subscription_id", JString (uuid_string sub)); ("suspended_at", JString (format_rfc3339 t));
              ("purge_after", JString (format_rfc3339 (AddDate 0 0 30 t)))])
    (pg_time now) None 0 None.

(** The tenant's subscription is suspended and one event waits for the relay, under
    an identifier never given before; nothing else is different. *)
Definition suspension (tenant : uuid) (st st' : St) : Prop :=
  exists k r t now id, let d := store_db st in
    subscriptions d !! k = Some r /\ sr_TenantID r = tenant /\ issued d !! id = None
    /\ st' = mkStore (set_outboxes (<[id := suspension_event id k tenant t now]> (event_outbox d))
                        (event_outbox_dead d) (<[id := row_content (suspension_event id k tenant t now)]> (issued d))
                        (set_subscriptions (<[k := suspended_subscription t r]> (subscriptions d)) d))
               (store_events st).

Section suspend.
Variable gen_random_uuid : uuid -> gset uuid -> uuid.
Hypothesis gen_fresh : forall draw ids, gen_random_uuid draw ids ∉ ids.

Lemma check_status plan status status' cycle :
  BillingQueries.subscriptions_check plan status cycle = true ->
  bool_decide (status' ∈ ["trialing"; "active"; "past_due"; "cancelled"; "suspended"]) = true ->
  BillingQueries.subscriptions_check plan status' cycle = true.
Proof. unfold BillingQueries.subscriptions_check. rewrite !andb_true_iff. tauto. Qed.

Lemma suspend_tx_Ok draw now t st k r :
  Inv st -> subscriptions (store_db st) !! k = Some r ->
  exists st', BillingPostgres.suspend_tx gen_random_uuid draw now
      (Billing.suspended t (BillingPostgres.scanSubscription r)) SubjectBillingSubscriptionSuspended
      (Billing.suspended_payload (sr_ID r) t) (store_db st) = Ok (tt, store_db st')
    /\ store_events st' = store_events st /\ suspension (sr_TenantID r) st st'.
Proof.
  intros I Hk. destruct (proj1 (inv_subs _ I) _ _ Hk) as [Hid Hc].
  set (id := gen_random_uuid draw (dom (issued (store_db st)))).
  assert (Hfresh : issued (store_db st) !! id = None) by apply not_elem_of_dom, gen_fresh.
  eexists (mkStore _ (store_events st)). split; [|split; [reflexivity|]].
  - unfold BillingPostgres.suspend_tx. rewrite (update_one _ _ k r (inv_subs _ I)); [|done..|].
    + unfold BillingQueries.insert_outbox. rewrite bool_decide_eq_false_2; [reflexivity|].
      intros [r' Hr']. destruct (inv_rows _ I _ _ Hr') as (_ & Hi & _). by pose proof (eq_trans (eq_sym Hfresh) Hi).
    + by eapply check_status.
  - exists k, r, t, now, id. subst k. split_and!; [done..|reflexivity].
Qed.

(** C18: A suspension and its event are stored together or not at all.  Run alone,
    though any of its calls may fail or lose its answer: SuspendSubscription either
    answers an error and changes nothing, or the tenant's subscription is suspended
    and one event waits in the outbox, with the subscription, the moment of the
    suspension and the purge date 30 days later, under a fresh identifier, and
    nothing else is different; it answers the suspended subscription only in the
    second case, where it may also answer an error if the answer to the commit was
    lost. *)
Theorem suspend_with_event (u : nat -> uuid) (tenant : uuid) (st : St) :
  Inv st ->
  wp u (Billing.SuspendSubscription gen_random_uuid tenant)
    (fun res st' =>
       (st' = st /\ is_ok res = false)
       \/ suspension tenant st st'
          /\ forall s, res = Ok s -> su_TenantID s = tenant /\ su_Status s = "suspended") st.
Proof.
  intros I. unfold Billing.SuspendSubscription, Billing.get_subscription,
    BillingPostgres.GetSubscriptionByTenant, BillingPostgres.SuspendSubscriptionWithOutbox. wp_tac.
  apply wp_with_tx; [by left|].
  destruct (BillingQueries.GetSubscriptionByTenant tenant (store_db st)) as [r|e] eqn:Hg; [|wp_tac; by left].
  apply tenant_subscription_inv in Hg as [Hk <-]; [|apply I]. wp_tac. cbv zeta. wp_tac.
  destruct (suspend_tx_Ok (u n) t0 t st _ _ I Hk) as ([d' evs] & Htx & Hev & Hsus). simpl in *. subst evs.
  destruct st as [d ev]. simpl in *. apply wp_with_tx; [by left|]. simpl. rewrite Htx.
  unfold BillingPostgres.commit_answer. apply wp_with_tx.
  - right. by split.
  - wp_tac. right. split; [done|]. by intros s [= <-].
Qed.

(** The same in a quiet world. *)
Lemma Suspend_evals tenant k r w :
  quiet w -> Inv (w_st w) -> subscriptions (store_db (w_st w)) !! k = Some r -> sr_TenantID r = tenant ->
  exists s st', evals (Billing.SuspendSubscription gen_random_uuid tenant) w (Ok s) st'
    /\ suspension tenant (w_st w) st' /\ Inv st'.
Proof.
  intros Hw I Hk Ht.
  pose proof (SuspendSubscription_steps gen_fresh tenant w (quiet_rely ostep _ Hw)) as (Hm & _).
  enough (exists s st', evals (Billing.SuspendSubscription gen_random_uuid tenant) w (Ok s) st'
    /\ suspension tenant (w_st w) st') as (s & st' & (w' & H1 & H2 & H3) & Hs).
  { exists s, st'. split; [by exists w'|]. split; [done|]. rewrite H1 in Hm. simpl in Hm. rewrite H2 in Hm.
    by apply mv_inv in Hm. }
  unfold Billing.SuspendSubscription.
  destruct (get_subscription_run tenant w k r Hw I Hk Ht) as (w1 & H1 & Hs1 & Hq1).
  destruct (evals_time (E:=error BErr) w1 Hq1) as (t & w2 & H2 & Hs2 & Hq2).
  destruct (evals_uuid (E:=error BErr) w2 Hq2) as (draw & w3 & H3 & Hs3 & Hq3).
  destruct (evals_time (E:=error BErr) w3 Hq3) as (now & w4 & H4 & Hs4 & Hq4).
  assert (Hs : w_st w4 = w_st w) by congruence.
  destruct (suspend_tx_Ok draw now t _ _ _ I Hk) as (st' & Htx & Hev & Hsus).
  destruct (evals_with_tx (EWrap "billing: begin suspend+outbox tx: %w" (EText "connection failed")) _ w4 tt
     (store_db st') Hq4 (eq_trans (f_equal _ (f_equal store_db Hs)) Htx)) as (w5 & H5 & Hs5 & Hq5).
  destruct (evals_with_tx (EText (S:=BErr) "commit: connection failed") (fun d => Ok (tt, d)) w5 _ _ Hq5 eq_refl)
    as (w6 & H6 & Hs6 & Hq6).
  exists (Billing.suspended t (BillingPostgres.scanSubscription r)), st'. split; [|by rewrite <-Ht].
  exists w6. split; [|split; [|done]].
  - rewrite (bind_run _ _ _ _ _ H1), (bind_run _ _ _ _ _ H2). cbv zeta.
    erewrite bind_wrap_Ok; [reflexivity|]. unfold BillingPostgres.SuspendSubscriptionWithOutbox.
    rewrite (bind_run _ _ _ _ _ H3), (bind_run _ _ _ _ _ H4), (bind_run _ _ _ _ _ H5). exact H6.
  - rewrite Hs6, Hs5, Hs, <-Hev. by destruct st'.
Qed.

Lemma check_plan plan plan' limits status cycle :
  PlanLimitsByName plan' = Some limits -> BillingQueries.subscriptions_check plan status cycle = true ->
  BillingQueries.subscriptions_check plan' status cycle = true.
Proof.
  unfold BillingQueries.subscriptions_check, PlanLimitsByName. rewrite !andb_true_iff.
  intros Hp [[_ ?] ?]. split_and!; [|done..].
  destruct (decide (plan' = "starter")) as [->|]; [done|].
  destruct (decide (plan' = "professional")) as [->|]; [done|].
  by destruct (decide (plan' = "enterprise")) as [->|].
Qed.

(** ** An upgrade that meets a suspension *)

(** A call that goes through, in a given state of the shared data. *)
Lemma tx_call {E A} (down : E) (q : St -> result E (A * St)) w a st' :
  env_fault (w_env w) (env_fault_pos (w_env w)) = false ->
  q (w_other w (env_fault_pos (w_env w)) (w_st w)) = Ok (a, st') ->
  exists w1, db_tx down q w = (Ok a, w1) /\ w_st w1 = st' /\ w_other w1 = w_other w
    /\ env_fault (w_env w1) = env_fault (w_env w)
    /\ env_fault_pos (w_env w1) = S (env_fault_pos (w_env w)).
Proof. intros Hf Hq. unfold db_tx. rewrite Hf, Hq. by eexists. Qed.

(** An upgrade can undo a suspension.  If a suspension runs between the read and
    the write of UpgradeSubscription, both calls succeed, and the subscription ends
    up with the new plan and the status it had before (active where it was a trial),
    with the suspension date it had before, while the event that tells the other
    services that it is suspended stays waiting for the relay. *)
Theorem upgrade_undoes_suspension (tenant k : uuid) (newPlan : string) (limits : PlanLimits)
    (r : SubscriptionRow) (w ws : World St) :
  Inv (w_st w) -> subscriptions (store_db (w_st w)) !! k = Some r -> sr_TenantID r = tenant ->
  PlanLimitsByName newPlan = Some limits -> sr_Status r <> "cancelled" -> sr_Status r <> "suspended" ->
  (forall n, env_fault (w_env w) n = false) ->
  w_other w (env_fault_pos (w_env w)) (w_st w) = w_st w ->
  quiet ws -> w_st ws = w_st w ->
  w_other w (S (env_fault_pos (w_env w))) (w_st w)
    = w_st (Billing.SuspendSubscription gen_random_uuid tenant ws).2 ->
  is_ok (Billing.SuspendSubscription gen_random_uuid tenant ws).1 = true
  /\ exists s w' r' id e, Billing.UpgradeSubscription tenant newPlan w = (Ok s, w')
       /\ subscriptions (store_db (w_st w')) !! k = Some r'
       /\ sr_Plan r' = newPlan
       /\ sr_Status r' = (if decide (sr_Status r = "trialing") then "active" else sr_Status r)
       /\ sr_SuspendedAt r' = pg_time <$> sr_SuspendedAt r
       /\ event_outbox (store_db (w_st w')) !! id = Some e
       /\ ob_Subject e = SubjectBillingSubscriptionSuspended /\ ob_TenantID e = tenant
       /\ ob_SentAt e = None.
Proof.
  intros I Hk Ht Hl Hnc Hns Hf Ho0 Hws Hss Ho1.
  destruct (Suspend_evals tenant k r ws Hws) as (s & st1 & (ws1 & Hsus & Hst1 & _) & Hs1 & I1); [by rewrite Hss..|done|].
  rewrite Hsus in Ho1 |- *. simpl in Ho1. rewrite Hst1 in Ho1. split; [done|].
  destruct Hs1 as (k1 & r1 & t & now & id & Hk1 & Ht1 & _ & ->). rewrite Hss in Hk1, Ho1.
  assert (k1 = k) as -> by (eapply (proj2 (inv_subs _ I)); [done..|congruence]).
  assert (r1 = r) as -> by congruence. rewrite Hss in I1.
  set (d1 := set_outboxes _ _ _ _) in Ho1, I1.
  unfold Billing.UpgradeSubscription. rewrite Hl.
  destruct (tx_call PgConnection (on_db (fun d => match BillingQueries.GetSubscriptionByTenant tenant d with
     Ok a => Ok (a, d) | Err e => Err e end)) w r (w_st w) (Hf _)) as (w1 & H1 & Hw1 & How1 & Hf1 & Hp1).
  { rewrite Ho0. unfold on_db. rewrite (tenant_subscription _ _ _ _ (inv_subs _ I) Hk Ht). by destruct (w_st w). }
  assert (Hget : Billing.get_subscription tenant w = (Ok (BillingPostgres.scanSubscription r), w1)).
  { unfold Billing.get_subscription, BillingPostgres.GetSubscriptionByTenant, wrap, map_err, q_query, q_exec,
      mbind, M_bind. by rewrite H1. }
  rewrite (bind_run _ _ _ _ _ Hget). simpl. rewrite !decide_False by done.
  set (st2 := if decide (sr_Status r = "trialing") then "active" else sr_Status r).
  unfold mbind at 1, M_bind at 1, time_now at 1. set (n1 := env_clock _ _). set (w2 := with_env _ w1).
  set (sub := Billing.set_plan newPlan st2 n1 (BillingPostgres.scanSubscription r)).
  destruct (tx_call PgConnection (on_db (BillingQueries.UpdateSubscription sub)) w2 tt
     (mkStore (set_subscriptions (<[k := BillingQueries.updated_subscription sub (suspended_subscription t r)]>
        (subscriptions d1)) d1) (store_events (w_st w)))) as (w3 & H3 & Hw3 & _).
  { unfold w2. simpl. by rewrite Hf1. }
  { unfold w2. simpl. rewrite How1, Hp1, Hw1, Ho1. unfold on_db. simpl.
    rewrite (update_one sub d1 k (suspended_subscription t r)); [done|apply (inv_subs _ I1)|apply lookup_insert_eq|done|].
    destruct (proj1 (inv_subs _ I) _ _ Hk) as [_ Hc]. apply (check_status _ (sr_Status r)).
    - by eapply check_plan.
    - unfold BillingQueries.subscriptions_check in Hc. apply andb_true_iff in Hc as [Hc _].
      apply andb_true_iff in Hc as [_ Hc]. change (su_Status sub) with st2. unfold st2.
      by destruct (decide (sr_Status r = "trialing")). }
  exists sub, w3. do 3 eexists. split_and!.
  - erewrite bind_wrap_Ok; [reflexivity|]. unfold BillingPostgres.UpdateSubscription, map_err, q_exec. by rewrite H3.
  - rewrite Hw3. apply lookup_insert_eq.
  - done.
  - done.
  - done.
  - rewrite Hw3. apply lookup_insert_eq.
  - done.
  - done.
  - done.
Qed.

End suspend.
(** ** Plan limits *)

(** How many of a resource a plan includes; [None] is unlimited. *)
Definition plan_max (plan resource : string) : option Z :=
  if decide (plan = "enterprise") then None
  else if decide (resource = "production") then Some (if decide (plan = "starter") then 2 else 10)
  else Some (if decide (plan = "starter") then 10 else 50).
(** One more fits. *)
Definition one_more (max : option Z) (current : Z) : Prop :=
  match max with Some m => current < m | None => True end.

Lemma at_limit_spec current max :
  Billing.at_limit current max = false <-> one_more (if decide (max = -1) then None else Some max) current.
Proof.
  unfold Billing.at_limit. case_decide; simpl; [by rewrite bool_decide_eq_true_2|].
  rewrite bool_decide_eq_false_2 by done. simpl. rewrite bool_decide_eq_false. lia.
Qed.

Lemma plan_limits plan status cycle :
  BillingQueries.subscriptions_check plan status cycle = true ->
  exists l, PlanLimitsByName plan = Some l
    /\ (if decide (MaxActiveProductions l = -1) then None else Some (MaxActiveProductions l))
       = plan_max plan "production"
    /\ (if decide (MaxUsers l = -1) then None else Some (MaxUsers l)) = plan_max plan "user".
Proof.
  unfold BillingQueries.subscriptions_check. intros [[H _]%andb_true_iff _]%andb_true_iff.
  apply bool_decide_eq_true in H. rewrite !elem_of_cons in H. destruct H as [->|[->|[->|H]]];
    [by eexists..|by apply elem_of_nil in H].
Qed.

Lemma limit_reached_reason what current max plan : lr_Reason (Billing.limit_reached what current max plan) <> "".
Proof. unfold Billing.limit_reached. destruct what; discriminate. Qed.

(** The answer for a resource with that limit. *)
Definition limit_answer (what : string) (current max : Z) (plan : string) : LimitResult :=
  if Billing.at_limit current max then Billing.limit_reached what current max plan else mkLimitResult true "".
Lemma limit_answer_spec what current max plan :
  (lr_Allowed (limit_answer what current max plan) = true
   <-> one_more (if decide (max = -1) then None else Some max) current)
  /\ (lr_Reason (limit_answer what current max plan) = "" <-> lr_Allowed (limit_answer what current max plan) = true).
Proof.
  rewrite <-at_limit_spec. unfold limit_answer. destruct (Billing.at_limit current max) eqn:Ha; simpl; [|done].
  split; [done|]. pose proof (limit_reached_reason what current max plan) as Hn. simpl in Hn. by split.
Qed.

(** CheckPlanLimit is exactly the plan table.  Undisturbed, for a tenant with a
    subscription it answers whether one more production or user fits: never while
    suspended, always on the enterprise plan, else while the current number is below
    2 productions or 10 users on starter, 10 or 50 on professional; a refusal says
    why, and nothing is changed.  A resource of another name is an error. *)
Theorem check_plan_limit_spec (req : CheckLimitRequest) (k : uuid) (r : SubscriptionRow) (w : World St) :
  quiet w -> Inv (w_st w) -> subscriptions (store_db (w_st w)) !! k = Some r ->
  sr_TenantID r = cl_TenantID req ->
  let current := if decide (cl_Resource req = "production") then cl_CurrentProductions req
                 else cl_CurrentUsers req in
  if decide (sr_Status r = "suspended" \/ cl_Resource req = "production" \/ cl_Resource req = "user")
  then exists res, evals (Billing.CheckPlanLimit req) w (Ok res) (w_st w)
    /\ (lr_Allowed res = true <->
         sr_Status r <> "suspended" /\ one_more (plan_max (sr_Plan r) (cl_Resource req)) current)
    /\ (lr_Reason res = "" <-> lr_Allowed res = true)
  else exists text, evals (Billing.CheckPlanLimit req) w (Err (EText text)) (w_st w).
Proof.
  intros Hw I Hk Ht current. destruct (get_subscription_run _ w k r Hw I Hk Ht) as (w1 & H1 & Hs1 & Hq1).
  destruct (proj1 (inv_subs _ I) _ _ Hk) as [_ Hc].
  destruct (plan_limits _ _ _ Hc) as (l & Hl & Hp & Hu).
  unfold Billing.CheckPlanLimit, evals. rewrite (bind_run _ _ _ _ _ H1). simpl.
  destruct (decide (sr_Status r = "suspended")) as [Hsus|Hsus].
  { rewrite decide_True by auto. eexists. split; [exists w1; by split|]. simpl. split; [split; [done|by intros [? _]]|done]. }
  rewrite Hl. destruct (decide (cl_Resource req = "production")) as [Hr|Hr];
    [|destruct (decide (cl_Resource req = "user")) as [Hr'|Hr']].
  - rewrite decide_True by auto. exists (limit_answer "production" current (MaxActiveProductions l) (sr_Plan r)).
    destruct (limit_answer_spec "production" current (MaxActiveProductions l) (sr_Plan r)) as [Ha Hre].
    rewrite Hp in Ha. rewrite Hr. split; [|tauto]. exists w1. split; [|done]. unfold limit_answer, current.
    by destruct (Billing.at_limit _ _).
  - rewrite decide_True by auto. exists (limit_answer "user" current (MaxUsers l) (sr_Plan r)).
    destruct (limit_answer_spec "user" current (MaxUsers l) (sr_Plan r)) as [Ha Hre].
    rewrite Hu in Ha. rewrite Hr'. split; [|tauto]. exists w1. split; [|done]. unfold limit_answer, current.
    by destruct (Billing.at_limit _ _).
  - rewrite decide_False by tauto. eexists. exists w1. by split.
Qed.

(** ** A document that is never there *)

(** No stored invoice names its PDF, so DownloadInvoice never succeeds, whatever the
    caller, the request, the state and the document service. *)
Lemma download_never_succeeds h ctx tenant invoice w :
  is_ok (BillingHandler.DownloadInvoice h ctx tenant invoice w).1 = false.
Proof.
  unfold BillingHandler.DownloadInvoice, mbind, M_bind.
  destruct (BillingHandler.invoice_of h ctx tenant invoice w) as [[[t inv]|e] w1] eqn:Hi; [|done].
  apply bind_Ok in Hi as (t' & w2 & _ & Hi). apply bind_Ok in Hi as (id & w3 & _ & Hi).
  apply bind_Ok in Hi as (inv' & w4 & Hg & [[= <- <-] <-]%ret_Ok).
  apply map_err_Ok, bind_Ok in Hg as (row & w5 & _ & [-> ->]%ret_Ok). done.
Qed.

End subscriptions.

(** Billing and the tenant lifecycle together: a suspended subscription reaches the
    IAM service through the outbox, the relay and the stream, and takes the tenant's
    access away. *)

Local Open Scope Z_scope.

Section chain.
Context {X : External}.
Variable gen_random_uuid : uuid -> gset uuid -> uuid.
Variable returning : list OutboxEvent -> list OutboxEvent.
Hypothesis gen_fresh : forall draw ids, gen_random_uuid draw ids ∉ ids.
Hypothesis returning_perm : forall l, returning l ≡ₚ l.

(** The stores of the IAM service. *)
Abbreviation Iam := (Store TenancyModel.DB TenancyModel.Event) (only parsing).

Lemma Handle_active (s : Tenancy.Service) ctx env tr (w : World Iam) :
  quiet w -> env_Type env = SubjectBillingSubscriptionSuspended ->
  TenancyModel.tenants (store_db (w_st w)) !! env_TenantID env = Some tr -> tn_Status tr = "active" ->
  exists w' tr', Tenancy.Handle s ctx env w = (Ok tt, w')
    /\ TenancyModel.tenants (store_db (w_st w')) !! env_TenantID env = Some tr'
    /\ tn_Status tr' = "suspended"
    /\ forall g, TenancyQueries.session_live g (env_TenantID env) (store_db (w_st w)) = true ->
                 TenancyQueries.session_live g (env_TenantID env) (store_db (w_st w')) = false.
Proof.
  intros Hw Ht Hr Hs. unfold Tenancy.Handle. rewrite Ht, bool_decide_eq_true_2 by done. simpl.
  destruct (TenancyProps.GetTenant_evals (env_TenantID env) tr w Hw Hr) as (w1 & H1 & Hs1 & Hq1).
  unfold Tenancy.GetTenant. rewrite (bind_wrap_Ok _ _ _ _ _ _ H1). simpl. rewrite Hs. simpl.
  rewrite <-Hs1 in Hr |- *.
  destruct (TenancyCalls.Suspend_run s ctx (env_TenantID env) None None tr w1 Hq1 Hr)
    as (tr' & w2 & H2 & _ & (at_ & -> & _) & Hdb & _ & Hlive).
  exists w2. eexists. rewrite (bind_run _ _ _ _ _ H2). split; [reflexivity|].
  split; [rewrite Hdb; apply lookup_insert_eq|]. by split.
Qed.

(** C20: A suspended subscription takes the tenant's access away.  Undisturbed, with
    the broker up: SuspendSubscription on a tenant's subscription succeeds, and
    after enough ticks of the relay for the events waiting by then, the stream holds
    an envelope that names the tenant; whenever the consumer of the IAM service
    handles that envelope while the tenant is active, and nothing disturbs it, it
    acknowledges, the tenant is suspended, and no refresh token of the tenant that
    was live still is. *)
Theorem suspension_reaches_tenant (tenant k : uuid) (r : SubscriptionRow) (n : nat) (w : World St) :
  quiet w -> Inv (w_st w) -> subscriptions (store_db (w_st w)) !! k = Some r -> sr_TenantID r = tenant ->
  Z.of_nat (length (waiting (w_st w))) + 1 <= Z.of_nat n * BillingRelay.relayBatchSize ->
  exists s w1 relay w2 env,
    Billing.SuspendSubscription gen_random_uuid tenant w = (Ok s, w1)
    /\ BillingRelay.Run (fun _ _ => false) returning n w1 = (Ok relay, w2)
    /\ env ∈ store_events (w_st w2) /\ env_TenantID env = tenant
    /\ forall (iam : Tenancy.Service) (ctx : Ctx) (tr : TenantRow) (wi : World Iam),
         quiet wi -> TenancyModel.tenants (store_db (w_st wi)) !! tenant = Some tr -> tn_Status tr = "active" ->
         exists wi' tr', Tenancy.Handle iam ctx env wi = (Ok tt, wi')
           /\ TenancyModel.tenants (store_db (w_st wi')) !! tenant = Some tr' /\ tn_Status tr' = "suspended"
           /\ forall g, TenancyQueries.session_live g tenant (store_db (w_st wi)) = true ->
                        TenancyQueries.session_live g tenant (store_db (w_st wi')) = false.
Proof.
  intros Hw I Hk Ht Hn.
  destruct (Suspend_evals gen_random_uuid gen_fresh tenant k r w Hw I Hk Ht)
    as (s & st1 & (w1 & H1 & Hs1 & Hq1) & Hsus & I1).
  destruct Hsus as (k1 & r1 & t & now & id & Hk1 & Ht1 & Hid & Hst1).
  assert (Hnone : event_outbox (store_db (w_st w)) !! id = None).
  { destruct (event_outbox _ !! id) as [e|] eqn:He; [|done]. destruct (inv_rows _ I _ _ He) as (_ & ? & _). congruence. }
  assert (Hwait : waiting (w_st w1) ≡ₚ suspension_event id k1 tenant t now :: waiting (w_st w)).
  { rewrite Hs1, Hst1. unfold waiting. simpl. by rewrite select_insert. }
  destruct (run_ticks_evals returning returning_perm n BillingRelay.NewRelay 0 w1 Hq1)
    as (relay & tbl & envs & (w2 & H2 & Hs2 & _) & Hc & _).
  { rewrite Hs1. intros k' r' Hr'. by apply (inv_rows _ I1 _ _ Hr'). }
  { rewrite Hwait. simpl. lia. }
  assert (Hin : row_content (suspension_event id k1 tenant t now) ∈ env_content <$> envs).
  { rewrite Hc, Hwait. apply list_elem_of_here. }
  apply list_elem_of_fmap in Hin as (env & Henv & Hin).
  pose proof (f_equal (fun c : Content => c.1.1) Henv) as He1.
  pose proof (f_equal (fun c : Content => c.1.2) Henv) as He2. simpl in He1, He2.
  exists s, w1, relay, w2, env. split; [done|]. split; [exact H2|]. split.
  { rewrite Hs2. simpl. apply elem_of_app. by right. }
  split; [done|]. intros iam ctx tr wi Hwi Htr Hact. subst tenant. rewrite He2 in *.
  destruct (Handle_active iam ctx env tr wi Hwi) as (wi' & tr' & Hh); [done..|]. by exists wi', tr'.
Qed.

End chain.

(** Billing: a concrete service, the witnesses of the theorems on it, and concrete
    runs: an event published twice, a subscription reported as created that is not
    stored. *)

Local Open Scope Z_scope.

(** Tenant 7 has an active starter subscription, tenant 8 has none.  Two events wait:
    90, tried four times, and 91.  UUIDs count up from 100; the clock advances by a
    microsecond a reading. *)
Module BillDemo.

#[local] Existing Instance ref_external.

(** Amounts in thousandths. *)
#[local] Instance ref_invoice_math : Billing.InvoiceMath := {|
  Billing.dec_mul := (fun a b => a * b / 1000) : Z -> Z -> Z;
  Billing.dec_round := (fun _ a => ref_round a) : Z -> Z -> Z;
  Billing.dec_018 := 180 : Z;
|}.

(** A generator that draws again when the draw was given out before. *)
Definition gen (draw : uuid) (ids : gset uuid) : uuid :=
  if decide (draw ∈ ids) then fresh ids else draw.
Definition unlocked (_ : DB) (_ : uuid) : bool := false.
Definition in_order (l : list OutboxEvent) : list OutboxEvent := l.

Definition start_time : Time := 1700000000 * ns_per_sec.
Definition month : Z := 30 * ns_per_day.

Definition sub70 : SubscriptionRow :=
  mkSubscriptionRow 70 7 "starter" "active" "monthly" start_time (start_time + month) None None None
    None None start_time start_time.
Definition old_event (id attempts : Z) : OutboxEvent :=
  mkOutbox (Z.to_N id) SubjectBillingSubscriptionSuspended 9 (JObject []) (start_time - id * 1000) None
    attempts None.
Definition event90 : OutboxEvent := old_event 90 4.
Definition event91 : OutboxEvent := old_event 91 0.

Definition db0 : DB :=
  mkDB {[7%N; 8%N; 9%N]} {[70%N := sub70]} ∅ ∅ ∅ ∅ ∅ (<[90%N := event90]> {[91%N := event91]}) ∅
    (<[90%N := row_content event90]> {[91%N := row_content event91]}) ∅.
Definition st0 : St := mkStore db0 [].

Definition env_with (fault : nat -> bool) : Env :=
  mkEnv (fun n => 100 + N.of_nat n)%N 0 (fun n => start_time + Z.of_nat n * 1000) 0 fault 0 0.
Definition env : Env := env_with (fun _ => false).
Definition world (st : St) : World St := mkWorld st env (fun _ st => st) [].
(** The [n]-th call fails. *)
Definition failing (n : nat) (st : St) : World St :=
  mkWorld st (env_with (Nat.eqb n)) (fun _ st => st) [].

Definition job (j : BillingJob) (st : St) : St :=
  w_st (run_billing (gen:=gen) unlocked in_order j (world st)).2.

(** Tenant 7 suspended, and what the relay made of it. *)
Definition suspended : St := job (SuspendCall 7) st0.
Definition relayed : St := job (RelayRun 1) suspended.
Definition new_event : OutboxEvent :=
  suspension_event 100 70 7 start_time (start_time + 1000).

End BillDemo.

Section witnesses.
#[local] Existing Instance ref_external.
#[local] Existing Instance BillDemo.ref_invoice_math.
Import BillDemo.

Lemma gen_is_fresh draw ids : gen draw ids ∉ ids.
Proof. unfold gen. case_decide; [apply is_fresh|done]. Qed.
Lemma in_order_perm l : in_order l ≡ₚ l.
Proof. done. Qed.

Lemma st0_inv : Inv st0.
Proof.
  split; [| |split].
  - apply map_Forall_insert_2; [|apply map_Forall_singleton]; by split_and!.
  - apply map_Forall_empty.
  - by apply map_Forall_singleton.
  - assert (Hone : forall k r, ({[70%N := sub70]} : gmap uuid SubscriptionRow) !! k = Some r -> k = 70%N)
      by (intros k r [<- _]%lookup_singleton_Some; done).
    intros k r k' r' Hk Hk' _. by rewrite (Hone _ _ Hk), (Hone _ _ Hk').
Qed.

Lemma world_rely st : rely ostep (world st).
Proof. intros n s. reflexivity. Qed.
Lemma world_quiet st : quiet (world st).
Proof. by split. Qed.

Lemma outbox_never_loses_witness :
  event_outbox (store_db suspended) !! 100%N = Some new_event
  /\ ((exists r', event_outbox (store_db relayed) !! 100%N = Some r' /\ ob_SentAt r' = None
               /\ row_content r' = row_content new_event)
      \/ (exists r', event_outbox_dead (store_db relayed) !! 100%N = Some r'
                     /\ dead_content r' = row_content new_event)
      \/ published (row_content new_event) relayed
      \/ 100%N ∈ replayed (store_db relayed)).
Proof.
  assert (He : event_outbox (store_db suspended) !! 100%N = Some new_event) by vm_refl.
  split; [exact He|].
  refine (proj1 (outbox_never_loses gen unlocked in_order gen_is_fresh in_order_perm st0 suspended relayed
            100%N new_event st0_inv _ _ He)).
  - exact (billing_job gen unlocked in_order st0 (SuspendCall 7) (world st0)
             (billing_here gen unlocked in_order st0) (world_rely st0)).
  - exact (billing_job gen unlocked in_order suspended (RelayRun 1) (world suspended)
             (billing_here gen unlocked in_order suspended) (world_rely suspended)).
Defined.

(** Two relays hold event 90, which the stream refuses to both, and both give it up,
    as both have published within the last five minutes.  Between the two statements
    of the second relay's transaction, which found it dead already, an operator
    replays it. *)
Definition refusing (other : nat -> St -> St) (st : St) : World St :=
  mkWorld st (env_with (fun n => Nat.eqb n 1)) other [].
Definition giving_up : BillingJob := RelayBatch (BillingRelay.mkRelay start_time) 100.
Definition first_relay (st : St) : St :=
  w_st (run_billing (gen:=gen) unlocked in_order giving_up (refusing (fun _ s => s) st)).2.
Definition meantime (n : nat) (st : St) : St :=
  if decide (n = 2%nat) then first_relay st
  else if decide (n = 3%nat) then job (AdminReplay 90) st
  else st.
(** Only event 90 waits, and the next attempt is its fifth. *)
Definition one_waiting : St := mkStore (set_outboxes {[90%N := event90]} ∅ (issued db0) db0) [].

Lemma one_waiting_inv : Inv one_waiting.
Proof.
  destruct st0_inv as [_ _ Hs]. split; [|apply map_Forall_empty|exact Hs].
  apply map_Forall_singleton. by split_and!.
Qed.
Lemma job_ostep j w : rely ostep w -> ostep (w_st w) (w_st (run_billing (gen:=gen) unlocked in_order j w).2).
Proof.
  intros HR I. exact (proj1 (run_billing_steps gen_is_fresh unlocked in_order in_order_perm j w I HR) I).
Qed.

(** An event an operator has replayed can be lost: it is in neither table and was
    never published. *)
Lemma replayed_event_lost :
  exists w w', Inv (w_st w) /\ rely ostep w
    /\ event_outbox (store_db (w_st w)) !! 90%N = Some event90 /\ ob_SentAt event90 = None
    /\ w' = (run_billing (gen:=gen) unlocked in_order giving_up w).2
    /\ event_outbox (store_db (w_st w')) !! 90%N = None
    /\ event_outbox_dead (store_db (w_st w')) !! 90%N = None
    /\ store_events (w_st w') = [] /\ 90%N ∈ replayed (store_db (w_st w')).
Proof.
  exists (refusing meantime one_waiting). eexists. split; [exact one_waiting_inv|]. split.
  { intros n s. cbn [w_other refusing]. unfold meantime. repeat case_decide; [..|done].
    - apply (job_ostep giving_up (refusing (fun _ s => s) s)). by intros ??.
    - apply (job_ostep (AdminReplay 90) (world s)), world_rely. }
  split; [reflexivity|]. split; [reflexivity|]. split; [reflexivity|].
  split; [vm_refl|]. split; [vm_refl|]. split; [vm_refl|].
  apply (bool_decide_eq_true_1 _). vm_refl.
Qed.

Lemma suspend_with_event_witness :
  let w' := (Billing.SuspendSubscription gen 7%N (failing 2 st0)).2 in
  w_st w' = st0 \/ suspension 7%N st0 (w_st w').
Proof.
  destruct (suspend_with_event gen gen_is_fresh (env_uuid env) 7%N st0 st0_inv (failing 2 st0)
              (conj (fun n st => eq_refl) eq_refl) eq_refl) as [_ [[H _]|[H _]]].
  - left. exact H.
  - right. exact H.
Defined.

(** The stream refuses the first event of the batch and accepts the second. *)
Definition half_down : result (error BErr) (Z * BillingRelay.Relay) * World St :=
  BillingRelay.processBatch unlocked in_order BillingRelay.NewRelay 100 (failing 1 st0).
(** The statement that parks event 90. *)
Definition parking : St * St := default (st0, st0) (w_log half_down.2 !! 1%nat).

Lemma logged {A} (l : list (A * A)) n d p :
  default d (l !! n) = p -> (n <? length l)%nat = true -> (p.1, p.2) ∈ l.
Proof.
  intros <- Hn%Nat.ltb_lt. apply lookup_lt_is_Some in Hn as [x Hx]. rewrite Hx. destruct x.
  by eapply list_elem_of_lookup_2.
Qed.

Lemma half_down_run :
  BillingRelay.processBatch unlocked in_order BillingRelay.NewRelay 100 (failing 1 st0)
  = (half_down.1, half_down.2).
Proof. unfold half_down. destruct (BillingRelay.processBatch _ _ _ _ _). reflexivity. Qed.

Lemma outage_parks_nothing_witness :
  parks 90%N parking.1 parking.2
  /\ ((exists n r', half_down.1 = Ok (n, r') /\ 0 < n)
      \/ exists i, time_Sub (env_clock env i) zero_time < BillingRelay.brokerHealthyWindow).
Proof.
  assert (Hp : parks 90%N parking.1 parking.2).
  { split; [vm_refl|]. apply (bool_decide_eq_true_1 _). vm_refl. }
  split; [exact Hp|].
  refine (proj2 (outage_parks_nothing unlocked in_order in_order_perm 100 BillingRelay.NewRelay
            (failing 1 st0) half_down.2 half_down.1 eq_refl half_down_run parking.1 parking.2 90%N _ Hp)).
  refine (logged (w_log half_down.2) 1 (st0, st0) parking eq_refl _). vm_refl.
Defined.

Lemma outbox_drains_witness :
  exists r t envs,
    evals (BillingRelay.Run unlocked in_order 1) (world st0) (Ok r)
      (mkStore (set_outbox t db0) envs)
    /\ (env_content <$> envs) ≡ₚ [row_content event91; row_content event90].
Proof.
  destruct (outbox_drains in_order in_order_perm 1 (world st0) (world_quiet st0) st0_inv
              ltac:(vm_compute; discriminate)) as (r & t & envs & He & Hc & _).
  exists r, t, envs. exact (conj He Hc).
Defined.

Lemma dead_replay_roundtrip_witness :
  exists w1 w2, BillingPostgres.MoveOutboxToDead 90%N "nats: timeout" (world st0) = (Ok tt, w1)
    /\ BillingPostgres.ReplayDeadOutbox 90%N w1 = (Ok tt, w2)
    /\ event_outbox (store_db (w_st w2)) !! 90%N = Some (old_event 90 0).
Proof.
  destruct (dead_replay_roundtrip 90%N "nats: timeout" event90 (world st0) (world_quiet st0) st0_inv
              ltac:(vm_refl)) as (t & w1 & w2 & H1 & _ & _ & H2 & Hs & _).
  exists w1, w2. split; [exact H1|]. split; [exact H2|]. rewrite Hs. apply lookup_insert_eq.
Defined.

(** Between the read and the write of the upgrade, tenant 7 is suspended. *)
Definition interrupted : World St :=
  mkWorld st0 env (fun n st => if Nat.eqb n 1 then w_st (Billing.SuspendSubscription gen 7%N (world st)).2 else st) [].

Lemma upgrade_undoes_suspension_witness :
  exists s w' r' id e, Billing.UpgradeSubscription 7%N "professional" interrupted = (Ok s, w')
    /\ subscriptions (store_db (w_st w')) !! 70%N = Some r' /\ sr_Status r' = "active"
    /\ sr_SuspendedAt r' = None
    /\ event_outbox (store_db (w_st w')) !! id = Some e /\ ob_TenantID e = 7%N /\ ob_SentAt e = None.
Proof.
  destruct (upgrade_undoes_suspension gen gen_is_fresh 7%N 70%N "professional" (mkLimits 10 50 50) sub70
              interrupted (world st0) st0_inv eq_refl eq_refl eq_refl
              ltac:(discriminate) ltac:(discriminate) (fun n => eq_refl) eq_refl (world_quiet st0)
              eq_refl eq_refl) as [_ (s & w' & r' & id & e & H1 & H2 & _ & H3 & H4 & H5 & _ & H6 & H7)].
  exists s, w', r', id, e. exact (conj H1 (conj H2 (conj H3 (conj H4 (conj H5 (conj H6 H7)))))).
Defined.

Lemma check_plan_limit_spec_witness :
  exists res, evals (Billing.CheckPlanLimit (mkCheckLimit 7 "production" 2 0)) (world st0) (Ok res) st0
    /\ (lr_Allowed res = true <-> "active" <> "suspended" /\ 2 < 2).
Proof.
  destruct (check_plan_limit_spec (mkCheckLimit 7 "production" 2 0) 70%N sub70 (world st0)
              (world_quiet st0) st0_inv eq_refl eq_refl) as (res & He & Ha & _).
  exists res. exact (conj He Ha).
Defined.

Lemma suspension_reaches_tenant_witness :
  exists s w1 relay w2 e,
    Billing.SuspendSubscription gen 7%N (world st0) = (Ok s, w1)
    /\ BillingRelay.Run unlocked in_order 1 w1 = (Ok relay, w2)
    /\ e ∈ store_events (w_st w2) /\ env_TenantID e = 7%N.
Proof.
  destruct (BillingSubs.suspension_reaches_tenant gen in_order gen_is_fresh in_order_perm 7%N 70%N sub70 1
              (world st0) (world_quiet st0) st0_inv eq_refl eq_refl ltac:(vm_compute; discriminate))
    as (s & w1 & relay & w2 & e & H1 & H2 & H3 & H4 & _).
  exists s, w1, relay, w2, e. exact (conj H1 (conj H2 (conj H3 H4))).
Defined.

(** ** Concrete runs *)

(** The stream stores an envelope but its answer is lost, so the next batch publishes
    the event again: the consumers see two envelopes with the same content and
    different EventIDs, and cannot tell that they are one event. *)
Example published_twice :
  let st := mkStore (set_outbox {[91%N := event91]} db0) [] in
  let once := BillingRelay.processBatch unlocked in_order BillingRelay.NewRelay 100 (failing 2 st) in
  let again := BillingRelay.processBatch unlocked in_order BillingRelay.NewRelay 100
                 (mkWorld (w_st once.2) (mkEnv (env_uuid env) 50 (env_clock env) 50 (env_fault env) 0 0)
                    (fun _ st => st) []) in
  env_content <$> store_events (w_st again.2) = [row_content event91; row_content event91]
  /\ env_EventID <$> store_events (w_st again.2) = [100%N; 150%N].
Proof. cbv zeta. split; vm_refl. Qed.

(** Two requests create a subscription for tenant 8 at the same time.  Each finds
    none; the second insert does nothing (ON CONFLICT DO NOTHING), and its caller is
    told of a subscription, with its plan and identifier, that is not stored. *)
Definition meanwhile (st : St) : St := w_st (Billing.CreateSubscription 8%N "starter" "" (world st)).2.
Definition second_create : result (error BErr) Subscription * World St :=
  Billing.CreateSubscription 8%N "enterprise" ""
    (mkWorld st0 (mkEnv (env_uuid env) 50 (env_clock env) 50 (env_fault env) 0 0)
       (fun n st => if Nat.eqb n 1 then meanwhile st else st) []).

Example created_but_not_stored :
  match second_create.1 with
  | Ok s => su_Plan s = "enterprise"
            /\ subscriptions (store_db (w_st second_create.2)) !! su_ID s = None
            /\ (sr_Plan <$> subscriptions (store_db (w_st second_create.2)) !! 100%N) = Some "starter"
  | Err _ => False
  end.
Proof. vm_compute. done. Qed.

(** A failed read is taken for a missing subscription: the request goes on. *)
Example read_failure_ignored :
  is_ok (Billing.CreateSubscription 7%N "enterprise" "" (failing 0 st0)).1 = true.
Proof. vm_refl. Qed.

End witnesses.
